(* ===== verification/_CoqProject ===== *)
-Q . S2P
Prelude.v
Pmm.v
CString.v
Vec.v
Dll.v
Liballoc.v
LiballocInv.v
LiballocProof.v
LiballocFree.v
Heap.v
LibcHeap.v
Kheap.v
PageTable.v
Vmm.v
FbDev.v
Spaces.v
Fork.v
Destroy.v
KernelSpace.v
Lock.v
Rtc.v
Device.v
Pipe.v
FatTypes.v
Fs.v
FatDisk.v
FatChain.v
FatDir.v
Tmpfs.v
Vfs.v
Fat32.v
Event.v
Kernel.v
Sched.v
Elf.v
Loader.v
Proc.v
Start.v
ForkProc.v
Exec.v
Syscall.v
Printf.v
LibcStd.v
LibcSys.v
Ahci.v
Console.v
Acpi.v
Interrupts.v
Smp.v
Ports.v
Pci.v
Boot.v
BootFiles.v
Main.v
Shell.v
Programs.v
Floats.v
Math.v
Graphics.v
Fractal.v
Tga.v
