(* ===== verification/Prelude.v ===== *)
(** * MandelbrotOS: a shallow embedding and its correctness

    MandelbrotOS (src/src) is a hobby operating system for x86-64: a kernel in C (src/src/kernel), a
    C library for its programs (src/src/libc) and a few demonstration programs (src/src/prog).  This
    library translates the functions of all three into Rocq definitions and proves what they do.
    Theorems hold of the code as it is: where a function does not do what it is meant to, the theorem says what it does instead, or under which condition it works.

    ** How C is modelled

    - Integers are [Z]; [u8] .. [u64] and [s8] .. [s64] are the conversions to the C types, written
      where the code converts or may wrap around.
    - Code that changes state is a function in the monad [M S A = S -> outcome (A * S)].  [Done] is a
      return; [Halt] is [while (1);] or a wait that nothing in the model can end; [Fault] is an
      access outside the objects (undefined behaviour in C, often a page fault); [Fuel] is a loop
      cut off by the bound its model carries: a theorem about such a loop shows either that the bound is
      enough, or that the loop goes on for as long as what it waits for does not come.
    - Memory is [Z -> Z], byte by byte ([ld], [st], [memcpy], [memset]).  Physical memory is reached
      through [dmap], the direct map and the identity map; the kernel maps its first 4 GiB both ways
      (KernelSpace.v), so the statements are about machines with no more memory than that.  Objects that the code
      only reaches through pointers (files, threads, file systems) are finite maps from addresses to
      records, with fresh addresses for new objects.
    - Function pointers (drivers, file operations) are records or classes of operations; what one
      part promises to another is a class with its laws ([Realloc] for vectors, [BlockDriver] and
      [BlockDriverUpTo] for devices, the hooks of liballoc for its two heaps).
    - What is outside the code is an argument: contents of fresh heap blocks ([junk ...]), hardware
      registers and their answers ([Env], [Ports], [ConfigBus], the AHCI controller), the steps other
      CPUs take while a loop polls, the assembly stubs.

    ** Files

    Memory:
    - Pmm.v: mm/pmm.c, the bitmap allocator of physical pages, and two CPUs inside [pmalloc];
    - Liballoc.v (definitions), Dll.v, LiballocInv.v, LiballocProof.v, LiballocFree.v (invariant and
      lemmas), Heap.v (theorems): mm/liballoc.c over any page allocator; Kheap.v instantiates it for
      the kernel (mm/kheap.c), LibcHeap.v for programs (libc stdlib.c, sys/liballoc.c, sys/mman.c);
    - PageTable.v, Vmm.v: mm/vmm.c, the page tables in physical memory, mappings, copies, fork; FbDev.v:
      [fb_mmap] of dev/fbdev.c, over page tables and recorded ranges;
    - Spaces.v: all address spaces together, with the kernel half they share ([spaces_ok], [view] and
      [vbyte], the translations and bytes a program sees); Fork.v: [vmm_fork_pagemap] over them;
      Destroy.v: [vmm_destroy_pagemap]; KernelSpace.v: [init_vmm] after [init_pmm], the first space;
    - Vec.v: include/vec.h; Lock.v: include/lock.h as a step relation over any number of CPUs.

    Files:
    - CString.v: string.c of the kernel ([Kernel]) and of the C library ([Libc]), ctype.c;
    - Rtc.v: drivers/rtc.c; Device.v: dev/device.c over any driver; Pipe.v: pipe/pipe.c;
    - Fs.v: the objects of include/fs/vfs.h; Tmpfs.v: fs/tmpfs.c, devfs.c; Vfs.v: fs/vfs.c;
    - FatTypes.v, FatDisk.v, FatChain.v, FatDir.v, Fat32.v: fs/fat32.c, from sectors and the allocation
      table over chains and directory entries to the operations behind the VFS;
    - Ahci.v: drivers/ahci.c and mbr.c.

    Programs:
    - Kernel.v: the state of processes, threads and CPUs (tasking/scheduler.h, cpu_locals.h); Event.v:
      event.c; Sched.v: the run queues and [schedule]; Proc.v: creating, forking, replacing, awaiting
      and ending processes; Elf.v: elf.c; Syscall.v: every handler of sys/syscall.c;
    - Loader.v: what elf.c does to the space of a new program; Start.v: [sched_run_program] as a whole,
      from the file to the run queue; Exec.v: the same when it replaces a program; ForkProc.v: [sched_fork];
    - Printf.v: fb/printf.c, also the engine of the C library's; LibcStd.v: stdio.c, stdlib.c, crt1.c;
      LibcSys.v: the system call wrappers, composed with the kernel of Syscall.v;
    - Shell.v: prog/shell, over the C library's string functions and recorded system calls;
    - Floats.v: the three floating types of C over the Standard Library's [SpecFloat]; Math.v: math.c
      and math.h of the C library;
    - Graphics.v: prog/sin, trig, rainbow, lsd and math_test (pixels, lines, colours, graphs); Fractal.v:
      prog/mandelbrot and prog/julia; Tga.v: the picture decoder of prog/img;
    - Programs.v: the start of every program (opening and mapping the framebuffer), prog/fork_test and
      prog/execve_test, as calls through LibcSys.v.

    Machine:
    - Console.v: fb/fb.c, klog.c, dev/tty.c, the handlers of drivers/ps2.c, dev/mousedev.c, fbdev.c;
    - Acpi.v: acpi/acpi.c; Interrupts.v: sys/gdt.c, idt.c, isr.c, irq.c, drivers/apic.c; Ports.v:
      drivers/serial.c, pit.c, pcspkr.c, the controller part of ps2.c; Pci.v: pci/;
    - Boot.v: the boot loader tags, mounts and device nodes of main.c, dev/tty.c, fbdev.c, mousedev.c;
      BootFiles.v: the same steps over the file systems of Vfs.v, Tmpfs.v and Fat32.v; Main.v:
      [k_thread] from the file systems to the first program;
    - Smp.v: tasking/smp.c, the start of the other processors.

    ** What the theorems show

    - Allocation: exactly when [pmalloc] returns, halts or leaves its bitmap, and what it marks;
      [malloc], [free], [calloc] and [realloc] keep their invariants, return blocks that are apart from
      all live ones, and undo each other; [init_pmm] sets the bitmap up.
    - Mappings: [vmm_map_page] changes the translation of exactly one page; mapping, translating
      and unmapping are inverse to each other.  Address spaces are isolated: a mapping in one changes no
      translation of another and no data.  A fork gives the child the bytes of every private range, in
      frames of its own.  After the start of the kernel the first space maps exactly the memory below
      4 GiB and the kernel image, and the invariant that isolation rests on holds.
    - Concurrency: spin locks exclude each other, and in every fair run a lock that is waited for is
      taken again; no thread is on two CPUs after
      [schedule] in the states it is called in; the search for a thread is round robin and its
      priority loop ends; [event_await] returns the first pending event at once or, polling, after the
      first round of triggers that makes one pending, and what it does to the locks.
    - Storage: a device over a block driver that is correct for requests of up to a number of blocks reads
      and writes exactly the bytes asked for, within that number;
      FAT chains read back what was written, one directory entry is replaced and no other, directory
      lookup finds the first entry with the 8.3 form of the name; tmpfs, pipes (against a queue, and what a read past its end gives) and the VFS (longest mount, create and
      open, device nodes from the path to the opened device) behave as specified; the AHCI driver
      moves exactly the sectors its command says - which beyond 16 is not what was asked for - or, when
      it fails, a part of them, and waits as long as the controller does not answer.
    - Programs: [sched_run_program] turns a file with an executable image into a process with a space,
      open files, a thread and arguments of its own, and [sched_fork] turns a process into two with the
      same memory and files, exec puts a new program in the place of the old one, whose frames are free
      pages again; all three leave all other spaces as they were;
      arguments are laid out for a new program as its entry code expects; a process is
      reaped once; the lowest free descriptor is used; permissions are checked on open; an empty
      descriptor reaches [errno], and one outside the table leaves the table; the ELF loader accepts only what it should; the shell runs a
      simple command from the prompt to [execve] with exactly the calls it should make; a program
      gets the screen's geometry and its mapping through every layer from the library's [open],
      [ioctl] and [mmap] down to the framebuffer driver.
    - Output: [printf] prints what a reference rendering of the format says; what it prints for a
      number that is not negative [atol] reads back; the console, its scrolling included, stays inside
      the framebuffer and draws the glyph.
    - Computation: which integer [trunc], [floor] and [ceil] return, for either sign; integer powers
      and factorials are exact while they fit; lines are drawn pixel by pixel as a reference says; the
      iterations of the fractals end where the orbit first leaves the threshold, or at their bound;
      what a run-length encoder writes the picture decoder reads back.
    - Start: the mounts and device nodes of the started system open through the VFS, if the block of the
      root directory of the DEVFS happens to be zeroed, and not if its first word is not zero; every
      further processor comes up once, with a task segment, stack page and local state of its own.
    - Machine: ACPI tables and MADT records are found and sorted; the interrupt table after boot has
      exactly the intended gates; PCI enumeration finds exactly the functions that are present.
    - Flaws: for each file the theorems on what goes wrong (a search that overlaps used pages, a race
      after an early unlock, terminators lost, entries of 28 bits written as one byte, ...) give the
      input that shows it; they hold of the definitions that the other theorems are about.

    ** Bounds and fuel

    Loops over a counter recurse on it; loops that follow data are given fuel, and the theorems
    say how much is enough: the number of blocks and chunks for liballoc ([enough]), the length of
    the chain for FAT, the number of pairs (priority, peg) for the scheduler, the number of records
    for the MADT, one round per tag for the boot loader's list, one packet per pixel for a picture, one round
    more than there are bytes for a pipe.  The fractals' loops carry the bounds of the code itself
    (1000 and 90 iterations).  Theorems on operations that allocate say how many free pages are enough
    ([room] in Spaces.v, [start_cost] in Start.v, [fork_cost] in Fork.v, [boot_cost] in KernelSpace.v: a
    page table is charged to every page or region that may need it).  For several spaces at once the
    memory is one that has only been handed out so far ([untouched]), so that the blocks [pmalloc] returns
    are free ones; Pmm.v shows that on fragmented memory they need not be.  Loops that wait for a device ([Ports])
    or for another CPU take the answers as an argument, and the unbounded wait of the AHCI driver the
    number of rounds to follow ([waits]); a loop shown to run forever
    ([madt_zero_length], [tag_cycle], [relock_never_returns]) does so for every fuel.

    Hypotheses about things outside the code: a block driver transfers whole blocks ([BlockDriverUpTo],
    what the AHCI driver does in requests of up to 16 blocks that succeed: [sata_ops_small] in Ahci.v),
    the AHCI controller executes the command in memory as the specification says, possibly stopping
    half-way with an error ([HbaSpec] in Ahci.v), two readings of the interval timer differ (Smp.v), the clock chip gives a valid date; each theorem with such a hypothesis has a witness with a
    concrete instance.

    ** Not modelled

    Assembly (entry stubs, the stack switch, [memcpy] and [memset], for which Prelude.v has the C
    contract); caches and the weak ordering of memory; the boot loader's header structures and the
    font's bitmap, which are data; x87 instructions, whose results are arguments of Math.v (the C
    around them is modelled); debug output of liballoc.  Bytes next to a heap block are not part of its object: that tmpfs copies a
    name and its terminator into a block one byte too short, and that [vec_remove] moves words behind the
    array of ranges or children (Vec.v has it for the vector itself), is not followed into other
    objects.  The wait for the local timer in apic.c is one step.  The theorems on [fb_mmap] are about an address
    space with page tables of its own: the kernel half that all spaces share is not part of them.
    Not composed: the shell with the system call wrappers of LibcSys.v, FAT32 with the AHCI driver through
    Device.v, and the calls of [kernel_main] and [k_thread] that set up the hardware with each other;
    each part is modelled in its file.  What the loader does with more than one loadable segment is
    shown on an example only, since it maps all of them at the address of the first. *)
From Stdlib Require Export ZArith Lia.
From stdpp Require Export base numbers gmap list.

Open Scope Z_scope.

(** ** Machine integers

    A C integer of width [n] is a [Z]; [u8] .. [u64] are the conversions to the
    unsigned types, [s8] .. [s64] those to the signed ones (two's complement). *)

Definition u8 (x : Z) : Z := x mod 2 ^ 8.
Definition u16 (x : Z) : Z := x mod 2 ^ 16.
Definition u32 (x : Z) : Z := x mod 2 ^ 32.
Definition u64 (x : Z) : Z := x mod 2 ^ 64.
Definition s8 (x : Z) : Z := (x + 2 ^ 7) mod 2 ^ 8 - 2 ^ 7.
Definition s32 (x : Z) : Z := (x + 2 ^ 31) mod 2 ^ 32 - 2 ^ 31.
Definition s64 (x : Z) : Z := (x + 2 ^ 63) mod 2 ^ 64 - 2 ^ 63.

(** A value used as a C condition. *)
Definition truthy (x : Z) : bool := negb (x =? 0).

Create HintDb word.

Lemma u8_small x : 0 <= x < 2 ^ 8 -> u8 x = x.
Proof. apply Z.mod_small. Qed.
Lemma u16_small x : 0 <= x < 2 ^ 16 -> u16 x = x.
Proof. apply Z.mod_small. Qed.
Lemma u32_small x : 0 <= x < 2 ^ 32 -> u32 x = x.
Proof. apply Z.mod_small. Qed.
Lemma u64_small x : 0 <= x < 2 ^ 64 -> u64 x = x.
Proof. apply Z.mod_small. Qed.
Lemma u64_add_l x y : u64 (u64 x + y) = u64 (x + y).
Proof. unfold u64. apply Zplus_mod_idemp_l. Qed.

Lemma u8_range x : 0 <= u8 x < 2 ^ 8.
Proof. apply Z.mod_pos_bound; lia. Qed.
Lemma u32_range x : 0 <= u32 x < 2 ^ 32.
Proof. apply Z.mod_pos_bound; lia. Qed.
Lemma u64_range x : 0 <= u64 x < 2 ^ 64.
Proof. apply Z.mod_pos_bound; lia. Qed.

Lemma s32_small x : - 2 ^ 31 <= x < 2 ^ 31 -> s32 x = x.
Proof. intros. unfold s32. rewrite Z.mod_small; lia. Qed.
Lemma s64_small x : - 2 ^ 63 <= x < 2 ^ 63 -> s64 x = x.
Proof. intros. unfold s64. rewrite Z.mod_small; lia. Qed.

#[export] Hint Resolve u8_range u32_range u64_range : word.

(** ** Outcomes

    [Done] is a normal return; [Halt] is the code entering [while (1);] (or
    spinning forever on a lock it already holds); [Fault] is an access outside
    the objects the model knows (undefined behaviour in C); [Fuel] is a loop cut
    off by the fuel of its model, never a behaviour of the code. *)

Inductive outcome (A : Type) : Type :=
| Done (a : A)
| Halt
| Fault
| Fuel.
Arguments Done {A} a.
Arguments Halt {A}.
Arguments Fault {A}.
Arguments Fuel {A}.

(** Whether a run returned. *)
Definition is_done {A} (o : outcome A) : bool := match o with Done _ => true | _ => false end.

Definition M (S A : Type) : Type := S -> outcome (A * S).

#[export] Instance M_ret (S : Type) : MRet (M S) := fun A a s => Done (a, s).
#[export] Instance M_bind (S : Type) : MBind (M S) := fun A B f m s =>
  match m s with
  | Done (a, s') => f a s'
  | Halt => Halt
  | Fault => Fault
  | Fuel => Fuel
  end.

Section Monad.
Context {S : Type}.

Definition get : M S S := fun s => Done (s, s).
Definition put (s' : S) : M S unit := fun _ => Done (tt, s').
Definition modify (f : S -> S) : M S unit := fun s => Done (tt, f s).
Definition gets {A} (f : S -> A) : M S A := fun s => Done (f s, s).
Definition halt {A} : M S A := fun _ => Halt.
Definition fault {A} : M S A := fun _ => Fault.
Definition out_of_fuel {A} : M S A := fun _ => Fuel.
Definition of_option {A} (o : option A) : M S A :=
  match o with Some a => fun s => Done (a, s) | None => fault end.
Definition when (b : bool) (m : M S unit) : M S unit :=
  if b then m else mret tt.

(** [for (i = lo; n iterations; i++) body i] *)
Fixpoint for_n (n : nat) (i : Z) (body : Z -> M S unit) : M S unit :=
  match n with
  | O => mret tt
  | Datatypes.S n' => _ ← body i; for_n n' (i + 1) body
  end.

Lemma bind_Done {A B} (m : M S A) (f : A -> M S B) s r :
  (m ≫= f) s = Done r <-> exists a s', m s = Done (a, s') /\ f a s' = Done r.
Proof.
  unfold mbind, M_bind. destruct (m s) as [[a s']| | |]; split; intros H;
    try discriminate; [eauto| | | |]; destruct H as (? & ? & ? & ?); congruence.
Qed.

Lemma bind_run {A B} (m : M S A) (f : A -> M S B) s a s' :
  m s = Done (a, s') -> (m ≫= f) s = f a s'.
Proof. intros H. unfold mbind, M_bind. by rewrite H. Qed.

(** The loop rule: an invariant indexed by the loop counter. *)
Lemma for_n_inv (P : Z -> S -> Prop) (body : Z -> M S unit) n i s :
  P i s ->
  (forall j t, i <= j < i + Z.of_nat n -> P j t ->
     exists t', body j t = Done (tt, t') /\ P (j + 1) t') ->
  exists s', for_n n i body s = Done (tt, s') /\ P (i + Z.of_nat n) s'.
Proof.
  revert i s. induction n as [|n IH]; intros i s HP Hb.
  - exists s. replace (i + Z.of_nat 0) with i by lia. done.
  - destruct (Hb i s) as (t & Ht & HPt); [lia|done|].
    destruct (IH (i + 1) t HPt) as (s' & Hs' & HP').
    { intros j u Hj. apply Hb. lia. }
    exists s'. simpl. rewrite (bind_run _ _ _ _ _ Ht). split; [done|].
    by replace (i + Z.of_nat (Datatypes.S n)) with (i + 1 + Z.of_nat n) by lia.
Qed.

(** A loop that goes well up to round [k], where its body faults. *)
Lemma for_n_fault (P : Z -> S -> Prop) (body : Z -> M S unit) n i k s :
  P i s -> i <= k < i + Z.of_nat n ->
  (forall j t, i <= j < k -> P j t -> exists t', body j t = Done (tt, t') /\ P (j + 1) t') ->
  (forall t, P k t -> body k t = Fault) ->
  for_n n i body s = Fault.
Proof.
  revert i s. induction n as [|n IH]; intros i s HP Hk Hb Hf; [lia|]. simpl.
  destruct (Z.eq_dec i k) as [->|Hne].
  - unfold mbind, M_bind. by rewrite Hf.
  - destruct (Hb i s) as (t & Ht & HPt); [lia|done|]. rewrite (bind_run _ _ _ _ _ Ht).
    apply (IH (i + 1) t HPt); [lia| |done]. intros j u Hj. apply Hb. lia.
Qed.

(** A run that returns with [Q], or stops because the code halts the machine. *)
Definition halts_or {A} (r : outcome (A * S)) (Q : A -> S -> Prop) : Prop :=
  match r with Done (a, s) => Q a s | Halt => True | Fault | Fuel => False end.

Lemma halts_or_bind {A B} (m : M S A) (f : A -> M S B) s Q R :
  halts_or (m s) Q -> (forall a t, Q a t -> halts_or (f a t) R) -> halts_or ((m ≫= f) s) R.
Proof. unfold mbind, M_bind. destruct (m s) as [[a t]| | |]; simpl; auto. Qed.

Lemma halts_or_mono {A} (r : outcome (A * S)) (Q R : A -> S -> Prop) :
  halts_or r Q -> (forall a t, Q a t -> R a t) -> halts_or r R.
Proof. destruct r as [[a t]| | |]; simpl; auto. Qed.

Lemma for_n_halts (P : Z -> S -> Prop) (body : Z -> M S unit) n i s :
  P i s ->
  (forall j t, i <= j < i + Z.of_nat n -> P j t -> halts_or (body j t) (fun _ t' => P (j + 1) t')) ->
  halts_or (for_n n i body s) (fun _ s' => P (i + Z.of_nat n) s').
Proof.
  revert i s. induction n as [|n IH]; intros i s HP Hb.
  - replace (i + Z.of_nat 0) with i by lia. exact HP.
  - simpl for_n. eapply halts_or_bind; [apply Hb; [lia|done]|]. intros [] t Ht.
    replace (i + Z.of_nat (Datatypes.S n)) with (i + 1 + Z.of_nat n) by lia.
    apply IH; [done|]. intros j u Hj. apply Hb. lia.
Qed.

(** Total correctness: a run that returns, with [Q]. *)
Definition returns {A} (r : outcome (A * S)) (Q : A -> S -> Prop) : Prop := exists a s, r = Done (a, s) /\ Q a s.

Lemma returns_ret {A} (a : A) s (Q : A -> S -> Prop) : Q a s -> returns ((mret a : M S A) s) Q.
Proof. intros H. by exists a, s. Qed.

Lemma returns_bind {A B} (m : M S A) (f : A -> M S B) s Q R :
  returns (m s) Q -> (forall a t, Q a t -> returns (f a t) R) -> returns ((m ≫= f) s) R.
Proof. intros (a & t & E & H) Hf. rewrite (bind_run _ _ _ _ _ E). by apply Hf. Qed.

Lemma returns_mono {A} (r : outcome (A * S)) (Q R : A -> S -> Prop) :
  returns r Q -> (forall a t, Q a t -> R a t) -> returns r R.
Proof. intros (a & t & E & H) Hw. exists a, t. split; [done|by apply Hw]. Qed.

Lemma for_n_returns (P : Z -> S -> Prop) (body : Z -> M S unit) n i s :
  P i s ->
  (forall j t, i <= j < i + Z.of_nat n -> P j t -> returns (body j t) (fun _ t' => P (j + 1) t')) ->
  returns (for_n n i body s) (fun _ s' => P (i + Z.of_nat n) s').
Proof.
  revert i s. induction n as [|n IH]; intros i s HP Hb.
  - replace (i + Z.of_nat 0) with i by lia. by apply returns_ret.
  - simpl for_n. eapply returns_bind; [apply Hb; [lia|done]|]. intros [] t Ht.
    replace (i + Z.of_nat (Datatypes.S n)) with (i + 1 + Z.of_nat n) by lia.
    apply IH; [done|]. intros j u Hj. apply Hb. lia.
Qed.
End Monad.

(** Splits a hypothesis [(x ← m; k) s = Done r] into its two runs. *)
Ltac inv_bind H :=
  let a := fresh "a" in let s := fresh "s" in
  let H1 := fresh "Hm" in let H2 := fresh "Hk" in
  apply bind_Done in H as (a & s & H1 & H2).

(** Case analysis on Boolean comparisons of [Z]. *)
Ltac zbool :=
  repeat match goal with
  | H : (_ && _)%bool = true |- _ => apply andb_true_iff in H as [? ?]
  | H : (_ || _)%bool = false |- _ => apply orb_false_iff in H as [? ?]
  | H : negb _ = true |- _ => apply negb_true_iff in H
  | H : negb _ = false |- _ => apply negb_false_iff in H
  | H : (_ =? _) = true |- _ => apply Z.eqb_eq in H
  | H : (_ =? _) = false |- _ => apply Z.eqb_neq in H
  | H : (_ <? _) = true |- _ => apply Z.ltb_lt in H
  | H : (_ <? _) = false |- _ => apply Z.ltb_ge in H
  | H : (_ <=? _) = true |- _ => apply Z.leb_le in H
  | H : (_ <=? _) = false |- _ => apply Z.leb_gt in H
  end.
Ltac zcase :=
  match goal with
  | |- context [if ?b then _ else _] => destruct b eqn:?
  end; zbool.

(** ** Lists and bits *)

Lemma lookup_Z_Some {A} (l : list A) (i : Z) :
  0 <= i < Z.of_nat (length l) -> is_Some (l !! Z.to_nat i).
Proof. intros. apply lookup_lt_is_Some_2. lia. Qed.

Lemma testbit_small x n k : 0 <= x < 2 ^ n -> 0 <= n <= k -> Z.testbit x k = false.
Proof.
  intros Hx Hk. destruct (Z.eq_dec x 0) as [->|]; [apply Z.bits_0|].
  apply Z.bits_above_log2; [lia|].
  apply Z.log2_lt_pow2; [lia|]. apply Z.lt_le_trans with (2 ^ n); [lia|].
  apply Z.pow_le_mono_r; lia.
Qed.

Lemma land_1_testbit x k : 0 <= k -> Z.land (Z.shiftr x k) 1 = Z.b2z (Z.testbit x k).
Proof.
  intros. change 1 with (Z.ones 1). rewrite Z.land_ones by lia.
  rewrite <- Z.bit0_mod, Z.shiftr_spec by lia. done.
Qed.

Lemma pow2_ones_land x n : 0 <= n -> Z.land x (Z.lnot (2 ^ n - 1)) = x - x mod 2 ^ n.
Proof.
  intros Hn. replace (2 ^ n - 1) with (Z.ones n) by (rewrite Z.ones_equiv; lia).
  rewrite <- Z.land_ones by lia. rewrite <- Z.ldiff_land.
  pose proof (Z.lor_ldiff_and x (Z.ones n)) as E.
  pose proof (Z.add_lor_land (Z.ldiff x (Z.ones n)) (Z.land x (Z.ones n))) as E2.
  rewrite E in E2. enough (Z.land (Z.ldiff x (Z.ones n)) (Z.land x (Z.ones n)) = 0) by lia.
  apply Z.bits_inj'. intros k Hk.
  rewrite !Z.land_spec, Z.ldiff_spec, Z.bits_0.
  by destruct (Z.testbit x k), (Z.testbit (Z.ones n) k).
Qed.

(** Two's-complement facts used by the alignment macros. *)
Lemma testbit_pow2_eqb n k : 0 <= n -> Z.testbit (2 ^ n) k = (k =? n).
Proof.
  intros. destruct (Z.eqb_spec k n) as [->|].
  - by apply Z.pow2_bits_true.
  - apply Z.pow2_bits_false. lia.
Qed.

(** ** Byte-addressed memory

    Kernel code reaches physical memory through the bootloader's identity map
    and through the direct map at [PHYS_MEM_OFFSET]; [dmap] names the physical
    cell behind a kernel pointer. *)

Definition PAGE_SIZE : Z := 4096.
Definition PHYS_MEM_OFFSET : Z := 0xffff800000000000.

Definition mem : Type := Z -> Z.

Definition dmap (v : Z) : Z := if PHYS_MEM_OFFSET <=? v then v - PHYS_MEM_OFFSET else v.

Definition memset (a c n : Z) (m : mem) : mem := fun x =>
  if (a <=? x) && (x <? a + n) then u8 c else m x.

Definition memcpy (dst src n : Z) (m : mem) : mem := fun x =>
  if (dst <=? x) && (x <? dst + n) then m (src + (x - dst)) else m x.

Fixpoint ld (n : nat) (m : mem) (a : Z) : Z :=
  match n with
  | O => 0
  | S n' => u8 (m a) + 2 ^ 8 * ld n' m (a + 1)
  end.

Fixpoint st (n : nat) (a v : Z) (m : mem) : mem :=
  match n with
  | O => m
  | S n' => fun x => if x =? a then u8 v else st n' (a + 1) (v / 2 ^ 8) m x
  end.

Lemma st_other n a v m x : x < a \/ a + Z.of_nat n <= x -> st n a v m x = m x.
Proof.
  revert a v. induction n as [|n IH]; intros a v Hx; simpl; [done|].
  rewrite (proj2 (Z.eqb_neq x a)) by lia. apply IH. lia.
Qed.

(** Reading the same bytes at two places. *)
Lemma ld_shift n m m' a b :
  (forall x, 0 <= x < Z.of_nat n -> m (a + x) = m' (b + x)) -> ld n m a = ld n m' b.
Proof.
  revert a b. induction n as [|n IH]; intros a b E; [done|]. simpl.
  rewrite (IH (a + 1) (b + 1)); [|intros x Hx; rewrite <- !Z.add_assoc; apply E; lia].
  by rewrite <- (Z.add_0_r a), <- (Z.add_0_r b), (E 0) by lia.
Qed.

Lemma ld_ext n m m' a :
  (forall x, a <= x < a + Z.of_nat n -> m x = m' x) -> ld n m a = ld n m' a.
Proof.
  revert a. induction n as [|n IH]; intros a H; simpl; [done|].
  rewrite (H a) by lia. rewrite (IH (a + 1)); [done|]. intros; apply H; lia.
Qed.

Lemma ld_range n m a : 0 <= ld n m a < 2 ^ (8 * Z.of_nat n).
Proof.
  revert a. induction n as [|n IH]; intros a; [simpl; lia|].
  pose proof (u8_range (m a)). specialize (IH (a + 1)).
  replace (8 * Z.of_nat (S n)) with (8 + 8 * Z.of_nat n) by lia.
  rewrite Z.pow_add_r by lia. simpl ld.
  set (X := 2 ^ (8 * Z.of_nat n)) in *. lia.
Qed.

Lemma ld_st_same n m a v : ld n (st n a v m) a = v mod 2 ^ (8 * Z.of_nat n).
Proof.
  revert a v m. induction n as [|n IH]; intros a v m.
  { simpl. by rewrite Z.mod_1_r. }
  replace (8 * Z.of_nat (S n)) with (8 + 8 * Z.of_nat n) by lia.
  rewrite Z.pow_add_r, Z.rem_mul_r by lia. simpl ld. f_equal.
  { rewrite Z.eqb_refl. unfold u8. by rewrite Zmod_mod. }
  rewrite <- (IH (a + 1) (v / 2 ^ 8) m). f_equal. apply ld_ext. intros x Hx.
  simpl. by rewrite (proj2 (Z.eqb_neq x a)) by lia.
Qed.

Lemma ld_st_other k n m a v b :
  b + Z.of_nat k <= a \/ a + Z.of_nat n <= b -> ld k (st n a v m) b = ld k m b.
Proof. intros H. apply ld_ext. intros x Hx. apply st_other. lia. Qed.

Lemma ld_memset_in k m a n b :
  a <= b -> b + Z.of_nat k <= a + n -> ld k (memset a 0 n m) b = 0.
Proof.
  revert b. induction k as [|k IH]; intros b H1 H2; simpl; [done|].
  unfold memset at 1. rewrite (proj2 (Z.leb_le a b)), (proj2 (Z.ltb_lt b (a + n))) by lia.
  simpl. rewrite IH by lia. done.
Qed.

Lemma ld_memset_out k m a c n b :
  b + Z.of_nat k <= a \/ a + n <= b -> ld k (memset a c n m) b = ld k m b.
Proof.
  intros H. apply ld_ext. intros x Hx. unfold memset.
  destruct (Z.leb_spec a x), (Z.ltb_spec x (a + n)); simpl; try done. lia.
Qed.

(** Closed arithmetic facts, by evaluation. *)
Ltac closed_Z :=
  repeat split; vm_compute; first [reflexivity | discriminate | intros; discriminate].
