(* ===== verification/Pmm.v ===== *)
(** * Physical memory manager (src/src/kernel/mm/pmm.c)

    The bitmap allocator: one bit per 4 KiB page, set when the page is in use.
    [pmm_state] holds the file's static variables together with the physical
    memory that [pcalloc] clears.  [pmm_lock] is the spin lock as one CPU sees it:
    taking it while it is held never returns. *)
From S2P Require Import Prelude.

Record pmm_state := mk_pmm {
  pmm_lock : bool;
  pmm_bitmap : Z;       (* the pointer, 0 until init_pmm *)
  bitmap : list Z;      (* the bytes behind it *)
  highest_page : Z;
  phys : mem
}.

Definition with_lock (b : bool) (s : pmm_state) : pmm_state :=
  mk_pmm b (pmm_bitmap s) (bitmap s) (highest_page s) (phys s).
Definition with_bitmap (bm : list Z) (s : pmm_state) : pmm_state :=
  mk_pmm (pmm_lock s) (pmm_bitmap s) bm (highest_page s) (phys s).
Definition with_phys (m : mem) (s : pmm_state) : pmm_state :=
  mk_pmm (pmm_lock s) (pmm_bitmap s) (bitmap s) (highest_page s) m.

(** ** The macros *)

Definition ALIGN_DOWN (x : Z) : Z := Z.land x (Z.lnot (PAGE_SIZE - 1)).
Definition ALIGN_UP (x : Z) : Z := Z.land (u64 (x + PAGE_SIZE - 1)) (Z.lnot (PAGE_SIZE - 1)).

Definition bm_set (bm : list Z) (b : Z) : option (list Z) :=
  y ← bm !! Z.to_nat (b / 8);
  Some (<[Z.to_nat (b / 8) := u8 (Z.lor y (Z.shiftl 1 (b mod 8)))]> bm).
Definition bm_clear (bm : list Z) (b : Z) : option (list Z) :=
  y ← bm !! Z.to_nat (b / 8);
  Some (<[Z.to_nat (b / 8) := u8 (Z.land y (Z.lnot (Z.shiftl 1 (b mod 8))))]> bm).
Definition bm_test (bm : list Z) (b : Z) : option Z :=
  y ← bm !! Z.to_nat (b / 8); Some (Z.land (Z.shiftr y (b mod 8)) 1).

Definition BIT_SET (b : Z) : M pmm_state unit := fun s =>
  match bm_set (bitmap s) b with Some bm => Done (tt, with_bitmap bm s) | None => Fault end.
Definition BIT_CLEAR (b : Z) : M pmm_state unit := fun s =>
  match bm_clear (bitmap s) b with Some bm => Done (tt, with_bitmap bm s) | None => Fault end.
Definition BIT_TEST (b : Z) : M pmm_state Z := fun s =>
  match bm_test (bitmap s) b with Some t => Done (t, s) | None => Fault end.

Definition LOCK : M pmm_state unit := fun s =>
  if pmm_lock s then Halt else Done (tt, with_lock true s).
Definition UNLOCK : M pmm_state unit := modify (with_lock false).

(** ** The operations *)

Definition pmm_free_page (adr : Z) : M pmm_state unit :=
  LOCK;; BIT_CLEAR (adr / PAGE_SIZE);; UNLOCK.

Definition pmm_alloc_page (adr : Z) : M pmm_state unit :=
  LOCK;; BIT_SET (adr / PAGE_SIZE);; UNLOCK.

Definition pmm_free_pages (adr page_count : Z) : M pmm_state unit :=
  for_n (Z.to_nat page_count) 0 (fun i => pmm_free_page (u64 (adr + i * PAGE_SIZE))).

Definition pmm_alloc_pages (adr page_count : Z) : M pmm_state unit :=
  for_n (Z.to_nat page_count) 0 (fun i => pmm_alloc_page (u64 (adr + i * PAGE_SIZE))).

(** The inner loop of [pmalloc]: [rem] is [pages - j]. *)
Fixpoint pmalloc_inner (rem : nat) (pages i j : Z) : M pmm_state bool :=
  match rem with
  | O => mret false
  | S rem' =>
      t ← BIT_TEST i;
      if truthy t then mret false
      else if j =? u64 (pages - 1) then mret true
      else pmalloc_inner rem' pages i (j + 1)
  end.

(** The outer loop: [rem] is [highest_page / PAGE_SIZE - i]. *)
Fixpoint pmalloc_outer (rem : nat) (pages i : Z) : M pmm_state (option Z) :=
  match rem with
  | O => mret None
  | S rem' =>
      ok ← pmalloc_inner (Z.to_nat pages) pages i 0;
      if (ok : bool) then mret (Some i) else pmalloc_outer rem' pages (i + 1)
  end.

(** The part of [pmalloc] under the first lock: LOCK, the two loops, UNLOCK. *)
Definition pmalloc_scan (pages : Z) : M pmm_state (option Z) :=
  LOCK;;
  top ← gets highest_page;
  r ← pmalloc_outer (Z.to_nat (top / PAGE_SIZE)) pages 0;
  UNLOCK;;
  mret r.

Definition pmalloc (pages : Z) : M pmm_state Z :=
  r ← pmalloc_scan pages;
  match r with
  | Some i =>
      pmm_alloc_pages (u64 (i * PAGE_SIZE)) pages;;
      mret (u64 (i * PAGE_SIZE))
  | None => halt
  end.

Definition pcalloc (pages : Z) : M pmm_state Z :=
  ret ← pmalloc pages;
  if ret =? 0 then mret 0
  else
    modify (fun s =>
      with_phys (memset (dmap (u64 (ret + PHYS_MEM_OFFSET))) 0 (u64 (pages * PAGE_SIZE)) (phys s)) s);;
    mret ret.

(** ** Boot-time initialisation *)

Definition STIVALE2_MMAP_USABLE : Z := 1.
Definition STIVALE2_MMAP_BOOTLOADER_RECLAIMABLE : Z := 0x1000.
Definition STIVALE2_MMAP_KERNEL_AND_MODULES : Z := 0x1001.

Record mmap_entry := mk_entry { entry_base : Z; entry_length : Z; entry_type : Z }.

Definition usable (e : mmap_entry) : bool := entry_type e =? STIVALE2_MMAP_USABLE.

Definition counted (e : mmap_entry) : bool :=
  negb (negb (entry_type e =? STIVALE2_MMAP_USABLE)
        && negb (entry_type e =? STIVALE2_MMAP_BOOTLOADER_RECLAIMABLE)
        && negb (entry_type e =? STIVALE2_MMAP_KERNEL_AND_MODULES)).

(** The first loop of [init_pmm]. *)
Fixpoint scan_top (es : list mmap_entry) (highest : Z) : Z :=
  match es with
  | [] => highest
  | e :: es' =>
      if counted e then
        let top := u64 (entry_base e + entry_length e) in
        scan_top es' (if highest <? top then top else highest)
      else scan_top es' highest
  end.

Definition bitmap_size_of (highest : Z) : Z :=
  ALIGN_UP (ALIGN_DOWN highest / PAGE_SIZE / 8).

(** The second loop: the bitmap goes to the start of the first usable entry that
    can hold it, which shrinks.  The result is the pointer and the new map. *)
Fixpoint place_bitmap (es : list mmap_entry) (sz : Z) : Z * list mmap_entry :=
  match es with
  | [] => (0, [])
  | e :: es' =>
      if usable e && (sz <=? entry_length e) then
        (u64 (entry_base e + PHYS_MEM_OFFSET),
         mk_entry (u64 (entry_base e + sz)) (u64 (entry_length e - sz)) (entry_type e) :: es')
      else let '(p, es'') := place_bitmap es' sz in (p, e :: es'')
  end.

(** The third loop. *)
Fixpoint free_usable (es : list mmap_entry) : M pmm_state unit :=
  match es with
  | [] => mret tt
  | e :: es' =>
      when (usable e) (pmm_free_pages (entry_base e) (entry_length e / PAGE_SIZE));;
      free_usable es'
  end.

Definition init_pmm (es : list mmap_entry) : M pmm_state (list mmap_entry) :=
  s ← get;
  let highest := scan_top es (highest_page s) in
  let sz := bitmap_size_of highest in
  let '(p, es') := place_bitmap es sz in
  if (p =? 0) && negb (sz =? 0) then fault (* memset through a NULL bitmap *)
  else
    put (mk_pmm (pmm_lock s) p (replicate (Z.to_nat sz) 0xff) highest (phys s));;
    free_usable es';;
    mret es'.

(** ** The bitmap as a set of used pages *)

Definition used (bm : list Z) (b : Z) : bool :=
  match bm !! Z.to_nat (b / 8) with
  | Some y => Z.testbit y (b mod 8)
  | None => false
  end.

(** [covers bm n]: pages [0 .. n-1] have a bit. *)
Definition covers (bm : list Z) (n : Z) : Prop := n <= 8 * Z.of_nat (length bm).

(** [frame s t]: [t] differs from [s] at most in the bits of the bitmap. *)
Record frame (s t : pmm_state) : Prop := mk_frame {
  frame_lock : pmm_lock t = pmm_lock s;
  frame_ptr : pmm_bitmap t = pmm_bitmap s;
  frame_len : length (bitmap t) = length (bitmap s);
  frame_top : highest_page t = highest_page s;
  frame_phys : phys t = phys s
}.

Create HintDb pmm.

Lemma frame_refl s : frame s s.
Proof. by constructor. Qed.
Lemma frame_trans s t u : frame s t -> frame t u -> frame s u.
Proof. intros [] []. constructor; congruence. Qed.
#[export] Hint Resolve frame_refl : pmm.
#[export] Hint Resolve frame_trans : pmm.

Lemma bit_index_inj b c : 0 <= b -> 0 <= c ->
  Z.to_nat (b / 8) = Z.to_nat (c / 8) -> b mod 8 = c mod 8 -> b = c.
Proof.
  intros Hb Hc H1 H2. pose proof (Z.div_pos b 8). pose proof (Z.div_pos c 8).
  rewrite (Z.div_mod b 8), (Z.div_mod c 8) by lia. lia.
Qed.

(** Writing bit [b] through a byte function that only changes bit [b mod 8]. *)
Lemma used_update bm b c (f : Z -> Z) v y :
  0 <= b -> 0 <= c -> bm !! Z.to_nat (b / 8) = Some y ->
  (forall k, 0 <= k < 8 -> Z.testbit (f y) k = if k =? b mod 8 then v else Z.testbit y k) ->
  used (<[Z.to_nat (b / 8) := f y]> bm) c = if c =? b then v else used bm c.
Proof.
  intros Hb Hc Hy Hf. unfold used.
  pose proof (Z.mod_pos_bound c 8 ltac:(lia)).
  destruct (decide (Z.to_nat (b / 8) = Z.to_nat (c / 8))) as [E|E].
  - rewrite <- E, list_lookup_insert_eq by (by eapply lookup_lt_Some).
    rewrite Hf, Hy by lia. destruct (Z.eqb_spec c b) as [->|N].
    + by rewrite Z.eqb_refl.
    + rewrite (proj2 (Z.eqb_neq _ _)); [done|]. intros E2. apply N.
      by apply bit_index_inj.
  - rewrite list_lookup_insert_ne by done.
    destruct (Z.eqb_spec c b) as [->|N]; [congruence|done].
Qed.

Lemma testbit_u8 x k : 0 <= k < 8 -> Z.testbit (u8 x) k = Z.testbit x k.
Proof. intros. unfold u8. apply Z.mod_pow2_bits_low. lia. Qed.

Lemma testbit_shiftl_1 n k : 0 <= n -> 0 <= k -> Z.testbit (Z.shiftl 1 n) k = (k =? n).
Proof. intros. rewrite Z.shiftl_1_l. by apply testbit_pow2_eqb. Qed.

Lemma bm_set_used bm b bm' :
  0 <= b -> bm_set bm b = Some bm' ->
  length bm' = length bm /\
  forall c, 0 <= c -> used bm' c = if c =? b then true else used bm c.
Proof.
  unfold bm_set. intros Hb H. destruct (bm !! _) as [y|] eqn:Hy; [|done].
  simpl in H. injection H as <-. split; [by rewrite length_insert|].
  intros c Hc. apply (used_update bm b c (fun y => u8 (Z.lor y (Z.shiftl 1 (b mod 8)))) true y); try done.
  intros k Hk. pose proof (Z.mod_pos_bound b 8).
  rewrite testbit_u8, Z.lor_spec, testbit_shiftl_1 by lia.
  by destruct (k =? b mod 8), (Z.testbit y k).
Qed.

Lemma bm_clear_used bm b bm' :
  0 <= b -> bm_clear bm b = Some bm' ->
  length bm' = length bm /\
  forall c, 0 <= c -> used bm' c = if c =? b then false else used bm c.
Proof.
  unfold bm_clear. intros Hb H. destruct (bm !! _) as [y|] eqn:Hy; [|done].
  simpl in H. injection H as <-. split; [by rewrite length_insert|].
  intros c Hc. apply (used_update bm b c (fun y => u8 (Z.land y (Z.lnot (Z.shiftl 1 (b mod 8))))) false y); try done.
  intros k Hk. pose proof (Z.mod_pos_bound b 8).
  rewrite testbit_u8, Z.land_spec, Z.lnot_spec, testbit_shiftl_1 by lia.
  by destruct (k =? b mod 8), (Z.testbit y k).
Qed.

Lemma covers_lookup bm n b : covers bm n -> 0 <= b < n -> is_Some (bm !! Z.to_nat (b / 8)).
Proof.
  unfold covers. intros Hc Hb. apply lookup_Z_Some.
  pose proof (Z.div_pos b 8). pose proof (Z.div_lt_upper_bound b 8 (Z.of_nat (length bm))). lia.
Qed.

Lemma bm_test_used bm n b :
  covers bm n -> 0 <= b < n -> bm_test bm b = Some (Z.b2z (used bm b)).
Proof.
  intros Hc Hb. destruct (covers_lookup _ _ _ Hc Hb) as [y Hy].
  unfold bm_test, used. rewrite Hy. simpl. f_equal.
  apply land_1_testbit. apply Z.mod_pos_bound. lia.
Qed.

(** One locked bit write, common to [pmm_alloc_page] and [pmm_free_page]. *)
Lemma pmm_page_op (op : Z -> M pmm_state unit) v s n adr :
  (op = pmm_alloc_page /\ v = true \/ op = pmm_free_page /\ v = false) ->
  pmm_lock s = false -> covers (bitmap s) n -> 0 <= adr / PAGE_SIZE < n ->
  exists t, op adr s = Done (tt, t) /\ frame s t /\
    forall c, 0 <= c -> used (bitmap t) c = if c =? adr / PAGE_SIZE then v else used (bitmap s) c.
Proof.
  intros Hop Hl Hc Ha. destruct (covers_lookup _ _ _ Hc Ha) as [y Hy].
  destruct Hop as [[-> ->]|[-> ->]];
    unfold pmm_alloc_page, pmm_free_page, LOCK, UNLOCK, BIT_SET, BIT_CLEAR, mbind, M_bind; rewrite Hl; simpl.
  - destruct (bm_set (bitmap s) (adr / PAGE_SIZE)) as [bm|] eqn:E.
    + destruct (bm_set_used _ _ _ (proj1 Ha) E) as [HL HU]. eexists. split; [done|].
      split; [by constructor|done].
    + unfold bm_set in E. by rewrite Hy in E.
  - destruct (bm_clear (bitmap s) (adr / PAGE_SIZE)) as [bm|] eqn:E.
    + destruct (bm_clear_used _ _ _ (proj1 Ha) E) as [HL HU]. eexists. split; [done|].
      split; [by constructor|done].
    + unfold bm_clear in E. by rewrite Hy in E.
Qed.

(** A run of page operations starting at page [q]. *)
Lemma pmm_pages_op (op : Z -> M pmm_state unit) v s n q k :
  (op = pmm_alloc_page /\ v = true \/ op = pmm_free_page /\ v = false) ->
  pmm_lock s = false -> covers (bitmap s) n -> 0 <= q -> 0 <= k -> q + k <= n ->
  n * PAGE_SIZE <= 2 ^ 64 ->
  exists t, for_n (Z.to_nat k) 0 (fun i => op (u64 (q * PAGE_SIZE + i * PAGE_SIZE))) s = Done (tt, t) /\
    frame s t /\
    forall c, 0 <= c -> used (bitmap t) c = if (q <=? c) && (c <? q + k) then v else used (bitmap s) c.
Proof.
  intros Hop Hl Hc Hq Hk Hn Hb. set (P := fun i t => frame s t /\
    forall c, 0 <= c -> used (bitmap t) c = if (q <=? c) && (c <? q + i) then v else used (bitmap s) c).
  destruct (for_n_inv P (fun i => op (u64 (q * PAGE_SIZE + i * PAGE_SIZE))) (Z.to_nat k) 0 s) as (t & Ht & HF & HU).
  - split; [apply frame_refl|]. intros c _.
    destruct (Z.leb_spec q c), (Z.ltb_spec c (q + 0)); simpl; try done; lia.
  - intros j t Hj [HF HU].
    assert (Ej : u64 (q * PAGE_SIZE + j * PAGE_SIZE) / PAGE_SIZE = q + j).
    { rewrite u64_small by (unfold PAGE_SIZE in *; lia).
      replace (q * PAGE_SIZE + j * PAGE_SIZE) with ((q + j) * PAGE_SIZE) by lia.
      apply Z.div_mul. done. }
    destruct (pmm_page_op op v t n (u64 (q * PAGE_SIZE + j * PAGE_SIZE)) Hop) as (t' & Ht' & HF' & HU').
    + destruct HF. congruence.
    + unfold covers in *. destruct HF. lia.
    + rewrite Ej. lia.
    + exists t'. split; [done|]. split; [eauto using frame_trans|].
      intros c Hc0. rewrite HU', Ej, HU by done.
      destruct (Z.eqb_spec c (q + j)), (Z.leb_spec q c), (Z.ltb_spec c (q + j)),
        (Z.ltb_spec c (q + (j + 1))); simpl; try done; lia.
  - exists t. split; [done|]. split; [done|]. intros c Hc0. rewrite HU by done.
    by replace (0 + Z.of_nat (Z.to_nat k)) with k by lia.
Qed.

(** ** pmalloc *)

(** Reference search: the first unused page of [i .. i+rem-1]. *)
Fixpoint first_free (bm : list Z) (rem : nat) (i : Z) : option Z :=
  match rem with
  | O => None
  | S rem' => if used bm i then first_free bm rem' (i + 1) else Some i
  end.

Lemma first_free_spec bm rem i :
  match first_free bm rem i with
  | Some k => i <= k < i + Z.of_nat rem /\ used bm k = false /\
              forall c, i <= c < k -> used bm c = true
  | None => forall c, i <= c < i + Z.of_nat rem -> used bm c = true
  end.
Proof.
  revert i. induction rem as [|rem IH]; intros i; cbn [first_free]; [intros c Hc; exfalso; lia|].
  destruct (used bm i) eqn:U.
  - specialize (IH (i + 1)). destruct (first_free bm rem (i + 1)) as [k|].
    + destruct IH as (? & ? & H). split; [lia|]. split; [done|]. intros c Hc.
      destruct (Z.eq_dec c i) as [->|]; [done|]. apply H. lia.
    + intros c Hc. destruct (Z.eq_dec c i) as [->|]; [done|]. apply IH. lia.
  - split; [lia|]. split; [done|]. intros; lia.
Qed.

Lemma pmalloc_inner_run s n i pages rem j :
  covers (bitmap s) n -> 0 <= i < n -> 0 < pages < 2 ^ 64 ->
  0 <= j -> Z.of_nat rem = pages - j -> (0 < rem)%nat ->
  pmalloc_inner rem pages i j s = Done (negb (used (bitmap s) i), s).
Proof.
  intros Hc Hi Hp. revert j. induction rem as [|rem IH]; intros j Hj Hr H0; [lia|].
  simpl. unfold mbind at 1, M_bind at 1, BIT_TEST.
  rewrite (bm_test_used _ _ _ Hc Hi). destruct (used (bitmap s) i) eqn:U; simpl; [done|].
  rewrite u64_small by lia. destruct (Z.eqb_spec j (pages - 1)); [done|].
  rewrite IH; [done|lia..].
Qed.

Lemma pmalloc_outer_run s n pages rem i :
  covers (bitmap s) n -> 0 < pages < 2 ^ 64 -> 0 <= i -> i + Z.of_nat rem <= n ->
  pmalloc_outer rem pages i s = Done (first_free (bitmap s) rem i, s).
Proof.
  intros Hc Hp. revert i. induction rem as [|rem IH]; intros i Hi Hn; [done|].
  assert (Hin : pmalloc_inner (Z.to_nat pages) pages i 0 s = Done (negb (used (bitmap s) i), s)).
  { apply (pmalloc_inner_run s n); try done; lia. }
  simpl. rewrite (bind_run _ _ _ _ _ Hin).
  destruct (used (bitmap s) i); simpl; [apply IH; lia|done].
Qed.

Lemma with_lock_id s b : pmm_lock s = b -> with_lock b s = s.
Proof. intros <-. by destruct s. Qed.

Lemma pmalloc_scan_run s pages :
  pmm_lock s = false -> 0 <= highest_page s ->
  covers (bitmap s) (highest_page s / PAGE_SIZE) -> 0 < pages < 2 ^ 64 ->
  pmalloc_scan pages s =
    Done (first_free (bitmap s) (Z.to_nat (highest_page s / PAGE_SIZE)) 0, s).
Proof.
  intros Hl Ht Hc Hp. unfold pmalloc_scan, LOCK, UNLOCK, mbind, M_bind. rewrite Hl. simpl.
  pose proof (Z.div_pos (highest_page s) PAGE_SIZE Ht ltac:(done)).
  rewrite (pmalloc_outer_run _ (highest_page s / PAGE_SIZE)) by (simpl; done || lia).
  simpl. unfold modify, mret, M_ret. do 2 f_equal. by destruct s; simpl in *; subst.
Qed.

(** What the sequential callers rely on: the lock is free, the bitmap covers every page below
    [highest_page] and a run of [pages] pages starting at the last of them, so that no allocation can
    pass its end; for one page, all but a few callers, that is the first condition alone.
    [pmalloc_spec] says what happens without it. *)
Record pmm_ready (s : pmm_state) (pages : Z) : Prop := mk_ready {
  ready_lock : pmm_lock s = false;
  ready_top : 0 <= highest_page s;
  ready_pages : 0 < pages;
  ready_cover : covers (bitmap s) (highest_page s / PAGE_SIZE + pages - 1);
  ready_width : (highest_page s / PAGE_SIZE + pages) * PAGE_SIZE <= 2 ^ 64
}.

(** The page range [i .. i+pages-1] as the bits of the bitmap see it. *)
Definition claim (s t : pmm_state) (i pages : Z) (v : bool) : Prop :=
  frame s t /\
  forall c, 0 <= c ->
    used (bitmap t) c = if (i <=? c) && (c <? i + pages) then v else used (bitmap s) c.

Lemma pmalloc_cases s pages :
  pmm_ready s pages ->
  match first_free (bitmap s) (Z.to_nat (highest_page s / PAGE_SIZE)) 0 with
  | Some i => exists t, pmalloc pages s = Done (i * PAGE_SIZE, t) /\ claim s t i pages true
  | None => pmalloc pages s = Halt
  end.
Proof.
  intros [Hl Ht Hp Hc Hw]. pose proof (Z.div_pos (highest_page s) PAGE_SIZE Ht ltac:(done)) as Hd.
  unfold pmalloc.
  rewrite (bind_run _ _ _ _ _ (pmalloc_scan_run s pages Hl Ht
    ltac:(unfold covers in *; lia) ltac:(unfold PAGE_SIZE in *; lia))).
  pose proof (first_free_spec (bitmap s) (Z.to_nat (highest_page s / PAGE_SIZE)) 0) as HF.
  destruct (first_free _ _ _) as [i|]; [|done]. destruct HF as (Hi & _ & _).
  rewrite u64_small by (unfold PAGE_SIZE in *; lia).
  destruct (pmm_pages_op pmm_alloc_page true s (highest_page s / PAGE_SIZE + pages - 1) i pages)
    as (t & Ht' & HF & HU); [by left|done|done|lia|lia|lia|unfold PAGE_SIZE in *; lia|].
  exists t. split; [|done]. unfold pmm_alloc_pages. by rewrite (bind_run _ _ _ _ _ Ht').
Qed.

Lemma pmalloc_inv s t pages p :
  pmm_ready s pages -> pmalloc pages s = Done (p, t) ->
  exists i, p = i * PAGE_SIZE /\ 0 <= i < highest_page s / PAGE_SIZE /\
    used (bitmap s) i = false /\ (forall c, 0 <= c < i -> used (bitmap s) c = true) /\
    claim s t i pages true.
Proof.
  intros H Hp. pose proof (pmalloc_cases s pages H) as HC.
  pose proof (first_free_spec (bitmap s) (Z.to_nat (highest_page s / PAGE_SIZE)) 0) as HF.
  pose proof (Z.div_pos (highest_page s) PAGE_SIZE (ready_top _ _ H) ltac:(done)).
  destruct (first_free _ _ _) as [i|]; [|congruence].
  destruct HC as (u & Hu & HT). rewrite Hp in Hu. injection Hu as -> ->.
  destruct HF as (? & ? & ?). exists i. split; [done|]. split; [lia|]. done.
Qed.

(** *** Any allocator, whatever its bitmap covers *)

(** The number of pages that have a bit in the bitmap. *)
Definition bit_count (s : pmm_state) : Z := 8 * Z.of_nat (length (bitmap s)).

Lemma bm_outside bm b : 8 * Z.of_nat (length bm) <= b -> bm_test bm b = None /\ bm_set bm b = None.
Proof.
  intros H. pose proof (Z.div_le_lower_bound b 8 (Z.of_nat (length bm))).
  unfold bm_test, bm_set. by rewrite lookup_ge_None_2 by lia.
Qed.

Lemma pmalloc_inner_outside s pages i : 0 < pages -> bit_count s <= i -> pmalloc_inner (Z.to_nat pages) pages i 0 s = Fault.
Proof.
  intros Hp Hi. destruct (Z.to_nat pages) eqn:E; [lia|]. cbn [pmalloc_inner]. unfold BIT_TEST, mbind, M_bind.
  by rewrite (proj1 (bm_outside _ _ Hi)).
Qed.

(** The search over [n] pages of which only the first [bit_count s] have a bit. *)
Lemma pmalloc_outer_short s pages a b i :
  0 < pages < 2 ^ 64 -> 0 <= i -> i + Z.of_nat a = bit_count s -> (0 < b)%nat ->
  pmalloc_outer (a + b) pages i s = match first_free (bitmap s) a i with Some k => Done (Some k, s) | None => Fault end.
Proof.
  intros Hp. revert i. induction a as [|a IH]; intros i Hi Ha Hb; cbn [plus].
  - destruct b as [|b]; [lia|]. cbn [pmalloc_outer first_free]. unfold mbind, M_bind.
    by rewrite pmalloc_inner_outside by lia.
  - assert (Hin : pmalloc_inner (Z.to_nat pages) pages i 0 s = Done (negb (used (bitmap s) i), s)).
    { apply (pmalloc_inner_run s (bit_count s)); unfold covers, bit_count in *; lia. }
    cbn [pmalloc_outer first_free]. rewrite (bind_run _ _ _ _ _ Hin).
    destruct (used (bitmap s) i); cbn [negb]; [apply IH; lia|done].
Qed.

(** The search as a whole. *)
Lemma pmalloc_scan_cases s pages :
  pmm_lock s = false -> 0 <= highest_page s -> 0 < pages < 2 ^ 64 ->
  let n := highest_page s / PAGE_SIZE in
  pmalloc_scan pages s =
    match first_free (bitmap s) (Z.to_nat (Z.min n (bit_count s))) 0 with
    | Some i => Done (Some i, s)
    | None => if n <=? bit_count s then Done (None, s) else Fault
    end.
Proof.
  intros Hl Ht Hp n. pose proof (Z.div_pos (highest_page s) PAGE_SIZE Ht ltac:(done)) as Hn. fold n in Hn.
  assert (Hb : 0 <= bit_count s) by (unfold bit_count; lia).
  destruct (Z.leb_spec n (bit_count s)) as [L|L].
  - rewrite Z.min_l by done. rewrite pmalloc_scan_run by done. fold n. by destruct (first_free _ _ _).
  - rewrite Z.min_r by lia. unfold pmalloc_scan, LOCK, UNLOCK, mbind, M_bind. rewrite Hl. simpl. fold n.
    replace (Z.to_nat n) with (Z.to_nat (bit_count s) + (Z.to_nat n - Z.to_nat (bit_count s)))%nat by lia.
    rewrite (pmalloc_outer_short (with_lock true s)) by (unfold bit_count in *; simpl; lia). simpl.
    destruct (first_free _ _ _); [|done]. simpl. unfold modify, mret, M_ret. do 2 f_equal. by destruct s; simpl in *; subst.
Qed.

(** Marking a run that passes the end of the bitmap. *)
Lemma mark_outside s i pages :
  pmm_lock s = false -> 0 <= i < bit_count s -> bit_count s < i + pages -> bit_count s * PAGE_SIZE < 2 ^ 64 ->
  pmm_alloc_pages (i * PAGE_SIZE) pages s = Fault.
Proof.
  intros Hl Hi Hp Hb. unfold pmm_alloc_pages.
  assert (A : forall j, 0 <= j <= bit_count s - i -> u64 (i * PAGE_SIZE + j * PAGE_SIZE) / PAGE_SIZE = i + j).
  { intros j Hj. rewrite u64_small by (unfold PAGE_SIZE in *; lia).
    replace (i * PAGE_SIZE + j * PAGE_SIZE) with ((i + j) * PAGE_SIZE) by lia. by apply Z.div_mul. }
  apply (for_n_fault (fun _ t => frame s t) _ _ 0 (bit_count s - i)); [apply frame_refl|lia| |].
  - intros j t Hj HF.
    destruct (pmm_page_op pmm_alloc_page true t (bit_count s) (u64 (i * PAGE_SIZE + j * PAGE_SIZE))) as (t' & Ht' & HF' & _);
      [by left|destruct HF; congruence|unfold covers, bit_count in *; destruct HF; lia|rewrite A; lia|].
    exists t'. split; [done|]. by apply (frame_trans s t).
  - intros t [F1 _ F3 _ _]. unfold pmm_alloc_page, LOCK, UNLOCK, BIT_SET, mbind, M_bind. rewrite F1, Hl. simpl.
    rewrite A by lia. replace (i + (bit_count s - i)) with (bit_count s) by lia.
    by rewrite (proj2 (bm_outside (bitmap t) (bit_count s) ltac:(unfold bit_count; lia))).
Qed.

(** C2: what [pmalloc] does, for every allocator whose lock is free and every number of pages.  It
    returns exactly when the lowest free page [i] below [highest_page] has a bit and so have the
    [pages] pages from it on: then those pages and no others are marked as used and nothing else
    changes.  It halts exactly when every page below [highest_page] has a bit and is in use.
    Otherwise it leaves the bitmap, and only then: the search runs past its end because no page that
    has a bit is free, or the pages from the lowest free one run past its end, which [pmalloc] does
    not check. *)
Theorem pmalloc_spec (s : pmm_state) (pages : Z) :
  pmm_lock s = false -> 0 <= highest_page s -> bit_count s * PAGE_SIZE < 2 ^ 64 -> 0 < pages < 2 ^ 64 ->
  let n := highest_page s / PAGE_SIZE in
  let lowest i := 0 <= i < Z.min n (bit_count s) /\ used (bitmap s) i = false /\ forall c, 0 <= c < i -> used (bitmap s) c = true in
  match pmalloc pages s with
  | Done (p, t) => exists i, p = i * PAGE_SIZE /\ lowest i /\ i + pages <= bit_count s /\ claim s t i pages true
  | Halt => n <= bit_count s /\ forall c, 0 <= c < n -> used (bitmap s) c = true
  | Fault => bit_count s < n /\ (forall c, 0 <= c < bit_count s -> used (bitmap s) c = true) \/
      exists i, lowest i /\ bit_count s < i + pages
  | Fuel => False
  end.
Proof.
  intros Hl Ht Hw Hp n lowest. pose proof (Z.div_pos (highest_page s) PAGE_SIZE Ht ltac:(done)) as Hn. fold n in Hn.
  assert (Hb : 0 <= bit_count s) by (unfold bit_count; lia).
  pose proof (first_free_spec (bitmap s) (Z.to_nat (Z.min n (bit_count s))) 0) as HF.
  unfold pmalloc, mbind at 1, M_bind at 1. rewrite pmalloc_scan_cases by done. fold n.
  destruct (first_free _ _ _) as [i|].
  - destruct HF as (Hi & Hf & Hlow). assert (HL : lowest i) by (split; [lia|done]).
    rewrite u64_small by (unfold PAGE_SIZE in *; lia).
    destruct (Z.le_gt_cases (i + pages) (bit_count s)) as [Hin|Hout].
    + destruct (pmm_pages_op pmm_alloc_page true s (bit_count s) i pages) as (t & Ht' & HF' & HU);
        [by left|done|unfold covers, bit_count; lia|lia|lia|lia|lia|].
      unfold pmm_alloc_pages. rewrite (bind_run _ _ _ _ _ Ht'). exists i. done.
    + unfold mbind, M_bind. rewrite mark_outside by (done || lia). right. by exists i.
  - destruct (Z.leb_spec n (bit_count s)) as [L|L].
    + split; [done|]. intros c Hc. apply HF. lia.
    + left. split; [done|]. intros c Hc. apply HF. lia.
Qed.

(** A ready allocator with one free page out of sixteen, used by the witnesses. *)
Definition sample : pmm_state := mk_pmm false 1 [0xf7; 0xff] (15 * PAGE_SIZE) (fun _ => 7).

Lemma sample_ready : pmm_ready sample 1.
Proof. constructor; closed_Z. Qed.

(** Eight pages and a bitmap of one byte, the last page free: two pages do not fit. *)
Definition tight : pmm_state := mk_pmm false 1 [0x7f] (8 * PAGE_SIZE) (fun _ => 7).

Lemma pmalloc_spec_witness :
  (exists t, pmalloc 1 tight = Done (7 * PAGE_SIZE, t) /\ claim tight t 7 1 true) /\ pmalloc 2 tight = Fault.
Proof.
  pose proof (pmalloc_spec tight 1 eq_refl ltac:(done) ltac:(done) ltac:(done)) as H1. cbv zeta in H1.
  pose proof (pmalloc_spec tight 2 eq_refl ltac:(done) ltac:(done) ltac:(done)) as H2. cbv zeta in H2.
  assert (Low : forall i, 0 <= i < Z.min (highest_page tight / PAGE_SIZE) (bit_count tight) -> used (bitmap tight) i = false -> i = 7).
  { intros i Hi Hf. change (0 <= i < 8) in Hi. assert (i = 0 \/ i = 1 \/ i = 2 \/ i = 3 \/ i = 4 \/ i = 5 \/ i = 6 \/ i = 7) as C by lia.
    repeat destruct C as [->|C]; try (vm_compute in Hf; discriminate Hf). exact C. }
  split.
  - destruct (pmalloc 1 tight) as [[p t]| | |] eqn:E; try (vm_compute in E; discriminate E).
    destruct H1 as (i & -> & (Hi & Hf & _) & _ & Hc). rewrite (Low i Hi Hf) in *. exists t. split; [reflexivity|exact Hc].
  - destruct (pmalloc 2 tight) as [[p t]| | |] eqn:E; try (vm_compute in E; discriminate E). reflexivity.
Defined.

Example pmalloc_sample : exists t, pmalloc 1 sample = Done (3 * PAGE_SIZE, t).
Proof. eexists. vm_compute. reflexivity. Qed.

(** The range of a multi-page allocation is free throughout when the free pages
    above the first one are contiguous. *)
Definition unfragmented (bm : list Z) : Prop :=
  forall i c, 0 <= i <= c -> used bm i = false -> used bm c = false.

(** A multi-page [pmalloc] hands out pages that were all free provided the free
    pages form one run at the top of memory (the boot-time situation); the loop only
    tests the first page of the range, so this condition is what the callers need. *)
Theorem pmalloc_unfragmented_fresh (s t : pmm_state) (pages p : Z) :
  pmm_ready s pages -> unfragmented (bitmap s) -> pmalloc pages s = Done (p, t) ->
  p mod PAGE_SIZE = 0 /\
  forall c, p / PAGE_SIZE <= c < p / PAGE_SIZE + pages ->
    used (bitmap s) c = false /\ used (bitmap t) c = true.
Proof.
  intros Hr Hu Hp. destruct (pmalloc_inv s t pages p Hr Hp) as (i & -> & Hi & Hf & _ & _ & HU).
  rewrite Z.mod_mul, Z.div_mul by done. split; [done|]. intros c Hc. split.
  - apply (Hu i); [lia|done].
  - rewrite HU by lia. rewrite (proj2 (Z.leb_le _ _)), (proj2 (Z.ltb_lt _ _)) by lia. done.
Qed.

(** Nine pages in use, the rest free. *)
Definition sample_run : pmm_state :=
  mk_pmm false 1 [0xff; 0x01; 0; 0] (24 * PAGE_SIZE) (fun _ => 7).

Lemma used_beyond bm c : 8 * Z.of_nat (length bm) <= c -> used bm c = false.
Proof.
  intros H. unfold used. rewrite lookup_ge_None_2; [done|].
  pose proof (Z.div_le_lower_bound c 8 (Z.of_nat (length bm))). lia.
Qed.

Lemma sample_run_unfragmented : unfragmented (bitmap sample_run).
Proof.
  intros i c Hi Hf. destruct (Z.le_gt_cases 32 c); [by apply used_beyond|].
  assert (Hchk : forallb (fun i => forallb (fun c => implb ((i <=? c) && negb (used (bitmap sample_run) i))
     (negb (used (bitmap sample_run) c))) (seqZ 0 32)) (seqZ 0 32) = true) by (vm_compute; done).
  rewrite forallb_forall in Hchk. specialize (Hchk i).
  rewrite <- list_elem_of_In, elem_of_seqZ in Hchk. specialize (Hchk ltac:(lia)).
  rewrite forallb_forall in Hchk. specialize (Hchk c).
  rewrite <- list_elem_of_In, elem_of_seqZ in Hchk. specialize (Hchk ltac:(lia)).
  rewrite Hf, (proj2 (Z.leb_le i c)) in Hchk by lia. simpl in Hchk.
  by apply negb_true_iff in Hchk.
Qed.

Lemma pmalloc_unfragmented_fresh_witness :
  exists t, pmalloc 4 sample_run = Done (9 * PAGE_SIZE, t) /\
  forall c, 9 <= c < 13 -> used (bitmap sample_run) c = false /\ used (bitmap t) c = true.
Proof.
  destruct (pmalloc 4 sample_run) as [[p t]| | |] eqn:E; [|vm_compute in E; discriminate..].
  assert (Hp : p = 9 * PAGE_SIZE) by (vm_compute in E; injection E as <- _; reflexivity).
  exists t. subst p. split; [done|].
  destruct (pmalloc_unfragmented_fresh sample_run t 4 (9 * PAGE_SIZE)) as [_ H];
    [constructor; closed_Z|apply sample_run_unfragmented|done|].
  rewrite Z.div_mul in H by done. apply H.
Defined.

(** [pmm_free_pages] undoes [pmalloc]: freeing the range just allocated succeeds and
    every page of the range is free again while all other pages keep their state. *)
Theorem pmalloc_free_roundtrip (s t : pmm_state) (pages p : Z) :
  pmm_ready s pages -> pmalloc pages s = Done (p, t) ->
  exists u, pmm_free_pages p pages t = Done (tt, u) /\ frame s u /\
    forall c, 0 <= c -> used (bitmap u) c =
      if (p / PAGE_SIZE <=? c) && (c <? p / PAGE_SIZE + pages) then false else used (bitmap s) c.
Proof.
  intros Hr Hp. destruct (pmalloc_inv s t pages p Hr Hp) as (i & -> & Hi & _ & _ & HF & HU). destruct Hr as [Hl Ht Hpos Hc Hw].
  destruct (pmm_pages_op pmm_free_page false t (highest_page s / PAGE_SIZE + pages - 1) i pages)
    as (u & Hu & HF' & HU'); [by right|destruct HF; congruence|unfold covers in *; destruct HF; lia
      |lia|lia|lia|unfold PAGE_SIZE in *; lia|].
  exists u. split; [done|]. split; [eauto using frame_trans|]. intros c Hc0.
  rewrite Z.div_mul by done. rewrite HU' by done.
  destruct (_ && _) eqn:E; [done|]. by rewrite HU, E.
Qed.

Lemma pmalloc_free_roundtrip_witness :
  exists t u, pmalloc 1 sample = Done (3 * PAGE_SIZE, t) /\
    pmm_free_pages (3 * PAGE_SIZE) 1 t = Done (tt, u) /\ used (bitmap u) 3 = false.
Proof.
  destruct pmalloc_sample as [t Ht].
  destruct (pmalloc_free_roundtrip sample t 1 _ sample_ready Ht) as (u & Hu & _ & HU).
  exists t, u. split; [done|]. split; [done|]. rewrite HU by lia. vm_compute. reflexivity.
Defined.

(** The multi-page search ignores all pages but the first: with page 3 free and page 4
    in use, a two-page allocation returns page 3, so its second page is one that somebody
    already owns (BIT_TEST(i) in the inner loop instead of BIT_TEST(i + j)). *)
Theorem pmalloc_overlaps_used_pages :
  exists t, pmm_ready sample 2 /\ pmalloc 2 sample = Done (3 * PAGE_SIZE, t) /\
    used (bitmap sample) 4 = true.
Proof.
  eexists. split; [constructor; closed_Z|].
  split; vm_compute; reflexivity.
Qed.

(** ** Two CPUs in [pmalloc]

    [pmalloc] takes the lock for the search, drops it, and takes it again for every
    page it marks.  Each locked section is atomic; the sections of different CPUs
    interleave. *)

Inductive cpu :=
| Enter (pages : Z)                (* before the search *)
| Mark (i k pages : Z)             (* page [i + k] is marked next *)
| Return (p : Z).

Inductive cpu_step : pmm_state * list cpu -> pmm_state * list cpu -> Prop :=
| step_scan s t cs c pages i :
    cs !! c = Some (Enter pages) -> pmalloc_scan pages s = Done (Some i, t) ->
    cpu_step (s, cs) (t, <[c := Mark i 0 pages]> cs)
| step_mark s t cs c i k pages :
    cs !! c = Some (Mark i k pages) -> k < pages ->
    pmm_alloc_page (u64 (u64 (i * PAGE_SIZE) + k * PAGE_SIZE)) s = Done (tt, t) ->
    cpu_step (s, cs) (t, <[c := Mark i (k + 1) pages]> cs)
| step_return s cs c i pages :
    cs !! c = Some (Mark i pages pages) ->
    cpu_step (s, cs) (s, <[c := Return (u64 (i * PAGE_SIZE))]> cs).

(** A race: two CPUs that allocate one page each can both return the same page,
    because the lock is released between the search and the marking. *)
Theorem pmalloc_race :
  exists t, rtc cpu_step (sample_run, [Enter 1; Enter 1])
    (t, [Return (9 * PAGE_SIZE); Return (9 * PAGE_SIZE)]).
Proof.
  eexists.
  eapply rtc_l; [eapply (step_scan _ _ _ 0 1 9); vm_compute; reflexivity|].
  eapply rtc_l; [eapply (step_scan _ _ _ 1 1 9); vm_compute; reflexivity|].
  eapply rtc_l; [eapply (step_mark _ _ _ 0 9 0 1); [reflexivity|lia|vm_compute; reflexivity]|].
  eapply rtc_l; [eapply (step_mark _ _ _ 1 9 0 1); [reflexivity|lia|vm_compute; reflexivity]|].
  eapply rtc_l; [eapply (step_return _ _ 0 9 1); reflexivity|].
  eapply rtc_l; [eapply (step_return _ _ 1 9 1); reflexivity|].
  apply rtc_refl.
Qed.

(** ** init_pmm *)

(** What the boot protocol promises of a memory-map entry: page aligned, inside the
    64-bit address space. *)
Record entry_ok (e : mmap_entry) : Prop := mk_entry_ok {
  ok_base : 0 <= entry_base e;
  ok_base_aligned : entry_base e mod PAGE_SIZE = 0;
  ok_length : 0 <= entry_length e;
  ok_length_aligned : entry_length e mod PAGE_SIZE = 0;
  ok_end : entry_base e + entry_length e + PAGE_SIZE <= 2 ^ 64
}.

Definition entry_end (e : mmap_entry) : Z := entry_base e + entry_length e.

(** Page [c] lies in entry [e]. *)
Definition in_entry (e : mmap_entry) (c : Z) : bool :=
  (entry_base e / PAGE_SIZE <=? c) && (c <? entry_end e / PAGE_SIZE).

(** Page [c] belongs to some usable entry. *)
Definition available (es : list mmap_entry) (c : Z) : bool :=
  existsb (fun e => usable e && in_entry e c) es.

Lemma entry_pages e : entry_ok e ->
  entry_base e = entry_base e / PAGE_SIZE * PAGE_SIZE /\
  entry_end e / PAGE_SIZE = entry_base e / PAGE_SIZE + entry_length e / PAGE_SIZE.
Proof.
  intros [Hb Hba Hl Hla He]. unfold entry_end, PAGE_SIZE in *.
  pose proof (Z.div_mod (entry_base e) 4096). pose proof (Z.div_mod (entry_length e) 4096).
  split; [lia|]. symmetry. apply Z.div_unique with 0; lia.
Qed.

Lemma free_usable_run es s n :
  pmm_lock s = false -> covers (bitmap s) n -> n * PAGE_SIZE <= 2 ^ 64 ->
  (forall e, e ∈ es -> entry_ok e /\ (usable e = true -> entry_end e / PAGE_SIZE <= n)) ->
  exists t, free_usable es s = Done (tt, t) /\ frame s t /\
    forall c, 0 <= c -> used (bitmap t) c = used (bitmap s) c && negb (available es c).
Proof.
  revert s. induction es as [|e es IH]; intros s Hl Hc Hn He; simpl.
  { exists s. split; [done|]. split; [apply frame_refl|]. intros. by rewrite andb_true_r. }
  destruct (He e) as [Hok Hend]; [by left|].
  assert (Hstep : exists t, when (usable e) (pmm_free_pages (entry_base e) (entry_length e / PAGE_SIZE)) s
    = Done (tt, t) /\ frame s t /\
    forall c, 0 <= c -> used (bitmap t) c = used (bitmap s) c && negb (usable e && in_entry e c)).
  { destruct (usable e) eqn:U; simpl.
    - destruct (entry_pages e Hok) as [Hb Hee]. specialize (Hend eq_refl).
      pose proof (Z.div_pos (entry_base e) PAGE_SIZE (ok_base _ Hok) ltac:(done)).
      pose proof (Z.div_pos (entry_length e) PAGE_SIZE (ok_length _ Hok) ltac:(done)).
      destruct (pmm_pages_op pmm_free_page false s n (entry_base e / PAGE_SIZE) (entry_length e / PAGE_SIZE))
        as (t & Ht & HF & HU); [by right|done|done|lia..|].
      exists t. unfold pmm_free_pages. rewrite Hb. split; [done|]. split; [done|].
      intros c Hc0. rewrite HU by done. unfold in_entry. rewrite Hee.
      destruct ((_ <=? _) && _); simpl; [by rewrite andb_false_r|by rewrite andb_true_r].
    - exists s. split; [done|]. split; [apply frame_refl|]. intros. by rewrite andb_true_r. }
  destruct Hstep as (t & Ht & HF & HU). rewrite (bind_run _ _ _ _ _ Ht).
  destruct (IH t) as (u & Hu & HF' & HU').
  { destruct HF; congruence. } { unfold covers in *. destruct HF; lia. } { done. }
  { intros e' He'. apply He. by right. }
  exists u. split; [done|]. split; [eauto using frame_trans|]. intros c Hc0.
  rewrite HU', HU by done. by rewrite negb_orb, andb_assoc.
Qed.

Lemma scan_top_ge es h e :
  e ∈ es -> usable e = true -> entry_ok e -> entry_end e <= scan_top es h.
Proof.
  assert (Hmono : forall es h, h <= scan_top es h).
  { clear. induction es as [|e es IH]; intros h; simpl; [lia|].
    destruct (counted e); [|apply IH]. destruct (Z.ltb_spec h (u64 (entry_base e + entry_length e)));
      [|apply IH]. etransitivity; [|apply IH]. lia. }
  intros He HU Hok. revert h. induction es as [|e' es IH]; intros h; [by apply elem_of_nil in He|].
  apply elem_of_cons in He as [<-|He]; simpl; [|destruct (counted e'); by apply IH].
  assert (counted e = true) as -> by (unfold counted; unfold usable in HU; by rewrite HU).
  destruct Hok. unfold entry_end. rewrite u64_small by (unfold PAGE_SIZE in *; lia).
  etransitivity; [|apply Hmono]. destruct (Z.ltb_spec h (entry_base e + entry_length e)); lia.
Qed.

Lemma place_bitmap_split es sz p es' :
  place_bitmap es sz = (p, es') -> p <> 0 ->
  exists l1 e l2, es = l1 ++ e :: l2 /\
    es' = l1 ++ mk_entry (u64 (entry_base e + sz)) (u64 (entry_length e - sz)) (entry_type e) :: l2 /\
    usable e = true /\ sz <= entry_length e /\ p = u64 (entry_base e + PHYS_MEM_OFFSET).
Proof.
  revert p es'. induction es as [|e es IH]; intros p es' H Hp; simpl in H; [congruence|].
  destruct (usable e && (sz <=? entry_length e)) eqn:E.
  - zbool. injection H as <- <-. exists [], e, es. done.
  - destruct (place_bitmap es sz) as [q es2] eqn:E2. injection H as <- <-.
    destruct (IH q es2 eq_refl Hp) as (l1 & e0 & l2 & -> & -> & ?).
    exists (e :: l1), e0, l2. done.
Qed.

Lemma bitmap_size_aligned h : bitmap_size_of h mod PAGE_SIZE = 0 /\ 0 <= bitmap_size_of h.
Proof.
  unfold bitmap_size_of, ALIGN_UP. set (x := u64 _).
  change (PAGE_SIZE - 1) with (2 ^ 12 - 1). rewrite pow2_ones_land by lia.
  change PAGE_SIZE with (2 ^ 12). assert (Hx : 0 <= x < 2 ^ 64) by apply u64_range.
  pose proof (Z.div_mod x (2 ^ 12)). pose proof (Z.mod_pos_bound x (2 ^ 12)).
  split.
  - replace (x - x mod 2 ^ 12) with (x / 2 ^ 12 * 2 ^ 12) by lia. by rewrite Z.mod_mul.
  - assert (x mod 2 ^ 12 <= x) by (apply Z.mod_le; lia). lia.
Qed.

(** The bitmap has a bit for every page below [h] unless the byte count is a multiple of
    the page size and the last byte is partial. *)
Lemma bitmap_size_covers h :
  0 <= h < 2 ^ 63 ->
  (h / PAGE_SIZE / 8) mod PAGE_SIZE <> 0 \/ (h / PAGE_SIZE) mod 8 = 0 ->
  h / PAGE_SIZE <= 8 * bitmap_size_of h.
Proof.
  intros Hh Hc. unfold bitmap_size_of, ALIGN_UP, ALIGN_DOWN.
  change (PAGE_SIZE - 1) with (2 ^ 12 - 1). rewrite !pow2_ones_land by lia.
  change PAGE_SIZE with 4096 in *. change (2 ^ 12) with 4096.
  assert (E : (h - h mod 4096) / 4096 = h / 4096).
  { symmetry. apply Z.div_unique with 0; [lia|]. pose proof (Z.div_mod h 4096). lia. }
  rewrite E. set (q := h / 4096 / 8) in *. set (n := h / 4096) in *.
  assert (0 <= n < 2 ^ 52) by (subst n; split; [apply Z.div_pos|apply Z.div_lt_upper_bound]; lia).
  assert (Hn : n = 8 * q + n mod 8) by (apply Z.div_mod; lia).
  assert (Hq : q = 4096 * (q / 4096) + q mod 4096) by (apply Z.div_mod; lia).
  pose proof (Z.mod_pos_bound n 8 ltac:(lia)). pose proof (Z.mod_pos_bound q 4096 ltac:(lia)).
  rewrite u64_small by lia.
  pose proof (Z.mod_pos_bound (q + 4096 - 1) 4096 ltac:(lia)).
  destruct Hc as [Hc|Hc]; [|lia].
  assert (Hr : (q + 4096 - 1) mod 4096 = q mod 4096 - 1).
  { symmetry. apply Z.mod_unique with (q / 4096 + 1); lia. }
  lia.
Qed.

(** [init_pmm] runs to completion: the state it leaves, in terms of the final map. *)
Lemma init_pmm_run es s es' p :
  pmm_lock s = false -> highest_page s = 0 -> Forall entry_ok es ->
  place_bitmap es (bitmap_size_of (scan_top es 0)) = (p, es') -> p <> 0 ->
  0 <= scan_top es 0 < 2 ^ 63 ->
  scan_top es 0 / PAGE_SIZE <= 8 * bitmap_size_of (scan_top es 0) ->
  exists t, init_pmm es s = Done (es', t) /\ pmm_lock t = false /\
    pmm_bitmap t = p /\ highest_page t = scan_top es 0 /\ phys t = phys s /\
    covers (bitmap t) (scan_top es 0 / PAGE_SIZE) /\
    forall c, 0 <= c < scan_top es 0 / PAGE_SIZE -> used (bitmap t) c = negb (available es' c).
Proof.
  intros Hl Hh Hok Hpl Hp Htop Hcov. set (top := scan_top es 0) in *. set (sz := bitmap_size_of top) in *.
  set (s0 := mk_pmm (pmm_lock s) p (replicate (Z.to_nat sz) 0xff) top (phys s)).
  destruct (bitmap_size_aligned top) as [Hal Hsz]. fold sz in Hal, Hsz.
  assert (Hc0 : covers (bitmap s0) (top / PAGE_SIZE)).
  { unfold covers. simpl. rewrite length_replicate. lia. }
  destruct (place_bitmap_split _ _ _ _ Hpl Hp) as (l1 & e & l2 & -> & -> & HU & Hle & Hpe).
  rewrite Forall_forall in Hok.
  assert (Hoke : entry_ok e) by (apply Hok, elem_of_app; right; by left).
  set (e' := mk_entry _ _ _). assert (Hoke' : entry_ok e' /\ entry_end e' = entry_end e).
  { destruct Hoke as [? ? ? ? He]. unfold e', entry_end. simpl.
    rewrite !u64_small by (unfold PAGE_SIZE in *; lia).
    split; [|lia]. constructor; simpl; try (unfold PAGE_SIZE in *; lia).
    - rewrite Z.add_mod, Hal, ok_base_aligned0 by done. done.
    - rewrite Zminus_mod, Hal, ok_length_aligned0. done. }
  destruct (free_usable_run (l1 ++ e' :: l2) s0 (top / PAGE_SIZE)) as (t & Ht & HF & Hu); [done|done| |..].
  { unfold PAGE_SIZE. pose proof (Z.mul_div_le top 4096). lia. }
  { intros x Hx. assert (x = e' \/ x ∈ l1 ++ e :: l2) as [->|Hx'].
    { rewrite elem_of_app, elem_of_cons in *. tauto. }
    - split; [tauto|]. intros _. destruct Hoke' as [_ ->]. apply Z.div_le_mono; [done|].
      apply scan_top_ge; [|done..]. apply elem_of_app. right. by left.
    - split; [by apply Hok|]. intros HUx. apply Z.div_le_mono; [done|].
      apply scan_top_ge; [done..|]. by apply Hok. }
  exists t. destruct HF as [F1 F2 F3 F4 F5]. simpl in *.
  split.
  { unfold init_pmm. rewrite (bind_run _ _ _ _ _ (eq_refl : get s = Done (s, s))).
    rewrite Hh. fold top sz. rewrite Hpl. rewrite (proj2 (Z.eqb_neq p 0) Hp). simpl.
    unfold put. unfold mbind at 1, M_bind at 1. fold s0 e'. by rewrite (bind_run _ _ _ _ _ Ht). }
  repeat split; try congruence.
  intros c Hc. rewrite Hu by lia. replace (used (replicate (Z.to_nat sz) 255) c) with true; [done|].
  unfold used. destruct (covers_lookup _ _ _ Hc0 Hc) as [y Hy]. simpl in Hy. rewrite Hy.
  apply lookup_replicate in Hy as [-> _]. pose proof (Z.mod_pos_bound c 8 ltac:(lia)).
  change 255 with (Z.ones 8). by rewrite Z.ones_spec_low by lia.
Qed.

(** Distinct entries of the map do not overlap. *)
Definition entries_disjoint (es : list mmap_entry) : Prop :=
  forall i j ei ej, es !! i = Some ei -> es !! j = Some ej -> i <> j ->
    entry_end ei <= entry_base ej \/ entry_end ej <= entry_base ei.

Lemma bitmap_not_available l1 e l2 sz c :
  entry_ok e -> sz mod PAGE_SIZE = 0 -> 0 <= sz <= entry_length e ->
  Forall entry_ok (l1 ++ e :: l2) -> entries_disjoint (l1 ++ e :: l2) ->
  entry_base e / PAGE_SIZE <= c < (entry_base e + sz) / PAGE_SIZE ->
  available (l1 ++ mk_entry (u64 (entry_base e + sz)) (u64 (entry_length e - sz)) (entry_type e) :: l2) c
    = false.
Proof.
  intros Hok Hal Hsz HF HD Hc. destruct (available _ c) eqn:E; [exfalso|done].
  unfold available in E. rewrite existsb_exists in E. destruct E as (x & Hx & Hin).
  rewrite <- list_elem_of_In in Hx.
  unfold in_entry in Hin. zbool. destruct (entry_pages e Hok) as [Hpe _].
  assert (Hsz' : (entry_base e + sz) / PAGE_SIZE * PAGE_SIZE = entry_base e + sz).
  { destruct Hok. unfold PAGE_SIZE in *. pose proof (Z.div_mod (entry_base e + sz) 4096) as HDM.
    rewrite (Z.add_mod (entry_base e) sz), ok_base_aligned0, Hal in HDM by lia.
    change ((0 + 0) mod 4096) with 0 in HDM. lia. }
  assert (Hdis : x <> mk_entry (u64 (entry_base e + sz)) (u64 (entry_length e - sz)) (entry_type e) ->
    entry_ok x /\ (entry_end x <= entry_base e \/ entry_end e <= entry_base x)).
  { intros Hne. rewrite elem_of_app, elem_of_cons in Hx. destruct Hx as [Hx|[->|Hx]]; [|done|].
    - pose proof (proj1 (Forall_forall _ _) HF x ltac:(apply elem_of_app; by left)) as Hokx.
      apply list_elem_of_lookup in Hx as [i Hi]. split; [done|].
      apply (HD i (length l1)); [by apply lookup_app_l_Some|by rewrite list_lookup_middle|].
      apply lookup_lt_Some in Hi. lia.
    - pose proof (proj1 (Forall_forall _ _) HF x ltac:(apply elem_of_app; right; by right)) as Hokx.
      apply list_elem_of_lookup in Hx as [i Hi]. split; [done|].
      apply (HD (length l1 + S i)%nat (length l1)); [|by rewrite list_lookup_middle|lia].
      rewrite lookup_app_r by lia. by replace (length l1 + S i - length l1)%nat with (S i) by lia. }
  destruct (decide (entry_base x = u64 (entry_base e + sz) /\ entry_end x = entry_end e)) as [[Hb Hee]|Hne].
  { destruct Hok. rewrite u64_small in Hb by (unfold PAGE_SIZE in *; lia). rewrite Hb in *. lia. }
  destruct Hdis as [Hokx Hd].
  { intros ->. apply Hne. destruct Hok. unfold entry_end. simpl.
    rewrite !u64_small by (unfold PAGE_SIZE in *; lia). split; [done|lia]. }
  destruct (entry_pages x Hokx) as [Hpx Hex]. destruct Hd as [Hd|Hd].
  - pose proof (Z.div_le_mono _ _ PAGE_SIZE ltac:(done) Hd). lia.
  - unfold entry_end in Hd. pose proof (Z.div_le_mono (entry_base e + sz) (entry_base x) PAGE_SIZE ltac:(done) ltac:(lia)).
    lia.
Qed.

(** C28: After [init_pmm] (lock free, all entries of the map, the reserved ones too, aligned and
    disjoint, a bitmap placed, enough bits)
    a page below [highest_page] is free exactly when it lies in a usable entry of the final
    map, and the pages that hold the bitmap itself are never free. *)
Theorem init_pmm_spec (es es' : list mmap_entry) (s : pmm_state) (p : Z) :
  pmm_lock s = false -> highest_page s = 0 -> Forall entry_ok es -> entries_disjoint es ->
  place_bitmap es (bitmap_size_of (scan_top es 0)) = (p, es') -> p <> 0 ->
  0 <= scan_top es 0 < 2 ^ 46 ->
  ((scan_top es 0 / PAGE_SIZE / 8) mod PAGE_SIZE <> 0 \/ (scan_top es 0 / PAGE_SIZE) mod 8 = 0) ->
  exists t, init_pmm es s = Done (es', t) /\ pmm_lock t = false /\
    highest_page t = scan_top es 0 /\
    (forall c, 0 <= c < highest_page t / PAGE_SIZE -> used (bitmap t) c = negb (available es' c)) /\
    (forall c, dmap p / PAGE_SIZE <= c < (dmap p + bitmap_size_of (highest_page t)) / PAGE_SIZE ->
       used (bitmap t) c = true).
Proof.
  intros Hl Hh HF HD Hpl Hp Ht Hc.
  destruct (init_pmm_run es s es' p) as (t & Hrun & Hl' & Hp' & Ht' & _ & Hcov & HU); try done; [lia| |].
  { apply bitmap_size_covers; [lia|done]. }
  exists t. rewrite Ht'. split; [done|]. split; [done|]. split; [done|]. split; [done|].
  intros c Hcr. destruct (place_bitmap_split _ _ _ _ Hpl Hp) as (l1 & e & l2 & -> & -> & HUe & Hle & Hpe).
  pose proof (proj1 (Forall_forall _ _) HF e ltac:(apply elem_of_app; right; by left)) as Hok.
  assert (He : entry_end e <= scan_top (l1 ++ e :: l2) 0).
  { apply scan_top_ge; [|done..]. apply elem_of_app. right. by left. }
  destruct (bitmap_size_aligned (scan_top (l1 ++ e :: l2) 0)) as [Hal Hsz].
  assert (Hd : dmap p = entry_base e).
  { destruct Hok. unfold entry_end in He. rewrite Hpe. unfold dmap, PHYS_MEM_OFFSET in *.
    rewrite u64_small by lia. rewrite (proj2 (Z.leb_le _ _)) by lia. lia. }
  rewrite Hd in Hcr. pose proof (Z.div_pos (entry_base e) PAGE_SIZE (ok_base _ Hok) ltac:(done)).
  assert (c < scan_top (l1 ++ e :: l2) 0 / PAGE_SIZE).
  { apply Z.lt_le_trans with ((entry_base e + bitmap_size_of (scan_top (l1 ++ e :: l2) 0)) / PAGE_SIZE); [lia|].
    apply Z.div_le_mono; [done|]. unfold entry_end in He. lia. }
  rewrite HU by lia. by rewrite bitmap_not_available.
Qed.

(** A PC-like map: 4 MiB usable above 1 MiB, the kernel above it. *)
Definition sample_map : list mmap_entry :=
  [mk_entry 0x100000 0x400000 1; mk_entry 0x500000 0x3000 0x1001].
Definition boot_state : pmm_state := mk_pmm false 0 [] 0 (fun _ => 0).

Lemma init_pmm_spec_witness :
  exists es' t, init_pmm sample_map boot_state = Done (es', t) /\
    used (bitmap t) 0x101 = false /\ used (bitmap t) 0x100 = true /\ used (bitmap t) 0x501 = true.
Proof.
  destruct (init_pmm_spec sample_map [mk_entry 0x101000 0x3ff000 1; mk_entry 0x500000 0x3000 0x1001]
    boot_state (u64 (0x100000 + PHYS_MEM_OFFSET))) as (t & Hrun & Hl & Ht & HU & HB);
    [done|done|repeat constructor; closed_Z| |vm_compute; reflexivity|discriminate|closed_Z|left; vm_compute; discriminate|].
  { intros [|[|i]] [|[|j]] ei ej Hi Hj Hne; simpl in *; simplify_eq; unfold entry_end; simpl; lia. }
  eexists _, t. split; [exact Hrun|].
  rewrite Ht in HU, HB. split; [|split].
  - rewrite HU; [vm_compute; reflexivity|closed_Z].
  - apply HB. closed_Z.
  - rewrite HU; [vm_compute; reflexivity|closed_Z].
Defined.

(** When the number of bitmap bytes is a multiple of the page size but pages are left
    over, the computed bitmap is too short: with 128 MiB and one page of memory it has
    32768 bits for 32769 pages. *)
Theorem bitmap_too_short :
  exists h, h / PAGE_SIZE = 32769 /\ 8 * bitmap_size_of h = 32768.
Proof. exists (2 ^ 27 + PAGE_SIZE). vm_compute. done. Qed.
