(* ===== verification/CString.v ===== *)
(** * C strings (src/src/kernel/string/string.c, src/src/libc/src/string.c, ctype.c)

    A pointer into a character array is the list of bytes from the pointer to the
    end of the array; a result pointer is an offset from the argument.  Reading or
    writing past the end of the array is [None].  [char] is signed, as on x86-64. *)
From S2P Require Import Prelude.

(** A string as the programmer means it: non-zero bytes, without the terminator. *)
Definition char_ok (c : Z) : Prop := 0 < c < 256.
Definition str_ok (t : list Z) : Prop := Forall char_ok t.

Lemma s8_inj a b : 0 <= a < 256 -> 0 <= b < 256 -> s8 a - s8 b = 0 -> a = b.
Proof.
  intros Ha Hb H. unfold s8 in H.
  assert (E : (a + 2 ^ 7) mod 2 ^ 8 = (b + 2 ^ 7) mod 2 ^ 8) by lia.
  destruct (Z.le_gt_cases (2 ^ 7) a), (Z.le_gt_cases (2 ^ 7) b).
  - rewrite !(Zmod_eq_full _ (2 ^ 8)) in E by lia.
    assert ((a + 2 ^ 7) / 2 ^ 8 = 1) by (symmetry; apply Z.div_unique with (a - 2 ^ 7); lia).
    assert ((b + 2 ^ 7) / 2 ^ 8 = 1) by (symmetry; apply Z.div_unique with (b - 2 ^ 7); lia). lia.
  - rewrite (Z.mod_small (b + 2 ^ 7)) in E by lia.
    rewrite <- (Z.mod_unique (a + 2 ^ 7) (2 ^ 8) 1 (a - 2 ^ 7)) in E by lia. lia.
  - rewrite (Z.mod_small (a + 2 ^ 7)) in E by lia.
    rewrite <- (Z.mod_unique (b + 2 ^ 7) (2 ^ 8) 1 (b - 2 ^ 7)) in E by lia. lia.
  - rewrite !Z.mod_small in E by lia. lia.
Qed.

(** ** The kernel's string.c *)
Module Kernel.

Definition isdigit (c : Z) : Z := if (48 <=? s8 c) && (s8 c <=? 57) then 1 else 0.

(** [strcpy]: the new contents of the destination array. *)
Fixpoint strcpy (dest source : list Z) : option (list Z) :=
  match source, dest with
  | c :: source', _ :: dest' =>
      if c =? 0 then Some (c :: dest') else d ← strcpy dest' source'; Some (c :: d)
  | _, _ => None
  end.

Fixpoint strcat (dest src : list Z) : option (list Z) :=
  match dest with
  | [] => None
  | c :: dest' => if c =? 0 then strcpy dest src else d ← strcat dest' src; Some (c :: d)
  end.

Fixpoint strlen (s : list Z) : option Z :=
  match s with
  | [] => None
  | c :: s' => if c =? 0 then Some 0 else n ← strlen s'; Some (n + 1)
  end.

(** [strncmp]: all [n] bytes are compared, whatever they are. *)
Fixpoint strncmp (s1 s2 : list Z) (n : nat) : option Z :=
  match n with
  | O => Some 0
  | S n' =>
      match s1, s2 with
      | a :: s1', b :: s2' => if a =? b then strncmp s1' s2' n' else Some 1
      | _, _ => None
      end
  end.

Fixpoint strcmp (s1 s2 : list Z) : option Z :=
  match s1, s2 with
  | a :: s1', b :: s2' =>
      if negb (a =? 0) && (a =? b) then strcmp s1' s2' else Some (s8 a - s8 b)
  | _, _ => None
  end.

(** [memmove]: [dest] and [src] are used as [uint64_t *], so [l] counts 8-byte words. *)
Fixpoint copy_up (n : nat) (dest src : Z) (m : mem) : mem :=
  match n with
  | O => m
  | S n' => copy_up n' (dest + 8) (src + 8) (st 8 dest (ld 8 m src) m)
  end.
Fixpoint copy_down (n : nat) (dest src : Z) (m : mem) : mem :=
  match n with
  | O => m
  | S n' =>
      copy_down n' dest src (st 8 (dest + 8 * Z.of_nat n') (ld 8 m (src + 8 * Z.of_nat n')) m)
  end.
Definition memmove (dest src l : Z) (m : mem) : mem :=
  if dest <? src then copy_up (Z.to_nat l) dest src m
  else if src <? dest then copy_down (Z.to_nat l) dest src m
  else m.

Fixpoint strchr (s : list Z) (c : Z) : option (option Z) :=
  match s with
  | [] => None
  | x :: s' =>
      if s8 x =? s8 c then Some (Some 0)
      else if x =? 0 then Some None
      else r ← strchr s' c; Some (option_map (Z.add 1) r)
  end.

Fixpoint strrchr_from (s : list Z) (c i : Z) (last : option Z) : option (option Z) :=
  match s with
  | [] => None
  | x :: s' =>
      if x =? 0 then Some last
      else strrchr_from s' c (i + 1) (if s8 x =? s8 c then Some i else last)
  end.
Definition strrchr (s : list Z) (c : Z) : option (option Z) := strrchr_from s c 0 None.

Fixpoint memcmp (s1 s2 : list Z) (size : nat) : option Z :=
  match size with
  | O => Some 0
  | S n =>
      match s1, s2 with
      | a :: s1', b :: s2' => if a =? b then memcmp s1' s2' n else Some (s8 a - s8 b)
      | _, _ => None
      end
  end.

(** [strdup]: the contents of the new array of [strlen s + 1] bytes. *)
Definition strdup (s : list Z) : option (list Z) :=
  n ← strlen s; Some (take (Z.to_nat (n + 1)) s).

End Kernel.

(** ** The C library's string.c and ctype.c *)
Module Libc.

Fixpoint strchr (s : list Z) (c : Z) : option (option Z) :=
  match s with
  | [] => None
  | x :: s' =>
      if negb (x =? 0) && negb (s8 x =? c) then
        r ← strchr s' c; Some (option_map (Z.add 1) r)
      else if negb (x =? 0) then Some (Some 0)
      else if c =? 0 then Some (Some 0) else Some None
  end.

Fixpoint strlen (s : list Z) : option Z :=
  match s with
  | [] => None
  | c :: s' => if c =? 0 then Some 0 else n ← strlen s'; Some (n + 1)
  end.

Definition strdup (s : list Z) : option (list Z) :=
  n ← strlen s; Some (take (Z.to_nat (n + 1)) s).

(** [strncmp]: the loop stops at a difference, at either terminator and after [n] bytes. *)
Fixpoint strncmp_loop (l r : list Z) (n : nat) : option Z :=
  match l, r with
  | a :: l', b :: r' =>
      match n with
      | S n' =>
          if negb (a =? 0) && negb (b =? 0) && (a =? b) then strncmp_loop l' r' n'
          else Some (a - b)
      | O => Some (a - b)
      end
  | _, _ => None
  end.
Definition strncmp (l r : list Z) (n : nat) : option Z :=
  match n with O => Some 0 | S n' => strncmp_loop l r n' end.

Fixpoint strcpy (dest src : list Z) : option (list Z) :=
  match src, dest with
  | c :: src', _ :: dest' =>
      if c =? 0 then Some (c :: dest') else d ← strcpy dest' src'; Some (c :: d)
  | _, _ => None
  end.

Fixpoint strcat (dest src : list Z) : option (list Z) :=
  match dest with
  | [] => None
  | c :: dest' => if c =? 0 then strcpy dest src else d ← strcat dest' src; Some (c :: d)
  end.

(** [strncpy]: a terminator is always written after the copied bytes. *)
Fixpoint strncpy (dest src : list Z) (n : nat) : option (list Z) :=
  match src, dest with
  | c :: src', _ :: dest' =>
      if c =? 0 then Some (0 :: dest')
      else match n with
           | O => Some (0 :: dest')
           | S n' => d ← strncpy dest' src' n'; Some (c :: d)
           end
  | _, _ => None
  end.

(** The inner loop of [strspn]: does it stop before the terminator of [ct]? *)
Fixpoint span_found (ct : list Z) (c : Z) : option bool :=
  match ct with
  | [] => None
  | x :: ct' => if x =? 0 then Some false else if x =? c then Some true else span_found ct' c
  end.
Fixpoint strspn (cs ct : list Z) : option Z :=
  match cs with
  | [] => None
  | c :: cs' =>
      if c =? 0 then Some 0
      else b ← span_found ct c;
           if (b : bool) then n ← strspn cs' ct; Some (n + 1) else Some 0
  end.

(** The inner loop of [strcspn]: skip the bytes of [ct] that equal [c]. *)
Fixpoint cspan_stopped (ct : list Z) (c : Z) : option bool :=
  match ct with
  | [] => None
  | x :: ct' => if x =? 0 then Some false else if x =? c then cspan_stopped ct' c else Some true
  end.
Fixpoint strcspn (cs ct : list Z) : option Z :=
  match cs with
  | [] => None
  | c :: cs' =>
      if c =? 0 then Some 0
      else b ← cspan_stopped ct c;
           if (b : bool) then n ← strcspn cs' ct; Some (n + 1) else Some 0
  end.

Definition strpbrk (s b : list Z) : option (option Z) :=
  n ← strcspn s b; c ← s !! Z.to_nat n; Some (if c =? 0 then None else Some n).

Definition islower (c : Z) : bool := (97 <=? c) && (c <=? 122).
Definition isupper (c : Z) : bool := (65 <=? c) && (c <=? 90).
Definition isalpha (c : Z) : bool := isupper c || islower c.
Definition isdigit (c : Z) : bool := (48 <=? c) && (c <=? 57).
Definition isalnum (c : Z) : bool := isdigit c || isalpha c.
Definition isxdigit (c : Z) : bool :=
  isdigit c || ((97 <=? c) && (c <=? 102)) || ((65 <=? c) && (c <=? 70)).
Definition isspace (c : Z) : bool :=
  (c =? 32) || (c =? 12) || (c =? 10) || (c =? 13) || (c =? 9) || (c =? 11).
Definition isblank (c : Z) : bool := (c =? 32) || (c =? 9).
Definition iscntrl (c : Z) : bool := ((0 <=? c) && (c <? 32)) || (c =? 8).
Definition tolower (c : Z) : Z := if (65 <=? c) && (c <=? 90) then c + 32 else c.
Definition toupper (c : Z) : Z := if (97 <=? c) && (c <=? 122) then c - 32 else c.
Definition _tolower (c : Z) : Z := tolower c.
Definition _toupper (c : Z) : Z := toupper c.

(** [memcpy] copies upwards, [memset] fills downwards, one byte at a time. *)
Fixpoint memcpy (n : nat) (dest src : Z) (m : mem) : mem :=
  match n with
  | O => m
  | S n' => memcpy n' (dest + 1) (src + 1) (fun x => if x =? dest then m src else m x)
  end.
Fixpoint memset (n : nat) (buf val : Z) (m : mem) : mem :=
  match n with
  | O => m
  | S n' => memset n' buf val (st 1 (buf + Z.of_nat n') val m)
  end.

End Libc.

(** ** Properties *)
Import Kernel.


Lemma strlen_spec t r : str_ok t -> strlen (t ++ 0 :: r) = Some (Z.of_nat (length t)).
Proof.
  induction 1 as [|c t Hc Ht IH]; simpl; [done|].
  rewrite (proj2 (Z.eqb_neq c 0)) by (unfold char_ok in Hc; lia). rewrite IH. simpl. f_equal. lia.
Qed.

Lemma libc_strlen_eq s : Libc.strlen s = strlen s.
Proof. induction s as [|c s IH]; simpl; [done|]. by rewrite IH. Qed.

Lemma strcmp_run a b x y :
  str_ok a -> str_ok b ->
  exists d, strcmp (a ++ 0 :: x) (b ++ 0 :: y) = Some d /\ (d = 0 <-> a = b).
Proof.
  intros Ha. revert b. induction Ha as [|c a Hc Ha IH]; intros b Hb; destruct Hb as [|c' b Hc' Hb];
    simpl; unfold char_ok in *.
  - by exists 0.
  - eexists. split; [done|]. split; [|done]. intros H. apply (s8_inj 0 c') in H; lia.
  - rewrite (proj2 (Z.eqb_neq c 0)) by lia. simpl.
    eexists. split; [done|]. split; [|done]. intros H. apply (s8_inj c 0) in H; lia.
  - rewrite (proj2 (Z.eqb_neq c 0)) by lia. simpl. destruct (Z.eqb_spec c c') as [->|N].
    + destruct (IH b Hb) as (d & -> & Hd). exists d. split; [done|].
      rewrite Hd. split; [by intros ->|by injection 1].
    + eexists. split; [done|]. split; [|congruence]. intros H. exfalso. apply N. apply s8_inj; lia.
Qed.

(** [!strcmp(a, b)] on terminated strings, as the kernel uses it. *)
Definition streq (a b : list Z) : bool :=
  match strcmp (a ++ [0]) (b ++ [0]) with Some d => d =? 0 | None => false end.

Lemma streq_spec a b : str_ok a -> str_ok b -> streq a b = bool_decide (a = b).
Proof.
  intros Ha Hb. unfold streq. destruct (strcmp_run a b [] [] Ha Hb) as (d & -> & Hd).
  destruct (Z.eqb_spec d 0); symmetry; [apply bool_decide_eq_true|apply bool_decide_eq_false]; tauto.
Qed.

(** [strcmp] decides equality: on two terminated strings of non-zero bytes it returns
    0 exactly when they are equal, and it never reads past either terminator. *)
Theorem strcmp_decides (a b x y : list Z) :
  str_ok a -> str_ok b ->
  exists d, strcmp (a ++ 0 :: x) (b ++ 0 :: y) = Some d /\ (d = 0 <-> a = b).
Proof. apply strcmp_run. Qed.

Lemma strcmp_decides_witness :
  exists d, strcmp [47; 200; 0; 9] [47; 100; 0] = Some d /\ (d = 0 <-> [47; 200] = [47; 100]).
Proof.
  apply (strcmp_decides [47; 200] [47; 100] [9] []); repeat constructor; vm_compute; done.
Defined.

Lemma strcpy_spec dest t r :
  str_ok t ->
  strcpy dest (t ++ 0 :: r) =
    if (length t <? length dest)%nat then Some (t ++ 0 :: drop (S (length t)) dest) else None.
Proof.
  intros Ht. revert dest. induction Ht as [|c t Hc Ht IH]; intros [|d dest]; try done.
  change ((c :: t) ++ 0 :: r) with (c :: (t ++ 0 :: r)). cbn [strcpy].
  rewrite (proj2 (Z.eqb_neq c 0)) by (unfold char_ok in Hc; lia).
  rewrite IH. change (S (length t) <? S (length dest))%nat with (length t <? length dest)%nat.
  by destruct (_ <? _)%nat.
Qed.

(** [strcat] appends: it overwrites the terminator of the destination with the source
    string and a new terminator, leaves the rest of the array alone, and goes out of bounds
    exactly when the array is too short for both strings and the terminator. *)
Theorem strcat_spec (d t rest r : list Z) :
  str_ok d -> str_ok t ->
  strcat (d ++ 0 :: rest) (t ++ 0 :: r) =
    if (length t <=? length rest)%nat then Some (d ++ t ++ 0 :: drop (length t) rest) else None.
Proof.
  intros Hd Ht. induction Hd as [|c d Hc Hd IH].
  - change (strcat ([] ++ 0 :: rest) (t ++ 0 :: r)) with (strcpy (0 :: rest) (t ++ 0 :: r)).
    rewrite strcpy_spec by done. simpl length.
    replace (length t <? S (length rest))%nat with (length t <=? length rest)%nat; [done|].
    destruct (Nat.leb_spec (length t) (length rest)), (Nat.ltb_spec (length t) (S (length rest))); lia || done.
  - cbn [app strcat]. rewrite (proj2 (Z.eqb_neq c 0)) by (unfold char_ok in Hc; lia).
    rewrite IH. by destruct (_ <=? _)%nat.
Qed.

Lemma strcat_spec_witness :
  strcat [47; 0; 1; 2; 3] [97; 98; 0] = Some [47; 97; 98; 0; 3] /\
  strcat [47; 0; 1] [97; 98; 0] = None.
Proof.
  split.
  - apply (strcat_spec [47] [97; 98] [1; 2; 3] []); repeat constructor; vm_compute; done.
  - apply (strcat_spec [47] [97; 98] [1] []); repeat constructor; vm_compute; done.
Defined.

Lemma strdup_spec t r : str_ok t -> strdup (t ++ 0 :: r) = Some (t ++ [0]).
Proof.
  intros Ht. unfold strdup. rewrite strlen_spec by done. simpl. f_equal.
  replace (Z.to_nat (Z.of_nat (length t) + 1)) with (length t + 1)%nat by lia.
  rewrite take_app_add. done.
Qed.

(** The library's [strncmp] is right on terminated strings: it returns 0 exactly when
    the first [n] bytes (terminators included) agree. *)
Theorem libc_strncmp_spec (a b x y : list Z) (n : nat) :
  str_ok a -> str_ok b ->
  exists d, Libc.strncmp (a ++ 0 :: x) (b ++ 0 :: y) n = Some d /\
    (d = 0 <-> take n (a ++ [0]) = take n (b ++ [0])).
Proof.
  intros Ha Hb. destruct n as [|n]; [by exists 0|]. unfold Libc.strncmp. revert b n Hb.
  induction Ha as [|c a Hc Ha IH]; intros b n Hb; destruct Hb as [|c' b Hc' Hb]; unfold char_ok in *; simpl.
  - exists 0. by destruct n.
  - exists (- c'). destruct n; (split; [done|]); (split; [lia|intros E; injection E; lia]).
  - exists (c - 0). destruct n; simpl; [|rewrite andb_false_r; simpl]; (split; [done|]); (split; [lia|intros E; injection E; lia]).
  - destruct n as [|n].
    + exists (c - c'). split; [done|]. simpl. split; [intros; f_equal; lia|]. injection 1. lia.
    + rewrite (proj2 (Z.eqb_neq c 0)), (proj2 (Z.eqb_neq c' 0)) by lia. simpl.
      destruct (Z.eqb_spec c c') as [->|N].
      * destruct (IH b n Hb) as (d & -> & Hd). exists d. split; [done|]. rewrite Hd.
        split; [by intros ->|by injection 1].
      * exists (c - c'). split; [done|]. split; [lia|congruence].
Qed.

Lemma libc_strncmp_spec_witness :
  exists d, Libc.strncmp [101; 120; 0] [101; 121; 0] 1 = Some d /\
    (d = 0 <-> take 1 [101; 120; 0] = take 1 [101; 121; 0]).
Proof.
  apply (libc_strncmp_spec [101; 120] [101; 121] [] [] 1); repeat constructor; vm_compute; done.
Defined.

(** The kernel's [strncmp] does not stop at a terminator: two equal strings whose arrays
    differ after the terminator compare as different. *)
Theorem strncmp_ignores_terminator :
  exists a x y n, str_ok a /\ strncmp (a ++ 0 :: x) (a ++ 0 :: y) n = Some 1.
Proof. exists [97], [1], [2], 3%nat. split; [repeat constructor; vm_compute; done|reflexivity]. Qed.

(** The library's [strcspn] is wrong for a set of two or more bytes: on [a b] with the set
    [space, tab] it returns 3, the length of the string, although byte 1 is a space. *)
Theorem strcspn_misses_separators :
  Libc.strcspn [97; 32; 98; 0] [32; 9; 0] = Some 3 /\
  Libc.strpbrk [97; 32; 98; 0] [32; 9; 0] = Some None.
Proof. split; reflexivity. Qed.

(** [memmove] copies [l] words of eight bytes, not [l] bytes: a one-byte move changes a
    byte seven places after the destination. *)
Theorem memmove_copies_words :
  exists m, memmove 0 100 1 m 7 <> m 7 /\ forall x, 8 <= x -> memmove 0 100 1 m x = m x.
Proof.
  exists (fun x => if x =? 107 then 5 else 0). split; [vm_compute; discriminate|].
  intros x Hx. change (memmove 0 100 1 (fun x => if x =? 107 then 5 else 0))
    with (st 8 0 (ld 8 (fun x => if x =? 107 then 5 else 0) 100) (fun x => if x =? 107 then 5 else 0)).
  apply st_other. lia.
Qed.

(** ** The C library's memory functions *)

Lemma mod_succ_cases a k : 0 < k -> (a + 1) mod k = if a mod k =? k - 1 then 0 else a mod k + 1.
Proof.
  intros Hk. pose proof (Z.mod_pos_bound a k Hk). pose proof (Z.div_mod a k ltac:(lia)). symmetry.
  destruct (Z.eqb_spec (a mod k) (k - 1)); [apply (Z.mod_unique_pos _ _ (a / k + 1))|apply (Z.mod_unique_pos _ _ (a / k))]; lia.
Qed.

(** The place a byte of the destination is copied from. *)
Lemma libc_memcpy_run (n : nat) (dest src : Z) (m : mem) (x : Z) :
  Libc.memcpy n dest src m x =
    if (dest <=? x) && (x <? dest + Z.of_nat n) then m (src + if src <? dest then (x - dest) mod (dest - src) else x - dest) else m x.
Proof.
  revert dest src m. induction n as [|n IH]; intros dest src m; cbn [Libc.memcpy].
  { destruct (Z.leb_spec dest x), (Z.ltb_spec x (dest + Z.of_nat 0)); cbn; done || lia. }
  rewrite IH, Nat2Z.inj_succ. replace (dest + 1 - (src + 1)) with (dest - src) by lia.
  replace (src + 1 <? dest + 1) with (src <? dest) by (destruct (Z.ltb_spec src dest), (Z.ltb_spec (src + 1) (dest + 1)); lia).
  destruct (Z.leb_spec (dest + 1) x), (Z.ltb_spec x (dest + 1 + Z.of_nat n)), (Z.leb_spec dest x), (Z.ltb_spec x (dest + Z.succ (Z.of_nat n)));
    try lia; cbn [andb]; try (rewrite (proj2 (Z.eqb_neq x dest)) by lia; done).
  - destruct (Z.ltb_spec src dest).
    + replace (x - dest) with (x - (dest + 1) + 1) by lia. rewrite mod_succ_cases by lia.
      set (r := (x - (dest + 1)) mod (dest - src)). destruct (Z.eqb_spec (src + 1 + r) dest), (Z.eqb_spec r (dest - src - 1)); try lia; f_equal; lia.
    + rewrite (proj2 (Z.eqb_neq _ dest)) by lia. f_equal. lia.
  - assert (x = dest) as -> by lia. rewrite Z.eqb_refl, Z.sub_diag. f_equal. destruct (src <? dest); rewrite ?Zmod_0_l; lia.
Qed.

(** [memcpy] is the copy of Prelude.v unless the destination begins inside the source: then the bytes
    in front of the destination are repeated over it.  [memset] is the one of Prelude.v. *)
Theorem libc_memory_spec (n : nat) (a b v : Z) (m : mem) (x : Z) :
  (a <= b \/ b + Z.of_nat n <= a -> Libc.memcpy n a b m x = memcpy a b (Z.of_nat n) m x) /\
  (b < a < b + Z.of_nat n -> a <= x < a + Z.of_nat n -> Libc.memcpy n a b m x = m (b + (x - a) mod (a - b))) /\
  Libc.memset n a v m x = memset a v (Z.of_nat n) m x.
Proof.
  rewrite libc_memcpy_run. split; [|split].
  - intros Hab. unfold memcpy. destruct (Z.leb_spec a x), (Z.ltb_spec x (a + Z.of_nat n)); cbn [andb]; try done.
    destruct (Z.ltb_spec b a); [|done]. by rewrite Z.mod_small by lia.
  - intros Hab Hx. by rewrite (proj2 (Z.leb_le _ _)), (proj2 (Z.ltb_lt _ _)), (proj2 (Z.ltb_lt b a)) by lia.
  - revert m. induction n as [|n IH]; intros m; cbn [Libc.memset]; unfold memset in *.
    { destruct (Z.leb_spec a x), (Z.ltb_spec x (a + Z.of_nat 0)); cbn; done || lia. }
    rewrite IH, Nat2Z.inj_succ. destruct (Z.leb_spec a x), (Z.ltb_spec x (a + Z.of_nat n)), (Z.ltb_spec x (a + Z.succ (Z.of_nat n))); cbn [andb]; try lia; try done.
    all: try (rewrite st_other by lia; done).
    assert (x = a + Z.of_nat n) as -> by lia. cbn [st]. by rewrite Z.eqb_refl.
Qed.
Lemma libc_memory_spec_witness : Libc.memcpy 4 2 1 (fun x => x) 5 = 1 /\ Libc.memcpy 4 1 2 (fun x => x) 4 = 5.
Proof.
  split; [exact (proj1 (proj2 (libc_memory_spec 4 2 1 0 (fun x => x) 5)) ltac:(lia) ltac:(lia))|
    exact (proj1 (libc_memory_spec 4 1 2 0 (fun x => x) 4) ltac:(lia))].
Defined.
