(* ===== verification/Vec.v ===== *)
(** * Growable arrays (src/src/kernel/include/vec.h)

    Every vector of the kernel holds 8-byte elements, so one element is one of the
    words that the kernel's [memmove] copies.  [data] is the allocated array, junk
    slots included; [None] is an access outside it.  [krealloc] is an interface:
    clients need its result size and the preserved prefix. *)
From S2P Require Import Prelude.

Record vec (A : Type) := mk_vec { data : list A; vlength : Z; capacity : Z }.
Arguments mk_vec {A} _ _ _.
Arguments data {A} _.
Arguments vlength {A} _.
Arguments capacity {A} _.

(** What the vector code needs of the allocator; sizes are in elements. *)
Class Realloc (A : Type) := {
  krealloc : list A -> nat -> option (list A);
  krealloc_length d n d' : krealloc d n = Some d' -> length d' = n;
  krealloc_prefix d n d' k : krealloc d n = Some d' -> (k <= length d)%nat -> (k <= n)%nat ->
    take k d' = take k d
}.

(** The allocator of the kernel, which halts rather than fail; new slots hold junk. *)
Definition realloc_fill {A} (junk : A) (d : list A) (n : nat) : list A :=
  take n d ++ replicate (n - length d) junk.

Lemma realloc_fill_length {A} (junk : A) d n : length (realloc_fill junk d n) = n.
Proof. unfold realloc_fill. rewrite length_app, length_take, length_replicate. lia. Qed.

Lemma realloc_fill_prefix {A} (junk : A) d n k :
  (k <= length d)%nat -> (k <= n)%nat -> take k (realloc_fill junk d n) = take k d.
Proof.
  intros. unfold realloc_fill. rewrite take_app_le by (rewrite length_take; lia).
  by rewrite take_take, Nat.min_l by lia.
Qed.

#[export] Program Instance realloc_Z : Realloc Z := {|
  krealloc d n := Some (realloc_fill (-1) d n)
|}.
Next Obligation. intros ??? [= <-]. apply realloc_fill_length. Qed.
Next Obligation. intros ???? [= <-] ??. by apply realloc_fill_prefix. Qed.

Section Ops.
Context {A : Type} `{!Realloc A}.
Implicit Types v : vec A.

(** [vec_expand_], [vec_reserve_], [vec_reserve_po2_], [vec_compact_]: the C return code
    with the new vector. *)
Definition vec_expand_ v : Z * vec A :=
  if capacity v <? s32 (vlength v + 1) then
    let n := if capacity v =? 0 then 1 else s32 (Z.shiftl (capacity v) 1) in
    match krealloc (data v) (Z.to_nat n) with
    | None => (-1, v)
    | Some d => (0, mk_vec d (vlength v) n)
    end
  else (0, v).

Definition vec_reserve_ v (n : Z) : Z * vec A :=
  if capacity v <? n then
    match krealloc (data v) (Z.to_nat n) with
    | None => (-1, v)
    | Some d => (0, mk_vec d (vlength v) n)
    end
  else (0, v).

(** [while (n2 < n) n2 <<= 1], 31 doublings cover every [int]. *)
Fixpoint po2_up (fuel : nat) (n2 n : Z) : Z :=
  match fuel with
  | O => n2
  | S f => if n2 <? n then po2_up f (s32 (Z.shiftl n2 1)) n else n2
  end.

Definition vec_reserve_po2_ v (n : Z) : Z * vec A :=
  if n =? 0 then (0, v) else vec_reserve_ v (po2_up 31 1 n).

Definition vec_compact_ v : Z * vec A :=
  if vlength v =? 0 then (0, mk_vec [] (vlength v) 0)
  else
    match krealloc (data v) (Z.to_nat (vlength v)) with
    | None => (-1, v)
    | Some d => (0, mk_vec d (vlength v) (vlength v))
    end.

(** [memmove] on the array: [n] words, one at a time, forwards or backwards. *)
Fixpoint move_up (n dst src : nat) (d : list A) : option (list A) :=
  match n with
  | O => Some d
  | S n' =>
      x ← d !! src; _ ← d !! dst;
      move_up n' (S dst) (S src) (<[dst := x]> d)
  end.
Fixpoint move_down (n dst src : nat) (d : list A) : option (list A) :=
  match n with
  | O => Some d
  | S n' =>
      x ← d !! (src + n')%nat; _ ← d !! (dst + n')%nat;
      move_down n' dst src (<[(dst + n')%nat := x]> d)
  end.
Definition move_words (dst src n : Z) (d : list A) : option (list A) :=
  if dst <? src then move_up (Z.to_nat n) (Z.to_nat dst) (Z.to_nat src) d
  else if src <? dst then move_down (Z.to_nat n) (Z.to_nat dst) (Z.to_nat src) d
  else Some d.

(** [memsz]: the byte size of an element, passed to [memmove] as a count of words. *)
Definition memsz : Z := 8.

Definition vec_insert_ v (idx : Z) : option (Z * vec A) :=
  let '(err, v) := vec_expand_ v in
  if truthy err then Some (err, v)
  else
    d ← move_words (idx + 1) idx ((vlength v - idx) * memsz) (data v);
    Some (0, mk_vec d (vlength v) (capacity v)).

Definition vec_splice_ v (start count : Z) : option (vec A) :=
  d ← move_words start (start + count) ((vlength v - start - count) * memsz) (data v);
  Some (mk_vec d (vlength v) (capacity v)).

Definition vec_swapsplice_ v (start count : Z) : option (vec A) :=
  d ← move_words start (vlength v - count) (count * memsz) (data v);
  Some (mk_vec d (vlength v) (capacity v)).

Definition vec_swap_ v (idx1 idx2 : Z) : option (vec A) :=
  if idx1 =? idx2 then Some v
  else
    a ← data v !! Z.to_nat idx1; b ← data v !! Z.to_nat idx2;
    Some (mk_vec (<[Z.to_nat idx2 := a]> (<[Z.to_nat idx1 := b]> (data v))) (vlength v) (capacity v)).

(** ** The macros *)

Definition vec_push v (x : A) : option (Z * vec A) :=
  let '(err, v) := vec_expand_ v in
  if truthy err then Some (-1, v)
  else
    _ ← data v !! Z.to_nat (vlength v);
    Some (0, mk_vec (<[Z.to_nat (vlength v) := x]> (data v)) (s32 (vlength v + 1)) (capacity v)).

Definition vec_pop v : option (A * vec A) :=
  x ← data v !! Z.to_nat (vlength v - 1);
  Some (x, mk_vec (data v) (vlength v - 1) (capacity v)).

Definition vec_splice v (start count : Z) : option (vec A) :=
  v' ← vec_splice_ v start count;
  Some (mk_vec (data v') (vlength v' - count) (capacity v')).

Definition vec_swapsplice v (start count : Z) : option (vec A) :=
  v' ← vec_swapsplice_ v start count;
  Some (mk_vec (data v') (vlength v' - count) (capacity v')).

(** [vec_insert] bumps the length even when [vec_insert_] reports an error. *)
Definition vec_insert v (idx : Z) (x : A) : option (Z * vec A) :=
  '(err, v') ← vec_insert_ v idx;
  if truthy err then Some (0, mk_vec (data v') (vlength v' + 1) (capacity v'))
  else
    _ ← data v' !! Z.to_nat idx;
    Some (0, mk_vec (<[Z.to_nat idx := x]> (data v')) (vlength v' + 1) (capacity v')).

Definition vec_truncate v (len : Z) : vec A :=
  mk_vec (data v) (if len <? vlength v then len else vlength v) (capacity v).
Definition vec_clear v : vec A := mk_vec (data v) 0 (capacity v).
Definition vec_first v : option A := data v !! 0%nat.
Definition vec_last v : option A := data v !! Z.to_nat (vlength v - 1).

(** [vec_pusharr]: no element is pushed when the reservation fails. *)
Fixpoint push_all (xs : list A) v : option (vec A) :=
  match xs with
  | [] => Some v
  | x :: xs' =>
      _ ← data v !! Z.to_nat (vlength v);
      push_all xs' (mk_vec (<[Z.to_nat (vlength v) := x]> (data v)) (vlength v + 1) (capacity v))
  end.
Definition vec_pusharr v (arr : list A) : option (vec A) :=
  let '(err, v') := vec_reserve_po2_ v (vlength v + Z.of_nat (length arr)) in
  if truthy err then Some v' else push_all arr v'.
Definition vec_extend v v2 : option (vec A) :=
  vec_pusharr v (take (Z.to_nat (vlength v2)) (data v2)).

Context `{!EqDecision A}.

(** The loop of [vec_find]: [rem] is [length - idx]. *)
Fixpoint find_from (rem : nat) (idx : Z) (d : list A) (x : A) : option Z :=
  match rem with
  | O => Some (-1)
  | S rem' =>
      y ← d !! Z.to_nat idx;
      if decide (y = x) then Some idx else find_from rem' (idx + 1) d x
  end.
Definition vec_find v (x : A) : option Z :=
  find_from (Z.to_nat (vlength v)) 0 (data v) x.

Definition vec_remove v (x : A) : option (vec A) :=
  idx ← vec_find v x;
  if idx =? -1 then Some v else vec_splice v idx 1.

(** [i__] counts down from [length / 2]. *)
Fixpoint reverse_loop (i : nat) v : option (vec A) :=
  match i with
  | O => Some v
  | S i' => v' ← vec_swap_ v (Z.of_nat i') (vlength v - (Z.of_nat i' + 1)); reverse_loop i' v'
  end.
Definition vec_reverse v : option (vec A) := reverse_loop (Z.to_nat (vlength v / 2)) v.

End Ops.

(** ** The abstract list *)
Section Spec.
Context {A : Type} `{!Realloc A}.
Implicit Types v : vec A.

Definition contents v : list A := take (Z.to_nat (vlength v)) (data v).

(** The invariant of a vector; the bound keeps the doubled capacity an [int]. *)
Record vec_ok v : Prop := mk_vec_ok {
  vec_length : 0 <= vlength v <= capacity v;
  vec_capacity : capacity v <= Z.of_nat (length (data v));
  vec_int : capacity v < 2 ^ 30
}.

Lemma vec_expand_ok v :
  vec_ok v -> fst (vec_expand_ v) = 0 ->
  let w := snd (vec_expand_ v) in
  vlength w = vlength v /\ contents w = contents v /\
  vlength v + 1 <= capacity w <= Z.of_nat (length (data w)) /\
  (capacity w = capacity v \/ capacity w = 2 * vlength v \/ capacity w = 1).
Proof.
  intros [Hl Hc Hi] E. unfold vec_expand_ in *. rewrite s32_small in * by lia.
  destruct (Z.ltb_spec (capacity v) (vlength v + 1)) as [Hlt|Hge]; simpl; [|repeat split; try lia; auto].
  set (n := if capacity v =? 0 then 1 else s32 (Z.shiftl (capacity v) 1)) in *.
  assert (Hn : n = 1 /\ capacity v = 0 \/ n = 2 * capacity v /\ 0 < capacity v).
  { subst n. destruct (Z.eqb_spec (capacity v) 0); [auto|right].
    rewrite Z.shiftl_mul_pow2 by lia. rewrite s32_small; lia. }
  destruct (krealloc (data v) (Z.to_nat n)) as [d|] eqn:Hk; [|discriminate E]. simpl.
  pose proof (krealloc_length _ _ _ Hk) as HL. split; [done|]. split.
  - unfold contents. simpl. apply (krealloc_prefix _ _ _ _ Hk); lia.
  - rewrite HL. split; [lia|]. destruct Hn as [[-> ?]|[-> ?]]; [auto|right; left; lia].
Qed.

Lemma vec_expand_fail v : fst (vec_expand_ v) <> 0 -> vec_expand_ v = (-1, v).
Proof.
  unfold vec_expand_. destruct (_ <? _); [|done].
  destruct (krealloc _ _) as [d|]; [done|done].
Qed.

Lemma vec_push_run (v : vec A) (x : A) :
  vec_ok v -> vlength v < 2 ^ 29 ->
  exists r w, vec_push v x = Some (r, w) /\
    (r = 0 /\ contents w = contents v ++ [x] /\ vec_ok w \/ r = -1 /\ w = v).
Proof.
  intros Hok Hb. unfold vec_push. destruct (decide (fst (vec_expand_ v) = 0)) as [E|E].
  - destruct (vec_expand_ok v Hok E) as (HL & HC & Hcap & Hgrow).
    destruct (vec_expand_ v) as [err w]. simpl in *. subst err. simpl.
    destruct Hok as [Hl Hc Hi].
    destruct (lookup_Z_Some (data w) (vlength w)) as [y Hy]; [lia|]. rewrite Hy. simpl.
    eexists 0, _. split; [done|]. left. split; [done|]. rewrite s32_small by lia. split.
    + unfold contents in *. simpl. rewrite <- HC, HL.
      replace (Z.to_nat (vlength v + 1)) with (S (Z.to_nat (vlength v))) by lia.
      rewrite (take_S_r _ _ x) by (apply list_lookup_insert_eq; lia). f_equal.
      by rewrite take_insert_ge by lia.
    + constructor; simpl; rewrite ?length_insert; lia.
  - rewrite (vec_expand_fail v E). simpl. eexists (-1), v. auto.
Qed.

(** [vec_push] refines appending to a list: on a well-formed vector it never leaves the
    array, and it either returns 0 with the element appended and the invariant kept, or
    returns -1 with the vector unchanged (only when [krealloc] fails). *)
Theorem vec_push_refines (v : vec A) (x : A) :
  vec_ok v -> vlength v < 2 ^ 29 ->
  exists r w, vec_push v x = Some (r, w) /\
    (r = 0 /\ contents w = contents v ++ [x] /\ vec_ok w \/ r = -1 /\ w = v).
Proof. apply vec_push_run. Qed.

Lemma move_up_lookup n dst src (d : list A) :
  (dst < src)%nat -> (src + n <= length d)%nat ->
  exists d', move_up n dst src d = Some d' /\ length d' = length d /\
    forall k, d' !! k = if decide (dst <= k < dst + n)%nat then d !! (k - dst + src)%nat else d !! k.
Proof.
  revert dst src d. induction n as [|n IH]; intros dst src d Hlt Hle; simpl.
  - exists d. split; [done|]. split; [done|]. intros k. rewrite decide_False by lia. done.
  - destruct (lookup_lt_is_Some_2 d src) as [x Hx]; [lia|].
    destruct (lookup_lt_is_Some_2 d dst) as [y Hy]; [lia|]. rewrite Hx, Hy. simpl.
    destruct (IH (S dst) (S src) (<[dst := x]> d)) as (d' & -> & HL & HU); [lia|rewrite length_insert; lia|].
    exists d'. split; [done|]. split; [by rewrite HL, length_insert|]. intros k. rewrite HU.
    destruct (decide (k = dst)) as [->|Hne].
    + rewrite decide_False by lia. rewrite decide_True by lia.
      rewrite list_lookup_insert_eq by lia. by replace (dst - dst + src)%nat with src by lia.
    + destruct (decide (dst <= k < dst + S n)%nat).
      * rewrite decide_True by lia. rewrite list_lookup_insert_ne by lia. f_equal. lia.
      * rewrite decide_False by lia. by rewrite list_lookup_insert_ne by lia.
Qed.

Lemma move_up_oob n dst src (d : list A) :
  (dst < src)%nat -> (0 < n)%nat -> (length d < src + n)%nat -> move_up n dst src d = None.
Proof.
  revert dst src d. induction n as [|n IH]; intros dst src d Hlt H0 Hle; simpl; [lia|].
  destruct (d !! src) as [x|] eqn:Hx; [|done]. simpl. apply lookup_lt_Some in Hx.
  destruct (d !! dst) as [y|] eqn:Hy; [|done]. simpl. apply IH; [lia|lia|rewrite length_insert; lia].
Qed.

Context `{!EqDecision A}.

Lemma find_from_spec rem i (d : list A) x :
  (Z.to_nat i + rem <= length d)%nat -> 0 <= i ->
  exists r, find_from rem i d x = Some r /\
    (r = -1 /\ (forall k, (Z.to_nat i <= k < Z.to_nat i + rem)%nat -> d !! k <> Some x) \/
     i <= r < i + Z.of_nat rem /\ d !! Z.to_nat r = Some x /\
       (forall k, (Z.to_nat i <= k < Z.to_nat r)%nat -> d !! k <> Some x)).
Proof.
  revert i. induction rem as [|rem IH]; intros i Hl Hi; simpl.
  - exists (-1). split; [done|]. left. split; [done|]. intros; lia.
  - destruct (lookup_lt_is_Some_2 d (Z.to_nat i)) as [y Hy]; [lia|]. rewrite Hy. simpl.
    destruct (decide (y = x)) as [->|Hne].
    + exists i. split; [done|]. right. split; [lia|]. split; [done|]. intros; lia.
    + destruct (IH (i + 1)) as (r & -> & Hr); [lia|lia|]. exists r. split; [done|].
      destruct Hr as [[-> H]|(Hr & Hx & H)]; [left; split; [done|]|right; split; [lia|]; split; [done|]];
        intros k Hk; (destruct (decide (k = Z.to_nat i)) as [->|]; [congruence|]; apply H; lia).
Qed.

Lemma delete_lookup (l d' : list A) i n :
  (i < n)%nat -> (n <= length l)%nat -> (n - 1 <= length d')%nat ->
  (forall k, (k < n - 1)%nat -> d' !! k = if decide (i <= k)%nat then l !! (k - i + S i)%nat else l !! k) ->
  take (n - 1) d' = take i (take n l) ++ drop (S i) (take n l).
Proof.
  intros Hi Hn Hd H. apply list_eq. intros k.
  destruct (decide (k < n - 1)%nat) as [Hk|Hk].
  - rewrite lookup_take_lt, H by done. rewrite take_take, Nat.min_l by lia.
    destruct (decide (i <= k)%nat).
    + rewrite lookup_app_r by (rewrite length_take; lia). rewrite length_take, Nat.min_l by lia.
      rewrite lookup_drop, lookup_take_lt by lia. f_equal. lia.
    + rewrite lookup_app_l by (rewrite length_take; lia). by rewrite lookup_take_lt by lia.
  - rewrite lookup_take_ge by lia. symmetry. apply lookup_ge_None_2.
    rewrite length_app, length_drop, !length_take. lia.
Qed.

(** [vec_remove] deletes the first occurrence and keeps the invariant, but it moves eight
    times as many elements as remain ([memmove] counts words, the caller passes bytes): it
    stays inside the array exactly when the element is absent, is the last one, or the array
    has room for the inflated move. *)
Theorem vec_remove_spec (v : vec A) (x : A) :
  vec_ok v ->
  ((x ∉ contents v) /\ vec_remove v x = Some v) \/
  exists i, contents v !! i = Some x /\ (x ∉ take i (contents v)) /\
    let moved := (8 * (Z.to_nat (vlength v) - i - 1))%nat in
    if decide (moved = 0 \/ i + 1 + moved <= length (data v))%nat then
      exists w, vec_remove v x = Some w /\ vec_ok w /\
        contents w = take i (contents v) ++ drop (S i) (contents v)
    else vec_remove v x = None.
Proof.
  intros Hok. pose proof Hok as [Hl Hc Hi]. unfold vec_remove, vec_find.
  destruct (find_from_spec (Z.to_nat (vlength v)) 0 (data v) x) as (r & -> & Hr); [lia|lia|]. simpl.
  destruct Hr as [[-> Hno]|(Hr & Hx & Hbefore)].
  - left. split; [|done]. intros Hin. apply list_elem_of_lookup in Hin as [k Hk].
    unfold contents in Hk. apply lookup_take_Some in Hk as [Hk ?]. apply (Hno k); [lia|done].
  - right. exists (Z.to_nat r). rewrite (proj2 (Z.eqb_neq r (-1))) by lia.
    split; [unfold contents; by rewrite lookup_take_lt by lia|]. split.
    { intros Hin. apply list_elem_of_lookup in Hin as [k Hk]. unfold contents in Hk.
      apply lookup_take_Some in Hk as [Hk ?]. apply lookup_take_Some in Hk as [Hk ?].
      apply (Hbefore k); [lia|done]. }
    cbn zeta. unfold vec_splice, vec_splice_, move_words. rewrite (proj2 (Z.ltb_lt r (r + 1))) by lia.
    replace (Z.to_nat ((vlength v - r - 1) * memsz)) with (8 * (Z.to_nat (vlength v) - Z.to_nat r - 1))%nat
      by (unfold memsz; lia).
    set (n := (8 * _)%nat). case_decide as Hd.
    + assert (Hmv : exists d', move_up n (Z.to_nat r) (Z.to_nat (r + 1)) (data v) = Some d' /\
        length d' = length (data v) /\ forall k, d' !! k = if decide (Z.to_nat r <= k < Z.to_nat r + n)%nat
          then data v !! (k - Z.to_nat r + Z.to_nat (r + 1))%nat else data v !! k).
      { destruct (decide (n = 0)%nat) as [->|]; [|apply move_up_lookup; lia].
        exists (data v). split; [done|]. split; [done|]. intros k. rewrite decide_False by lia. done. }
      destruct Hmv as (d' & -> & HL & HU). simpl. eexists. split; [done|]. split.
      { constructor; simpl; lia. }
      unfold contents. simpl. replace (Z.to_nat (vlength v - 1)) with (Z.to_nat (vlength v) - 1)%nat by lia.
      apply delete_lookup; [lia|lia|lia|]. intros k Hk. rewrite HU.
      replace (Z.to_nat (r + 1)) with (S (Z.to_nat r)) by lia.
      destruct (decide (Z.to_nat r <= k)%nat); [rewrite decide_True by lia; done|by rewrite decide_False by lia].
    + by rewrite move_up_oob by lia.
Qed.

End Spec.

Lemma vec_push_refines_witness :
  exists r w, vec_push (mk_vec [7] 1 1) 8 = Some (r, w) /\
    (r = 0 /\ contents w = contents (mk_vec [7] 1 1) ++ [8] /\ vec_ok w \/ r = -1 /\ w = mk_vec [7] 1 1).
Proof. apply (vec_push_refines (mk_vec [7] 1 1) 8); [constructor; closed_Z|closed_Z]. Defined.

(** A full vector of two elements: removing the first one runs out of the array. *)
Lemma vec_remove_spec_witness :
  ((8 ∉ contents (mk_vec [7; 8] 2 2)) /\ vec_remove (mk_vec [7; 8] 2 2) 8 = Some (mk_vec [7; 8] 2 2)) \/
  exists i, contents (mk_vec [7; 8] 2 2) !! i = Some 8 /\ (8 ∉ take i (contents (mk_vec [7; 8] 2 2))) /\
    let moved := (8 * (Z.to_nat (vlength (mk_vec [7; 8] 2 2)) - i - 1))%nat in
    if decide (moved = 0 \/ i + 1 + moved <= length (data (mk_vec [7; 8] 2 2)))%nat then
      exists w, vec_remove (mk_vec [7; 8] 2 2) 8 = Some w /\ vec_ok w /\
        contents w = take i (contents (mk_vec [7; 8] 2 2)) ++ drop (S i) (contents (mk_vec [7; 8] 2 2))
    else vec_remove (mk_vec [7; 8] 2 2) 8 = None.
Proof. apply (vec_remove_spec (mk_vec [7; 8] 2 2) 8). constructor; closed_Z. Defined.

Example vec_remove_first_of_two : vec_remove (mk_vec [7; 8] 2 2) 7 = None.
Proof. reflexivity. Qed.
