(* ===== verification/Dll.v ===== *)
(** * Doubly linked lists in an address-indexed store

    liballoc.c keeps two kinds of intrusive doubly linked lists: the list of majors and,
    in every major, the list of minors.  [dll m prev l next] says that the nodes [l] are
    linked in [m] in this order, between the nodes at [prev] and [next] (0 for none). *)
From S2P Require Import Prelude.

Section Dll.
Context {T C : Type} (addr : T -> Z) (enc : T -> Z -> Z -> C).
Implicit Types (l : list T) (m : gmap Z C).

Definition hd_addr l (next : Z) : Z := match l with [] => next | x :: _ => addr x end.

Fixpoint lst_addr l (prev : Z) : Z :=
  match l with [] => prev | x :: l' => lst_addr l' (addr x) end.

Fixpoint dll m (prev : Z) l (next : Z) : Prop :=
  match l with
  | [] => True
  | x :: l' => m !! addr x = Some (enc x prev (hd_addr l' next)) /\ dll m (addr x) l' next
  end.

Lemma hd_addr_app l1 l2 next : hd_addr (l1 ++ l2) next = hd_addr l1 (hd_addr l2 next).
Proof. by destruct l1. Qed.

Lemma lst_addr_app l1 l2 prev : lst_addr (l1 ++ l2) prev = lst_addr l2 (lst_addr l1 prev).
Proof. revert prev. induction l1; intros; simpl; auto. Qed.

Lemma lst_addr_in l prev : lst_addr l prev = prev \/ exists x, x ∈ l /\ lst_addr l prev = addr x.
Proof.
  revert prev. induction l as [|x l IH]; intros prev; simpl; [by left|].
  destruct (IH (addr x)) as [->|(y & Hy & ->)]; right; [exists x|exists y]; set_solver.
Qed.

Lemma dll_app m prev l1 l2 next :
  dll m prev (l1 ++ l2) next <->
  dll m prev l1 (hd_addr l2 next) /\ dll m (lst_addr l1 prev) l2 next.
Proof.
  revert prev. induction l1 as [|x l1 IH]; intros prev; simpl; [tauto|].
  rewrite IH, hd_addr_app. tauto.
Qed.

Lemma dll_lookup m prev l1 x l2 next :
  dll m prev (l1 ++ x :: l2) next ->
  m !! addr x = Some (enc x (lst_addr l1 prev) (hd_addr l2 next)).
Proof. rewrite dll_app. simpl. tauto. Qed.

(** The predicate only depends on the cells of its nodes. *)
Lemma dll_ext m m' prev l next :
  (forall x, x ∈ l -> m' !! addr x = m !! addr x) -> dll m prev l next -> dll m' prev l next.
Proof.
  revert prev. induction l as [|x l IH]; intros prev Hm; simpl; [done|].
  intros [Hx Hl]. split; [rewrite Hm; [done|set_solver]|].
  apply IH; [|done]. intros y Hy. apply Hm. set_solver.
Qed.

Lemma dll_frame m prev l next a v :
  a ∉ (addr <$> l) -> dll m prev l next -> dll (<[a := v]> m) prev l next.
Proof.
  intros Ha. apply dll_ext. intros x Hx. rewrite lookup_insert_ne; [done|].
  intros ->. apply Ha. by apply list_elem_of_fmap_2.
Qed.

Lemma hd_addr_unframe l next a : a ∉ (addr <$> l) -> hd_addr l next = a -> next = a.
Proof. destruct l; simpl; [done|]. intros Ha <-. set_solver. Qed.

(** A node replaced in place. *)
Lemma dll_update m prev l1 x y l2 next :
  NoDup (addr <$> (l1 ++ x :: l2)) -> addr y = addr x ->
  dll m prev (l1 ++ x :: l2) next ->
  dll (<[addr x := enc y (lst_addr l1 prev) (hd_addr l2 next)]> m) prev (l1 ++ y :: l2) next.
Proof.
  intros Hnd Hy. rewrite fmap_app, fmap_cons in Hnd. apply NoDup_app in Hnd as (H1 & H2 & H3).
  apply NoDup_cons in H3 as [H3 H4]. rewrite !dll_app. simpl. rewrite Hy.
  intros (Hl1 & Hx & Hl2). split; [|split].
  - apply dll_frame; [|done]. intros H. apply (H2 _ H). set_solver.
  - by rewrite lookup_insert_eq.
  - by apply dll_frame.
Qed.

(** The last node gets another successor. *)
Lemma dll_set_next m prev l x next next' :
  NoDup (addr <$> (l ++ [x])) -> dll m prev (l ++ [x]) next ->
  dll (<[addr x := enc x (lst_addr l prev) next']> m) prev (l ++ [x]) next'.
Proof.
  intros Hnd. rewrite fmap_app in Hnd. apply NoDup_app in Hnd as (H1 & H2 & _).
  rewrite !dll_app. simpl. intros (Hl & Hx & _). split; [|split; [|done]].
  - apply dll_frame; [|done]. intros H. apply (H2 _ H). set_solver.
  - by rewrite lookup_insert_eq.
Qed.

(** The first node gets another predecessor. *)
Lemma dll_set_prev m prev prev' x l next :
  NoDup (addr <$> (x :: l)) -> dll m prev (x :: l) next ->
  dll (<[addr x := enc x prev' (hd_addr l next)]> m) prev' (x :: l) next.
Proof.
  intros Hnd [Hx Hl]. apply NoDup_cons in Hnd as [Hn _]. split.
  - by rewrite lookup_insert_eq.
  - by apply dll_frame.
Qed.

(** A fresh node written behind the list. *)
Lemma dll_snoc m prev l x next :
  addr x ∉ (addr <$> l) -> dll m prev l (addr x) ->
  dll (<[addr x := enc x (lst_addr l prev) next]> m) prev (l ++ [x]) next.
Proof.
  intros Hn Hl. rewrite dll_app. split; [by apply dll_frame|].
  simpl. by rewrite lookup_insert_eq.
Qed.

(** A fresh node [c] written between [x] and [z]. *)
Lemma dll_insert_mid m prev k x c z l next :
  NoDup (addr <$> (k ++ x :: z :: l)) -> addr c ∉ (addr <$> (k ++ x :: z :: l)) ->
  dll m prev (k ++ x :: z :: l) next ->
  dll (<[addr x := enc x (lst_addr k prev) (addr c)]>
        (<[addr z := enc z (addr c) (hd_addr l next)]>
          (<[addr c := enc c (addr x) (addr z)]> m))) prev (k ++ x :: c :: z :: l) next.
Proof.
  intros Hnd Hc H. rewrite fmap_app in Hnd, Hc. cbn in Hnd, Hc.
  rewrite elem_of_app, !elem_of_cons in Hc.
  apply NoDup_app in Hnd as (_ & Hk & Hnd). apply NoDup_cons in Hnd as [Hx Hnd].
  rewrite elem_of_cons in Hx.
  apply NoDup_cons in Hnd as [Hz _]. rewrite dll_app in *. simpl in *.
  destruct H as (H1 & H2 & H3 & H4). repeat split.
  - assert (Hz' : addr z ∉ (addr <$> k)) by (intros He; apply (Hk _ He); set_solver).
    assert (Hx' : addr x ∉ (addr <$> k)) by (intros He; apply (Hk _ He); set_solver).
    repeat apply dll_frame; tauto.
  - by rewrite lookup_insert_eq.
  - rewrite !lookup_insert_ne, lookup_insert_eq by (intros E; rewrite E in *; tauto). done.
  - rewrite lookup_insert_ne, lookup_insert_eq by (intros E; rewrite E in *; tauto). done.
  - repeat apply dll_frame; auto; tauto.
Qed.

(** A node taken out: its neighbours are linked, the other nodes keep their cells. *)
Lemma dll_remove m m' prev k x l next :
  dll m prev (k ++ x :: l) next ->
  (forall z l', l = z :: l' -> m' !! addr z = Some (enc z (lst_addr k prev) (hd_addr l' next))) ->
  (forall y k', k = k' ++ [y] -> m' !! addr y = Some (enc y (lst_addr k' prev) (hd_addr l next))) ->
  (forall w k' y, k = k' ++ [y] -> w ∈ k' -> m' !! addr w = m !! addr w) ->
  (forall w z l', l = z :: l' -> w ∈ l' -> m' !! addr w = m !! addr w) ->
  dll m' prev (k ++ l) next.
Proof.
  intros H Hz Hy Hk Hl. apply dll_app in H as [H1 H2]. simpl in H2. destruct H2 as [_ H2].
  apply dll_app. split.
  - destruct k as [|y k _] using rev_ind; [done|]. apply dll_app in H1 as [H1 _]. apply dll_app. split.
    + apply dll_ext with m; [|done]. intros w Hw. by apply (Hk w k y).
    + simpl. split; [|done]. by apply Hy.
  - destruct l as [|z l]; [done|]. destruct H2 as [_ H2]. split; [by apply Hz|].
    apply dll_ext with m; [|done]. intros w Hw. by apply (Hl w z l).
Qed.
End Dll.
