(* ===== verification/Liballoc.v ===== *)
(** * liballoc (src/src/kernel/mm/liballoc.c; src/src/libc/src/sys/liballoc.c is the same text)

    The heap allocator: a list of "major" blocks obtained from the page hooks, each
    holding a list of "minor" headers with the memory handed to the caller behind them.

    The structures live in typed maps from their address ([majors], [minors]); the bytes
    that [ALIGN] writes in front of a returned pointer, and the caller's data, live in
    [bytes].  A dereference of an address that holds no structure is [Fault].  The hooks
    of liballoc.h are an interface with two implementations (see Kheap.v). *)
From S2P Require Import Prelude.

(** The functions liballoc.h asks the host system for. *)
Class Hooks (P : Type) := {
  liballoc_lock : M P Z;
  liballoc_unlock : M P Z;
  liballoc_alloc_pages : Z -> M P Z;
  liballoc_free_pages : Z -> Z -> M P Z
}.

Record liballoc_major := mk_major {
  mj_prev : Z; mj_next : Z; mj_pages : Z; mj_size : Z; mj_usage : Z; mj_first : Z
}.
Record liballoc_minor := mk_minor {
  mn_prev : Z; mn_next : Z; mn_block : Z; mn_magic : Z; mn_size : Z; mn_req_size : Z
}.

Definition LIBALLOC_MAGIC : Z := 0xc001c0de.
Definition LIBALLOC_DEAD : Z := 0xdeaddead.
Definition ALIGNMENT : Z := 16.
Definition ALIGN_INFO : Z := 16.
Definition sizeof_major : Z := 40.
Definition sizeof_minor : Z := 40.
Definition l_pageSize : Z := 4096.
Definition l_pageCount : Z := 16.

Record lstate (P : Type) := mk_lstate {
  majors : gmap Z liballoc_major;
  minors : gmap Z liballoc_minor;
  bytes : mem;
  l_memRoot : Z;
  l_bestBet : Z;
  l_allocated : Z;
  l_inuse : Z;
  l_warningCount : Z;
  l_errorCount : Z;
  l_possibleOverruns : Z;
  provider : P
}.
Arguments mk_lstate {P}.
Arguments majors {P}. Arguments minors {P}. Arguments bytes {P}. Arguments l_memRoot {P}.
Arguments l_bestBet {P}. Arguments l_allocated {P}. Arguments l_inuse {P}.
Arguments l_warningCount {P}. Arguments l_errorCount {P}. Arguments l_possibleOverruns {P}.
Arguments provider {P}.

Section Setters.
Context {P : Type}.
Implicit Types s : lstate P.

Definition set_majors (x : gmap Z liballoc_major) s := mk_lstate x (minors s) (bytes s) (l_memRoot s) (l_bestBet s)
  (l_allocated s) (l_inuse s) (l_warningCount s) (l_errorCount s) (l_possibleOverruns s) (provider s).
Definition set_minors (x : gmap Z liballoc_minor) s := mk_lstate (majors s) x (bytes s) (l_memRoot s) (l_bestBet s)
  (l_allocated s) (l_inuse s) (l_warningCount s) (l_errorCount s) (l_possibleOverruns s) (provider s).
Definition set_bytes (x : mem) s := mk_lstate (majors s) (minors s) x (l_memRoot s) (l_bestBet s)
  (l_allocated s) (l_inuse s) (l_warningCount s) (l_errorCount s) (l_possibleOverruns s) (provider s).
Definition set_memRoot (x : Z) s := mk_lstate (majors s) (minors s) (bytes s) x (l_bestBet s)
  (l_allocated s) (l_inuse s) (l_warningCount s) (l_errorCount s) (l_possibleOverruns s) (provider s).
Definition set_bestBet (x : Z) s := mk_lstate (majors s) (minors s) (bytes s) (l_memRoot s) x
  (l_allocated s) (l_inuse s) (l_warningCount s) (l_errorCount s) (l_possibleOverruns s) (provider s).
Definition set_allocated (x : Z) s := mk_lstate (majors s) (minors s) (bytes s) (l_memRoot s) (l_bestBet s)
  x (l_inuse s) (l_warningCount s) (l_errorCount s) (l_possibleOverruns s) (provider s).
Definition set_inuse (x : Z) s := mk_lstate (majors s) (minors s) (bytes s) (l_memRoot s) (l_bestBet s)
  (l_allocated s) x (l_warningCount s) (l_errorCount s) (l_possibleOverruns s) (provider s).
Definition set_counts (w e o : Z) s := mk_lstate (majors s) (minors s) (bytes s) (l_memRoot s) (l_bestBet s)
  (l_allocated s) (l_inuse s) w e o (provider s).
Definition set_provider (x : P) s := mk_lstate (majors s) (minors s) (bytes s) (l_memRoot s) (l_bestBet s)
  (l_allocated s) (l_inuse s) (l_warningCount s) (l_errorCount s) (l_possibleOverruns s) x.

Definition warn : M (lstate P) unit := modify (fun s =>
  set_counts (l_warningCount s + 1) (l_errorCount s) (l_possibleOverruns s) s).

(** Loads and stores of whole structures and of their fields. *)
Definition get_major (p : Z) : M (lstate P) liballoc_major := fun s =>
  match majors s !! p with Some m => Done (m, s) | None => Fault end.
Definition get_minor (p : Z) : M (lstate P) liballoc_minor := fun s =>
  match minors s !! p with Some m => Done (m, s) | None => Fault end.
Definition put_major (p : Z) (m : liballoc_major) : M (lstate P) unit :=
  modify (fun s => set_majors (<[p := m]> (majors s)) s).
Definition put_minor (p : Z) (m : liballoc_minor) : M (lstate P) unit :=
  modify (fun s => set_minors (<[p := m]> (minors s)) s).

Definition major_next (x : Z) (m : liballoc_major) := mk_major (mj_prev m) x (mj_pages m) (mj_size m) (mj_usage m) (mj_first m).
Definition major_prev (x : Z) (m : liballoc_major) := mk_major x (mj_next m) (mj_pages m) (mj_size m) (mj_usage m) (mj_first m).
Definition major_usage (x : Z) (m : liballoc_major) := mk_major (mj_prev m) (mj_next m) (mj_pages m) (mj_size m) x (mj_first m).
Definition major_first (x : Z) (m : liballoc_major) := mk_major (mj_prev m) (mj_next m) (mj_pages m) (mj_size m) (mj_usage m) x.
Definition minor_next (x : Z) (m : liballoc_minor) := mk_minor (mn_prev m) x (mn_block m) (mn_magic m) (mn_size m) (mn_req_size m).
Definition minor_prev (x : Z) (m : liballoc_minor) := mk_minor x (mn_next m) (mn_block m) (mn_magic m) (mn_size m) (mn_req_size m).
Definition minor_magic (x : Z) (m : liballoc_minor) := mk_minor (mn_prev m) (mn_next m) (mn_block m) x (mn_size m) (mn_req_size m).
Definition minor_req (x : Z) (m : liballoc_minor) := mk_minor (mn_prev m) (mn_next m) (mn_block m) (mn_magic m) (mn_size m) x.

Definition mod_major (p : Z) (f : liballoc_major -> liballoc_major) : M (lstate P) unit :=
  m ← get_major p; put_major p (f m).
Definition mod_minor (p : Z) (f : liballoc_minor -> liballoc_minor) : M (lstate P) unit :=
  m ← get_minor p; put_minor p (f m).

(** Running a hook on the provider's part of the state. *)
Definition hook {A} (h : M P A) : M (lstate P) A := fun s =>
  match h (provider s) with
  | Done (a, p) => Done (a, set_provider p s)
  | Halt => Halt
  | Fault => Fault
  | Fuel => Fuel
  end.
End Setters.

Section Alloc.
Context {P : Type} `{!Hooks P}.
Abbreviation LM := (M (lstate P)).

(** The [ALIGN] and [UNALIGN] macros. *)
Definition ALIGN (p : Z) : LM Z :=
  let p := u64 (p + ALIGN_INFO) in
  let diff := Z.land p (ALIGNMENT - 1) in
  let '(diff, p) :=
    if truthy diff then (ALIGNMENT - diff, u64 (p + (ALIGNMENT - diff))) else (diff, p) in
  modify (fun s => set_bytes (st 1 (u64 (p - ALIGN_INFO)) (diff + ALIGN_INFO) (bytes s)) s);;
  mret p.

Definition UNALIGN (p : Z) : LM Z :=
  b ← gets bytes;
  let diff := u64 (s8 (ld 1 b (u64 (p - ALIGN_INFO)))) in
  mret (if diff <? ALIGNMENT + ALIGN_INFO then u64 (p - diff) else p).

(** [liballoc_memset]: the counter is an [unsigned int], so [n >= 2^32] never ends. *)
Definition liballoc_memset (p c n : Z) : LM Z :=
  if 2 ^ 32 <=? n then halt
  else modify (fun s => set_bytes (memset p c n (bytes s)) s);; mret p.

(** [liballoc_memcpy]: whole 32-bit words first, then the remaining bytes. *)
Fixpoint copy_units (w : nat) (n : nat) (d s : Z) (m : mem) : mem :=
  match n with
  | O => m
  | S n' => copy_units w n' (d + Z.of_nat w) (s + Z.of_nat w) (st w d (ld w m s) m)
  end.
Definition liballoc_memcpy (s1 s2 n : Z) : LM Z :=
  modify (fun s =>
    let m := copy_units 4 (Z.to_nat (n / 4)) s1 s2 (bytes s) in
    set_bytes (copy_units 1 (Z.to_nat (n mod 4)) (s1 + 4 * (n / 4)) (s2 + 4 * (n / 4)) m) s);;
  mret s1.

Definition allocate_new_page (size : Z) : LM Z :=
  let st := u32 (size + sizeof_major) in
  let st := u32 (st + sizeof_minor) in
  let st := if st mod l_pageSize =? 0 then st / l_pageSize else st / l_pageSize + 1 in
  let st := if st <? l_pageCount then l_pageCount else st in
  maj ← hook (liballoc_alloc_pages (s32 st));
  if maj =? 0 then warn;; mret 0
  else
    put_major maj (mk_major 0 0 st (u32 (st * l_pageSize)) sizeof_major 0);;
    modify (fun s => set_allocated (u64 (l_allocated s + u32 (st * l_pageSize))) s);;
    mret maj.

(** The common end of cases 2, 3, 4.1 and 4.2: account for the new minor at [min] and
    align the pointer behind it. *)
Definition finish (maj min size : Z) : LM Z :=
  mod_major maj (fun m => major_usage (u32 (mj_usage m + size + sizeof_minor)) m);;
  modify (fun s => set_inuse (u64 (l_inuse s + size)) s);;
  ALIGN (u64 (min + sizeof_minor)).

(** CASE 2: a block without minors. *)
Definition case2 (maj size req_size : Z) : LM Z :=
  let min := u64 (maj + sizeof_major) in
  mod_major maj (major_first min);;
  put_minor min (mk_minor 0 0 maj LIBALLOC_MAGIC (u32 size) (u32 req_size));;
  finish maj min size.

(** CASE 3: room before the first minor. *)
Definition case3 (maj first size req_size : Z) : LM Z :=
  let min := u64 (maj + sizeof_major) in
  mod_minor first (minor_prev min);;
  put_minor min (mk_minor 0 first maj LIBALLOC_MAGIC (u32 size) (u32 req_size));;
  mod_major maj (major_first min);;
  finish maj min size.

(** CASE 4.1: room behind the last minor [min]. *)
Definition case41 (maj min size req_size : Z) : LM Z :=
  m ← get_minor min;
  let new := u64 (min + sizeof_minor + mn_size m) in
  mod_minor min (minor_next new);;
  put_minor new (mk_minor min 0 maj LIBALLOC_MAGIC (u32 size) (u32 req_size));;
  finish maj new size.

(** CASE 4.2: room between [min] and the next minor. *)
Definition case42 (maj min size req_size : Z) : LM Z :=
  m ← get_minor min;
  let new := u64 (min + sizeof_minor + mn_size m) in
  put_minor new (mk_minor min (mn_next m) maj LIBALLOC_MAGIC (u32 size) (u32 req_size));;
  mod_minor (mn_next m) (minor_prev new);;
  mod_minor min (minor_next new);;
  finish maj new size.

(** CASE 4: the walk over the minors of a block. *)
Fixpoint case4 (fuel : nat) (maj min size req_size : Z) : LM (option Z) :=
  match fuel with
  | O => out_of_fuel
  | S f =>
      if min =? 0 then mret None
      else
        mj ← get_major maj;
        m ← get_minor min;
        if mn_next m =? 0 then
          let diff := u64 (maj + mj_size mj - min - sizeof_minor - mn_size m) in
          if u64 (size + sizeof_minor) <=? diff then
            p ← case41 maj min size req_size; mret (Some p)
          else case4 f maj (mn_next m) size req_size
        else
          let diff := u64 (mn_next m - min - sizeof_minor - mn_size m) in
          if u64 (size + sizeof_minor) <=? diff then
            p ← case42 maj min size req_size; mret (Some p)
          else case4 f maj (mn_next m) size req_size
  end.

(** CASES 2 to 4 for one block. *)
Definition in_block (fuel : nat) (maj size req_size : Z) : LM (option Z) :=
  mj ← get_major maj;
  if mj_first mj =? 0 then p ← case2 maj size req_size; mret (Some p)
  else
    let diff := u64 (mj_first mj - maj - sizeof_major) in
    if u64 (size + sizeof_minor) <=? diff then
      p ← case3 maj (mj_first mj) size req_size; mret (Some p)
    else case4 fuel maj (mj_first mj) size req_size.

(** [maj->next = allocate_new_page(size)] and the back link: 0 when out of memory. *)
Definition extend (maj size : Z) : LM Z :=
  a ← allocate_new_page (u32 size);
  mod_major maj (major_next a);;
  when (negb (a =? 0)) (mod_major a (major_prev maj));;
  mret a.

(** The loop over the majors; the result is the pointer, or 0 after a break. *)
Fixpoint search (fuel inner : nat) (maj size req_size : Z) (startedBet : bool) (bestSize : Z) : LM Z :=
  match fuel with
  | O => out_of_fuel
  | S f =>
      if maj =? 0 then mret 0
      else
        mj ← get_major maj;
        let diff := u32 (mj_size mj - mj_usage mj) in
        when (bestSize <? diff) (modify (set_bestBet maj));;
        let bestSize := if bestSize <? diff then diff else bestSize in
        let case5 (maj : Z) : LM Z :=
          mj ← get_major maj;
          if mj_next mj =? 0 then
            if startedBet then
              root ← gets l_memRoot; search f inner root size req_size false bestSize
            else
              a ← extend maj size;
              if a =? 0 then mret 0
              else search f inner a size req_size startedBet bestSize
          else search f inner (mj_next mj) size req_size startedBet bestSize in
        if diff <? u64 (size + sizeof_minor) then
          (* CASE 1 *)
          if negb (mj_next mj =? 0) then search f inner (mj_next mj) size req_size startedBet bestSize
          else if startedBet then
            root ← gets l_memRoot; search f inner root size req_size false bestSize
          else
            a ← extend maj size;
            if a =? 0 then mret 0
            else
              r ← in_block inner a size req_size;
              match r with Some p => mret p | None => case5 a end
        else
          r ← in_block inner maj size req_size;
          match r with Some p => mret p | None => case5 maj end
  end.

(** Start at the best bet when it has room, else at the root, and search. *)
Definition from_root (fuel : nat) (req_size size : Z) : LM Z :=
  root ← gets l_memRoot;
  bet ← gets l_bestBet;
  '(maj, started, best) ←
    (if bet =? 0 then mret (root, false, 0)
     else
       b ← get_major bet;
       let bestSize := u32 (mj_size b - mj_usage b) in
       mret (if u64 (size + sizeof_minor) <? bestSize then (bet, true, bestSize)
             else (root, false, bestSize)));
  p ← search fuel fuel maj size req_size started best;
  hook liballoc_unlock;;
  mret p.

(** The body of [liballoc_malloc] after the zero-size test, without the recursion. *)
Definition malloc_body (fuel : nat) (req_size size : Z) : LM Z :=
  root ← gets l_memRoot;
  ok ← (if root =? 0 then
          a ← allocate_new_page (u32 size);
          modify (set_memRoot a);;
          mret (negb (a =? 0))
        else mret true);
  if negb ok then hook liballoc_unlock;; mret 0
  else from_root fuel req_size size.

Definition liballoc_malloc (fuel : nat) (req_size : Z) : LM Z :=
  let size := u64 (req_size + (ALIGNMENT + ALIGN_INFO)) in
  hook liballoc_lock;;
  if size =? 0 then
    warn;;
    hook liballoc_unlock;;
    (* the recursive call liballoc_malloc(1) *)
    hook liballoc_lock;;
    malloc_body fuel 1 (u64 (1 + (ALIGNMENT + ALIGN_INFO)))
  else malloc_body fuel req_size size.

(** The overrun heuristic shared by [liballoc_free] and [liballoc_realloc]. *)
Definition bad_magic (magic : Z) : LM unit :=
  modify (fun s => set_counts (l_warningCount s) (l_errorCount s + 1) (l_possibleOverruns s) s);;
  when ((Z.land magic 0xFFFFFF =? Z.land LIBALLOC_MAGIC 0xFFFFFF)
        || (Z.land magic 0xFFFF =? Z.land LIBALLOC_MAGIC 0xFFFF)
        || (Z.land magic 0xFF =? Z.land LIBALLOC_MAGIC 0xFF))
    (modify (fun s => set_counts (l_warningCount s) (l_errorCount s) (l_possibleOverruns s + 1) s)).

(** The pages of a block leave the heap: no structure is left in them. *)
Definition unmap_block (maj size : Z) (s : lstate P) : lstate P :=
  set_majors (delete maj (majors s))
    (set_minors (filter (fun kv => ~ (maj <= kv.1 < maj + size)) (minors s)) s).

(** The last part of [liballoc_free]: the block lost its last minor. *)
Definition release_major (maj : Z) : LM unit :=
  mj ← get_major maj;
  modify (fun s => if l_memRoot s =? maj then set_memRoot (mj_next mj) s else s);;
  modify (fun s => if l_bestBet s =? maj then set_bestBet 0 s else s);;
  when (negb (mj_prev mj =? 0)) (mod_major (mj_prev mj) (major_next (mj_next mj)));;
  when (negb (mj_next mj =? 0)) (mod_major (mj_next mj) (major_prev (mj_prev mj)));;
  modify (fun s => set_allocated (u64 (l_allocated s - mj_size mj)) s);;
  hook (liballoc_free_pages maj (mj_pages mj));;
  modify (unmap_block maj (mj_size mj)).

(** Otherwise the best bet may move to this block. *)
Definition update_bet (maj : Z) : LM unit :=
  bet ← gets l_bestBet;
  when (negb (bet =? 0))
    (b ← get_major bet;
     mj ← get_major maj;
     when (s32 (u32 (mj_size b - mj_usage b)) <? s32 (u32 (mj_size mj - mj_usage mj)))
       (modify (set_bestBet maj))).

(** Mark the minor dead and take it out of its list. *)
Definition unlink_minor (min : Z) (m : liballoc_minor) : LM unit :=
  mod_minor min (minor_magic LIBALLOC_DEAD);;
  when (negb (mn_next m =? 0)) (mod_minor (mn_next m) (minor_prev (mn_prev m)));;
  when (negb (mn_prev m =? 0)) (mod_minor (mn_prev m) (minor_next (mn_next m))).

Definition liballoc_free (p : Z) : LM unit :=
  if p =? 0 then warn
  else
    p ← UNALIGN p;
    hook liballoc_lock;;
    let min := u64 (p - sizeof_minor) in
    m ← get_minor min;
    if negb (mn_magic m =? LIBALLOC_MAGIC) then
      bad_magic (mn_magic m);;
      hook liballoc_unlock;;
      mret tt
    else
      let maj := mn_block m in
      modify (fun s => set_inuse (u64 (l_inuse s - mn_size m)) s);;
      mod_major maj (fun mj => major_usage (u32 (mj_usage mj - (mn_size m + sizeof_minor))) mj);;
      unlink_minor min m;;
      when (mn_prev m =? 0) (mod_major maj (major_first (mn_next m)));;
      mj ← get_major maj;
      (if mj_first mj =? 0 then release_major maj else update_bet maj);;
      hook liballoc_unlock;;
      mret tt.

Definition liballoc_calloc (fuel : nat) (nobj size : Z) : LM Z :=
  let real_size := s32 (nobj * size) in
  p ← liballoc_malloc fuel (u64 real_size);
  liballoc_memset p 0 (u64 real_size);;
  mret p.

Definition liballoc_realloc (fuel : nat) (p size : Z) : LM Z :=
  if size =? 0 then liballoc_free p;; mret 0
  else if p =? 0 then liballoc_malloc fuel size
  else
    ptr ← UNALIGN p;
    hook liballoc_lock;;
    let min := u64 (ptr - sizeof_minor) in
    m ← get_minor min;
    if negb (mn_magic m =? LIBALLOC_MAGIC) then
      bad_magic (mn_magic m);;
      hook liballoc_unlock;;
      mret 0
    else
      let real_size := mn_req_size m in
      if size <=? real_size then
        mod_minor min (minor_req (u32 size));;
        hook liballoc_unlock;;
        mret p
      else
        hook liballoc_unlock;;
        ptr ← liballoc_malloc fuel size;
        liballoc_memcpy ptr p real_size;;
        liballoc_free p;;
        mret ptr.

End Alloc.
