(* ===== verification/LiballocInv.v ===== *)
(** * The heap invariant of liballoc

    The abstract heap is a list of blocks, each with its chunks in address order; [heap]
    relates it to the linked structures, the alignment bytes and the counters of
    Liballoc.v.  [HooksOk] is what liballoc.h promises about the page hooks; everything
    here and in LiballocProof.v is proved against that interface. *)
From S2P Require Import Prelude Dll Liballoc.

(** ** Abstract heap *)

Record chunk := mk_chunk { c_addr : Z; c_size : Z; c_req : Z }.
Record block := mk_block { b_addr : Z; b_pages : Z; b_chunks : list chunk }.

#[export] Instance chunk_eq_dec : EqDecision chunk.
Proof. solve_decision. Defined.

Definition b_size (b : block) : Z := b_pages b * l_pageSize.
Definition cend (c : chunk) : Z := c_addr c + sizeof_minor + c_size c.

(** The pointer the caller gets: 16 bytes for the offset byte, then up to the alignment. *)
Definition cptr (c : chunk) : Z :=
  let q := c_addr c + sizeof_minor + ALIGN_INFO in q + (- q) mod ALIGNMENT.

Fixpoint usage (cs : list chunk) : Z :=
  match cs with [] => sizeof_major | c :: cs' => sizeof_minor + c_size c + usage cs' end.

Fixpoint chunks_ok (lo hi : Z) (cs : list chunk) : Prop :=
  match cs with
  | [] => lo <= hi
  | c :: cs' => lo <= c_addr c /\ 0 <= c_req c /\ c_req c + 32 <= c_size c /\ chunks_ok (cend c) hi cs'
  end.

Definition block_ok (b : block) : Prop :=
  0 < b_addr b /\ 16 <= b_pages b < 2 ^ 20 /\ b_addr b + b_size b <= 2 ^ 64 - 4096 /\
  chunks_ok (b_addr b + sizeof_major) (b_addr b + b_size b) (b_chunks b).

Definition live (bs : list block) : list chunk := bs ≫= b_chunks.
Definition regions (bs : list block) : list (Z * Z) := (fun b => (b_addr b, b_pages b)) <$> bs.

Definition apart (r r' : Z * Z) : Prop :=
  r.1 + r.2 * l_pageSize <= r'.1 \/ r'.1 + r'.2 * l_pageSize <= r.1.
Definition region_ok (r : Z * Z) : Prop :=
  0 < r.1 /\ 0 < r.2 /\ r.1 + r.2 * l_pageSize <= 2 ^ 64 - 4096.
Definition regions_ok (rs : list (Z * Z)) : Prop :=
  Forall region_ok rs /\ ForallOrdPairs apart rs.

(** ** What the page hooks promise

    [hk_ok p locked rs]: the provider is in state [p], the heap lock is held or not, and
    [rs] are the regions (address and number of pages) handed out and not yet returned.
    [hk_safe p n]: a request for [n] pages is one the provider serves, or refuses by
    returning NULL as liballoc.h asks. *)
Class HooksOk (P : Type) `{!Hooks P} := {
  hk_ok : P -> bool -> list (Z * Z) -> Prop;
  hk_safe : P -> Z -> Prop;
  hk_perm : forall p l rs rs', rs ≡ₚ rs' -> hk_ok p l rs -> hk_ok p l rs';
  hk_regions : forall p l rs, hk_ok p l rs -> regions_ok rs;
  hk_lock : forall p rs, hk_ok p false rs ->
    exists v p', liballoc_lock p = Done (v, p') /\ hk_ok p' true rs /\ (forall n, hk_safe p n -> hk_safe p' n);
  hk_unlock : forall p rs, hk_ok p true rs ->
    exists v p', liballoc_unlock p = Done (v, p') /\ hk_ok p' false rs /\ (forall n, hk_safe p n -> hk_safe p' n);
  hk_alloc : forall p rs n, hk_ok p true rs -> 0 < n < 2 ^ 20 -> hk_safe p n ->
    exists a p', liballoc_alloc_pages n p = Done (a, p') /\
      (a = 0 /\ hk_ok p' true rs \/ a <> 0 /\ hk_ok p' true ((a, n) :: rs));
  hk_free : forall p rs a n, hk_ok p true ((a, n) :: rs) ->
    exists v p', liballoc_free_pages a n p = Done (v, p') /\ hk_ok p' true rs
}.

(** The pages [allocate_new_page] asks for. *)
Definition pages_for (size : Z) : Z :=
  Z.max l_pageCount ((size + sizeof_major + sizeof_minor + (l_pageSize - 1)) / l_pageSize).

(** ** The concrete heap *)

Definition enc_major (b : block) (prev next : Z) : liballoc_major :=
  mk_major prev next (b_pages b) (b_size b) (usage (b_chunks b)) (hd_addr c_addr (b_chunks b) 0).
Definition enc_minor (blk : Z) (c : chunk) (prev next : Z) : liballoc_minor :=
  mk_minor prev next blk LIBALLOC_MAGIC (c_size c) (c_req c).

Definition dll_majors (m : gmap Z liballoc_major) (prev : Z) (bs : list block) (next : Z) : Prop :=
  dll b_addr enc_major m prev bs next.
Definition dll_minors (blk : Z) (m : gmap Z liballoc_minor) (prev : Z) (cs : list chunk) (next : Z) : Prop :=
  dll c_addr (enc_minor blk) m prev cs next.

Definition info_ok (by_ : mem) (c : chunk) : Prop :=
  ld 1 by_ (cptr c - ALIGN_INFO) = cptr c - (c_addr c + sizeof_minor).

Definition sum_size (cs : list chunk) : Z := foldr (fun c n => c_size c + n) 0 cs.
Definition sum_pages (bs : list block) : Z := foldr (fun b n => b_size b + n) 0 bs.

Record heap_inv {P} (bs : list block) (s : lstate P) : Prop := mk_heap_inv {
  hi_majors : dll_majors (majors s) 0 bs 0;
  hi_minors : Forall (fun b => dll_minors (b_addr b) (minors s) 0 (b_chunks b) 0) bs;
  hi_info : Forall (info_ok (bytes s)) (live bs);
  hi_blocks : Forall block_ok bs;
  hi_regions : regions_ok (regions bs);
  hi_root : l_memRoot s = hd_addr b_addr bs 0;
  hi_bet : l_bestBet s = 0 \/ l_bestBet s ∈ (b_addr <$> bs);
  hi_inuse : l_inuse s = u64 (sum_size (live bs));
  hi_alloc : l_allocated s = u64 (sum_pages bs)
}.

Definition heap {P} `{HooksOk P} (locked : bool) (bs : list block) (s : lstate P) : Prop :=
  heap_inv bs s /\ hk_ok (provider s) locked (regions bs).

(** First fit over the gaps of a block: the chunks before and behind the gap taken. *)
Fixpoint first_fit (need lo hi : Z) (cs : list chunk) : option (list chunk * list chunk) :=
  match cs with
  | [] => if need <=? hi - lo then Some ([], []) else None
  | c :: cs' =>
      if need <=? c_addr c - lo then Some ([], cs)
      else match first_fit need (cend c) hi cs' with
           | Some (l1, l2) => Some (c :: l1, l2)
           | None => None
           end
  end.
Fixpoint lst_end (cs : list chunk) (lo : Z) : Z :=
  match cs with [] => lo | c :: cs' => lst_end cs' (cend c) end.

(** ** Lemmas on the abstract heap *)

Create HintDb heap.

Ltac consts := unfold sizeof_major, sizeof_minor, ALIGN_INFO, ALIGNMENT, l_pageSize in *.

Lemma cptr_bounds c : c_addr c + 56 <= cptr c <= c_addr c + 71 /\ cptr c mod 16 = 0.
Proof.
  unfold cptr. consts. set (q := c_addr c + 40 + 16).
  pose proof (Z.mod_pos_bound (- q) 16 ltac:(lia)).
  split; [lia|]. rewrite Zplus_mod, Zmod_mod, <- Zplus_mod.
  by replace (q + - q) with 0 by lia.
Qed.

Lemma usage_app cs1 cs2 : usage (cs1 ++ cs2) = usage cs1 + usage cs2 - sizeof_major.
Proof. induction cs1; simpl; consts; lia. Qed.

Lemma chunks_ok_le lo hi cs : chunks_ok lo hi cs -> lo <= hi.
Proof. revert lo. induction cs as [|c cs IH]; intros lo; simpl; [done|].
  intros (? & ? & ? & H). apply IH in H. unfold cend in H. consts. lia. Qed.

Lemma chunks_ok_app lo hi cs1 cs2 :
  chunks_ok lo hi (cs1 ++ cs2) <->
  chunks_ok lo (lst_end cs1 lo) cs1 /\ chunks_ok (lst_end cs1 lo) hi cs2.
Proof.
  revert lo. induction cs1 as [|c cs1 IH]; intros lo; simpl; [split; [split; [lia|tauto]|tauto]|].
  rewrite IH. tauto.
Qed.

Lemma lst_end_app cs1 cs2 lo : lst_end (cs1 ++ cs2) lo = lst_end cs2 (lst_end cs1 lo).
Proof. revert lo. induction cs1; intros; simpl; auto. Qed.

Lemma chunks_ok_in lo hi cs c : chunks_ok lo hi cs -> c ∈ cs ->
  lo <= c_addr c /\ cend c <= hi /\ 0 <= c_req c /\ c_req c + 32 <= c_size c.
Proof.
  revert lo. induction cs as [|d cs IH]; intros lo H Hc; [by apply elem_of_nil in Hc|].
  destruct H as (H1 & H2 & H3 & H4). pose proof (chunks_ok_le _ _ _ H4).
  apply elem_of_cons in Hc as [->|Hc]; [lia|].
  specialize (IH _ H4 Hc). unfold cend in *. consts. lia.
Qed.

Lemma chunks_ok_NoDup lo hi cs : chunks_ok lo hi cs -> NoDup (c_addr <$> cs).
Proof.
  revert lo. induction cs as [|c cs IH]; intros lo; simpl; [constructor|].
  intros (? & ? & ? & H). constructor; [|by eapply IH].
  intros (d & Hd & Hin)%list_elem_of_fmap. pose proof (chunks_ok_in _ _ _ _ H Hin).
  unfold cend in *. consts. lia.
Qed.

(** Chunks of one block do not overlap. *)
Lemma chunks_ok_apart lo hi cs : chunks_ok lo hi cs ->
  ForallOrdPairs (fun c d => cend c <= c_addr d) cs.
Proof.
  revert lo. induction cs as [|c cs IH]; intros lo; simpl; [constructor|].
  intros (? & ? & ? & H). constructor; [|by eapply IH].
  apply Forall_forall. intros d Hd. apply (chunks_ok_in _ _ _ _ H Hd).
Qed.

Lemma usage_bounds lo hi cs : chunks_ok lo hi cs -> 40 <= usage cs <= hi - lo + 40.
Proof.
  revert lo. induction cs as [|c cs IH]; intros lo; simpl; [consts; lia|].
  intros (? & ? & ? & H). apply IH in H. unfold cend in *. consts. lia.
Qed.

Lemma first_fit_split need lo hi cs l1 l2 :
  first_fit need lo hi cs = Some (l1, l2) -> cs = l1 ++ l2.
Proof.
  revert lo l1 l2. induction cs as [|c cs IH]; intros lo l1 l2; simpl.
  - zcase; [|done]. by intros [= <- <-].
  - zcase; [by intros [= <- <-]|].
    destruct (first_fit need (cend c) hi cs) as [[k1 k2]|] eqn:E; [|done].
    intros [= <- <-]. simpl. f_equal. eauto.
Qed.

(** The gap taken is large enough, so the new chunk keeps the block well formed. *)
Lemma first_fit_ok lo hi cs l1 l2 size req :
  chunks_ok lo hi cs -> 0 <= req -> req + 32 <= size ->
  first_fit (size + sizeof_minor) lo hi cs = Some (l1, l2) ->
  chunks_ok lo hi (l1 ++ mk_chunk (lst_end l1 lo) size req :: l2).
Proof.
  intros Hok Hr Hs. revert lo l1 l2 Hok. induction cs as [|c cs IH]; intros lo l1 l2 Hok; simpl.
  - zcase; [|done]. intros [= <- <-]. simpl. unfold cend. simpl. consts. lia.
  - destruct Hok as (? & ? & ? & Hok). zcase.
    + intros [= <- <-]. simpl. unfold cend in *. simpl. consts. repeat split; try lia; done.
    + destruct (first_fit _ (cend c) hi cs) as [[k1 k2]|] eqn:E; [|done].
      intros [= <- <-]. simpl. split; [|split; [|split]]; try lia. by apply IH.
Qed.

(** An empty block with enough space always fits. *)
Lemma first_fit_empty need lo hi : need <= hi - lo -> first_fit need lo hi [] = Some ([], []).
Proof. intros. simpl. by rewrite (proj2 (Z.leb_le _ _)). Qed.

Lemma block_bounds b c : block_ok b -> c ∈ b_chunks b ->
  b_addr b + 40 <= c_addr c /\ cend c <= b_addr b + b_size b.
Proof. intros (? & ? & ? & H) Hc. pose proof (chunks_ok_in _ _ _ _ H Hc). consts. lia. Qed.

Lemma regions_NoDup bs : regions_ok (regions bs) -> NoDup (b_addr <$> bs).
Proof.
  intros [Hr Hp]. induction bs as [|b bs IH]; simpl; [constructor|].
  apply Forall_cons in Hr as [Hb Hr]. inversion Hp as [|? ? Ha Hp']; subst.
  constructor; [|by apply IH]. intros (d & Hd & Hin)%list_elem_of_fmap.
  rewrite Forall_forall in Ha. specialize (Ha (b_addr d, b_pages d)).
  rewrite Forall_forall in Hr.
  assert (Hm : (b_addr d, b_pages d) ∈ regions bs).
  { apply list_elem_of_fmap. by exists d. }
  specialize (Ha Hm). specialize (Hr _ Hm). unfold apart, region_ok in *. simpl in *. consts. lia.
Qed.

Lemma regions_apart pre b post d : regions_ok (regions (pre ++ b :: post)) ->
  d ∈ pre ++ post -> apart (b_addr b, b_pages b) (b_addr d, b_pages d).
Proof.
  intros [_ Hp] Hd. unfold regions in Hp. rewrite fmap_app in Hp. simpl in Hp.
  assert (Hsym : forall r r', apart r r' -> apart r' r) by (unfold apart; tauto).
  apply elem_of_app in Hd as [Hd|Hd].
  - induction pre as [|e pre IH]; [by apply elem_of_nil in Hd|]. simpl in Hp.
    inversion Hp as [|? ? Ha Hp']; subst. apply elem_of_cons in Hd as [->|Hd]; [|by apply IH].
    rewrite Forall_forall in Ha. apply Hsym, Ha. set_solver.
  - induction pre as [|e pre IH]; simpl in Hp; inversion Hp as [|? ? Ha Hp']; subst; [|by apply IH].
    rewrite Forall_forall in Ha. apply Ha. apply list_elem_of_fmap. by exists d.
Qed.

Lemma live_app bs1 bs2 : live (bs1 ++ bs2) = live bs1 ++ live bs2.
Proof. apply bind_app. Qed.
Lemma live_cons b bs : live (b :: bs) = b_chunks b ++ live bs.
Proof. done. Qed.
Lemma live_in bs c : c ∈ live bs <-> exists b, b ∈ bs /\ c ∈ b_chunks b.
Proof. unfold live. rewrite list_elem_of_bind. naive_solver. Qed.

Lemma sum_size_perm cs cs' : cs ≡ₚ cs' -> sum_size cs = sum_size cs'.
Proof. induction 1; simpl; lia. Qed.
Lemma sum_size_app cs cs' : sum_size (cs ++ cs') = sum_size cs + sum_size cs'.
Proof. induction cs; simpl; lia. Qed.
Lemma sum_pages_app bs bs' : sum_pages (bs ++ bs') = sum_pages bs + sum_pages bs'.
Proof. induction bs; simpl; lia. Qed.

Lemma u64_sub_l x y : u64 (u64 x - y) = u64 (x - y).
Proof. unfold u64. by rewrite Zminus_mod_idemp_l. Qed.

(** A chunk of one block lies outside every other block. *)
Lemma other_block pre b post d c :
  Forall block_ok (pre ++ b :: post) -> regions_ok (regions (pre ++ b :: post)) ->
  d ∈ pre ++ post -> c ∈ b_chunks d ->
  cend c <= b_addr b \/ b_addr b + b_size b <= c_addr c.
Proof.
  intros Hok Hr Hd Hc. pose proof (regions_apart _ _ _ _ Hr Hd) as Ha.
  rewrite Forall_forall in Hok. assert (Hdo : block_ok d) by (apply Hok; set_solver).
  pose proof (block_bounds _ _ Hdo Hc). destruct Hdo as (? & ? & ? & ?).
  unfold apart, b_size, cend in *. simpl in *. consts. lia.
Qed.
