(* ===== verification/LiballocProof.v ===== *)
(** * Correctness of liballoc_malloc, _free, _calloc and _realloc

    Proved against [HooksOk], the contract of the page hooks: the search places the chunk
    in the first gap of a block, the heap invariant is kept, the pointer is aligned and
    its memory belongs to no other live chunk. *)
From S2P Require Import Prelude Dll Liballoc LiballocInv.

Lemma mid_in {A} (l1 l2 : list A) x y : x ∈ l1 ++ l2 -> x ∈ l1 ++ y :: l2.
Proof. set_solver. Qed.

Section Place.
Context {P : Type}.
Implicit Types s t : lstate P.

Lemma u64_id x : 0 <= x < 2 ^ 64 -> u64 x = x.
Proof. apply u64_small. Qed.

Lemma ALIGN_run c s : 0 <= c_addr c -> c_addr c + 71 < 2 ^ 64 ->
  ALIGN (u64 (c_addr c + sizeof_minor)) s =
  Done (cptr c, set_bytes (st 1 (cptr c - ALIGN_INFO) (cptr c - (c_addr c + sizeof_minor)) (bytes s)) s).
Proof.
  intros H0 H1. pose proof (cptr_bounds c) as [Hb _]. unfold ALIGN.
  assert (Hq : u64 (u64 (c_addr c + sizeof_minor) + ALIGN_INFO) = c_addr c + 56).
  { consts. rewrite (u64_id (c_addr c + 40)) by lia. rewrite u64_id; lia. }
  rewrite Hq. change (ALIGNMENT - 1) with (Z.ones 4). rewrite Z.land_ones by lia.
  change (2 ^ 4) with 16.
  unfold cptr in *. consts. replace (c_addr c + 40 + 16) with (c_addr c + 56) in * by lia.
  remember (c_addr c + 56) as q eqn:Hqd. unfold truthy. destruct (Z.eqb_spec (q mod 16) 0) as [E|E]; simpl.
  - assert (E2 : (- q) mod 16 = 0) by (apply Z.mod_opp_l_z; lia).
    rewrite E, E2, Z.add_0_r in *. unfold mbind, M_bind, modify, mret, M_ret.
    rewrite u64_id by lia. by replace (q - (c_addr c + 40)) with (0 + 16) by lia.
  - assert (E2 : (- q) mod 16 = 16 - q mod 16) by (apply Z.mod_opp_l_nz; lia).
    rewrite E2 in *. unfold mbind, M_bind, modify, mret, M_ret.
    rewrite (u64_id (q + _)) by lia. rewrite u64_id by lia.
    by replace (q + (16 - q mod 16) - (c_addr c + 40)) with (16 - q mod 16 + 16) by lia.
Qed.

(** The state after a new chunk has been accounted for. *)
Definition finished (a : Z) (mj : liballoc_major) (c : chunk) t : lstate P :=
  set_bytes (st 1 (cptr c - ALIGN_INFO) (cptr c - (c_addr c + sizeof_minor)) (bytes t))
    (set_inuse (u64 (l_inuse t + c_size c))
      (set_majors (<[a := major_usage (u32 (mj_usage mj + c_size c + sizeof_minor)) mj]> (majors t)) t)).

Lemma finish_run a mj c t : 0 <= c_addr c -> c_addr c + 71 < 2 ^ 64 ->
  majors t !! a = Some mj -> finish a (c_addr c) (c_size c) t = Done (cptr c, finished a mj c t).
Proof.
  intros H0 H1 Hm. unfold finish.
  erewrite bind_run; [|unfold mod_major, mbind, M_bind, get_major; by rewrite Hm].
  erewrite bind_run; [|reflexivity]. by rewrite ALIGN_run.
Qed.

Lemma hi_lookup pre b post s : heap_inv (pre ++ b :: post) s ->
  majors s !! b_addr b = Some (enc_major b (lst_addr b_addr pre 0) (hd_addr b_addr post 0)).
Proof. intros H. apply (dll_lookup _ _ _ _ _ _ _ _ (hi_majors _ _ H)). Qed.

Lemma hi_dll pre b post s : heap_inv (pre ++ b :: post) s ->
  dll_minors (b_addr b) (minors s) 0 (b_chunks b) 0.
Proof. intros H. pose proof (hi_minors _ _ H) as Hm. rewrite Forall_forall in Hm. apply Hm. set_solver. Qed.

Lemma hi_block pre b post s : heap_inv (pre ++ b :: post) s -> block_ok b.
Proof. intros H. pose proof (hi_blocks _ _ H) as Hm. rewrite Forall_forall in Hm. apply Hm. set_solver. Qed.

(** Replacing the chunks of one block: what has to be shown of the new state. *)
Lemma heap_replace pre b post cs s s' :
  heap_inv (pre ++ b :: post) s ->
  let b' := mk_block (b_addr b) (b_pages b) cs in
  block_ok b' ->
  majors s' = <[b_addr b := enc_major b' (lst_addr b_addr pre 0) (hd_addr b_addr post 0)]> (majors s) ->
  dll_minors (b_addr b) (minors s') 0 cs 0 ->
  (forall x, x < b_addr b \/ b_addr b + b_size b <= x -> minors s' !! x = minors s !! x) ->
  Forall (info_ok (bytes s')) cs ->
  (forall x, x < b_addr b \/ b_addr b + b_size b <= x -> bytes s' x = bytes s x) ->
  l_memRoot s' = l_memRoot s -> (l_bestBet s' = 0 \/ l_bestBet s' ∈ b_addr <$> (pre ++ b :: post)) ->
  l_inuse s' = u64 (l_inuse s + (sum_size cs - sum_size (b_chunks b))) ->
  l_allocated s' = l_allocated s ->
  heap_inv (pre ++ b' :: post) s'.
Proof.
  intros H b' Hb' Hmaj Hmin Hminf Hinfo Hby Hroot Hbet Huse Hall.
  pose proof (regions_NoDup _ (hi_regions _ _ H)) as Hnd.
  assert (Hother : forall d c, d ∈ pre ++ post -> c ∈ b_chunks d ->
            cend c <= b_addr b \/ b_addr b + b_size b <= c_addr c).
  { intros d c. by apply other_block; [apply (hi_blocks _ _ H)|apply (hi_regions _ _ H)]. }
  assert (Hlive : forall d c, d ∈ pre ++ post -> c ∈ b_chunks d -> info_ok (bytes s') c).
  { intros d c Hd Hc. pose proof (hi_info _ _ H) as Hi. rewrite Forall_forall in Hi.
    assert (Hin : c ∈ live (pre ++ b :: post)) by (apply live_in; exists d; split; [by apply mid_in|done]).
    specialize (Hi _ Hin). unfold info_ok in *. rewrite <- Hi. apply ld_ext. intros x Hx. apply Hby.
    pose proof (hi_blocks _ _ H) as Hok. rewrite Forall_forall in Hok.
    assert (Hdo : block_ok d) by (by apply Hok, mid_in).
    destruct Hdo as (? & ? & ? & Hdo). pose proof (chunks_ok_in _ _ _ _ Hdo Hc).
    specialize (Hother _ _ Hd Hc). pose proof (cptr_bounds c). unfold cend in *. consts. lia. }
  constructor.
  - rewrite Hmaj. apply (dll_update b_addr enc_major (majors s) 0 pre b b' post 0); [done|done|apply (hi_majors _ _ H)].
  - pose proof (hi_minors _ _ H) as Hm. apply Forall_app. rewrite Forall_app in Hm.
    destruct Hm as [Hm1 Hm2]. apply Forall_cons in Hm2 as [_ Hm2].
    assert (Hf : forall d, d ∈ pre ++ post -> dll_minors (b_addr d) (minors s) 0 (b_chunks d) 0 ->
                   dll_minors (b_addr d) (minors s') 0 (b_chunks d) 0).
    { intros d Hd. apply dll_ext. intros c Hc. apply Hminf. specialize (Hother _ _ Hd Hc).
      pose proof (hi_blocks _ _ H) as Hok. rewrite Forall_forall in Hok.
      assert (Hdo : block_ok d) by (by apply Hok, mid_in).
      destruct Hdo as (? & ? & ? & Hdo). pose proof (chunks_ok_in _ _ _ _ Hdo Hc).
      unfold cend in *. consts. lia. }
    rewrite Forall_forall in Hm1, Hm2.
    split; [|constructor; [done|]]; apply Forall_forall; intros d Hd; apply Hf; auto; set_solver.
  - rewrite live_app, live_cons, !Forall_app. split; [|split; [done|]];
      apply Forall_forall; intros c (d & Hd & Hc)%live_in; apply (Hlive d); auto; set_solver.
  - pose proof (hi_blocks _ _ H) as Hok. rewrite Forall_app, Forall_cons in *. tauto.
  - pose proof (hi_regions _ _ H) as Hr. unfold regions in *. rewrite fmap_app in *. exact Hr.
  - rewrite Hroot, (hi_root _ _ H). by destruct pre.
  - rewrite fmap_app in *. exact Hbet.
  - rewrite Huse, (hi_inuse _ _ H), u64_add_l. f_equal.
    rewrite !live_app, !live_cons, !sum_size_app. simpl. lia.
  - rewrite Hall, (hi_alloc _ _ H). f_equal. by rewrite !sum_pages_app.
Qed.

(** ** Placing a chunk in a gap *)

Definition new_chunk (b : block) (l1 : list chunk) (size req : Z) : chunk :=
  mk_chunk (lst_end l1 (b_addr b + sizeof_major)) size req.

Definition gap_ok (b : block) (l1 l2 : list chunk) (size req : Z) : Prop :=
  b_chunks b = l1 ++ l2 /\
  chunks_ok (b_addr b + sizeof_major) (b_addr b + b_size b) (l1 ++ new_chunk b l1 size req :: l2).

Record placed pre b post l1 l2 (c : chunk) s s' : Prop := mk_placed {
  pl_inv : heap_inv (pre ++ mk_block (b_addr b) (b_pages b) (l1 ++ c :: l2) :: post) s';
  pl_provider : provider s' = provider s;
  pl_bytes : forall x, x < c_addr c \/ cend c <= x -> bytes s' x = bytes s x
}.

Lemma gap_bounds b l1 l2 size req : block_ok b -> gap_ok b l1 l2 size req ->
  let c := new_chunk b l1 size req in
  b_addr b + 40 <= c_addr c /\ cend c <= b_addr b + b_size b /\ 0 <= req /\ req + 32 <= size /\
  0 < b_addr b /\ b_addr b + b_size b <= 2 ^ 64 - 4096.
Proof.
  intros (? & ? & ? & ?) [_ Hg] c. destruct (chunks_ok_in _ _ _ c Hg); [set_solver|].
  simpl in *. consts. lia.
Qed.

Lemma gap_side b l1 l2 size req d : block_ok b -> gap_ok b l1 l2 size req -> d ∈ l1 ++ l2 ->
  let c := new_chunk b l1 size req in
  (cend d <= c_addr c \/ cend c <= c_addr d) /\ b_addr b + 40 <= c_addr d /\ c_addr d + 72 <= cend d /\
  cend d <= b_addr b + b_size b.
Proof.
  intros Hb Hg Hd c. pose proof (gap_bounds _ _ _ _ _ Hb Hg) as Hc. cbv zeta in Hc. fold c in Hc. destruct Hg as [_ H].
  apply chunks_ok_app in H as [H1 H2]. destruct H2 as (_ & _ & _ & H2). fold c in H2.
  unfold cend in *. consts. apply elem_of_app in Hd as [Hd|Hd].
  - pose proof (chunks_ok_in _ _ _ _ H1 Hd). unfold cend in *. simpl in *. consts. lia.
  - pose proof (chunks_ok_in _ _ _ _ H2 Hd). unfold cend in *. simpl in *. consts. lia.
Qed.

(** The state between the list surgery and [finish]. *)
Definition linked (b : block) (prev next : Z) (l1 : list chunk) (c : chunk) (mn : gmap Z liballoc_minor) s :=
  set_minors mn (set_majors (<[b_addr b :=
    major_first (hd_addr c_addr (l1 ++ [c]) 0) (enc_major b prev next)]> (majors s)) s).

Lemma place_run pre b post l1 l2 size req mn s :
  heap_inv (pre ++ b :: post) s -> gap_ok b l1 l2 size req ->
  let c := new_chunk b l1 size req in
  dll_minors (b_addr b) mn 0 (l1 ++ c :: l2) 0 ->
  (forall x, x < b_addr b \/ b_addr b + b_size b <= x -> mn !! x = minors s !! x) ->
  exists s',
    finish (b_addr b) (c_addr c) size
      (linked b (lst_addr b_addr pre 0) (hd_addr b_addr post 0) l1 c mn s) = Done (cptr c, s') /\
    placed pre b post l1 l2 c s s'.
Proof.
  intros H Hg c Hmn Hfr. pose proof (hi_block _ _ _ _ H) as Hb.
  pose proof (gap_bounds _ _ _ _ _ Hb Hg) as Hc. cbv zeta in Hc. fold c in Hc.
  pose proof (cptr_bounds c) as [Hp _]. destruct Hb as (Hb1 & Hb2 & Hb3 & Hb4).
  eexists. split.
  { eapply (finish_run _ (major_first (hd_addr c_addr (l1 ++ [c]) 0)
      (enc_major b (lst_addr b_addr pre 0) (hd_addr b_addr post 0))) c); [unfold cend in *; simpl in *; consts; lia..|].
    simpl. by rewrite lookup_insert_eq. }
  assert (Hok' : block_ok (mk_block (b_addr b) (b_pages b) (l1 ++ c :: l2))).
  { split; [done|]. split; [done|]. split; [done|]. apply Hg. }
  destruct Hg as [Hcs Hg]. pose proof (usage_bounds _ _ _ Hg) as Hu.
  rewrite usage_app in Hu. simpl in Hu.
  assert (Hsz : c_addr c - 16 + 56 <= cptr c - 16 <= c_addr c + 55) by lia.
  constructor; [|done|].
  - apply (heap_replace _ _ _ _ s); try done.
    + unfold finished, linked. simpl. rewrite insert_insert_eq. f_equal.
      unfold enc_major, major_usage, major_first. simpl. f_equal.
      * rewrite u32_small; rewrite Hcs, !usage_app; simpl; unfold b_size in *; consts; lia.
      * by destruct l1.
    + apply Forall_forall. intros d Hd. unfold info_ok, finished, linked. cbn [bytes set_bytes].
      cbn [set_inuse set_majors set_minors bytes].
      destruct (decide (d = c)) as [->|Hne].
      * rewrite ld_st_same. apply Z.mod_small. consts. lia.
      * assert (Hin : d ∈ l1 ++ l2) by set_solver.
        destruct (gap_side b l1 l2 size req d) as (Hs & _ & Hd2 & _); [done|split; done|done|].
        fold c in Hs. pose proof (cptr_bounds d) as [Hpd _].
        pose proof (hi_info _ _ H) as Hi. rewrite Forall_forall in Hi.
        rewrite ld_st_other; [apply Hi, live_in; exists b; split; [set_solver|by rewrite Hcs]|].
        unfold cend in *. simpl in *. consts. lia.
    + intros x Hx. apply (st_other 1 (cptr c - ALIGN_INFO) (cptr c - (c_addr c + sizeof_minor)) (bytes s) x).
      unfold cend in *. simpl in *. consts. lia.
    + apply (hi_bet _ _ H).
    + cbn. f_equal. rewrite Hcs, !sum_size_app. simpl. lia.
  - intros x Hx. apply (st_other 1 (cptr c - ALIGN_INFO) (cptr c - (c_addr c + sizeof_minor)) (bytes s) x).
    unfold cend in *. simpl in *. consts. lia.
Qed.

(** ** The four placements *)

Lemma mod_major_run p f m s : majors s !! p = Some m ->
  mod_major p f s = Done (tt, set_majors (<[p := f m]> (majors s)) s).
Proof. intros H. unfold mod_major, mbind, M_bind, get_major. by rewrite H. Qed.
Lemma mod_minor_run p f m s : minors s !! p = Some m ->
  mod_minor p f s = Done (tt, set_minors (<[p := f m]> (minors s)) s).
Proof. intros H. unfold mod_minor, mbind, M_bind, get_minor. by rewrite H. Qed.
Lemma get_major_run p m s : majors s !! p = Some m -> get_major p s = Done (m, s).
Proof. intros H. unfold get_major. by rewrite H. Qed.
Lemma get_minor_run p m s : minors s !! p = Some m -> get_minor p s = Done (m, s).
Proof. intros H. unfold get_minor. by rewrite H. Qed.

Lemma gap_fresh b l1 l2 size req : block_ok b -> gap_ok b l1 l2 size req ->
  c_addr (new_chunk b l1 size req) ∉ (c_addr <$> (l1 ++ l2)).
Proof.
  intros Hb Hg (d & Hd & Hin)%list_elem_of_fmap.
  pose proof (gap_bounds _ _ _ _ _ Hb Hg) as Hc.
  destruct (gap_side _ _ _ _ _ _ Hb Hg Hin) as (Hs & Hr).
  unfold cend in *. simpl in *. consts. lia.
Qed.

Lemma gap_u32 b l1 l2 size req : block_ok b -> gap_ok b l1 l2 size req ->
  u32 size = size /\ u32 req = req.
Proof.
  intros Hb Hg. pose proof (gap_bounds _ _ _ _ _ Hb Hg) as Hc. destruct Hb as (? & ? & ? & ?).
  unfold cend, b_size in *. simpl in *. consts. split; apply u32_small; lia.
Qed.

(** Nothing outside the block changes when cells of its chunks are written. *)
Lemma frame_insert b (m : gmap Z liballoc_minor) a v x :
  b_addr b < a < b_addr b + b_size b -> x < b_addr b \/ b_addr b + b_size b <= x ->
  <[a := v]> m !! x = m !! x.
Proof. intros. apply lookup_insert_ne. lia. Qed.

Section Cases.
Context (pre : list block) (b : block) (post : list block) (size req : Z) (s : lstate P).
Hypothesis H : heap_inv (pre ++ b :: post) s.

Lemma case2_run : b_chunks b = [] -> gap_ok b [] [] size req ->
  let c := new_chunk b [] size req in
  exists s', case2 (b_addr b) size req s = Done (cptr c, s') /\ placed pre b post [] [] c s s'.
Proof.
  intros Hcs Hg c. pose proof (hi_block _ _ _ _ H) as Hb.
  pose proof (gap_bounds _ _ _ _ _ Hb Hg) as Hc. cbv zeta in Hc. fold c in Hc.
  destruct (gap_u32 _ _ _ _ _ Hb Hg) as [E1 E2].
  unfold case2. rewrite (u64_id (b_addr b + sizeof_major)), E1, E2 by (unfold cend in *; simpl in *; consts; lia).
  erewrite bind_run by (eapply mod_major_run; exact (hi_lookup _ _ _ _ H)). erewrite bind_run by reflexivity.
  apply (place_run pre b post [] [] size req (<[c_addr c := enc_minor (b_addr b) c 0 0]> (minors s)) s H Hg).
  - simpl. by rewrite lookup_insert_eq.
  - intros x Hx. apply (frame_insert b); [|done]. unfold cend in *. simpl in *. consts. lia.
Qed.

Lemma case3_run z l2 : b_chunks b = z :: l2 -> gap_ok b [] (z :: l2) size req ->
  let c := new_chunk b [] size req in
  exists s', case3 (b_addr b) (c_addr z) size req s = Done (cptr c, s') /\
    placed pre b post [] (z :: l2) c s s'.
Proof.
  intros Hcs Hg c. pose proof (hi_block _ _ _ _ H) as Hb. pose proof (hi_dll _ _ _ _ H) as Hd.
  pose proof (gap_bounds _ _ _ _ _ Hb Hg) as Hc. cbv zeta in Hc. fold c in Hc.
  pose proof (gap_side _ _ _ _ _ z Hb Hg ltac:(set_solver)) as Hz. cbv zeta in Hz. fold c in Hz.
  pose proof (gap_fresh _ _ _ _ _ Hb Hg) as Hf. fold c in Hf.
  destruct (gap_u32 _ _ _ _ _ Hb Hg) as [E1 E2]. rewrite Hcs in Hd.
  assert (Hne : c_addr c <> c_addr z) by (intros E; apply Hf; rewrite E; set_solver).
  unfold case3. rewrite (u64_id (b_addr b + sizeof_major)), E1, E2 by (unfold cend in *; simpl in *; consts; lia).
  erewrite bind_run by (eapply mod_minor_run, Hd). erewrite bind_run by reflexivity.
  erewrite bind_run by (eapply mod_major_run; exact (hi_lookup _ _ _ _ H)).
  apply (place_run pre b post [] (z :: l2) size req (<[c_addr c := enc_minor (b_addr b) c 0 (c_addr z)]>
    (<[c_addr z := enc_minor (b_addr b) z (c_addr c) (hd_addr c_addr l2 0)]> (minors s))) s H Hg).
  - split; [by rewrite lookup_insert_eq|]. apply dll_frame; [done|].
    apply dll_set_prev with 0; [|done]. rewrite <- Hcs. destruct Hb as (_ & _ & _ & Hb).
    by apply chunks_ok_NoDup in Hb.
  - intros x Hx. rewrite !(frame_insert b); try done; unfold cend in *; simpl in *; consts; lia.
Qed.

(** In the walk of case 4 the block list of majors is not touched before [finish]. *)
Lemma linked_same l1 c mn : hd_addr c_addr (l1 ++ [c]) 0 = hd_addr c_addr (b_chunks b) 0 ->
  linked b (lst_addr b_addr pre 0) (hd_addr b_addr post 0) l1 c mn s = set_minors mn s.
Proof.
  intros E. unfold linked. rewrite E. f_equal.
  replace (major_first _ _) with (enc_major b (lst_addr b_addr pre 0) (hd_addr b_addr post 0)) by done.
  rewrite insert_id by (by apply hi_lookup). by destruct s.
Qed.

Lemma chunk_addrs : NoDup (c_addr <$> b_chunks b).
Proof. destruct (hi_block _ _ _ _ H) as (_ & _ & _ & Hb). by apply chunks_ok_NoDup in Hb. Qed.

Lemma case41_run k x : b_chunks b = k ++ [x] -> gap_ok b (k ++ [x]) [] size req ->
  let c := new_chunk b (k ++ [x]) size req in
  exists s', case41 (b_addr b) (c_addr x) size req s = Done (cptr c, s') /\
    placed pre b post (k ++ [x]) [] c s s'.
Proof.
  intros Hcs Hg c. pose proof (hi_block _ _ _ _ H) as Hb. pose proof (hi_dll _ _ _ _ H) as Hd.
  pose proof (gap_bounds _ _ _ _ _ Hb Hg) as Hc. cbv zeta in Hc. fold c in Hc.
  pose proof (gap_side _ _ _ _ _ x Hb Hg ltac:(set_solver)) as Hx. cbv zeta in Hx. fold c in Hx.
  pose proof (gap_fresh _ _ _ _ _ Hb Hg) as Hf. fold c in Hf. rewrite app_nil_r in Hf.
  destruct (gap_u32 _ _ _ _ _ Hb Hg) as [E1 E2]. pose proof chunk_addrs as Hnd.
  rewrite Hcs in Hd, Hnd. pose proof (dll_lookup _ _ _ _ _ _ _ _ Hd) as Hlx.
  assert (Ha : c_addr c = c_addr x + sizeof_minor + c_size x) by (simpl; by rewrite lst_end_app).
  unfold case41. erewrite bind_run by (eapply get_minor_run, Hlx). cbn [mn_size enc_minor].
  rewrite (u64_id (c_addr x + sizeof_minor + c_size x)), E1, E2, <- Ha by (unfold cend in *; simpl in *; consts; lia).
  erewrite bind_run by (eapply mod_minor_run, Hlx). erewrite bind_run by reflexivity.
  edestruct (place_run pre b post (k ++ [x]) [] size req
    (<[c_addr c := enc_minor (b_addr b) c (c_addr x) 0]>
      (<[c_addr x := enc_minor (b_addr b) x (lst_addr c_addr k 0) (c_addr c)]> (minors s))) s H Hg) as (s' & Hrun & Hpl).
  - fold c. replace (c_addr x) with (lst_addr c_addr (k ++ [x]) 0) at 1 by (by rewrite lst_addr_app).
    apply dll_snoc; [done|]. eapply dll_set_next; done.
  - intros y Hy. rewrite !(frame_insert b); try done; unfold cend in *; simpl in *; consts; lia.
  - exists s'. split; [|done]. rewrite linked_same in Hrun; [exact Hrun|].
    rewrite Hcs. by destruct k.
Qed.

Lemma case42_run k x z l2 : b_chunks b = k ++ x :: z :: l2 -> gap_ok b (k ++ [x]) (z :: l2) size req ->
  let c := new_chunk b (k ++ [x]) size req in
  exists s', case42 (b_addr b) (c_addr x) size req s = Done (cptr c, s') /\
    placed pre b post (k ++ [x]) (z :: l2) c s s'.
Proof.
  intros Hcs Hg c. pose proof (hi_block _ _ _ _ H) as Hb. pose proof (hi_dll _ _ _ _ H) as Hd.
  pose proof (gap_bounds _ _ _ _ _ Hb Hg) as Hc. cbv zeta in Hc. fold c in Hc.
  pose proof (gap_side _ _ _ _ _ x Hb Hg ltac:(set_solver)) as Hx. cbv zeta in Hx. fold c in Hx.
  pose proof (gap_side _ _ _ _ _ z Hb Hg ltac:(set_solver)) as Hz. cbv zeta in Hz. fold c in Hz.
  pose proof (gap_fresh _ _ _ _ _ Hb Hg) as Hf. fold c in Hf. rewrite <- app_assoc in Hf. cbn [app] in Hf.
  destruct (gap_u32 _ _ _ _ _ Hb Hg) as [E1 E2]. pose proof chunk_addrs as Hnd.
  rewrite Hcs in Hd, Hnd. pose proof (dll_lookup _ _ _ _ _ _ _ _ Hd) as Hlx.
  assert (Hlz : minors s !! c_addr z = Some (enc_minor (b_addr b) z (c_addr x) (hd_addr c_addr l2 0))).
  { unfold dll_minors in Hd. change (k ++ x :: z :: l2) with (k ++ [x] ++ z :: l2) in Hd.
    rewrite app_assoc in Hd. apply dll_lookup in Hd.
    by rewrite lst_addr_app in Hd. }
  assert (Ha : c_addr c = c_addr x + sizeof_minor + c_size x) by (simpl; by rewrite lst_end_app).
  assert (Hnz : c_addr c <> c_addr z) by (intros E; apply Hf; rewrite E; set_solver).
  assert (Hnx : c_addr c <> c_addr x) by (intros E; apply Hf; rewrite E; set_solver).
  assert (Hxz : c_addr z <> c_addr x).
  { apply NoDup_fmap_1 in Hnd as Hnd'. rewrite fmap_app in Hnd. apply NoDup_app in Hnd as (_ & _ & Hnd).
    cbn in Hnd. apply NoDup_cons in Hnd as [Hn _]. intros E. apply Hn. rewrite E. set_solver. }
  unfold case42. erewrite bind_run by (eapply get_minor_run, Hlx). cbn [mn_size mn_next enc_minor hd_addr].
  rewrite (u64_id (c_addr x + sizeof_minor + c_size x)), E1, E2, <- Ha by (unfold cend in *; simpl in *; consts; lia).
  erewrite bind_run by reflexivity.
  erewrite bind_run by (eapply mod_minor_run; simpl minors; rewrite lookup_insert_ne by done; exact Hlz).
  erewrite bind_run by (eapply mod_minor_run; simpl minors; rewrite !lookup_insert_ne by done; exact Hlx).
  edestruct (place_run pre b post (k ++ [x]) (z :: l2) size req
    (<[c_addr x := enc_minor (b_addr b) x (lst_addr c_addr k 0) (c_addr c)]>
      (<[c_addr z := enc_minor (b_addr b) z (c_addr c) (hd_addr c_addr l2 0)]>
        (<[c_addr c := enc_minor (b_addr b) c (c_addr x) (c_addr z)]> (minors s)))) s H Hg) as (s' & Hrun & Hpl).
  - fold c. rewrite <- app_assoc. cbn [app]. by apply (dll_insert_mid c_addr (enc_minor (b_addr b))).
  - intros y Hy. rewrite !(frame_insert b); try done; unfold cend in *; simpl in *; consts; lia.
  - exists s'. split; [|done]. rewrite linked_same in Hrun; [exact Hrun|].
    rewrite Hcs. by destruct k.
Qed.

(** ** The walk over a block is first fit *)

Hypothesis Hreq : 0 <= req.
Hypothesis Hsize : req + 32 <= size < 2 ^ 32.

Let lo := b_addr b + sizeof_major.
Let hi := b_addr b + b_size b.

Lemma gap_ok_suffix k l l1 l2 : b_chunks b = k ++ l ->
  first_fit (size + sizeof_minor) (lst_end k lo) hi l = Some (l1, l2) -> gap_ok b (k ++ l1) l2 size req.
Proof.
  intros Hcs Hff. destruct (hi_block _ _ _ _ H) as (_ & _ & _ & Hb). rewrite Hcs in Hb.
  apply chunks_ok_app in Hb as [Hk Hl]. fold lo hi in Hk, Hl. split.
  - rewrite Hcs, (first_fit_split _ _ _ _ _ _ Hff). by rewrite app_assoc.
  - rewrite <- app_assoc. apply chunks_ok_app. split; [done|].
    unfold new_chunk. rewrite lst_end_app. apply first_fit_ok with l; auto; lia.
Qed.

(** What placing by first fit means for one block. *)
Definition fits (r : outcome (option Z * lstate P)) (k : list chunk) (ff : option (list chunk * list chunk)) : Prop :=
  match ff with
  | Some (l1, l2) =>
      let c := new_chunk b (k ++ l1) size req in
      exists s', r = Done (Some (cptr c), s') /\ placed pre b post (k ++ l1) l2 c s s'
  | None => r = Done (None, s)
  end.

Lemma case4_run fuel k x l : b_chunks b = k ++ x :: l -> (length l + 1 < fuel)%nat ->
  fits (case4 fuel (b_addr b) (c_addr x) size req s) (k ++ [x])
    (first_fit (size + sizeof_minor) (cend x) hi l).
Proof.
  revert fuel k x. induction l as [|z l IH]; intros fuel k x Hcs Hfuel;
    (destruct fuel as [|fuel]; [lia|]);
    pose proof (hi_block _ _ _ _ H) as Hb; pose proof (hi_dll _ _ _ _ H) as Hd; rewrite Hcs in Hd;
    apply dll_lookup in Hd; pose proof (hi_lookup _ _ _ _ H) as Hm;
    destruct (block_bounds b x Hb ltac:(rewrite Hcs; set_solver)) as [Hx1 Hx2];
    assert (Hlst : lst_end (k ++ [x]) lo = cend x) by (by rewrite lst_end_app);
    pose proof Hb as (Hb1 & Hb2 & Hb3 & Hb4);
    pose proof (chunks_ok_in _ _ _ x Hb4 ltac:(rewrite Hcs; set_solver)) as (_ & _ & Hx3 & Hx4);
    cbn [case4]; rewrite (proj2 (Z.eqb_neq (c_addr x) 0)) by lia;
    erewrite bind_run by (eapply get_major_run, Hm); erewrite bind_run by (eapply get_minor_run, Hd);
    cbn [mn_next mn_size mj_size enc_minor enc_major hd_addr].
  - rewrite Z.eqb_refl. cbv zeta. rewrite (u64_id (size + sizeof_minor)) by (consts; lia).
    rewrite u64_id by (unfold cend, b_size in *; consts; lia).
    replace (b_addr b + b_size b - c_addr x - sizeof_minor - c_size x) with (hi - cend x)
      by (unfold hi, cend; lia).
    unfold fits, first_fit. zcase.
    + destruct (case41_run k x Hcs) as (s' & Hrun & Hpl).
      { rewrite <- (app_nil_r (k ++ [x])). apply gap_ok_suffix with []; [by rewrite app_nil_r|].
        rewrite Hlst. by apply first_fit_empty. }
      rewrite app_nil_r. erewrite bind_run by exact Hrun. eauto.
    + destruct fuel as [|fuel]; [simpl in Hfuel; lia|]. done.
  - pose proof (chunks_ok_in _ _ _ z Hb4 ltac:(rewrite Hcs; set_solver)) as Hz.
    rewrite (proj2 (Z.eqb_neq (c_addr z) 0)) by (consts; lia). cbv zeta.
    rewrite (u64_id (size + sizeof_minor)) by (consts; lia).
    assert (Hxz : cend x <= c_addr z).
    { rewrite Hcs in Hb4. apply chunks_ok_app in Hb4 as [_ (_ & _ & _ & Hb4)]. apply Hb4. }
    rewrite u64_id by (unfold cend, b_size in *; consts; lia).
    replace (c_addr z - c_addr x - sizeof_minor - c_size x) with (c_addr z - cend x) by (unfold cend; lia).
    cbn [first_fit]. zcase.
    + destruct (case42_run k x z l Hcs) as (s' & Hrun & Hpl).
      { rewrite <- (app_nil_r (k ++ [x])). apply gap_ok_suffix with (z :: l); [by rewrite <- app_assoc|].
        rewrite Hlst. simpl. by rewrite (proj2 (Z.leb_le _ _)). }
      unfold fits. rewrite app_nil_r. erewrite bind_run by exact Hrun. eauto.
    + specialize (IH fuel (k ++ [x]) z). rewrite <- app_assoc in IH. specialize (IH Hcs).
      simpl in Hfuel. specialize (IH ltac:(lia)). revert IH. unfold fits.
      destruct (first_fit _ (cend z) hi l) as [[l1 l2]|]; [|done]. rewrite <- app_assoc. done.
Qed.

(** Cases 2 to 4 together, for a block with enough free bytes. *)
Lemma in_block_run fuel : (length (b_chunks b) < fuel)%nat ->
  size + sizeof_minor <= b_size b - usage (b_chunks b) ->
  fits (in_block fuel (b_addr b) size req s) [] (first_fit (size + sizeof_minor) lo hi (b_chunks b)).
Proof.
  intros Hfuel Hfree. pose proof (hi_block _ _ _ _ H) as Hb. pose proof (hi_lookup _ _ _ _ H) as Hm.
  unfold in_block. erewrite bind_run by (eapply get_major_run, Hm).
  cbn [mj_first enc_major]. pose proof Hb as (Hb1 & Hb2 & Hb3 & Hb4).
  destruct (b_chunks b) as [|z l] eqn:Hcs; cbn [hd_addr].
  - assert (Hff : first_fit (size + sizeof_minor) lo hi [] = Some ([], [])).
    { apply first_fit_empty. unfold lo, hi. simpl in Hfree. consts. lia. }
    rewrite Hff. destruct (case2_run Hcs) as (s' & Hrun & Hpl).
    { change (@nil chunk) with (@nil chunk ++ []) at 1. by apply gap_ok_suffix with []. }
    simpl. erewrite bind_run by exact Hrun. eauto.
  - pose proof (chunks_ok_in _ _ _ z Hb4 ltac:(set_solver)) as Hz.
    rewrite (proj2 (Z.eqb_neq (c_addr z) 0)) by (consts; lia). cbv zeta.
    rewrite (u64_id (size + sizeof_minor)) by (consts; lia).
    rewrite u64_id by (unfold cend, b_size in *; consts; lia).
    replace (c_addr z - b_addr b - sizeof_major) with (c_addr z - lo) by (unfold lo; lia).
    pose proof (case4_run fuel [] z l Hcs ltac:(simpl in Hfuel; lia)) as Hc4. revert Hc4.
    cbn [first_fit]. zcase.
    + intros _. destruct (case3_run z l Hcs) as (s' & Hrun & Hpl).
      { change (@nil chunk) with (@nil chunk ++ []) at 1. apply gap_ok_suffix with (z :: l); [done|].
        simpl. by rewrite (proj2 (Z.leb_le _ _)). }
      simpl. erewrite bind_run by exact Hrun. eauto.
    + unfold fits. destruct (first_fit _ (cend z) hi l) as [[l1 l2]|]; done.
Qed.
End Cases.
End Place.

(** ** The search over the blocks *)
Section Malloc.
Context {P : Type} `{!Hooks P} `{!HooksOk P}.
Implicit Types s t : lstate P.

Lemma hook_run {A} (h : M P A) s a p : h (provider s) = Done (a, p) ->
  hook h s = Done (a, set_provider p s).
Proof. intros E. unfold hook. by rewrite E. Qed.

(** Only the provider, the best bet and the warning counter differ. *)
Lemma heap_inv_ext bs s s' : heap_inv bs s ->
  majors s' = majors s -> minors s' = minors s -> bytes s' = bytes s -> l_memRoot s' = l_memRoot s ->
  l_inuse s' = l_inuse s -> l_allocated s' = l_allocated s ->
  (l_bestBet s' = 0 \/ l_bestBet s' ∈ (b_addr <$> bs)) -> heap_inv bs s'.
Proof. intros [] E5 E6 E1 E2 E3 E4 Hb. constructor; rewrite ?E1, ?E2, ?E3, ?E4, ?E5, ?E6; done. Qed.

Lemma heap_provider l l' bs s p : heap l bs s -> hk_ok p l' (regions bs) -> heap l' bs (set_provider p s).
Proof. intros [H Hk] Hp. split; [|done]. eapply heap_inv_ext; try done. apply (hi_bet _ _ H). Qed.

Lemma heap_bet bs s b : heap true bs s -> b ∈ bs -> heap true bs (set_bestBet (b_addr b) s).
Proof.
  intros [H Hk] Hb. split; [|done]. eapply heap_inv_ext; try done. right. simpl.
  by apply list_elem_of_fmap_2.
Qed.

(** A block without chunks joins the heap. *)
Lemma heap_add_block bs a n s s' :
  heap_inv bs s -> regions_ok (regions bs ++ [(a, n)]) -> 16 <= n < 2 ^ 20 ->
  let nb := mk_block a n [] in
  dll_majors (majors s') 0 (bs ++ [nb]) 0 -> minors s' = minors s -> bytes s' = bytes s ->
  l_memRoot s' = hd_addr b_addr (bs ++ [nb]) 0 -> l_bestBet s' = l_bestBet s ->
  l_inuse s' = l_inuse s -> l_allocated s' = u64 (l_allocated s + n * l_pageSize) ->
  heap_inv (bs ++ [nb]) s'.
Proof.
  intros H Hr Hn nb Hmj Hmn Hby Hroot Hbet Hin Hal.
  assert (Hreg : region_ok (a, n)).
  { destruct Hr as [Hr _]. apply Forall_app in Hr as [_ Hr]. by apply Forall_cons in Hr as [Hr _]. }
  constructor; try done.
  - rewrite Hmn. apply Forall_app. split; [apply (hi_minors _ _ H)|]. by repeat constructor.
  - rewrite Hby, live_app. simpl. rewrite app_nil_r. apply (hi_info _ _ H).
  - apply Forall_app. split; [apply (hi_blocks _ _ H)|]. constructor; [|constructor].
    unfold region_ok, block_ok, b_size in *. simpl in *. consts. lia.
  - unfold regions in *. rewrite fmap_app. exact Hr.
  - rewrite Hbet. destruct (hi_bet _ _ H) as [E|E]; [by left|right]. rewrite fmap_app. set_solver.
  - rewrite Hin, (hi_inuse _ _ H), live_app. simpl. by rewrite app_nil_r.
  - rewrite Hal, (hi_alloc _ _ H), u64_add_l, sum_pages_app. f_equal. change (sum_pages [nb]) with (n * l_pageSize + 0). lia.
Qed.

Definition fresh_major (n : Z) : liballoc_major := mk_major 0 0 n (n * l_pageSize) sizeof_major 0.

Lemma allocate_new_page_run bs size s :
  heap true bs s -> hk_safe (provider s) (pages_for size) -> 0 <= size <= 2 ^ 32 - 4096 - 80 ->
  exists a s', allocate_new_page (u32 size) s = Done (a, s') /\
   (a = 0 /\ heap true bs s' /\ bytes s' = bytes s \/
    exists n p, a <> 0 /\ 16 <= n < 2 ^ 20 /\ size + 80 <= n * l_pageSize /\
      hk_ok p true ((a, n) :: regions bs) /\
      s' = set_allocated (u64 (l_allocated s + n * l_pageSize))
             (set_majors (<[a := fresh_major n]> (majors s)) (set_provider p s))).
Proof.
  intros [H Hk] Hsafe Hs. unfold allocate_new_page.
  rewrite (u32_small size), (u32_small (size + sizeof_major)), (u32_small (size + sizeof_major + sizeof_minor))
    by (consts; lia).
  set (st0 := if _ =? 0 then _ else _). set (st1 := if st0 <? l_pageCount then _ else _).
  assert (Hst : 16 <= st1 < 2 ^ 20 /\ size + 80 <= st1 * l_pageSize).
  { assert (H0 : 0 <= st0 < 2 ^ 20 /\ size + 80 <= st0 * l_pageSize).
    { unfold st0. consts. pose proof (Z.div_mod (size + 40 + 40) 4096 ltac:(lia)).
      pose proof (Z.mod_pos_bound (size + 40 + 40) 4096 ltac:(lia)). zcase; lia. }
    unfold st1, l_pageCount. consts. zcase; lia. }
  assert (Epages : st1 = pages_for size).
  { assert (H0 : st0 = (size + sizeof_major + sizeof_minor + (l_pageSize - 1)) / l_pageSize).
    { unfold st0. consts. zcase; Z.div_mod_to_equations; lia. }
    unfold st1, pages_for. rewrite <- H0. unfold l_pageCount. zcase; lia. }
  rewrite <- Epages in Hsafe.
  destruct (hk_alloc (provider s) (regions bs) st1 Hk ltac:(lia) Hsafe) as (a & p & Ha & Hp).
  cbv zeta. rewrite (s32_small st1) by lia.
  erewrite bind_run by (by apply hook_run).
  destruct Hp as [[-> Hp]|[Hne Hp]].
  - rewrite Z.eqb_refl. do 2 eexists. split; [reflexivity|]. left. split; [done|]. split; [|done].
    split; [|done]. eapply heap_inv_ext; try done. apply (hi_bet _ _ H).
  - rewrite (proj2 (Z.eqb_neq a 0)) by done.
    rewrite (u32_small (st1 * l_pageSize)) by (consts; lia).
    do 2 eexists. split; [reflexivity|]. right. exists st1, p. repeat split; try done; lia.
Qed.

(** The list grows behind its last block, or the provider refuses. *)
Lemma extend_run pre b size s :
  heap true (pre ++ [b]) s -> hk_safe (provider s) (pages_for size) -> 0 <= size <= 2 ^ 32 - 4096 - 80 ->
  exists a s', extend (b_addr b) size s = Done (a, s') /\ bytes s' = bytes s /\
   (a = 0 /\ heap true (pre ++ [b]) s' \/
    exists n, a <> 0 /\ size + 80 <= n * l_pageSize /\ heap true ((pre ++ [b]) ++ [mk_block a n []]) s').
Proof.
  intros [H Hk] Hsafe Hs. unfold extend.
  destruct (allocate_new_page_run _ size s (conj H Hk) Hsafe Hs) as (a & t & Hrun & Hc).
  erewrite bind_run by exact Hrun.
  destruct Hc as [(-> & [Ht Hkt] & Hby)|(n & p & Hne & Hn & Hroom & Hp & ->)].
  - erewrite bind_run by (eapply mod_major_run; exact (hi_lookup _ _ _ _ Ht)).
    do 2 eexists. split; [reflexivity|]. split; [done|]. left. split; [done|]. split; [|done].
    eapply heap_inv_ext; try done; [|apply (hi_bet _ _ Ht)]. simpl.
    apply insert_id. exact (hi_lookup _ _ _ _ Ht).
  - assert (Hp' : hk_ok p true (regions (pre ++ [b]) ++ [(a, n)])).
    { eapply hk_perm, Hp. by rewrite Permutation_cons_append. }
    pose proof (hk_regions _ _ _ Hp') as Hr.
    assert (Hnd : NoDup (b_addr <$> (pre ++ [b]) ++ [mk_block a n []])).
    { apply regions_NoDup. unfold regions in *. rewrite fmap_app. exact Hr. }
    rewrite fmap_app in Hnd. apply NoDup_app in Hnd as (Hnd1 & Hnd2 & _).
    assert (Hab : b_addr b <> a).
    { intros E. apply (Hnd2 (b_addr b)); [rewrite fmap_app; set_solver|]. rewrite E. set_solver. }
    erewrite bind_run.
    2:{ eapply mod_major_run. simpl. rewrite lookup_insert_ne by done. exact (hi_lookup _ _ _ _ H). }
    rewrite (proj2 (Z.eqb_neq a 0)) by done. simpl negb. unfold when.
    erewrite bind_run.
    2:{ eapply mod_major_run. simpl. rewrite lookup_insert_ne by done. by rewrite lookup_insert_eq. }
    do 2 eexists. split; [reflexivity|]. split; [done|]. right. exists n. split; [done|]. split; [done|].
    split; [|unfold regions in *; rewrite fmap_app; exact Hp'].
    eapply (heap_add_block (pre ++ [b]) a n s); try done.
    + simpl. rewrite (insert_insert_ne _ (b_addr b) a), insert_insert_eq by done.
      unfold dll_majors.
      replace (major_prev (b_addr b) (fresh_major n))
        with (enc_major (mk_block a n []) (lst_addr b_addr (pre ++ [b]) 0) 0)
        by (rewrite lst_addr_app; done).
      apply (dll_snoc b_addr enc_major _ 0 (pre ++ [b]) (mk_block a n [])); [intros Hin; apply (Hnd2 a Hin); set_solver|].
      apply (dll_set_next b_addr enc_major (majors s) 0 pre b 0 a); [done|apply (hi_majors _ _ H)].
    + simpl. rewrite (hi_root _ _ H). by destruct pre.
Qed.

(** What a successful or refused allocation leaves behind. *)
Definition malloc_post (l : bool) (bs : list block) (by0 : mem) (size req p : Z) s' : Prop :=
  (p = 0 /\ heap l bs s' /\ bytes s' = by0) \/
  exists bs' c, heap l bs' s' /\ live bs' ≡ₚ c :: live bs /\ c_size c = size /\ c_req c = req /\
    p = cptr c /\ (forall x, x < c_addr c \/ cend c <= x -> bytes s' x = by0 x).

Section Search.
Context (size req : Z) (Hreq : 0 <= req) (Hsize : req + 32 <= size <= 2 ^ 32 - 4096 - 80).

(** The locked heap, with a provider that can be asked for a block for this request. *)
Definition heapS bs s : Prop := heap true bs s /\ hk_safe (provider s) (pages_for size).

Lemma placed_post pre b post l1 l2 s s' :
  heap true (pre ++ b :: post) s -> b_chunks b = l1 ++ l2 ->
  placed pre b post l1 l2 (new_chunk b l1 size req) s s' ->
  malloc_post true (pre ++ b :: post) (bytes s) size req (cptr (new_chunk b l1 size req)) s'.
Proof.
  intros [H Hk] Hcs [Hi Hp Hb]. right.
  exists (pre ++ mk_block (b_addr b) (b_pages b) (l1 ++ new_chunk b l1 size req :: l2) :: post),
    (new_chunk b l1 size req). split; [split; [done|]|].
  - rewrite Hp. unfold regions in *. rewrite fmap_app in *. exact Hk.
  - split; [|done]. rewrite !live_app, !live_cons, Hcs. cbn [b_chunks]. by solve_Permutation.
Qed.

(** The part of [malloc_post] that follows from first fit in a block. *)
Lemma in_block_some inner pre b post s :
  heap true (pre ++ b :: post) s -> (length (b_chunks b) < inner)%nat ->
  size + sizeof_minor <= b_size b - usage (b_chunks b) ->
  in_block inner (b_addr b) size req s = Done (None, s) /\ b_chunks b <> [] \/
  exists p s', in_block inner (b_addr b) size req s = Done (Some p, s') /\
    malloc_post true (pre ++ b :: post) (bytes s) size req p s'.
Proof.
  intros H Hin Hfree. pose proof H as [Hi _].
  pose proof (in_block_run pre b post size req s Hi Hreq ltac:(lia) inner Hin Hfree) as Hr.
  unfold fits in Hr. destruct (first_fit _ _ _ _) as [[l1 l2]|] eqn:E.
  - right. destruct Hr as (s' & Hrun & Hpl). do 2 eexists. split; [exact Hrun|].
    eapply (placed_post pre b post ([] ++ l1) l2); try done. by apply first_fit_split in E.
  - left. split; [done|]. intros Hnil. rewrite Hnil in *. simpl in *.
    revert E. zcase; [done|]. consts. lia.
Qed.

(** A new empty block at the end always takes the chunk. *)
Lemma fresh_post bs a n by0 p s' :
  malloc_post true (bs ++ [mk_block a n []]) by0 size req p s' -> p <> 0 ->
  malloc_post true bs by0 size req p s'.
Proof.
  intros [[-> _]|(bs' & c & H1 & H2 & H3)] Hp; [done|]. right. exists bs', c.
  split; [done|]. rewrite live_app in H2. simpl in H2. rewrite app_nil_r in H2. done.
Qed.

Lemma live_ptr_pos l bs s c : heap l bs s -> c ∈ live bs -> 0 < cptr c.
Proof.
  intros [H _] (b & Hb & Hc)%live_in. pose proof (hi_blocks _ _ H) as Hok. rewrite Forall_forall in Hok.
  specialize (Hok _ Hb). pose proof (block_bounds _ _ Hok Hc). destruct Hok as (? & _).
  pose proof (cptr_bounds c). lia.
Qed.

Lemma fresh_block_run inner bs a n s :
  heap true (bs ++ [mk_block a n []]) s -> (0 < inner)%nat -> size + 80 <= n * l_pageSize ->
  exists p s', in_block inner a size req s = Done (Some p, s') /\
    malloc_post true bs (bytes s) size req p s'.
Proof.
  intros H Hin Hroom.
  destruct (in_block_some inner bs (mk_block a n []) [] s H) as [[_ Hc]|(p & s' & Hrun & Hpost)];
    [done|simpl; unfold b_size; simpl; consts; lia|done|].
  exists p, s'. split; [done|]. destruct Hpost as [[-> Hno]|Hy]; [|].
  - exfalso. pose proof H as [Hi _].
    pose proof (in_block_run bs (mk_block a n []) [] size req s Hi Hreq ltac:(lia) inner Hin) as Hr.
    cbn [b_chunks] in Hr. rewrite first_fit_empty in Hr by (unfold b_size; simpl; consts; lia).
    destruct Hr as (t & Hrun' & Hpl); [unfold b_size; simpl; consts; lia|].
    rewrite Hrun in Hrun'. injection Hrun' as E _. pose proof (hi_block _ _ _ _ Hi) as (Hpos & _).
    pose proof (cptr_bounds (new_chunk (mk_block a n []) ([] ++ []) size req)).
    simpl in *. consts. lia.
  - eapply fresh_post; [right; done|]. destruct Hy as (bs' & c & H1 & H2 & _ & _ & -> & _).
    pose proof (live_ptr_pos true bs' s' c H1 ltac:(rewrite H2; set_solver)). lia.
Qed.

Lemma diff_small b : block_ok b ->
  u32 (b_size b - usage (b_chunks b)) = b_size b - usage (b_chunks b).
Proof.
  intros (? & ? & ? & Hc). pose proof (usage_bounds _ _ _ Hc). apply u32_small.
  unfold b_size in *. consts. lia.
Qed.

Lemma post_bytes bs by0 by1 p s' : by1 = by0 ->
  malloc_post true bs by1 size req p s' -> malloc_post true bs by0 size req p s'.
Proof. by intros ->. Qed.

(** The loop entered at a fresh block returns from it. *)
Lemma search_fresh f inner bs a n started best s :
  heap true (bs ++ [mk_block a n []]) s -> (0 < inner)%nat -> size + 80 <= n * l_pageSize ->
  exists p s', search (S f) inner a size req started best s = Done (p, s') /\
    malloc_post true bs (bytes s) size req p s'.
Proof.
  intros H Hin Hroom. pose proof H as [Hi _]. pose proof (hi_block _ _ _ _ Hi) as Hb.
  pose proof Hb as (Hpos & _). cbn [search]. rewrite (proj2 (Z.eqb_neq a 0)) by (simpl in *; lia).
  erewrite bind_run by (eapply get_major_run, (hi_lookup _ _ _ _ Hi)).
  cbn [mj_size mj_usage enc_major]. rewrite (diff_small _ Hb). cbv zeta.
  set (diff := b_size _ - _). set (m := when _ _).
  assert (Hm : exists t, m s = Done (tt, t) /\ heap true (bs ++ [mk_block a n []]) t /\ bytes t = bytes s).
  { unfold m, when. zcase; [|by exists s]. eexists. split; [reflexivity|]. split; [|done].
    change a with (b_addr (mk_block a n [])) at 2. apply heap_bet; [done|set_solver]. }
  destruct Hm as (t & Hm & Ht & Hbt). erewrite bind_run by exact Hm.
  rewrite (u64_small (size + sizeof_minor)) by (consts; lia).
  rewrite (proj2 (Z.ltb_ge _ _)) by (unfold diff, b_size; simpl; consts; lia).
  destruct (fresh_block_run inner bs a n t Ht Hin Hroom) as (p & s' & Hrun & Hpost).
  erewrite bind_run by exact Hrun. rewrite <- Hbt. eauto.
Qed.

(** The end of the list without a best bet to go back to. *)
Lemma extend_then pre b s K :
  heapS (pre ++ [b]) s ->
  (forall a n t, heap true ((pre ++ [b]) ++ [mk_block a n []]) t -> size + 80 <= n * l_pageSize ->
     exists p s', K a t = Done (p, s') /\ malloc_post true (pre ++ [b]) (bytes t) size req p s') ->
  exists p s', (a ← extend (b_addr b) size; if a =? 0 then mret 0 else K a) s = Done (p, s') /\
    malloc_post true (pre ++ [b]) (bytes s) size req p s'.
Proof.
  intros [H Hsafe] HK. destruct (extend_run pre b size s H Hsafe ltac:(lia)) as (a & t & Hrun & Hby & Hc).
  erewrite bind_run by exact Hrun. destruct Hc as [[-> Ht]|(n & Hne & Hroom & Ht)].
  - rewrite Z.eqb_refl. do 2 eexists. split; [reflexivity|]. by left.
  - rewrite (proj2 (Z.eqb_neq a 0)) by done. destruct (HK a n t Ht Hroom) as (p & s' & Hr & Hpost).
    exists p, s'. split; [done|]. by eapply post_bytes.
Qed.

(** One turn of the loop: done, or on to the next block or back to the root. *)
Lemma search_step f inner pre b post started best s :
  heapS (pre ++ b :: post) s -> (length (b_chunks b) < inner)%nat -> (0 < f)%nat ->
  exists best' t, heapS (pre ++ b :: post) t /\ bytes t = bytes s /\
  let R := search (S f) inner (b_addr b) size req started best s in
  (post <> [] /\ R = search f inner (hd_addr b_addr post 0) size req started best' t) \/
  (post = [] /\ started = true /\
     R = search f inner (hd_addr b_addr (pre ++ b :: post) 0) size req false best' t) \/
  exists p s', R = Done (p, s') /\ malloc_post true (pre ++ b :: post) (bytes s) size req p s'.
Proof.
  intros [H Hsafe] Hin Hf. pose proof H as [Hi _]. pose proof (hi_block _ _ _ _ Hi) as Hb.
  pose proof Hb as (Hpos & _). cbn [search]. rewrite (proj2 (Z.eqb_neq (b_addr b) 0)) by lia.
  set (D := b_size b - usage (b_chunks b)).
  exists (if best <? D then D else best), (if best <? D then set_bestBet (b_addr b) s else s).
  set (t := if best <? D then set_bestBet (b_addr b) s else s).
  assert (Ht : heap true (pre ++ b :: post) t).
  { unfold t. destruct (best <? D); [|done]. apply heap_bet; [done|set_solver]. }
  assert (Hbt : bytes t = bytes s) by (unfold t; by destruct (best <? D)).
  assert (Hsafet : heapS (pre ++ b :: post) t) by (split; [done|unfold t; by destruct (best <? D)]).
  split; [done|]. split; [done|].
  erewrite bind_run by (eapply get_major_run, (hi_lookup _ _ _ _ Hi)).
  cbn [mj_size mj_usage mj_next enc_major]. rewrite (diff_small _ Hb). fold D. cbv zeta.
  assert (Hw : when (best <? D) (modify (set_bestBet (b_addr b))) s = Done (tt, t)).
  { unfold when, t. by destruct (best <? D). }
  erewrite bind_run by exact Hw. clear Hw.
  rewrite (u64_small (size + sizeof_minor)) by (consts; lia). pose proof Ht as [Hti _].
  assert (Hnext : post = [] \/ hd_addr b_addr post 0 <> 0 /\ post <> []).
  { destruct post as [|c post]; [by left|right]. split; [|done]. simpl.
    pose proof (hi_blocks _ _ Hi) as Hok. rewrite Forall_app, !Forall_cons in Hok.
    destruct Hok as (_ & _ & (Hc & _) & _). lia. }
  assert (Hroot : l_memRoot t = hd_addr b_addr (pre ++ b :: post) 0) by apply (hi_root _ _ Hti).
  assert (Hlk : get_major (b_addr b) t = Done (enc_major b (lst_addr b_addr pre 0) (hd_addr b_addr post 0), t)).
  { eapply get_major_run, (hi_lookup _ _ _ _ Hti). }
  zcase.
  - destruct Hnext as [->|[Hn Hne]]; [change (negb (hd_addr b_addr [] 0 =? 0)) with false; cbv iota|].
    + destruct started; [right; left; split; [done|]; split; [done|]|right; right].
      * erewrite bind_run by reflexivity. by rewrite Hroot.
      * rewrite <- Hbt. apply (extend_then pre b t); [done|]. intros a n u Hu Hroom.
        destruct (fresh_block_run inner _ a n u Hu ltac:(lia) Hroom) as (p & s' & Hr & Hpost).
        erewrite bind_run by exact Hr. eauto.
    + rewrite (proj2 (Z.eqb_neq _ 0)) by done. by left.
  - destruct (in_block_some inner pre b post t Ht Hin ltac:(unfold D in *; lia)) as [[Hr _]|(p & s' & Hr & Hpost)].
    2:{ erewrite bind_run by exact Hr. right; right. rewrite <- Hbt. eauto. }
    erewrite bind_run by exact Hr. cbv beta iota.
    erewrite bind_run by exact Hlk. cbn [mj_next enc_major].
    destruct Hnext as [->|[Hn Hne]]; [change (hd_addr b_addr [] 0 =? 0) with true; cbv iota|].
    + destruct started; [right; left; split; [done|]; split; [done|]|right; right].
      * erewrite bind_run by reflexivity. by rewrite Hroot.
      * rewrite <- Hbt. apply (extend_then pre b t); [done|]. intros a n u Hu Hroom.
        destruct f as [|f]; [lia|]. apply search_fresh with n; auto; lia.
    + rewrite (proj2 (Z.eqb_neq _ 0)) by done. by left.
Qed.

Lemma search_from (started : bool) inner bs suf pre best s f :
  bs = pre ++ suf -> suf <> [] -> heapS bs s ->
  Forall (fun b => (length (b_chunks b) < inner)%nat) bs ->
  (length suf + (if started then length bs else 0) + 1 < f)%nat ->
  exists p s', search f inner (hd_addr b_addr suf 0) size req started best s = Done (p, s') /\
    malloc_post true bs (bytes s) size req p s'.
Proof.
  revert started f suf pre best s.
  assert (Hgen : forall started : bool, (started = true -> forall best s f, heapS bs s ->
      Forall (fun b => (length (b_chunks b) < inner)%nat) bs -> (length bs + 1 < f)%nat ->
      exists p s', search f inner (hd_addr b_addr bs 0) size req false best s = Done (p, s') /\
        malloc_post true bs (bytes s) size req p s') ->
    forall suf pre best s f, bs = pre ++ suf -> suf <> [] -> heapS bs s ->
      Forall (fun b => (length (b_chunks b) < inner)%nat) bs ->
      (length suf + (if started then length bs else 0) + 1 < f)%nat ->
      exists p s', search f inner (hd_addr b_addr suf 0) size req started best s = Done (p, s') /\
        malloc_post true bs (bytes s) size req p s').
  { intros started Hback suf. induction suf as [|b post IH]; intros pre best s f Hbs Hne H Hin Hf; [done|].
    destruct f as [|f]; [lia|]. rewrite Hbs in H. cbn [length] in Hf.
    assert (Hb : (length (b_chunks b) < inner)%nat).
    { rewrite Forall_forall in Hin. apply Hin. rewrite Hbs. set_solver. }
    destruct (search_step f inner pre b post started best s H Hb ltac:(lia))
      as (best' & t & Ht & Hbt & Hc). rewrite <- Hbs in *. cbv zeta in Hc. simpl hd_addr.
    destruct Hc as [[Hp ->]|[(-> & -> & ->)|Hdone]]; [| |exact Hdone].
    - rewrite <- Hbt. apply (IH (pre ++ [b])); auto; [by rewrite <- app_assoc|lia].
    - rewrite <- Hbt. apply Hback; auto. cbn [length] in Hf. lia. }
  intros started f suf pre best s Hbs Hne. apply (Hgen started) with pre; [|done|done].
  intros _ best' t f' Ht Hin Hf. apply (Hgen false) with []; auto; [done| |simpl; lia].
  by destruct pre; subst bs; destruct suf.
Qed.


Lemma unlock_post bs by0 p t : malloc_post true bs by0 size req p t ->
  exists v t', hook liballoc_unlock t = Done (v, t') /\ malloc_post false bs by0 size req p t'.
Proof.
  intros [(-> & Ht & Hb)|(bs' & c & Ht & Hrest)]; pose proof Ht as [_ Hk];
    destruct (hk_unlock _ _ Hk) as (v & q & Hq & Hk' & _); (do 2 eexists; split; [by apply hook_run|]).
  - left. split; [done|]. split; [|done]. by eapply heap_provider.
  - right. exists bs', c. split; [by eapply heap_provider|done].
Qed.

(** The second half of the body: start at the best bet or at the root. *)
Lemma from_root_run fuel bs s :
  heapS bs s -> bs <> [] -> Forall (fun b => (length (b_chunks b) < fuel)%nat) bs ->
  (2 * length bs + 1 < fuel)%nat ->
  exists p s', from_root fuel req size s = Done (p, s') /\ malloc_post false bs (bytes s) size req p s'.
Proof.
  intros H Hne Hin Hf. pose proof H as [[Hi _] _].
  assert (Hgo : forall started best suf pre, bs = pre ++ suf -> suf <> [] ->
    exists p s', (p ← search fuel fuel (hd_addr b_addr suf 0) size req started best;
      hook liballoc_unlock;; mret p) s = Done (p, s') /\ malloc_post false bs (bytes s) size req p s').
  { intros started best suf pre Hbs Hs.
    destruct (search_from started fuel bs suf pre best s fuel Hbs Hs H Hin) as (p & t & Hr & Hp).
    { rewrite Hbs, length_app in *. destruct started; lia. }
    erewrite bind_run by exact Hr. destruct (unlock_post _ _ _ _ Hp) as (v & t' & Hu & Hp').
    erewrite bind_run by exact Hu. eauto. }
  unfold from_root. erewrite bind_run by reflexivity. erewrite bind_run by reflexivity.
  rewrite (hi_root _ _ Hi). destruct (hi_bet _ _ Hi) as [E|E].
  - rewrite E, Z.eqb_refl. by apply (Hgo false 0 bs []).
  - apply list_elem_of_fmap in E as (b & Eb & Hb). apply list_elem_of_split in Hb as (pre & post & Hbs).
    pose proof Hi as Hi'. rewrite Hbs in Hi'. pose proof (hi_block _ _ _ _ Hi') as Hbk.
    pose proof Hbk as (Hpos & _). rewrite Eb, (proj2 (Z.eqb_neq (b_addr b) 0)) by lia.
    erewrite bind_run.
    2:{ erewrite bind_run by (eapply get_major_run; exact (hi_lookup _ _ _ _ Hi')). reflexivity. }
    cbv zeta. zcase; [by apply (Hgo true _ (b :: post) pre)|by apply (Hgo false _ bs [])].
Qed.

(** The body after the size test. *)
Lemma malloc_body_run fuel bs s :
  heapS bs s -> Forall (fun b => (length (b_chunks b) < fuel)%nat) bs ->
  (2 * length bs + 3 < fuel)%nat ->
  exists p s', malloc_body fuel req size s = Done (p, s') /\ malloc_post false bs (bytes s) size req p s'.
Proof.
  intros HS Hin Hf. pose proof HS as [H Hsafe]. pose proof H as [Hi Hk].
  unfold malloc_body. erewrite bind_run by reflexivity. rewrite (hi_root _ _ Hi).
  destruct bs as [|b bs]; simpl hd_addr.
  - rewrite Z.eqb_refl.
    destruct (allocate_new_page_run _ size s H Hsafe ltac:(lia)) as (a & t & Hrun & Hc).
    destruct Hc as [(-> & [Ht Hkt] & Hby)|(n & p & Hne & Hn & Hroom & Hp & ->)].
    + erewrite bind_run. 2:{ erewrite bind_run by exact Hrun. reflexivity. }
      assert (Hpost : malloc_post true [] (bytes s) size req 0 (set_memRoot 0 t)).
      { left. split; [done|]. split; [|done]. split; [|done].
        eapply heap_inv_ext; try done; [|apply (hi_bet _ _ Ht)]. simpl. by rewrite (hi_root _ _ Ht). }
      destruct (unlock_post _ _ _ _ Hpost) as (v & t' & Hu & Hp').
      change (negb (negb (0 =? 0))) with true. cbv iota. erewrite bind_run by exact Hu. eauto.
    + erewrite bind_run. 2:{ erewrite bind_run by exact Hrun. reflexivity. }
      rewrite (proj2 (Z.eqb_neq a 0)) by done. change (negb (negb false)) with false. cbv iota.
      set (t := set_memRoot a _).
      assert (Ht : heap true [mk_block a n []] t).
      { split; [|exact Hp]. eapply (heap_add_block [] a n s); try done; [apply (hk_regions _ _ _ Hp)|].
        simpl. by rewrite lookup_insert_eq. }
      assert (Hbet : l_bestBet t = 0).
      { destruct (hi_bet _ _ Hi) as [E|E]; [exact E|by apply elem_of_nil in E]. }
      unfold from_root. erewrite bind_run by reflexivity. erewrite bind_run by reflexivity.
      rewrite Hbet, Z.eqb_refl. erewrite bind_run by reflexivity.
      destruct fuel as [|fuel]; [lia|].
      destruct (search_fresh fuel (S fuel) [] a n false 0 t Ht) as (q & t' & Hr & Hpost); [lia|done|].
      erewrite bind_run by exact Hr. destruct (unlock_post _ _ _ _ Hpost) as (v & t'' & Hu & Hp').
      erewrite bind_run by exact Hu. eauto.
  - pose proof (hi_block [] b bs s Hi) as (Hpos & _).
    rewrite (proj2 (Z.eqb_neq (b_addr b) 0)) by lia. erewrite bind_run by reflexivity.
    apply from_root_run; [done|done|done|lia].
Qed.
End Search.
End Malloc.
