(* ===== verification/LiballocFree.v ===== *)
(** * liballoc_free, liballoc_calloc, liballoc_realloc and the theorems on the heap *)
From S2P Require Import Prelude Dll Liballoc LiballocInv LiballocProof.

Section Free.
Context {P : Type}.
Implicit Types s t : lstate P.


(** Changing a field of the cell at [p] when [p] is not null. *)
Lemma when_minor_run p f m s : p <> 0 -> minors s !! p = Some m ->
  when (negb (p =? 0)) (mod_minor p f) s = Done (tt, set_minors (<[p := f m]> (minors s)) s).
Proof. intros Hp Hm. rewrite (proj2 (Z.eqb_neq p 0)) by done. by apply mod_minor_run. Qed.
Lemma when_major_run p f m s : p <> 0 -> majors s !! p = Some m ->
  when (negb (p =? 0)) (mod_major p f) s = Done (tt, set_majors (<[p := f m]> (majors s)) s).
Proof. intros Hp Hm. rewrite (proj2 (Z.eqb_neq p 0)) by done. by apply mod_major_run. Qed.

(** The two link updates of a removal, in terms of the lists before and behind. *)
Lemma relink_next blk k l a prev s :
  dll_minors blk (minors s) a l 0 -> NoDup (c_addr <$> l) -> (forall d, d ∈ l -> c_addr d <> 0) ->
  dll_minors blk (minors s) 0 k a -> (forall x, x ∈ (c_addr <$> k) -> x ∉ (c_addr <$> l)) ->
  exists mn, when (negb (hd_addr c_addr l 0 =? 0)) (mod_minor (hd_addr c_addr l 0) (minor_prev prev)) s
      = Done (tt, set_minors mn s) /\
    dll_minors blk mn prev l 0 /\ dll_minors blk mn 0 k a /\
    (forall x, x ∉ (c_addr <$> l) -> mn !! x = minors s !! x).
Proof.
  intros Hl Hnd Hpos Hk Hkl. destruct l as [|z l]; simpl hd_addr.
  { exists (minors s). repeat split; try done. by destruct s. }
  pose proof Hl as [Hz _]. eexists. split; [|split; [|split]].
  - eapply when_minor_run; [apply Hpos; set_solver|exact Hz].
  - by apply (dll_set_prev c_addr (enc_minor blk) (minors s) a prev).
  - apply dll_frame; [|done]. intros Hin. apply (Hkl _ Hin). set_solver.
  - intros x Hx. apply lookup_insert_ne. set_solver.
Qed.

Lemma relink_prev blk k l a s :
  dll_minors blk (minors s) 0 k a -> NoDup (c_addr <$> k) -> (forall d, d ∈ k -> c_addr d <> 0) ->
  dll_minors blk (minors s) (lst_addr c_addr k 0) l 0 -> (forall x, x ∈ (c_addr <$> k) -> x ∉ (c_addr <$> l)) ->
  exists mn, when (negb (lst_addr c_addr k 0 =? 0))
      (mod_minor (lst_addr c_addr k 0) (minor_next (hd_addr c_addr l 0))) s = Done (tt, set_minors mn s) /\
    dll_minors blk mn 0 (k ++ l) 0 /\ (forall x, x ∉ (c_addr <$> k) -> mn !! x = minors s !! x).
Proof.
  intros Hk Hnd Hpos Hl Hkl. destruct k as [|y k _] using rev_ind.
  { exists (minors s). repeat split; try done. by destruct s. }
  rewrite lst_addr_app in *. cbn [lst_addr] in *. apply dll_app in Hk as Hy. destruct Hy as [_ [Hy _]].
  eexists. split; [|split].
  - eapply when_minor_run; [apply Hpos; set_solver|exact Hy].
  - apply dll_app. split.
    + by eapply (dll_set_next c_addr (enc_minor blk)).
    + rewrite lst_addr_app. cbn [lst_addr]. apply dll_frame; [|done]. apply Hkl. rewrite fmap_app. set_solver.
  - intros x Hx. apply lookup_insert_ne. rewrite fmap_app in Hx. set_solver.
Qed.

Lemma unlink_run blk k c l s :
  dll_minors blk (minors s) 0 (k ++ c :: l) 0 -> NoDup (c_addr <$> (k ++ c :: l)) ->
  (forall d, d ∈ k ++ c :: l -> c_addr d <> 0) ->
  exists mn, unlink_minor (c_addr c) (enc_minor blk c (lst_addr c_addr k 0) (hd_addr c_addr l 0)) s
      = Done (tt, set_minors mn s) /\
    dll_minors blk mn 0 (k ++ l) 0 /\ (forall x, x ∉ (c_addr <$> (k ++ c :: l)) -> mn !! x = minors s !! x) /\
    mn !! c_addr c = Some (minor_magic LIBALLOC_DEAD (enc_minor blk c (lst_addr c_addr k 0) (hd_addr c_addr l 0))).
Proof.
  intros Hd Hnd Hpos. apply dll_lookup in Hd as Hc. apply dll_app in Hd as [Hk [_ Hl]].
  rewrite fmap_app in Hnd. apply NoDup_app in Hnd as (Hn1 & Hn2 & Hn3). cbn in Hn2, Hn3.
  apply NoDup_cons in Hn3 as [Hn3 Hn4].
  assert (Hck : c_addr c ∉ (c_addr <$> k)) by (intros Hin; apply (Hn2 _ Hin); set_solver).
  assert (Hkl : forall x, x ∈ (c_addr <$> k) -> x ∉ (c_addr <$> l)) by (intros x Hx; specialize (Hn2 x Hx); set_solver).
  unfold unlink_minor. cbn [mn_next mn_prev enc_minor].
  erewrite bind_run by (eapply mod_minor_run, Hc). set (s1 := set_minors _ s).
  destruct (relink_next blk k l (c_addr c) (lst_addr c_addr k 0) s1) as (m2 & Hr2 & Hl2 & Hk2 & Hf2);
    [by apply dll_frame|done|intros; apply Hpos; set_solver|by apply dll_frame|done|].
  erewrite bind_run by exact Hr2.
  destruct (relink_prev blk k l (c_addr c) (set_minors m2 s)) as (m3 & Hr3 & Hd3 & Hf3);
    [done|done|intros; apply Hpos; set_solver|done|done|].
  exists m3. split; [exact Hr3|]. split; [done|]. rewrite fmap_app. split.
  - intros x Hx. cbn in Hx. rewrite elem_of_app, elem_of_cons in Hx. rewrite Hf3 by tauto. simpl. rewrite Hf2 by tauto.
    apply lookup_insert_ne. intros E. subst x. tauto.
  - rewrite Hf3 by done. simpl. rewrite Hf2 by done. apply lookup_insert_eq.
Qed.

(** Removing a chunk from its block keeps the block well formed. *)
Lemma chunks_ok_remove lo hi k c l : chunks_ok lo hi (k ++ c :: l) -> chunks_ok lo hi (k ++ l).
Proof.
  rewrite !chunks_ok_app. intros [Hk (H1 & H2 & H3 & Hl)]. split; [done|].
  destruct l as [|d l]; simpl in *; unfold cend in *; consts; [lia|].
  destruct Hl as (? & ? & ? & ?). repeat split; auto; lia.
Qed.

Lemma UNALIGN_info s c : 0 <= c_addr c -> c_addr c + 72 < 2 ^ 64 -> info_ok (bytes s) c ->
  UNALIGN (cptr c) s = Done (c_addr c + sizeof_minor, s).
Proof.
  intros H1 H2 Hi. pose proof (cptr_bounds c) as [Hp _].
  unfold info_ok in Hi. unfold UNALIGN. erewrite bind_run by reflexivity. consts.
  rewrite (u64_small (cptr c - 16)) by lia. cbv zeta. rewrite Hi.
  assert (E : u64 (s8 (cptr c - (c_addr c + 40))) = cptr c - (c_addr c + 40)).
  { unfold s8. rewrite Z.mod_small by lia. rewrite u64_small; lia. }
  rewrite E, (proj2 (Z.ltb_lt _ _)) by lia. rewrite u64_small by lia. unfold mret, M_ret.
  do 2 f_equal. lia.
Qed.

Lemma live_info bs s c : heap_inv bs s -> c ∈ live bs ->
  0 <= c_addr c /\ c_addr c + 72 < 2 ^ 64 /\ info_ok (bytes s) c.
Proof.
  intros H Hc. pose proof (hi_info _ _ H) as Hi. rewrite Forall_forall in Hi. specialize (Hi _ Hc).
  apply live_in in Hc as (b & Hb & Hc). pose proof (hi_blocks _ _ H) as Hok. rewrite Forall_forall in Hok.
  specialize (Hok _ Hb). pose proof (block_bounds _ _ Hok Hc). destruct Hok as (? & ? & ? & Hcs).
  pose proof (chunks_ok_in _ _ _ _ Hcs Hc). unfold cend in *. consts. split_and!; [lia|lia|done].
Qed.

Lemma UNALIGN_run bs s c : heap_inv bs s -> c ∈ live bs ->
  UNALIGN (cptr c) s = Done (c_addr c + sizeof_minor, s).
Proof. intros H Hc. destruct (live_info _ _ _ H Hc) as (? & ? & ?). by apply UNALIGN_info. Qed.

(** The list part of [liballoc_free]: the chunk leaves its block. *)
Definition unlinked (b : block) (prev next : Z) (cs : list chunk) (c : chunk) (mn : gmap Z liballoc_minor) s :=
  set_minors mn (set_majors (<[b_addr b := enc_major (mk_block (b_addr b) (b_pages b) cs) prev next]> (majors s))
    (set_inuse (u64 (l_inuse s - c_size c)) s)).

Lemma unlinked_inv pre b post k c l mn s :
  heap_inv (pre ++ b :: post) s -> b_chunks b = k ++ c :: l ->
  dll_minors (b_addr b) mn 0 (k ++ l) 0 ->
  (forall x, x ∉ (c_addr <$> (k ++ c :: l)) -> mn !! x = minors s !! x) ->
  heap_inv (pre ++ mk_block (b_addr b) (b_pages b) (k ++ l) :: post)
    (unlinked b (lst_addr b_addr pre 0) (hd_addr b_addr post 0) (k ++ l) c mn s).
Proof.
  intros H Hcs Hmn Hfr. pose proof (hi_block _ _ _ _ H) as (Hb1 & Hb2 & Hb3 & Hb4).
  apply (heap_replace _ _ _ _ s); try done.
  - split; [done|]. split; [done|]. split; [done|]. apply (chunks_ok_remove _ _ k c l). by rewrite <- Hcs.
  - intros x Hx. apply Hfr. intros (d & -> & Hd)%list_elem_of_fmap. rewrite <- Hcs in Hd.
    pose proof (block_bounds b d (hi_block _ _ _ _ H) Hd).
    pose proof (chunks_ok_in _ _ _ _ Hb4 Hd). unfold cend in *. consts. lia.
  - pose proof (hi_info _ _ H) as Hi. rewrite Forall_forall in Hi. apply Forall_forall. intros d Hd.
    apply Hi, live_in. exists b. rewrite Hcs. set_solver.
  - apply (hi_bet _ _ H).
  - cbn. f_equal. rewrite Hcs, !sum_size_app. simpl. lia.
Qed.

(** ** The block that lost its last chunk *)

Lemma seq_run {A B C} (m : M (lstate P) A) (n : M (lstate P) B) (f : B -> M (lstate P) C) s b s' :
  (m ≫= fun _ => n) s = Done (b, s') -> (m ≫= fun _ => n ≫= f) s = f b s'.
Proof. unfold mbind, M_bind. destruct (m s) as [[a t]| | |]; try done. by intros ->. Qed.

Lemma regions_remove pre b post : regions (pre ++ b :: post) ≡ₚ (b_addr b, b_pages b) :: regions (pre ++ post).
Proof. unfold regions. rewrite !fmap_app. cbn. by rewrite Permutation_middle. Qed.

(** Updating the neighbours in the list of majors. *)
Lemma relink_majors pre b post s :
  dll_majors (majors s) 0 (pre ++ b :: post) 0 -> NoDup (b_addr <$> (pre ++ b :: post)) ->
  (forall d, d ∈ pre ++ b :: post -> b_addr d <> 0) ->
  let prev := lst_addr b_addr pre 0 in let next := hd_addr b_addr post 0 in
  exists mj, (when (negb (prev =? 0)) (mod_major prev (major_next next));;
              when (negb (next =? 0)) (mod_major next (major_prev prev))) s = Done (tt, set_majors mj s) /\
    dll_majors (delete (b_addr b) mj) 0 (pre ++ post) 0.
Proof.
  intros Hd Hnd Hpos prev next. apply dll_app in Hd as [Hk [_ Hl]].
  rewrite fmap_app in Hnd. apply NoDup_app in Hnd as (Hn1 & Hn2 & Hn3). cbn in Hn2, Hn3.
  apply NoDup_cons in Hn3 as [Hn3 Hn4].
  assert (Hbk : b_addr b ∉ (b_addr <$> pre)) by (intros Hin; apply (Hn2 _ Hin); set_solver).
  assert (Hkl : forall x, x ∈ (b_addr <$> pre) -> x ∉ (b_addr <$> post)) by (intros x Hx; specialize (Hn2 x Hx); set_solver).
  assert (H1 : exists m1, when (negb (prev =? 0)) (mod_major prev (major_next next)) s = Done (tt, set_majors m1 s) /\
      dll_majors m1 0 pre next /\ dll_majors m1 (b_addr b) post 0).
  { destruct pre as [|y pre _] using rev_ind; [exists (majors s); split; [by destruct s|done]|].
    unfold prev. rewrite lst_addr_app. cbn [lst_addr]. apply dll_app in Hk as Hy. destruct Hy as [_ [Hy _]].
    eexists. split; [eapply when_major_run; [apply Hpos; set_solver|exact Hy]|]. split.
    - by eapply (dll_set_next b_addr enc_major).
    - apply dll_frame; [|done]. apply Hkl. rewrite fmap_app. set_solver. }
  destruct H1 as (m1 & Hr1 & Hk1 & Hl1). erewrite bind_run by exact Hr1.
  assert (H2 : exists m2, when (negb (next =? 0)) (mod_major next (major_prev prev)) (set_majors m1 s)
      = Done (tt, set_majors m2 s) /\ dll_majors m2 0 pre next /\ dll_majors m2 prev post 0).
  { destruct post as [|z post]; [exists m1; split; [by destruct s|done]|].
    unfold next. cbn [hd_addr]. pose proof Hl1 as [Hz _].
    exists (<[b_addr z := major_prev prev (enc_major z (b_addr b) (hd_addr b_addr post 0))]> m1).
    split; [etransitivity; [eapply when_major_run; [apply Hpos; set_solver|exact Hz]|done]|]. split.
    - apply dll_frame; [|done]. intros Hin. apply (Hkl _ Hin). set_solver.
    - by apply (dll_set_prev b_addr enc_major m1 (b_addr b) prev). }
  destruct H2 as (m2 & Hr2 & Hk2 & Hl2). exists m2. split; [exact Hr2|]. apply dll_app. split.
  - eapply dll_ext, Hk2. intros x Hx. apply lookup_delete_ne. intros E. apply Hbk. rewrite E. by apply list_elem_of_fmap_2.
  - eapply dll_ext, Hl2. intros x Hx. apply lookup_delete_ne. intros E. apply Hn3. rewrite E. by apply list_elem_of_fmap_2.
Qed.
End Free.

Lemma filter_keep {A} (m : gmap Z A) lo hi x : ~ (lo <= x < hi) ->
  filter (fun kv => ~ (lo <= kv.1 < hi)) m !! x = m !! x.
Proof.
  intros Hx. rewrite map_lookup_filter. destruct (m !! x); simpl; [|done].
  case_guard; done.
Qed.

Section Release.
Context {P : Type} `{!Hooks P} `{!HooksOk P}.
Implicit Types s t : lstate P.

Lemma release_run pre b post s :
  heap true (pre ++ b :: post) s -> b_chunks b = [] ->
  exists s', release_major (b_addr b) s = Done (tt, s') /\ heap true (pre ++ post) s' /\ bytes s' = bytes s /\
    (forall x, b_addr b <= x < b_addr b + b_size b -> minors s' !! x = None).
Proof.
  intros [H Hk] Hnil. pose proof (regions_NoDup _ (hi_regions _ _ H)) as Hnd.
  unfold release_major. erewrite bind_run by (eapply get_major_run; exact (hi_lookup _ _ _ _ H)).
  cbn [mj_next mj_prev mj_size mj_pages enc_major].
  erewrite bind_run by reflexivity. erewrite bind_run by reflexivity.
  set (root' := if l_memRoot s =? b_addr b then hd_addr b_addr post 0 else l_memRoot s).
  set (bet' := if l_bestBet s =? b_addr b then 0 else l_bestBet s).
  assert (E : forall t, (if l_bestBet t =? b_addr b then set_bestBet 0 t else t)
                = set_bestBet (if l_bestBet t =? b_addr b then 0 else l_bestBet t) t).
  { intros t. destruct (l_bestBet t =? b_addr b); [done|by destruct t]. }
  rewrite E. clear E.
  assert (E : (if l_memRoot s =? b_addr b then set_memRoot (hd_addr b_addr post 0) s else s) = set_memRoot root' s).
  { unfold root'. destruct (l_memRoot s =? b_addr b); [done|by destruct s]. }
  rewrite E. clear E. set (t := set_bestBet _ _).
  destruct (relink_majors pre b post t) as (mj & Hrun & Hdll).
  { apply (hi_majors _ _ H). } { done. }
  { intros d Hd. pose proof (hi_blocks _ _ H) as Hok. rewrite Forall_forall in Hok.
    destruct (Hok _ Hd) as (? & _). lia. }
  cbv zeta in Hrun. erewrite seq_run by exact Hrun. erewrite bind_run by reflexivity.
  assert (Hk' : hk_ok (provider s) true ((b_addr b, b_pages b) :: regions (pre ++ post))).
  { eapply hk_perm, Hk. apply regions_remove. }
  destruct (hk_free _ _ _ _ Hk') as (v & p & Hf & Hkp).
  erewrite bind_run by (by apply hook_run).
  eexists. split; [reflexivity|]. split.
  2:{ split; [done|]. intros x Hx. simpl. apply map_lookup_filter_None. right. intros m _. simpl. tauto. }
  split; [|exact Hkp].
  assert (Hin : forall d, d ∈ pre ++ post -> d ∈ pre ++ b :: post) by set_solver.
  constructor; simpl.
  - exact Hdll.
  - apply Forall_forall. intros d Hd. pose proof (hi_minors _ _ H) as Hm. rewrite Forall_forall in Hm.
    eapply dll_ext, (Hm d (Hin _ Hd)). intros c Hc.
    apply filter_keep. pose proof (other_block pre b post d c (hi_blocks _ _ H) (hi_regions _ _ H) Hd Hc).
    pose proof (hi_blocks _ _ H) as Hok. rewrite Forall_forall in Hok. destruct (Hok d (Hin _ Hd)) as (_ & _ & _ & Hdc).
    pose proof (chunks_ok_in _ _ _ _ Hdc Hc). unfold cend in *. consts. lia.
  - apply Forall_forall. intros c (d & Hd & Hc)%live_in. pose proof (hi_info _ _ H) as Hi.
    rewrite Forall_forall in Hi. apply Hi, live_in. eauto.
  - apply Forall_forall. intros d Hd. pose proof (hi_blocks _ _ H) as Hok. rewrite Forall_forall in Hok. auto.
  - apply (hk_regions _ _ _ Hkp).
  - unfold root'. rewrite (hi_root _ _ H). destruct pre as [|x pre]; simpl hd_addr; [by rewrite Z.eqb_refl|].
    rewrite (proj2 (Z.eqb_neq _ _)); [done|]. intros E. cbn in Hnd. apply NoDup_cons in Hnd as [Hn _].
    apply Hn. rewrite E, fmap_app. set_solver.
  - unfold bet'. destruct (Z.eqb_spec (l_bestBet s) (b_addr b)) as [E|E]; [by left|].
    destruct (hi_bet _ _ H) as [E0|E0]; [by left|right].
    rewrite fmap_app in *. set_solver.
  - rewrite (hi_inuse _ _ H), !live_app, live_cons, Hnil. done.
  - rewrite (hi_alloc _ _ H), u64_sub_l, !sum_pages_app. f_equal. simpl. lia.
Qed.

Lemma update_bet_run bs b s : heap true bs s -> b ∈ bs ->
  exists s', update_bet (b_addr b) s = Done (tt, s') /\ heap true bs s' /\ bytes s' = bytes s /\ minors s' = minors s.
Proof.
  intros H Hb. pose proof H as [Hi _]. unfold update_bet. erewrite bind_run by reflexivity.
  unfold when. zcase; [|by exists s].
  destruct (hi_bet _ _ Hi) as [E|E]; [done|]. apply list_elem_of_fmap in E as (d & E & Hd).
  apply list_elem_of_split in Hd as (p1 & p2 & Hs1). apply list_elem_of_split in Hb as (q1 & q2 & Hs2).
  pose proof Hi as Hi1. rewrite Hs1 in Hi1. pose proof Hi as Hi2. rewrite Hs2 in Hi2. rewrite E.
  erewrite bind_run by (eapply get_major_run; exact (hi_lookup _ _ _ _ Hi1)).
  erewrite bind_run by (eapply get_major_run; exact (hi_lookup _ _ _ _ Hi2)).
  zcase; [|by exists s]. eexists. split; [reflexivity|]. split; [|done].
  apply heap_bet; [done|]. rewrite Hs2. set_solver.
Qed.

(** The chunk leaves its block; the block may become empty. *)
Lemma unlink_state pre b post k c l s :
  heap true (pre ++ b :: post) s -> b_chunks b = k ++ c :: l ->
  exists t, heap true (pre ++ mk_block (b_addr b) (b_pages b) (k ++ l) :: post) t /\ bytes t = bytes s /\
    (exists m, minors t !! c_addr c = Some m /\ mn_magic m = LIBALLOC_DEAD) /\
    forall f : liballoc_major -> M (lstate P) unit,
    (modify (fun s => set_inuse (u64 (l_inuse s - c_size c)) s);;
     mod_major (b_addr b) (fun mj => major_usage (u32 (mj_usage mj - (c_size c + sizeof_minor))) mj);;
     unlink_minor (c_addr c) (enc_minor (b_addr b) c (lst_addr c_addr k 0) (hd_addr c_addr l 0));;
     when (lst_addr c_addr k 0 =? 0) (mod_major (b_addr b) (major_first (hd_addr c_addr l 0)));;
     mj ← get_major (b_addr b); f mj) s =
    f (enc_major (mk_block (b_addr b) (b_pages b) (k ++ l)) (lst_addr b_addr pre 0) (hd_addr b_addr post 0)) t.
Proof.
  intros [H Hk] Hcs. pose proof (hi_block _ _ _ _ H) as Hb. pose proof Hb as (Hb1 & Hb2 & Hb3 & Hb4).
  pose proof (hi_dll _ _ _ _ H) as Hd. rewrite Hcs in Hd.
  assert (Hpos : forall d, d ∈ k ++ c :: l -> c_addr d <> 0).
  { intros d Hin. rewrite <- Hcs in Hin. pose proof (block_bounds _ _ Hb Hin). lia. }
  pose proof (chunk_addrs pre b post s H) as Hnd. rewrite Hcs in Hnd.
  pose proof (usage_bounds _ _ _ Hb4) as Hu. rewrite Hcs, usage_app in Hu. simpl in Hu.
  assert (Hc : c ∈ b_chunks b) by (rewrite Hcs; set_solver).
  pose proof (chunks_ok_in _ _ _ _ Hb4 Hc) as (_ & _ & Hc1 & Hc2).
  rewrite Hcs in Hb4. apply chunks_ok_remove in Hb4 as Hb5. pose proof (usage_bounds _ _ _ Hb5) as Hu'.
  destruct (unlink_run (b_addr b) k c l (set_majors (<[b_addr b := major_usage
    (u32 (usage (b_chunks b) - (c_size c + sizeof_minor)))
    (enc_major b (lst_addr b_addr pre 0) (hd_addr b_addr post 0))]> (majors s))
    (set_inuse (u64 (l_inuse s - c_size c)) s))) as (mn & Hrun & Hmn & Hfr & Hdead); [done|done|done|].
  exists (unlinked b (lst_addr b_addr pre 0) (hd_addr b_addr post 0) (k ++ l) c mn s).
  split; [split; [by apply unlinked_inv|]|].
  { simpl. unfold regions in *. rewrite fmap_app in *. exact Hk. }
  split; [done|]. split; [eexists; split; [exact Hdead|done]|]. intros f.
  erewrite bind_run by reflexivity.
  erewrite bind_run by (eapply mod_major_run; exact (hi_lookup _ _ _ _ H)). cbn [mj_usage enc_major].
  erewrite bind_run by exact Hrun.
  assert (Hus : u32 (usage (b_chunks b) - (c_size c + sizeof_minor)) = usage (k ++ l)).
  { rewrite u32_small; rewrite Hcs, !usage_app; rewrite usage_app in Hu'; simpl;
      unfold b_size, cend in *; consts; lia. }
  rewrite Hus. set (t := set_minors mn _).
  assert (Ew : when (lst_addr c_addr k 0 =? 0) (mod_major (b_addr b) (major_first (hd_addr c_addr l 0))) t
    = Done (tt, unlinked b (lst_addr b_addr pre 0) (hd_addr b_addr post 0) (k ++ l) c mn s)).
  { destruct k as [|x k _] using rev_ind.
    - simpl lst_addr. rewrite Z.eqb_refl. unfold when.
      etransitivity; [eapply mod_major_run; simpl; apply lookup_insert_eq|].
      unfold t, unlinked, set_majors, set_minors, set_inuse. simpl. by rewrite insert_insert_eq.
    - rewrite lst_addr_app. simpl lst_addr.
      rewrite (proj2 (Z.eqb_neq (c_addr x) 0)) by (apply Hpos; set_solver).
      unfold when, mret, M_ret, t, unlinked, set_majors, set_minors, set_inuse. simpl.
      unfold major_usage, enc_major. simpl. rewrite Hcs. by destruct k. }
  erewrite bind_run by exact Ew. erewrite bind_run; [reflexivity|].
  eapply get_major_run. simpl. apply lookup_insert_eq.
Qed.

Lemma free_run bs c s : heap false bs s -> c ∈ live bs ->
  exists bs' s', liballoc_free (cptr c) s = Done (tt, s') /\ heap false bs' s' /\
    live bs ≡ₚ c :: live bs' /\ bytes s' = bytes s /\
    (minors s' !! c_addr c = None \/ exists m, minors s' !! c_addr c = Some m /\ mn_magic m = LIBALLOC_DEAD).
Proof.
  intros H Hc. pose proof H as [Hi Hk]. pose proof (live_ptr_pos false bs s c H Hc) as Hp0.
  unfold liballoc_free. rewrite (proj2 (Z.eqb_neq (cptr c) 0)) by lia.
  erewrite bind_run by (by eapply UNALIGN_run).
  destruct (hk_lock _ _ Hk) as (v & p & Hl & Hk1 & _). erewrite bind_run by (by apply hook_run).
  pose proof (heap_provider _ _ _ _ _ H Hk1) as H1. set (s1 := set_provider p s) in *.
  apply live_in in Hc as (b & Hb & Hc). apply list_elem_of_split in Hb as (pre & post & Hbs).
  apply list_elem_of_split in Hc as (k & l & Hcs). rewrite Hbs in H1.
  destruct (unlink_state pre b post k c l s1 H1 Hcs) as (t & Ht & Hbt & (md & Hmd & Hdead) & Hrun).
  pose proof H1 as [Hi1 _]. pose proof (hi_block _ _ _ _ Hi1) as Hbok.
  pose proof (block_bounds b c Hbok ltac:(rewrite Hcs; set_solver)) as Hcb.
  pose proof Hbok as (Hb1 & Hb2 & Hb3 & Hb4).
  pose proof (chunks_ok_in _ _ _ c Hb4 ltac:(rewrite Hcs; set_solver)) as (_ & _ & Hc1 & Hc2).
  cbv zeta. rewrite (u64_small (c_addr c + sizeof_minor - sizeof_minor)) by (unfold cend in *; consts; lia).
  replace (c_addr c + sizeof_minor - sizeof_minor) with (c_addr c) by lia.
  pose proof (hi_dll _ _ _ _ Hi1) as Hd. rewrite Hcs in Hd. apply dll_lookup in Hd.
  erewrite bind_run by (eapply get_minor_run, Hd). cbn [mn_magic mn_block mn_size mn_prev mn_next enc_minor].
  rewrite Z.eqb_refl. change (negb true) with false. cbv iota.
  rewrite Hrun. cbn [mj_first enc_major b_chunks].
  assert (Hfin : forall bs' u, heap true bs' u -> exists v q, hook liballoc_unlock u = Done (v, set_provider q u) /\
    heap false bs' (set_provider q u)).
  { intros bs' u Hu. pose proof Hu as [_ Hku]. destruct (hk_unlock _ _ Hku) as (w & q & Hq & Hkq & _).
    exists w, q. split; [by apply hook_run|]. by eapply heap_provider. }
  destruct (k ++ l) as [|d kl] eqn:Ekl.
  - simpl hd_addr. rewrite Z.eqb_refl.
    destruct (release_run pre _ post t Ht eq_refl) as (u & Hr & Hu & Hbu & Hnone). cbn [b_addr] in Hr.
    erewrite bind_run by exact Hr. destruct (Hfin _ _ Hu) as (w & q & Hq & Hfq).
    erewrite bind_run by exact Hq. exists (pre ++ post). eexists. split; [reflexivity|]. split; [done|].
    split; [|split; [exact (eq_trans Hbu Hbt)|left; apply Hnone; unfold b_size, cend in *; simpl; consts; lia]].
    apply app_eq_nil in Ekl as [-> ->]. rewrite Hbs, !live_app, live_cons, Hcs. by solve_Permutation.
  - simpl hd_addr.
    assert (Hdc : d ∈ b_chunks b).
    { rewrite Hcs. assert (Hin : d ∈ k ++ l) by (rewrite Ekl; set_solver). set_solver. }
    pose proof (block_bounds b d Hbok Hdc). rewrite (proj2 (Z.eqb_neq (c_addr d) 0)) by lia.
    destruct (update_bet_run _ (mk_block (b_addr b) (b_pages b) (d :: kl)) t Ht ltac:(set_solver))
      as (u & Hr & Hu & Hbu & Hmu). cbn [b_addr] in Hr.
    erewrite bind_run by exact Hr. destruct (Hfin _ _ Hu) as (w & q & Hq & Hfq).
    erewrite bind_run by exact Hq. eexists. eexists. split; [reflexivity|]. split; [exact Hfq|].
    split; [|split; [exact (eq_trans Hbu Hbt)|right; exists md; simpl; by rewrite Hmu]].
    rewrite Hbs, !live_app, !live_cons, Hcs. cbn [b_chunks]. rewrite <- Ekl. by solve_Permutation.
Qed.
End Release.
