(* ===== verification/Heap.v ===== *)
(** * The theorems on the heap

    Stated for any page provider that meets [HooksOk]; LibcHeap.v discharges the interface
    for user programs and uses the theorems at concrete states. *)
From S2P Require Import Prelude Dll Liballoc LiballocInv LiballocProof LiballocFree.

(** The largest request whose block size fits the [unsigned int] fields. *)
Definition max_request : Z := 2 ^ 32 - 4096 - 112.

(** Fuel that covers both loops: every block twice, and the chunks of every block. *)
Definition enough (fuel : nat) (bs : list block) : Prop :=
  (2 * length bs + 3 < fuel)%nat /\ Forall (fun b => (length (b_chunks b) < fuel)%nat) bs.

Section Heap.
Context {P : Type} `{!Hooks P} `{!HooksOk P}.
Implicit Types s t : lstate P.

Lemma malloc_run fuel req bs s :
  heap false bs s -> hk_safe (provider s) (pages_for (req + 32)) -> 0 <= req <= max_request ->
  enough fuel bs ->
  exists p s', liballoc_malloc fuel req s = Done (p, s') /\ malloc_post false bs (bytes s) (req + 32) req p s'.
Proof.
  intros H Hsafe Hr [Hf Hin]. pose proof H as [Hi Hk]. unfold max_request in Hr.
  unfold liballoc_malloc. consts. change (16 + 16) with 32. cbv zeta.
  rewrite (u64_small (req + 32)) by lia.
  destruct (hk_lock _ _ Hk) as (v & p & Hl & Hk1 & Hsafe1). erewrite bind_run by (by apply hook_run).
  rewrite (proj2 (Z.eqb_neq (req + 32) 0)) by lia.
  apply (malloc_body_run (req + 32) req ltac:(lia) ltac:(lia) fuel bs (set_provider p s)); [|done|done].
  split; [by eapply heap_provider|]. by apply Hsafe1.
Qed.

(** No two live chunks overlap. *)
Lemma live_apart l bs s c d : heap l bs s -> c ∈ live bs -> d ∈ live bs -> c <> d ->
  cend c <= c_addr d \/ cend d <= c_addr c.
Proof.
  intros [H _] (b & Hb & Hc)%live_in (b' & Hb' & Hd)%live_in Hne.
  apply list_elem_of_split in Hb as (pre & post & ->).
  pose proof (hi_block _ _ _ _ H) as Hbok. apply elem_of_app in Hb'. rewrite elem_of_cons in Hb'.
  assert (Hcase : b' = b \/ b' ∈ pre ++ post) by set_solver.
  destruct Hcase as [->|Hother].
  - destruct Hbok as (_ & _ & _ & Hcs). pose proof (chunks_ok_apart _ _ _ Hcs) as Hap. clear Hcs.
    induction Hap as [|x l0 Hx Hap IH]; [by apply elem_of_nil in Hc|]. rewrite Forall_forall in Hx.
    apply elem_of_cons in Hc as [->|Hc], Hd as [->|Hd]; try done; auto.
  - pose proof (other_block _ _ _ _ _ (hi_blocks _ _ H) (hi_regions _ _ H) Hother Hd).
    pose proof (block_bounds _ _ Hbok Hc). lia.
Qed.

(** The memory a caller may use lies inside its chunk, 16-aligned and behind the header. *)
Lemma live_data l bs s c : heap l bs s -> c ∈ live bs ->
  c_addr c + 56 <= cptr c /\ cptr c + c_req c <= cend c /\ cptr c mod 16 = 0 /\ 0 < c_addr c /\ cend c < 2 ^ 64 /\
  0 <= c_req c.
Proof.
  intros [H _] (b & Hb & Hc)%live_in. pose proof (hi_blocks _ _ H) as Hok. rewrite Forall_forall in Hok.
  specialize (Hok _ Hb). pose proof (block_bounds _ _ Hok Hc). destruct Hok as (? & ? & ? & Hcs).
  pose proof (chunks_ok_in _ _ _ _ Hcs Hc). pose proof (cptr_bounds c) as [? ?]. unfold cend in *. consts. lia.
Qed.

(** A new chunk is not one of the old ones. *)
Lemma fresh_notin l bs bs' s c d : heap l bs' s -> live bs' ≡ₚ c :: live bs -> d ∈ live bs -> d <> c.
Proof.
  intros [H _] Hp Hd ->. 
  assert (Hnd : NoDup (live bs')).
  { clear Hp Hd. pose proof (hi_blocks _ _ H) as Hok. pose proof (hi_regions _ _ H) as Hr. clear H.
    induction bs' as [|b bs' IH]; [constructor|]. rewrite live_cons. apply NoDup_app.
    apply Forall_cons in Hok as [Hb Hok]. split; [|split].
    - destruct Hb as (_ & _ & _ & Hb). apply chunks_ok_NoDup in Hb. by apply NoDup_fmap_1 in Hb.
    - intros x Hx (d & Hd & Hxd)%live_in.
      pose proof (other_block [] b bs' d x (Forall_cons_2 _ _ _ Hb Hok) Hr Hd Hxd).
      pose proof (block_bounds _ _ Hb Hx). destruct Hb as (? & ? & ? & Hb).
      pose proof (chunks_ok_in _ _ _ _ Hb Hx). unfold cend in *. consts. lia.
    - apply IH; [done|]. destruct Hr as [Hr1 Hr2]. apply Forall_cons in Hr1 as [_ Hr1].
      by inversion Hr2. }
  rewrite Hp in Hnd. by apply NoDup_cons in Hnd as [Hn _].
Qed.

(** C1: on a well-formed heap, for a request of at most [max_request] bytes, and as long as the page
    hook is safe to call for the pages the request may need ([hk_safe]: it then returns NULL or fresh
    aligned pages that overlap nothing, by the laws of [HooksOk]), liballoc_malloc always returns,
    with fuel for one turn per block.  It returns NULL only with the heap unchanged;
    otherwise one new chunk joins the live ones, the pointer is 16-byte aligned, the
    requested bytes lie inside the chunk, the chunk overlaps no chunk that was live,
    and no byte outside the chunk has changed. *)
Theorem malloc_spec fuel req bs s :
  heap false bs s -> hk_safe (provider s) (pages_for (req + 32)) -> 0 <= req <= max_request ->
  enough fuel bs ->
  exists p s', liballoc_malloc fuel req s = Done (p, s') /\
    (p = 0 /\ heap false bs s' /\ bytes s' = bytes s \/
     exists bs' c, heap false bs' s' /\ live bs' ≡ₚ c :: live bs /\ c_req c = req /\ p = cptr c /\
       p mod 16 = 0 /\ c_addr c + sizeof_minor <= p - 16 /\ p + req <= cend c /\
       (forall d, d ∈ live bs -> cend d <= c_addr c \/ cend c <= c_addr d) /\
       (forall x, x < c_addr c \/ cend c <= x -> bytes s' x = bytes s x)).
Proof.
  intros H Hsafe Hr Hf. destruct (malloc_run fuel req bs s H Hsafe Hr Hf) as (p & s' & Hrun & Hpost).
  exists p, s'. split; [done|]. destruct Hpost as [Hn|(bs' & c & H' & Hp & Hs & Hq & -> & Hfr)]; [by left|right].
  assert (Hc : c ∈ live bs') by (rewrite Hp; set_solver).
  pose proof (live_data _ _ _ _ H' Hc) as (Hd1 & Hd2 & Hd3 & _). rewrite Hq in Hd2.
  exists bs', c. split_and!; try done; [consts; lia|].
  intros d Hd. apply (live_apart false bs' s'); [done|rewrite Hp; set_solver|done|].
  by eapply fresh_notin.
Qed.

(** C9: liballoc_free on a pointer that liballoc_malloc returned always returns, and
    removes exactly the chunk of that pointer; no byte of any other chunk changes. *)
Theorem free_spec bs c s :
  heap false bs s -> c ∈ live bs ->
  exists bs' s', liballoc_free (cptr c) s = Done (tt, s') /\ heap false bs' s' /\
    live bs ≡ₚ c :: live bs' /\ bytes s' = bytes s.
Proof.
  intros H Hc. destruct (free_run bs c s H Hc) as (bs' & s' & Hr & H' & Hp & Hb & _).
  exists bs', s'. auto.
Qed.

(** Allocating and freeing the result brings the heap back to the same live chunks,
    with the contents of all of them unchanged. *)
Theorem malloc_free_roundtrip fuel req bs s p s1 :
  heap false bs s -> hk_safe (provider s) (pages_for (req + 32)) -> 0 <= req <= max_request ->
  enough fuel bs -> liballoc_malloc fuel req s = Done (p, s1) -> p <> 0 ->
  exists bs' s2, liballoc_free p s1 = Done (tt, s2) /\ heap false bs' s2 /\ live bs' ≡ₚ live bs /\
    forall d x, d ∈ live bs -> c_addr d <= x < cend d -> bytes s2 x = bytes s x.
Proof.
  intros H Hsafe Hr Hf Hrun Hp0. destruct (malloc_run fuel req bs s H Hsafe Hr Hf) as (q & s' & Hrun' & Hpost).
  rewrite Hrun in Hrun'. injection Hrun' as <- <-.
  destruct Hpost as [[-> _]|(bs1 & c & H' & Hp & Hs & Hq & -> & Hfr)]; [done|].
  destruct (free_run bs1 c s1 H' ltac:(rewrite Hp; set_solver)) as (bs2 & s2 & Hr2 & H2 & Hp2 & Hb2 & _).
  exists bs2, s2. split; [done|]. split; [done|]. split.
  - apply (Permutation_cons_inv (a := c)). by rewrite <- Hp2, Hp.
  - intros d x Hd Hx. rewrite Hb2. apply Hfr.
    destruct (live_apart _ _ _ c d H') as [E|E]; [rewrite Hp; set_solver..| | |].
    + intros <-. by apply (fresh_notin false bs bs1 s1 c c H' Hp Hd).
    + lia.
    + lia.
Qed.

(** ** Freeing twice *)

Lemma bad_magic_dead s : bad_magic LIBALLOC_DEAD s =
  Done (tt, set_counts (l_warningCount s) (l_errorCount s + 1) (l_possibleOverruns s) s).
Proof. reflexivity. Qed.

(** A second free of the same pointer does not disturb the heap: while the block still
    exists it is recognised by the dead magic number and only counted as an error; once the
    whole block went back to the provider the access is to memory that is no longer there. *)
Theorem double_free bs c s s1 :
  heap false bs s -> c ∈ live bs -> liballoc_free (cptr c) s = Done (tt, s1) ->
  liballoc_free (cptr c) s1 = Fault \/
  exists bs' s2, liballoc_free (cptr c) s1 = Done (tt, s2) /\ l_errorCount s2 = l_errorCount s1 + 1 /\
    heap false bs' s2 /\ live bs ≡ₚ c :: live bs' /\ bytes s2 = bytes s.
Proof.
  intros H Hc Hrun. destruct (free_run bs c s H Hc) as (bs' & s' & Hr & H' & Hp & Hb & Hm).
  rewrite Hrun in Hr. injection Hr as <-. pose proof H as [Hi _]. pose proof H' as [Hi' Hk'].
  destruct (live_info _ _ _ Hi Hc) as (Ha1 & Ha2 & Hinfo). rewrite <- Hb in Hinfo.
  pose proof (live_ptr_pos _ _ _ _ H Hc).
  unfold liballoc_free. rewrite (proj2 (Z.eqb_neq (cptr c) 0)) by lia.
  erewrite bind_run by (by apply UNALIGN_info).
  destruct (hk_lock _ _ Hk') as (v & p & Hl & Hk1 & _). erewrite bind_run by (by apply hook_run).
  cbv zeta. rewrite (u64_small (c_addr c + sizeof_minor - sizeof_minor)) by (consts; lia).
  replace (c_addr c + sizeof_minor - sizeof_minor) with (c_addr c) by lia.
  destruct Hm as [Hm|(m & Hm & Hdead)].
  - left. unfold mbind, M_bind, get_minor. simpl. by rewrite Hm.
  - right. erewrite bind_run by (eapply get_minor_run; exact Hm). rewrite Hdead.
    change (negb (LIBALLOC_DEAD =? LIBALLOC_MAGIC)) with true. cbv iota.
    erewrite bind_run by apply bad_magic_dead.
    destruct (hk_unlock _ _ Hk1) as (w & q & Hq & Hkq & _). erewrite bind_run by (by apply hook_run).
    exists bs'. eexists. split; [reflexivity|]. split; [done|]. split; [|split; done].
    split; [|exact Hkq]. eapply heap_inv_ext; try done. apply (hi_bet _ _ Hi').
Qed.

(** ** The caller's writes *)

(** Writes inside the requested bytes of a live chunk keep the heap. *)
Lemma heap_write l bs s c m' :
  heap l bs s -> c ∈ live bs ->
  (forall x, ~ (cptr c <= x < cptr c + c_req c) -> m' x = bytes s x) ->
  heap l bs (set_bytes m' s).
Proof.
  intros H Hc Hm. pose proof H as [[] Hk]. split; [|done]. constructor; try done.
  rewrite Forall_forall in hi_info |- *. intros d Hd. specialize (hi_info d Hd).
  unfold info_ok in *. rewrite <- hi_info. apply ld_ext. intros x Hx. apply Hm.
  pose proof (live_data _ _ _ _ H Hc). pose proof (live_data _ _ _ _ H Hd). pose proof (cptr_bounds d) as [Hpd _].
  destruct (decide (c = d)) as [->|Hne]; [consts; lia|].
  pose proof (live_apart _ _ _ _ _ H Hc Hd Hne). unfold cend in *. consts. lia.
Qed.

(** liballoc_calloc returns NULL or a fresh chunk of [nobj * size] bytes, all of them 0
    (for products below 2^31, the range of its [int] variable). *)
Theorem calloc_spec fuel nobj size bs s :
  let n := nobj * size in
  heap false bs s -> hk_safe (provider s) (pages_for (n + 32)) -> 0 <= n < 2 ^ 31 -> enough fuel bs ->
  exists p s', liballoc_calloc fuel nobj size s = Done (p, s') /\
    (p = 0 \/ exists bs' c, heap false bs' s' /\ live bs' ≡ₚ c :: live bs /\ c_req c = n /\ p = cptr c /\
       (forall x, p <= x < p + n -> bytes s' x = 0) /\
       (forall x, x < c_addr c \/ cend c <= x -> bytes s' x = bytes s x)).
Proof.
  intros n H Hsafe Hn Hf. unfold liballoc_calloc. fold n. cbv zeta.
  rewrite (s32_small n), (u64_small n) by lia.
  destruct (malloc_run fuel n bs s H Hsafe ltac:(unfold max_request; lia) Hf) as (p & s1 & Hrun & Hpost).
  erewrite bind_run by exact Hrun. unfold liballoc_memset.
  rewrite (proj2 (Z.leb_gt (2 ^ 32) n)) by lia.
  erewrite bind_run by reflexivity. do 2 eexists. split; [reflexivity|].
  destruct Hpost as [[-> _]|(bs' & c & H' & Hp & Hs & Hq & -> & Hfr)]; [by left|right].
  assert (Hc : c ∈ live bs') by (rewrite Hp; set_solver).
  pose proof (live_data _ _ _ _ H' Hc) as (Hd1 & Hd2 & _). rewrite Hq in Hd2.
  exists bs', c. split_and!; try done.
  - apply heap_write with c; [done|done|]. intros x Hx. unfold memset.
    destruct (Z.leb_spec (cptr c) x), (Z.ltb_spec x (cptr c + n)); simpl; try done. lia.
  - intros x Hx. simpl. unfold memset.
    by rewrite (proj2 (Z.leb_le _ _)), (proj2 (Z.ltb_lt _ _)) by lia.
  - intros x Hx. simpl. unfold memset. rewrite Hfr by done.
    destruct (Z.leb_spec (cptr c) x), (Z.ltb_spec x (cptr c + n)); simpl; try done. consts. lia.
Qed.

(** ** Copying *)

Lemma st_ld_copy w d a m x : d <= x < d + Z.of_nat w -> st w d (ld w m a) m x = u8 (m (a + (x - d))).
Proof.
  enough (Hgen : forall m0, d <= x < d + Z.of_nat w -> st w d (ld w m a) m0 x = u8 (m (a + (x - d)))) by auto.
  intros m0. revert d a. induction w as [|w IH]; intros d a Hx; [lia|]. cbn [st ld].
  pose proof (u8_range (m a)) as Hu. destruct (Z.eqb_spec x d) as [->|Hne].
  - rewrite Z.sub_diag, Z.add_0_r. unfold u8 at 1.
    rewrite (Z.mul_comm (2 ^ 8)), Z.mod_add, Z.mod_small by lia. done.
  - rewrite (Z.mul_comm (2 ^ 8)), Z.div_add, (Z.div_small (u8 (m a))), Z.add_0_l by lia.
    rewrite IH by lia. do 2 f_equal. lia.
Qed.

Lemma copy_units_spec w n d a m x :
  d + Z.of_nat (w * n) <= a \/ a + Z.of_nat (w * n) <= d ->
  copy_units w n d a m x =
  if (d <=? x) && (x <? d + Z.of_nat (w * n)) then u8 (m (a + (x - d))) else m x.
Proof.
  revert d a m. induction n as [|n IH]; intros d a m Hdis; cbn [copy_units].
  { rewrite Nat.mul_0_r. destruct (Z.leb_spec d x), (Z.ltb_spec x (d + Z.of_nat 0)); simpl; try done; lia. }
  rewrite Nat.mul_succ_r, Nat2Z.inj_add in *. rewrite IH by lia.
  destruct (Z.leb_spec (d + Z.of_nat w) x), (Z.ltb_spec x (d + Z.of_nat w + Z.of_nat (w * n))),
    (Z.leb_spec d x), (Z.ltb_spec x (d + (Z.of_nat (w * n) + Z.of_nat w))); simpl; try lia;
    try (rewrite st_other by lia; try done).
  - do 2 f_equal. lia.
  - apply st_ld_copy. lia.
Qed.

Lemma memcpy_run d a n s : 0 <= n -> d + n <= a \/ a + n <= d ->
  exists m', liballoc_memcpy d a n s = Done (d, set_bytes m' s) /\
    (forall x, d <= x < d + n -> m' x = u8 (bytes s (a + (x - d)))) /\
    (forall x, ~ (d <= x < d + n) -> m' x = bytes s x).
Proof.
  intros Hn Hdis. eexists. split; [reflexivity|].
  pose proof (Z.div_mod n 4 ltac:(lia)). pose proof (Z.mod_pos_bound n 4 ltac:(lia)).
  pose proof (Z.div_pos n 4 Hn ltac:(lia)).
  assert (E1 : Z.of_nat (4 * Z.to_nat (n / 4)) = 4 * (n / 4)) by lia.
  assert (E2 : Z.of_nat (1 * Z.to_nat (n mod 4)) = n mod 4) by lia.
  split; intros x Hx; rewrite copy_units_spec, E2 by lia; rewrite !copy_units_spec, E1 by lia;
    repeat match goal with
    | |- context [?p <=? ?q] => destruct (Z.leb_spec p q)
    | |- context [?p <? ?q] => destruct (Z.ltb_spec p q)
    end; cbn [andb]; try lia; try done; do 2 f_equal; lia.
Qed.

(** Writes below the heap do not reach it. *)
Lemma heap_write_below l bs s n m' :
  heap l bs s -> (forall b, b ∈ bs -> n <= b_addr b) ->
  (forall x, ~ (0 <= x < n) -> m' x = bytes s x) -> heap l bs (set_bytes m' s).
Proof.
  intros H Hb Hm. pose proof H as [[] Hk]. split; [|done]. constructor; try done.
  rewrite Forall_forall in hi_info |- *. intros d Hd. specialize (hi_info d Hd).
  unfold info_ok in *. rewrite <- hi_info. apply ld_ext. intros x Hx. apply Hm.
  apply live_in in Hd as (b & Hin & Hd). rewrite Forall_forall in hi_blocks.
  pose proof (block_bounds _ _ (hi_blocks _ Hin) Hd). pose proof (cptr_bounds d). specialize (Hb _ Hin).
  consts. lia.
Qed.

(** [liballoc_realloc] up to the allocation of the larger chunk. *)
Lemma realloc_prefix fuel c size bs s :
  heap false bs s -> c ∈ live bs -> c_req c < size ->
  hk_safe (provider s) (pages_for (size + 32)) ->
  exists q, heap false bs (set_provider q s) /\ hk_safe q (pages_for (size + 32)) /\
    liballoc_realloc fuel (cptr c) size s =
    (ptr ← liballoc_malloc fuel size; liballoc_memcpy ptr (cptr c) (c_req c);; liballoc_free (cptr c);; mret ptr)
      (set_provider q s).
Proof.
  intros H Hc Hsz Hsafe. pose proof H as [Hi Hk]. pose proof (live_data _ _ _ _ H Hc) as Hd.
  pose proof (live_ptr_pos _ _ _ _ H Hc).
  destruct (hk_lock _ _ Hk) as (v & p & Hl & Hk1 & Hs1). destruct (hk_unlock _ _ Hk1) as (w & q & Hu & Hk2 & Hs2).
  exists q. split; [by eapply heap_provider|]. split; [by apply Hs2, Hs1|].
  unfold liballoc_realloc. rewrite (proj2 (Z.eqb_neq size 0)), (proj2 (Z.eqb_neq (cptr c) 0)) by lia.
  erewrite bind_run by (by eapply UNALIGN_run). erewrite bind_run by (by apply hook_run).
  cbv zeta. rewrite (u64_small (c_addr c + sizeof_minor - sizeof_minor)) by (unfold cend in *; consts; lia).
  replace (c_addr c + sizeof_minor - sizeof_minor) with (c_addr c) by lia.
  apply live_in in Hc as (b & Hb & Hc). apply list_elem_of_split in Hb as (pre & post & ->).
  apply list_elem_of_split in Hc as (k & l & Hcs).
  pose proof (hi_dll _ _ _ _ Hi) as Hdl. rewrite Hcs in Hdl. apply dll_lookup in Hdl.
  erewrite bind_run by (eapply get_minor_run; exact Hdl). cbn [mn_magic mn_req_size enc_minor].
  rewrite Z.eqb_refl. change (negb true) with false. cbv iota.
  rewrite (proj2 (Z.leb_gt size (c_req c))) by lia.
  by erewrite bind_run by (by apply hook_run).
Qed.

(** Growing with liballoc_realloc always returns. On success the result is a new chunk of
    the new size that starts with the old contents, the old chunk is freed and every other
    chunk keeps its bytes. When no memory is left it returns NULL, and the old chunk is freed
    all the same. *)
Theorem realloc_grow fuel c size bs s :
  heap false bs s -> c ∈ live bs -> c_req c < size <= max_request ->
  hk_safe (provider s) (pages_for (size + 32)) -> enough fuel bs ->
  (forall b, b ∈ bs -> c_req c <= b_addr b) ->
  exists p s' bs', liballoc_realloc fuel (cptr c) size s = Done (p, s') /\ heap false bs' s' /\
    (p = 0 /\ live bs ≡ₚ c :: live bs' \/
     exists c', c :: live bs' ≡ₚ c' :: live bs /\ c_req c' = size /\ p = cptr c' /\
       (forall i, 0 <= i < c_req c -> bytes s' (p + i) = u8 (bytes s (cptr c + i))) /\
       (forall d x, d ∈ live bs -> c_addr d <= x < cend d -> bytes s' x = bytes s x)).
Proof.
  intros H Hc Hsz Hsafe Hf Hlow.
  destruct (realloc_prefix fuel c size bs s H Hc ltac:(lia) Hsafe) as (q & Hq & Hsq & ->).
  pose proof (live_data _ _ _ _ H Hc) as Hd.
  destruct (malloc_run fuel size bs _ Hq Hsq ltac:(lia) Hf) as (p & s1 & Hrun & Hpost).
  erewrite bind_run by exact Hrun. destruct Hpost as [(-> & H1 & Hb1)|(bs1 & c' & H1 & Hp & Hs & Hr & -> & Hfr)].
  - destruct (memcpy_run 0 (cptr c) (c_req c) s1) as (m' & Hm & _ & Hm2); [lia| |].
    { left. apply live_in in Hc as (b & Hb & Hc). specialize (Hlow _ Hb). destruct H as [H _].
      pose proof (hi_blocks _ _ H) as Hok. rewrite Forall_forall in Hok.
      pose proof (block_bounds _ _ (Hok _ Hb) Hc). lia. }
    erewrite bind_run by exact Hm.
    pose proof (heap_write_below false bs s1 (c_req c) m' H1 Hlow Hm2) as H2.
    destruct (free_run bs c _ H2 Hc) as (bs2 & s2 & Hr2 & H3 & Hp3 & _).
    erewrite bind_run by exact Hr2. exists 0, s2, bs2. split; [done|]. split; [done|]. by left.
  - assert (Hc' : c' ∈ live bs1) by (rewrite Hp; set_solver).
    assert (Hcl : c ∈ live bs1) by (rewrite Hp; set_solver).
    pose proof (fresh_notin _ _ _ _ _ _ H1 Hp Hc) as Hne.
    pose proof (live_data _ _ _ _ H1 Hc') as Hd'. rewrite Hr in Hd'.
    pose proof (live_apart _ _ _ _ _ H1 Hcl Hc' Hne) as Hap.
    destruct (memcpy_run (cptr c') (cptr c) (c_req c) s1) as (m' & Hm & Hm1 & Hm2); [lia|lia|].
    erewrite bind_run by exact Hm.
    assert (H2 : heap false bs1 (set_bytes m' s1)).
    { apply heap_write with c'; [done|done|]. intros x Hx. apply Hm2. rewrite Hr in Hx. lia. }
    destruct (free_run bs1 c _ H2 Hcl) as (bs2 & s2 & Hr2 & H3 & Hp3 & Hb3 & _).
    erewrite bind_run by exact Hr2. exists (cptr c'), s2, bs2. split; [done|]. split; [done|]. right.
    exists c'. split_and!; try done; [by rewrite <- Hp3, Hp| |].
    + intros i Hi. rewrite Hb3. simpl. rewrite Hm1 by lia. f_equal.
      replace (cptr c + (cptr c' + i - cptr c')) with (cptr c + i) by lia.
      rewrite Hfr by lia. done.
    + intros d x Hdl Hx. rewrite Hb3. simpl.
      assert (Hdl1 : d ∈ live bs1) by (rewrite Hp; set_solver).
      pose proof (live_apart _ _ _ _ _ H1 Hdl1 Hc' (fresh_notin _ _ _ _ _ _ H1 Hp Hdl)).
      rewrite Hm2 by lia. apply Hfr. lia.
Qed.
End Heap.
