(* ===== verification/LibcHeap.v ===== *)
(** * malloc in user programs (src/src/libc/src/stdlib.c, sys/mman.c, sys/liballoc.c)

    The C library runs the same liballoc on pages it gets from the kernel with mmap.  The
    provider's state is the part of the process that the system call keeps for it: the
    address the next mapping gets and the number of bytes mapped so far.

    The instance of [HooksOk] shows that the interface of LiballocInv.v is met as long as
    the process stays within its mapping budget; [malloc_map_failed] shows what happens
    beyond it. *)
From S2P Require Import Prelude Dll Liballoc LiballocInv LiballocProof LiballocFree Heap.

Record uproc := mk_uproc { mmap_top : Z; mmaped_len : Z; errno : Z }.

Definition SCHED_MMAP_TOP : Z := 0x90000000000.
Definition MMAP_MAX_SIZE : Z := 0x2000000.
Definition EINVAL : Z := 28.
Definition EMFILE : Z := 33.
Definition MAP_FAILED : Z := 2 ^ 64 - 1.

(** [syscall_mmap] for [fd = -1] and [flags = MAP_PRIVATE | MAP_ANON]: the choice of the
    address.  The pages behind it come from [pcalloc], which halts rather than fails. *)
Definition syscall_mmap_anon (length : Z) : M uproc Z :=
  if length =? 0 then mret (u64 (- EINVAL))
  else
    let needed_pages := Z.land (u64 (length + PAGE_SIZE - 1)) (u64 (Z.lnot (PAGE_SIZE - 1))) / PAGE_SIZE in
    modify (fun p => mk_uproc (mmap_top p) (u64 (mmaped_len p + needed_pages * PAGE_SIZE)) (errno p));;
    len ← gets mmaped_len;
    if MMAP_MAX_SIZE <? len then
      modify (fun p => mk_uproc (mmap_top p) (u64 (mmaped_len p - needed_pages * PAGE_SIZE)) (errno p));;
      mret (u64 (- EMFILE))
    else
      addr ← gets mmap_top;
      modify (fun p => mk_uproc (u64 (mmap_top p + (needed_pages + 1) * PAGE_SIZE)) (mmaped_len p) (errno p));;
      mret addr.

Definition mmap (length : Z) : M uproc Z :=
  ret ← syscall_mmap_anon length;
  if s64 ret <? 0 then
    modify (fun p => mk_uproc (mmap_top p) (mmaped_len p) (s32 (- s64 ret)));;
    mret MAP_FAILED
  else mret ret.

(** [munmap] as the process's mapping budget sees it: [syscall_munmap] lowers neither the address of
    the next mapping nor the count of mapped bytes, so nothing of [uproc] changes, and since it
    returns 0 or 1 and never a negative number the wrapper always reports 0.  What it does to the page
    tables and the frames is [syscall_munmap] of Syscall.v. *)
Definition munmap (addr length : Z) : M uproc Z := mret 0.

#[export] Instance libc_hooks : Hooks uproc := {|
  liballoc_lock := mret 0;
  liballoc_unlock := mret 0;
  liballoc_alloc_pages := fun pages => mmap (u64 (u64 pages * PAGE_SIZE));
  liballoc_free_pages := fun ptr pages => munmap ptr (u64 (pages * PAGE_SIZE))
|}.

(** sys/liballoc.c is the text of the kernel's liballoc.c, compiled against these hooks. *)
Definition user_allocate_new_page (size : Z) : M (lstate uproc) Z := allocate_new_page size.
Definition user_liballoc_memset (p c n : Z) : M (lstate uproc) Z := liballoc_memset p c n.
Definition user_liballoc_memcpy (s1 s2 n : Z) : M (lstate uproc) Z := liballoc_memcpy s1 s2 n.
Definition user_liballoc_malloc (fuel : nat) (req_size : Z) : M (lstate uproc) Z := liballoc_malloc fuel req_size.
Definition user_liballoc_free (ptr : Z) : M (lstate uproc) unit := liballoc_free ptr.
Definition user_liballoc_calloc (fuel : nat) (nobj size : Z) : M (lstate uproc) Z := liballoc_calloc fuel nobj size.
Definition user_liballoc_realloc (fuel : nat) (p size : Z) : M (lstate uproc) Z := liballoc_realloc fuel p size.

Definition malloc (fuel : nat) (size : Z) : M (lstate uproc) Z := user_liballoc_malloc fuel size.
Definition free (ptr : Z) : M (lstate uproc) unit := user_liballoc_free ptr.
Definition calloc (fuel : nat) (size size2 : Z) : M (lstate uproc) Z := user_liballoc_calloc fuel size size2.
Definition realloc (fuel : nat) (ptr size : Z) : M (lstate uproc) Z := user_liballoc_realloc fuel ptr size.

(** ** The interface *)

Definition libc_ok (p : uproc) (l : bool) (rs : list (Z * Z)) : Prop :=
  regions_ok rs /\ Forall (fun r => SCHED_MMAP_TOP <= r.1 /\ r.1 + r.2 * l_pageSize <= mmap_top p) rs /\
  SCHED_MMAP_TOP <= mmap_top p <= SCHED_MMAP_TOP + 2 * mmaped_len p /\ 0 <= mmaped_len p <= MMAP_MAX_SIZE.

Definition libc_safe (p : uproc) (n : Z) : Prop := mmaped_len p + n * PAGE_SIZE <= MMAP_MAX_SIZE.

Lemma needed_pages_exact n : 0 < n < 2 ^ 20 ->
  Z.land (u64 (n * PAGE_SIZE + PAGE_SIZE - 1)) (u64 (Z.lnot (PAGE_SIZE - 1))) / PAGE_SIZE = n.
Proof.
  intros Hn. unfold PAGE_SIZE. rewrite (u64_small (n * 4096 + 4096 - 1)) by lia.
  assert (E : Z.land (n * 4096 + 4096 - 1) (u64 (Z.lnot (4096 - 1))) = n * 4096).
  { replace (u64 (Z.lnot (4096 - 1))) with (Z.land (Z.lnot (2 ^ 12 - 1)) (Z.ones 64))
      by (unfold u64; rewrite Z.land_ones by lia; done).
    rewrite Z.land_assoc, pow2_ones_land by lia. rewrite Z.land_ones by lia.
    change (2 ^ 12) with 4096. replace (n * 4096 + 4096 - 1) with (4095 + n * 4096) by lia.
    rewrite Z.mod_add by lia. change (4095 mod 4096) with 4095.
    rewrite Z.mod_small by lia. lia. }
  rewrite E. apply Z.div_mul. lia.
Qed.

Lemma mmap_run p n : 0 < n < 2 ^ 20 -> libc_safe p n -> 0 <= mmaped_len p ->
  SCHED_MMAP_TOP <= mmap_top p < 2 ^ 48 ->
  liballoc_alloc_pages n p =
  Done (mmap_top p, mk_uproc (mmap_top p + (n + 1) * PAGE_SIZE) (mmaped_len p + n * PAGE_SIZE) (errno p)).
Proof.
  intros Hn Hsafe Hlen Htop. unfold libc_safe, MMAP_MAX_SIZE, SCHED_MMAP_TOP, PAGE_SIZE in *.
  cbn [liballoc_alloc_pages libc_hooks]. rewrite (u64_small n), (u64_small (n * _)) by (unfold PAGE_SIZE; lia).
  unfold mmap. erewrite bind_run.
  2:{ unfold syscall_mmap_anon. rewrite (proj2 (Z.eqb_neq _ 0)) by (unfold PAGE_SIZE; lia).
      rewrite needed_pages_exact by done. cbv zeta.
      erewrite bind_run by reflexivity. erewrite bind_run by reflexivity. cbn [mmaped_len].
      unfold MMAP_MAX_SIZE, PAGE_SIZE. rewrite (u64_small (mmaped_len p + _)) by lia.
      rewrite (proj2 (Z.ltb_ge _ _)) by lia.
      erewrite bind_run by reflexivity. erewrite bind_run by reflexivity. cbn [mmap_top mmaped_len errno].
      rewrite (u64_small (mmap_top p + _)) by lia. reflexivity. }
  rewrite s64_small by lia. by rewrite (proj2 (Z.ltb_ge _ _)) by lia.
Qed.

Lemma regions_ok_perm rs rs' : rs ≡ₚ rs' -> regions_ok rs -> regions_ok rs'.
Proof.
  assert (Hsym : forall r r', apart r r' -> apart r' r) by (unfold apart; tauto).
  induction 1 as [|x l l' Hp IH|x y l|l l' l'' Hp1 IH1 Hp2 IH2]; auto; intros [Hf Ho].
  - apply Forall_cons in Hf as [Hx Hf]. inversion Ho as [|? ? Ha Ho']; subst.
    destruct (IH (conj Hf Ho')) as [Hf2 Ho2]. split; [by constructor|]. constructor; [|done].
    by rewrite <- Hp.
  - apply Forall_cons in Hf as [Hx Hf]. apply Forall_cons in Hf as [Hy Hf].
    inversion Ho as [|? ? Ha Ho']; subst. inversion Ho' as [|? ? Hb Ho'']; subst.
    apply Forall_cons in Ha as [Hxy Ha]. split; [constructor; [done|by constructor]|].
    constructor; [by constructor; auto|]. by constructor.
Qed.

#[export] Instance libc_hooks_ok : HooksOk uproc.
Proof.
  refine {| hk_ok := libc_ok; hk_safe := libc_safe |}.
  - intros p l rs rs' Hp (H1 & H2 & H3). split; [by eapply regions_ok_perm|]. by rewrite <- Hp.
  - intros p l rs (H1 & _). done.
  - intros p rs H. exists 0, p. by split_and!.
  - intros p rs H. exists 0, p. by split_and!.
  - intros p rs n (H1 & H2 & H3 & H4) Hn Hs.
    assert (Hb : SCHED_MMAP_TOP <= mmap_top p < 2 ^ 48) by (unfold SCHED_MMAP_TOP, MMAP_MAX_SIZE in *; lia).
    do 2 eexists. split; [apply mmap_run; [done|done|lia|done]|]. right. split; [unfold SCHED_MMAP_TOP in *; lia|].
    unfold libc_safe, libc_ok, PAGE_SIZE, MMAP_MAX_SIZE, SCHED_MMAP_TOP in *. cbn [mmap_top mmaped_len]. consts.
    split; [|split; [|lia]].
    + destruct H1 as [Hf Ho]. split.
      * constructor; [|done]. unfold region_ok. simpl. consts. lia.
      * constructor; [|done]. eapply Forall_impl; [exact H2|]. intros r Hr. unfold apart. simpl. consts. lia.
    + constructor; [simpl; lia|]. eapply Forall_impl; [exact H2|]. intros r Hr. simpl in *. lia.
  - intros p rs a n (H1 & H2 & H3). exists 0, p. split; [done|].
    split; [|split; [|done]].
    + destruct H1 as [Hf Ho]. apply Forall_cons in Hf as [_ Hf]. inversion Ho. by split.
    + by apply Forall_cons in H2 as [_ H2].
Defined.

(** ** A program's first allocations *)

Definition no_bytes : mem := fun _ => 0.

(** The static variables of liballoc.c at program start, in a process that has mapped [len] bytes. *)
Definition start (len : Z) : lstate uproc :=
  mk_lstate ∅ ∅ no_bytes 0 0 0 0 0 0 0 (mk_uproc SCHED_MMAP_TOP len 0).

Lemma start_heap : heap false [] (start 0).
Proof.
  split.
  - constructor; try done; try constructor; try constructor.
  - split; [|split; [constructor|]]; [split; constructor|]. simpl. unfold SCHED_MMAP_TOP, MMAP_MAX_SIZE. lia.
Qed.

Lemma start_safe : hk_safe (provider (start 0)) (pages_for 132).
Proof. closed_Z. Qed.

Lemma start_enough : enough 10 [].
Proof. split; [simpl; lia|constructor]. Qed.

Lemma first_malloc_values : match liballoc_malloc 10 100 (start 0) with
  | Done (q, t) => (q =? 0) = false /\ (mmaped_len (provider t) =? 65536) = true
  | _ => False end.
Proof. vm_compute. split; reflexivity. Qed.

(** The heap after a first [malloc(100)]. *)
Lemma first_malloc : exists bs c s n,
  liballoc_malloc 10 100 (start 0) = Done (cptr c, s) /\ heap false bs s /\ live bs = [c] /\ c_req c = 100 /\
  enough n bs /\ hk_safe (provider s) (pages_for 232) /\ (forall b, b ∈ bs -> 100 <= b_addr b) /\ cptr c <> 0.
Proof.
  destruct (malloc_run 10 100 [] (start 0) start_heap start_safe) as (p & s & Hrun & Hpost);
    [unfold max_request; lia|apply start_enough|].
  pose proof first_malloc_values as Hp. rewrite Hrun in Hp. destruct Hp as [Hp0 Hlen]. zbool.
  destruct Hpost as [[-> _]|(bs & c & H & Hperm & Hs & Hr & -> & _)]; [done|].
  exists bs, c, s, (2 * length bs + 4)%nat. simpl in Hperm. apply Permutation_singleton_r in Hperm.
  pose proof H as [Hi (_ & Hreg & _)].
  assert (Hlow : forall b, b ∈ bs -> SCHED_MMAP_TOP <= b_addr b).
  { intros b Hb. rewrite Forall_forall in Hreg. apply (Hreg (b_addr b, b_pages b)).
    apply list_elem_of_fmap. by exists b. }
  assert (Hlen1 : forall b, b ∈ bs -> (length (b_chunks b) <= 1)%nat).
  { intros b Hb. apply list_elem_of_split in Hb as (p1 & p2 & ->).
    rewrite live_app, live_cons in Hperm. apply (f_equal length) in Hperm. rewrite !length_app in Hperm.
    simpl in Hperm. lia. }
  split_and!; try done.
  - split; [lia|]. apply Forall_forall. intros b Hb. specialize (Hlen1 b Hb). lia.
  - unfold hk_safe; simpl. unfold libc_safe. rewrite Hlen. closed_Z.
  - intros b Hb. specialize (Hlow b Hb). unfold SCHED_MMAP_TOP in Hlow. lia.
Qed.

Lemma malloc_spec_witness : exists p s', liballoc_malloc 10 100 (start 0) = Done (p, s') /\
  (p = 0 /\ heap false [] s' /\ bytes s' = no_bytes \/
   exists bs' c, heap false bs' s' /\ live bs' ≡ₚ [c] /\ c_req c = 100 /\ p = cptr c /\
     p mod 16 = 0 /\ c_addr c + sizeof_minor <= p - 16 /\ p + 100 <= cend c /\
     (forall d, d ∈ live [] -> cend d <= c_addr c \/ cend c <= c_addr d) /\
     (forall x, x < c_addr c \/ cend c <= x -> bytes s' x = 0)).
Proof.
  apply (malloc_spec 10 100 [] (start 0) start_heap start_safe);
    [unfold max_request; lia|apply start_enough].
Defined.

Lemma free_spec_witness : exists bs c s bs' s', heap false bs s /\ live bs = [c] /\
  liballoc_free (cptr c) s = Done (tt, s') /\ heap false bs' s' /\ live bs ≡ₚ c :: live bs' /\ bytes s' = bytes s.
Proof.
  destruct first_malloc as (bs & c & s & n & _ & H & Hl & _).
  destruct (free_spec bs c s H ltac:(rewrite Hl; set_solver)) as (bs' & s' & ?).
  exists bs, c, s, bs', s'. auto.
Defined.

Lemma malloc_free_roundtrip_witness : exists p s1 bs' s2,
  liballoc_malloc 10 100 (start 0) = Done (p, s1) /\ liballoc_free p s1 = Done (tt, s2) /\ heap false bs' s2 /\ live bs' ≡ₚ [].
Proof.
  destruct first_malloc as (bs & c & s & n & Hrun & H & Hl & Hr & _ & _ & _ & Hp).
  destruct (malloc_free_roundtrip 10 100 [] (start 0) (cptr c) s start_heap start_safe) as (bs' & s2 & Hf & H2 & Hl2 & _);
    [unfold max_request; lia|apply start_enough|exact Hrun|exact Hp|].
  exists (cptr c), s, bs', s2. auto.
Defined.

Lemma double_free_witness : exists bs c s s1, heap false bs s /\ live bs = [c] /\ liballoc_free (cptr c) s = Done (tt, s1) /\
  (liballoc_free (cptr c) s1 = Fault \/
   exists bs' s2, liballoc_free (cptr c) s1 = Done (tt, s2) /\ l_errorCount s2 = l_errorCount s1 + 1 /\
     heap false bs' s2 /\ live bs ≡ₚ c :: live bs' /\ bytes s2 = bytes s).
Proof.
  destruct first_malloc as (bs & c & s & n & _ & H & Hl & _).
  assert (Hc : c ∈ live bs) by (rewrite Hl; set_solver).
  destruct (free_run bs c s H Hc) as (bs' & s1 & Hr & _). exists bs, c, s, s1.
  split; [exact H|]. split; [exact Hl|]. split; [exact Hr|].
  exact (double_free bs c s s1 H Hc Hr).
Defined.

Lemma calloc_spec_witness : exists p s', liballoc_calloc 10 25 4 (start 0) = Done (p, s') /\
  (p = 0 \/ exists bs' c, heap false bs' s' /\ live bs' ≡ₚ [c] /\ c_req c = 100 /\ p = cptr c /\
     (forall x, p <= x < p + 100 -> bytes s' x = 0) /\
     (forall x, x < c_addr c \/ cend c <= x -> bytes s' x = 0)).
Proof.
  apply (calloc_spec 10 25 4 [] (start 0) start_heap start_safe); [lia|apply start_enough].
Defined.

Lemma realloc_grow_witness : exists bs c s n p s' bs', heap false bs s /\ live bs = [c] /\ c_req c = 100 /\
  liballoc_realloc n (cptr c) 200 s = Done (p, s') /\ heap false bs' s' /\
  (p = 0 \/ forall i, 0 <= i < 100 -> bytes s' (p + i) = u8 (bytes s (cptr c + i))).
Proof.
  destruct first_malloc as (bs & c & s & n & _ & H & Hl & Hr & Hn & Hs & Hlow & _).
  destruct (realloc_grow n c 200 bs s H) as (p & s' & bs' & Hrun & H' & Hc);
    [rewrite Hl; set_solver|rewrite Hr; unfold max_request; lia|exact Hs|exact Hn|rewrite Hr; exact Hlow|].
  exists bs, c, s, n, p, s', bs'. do 5 (split; [assumption|]).
  destruct Hc as [[-> _]|(c' & _ & _ & _ & Hb & _)]; [left; reflexivity|right; rewrite Hr in Hb; exact Hb].
Defined.

(** When the process has used up its mapping budget, mmap answers MAP_FAILED, which is not
    NULL: liballoc takes it for a block at the top of the address space and malloc returns
    the address 96 instead of NULL. *)
Theorem malloc_map_failed :
  mmap (16 * PAGE_SIZE) (provider (start MMAP_MAX_SIZE)) =
    Done (MAP_FAILED, mk_uproc SCHED_MMAP_TOP MMAP_MAX_SIZE EMFILE) /\
  match malloc 10 16 (start MMAP_MAX_SIZE) with Done (p, _) => p = 96 | _ => False end.
Proof. split; vm_compute; reflexivity. Qed.
