(* ===== verification/Kheap.v ===== *)
(** * The kernel heap (src/src/kernel/mm/kheap.c)

    liballoc on top of the physical memory manager: a block is a run of physical pages seen
    through the direct map.  The provider's state is the manager's state and the spin lock
    [liballoc_slock].  [pmalloc] does not meet the contract of the page hooks (see
    [pmalloc_overlaps_used_pages] in Pmm.v); [kmalloc_overlap] shows the consequence for
    two live kernel objects. *)
From S2P Require Import Prelude Pmm Liballoc.

Record khooks := mk_khooks { k_pmm : pmm_state; liballoc_slock : bool }.

(** A call into the physical memory manager. *)
Definition on_pmm {A} (m : M pmm_state A) : M khooks A := fun k =>
  match m (k_pmm k) with
  | Done (a, p) => Done (a, mk_khooks p (liballoc_slock k))
  | Halt => Halt
  | Fault => Fault
  | Fuel => Fuel
  end.

Definition kheap_alloc_pages (size : Z) : M khooks Z :=
  p ← on_pmm (pcalloc (u64 size)); mret (u64 (p + PHYS_MEM_OFFSET)).

Definition kheap_free_pages (ptr pages : Z) : M khooks Z :=
  on_pmm (pmm_free_pages (u64 (ptr - PHYS_MEM_OFFSET)) pages);; mret 0.

(** [LOCK] answers 1 when the lock was free. *)
Definition kheap_lock : M khooks Z := fun k =>
  if liballoc_slock k then Halt else Done (1, mk_khooks (k_pmm k) true).

Definition kheap_unlock : M khooks Z := fun k => Done (0, mk_khooks (k_pmm k) false).

#[export] Instance kernel_hooks : Hooks khooks := {|
  liballoc_lock := kheap_lock;
  liballoc_unlock := kheap_unlock;
  liballoc_alloc_pages := kheap_alloc_pages;
  liballoc_free_pages := kheap_free_pages
|}.

Definition kmalloc (fuel : nat) (size : Z) : M (lstate khooks) Z := liballoc_malloc fuel size.
Definition kfree (ptr : Z) : M (lstate khooks) unit := liballoc_free ptr.
Definition krealloc (fuel : nat) (ptr size : Z) : M (lstate khooks) Z := liballoc_realloc fuel ptr size.
Definition kcalloc (fuel : nat) (size : Z) : M (lstate khooks) Z := liballoc_calloc fuel size 1.

(** ** Two live objects that overlap *)

(** Forty pages, the first two in use. *)
Definition khooks0 : khooks :=
  mk_khooks (mk_pmm false 1 [3; 0; 0; 0; 0; 0; 0; 0] (40 * PAGE_SIZE) (fun _ => 0)) false.
Definition kheap0 : lstate khooks := mk_lstate ∅ ∅ (fun _ => 0) 0 0 0 0 0 0 0 khooks0.

(** [kmalloc(60000)], page 1 is freed by its owner, [kmalloc(60000)]. *)
Definition two_objects : M (lstate khooks) (Z * Z) :=
  p ← kmalloc 10 60000;
  hook (on_pmm (pmm_free_page (1 * PAGE_SIZE)));;
  q ← kmalloc 10 60000;
  mret (p, q).

(** The kernel heap can hand out overlapping objects: with one free page in front of a
    live 16-page block, the next block starts at that page and runs over the live one. *)
Theorem kmalloc_overlap :
  match two_objects kheap0 with
  | Done (p, q, _) => q < p < q + 60000
  | _ => False
  end.
Proof. vm_compute. split; reflexivity. Qed.

(** A request of zero bytes is served like any other (the zero-size branch of
    liballoc_malloc tests the size after the alignment slack was added), and kfree of a null
    pointer only counts a warning. *)
Theorem kmalloc_zero :
  match kmalloc 10 0 kheap0 with
  | Done (p, s) => p = PHYS_MEM_OFFSET + 2 * PAGE_SIZE + 96 /\ l_warningCount s = 0
  | _ => False
  end /\
  forall s, kfree 0 s = Done (tt, set_counts (l_warningCount s + 1) (l_errorCount s) (l_possibleOverruns s) s).
Proof. split; [vm_compute; split; reflexivity|reflexivity]. Qed.
