(* ===== verification/PageTable.v ===== *)
(** * Page tables (the walks of src/src/kernel/mm/vmm.c)

    The four-level tables live in physical memory ([phys] of Pmm.v) and are reached through
    the direct map.  [walk] is the tree they form, [leaf] the last-level entry an address
    ends in (0 when a level is missing).  [pt_ok] says that the tables of one address space
    form a tree of pages that are in use; with it, [vmm_get_next_level] is shown to keep
    every translation, and a store into the last level to change exactly one. *)
From S2P Require Import Prelude Pmm.

Definition load64 (p : Z) : M pmm_state Z := gets (fun s => ld 8 (phys s) (dmap p)).
Definition store64 (p v : Z) : M pmm_state unit :=
  modify (fun s => with_phys (st 8 (dmap p) v (phys s)) s).

(** The mask [~((uintptr_t)0xfff)]. *)
Definition page_mask : Z := u64 (Z.lnot 0xfff).

Definition vmm_get_next_level (table index flags : Z) : M pmm_state Z :=
  e ← load64 (u64 (table + 8 * index));
  ret ← (if truthy (Z.land e 1) then mret (Z.land e page_mask)
         else
           ret ← pcalloc 1;
           store64 (u64 (table + 8 * index)) (Z.lor ret 7);;
           mret ret);
  mret (u64 (ret + PHYS_MEM_OFFSET)).

(** [(virtual_address & ((size_t)0x1ff << k)) >> k] *)
Definition pml_entry (k va : Z) : Z := Z.shiftr (Z.land va (Z.shiftl 0x1ff k)) k.

(** The three calls that lead from the top level to the last table. *)
Definition walk_pml1 (top va flags : Z) : M pmm_state Z :=
  pml3 ← vmm_get_next_level (u64 (top + PHYS_MEM_OFFSET)) (pml_entry 39 va) flags;
  pml2 ← vmm_get_next_level pml3 (pml_entry 30 va) flags;
  vmm_get_next_level pml2 (pml_entry 21 va) flags.

(** ** The tables as a tree *)

Definition entry (m : mem) (t i : Z) : Z := ld 8 m (t + 8 * i).
Definition present (e : Z) : bool := Z.testbit e 0.
Definition target (e : Z) : Z := Z.land e page_mask.

Fixpoint walk (m : mem) (t : Z) (path : list Z) : option Z :=
  match path with
  | [] => Some t
  | i :: path' => if present (entry m t i) then walk m (target (entry m t i)) path' else None
  end.

Definition indices (va : Z) : list Z := [pml_entry 39 va; pml_entry 30 va; pml_entry 21 va].
Definition leaf_at (m : mem) (top : Z) (path : list Z) (i : Z) : Z :=
  match walk m top path with Some t => entry m t i | None => 0 end.
Definition leaf (m : mem) (top va : Z) : Z := leaf_at m top (indices va) (pml_entry 12 va).

Definition path_ok (path : list Z) : Prop := (length path <= 3)%nat /\ Forall (fun i => 0 <= i < 512) path.

(** A page the allocator counts as in use. *)
Definition page_in_use (s : pmm_state) (t : Z) : Prop :=
  exists n, t = n * PAGE_SIZE /\ 0 < n < highest_page s / PAGE_SIZE /\ used (bitmap s) n = true.

Record pt_ok (s : pmm_state) (top : Z) : Prop := mk_pt_ok {
  pt_ready : pmm_ready s 1;
  pt_low : highest_page s <= 2 ^ 46;
  pt_zero : used (bitmap s) 0 = true;
  pt_use : forall p t, path_ok p -> walk (phys s) top p = Some t -> page_in_use s t;
  pt_tree : forall p q t, path_ok p -> path_ok q ->
    walk (phys s) top p = Some t -> walk (phys s) top q = Some t -> p = q
}.

(** ** Arithmetic of entries *)

Lemma pml_entry_spec k va : 0 <= k -> 0 <= va -> pml_entry k va = (va / 2 ^ k) mod 512.
Proof.
  intros Hk Hv. unfold pml_entry. rewrite Z.shiftr_land, Z.shiftr_shiftl_l by lia.
  rewrite Z.sub_diag. change (Z.shiftl 0x1ff 0) with (Z.ones 9).
  by rewrite Z.land_ones, Z.shiftr_div_pow2 by lia.
Qed.

Lemma pml_entry_range k va : 0 <= k -> 0 <= va -> 0 <= pml_entry k va < 512.
Proof. intros. rewrite pml_entry_spec by lia. apply Z.mod_pos_bound. lia. Qed.

Lemma indices_ok va : 0 <= va -> path_ok (indices va).
Proof. intros. split; [simpl; lia|]. repeat constructor; apply pml_entry_range; lia. Qed.

Lemma truthy_bit0 e : truthy (Z.land e 1) = present e.
Proof.
  unfold truthy, present. pose proof (land_1_testbit e 0 ltac:(lia)) as H.
  rewrite Z.shiftr_0_r in H. rewrite H. by destruct (Z.testbit e 0).
Qed.

Lemma target_page e n : 0 <= n < 2 ^ 52 -> 0 <= e - n * PAGE_SIZE < PAGE_SIZE -> target e = n * PAGE_SIZE.
Proof.
  intros Hn He. unfold target, page_mask, PAGE_SIZE in *.
  replace (u64 (Z.lnot 0xfff)) with (Z.land (Z.lnot (2 ^ 12 - 1)) (Z.ones 64))
    by (unfold u64; rewrite Z.land_ones by lia; done).
  rewrite Z.land_assoc, pow2_ones_land, Z.land_ones by lia.
  assert (E : e mod 2 ^ 12 = e - n * 4096).
  { symmetry. apply Z.mod_unique with n; lia. }
  rewrite E. rewrite Z.mod_small; lia.
Qed.

(** The entry written for a new table: the page with the three permission bits. *)
Lemma new_entry n : 0 <= n < 2 ^ 50 ->
  Z.lor (n * PAGE_SIZE) 7 = n * PAGE_SIZE + 7.
Proof.
  intros Hn. pose proof (Z.add_lor_land (n * PAGE_SIZE) 7) as E.
  enough (Z.land (n * PAGE_SIZE) 7 = 0) by lia. change 7 with (Z.ones 3).
  rewrite Z.land_ones by lia. unfold PAGE_SIZE. replace (n * 4096) with (n * 512 * 2 ^ 3) by lia.
  apply Z.mod_mul. lia.
Qed.

Lemma dmap_direct p : 0 <= p < 2 ^ 47 -> dmap (u64 (p + PHYS_MEM_OFFSET)) = p.
Proof.
  intros Hp. unfold dmap, PHYS_MEM_OFFSET in *. rewrite u64_small by lia.
  rewrite (proj2 (Z.leb_le _ _)) by lia. lia.
Qed.

Lemma dmap_entry p i : 0 <= p < 2 ^ 46 -> 0 <= i < 512 ->
  dmap (u64 (u64 (p + PHYS_MEM_OFFSET) + 8 * i)) = p + 8 * i.
Proof.
  intros Hp Hi.
  assert (E : u64 (u64 (p + PHYS_MEM_OFFSET) + 8 * i) = u64 (p + 8 * i + PHYS_MEM_OFFSET)).
  { unfold u64. rewrite Zplus_mod_idemp_l. f_equal. lia. }
  rewrite E. apply dmap_direct. lia.
Qed.

Lemma walk_app m t p q :
  walk m t (p ++ q) = match walk m t p with Some t' => walk m t' q | None => None end.
Proof. revert t. induction p as [|i p IH]; intros t; simpl; [done|]. by destruct (present _). Qed.

(** ** Writing into a table *)

Section Write.
Context (s : pmm_state) (top : Z) (Hok : pt_ok s top).
Local Abbreviation m := (phys s).

Lemma in_use_bounds t : page_in_use s t -> 0 < t /\ t + 4096 <= 2 ^ 46 /\ t mod 4096 = 0.
Proof.
  intros (n & -> & Hn & _). pose proof (pt_low _ _ Hok). pose proof (ready_top _ _ (pt_ready _ _ Hok)).
  unfold PAGE_SIZE in *. pose proof (Z.mul_div_le (highest_page s) 4096 ltac:(lia)).
  split; [lia|]. split; [lia|]. apply Z.mod_mul. lia.
Qed.

(** Entries of different pages, or different entries of one page, do not overlap. *)
Lemma slots_apart t t' i j : page_in_use s t -> page_in_use s t' -> 0 <= i < 512 -> 0 <= j < 512 ->
  (t, i) <> (t', j) -> t + 8 * i + 8 <= t' + 8 * j \/ t' + 8 * j + 8 <= t + 8 * i.
Proof.
  intros (n & -> & _) (n' & -> & _) Hi Hj Hne. unfold PAGE_SIZE.
  destruct (Z.lt_trichotomy n n') as [H|[->|H]]; [lia| |lia].
  destruct (Z.lt_trichotomy i j) as [H|[->|H]]; [lia|done|lia].
Qed.

(** A memory that agrees with [m] on every table entry except the one at [path], [i]. *)
Definition agrees_but (path : list Z) (i : Z) (m' : mem) : Prop :=
  forall q t j, path_ok q -> walk m top q = Some t -> 0 <= j < 512 -> (q, j) <> (path, i) ->
    entry m' t j = entry m t j.

(** Walks that do not go through that entry are the same. *)
Lemma walk_agrees path i m' q :
  agrees_but path i m' -> path_ok q -> (forall r, q <> path ++ i :: r) -> walk m' top q = walk m top q.
Proof.
  intros Hag Hq Hnot.
  enough (Hgen : forall pre t, walk m top pre = Some t -> path_ok (pre ++ q) -> (forall r, pre ++ q <> path ++ i :: r) ->
    walk m' t q = walk m t q) by (by apply (Hgen [])).
  clear Hq Hnot. induction q as [|j q IH]; intros pre t Hpre Hq Hnot; [done|]. simpl.
  assert (Hpj : path_ok pre /\ 0 <= j < 512).
  { destruct Hq as [Hl Hf]. rewrite length_app in Hl. apply Forall_app in Hf as [Hf1 Hf2].
    apply Forall_cons in Hf2 as [Hj _]. split; [split; [lia|done]|done]. }
  assert (Hent : entry m' t j = entry m t j).
  { apply (Hag pre); [apply Hpj|done|apply Hpj|]. intros [= -> ->]. by apply (Hnot q). }
  rewrite Hent. destruct (present (entry m t j)) eqn:E; [|done].
  apply (IH (pre ++ [j])); try (by rewrite <- app_assoc).
  rewrite walk_app, Hpre. simpl. by rewrite E.
Qed.
End Write.

(** ** Allocating a table *)

(** At least [k] pages are free. *)
Definition has_free (s : pmm_state) (k : nat) : Prop :=
  exists l, NoDup l /\ length l = k /\
    Forall (fun n => 0 <= n < highest_page s / PAGE_SIZE /\ used (bitmap s) n = false) l.

Lemma has_free_le s j k : (j <= k)%nat -> has_free s k -> has_free s j.
Proof.
  intros Hjk (l & Hnd & Hl & Hf). exists (take j l). split.
  { rewrite <- (take_drop j l) in Hnd. by apply NoDup_app in Hnd as [? _]. }
 
  split; [rewrite length_take; lia|by apply Forall_take].
Qed.

(** One page taken leaves one free page less. *)
Lemma has_free_claim s u n k : claim s u n 1 true -> has_free s (S k) -> has_free u k.
Proof.
  intros [Hfr Hcl] (l & Hnd & Hl & Hf). apply (has_free_le u k (length (filter (.≠ n) l))).
  - assert (H : (length l <= length (filter (.≠ n) l) + 1)%nat).
    { clear Hl Hf. induction Hnd as [|x l Hx Hnd IH]; [simpl; lia|]. rewrite filter_cons. simpl.
      destruct (decide (x ≠ n)) as [Hne|He]; simpl; [lia|]. apply dec_stable in He. subst x.
      assert (E : filter (.≠ n) l = l).
      { clear IH Hnd. induction l as [|y l IHl]; [done|]. rewrite filter_cons.
        rewrite decide_True by set_solver. f_equal. apply IHl. set_solver. }
      rewrite E. lia. }
    lia.
  - exists (filter (.≠ n) l). split; [by apply NoDup_filter|]. split; [done|].
    apply Forall_forall. intros x Hx. apply list_elem_of_filter in Hx as [Hne Hx].
    rewrite Forall_forall in Hf. destruct (Hf x Hx) as [Hr Hu]. rewrite (frame_top _ _ Hfr).
    split; [done|]. rewrite Hcl by lia.
    destruct (Z.leb_spec n x), (Z.ltb_spec x (n + 1)); simpl; try done. lia.
Qed.

Lemma pcalloc_one s : pmm_ready s 1 -> used (bitmap s) 0 = true -> highest_page s <= 2 ^ 46 ->
  pcalloc 1 s = Halt /\ ~ has_free s 1 \/
  exists n u, pcalloc 1 s = Done (n * PAGE_SIZE, with_phys (memset (n * PAGE_SIZE) 0 PAGE_SIZE (phys s)) u) /\
    0 < n < highest_page s / PAGE_SIZE /\ used (bitmap s) n = false /\ claim s u n 1 true /\
    forall c, 0 <= c < n -> used (bitmap s) c = true.
Proof.
  intros Hr H0 Hlow. pose proof (pmalloc_cases s 1 Hr) as HC. unfold pcalloc.
  destruct (first_free _ _ _) as [i|] eqn:E.
  - right. destruct HC as (u & Hu & _). pose proof (pmalloc_inv s u 1 _ Hr Hu) as (n & En & Hn & Hf & Hmin & Hc).
    assert (i = n) as -> by (unfold PAGE_SIZE in *; lia).
    assert (n <> 0) by (intros ->; congruence).
    exists n, u. split; [|split; [lia|split; [done|split; [done|exact Hmin]]]].
    rewrite (bind_run _ _ _ _ _ Hu). rewrite (proj2 (Z.eqb_neq _ 0)) by (unfold PAGE_SIZE; lia).
    unfold mbind, M_bind, modify, mret, M_ret. destruct Hc as [Hfr _]. rewrite (frame_phys _ _ Hfr).
    rewrite dmap_direct; [done|]. pose proof (Z.mul_div_le (highest_page s) PAGE_SIZE ltac:(done)).
    unfold PAGE_SIZE in *. lia.
  - left. unfold mbind, M_bind. rewrite HC. split; [done|].
    pose proof (first_free_spec (bitmap s) (Z.to_nat (highest_page s / PAGE_SIZE)) 0) as HF. rewrite E in HF.
    intros (l & _ & Hl & Hf). destruct l as [|x l]; [done|]. apply Forall_cons in Hf as [[Hx Hu] _].
    rewrite HF in Hu by lia. done.
Qed.

(** Memory that has only ever been handed out: the pages from [n] on are free, those below in use. *)
Record untouched (s : pmm_state) (n : Z) : Prop := mk_untouched {
  ut_range : 0 < n <= highest_page s / PAGE_SIZE;
  ut_bits : forall c, 0 <= c < highest_page s / PAGE_SIZE -> used (bitmap s) c = (c <? n)
}.

Lemma untouched_claim s u n k m : untouched s n -> 0 < k -> n + k <= highest_page s / PAGE_SIZE -> claim s u n k true ->
  untouched (with_phys m u) (n + k).
Proof.
  intros [Hn Hb] Hk Hr [Hfr Hcl]. constructor; cbn [bitmap highest_page with_phys]; rewrite (frame_top _ _ Hfr); [lia|].
  intros c Hc. rewrite Hcl, Hb by lia. destruct (Z.leb_spec n c), (Z.ltb_spec c (n + k)), (Z.ltb_spec c n); simpl; try done; lia.
Qed.

Lemma untouched_free s n k : untouched s n -> n + Z.of_nat k <= highest_page s / PAGE_SIZE -> has_free s k.
Proof.
  intros [Hn Hb] Hk. exists (seqZ n (Z.of_nat k)). split; [apply NoDup_seqZ|]. split; [rewrite length_seqZ; lia|].
  apply Forall_forall. intros c Hc. apply elem_of_seqZ in Hc. split; [lia|]. rewrite Hb by lia. apply Z.ltb_ge. lia.
Qed.

(** What the steps of a walk towards [dir] leave as they were: every table, every last-level entry,
    every entry of a table that is not on the way, every byte of a page in use that is not a table
    on the way. *)
Record keeps (s s' : pmm_state) (top : Z) (dir : list Z) : Prop := mk_keeps {
  kp_ok : pt_ok s' top;
  kp_walk : forall q t, path_ok q -> walk (phys s) top q = Some t -> walk (phys s') top q = Some t;
  kp_leaf : forall q j, length q = 3%nat -> path_ok q -> 0 <= j < 512 ->
    leaf_at (phys s') top q j = leaf_at (phys s) top q j;
  kp_used : forall n, 0 <= n -> used (bitmap s) n = true -> used (bitmap s') n = true;
  kp_top : highest_page s' = highest_page s;
  kp_new : forall q t, path_ok q -> walk (phys s') top q = Some t ->
    walk (phys s) top q = Some t \/ used (bitmap s) (t / PAGE_SIZE) = false;
  kp_entry : forall q t j, path_ok q -> walk (phys s) top q = Some t -> 0 <= j < 512 ->
    ~ (q ++ [j]) `prefix_of` dir -> entry (phys s') t j = entry (phys s) t j;
  kp_data : forall x, 0 <= x -> used (bitmap s) (x / PAGE_SIZE) = true ->
    (forall q t, q `prefix_of` dir -> path_ok q -> walk (phys s) top q = Some t -> ~ (t <= x < t + PAGE_SIZE)) ->
    phys s' x = phys s x
}.

Lemma keeps_refl s top dir : pt_ok s top -> keeps s s top dir.
Proof. constructor; auto. Qed.

Lemma page_of_div n x : n * PAGE_SIZE <= x < n * PAGE_SIZE + PAGE_SIZE -> x / PAGE_SIZE = n.
Proof. intros H. symmetry. apply Z.div_unique with (x - n * PAGE_SIZE); unfold PAGE_SIZE in *; lia. Qed.

Lemma keeps_trans s t u top dir : keeps s t top dir -> keeps t u top dir -> keeps s u top dir.
Proof.
  intros A B. constructor.
  - apply (kp_ok _ _ _ _ B).
  - intros q y Hq Hw. apply (kp_walk _ _ _ _ B); [done|]. by apply (kp_walk _ _ _ _ A).
  - intros q j Hl Hq Hj. by rewrite (kp_leaf _ _ _ _ B), (kp_leaf _ _ _ _ A).
  - intros n Hn Hu. apply (kp_used _ _ _ _ B); [done|]. by apply (kp_used _ _ _ _ A).
  - by rewrite (kp_top _ _ _ _ B), (kp_top _ _ _ _ A).
  - intros q y Hq Hw. destruct (kp_new _ _ _ _ B q y Hq Hw) as [Hw'|Hu].
    + by apply (kp_new _ _ _ _ A).
    + right. destruct (used (bitmap s) (y / PAGE_SIZE)) eqn:E; [|done].
      destruct (pt_use _ _ (kp_ok _ _ _ _ B) q y Hq Hw) as (n & -> & Hn & _).
      rewrite (kp_used _ _ _ _ A) in Hu; [done| |done].
      rewrite (page_of_div n) by (unfold PAGE_SIZE; lia). lia.
  - intros q y j Hq Hw Hj Hn. rewrite (kp_entry _ _ _ _ B q y j Hq) by (done || by apply (kp_walk _ _ _ _ A)).
    by apply (kp_entry _ _ _ _ A q).
  - intros x Hx Hu Hq. rewrite (kp_data _ _ _ _ B).
    + by apply (kp_data _ _ _ _ A).
    + done.
    + apply (kp_used _ _ _ _ A); [|done]. apply Z.div_pos; [done|]. unfold PAGE_SIZE. lia.
    + intros q y Hpre Hqo Hw Hin. destruct (kp_new _ _ _ _ A q y Hqo Hw) as [Hw'|Hu'].
      * by apply (Hq q y).
      * destruct (pt_use _ _ (kp_ok _ _ _ _ A) q y Hqo Hw) as (n & -> & _).
        rewrite (page_of_div n) in Hu, Hu' by (unfold PAGE_SIZE in *; lia). congruence.
Qed.

(** The state after a missing table was added at [path], [i]. *)
Lemma add_table s top path t i n u dir :
  pt_ok s top -> walk (phys s) top path = Some t -> path_ok (path ++ [i]) ->
  present (entry (phys s) t i) = false -> (path ++ [i]) `prefix_of` dir ->
  0 < n < highest_page s / PAGE_SIZE -> used (bitmap s) n = false -> claim s u n 1 true ->
  let z := n * PAGE_SIZE in
  let m' := st 8 (t + 8 * i) (Z.lor z 7) (memset z 0 PAGE_SIZE (phys s)) in
  keeps s (with_phys m' u) top dir /\ walk m' top (path ++ [i]) = Some z.
Proof.
  intros Hok Hw Hp Habs Hdir Hn Hfree [Hfr Hcl] z m'.
  assert (Hpi : path_ok path /\ 0 <= i < 512).
  { destruct Hp as [Hl Hf]. rewrite length_app in Hl. simpl in Hl. apply Forall_app in Hf as [Hf1 Hf2].
    apply Forall_cons in Hf2 as [Hj _]. split; [split; [lia|done]|done]. }
  destruct Hpi as [Hpath Hi].
  pose proof (pt_use _ _ Hok path t Hpath Hw) as Ht.
  assert (Hn2 : n < 2 ^ 34).
  { pose proof (pt_low _ _ Hok). assert (highest_page s / PAGE_SIZE <= 2 ^ 46 / PAGE_SIZE)
      by (apply Z.div_le_mono; [done|lia]). change (2 ^ 46 / PAGE_SIZE) with (2 ^ 34) in *. lia. }
  (* pages in use are apart from the new one *)
  assert (Hzap : forall y, page_in_use s y -> y + 4096 <= z \/ z + 4096 <= y).
  { intros y (k & -> & Hk & Hu). unfold z, PAGE_SIZE.
    destruct (Z.lt_trichotomy n k) as [H|[->|H]]; [lia|congruence|lia]. }
  assert (Hnew : entry m' t i = z + 7).
  { unfold entry, m'. rewrite ld_st_same. unfold z. rewrite new_entry by lia.
    apply Z.mod_small. change (2 ^ (8 * Z.of_nat 8)) with (2 ^ 64). unfold PAGE_SIZE. lia. }
  assert (Htz : target (z + 7) = z).
  { apply target_page; unfold z; [lia|]. unfold PAGE_SIZE. lia. }
  assert (Hpz : present (z + 7) = true).
  { unfold present. rewrite Z.bit0_odd, Z.odd_add. unfold z, PAGE_SIZE.
    replace (n * 4096) with (2 * (n * 2048)) by lia. by rewrite Z.odd_mul. }
  assert (Hag : agrees_but s top path i m').
  { intros q y j Hq Hwq Hj Hne. pose proof (pt_use _ _ Hok q y Hq Hwq) as Hy.
    unfold entry, m'. pose proof (Hzap _ Hy). rewrite ld_st_other.
    - apply ld_memset_out. unfold PAGE_SIZE. lia.
    - destruct (slots_apart s y t j i Hy Ht Hj Hi) as [H1|H1]; [|lia|lia].
      intros [= -> ->]. apply Hne. f_equal. by apply (pt_tree _ _ Hok q path t). }
  assert (Hzero : forall j, 0 <= j < 512 -> entry m' z j = 0).
  { intros j Hj. pose proof (Hzap _ Ht). unfold entry, m'. rewrite ld_st_other by lia.
    apply ld_memset_in; unfold PAGE_SIZE; lia. }
  (* the walks in the new memory *)
  assert (Hpath' : walk m' top path = Some t).
  { rewrite <- Hw. apply (walk_agrees s top path i m' path Hag Hpath). intros r E.
    apply (f_equal length) in E. rewrite length_app in E. simpl in E. lia. }
  assert (Hz : walk m' top (path ++ [i]) = Some z).
  { rewrite walk_app, Hpath'. simpl. by rewrite Hnew, Hpz, Htz. }
  assert (Hnone : forall r, walk (phys s) top (path ++ i :: r) = None).
  { intros r. rewrite walk_app, Hw. simpl. by rewrite Habs. }
  assert (Hdeep : forall j r, path_ok (path ++ i :: j :: r) -> walk m' top (path ++ i :: j :: r) = None).
  { intros j r [_ Hf]. apply Forall_app in Hf as [_ Hf]. apply Forall_cons in Hf as [_ Hf].
    apply Forall_cons in Hf as [Hj _]. rewrite walk_app, Hpath'. simpl. rewrite Hnew, Hpz, Htz.
    by rewrite Hzero. }
  assert (Hcase : forall q, path_ok q ->
    q = path ++ [i] \/ (exists j r, q = path ++ i :: j :: r) \/
    (walk m' top q = walk (phys s) top q /\ forall r, q <> path ++ i :: r)).
  { intros q Hq. destruct (decide ((path ++ [i]) `prefix_of` q)) as [[r ->]|Hpre].
    - rewrite <- app_assoc. simpl. destruct r as [|j r]; [by left|right; left; eauto].
    - right; right. assert (Hnot : forall r, q <> path ++ i :: r).
      { intros r ->. apply Hpre. exists r. by rewrite <- app_assoc. }
      split; [|done]. by apply (walk_agrees s top path i m' q Hag Hq). }
  assert (Hsome : forall q y, path_ok q -> walk m' top q = Some y ->
    (q = path ++ [i] /\ y = z) \/ walk (phys s) top q = Some y).
  { intros q y Hq Hy. destruct (Hcase q Hq) as [->|[(j & r & ->)|[E _]]].
    - left. split; [done|congruence].
    - by rewrite Hdeep in Hy.
    - right. by rewrite <- E. }
  assert (Hmono : forall q y, path_ok q -> walk (phys s) top q = Some y -> walk m' top q = Some y).
  { intros q y Hq Hy. destruct (Hcase q Hq) as [->|[(j & r & ->)|[E _]]]; [by rewrite Hnone in Hy..|congruence]. }
  assert (Husz : used (bitmap u) n = true).
  { rewrite Hcl by lia. by rewrite (proj2 (Z.leb_le n n)), (proj2 (Z.ltb_lt n (n + 1))) by lia. }
  assert (Hmonou : forall k, 0 <= k -> used (bitmap s) k = true -> used (bitmap u) k = true).
  { intros k Hk Hu. rewrite Hcl by done. by destruct (_ && _). }
  split; [|exact Hz]. constructor; cbn [phys with_phys bitmap highest_page]; try done.
  - destruct (pt_ready _ _ Hok) as [R1 R2 R3 R4 R5]. destruct Hfr as [F1 F2 F3 F4 F5].
    constructor; cbn [phys with_phys bitmap highest_page]; rewrite ?F4.
    + constructor; cbn [pmm_lock with_phys bitmap highest_page]; rewrite ?F1, ?F4; auto.
      unfold covers in *. by rewrite F3.
    + apply (pt_low _ _ Hok).
    + apply Hmonou; [lia|apply (pt_zero _ _ Hok)].
    + intros q y Hq Hy. destruct (Hsome q y Hq Hy) as [[-> ->]|Hy'].
      * exists n. cbn [highest_page with_phys bitmap]. by rewrite F4.
      * destruct (pt_use _ _ Hok q y Hq Hy') as (k & -> & Hk & Hku). exists k.
        cbn [highest_page with_phys bitmap]. rewrite F4. split; [done|]. split; [done|]. apply Hmonou; [lia|done].
    + intros p q y Hpo Hqo Hpy Hqy.
      assert (Hnz : forall r, path_ok r -> walk (phys s) top r <> Some z).
      { intros r Hr Hwr. pose proof (Hzap _ (pt_use _ _ Hok r z Hr Hwr)). lia. }
      destruct (Hsome p y Hpo Hpy) as [[Ep Ey]|Hpy']; destruct (Hsome q y Hqo Hqy) as [[Eq Ey']|Hqy'].
      * congruence.
      * subst y. by apply Hnz in Hqy'.
      * subst y. by apply Hnz in Hpy'.
      * by apply (pt_tree _ _ Hok p q y).
  - intros q j Hl Hq Hj. unfold leaf_at. destruct (Hcase q Hq) as [->|[(k & r & ->)|[E Hnot]]].
    + rewrite Hz, Hnone. by apply Hzero.
    + by rewrite Hdeep, Hnone.
    + rewrite E. destruct (walk (phys s) top q) as [y|] eqn:Ey; [|done].
      apply (Hag q y j Hq Ey Hj). intros [= -> ->]. destruct Hp as [Hl3 _]. rewrite length_app in Hl3.
      simpl in Hl3. lia.
  - apply (frame_top _ _ Hfr).
  - intros q y Hq Hy. destruct (Hsome q y Hq Hy) as [[-> ->]|Hy']; [right|by left].
    rewrite (page_of_div n); [done|]. unfold z, PAGE_SIZE. lia.
  - intros q y j Hq Hy Hj Hnot. apply (Hag q y j Hq Hy Hj). by intros [= -> ->].
  - intros x Hx Hu Hno. unfold m'. assert (Hpre : path `prefix_of` dir) by (etrans; [by apply prefix_app_r|exact Hdir]).
    specialize (Hno path t Hpre Hpath Hw).
    rewrite st_other by (unfold PAGE_SIZE in *; lia). unfold memset.
    destruct (Z.leb_spec z x), (Z.ltb_spec x (z + PAGE_SIZE)); cbn [andb]; try done.
    rewrite (page_of_div n) in Hu by (unfold z, PAGE_SIZE in *; lia). congruence.
Qed.

(** One level down: the table is found or added, or no page is left. *)
Lemma get_next_level_run s top path t i flags dir :
  pt_ok s top -> walk (phys s) top path = Some t -> path_ok (path ++ [i]) -> (path ++ [i]) `prefix_of` dir ->
  vmm_get_next_level (u64 (t + PHYS_MEM_OFFSET)) i flags s = Halt /\ ~ has_free s 1 \/
  exists t' s', vmm_get_next_level (u64 (t + PHYS_MEM_OFFSET)) i flags s = Done (u64 (t' + PHYS_MEM_OFFSET), s') /\
    keeps s s' top dir /\ (forall k, has_free s (S k) -> has_free s' k) /\
    (forall n, untouched s n -> exists n', n <= n' <= n + 1 /\ untouched s' n') /\ walk (phys s') top (path ++ [i]) = Some t'.
Proof.
  intros Hok Hw Hp Hdir.
  assert (Hpi : path_ok path /\ 0 <= i < 512).
  { destruct Hp as [Hl Hf]. rewrite length_app in Hl. simpl in Hl. apply Forall_app in Hf as [Hf1 Hf2].
    apply Forall_cons in Hf2 as [Hj _]. split; [split; [lia|done]|done]. }
  destruct Hpi as [Hpath Hi]. pose proof (pt_use _ _ Hok path t Hpath Hw) as Ht.
  pose proof (in_use_bounds s top Hok t Ht) as Hb.
  unfold vmm_get_next_level. erewrite bind_run by reflexivity. rewrite dmap_entry by lia.
  fold (entry (phys s) t i). rewrite truthy_bit0. destruct (present (entry (phys s) t i)) eqn:E.
  - right. exists (target (entry (phys s) t i)), s. split; [done|]. split; [by apply keeps_refl|].
    split; [intros k; apply has_free_le; lia|]. split; [intros n Hn; exists n; split; [lia|done]|].
    rewrite walk_app, Hw. simpl. by rewrite E.
  - destruct (pcalloc_one s (pt_ready _ _ Hok) (pt_zero _ _ Hok) (pt_low _ _ Hok)) as [[Hh Hnf]|(n & u & Hrun & Hn & Hf & Hc & Hmin)].
    + left. unfold mbind, M_bind. by rewrite Hh.
    + right. destruct (add_table s top path t i n u dir Hok Hw Hp E Hdir Hn Hf Hc) as [Hk Hz].
      do 2 eexists. split; [|split; [exact Hk|split; [|split; [|exact Hz]]]].
      2:{ intros k Hk'. by apply (has_free_claim s u n k Hc). }
      2:{ intros k Hu. assert (n = k) as ->.
          { rewrite (ut_bits _ _ Hu) in Hf by lia. apply Z.ltb_ge in Hf. pose proof (ut_range _ _ Hu).
            destruct (Z.eq_dec n k); [done|]. pose proof (Hmin k ltac:(lia)) as Hm. rewrite (ut_bits _ _ Hu) in Hm by lia.
            apply Z.ltb_lt in Hm. lia. }
          exists (k + 1). split; [lia|]. apply (untouched_claim s u k 1); [done|lia|lia|done]. }
      erewrite bind_run; [reflexivity|]. erewrite bind_run by exact Hrun.
      erewrite bind_run; [reflexivity|]. unfold store64, modify. cbn [phys with_phys]. rewrite dmap_entry by lia. done.
Qed.

(** The walk to the last table. *)
Lemma walk_pml1_run s top va flags :
  pt_ok s top -> 0 <= va ->
  walk_pml1 top va flags s = Halt /\ ~ has_free s 3 \/
  exists t s', walk_pml1 top va flags s = Done (u64 (t + PHYS_MEM_OFFSET), s') /\
    keeps s s' top (indices va) /\ (forall k, has_free s (3 + k) -> has_free s' k) /\
    (forall n, untouched s n -> exists n', n <= n' <= n + 3 /\ untouched s' n') /\ walk (phys s') top (indices va) = Some t.
Proof.
  intros Hok Hva. unfold walk_pml1.
  pose proof (pml_entry_range 39 va ltac:(lia) Hva) as H4. pose proof (pml_entry_range 30 va ltac:(lia) Hva) as H3.
  pose proof (pml_entry_range 21 va ltac:(lia) Hva) as H2.
  destruct (get_next_level_run s top [] top (pml_entry 39 va) flags (indices va) Hok eq_refl) as [[Hh Hf]|(t3 & s3 & R3 & K3 & F3 & U3 & W3)];
    [split; [simpl; lia|simpl; repeat constructor; lia]|by exists [pml_entry 30 va; pml_entry 21 va]
    |left; unfold mbind, M_bind; rewrite Hh; split; [done|]; intros H; apply Hf; eapply has_free_le, H; lia|].
  erewrite bind_run by exact R3.
  destruct (get_next_level_run s3 top [pml_entry 39 va] t3 (pml_entry 30 va) flags (indices va) (kp_ok _ _ _ _ K3) W3)
    as [[Hh Hf]|(t2 & s2 & R2 & K2 & F2 & U2 & W2)];
    [split; [simpl; lia|simpl; repeat constructor; lia]|by exists [pml_entry 21 va]
    |left; unfold mbind, M_bind; rewrite Hh; split; [done|]; intros H; apply Hf;
     eapply has_free_le, (F3 2%nat H); lia|].
  erewrite bind_run by exact R2.
  destruct (get_next_level_run s2 top [pml_entry 39 va; pml_entry 30 va] t2 (pml_entry 21 va) flags (indices va) (kp_ok _ _ _ _ K2) W2)
    as [[Hh Hf]|(t1 & s1 & R1 & K1 & F1 & U1 & W1)];
    [split; [simpl; lia|simpl; repeat constructor; lia]|by exists []|left; split; [done|auto]|].
  right. exists t1, s1. split; [done|]. split; [eapply keeps_trans; [|exact K1]; by eapply keeps_trans|].
  split; [intros k Hk; by apply F1, F2, F3|]. split; [|done].
  intros n Hn. destruct (U3 n Hn) as (n3 & B3 & H3'). destruct (U2 n3 H3') as (n2' & B2 & H2').
  destruct (U1 n2' H2') as (n1 & B1 & H1'). exists n1. split; [lia|done].
Qed.

(** Nothing is allocated when the table is there. *)
Lemma next_level_there s top path t t' i flags : pt_ok s top -> path_ok path -> walk (phys s) top path = Some t -> 0 <= i < 512 ->
  walk (phys s) top (path ++ [i]) = Some t' ->
  vmm_get_next_level (u64 (t + PHYS_MEM_OFFSET)) i flags s = Done (u64 (t' + PHYS_MEM_OFFSET), s).
Proof.
  intros Hok Hp Hw Hi Hw'. pose proof (in_use_bounds s top Hok t (pt_use _ _ Hok path t Hp Hw)) as Hb.
  unfold vmm_get_next_level. erewrite bind_run by reflexivity. rewrite dmap_entry by lia. fold (entry (phys s) t i).
  rewrite walk_app, Hw in Hw'. cbn [walk mbind option_bind] in Hw'.
  rewrite truthy_bit0. destruct (present (entry (phys s) t i)) ; [|done]. by injection Hw' as <-.
Qed.

Lemma walk_pml1_there s top va flags t : pt_ok s top -> 0 <= va -> walk (phys s) top (indices va) = Some t ->
  walk_pml1 top va flags s = Done (u64 (t + PHYS_MEM_OFFSET), s).
Proof.
  intros Hok Hva Hw. unfold walk_pml1, indices in *.
  pose proof (pml_entry_range 39 va ltac:(lia) Hva) as H4. pose proof (pml_entry_range 30 va ltac:(lia) Hva) as H3.
  pose proof (pml_entry_range 21 va ltac:(lia) Hva) as H2.
  destruct (walk (phys s) top [pml_entry 39 va]) as [t3|] eqn:W3; [|by rewrite (walk_app _ _ [pml_entry 39 va] [pml_entry 30 va; pml_entry 21 va] : walk _ _ [_; _; _] = _), W3 in Hw].
  destruct (walk (phys s) top [pml_entry 39 va; pml_entry 30 va]) as [t2|] eqn:W2; [|by rewrite (walk_app _ _ [pml_entry 39 va; pml_entry 30 va] [pml_entry 21 va] : walk _ _ [_; _; _] = _), W2 in Hw].
  erewrite bind_run by (apply (next_level_there s top [] top t3); try done; split; [simpl; lia|constructor]).
  erewrite bind_run by (apply (next_level_there s top [pml_entry 39 va] t3 t2); try done; split; [simpl; lia|by apply Forall_singleton]).
  apply (next_level_there s top [pml_entry 39 va; pml_entry 30 va] t2 t); try done; split; [simpl; lia|apply Forall_cons; split; [done|by apply Forall_singleton]].
Qed.

(** ** Storing a last-level entry *)

Lemma path_va va va' : 0 <= va -> 0 <= va' ->
  (indices va, pml_entry 12 va) = (indices va', pml_entry 12 va') <->
  (va / PAGE_SIZE) mod 2 ^ 36 = (va' / PAGE_SIZE) mod 2 ^ 36.
Proof.
  intros H H'. unfold indices. rewrite !pml_entry_spec by lia.
  assert (E : forall x, 0 <= x -> (x / PAGE_SIZE) mod 2 ^ 36 =
    (x / 2 ^ 12) mod 512 + 512 * ((x / 2 ^ 21) mod 512) + 512 * 512 * ((x / 2 ^ 30) mod 512)
      + 512 * 512 * 512 * ((x / 2 ^ 39) mod 512)).
  { intros x Hx. change PAGE_SIZE with (2 ^ 12).
    replace (x / 2 ^ 21) with (x / 2 ^ 12 / 512) by (rewrite Z.div_div by lia; done).
    replace (x / 2 ^ 30) with (x / 2 ^ 12 / 512 / 512) by (rewrite !Z.div_div by lia; done).
    replace (x / 2 ^ 39) with (x / 2 ^ 12 / 512 / 512 / 512) by (rewrite !Z.div_div by lia; done).
    set (y := x / 2 ^ 12). change (2 ^ 36) with (512 * (512 * (512 * 512))).
    rewrite !Z.rem_mul_r by lia. lia. }
  rewrite !E by lia.
  pose proof (fun x => Z.mod_pos_bound x 512 ltac:(lia)) as B.
  pose proof (B (va / 2 ^ 12)). pose proof (B (va / 2 ^ 21)). pose proof (B (va / 2 ^ 30)). pose proof (B (va / 2 ^ 39)).
  pose proof (B (va' / 2 ^ 12)). pose proof (B (va' / 2 ^ 21)). pose proof (B (va' / 2 ^ 30)). pose proof (B (va' / 2 ^ 39)).
  split; [intros [= -> -> -> ->]; done|]. intros HE.
  assert ((va / 2 ^ 12) mod 512 = (va' / 2 ^ 12) mod 512 /\ (va / 2 ^ 21) mod 512 = (va' / 2 ^ 21) mod 512 /\
    (va / 2 ^ 30) mod 512 = (va' / 2 ^ 30) mod 512 /\ (va / 2 ^ 39) mod 512 = (va' / 2 ^ 39) mod 512)
    as (-> & -> & -> & ->) by lia.
  done.
Qed.

Lemma store_leaf s top path t i v :
  pt_ok s top -> walk (phys s) top path = Some t -> length path = 3%nat -> path_ok path -> 0 <= i < 512 ->
  let s' := with_phys (st 8 (t + 8 * i) v (phys s)) s in
  pt_ok s' top /\
  (forall q, path_ok q -> walk (phys s') top q = walk (phys s) top q) /\
  (forall q j, length q = 3%nat -> path_ok q -> 0 <= j < 512 ->
    leaf_at (phys s') top q j = if decide ((q, j) = (path, i)) then u64 v else leaf_at (phys s) top q j) /\
  (forall x, ~ (t <= x < t + PAGE_SIZE) -> phys s' x = phys s x).
Proof.
  intros Hok Hw Hl Hp Hi s'. pose proof (pt_use _ _ Hok path t Hp Hw) as Ht.
  assert (Hag : agrees_but s top path i (phys s')).
  { intros q y j Hq Hwq Hj Hne. pose proof (pt_use _ _ Hok q y Hq Hwq) as Hy.
    unfold entry, s'. cbn [phys with_phys]. rewrite ld_st_other; [done|].
    destruct (slots_apart s y t j i Hy Ht Hj Hi) as [H1|H1]; [|lia|lia].
    intros [= -> ->]. apply Hne. f_equal. by apply (pt_tree _ _ Hok q path t). }
  assert (Hsame : forall q, path_ok q -> walk (phys s') top q = walk (phys s) top q).
  { intros q Hq. apply (walk_agrees s top path i _ q Hag Hq). intros r ->. destruct Hq as [Hq _].
    rewrite length_app in Hq. simpl in Hq. lia. }
  split; [|split; [done|split]].
  - destruct Hok as [R1 R2 R3 R4 R5]. constructor; try done.
    + destruct R1. by constructor.
    + intros q y Hq Hy. rewrite Hsame in Hy by done. by apply (R4 q y).
    + intros q r y Hq Hr Hy1 Hy2. rewrite Hsame in Hy1, Hy2 by done. by apply (R5 q r y).
  - intros q j Hql Hq Hj. unfold leaf_at. rewrite Hsame by done.
    destruct (decide ((q, j) = (path, i))) as [[= -> ->]|Hne].
    + rewrite Hw. unfold entry, s'. cbn [phys with_phys]. by rewrite ld_st_same.
    + destruct (walk (phys s) top q) as [y|] eqn:E; [|done]. by apply (Hag q y j).
  - intros x Hx. apply st_other. unfold PAGE_SIZE in *. lia.
Qed.
