(* ===== verification/Vmm.v ===== *)
(** * Virtual memory manager (src/src/kernel/mm/vmm.c)

    Address spaces ([pagemap_t]) live in a store indexed by their pointer; their page tables
    are in physical memory (PageTable.v).  [LOCK(pagemap->lock)] on a lock that is held never
    returns.  kmalloc of a [pagemap_t] is a fresh key of the store; a pagemap's vector of
    pointers to its ranges is the list of the ranges, each owned by one pagemap.  [v_cr3] is
    the loaded top level and [v_invlpg] the addresses flushed from the TLB, latest first. *)
From S2P Require Import Prelude Pmm PageTable.

Record mmap_range := mk_range {
  r_file : Z; r_phys_addr : Z; r_virt_addr : Z; r_offset : Z; r_length : Z; r_flags : Z; r_prot : Z
}.
Record pagemap := mk_pagemap { pm_lock : bool; top_level : Z; ranges : list mmap_range }.

Record vmm_state := mk_vmm {
  v_pmm : pmm_state;
  v_maps : gmap Z pagemap;
  v_next : Z;
  v_cr3 : Z;
  v_invlpg : list Z
}.

Definition PROT_WRITE : Z := 2.
Definition MAP_SHARED : Z := 2.
Definition MAP_ANON : Z := 8.
Definition KERNEL_MEM_OFFSET : Z := 0xffffffff80000000.

(** The address of the static variable [kernel_pagemap]. *)
Definition kernel_pagemap : Z := 1.

Abbreviation VM := (M vmm_state).

Definition set_pmm (p : pmm_state) (s : vmm_state) : vmm_state :=
  mk_vmm p (v_maps s) (v_next s) (v_cr3 s) (v_invlpg s).
Definition set_maps (m : gmap Z pagemap) (s : vmm_state) : vmm_state :=
  mk_vmm (v_pmm s) m (v_next s) (v_cr3 s) (v_invlpg s).

(** Running an operation on physical memory. *)
Definition on_phys {A} (o : M pmm_state A) : VM A := fun s =>
  match o (v_pmm s) with
  | Done (a, p) => Done (a, set_pmm p s)
  | Halt => Halt
  | Fault => Fault
  | Fuel => Fuel
  end.

Definition get_map (pm : Z) : VM pagemap := fun s =>
  match v_maps s !! pm with Some m => Done (m, s) | None => Fault end.
Definition put_map (pm : Z) (m : pagemap) : VM unit := modify (fun s => set_maps (<[pm := m]> (v_maps s)) s).

Definition LOCK_map (pm : Z) : VM unit :=
  m ← get_map pm;
  if pm_lock m then halt else put_map pm (mk_pagemap true (top_level m) (ranges m)).
Definition UNLOCK_map (pm : Z) : VM unit :=
  m ← get_map pm; put_map pm (mk_pagemap false (top_level m) (ranges m)).

Definition vmm_invalidate_tlb (pm virtual_address : Z) : VM unit :=
  m ← get_map pm;
  modify (fun s =>
    if v_cr3 s =? top_level m then
      mk_vmm (v_pmm s) (v_maps s) (v_next s) (v_cr3 s) (virtual_address :: v_invlpg s)
    else s).

Definition vmm_map_page (pm physical_address virtual_address flags : Z) : VM unit :=
  LOCK_map pm;;
  m ← get_map pm;
  pml1 ← on_phys (walk_pml1 (top_level m) virtual_address flags);
  on_phys (store64 (u64 (pml1 + pml_entry 12 virtual_address * 8)) (Z.lor physical_address flags));;
  vmm_invalidate_tlb pm virtual_address;;
  UNLOCK_map pm.

Definition vmm_unmap_page (pm virtual_address : Z) : VM unit :=
  LOCK_map pm;;
  m ← get_map pm;
  pml1 ← on_phys (walk_pml1 (top_level m) virtual_address 7);
  on_phys (store64 (u64 (pml1 + pml_entry 12 virtual_address * 8)) 0);;
  vmm_invalidate_tlb pm virtual_address;;
  UNLOCK_map pm.

Definition vmm_virt_to_phys (pm virtual_address : Z) : VM Z :=
  m ← get_map pm;
  pml1 ← on_phys (walk_pml1 (top_level m) virtual_address 7);
  e ← on_phys (load64 (u64 (pml1 + 8 * pml_entry 12 virtual_address)));
  mret (if truthy (Z.land e 1) then Z.land e page_mask else 0).

Definition ALIGN_DOWN (x : Z) : Z := Z.land x page_mask.

Definition vmm_get_kernel_address (pm virtual_address : Z) : VM Z :=
  phys_addr ← vmm_virt_to_phys pm virtual_address;
  mret (u64 (phys_addr + PHYS_MEM_OFFSET + virtual_address - ALIGN_DOWN virtual_address)).

(** The bookkeeping of one side of [vmm_memcpy] after a byte: the new offset, and whether
    the next page has to be looked up. *)
Definition advance (align_difference : Z) : Z * bool :=
  let d := u64 (align_difference + 1) in
  if u64 (d + 1) mod PAGE_SIZE =? 0 then (0, true) else (d, false).

Definition advance_side (pm virt phys_addr align_difference : Z) : VM (Z * Z * Z) :=
  match advance align_difference with
  | (d, false) => mret (virt, phys_addr, d)
  | (d, true) =>
      let virt := u64 (virt + PAGE_SIZE) in
      phys_addr ← vmm_virt_to_phys pm (ALIGN_DOWN virt);
      mret (virt, phys_addr, d)
  end.

Fixpoint memcpy_loop (count : nat) (pm1 v1 p1 d1 pm2 v2 p2 d2 : Z) : VM unit :=
  match count with
  | O => mret tt
  | S count' =>
      on_phys (modify (fun s =>
        with_phys (st 1 (dmap (u64 (p1 + PHYS_MEM_OFFSET + d1)))
          (ld 1 (phys s) (dmap (u64 (p2 + PHYS_MEM_OFFSET + d2)))) (phys s)) s));;
      '(v1, p1, d1) ← advance_side pm1 v1 p1 d1;
      '(v2, p2, d2) ← advance_side pm2 v2 p2 d2;
      memcpy_loop count' pm1 v1 p1 d1 pm2 v2 p2 d2
  end.

Definition vmm_memcpy (pm1 v1 pm2 v2 count : Z) : VM unit :=
  p1 ← vmm_virt_to_phys pm1 (ALIGN_DOWN v1);
  p2 ← vmm_virt_to_phys pm2 (ALIGN_DOWN v2);
  memcpy_loop (Z.to_nat count) pm1 v1 p1 (v1 - ALIGN_DOWN v1) pm2 v2 p2 (v2 - ALIGN_DOWN v2).

Definition vmm_load_pagemap (pm : Z) : VM unit :=
  m ← get_map pm;
  modify (fun s => mk_vmm (v_pmm s) (v_maps s) (v_next s) (top_level m) (v_invlpg s)).

(** The loop that copies the kernel half of the top level. *)
Definition copy_kernel_half (kernel_top user_top : Z) : M pmm_state unit :=
  for_n 256 256 (fun i =>
    e ← load64 (u64 (kernel_top + 8 * i)); store64 (u64 (user_top + 8 * i)) e).

Definition vmm_create_new_pagemap : VM Z :=
  top ← on_phys (pcalloc 1);
  k ← get_map kernel_pagemap;
  on_phys (copy_kernel_half (u64 (top_level k + PHYS_MEM_OFFSET)) (u64 (top + PHYS_MEM_OFFSET)));;
  s ← get;
  let pm := v_next s in
  put (mk_vmm (v_pmm s) (<[pm := mk_pagemap false top []]> (v_maps s)) (pm + 1) (v_cr3 s) (v_invlpg s));;
  mret pm.

(** The permission bits of a mapping. *)
Definition page_flags (prot : Z) : Z := if truthy (Z.land prot PROT_WRITE) then 7 else 5.

(** [for (j = 0; j < length; j += PAGE_SIZE) vmm_map_page(pm, phys + j, virt + j, flags)] *)
Definition map_pages (pm phys_addr virt_addr length flags : Z) : VM unit :=
  for_n (Z.to_nat ((length + PAGE_SIZE - 1) / PAGE_SIZE)) 0 (fun j =>
    vmm_map_page pm (u64 (phys_addr + j * PAGE_SIZE)) (u64 (virt_addr + j * PAGE_SIZE)) flags).

Definition push_range (pm : Z) (r : mmap_range) : VM unit :=
  m ← get_map pm; put_map pm (mk_pagemap (pm_lock m) (top_level m) (ranges m ++ [r])).

Definition vmm_mmap_range (pm phys_addr virt_addr length flags prot : Z) : VM unit :=
  map_pages pm phys_addr virt_addr length (page_flags prot);;
  push_range pm (mk_range 0 phys_addr virt_addr 0 length (Z.lor flags MAP_ANON) prot).

Fixpoint range_to_addr (rs : list mmap_range) (virt_addr : Z) : Z :=
  match rs with
  | [] => 0
  | r :: rs' => if r_virt_addr r =? virt_addr then r_phys_addr r else range_to_addr rs' virt_addr
  end.
Definition vmm_range_to_addr (pm virt_addr : Z) : VM Z :=
  m ← get_map pm; mret (range_to_addr (ranges m) virt_addr).

Section Fork.
(** [vfs_mmap file pagemap addr size offset prot flags]: dispatches to the file's driver. *)
Variable vfs_mmap : Z -> Z -> Z -> Z -> Z -> Z -> Z -> VM Z.

Definition with_phys_addr (a : Z) (r : mmap_range) : mmap_range :=
  mk_range (r_file r) a (r_virt_addr r) (r_offset r) (r_length r) (r_flags r) (r_prot r).

Definition fork_range (new_pg : Z) (r : mmap_range) : VM unit :=
  r' ← (if truthy (Z.land (r_flags r) MAP_SHARED) then
          map_pages new_pg (r_phys_addr r) (r_virt_addr r) (r_length r) (page_flags (r_prot r));;
          mret r
        else if truthy (Z.land (r_flags r) MAP_ANON) then
          mem ← on_phys (pcalloc (r_length r / PAGE_SIZE));
          map_pages new_pg mem (r_virt_addr r) (r_length r) (page_flags (r_prot r));;
          on_phys (modify (fun s =>
            with_phys (memcpy (dmap mem) (dmap (r_phys_addr r)) (r_length r) (phys s)) s));;
          mret (with_phys_addr mem r)
        else
          mem ← vfs_mmap (r_file r) new_pg (r_virt_addr r) (r_length r) (r_offset r) (r_flags r) (r_prot r);
          mret (with_phys_addr mem r));
  push_range new_pg r'.

Fixpoint fork_ranges (new_pg : Z) (rs : list mmap_range) : VM unit :=
  match rs with [] => mret tt | r :: rs' => fork_range new_pg r;; fork_ranges new_pg rs' end.

Definition vmm_fork_pagemap (pg : Z) : VM Z :=
  new_pg ← vmm_create_new_pagemap;
  m ← get_map pg;
  fork_ranges new_pg (ranges m);;
  mret new_pg.
End Fork.

Definition destroy_range (pm : Z) (r : mmap_range) : VM unit :=
  for_n (Z.to_nat ((r_length r + PAGE_SIZE - 1) / PAGE_SIZE)) 0 (fun j =>
    vmm_unmap_page pm (u64 (r_virt_addr r + j * PAGE_SIZE)));;
  when (truthy (Z.land (r_flags r) MAP_ANON))
    (on_phys (pmm_free_pages (r_phys_addr r) (r_length r / PAGE_SIZE))).

Fixpoint destroy_ranges (pm : Z) (rs : list mmap_range) : VM unit :=
  match rs with [] => mret tt | r :: rs' => destroy_range pm r;; destroy_ranges pm rs' end.

Definition vmm_destroy_pagemap (pm : Z) : VM unit :=
  m ← get_map pm;
  destroy_ranges pm (ranges m);;
  on_phys (pmm_free_pages (top_level m) 1);;
  modify (fun s => set_maps (delete pm (v_maps s)) s).

Definition init_vmm : VM Z :=
  top ← on_phys (pcalloc 1);
  put_map kernel_pagemap (mk_pagemap false top []);;
  on_phys (for_n 256 256 (fun i => _ ← vmm_get_next_level top i 7; mret tt));;
  for_n (Z.to_nat (0x100000000 / PAGE_SIZE - 1)) 1 (fun i =>
    vmm_map_page kernel_pagemap (i * PAGE_SIZE) (i * PAGE_SIZE) 3;;
    vmm_map_page kernel_pagemap (i * PAGE_SIZE) (u64 (i * PAGE_SIZE + PHYS_MEM_OFFSET)) 3);;
  for_n (Z.to_nat (0x80000000 / PAGE_SIZE)) 0 (fun i =>
    vmm_map_page kernel_pagemap (i * PAGE_SIZE) (u64 (i * PAGE_SIZE + KERNEL_MEM_OFFSET)) 7);;
  vmm_load_pagemap kernel_pagemap;;
  mret 0.

(** ** Address spaces *)

(** The space of [pm] is idle and its tables are well formed. *)
Record space_ok (s : vmm_state) (pm : Z) (m : pagemap) : Prop := mk_space_ok {
  sp_map : v_maps s !! pm = Some m;
  sp_lock : pm_lock m = false;
  sp_tables : pt_ok (v_pmm s) (top_level m)
}.

(** The last-level entry of a virtual address. *)
Definition entry_of (s : vmm_state) (m : pagemap) (va : Z) : Z := leaf (phys (v_pmm s)) (top_level m) va.

(** Addresses that the hardware translates through the same last-level entry. *)
Definition same_page (va va' : Z) : bool := (va / PAGE_SIZE) mod 2 ^ 36 =? (va' / PAGE_SIZE) mod 2 ^ 36.

(** Physical bytes in use that are not page tables of the space. *)
Definition is_data (s : vmm_state) (m : pagemap) (x : Z) : Prop :=
  0 <= x /\ used (bitmap (v_pmm s)) (x / PAGE_SIZE) = true /\
  forall q t, path_ok q -> walk (phys (v_pmm s)) (top_level m) q = Some t -> ~ (t <= x < t + PAGE_SIZE).

(** [s'] is [s] with the entries given by [f]; the rest of the memory in use is the same. *)
Record remapped (s s' : vmm_state) (pm : Z) (m : pagemap) (f : Z -> Z) : Prop := mk_remapped {
  rm_space : space_ok s' pm m;
  rm_entries : forall va, 0 <= va -> entry_of s' m va = f va;
  rm_maps : v_maps s' = v_maps s;
  rm_data : forall x, is_data s m x -> is_data s' m x /\ phys (v_pmm s') x = phys (v_pmm s) x
}.

Lemma on_phys_run {A} (o : M pmm_state A) s a p : o (v_pmm s) = Done (a, p) -> on_phys o s = Done (a, set_pmm p s).
Proof. intros E. unfold on_phys. by rewrite E. Qed.

Lemma keeps_data s p m dir x : keeps (v_pmm s) p (top_level m) dir -> is_data s m x ->
  is_data (set_pmm p s) m x /\ phys p x = phys (v_pmm s) x.
Proof.
  intros K (Hx & Hu & Hq). split; [|apply (kp_data _ _ _ _ K); [done|done|intros q t _; apply Hq]]. split; [done|]. split.
  - apply (kp_used _ _ _ _ K); [|done]. apply Z.div_pos; [done|]. unfold PAGE_SIZE. lia.
  - intros q t Hqo Hw Hin. simpl in Hw. destruct (kp_new _ _ _ _ K q t Hqo Hw) as [Hw'|Hu'].
    + by apply (Hq q t).
    + destruct (pt_use _ _ (kp_ok _ _ _ _ K) q t Hqo Hw) as (n & -> & _).
      rewrite (page_of_div n) in Hu, Hu' by (unfold PAGE_SIZE in *; lia). congruence.
Qed.

(** The body shared by map and unmap: walk, store the entry, flush, all under the lock. *)
Definition set_entry (pm va v flags : Z) : VM unit :=
  LOCK_map pm;;
  m ← get_map pm;
  pml1 ← on_phys (walk_pml1 (top_level m) va flags);
  on_phys (store64 (u64 (pml1 + pml_entry 12 va * 8)) v);;
  vmm_invalidate_tlb pm va;;
  UNLOCK_map pm.

Lemma get_map_run s pm m : v_maps s !! pm = Some m -> get_map pm s = Done (m, s).
Proof. intros E. unfold get_map. by rewrite E. Qed.

(** The run in terms of the physical memory: the walk leads to a state [p] and a last table [t], where
    the entry is stored. *)
Lemma set_entry_steps pm m va v flags s : space_ok s pm m -> 0 <= va ->
  set_entry pm va v flags s = Halt /\ ~ has_free (v_pmm s) 3 \/
  exists s' p t, set_entry pm va v flags s = Done (tt, s') /\
    v_pmm s' = with_phys (st 8 (t + 8 * pml_entry 12 va) v (phys p)) p /\ v_maps s' = v_maps s /\ v_next s' = v_next s /\
    keeps (v_pmm s) p (top_level m) (indices va) /\
    (forall k, has_free (v_pmm s) (3 + k) -> has_free p k) /\
    (forall n, untouched (v_pmm s) n -> exists n', n <= n' <= n + 3 /\ untouched p n') /\
    walk_pml1 (top_level m) va flags (v_pmm s) = Done (u64 (t + PHYS_MEM_OFFSET), p) /\
    walk (phys p) (top_level m) (indices va) = Some t.
Proof.
  intros [Hm Hl Hpt] Hva. unfold set_entry, LOCK_map.
  erewrite bind_run.
  2:{ erewrite bind_run by (by apply get_map_run). rewrite Hl. reflexivity. }
  set (s1 := set_maps _ s). erewrite bind_run.
  2:{ apply get_map_run. simpl. apply lookup_insert_eq. }
  cbn [top_level].
  destruct (walk_pml1_run (v_pmm s) (top_level m) va flags Hpt Hva) as [[Hh Hnf]|(t & p & Hw & K & F & U & Ht)].
  { left. split; [|done]. unfold mbind, M_bind, on_phys. simpl. by rewrite Hh. }
  right. erewrite bind_run by (by apply on_phys_run).
  pose proof (pml_entry_range 12 va ltac:(lia) Hva) as Hi.
  pose proof (pt_use _ _ (kp_ok _ _ _ _ K) _ _ (indices_ok va Hva) Ht) as Hu.
  pose proof (in_use_bounds _ _ (kp_ok _ _ _ _ K) _ Hu) as Hb.
  erewrite bind_run.
  2:{ apply on_phys_run. unfold store64, modify. cbn [v_pmm set_pmm].
      rewrite (Z.mul_comm _ 8), dmap_entry by lia. reflexivity. }
  set (p' := with_phys _ p).
  erewrite bind_run.
  2:{ unfold vmm_invalidate_tlb. erewrite bind_run; [reflexivity|]. apply get_map_run. simpl. apply lookup_insert_eq. }
  set (s2 := (if _ =? _ then _ else _) : vmm_state).
  assert (Hs2 : v_pmm s2 = p' /\ v_maps s2 = <[pm := mk_pagemap true (top_level m) (ranges m)]> (v_maps s) /\ v_next s2 = v_next s).
  { unfold s2. cbn [v_cr3 set_pmm]. by destruct (_ =? _). }
  clearbody s2. destruct Hs2 as (Hp2 & Hm2 & Hn2).
  unfold UNLOCK_map. erewrite bind_run.
  2:{ apply get_map_run. rewrite Hm2. apply lookup_insert_eq. }
  eexists _, p, t. split; [reflexivity|]. cbn [top_level ranges v_pmm v_maps v_next set_maps]. rewrite Hm2, insert_insert_eq.
  assert (Em : mk_pagemap false (top_level m) (ranges m) = m) by (destruct m; simpl in *; congruence).
  rewrite Em, insert_id by done. done.
Qed.

Lemma set_entry_cases pm m va v flags s : space_ok s pm m -> 0 <= va ->
  set_entry pm va v flags s = Halt /\ ~ has_free (v_pmm s) 3 \/
  exists s', set_entry pm va v flags s = Done (tt, s') /\
    remapped s s' pm m (fun va' => if same_page va va' then u64 v else entry_of s m va').
Proof.
  intros Hsp Hva. destruct (set_entry_steps pm m va v flags s Hsp Hva) as [H|(s' & p & t & Hrun & Hp & Hm' & _ & K & _ & _ & _ & Ht)];
    [by left|right]. exists s'. split; [exact Hrun|]. destruct Hsp as [Hm Hl Hpt].
  pose proof (pml_entry_range 12 va ltac:(lia) Hva) as Hi. pose proof (indices_ok va Hva) as Hio.
  destruct (store_leaf p (top_level m) (indices va) t (pml_entry 12 va) v (kp_ok _ _ _ _ K) Ht eq_refl Hio Hi)
    as (Hok' & Hwalk & Hleaf & Hfr).
  set (p' := with_phys _ p) in *.
  constructor; try done; simpl.
  - constructor; [by rewrite Hm'|done|by rewrite Hp].
  - intros va' Hva'. unfold entry_of, leaf. rewrite Hp.
    pose proof (pml_entry_range 12 va' ltac:(lia) Hva') as Hi'. pose proof (indices_ok va' Hva') as Hio'.
    rewrite Hleaf by done. unfold same_page.
    destruct (decide _) as [E|E].
    + rewrite (proj2 (Z.eqb_eq _ _)); [done|]. by apply path_va.
    + rewrite (proj2 (Z.eqb_neq _ _)); [by apply (kp_leaf _ _ _ _ K)|].
      intros E'. apply E. symmetry. by apply path_va.
  - intros x Hx. destruct (keeps_data s p m (indices va) x K Hx) as [(Hx1 & Hx2 & Hx3) Hxe]. simpl in Hx2, Hx3.
    unfold is_data. rewrite Hp. split; [split; [done|split; [done|]]|].
    + intros q y Hq Hwq. rewrite Hwalk in Hwq by done. by apply (Hx3 q y).
    + rewrite Hfr; [done|]. by apply (Hx3 (indices va) t).
Qed.

Lemma set_entry_run pm m va v flags s : space_ok s pm m -> 0 <= va ->
  halts_or (set_entry pm va v flags s) (fun _ s' =>
    remapped s s' pm m (fun va' => if same_page va va' then u64 v else entry_of s m va')).
Proof.
  intros H Hva. by destruct (set_entry_cases pm m va v flags s H Hva) as [[-> _]|(s' & -> & Hr)].
Qed.

Lemma remapped_refl s pm m : space_ok s pm m -> remapped s s pm m (entry_of s m).
Proof. by constructor. Qed.

Lemma remapped_trans s t u pm m f g :
  remapped s t pm m f -> remapped t u pm m g -> remapped s u pm m g.
Proof.
  intros [A1 A2 A3 A4] [B1 B2 B3 B4]. constructor; auto; [congruence|].
  intros x Hx. destruct (A4 x Hx) as [Hx' E]. destruct (B4 x Hx') as [Hx'' E']. split; [done|congruence].
Qed.

Lemma remapped_ext s t pm m f g :
  remapped s t pm m f -> (forall va, 0 <= va -> f va = g va) -> remapped s t pm m g.
Proof. intros [A1 A2 A3 A4] E. constructor; auto. intros va Hva. by rewrite <- E, A2. Qed.

(** vmm_map_page gives the address exactly the requested entry: afterwards the last-level
    entry of the page is the physical address with the flags, the entry of every other page
    of the space is what it was, the tables are well formed, the lock is free again, and no
    byte of a page in use outside the tables has changed.  The only other outcome is that the
    machine halts, and that needs fewer than three free physical pages. *)
Theorem vmm_map_page_spec pm m pa va flags s :
  space_ok s pm m -> 0 <= va ->
  vmm_map_page pm pa va flags s = Halt /\ ~ has_free (v_pmm s) 3 \/
  exists s', vmm_map_page pm pa va flags s = Done (tt, s') /\
    remapped s s' pm m (fun va' => if same_page va va' then u64 (Z.lor pa flags) else entry_of s m va').
Proof. intros H Hva. exact (set_entry_cases pm m va (Z.lor pa flags) flags s H Hva). Qed.

Lemma virt_to_phys_run pm m va s : space_ok s pm m -> 0 <= va ->
  halts_or (vmm_virt_to_phys pm va s) (fun r s' =>
    r = (if present (entry_of s m va) then target (entry_of s m va) else 0) /\
    remapped s s' pm m (entry_of s m)).
Proof.
  intros [Hm Hl Hpt] Hva. unfold vmm_virt_to_phys. erewrite bind_run by (by apply get_map_run).
  destruct (walk_pml1_run (v_pmm s) (top_level m) va 7 Hpt Hva) as [[Hh Hnf]|(t & p & Hw & K & _ & _ & Ht)].
  { unfold mbind, M_bind, on_phys. by rewrite Hh. }
  erewrite bind_run by (by apply on_phys_run).
  pose proof (pml_entry_range 12 va ltac:(lia) Hva) as Hi. pose proof (indices_ok va Hva) as Hio.
  pose proof (pt_use _ _ (kp_ok _ _ _ _ K) _ _ Hio Ht) as Hu.
  pose proof (in_use_bounds _ _ (kp_ok _ _ _ _ K) _ Hu) as Hb.
  erewrite bind_run by (apply on_phys_run; unfold load64, gets; reflexivity).
  cbn [v_pmm set_pmm]. rewrite dmap_entry, truthy_bit0 by lia. fold (entry (phys p) t (pml_entry 12 va)).
  assert (E : entry (phys p) t (pml_entry 12 va) = entry_of s m va).
  { unfold entry_of, leaf. rewrite <- (kp_leaf _ _ _ _ K) by done. unfold leaf_at. by rewrite Ht. }
  rewrite E. simpl. split; [done|]. constructor; try done.
  - constructor; [done|done|]. apply (kp_ok _ _ _ _ K).
  - intros va' Hva'. apply (kp_leaf _ _ _ _ K); [done|by apply indices_ok|by apply pml_entry_range].
  - intros x Hx. exact (keeps_data s p m _ x K Hx).
Qed.

(** vmm_virt_to_phys returns the frame the address is mapped to, or 0 when it is not
    mapped, and changes no translation (it may allocate the tables on the way). *)
Theorem vmm_virt_to_phys_spec pm m va s :
  space_ok s pm m -> 0 <= va ->
  halts_or (vmm_virt_to_phys pm va s) (fun r s' =>
    r = (if present (entry_of s m va) then target (entry_of s m va) else 0) /\
    remapped s s' pm m (entry_of s m)).
Proof. intros H Hva. by apply virt_to_phys_run. Qed.

Lemma lor_flags n fl : 0 <= n -> 0 <= fl < PAGE_SIZE -> Z.lor (n * PAGE_SIZE) fl = n * PAGE_SIZE + fl.
Proof.
  intros Hn Hf. pose proof (Z.add_lor_land (n * PAGE_SIZE) fl) as E.
  enough (Z.land (n * PAGE_SIZE) fl = 0) by lia.
  apply Z.bits_inj'. intros k Hk. rewrite Z.land_spec, Z.bits_0. unfold PAGE_SIZE in *.
  destruct (Z.lt_ge_cases k 12).
  - replace (n * 4096) with (Z.shiftl n 12) by (rewrite Z.shiftl_mul_pow2; lia).
    by rewrite Z.shiftl_spec_low by lia.
  - rewrite (testbit_small fl 12 k) by lia. apply andb_false_r.
Qed.

Lemma same_page_refl va : same_page va va = true.
Proof. apply Z.eqb_refl. Qed.

(** Mapping a frame and translating the address gives the frame back; unmapping it makes
    the translation 0 again. *)
Theorem map_translate_unmap pm m n va flags s :
  space_ok s pm m -> 0 <= va -> 0 <= n < 2 ^ 40 -> 0 <= flags < PAGE_SIZE -> present flags = true ->
  halts_or ((vmm_map_page pm (n * PAGE_SIZE) va flags;;
             r ← vmm_virt_to_phys pm va;
             vmm_unmap_page pm va;;
             r' ← vmm_virt_to_phys pm va;
             mret (r, r')) s)
    (fun rr _ => rr = (n * PAGE_SIZE, 0)).
Proof.
  intros H Hva Hn Hf Hp.
  eapply halts_or_bind; [exact (set_entry_run pm m va _ flags s H Hva)|]. intros [] t Ht.
  eapply halts_or_bind; [apply virt_to_phys_run; [apply (rm_space _ _ _ _ _ Ht)|done]|]. intros r u [Hr Hu].
  eapply halts_or_bind; [exact (set_entry_run pm m va 0 7 u (rm_space _ _ _ _ _ Hu) Hva)|]. intros [] w Hw.
  eapply halts_or_bind; [apply virt_to_phys_run; [apply (rm_space _ _ _ _ _ Hw)|done]|]. intros r' x [Hr' _].
  simpl. rewrite Hr, Hr', (rm_entries _ _ _ _ _ Ht), (rm_entries _ _ _ _ _ Hw), same_page_refl by done.
  rewrite lor_flags, u64_small by (unfold PAGE_SIZE in *; lia).
  rewrite (target_page _ n) by lia.
  assert (E : present (n * PAGE_SIZE + flags) = true).
  { unfold present in *. rewrite Z.bit0_odd in *. rewrite Z.odd_add, Hp. unfold PAGE_SIZE.
    replace (n * 4096) with (2 * (n * 2048)) by lia. by rewrite Z.odd_mul. }
  by rewrite E.
Qed.

(** The entries after mapping [j] consecutive pages. *)
Definition mapped_entries (s : vmm_state) (m : pagemap) (pa va j flags va' : Z) : Z :=
  let k := va' / PAGE_SIZE - va / PAGE_SIZE in
  if (0 <=? k) && (k <? j) then u64 (Z.lor (u64 (pa + k * PAGE_SIZE)) flags) else entry_of s m va'.

(** vmm_mmap_range maps every page of the range to the consecutive frames with the
    permissions of [prot], leaves every other user page alone and records the range. *)
Theorem vmm_mmap_range_spec pm m pa va length flags prot s :
  space_ok s pm m -> 0 <= va -> 0 <= length -> va + length <= 2 ^ 47 - PAGE_SIZE ->
  halts_or (vmm_mmap_range pm pa va length flags prot s) (fun _ s' =>
    let m' := mk_pagemap false (top_level m)
      (ranges m ++ [mk_range 0 pa va 0 length (Z.lor flags MAP_ANON) prot]) in
    space_ok s' pm m' /\
    forall va', 0 <= va' < 2 ^ 47 ->
      entry_of s' m' va' = mapped_entries s m pa va ((length + PAGE_SIZE - 1) / PAGE_SIZE) (page_flags prot) va').
Proof.
  intros H Hva Hlen Hhi. unfold vmm_mmap_range.
  set (n := (length + PAGE_SIZE - 1) / PAGE_SIZE).
  assert (Hn : 0 <= n /\ n * PAGE_SIZE <= length + PAGE_SIZE - 1).
  { unfold n. split; [apply Z.div_pos; unfold PAGE_SIZE; lia|]. rewrite Z.mul_comm. apply Z.mul_div_le. done. }
  set (Inv := fun j t => exists f, remapped s t pm m f /\
    forall va', 0 <= va' < 2 ^ 47 -> f va' = mapped_entries s m pa va j (page_flags prot) va').
  eapply halts_or_bind.
  - apply (for_n_halts Inv).
    + exists (entry_of s m). split; [by apply remapped_refl|]. intros va' _. unfold mapped_entries. cbv zeta.
      zcase; [lia|done].
    + intros j t Hj (f & Hf & Ef). rewrite (u64_small (va + j * PAGE_SIZE)) by (unfold PAGE_SIZE in *; lia).
      eapply halts_or_mono; [exact (set_entry_run pm m (va + j * PAGE_SIZE) _ (page_flags prot) t (rm_space _ _ _ _ _ Hf) ltac:(unfold PAGE_SIZE in *; lia))|].
      intros [] u Hu. eexists. split; [eapply remapped_trans; [exact Hf|exact Hu]|].
      intros va' Hva'. unfold same_page, mapped_entries. cbv zeta.
      rewrite (rm_entries _ _ _ _ _ Hf), Ef by lia. unfold mapped_entries. cbv zeta.
      rewrite Z.div_add by done. set (x := va / PAGE_SIZE). set (y := va' / PAGE_SIZE).
      assert (Hy : 0 <= y < 2 ^ 35).
      { unfold y, PAGE_SIZE. split; [apply Z.div_pos; lia|]. apply Z.div_lt_upper_bound; lia. }
      assert (Hx : 0 <= x /\ x + j < 2 ^ 35).
      { unfold x. split; [apply Z.div_pos; [lia|done]|]. rewrite <- Z.div_add by done.
        apply Z.div_lt_upper_bound; unfold PAGE_SIZE in *; lia. }
      rewrite (Z.mod_small (x + j)), (Z.mod_small y) by lia.
      destruct (Z.eqb_spec (x + j) y) as [E|E].
      * replace (y - x) with j by lia.
        rewrite (proj2 (Z.leb_le 0 j)), (proj2 (Z.ltb_lt j (j + 1))) by lia. done.
      * destruct (Z.leb_spec 0 (y - x)), (Z.ltb_spec (y - x) j), (Z.ltb_spec (y - x) (j + 1)); simpl; try done; lia.
  - intros [] t (f & [S1 S2 S3 S4] & Ef). unfold push_range. erewrite bind_run by (apply get_map_run, (sp_map _ _ _ S1)).
    simpl. fold n in Ef. rewrite Z2Nat.id, Z.add_0_l in Ef by lia.
    rewrite (sp_lock _ _ _ S1). split.
    + constructor; simpl; [apply lookup_insert_eq|done|apply (sp_tables _ _ _ S1)].
    + intros va' Hva'. rewrite <- Ef by done. rewrite <- S2 by lia. done.
Qed.

(** ** A fresh address space, for the witnesses *)

Lemma fresh_pt_ok s n : pmm_ready s 1 -> highest_page s <= 2 ^ 46 -> used (bitmap s) 0 = true ->
  0 < n < highest_page s / PAGE_SIZE -> used (bitmap s) n = true ->
  (forall i, 0 <= i < 512 -> entry (phys s) (n * PAGE_SIZE) i = 0) -> pt_ok s (n * PAGE_SIZE).
Proof.
  intros Hr Hl H0 Hn Hu Hz.
  assert (Hw : forall p t, path_ok p -> walk (phys s) (n * PAGE_SIZE) p = Some t -> p = [] /\ t = n * PAGE_SIZE).
  { intros [|i p] t [_ Hp] Hw; simpl in Hw; [by injection Hw as <-|].
    apply Forall_cons in Hp as [Hi _]. by rewrite Hz in Hw. }
  constructor; try done.
  - intros p t Hp Ht. destruct (Hw p t Hp Ht) as [_ ->]. by exists n.
  - intros p q t Hp Hq Ht Ht'. destruct (Hw p t Hp Ht) as [-> _], (Hw q t Hq Ht') as [-> _]. done.
Qed.

(** Fifteen pages, two in use: page 0 and the empty top level of a new space. *)
Definition sample_space : pagemap := mk_pagemap false PAGE_SIZE [].
Definition sample_vmm : vmm_state :=
  mk_vmm (mk_pmm false 1 [3; 0] (15 * PAGE_SIZE) (fun _ => 0)) {[ 7 := sample_space ]} 8 0 [].

Lemma sample_space_ok : space_ok sample_vmm 7 sample_space.
Proof.
  constructor; [apply lookup_insert_eq|done|].
  apply (fresh_pt_ok _ 1); done.
Qed.

Lemma vmm_map_page_spec_witness :
  vmm_map_page 7 (3 * PAGE_SIZE) 0x400000 7 sample_vmm = Halt /\ ~ has_free (v_pmm sample_vmm) 3 \/
  exists s', vmm_map_page 7 (3 * PAGE_SIZE) 0x400000 7 sample_vmm = Done (tt, s') /\
    remapped sample_vmm s' 7 sample_space (fun va' =>
      if same_page 0x400000 va' then u64 (Z.lor (3 * PAGE_SIZE) 7) else entry_of sample_vmm sample_space va').
Proof. apply (vmm_map_page_spec 7 sample_space (3 * PAGE_SIZE) 0x400000 7 sample_vmm); [apply sample_space_ok|lia]. Defined.

Lemma vmm_virt_to_phys_spec_witness :
  halts_or (vmm_virt_to_phys 7 0x400000 sample_vmm) (fun r s' =>
    r = (if present (entry_of sample_vmm sample_space 0x400000) then target (entry_of sample_vmm sample_space 0x400000) else 0) /\
    remapped sample_vmm s' 7 sample_space (entry_of sample_vmm sample_space)).
Proof. apply (vmm_virt_to_phys_spec 7 sample_space 0x400000 sample_vmm); [apply sample_space_ok|lia]. Defined.

Lemma map_translate_unmap_witness :
  halts_or ((vmm_map_page 7 (3 * PAGE_SIZE) 0x400000 7;;
             r ← vmm_virt_to_phys 7 0x400000;
             vmm_unmap_page 7 0x400000;;
             r' ← vmm_virt_to_phys 7 0x400000;
             mret (r, r')) sample_vmm) (fun rr _ => rr = (3 * PAGE_SIZE, 0)).
Proof.
  apply (map_translate_unmap 7 sample_space 3 0x400000 7 sample_vmm);
    [apply sample_space_ok|lia|lia|closed_Z|reflexivity].
Defined.

Lemma vmm_mmap_range_spec_witness :
  halts_or (vmm_mmap_range 7 (3 * PAGE_SIZE) 0x400000 8192 1 3 sample_vmm) (fun _ s' =>
    let m' := mk_pagemap false PAGE_SIZE [mk_range 0 (3 * PAGE_SIZE) 0x400000 0 8192 (Z.lor 1 MAP_ANON) 3] in
    space_ok s' 7 m' /\
    forall va', 0 <= va' < 2 ^ 47 ->
      entry_of s' m' va' = mapped_entries sample_vmm sample_space (3 * PAGE_SIZE) 0x400000
        ((8192 + PAGE_SIZE - 1) / PAGE_SIZE) (page_flags 3) va').
Proof.
  apply (vmm_mmap_range_spec 7 sample_space (3 * PAGE_SIZE) 0x400000 8192 1 3 sample_vmm);
    [apply sample_space_ok|lia|lia|closed_Z].
Defined.

(** The run of the last witness returns: two pages, mapped to consecutive frames. *)
Example mmap_range_runs :
  match vmm_mmap_range 7 (3 * PAGE_SIZE) 0x400000 8192 1 3 sample_vmm with
  | Done (_, s) => entry_of s sample_space 0x400000 = 3 * PAGE_SIZE + 7 /\
                   entry_of s sample_space 0x401fff = 4 * PAGE_SIZE + 7 /\ entry_of s sample_space 0x402000 = 0
  | _ => False
  end.
Proof. vm_compute. auto. Qed.

(** ** vmm_memcpy *)

Fixpoint offsets (n : nat) (d : Z) : Z :=
  match n with O => d | S n' => offsets n' (fst (advance d)) end.

(** vmm_memcpy leaves a page one byte early: whatever the number of bytes copied, the
    offset it uses inside a page is never 4095, so the last byte of a page is neither read
    nor written. *)
Theorem vmm_memcpy_skips_last_byte (n : nat) (d : Z) :
  0 <= d < PAGE_SIZE - 1 -> 0 <= offsets n d < PAGE_SIZE - 1.
Proof.
  revert d. induction n as [|n IH]; intros d Hd; simpl; [done|]. apply IH.
  unfold advance, PAGE_SIZE in *. rewrite (u64_small (d + 1)), (u64_small (d + 1 + 1)) by lia.
  destruct (Z.eqb_spec ((d + 1 + 1) mod 4096) 0) as [E|E]; simpl; [lia|].
  enough (d + 2 <> 4096) by lia. intros E'. apply E. by replace (d + 1 + 1) with 4096 by lia.
Qed.

Lemma vmm_memcpy_skips_last_byte_witness : 0 <= offsets 4096 0 < PAGE_SIZE - 1.
Proof. apply (vmm_memcpy_skips_last_byte 4096 0). closed_Z. Defined.

(** Copying one whole page between two mapped pages loses its last byte. *)
Example memcpy_page :
  match (vmm_map_page 7 (3 * PAGE_SIZE) 0x400000 7;; vmm_map_page 7 (4 * PAGE_SIZE) 0x401000 7;;
         on_phys (modify (fun s => with_phys (st 1 (3 * PAGE_SIZE + 4095) 9 (st 1 (3 * PAGE_SIZE + 4094) 8 (phys s))) s));;
         memcpy_loop 4 7 0x401ffd (4 * PAGE_SIZE) 4093 7 0x400ffd (3 * PAGE_SIZE) 4093) sample_vmm with
  | Done (_, s) => ld 1 (phys (v_pmm s)) (4 * PAGE_SIZE + 4094) = 8 /\ ld 1 (phys (v_pmm s)) (4 * PAGE_SIZE + 4095) = 0
  | _ => False
  end.
Proof. vm_compute. auto. Qed.

(** Work on physical memory leaves the page maps' records alone. *)
Lemma on_phys_maps {A} (o : M pmm_state A) s a s' : on_phys o s = Done (a, s') -> v_maps s' = v_maps s.
Proof. unfold on_phys. destruct (o (v_pmm s)) as [[b p]| | |]; [|done..]. by intros [= _ <-]. Qed.

(** ** Forking a file mapping *)

(** A driver that only shows the arguments it was called with. *)
Definition echo_mmap (file pm addr size offset prot flags : Z) : VM Z := mret (prot * 100 + flags).

(** vmm_fork_pagemap calls vfs_mmap with protection and flags exchanged: for a private
    read-write file mapping (flags 1, prot 3) the driver is asked for protection 1. *)
Theorem fork_swaps_prot_and_flags new_pg file va len s :
  fork_range echo_mmap new_pg (mk_range file 0 va 0 len 1 3) s =
  push_range new_pg (mk_range file (1 * 100 + 3) va 0 len 1 3) s.
Proof. reflexivity. Qed.
