(* ===== verification/FbDev.v ===== *)
(** * Mapping devices into programs (src/src/kernel/dev/fbdev.c, dev/mousedev.c, [vfs_mmap] of fs/vfs.c)

    [fb_mmap] maps the frames behind the kernel's framebuffer into an address space of Vmm.v, and
    [vmm_fork_pagemap] calls it again for the child.  A missing function pointer is [Fault]. *)
From S2P Require Import Prelude Pmm PageTable Vmm.
Open Scope Z_scope.

(** The [mmap] operation of a device or a file: page map, open file, address, size, offset,
    protection, flags. *)
Definition mmap_op : Type := Z -> Z -> Z -> Z -> Z -> Z -> Z -> VM Z.

Section Framebuffer.
(** The kernel's address of the framebuffer. *)
Context (framebuffer : Z).

(** One turn of the loop over [i = j * PAGE_SIZE]: the translation is looked up every time. *)
Definition fb_map_page (pg addr prot j : Z) : VM unit :=
  p ← vmm_virt_to_phys kernel_pagemap framebuffer;
  vmm_map_page pg (u64 (p + j * PAGE_SIZE)) (u64 (addr + j * PAGE_SIZE)) (page_flags prot).

Definition fb_mmap : mmap_op := fun pg sfile addr size offset prot flags =>
  for_n (Z.to_nat ((size + PAGE_SIZE - 1) / PAGE_SIZE)) 0 (fb_map_page pg addr prot);;
  p ← vmm_virt_to_phys kernel_pagemap framebuffer;
  push_range pg (mk_range sfile p addr offset size flags prot);;
  vmm_virt_to_phys kernel_pagemap framebuffer.
End Framebuffer.

Definition mousedev_mmap : mmap_op := fun _ _ _ _ _ _ _ => mret (2 ^ 64 - 1).

(** The files as [vfs_mmap] sees them: a pipe, a device, anything else, the last two with their
    [mmap] pointer. *)
Inductive mappable := Fifo | Dev (op : option mmap_op) | Regular (op : option mmap_op).
Definition call (op : option mmap_op) : mmap_op := fun pg sfile addr size offset prot flags =>
  match op with Some f => f pg sfile addr size offset prot flags | None => fault end.
Definition vfs_mmap (file : mappable) : mmap_op := fun pg sfile addr size offset prot flags =>
  match file with
  | Fifo => mret 0
  | Dev op | Regular op => call op pg sfile addr size offset prot flags
  end.

(** ** What the operations keep *)

Lemma get_map_inv pm s m s' : get_map pm s = Done (m, s') -> s' = s /\ v_maps s !! pm = Some m.
Proof. unfold get_map. destruct (v_maps s !! pm) as [x|] eqn:E; [|done]. by intros [= -> ->]. Qed.

Lemma virt_to_phys_maps pm va s r s' : vmm_virt_to_phys pm va s = Done (r, s') -> v_maps s' = v_maps s.
Proof.
  unfold vmm_virt_to_phys. intros H. apply bind_Done in H as (m & s1 & Hm & H). apply get_map_inv in Hm as [-> _].
  apply bind_Done in H as (p & s2 & Hp & H). apply on_phys_maps in Hp. apply bind_Done in H as (e & s3 & He & H). apply on_phys_maps in He.
  injection H as _ <-. congruence.
Qed.

(** Mapping a page of an idle space leaves every space as it was, its tables apart. *)
Lemma map_page_maps pm pa va fl s s' m : v_maps s !! pm = Some m -> pm_lock m = false ->
  vmm_map_page pm pa va fl s = Done (tt, s') -> v_maps s' = v_maps s.
Proof.
  intros Em El. unfold vmm_map_page, LOCK_map, UNLOCK_map, vmm_invalidate_tlb. intros H.
  apply bind_Done in H as ([] & s1 & H1 & H). apply bind_Done in H1 as (m1 & t1 & G1 & H1). apply get_map_inv in G1 as [-> G1].
  rewrite Em in G1. injection G1 as <-. rewrite El in H1. injection H1 as <-.
  apply bind_Done in H as (m2 & s2 & G2 & H). apply get_map_inv in G2 as [-> _].
  apply bind_Done in H as (p & s3 & H3 & H). apply on_phys_maps in H3. apply bind_Done in H as ([] & s4 & H4 & H). apply on_phys_maps in H4.
  apply bind_Done in H as ([] & s5 & H5 & H). apply bind_Done in H5 as (m5 & t5 & G5 & H5). apply get_map_inv in G5 as [-> _].
  injection H5 as <-. apply bind_Done in H as (m6 & t6 & G6 & H). apply get_map_inv in G6 as [-> G6]. injection H as <-. cbn in *.
  assert (E : v_maps (if v_cr3 s4 =? top_level m5 then mk_vmm (v_pmm s4) (v_maps s4) (v_next s4) (v_cr3 s4) (va :: v_invlpg s4) else s4) =
    <[pm := mk_pagemap true (top_level m) (ranges m)]> (v_maps s)) by (destruct (v_cr3 s4 =? top_level m5); cbn; congruence).
  rewrite E in *. rewrite lookup_insert_eq in G6. injection G6 as <-. cbn. rewrite insert_insert_eq.
  apply insert_id. rewrite Em. destruct m as [l t r]. cbn in *. by subst l.
Qed.

Section Keeps.
Context (framebuffer : Z).

Lemma fb_map_pages_maps n i pg addr prot s s' m : v_maps s !! pg = Some m -> pm_lock m = false ->
  for_n n i (fb_map_page framebuffer pg addr prot) s = Done (tt, s') -> v_maps s' = v_maps s.
Proof.
  revert i s. induction n as [|n IH]; intros i s Em El H; cbn [for_n] in H; [by injection H as <-|].
  apply bind_Done in H as ([] & s1 & H1 & H). unfold fb_map_page in H1. apply bind_Done in H1 as (p & t & Hp & H1).
  apply virt_to_phys_maps in Hp. rewrite <- Hp in Em. apply (map_page_maps _ _ _ _ _ _ m Em El) in H1.
  rewrite (IH (i + 1) s1); [congruence|rewrite H1; done|done|done].
Qed.

(** [fb_mmap] of an idle space, whenever it returns: it has recorded exactly one range, with the
    arguments it was given and the frame of the framebuffer, and no other space has changed. *)
Theorem fb_mmap_records pg sfile addr size offset prot flags s m r s' :
  v_maps s !! pg = Some m -> pm_lock m = false -> fb_mmap framebuffer pg sfile addr size offset prot flags s = Done (r, s') ->
  exists p, v_maps s' = <[pg := mk_pagemap false (top_level m) (ranges m ++ [mk_range sfile p addr offset size flags prot])]> (v_maps s).
Proof.
  intros Em El H. unfold fb_mmap in H. apply bind_Done in H as ([] & s1 & H1 & H). apply (fb_map_pages_maps _ _ _ _ _ _ _ m Em El) in H1.
  apply bind_Done in H as (p & s2 & Hp & H). apply virt_to_phys_maps in Hp. apply bind_Done in H as ([] & s3 & H3 & H).
  unfold push_range in H3. apply bind_Done in H3 as (m3 & t3 & G3 & H3). apply get_map_inv in G3 as [-> G3].
  assert (m3 = m) as -> by congruence. injection H3 as <-. apply virt_to_phys_maps in H. exists p. rewrite H. cbn. rewrite El. congruence.
Qed.
End Keeps.

(** ** A program with the framebuffer mapped *)

(** The kernel's space (top level in page 1) maps the framebuffer at 0x500000 to page 20; space 7 is a
    program's (top level in page 2). *)
Definition fb_virt : Z := 0x500000.
Definition fb_frame : Z := 20 * PAGE_SIZE.
Definition fb_world : vmm_state :=
  match vmm_map_page kernel_pagemap fb_frame fb_virt 3
    (mk_vmm (mk_pmm false 1 [7; 0; 0xf0; 0; 0] (40 * PAGE_SIZE) (fun _ => 0))
       (<[kernel_pagemap := mk_pagemap false PAGE_SIZE []]> {[ 7 := mk_pagemap false (2 * PAGE_SIZE) [] ]}) 8 0 []) with
  | Done (_, s) => s
  | _ => mk_vmm (mk_pmm false 1 [] 0 (fun _ => 0)) ∅ 0 0 []
  end.

Definition user_entry (s : vmm_state) (pg va : Z) : option Z := m ← v_maps s !! pg; Some (leaf (phys (v_pmm s)) (top_level m) va).

(** Two pages, writable and private. *)
Definition fb_mapped : outcome (Z * vmm_state) := vfs_mmap (Dev (Some (fb_mmap fb_virt))) 7 99 0x400000 8192 0 3 1 fb_world.
Definition fb_forked : outcome (Z * vmm_state) :=
  match fb_mapped with
  | Done (_, s) => vmm_fork_pagemap (fun file pg addr size offset a b => vfs_mmap (Dev (Some (fb_mmap fb_virt))) pg file addr size offset a b) 7 s
  | o => o
  end.

(** [fb_mmap] maps consecutive frames writable for the program and returns the frame's physical
    address, not the address in the program.  A fork maps them again for the child, but read-only,
    because the flags arrive as the protection; and the child has the range twice, because [fb_mmap]
    records it and [vmm_fork_pagemap] records it again. *)
Theorem fb_mmap_fork :
  match fb_mapped with
  | Done (r, s) => r = fb_frame /\ user_entry s 7 0x400000 = Some (fb_frame + 7) /\ user_entry s 7 0x401000 = Some (fb_frame + PAGE_SIZE + 7) /\
      user_entry s 7 0x402000 = Some 0 /\ (ranges <$> v_maps s !! 7) = Some [mk_range 99 fb_frame 0x400000 0 8192 1 3]
  | _ => False
  end /\
  match fb_forked with
  | Done (child, s) => child = 8 /\ user_entry s child 0x400000 = Some (fb_frame + 5) /\
      (ranges <$> v_maps s !! child) = Some [mk_range 99 fb_frame 0x400000 0 8192 3 1; mk_range 99 fb_frame 0x400000 0 8192 1 3]
  | _ => False
  end.
Proof. split; vm_compute; auto 10. Qed.

Lemma fb_mmap_records_witness : exists r s' p, fb_mmap fb_virt 7 99 0x400000 8192 0 3 1 fb_world = Done (r, s') /\
  v_maps s' = <[7 := mk_pagemap false (2 * PAGE_SIZE) [mk_range 99 p 0x400000 0 8192 1 3]]> (v_maps fb_world).
Proof.
  pose proof fb_mmap_fork as [H _]. unfold fb_mapped, vfs_mmap, call in H.
  destruct (fb_mmap fb_virt 7 99 0x400000 8192 0 3 1 fb_world) as [[r s']| | |] eqn:E; try contradiction.
  destruct (fb_mmap_records fb_virt 7 99 0x400000 8192 0 3 1 fb_world (mk_pagemap false (2 * PAGE_SIZE) []) r s') as [p Hp];
    [vm_compute; reflexivity|reflexivity|exact E|]. exists r, s', p. split; [reflexivity|exact Hp].
Defined.

(** The other devices: the mouse refuses with all ones, the terminal has no function to call. *)
Theorem other_devices_mmap s : vfs_mmap (Dev (Some mousedev_mmap)) 7 99 0 0 0 0 0 s = Done (2 ^ 64 - 1, s) /\
  vfs_mmap (Dev None) 7 99 0 0 0 0 0 s = Fault /\ vfs_mmap Fifo 7 99 0 0 0 0 0 s = Done (0, s).
Proof. done. Qed.
