(* ===== verification/Spaces.v ===== *)
(** * Several address spaces (src/src/kernel/mm/vmm.c: one kernel half, many user halves)

    [vmm_create_new_pagemap] copies the kernel half of the top level, so all address spaces share the
    tables below it and each has the tables of its user half for itself.  [spaces_ok] is the invariant
    of the whole store; every operation on a user address keeps it, changes the translations of one
    space only, and writes to no page that holds data.  The second half is about memory that was only
    ever allocated from ([untouched] of PageTable.v): there the operations return, and programs are
    loaded and forked. *)
From S2P Require Import Prelude Pmm PageTable Vmm.
Open Scope Z_scope.

(** Addresses of the user half, and the paths through the tables that lead there. *)
Definition user_va (va : Z) : Prop := 0 <= va < 2 ^ 47.
Definition user_path (p : list Z) : Prop := path_ok p /\ match p with [] => True | i :: _ => i < 256 end.

#[export] Instance user_path_dec p : Decision (user_path p).
Proof. unfold user_path, path_ok. destruct p; apply _. Defined.

(** The tables of all spaces: those of the user halves belong to one space each, the entries of the
    kernel half are the same everywhere. *)
Record spaces_ok (s : vmm_state) : Prop := mk_spaces_ok {
  so_kernel : is_Some (v_maps s !! kernel_pagemap);
  so_next : forall pm m, v_maps s !! pm = Some m -> pm < v_next s;
  so_idle : forall pm m, v_maps s !! pm = Some m -> pm_lock m = false;
  so_tables : forall pm m, v_maps s !! pm = Some m -> pt_ok (v_pmm s) (top_level m);
  so_shared : forall pm pm' m m' i, v_maps s !! pm = Some m -> v_maps s !! pm' = Some m' -> 256 <= i < 512 ->
    entry (phys (v_pmm s)) (top_level m) i = entry (phys (v_pmm s)) (top_level m') i;
  so_apart : forall pm pm' m m' p p' t, v_maps s !! pm = Some m -> v_maps s !! pm' = Some m' -> pm <> pm' ->
    user_path p -> user_path p' -> walk (phys (v_pmm s)) (top_level m) p = Some t ->
    walk (phys (v_pmm s)) (top_level m') p' = Some t -> False
}.

(** What the hardware reads for an address of a space, and the byte a program finds there. *)
Definition view (s : vmm_state) (pm va : Z) : Z :=
  match v_maps s !! pm with Some m => entry_of s m va | None => 0 end.
Definition vbyte (s : vmm_state) (pm va : Z) : option Z :=
  let e := view s pm va in
  if present e then Some (phys (v_pmm s) (target e + va mod PAGE_SIZE)) else None.

(** A byte of a page in use that is no page table of any space. *)
Definition data (s : vmm_state) (x : Z) : Prop := forall pm m, v_maps s !! pm = Some m -> is_data s m x.

(** [s'] has the translations [F]; the spaces are the same and no data has changed. *)
Record evolves (s s' : vmm_state) (F : Z -> Z -> Z) : Prop := mk_evolves {
  ev_ok : spaces_ok s';
  ev_tops : forall pm, top_level <$> v_maps s' !! pm = top_level <$> v_maps s !! pm;
  ev_next : v_next s' = v_next s;
  ev_high : highest_page (v_pmm s') = highest_page (v_pmm s);
  ev_view : forall pm va, user_va va -> view s' pm va = F pm va;
  ev_data : forall x, data s x -> data s' x /\ phys (v_pmm s') x = phys (v_pmm s) x
}.

Lemma evolves_trans s t u F G : evolves s t F -> evolves t u G -> evolves s u G.
Proof.
  intros [A1 A2 A3 A4 A5 A6] [B1 B2 B3 B4 B5 B6]. constructor; try done.
  - intros pm. by rewrite B2.
  - congruence.
  - congruence.
  - intros x Hx. destruct (A6 x Hx) as [Hx' E]. destruct (B6 x Hx') as [Hx'' E']. split; [done|congruence].
Qed.

Lemma evolves_ext s t F G : evolves s t F -> (forall pm va, user_va va -> F pm va = G pm va) -> evolves s t G.
Proof. intros [A1 A2 A3 A4 A5 A6] E. constructor; try done. intros pm va Hva. by rewrite <- E, A5. Qed.

Lemma evolves_refl s : spaces_ok s -> evolves s s (view s).
Proof. by constructor. Qed.

Lemma space_of s pm m : spaces_ok s -> v_maps s !! pm = Some m -> space_ok s pm m.
Proof. intros H Hm. constructor; [done|by apply (so_idle _ H pm)|by apply (so_tables _ H pm)]. Qed.

(** ** Walks *)

Lemma walk_same m0 m1 q : forall top,
  (forall pre j r t, q = pre ++ j :: r -> walk m0 top pre = Some t -> entry m1 t j = entry m0 t j) ->
  walk m1 top q = walk m0 top q.
Proof.
  induction q as [|i q IH]; intros top H; [done|]. cbn [walk]. rewrite (H [] i q top eq_refl eq_refl).
  destruct (present (entry m0 top i)) eqn:E; [|done]. apply IH. intros pre j r t -> Hw.
  apply (H (i :: pre) j r t); [done|]. cbn [walk]. by rewrite E.
Qed.

Lemma path_ok_app p q : path_ok (p ++ q) -> path_ok p /\ Forall (fun i => 0 <= i < 512) q.
Proof.
  intros [Hl Hf]. rewrite length_app in Hl. apply Forall_app in Hf as [Hp Hq]. split; [split; [lia|done]|done].
Qed.

(** Pages in use are the same or apart. *)
Lemma same_table s t t' x : page_in_use s t -> page_in_use s t' -> t <= x < t + PAGE_SIZE -> t' <= x < t' + PAGE_SIZE -> t = t'.
Proof.
  intros (n & -> & _) (n' & -> & _) H H'. f_equal. by rewrite <- (page_of_div n x), <- (page_of_div n' x).
Qed.

Lemma entry_same m m' t j : (forall x, t <= x < t + PAGE_SIZE -> m' x = m x) -> 0 <= j < 512 -> entry m' t j = entry m t j.
Proof. intros H Hj. unfold entry. apply ld_ext. intros i Hi. apply H. unfold PAGE_SIZE. lia. Qed.

Lemma user_index va : user_va va -> pml_entry 39 va < 256.
Proof.
  intros [H0 H]. rewrite pml_entry_spec by lia. rewrite Z.mod_small.
  - apply Z.div_lt_upper_bound; lia.
  - split; [apply Z.div_pos; lia|]. apply Z.div_lt_upper_bound; lia.
Qed.

Lemma user_prefix va q : user_va va -> q `prefix_of` indices va -> user_path q.
Proof.
  intros Hva [r E]. pose proof (indices_ok va (proj1 Hva)) as Hio. rewrite E in Hio. apply path_ok_app in Hio as [Hq _].
  split; [done|]. destruct q as [|i q]; [done|]. unfold indices in E. injection E as <- _. by apply user_index.
Qed.

Section Walks.
Context (s : vmm_state) (Hok : spaces_ok s).
Local Abbreviation mem := (phys (v_pmm s)).

(** Through the kernel half every space leads to the same tables. *)
Lemma kernel_walk pm pm' m m' i q : v_maps s !! pm = Some m -> v_maps s !! pm' = Some m' -> 256 <= i < 512 ->
  walk mem (top_level m) (i :: q) = walk mem (top_level m') (i :: q).
Proof. intros Hm Hm' Hi. cbn [walk]. by rewrite (so_shared _ Hok pm pm' m m' i). Qed.

Lemma table_in_use pm m q t : v_maps s !! pm = Some m -> path_ok q -> walk mem (top_level m) q = Some t -> page_in_use (v_pmm s) t.
Proof. intros Hm. apply (pt_use _ _ (so_tables _ Hok pm m Hm)). Qed.

(** A table of one space that is also a table of the user half of another: never. *)
Lemma tables_apart pm pm' m m' p q t : v_maps s !! pm = Some m -> v_maps s !! pm' = Some m' -> pm <> pm' ->
  user_path p -> path_ok q -> walk mem (top_level m) p = Some t -> walk mem (top_level m') q = Some t -> False.
Proof.
  intros Hm Hm' Hne Hp Hq Hwp Hwq. destruct q as [|i q].
  { by apply (so_apart _ Hok pm pm' m m' p [] t). }
  destruct (Z.lt_ge_cases i 256) as [Hi|Hi].
  { by apply (so_apart _ Hok pm pm' m m' p (i :: q) t). }
  assert (0 <= i < 512) by (destruct Hq as [_ Hf]; by apply Forall_cons in Hf as [? _]).
  rewrite (kernel_walk pm' pm m' m) in Hwq by (done || lia).
  assert (E : p = i :: q) by (apply (pt_tree _ _ (so_tables _ Hok pm m Hm) p (i :: q) t); [apply Hp|done..]).
  subst p. destruct Hp as [_ Hp]. lia.
Qed.
End Walks.

(** ** Storing an entry in one space *)

Section Store.
Context (s s' : vmm_state) (pm : Z) (m : pagemap) (va v t : Z) (p : pmm_state).
Hypothesis (Hok : spaces_ok s) (Hm : v_maps s !! pm = Some m) (Hva : user_va va).
Hypothesis (K : keeps (v_pmm s) p (top_level m) (indices va)) (Ht : walk (phys p) (top_level m) (indices va) = Some t).
Hypothesis (Hp : v_pmm s' = with_phys (st 8 (t + 8 * pml_entry 12 va) v (phys p)) p).
Hypothesis (Hmaps : v_maps s' = v_maps s) (Hnext : v_next s' = v_next s).

Lemma store_facts :
  pt_ok (v_pmm s') (top_level m) /\
  (forall q, path_ok q -> walk (phys (v_pmm s')) (top_level m) q = walk (phys p) (top_level m) q) /\
  (forall x, ~ (t <= x < t + PAGE_SIZE) -> phys (v_pmm s') x = phys p x).
Proof.
  destruct (store_leaf p (top_level m) (indices va) t (pml_entry 12 va) v (kp_ok _ _ _ _ K) Ht eq_refl
    (indices_ok va (proj1 Hva)) (pml_entry_range 12 va ltac:(lia) (proj1 Hva))) as (H1 & H2 & _ & H4).
  rewrite Hp. by split_and!.
Qed.

Lemma store_used c : 0 <= c -> used (bitmap (v_pmm s)) c = true -> used (bitmap (v_pmm s')) c = true.
Proof. intros Hc Hu. rewrite Hp. by apply (kp_used _ _ _ _ K). Qed.

(** The last table on the way is a table of the user half, or its page was free. *)
Lemma leaf_table : walk (phys (v_pmm s)) (top_level m) (indices va) = Some t \/ used (bitmap (v_pmm s)) (t / PAGE_SIZE) = false.
Proof. apply (kp_new _ _ _ _ K _ _ (indices_ok va (proj1 Hva)) Ht). Qed.

Lemma leaf_page : exists n, t = n * PAGE_SIZE.
Proof. destruct (pt_use _ _ (kp_ok _ _ _ _ K) _ _ (indices_ok va (proj1 Hva)) Ht) as (n & -> & _). by exists n. Qed.

Lemma page_used y x : page_in_use (v_pmm s) y -> y <= x < y + PAGE_SIZE ->
  0 <= x /\ 0 <= x / PAGE_SIZE /\ used (bitmap (v_pmm s)) (x / PAGE_SIZE) = true.
Proof.
  intros (n & -> & Hn & Hu) Hx. rewrite (page_of_div n x) by done. split; [unfold PAGE_SIZE in *; lia|]. split; [lia|done].
Qed.

(** The tables of other spaces keep their entries. *)
Lemma other_entry pm' m' q y j : v_maps s !! pm' = Some m' -> pm' <> pm -> path_ok q ->
  walk (phys (v_pmm s)) (top_level m') q = Some y -> 0 <= j < 512 ->
  entry (phys (v_pmm s')) y j = entry (phys (v_pmm s)) y j.
Proof.
  intros Hm' Hne Hq Hw Hj. pose proof (table_in_use s Hok pm' m' q y Hm' Hq Hw) as Hy.
  destruct store_facts as (_ & _ & Hfr). destruct leaf_page as [n En].
  assert (Hty : y <> t).
  { intros ->. destruct leaf_table as [Hl|Hl].
    - apply (tables_apart s Hok pm pm' m m' (indices va) q t); try done. by apply (user_prefix va).
    - destruct Hy as (k & E & Hk & Hu). rewrite E, Z.div_mul in Hl by done. congruence. }
  assert (E1 : entry (phys (v_pmm s')) y j = entry (phys p) y j).
  { apply entry_same; [|done]. intros x Hx. apply Hfr. intros Hx'. apply Hty. destruct Hy as (k & -> & _). rewrite En in *.
    f_equal. by rewrite <- (page_of_div k x), <- (page_of_div n x). }
  rewrite E1. destruct (decide (user_path q)) as [Hu|Hu].
  - apply entry_same; [|done]. intros x Hx. destruct (page_used y x Hy Hx) as (H0 & _ & Hux).
    apply (kp_data _ _ _ _ K); [done|done|]. intros r z Hr Hro Hwr Hz.
    assert (z = y) as -> by (apply (same_table (v_pmm s) _ _ x); [by apply (table_in_use s Hok pm m r)|done..]).
    apply (tables_apart s Hok pm pm' m m' r q y); try done. by apply (user_prefix va).
  - destruct q as [|i q]; [by destruct Hu|]. assert (Hi : 0 <= i < 512) by (destruct Hq as [_ Hf]; by apply Forall_cons in Hf as [? _]).
    destruct (Z.lt_ge_cases i 256); [by destruct Hu|]. rewrite (kernel_walk s Hok pm' pm m' m) in Hw by (done || lia).
    apply (kp_entry _ _ _ _ K (i :: q)); try done. intros [r E]. unfold indices in E. injection E as E _.
    pose proof (user_index va Hva). lia.
Qed.

Lemma other_walk pm' m' q : v_maps s !! pm' = Some m' -> pm' <> pm -> path_ok q ->
  walk (phys (v_pmm s')) (top_level m') q = walk (phys (v_pmm s)) (top_level m') q.
Proof.
  intros Hm' Hne Hq. apply walk_same. intros pre j r y -> Hw. apply path_ok_app in Hq as [Hpre Hf].
  apply Forall_cons in Hf as [Hj _]. by apply (other_entry pm' m' pre).
Qed.

Lemma own_new q y : path_ok q -> walk (phys (v_pmm s')) (top_level m) q = Some y ->
  walk (phys (v_pmm s)) (top_level m) q = Some y \/ used (bitmap (v_pmm s)) (y / PAGE_SIZE) = false.
Proof.
  intros Hq Hw. destruct store_facts as (_ & Hsame & _). rewrite Hsame in Hw by done. by apply (kp_new _ _ _ _ K).
Qed.

Lemma own_top i : 256 <= i < 512 -> entry (phys (v_pmm s')) (top_level m) i = entry (phys (v_pmm s)) (top_level m) i.
Proof.
  intros Hi. destruct store_facts as (_ & _ & Hfr). destruct leaf_page as [n En].
  assert (Hpath : path_ok []) by (split; [simpl; lia|done]).
  assert (Htop : top_level m <> t).
  { intros E. assert ([] = indices va) as [=]. apply (pt_tree _ _ (kp_ok _ _ _ _ K) [] (indices va) t); try done.
    - by apply indices_ok, Hva.
    - cbn. by rewrite E. }
  destruct (pt_use _ _ (kp_ok _ _ _ _ K) [] (top_level m) Hpath eq_refl) as (k & Ek & _).
  rewrite (entry_same (phys p)) by (lia || (intros x Hx; apply Hfr; intros Hx'; apply Htop; rewrite Ek, En in *; f_equal;
    by rewrite <- (page_of_div k x), <- (page_of_div n x))).
  apply (kp_entry _ _ _ _ K []); [done|done|lia|]. intros [r E]. unfold indices in E. injection E as E _.
  pose proof (user_index va Hva). lia.
Qed.

Lemma store_spaces_ok : spaces_ok s'.
Proof.
  destruct store_facts as (Hown & _ & _).
  assert (Htop : highest_page (v_pmm s') = highest_page (v_pmm s)) by (rewrite Hp; apply (kp_top _ _ _ _ K)).
  assert (Hsh : forall pm' m' i, v_maps s !! pm' = Some m' -> 256 <= i < 512 ->
    entry (phys (v_pmm s')) (top_level m') i = entry (phys (v_pmm s)) (top_level m') i).
  { intros pm' m' i Hm' Hi. destruct (decide (pm' = pm)) as [->|Hne]; [replace m' with m by congruence; by apply own_top|].
    apply (other_entry pm' m' []); try done; [split; [simpl; lia|done]|lia]. }
  constructor.
  - rewrite Hmaps. apply (so_kernel _ Hok).
  - intros pm' m'. rewrite Hmaps, Hnext. apply (so_next _ Hok).
  - intros pm' m'. rewrite Hmaps. apply (so_idle _ Hok).
  - intros pm' m'. rewrite Hmaps. intros Hm'. destruct (decide (pm' = pm)) as [->|Hne]; [by replace m' with m by congruence|].
    destruct (so_tables _ Hok pm' m' Hm') as [_ _ _ R4 R5]. destruct Hown as [O1 O2 O3 _ _]. constructor; try done.
    + intros q y Hq. rewrite (other_walk pm' m') by done. intros Hy. destruct (R4 q y Hq Hy) as (k & -> & Hk & Hu).
      exists k. rewrite Htop. split; [done|]. split; [done|]. apply store_used; [lia|done].
    + intros q r y Hq Hr. rewrite !(other_walk pm' m') by done. by apply R5.
  - intros pm1 pm2 m1 m2 i. rewrite Hmaps. intros H1 H2 Hi. rewrite (Hsh pm1), (Hsh pm2) by done. by apply (so_shared _ Hok pm1 pm2).
  - intros pm1 pm2 m1 m2 q r y. rewrite Hmaps. intros H1 H2 Hne Hq Hr Hwq Hwr.
    assert (Hcase : forall pm' m' q', v_maps s !! pm' = Some m' -> user_path q' -> walk (phys (v_pmm s')) (top_level m') q' = Some y ->
      walk (phys (v_pmm s)) (top_level m') q' = Some y \/ (pm' = pm /\ used (bitmap (v_pmm s)) (y / PAGE_SIZE) = false)).
    { intros pm' m' q' Hm' Hq' Hw. destruct (decide (pm' = pm)) as [->|Hne'].
      - replace m' with m in * by congruence. destruct (own_new q' y (proj1 Hq') Hw); [by left|by right].
      - left. by rewrite (other_walk pm' m') in Hw by (done || apply Hq'). }
    assert (Hfree : forall pm' m' q', v_maps s !! pm' = Some m' -> user_path q' -> walk (phys (v_pmm s)) (top_level m') q' = Some y ->
      used (bitmap (v_pmm s)) (y / PAGE_SIZE) = true).
    { intros pm' m' q' Hm' Hq' Hw. destruct (table_in_use s Hok pm' m' q' y Hm' (proj1 Hq') Hw) as (k & -> & _ & Hu).
      by rewrite Z.div_mul by done. }
    destruct (Hcase pm1 m1 q H1 Hq Hwq) as [Hq'|[-> Hq']], (Hcase pm2 m2 r H2 Hr Hwr) as [Hr'|[-> Hr']].
    + by apply (so_apart _ Hok pm1 pm2 m1 m2 q r y).
    + rewrite (Hfree pm1 m1 q) in Hr' by done. done.
    + rewrite (Hfree pm2 m2 r) in Hq' by done. done.
    + done.
Qed.
End Store.

(** The translations with one page of one space changed. *)
Definition with_page (F : Z -> Z -> Z) (pm va v pm' va' : Z) : Z :=
  if (pm' =? pm) && same_page va va' then u64 v else F pm' va'.

(** At least [k] pages of untouched memory are left. *)
Definition room (s : vmm_state) (k : Z) : Prop :=
  exists n, untouched (v_pmm s) n /\ n + k <= highest_page (v_pmm s) / PAGE_SIZE.

Lemma set_entry_evolves pm m va v flags s : spaces_ok s -> v_maps s !! pm = Some m -> user_va va ->
  set_entry pm va v flags s = Halt /\ ~ has_free (v_pmm s) 3 \/
  exists s', set_entry pm va v flags s = Done (tt, s') /\ v_maps s' = v_maps s /\
    evolves s s' (with_page (view s) pm va v) /\ (forall k, room s (3 + k) -> room s' k).
Proof.
  intros Hok Hm Hva. pose proof (space_of s pm m Hok Hm) as Hsp.
  destruct (set_entry_steps pm m va v flags s Hsp (proj1 Hva)) as [H|(s' & p & t & Hrun & Hp & Hmaps & Hnext & K & _ & U & _ & Ht)]; [by left|].
  destruct (set_entry_cases pm m va v flags s Hsp (proj1 Hva)) as [[H _]|(s2 & Hrun2 & Hrm)]; [congruence|].
  rewrite Hrun in Hrun2. injection Hrun2 as <-. right. exists s'. split; [done|]. split; [done|].
  assert (Htop : highest_page (v_pmm s') = highest_page (v_pmm s)) by (rewrite Hp; apply (kp_top _ _ _ _ K)).
  split.
  - constructor; try done.
    + by eapply store_spaces_ok.
    + intros pm'. by rewrite Hmaps.
    + intros pm' va' Hva'. unfold with_page, view. rewrite Hmaps. destruct (Z.eqb_spec pm' pm) as [->|Hne]; cbn [andb].
      { rewrite Hm. rewrite (rm_entries _ _ _ _ _ Hrm va' (proj1 Hva')). done. }
      destruct (v_maps s !! pm') as [m'|] eqn:Hm'; [|done]. unfold entry_of, leaf, leaf_at.
      rewrite (other_walk s s' pm m va v t p Hok Hm Hva K Ht Hp pm' m') by (done || apply indices_ok, Hva').
      destruct (walk (phys (v_pmm s)) (top_level m') _) as [y|] eqn:Hw; [|done].
      apply (other_entry s s' pm m va v t p Hok Hm Hva K Ht Hp pm' m' (indices va')); try done; [apply indices_ok, Hva'|].
      apply pml_entry_range; [lia|apply Hva'].
    + intros x Hx. destruct (rm_data _ _ _ _ _ Hrm x (Hx pm m Hm)) as [Hxm E]. split; [|done].
      intros pm' m'. rewrite Hmaps. intros Hm'. destruct (decide (pm' = pm)) as [->|Hne]; [by replace m' with m by congruence|].
      destruct (Hx pm' m' Hm') as (H0 & H1 & H2). split; [done|]. split; [apply Hxm|]. intros q y Hq.
      rewrite (other_walk s s' pm m va v t p Hok Hm Hva K Ht Hp pm' m') by done. by apply H2.
  - intros k (n & Hn & Hk). destruct (U n Hn) as (n' & B & Hn'). exists n'. rewrite Htop, Hp. split; [|lia].
    destruct Hn' as [N1 N2]. by constructor.
Qed.

(** C4: address spaces are isolated: in a store of address spaces whose user halves have tables of
    their own, mapping or unmapping a user page of one space changes the translation of exactly this
    page in exactly this space; every user address of every other space translates as before, no byte
    of a page that holds data has changed, and the separation of the spaces is kept.  The machine
    halts only if fewer than three pages are free. *)
Theorem spaces_isolated (pm pa va flags : Z) (m : pagemap) (s : vmm_state) :
  spaces_ok s -> v_maps s !! pm = Some m -> user_va va ->
  (vmm_map_page pm pa va flags s = Halt /\ ~ has_free (v_pmm s) 3 \/
   exists s', vmm_map_page pm pa va flags s = Done (tt, s') /\ v_maps s' = v_maps s /\
     evolves s s' (with_page (view s) pm va (Z.lor pa flags))) /\
  (vmm_unmap_page pm va s = Halt /\ ~ has_free (v_pmm s) 3 \/
   exists s', vmm_unmap_page pm va s = Done (tt, s') /\ v_maps s' = v_maps s /\ evolves s s' (with_page (view s) pm va 0)).
Proof.
  intros Hok Hm Hva. split.
  - destruct (set_entry_evolves pm m va (Z.lor pa flags) flags s Hok Hm Hva) as [H|(s' & H1 & H2 & H3 & _)]; [by left|right; eauto].
  - destruct (set_entry_evolves pm m va 0 7 s Hok Hm Hva) as [H|(s' & H1 & H2 & H3 & _)]; [by left|right; eauto].
Qed.

(** ** Changes of physical memory outside the tables *)

Section Change.
Context (s : vmm_state) (p : pmm_state).
Hypothesis (Hok : spaces_ok s) (Hready : pmm_ready p 1) (Hhigh : highest_page p = highest_page (v_pmm s)).
Hypothesis (Hused : forall c, 0 <= c -> used (bitmap (v_pmm s)) c = true -> used (bitmap p) c = true).
Hypothesis (Hbytes : forall x, 0 <= x -> used (bitmap (v_pmm s)) (x / PAGE_SIZE) = true -> ~ data s x -> phys p x = phys (v_pmm s) x).

Lemma change_entry pm m q y j : v_maps s !! pm = Some m -> path_ok q -> walk (phys (v_pmm s)) (top_level m) q = Some y ->
  0 <= j < 512 -> entry (phys p) y j = entry (phys (v_pmm s)) y j.
Proof.
  intros Hm Hq Hw Hj. pose proof (table_in_use s Hok pm m q y Hm Hq Hw) as Hy. apply entry_same; [|done].
  intros x Hx. destruct (page_used s y x Hy Hx) as (H0 & _ & Hu). apply Hbytes; [done|done|].
  intros Hd. destruct (Hd pm m Hm) as (_ & _ & Hn). by apply (Hn q y).
Qed.

Lemma change_walk pm m q : v_maps s !! pm = Some m -> path_ok q ->
  walk (phys p) (top_level m) q = walk (phys (v_pmm s)) (top_level m) q.
Proof.
  intros Hm Hq. apply walk_same. intros pre j r y -> Hw. apply path_ok_app in Hq as [Hpre Hf].
  apply Forall_cons in Hf as [Hj _]. by apply (change_entry pm m pre).
Qed.

Lemma change_ok : spaces_ok (set_pmm p s).
Proof.
  assert (Hroot : path_ok []) by (split; [simpl; lia|done]).
  constructor; cbn [v_maps v_next v_pmm set_pmm].
  - apply (so_kernel _ Hok).
  - apply (so_next _ Hok).
  - apply (so_idle _ Hok).
  - intros pm m Hm. destruct (so_tables _ Hok pm m Hm) as [R1 R2 R3 R4 R5]. constructor; try done.
    + by rewrite Hhigh.
    + apply Hused; [lia|done].
    + intros q y Hq. rewrite (change_walk pm m) by done. intros Hy. destruct (R4 q y Hq Hy) as (k & -> & Hk & Hu).
      exists k. rewrite Hhigh. split; [done|]. split; [done|]. apply Hused; [lia|done].
    + intros q r y Hq Hr. rewrite !(change_walk pm m) by done. by apply R5.
  - intros pm pm' m m' i Hm Hm' Hi. rewrite (change_entry pm m []), (change_entry pm' m' []) by (done || lia).
    by apply (so_shared _ Hok pm pm').
  - intros pm pm' m m' q r y Hm Hm' Hne Hq Hr. rewrite (change_walk pm m), (change_walk pm' m') by (done || apply Hq || apply Hr).
    by apply (so_apart _ Hok pm pm' m m').
Qed.

Lemma change_view pm va : user_va va -> view (set_pmm p s) pm va = view s pm va.
Proof.
  intros Hva. unfold view. cbn [v_maps set_pmm]. destruct (v_maps s !! pm) as [m|] eqn:Hm; [|done].
  unfold entry_of, leaf, leaf_at. cbn [v_pmm set_pmm]. rewrite (change_walk pm m) by (done || apply indices_ok, Hva).
  destruct (walk _ _ _) as [y|] eqn:Hw; [|done]. apply (change_entry pm m (indices va)); try done; [apply indices_ok, Hva|].
  apply pml_entry_range; [lia|apply Hva].
Qed.

Lemma change_data x : data s x -> data (set_pmm p s) x.
Proof.
  intros Hx pm m Hm. cbn [v_maps set_pmm] in Hm. destruct (Hx pm m Hm) as (H0 & H1 & H2). split; [done|]. split.
  - apply Hused; [|done]. apply Z.div_pos; [done|]. by unfold PAGE_SIZE.
  - cbn [v_pmm set_pmm]. intros q y Hq. rewrite (change_walk pm m) by done. by apply H2.
Qed.

(** A page in use that was free before holds data. *)
Lemma change_fresh x : 0 <= x -> used (bitmap (v_pmm s)) (x / PAGE_SIZE) = false -> used (bitmap p) (x / PAGE_SIZE) = true ->
  data (set_pmm p s) x.
Proof.
  intros H0 Hf Hu pm m Hm. cbn [v_maps set_pmm] in Hm. split; [done|]. split; [done|]. cbn [v_pmm set_pmm].
  intros q y Hq. rewrite (change_walk pm m) by done. intros Hw Hx.
  destruct (page_used s y x (table_in_use s Hok pm m q y Hm Hq Hw) Hx) as (_ & _ & Hu'). congruence.
Qed.
End Change.

Lemma data_used s x : spaces_ok s -> data s x -> 0 <= x /\ used (bitmap (v_pmm s)) (x / PAGE_SIZE) = true.
Proof. intros Hok Hx. destruct (so_kernel _ Hok) as [k Hk]. by destruct (Hx kernel_pagemap k Hk) as (? & ? & _). Qed.

(** ** Allocating *)

Lemma ready_of s : spaces_ok s -> pmm_ready (v_pmm s) 1 /\ highest_page (v_pmm s) <= 2 ^ 46 /\ used (bitmap (v_pmm s)) 0 = true.
Proof. intros Hok. destruct (so_kernel _ Hok) as [k Hk]. by destruct (so_tables _ Hok _ k Hk). Qed.

Lemma ready_claim s u n k m : pmm_ready s 1 -> claim s u n k true -> pmm_ready (with_phys m u) 1.
Proof.
  intros [R1 R2 R3 R4 R5] [[F1 F2 F3 F4 F5] _]. constructor; cbn [pmm_lock highest_page bitmap with_phys]; rewrite ?F1, ?F4; try done.
  unfold covers in *. by rewrite F3.
Qed.

Lemma pcalloc_untouched s n c : pmm_ready s 1 -> highest_page s <= 2 ^ 46 -> untouched s n -> 0 < c -> n + c <= highest_page s / PAGE_SIZE ->
  exists u, pcalloc c s = Done (n * PAGE_SIZE, with_phys (memset (n * PAGE_SIZE) 0 (c * PAGE_SIZE) (phys s)) u) /\ claim s u n c true.
Proof.
  intros [R1 R2 R3 R4 R5] Hlow [Un Ub] Hc Hr. replace (highest_page s / PAGE_SIZE + 1 - 1) with (highest_page s / PAGE_SIZE) in R4 by lia.
  assert (Hp : highest_page s / PAGE_SIZE * PAGE_SIZE <= 2 ^ 46)
    by (pose proof (Z.mul_div_le (highest_page s) PAGE_SIZE ltac:(done)); lia).
  assert (Hf : first_free (bitmap s) (Z.to_nat (highest_page s / PAGE_SIZE)) 0 = Some n).
  { pose proof (first_free_spec (bitmap s) (Z.to_nat (highest_page s / PAGE_SIZE)) 0) as HF.
    destruct (first_free _ _ _) as [k|].
    - destruct HF as (Hk & Hu & Hb). rewrite Ub in Hu by lia. apply Z.ltb_ge in Hu. destruct (Z.eq_dec k n) as [->|]; [done|].
      pose proof (Hb n ltac:(lia)) as H. rewrite Ub in H by lia. apply Z.ltb_lt in H. lia.
    - pose proof (HF n ltac:(lia)) as H. rewrite Ub in H by lia. apply Z.ltb_lt in H. lia. }
  destruct (pmm_pages_op pmm_alloc_page true s (highest_page s / PAGE_SIZE) n c) as (u & Hu & HF & HU);
    [by left|done|done|lia|lia|lia|unfold PAGE_SIZE in *; lia|].
  exists u. split; [|by split].
  assert (Hm : pmalloc c s = Done (n * PAGE_SIZE, u)).
  { unfold pmalloc. rewrite (bind_run _ _ _ _ _ (pmalloc_scan_run s c R1 R2 R4 ltac:(unfold PAGE_SIZE in *; lia))), Hf.
    rewrite u64_small by (unfold PAGE_SIZE in *; lia). unfold pmm_alloc_pages. by rewrite (bind_run _ _ _ _ _ Hu). }
  unfold pcalloc. rewrite (bind_run _ _ _ _ _ Hm). rewrite (proj2 (Z.eqb_neq _ 0)) by (unfold PAGE_SIZE; lia).
  unfold mbind, M_bind, modify, mret, M_ret. rewrite (frame_phys _ _ HF), dmap_direct by (unfold PAGE_SIZE in *; lia).
  rewrite u64_small by (unfold PAGE_SIZE in *; lia). done.
Qed.

(** Frames from untouched memory: zeroed, and nobody's data before. *)
Lemma alloc_frames c k s : spaces_ok s -> room s (c + k) -> 0 < c -> 0 <= k ->
  returns (on_phys (pcalloc c) s) (fun a s' => evolves s s' (view s) /\ v_maps s' = v_maps s /\ room s' k /\
    exists n, a = n * PAGE_SIZE /\ 0 < n /\ n + c <= highest_page (v_pmm s) / PAGE_SIZE /\ (n + c) * PAGE_SIZE <= 2 ^ 46 /\
      forall x, a <= x < a + c * PAGE_SIZE -> data s' x /\ phys (v_pmm s') x = 0 /\ ~ data s x).
Proof.
  intros Hok (n & Un & Hr) Hc Hk. destruct (ready_of s Hok) as (R1 & Hlow & _).
  destruct (pcalloc_untouched (v_pmm s) n c R1 Hlow Un Hc ltac:(lia)) as (u & Hrun & Hcl).
  set (p := with_phys _ u) in *. exists (n * PAGE_SIZE), (set_pmm p s). split; [by apply on_phys_run|].
  pose proof (ut_range _ _ Un) as Hn. destruct Hcl as [Hfr Hbits].
  assert (Hhigh : highest_page p = highest_page (v_pmm s)) by apply (frame_top _ _ Hfr).
  assert (Hready : pmm_ready p 1) by (by apply (ready_claim (v_pmm s) u n c)).
  assert (Hused : forall b, 0 <= b -> used (bitmap (v_pmm s)) b = true -> used (bitmap p) b = true).
  { intros b Hb Hu. cbn [p bitmap with_phys]. rewrite Hbits by done. by destruct (_ && _). }
  assert (Hin : forall x, n * PAGE_SIZE <= x < n * PAGE_SIZE + c * PAGE_SIZE -> 0 <= x /\ n <= x / PAGE_SIZE < n + c).
  { intros x Hx. split; [unfold PAGE_SIZE in *; lia|]. split; [apply Z.div_le_lower_bound|apply Z.div_lt_upper_bound]; unfold PAGE_SIZE in *; lia. }
  assert (Hfree : forall x, n * PAGE_SIZE <= x < n * PAGE_SIZE + c * PAGE_SIZE -> used (bitmap (v_pmm s)) (x / PAGE_SIZE) = false).
  { intros x Hx. destruct (Hin x Hx). rewrite (ut_bits _ _ Un) by lia. apply Z.ltb_ge. lia. }
  assert (Hsame : forall x, used (bitmap (v_pmm s)) (x / PAGE_SIZE) = true -> phys p x = phys (v_pmm s) x).
  { intros x Hu. cbn [p phys with_phys]. unfold memset.
    destruct (Z.leb_spec (n * PAGE_SIZE) x), (Z.ltb_spec x (n * PAGE_SIZE + c * PAGE_SIZE)); cbn [andb]; try done.
    rewrite Hfree in Hu by lia. done. }
  assert (Hbytes : forall x, 0 <= x -> used (bitmap (v_pmm s)) (x / PAGE_SIZE) = true -> ~ data s x -> phys p x = phys (v_pmm s) x)
    by (intros x _ Hu _; by apply Hsame).
  split_and!.
  - constructor; try done.
    + by apply change_ok.
    + intros pm va Hva. by apply change_view.
    + intros x Hx. split; [by apply change_data|]. apply Hsame, (data_used s x Hok Hx).
  - done.
  - exists (n + c). cbn [v_pmm set_pmm]. rewrite Hhigh. split; [|lia]. apply (untouched_claim (v_pmm s) u n c); [done|done|lia|by split].
  - exists n. split; [done|]. split; [lia|]. split; [lia|]. split.
    { pose proof (Z.mul_div_le (highest_page (v_pmm s)) PAGE_SIZE ltac:(done)). unfold PAGE_SIZE in *. lia. }
    intros x Hx. destruct (Hin x Hx) as [H0 Hd]. split; [|split].
    + apply change_fresh; try done; [by apply Hfree|]. cbn [p bitmap with_phys]. rewrite Hbits by lia.
      by rewrite (proj2 (Z.leb_le _ _)), (proj2 (Z.ltb_lt _ _)) by lia.
    + cbn [set_pmm v_pmm p phys with_phys]. unfold memset. by rewrite (proj2 (Z.leb_le _ _)), (proj2 (Z.ltb_lt _ _)) by lia.
    + intros Hd'. destruct (data_used s x Hok Hd') as [_ Hu]. rewrite Hfree in Hu by done. done.
Qed.

(** Writing to data. *)
Definition with_mem (mem : mem) (s : vmm_state) : vmm_state := set_pmm (with_phys mem (v_pmm s)) s.

Lemma write_data s mem : spaces_ok s -> (forall x, mem x = phys (v_pmm s) x \/ data s x) ->
  spaces_ok (with_mem mem s) /\ (forall pm va, user_va va -> view (with_mem mem s) pm va = view s pm va) /\
  (forall x, data s x -> data (with_mem mem s) x).
Proof.
  intros Hok Hw. destruct (ready_of s Hok) as (R1 & _ & _).
  assert (Hready : pmm_ready (with_phys mem (v_pmm s)) 1) by (destruct R1; by constructor).
  assert (Hbytes : forall x, 0 <= x -> used (bitmap (v_pmm s)) (x / PAGE_SIZE) = true -> ~ data s x ->
    phys (with_phys mem (v_pmm s)) x = phys (v_pmm s) x) by (intros x _ _ Hn; by destruct (Hw x)).
  split_and!; [by apply change_ok|intros pm va Hva; by apply change_view|intros x Hx; by apply change_data].
Qed.

Lemma room_mem mem s k : room (with_mem mem s) k <-> room s k.
Proof. split; intros (n & [U1 U2] & Hk); exists n; (split; [by constructor|done]). Qed.

Lemma push_range_run pm m r s : spaces_ok s -> v_maps s !! pm = Some m ->
  exists s', push_range pm r s = Done (tt, s') /\ evolves s s' (view s) /\ v_pmm s' = v_pmm s /\
    v_maps s' = <[pm := mk_pagemap false (top_level m) (ranges m ++ [r])]> (v_maps s).
Proof.
  intros Hok Hm. unfold push_range. rewrite (bind_run _ _ _ _ _ (get_map_run s pm m Hm)). rewrite (so_idle _ Hok pm m Hm).
  set (m1 := mk_pagemap false _ _). set (s' := set_maps (<[pm := m1]> (v_maps s)) s).
  exists s'. split; [done|].
  assert (Hback : forall pm' m', v_maps s' !! pm' = Some m' ->
    exists m0, v_maps s !! pm' = Some m0 /\ top_level m' = top_level m0 /\ pm_lock m' = pm_lock m0).
  { intros pm' m' H. cbn [s' v_maps set_maps] in H. destruct (decide (pm' = pm)) as [->|Hne].
    - rewrite lookup_insert_eq in H. injection H as <-. exists m. split; [done|]. split; [done|]. by rewrite (so_idle _ Hok pm m Hm).
    - rewrite lookup_insert_ne in H by done. by exists m'. }
  split; [|done]. constructor; try done.
  - constructor.
    + cbn [s' v_maps set_maps]. destruct (decide (kernel_pagemap = pm)) as [<-|Hne]; [by rewrite lookup_insert_eq|].
      rewrite lookup_insert_ne by done. apply (so_kernel _ Hok).
    + intros pm' m' H. destruct (Hback pm' m' H) as (m0 & H0 & _). by apply (so_next _ Hok pm' m0).
    + intros pm' m' H. destruct (Hback pm' m' H) as (m0 & H0 & _ & ->). by apply (so_idle _ Hok pm').
    + intros pm' m' H. destruct (Hback pm' m' H) as (m0 & H0 & -> & _). by apply (so_tables _ Hok pm').
    + intros pm1 pm2 m1' m2 i H1 H2. destruct (Hback _ _ H1) as (a & A & -> & _). destruct (Hback _ _ H2) as (b & B & -> & _).
      by apply (so_shared _ Hok pm1 pm2).
    + intros pm1 pm2 m1' m2 p q y H1 H2. destruct (Hback _ _ H1) as (a & A & -> & _). destruct (Hback _ _ H2) as (b & B & -> & _).
      by apply (so_apart _ Hok pm1 pm2 a b p q y).
  - intros pm'. cbn [s' v_maps set_maps]. destruct (decide (pm' = pm)) as [->|Hne]; [by rewrite lookup_insert_eq, Hm|].
    by rewrite lookup_insert_ne by done.
  - intros pm' va _. unfold view. cbn [s' v_maps set_maps]. destruct (decide (pm' = pm)) as [->|Hne]; [by rewrite lookup_insert_eq, Hm|].
    by rewrite lookup_insert_ne by done.
  - intros x Hx. split; [|done]. intros pm' m' H. destruct (Hback pm' m' H) as (m0 & H0 & Et & _).
    destruct (Hx pm' m0 H0) as (D0 & D1 & D2). split; [done|]. split; [done|]. cbn [s' v_pmm set_maps]. rewrite Et. exact D2.
Qed.

(** ** Mapping a range *)

(** The translations with [cnt] consecutive pages of one space changed. *)
Definition mapped (F : Z -> Z -> Z) (pm pa va cnt flags pm' va' : Z) : Z :=
  let k := va' / PAGE_SIZE - va / PAGE_SIZE in
  if (pm' =? pm) && ((0 <=? k) && (k <? cnt)) then u64 (Z.lor (u64 (pa + k * PAGE_SIZE)) flags) else F pm' va'.

Lemma room_le s j k : j <= k -> room s k -> room s j.
Proof. intros H (n & Un & Hk). exists n. split; [done|lia]. Qed.

Lemma room_free s k : room s (Z.of_nat k) -> has_free (v_pmm s) k.
Proof. intros (n & Un & Hk). by apply (untouched_free _ n). Qed.

Lemma mapped_step F pm pa va j flags pm' va' : 0 <= va -> 0 <= j -> va + j * PAGE_SIZE < 2 ^ 47 -> user_va va' ->
  with_page (mapped F pm pa va j flags) pm (va + j * PAGE_SIZE) (Z.lor (u64 (pa + j * PAGE_SIZE)) flags) pm' va' =
  mapped F pm pa va (j + 1) flags pm' va'.
Proof.
  intros Hva Hj Hhi Hva'. unfold with_page, mapped, same_page. destruct (pm' =? pm); cbn [andb]; [|done].
  rewrite Z.div_add by done. set (x := va / PAGE_SIZE). set (y := va' / PAGE_SIZE).
  assert (Hy : 0 <= y < 2 ^ 35).
  { unfold y, PAGE_SIZE. destruct Hva'. split; [apply Z.div_pos; lia|]. apply Z.div_lt_upper_bound; lia. }
  assert (Hx : 0 <= x /\ x + j < 2 ^ 35).
  { unfold x. split; [apply Z.div_pos; [lia|done]|]. rewrite <- Z.div_add by done. apply Z.div_lt_upper_bound; unfold PAGE_SIZE in *; lia. }
  rewrite (Z.mod_small (x + j)), (Z.mod_small y) by lia. destruct (Z.eqb_spec (x + j) y) as [E|E].
  - replace (y - x) with j by lia. by rewrite (proj2 (Z.leb_le 0 j)), (proj2 (Z.ltb_lt j (j + 1))) by lia.
  - destruct (Z.leb_spec 0 (y - x)), (Z.ltb_spec (y - x) j), (Z.ltb_spec (y - x) (j + 1)); cbn [andb]; try done; lia.
Qed.

Lemma map_pages_total pm m pa va len flags s k : spaces_ok s -> v_maps s !! pm = Some m -> 0 <= va -> 0 <= len ->
  va + len <= 2 ^ 47 - PAGE_SIZE -> 0 <= k -> room s (3 * ((len + PAGE_SIZE - 1) / PAGE_SIZE) + k) ->
  returns (map_pages pm pa va len flags s) (fun _ s' =>
    evolves s s' (mapped (view s) pm pa va ((len + PAGE_SIZE - 1) / PAGE_SIZE) flags) /\ v_maps s' = v_maps s /\ room s' k).
Proof.
  intros Hok Hm Hva Hlen Hhi Hk Hroom. unfold map_pages. set (cnt := (len + PAGE_SIZE - 1) / PAGE_SIZE) in *.
  assert (Hc : 0 <= cnt /\ cnt * PAGE_SIZE <= len + PAGE_SIZE - 1).
  { unfold cnt. split; [apply Z.div_pos; unfold PAGE_SIZE; lia|]. rewrite Z.mul_comm. by apply Z.mul_div_le. }
  set (Inv := fun j t => evolves s t (mapped (view s) pm pa va j flags) /\ v_maps t = v_maps s /\ room t (3 * (cnt - j) + k)).
  eapply returns_mono; [apply (for_n_returns Inv)|].
  - split_and!; [|done|by replace (3 * (cnt - 0) + k) with (3 * cnt + k) by lia].
    apply (evolves_ext s s (view s)); [by apply evolves_refl|]. intros pm' va' _. unfold mapped.
    destruct (Z.leb_spec 0 (va' / PAGE_SIZE - va / PAGE_SIZE)), (Z.ltb_spec (va' / PAGE_SIZE - va / PAGE_SIZE) 0); rewrite ?andb_false_r; try done; lia.
  - intros j t Hj (Ht & Mt & Rt). rewrite (u64_small (va + j * PAGE_SIZE)) by (unfold PAGE_SIZE in *; lia).
    assert (Hvj : user_va (va + j * PAGE_SIZE)) by (unfold user_va, PAGE_SIZE in *; lia).
    assert (Hmt : v_maps t !! pm = Some m) by (by rewrite Mt).
    destruct (set_entry_evolves pm m (va + j * PAGE_SIZE) (Z.lor (u64 (pa + j * PAGE_SIZE)) flags) flags t (ev_ok _ _ _ Ht) Hmt Hvj)
      as [[_ Hno]|(t' & Hrun & Mt' & Et' & Rt')].
    { exfalso. apply Hno, room_free. apply (room_le _ _ (3 * (cnt - j) + k)); [lia|done]. }
    exists tt, t'. split; [exact Hrun|]. split_and!.
    + eapply evolves_trans; [exact Ht|]. eapply evolves_ext; [exact Et'|]. intros pm' va' Hva'.
      rewrite <- mapped_step by (done || lia || apply Hvj). unfold with_page. destruct (_ && _); [done|]. by rewrite (ev_view _ _ _ Ht).
    + congruence.
    + apply Rt'. by replace (3 + (3 * (cnt - (j + 1)) + k)) with (3 * (cnt - j) + k) by lia.
  - intros [] t. rewrite Z2Nat.id, Z.add_0_l by lia. intros (Ht & Mt & Rt). split; [done|]. split; [done|].
    by replace k with (3 * (cnt - cnt) + k) by lia.
Qed.

(** ** A new space *)

Lemma copy_half_run kt z p : 0 <= kt < 2 ^ 46 -> 0 <= z < 2 ^ 46 -> kt + PAGE_SIZE <= z \/ z + PAGE_SIZE <= kt ->
  (forall j, 0 <= j < 512 -> entry (phys p) z j = 0) ->
  exists m, copy_kernel_half (u64 (kt + PHYS_MEM_OFFSET)) (u64 (z + PHYS_MEM_OFFSET)) p = Done (tt, with_phys m p) /\
    (forall x, ~ (z <= x < z + PAGE_SIZE) -> m x = phys p x) /\
    (forall j, 0 <= j < 512 -> entry m z j = if 256 <=? j then entry (phys p) kt j else 0).
Proof.
  intros Hkt Hz Hap Hzero. unfold copy_kernel_half.
  set (Inv := fun i q => q = with_phys (phys q) p /\ (forall x, ~ (z <= x < z + PAGE_SIZE) -> phys q x = phys p x) /\
    (forall j, 0 <= j < 512 -> entry (phys q) z j = if (256 <=? j) && (j <? i) then entry (phys p) kt j else 0)).
  destruct (for_n_inv Inv (fun i => e ← load64 (u64 (u64 (kt + PHYS_MEM_OFFSET) + 8 * i)); store64 (u64 (u64 (z + PHYS_MEM_OFFSET) + 8 * i)) e) 256 256 p)
    as (q & Hrun & Hq & Hout & Hin).
  - split_and!; [by destruct p|done|]. intros j Hj. rewrite Hzero by done. destruct (Z.leb_spec 256 j), (Z.ltb_spec j 256); try done; lia.
  - intros i q Hi (Hq & Hout & Hin). unfold load64, store64.
    erewrite bind_run by reflexivity. rewrite !dmap_entry by lia. fold (entry (phys q) kt i).
    assert (Ee : entry (phys q) kt i = entry (phys p) kt i).
    { apply entry_same; [|lia]. intros x Hx. apply Hout. unfold PAGE_SIZE in *. lia. }
    rewrite Ee. eexists. split; [reflexivity|]. unfold modify. split_and!; cbn [phys with_phys].
    + by rewrite Hq.
    + intros x Hx. rewrite st_other by (unfold PAGE_SIZE in *; lia). by apply Hout.
    + intros j Hj. unfold entry at 1. destruct (Z.eq_dec j i) as [->|Hne].
      * rewrite ld_st_same. rewrite (proj2 (Z.leb_le 256 i)), (proj2 (Z.ltb_lt i (i + 1))) by lia. cbn [andb].
        apply Z.mod_small. apply (ld_range 8).
      * rewrite ld_st_other by lia. fold (entry (phys q) z j). rewrite Hin by done.
        destruct (Z.leb_spec 256 j), (Z.ltb_spec j i), (Z.ltb_spec j (i + 1)); try done; lia.
  - exists (phys q). rewrite Hrun. split; [by rewrite Hq at 1|]. split; [done|]. intros j Hj. rewrite Hin by done.
    change (256 + Z.of_nat 256) with 512. by rewrite (proj2 (Z.ltb_lt j 512)), andb_true_r by lia.
Qed.

(** Adding a space whose top level has an empty user half and the kernel half of the others. *)
Definition add_map (m : pagemap) (s : vmm_state) : vmm_state :=
  mk_vmm (v_pmm s) (<[v_next s := m]> (v_maps s)) (v_next s + 1) (v_cr3 s) (v_invlpg s).

Section AddSpace.
Context (s : vmm_state) (n : Z) (k : pagemap).
Local Abbreviation z := (n * PAGE_SIZE).
Hypothesis (Hok : spaces_ok s) (Hk : v_maps s !! kernel_pagemap = Some k).
Hypothesis (Hn : 0 < n < highest_page (v_pmm s) / PAGE_SIZE) (Hu : used (bitmap (v_pmm s)) n = true).
Hypothesis (Hdata : forall x, z <= x < z + PAGE_SIZE -> data s x).
Hypothesis (Hz : forall j, 0 <= j < 512 ->
  entry (phys (v_pmm s)) z j = if 256 <=? j then entry (phys (v_pmm s)) (top_level k) j else 0).

Lemma add_walk q y : path_ok q -> walk (phys (v_pmm s)) z q = Some y ->
  q = [] /\ y = z \/ exists i r, q = i :: r /\ 256 <= i < 512 /\ walk (phys (v_pmm s)) (top_level k) q = Some y.
Proof.
  intros [Hl Hf] Hw. destruct q as [|i r]; [left; by injection Hw as <-|right]. apply Forall_cons in Hf as [Hi Hf].
  exists i, r. split; [done|]. cbn [walk] in *. rewrite Hz in * by done. destruct (Z.leb_spec 256 i); [by split; [lia|]|done].
Qed.

Lemma add_not_table pm m q : v_maps s !! pm = Some m -> path_ok q -> walk (phys (v_pmm s)) (top_level m) q <> Some z.
Proof.
  intros Hm Hq Hw. assert (Hx : z <= z < z + PAGE_SIZE) by (unfold PAGE_SIZE; lia).
  destruct (Hdata z Hx pm m Hm) as (_ & _ & H). by apply (H q z).
Qed.

Lemma add_ok : spaces_ok (add_map (mk_pagemap false z []) s).
Proof.
  assert (Hnone : v_maps s !! v_next s = None).
  { destruct (v_maps s !! v_next s) as [m|] eqn:E; [|done]. apply (so_next _ Hok) in E. lia. }
  assert (Hcase : forall pm m, v_maps (add_map (mk_pagemap false z []) s) !! pm = Some m ->
    pm = v_next s /\ m = mk_pagemap false z [] \/ pm <> v_next s /\ v_maps s !! pm = Some m).
  { intros pm m H. cbn [add_map v_maps] in H. destruct (decide (pm = v_next s)) as [->|Hne].
    - rewrite lookup_insert_eq in H. injection H as <-. by left.
    - rewrite lookup_insert_ne in H by done. by right. }
  assert (Hsh : forall pm m i, v_maps (add_map (mk_pagemap false z []) s) !! pm = Some m -> 256 <= i < 512 ->
    entry (phys (v_pmm s)) (top_level m) i = entry (phys (v_pmm s)) (top_level k) i).
  { intros pm m i H Hi. destruct (Hcase pm m H) as [[-> ->]|[_ Hm]].
    - cbn [top_level]. rewrite Hz by lia. by rewrite (proj2 (Z.leb_le 256 i)) by lia.
    - by apply (so_shared _ Hok pm kernel_pagemap). }
  assert (Hap : forall pm m p q y, v_maps s !! pm = Some m -> user_path p -> user_path q ->
    walk (phys (v_pmm s)) (top_level m) p = Some y -> walk (phys (v_pmm s)) z q = Some y -> False).
  { intros pm m p q y Hm Hp Hq Hwp Hwq. destruct (add_walk q y (proj1 Hq) Hwq) as [[_ ->]|(i & r & -> & Hi & _)].
    - by apply (add_not_table pm m p Hm (proj1 Hp)).
    - destruct Hq as [_ Hq]. lia. }
  constructor.
  - cbn [add_map v_maps]. rewrite lookup_insert_ne; [by eexists|]. intros E. rewrite E in Hnone. congruence.
  - intros pm m H. cbn [add_map v_next]. destruct (Hcase pm m H) as [[-> _]|[_ Hm]]; [lia|]. apply (so_next _ Hok) in Hm. lia.
  - intros pm m H. destruct (Hcase pm m H) as [[_ ->]|[_ Hm]]; [done|]. by apply (so_idle _ Hok pm).
  - intros pm m H. cbn [add_map v_pmm]. destruct (Hcase pm m H) as [[_ ->]|[_ Hm]]; [|by apply (so_tables _ Hok pm)].
    pose proof (so_tables _ Hok _ k Hk) as [R1 R2 R3 R4 R5]. cbn [top_level]. constructor; try done.
    + intros q y Hq Hw. destruct (add_walk q y Hq Hw) as [[_ ->]|(i & r & _ & _ & Hw')]; [by exists n|by apply (R4 q y)].
    + intros p q y Hp Hq Hwp Hwq. destruct (add_walk p y Hp Hwp) as [[-> ->]|(i & r & -> & _ & Hwp')];
        destruct (add_walk q _ Hq Hwq) as [[-> E]|(i' & r' & -> & _ & Hwq')].
      * done.
      * by apply (add_not_table _ k _ Hk) in Hwq'.
      * subst y. by apply (add_not_table _ k _ Hk) in Hwp'.
      * by apply (R5 _ _ y).
  - intros pm pm' m m' i H H' Hi. cbn [add_map v_pmm]. by rewrite (Hsh pm m), (Hsh pm' m').
  - intros pm pm' m m' p q y H H' Hne Hp Hq Hwp Hwq. cbn [add_map v_pmm] in *.
    destruct (Hcase pm m H) as [[-> ->]|[_ Hm]], (Hcase pm' m' H') as [[-> ->]|[_ Hm']]; cbn [top_level] in *.
    + done.
    + by apply (Hap pm' m' q p y).
    + by apply (Hap pm m p q y).
    + by apply (so_apart _ Hok pm pm' m m' p q y).
Qed.
End AddSpace.

Lemma entry_zero m z j : (forall x, z <= x < z + PAGE_SIZE -> m x = 0) -> 0 <= j < 512 -> entry m z j = 0.
Proof. intros H Hj. rewrite (entry_same (fun _ => 0) m) by done. reflexivity. Qed.

(** [vmm_create_new_pagemap]: one more space, without user pages. *)
Lemma create_total s k : spaces_ok s -> room s (1 + k) -> 0 <= k ->
  returns (vmm_create_new_pagemap s) (fun pm s' => pm = v_next s /\ spaces_ok s' /\
    (exists z, v_maps s' = <[pm := mk_pagemap false z []]> (v_maps s)) /\
    (v_next s' = v_next s + 1 /\ highest_page (v_pmm s') = highest_page (v_pmm s)) /\
    (forall pm' va, user_va va -> view s' pm' va = view s pm' va) /\
    (forall x, data s x -> data s' x /\ phys (v_pmm s') x = phys (v_pmm s) x) /\ room s' k).
Proof.
  intros Hok Hroom Hk. unfold vmm_create_new_pagemap.
  eapply returns_bind; [by apply (alloc_frames 1 k)|]. intros a s1 (E1 & M1 & R1 & n & -> & Hn & Hnr & Hlow & Hz). rewrite Z.mul_1_l in Hz.
  pose proof (ev_ok _ _ _ E1) as Hok1. destruct (so_kernel _ Hok1) as [km Hkm].
  rewrite (bind_run _ _ _ _ _ (get_map_run s1 kernel_pagemap km Hkm)).
  assert (Hroot : path_ok []) by (split; [simpl; lia|done]).
  pose proof (table_in_use s1 Hok1 _ km [] _ Hkm Hroot eq_refl) as Hkt.
  pose proof (in_use_bounds _ _ (so_tables _ Hok1 _ km Hkm) _ Hkt) as Hb.
  assert (Hap : top_level km + PAGE_SIZE <= n * PAGE_SIZE \/ n * PAGE_SIZE + PAGE_SIZE <= top_level km).
  { destruct Hkt as (i & Ei & Hi & Hui). rewrite Ei. destruct (Z.lt_trichotomy i n) as [H|[->|H]]; [unfold PAGE_SIZE; lia| |unfold PAGE_SIZE; lia].
    exfalso. destruct (Hz (n * PAGE_SIZE) ltac:(unfold PAGE_SIZE; lia)) as (Hd & _). destruct (Hd _ km Hkm) as (_ & _ & Hd').
    apply (Hd' [] (n * PAGE_SIZE) Hroot); [cbn; by rewrite Ei|unfold PAGE_SIZE; lia]. }
  destruct (copy_half_run (top_level km) (n * PAGE_SIZE) (v_pmm s1)) as (mm & Hrun & Hout & Hin);
    [unfold PAGE_SIZE in *; lia|unfold PAGE_SIZE in *; lia|done|intros j Hj; apply entry_zero; [|done]; intros x Hx; by apply Hz|].
  erewrite bind_run by (apply on_phys_run; exact Hrun). clear Hrun. fold (with_mem mm s1).
  destruct (write_data s1 mm Hok1) as (Hok2 & V2 & D2).
  { intros x. destruct (Z.le_gt_cases (n * PAGE_SIZE) x), (Z.lt_ge_cases x (n * PAGE_SIZE + PAGE_SIZE));
      [right; apply Hz; lia|left; apply Hout; lia..]. }
  erewrite bind_run by reflexivity. eexists _, (add_map (mk_pagemap false (n * PAGE_SIZE) []) (with_mem mm s1)). split; [reflexivity|].
  set (s2 := with_mem mm s1) in *.
  assert (Hnd : forall x, n * PAGE_SIZE <= x < n * PAGE_SIZE + PAGE_SIZE -> data s2 x) by (intros x Hx; apply D2, Hz, Hx).
  assert (Hne : forall j, 0 <= j < 512 -> entry (phys (v_pmm s2)) (n * PAGE_SIZE) j =
    if 256 <=? j then entry (phys (v_pmm s2)) (top_level km) j else 0).
  { intros j Hj. change (phys (v_pmm s2)) with mm. rewrite Hin by done. destruct (256 <=? j); [|done]. symmetry. apply entry_same; [|done].
    intros x Hx. apply Hout. unfold PAGE_SIZE in *. lia. }
  assert (Hnu : used (bitmap (v_pmm s2)) n = true).
  { destruct (data_used s2 (n * PAGE_SIZE) Hok2) as [_ Hu]; [apply Hnd; unfold PAGE_SIZE; lia|]. by rewrite Z.div_mul in Hu by done. }
  assert (Hn2 : 0 < n < highest_page (v_pmm s2) / PAGE_SIZE).
  { change (highest_page (v_pmm s2)) with (highest_page (v_pmm s1)). rewrite (ev_high _ _ _ E1). lia. }
  pose proof (add_ok s2 n km Hok2 Hkm Hn2 Hnu Hnd Hne) as Hok3.
  assert (Hnext : v_next s2 = v_next s) by apply (ev_next _ _ _ E1).
  assert (Hmaps : v_maps s2 = v_maps s) by exact M1.
  assert (Hfresh : v_maps s !! v_next s = None).
  { destruct (v_maps s !! v_next s) as [m|] eqn:E; [|done]. apply (so_next _ Hok) in E. lia. }
  split; [exact Hnext|]. split; [exact Hok3|]. split; [|split; [split|split; [|split]]].
  - exists (n * PAGE_SIZE). cbn [add_map v_maps]. by rewrite Hmaps.
  - cbn [add_map v_next]. by rewrite Hnext.
  - exact (ev_high _ _ _ E1).
  - intros pm' va Hva. rewrite <- (ev_view _ _ _ E1) by done. rewrite <- V2 by done. unfold view. cbn [add_map v_maps].
    destruct (decide (pm' = v_next s2)) as [->|Hd]; [|by rewrite lookup_insert_ne by done].
    rewrite lookup_insert_eq, Hmaps, Hnext, Hfresh. unfold entry_of, leaf, leaf_at. cbn [add_map v_pmm top_level]. unfold indices. cbn [walk].
    rewrite Hne by (apply pml_entry_range; [lia|apply Hva]). rewrite (proj2 (Z.leb_gt _ _)) by (by apply user_index). done.
  - intros x Hx. destruct (ev_data _ _ _ E1 x Hx) as [Hx1 Ex].
    assert (Hxz : ~ (n * PAGE_SIZE <= x < n * PAGE_SIZE + PAGE_SIZE)) by (intros H; by destruct (Hz x H) as (_ & _ & H')).
    split; [|cbn [add_map v_pmm]; change (phys (v_pmm s2) x) with (mm x); rewrite Hout by done; exact Ex].
    intros pm' m'. cbn [add_map v_maps]. destruct (decide (pm' = v_next s2)) as [->|Hd].
    + rewrite lookup_insert_eq. intros [= <-]. destruct (D2 x Hx1 _ km Hkm) as (D0 & D1 & Dt). split; [done|]. split; [done|].
      cbn [add_map v_pmm top_level]. intros q y Hq Hw. destruct (add_walk s2 n km Hne q y Hq Hw) as [[_ ->]|(i & r & _ & _ & Hw')]; [done|by apply (Dt q y)].
    + rewrite lookup_insert_ne by done. apply (D2 x Hx1).
  - apply (room_mem mm s1) in R1. destruct R1 as (n1 & [U1 U2] & Hn1). exists n1. split; [by constructor|done].
Qed.
