(* ===== verification/Fork.v ===== *)
(** * Copying an address space ([vmm_fork_pagemap] of src/src/kernel/mm/vmm.c)

    A fork gives the child frames of its own for every anonymous range of the parent, with the
    parent's bytes.  The theorem is about a store of spaces as in Spaces.v.  The copy uses physical
    addresses as pointers; the kernel's own space, which [syscall_fork] loads first, maps the lowest
    4 GiB that way, so the frames are taken to be there. *)
From S2P Require Import Prelude Pmm PageTable Vmm Spaces.
Open Scope Z_scope.

Definition range_pages (r : mmap_range) : Z := r_length r / PAGE_SIZE.
(** The page of [va] counted from the first page of the range. *)
Definition page_in (r : mmap_range) (va : Z) : Z := va / PAGE_SIZE - r_virt_addr r / PAGE_SIZE.
Definition in_range (r : mmap_range) (va : Z) : Prop := 0 <= page_in r va < range_pages r.

(** A private anonymous range of whole pages as the space has it: mapped to the frames it records,
    which hold data. *)
Record anon_range (s : vmm_state) (pm : Z) (r : mmap_range) : Prop := mk_anon_range {
  ar_private : truthy (Z.land (r_flags r) MAP_SHARED) = false;
  ar_anon : truthy (Z.land (r_flags r) MAP_ANON) = true;
  ar_length : 0 < range_pages r /\ r_length r = range_pages r * PAGE_SIZE;
  ar_virt : 0 <= r_virt_addr r /\ r_virt_addr r + r_length r <= 2 ^ 47 - PAGE_SIZE;
  ar_phys : 0 <= r_phys_addr r /\ r_phys_addr r + r_length r <= 2 ^ 32;
  ar_view : forall va, user_va va -> in_range r va ->
    present (view s pm va) = true /\ target (view s pm va) = r_phys_addr r + page_in r va * PAGE_SIZE;
  ar_data : forall x, r_phys_addr r <= x < r_phys_addr r + r_length r -> data s x
}.

Fixpoint ranges_apart (l : list mmap_range) : Prop :=
  match l with
  | [] => True
  | r :: l' => (forall r' va, r' ∈ l' -> in_range r va -> in_range r' va -> False) /\ ranges_apart l'
  end.

(** A frame for every page, and at most three tables for each. *)
Definition fork_cost (l : list mmap_range) : Z := foldr (fun r n => 4 * range_pages r + n) 0 l.

(** [t] is [s] after the ranges [d] were copied to the space [child]. *)
Record forked (s t : vmm_state) (child : Z) (d : list mmap_range) : Prop := mk_forked {
  fk_ok : spaces_ok t;
  fk_child : exists m, v_maps t !! child = Some m;
  fk_other : forall pm va, pm <> child -> user_va va -> view t pm va = view s pm va;
  fk_data : forall x, data s x -> data t x /\ phys (v_pmm t) x = phys (v_pmm s) x;
  fk_in : forall r va, r ∈ d -> user_va va -> in_range r va -> present (view t child va) = true /\
    (let x := target (view t child va) + va mod PAGE_SIZE in
     data t x /\ ~ data s x /\ phys (v_pmm t) x = phys (v_pmm s) (r_phys_addr r + page_in r va * PAGE_SIZE + va mod PAGE_SIZE));
  fk_out : forall va, user_va va -> (forall r, r ∈ d -> ~ in_range r va) -> view t child va = 0
}.

Lemma page_flags_bounds prot : page_flags prot = 5 \/ page_flags prot = 7.
Proof. unfold page_flags. destruct (truthy _); auto. Qed.

(** The entry of a mapped page: present, and leading to the frame. *)
Lemma frame_entry n k flags : 0 <= n -> 0 <= k -> n + k < 2 ^ 40 -> flags = 5 \/ flags = 7 ->
  let e := u64 (Z.lor (u64 (n * PAGE_SIZE + k * PAGE_SIZE)) flags) in present e = true /\ target e = (n + k) * PAGE_SIZE.
Proof.
  intros Hn Hk Hh Hf. replace (n * PAGE_SIZE + k * PAGE_SIZE) with ((n + k) * PAGE_SIZE) by lia.
  rewrite (u64_small ((n + k) * PAGE_SIZE)), lor_flags, u64_small by (unfold PAGE_SIZE; destruct Hf; lia). split.
  - unfold present. rewrite Z.bit0_odd, Z.odd_add. unfold PAGE_SIZE. replace ((n + k) * 4096) with (2 * ((n + k) * 2048)) by lia.
    rewrite Z.odd_mul. by destruct Hf as [->| ->].
  - apply target_page; [lia|]. unfold PAGE_SIZE. destruct Hf; lia.
Qed.

Lemma mapped_in F pm pa va cnt flags va' : 0 <= va' / PAGE_SIZE - va / PAGE_SIZE < cnt ->
  mapped F pm pa va cnt flags pm va' = u64 (Z.lor (u64 (pa + (va' / PAGE_SIZE - va / PAGE_SIZE) * PAGE_SIZE)) flags).
Proof. intros H. unfold mapped. by rewrite Z.eqb_refl, (proj2 (Z.leb_le _ _)), (proj2 (Z.ltb_lt _ _)) by lia. Qed.

Lemma mapped_out F pm pa va cnt flags pm' va' : pm' <> pm \/ ~ (0 <= va' / PAGE_SIZE - va / PAGE_SIZE < cnt) ->
  mapped F pm pa va cnt flags pm' va' = F pm' va'.
Proof.
  intros H. unfold mapped. destruct (Z.eqb_spec pm' pm), (Z.leb_spec 0 (va' / PAGE_SIZE - va / PAGE_SIZE)),
    (Z.ltb_spec (va' / PAGE_SIZE - va / PAGE_SIZE) cnt); cbn [andb]; try done. exfalso. destruct H; [done|lia].
Qed.

(** [c] new frames from [a], zeroed, mapped from [virt] on in the space [pm]; nothing else has changed. *)
Record fresh_mapped (t u : vmm_state) (pm a virt c flags : Z) : Prop := mk_fresh_mapped {
  fm_ev : evolves t u (mapped (view t) pm a virt c flags);
  fm_maps : v_maps u = v_maps t;
  fm_flags : flags = 5 \/ flags = 7;
  fm_frames : exists n, a = n * PAGE_SIZE /\ 0 < n /\ (n + c) * PAGE_SIZE <= 2 ^ 46 /\ n + c <= highest_page (v_pmm t) / PAGE_SIZE;
  fm_new : forall x, a <= x < a + c * PAGE_SIZE -> data u x /\ phys (v_pmm u) x = 0 /\ ~ data t x
}.

(** Frames that were allocated between [t] and [t1], mapped after [t1] has become [t2]. *)
Lemma map_frames pm m n c virt flags k t t1 t2 : evolves t t1 (view t) -> evolves t1 t2 (view t1) -> v_maps t1 = v_maps t -> v_maps t2 = v_maps t1 ->
  v_maps t !! pm = Some m -> 0 < n -> (n + c) * PAGE_SIZE <= 2 ^ 46 -> n + c <= highest_page (v_pmm t) / PAGE_SIZE ->
  (forall x, n * PAGE_SIZE <= x < n * PAGE_SIZE + c * PAGE_SIZE -> data t1 x /\ phys (v_pmm t1) x = 0 /\ ~ data t x) ->
  0 < c -> 0 <= virt -> virt + c * PAGE_SIZE <= 2 ^ 47 - PAGE_SIZE -> flags = 5 \/ flags = 7 -> 0 <= k -> room t2 (3 * c + k) ->
  returns (map_pages pm (n * PAGE_SIZE) virt (c * PAGE_SIZE) flags t2) (fun _ u => fresh_mapped t u pm (n * PAGE_SIZE) virt c flags /\ room u k).
Proof.
  intros E1 E12 M1 M2 Hm Hn Hlow Hhigh Hnew Hc Hv Hhi Hf Hk Hr.
  assert (Ec : (c * PAGE_SIZE + PAGE_SIZE - 1) / PAGE_SIZE = c).
  { symmetry. apply Z.div_unique with (PAGE_SIZE - 1); unfold PAGE_SIZE; lia. }
  eapply returns_mono; [apply (map_pages_total pm m (n * PAGE_SIZE) virt (c * PAGE_SIZE) flags t2 k (ev_ok _ _ _ E12))|].
  - congruence.
  - done.
  - unfold PAGE_SIZE. lia.
  - done.
  - done.
  - by rewrite Ec.
  - intros [] u (E2 & M3 & R2). rewrite Ec in E2. split; [|done]. constructor; [|congruence|done|by exists n|].
    + eapply evolves_trans; [exact E1|]. eapply evolves_trans; [exact E12|]. eapply evolves_ext; [exact E2|]. intros pm' va' Hva'. unfold mapped.
      destruct (_ && _); [done|]. by rewrite (ev_view _ _ _ E12), (ev_view _ _ _ E1).
    + intros x Hx. destruct (Hnew x Hx) as (D1 & Z1 & N1). destruct (ev_data _ _ _ E12 x D1) as [D2 P2].
      destruct (ev_data _ _ _ E2 x D2) as [D3 P3]. split; [done|]. split; [congruence|done].
Qed.

Lemma map_fresh pm m c virt flags k t : spaces_ok t -> v_maps t !! pm = Some m -> 0 < c -> 0 <= virt ->
  virt + c * PAGE_SIZE <= 2 ^ 47 - PAGE_SIZE -> flags = 5 \/ flags = 7 -> 0 <= k -> room t (4 * c + k) ->
  returns (on_phys (pcalloc c) t) (fun a t1 => returns (map_pages pm a virt (c * PAGE_SIZE) flags t1) (fun _ u =>
    fresh_mapped t u pm a virt c flags /\ room u k)).
Proof.
  intros Hok Hm Hc Hv Hhi Hf Hk Hr. eapply returns_mono.
  { apply (alloc_frames c (3 * c + k) t Hok); [|done|lia]. by replace (c + (3 * c + k)) with (4 * c + k) by lia. }
  intros a t1 (E1 & M1 & R1 & n & -> & Hn & Hhigh & Hlow & Hnew).
  by apply (map_frames pm m n c virt flags k t t1 t1); try done; apply evolves_refl, (ev_ok _ _ _ E1).
Qed.

Lemma fresh_at t u pm a virt c flags va : fresh_mapped t u pm a virt c flags -> user_va va -> 0 <= va / PAGE_SIZE - virt / PAGE_SIZE < c ->
  present (view u pm va) = true /\ target (view u pm va) = a + (va / PAGE_SIZE - virt / PAGE_SIZE) * PAGE_SIZE /\
  a <= target (view u pm va) + va mod PAGE_SIZE < a + c * PAGE_SIZE.
Proof.
  intros Hfm Hva Hk. destruct (fm_frames _ _ _ _ _ _ _ Hfm) as (n & -> & Hn & Hlow). rewrite (ev_view _ _ _ (fm_ev _ _ _ _ _ _ _ Hfm)) by done.
  rewrite mapped_in by done. set (k := va / PAGE_SIZE - virt / PAGE_SIZE) in *.
  destruct (frame_entry n k flags) as [Hp Ht]; [lia|lia|unfold PAGE_SIZE in *; lia|apply (fm_flags _ _ _ _ _ _ _ Hfm)|].
  rewrite Hp, Ht. pose proof (Z.mod_pos_bound va PAGE_SIZE ltac:(done)). split; [done|]. split; unfold PAGE_SIZE in *; lia.
Qed.

Lemma fresh_other t u pm a virt c flags pm' va : fresh_mapped t u pm a virt c flags -> user_va va ->
  pm' <> pm \/ ~ (0 <= va / PAGE_SIZE - virt / PAGE_SIZE < c) -> view u pm' va = view t pm' va.
Proof. intros Hfm Hva H. rewrite (ev_view _ _ _ (fm_ev _ _ _ _ _ _ _ Hfm)) by done. by apply mapped_out. Qed.

Section Fork.
Context (vfs_mmap : Z -> Z -> Z -> Z -> Z -> Z -> Z -> VM Z) (s : vmm_state) (pm child : Z).

Lemma dmap_low p : 0 <= p < 2 ^ 46 -> dmap p = p.
Proof. intros H. unfold dmap, PHYS_MEM_OFFSET. by rewrite (proj2 (Z.leb_gt _ _)) by lia. Qed.

(** One range. *)
Lemma fork_range_run r d t k : forked s t child d -> anon_range s pm r -> (forall r' va, r' ∈ d -> in_range r va -> in_range r' va -> False) ->
  0 <= k -> room t (4 * range_pages r + k) ->
  returns (fork_range vfs_mmap child r t) (fun _ t' => forked s t' child (d ++ [r]) /\ room t' k).
Proof.
  intros Hfk Har Hap Hk Hroom. destruct (ar_length _ _ _ Har) as [Hc Hlen]. destruct (ar_virt _ _ _ Har) as [Hv Hhi].
  destruct (ar_phys _ _ _ Har) as [Hp0 Hp1]. set (c := range_pages r) in *. destruct (fk_child _ _ _ _ Hfk) as [m Hm].
  unfold fork_range. rewrite (ar_private _ _ _ Har), (ar_anon _ _ _ Har). fold (range_pages r). fold c. rewrite Hlen in *.
  destruct (map_fresh child m c (r_virt_addr r) (page_flags (r_prot r)) k t (fk_ok _ _ _ _ Hfk) Hm Hc Hv Hhi (page_flags_bounds _) Hk Hroom)
    as (a & t1 & Ra & [] & u & Ru & Hfm & Hroomu).
  destruct (fm_frames _ _ _ _ _ _ _ Hfm) as (n & En & Hn & Hlow). pose proof (fm_ev _ _ _ _ _ _ _ Hfm) as Hev.
  set (mm := memcpy (dmap a) (dmap (r_phys_addr r)) (c * PAGE_SIZE) (phys (v_pmm u))).
  assert (Emm : forall x, mm x = if (a <=? x) && (x <? a + c * PAGE_SIZE) then phys (v_pmm u) (r_phys_addr r + (x - a)) else phys (v_pmm u) x).
  { intros x. unfold mm, memcpy. by rewrite !dmap_low by (unfold PAGE_SIZE in *; lia). }
  destruct (write_data u mm (ev_ok _ _ _ Hev)) as (Hok3 & V3 & D3).
  { intros x. rewrite Emm. destruct (Z.leb_spec a x), (Z.ltb_spec x (a + c * PAGE_SIZE)); cbn [andb]; [right|by left..].
    by apply (fm_new _ _ _ _ _ _ _ Hfm). }
  assert (Hm3 : v_maps (with_mem mm u) !! child = Some m) by (cbn; by rewrite (fm_maps _ _ _ _ _ _ _ Hfm)).
  destruct (push_range_run child m (with_phys_addr a r) (with_mem mm u) Hok3 Hm3) as (t' & Rp & Ep & Pp & Mp).
  exists tt, t'. split.
  { erewrite bind_run; [exact Rp|]. erewrite bind_run by exact Ra. erewrite bind_run by exact Ru. erewrite bind_run by reflexivity. reflexivity. }
  assert (Vt : forall pm' va, user_va va -> view t' pm' va = view u pm' va) by (intros pm' va Hva; rewrite (ev_view _ _ _ Ep) by done; by apply V3).
  assert (Pt : phys (v_pmm t') = mm) by (by rewrite Pp).
  assert (Dt : forall x, data t x -> data t' x /\ mm x = phys (v_pmm t) x).
  { intros x Hx. destruct (ev_data _ _ _ Hev x Hx) as [Hu Eu]. split; [apply (ev_data _ _ _ Ep), D3, Hu|]. rewrite Emm, <- Eu.
    destruct (Z.leb_spec a x), (Z.ltb_spec x (a + c * PAGE_SIZE)); cbn [andb]; try done.
    by destruct (fm_new _ _ _ _ _ _ _ Hfm x) as (_ & _ & Hno). }
  split.
  - constructor.
    + apply (ev_ok _ _ _ Ep).
    + rewrite Mp. eexists. apply lookup_insert_eq.
    + intros pm' va Hne Hva. rewrite Vt, (fresh_other _ _ _ _ _ _ _ _ _ Hfm), (fk_other _ _ _ _ Hfk) by (done || by left). done.
    + intros x Hx. destruct (fk_data _ _ _ _ Hfk x Hx) as [H1 E1]. destruct (Dt x H1) as [H2 E2]. split; [done|]. rewrite Pt. congruence.
    + intros r0 va Hr Hva Hin. rewrite Vt by done. rewrite Pt. apply elem_of_app in Hr as [Hr|Hr].
      * rewrite (fresh_other _ _ _ _ _ _ _ _ _ Hfm) by (done || right; intros Hr'; exact (Hap r0 va Hr Hr' Hin)).
        destruct (fk_in _ _ _ _ Hfk r0 va Hr Hva Hin) as (Q1 & Q2 & Q3 & Q4). destruct (Dt _ Q2) as [Q5 Q6].
        split; [done|]. split; [done|]. split; [done|]. cbv zeta. congruence.
      * apply list_elem_of_singleton in Hr as ->. destruct (fresh_at _ _ _ _ _ _ _ va Hfm Hva Hin) as (Q1 & Q2 & Q3).
        split; [done|]. cbv zeta. destruct (fm_new _ _ _ _ _ _ _ Hfm _ Q3) as (D1 & _ & N1). split; [apply (ev_data _ _ _ Ep), D3, D1|].
        split; [intros Hs; apply N1, (fk_data _ _ _ _ Hfk), Hs|]. rewrite Emm. rewrite (proj2 (Z.leb_le _ _)), (proj2 (Z.ltb_lt _ _)) by lia.
        cbn [andb]. unfold page_in. rewrite Q2 in Q3 |- *.
        set (x := r_phys_addr r + _). set (y := r_phys_addr r + _ * PAGE_SIZE + _). assert (x = y) as -> by (unfold x, y; lia).
        assert (Hy : data s y) by (apply (ar_data _ _ _ Har); rewrite Hlen; unfold y; lia).
        destruct (fk_data _ _ _ _ Hfk y Hy) as [H1 E1]. destruct (ev_data _ _ _ Hev y H1) as [_ E2]. congruence.
    + intros va Hva Hnot. rewrite Vt by done. rewrite (fresh_other _ _ _ _ _ _ _ _ _ Hfm); [|done|].
      * apply (fk_out _ _ _ _ Hfk); [done|]. intros r' Hr'. apply Hnot, elem_of_app. by left.
      * right. apply (Hnot r), elem_of_app. right. by apply list_elem_of_singleton.
  - apply (room_mem mm) in Hroomu. destruct Hroomu as (n1 & [U1 U2] & H1). exists n1. rewrite Pp. split; [by constructor|done].
Qed.

Lemma fork_ranges_run l d t k : forked s t child d -> Forall (anon_range s pm) l -> ranges_apart l ->
  (forall r r' va, r ∈ l -> r' ∈ d -> in_range r va -> in_range r' va -> False) -> 0 <= k -> room t (fork_cost l + k) ->
  returns (fork_ranges vfs_mmap child l t) (fun _ t' => forked s t' child (d ++ l) /\ room t' k).
Proof.
  revert d t. induction l as [|r l IH]; intros d t Hfk Hl Hap Hd Hk Hroom.
  { apply returns_ret. by rewrite app_nil_r. }
  apply Forall_cons in Hl as [Hr Hl]. destruct Hap as [Hr' Hap]. cbn [fork_cost foldr] in Hroom. fold (fork_cost l) in Hroom.
  assert (Hcost : 0 <= fork_cost l).
  { clear -Hl. induction Hl as [|r l Hr _ IH]; cbn; [lia|]. pose proof (ar_length _ _ _ Hr). fold (fork_cost l). lia. }
  cbn [fork_ranges]. eapply returns_bind.
  { apply (fork_range_run r d t (fork_cost l + k) Hfk Hr); [|lia|by rewrite Z.add_assoc].
    intros r' va H1 H2 H3. apply (Hd r r' va); [by left|done..]. }
  intros [] t1 [Hfk1 Hroom1]. replace (d ++ r :: l) with ((d ++ [r]) ++ l) by (by rewrite <- app_assoc).
  apply IH; try done. intros r1 r2 va H1 H2. apply elem_of_app in H2 as [H2|H2].
  - apply (Hd r1 r2 va); [by right|done].
  - apply list_elem_of_singleton in H2 as ->. intros H3 H4. by apply (Hr' r1 va).
Qed.
End Fork.

(** The fork of a space of private anonymous ranges. *)
Lemma fork_cost_nonneg s pm l : Forall (anon_range s pm) l -> 0 <= fork_cost l.
Proof. induction 1 as [|r l Hr _ IH]; cbn; [lia|]. pose proof (ar_length _ _ _ Hr). fold (fork_cost l). lia. Qed.

Lemma fork_pagemap_run vfs_mmap pm m k s : spaces_ok s -> v_maps s !! pm = Some m -> Forall (anon_range s pm) (ranges m) ->
  ranges_apart (ranges m) -> 0 <= k -> room s (1 + (fork_cost (ranges m) + k)) ->
  returns (vmm_fork_pagemap vfs_mmap pm s) (fun child s' => child = v_next s /\ v_maps s !! child = None /\ pm <> child /\
    forked s s' child (ranges m) /\ room s' k).
Proof.
  intros Hok Hm Hl Hap Hk Hroom. unfold vmm_fork_pagemap. pose proof (fork_cost_nonneg s pm _ Hl) as Hcost.
  eapply returns_bind; [apply (create_total s (fork_cost (ranges m) + k) Hok Hroom); lia|].
  intros child s1 (-> & Hok1 & (z & M1) & _ & V1 & D1 & R1).
  assert (Hfresh : v_maps s !! v_next s = None).
  { destruct (v_maps s !! v_next s) as [m0|] eqn:E; [|done]. apply (so_next _ Hok) in E. lia. }
  assert (Hne : pm <> v_next s) by (intros ->; congruence).
  assert (Hm1 : v_maps s1 !! pm = Some m) by (rewrite M1, lookup_insert_ne by done; done).
  rewrite (bind_run _ _ _ _ _ (get_map_run s1 pm m Hm1)).
  assert (Hfk : forked s s1 (v_next s) []).
  { constructor; [done|rewrite M1; eexists; apply lookup_insert_eq|intros pm' va _ Hva; by apply V1|done|intros r va Hr; by apply not_elem_of_nil in Hr|].
    intros va Hva _. rewrite V1 by done. unfold view. by rewrite Hfresh. }
  eapply returns_bind; [apply (fork_ranges_run vfs_mmap s pm (v_next s) (ranges m) [] s1 k Hfk Hl Hap)|].
  { intros r r' va _ Hr'. by apply not_elem_of_nil in Hr'. } { done. } { done. }
  intros [] t [Hfk' Hr]. by apply returns_ret.
Qed.

(** A copied byte, and the frame it is in. *)
Lemma forked_byte s t pm child l r va : forked s t child l -> Forall (anon_range s pm) l -> pm <> child -> r ∈ l -> user_va va -> in_range r va ->
  is_Some (vbyte s pm va) /\ vbyte t child va = vbyte s pm va /\ vbyte t pm va = vbyte s pm va /\
  data t (target (view t child va) + va mod PAGE_SIZE) /\ target (view t child va) <> target (view t pm va).
Proof.
  intros [F1 F2 F3 F4 F5 F6] Hl Hne Hr Hva Hin. destruct (F5 r va Hr Hva Hin) as (P1 & Q1 & Q2 & Q3). rewrite Forall_forall in Hl.
  destruct (ar_view _ _ _ (Hl r Hr) va Hva Hin) as [P2 T2]. pose proof (ar_length _ _ _ (Hl r Hr)) as [Hc Hlen].
  pose proof (Z.mod_pos_bound va PAGE_SIZE ltac:(done)) as Hmod.
  assert (Hd : data s (target (view s pm va) + va mod PAGE_SIZE)).
  { rewrite T2. apply (ar_data _ _ _ (Hl r Hr)). rewrite Hlen. unfold in_range in Hin. unfold PAGE_SIZE in *. lia. }
  unfold vbyte. rewrite !(F3 pm va), P2, P1 by done. split_and!.
  - by eexists.
  - f_equal. rewrite Q3, T2. done.
  - f_equal. by apply F4.
  - exact Q1.
  - intros E. apply Q2. by rewrite E.
Qed.

(** a fork copies the memory of a program: on untouched memory with room for the copies,
    [vmm_fork_pagemap] of a space whose ranges are private anonymous memory returns a new space in
    which a program finds at every address of these ranges the byte that it finds in the parent, in a
    frame of its own, and nothing at other user addresses; the parent still has its bytes, and neither
    the translations nor the data of any other space have changed. *)
Theorem fork_copies_memory (vfs_mmap : Z -> Z -> Z -> Z -> Z -> Z -> Z -> VM Z) (pm : Z) (m : pagemap) (s : vmm_state) :
  spaces_ok s -> highest_page (v_pmm s) <= 2 ^ 32 -> v_maps s !! pm = Some m -> Forall (anon_range s pm) (ranges m) ->
  ranges_apart (ranges m) -> room s (1 + fork_cost (ranges m)) ->
  returns (vmm_fork_pagemap vfs_mmap pm s) (fun child s' => v_maps s !! child = None /\ spaces_ok s' /\
    (forall r va, r ∈ ranges m -> user_va va -> in_range r va -> is_Some (vbyte s pm va) /\
       vbyte s' child va = vbyte s pm va /\ vbyte s' pm va = vbyte s pm va /\ target (view s' child va) <> target (view s' pm va)) /\
    (forall va, user_va va -> (forall r, r ∈ ranges m -> ~ in_range r va) -> vbyte s' child va = None) /\
    (forall pm' va, pm' <> child -> user_va va -> view s' pm' va = view s pm' va) /\
    (forall x, data s x -> phys (v_pmm s') x = phys (v_pmm s) x)).
Proof.
  intros Hok _ Hm Hl Hap Hroom. eapply returns_mono; [apply (fork_pagemap_run vfs_mmap pm m 0 s Hok Hm Hl Hap); [done|by rewrite Z.add_0_r]|].
  intros child t (-> & Hfresh & Hne & Hfk & _). split_and!; try done.
  - apply (fk_ok _ _ _ _ Hfk).
  - intros r va Hr Hva Hin. destruct (forked_byte s t pm _ _ r va Hfk Hl Hne Hr Hva Hin) as (? & ? & ? & _ & ?). done.
  - intros va Hva Hout. unfold vbyte. by rewrite (fk_out _ _ _ _ Hfk).
  - apply (fk_other _ _ _ _ Hfk).
  - intros x Hx. by apply (fk_data _ _ _ _ Hfk).
Qed.

(** ** A program with two pages *)

(** A range over fresh frames is one that a fork copies, also after it was recorded. *)
Lemma fresh_anon t u pm a virt c flags r : fresh_mapped t u pm a virt c flags -> 0 < c -> 0 <= virt ->
  virt + c * PAGE_SIZE <= 2 ^ 47 - PAGE_SIZE -> a + c * PAGE_SIZE <= 2 ^ 32 ->
  r_phys_addr r = a -> r_virt_addr r = virt -> r_length r = c * PAGE_SIZE ->
  truthy (Z.land (r_flags r) MAP_SHARED) = false -> truthy (Z.land (r_flags r) MAP_ANON) = true -> anon_range u pm r.
Proof.
  intros Hfm Hc Hv Hhi Ha Ep Ev El Hs Hn. destruct (fm_frames _ _ _ _ _ _ _ Hfm) as (n & En & H0 & _).
  assert (Hp : range_pages r = c) by (unfold range_pages; rewrite El; by apply Z.div_mul).
  constructor; rewrite ?Hp, ?El, ?Ep, ?Ev; try done.
  - split; [unfold PAGE_SIZE in *; lia|done].
  - intros va Hva Hin. unfold in_range, page_in in *. rewrite Ev, Hp in *. by destruct (fresh_at _ _ _ _ _ _ _ va Hfm Hva Hin) as (? & ? & _).
  - intros x Hx. by apply (fm_new _ _ _ _ _ _ _ Hfm).
Qed.

Lemma anon_evolves s s' pm r : anon_range s pm r -> evolves s s' (view s) -> anon_range s' pm r.
Proof.
  intros [A1 A2 A3 A4 A5 A6 A7] E. constructor; try done.
  - intros va Hva Hin. rewrite (ev_view _ _ _ E) by done. by apply A6.
  - intros x Hx. by apply (ev_data _ _ _ E), A7.
Qed.

(** A machine of [pages] pages with two spaces, the kernel's and one program's, both without pages. *)
Definition spaces_of (bm : list Z) (pages : Z) : vmm_state :=
  mk_vmm (mk_pmm false 1 bm (pages * PAGE_SIZE) (fun _ => 0))
    (<[kernel_pagemap := mk_pagemap false PAGE_SIZE []]> {[ 7 := mk_pagemap false (2 * PAGE_SIZE) [] ]}) 8 0 [].

(** Only the first three pages are in use. *)
Definition three_used (bm : list Z) (pages : Z) : bool :=
  forallb (fun c => eqb (used bm c) (c <? 3)) (seqZ 0 pages).

Lemma three_used_spec bm pages c : three_used bm pages = true -> 0 <= c < pages -> used bm c = (c <? 3).
Proof.
  unfold three_used. rewrite forallb_forall. intros H Hc. apply eqb_prop, H, list_elem_of_In, elem_of_seqZ. lia.
Qed.

Lemma empty_walk z q y : path_ok q -> walk (fun _ => 0) z q = Some y -> q = [] /\ y = z.
Proof. intros _ H. destruct q as [|i q]; [by injection H as <-|]. cbn [walk] in H. by change (entry (fun _ => 0) z i) with 0 in H. Qed.

Lemma spaces_of_ok bm pages : pmm_ready (v_pmm (spaces_of bm pages)) 1 -> 2 < pages -> pages * PAGE_SIZE <= 2 ^ 46 ->
  three_used bm pages = true -> spaces_ok (spaces_of bm pages).
Proof.
  intros Hr Hp Hl Hu.
  assert (Hcase : forall pm m, v_maps (spaces_of bm pages) !! pm = Some m ->
    pm = 1 /\ m = mk_pagemap false (1 * PAGE_SIZE) [] \/ pm = 7 /\ m = mk_pagemap false (2 * PAGE_SIZE) []).
  { intros pm m H. cbn [spaces_of v_maps] in H. destruct (decide (pm = kernel_pagemap)) as [->|Hne].
    - rewrite lookup_insert_eq in H. injection H as <-. by left.
    - rewrite lookup_insert_ne in H by done. apply lookup_singleton_Some in H as [<- <-]. by right. }
  assert (Hin : forall n, n < 3 -> 0 < n -> pt_ok (v_pmm (spaces_of bm pages)) (n * PAGE_SIZE)).
  { intros n H3 H0. apply fresh_pt_ok; cbn [spaces_of v_pmm highest_page bitmap]; rewrite ?Z.div_mul by done; try done; try lia.
    - rewrite (three_used_spec _ _ _ Hu) by lia. done.
    - rewrite (three_used_spec _ _ _ Hu) by lia. by apply Z.ltb_lt. }
  constructor.
  - by eexists.
  - intros pm m H. by destruct (Hcase pm m H) as [[-> _]|[-> _]].
  - intros pm m H. by destruct (Hcase pm m H) as [[_ ->]|[_ ->]].
  - intros pm m H. destruct (Hcase pm m H) as [[_ ->]|[_ ->]]; apply Hin; lia.
  - intros pm pm' m m' i H H' _. done.
  - intros pm pm' m m' p q y H H' Hne Hp' Hq Hwp Hwq. cbn [spaces_of v_pmm phys] in Hwp, Hwq.
    destruct (empty_walk _ _ _ (proj1 Hp') Hwp) as [_ ->]. destruct (empty_walk _ _ _ (proj1 Hq) Hwq) as [_ E].
    destruct (Hcase pm m H) as [[-> ->]|[-> ->]], (Hcase pm' m' H') as [[-> ->]|[-> ->]]; done.
Qed.

Lemma spaces_of_room bm pages : 2 < pages -> three_used bm pages = true -> room (spaces_of bm pages) (pages - 3).
Proof.
  intros Hp Hu. exists 3. cbn [spaces_of v_pmm highest_page]. rewrite Z.div_mul by done. split; [|lia].
  constructor; cbn [spaces_of v_pmm highest_page bitmap]; rewrite Z.div_mul by done; [lia|]. intros c Hc. by apply (three_used_spec bm pages).
Qed.

Definition two_spaces : vmm_state := spaces_of (7 :: replicate 59 0) 480.

Lemma two_spaces_ok : spaces_ok two_spaces.
Proof. apply spaces_of_ok; [constructor; closed_Z|closed_Z..]. Qed.

Lemma two_spaces_room : room two_spaces 477.
Proof. by apply (spaces_of_room _ 480). Qed.

Lemma spaces_isolated_witness :
  (vmm_map_page 7 (5 * PAGE_SIZE) 0x400000 7 two_spaces = Halt /\ ~ has_free (v_pmm two_spaces) 3 \/
   exists s', vmm_map_page 7 (5 * PAGE_SIZE) 0x400000 7 two_spaces = Done (tt, s') /\ v_maps s' = v_maps two_spaces /\
     evolves two_spaces s' (with_page (view two_spaces) 7 0x400000 (Z.lor (5 * PAGE_SIZE) 7))) /\
  (vmm_unmap_page 7 0x400000 two_spaces = Halt /\ ~ has_free (v_pmm two_spaces) 3 \/
   exists s', vmm_unmap_page 7 0x400000 two_spaces = Done (tt, s') /\ v_maps s' = v_maps two_spaces /\
     evolves two_spaces s' (with_page (view two_spaces) 7 0x400000 0)).
Proof.
  apply (spaces_isolated 7 (5 * PAGE_SIZE) 0x400000 7 (mk_pagemap false (2 * PAGE_SIZE) []) two_spaces);
    [exact two_spaces_ok|reflexivity|split; closed_Z].
Defined.

(** Two pages of data at 0x400000. *)
Definition two_pages (a : Z) : mmap_range := mk_range 0 a 0x400000 0 (2 * PAGE_SIZE) MAP_ANON 3.
Definition load_two : VM unit :=
  a ← on_phys (pcalloc 2); map_pages 7 a 0x400000 (2 * PAGE_SIZE) (page_flags 3);; push_range 7 (two_pages a).
Definition parent : vmm_state := match load_two two_spaces with Done (_, s) => s | _ => two_spaces end.

Lemma parent_ok : exists a, spaces_ok parent /\ highest_page (v_pmm parent) <= 2 ^ 32 /\
  v_maps parent !! 7 = Some (mk_pagemap false (2 * PAGE_SIZE) [two_pages a]) /\ anon_range parent 7 (two_pages a) /\ room parent 400 /\
  exists n, a = n * PAGE_SIZE /\ 0 < n /\ n + 2 <= highest_page (v_pmm parent) / PAGE_SIZE.
Proof.
  destruct (map_fresh 7 (mk_pagemap false (2 * PAGE_SIZE) []) 2 0x400000 (page_flags 3) 400 two_spaces two_spaces_ok)
    as (a & t1 & R1 & [] & u & R2 & Hfm & Hroom); try done; [by right|apply (room_le _ _ 477); [lia|exact two_spaces_room]|].
  pose proof (fm_ev _ _ _ _ _ _ _ Hfm) as Hev.
  destruct (push_range_run 7 (mk_pagemap false (2 * PAGE_SIZE) []) (two_pages a) u (ev_ok _ _ _ Hev)) as (s' & R3 & Ep & Pp & Mp).
  { by rewrite (fm_maps _ _ _ _ _ _ _ Hfm). }
  assert (E : parent = s').
  { unfold parent, load_two. erewrite bind_run by exact R1. erewrite bind_run by exact R2. by rewrite R3. }
  assert (Hhigh : highest_page (v_pmm u) = 480 * PAGE_SIZE) by (rewrite (ev_high _ _ _ Hev); done).
  destruct (fm_frames _ _ _ _ _ _ _ Hfm) as (n & -> & Hn & _ & Hlow). change (highest_page (v_pmm two_spaces) / PAGE_SIZE) with 480 in Hlow.
  rewrite E. exists (n * PAGE_SIZE). split_and!.
  - apply (ev_ok _ _ _ Ep).
  - rewrite Pp, Hhigh. closed_Z.
  - by rewrite Mp, lookup_insert_eq.
  - eapply anon_evolves; [|exact Ep]. eapply fresh_anon; [exact Hfm|lia|lia|closed_Z|unfold PAGE_SIZE; lia|done..].
  - destruct Hroom as (k & [U1 U2] & Hk). exists k. rewrite Pp. split; [by constructor|done].
  - exists n. split; [done|]. split; [done|]. rewrite Pp, Hhigh. exact Hlow.
Qed.

Lemma fork_copies_memory_witness : exists child s', vmm_fork_pagemap echo_mmap 7 parent = Done (child, s') /\
  vbyte s' child 0x401000 = vbyte parent 7 0x401000 /\ is_Some (vbyte parent 7 0x401000) /\ vbyte s' child 0x402000 = None.
Proof.
  destruct parent_ok as (a & Hok & Hhigh & Hm & Har & Hroom & _).
  destruct (fork_copies_memory echo_mmap 7 (mk_pagemap false (2 * PAGE_SIZE) [two_pages a]) parent Hok Hhigh Hm)
    as (child & s' & Hrun & _ & _ & Hin & Hout & _).
  - cbn [ranges]. constructor; [exact Har|constructor].
  - cbn [ranges ranges_apart]. split; [|exact I]. intros r' va Hr'. by apply not_elem_of_nil in Hr'.
  - cbn [ranges]. apply (room_le _ _ 400); [closed_Z|exact Hroom].
  - exists child, s'. split; [exact Hrun|]. cbn [ranges] in *.
    destruct (Hin (two_pages a) 0x401000) as (H1 & H2 & _); [by left|split; closed_Z|split; closed_Z|].
    split; [exact H2|]. split; [exact H1|]. apply Hout; [split; closed_Z|].
    intros r Hr Hc. apply list_elem_of_singleton in Hr as ->. destruct Hc as [_ Hc]. vm_compute in Hc. discriminate.
Defined.
