(* ===== verification/Destroy.v ===== *)
(** * Destroying an address space ([vmm_destroy_pagemap] of src/src/kernel/mm/vmm.c)

    The pages of every recorded range are unmapped and their frames given back, then the top level.
    Nothing of another space is touched; the tables below the top level are never given back. *)
From S2P Require Import Prelude Pmm PageTable Vmm Spaces Fork.
Open Scope Z_scope.

(** ** Unmapping a page whose table is there *)

Lemma set_entry_done pm m va v flags s y : space_ok s pm m -> 0 <= va -> walk (phys (v_pmm s)) (top_level m) (indices va) = Some y ->
  exists s', set_entry pm va v flags s = Done (tt, s').
Proof.
  intros [Hm Hl Hpt] Hva Hw. unfold set_entry, LOCK_map.
  erewrite bind_run by (erewrite bind_run by (by apply get_map_run); rewrite Hl; reflexivity).
  erewrite bind_run by (apply get_map_run, lookup_insert_eq). cbn [top_level].
  erewrite bind_run by (apply on_phys_run; exact (walk_pml1_there _ _ _ _ y Hpt Hva Hw)).
  erewrite bind_run by reflexivity.
  erewrite bind_run by (unfold vmm_invalidate_tlb; erewrite bind_run by (apply get_map_run, lookup_insert_eq); reflexivity).
  unfold UNLOCK_map. erewrite bind_run; [eexists; reflexivity|]. apply get_map_run. cbn [v_cr3 set_pmm set_maps]. by destruct (_ =? _); apply lookup_insert_eq.
Qed.

Lemma set_entry_there pm m va v flags s y : spaces_ok s -> v_maps s !! pm = Some m -> user_va va ->
  walk (phys (v_pmm s)) (top_level m) (indices va) = Some y ->
  returns (set_entry pm va v flags s) (fun _ s' => v_maps s' = v_maps s /\ bitmap (v_pmm s') = bitmap (v_pmm s) /\
    evolves s s' (with_page (view s) pm va v) /\
    (forall q, path_ok q -> walk (phys (v_pmm s')) (top_level m) q = walk (phys (v_pmm s)) (top_level m) q)).
Proof.
  intros Hok Hm Hva Hw. pose proof (space_of s pm m Hok Hm) as Hsp.
  destruct (set_entry_done pm m va v flags s y Hsp (proj1 Hva) Hw) as (s' & Hrun). exists tt, s'. split; [exact Hrun|].
  destruct (set_entry_evolves pm m va v flags s Hok Hm Hva) as [[H _]|(s2 & H & Hmaps & Hev & _)]; [congruence|]. rewrite Hrun in H. injection H as <-.
  destruct (set_entry_steps pm m va v flags s Hsp (proj1 Hva)) as [[H _]|(s2 & p & t & H & Hp & _ & _ & K & _ & _ & Hwp & Ht)]; [congruence|].
  rewrite Hrun in H. injection H as <-. rewrite (walk_pml1_there _ _ _ _ y (sp_tables _ _ _ Hsp) (proj1 Hva) Hw) in Hwp. injection Hwp as _ <-.
  split; [done|]. split; [by rewrite Hp|]. split; [done|]. rewrite Hp.
  apply (store_leaf (v_pmm s) (top_level m) (indices va) t (pml_entry 12 va) v (kp_ok _ _ _ _ K) Ht eq_refl);
    [apply indices_ok, Hva|apply pml_entry_range; [lia|apply Hva]].
Qed.

(** A page that a space maps has its table. *)
Lemma present_walk s pm m va : v_maps s !! pm = Some m -> present (view s pm va) = true ->
  is_Some (walk (phys (v_pmm s)) (top_level m) (indices va)).
Proof. intros Hm. unfold view, entry_of, leaf, leaf_at. rewrite Hm. by destruct (walk _ _ _). Qed.

(** ** Giving pages back *)

(** No table of any space is in the pages [n] to [n + k - 1]. *)
Definition no_tables (t : vmm_state) (n k : Z) : Prop := forall pm m q y, v_maps t !! pm = Some m -> path_ok q ->
  walk (phys (v_pmm t)) (top_level m) q = Some y -> ~ (n <= y / PAGE_SIZE < n + k).

Lemma give_back_run n k t : spaces_ok t -> 0 <= n -> 0 <= k -> n + k <= highest_page (v_pmm t) / PAGE_SIZE ->
  exists p, pmm_free_pages (n * PAGE_SIZE) k (v_pmm t) = Done (tt, p) /\ frame (v_pmm t) p /\
    forall c, 0 <= c -> used (bitmap p) c = if (n <=? c) && (c <? n + k) then false else used (bitmap (v_pmm t)) c.
Proof.
  intros Hok Hn Hk Hhi. destruct (ready_of t Hok) as ([R1 R2 R3 R4 R5] & Hlow & _).
  unfold pmm_free_pages. apply (pmm_pages_op pmm_free_page false (v_pmm t) (highest_page (v_pmm t) / PAGE_SIZE)); try done; [by right| |].
  - by replace (highest_page (v_pmm t) / PAGE_SIZE + 1 - 1) with (highest_page (v_pmm t) / PAGE_SIZE) in R4 by lia.
  - unfold PAGE_SIZE in *. lia.
Qed.

Lemma freed_ok t p n k : spaces_ok t -> frame (v_pmm t) p -> 0 < n -> no_tables t n k ->
  (forall c, 0 <= c -> used (bitmap p) c = if (n <=? c) && (c <? n + k) then false else used (bitmap (v_pmm t)) c) ->
  spaces_ok (set_pmm p t).
Proof.
  intros Hok [F1 F2 F3 F4 F5] Hn Hno Hu. constructor; cbn [v_maps v_next v_pmm set_pmm]; rewrite ?F5; try apply Hok.
  intros pm m Hm. destruct (so_tables _ Hok pm m Hm) as [[R1 R2 R3 R4 R5] Hl H0 Ht Htree]. constructor; rewrite ?F4, ?F5; try done.
  - constructor; rewrite ?F1, ?F4; try done. unfold covers in *. by rewrite F3.
  - rewrite Hu by lia. by rewrite (proj2 (Z.leb_gt _ _)) by lia.
  - intros q y Hq Hw. destruct (Ht q y Hq Hw) as (c & -> & Hc & Huc). exists c. rewrite F4. split; [done|]. split; [done|].
    rewrite Hu by lia. pose proof (Hno pm m q _ Hm Hq Hw) as Hout. rewrite Z.div_mul in Hout by done.
    destruct (Z.leb_spec n c), (Z.ltb_spec c (n + k)); cbn [andb]; try done. lia.
Qed.

(** ** The steps of the destruction *)

(** [t] is [s] after pages of the space [pm] were unmapped and the pages [F] given back. *)
Record cleared (s t : vmm_state) (pm : Z) (m : pagemap) (F : Z -> bool) : Prop := mk_cleared {
  cl_ok : spaces_ok t;
  cl_maps : v_maps t = v_maps s;
  cl_next : v_next t = v_next s;
  cl_high : highest_page (v_pmm t) = highest_page (v_pmm s);
  cl_walk : forall q, path_ok q -> walk (phys (v_pmm t)) (top_level m) q = walk (phys (v_pmm s)) (top_level m) q;
  cl_other : forall pm' va, pm' <> pm -> user_va va -> view t pm' va = view s pm' va;
  cl_data : forall x, data s x -> F (x / PAGE_SIZE) = false -> data t x /\ phys (v_pmm t) x = phys (v_pmm s) x;
  cl_used : forall c, 0 <= c -> used (bitmap (v_pmm t)) c = if F c then false else used (bitmap (v_pmm s)) c
}.

Lemma cleared_unmap s t pm m F va : v_maps s !! pm = Some m -> cleared s t pm m F -> user_va va ->
  is_Some (walk (phys (v_pmm s)) (top_level m) (indices va)) ->
  returns (vmm_unmap_page pm va t) (fun _ t' => cleared s t' pm m F).
Proof.
  intros Hm [A1 A2 A3 A4 A5 A6 A7 A8] Hva [y Hy]. eapply returns_mono.
  { apply (set_entry_there pm m va 0 7 t y A1); [by rewrite A2|done|]. rewrite A5; [done|]. apply indices_ok, Hva. }
  intros [] t' (M & B & E & W). constructor.
  - apply (ev_ok _ _ _ E).
  - congruence.
  - rewrite (ev_next _ _ _ E). done.
  - rewrite (ev_high _ _ _ E). done.
  - intros q Hq. rewrite W by done. by apply A5.
  - intros pm' va' Hne Hva'. rewrite (ev_view _ _ _ E) by done. unfold with_page. rewrite (proj2 (Z.eqb_neq pm' pm)) by done. by apply A6.
  - intros x Hx Hf. destruct (A7 x Hx Hf) as [D P]. destruct (ev_data _ _ _ E x D) as [D' P']. split; [done|congruence].
  - intros c Hc. rewrite B. by apply A8.
Qed.

Lemma cleared_free s t pm m F n k : cleared s t pm m F -> 0 < n -> 0 <= k -> n + k <= highest_page (v_pmm s) / PAGE_SIZE ->
  (forall x, n * PAGE_SIZE <= x < (n + k) * PAGE_SIZE -> data s x) ->
  returns (on_phys (pmm_free_pages (n * PAGE_SIZE) k) t) (fun _ t' => cleared s t' pm m (fun c => (n <=? c) && (c <? n + k) || F c)).
Proof.
  intros [A1 A2 A3 A4 A5 A6 A7 A8] Hn Hk Hhi Hd.
  destruct (give_back_run n k t A1) as (p & Hrun & Hfr & Hu); [lia|done|by rewrite A4|].
  exists tt, (set_pmm p t). split; [by apply on_phys_run|]. pose proof (frame_phys _ _ Hfr) as Hp.
  assert (Hno : no_tables t n k).
  { intros pm' m' q y Hm' Hq Hw Hin. destruct (pt_use _ _ (so_tables _ A1 pm' m' Hm') q y Hq Hw) as (c & -> & Hc & Huc).
    rewrite Z.div_mul in Hin by done. rewrite A8 in Huc by lia. destruct (F c) eqn:Ef; [done|].
    destruct (A7 (c * PAGE_SIZE)) as [D _]; [apply Hd; unfold PAGE_SIZE; lia|by rewrite Z.div_mul|].
    destruct (D pm' m' Hm') as (_ & _ & Hnot). apply (Hnot q _ Hq Hw). unfold PAGE_SIZE. lia. }
  constructor; cbn [v_maps v_next v_pmm set_pmm]; rewrite ?Hp; try done.
  - by apply (freed_ok t p n k).
  - by rewrite (frame_top _ _ Hfr).
  - intros pm' va Hne Hva. unfold view, entry_of. cbn [v_maps v_pmm set_pmm]. rewrite Hp. by apply A6.
  - intros x Hx Hf. apply orb_false_iff in Hf as [Hout Hf]. destruct (A7 x Hx Hf) as [D P]. split; [|done].
    intros pm' m' Hm'. destruct (D pm' m' Hm') as (H0 & H1 & H2). split; [done|]. cbn [v_pmm set_pmm]. rewrite Hp. split; [|done].
    rewrite Hu, Hout; [done|]. apply Z.div_pos; [done|]. by unfold PAGE_SIZE.
  - intros c Hc. rewrite Hu, A8 by done. by destruct (_ && _).
Qed.

(** ** A range, and all of them *)

(** A range that the destruction can give back: private anonymous memory in frames of whole pages above page 0. *)
Definition owned_range (s : vmm_state) (pm : Z) (r : mmap_range) : Prop :=
  anon_range s pm r /\ exists n, r_phys_addr r = n * PAGE_SIZE /\ 0 < n /\ n + range_pages r <= highest_page (v_pmm s) / PAGE_SIZE.

(** The pages of the frames of the ranges. *)
Definition frame_of (l : list mmap_range) (c : Z) : bool :=
  existsb (fun r => (r_phys_addr r / PAGE_SIZE <=? c) && (c <? r_phys_addr r / PAGE_SIZE + range_pages r)) l.

Lemma destroy_range_run s pm m r d t : v_maps s !! pm = Some m -> owned_range s pm r -> cleared s t pm m (frame_of d) ->
  returns (destroy_range pm r t) (fun _ t' => cleared s t' pm m (frame_of (r :: d))).
Proof.
  intros Hm (Har & n & En & Hn & Hhi) Hcl. destruct (ar_length _ _ _ Har) as [Hc Hlen]. destruct (ar_virt _ _ _ Har) as [Hv Hvhi].
  set (c := range_pages r) in *. unfold destroy_range. rewrite (ar_anon _ _ _ Har). cbn [when].
  assert (Ecount : (r_length r + PAGE_SIZE - 1) / PAGE_SIZE = c).
  { rewrite Hlen. replace (c * PAGE_SIZE + PAGE_SIZE - 1) with (PAGE_SIZE - 1 + c * PAGE_SIZE) by lia. by rewrite Z.div_add. }
  rewrite Ecount. fold (range_pages r). fold c. eapply returns_bind.
  { apply (for_n_returns (fun _ t' => cleared s t' pm m (frame_of d))); [exact Hcl|]. intros j t' Hj Ht'.
    assert (Hva : user_va (r_virt_addr r + j * PAGE_SIZE)) by (unfold user_va, PAGE_SIZE in *; lia).
    rewrite u64_small by (unfold user_va in Hva; lia). apply (cleared_unmap s t' pm m); [done|done|done|].
    apply (present_walk s pm m _ Hm). apply (ar_view _ _ _ Har); [done|]. unfold in_range, page_in. fold c. rewrite Z.div_add by done. lia. }
  intros [] t1 Hcl1. rewrite En. eapply returns_mono.
  { apply (cleared_free s t1 pm m (frame_of d) n c Hcl1 Hn ltac:(lia) Hhi). intros x Hx. apply (ar_data _ _ _ Har). rewrite En, Hlen. lia. }
  intros [] t2 Hcl2. unfold frame_of at 1. cbn [existsb]. fold (frame_of d). rewrite En, Z.div_mul by done. exact Hcl2.
Qed.

Lemma destroy_ranges_run s pm m l d t : v_maps s !! pm = Some m -> Forall (owned_range s pm) l -> cleared s t pm m (frame_of d) ->
  returns (destroy_ranges pm l t) (fun _ t' => cleared s t' pm m (frame_of (rev l ++ d))).
Proof.
  intros Hm Hl. revert d t. induction Hl as [|r l Hr _ IH]; intros d t Hcl; [by apply returns_ret|].
  cbn [destroy_ranges rev]. eapply returns_bind; [by apply (destroy_range_run s pm m r d t)|].
  intros [] t1 Hcl1. rewrite <- app_assoc. exact (IH (r :: d) t1 Hcl1).
Qed.

(** ** The top level *)

(** A space that is not the kernel's can go when its top level is free. *)
Lemma drop_space s p pm m : spaces_ok s -> v_maps s !! pm = Some m -> pm <> kernel_pagemap -> frame (v_pmm s) p ->
  (forall c, 0 <= c -> used (bitmap p) c = if (top_level m / PAGE_SIZE <=? c) && (c <? top_level m / PAGE_SIZE + 1) then false else used (bitmap (v_pmm s)) c) ->
  spaces_ok (set_maps (delete pm (v_maps s)) (set_pmm p s)).
Proof.
  intros Hok Hm Hk Hfr Hu. assert (Hroot : path_ok []) by (split; [simpl; lia|constructor]).
  destruct (pt_use _ _ (so_tables _ Hok pm m Hm) [] _ Hroot eq_refl) as (n & En & Hn & _). rewrite En, Z.div_mul in Hu by done.
  set (s1 := set_maps (delete pm (v_maps s)) s).
  assert (Hsub : forall pm' m', v_maps s1 !! pm' = Some m' -> v_maps s !! pm' = Some m' /\ pm' <> pm).
  { intros pm' m' H. cbn [s1 v_maps set_maps] in H. apply lookup_delete_Some in H as [Hne H]. split; [exact H|congruence]. }
  assert (Hok1 : spaces_ok s1).
  { constructor; cbn [s1 v_maps v_next v_pmm set_maps].
    - destruct (so_kernel _ Hok) as [k Hkm]. exists k. by rewrite lookup_delete_ne.
    - intros pm' m' H. by apply (so_next _ Hok _ _ (proj1 (Hsub _ _ H))).
    - intros pm' m' H. by apply (so_idle _ Hok pm' _ (proj1 (Hsub _ _ H))).
    - intros pm' m' H. by apply (so_tables _ Hok pm' _ (proj1 (Hsub _ _ H))).
    - intros pm1 pm2 m1 m2 i H1 H2. apply (so_shared _ Hok pm1 pm2); [exact (proj1 (Hsub _ _ H1))|exact (proj1 (Hsub _ _ H2))].
    - intros pm1 pm2 m1 m2 q1 q2 y H1 H2. apply (so_apart _ Hok pm1 pm2); [exact (proj1 (Hsub _ _ H1))|exact (proj1 (Hsub _ _ H2))]. }
  apply (freed_ok s1 p n 1 Hok1 Hfr); [lia| |exact Hu]. intros pm' m' q y Hm' Hq Hw Hin. destruct (Hsub _ _ Hm') as [Hm0 Hne].
  destruct (pt_use _ _ (so_tables _ Hok pm' m' Hm0) q y Hq Hw) as (c & -> & _). rewrite Z.div_mul in Hin by done.
  apply (tables_apart s Hok pm pm' m m' [] q (top_level m) Hm Hm0 (not_eq_sym Hne) (conj Hroot I) Hq eq_refl). rewrite En. replace n with c by lia. exact Hw.
Qed.

(** an address space is destroyed: for a space of private anonymous ranges that is not the kernel's,
    [vmm_destroy_pagemap] returns, and the space is gone; the frames of its ranges and its top level are
    free again and every other page is in use exactly if it was before, so the tables below the top level
    stay allocated; all other spaces translate every user address as before, no byte of data outside the freed
    frames has changed, and the separation of the spaces is kept. *)
Theorem space_destroyed (pm : Z) (m : pagemap) (s : vmm_state) :
  spaces_ok s -> v_maps s !! pm = Some m -> pm <> kernel_pagemap -> Forall (owned_range s pm) (ranges m) ->
  returns (vmm_destroy_pagemap pm s) (fun _ s' => v_maps s' = delete pm (v_maps s) /\ v_next s' = v_next s /\ spaces_ok s' /\
    (forall c, 0 <= c -> used (bitmap (v_pmm s')) c =
       if (c =? top_level m / PAGE_SIZE) || frame_of (ranges m) c then false else used (bitmap (v_pmm s)) c) /\
    (forall pm' va, pm' <> pm -> user_va va -> view s' pm' va = view s pm' va) /\
    (forall x, data s x -> frame_of (ranges m) (x / PAGE_SIZE) = false -> data s' x /\ phys (v_pmm s') x = phys (v_pmm s) x)).
Proof.
  intros Hok Hm Hk Hl. unfold vmm_destroy_pagemap. rewrite (bind_run _ _ _ _ _ (get_map_run s pm m Hm)).
  assert (Hroot : path_ok []) by (split; [simpl; lia|constructor]).
  eapply returns_bind; [apply (destroy_ranges_run s pm m (ranges m) [] s Hm Hl); constructor; done|].
  intros [] t [A1 A2 A3 A4 A5 A6 A7 A8]. rewrite app_nil_r in *.
  assert (Hmt : v_maps t !! pm = Some m) by (by rewrite A2).
  destruct (pt_use _ _ (so_tables _ A1 pm m Hmt) [] _ Hroot eq_refl) as (n & En & Hn & Hun).
  destruct (give_back_run n 1 t A1) as (p & Hrun & Hfr & Hu); [lia|lia|lia|].
  erewrite bind_run by (apply on_phys_run; rewrite En; exact Hrun). exists tt, (set_maps (delete pm (v_maps t)) (set_pmm p t)). split; [reflexivity|].
  assert (Hrev : forall c, frame_of (rev (ranges m)) c = frame_of (ranges m) c).
  { intros c. unfold frame_of. apply eq_true_iff_eq. rewrite !existsb_exists. by setoid_rewrite <- in_rev. }
  cbn [v_maps v_next v_pmm set_maps set_pmm]. split; [by rewrite A2|]. split; [done|]. split.
  { apply (drop_space t p pm m A1 Hmt Hk Hfr). by rewrite En, Z.div_mul. }
  rewrite En, Z.div_mul by done. split; [|split].
  - intros c Hc. rewrite Hu, A8, Hrev by done.
    replace ((n <=? c) && (c <? n + 1)) with (c =? n) by (destruct (Z.eqb_spec c n), (Z.leb_spec n c), (Z.ltb_spec c (n + 1)); try done; lia).
    by destruct (c =? n).
  - intros pm' va Hne Hva. rewrite <- (A6 pm' va Hne Hva). unfold view, entry_of. cbn [v_maps v_pmm set_maps set_pmm].
    by rewrite lookup_delete_ne, (frame_phys _ _ Hfr).
  - intros x Hx Hf. destruct (A7 x Hx) as [D P]; [by rewrite Hrev|]. rewrite (frame_phys _ _ Hfr). split; [|done].
    intros pm' m' Hm'. cbn [v_maps set_maps] in Hm'. apply lookup_delete_Some in Hm' as [_ Hm']. destruct (D pm' m' Hm') as (H0 & H1 & H2). split; [done|].
    cbn [v_pmm set_maps set_pmm]. rewrite (frame_phys _ _ Hfr). split; [|done]. rewrite Hu by (apply Z.div_pos; [done|by unfold PAGE_SIZE]).
    destruct (D pm m Hmt) as (_ & _ & Htop). pose proof (Htop [] _ Hroot eq_refl) as Hout. rewrite En in Hout.
    destruct (Z.leb_spec n (x / PAGE_SIZE)), (Z.ltb_spec (x / PAGE_SIZE) (n + 1)); cbn [andb]; try done.
    exfalso. apply Hout. pose proof (Z.div_mod x PAGE_SIZE ltac:(done)). pose proof (Z.mod_pos_bound x PAGE_SIZE ltac:(done)). unfold PAGE_SIZE in *. lia.
Qed.

(** What is left of a range when the spaces around it change. *)
Lemma owned_kept v u pm r : owned_range v pm r -> (forall va, user_va va -> view u pm va = view v pm va) -> (forall x, data v x -> data u x) ->
  highest_page (v_pmm u) = highest_page (v_pmm v) -> owned_range u pm r.
Proof.
  intros [[A1 A2 A3 A4 A5 A6 A7] H] V D Hh. split; [|by rewrite Hh]. constructor; try done.
  - intros va Hva Hin. rewrite V by done. by apply A6.
  - intros x Hx. by apply D, A7.
Qed.

Lemma frame_of_data v pm l x : Forall (owned_range v pm) l -> frame_of l (x / PAGE_SIZE) = true -> data v x.
Proof.
  intros Hl. unfold frame_of. rewrite existsb_exists. intros (r & Hr & Hb). apply andb_true_iff in Hb as [H1%Z.leb_le H2%Z.ltb_lt].
  rewrite Forall_forall in Hl. destruct (Hl r ltac:(by apply list_elem_of_In)) as (Har & n & En & _). apply (ar_data _ _ _ Har).
  rewrite En, Z.div_mul in * by done. rewrite (proj2 (ar_length _ _ _ Har)).
  pose proof (Z.div_mod x PAGE_SIZE ltac:(done)). pose proof (Z.mod_pos_bound x PAGE_SIZE ltac:(done)). unfold PAGE_SIZE in *. lia.
Qed.

Lemma space_destroyed_witness : exists s', vmm_destroy_pagemap 7 parent = Done (tt, s') /\ v_maps s' !! 7 = None /\ used (bitmap (v_pmm s')) 2 = false /\
  used (bitmap (v_pmm s')) 0 = true.
Proof.
  destruct parent_ok as (a & Hok & _ & Hm & Har & _ & n & En & Hn & Hhi).
  destruct (space_destroyed 7 (mk_pagemap false (2 * PAGE_SIZE) [two_pages a]) parent Hok Hm) as ([] & s' & E & M & _ & Hok' & Hu & _).
  - discriminate.
  - constructor; [|constructor]. split; [exact Har|]. exists n. split; [exact En|]. split; [exact Hn|exact Hhi].
  - exists s'. split; [exact E|]. clear E. split; [rewrite M; apply lookup_delete_eq|]. split; [apply Hu; lia|].
    destruct (ready_of s' Hok') as (_ & _ & H0). exact H0.
Defined.
