(* ===== verification/KernelSpace.v ===== *)
(** * The first address space (src/src/kernel/mm/vmm.c, [init_vmm], after [init_pmm] of mm/pmm.c)

    What the kernel's own tables map when the kernel starts: the memory below 4 GiB at its own
    addresses and in the direct map, and the kernel's image in the last 2 GiB.  The spaces of all
    programs start from the kernel half of these tables. *)
From S2P Require Import Prelude Pmm PageTable Vmm Spaces.
Open Scope Z_scope.

(** The number of a page as the tables see it: the 36 bits above the offset. *)
Definition page_no (va : Z) : Z := (va / PAGE_SIZE) mod 2 ^ 36.

(** The tables on the way to the 512 pages of a region of 2 MiB. *)
Definition region_path (r : Z) : list Z := [(r / 2 ^ 18) mod 512; (r / 2 ^ 9) mod 512; r mod 512].

Lemma indices_region va : 0 <= va -> indices va = region_path (va / 2 ^ 21).
Proof.
  intros Hva. unfold indices, region_path. rewrite !pml_entry_spec by lia. by rewrite !Z.div_div by lia.
Qed.

Lemma same_page_no va va' : same_page va va' = (page_no va =? page_no va').
Proof. reflexivity. Qed.

(** The last level of the tables is [F], and [k] pages are left besides those that one mapping can need. *)
Record kernel_tables (s : vmm_state) (m : pagemap) (F : Z -> Z) (k : Z) : Prop := mk_kernel_tables {
  kt_space : space_ok s kernel_pagemap m;
  kt_maps : v_maps s = {[ kernel_pagemap := m ]};
  kt_entry : forall va, 0 <= va -> entry_of s m va = F (page_no va);
  kt_free : 0 <= k /\ has_free (v_pmm s) (Z.to_nat (3 + k))
}.

Definition table_there (s : vmm_state) (m : pagemap) (path : list Z) : Prop :=
  is_Some (walk (phys (v_pmm s)) (top_level m) path).

(** What only grows: the tables, never the counter of spaces. *)
Record grows (s s' : vmm_state) (m : pagemap) : Prop := mk_grows {
  gr_walk : forall q, path_ok q -> table_there s m q -> table_there s' m q;
  gr_next : v_next s' = v_next s
}.

Lemma grows_refl s m : grows s s m.
Proof. by constructor. Qed.
Lemma grows_trans s t u m : grows s t m -> grows t u m -> grows s u m.
Proof. intros [A1 A2] [B1 B2]. constructor; [auto|congruence]. Qed.

Lemma kt_ext s m F G k : (forall p, 0 <= p < 2 ^ 36 -> F p = G p) -> kernel_tables s m F k -> kernel_tables s m G k.
Proof.
  intros H [A B C D]. constructor; try done. intros va Hva. rewrite <- H; [by apply C|]. apply Z.mod_pos_bound. lia.
Qed.

(** ** One page *)

(** A mapping takes no page if the table of its region is there, and at most three if not. *)
Lemma map_kernel s m F c k pa va flags : kernel_tables s m F (c + k) -> 0 <= va -> 0 <= k ->
  c = 3 \/ c = 0 /\ table_there s m (region_path (va / 2 ^ 21)) ->
  returns (vmm_map_page kernel_pagemap pa va flags s) (fun _ s' =>
    kernel_tables s' m (fun p => if page_no va =? p then u64 (Z.lor pa flags) else F p) k /\ grows s s' m /\
    table_there s' m (region_path (va / 2 ^ 21))).
Proof.
  intros [Hsp Hmaps HF [_ Hfree]] Hva Hk Hc. rewrite <- (indices_region va Hva) in *.
  change (vmm_map_page kernel_pagemap pa va flags) with (set_entry kernel_pagemap va (Z.lor pa flags) flags).
  destruct (set_entry_steps kernel_pagemap m va (Z.lor pa flags) flags s Hsp Hva)
    as [[_ Hn]|(s' & p & t & Hrun & Hp & Hm' & Hnext & K & Hf & _ & Hw & Ht)].
  { exfalso. apply Hn. eapply has_free_le, Hfree. lia. }
  destruct (set_entry_cases kernel_pagemap m va (Z.lor pa flags) flags s Hsp Hva) as [[H _]|(s2 & Hrun2 & Hrm)]; [congruence|].
  rewrite Hrun in Hrun2. injection Hrun2 as <-. exists tt, s'. split; [exact Hrun|].
  assert (Hwalk : forall q, path_ok q -> walk (phys (v_pmm s')) (top_level m) q = walk (phys p) (top_level m) q).
  { rewrite Hp. apply (store_leaf p (top_level m) (indices va) t (pml_entry 12 va) (Z.lor pa flags) (kp_ok _ _ _ _ K) Ht eq_refl);
      [by apply indices_ok|by apply pml_entry_range]. }
  split; [|split].
  - constructor; [apply (rm_space _ _ _ _ _ Hrm)|by rewrite Hm'| |].
    + intros va' Hva'. rewrite (rm_entries _ _ _ _ _ Hrm va' Hva'), same_page_no, HF by done. done.
    + split; [done|]. assert (H : has_free p (Z.to_nat (3 + k))).
      { destruct Hc as [->|(-> & y & Hy)].
        - apply Hf. by replace (3 + Z.to_nat (3 + k))%nat with (Z.to_nat (3 + (3 + k))) by lia.
        - rewrite (walk_pml1_there _ _ _ _ y (sp_tables _ _ _ Hsp) Hva Hy) in Hw. by injection Hw as _ <-. }
      rewrite Hp. exact H.
  - constructor; [|done]. intros q Hq [y Hy]. exists y. rewrite Hwalk by done. by apply (kp_walk _ _ _ _ K).
  - exists t. rewrite Hwalk; [done|by apply indices_ok].
Qed.

(** ** Consecutive pages *)

(** A loop over pages that pays [c] pages for a region that has no tables yet, and nothing after. *)
Section Regions.
Context (body : Z -> VM unit) (Q : Z -> Z -> vmm_state -> Prop) (there : Z -> vmm_state -> Prop) (c lo hi : Z).
Hypothesis (Hc : 0 <= c) (Hlo : 0 <= lo).
Hypothesis Hmono : forall i k k' s, Q i k s -> 0 <= k' <= k -> Q i k' s.
Hypothesis Hbody : forall i d k s, lo <= i < 512 * hi -> 0 <= k -> Q i (d + k) s -> d = c \/ d = 0 /\ there (i / 512) s ->
  returns (body i s) (fun _ s' => Q (i + 1) k s' /\ there (i / 512) s').

Definition affordable (i k : Z) (s : vmm_state) : Prop :=
  Q i (c * (hi - i / 512) + k) s \/ i / 512 < hi /\ there (i / 512) s /\ Q i (c * (hi - i / 512 - 1) + k) s.

Lemma region_loop n i k s : lo <= i -> i + Z.of_nat n <= 512 * hi -> 0 <= k -> affordable i k s ->
  returns (for_n n i body s) (fun _ s' => Q (i + Z.of_nat n) k s').
Proof using Hc Hlo Hmono Hbody.
  intros Hi Hn Hk. revert i s Hi Hn. induction n as [|n IH]; intros i s Hi Hn Ha.
  { apply returns_ret. rewrite Z.add_0_r. pose proof (Z.div_le_upper_bound i 512 hi ltac:(done) ltac:(lia)).
    destruct Ha as [Ha|(? & _ & Ha)]; (eapply Hmono; [exact Ha|nia]). }
  assert (Hr : i / 512 < hi) by (apply Z.div_lt_upper_bound; lia).
  cbn [for_n]. eapply returns_bind with (Q := fun _ s' => Q (i + 1) (c * (hi - i / 512 - 1) + k) s' /\ there (i / 512) s').
  - destruct Ha as [Ha|(_ & Ht & Ha)].
    + apply (Hbody i c); [lia|nia| |by left]. by replace (c + (c * (hi - i / 512 - 1) + k)) with (c * (hi - i / 512) + k) by lia.
    + apply (Hbody i 0); [lia|nia| |by right]. by rewrite Z.add_0_l.
  - intros [] s' [HQ Ht]. replace (i + Z.of_nat (S n)) with (i + 1 + Z.of_nat n) by lia. apply IH; [lia|lia|].
    destruct (Z.eq_dec ((i + 1) / 512) (i / 512)) as [E|E]; [right|left].
    + rewrite E. split; [done|]. by split.
    + replace ((i + 1) / 512) with (i / 512 + 1).
      2:{ pose proof (Z.div_mod i 512 ltac:(done)). pose proof (Z.mod_pos_bound i 512 ltac:(done)).
          pose proof (Z.div_mod (i + 1) 512 ltac:(done)). pose proof (Z.mod_pos_bound (i + 1) 512 ltac:(done)). lia. }
      by replace (c * (hi - (i / 512 + 1)) + k) with (c * (hi - i / 512 - 1) + k) by lia.
Qed.
End Regions.

(** The last level after the first [i] pages below 4 GiB, and after [j] pages of the kernel's image. *)
Definition low_entries (i p : Z) : Z :=
  if (1 <=? p) && (p <? i) then p * PAGE_SIZE + 3
  else if (2 ^ 35 + 1 <=? p) && (p <? 2 ^ 35 + i) then (p - 2 ^ 35) * PAGE_SIZE + 3 else 0.
Definition image_page : Z := 2 ^ 36 - 2 ^ 19.
Definition boot_entries (j p : Z) : Z :=
  if (image_page <=? p) && (p <? image_page + j) then (p - image_page) * PAGE_SIZE + 7 else low_entries (2 ^ 20) p.

Lemma boot_frame_entry i fl : 0 <= i < 2 ^ 36 -> 0 <= fl < 8 -> u64 (Z.lor (i * PAGE_SIZE) fl) = i * PAGE_SIZE + fl.
Proof. intros Hi Hf. rewrite lor_flags by (unfold PAGE_SIZE; lia). apply u64_small. unfold PAGE_SIZE. lia. Qed.

Lemma page_no_at b i : 0 <= i -> page_no (b * PAGE_SIZE + i * PAGE_SIZE) = (b + i) mod 2 ^ 36.
Proof. intros Hi. unfold page_no. by rewrite <- Z.mul_add_distr_r, Z.div_mul. Qed.

Lemma region_at b i : (b * 2 ^ 21 + i * PAGE_SIZE) / 2 ^ 21 = b + i / 512.
Proof. rewrite Z.add_comm, Z.div_add by done. change (2 ^ 21) with (PAGE_SIZE * 512). by rewrite <- Z.div_div, Z.div_mul, Z.add_comm by done. Qed.

Lemma region_path_ok r : path_ok (region_path r).
Proof. split; [simpl; lia|]. repeat (apply Forall_cons; split; [apply Z.mod_pos_bound; lia|]). constructor. Qed.

(** ** The loops of [init_vmm] *)

Section Loops.
Context (s0 : vmm_state) (m : pagemap).

Definition at_page (F : Z -> Z -> Z) (i k : Z) (s : vmm_state) : Prop := kernel_tables s m (F i) k /\ grows s0 s m.

Lemma at_page_mono F i k k' s : at_page F i k s -> 0 <= k' <= k -> at_page F i k' s.
Proof. intros [[A B C [D E]] G] Hk. split; [|done]. constructor; try done. split; [lia|]. eapply has_free_le, E. lia. Qed.

Definition direct_region : Z := PHYS_MEM_OFFSET / 2 ^ 21.
Definition image_region : Z := KERNEL_MEM_OFFSET / 2 ^ 21.
Definition low_there (r : Z) (s : vmm_state) : Prop :=
  table_there s m (region_path r) /\ table_there s m (region_path (direct_region + r)).
Definition image_there (r : Z) (s : vmm_state) : Prop := table_there s m (region_path (image_region + r)).

Lemma low_body i d k s : 1 <= i < 512 * 2048 -> 0 <= k -> at_page low_entries i (d + k) s -> d = 6 \/ d = 0 /\ low_there (i / 512) s ->
  returns ((vmm_map_page kernel_pagemap (i * PAGE_SIZE) (i * PAGE_SIZE) 3;;
            vmm_map_page kernel_pagemap (i * PAGE_SIZE) (u64 (i * PAGE_SIZE + PHYS_MEM_OFFSET)) 3) s)
    (fun _ s' => at_page low_entries (i + 1) k s' /\ low_there (i / 512) s').
Proof.
  intros Hi Hk [Hkt Hg] Hd.
  assert (Hva : u64 (i * PAGE_SIZE + PHYS_MEM_OFFSET) = direct_region * 2 ^ 21 + i * PAGE_SIZE)
    by (rewrite u64_small, Z.add_comm by (unfold PAGE_SIZE, PHYS_MEM_OFFSET; lia); reflexivity).
  assert (R1 : i * PAGE_SIZE / 2 ^ 21 = i / 512) by (rewrite <- (Z.add_0_l (i * PAGE_SIZE)); apply (region_at 0)).
  assert (P1 : page_no (i * PAGE_SIZE) = i)
    by (rewrite <- (Z.add_0_l (i * PAGE_SIZE)), (page_no_at 0) by lia; apply Z.mod_small; lia).
  pose proof (region_at direct_region i) as R2.
  assert (P2 : page_no (direct_region * 2 ^ 21 + i * PAGE_SIZE) = 2 ^ 35 + i).
  { change (direct_region * 2 ^ 21) with (0xffff800000000 * PAGE_SIZE). rewrite page_no_at by lia. rewrite Z.add_mod by lia.
    change (0xffff800000000 mod 2 ^ 36) with (2 ^ 35). rewrite (Z.mod_small i) by lia. apply Z.mod_small. lia. }
  assert (Hcost : exists c, d = c + c /\ (c = 3 \/ c = 0 /\ low_there (i / 512) s))
    by (destruct Hd as [->|[-> Ht]]; [exists 3; auto|exists 0; auto]).
  destruct Hcost as (c & -> & Hc). assert (Hc0 : 0 <= c) by (destruct Hc as [->|[-> _]]; lia). eapply returns_bind.
  { apply (map_kernel s m (low_entries i) c (c + k)); [by rewrite Z.add_assoc|unfold PAGE_SIZE; lia|lia|]. rewrite R1.
    destruct Hc as [->|(-> & Ht & _)]; auto. }
  intros [] s1 (Hkt1 & Hg1 & Ht1). rewrite R1, P1 in *. eapply returns_mono.
  { apply (map_kernel s1 m _ c k _ _ _ Hkt1); [rewrite Hva; apply Z.add_nonneg_nonneg; [done|unfold PAGE_SIZE; lia]|lia|]. rewrite Hva, R2.
    destruct Hc as [->|(-> & _ & Ht)]; [by left|right]. split; [done|]. by apply (gr_walk _ _ _ Hg1); [apply region_path_ok|]. }
  intros [] s2 (Hkt2 & Hg2 & Ht2). rewrite Hva, R2, P2 in *. split; [split|].
  - eapply kt_ext, Hkt2. intros p Hp. cbv beta. rewrite (boot_frame_entry i 3) by lia. unfold low_entries.
    destruct (Z.eqb_spec (2 ^ 35 + i) p) as [<-|]; [|destruct (Z.eqb_spec i p) as [<-|]].
    + replace (2 ^ 35 + i <? i + 1) with false by lia. rewrite andb_false_r.
      replace (2 ^ 35 + 1 <=? 2 ^ 35 + i) with true by lia. replace (2 ^ 35 + i <? 2 ^ 35 + (i + 1)) with true by lia. cbn [andb]. f_equal. f_equal. lia.
    + replace (1 <=? i) with true by lia. replace (i <? i + 1) with true by lia. done.
    + replace (p <? i + 1) with (p <? i) by lia. by replace (p <? 2 ^ 35 + (i + 1)) with (p <? 2 ^ 35 + i) by lia.
  - eapply grows_trans; [exact Hg|]. by eapply grows_trans.
  - split; [|exact Ht2]. apply (gr_walk _ _ _ Hg2); [apply region_path_ok|exact Ht1].
Qed.

Lemma image_body i d k s : 0 <= i < 512 * 1024 -> 0 <= k -> at_page boot_entries i (d + k) s -> d = 3 \/ d = 0 /\ image_there (i / 512) s ->
  returns (vmm_map_page kernel_pagemap (i * PAGE_SIZE) (u64 (i * PAGE_SIZE + KERNEL_MEM_OFFSET)) 7 s)
    (fun _ s' => at_page boot_entries (i + 1) k s' /\ image_there (i / 512) s').
Proof.
  intros Hi Hk [Hkt Hg] Hd.
  assert (Hva : u64 (i * PAGE_SIZE + KERNEL_MEM_OFFSET) = image_region * 2 ^ 21 + i * PAGE_SIZE)
    by (rewrite u64_small, Z.add_comm by (unfold PAGE_SIZE, KERNEL_MEM_OFFSET; lia); reflexivity).
  pose proof (region_at image_region i) as R.
  assert (P : page_no (image_region * 2 ^ 21 + i * PAGE_SIZE) = image_page + i).
  { change (image_region * 2 ^ 21) with (0xffffffff80000 * PAGE_SIZE). rewrite page_no_at by lia. rewrite Z.add_mod by lia.
    change (0xffffffff80000 mod 2 ^ 36) with image_page. rewrite (Z.mod_small i) by lia. apply Z.mod_small. unfold image_page. lia. }
  eapply returns_mono.
  { apply (map_kernel s m _ d k _ _ _ Hkt); [rewrite Hva; apply Z.add_nonneg_nonneg; [done|unfold PAGE_SIZE; lia]|lia|]. rewrite Hva, R. exact Hd. }
  intros [] s2 (Hkt2 & Hg2 & Ht2). rewrite Hva, R, P in *. split; [split|exact Ht2].
  - eapply kt_ext, Hkt2. intros p Hp. cbv beta. rewrite (boot_frame_entry i 7) by lia. unfold boot_entries.
    destruct (Z.eqb_spec (image_page + i) p) as [<-|].
    + replace (image_page <=? image_page + i) with true by lia. replace (image_page + i <? image_page + (i + 1)) with true by lia. cbn [andb].
      f_equal. f_equal. lia.
    + by replace (p <? image_page + (i + 1)) with (p <? image_page + i) by lia.
  - by eapply grows_trans.
Qed.
End Loops.

(** ** The top level *)

(** A new top level maps nothing. *)
Lemma fresh_top p k : pmm_ready p 1 -> used (bitmap p) 0 = true -> highest_page p <= 2 ^ 46 -> has_free p (S k) ->
  exists top u, pcalloc 1 p = Done (top, u) /\ pt_ok u top /\ (forall q j, length q = 3%nat -> path_ok q -> leaf_at (phys u) top q j = 0) /\ has_free u k.
Proof.
  intros Hr H0 Hlow Hf. destruct (pcalloc_one p Hr H0 Hlow) as [[_ Hn]|(n & u & Hrun & Hn & _ & Hcl & _)];
    [exfalso; apply Hn; eapply has_free_le, Hf; lia|].
  set (u' := with_phys _ u) in *. exists (n * PAGE_SIZE), u'. split; [exact Hrun|].
  assert (Hz : forall i, 0 <= i < 512 -> entry (phys u') (n * PAGE_SIZE) i = 0).
  { intros i Hi. apply entry_zero; [|done]. intros x Hx. cbn [u' phys with_phys]. unfold memset.
    by rewrite (proj2 (Z.leb_le _ _)), (proj2 (Z.ltb_lt _ _)) by lia. }
  pose proof (has_free_claim p u n k Hcl Hf) as Hf'. pose proof (ready_claim p u n 1 (phys u') Hr Hcl) as Hr'. destruct Hcl as [Hfr Hbits].
  split; [|split; [|exact Hf']].
  - apply fresh_pt_ok; cbn [u' highest_page bitmap with_phys]; rewrite ?(frame_top _ _ Hfr); try done.
    + rewrite Hbits by lia. rewrite H0. by destruct (_ && _).
    + rewrite Hbits by lia. by rewrite (proj2 (Z.leb_le _ _)), (proj2 (Z.ltb_lt _ _)) by lia.
  - intros q j Hl [_ Hq]. unfold leaf_at. destruct q as [|i q]; [done|]. cbn [walk]. apply Forall_cons in Hq as [Hi _]. by rewrite Hz.
Qed.

(** [init_vmm] calls it with the physical address of the table, which is also its address. *)
Lemma next_level_low t i flags p : 0 <= t < 2 ^ 46 -> 0 <= i < 512 ->
  vmm_get_next_level t i flags p = vmm_get_next_level (u64 (t + PHYS_MEM_OFFSET)) i flags p.
Proof.
  intros Ht Hi. assert (E : dmap (u64 (t + 8 * i)) = t + 8 * i).
  { rewrite u64_small by lia. unfold dmap, PHYS_MEM_OFFSET. by rewrite (proj2 (Z.leb_gt _ _)) by lia. }
  unfold vmm_get_next_level, load64, store64. by rewrite E, dmap_entry by done.
Qed.

(** The tables of the kernel half, [j] of them so far. *)
Record half_made (top j k : Z) (p : pmm_state) : Prop := mk_half_made {
  hm_ok : pt_ok p top;
  hm_leaf : forall q i, length q = 3%nat -> path_ok q -> 0 <= i < 512 -> leaf_at (phys p) top q i = 0;
  hm_there : forall i, 256 <= i < j -> is_Some (walk (phys p) top [i]);
  hm_free : has_free p (Z.to_nat (512 - j + k))
}.

Lemma half_loop top k p : 0 <= k -> half_made top 256 k p ->
  returns (for_n 256 256 (fun i => _ ← vmm_get_next_level top i 7; mret tt) p) (fun _ p' => half_made top 512 k p').
Proof.
  intros Hk Hp. apply (for_n_returns (fun j q => half_made top j k q)); [exact Hp|].
  intros j q Hj [A B C D]. change (256 + Z.of_nat 256) with 512 in Hj.
  pose proof (in_use_bounds q top A top (pt_use _ _ A [] top ltac:(split; [simpl; lia|constructor]) eq_refl)) as Hb.
  assert (Hpath : path_ok ([] ++ [j])) by (split; [simpl; lia|apply Forall_singleton; lia]).
  destruct (get_next_level_run q top [] top j 7 [j] A eq_refl Hpath) as [[_ Hn]|(t' & q' & Hrun & K & Hf & _ & Hw)];
    [done|exfalso; apply Hn; eapply has_free_le, D; lia|].
  exists tt, q'. split; [erewrite bind_run by (rewrite next_level_low by lia; exact Hrun); reflexivity|]. constructor.
  - apply (kp_ok _ _ _ _ K).
  - intros r i Hl Hr Hi. rewrite (kp_leaf _ _ _ _ K) by done. by apply B.
  - intros i Hi. destruct (Z.eq_dec i j) as [->|Hne]; [by exists t'|]. destruct (C i ltac:(lia)) as [y Hy]. exists y.
    apply (kp_walk _ _ _ _ K); [|done]. split; [simpl; lia|apply Forall_singleton; lia].
  - apply Hf. eapply has_free_le, D. lia.
Qed.

(** ** [init_vmm] *)

(** One top level, the 256 tables below it, three tables for each region of the three ranges (2048, 2048 and
    1024 regions) and what a mapping asks for in advance: 61 MiB. *)
Definition boot_cost : Z := 15620.

(** The state of a started kernel. *)
Record kernel_mapped (s : vmm_state) (m : pagemap) : Prop := mk_kernel_mapped {
  km_maps : v_maps s = {[ kernel_pagemap := m ]};
  km_cr3 : v_cr3 s = top_level m;
  km_ok : spaces_ok s;
  km_entries : forall va, 0 <= va -> entry_of s m va = boot_entries (2 ^ 19) (page_no va);
  km_half : forall i, 256 <= i < 512 -> present (entry (phys (v_pmm s)) (top_level m) i) = true
}.

Lemma one_space_ok s m : space_ok s kernel_pagemap m -> v_maps s = {[ kernel_pagemap := m ]} -> kernel_pagemap < v_next s -> spaces_ok s.
Proof.
  intros [Hm Hl Ht] Hmaps Hn.
  assert (Hcase : forall pm m', v_maps s !! pm = Some m' -> pm = kernel_pagemap /\ m' = m)
    by (rewrite Hmaps; intros pm m' [<- <-]%lookup_singleton_Some; done).
  constructor.
  - by exists m.
  - intros pm m' H. by destruct (Hcase _ _ H) as [-> _].
  - intros pm m' H. by destruct (Hcase _ _ H) as [_ ->].
  - intros pm m' H. by destruct (Hcase _ _ H) as [_ ->].
  - intros pm pm' m1 m2 i H H' _. destruct (Hcase _ _ H) as [_ ->], (Hcase _ _ H') as [_ ->]. done.
  - intros pm pm' m1 m2 p p' t H H' Hne. destruct (Hcase _ _ H) as [-> _], (Hcase _ _ H') as [-> _]. done.
Qed.

Lemma init_vmm_run s k : pmm_ready (v_pmm s) 1 -> used (bitmap (v_pmm s)) 0 = true -> highest_page (v_pmm s) <= 2 ^ 46 ->
  v_maps s = ∅ -> kernel_pagemap < v_next s -> 0 <= k -> has_free (v_pmm s) (Z.to_nat (boot_cost + k)) ->
  returns (init_vmm s) (fun r s' => r = 0 /\ exists m, kernel_mapped s' m /\ has_free (v_pmm s') (Z.to_nat k)).
Proof.
  intros Hr H0 Hlow Hmaps Hnext Hk Hfree. unfold init_vmm.
  assert (Hn1 : Z.of_nat (Z.to_nat (0x100000000 / PAGE_SIZE - 1)) = 2 ^ 20 - 1) by (rewrite Z2Nat.id; [reflexivity|closed_Z]).
  assert (Hn2 : Z.of_nat (Z.to_nat (0x80000000 / PAGE_SIZE)) = 2 ^ 19) by (rewrite Z2Nat.id; [reflexivity|closed_Z]).
  revert Hn1 Hn2. generalize (Z.to_nat (0x100000000 / PAGE_SIZE - 1)) (Z.to_nat (0x80000000 / PAGE_SIZE)). intros n1 n2 Hn1 Hn2.
  replace (Z.to_nat (boot_cost + k)) with (S (Z.to_nat (512 - 256 + (3 + (15360 + k))))) in Hfree by (unfold boot_cost; lia).
  destruct (fresh_top (v_pmm s) _ Hr H0 Hlow Hfree) as (top & u & R1 & Hpt & Hleaf & Hf).
  erewrite bind_run by (apply on_phys_run; exact R1). erewrite bind_run by reflexivity. set (m := mk_pagemap false top []).
  match goal with |- returns (_ ?st) _ => set (s1 := st) end. eapply returns_bind with (Q := fun _ s2 => half_made top 512 (3 + (15360 + k)) (v_pmm s2) /\
    v_maps s2 = v_maps s1 /\ v_next s2 = v_next s1).
  { destruct (half_loop top (3 + (15360 + k)) u) as ([] & p' & R2 & Hh); [lia| |exists tt, (set_pmm p' s1); split; [by apply on_phys_run|done]].
    constructor; [done|intros q i Hl Hq _; by apply Hleaf|lia|exact Hf]. }
  intros [] s2 ([A B C D] & M2 & N2).
  assert (E2 : v_maps s2 = {[kernel_pagemap := m]}) by (rewrite M2; cbn; rewrite Hmaps; reflexivity).
  assert (K2 : at_page s2 m low_entries 1 (6 * 2048 + (3 * 1024 + k)) s2).
  { split; [|apply grows_refl]. constructor; [constructor; [by rewrite E2, lookup_singleton_eq|done|exact A]|exact E2| |split; [lia|]].
    - intros va Hva. unfold entry_of, leaf. cbn [m top_level]. rewrite B; [|done|by apply indices_ok|by apply pml_entry_range].
      unfold low_entries. replace (_ && _) with false by lia. by replace (_ && _) with false by lia.
    - eapply has_free_le, D. lia. }
  eapply returns_bind.
  { apply (region_loop _ (at_page s2 m low_entries) (low_there m) 6 1 2048 ltac:(lia) ltac:(lia) (at_page_mono s2 m low_entries)
      (low_body s2 m) n1 1 (3 * 1024 + k) s2); [lia|lia|lia|left; exact K2]. }
  intros [] s3 [K3 G3]. replace (1 + Z.of_nat n1) with (2 ^ 20) in K3 by lia.
  assert (K3' : at_page s2 m boot_entries 0 (3 * 1024 + k) s3).
  { split; [|exact G3]. eapply kt_ext, K3. intros p Hp. unfold boot_entries. by replace (_ && _) with false by (unfold image_page; lia). }
  eapply returns_bind.
  { apply (region_loop _ (at_page s2 m boot_entries) (image_there m) 3 0 1024 ltac:(lia) ltac:(lia) (at_page_mono s2 m boot_entries)
      (image_body s2 m) n2 0 k s3); [lia|lia|lia|left; exact K3']. }
  intros [] s4 [[S4 M4 E4 [_ F4]] G4]. rewrite Hn2 in E4. pose proof (sp_map _ _ _ S4) as Hm4.
  erewrite bind_run by (unfold vmm_load_pagemap; erewrite bind_run by (apply get_map_run; exact Hm4); reflexivity).
  apply returns_ret. split; [done|]. exists m. split; [|eapply has_free_le, F4; lia]. constructor.
  - exact M4.
  - reflexivity.
  - apply (one_space_ok _ m); [by destruct S4|exact M4|]. cbn [v_next]. rewrite (gr_next _ _ _ G4), N2. exact Hnext.
  - exact E4.
  - intros i Hi. assert (Hp : path_ok [i]) by (split; [simpl; lia|apply Forall_singleton; lia]).
    destruct (gr_walk _ _ _ G4 [i] Hp (C i Hi)) as [y Hy]. cbn [walk] in Hy. cbn [v_pmm]. by destruct (present _).
Qed.

(** ** The memory of a started kernel *)

(** The calls of [kernel_main] that set up the memory. *)
Definition kernel_memory (es : list mmap_entry) : VM (list mmap_entry) :=
  es' ← on_phys (init_pmm es);
  _ ← init_vmm;
  mret es'.

(** C7: the memory of a started kernel: given the memory map of the boot loader (aligned, page 0 not
    usable, one run of at least 61 MiB usable after the bitmap is placed), the memory calls of
    [kernel_main] return.  Then the kernel has loaded the only address space, whose tables map exactly: every
    page from 4 KiB to 4 GiB at its own address and in the direct map, as present and writable, and the
    first 2 GiB at the addresses of the kernel image, as present, writable and open to user mode; every
    other page is unmapped.  All 256 tables of the kernel half exist, so every later space can share
    them, and the tables are well formed, which is what the isolation of all later spaces starts from. *)
Theorem kernel_memory_starts (es es' : list mmap_entry) (s : vmm_state) (p base : Z) :
  pmm_lock (v_pmm s) = false -> highest_page (v_pmm s) = 0 -> v_maps s = ∅ -> kernel_pagemap < v_next s ->
  Forall entry_ok es -> place_bitmap es (bitmap_size_of (scan_top es 0)) = (p, es') -> p <> 0 ->
  0 <= scan_top es 0 < 2 ^ 46 ->
  ((scan_top es 0 / PAGE_SIZE / 8) mod PAGE_SIZE <> 0 \/ (scan_top es 0 / PAGE_SIZE) mod 8 = 0) ->
  available es' 0 = false -> 0 <= base -> base + boot_cost <= scan_top es 0 / PAGE_SIZE ->
  (forall c, base <= c < base + boot_cost -> available es' c = true) ->
  returns (kernel_memory es s) (fun r s' => r = es' /\ exists m, kernel_mapped s' m).
Proof.
  intros Hl Hh Hmaps Hn Hok Hpl Hp Htop Hbits H0 Hb Hhi Hav. unfold kernel_memory.
  destruct (init_pmm_run es (v_pmm s) es' p) as (t & Hrun & Hl' & _ & Ht & _ & Hcov & Hused); try done; [lia|apply bitmap_size_covers; [lia|done]|].
  erewrite bind_run by (apply on_phys_run; exact Hrun). unfold boot_cost in *.
  assert (Hpos : 0 < scan_top es 0 / PAGE_SIZE) by lia.
  eapply returns_bind.
  - apply (init_vmm_run (set_pmm t s) 0); cbn [v_pmm set_pmm v_maps v_next]; try done.
    + constructor; rewrite ?Ht; try done; [lia| |]. { by replace (scan_top es 0 / PAGE_SIZE + 1 - 1) with (scan_top es 0 / PAGE_SIZE) by lia. }
      pose proof (Z.mul_div_le (scan_top es 0) PAGE_SIZE ltac:(done)). unfold PAGE_SIZE in *. lia.
    + by rewrite Hused, H0 by lia.
    + lia.
    + unfold boot_cost. exists (seqZ base (15620 + 0)). split; [apply NoDup_seqZ|]. split; [apply length_seqZ|].
      apply Forall_forall. intros c Hc. apply elem_of_seqZ in Hc. rewrite Ht, Hused by lia. split; [lia|]. rewrite Hav by lia. done.
  - intros r s' (_ & m & Hkm & _). apply returns_ret. split; [done|]. by exists m.
Qed.

(** 128 MiB above 1 MiB. *)
Definition pc_map : list mmap_entry := [mk_entry 0x100000 0x8000000 1].
Definition power_on : vmm_state := mk_vmm boot_state ∅ 2 0 [].

Lemma kernel_memory_starts_witness : exists es' s' m, kernel_memory pc_map power_on = Done (es', s') /\
  v_maps s' = {[ kernel_pagemap := m ]} /\ entry_of s' m 0x5000 = 0x5003 /\ entry_of s' m (PHYS_MEM_OFFSET + 0x5000) = 0x5003 /\
  entry_of s' m (KERNEL_MEM_OFFSET + 0x5000) = 0x5007 /\ entry_of s' m 0x100000000 = 0.
Proof.
  destruct (kernel_memory_starts pc_map [mk_entry 0x102000 0x7ffe000 1] power_on (u64 (0x100000 + PHYS_MEM_OFFSET)) 0x102) as (es' & s' & E & -> & m & Hm).
  - reflexivity.
  - reflexivity.
  - reflexivity.
  - closed_Z.
  - repeat constructor; closed_Z.
  - vm_compute. reflexivity.
  - discriminate.
  - closed_Z.
  - left. vm_compute. discriminate.
  - vm_compute. reflexivity.
  - closed_Z.
  - closed_Z.
  - intros c Hc. unfold available, in_entry. cbn [existsb]. rewrite (proj2 (Z.leb_le _ _)), (proj2 (Z.ltb_lt _ _)); [done| |].
    + change (entry_end _ / PAGE_SIZE) with 0x8100. unfold boot_cost in Hc. lia.
    + change (entry_base _ / PAGE_SIZE) with 0x102. lia.
  - eexists _, s', m. split; [exact E|]. clear E. destruct Hm as [Hmaps _ _ He _]. split; [exact Hmaps|].
    rewrite !He by closed_Z. repeat split; vm_compute; reflexivity.
Defined.
