(* ===== verification/Lock.v ===== *)
(** * Spin locks (src/src/kernel/include/lock.h)

    The macros are sequences of atomic instructions, so the model is a step relation: any
    number of CPUs share a [lock_t], each CPU is at one point of LOCK, LOCK_ACQUIRE or UNLOCK,
    and one step is one atomic instruction of one CPU.  The files that use locks from one CPU
    treat LOCK on a held lock as not returning; [relock_never_returns] is the reason. *)
From S2P Require Import Prelude.

(** [lock_t]: the counter and the two bits of [bits] that are used. *)
Record lock_t := mk_lock { waiting_refcount : Z; bit0 : bool; bit1 : bool }.

(** Where a CPU is.  [Spin]: after the increment, in the bts loop; [Leave r]: out of the loop
    with result [r], before the decrement; [Held]: LOCK or LOCK_ACQUIRE answered 1. *)
Inductive pc := Idle | Spin | Leave (r : bool) | Held.

#[export] Instance pc_eq_dec : EqDecision pc.
Proof. solve_decision. Defined.

Record machine := mk_machine { lk : lock_t; cpus : list pc }.

Definition LOCKED_INC (l : lock_t) : lock_t := mk_lock (u32 (waiting_refcount l + 1)) (bit0 l) (bit1 l).
Definition LOCKED_DEC (l : lock_t) : lock_t := mk_lock (u32 (waiting_refcount l - 1)) (bit0 l) (bit1 l).
(** [lock btsl $0]: the old bit and the lock with the bit set. *)
Definition bts (l : lock_t) : bool * lock_t := (bit0 l, mk_lock (waiting_refcount l) true (bit1 l)).

(** One instruction of LOCK by a CPU at the given point. *)
Definition lock_step (l : lock_t) (p : pc) : lock_t * pc :=
  match p with
  | Idle => (LOCKED_INC l, Spin)
  | Spin =>
      let '(old, l') := bts l in
      if negb old then (l', Leave true)
      else if bit1 l' then (l', Leave false) else (l', Spin)
  | Leave r => (LOCKED_DEC l, if r then Held else Idle)
  | Held => (l, Held)
  end.

(** LOCK_ACQUIRE is one instruction. *)
Definition LOCK_ACQUIRE (l : lock_t) : lock_t * pc :=
  let '(old, l') := bts l in (l', if old then Idle else Held).

Definition UNLOCK (l : lock_t) : lock_t := mk_lock (waiting_refcount l) false (bit1 l).

(** One instruction of CPU [c]: of a LOCK it is in or begins, a whole LOCK_ACQUIRE, or, when it
    holds the lock, the UNLOCK. *)
Inductive cpu_step (c : nat) : machine -> machine -> Prop :=
| step_lock l cs p l' p' :
    cs !! c = Some p -> p <> Held -> lock_step l p = (l', p') ->
    cpu_step c (mk_machine l cs) (mk_machine l' (<[c := p']> cs))
| step_acquire l cs l' p' :
    cs !! c = Some Idle -> LOCK_ACQUIRE l = (l', p') ->
    cpu_step c (mk_machine l cs) (mk_machine l' (<[c := p']> cs))
| step_unlock l cs :
    cs !! c = Some Held ->
    cpu_step c (mk_machine l cs) (mk_machine (UNLOCK l) (<[c := Idle]> cs)).

Definition step (m m' : machine) : Prop := exists c, cpu_step c m m'.

Definition initial (n : nat) : machine := mk_machine (mk_lock 0 false false) (replicate n Idle).
Definition reachable (n : nat) (m : machine) : Prop := rtc step (initial n) m.

(** ** The invariant *)

Definition owns (p : pc) : Z := match p with Held | Leave true => 1 | _ => 0 end.
Definition waits (p : pc) : Z := match p with Spin | Leave _ => 1 | _ => 0 end.
Definition total (f : pc -> Z) (cs : list pc) : Z := foldr (fun p n => f p + n) 0 cs.

Record lock_inv (n : nat) (m : machine) : Prop := mk_lock_inv {
  li_cpus : length (cpus m) = n;
  li_owner : total owns (cpus m) = Z.b2z (bit0 (lk m));
  li_wait : waiting_refcount (lk m) = u32 (total waits (cpus m));
  li_abort : bit1 (lk m) = false
}.

Lemma total_insert f cs c p p' : cs !! c = Some p -> total f (<[c := p']> cs) = total f cs - f p + f p'.
Proof.
  revert c. induction cs as [|q cs IH]; intros [|c] H; simpl in *; [done|done| |].
  - injection H as ->. lia.
  - rewrite IH by done. lia.
Qed.

Lemma total_replicate f n p : total f (replicate n p) = Z.of_nat n * f p.
Proof. induction n; simpl total; [lia|]. fold (total f (replicate n p)). lia. Qed.

Lemma total_ge f cs c p : (forall q, 0 <= f q) -> cs !! c = Some p -> f p <= total f cs.
Proof.
  intros Hf. assert (Hp : forall l, 0 <= total f l) by (induction l as [|q l IH]; simpl; [lia|specialize (Hf q); lia]).
  revert c. induction cs as [|q cs IH]; intros [|c] H; simpl in *; [done|done| |].
  - injection H as ->. specialize (Hp cs). lia.
  - specialize (IH _ H). specialize (Hf q). lia.
Qed.

Lemma owns_pos p : 0 <= owns p.
Proof. destruct p as [| |[]|]; simpl; lia. Qed.

Lemma lock_inv_step n m m' : lock_inv n m -> step m m' -> lock_inv n m'.
Proof.
  intros [H1 H2 H3 H4] [c Hs].
  inversion Hs as [l cs p l' p' Hc Hp Hl|l cs l' p' Hc Hl|l cs Hc]; subst; simpl in *.
  - destruct p as [| |r|]; simpl in Hl; [| | |done].
    + injection Hl as <- <-. constructor; simpl; rewrite ?length_insert; auto.
      * rewrite (total_insert _ _ _ Idle) by done. simpl. lia.
      * rewrite (total_insert _ _ _ Idle) by done. simpl. rewrite H3. unfold u32.
        rewrite Zplus_mod_idemp_l. f_equal. lia.
    + rewrite H4 in Hl. destruct (bit0 l) eqn:Hb; simpl in Hl; injection Hl as <- <-;
        (constructor; simpl; rewrite ?length_insert, ?(total_insert _ _ _ Spin) by done; simpl; rewrite ?H2, ?H3; auto);
        simpl; try lia; f_equal; lia.
    + injection Hl as <- <-. constructor; simpl; rewrite ?length_insert, ?(total_insert _ _ _ (Leave r)) by done; auto.
      * rewrite <- H2. destruct r; simpl; lia.
      * rewrite H3. unfold u32. rewrite Zminus_mod_idemp_l. f_equal. destruct r; simpl; lia.
  - unfold LOCK_ACQUIRE in Hl. simpl in Hl. destruct (bit0 l) eqn:Hb; injection Hl as <- <-;
      (constructor; simpl; rewrite ?length_insert, ?(total_insert _ _ _ Idle) by done; simpl; rewrite ?H2, ?H3; auto);
      simpl; try lia; f_equal; lia.
  - constructor; simpl; rewrite ?length_insert, ?(total_insert _ _ _ Held) by done; simpl; auto.
    + pose proof (total_ge owns cs c Held owns_pos Hc). simpl in *.
      assert (total owns cs <= 1) by (rewrite H2; destruct (bit0 l); simpl; lia). lia.
    + rewrite H3. f_equal. lia.
Qed.

Lemma reachable_inv n m : reachable n m -> lock_inv n m.
Proof.
  assert (H0 : lock_inv n (initial n)).
  { constructor; simpl; [apply length_replicate|rewrite total_replicate; simpl; lia| |done].
    rewrite total_replicate. simpl. by rewrite Z.mul_0_r. }
  intros H. unfold reachable in H. induction H as [|a b c Hs _ IH]; [done|].
  apply IH. by eapply lock_inv_step.
Qed.

(** C26: Mutual exclusion: in every state reachable by any interleaving of LOCK, LOCK_ACQUIRE and
    UNLOCK on any number of CPUs, at most one CPU holds the lock. *)
Theorem lock_mutual_exclusion (n : nat) (m : machine) (i j : nat) :
  reachable n m -> cpus m !! i = Some Held -> cpus m !! j = Some Held -> i = j.
Proof.
  intros Hr Hi Hj. pose proof (reachable_inv n m Hr) as [_ Ho _ _].
  destruct (decide (i = j)) as [|Hne]; [done|exfalso].
  pose proof (total_insert owns (cpus m) i Held Idle Hi) as E.
  pose proof (total_ge owns (<[i := Idle]> (cpus m)) j Held owns_pos) as G. simpl in E, G.
  rewrite list_lookup_insert_ne in G by done. specialize (G Hj).
  assert (total owns (cpus m) <= 1) by (rewrite Ho; destruct (bit0 (lk m)); simpl; lia). lia.
Qed.

(** The reference count is the number of CPUs inside LOCK, as long as there are fewer than
    2^32 of them, and the lock bit is set exactly when some CPU owns the lock. *)
Theorem lock_refcount (n : nat) (m : machine) :
  reachable n m -> Z.of_nat n < 2 ^ 32 ->
  waiting_refcount (lk m) = total waits (cpus m) /\ Z.b2z (bit0 (lk m)) = total owns (cpus m).
Proof.
  intros Hr Hn. pose proof (reachable_inv n m Hr) as [Hl Ho Hw _]. split; [|done]. rewrite Hw.
  apply u32_small. assert (0 <= total waits (cpus m) <= Z.of_nat (length (cpus m))); [|lia].
  clear. induction (cpus m) as [|p l IH]; simpl; [lia|]. destruct p as [| |[]|]; simpl; lia.
Qed.

(** ** Progress under fair scheduling *)

(** An endless run of [n] CPUs: at time [t] the CPU [who t] executes one instruction, and every
    CPU gets its turn again and again.  A CPU that holds the lock uses its turn for the UNLOCK. *)
Record fair_run (n : nat) (run : nat -> machine) (who : nat -> nat) : Prop := mk_fair_run {
  fr_start : reachable n (run 0%nat);
  fr_step : forall t, cpu_step (who t) (run t) (run (S t));
  fr_fair : forall i t, (i < n)%nat -> exists t', (t <= t')%nat /\ who t' = i
}.

(** The lock is taken at time [t]. *)
Definition taken_at (run : nat -> machine) (t : nat) : Prop :=
  bit0 (lk (run t)) = false /\ bit0 (lk (run (S t))) = true.

Lemma cpu_step_other c m m' i : cpu_step c m m' -> i <> c -> cpus m' !! i = cpus m !! i.
Proof. intros Hs Hi. inversion Hs; subst; simpl; by rewrite list_lookup_insert_ne by congruence. Qed.

(** What the instruction of a CPU at a given point leads to. *)
Lemma cpu_step_held c m m' : cpu_step c m m' -> cpus m !! c = Some Held -> bit0 (lk m') = false.
Proof. intros Hs Hc. inversion Hs; subst; simpl in *; congruence. Qed.

Lemma cpu_step_leave c m m' r :
  cpu_step c m m' -> cpus m !! c = Some (Leave r) -> cpus m' !! c = Some (if r then Held else Idle).
Proof.
  intros Hs Hc. inversion Hs as [l cs p l' p' Hp Hh Hl|l cs l' p' Hp Hl|l cs Hp]; subst; simpl in *;
    rewrite Hc in Hp; try discriminate Hp.
  injection Hp as <-. simpl in Hl. injection Hl as <- <-.
  apply list_lookup_insert_eq. by eapply lookup_lt_Some.
Qed.

Lemma cpu_step_spin c m m' :
  cpu_step c m m' -> cpus m !! c = Some Spin -> bit1 (lk m) = false ->
  if bit0 (lk m) then cpus m' !! c = Some Spin else bit0 (lk m') = true.
Proof.
  intros Hs Hc H1. inversion Hs as [l cs p l' p' Hp Hh Hl|l cs l' p' Hp Hl|l cs Hp]; subst; simpl in *;
    rewrite Hc in Hp; try discriminate Hp.
  injection Hp as <-. simpl in Hl. rewrite H1 in Hl.
  destruct (bit0 l); simpl in Hl; injection Hl as <- <-; [|done].
  apply list_lookup_insert_eq. by eapply lookup_lt_Some.
Qed.

(** Only LOCK and LOCK_ACQUIRE set the bit, and the CPU that sets it owns the lock. *)
Lemma cpu_step_takes c m m' :
  cpu_step c m m' -> bit0 (lk m) = false -> bit0 (lk m') = true ->
  cpus m' !! c = Some (Leave true) \/ cpus m' !! c = Some Held.
Proof.
  intros Hs H0 H1. inversion Hs as [l cs p l' p' Hp Hh Hl|l cs l' p' Hp Hl|l cs Hp]; subst; simpl in *; [| |done].
  - assert (Hlt := lookup_lt_Some _ _ _ Hp). destruct p as [| |r|]; simpl in Hl; rewrite ?H0 in Hl; simpl in Hl;
      injection Hl as <- <-; simpl in H1; try congruence. left. by apply list_lookup_insert_eq.
  - unfold LOCK_ACQUIRE in Hl. simpl in Hl. rewrite H0 in Hl. injection Hl as <- <-.
    right. apply list_lookup_insert_eq. by eapply lookup_lt_Some.
Qed.

Lemma total_owner cs : 0 < total owns cs -> exists j, cs !! j = Some (Leave true) \/ cs !! j = Some Held.
Proof.
  induction cs as [|p cs IH]; simpl; [lia|]. intros H.
  destruct (decide (owns p = 0)) as [E|E].
  - destruct IH as [j Hj]; [lia|]. by exists (S j).
  - exists 0%nat. destruct p as [| |[]|]; simpl in *; auto; done.
Qed.

Section FairRun.
Context (n : nat) (run : nat -> machine) (who : nat -> nat) (F : fair_run n run who).

Lemma fr_inv t : lock_inv n (run t).
Proof.
  induction t as [|t IH]; [apply reachable_inv, F|].
  eapply lock_inv_step; [exact IH|]. exists (who t). apply F.
Qed.

Lemma fr_cpu t i p : cpus (run t) !! i = Some p -> (i < n)%nat.
Proof. intros H. rewrite <- (li_cpus _ _ (fr_inv t)). by eapply lookup_lt_Some. Qed.

(** The next turn of a CPU: until then it stays where it is. *)
Lemma next_turn i t p : cpus (run t) !! i = Some p ->
  exists t', (t <= t')%nat /\ who t' = i /\ cpus (run t') !! i = Some p.
Proof.
  intros H. destruct (fr_fair _ _ _ F i t (fr_cpu t i p H)) as [t' [Hle Hw]].
  remember (t' - t)%nat as d eqn:Ed. revert t Ed Hle H.
  induction d as [|d IH]; intros t Ed Hle H.
  - exists t'. replace t' with t in * by lia. auto.
  - destruct (decide (who t = i)) as [E|E]; [by exists t|].
    destruct (IH (S t)) as [t2 [H1 H2]]; [lia|lia| |exists t2; split; [lia|done]].
    rewrite (cpu_step_other (who t) (run t)); [done|apply F|congruence].
Qed.

(** Between a free and a held moment the lock is taken. *)
Lemma taken_between t t' : (t <= t')%nat -> bit0 (lk (run t)) = false -> bit0 (lk (run t')) = true ->
  exists s, (t <= s)%nat /\ taken_at run s.
Proof.
  intros Hle H0. induction Hle as [|t' Hle IH]; [congruence|]. intros H1.
  destruct (bit0 (lk (run t'))) eqn:E; [by apply IH|]. exists t'. done.
Qed.

(** A waiting CPU goes on waiting until the lock is taken. *)
Lemma waits_until t t' i : (t <= t')%nat -> cpus (run t) !! i = Some Spin ->
  cpus (run t') !! i = Some Spin \/ exists s, (t <= s)%nat /\ taken_at run s.
Proof.
  intros Hle H. induction Hle as [|t' Hle IH]; [by left|].
  destruct IH as [IH|IH]; [|by right].
  destruct (decide (i = who t')) as [->|E].
  - pose proof (cpu_step_spin _ _ _ (fr_step _ _ _ F t') IH (li_abort _ _ (fr_inv t'))) as C.
    destruct (bit0 (lk (run t'))) eqn:E; [by left|]. right. by exists t'.
  - left. rewrite (cpu_step_other (who t') (run t')); [done|apply F|done].
Qed.

(** A CPU that owns the lock leaves LOCK with it. *)
Lemma owner_returns t j : cpus (run t) !! j = Some (Leave true) \/ cpus (run t) !! j = Some Held ->
  exists t', (t <= t')%nat /\ cpus (run t') !! j = Some Held.
Proof.
  intros [H|H]; [|by exists t]. destruct (next_turn j t _ H) as [t' [Hle [Hw Hc]]].
  exists (S t'). split; [lia|]. rewrite <- Hw in Hc |- *.
  apply (cpu_step_leave _ (run t') _ true); [apply F|done].
Qed.

Lemma waiter_takes_free t i : cpus (run t) !! i = Some Spin -> bit0 (lk (run t)) = false ->
  exists s, (t <= s)%nat /\ taken_at run s.
Proof.
  intros Hi H0. destruct (next_turn i t _ Hi) as [t' [Hle [Hw Hc]]].
  destruct (bit0 (lk (run t'))) eqn:E; [by eapply taken_between|].
  exists t'. split; [done|]. split; [done|]. rewrite <- Hw in Hc.
  pose proof (cpu_step_spin _ _ _ (fr_step _ _ _ F t') Hc (li_abort _ _ (fr_inv t'))) as C.
  by rewrite E in C.
Qed.

Lemma held_is_released t : bit0 (lk (run t)) = true -> exists s, (t <= s)%nat /\ bit0 (lk (run s)) = false.
Proof.
  intros H. destruct (total_owner (cpus (run t))) as [j Hj].
  { rewrite (li_owner _ _ (fr_inv t)), H. simpl. lia. }
  destruct (owner_returns t j Hj) as [t1 [H1 Hh]]. destruct (next_turn j t1 _ Hh) as [t2 [H2 [Hw Hc]]].
  exists (S t2). split; [lia|]. rewrite <- Hw in Hc. eapply cpu_step_held; [apply F|exact Hc].
Qed.
End FairRun.

(** C27: No deadlock: in every fair run of any number of CPUs that use LOCK, LOCK_ACQUIRE and
    UNLOCK, whenever some CPU waits in LOCK, the lock is taken again at some later time [s], and
    the CPU that takes it comes out of its call holding the lock; whoever holds it in between
    releases it. *)
Theorem lock_progress (n : nat) (run : nat -> machine) (who : nat -> nat) (t i : nat) :
  fair_run n run who -> cpus (run t) !! i = Some Spin ->
  exists s, (t <= s)%nat /\ taken_at run s /\
    exists s', (s < s')%nat /\ cpus (run s') !! who s = Some Held.
Proof.
  intros F Hi.
  assert (exists s, (t <= s)%nat /\ taken_at run s) as [s [Hle Ht]].
  { destruct (bit0 (lk (run t))) eqn:E; [|by eapply waiter_takes_free].
    destruct (held_is_released n run who F t E) as [t1 [H1 H0]].
    destruct (waits_until n run who F t t1 i H1 Hi) as [Hs|Hs]; [|done].
    destruct (waiter_takes_free n run who F t1 i Hs H0) as [s [Hs1 Hs2]]. exists s. split; [lia|done]. }
  exists s. split; [done|]. split; [done|]. destruct Ht as [H0 H1].
  destruct (owner_returns n run who F (S s) (who s)) as [s' [Hs' Hh]].
  { eapply cpu_step_takes; [apply F|done|done]. }
  exists s'. split; [lia|done].
Qed.

(** [k] instructions of LOCK by the CPU alone. *)
Fixpoint lock_steps (k : nat) (l : lock_t) (p : pc) : lock_t * pc :=
  match k with
  | O => (l, p)
  | S k' => let '(l', p') := lock_step l p in lock_steps k' l' p'
  end.

(** A CPU that takes a lock that is already held, while nobody else runs, stays in the loop
    for ever. *)
Theorem relock_never_returns (k : nat) (l : lock_t) :
  bit0 l = true -> bit1 l = false ->
  exists l', lock_steps (S k) l Idle = (l', Spin) /\ bit0 l' = true.
Proof.
  intros H0 H1. simpl.
  assert (H : forall l0, bit0 l0 = true -> bit1 l0 = false -> exists l', lock_steps k l0 Spin = (l', Spin) /\ bit0 l' = true).
  { clear l H0 H1. induction k as [|k IH]; intros l H0 H1; [by exists l|].
    cbn [lock_steps lock_step bts]. rewrite H0. cbn [negb bit1]. rewrite H1. apply IH; done. }
  apply H; done.
Qed.

(** Two CPUs: the first holds the lock, the second spins. *)
Definition two_cpus : machine := mk_machine (mk_lock 1 true false) [Held; Spin].

Lemma two_cpus_reachable : reachable 2 two_cpus.
Proof.
  eapply rtc_l; [exists 0%nat; apply step_acquire; reflexivity|].
  eapply rtc_l; [exists 1%nat; apply (step_lock _ _ _ Idle); [reflexivity|discriminate|reflexivity]|]. apply rtc_refl.
Qed.

Lemma lock_mutual_exclusion_witness : cpus two_cpus !! 0%nat = Some Held /\ 0%nat = 0%nat.
Proof.
  split; [reflexivity|].
  apply (lock_mutual_exclusion 2 two_cpus 0 0); [apply two_cpus_reachable|reflexivity|reflexivity].
Defined.

Lemma lock_refcount_witness : 1 = total waits [Held; Spin] /\ Z.b2z true = total owns [Held; Spin].
Proof. apply (lock_refcount 2 two_cpus); [apply two_cpus_reachable|reflexivity]. Defined.

(** CPUs that take turns for ever, each locking and unlocking. *)
Definition drive (m : machine) (c : nat) : machine :=
  match cpus m !! c with
  | None => m
  | Some Held => mk_machine (UNLOCK (lk m)) (<[c := Idle]> (cpus m))
  | Some p => let '(l, q) := lock_step (lk m) p in mk_machine l (<[c := q]> (cpus m))
  end.

Fixpoint alternate (t : nat) : machine :=
  match t with O => two_cpus | S t' => drive (alternate t') (t' mod 2)%nat end.

Lemma drive_cpus m c : length (cpus (drive m c)) = length (cpus m).
Proof.
  unfold drive. destruct (cpus m !! c) as [p|]; [|done].
  destruct p; [| | |apply length_insert]; destruct (lock_step _ _); apply length_insert.
Qed.

Lemma drive_step m c : (c < length (cpus m))%nat -> cpu_step c m (drive m c).
Proof.
  intros [p Hp]%lookup_lt_is_Some. unfold drive. rewrite Hp. destruct m as [l cs]. simpl in *.
  destruct p; [| | |by apply step_unlock];
    destruct (lock_step l _) as [l' q] eqn:E; (eapply step_lock; [exact Hp|discriminate|exact E]).
Qed.

Lemma alternate_fair : fair_run 2 alternate (fun t => t mod 2)%nat.
Proof.
  constructor; [apply two_cpus_reachable| |].
  - intros t. apply drive_step.
    assert (length (cpus (alternate t)) = 2%nat) as -> by (induction t; simpl; [done|]; by rewrite drive_cpus).
    apply Nat.mod_upper_bound. lia.
  - intros i t Hi. exists (2 * t + i)%nat. split; [lia|].
    rewrite (Nat.mul_comm 2 t), Nat.add_comm, Nat.Div0.mod_add. by apply Nat.mod_small.
Qed.

Lemma lock_progress_witness : exists s, (0 <= s)%nat /\ taken_at alternate s /\
  exists s', (s < s')%nat /\ cpus (alternate s') !! (s mod 2)%nat = Some Held.
Proof. apply (lock_progress 2 alternate (fun t => t mod 2)%nat 0 1); [apply alternate_fair|reflexivity]. Defined.

Lemma relock_never_returns_witness :
  exists l', lock_steps 6 (mk_lock 0 true false) Idle = (l', Spin) /\ bit0 l' = true.
Proof. apply (relock_never_returns 5 (mk_lock 0 true false)); reflexivity. Defined.
