(* ===== verification/Rtc.v ===== *)
(** * Real-time clock (src/src/kernel/drivers/rtc.c)

    The CMOS chip is a parameter: [cmos] maps a register number to its value; the code reads it
    when no update is in progress.  [get_julian_day] is integer arithmetic on [int]s, where
    [/] truncates towards zero ([Z.quot]). *)
From S2P Require Import Prelude.

Record datetime := mk_datetime {
  seconds : Z; minutes : Z; hours : Z; day : Z; month : Z; year : Z;
  day_of_week : Z; day_of_year : Z; is_daylight_savings : Z
}.

(** [init_rtc]: the register of the century, from the FADT. *)
Definition init_rtc (fadt_century : Z) : Z := u8 fadt_century.

Section Cmos.
Variable cmos : Z -> Z.
Variable century_register : Z.

Definition rtc_get_register_raw (reg_num : Z) : Z := u8 (cmos reg_num).

Definition rtc_is_updating : bool := truthy (Z.land (u8 (cmos 0x0A)) 0x80).

(** Register B bit 2 says whether the values are binary; otherwise they are BCD. *)
Definition rtc_get_register (reg_num : Z) : Z :=
  let val := rtc_get_register_raw reg_num in
  if negb (truthy (Z.land (rtc_get_register_raw 0xb) 4)) then u8 (Z.land val 0xf + val / 16 * 10)
  else val.

(** [None] when the update flag never clears. *)
Definition rtc_get_datetime : option datetime :=
  if rtc_is_updating then None
  else Some (mk_datetime (rtc_get_register 0) (rtc_get_register 2) (rtc_get_register 4)
    (rtc_get_register 7) (rtc_get_register 8)
    (u16 (rtc_get_register century_register * 100 + rtc_get_register 9 - 1900))
    (u8 (rtc_get_register 6 - 1)) 0 0).
End Cmos.

(** The expression of [get_julian_day] before its conversion to [uint64_t]. *)
Definition julian (days months years : Z) : Z :=
  Z.quot (1461 * (years + 4800 + Z.quot (months - 14) 12)) 4 +
  Z.quot (367 * (months - 2 - 12 * Z.quot (months - 14) 12)) 12 -
  Z.quot (3 * Z.quot (years + 4900 + Z.quot (months - 14) 12) 100) 4 + days - 32075.
Definition get_julian_day (days months years : Z) : Z := u64 (julian days months years).

Definition rtc_mktime (dt : datetime) : Z :=
  let jdn_current := get_julian_day (day dt) (month dt) (year dt) in
  let jdn_1970 := get_julian_day 1 1 1970 in
  let jdn_diff := u64 (jdn_current - jdn_1970) in
  u64 (jdn_diff * (60 * 60 * 24) + hours dt * 3600 + minutes dt * 60 + seconds dt).

(** ** The calendar *)

Definition leap (y : Z) : bool := (y mod 4 =? 0) && (negb (y mod 100 =? 0) || (y mod 400 =? 0)).
Definition month_length (m y : Z) : Z :=
  if m =? 2 then if leap y then 29 else 28
  else if (m =? 4) || (m =? 6) || (m =? 9) || (m =? 11) then 30 else 31.
Definition valid_date (d m y : Z) : Prop := 1 <= d <= month_length m y /\ 1 <= m <= 12 /\ 0 <= y.

Definition next_day (d m y : Z) : Z * Z * Z :=
  if d <? month_length m y then (d + 1, m, y)
  else if m <? 12 then (1, m + 1, y) else (1, 1, y + 1).

Definition julian_of (dmy : Z * Z * Z) : Z := let '(d, m, y) := dmy in julian d m y.

Lemma quot_div a b : 0 <= a -> 0 < b -> Z.quot a b = a / b.
Proof. intros. apply Z.quot_div_nonneg; lia. Qed.

(** The formula for January and February, and for the other months. *)
Lemma julian_early d m y : 1 <= m <= 2 -> 0 <= y ->
  julian d m y = 1461 * (y + 4799) / 4 + 367 * (m + 10) / 12 - 3 * ((y + 4899) / 100) / 4 + d - 32075.
Proof.
  intros Hm Hy. assert (E : Z.quot (m - 14) 12 = -1).
  { assert (m = 1 \/ m = 2) as [-> | ->] by lia; reflexivity. }
  unfold julian. rewrite E. pose proof (Z.div_pos (y + 4899) 100 ltac:(lia) ltac:(lia)).
  replace (y + 4900 + -1) with (y + 4899) by lia. replace (y + 4800 + -1) with (y + 4799) by lia.
  replace (m - 2 - 12 * -1) with (m + 10) by lia.
  rewrite (quot_div (y + 4899)) by lia. rewrite !quot_div by lia. lia.
Qed.

Lemma julian_late d m y : 3 <= m <= 12 -> 0 <= y ->
  julian d m y = 1461 * (y + 4800) / 4 + 367 * (m - 2) / 12 - 3 * ((y + 4900) / 100) / 4 + d - 32075.
Proof.
  intros Hm Hy. assert (E : Z.quot (m - 14) 12 = 0).
  { assert (Hc : m = 3 \/ m = 4 \/ m = 5 \/ m = 6 \/ m = 7 \/ m = 8 \/ m = 9 \/ m = 10 \/ m = 11 \/ m = 12) by lia.
    by decompose [or] Hc; subst. }
  unfold julian. rewrite E. pose proof (Z.div_pos (y + 4900) 100 ltac:(lia) ltac:(lia)).
  replace (y + 4900 + 0) with (y + 4900) by lia. replace (y + 4800 + 0) with (y + 4800) by lia.
  replace (m - 2 - 12 * 0) with (m - 2) by lia.
  rewrite (quot_div (y + 4900)) by lia. rewrite !quot_div by lia. lia.
Qed.

(** From the last of February to the first of March, over the leap rule. *)
Lemma julian_february y : 0 <= y -> julian 1 3 y = julian (month_length 2 y) 2 y + 1.
Proof.
  intros Hy. rewrite (julian_late 1 3), julian_early by lia. unfold month_length, leap. simpl.
  pose proof (Z.div_mod y 4 ltac:(lia)). pose proof (Z.mod_pos_bound y 4 ltac:(lia)).
  pose proof (Z.div_mod y 100 ltac:(lia)). pose proof (Z.mod_pos_bound y 100 ltac:(lia)).
  pose proof (Z.div_mod y 400 ltac:(lia)). pose proof (Z.mod_pos_bound y 400 ltac:(lia)).
  destruct (Z.eqb_spec (y mod 4) 0), (Z.eqb_spec (y mod 100) 0), (Z.eqb_spec (y mod 400) 0); simpl;
    Z.div_mod_to_equations; lia.
Qed.

Lemma julian_day d m y : julian (d + 1) m y = julian d m y + 1.
Proof. unfold julian. lia. Qed.

(** The Julian day of the next calendar day is one more, for every date of the Gregorian
    calendar from year 0 on: over month ends, leap days and year ends. *)
Theorem julian_day_successor (d m y : Z) :
  valid_date d m y -> julian_of (next_day d m y) = julian d m y + 1.
Proof.
  intros (Hd & Hm & Hy). unfold next_day.
  destruct (Z.ltb_spec d (month_length m y)); [apply julian_day|].
  assert (d = month_length m y) as -> by lia.
  destruct (Z.eq_dec m 2) as [->|Hm2]; [by apply julian_february|].
  assert (Hc : m = 1 \/ m = 3 \/ m = 4 \/ m = 5 \/ m = 6 \/ m = 7 \/ m = 8 \/ m = 9 \/ m = 10 \/ m = 11 \/ m = 12) by lia.
  destruct Hc as [->|Hc].
  - change (1 <? 12) with true. cbn [julian_of]. change (month_length 1 y) with 31.
    rewrite !julian_early by lia. replace (1 + 1) with 2 by lia. Z.div_mod_to_equations. lia.
  - decompose [or] Hc; subst m;
      match goal with |- context [?a <? 12] => let b := eval compute in (a <? 12) in change (a <? 12) with b end;
      cbn [julian_of]; rewrite (julian_late (month_length _ _)) by lia;
      rewrite ?julian_late, ?julian_early by lia;
      match goal with |- context [month_length ?a y] =>
        let b := eval cbn in (month_length a y) in change (month_length a y) with b end;
      Z.div_mod_to_equations; lia.
Qed.

Lemma julian_day_successor_witness : julian_of (next_day 28 2 2000) = julian 28 2 2000 + 1.
Proof. apply (julian_day_successor 28 2 2000). unfold valid_date. closed_Z. Defined.

(** The epoch itself, and a known date. *)
Example julian_epoch : julian 1 1 1970 = 2440588.
Proof. reflexivity. Qed.
Example mktime_full_year : rtc_mktime (mk_datetime 40 46 1 9 9 2001 0 0 0) = 1000000000.
Proof. vm_compute. reflexivity. Qed.

(** A clock in BCD mode at 2001-09-09 01:46:40. *)
Definition sample_cmos (reg : Z) : Z :=
  match reg with
  | 0 => 0x40 | 2 => 0x46 | 4 => 0x01 | 6 => 1 | 7 => 0x09 | 8 => 0x09 | 9 => 0x01 | 0x32 => 0x20
  | _ => 0
  end.

(** The time the kernel reports is wrong by 1900 years: rtc_get_datetime stores the year
    minus 1900 and rtc_mktime uses it as the full year, so at the billionth second of the
    epoch the kernel's clock shows 2^64 - 58958230400 (before the epoch, wrapped). *)
Theorem mktime_year_offset :
  match rtc_get_datetime sample_cmos 0x32 with
  | Some dt => year dt = 101 /\ rtc_mktime dt = 2 ^ 64 - 58958230400
  | None => False
  end.
Proof. vm_compute. split; reflexivity. Qed.
