(* ===== verification/Device.v ===== *)
(** * Block and character devices (src/src/kernel/dev/device.c)

    [device_read] and [device_write] cut a byte range into whole blocks and partial blocks at
    its ends.  A driver is an interface: [drv_read] and [drv_write] transfer whole blocks between
    the device and a buffer; [BlockDriver] states their contract, [BlockDriverUpTo] the contract of a
    driver that is right for requests of up to a number of blocks.  Positions and counts are
    [size_t].  Buffers and the device's
    contents are byte maps; a buffer obtained from kmalloc starts with arbitrary bytes. *)
From S2P Require Import Prelude.

Definition S_IFMT : Z := 0xF000.
Definition S_IFBLK : Z := 0x6000.
Definition S_IFCHR : Z := 0x2000.
Definition S_ISBLK (t : Z) : bool := Z.land t S_IFMT =? S_IFBLK.
Definition S_ISCHR (t : Z) : bool := Z.land t S_IFMT =? S_IFCHR.
Definition MIN (x y : Z) : Z := if x <? y then x else y.

(** ** The list of devices *)

Record device := mk_device { d_type : Z; d_id : Z; block_size : Z; block_count : Z }.

(** [init_devices]: no devices yet, and room for a pointer. *)
Definition init_devices : list device := [].
Definition device_add (devices : list device) (dev : device) : Z * list device :=
  let devices := devices ++ [dev] in (Z.of_nat (length devices) - 1, devices).

Fixpoint device_get_by_id (devices : list device) (id : Z) : option device :=
  match devices with
  | [] => None
  | d :: ds => if d_id d =? u32 id then Some d else device_get_by_id ds id
  end.

(** An index outside the vector reads memory the vector does not own. *)
Definition device_get (devices : list device) (id : Z) : option device := devices !! Z.to_nat id.

(** ** Transfers *)

(** A driver's functions: [drv_read start count disk buf p] is the buffer memory after the
    transfer into address [p], [drv_write start count disk buf p] the new contents; the
    transfers of a block device ignore the value the driver returns, [drv_read_ret] and
    [drv_write_ret], which those of a character device pass on. *)
Class DriverOps := {
  drv_read : Z -> Z -> mem -> mem -> Z -> mem;
  drv_write : Z -> Z -> mem -> mem -> Z -> mem;
  drv_read_ret : Z -> Z -> mem -> Z;
  drv_write_ret : Z -> Z -> mem -> Z
}.

(** The cursor of a transfer: position on the device, bytes left, position in the caller's
    buffer, the memory written so far, and whether the function has returned. *)
Record cursor := mk_cursor { cu_start : Z; cu_count : Z; cu_buf : Z; cu_mem : mem; cu_done : bool }.

(** [put n d a s b] is [d] with the [n] bytes from [a] replaced by those of [s] from [b]. *)
Definition put (n : Z) (d : mem) (a : Z) (s : mem) (b : Z) : mem := fun x =>
  if (a <=? x) && (x <? a + n) then s (b + (x - a)) else d x.

Section Transfer.
Context `{DriverOps}.
Context (bs : Z) (disk junk : mem).

(** The partial block in front: read it into a kmalloc buffer, copy its end. *)
Definition read_head (c : cursor) : cursor :=
  if truthy (cu_start c mod bs) then
    let off := cu_start c mod bs in
    let len := MIN (bs - off) (cu_count c) in
    let nbuf := drv_read (cu_start c / bs) 1 disk junk 0 in
    mk_cursor (u64 (cu_start c + len)) (u64 (cu_count c - len)) (cu_buf c + len)
      (put len (cu_mem c) (cu_buf c) nbuf off) (u64 (cu_count c - len) =? 0)
  else c.

(** The whole blocks. *)
Definition read_blocks (c : cursor) : cursor :=
  let blocks := cu_count c / bs in
  if cu_done c then c
  else if truthy blocks then
    mk_cursor (u64 (cu_start c + blocks * bs)) (u64 (cu_count c - blocks * bs)) (cu_buf c + blocks * bs)
      (drv_read (cu_start c / bs) blocks disk (cu_mem c) (cu_buf c)) (u64 (cu_count c - blocks * bs) =? 0)
  else c.

(** The rest. *)
Definition read_tail (c : cursor) : mem :=
  let end_ := cu_count c mod bs in
  if cu_done c then cu_mem c
  else if truthy end_ then
    let nbuf := drv_read (cu_start c / bs) 1 disk junk 0 in
    put end_ (cu_mem c) (cu_buf c) nbuf (cu_start c mod bs)
  else cu_mem c.
End Transfer.

Section WriteTransfer.
Context `{DriverOps}.
Context (bs : Z) (m junk : mem).

(** Here [cu_mem] is the contents of the device. *)
Definition write_head (c : cursor) : cursor :=
  if truthy (cu_start c mod bs) then
    let off := cu_start c mod bs in
    let len := MIN (bs - off) (cu_count c) in
    let nbuf := drv_read (cu_start c / bs) 1 (cu_mem c) junk 0 in
    let nbuf := put len nbuf off m (cu_buf c) in
    mk_cursor (u64 (cu_start c + len)) (u64 (cu_count c - len)) (cu_buf c + len)
      (drv_write (cu_start c / bs) 1 (cu_mem c) nbuf 0) (u64 (cu_count c - len) =? 0)
  else c.

Definition write_blocks (c : cursor) : cursor :=
  let blocks := cu_count c / bs in
  if cu_done c then c
  else if truthy blocks then
    mk_cursor (u64 (cu_start c + blocks * bs)) (u64 (cu_count c - blocks * bs)) (cu_buf c + blocks * bs)
      (drv_write (cu_start c / bs) blocks (cu_mem c) m (cu_buf c)) (u64 (cu_count c - blocks * bs) =? 0)
  else c.

Definition write_tail (c : cursor) : mem :=
  let end_ := cu_count c mod bs in
  if cu_done c then cu_mem c
  else if truthy end_ then
    let nbuf := drv_read (cu_start c / bs) 1 (cu_mem c) junk 0 in
    let nbuf := put end_ nbuf 0 m (cu_buf c) in
    drv_write (cu_start c / bs) 1 (cu_mem c) nbuf 0
  else cu_mem c.
End WriteTransfer.

(** The result and the caller's memory; [junk] is what a fresh kmalloc buffer holds. *)
Definition device_read `{DriverOps} (dev : device) (start count : Z) (disk : mem) (buf : Z) (m junk : mem) : Z * mem :=
  let bs := block_size dev in
  if S_ISBLK (d_type dev) then
    (0, read_tail bs disk junk (read_blocks bs disk (read_head bs disk junk (mk_cursor start count buf m false))))
  else if S_ISCHR (d_type dev) then (drv_read_ret start count disk, drv_read start count disk m buf)
  else (1, m).

(** The result and the contents of the device. *)
Definition device_write `{DriverOps} (dev : device) (start count : Z) (disk : mem) (buf : Z) (m junk : mem) : Z * mem :=
  let bs := block_size dev in
  if S_ISBLK (d_type dev) then
    (0, write_tail bs m junk (write_blocks bs m (write_head bs m junk (mk_cursor start count buf disk false))))
  else if S_ISCHR (d_type dev) then (drv_write_ret start count disk, drv_write start count disk m buf)
  else (1, disk).

(** ** The contract of a block driver *)

Class BlockDriver (bs : Z) `{DriverOps} := {
  drv_size : 0 < bs;
  drv_read_ok : forall start count disk buf p x, 0 <= start -> 0 <= count ->
    drv_read start count disk buf p x = put (count * bs) buf p disk (start * bs) x;
  drv_write_ok : forall start count disk buf p x, 0 <= start -> 0 <= count ->
    drv_write start count disk buf p x = put (count * bs) disk (start * bs) buf p x
}.

(** A driver that may be trusted with at most [max] blocks at a time. *)
Class BlockDriverUpTo (bs max : Z) `{DriverOps} := {
  upto_size : 0 < bs;
  upto_max : 1 <= max;
  upto_read_ok : forall start count disk buf p x, 0 <= start -> 0 <= count <= max ->
    drv_read start count disk buf p x = put (count * bs) buf p disk (start * bs) x;
  upto_write_ok : forall start count disk buf p x, 0 <= start -> 0 <= count <= max ->
    drv_write start count disk buf p x = put (count * bs) disk (start * bs) buf p x
}.

Lemma driver_up_to bs max `{BlockDriver bs} : 1 <= max -> BlockDriverUpTo bs max.
Proof.
  intros Hm. constructor; [apply drv_size|done| |]; intros; [apply drv_read_ok; lia|apply drv_write_ok; lia].
Qed.

(** Decides the interval tests of two nested copies. *)
Ltac intervals :=
  repeat match goal with
  | |- context [?a <=? ?b] => destruct (Z.leb_spec a b)
  | |- context [?a <? ?b] => destruct (Z.ltb_spec a b)
  end; cbn [andb]; try reflexivity; try (exfalso; lia); try (f_equal; lia).

(** [put] is a copy in two steps: first [k] bytes, then the others. *)
Lemma put_split k n d a s b x : 0 <= k <= n ->
  put (n - k) (put k d a s b) (a + k) s (b + k) x = put n d a s b x.
Proof. intros Hk. unfold put. intervals. Qed.

Lemma put_ext n d d' a s s' b x :
  d x = d' x -> (forall y, b <= y < b + n -> s y = s' y) -> put n d a s b x = put n d' a s' b x.
Proof. intros Hd Hs. unfold put. destruct (Z.leb_spec a x), (Z.ltb_spec x (a + n)); simpl; auto. apply Hs. lia. Qed.

Section Correct.
Context (bs max : Z) `{BlockDriverUpTo bs max} (Hpos : 0 < bs) (Hmax : 1 <= max).
Implicit Types c : cursor.

(** The range of a transfer lies within what a [size_t] counts. *)
Definition in_width c : Prop := 0 <= cu_start c /\ 0 <= cu_count c < 2 ^ 64 /\ cu_start c + cu_count c <= 2 ^ 64.

(** Advancing by [len]: nothing wraps but the position behind the last byte of the address space,
    when nothing is left. *)
Lemma advance c len : in_width c -> 0 <= len <= cu_count c ->
  u64 (cu_count c - len) = cu_count c - len /\ (cu_count c - len <> 0 -> u64 (cu_start c + len) = cu_start c + len) /\
  0 <= u64 (cu_start c + len) /\ u64 (cu_start c + len) + (cu_count c - len) <= 2 ^ 64.
Proof.
  intros (Hs & Hc & Hw) Hl. split; [apply u64_small; lia|].
  assert (C : cu_start c + len < 2 ^ 64 \/ cu_start c + len = 2 ^ 64 /\ cu_count c - len = 0) by lia.
  destruct C as [C|[C E]]; [rewrite u64_small by lia; lia|]. rewrite C, E. change (u64 (2 ^ 64)) with 0. lia.
Qed.

(** What is left of a transfer of the bytes from [buf'] of [src] to [start']. *)
Definition rest (c : cursor) (src : mem) (x : Z) : Z :=
  if cu_done c then cu_mem c x else put (cu_count c) (cu_mem c) (cu_buf c) src (cu_start c) x.

Lemma head_len c : 0 <= cu_count c -> 0 <= MIN (bs - cu_start c mod bs) (cu_count c) <= cu_count c.
Proof.
  intros Hc. pose proof (Z.mod_pos_bound (cu_start c) bs Hpos). unfold MIN. zcase; lia.
Qed.

Lemma read_head_ok disk junk c : cu_done c = false -> in_width c ->
  let c' := read_head bs disk junk c in
  (forall x, rest c' disk x = rest c disk x) /\ in_width c' /\
  cu_count c' <= cu_count c /\
  (cu_done c' = true \/ cu_start c' mod bs = 0 \/ cu_count c' = 0).
Proof.
  intros Hd HW c'. pose proof HW as (Hs & Hc & Hw). unfold c', read_head. destruct (truthy (cu_start c mod bs)) eqn:E.
  - pose proof (head_len c (proj1 Hc)) as Hl. set (len := MIN _ _) in *. cbv zeta.
    destruct (advance c len HW Hl) as (EC & ES & S0 & SW). rewrite EC.
    pose proof (Z.div_mod (cu_start c) bs ltac:(lia)) as Ed. pose proof (Z.mod_pos_bound (cu_start c) bs Hpos).
    pose proof (Z.div_pos _ _ Hs Hpos). split; [|split; [unfold in_width; cbn [cu_start cu_count]; lia|cbn [cu_start cu_count cu_done]; split; [lia|]]].
    + intros x. unfold rest. cbn [cu_done cu_mem cu_count cu_buf cu_start]. rewrite Hd.
      assert (Eh : forall y, put len (cu_mem c) (cu_buf c) (drv_read (cu_start c / bs) 1 disk junk 0) (cu_start c mod bs) y
                  = put len (cu_mem c) (cu_buf c) disk (cu_start c) y).
      { intros y. unfold put. destruct (Z.leb_spec (cu_buf c) y), (Z.ltb_spec y (cu_buf c + len)); simpl; try done.
        rewrite upto_read_ok by lia. unfold put.
        assert (len <= bs - cu_start c mod bs) by (unfold len, MIN; zcase; lia).
        rewrite (proj2 (Z.leb_le _ _)), (proj2 (Z.ltb_lt _ _)) by lia. simpl. f_equal. lia. }
      destruct (Z.eqb_spec (cu_count c - len) 0) as [E0|E0].
      * rewrite Eh. by replace (cu_count c) with len by lia.
      * rewrite (ES E0), <- (put_split len (cu_count c)) by lia. apply put_ext; [apply Eh|done].
    + destruct (Z.eqb_spec (cu_count c - len) 0) as [E0|E0]; [by left|right; left].
      assert (El : len = bs - cu_start c mod bs) by (unfold len, MIN in *; destruct (_ <? _); lia).
      rewrite (ES E0), El. replace (cu_start c + (bs - cu_start c mod bs)) with ((cu_start c / bs + 1) * bs) by lia.
      by apply Z.mod_mul; lia.
  - unfold truthy in E. zbool. split_and!; auto; lia.
Qed.

Lemma read_blocks_ok disk c : in_width c -> cu_count c / bs <= max ->
  (cu_done c = true \/ cu_start c mod bs = 0 \/ cu_count c = 0) ->
  let c' := read_blocks bs disk c in
  (forall x, rest c' disk x = rest c disk x) /\ in_width c' /\
  (cu_done c' = true \/ (cu_start c' mod bs = 0 \/ cu_count c' = 0) /\ cu_count c' < bs).
Proof.
  intros HW HM Ha c'. pose proof HW as (Hs & Hc & Hw). unfold c', read_blocks. destruct (cu_done c) eqn:Hd; [split_and!; auto|].
  pose proof (Z.div_mod (cu_count c) bs ltac:(lia)) as Ed. pose proof (Z.mod_pos_bound (cu_count c) bs Hpos).
  pose proof (Z.div_pos _ _ (proj1 Hc) Hpos).
  destruct Ha as [Ha|Ha]; [done|]. destruct (truthy (cu_count c / bs)) eqn:E; unfold truthy in E; zbool.
  - assert (Hm : cu_start c mod bs = 0).
    { destruct Ha as [Ha|Ha]; [done|]. rewrite Ha, Z.div_0_l in E by lia. done. }
    pose proof (Z.div_mod (cu_start c) bs ltac:(lia)) as Es. pose proof (Z.div_pos _ _ Hs Hpos).
    set (k := cu_count c / bs * bs) in *. destruct (advance c k HW ltac:(unfold k; lia)) as (EC & ES & S0 & SW). rewrite EC.
    split; [|split; [unfold in_width; cbn [cu_start cu_count]; lia|cbn [cu_start cu_count cu_done]]].
    + intros x. unfold rest. cbn [cu_done cu_mem cu_count cu_buf cu_start]. rewrite Hd.
      assert (Eh : forall y, drv_read (cu_start c / bs) (cu_count c / bs) disk (cu_mem c) (cu_buf c) y
                  = put k (cu_mem c) (cu_buf c) disk (cu_start c) y).
      { intros y. rewrite upto_read_ok by lia. unfold k. by replace (cu_start c / bs * bs) with (cu_start c) by lia. }
      destruct (Z.eqb_spec (cu_count c - k) 0) as [E0|E0].
      * rewrite Eh. by replace (cu_count c) with k by lia.
      * rewrite (ES E0), <- (put_split k (cu_count c)) by (unfold k; lia). apply put_ext; [apply Eh|done].
    + destruct (Z.eqb_spec (cu_count c - k) 0) as [E0|E0]; [by left|right]. split; [|unfold k; lia]. left.
      rewrite (ES E0). unfold k. rewrite Z.mod_add by lia. done.
  - split_and!; auto. right. split; [tauto|lia].
Qed.

Lemma read_tail_ok disk junk c x : in_width c ->
  (cu_done c = true \/ (cu_start c mod bs = 0 \/ cu_count c = 0) /\ cu_count c < bs) ->
  read_tail bs disk junk c x = rest c disk x.
Proof.
  intros (Hs & Hc & Hw) Ha. unfold read_tail, rest. destruct (cu_done c); [done|]. destruct Ha as [Ha|[Ha Hlt]]; [done|].
  rewrite (Z.mod_small (cu_count c)) by lia.
  destruct (truthy (cu_count c)) eqn:E; unfold truthy in E; zbool.
  - destruct Ha as [Ha|Ha]; [|lia]. pose proof (Z.div_mod (cu_start c) bs ltac:(lia)) as Es.
    pose proof (Z.div_pos _ _ Hs Hpos). rewrite Ha. unfold put.
    destruct (Z.leb_spec (cu_buf c) x), (Z.ltb_spec x (cu_buf c + cu_count c)); simpl; try done.
    rewrite upto_read_ok by lia. unfold put. rewrite (proj2 (Z.leb_le _ _)), (proj2 (Z.ltb_lt _ _)) by lia.
    simpl. f_equal. lia.
  - rewrite E. unfold put. intervals.
Qed.

(** The same for writing: bytes of [m] from [cu_buf] go to [cu_start] on the device. *)
Definition rest_w (c : cursor) (m : mem) (x : Z) : Z :=
  if cu_done c then cu_mem c x else put (cu_count c) (cu_mem c) (cu_start c) m (cu_buf c) x.

(** Read-modify-write of [len] bytes at offset [off] of block [k]. *)
Lemma rmw_ok d junk m buf k off len x : 0 <= k -> 0 <= off -> 0 <= len -> off + len <= bs ->
  drv_write k 1 d (put len (drv_read k 1 d junk 0) off m buf) 0 x = put len d (k * bs + off) m buf x.
Proof.
  intros Hk Ho Hl Hb. rewrite upto_write_ok by lia. unfold put at 1.
  destruct (Z.leb_spec (k * bs) x), (Z.ltb_spec x (k * bs + 1 * bs)); cbn [andb].
  - unfold put. destruct (Z.leb_spec off (0 + (x - k * bs))), (Z.ltb_spec (0 + (x - k * bs)) (off + len)),
      (Z.leb_spec (k * bs + off) x), (Z.ltb_spec x (k * bs + off + len)); cbn [andb]; try (exfalso; lia);
      try (f_equal; lia); rewrite upto_read_ok by lia; unfold put;
      rewrite (proj2 (Z.leb_le _ _)), (proj2 (Z.ltb_lt _ _)) by lia; cbn [andb]; f_equal; lia.
  - unfold put. destruct (Z.leb_spec (k * bs + off) x), (Z.ltb_spec x (k * bs + off + len)); cbn [andb]; try done; lia.
  - unfold put. destruct (Z.leb_spec (k * bs + off) x), (Z.ltb_spec x (k * bs + off + len)); cbn [andb]; try done; lia.
  - lia.
Qed.

Lemma write_head_ok m junk c : cu_done c = false -> in_width c ->
  let c' := write_head bs m junk c in
  (forall x, rest_w c' m x = rest_w c m x) /\ in_width c' /\
  cu_count c' <= cu_count c /\
  (cu_done c' = true \/ cu_start c' mod bs = 0 \/ cu_count c' = 0).
Proof.
  intros Hd HW c'. pose proof HW as (Hs & Hc & Hw). unfold c', write_head. destruct (truthy (cu_start c mod bs)) eqn:E.
  - pose proof (head_len c (proj1 Hc)) as Hl. set (len := MIN _ _) in *. cbv zeta.
    destruct (advance c len HW Hl) as (EC & ES & S0 & SW). rewrite EC.
    pose proof (Z.div_mod (cu_start c) bs ltac:(lia)) as Ed. pose proof (Z.mod_pos_bound (cu_start c) bs Hpos).
    pose proof (Z.div_pos _ _ Hs Hpos).
    assert (len <= bs - cu_start c mod bs) by (unfold len, MIN; zcase; lia).
    split; [|split; [unfold in_width; cbn [cu_start cu_count]; lia|cbn [cu_start cu_count cu_done]; split; [lia|]]].
    + intros x. unfold rest_w. cbn [cu_done cu_mem cu_count cu_buf cu_start]. rewrite Hd.
      assert (Eh : forall y, drv_write (cu_start c / bs) 1 (cu_mem c)
          (put len (drv_read (cu_start c / bs) 1 (cu_mem c) junk 0) (cu_start c mod bs) m (cu_buf c)) 0 y
          = put len (cu_mem c) (cu_start c) m (cu_buf c) y).
      { intros y. rewrite rmw_ok by lia. by replace (cu_start c / bs * bs + cu_start c mod bs) with (cu_start c) by lia. }
      destruct (Z.eqb_spec (cu_count c - len) 0) as [E0|E0].
      * rewrite Eh. by replace (cu_count c) with len by lia.
      * rewrite (ES E0), <- (put_split len (cu_count c)) by lia. apply put_ext; [apply Eh|done].
    + destruct (Z.eqb_spec (cu_count c - len) 0) as [E0|E0]; [by left|right; left].
      assert (El : len = bs - cu_start c mod bs) by (unfold len, MIN in *; destruct (_ <? _); lia).
      rewrite (ES E0), El. replace (cu_start c + (bs - cu_start c mod bs)) with ((cu_start c / bs + 1) * bs) by lia.
      by apply Z.mod_mul; lia.
  - unfold truthy in E. zbool. split_and!; auto; lia.
Qed.

Lemma write_blocks_ok m c : in_width c -> cu_count c / bs <= max ->
  (cu_done c = true \/ cu_start c mod bs = 0 \/ cu_count c = 0) ->
  let c' := write_blocks bs m c in
  (forall x, rest_w c' m x = rest_w c m x) /\ in_width c' /\
  (cu_done c' = true \/ (cu_start c' mod bs = 0 \/ cu_count c' = 0) /\ cu_count c' < bs).
Proof.
  intros HW HM Ha c'. pose proof HW as (Hs & Hc & Hw). unfold c', write_blocks. destruct (cu_done c) eqn:Hd; [split_and!; auto|].
  pose proof (Z.div_mod (cu_count c) bs ltac:(lia)) as Ed. pose proof (Z.mod_pos_bound (cu_count c) bs Hpos).
  pose proof (Z.div_pos _ _ (proj1 Hc) Hpos).
  destruct Ha as [Ha|Ha]; [done|]. destruct (truthy (cu_count c / bs)) eqn:E; unfold truthy in E; zbool.
  - assert (Hm : cu_start c mod bs = 0).
    { destruct Ha as [Ha|Ha]; [done|]. rewrite Ha, Z.div_0_l in E by lia. done. }
    pose proof (Z.div_mod (cu_start c) bs ltac:(lia)) as Es. pose proof (Z.div_pos _ _ Hs Hpos).
    set (k := cu_count c / bs * bs) in *. destruct (advance c k HW ltac:(unfold k; lia)) as (EC & ES & S0 & SW). rewrite EC.
    split; [|split; [unfold in_width; cbn [cu_start cu_count]; lia|cbn [cu_start cu_count cu_done]]].
    + intros x. unfold rest_w. cbn [cu_done cu_mem cu_count cu_buf cu_start]. rewrite Hd.
      assert (Eh : forall y, drv_write (cu_start c / bs) (cu_count c / bs) (cu_mem c) m (cu_buf c) y
                  = put k (cu_mem c) (cu_start c) m (cu_buf c) y).
      { intros y. rewrite upto_write_ok by lia. unfold k. by replace (cu_start c / bs * bs) with (cu_start c) by lia. }
      destruct (Z.eqb_spec (cu_count c - k) 0) as [E0|E0].
      * rewrite Eh. by replace (cu_count c) with k by lia.
      * rewrite (ES E0), <- (put_split k (cu_count c)) by (unfold k; lia). apply put_ext; [apply Eh|done].
    + destruct (Z.eqb_spec (cu_count c - k) 0) as [E0|E0]; [by left|right]. split; [|unfold k; lia]. left.
      rewrite (ES E0). unfold k. rewrite Z.mod_add by lia. done.
  - split_and!; auto. right. split; [tauto|lia].
Qed.

Lemma write_tail_ok m junk c x : in_width c ->
  (cu_done c = true \/ (cu_start c mod bs = 0 \/ cu_count c = 0) /\ cu_count c < bs) ->
  write_tail bs m junk c x = rest_w c m x.
Proof.
  intros (Hs & Hc & Hw) Ha. unfold write_tail, rest_w. destruct (cu_done c); [done|]. destruct Ha as [Ha|[Ha Hlt]]; [done|].
  rewrite (Z.mod_small (cu_count c)) by lia.
  destruct (truthy (cu_count c)) eqn:E; unfold truthy in E; zbool.
  - destruct Ha as [Ha|Ha]; [|lia]. pose proof (Z.div_mod (cu_start c) bs ltac:(lia)) as Es.
    pose proof (Z.div_pos _ _ Hs Hpos). cbv zeta. rewrite rmw_ok by lia.
    by replace (cu_start c / bs * bs + 0) with (cu_start c) by lia.
  - rewrite E. unfold put. intervals.
Qed.
End Correct.

(** device_read on a block device copies exactly the bytes [start .. start + count) of the
    device to the buffer, for any alignment of the range, and returns 0: the cutting into
    blocks is invisible to the caller. *)
Theorem device_read_spec (bs max : Z) `{BlockDriverUpTo bs max} (dev : device) (start count buf : Z) (disk m junk : mem) :
  block_size dev = bs -> S_ISBLK (d_type dev) = true -> 0 <= start -> 0 <= count < 2 ^ 64 -> start + count <= 2 ^ 64 ->
  count / bs <= max ->
  fst (device_read dev start count disk buf m junk) = 0 /\
  forall x, snd (device_read dev start count disk buf m junk) x = put count m buf disk start x.
Proof.
  intros Hbs Hblk Hs Hc Hw Hm. unfold device_read. rewrite Hblk, Hbs. split; [done|]. intros x. cbn [snd].
  pose proof upto_size as Hpos. pose proof upto_max as Hmax.
  set (c0 := mk_cursor start count buf m false).
  destruct (read_head_ok bs max Hpos Hmax disk junk c0 eq_refl) as (E1 & W1 & L1 & A1); [done|].
  destruct (read_blocks_ok bs max Hpos disk _ W1) as (E2 & W2 & A2); [|done|].
  { etransitivity; [|exact Hm]. apply Z.div_le_mono; [done|exact L1]. }
  rewrite (read_tail_ok bs max Hpos Hmax) by done. by rewrite E2, E1.
Qed.

(** C8: device_write changes exactly the bytes [start .. start + count) of the device to those
    of the buffer and returns 0, for any alignment: the other bytes of partially written blocks
    survive.  The range must not wrap around [size_t], and the driver must be right for requests of
    up to [max] blocks, no fewer than the whole blocks of the range.  The SATA driver of ahci.c does what
    the contract asks for in requests of up to 16 blocks that its controller answers ([sata_ops_small]
    in Ahci.v); longer ones move only the first few of their sectors. *)
Theorem device_write_spec (bs max : Z) `{BlockDriverUpTo bs max} (dev : device) (start count buf : Z) (disk m junk : mem) :
  block_size dev = bs -> S_ISBLK (d_type dev) = true -> 0 <= start -> 0 <= count < 2 ^ 64 -> start + count <= 2 ^ 64 ->
  count / bs <= max ->
  fst (device_write dev start count disk buf m junk) = 0 /\
  forall x, snd (device_write dev start count disk buf m junk) x = put count disk start m buf x.
Proof.
  intros Hbs Hblk Hs Hc Hw Hm. unfold device_write. rewrite Hblk, Hbs. split; [done|]. intros x. cbn [snd].
  pose proof upto_size as Hpos. pose proof upto_max as Hmax.
  set (c0 := mk_cursor start count buf disk false).
  destruct (write_head_ok bs max Hpos Hmax m junk c0 eq_refl) as (E1 & W1 & L1 & A1); [done|].
  destruct (write_blocks_ok bs max Hpos m _ W1) as (E2 & W2 & A2); [|done|].
  { etransitivity; [|exact Hm]. apply Z.div_le_mono; [done|exact L1]. }
  rewrite (write_tail_ok bs max Hpos Hmax) by done. by rewrite E2, E1.
Qed.

(** ** A RAM disk with 512-byte sectors *)

Definition ram_ops : DriverOps := {|
  drv_read := fun start count disk buf p => put (count * 512) buf p disk (start * 512);
  drv_write := fun start count disk buf p => put (count * 512) disk (start * 512) buf p;
  drv_read_ret := fun start count disk => count;
  drv_write_ret := fun start count disk => count
|}.

Lemma ram_driver : @BlockDriver 512 ram_ops.
Proof. by constructor. Qed.

Definition ram_disk : device := mk_device S_IFBLK 0 512 100.

Lemma device_read_spec_witness :
  fst (@device_read ram_ops ram_disk 500 1100 (fun x => x) 64 (fun _ => 0) (fun _ => 5)) = 0 /\
  forall x, snd (@device_read ram_ops ram_disk 500 1100 (fun x => x) 64 (fun _ => 0) (fun _ => 5)) x
    = put 1100 (fun _ => 0) 64 (fun x => x) 500 x.
Proof.
  apply (@device_read_spec 512 16 ram_ops (driver_up_to 512 16 (H0 := ram_driver) ltac:(lia)) ram_disk 500 1100 64); (reflexivity || lia || (vm_compute; discriminate)).
Defined.

Lemma device_write_spec_witness :
  fst (@device_write ram_ops ram_disk 500 1100 (fun _ => 0) 64 (fun x => x) (fun _ => 5)) = 0 /\
  forall x, snd (@device_write ram_ops ram_disk 500 1100 (fun _ => 0) 64 (fun x => x) (fun _ => 5)) x
    = put 1100 (fun _ => 0) 500 (fun x => x) 64 x.
Proof.
  apply (@device_write_spec 512 16 ram_ops (driver_up_to 512 16 (H0 := ram_driver) ltac:(lia)) ram_disk 500 1100 64); (reflexivity || lia || (vm_compute; discriminate)).
Defined.
