(* ===== verification/Pipe.v ===== *)
(** * Pipes (src/src/kernel/pipe/pipe.c)

    [head] and [tail] are offsets into the buffer (the pointers minus [buffer]); the buffer has
    [capacity * sizeof(char * )] bytes and is at the address [base].  Pointers are compared as the
    64-bit addresses they are, so a large [count] makes [head + count] wrap around.  An access
    outside the buffer is [None]. *)
From S2P Require Import Prelude.

Record pipe_t := mk_pipe { base : Z; buffer : list Z; head : Z; tail : Z }.

Definition buffer_end (p : pipe_t) : Z := Z.of_nat (length (buffer p)).

(** The address of the offset [i], and the end of the buffer. *)
Definition addr (p : pipe_t) (i : Z) : Z := u64 (base p + i).
Definition end_addr (p : pipe_t) : Z := addr p (buffer_end p).

(** [at_] is the block kmalloc returns and [junk] what it holds. *)
Definition pipe_init (at_ capacity : Z) (junk : list Z) : pipe_t :=
  mk_pipe at_ (take (Z.to_nat (capacity * 8)) junk) 0 0.

(** [memcpy(pipe->head, item, count)] *)
Definition store (buf : list Z) (pos : Z) (item : list Z) (count : Z) : option (list Z) :=
  if (count <=? Z.of_nat (length item)) && (pos + count <=? Z.of_nat (length buf)) then
    Some (take (Z.to_nat pos) buf ++ take (Z.to_nat count) item ++ drop (Z.to_nat (pos + count)) buf)
  else None.

Definition pipe_write (p : pipe_t) (item : list Z) (count : Z) : option (Z * pipe_t) :=
  if end_addr p <=? addr p (head p + count) then Some (0, p)
  else
    buf ← store (buffer p) (head p) item count;
    let h := head p + count in
    let h := if end_addr p <=? addr p h then 0 else h in
    Some (count, mk_pipe (base p) buf h (tail p)).

(** The loop of [pipe_read]: [tail] does not move inside it, so the test of the loop is the
    test made before it. *)
Fixpoint read_loop (n : nat) (p : pipe_t) (read : Z) : option (option (list Z)) :=
  match n with
  | O => Some (Some [])
  | S n' =>
      c ← buffer p !! Z.to_nat (tail p + read);
      if head p <=? tail p then Some None
      else
        r ← read_loop n' p (read + 1);
        Some (option_map (cons c) r)
  end.

(** The result, the bytes copied to the caller and the pipe. *)
Definition pipe_read (p : pipe_t) (count : Z) : option (Z * list Z * pipe_t) :=
  if head p <=? tail p then Some (-1, [], p)
  else
    r ← read_loop (Z.to_nat count) p 0;
    match r with
    | None => Some (-1, [], p)
    | Some item =>
        let t := tail p + count in
        let t := if end_addr p <=? addr p t then 0 else t in
        Some (count, item, mk_pipe (base p) (buffer p) (head p) t)
    end.

(** ** The pipe as a queue *)

Definition queue (p : pipe_t) : list Z :=
  take (Z.to_nat (head p - tail p)) (drop (Z.to_nat (tail p)) (buffer p)).

Record pipe_ok (p : pipe_t) : Prop := mk_pipe_ok {
  po_tail : 0 <= tail p <= head p;
  po_head : head p < buffer_end p;
  po_base : 0 <= base p /\ base p + buffer_end p < 2 ^ 64
}.

Lemma addr_in p i : pipe_ok p -> 0 <= i <= buffer_end p -> addr p i = base p + i.
Proof. intros [_ _ Hb] Hi. apply u64_small. lia. Qed.

Lemma end_addr_in p : pipe_ok p -> end_addr p = base p + buffer_end p.
Proof. intros Hok. apply addr_in; [done|]. unfold buffer_end. lia. Qed.

Lemma at_end p i : pipe_ok p -> 0 <= i <= buffer_end p -> (end_addr p <=? addr p i) = (buffer_end p <=? i).
Proof.
  intros Hok Hi. rewrite end_addr_in, addr_in by done.
  destruct (Z.leb_spec (buffer_end p) i); [apply Z.leb_le|apply Z.leb_gt]; lia.
Qed.

Lemma length_queue p : pipe_ok p -> Z.of_nat (length (queue p)) = head p - tail p.
Proof.
  intros [Ht Hh _]. unfold buffer_end in Hh. unfold queue. rewrite length_take, length_drop. lia.
Qed.

Lemma queue_nonempty p : pipe_ok p -> queue p <> [] -> tail p < head p.
Proof.
  intros Hok Hq. pose proof (length_queue p Hok) as Hl. destruct (queue p); [done|]. simpl in Hl. lia.
Qed.

Lemma queue_empty p : pipe_ok p -> queue p = [] -> head p <= tail p.
Proof. intros Hok Hq. pose proof (length_queue p Hok) as Hl. rewrite Hq in Hl. simpl in Hl. lia. Qed.

Lemma read_loop_ok p n read : tail p < head p -> 0 <= tail p -> 0 <= read ->
  tail p + read + Z.of_nat n <= buffer_end p ->
  read_loop n p read = Some (Some (take n (drop (Z.to_nat (tail p + read)) (buffer p)))).
Proof.
  unfold buffer_end. intros Ht H0. revert read. induction n as [|n IH]; intros read Hr Hb; [done|].
  cbn [read_loop]. destruct (lookup_Z_Some (buffer p) (tail p + read)) as [c Hc]; [lia|].
  rewrite Hc. simpl. rewrite (proj2 (Z.leb_gt _ _)) by lia.
  rewrite IH by lia. simpl. do 2 f_equal. rewrite (drop_S _ c (Z.to_nat (tail p + read))) by done.
  simpl. do 3 f_equal. lia.
Qed.

Lemma take_drop_queue (b : list Z) t n k : (k <= n)%nat ->
  take k (take n (drop t b)) = take k (drop t b).
Proof. intros. rewrite take_take. f_equal. lia. Qed.

Lemma read_loop_outside p n read : tail p < head p -> 0 <= tail p -> 0 <= read ->
  tail p + read <= buffer_end p < tail p + read + Z.of_nat n -> read_loop n p read = None.
Proof.
  unfold buffer_end. intros Ht H0. revert read. induction n as [|n IH]; intros read Hr Hb; [lia|].
  cbn [read_loop]. destruct (buffer p !! Z.to_nat (tail p + read)) as [c|] eqn:Hc; [|done].
  apply lookup_lt_Some in Hc. simpl. rewrite (proj2 (Z.leb_gt _ _)) by lia. by rewrite IH by lia.
Qed.

(** What a read of [count] bytes does to the pipe when it stays inside the buffer. *)
Definition tail_moved (p : pipe_t) (count : Z) : pipe_t :=
  mk_pipe (base p) (buffer p) (head p) (if tail p + count =? buffer_end p then 0 else tail p + count).

Lemma pipe_read_run p count : pipe_ok p -> tail p < head p -> 0 <= count ->
  pipe_read p count =
    if tail p + count <=? buffer_end p
    then Some (count, take (Z.to_nat count) (drop (Z.to_nat (tail p)) (buffer p)), tail_moved p count)
    else None.
Proof.
  intros Hok Hne Hc. pose proof (po_tail p Hok). unfold pipe_read. rewrite (proj2 (Z.leb_gt _ _)) by lia.
  destruct (Z.leb_spec (tail p + count) (buffer_end p)) as [Hin|Hout].
  - rewrite read_loop_ok by lia. rewrite Z.add_0_r. simpl. rewrite at_end by (done || lia).
    unfold tail_moved. do 3 f_equal. destruct (Z.leb_spec (buffer_end p) (tail p + count)), (Z.eqb_spec (tail p + count) (buffer_end p));
      lia || done.
  - rewrite read_loop_outside; [done|lia|lia|lia|]. pose proof (po_head p Hok). lia.
Qed.

(** A read of no more than is queued takes the oldest bytes. *)
Lemma read_queue p count : pipe_ok p -> 0 <= count <= Z.of_nat (length (queue p)) ->
  take (Z.to_nat count) (drop (Z.to_nat (tail p)) (buffer p)) = take (Z.to_nat count) (queue p) /\
  pipe_ok (tail_moved p count) /\ queue (tail_moved p count) = drop (Z.to_nat count) (queue p).
Proof.
  intros Hok Hc. rewrite length_queue in Hc by done. destruct Hok as [Ht Hh Hb].
  assert (E : tail_moved p count = mk_pipe (base p) (buffer p) (head p) (tail p + count)).
  { unfold tail_moved. by rewrite (proj2 (Z.eqb_neq _ _)) by lia. }
  rewrite E. split; [|split].
  - unfold queue. rewrite take_drop_queue; [done|]. lia.
  - by constructor; simpl; [lia|..].
  - unfold queue. simpl. replace (Z.to_nat (head p - tail p))
      with (Z.to_nat count + Z.to_nat (head p - (tail p + count)))%nat by lia.
    rewrite <- take_drop_commute, drop_drop. do 2 f_equal. lia.
Qed.

(** A longer read delivers all that is queued and then the bytes behind the head. *)
Lemma read_past p count : pipe_ok p -> Z.of_nat (length (queue p)) < count ->
  take (Z.to_nat count) (drop (Z.to_nat (tail p)) (buffer p)) =
    queue p ++ take (Z.to_nat (count - Z.of_nat (length (queue p)))) (drop (Z.to_nat (head p)) (buffer p)).
Proof.
  intros Hok Hc. rewrite length_queue in * by done. destruct Hok as [Ht Hh Hb]. unfold queue, buffer_end in *.
  replace (Z.to_nat count) with (Z.to_nat (head p - tail p) + Z.to_nat (count - (head p - tail p)))%nat by lia.
  rewrite <- take_take_drop, drop_drop. do 3 f_equal. lia.
Qed.

(** A count that does not fit: refused, unless the address wraps around, when the copy leaves the buffer. *)
Lemma write_refused p item count : pipe_ok p -> count < 2 ^ 64 -> buffer_end p <= head p + count ->
  pipe_write p item count = if base p + head p + count <? 2 ^ 64 then Some (0, p) else None.
Proof.
  intros Hok Hc Hfull. pose proof Hok as [Ht Hh Hb]. unfold pipe_write. rewrite end_addr_in by done.
  unfold addr. destruct (Z.ltb_spec (base p + head p + count) (2 ^ 64)).
  - rewrite u64_small by lia. by rewrite (proj2 (Z.leb_le _ _)) by lia.
  - unfold u64. rewrite <- (Z_mod_plus_full _ (-1)), Z.mod_small by lia. rewrite (proj2 (Z.leb_gt _ _)) by lia.
    unfold store. destruct (Z.eq_dec (head p + count) (buffer_end p)) as [E|]; [lia|].
    rewrite (proj2 (Z.leb_gt (head p + count) _)) by (unfold buffer_end in *; lia). by rewrite andb_false_r.
Qed.

Lemma pipe_write_run p item count : pipe_ok p -> 0 <= count <= Z.of_nat (length item) ->
  head p + count < buffer_end p ->
  exists p', pipe_write p item count = Some (count, p') /\ pipe_ok p' /\
    queue p' = queue p ++ take (Z.to_nat count) item.
Proof.
  intros Hok Hc Hroom. pose proof Hok as [Ht Hh Hb]. unfold pipe_write, store.
  rewrite at_end by (done || lia). rewrite (proj2 (Z.leb_gt _ _)) by lia. unfold buffer_end in *.
  rewrite (proj2 (Z.leb_le count _)), (proj2 (Z.leb_le (head p + count) _)) by lia. simpl.
  assert (Hl : length (take (Z.to_nat (head p)) (buffer p) ++ take (Z.to_nat count) item ++
                 drop (Z.to_nat (head p + count)) (buffer p)) = length (buffer p)).
  { rewrite !length_app, !length_take, length_drop. lia. }
  eexists. split; [done|]. split.
  - constructor; unfold buffer_end; simpl; rewrite ?Hl; lia.
  - unfold queue. simpl. rewrite drop_app_le by (rewrite length_take; lia).
    rewrite take_app_ge by (rewrite length_drop, length_take; lia).
    rewrite length_drop, length_take. f_equal.
    + rewrite take_drop_commute.
      by replace (Z.to_nat (tail p) + Z.to_nat (head p - tail p))%nat with (Z.to_nat (head p)) by lia.
    + rewrite take_app_le by (rewrite length_take; lia). rewrite take_take. f_equal. lia.
Qed.

(** C29: A pipe refines a bounded queue of bytes, up to the two places where it does not, and the
    theorem says what happens there.  A write appends all its bytes and returns their number when
    they fit behind the head; when they do not it returns 0 and changes nothing, unless the count
    is so large that the address of the new head wraps around, when the copy leaves the buffer.  A
    read from an empty pipe returns -1 and changes nothing.  A read of no more bytes than are
    queued returns the oldest ones and removes them.  A read of more bytes does not stop at the
    head: it returns what is queued followed by the bytes of the buffer behind the head, which were
    never written, and moves the tail past the head (or back to the start, when it read up to the
    end of the buffer); one that goes beyond the end of the buffer reads outside of it. *)
Theorem pipe_refines_queue (p : pipe_t) (item : list Z) (count : Z) :
  pipe_ok p -> 0 <= count < 2 ^ 64 ->
  let queued := Z.of_nat (length (queue p)) in
  (count <= Z.of_nat (length item) ->
     if head p + count <? buffer_end p then
       exists p', pipe_write p item count = Some (count, p') /\ pipe_ok p' /\
         queue p' = queue p ++ take (Z.to_nat count) item
     else pipe_write p item count = if base p + head p + count <? 2 ^ 64 then Some (0, p) else None) /\
  (queue p = [] -> pipe_read p count = Some (-1, [], p)) /\
  (queue p <> [] -> count <= queued ->
     exists p', pipe_read p count = Some (count, take (Z.to_nat count) (queue p), p') /\ pipe_ok p' /\
       queue p' = drop (Z.to_nat count) (queue p)) /\
  (queue p <> [] -> queued < count ->
     pipe_read p count =
       if tail p + count <=? buffer_end p then
         Some (count, queue p ++ take (Z.to_nat (count - queued)) (drop (Z.to_nat (head p)) (buffer p)),
               tail_moved p count)
       else None).
Proof.
  intros Hok Hc queued. split; [|split; [|split]].
  - intros Hi. destruct (Z.ltb_spec (head p + count) (buffer_end p)).
    + apply pipe_write_run; [done|lia|done].
    + apply write_refused; [done|lia|done].
  - intros Hq. apply queue_empty in Hq; [|done]. unfold pipe_read. by rewrite (proj2 (Z.leb_le _ _)).
  - intros Hq Hle. destruct (read_queue p count Hok) as (E & Hok' & Hq'); [lia|].
    exists (tail_moved p count). split; [|done]. rewrite pipe_read_run, E by (done || lia || by apply queue_nonempty).
    subst queued. rewrite length_queue in Hle by done. pose proof (po_head p Hok).
    by rewrite (proj2 (Z.leb_le _ _)) by lia.
  - intros Hq Hlt. rewrite pipe_read_run by (done || lia || by apply queue_nonempty). by rewrite <- read_past.
Qed.

(** A pipe with sixteen bytes of buffer, and the same pipe with three bytes in it. *)
Definition small_pipe : pipe_t := pipe_init 0x9000 2 (replicate 16 0xee).
Definition filled_pipe : pipe_t := mk_pipe 0x9000 ([1; 2; 3] ++ replicate 13 0xee) 3 0.

Lemma pipe_refines_queue_witness :
  (exists p', pipe_write small_pipe [1; 2; 3] 3 = Some (3, p') /\ pipe_ok p' /\ queue p' = [] ++ [1; 2; 3]) /\
  pipe_write small_pipe (replicate 16 7) 16 = Some (0, small_pipe) /\
  pipe_read small_pipe 3 = Some (-1, [], small_pipe) /\
  (exists p', pipe_read filled_pipe 2 = Some (2, [1; 2], p') /\ pipe_ok p' /\ queue p' = [3]) /\
  pipe_read filled_pipe 5 = Some (5, [1; 2; 3; 0xee; 0xee], tail_moved filled_pipe 5) /\
  pipe_read filled_pipe 17 = None.
Proof.
  assert (H : pipe_ok small_pipe) by (constructor; closed_Z).
  assert (H' : pipe_ok filled_pipe) by (constructor; closed_Z).
  split; [|split; [|split; [|split; [|split]]]].
  - destruct (pipe_refines_queue small_pipe [1; 2; 3] 3 H) as (Hw & _); [lia|]. apply Hw. simpl. lia.
  - destruct (pipe_refines_queue small_pipe (replicate 16 7) 16 H) as (Hw & _); [lia|]. apply Hw. simpl. lia.
  - destruct (pipe_refines_queue small_pipe [] 3 H) as (_ & He & _); [lia|]. by apply He.
  - destruct (pipe_refines_queue filled_pipe [] 2 H') as (_ & _ & Hr & _); [lia|]. apply Hr; vm_compute; done.
  - destruct (pipe_refines_queue filled_pipe [] 5 H') as (_ & _ & _ & Hr); [lia|]. apply Hr; vm_compute; done.
  - destruct (pipe_refines_queue filled_pipe [] 17 H') as (_ & _ & _ & Hr); [lia|]. apply Hr; vm_compute; done.
Defined.

(** Reads of the given sizes, one after the other. *)
Fixpoint reads (p : pipe_t) (counts : list Z) : option pipe_t :=
  match counts with
  | [] => Some p
  | n :: ns => '(_, _, p') ← pipe_read p n; reads p' ns
  end.

Lemma read_keeps_head p n r item p' : pipe_read p n = Some (r, item, p') ->
  head p' = head p /\ buffer p' = buffer p /\ base p' = base p.
Proof.
  unfold pipe_read. destruct (head p <=? tail p); [by intros [= _ _ <-]|].
  destruct (read_loop _ p 0) as [[it|]|]; simpl; [|by intros [= _ _ <-]|done]. by intros [= _ _ <-].
Qed.

(** The buffer is not a ring: once the head is [count] bytes from the end, a write of
    [count] bytes returns 0 whatever is read in the meantime, so the loop of vfs_write that
    retries until the write succeeds never ends. *)
Theorem pipe_never_drains (p p' : pipe_t) (counts : list Z) (item : list Z) (count : Z) :
  end_addr p <= addr p (head p + count) -> reads p counts = Some p' -> pipe_write p' item count = Some (0, p').
Proof.
  intros Hfull. revert p Hfull. induction counts as [|n ns IH]; intros p Hfull Hr; simpl in Hr.
  - injection Hr as <-. unfold pipe_write. by rewrite (proj2 (Z.leb_le _ _)).
  - destruct (pipe_read p n) as [[[r it] q]|] eqn:E; [|done]. simpl in Hr.
    destruct (read_keeps_head _ _ _ _ _ E) as (Eh & Eb & Ea). apply (IH q); [|done].
    unfold end_addr, addr, buffer_end in *. by rewrite Eh, Eb, Ea.
Qed.

(** The same pipe after fifteen bytes were written, and after they were read again. *)
Definition written_pipe : pipe_t := mk_pipe 0x9000 (replicate 15 1 ++ [0xee]) 15 0.
Definition drained_pipe : pipe_t := mk_pipe 0x9000 (replicate 15 1 ++ [0xee]) 15 15.

Lemma pipe_never_drains_witness :
  pipe_write small_pipe (replicate 15 1) 15 = Some (15, written_pipe) /\
  reads written_pipe [15] = Some drained_pipe /\ queue drained_pipe = [] /\
  pipe_write drained_pipe [7] 1 = Some (0, drained_pipe).
Proof.
  split; [reflexivity|]. split; [reflexivity|]. split; [reflexivity|].
  apply (pipe_never_drains written_pipe drained_pipe [15] [7] 1); [|reflexivity]. vm_compute. discriminate.
Defined.

(** A read of more bytes than are queued does not stop at the head: it returns bytes that
    were never written and leaves the tail behind the head. *)
Theorem pipe_read_past_head :
  match pipe_write small_pipe [1; 2] 2 with
  | Some (_, p) => match pipe_read p 5 with
                   | Some (r, item, p') => r = 5 /\ item = [1; 2; 0xee; 0xee; 0xee] /\ tail p' = 5 /\ head p' = 2
                   | None => False
                   end
  | None => False
  end.
Proof. vm_compute. auto. Qed.
