(* ===== verification/FatTypes.v ===== *)
(** * FAT32 structures (src/src/kernel/include/fs/fat32.h)

    The boot record and the directory entry as records of their fields, with the ranges the
    packed structures and their bit fields give them.  The byte layout is in FatDisk.v. *)
From S2P Require Import Prelude.

(** [bpb_t]: the fields the code uses. *)
Record bpb := mk_bpb {
  cluster_size : Z; reserved_sectors : Z; table_count : Z; table_size : Z; root_cluster : Z; signature : Z
}.

(** [dir_entry_t]; bit [k] of [de_flags] is the [k]-th one-bit field of the union. *)
Record dir_entry := mk_entry {
  filename : list Z; de_flags : Z; reserved2 : Z; created_ticks : Z;
  created_second : Z; created_minute : Z; created_hour : Z; created_day : Z; created_month : Z; created_year : Z;
  accessed_day : Z; accessed_month : Z; accessed_year : Z; cluster_hi : Z;
  modified_second : Z; modified_minute : Z; modified_hour : Z; modified_day : Z; modified_month : Z; modified_year : Z;
  cluster_lo : Z; de_size : Z
}.

Definition read_only (e : dir_entry) : bool := Z.testbit (de_flags e) 0.
Definition directory (e : dir_entry) : bool := Z.testbit (de_flags e) 4.

(** [fat_file_private_info_t] *)
Record fat_private := mk_fat_private { fp_dir : dir_entry; fp_index : Z; fp_cluster : Z; fp_parent : Z }.

(** An assignment to a bit field of [n] bits. *)
Definition bits (n x : Z) : Z := x mod 2 ^ n.

(** The values a [dir_entry_t] can hold. *)
Definition byte (x : Z) : Prop := 0 <= x < 256.
Record entry_ok (e : dir_entry) : Prop := mk_entry_ok {
  ok_name : length (filename e) = 11%nat /\ Forall byte (filename e);
  ok_bytes : byte (de_flags e) /\ byte (reserved2 e) /\ byte (created_ticks e);
  ok_ctime : 0 <= created_second e < 32 /\ 0 <= created_minute e < 64 /\ 0 <= created_hour e < 32;
  ok_cdate : 0 <= created_day e < 32 /\ 0 <= created_month e < 16 /\ 0 <= created_year e < 128;
  ok_adate : 0 <= accessed_day e < 32 /\ 0 <= accessed_month e < 16 /\ 0 <= accessed_year e < 128;
  ok_mtime : 0 <= modified_second e < 32 /\ 0 <= modified_minute e < 64 /\ 0 <= modified_hour e < 32;
  ok_mdate : 0 <= modified_day e < 32 /\ 0 <= modified_month e < 16 /\ 0 <= modified_year e < 128;
  ok_clusters : 0 <= cluster_hi e < 2 ^ 16 /\ 0 <= cluster_lo e < 2 ^ 16;
  ok_size : 0 <= de_size e < 2 ^ 32
}.
