(* ===== verification/Fs.v ===== *)
(** * File objects (src/src/kernel/include/fs/vfs.h)

    The data the file systems share: [fs_file_t], [fs_t], [stat_t], [dirent_t], and the kernel
    objects they point to.  A pointer is a [Z], 0 is NULL, and the state maps the address of a
    live object to its contents: an access to an address that is not there is a [Fault].
    Allocated addresses are never reused, so a dangling pointer is one of those.  Buffers that
    callers pass by address live in [ubuf]. *)
From S2P Require Import Prelude CString Vec Rtc Device Pipe FatTypes.

Definition R_OK : Z := 4.
Definition W_OK : Z := 2.
Definition X_OK : Z := 1.
Definition O_RDONLY : Z := 1.
Definition O_WRONLY : Z := 2.
Definition O_RDWR : Z := 4.
Definition O_CREAT : Z := 0x200.
Definition O_DIRECTORY : Z := 0x200000.
Definition S_IFDIR : Z := 0x4000.
Definition S_IFREG : Z := 0x8000.
Definition S_IFIFO : Z := 0x1000.
Definition S_IRUSR : Z := 0x100.
Definition S_IWUSR : Z := 0x80.
Definition S_IXUSR : Z := 0x40.
Definition S_IRGRP : Z := 0x20.
Definition S_IWGRP : Z := 0x10.
Definition S_IXGRP : Z := 8.
Definition S_IROTH : Z := 4.
Definition S_IWOTH : Z := 2.
Definition S_IXOTH : Z := 1.
Definition S_IRWX : Z := 0x1ff.
Definition S_ISDIR (n : Z) : bool := Z.land n S_IFMT =? S_IFDIR.
Definition S_ISREG (n : Z) : bool := Z.land n S_IFMT =? S_IFREG.

(** [tmpfs_dirent_t]: the vector of children and two back pointers. *)
Record tmpfs_dirent := mk_dirent { d_file : Z; children : vec Z; d_parent : Z }.

(** What [private_data] points to: in a tmpfs file nothing, a block of bytes or a directory, in
    a FAT file where the file is on the disk. *)
Inductive private :=
| PNull
| PBlock (bytes : list Z)
| PDir (d : tmpfs_dirent)
| PFat (p : fat_private).

Record fs_file := mk_file {
  f_path : list Z; f_uid : Z; f_gid : Z; f_ops : Z; f_fs : Z; f_dev : Z; f_pipe : Z;
  last_access_time : Z; last_modification_time : Z; last_status_change_time : Z; creation_time : Z;
  ref_count : Z; f_mode : Z; f_length : Z; f_inode : Z; private_data : private; f_offset : Z
}.

Definition with_ref_count (n : Z) (f : fs_file) : fs_file :=
  mk_file (f_path f) (f_uid f) (f_gid f) (f_ops f) (f_fs f) (f_dev f) (f_pipe f)
    (last_access_time f) (last_modification_time f) (last_status_change_time f) (creation_time f)
    n (f_mode f) (f_length f) (f_inode f) (private_data f) (f_offset f).
Definition with_mode (m : Z) (f : fs_file) : fs_file :=
  mk_file (f_path f) (f_uid f) (f_gid f) (f_ops f) (f_fs f) (f_dev f) (f_pipe f)
    (last_access_time f) (last_modification_time f) (last_status_change_time f) (creation_time f)
    (ref_count f) m (f_length f) (f_inode f) (private_data f) (f_offset f).
Definition with_owner (uid gid : Z) (f : fs_file) : fs_file :=
  mk_file (f_path f) uid gid (f_ops f) (f_fs f) (f_dev f) (f_pipe f)
    (last_access_time f) (last_modification_time f) (last_status_change_time f) (creation_time f)
    (ref_count f) (f_mode f) (f_length f) (f_inode f) (private_data f) (f_offset f).
Definition with_data (len : Z) (p : private) (f : fs_file) : fs_file :=
  mk_file (f_path f) (f_uid f) (f_gid f) (f_ops f) (f_fs f) (f_dev f) (f_pipe f)
    (last_access_time f) (last_modification_time f) (last_status_change_time f) (creation_time f)
    (ref_count f) (f_mode f) len (f_inode f) p (f_offset f).
Definition with_offset (o : Z) (f : fs_file) : fs_file :=
  mk_file (f_path f) (f_uid f) (f_gid f) (f_ops f) (f_fs f) (f_dev f) (f_pipe f)
    (last_access_time f) (last_modification_time f) (last_status_change_time f) (creation_time f)
    (ref_count f) (f_mode f) (f_length f) (f_inode f) (private_data f) o.

Definition ISDEV (f : fs_file) : bool := S_ISCHR (f_mode f) || S_ISBLK (f_mode f).
Definition ISFIFO (f : fs_file) : bool := Z.land (f_mode f) S_IFMT =? S_IFIFO.

(** [fs_t]; [private_data] of a tmpfs mount is its root directory [fs_root], that of a FAT mount
    the boot record [fs_boot]. *)
Record fs_t := mk_fs { fs_ops_id : Z; fs_dev : Z; fs_root : Z; fs_boot : option bpb }.

Record stat_t := mk_stat {
  device_id : Z; file_serial : Z; file_mode : Z; hardlink_count : Z; user_id : Z; group_id : Z;
  device_type : Z; file_size : Z; st_atime : Z; st_mtime : Z; st_ctime : Z; st_btime : Z;
  st_block_size : Z; st_block_count : Z
}.

Record dirent_t := mk_dirent_t { d_name : list Z; d_serial : Z }.

(** A device with the contents its driver keeps and the file system mounted on it. *)
Record devobj := mk_devobj { dv : device; dv_disk : mem; dv_fs : Z }.

Record fs_state := mk_fs_state {
  files : gmap Z fs_file; fses : gmap Z fs_t; pipes : gmap Z pipe_t; devs : gmap Z devobj;
  next_ptr : Z; ubuf : mem
}.

Abbreviation FM := (M fs_state).

Definition set_files (x : gmap Z fs_file) (s : fs_state) : fs_state :=
  mk_fs_state x (fses s) (pipes s) (devs s) (next_ptr s) (ubuf s).
Definition set_fses (x : gmap Z fs_t) (s : fs_state) : fs_state :=
  mk_fs_state (files s) x (pipes s) (devs s) (next_ptr s) (ubuf s).
Definition set_pipes (x : gmap Z pipe_t) (s : fs_state) : fs_state :=
  mk_fs_state (files s) (fses s) x (devs s) (next_ptr s) (ubuf s).
Definition set_devs (x : gmap Z devobj) (s : fs_state) : fs_state :=
  mk_fs_state (files s) (fses s) (pipes s) x (next_ptr s) (ubuf s).
Definition set_ubuf (x : mem) (s : fs_state) : fs_state :=
  mk_fs_state (files s) (fses s) (pipes s) (devs s) (next_ptr s) x.

Definition get_file (p : Z) : FM fs_file := fun s => of_option (files s !! p) s.
Definition put_file (p : Z) (f : fs_file) : FM unit := modify (fun s => set_files (<[p := f]> (files s)) s).
Definition free_file (p : Z) : FM unit := _ ← get_file p; modify (fun s => set_files (delete p (files s)) s).
Definition get_fs (p : Z) : FM fs_t := fun s => of_option (fses s !! p) s.
Definition get_pipe (p : Z) : FM pipe_t := fun s => of_option (pipes s !! p) s.
Definition put_pipe (p : Z) (x : pipe_t) : FM unit := modify (fun s => set_pipes (<[p := x]> (pipes s)) s).
(** [pipe_free]: the buffer of a pipe is gone, and with it the pipe. *)
Definition pipe_free (p : Z) : FM unit := modify (fun s => set_pipes (delete p (pipes s)) s).
Definition get_dev (p : Z) : FM devobj := fun s => of_option (devs s !! p) s.

(** The address of a new object. *)
Definition kmalloc_ptr : FM Z := fun s =>
  Done (next_ptr s, mk_fs_state (files s) (fses s) (pipes s) (devs s) (next_ptr s + 1) (ubuf s)).

(** [n] bytes of the caller's buffer, and storing bytes there. *)
Definition peek (a : Z) (n : nat) (m : mem) : list Z := (fun i => m (a + Z.of_nat i)) <$> seq 0 n.
Definition poke (a : Z) (bs : list Z) (m : mem) : mem := fun x =>
  if (a <=? x) && (x <? a + Z.of_nat (length bs)) then nth (Z.to_nat (x - a)) bs 0 else m x.

(** What the environment provides: the clock chip, and the contents of memory that the kernel
    heap hands out: for the vector inside a directory object, the word where its data pointer is
    ([junk_data]), and its length and capacity ([junk_dir]). *)
Class Env := {
  cmos : Z -> Z;
  century : Z;
  junk_byte : Z -> Z;
  junk_dir : Z -> vec Z;
  junk_data : Z -> Z
}.

Section Env.
Context `{Env}.

(** [rtc_mktime(rtc_get_datetime())] *)
Definition current_time : FM Z :=
  match rtc_get_datetime cmos century with
  | Some dt => mret (rtc_mktime dt)
  | None => halt
  end.

Definition junk_bytes (from n : nat) : list Z := (fun i => junk_byte (Z.of_nat i)) <$> seq from n.

(** [krealloc] of a block of bytes: the old bytes, then whatever the heap had there. *)
Definition realloc_bytes (d : list Z) (n : nat) : list Z := take n d ++ junk_bytes (length d) (n - length d).

(** [pipe = kmalloc(sizeof(pipe_t)); pipe_init(pipe, DEFAULT_PIPE_SIZE)] *)
Definition new_pipe : FM Z :=
  p ← kmalloc_ptr;
  buffer ← kmalloc_ptr;
  put_pipe p (pipe_init buffer (PAGE_SIZE * 16) (junk_bytes 0 (Z.to_nat (PAGE_SIZE * 16 * 8))));;
  mret p.
End Env.

(** The loop that copies a name up to '/' or the terminator: the name and the rest of the path. *)
Fixpoint short_name (path : list Z) : list Z * list Z :=
  match path with
  | [] => ([], [])
  | c :: path' => if c =? 47 then ([], path) else let '(t, r) := short_name path' in (c :: t, r)
  end.
