(* ===== verification/FatDisk.v ===== *)
(** * FAT32 on the disk (src/src/kernel/fs/fat32.c: sectors, the allocation table, chains,
    directory entries, names, lookup)

    The operations on a device whose driver transfers 512-byte sectors; the state is the
    contents of the device.  [boot] is [dev->fs->private_data->boot].  A buffer is an object of
    known size: a transfer past its end is a [Fault].  [kfree] leaves the bytes of a block alone
    (see Heap.v), so memory read right after it was freed still holds what it held; what a
    freed block holds after further allocations is the parameter [reused].  [chain_fuel]
    bounds the walks along cluster chains. *)
From S2P Require Import Prelude CString Vec Rtc Device Pipe FatTypes Fs.

Record buffer := mk_buffer { b_size : Z; b_mem : mem }.

Abbreviation DM := (M mem).

(** ** Byte layout *)

Definition read_bpb (m : mem) : bpb :=
  mk_bpb (ld 1 m 13) (ld 2 m 14) (ld 1 m 16) (ld 4 m 36) (ld 4 m 44) (ld 1 m 66).

(** Bits [lo .. lo + n - 1] of a word: the bit fields are laid out from the low end. *)
Definition field (x lo n : Z) : Z := x / 2 ^ lo mod 2 ^ n.

(** [(dir_entry_t * )] at address [a]. *)
Definition read_entry (m : mem) (a : Z) : dir_entry :=
  let ct := ld 2 m (a + 14) in let cd := ld 2 m (a + 16) in let ad := ld 2 m (a + 18) in
  let mt := ld 2 m (a + 22) in let md := ld 2 m (a + 24) in
  mk_entry (u8 <$> peek a 11 m) (ld 1 m (a + 11)) (ld 1 m (a + 12)) (ld 1 m (a + 13))
    (field ct 0 5) (field ct 5 6) (field ct 11 5) (field cd 0 5) (field cd 5 4) (field cd 9 7)
    (field ad 0 5) (field ad 5 4) (field ad 9 7) (ld 2 m (a + 20))
    (field mt 0 5) (field mt 5 6) (field mt 11 5) (field md 0 5) (field md 5 4) (field md 9 7)
    (ld 2 m (a + 26)) (ld 4 m (a + 28)).

Fixpoint le (n : nat) (x : Z) : list Z := match n with O => [] | S n' => u8 x :: le n' (x / 2 ^ 8) end.

Definition time16 (s m h : Z) : Z := s + 2 ^ 5 * m + 2 ^ 11 * h.
Definition date16 (d m y : Z) : Z := d + 2 ^ 5 * m + 2 ^ 9 * y.

Definition entry_bytes (e : dir_entry) : list Z :=
  filename e ++ [de_flags e; reserved2 e; created_ticks e] ++
  le 2 (time16 (created_second e) (created_minute e) (created_hour e)) ++
  le 2 (date16 (created_day e) (created_month e) (created_year e)) ++
  le 2 (date16 (accessed_day e) (accessed_month e) (accessed_year e)) ++ le 2 (cluster_hi e) ++
  le 2 (time16 (modified_second e) (modified_minute e) (modified_hour e)) ++
  le 2 (date16 (modified_day e) (modified_month e) (modified_year e)) ++ le 2 (cluster_lo e) ++ le 4 (de_size e).

(** [((uint32_t)(cluster_hi) << 16) | (uint32_t)(cluster_lo)] *)
Definition entry_cluster (e : dir_entry) : Z := Z.lor (Z.shiftl (cluster_hi e) 16) (cluster_lo e).

(** [long_filename_t] written by [fat_create]: its order byte, 13 characters of 16 bits, and the
    checksum of the short name. *)
Definition lfn_bytes (flags : Z) (chars : list Z) (checksum : Z) : list Z :=
  [u8 flags] ++ mjoin (le 2 <$> take 5 chars) ++ [0xf; 0; checksum] ++
  mjoin (le 2 <$> take 6 (drop 5 chars)) ++ [0; 0] ++ mjoin (le 2 <$> take 2 (drop 11 chars)).

Definition fat_get_short_filename_checksum (name : list Z) : Z :=
  fold_left (fun sum c => u8 (Z.shiftl (Z.land sum 1) 7 + Z.shiftr sum 1 + c)) (take 11 name) 0.

Section Fat.
Context `{DriverOps} (boot : bpb) (junk : mem) (reused : Z -> list Z) (chain_fuel : nat).

(** ** Sectors and the allocation table *)

Definition dev_read (sector count : Z) (b : buffer) (p : Z) : DM buffer := fun disk =>
  if p + count * 512 <=? b_size b then Done (mk_buffer (b_size b) (drv_read sector count disk (b_mem b) p), disk)
  else Fault.
Definition dev_write (sector count : Z) (b : buffer) (p : Z) : DM unit := fun disk =>
  if p + count * 512 <=? b_size b then Done (tt, drv_write sector count disk (b_mem b) p) else Fault.

Definition kmalloc_buffer (n : Z) : buffer := mk_buffer n junk.

Definition fat_cluster_to_sector (cluster : Z) : Z :=
  u64 (u32 (cluster - 2) * cluster_size boot + reserved_sectors boot + table_count boot * table_size boot).

(** The sector and the offset of a table entry; the product is 32 bits wide. *)
Definition fat_sector (cluster : Z) : Z := reserved_sectors boot + u32 (cluster * 4) / 512.
Definition fat_offset (cluster : Z) : Z := u32 (cluster * 4) mod 512.

Definition fat_get_next_cluster (cluster : Z) : DM Z :=
  buf ← dev_read (fat_sector cluster) 1 (kmalloc_buffer 512) 0;
  mret (Z.land (ld 4 (b_mem buf) (fat_offset cluster)) 0xfffffff).

Definition fat_read_cluster (buf : buffer) (p cluster : Z) : DM (Z * buffer) :=
  buf ← dev_read (fat_cluster_to_sector cluster) (cluster_size boot) buf p;
  next ← fat_get_next_cluster cluster;
  mret (next, buf).

Definition in_chain (cluster : Z) : bool := (2 <=? cluster) && (cluster <? 0xffffff7).

Fixpoint read_chain_loop (fuel : nat) (buf : buffer) (p cluster : Z) : DM buffer :=
  if in_chain cluster then
    match fuel with
    | O => out_of_fuel
    | S n =>
        r ← fat_read_cluster buf p cluster;
        read_chain_loop n (snd r) (p + cluster_size boot * 512) (fst r)
    end
  else mret buf.
Definition fat_read_cluster_chain (buf : buffer) (cluster : Z) : DM buffer := read_chain_loop chain_fuel buf 0 cluster.

Fixpoint length_loop (fuel : nat) (buf : buffer) (cluster count : Z) : DM Z :=
  if in_chain cluster then
    match fuel with
    | O => out_of_fuel
    | S n => r ← fat_read_cluster buf 0 cluster; length_loop n (snd r) (fst r) (u64 (count + 1))
    end
  else mret count.
Definition fat_chain_cluster_length (cluster : Z) : DM Z := length_loop chain_fuel (kmalloc_buffer 512) cluster 0.

(** Only the low byte of the entry is stored: [buffer] is a [uint8_t *]. *)
Definition fat_change_fat_value (current_cluster next_cluster : Z) : DM unit :=
  buf ← dev_read (fat_sector current_cluster) 1 (kmalloc_buffer 512) 0;
  dev_write (fat_sector current_cluster) 1
    (mk_buffer 512 (st 1 (fat_offset current_cluster) (u8 next_cluster) (b_mem buf))) 0.

(** The first zero among the [n] words from word [j] on. *)
Fixpoint free_word (m : mem) (n : nat) (j : Z) : option Z :=
  match n with O => None | S n' => if ld 4 m (4 * j) =? 0 then Some j else free_word m n' (j + 1) end.

Fixpoint free_cluster_loop (n : nat) (i : Z) : DM Z :=
  match n with
  | O => mret 0xfffffff
  | S n' =>
      buf ← dev_read (reserved_sectors boot + i) 1 (kmalloc_buffer 512) 0;
      match free_word (b_mem buf) 128 0 with
      | Some j => mret (Z.land (i * 128 + j) 0xfffffff)
      | None => free_cluster_loop n' (i + 1)
      end
  end.
Definition fat_find_free_cluster : DM Z := free_cluster_loop (Z.to_nat (table_size boot)) 0.

Fixpoint alloc_loop (n : nat) (start previous : Z) : DM Z :=
  match n with
  | O => mret start
  | S n' =>
      current ← fat_find_free_cluster;
      when (truthy previous) (fat_change_fat_value previous current);;
      fat_change_fat_value current 0xffffff8;;
      alloc_loop n' (if truthy start then start else current) current
  end.
Definition fat_find_free_cluster_chain (size : Z) : DM Z :=
  let cluster_bytes := cluster_size boot * 512 in
  if cluster_bytes =? 0 then fault
  else alloc_loop (Z.to_nat (u64 (size + (cluster_bytes - 1)) / cluster_bytes)) 0 0.

Fixpoint free_chain_loop (fuel : nat) (cluster : Z) : DM unit :=
  match fuel with
  | O => out_of_fuel
  | S n =>
      next ← fat_get_next_cluster cluster;
      if negb (truthy next) || (next =? 0xffffff8) then mret tt
      else fat_change_fat_value cluster 0;; free_chain_loop n next
  end.
Definition fat_free_chain (cluster : Z) : DM unit := free_chain_loop chain_fuel cluster.

Definition fat_write_cluster (buf : buffer) (p cluster : Z) : DM Z :=
  dev_write (fat_cluster_to_sector cluster) (cluster_size boot) buf p;; fat_get_next_cluster cluster.

Fixpoint write_chain_loop (fuel : nat) (buf : buffer) (p cluster : Z) : DM unit :=
  if in_chain cluster then
    match fuel with
    | O => out_of_fuel
    | S n => next ← fat_write_cluster buf p cluster; write_chain_loop n buf (p + cluster_size boot * 512) next
    end
  else mret tt.
Definition fat_write_cluster_chain (buf : buffer) (cluster : Z) : DM unit := write_chain_loop chain_fuel buf 0 cluster.

(** ** Directories *)

Definition dir_start (dir : Z) : Z := if truthy dir then dir else root_cluster boot.

(** The bytes of a directory: [kmalloc] of the chain's size and [fat_read_cluster_chain]. *)
Definition load_dir (dir : Z) : DM buffer :=
  n ← fat_chain_cluster_length dir;
  fat_read_cluster_chain (kmalloc_buffer (u64 (n * cluster_size boot * 512))) dir.

(** The first byte of entry [i]. *)
Definition entry_head (b : buffer) (i : Z) : Z := ld 1 (b_mem b) (32 * i).
Definition unused (b : buffer) (i : Z) : bool := (entry_head b i =? 0) || (entry_head b i =? 0xe5).

Fixpoint free_entry (b : buffer) (n : nat) (i : Z) : Z :=
  match n with O => 0xfffffff | S n' => if unused b i then u32 i else free_entry b n' (i + 1) end.

Definition fat_get_free_dir_entry (dir : Z) : DM Z :=
  b ← load_dir (dir_start dir); mret (free_entry b (Z.to_nat (b_size b / 32)) 0).

(** The indices of directory entries are used as cluster numbers here. *)
Fixpoint entry_chain_loop (n : nat) (dir old_cluster start : Z) : DM (Z * Z) :=
  match n with
  | O => mret (start, old_cluster)
  | S n' =>
      new_cluster ← fat_get_free_dir_entry dir;
      when (truthy old_cluster) (fat_change_fat_value old_cluster new_cluster);;
      entry_chain_loop n' dir new_cluster (if truthy start then start else new_cluster)
  end.
Definition fat_get_free_dir_entry_chain (dir : Z) (count : nat) : DM Z :=
  r ← entry_chain_loop count dir 0 0;
  fat_change_fat_value (snd r) 0xffffff8;;
  mret (fst r).

(** The entry is given by its 32 bytes. *)
Definition fat_set_dir_entry (dir index : Z) (entry : list Z) : DM unit :=
  let dir := dir_start dir in
  n ← fat_chain_cluster_length dir;
  let size := u64 (n * cluster_size boot * 512) in
  if size / 32 <? index then mret tt
  else
    b ← fat_read_cluster_chain (kmalloc_buffer size) dir;
    if size <? 32 * index + 32 then fault
    else fat_write_cluster_chain (mk_buffer size (poke (32 * index) entry (b_mem b))) dir.

(** ** Names *)

(** The character at position [i] of a string: reading outside it is a [Fault]. *)
Definition char_at (path : list Z) (i : Z) : DM Z :=
  if (0 <=? i) && (i <? Z.of_nat (length path)) then of_option (path !! Z.to_nat i)
  else if i =? Z.of_nat (length path) then mret 0 else fault.

Definition upper (c : Z) : Z := if (97 <=? c) && (c <=? 122) then c - 97 + 65 else c.

(** The loop that fills [short_name]: the name, [pos] and the number of characters read. *)
Fixpoint short_loop (rest : list Z) (name : list Z) (pos consumed : Z) : list Z * Z * Z :=
  match rest with
  | [] => (name, pos, consumed)
  | c :: rest' =>
      if (pos =? 11) || (c =? 47) then (name, pos, consumed)
      else if c =? 46 then short_loop rest' name (if pos <? 8 then 8 else pos) (consumed + 1)
      else short_loop rest' (<[Z.to_nat pos := upper c]> name) (pos + 1) (consumed + 1)
  end.

Definition blank (n : nat) : list Z := replicate n 32.

(** The path component from [i] on, copied into [path_name] by an 8-bit index. *)
Fixpoint take_component (rest : list Z) : list Z :=
  match rest with [] => [] | c :: rest' => if c =? 47 then [] else c :: take_component rest' end.
Definition copy_component (comp : list Z) (buf : list Z) : list Z * Z :=
  fold_left (fun '(b, pos) c => (<[Z.to_nat pos := c]> b, u8 (pos + 1))) comp (buf, 0).

(** The number of entries of the long name that starts at entry [i]: up to the one with order
    1; walking out of the buffer is a [Fault]. *)
Fixpoint lfn_count (b : buffer) (n : nat) (i count : Z) : option Z :=
  match n with
  | O => None
  | S n' =>
      if b_size b <? 32 * (i + count) + 32 then None
      else
        let flags := entry_head b (i + count) in
        if (flags =? 1) || (flags =? 0x41) then Some (count + 1) else lfn_count b n' i (count + 1)
  end.

(** The 13 characters of entry [i], each cut to 8 bits. *)
Definition lfn_chars (b : buffer) (i : Z) : list Z :=
  let at_ off := ld 1 (b_mem b) (32 * i + off) in
  ((fun k => at_ (1 + 2 * Z.of_nat k)) <$> seq 0 5) ++ ((fun k => at_ (14 + 2 * Z.of_nat k)) <$> seq 0 6) ++
  ((fun k => at_ (28 + 2 * Z.of_nat k)) <$> seq 0 2).

(** The long name of [count] entries from entry [i], last entry first. *)
Definition long_name (b : buffer) (i count : Z) : list Z :=
  mjoin ((fun j => lfn_chars b (i + count - 1 - Z.of_nat j)) <$> seq 0 (Z.to_nat count)).

(** ** Lookup *)

(** What [fat_find] returns and stores through its pointers; [None] is a variable that has not
    been stored to. *)
Record found := mk_found { fo_cluster : Z; fo_dir : option Z; fo_entry : option dir_entry; fo_index : option Z }.

Definition not_found : Z := 0xfffffff.

(** The scan of a directory: stopped at entry [st_i] with a match (the position of the rest of
    the path and the index of the matching entry), or at the end. *)
Inductive scan :=
| Match (path_pos index : Z)
| NoMatch.

(** [pi] is the position [path] points to, [name] the contents of [short_name], [freed] whether
    it has been freed. *)
Fixpoint scan_loop (n : nat) (b : buffer) (path : list Z) (i pi pos : Z) (name : list Z) (freed : bool) : DM scan :=
  match n with
  | O => mret NoMatch
  | S n' =>
      if b_size b / 32 <=? i then mret NoMatch
      else if unused b i then scan_loop n' b path (i + 1) pi pos name freed
      else
        let e := read_entry (b_mem b) (32 * i) in
        if de_flags e =? 0xf then
          count ← of_option (lfn_count b (Z.to_nat (b_size b / 32)) i 0);
          (* the buffers of this round may take the place of a [short_name] that was freed *)
          let name := if freed then reused i else name in
          let pi := pi - pos in
          if (pi <? 0) || (256 <? count * 13) then fault
          else
            let comp := take_component (drop (Z.to_nat pi) path) in
            let '(path_name, pos) := copy_component comp
              (replicate (Z.to_nat (count * 13)) 0xff ++ replicate (256 - Z.to_nat (count * 13)) 0) in
            let path_name := <[Z.to_nat pos := 0]> path_name in
            let pi := pi + Z.of_nat (length comp) in
            differ ← of_option (CString.Kernel.strncmp path_name (long_name b i count) (Z.to_nat (count * 13)));
            if differ =? 0 then
              if b_size b <? 32 * (i + count) + 32 then fault else mret (Match pi (i + count))
            else scan_loop n' b path (i + count) pi pos name true
        else
          differ ← of_option (CString.Kernel.strncmp name (filename e) 11);
          if differ =? 0 then mret (Match pi i) else scan_loop n' b path (i + 1) pi pos name freed
  end.

Fixpoint fat_find (fuel : nat) (dir : Z) (has_dir : bool) (path : list Z) (i : Z) (o : found) : DM found :=
  if 0xffffff7 <=? dir then mret (mk_found not_found (fo_dir o) (fo_entry o) (fo_index o))
  else
    match fuel with
    | O => out_of_fuel
    | S n =>
        let dir := dir_start dir in
        let o := if has_dir then mk_found (fo_cluster o) (Some dir) (fo_entry o) (fo_index o) else o in
        c ← char_at path i;
        if c =? 0 then mret (mk_found dir (fo_dir o) (fo_entry o) (fo_index o))
        else if (c =? 32) || (c =? 47) then fat_find n dir true path (i + 1) o
        else
          let i := if c =? 46 then i + 2 else i in
          _ ← char_at path i;
          let '(name, pos, consumed) := short_loop (drop (Z.to_nat i) path) (blank 12) 0 0 in
          b ← load_dir dir;
          r ← scan_loop (S (Z.to_nat (b_size b / 32))) b path 0 (i + consumed) pos name false;
          match r with
          | NoMatch => mret (mk_found not_found (fo_dir o) (fo_entry o) (fo_index o))
          | Match pi index =>
              let e := read_entry (b_mem b) (32 * index) in
              c ← char_at path pi;
              if (c =? 47) && directory e then
                c2 ← char_at path (pi + 2);
                c3 ← (if c2 =? 46 then mret 46 else char_at path (pi + 3));
                if negb (c2 =? 46) && negb (c3 =? 46) then fat_find n (entry_cluster e) true path (pi + 1) o
                else
                  up ← of_option (fo_dir o);
                  fat_find n up true path (pi + 4) o
              else mret (mk_found (entry_cluster e) (Some dir) (Some e) (Some index))
          end
    end.
End Fat.
