(* ===== verification/FatChain.v ===== *)
(** * FAT32 chains and clusters: what the operations of FatDisk.v do on a well-formed volume *)
From S2P Require Import Prelude CString Vec Rtc Device Pipe FatTypes Fs FatDisk.

(** ** The abstract volume *)

(** The value of table entry [c]. *)
Definition fat_value (boot : bpb) (disk : mem) (c : Z) : Z :=
  Z.land (ld 4 disk (512 * reserved_sectors boot + 4 * c)) 0xfffffff.

(** The clusters reached from [c], in order. *)
Inductive chain (boot : bpb) (disk : mem) : Z -> list Z -> Prop :=
| chain_end c : in_chain c = false -> chain boot disk c []
| chain_step c l : in_chain c = true -> chain boot disk (fat_value boot disk c) l -> chain boot disk c (c :: l).

(** Bytes per cluster, and where the data of cluster [c] starts. *)
Definition cluster_bytes (boot : bpb) : Z := cluster_size boot * 512.
Definition cluster_start (boot : bpb) (c : Z) : Z :=
  512 * ((c - 2) * cluster_size boot + reserved_sectors boot + table_count boot * table_size boot).

(** A boot record whose fields fit their widths and that has at least one table. *)
Record volume_ok (boot : bpb) : Prop := mk_volume_ok {
  vol_cluster : 1 <= cluster_size boot < 256;
  vol_reserved : 0 <= reserved_sectors boot < 2 ^ 16;
  vol_tables : 1 <= table_count boot < 256;
  vol_table_size : 0 <= table_size boot < 2 ^ 32
}.

(** The table has an entry for cluster [c]. *)
Definition in_table (boot : bpb) (c : Z) : Prop := 2 <= c < 128 * table_size boot.

Lemma in_chain_range c : in_chain c = true -> 2 <= c < 0xffffff7.
Proof. unfold in_chain. intros [?%Z.leb_le ?%Z.ltb_lt]%andb_prop. done. Qed.

Lemma cluster_to_sector_start boot c :
  volume_ok boot -> 2 <= c < 0xffffff7 -> 512 * fat_cluster_to_sector boot c = cluster_start boot c.
Proof.
  intros [Hc Hr Ht Hs] Hx. unfold fat_cluster_to_sector, cluster_start. rewrite (u32_small (c - 2)) by lia.
  rewrite u64_small; [done|]. split; [nia|].
  assert ((c - 2) * cluster_size boot < 2 ^ 28 * 256) by nia.
  assert (table_count boot * table_size boot <= 255 * 2 ^ 32) by nia. lia.
Qed.

(** Distinct clusters do not overlap. *)
Lemma cluster_disjoint boot c c' x :
  volume_ok boot -> c <> c' -> cluster_start boot c <= x < cluster_start boot c + cluster_bytes boot ->
  x < cluster_start boot c' \/ cluster_start boot c' + cluster_bytes boot <= x.
Proof.
  intros [Hc Hr Ht Hs] Hne Hx. unfold cluster_start, cluster_bytes in *.
  destruct (Z.lt_total c c') as [|[|]]; [left|done|right]; nia.
Qed.

(** The tables lie in front of the clusters. *)
Lemma table_before_clusters boot c c' :
  volume_ok boot -> in_table boot c -> 2 <= c' -> 512 * reserved_sectors boot + 4 * c + 4 <= cluster_start boot c'.
Proof. intros [Hc Hr Ht Hs] [? ?] ?. unfold cluster_start. nia. Qed.

Lemma fat_value_ext boot disk disk' c :
  (forall x, 512 * reserved_sectors boot + 4 * c <= x < 512 * reserved_sectors boot + 4 * c + 4 -> disk x = disk' x) ->
  fat_value boot disk c = fat_value boot disk' c.
Proof. intros E. unfold fat_value. f_equal. apply ld_ext. intros x Hx. apply E. lia. Qed.

Lemma chain_ext boot disk disk' c l :
  (forall c', c' ∈ l -> fat_value boot disk c' = fat_value boot disk' c') -> chain boot disk c l -> chain boot disk' c l.
Proof.
  intros E Hch. induction Hch as [|c l Hin Hch IH]; [by constructor|]. constructor; [done|].
  rewrite <- E by constructor. apply IH. intros c' Hc'. apply E. by constructor.
Qed.

Lemma fat_value_range boot disk c : 0 <= fat_value boot disk c < 2 ^ 28.
Proof.
  unfold fat_value. change 0xfffffff with (Z.ones 28). rewrite Z.land_ones by lia. apply Z.mod_pos_bound. lia.
Qed.

(** ** Single transfers *)
Section Transfers.
Context `{BlockDriver 512} (boot : bpb) (junk : mem) (Hvol : volume_ok boot).

Lemma dev_read_run sector count b p disk :
  0 <= sector -> 0 <= count -> p + count * 512 <= b_size b ->
  exists b', dev_read sector count b p disk = Done (b', disk) /\ b_size b' = b_size b /\
    forall x, b_mem b' x = put (count * 512) (b_mem b) p disk (sector * 512) x.
Proof.
  intros Hs Hc Hp. unfold dev_read. rewrite (proj2 (Z.leb_le _ _)) by lia. eexists. split; [reflexivity|].
  split; [done|]. intros x. simpl. by apply drv_read_ok.
Qed.

Lemma dev_write_run sector count b p disk :
  0 <= sector -> 0 <= count -> p + count * 512 <= b_size b ->
  exists disk', dev_write sector count b p disk = Done (tt, disk') /\
    forall x, disk' x = put (count * 512) disk (sector * 512) (b_mem b) p x.
Proof.
  intros Hs Hc Hp. unfold dev_write. rewrite (proj2 (Z.leb_le _ _)) by lia. eexists. split; [reflexivity|].
  intros x. by apply drv_write_ok.
Qed.

Lemma put_in n d a s b x : a <= x < a + n -> put n d a s b x = s (b + (x - a)).
Proof. intros Hx. unfold put. by rewrite (proj2 (Z.leb_le a x)), (proj2 (Z.ltb_lt x (a + n))) by lia. Qed.
Lemma put_out n d a s b x : x < a \/ a + n <= x -> put n d a s b x = d x.
Proof. intros Hx. unfold put. destruct (Z.leb_spec a x), (Z.ltb_spec x (a + n)); simpl; (done || lia). Qed.

(** The position of a table entry. *)
Lemma fat_position c : 0 <= c < 2 ^ 30 ->
  fat_sector boot c * 512 + fat_offset c = 512 * reserved_sectors boot + 4 * c /\ 0 <= fat_sector boot c /\
  0 <= fat_offset c <= 508.
Proof.
  intros Hc. unfold fat_sector, fat_offset. rewrite (u32_small (c * 4)) by lia. destruct Hvol as [_ Hr _ _].
  pose proof (Z.div_mod (c * 4) 512 ltac:(lia)). pose proof (Z.mod_pos_bound (c * 4) 512 ltac:(lia)).
  pose proof (Z.div_pos (c * 4) 512 ltac:(lia) ltac:(lia)).
  assert (c * 4 mod 512 = 4 * (c mod 128)) as E by (rewrite (Z.mul_comm c 4), <- (Z.mul_mod_distr_l c 128 4) by lia; done).
  pose proof (Z.mod_pos_bound c 128 ltac:(lia)). split; [lia|]. split; lia.
Qed.

Lemma next_run c disk : 0 <= c < 2 ^ 30 -> fat_get_next_cluster boot junk c disk = Done (fat_value boot disk c, disk).
Proof.
  intros Hc. destruct (fat_position c Hc) as (Hpos & Hs & Ho). unfold fat_get_next_cluster.
  destruct (dev_read_run (fat_sector boot c) 1 (kmalloc_buffer junk 512) 0 disk) as (b & E & _ & Hb); [lia|lia|simpl; lia|].
  rewrite (bind_run _ _ _ _ _ E). unfold fat_value. rewrite <- Hpos.
  rewrite (ld_shift 4 (b_mem b) disk (fat_offset c) (fat_sector boot c * 512 + fat_offset c)); [done|].
  intros x Hx. rewrite Hb, put_in by lia. f_equal. lia.
Qed.
End Transfers.

(** ** Reading a chain *)
Section ReadChain.
Context `{BlockDriver 512} (boot : bpb) (junk : mem) (Hvol : volume_ok boot).

Lemma read_cluster_run b p c disk :
  2 <= c < 0xffffff7 -> p + cluster_bytes boot <= b_size b ->
  exists b', fat_read_cluster boot junk b p c disk = Done ((fat_value boot disk c, b'), disk) /\ b_size b' = b_size b /\
    forall x, b_mem b' x = put (cluster_bytes boot) (b_mem b) p disk (cluster_start boot c) x.
Proof.
  intros Hc Hp. pose proof (cluster_to_sector_start boot c Hvol Hc) as Hs.
  assert (0 <= fat_cluster_to_sector boot c) by apply u64_range. unfold cluster_bytes in *.
  destruct (dev_read_run (fat_cluster_to_sector boot c) (cluster_size boot) b p disk) as (b' & E & Hsz & Hb);
    [lia|destruct Hvol; lia|lia|].
  exists b'. unfold fat_read_cluster. rewrite (bind_run _ _ _ _ _ E).
  rewrite (bind_run _ _ _ _ _ (next_run boot junk Hvol c disk ltac:(lia))). split; [done|]. split; [done|].
  intros x. rewrite Hb. f_equal. lia.
Qed.

(** The bytes of the clusters of [l], one after the other, are in [m] from [p] on. *)
Definition holds_clusters (m disk : mem) (p : Z) (l : list Z) : Prop :=
  forall k c, l !! k = Some c -> forall x, 0 <= x < cluster_bytes boot ->
    m (p + Z.of_nat k * cluster_bytes boot + x) = disk (cluster_start boot c + x).

Lemma read_loop_run fuel b p c l disk :
  chain boot disk c l -> (length l <= fuel)%nat -> p + Z.of_nat (length l) * cluster_bytes boot <= b_size b ->
  exists b', read_chain_loop boot junk fuel b p c disk = Done (b', disk) /\ b_size b' = b_size b /\
    holds_clusters (b_mem b') disk p l /\
    forall x, x < p \/ p + Z.of_nat (length l) * cluster_bytes boot <= x -> b_mem b' x = b_mem b x.
Proof.
  intros Hch. revert fuel b p. induction Hch as [c Hc|c l Hc Hch IH]; intros fuel b p Hf Hp.
  - exists b. destruct fuel; simpl; rewrite Hc; done.
  - destruct fuel as [|fuel]; [simpl in Hf; lia|]. simpl in Hf, Hp |- *. rewrite Hc.
    assert (Hcb : 512 <= cluster_bytes boot) by (unfold cluster_bytes; destruct Hvol; lia).
    destruct (read_cluster_run b p c disk) as (b1 & E1 & Hs1 & Hb1); [by apply in_chain_range|lia|].
    rewrite (bind_run _ _ _ _ _ E1). simpl.
    destruct (IH fuel b1 (p + cluster_bytes boot)) as (b2 & E2 & Hs2 & Hh & Ho); [lia|lia|].
    exists b2. split; [exact E2|]. split; [lia|]. split.
    + intros [|k] c' Hk x Hx; simpl in Hk.
      * injection Hk as <-. rewrite Ho by lia. rewrite Hb1, put_in by lia. f_equal. lia.
      * rewrite <- (Hh k c' Hk x Hx). f_equal. lia.
    + intros x Hx. rewrite Ho by lia. rewrite Hb1, put_out by lia. done.
Qed.

(** A buffer without room for the whole chain is overrun. *)
Lemma read_loop_overrun fuel b p c l disk :
  chain boot disk c l -> (length l <= fuel)%nat -> l <> [] -> b_size b < p + Z.of_nat (length l) * cluster_bytes boot ->
  read_chain_loop boot junk fuel b p c disk = Fault.
Proof.
  intros Hch. revert fuel b p. induction Hch as [c Hc|c l Hc Hch IH]; intros fuel b p Hf Hl Hp; [done|].
  destruct fuel as [|fuel]; [simpl in Hf; lia|]. simpl in Hf, Hp |- *. rewrite Hc.
  destruct (Z.leb_spec (p + cluster_bytes boot) (b_size b)) as [Hfit|Hno].
  - destruct (read_cluster_run b p c disk) as (b1 & E1 & Hs1 & _); [by apply in_chain_range|lia|].
    rewrite (bind_run _ _ _ _ _ E1). simpl. change (cluster_size boot * 512) with (cluster_bytes boot).
    destruct l as [|c' l]; [simpl in Hp; lia|]. apply IH; [lia|done|lia].
  - unfold fat_read_cluster, dev_read, mbind, M_bind. unfold cluster_bytes in Hno. by rewrite (proj2 (Z.leb_gt _ _)) by lia.
Qed.

Lemma length_loop_run fuel b c l disk n :
  cluster_size boot = 1 -> chain boot disk c l -> (length l <= fuel)%nat -> b_size b = 512 ->
  0 <= n -> n + Z.of_nat (length l) < 2 ^ 64 ->
  length_loop boot junk fuel b c n disk = Done (n + Z.of_nat (length l), disk).
Proof.
  intros H1 Hch. revert fuel b n. induction Hch as [c Hc|c l Hc Hch IH]; intros fuel b n Hf Hb Hn Hlen.
  - destruct fuel; simpl; rewrite Hc, Z.add_0_r; done.
  - destruct fuel as [|fuel]; [simpl in Hf; lia|]. simpl in Hf, Hlen |- *. rewrite Hc.
    destruct (read_cluster_run b 0 c disk) as (b1 & E1 & Hs1 & _); [by apply in_chain_range|unfold cluster_bytes; lia|].
    rewrite (bind_run _ _ _ _ _ E1). simpl. rewrite u64_small by lia. rewrite IH by lia. do 2 f_equal. lia.
Qed.

Lemma length_run fuel c l disk :
  cluster_size boot = 1 -> chain boot disk c l -> (length l <= fuel)%nat -> Z.of_nat (length l) < 2 ^ 64 ->
  fat_chain_cluster_length boot junk fuel c disk = Done (Z.of_nat (length l), disk).
Proof. intros. unfold fat_chain_cluster_length. by rewrite (length_loop_run _ _ _ l) by (done || lia). Qed.

(** reading a file's clusters: on a well-formed volume, when the chain that starts at
    [c] has the clusters [l] and the buffer has room for them, [fat_read_cluster_chain] ends
    with their contents one after the other in the buffer, writes nothing behind them and leaves
    the disk alone; [fat_chain_cluster_length] counts them when a cluster is one sector, and
    overruns its 512-byte buffer on every volume with larger clusters. *)
Theorem read_chain_spec fuel b c l disk :
  chain boot disk c l -> (length l <= fuel)%nat -> Z.of_nat (length l) * cluster_bytes boot <= b_size b ->
  (exists b', fat_read_cluster_chain boot junk fuel b c disk = Done (b', disk) /\ holds_clusters (b_mem b') disk 0 l /\
     forall x, x < 0 \/ Z.of_nat (length l) * cluster_bytes boot <= x -> b_mem b' x = b_mem b x) /\
  (cluster_size boot = 1 -> Z.of_nat (length l) < 2 ^ 64 ->
     fat_chain_cluster_length boot junk fuel c disk = Done (Z.of_nat (length l), disk)) /\
  (1 < cluster_size boot -> l <> [] -> fat_chain_cluster_length boot junk fuel c disk = Fault).
Proof.
  intros Hch Hf Hb. split; [|split].
  - destruct (read_loop_run fuel b 0 c l disk Hch Hf ltac:(lia)) as (b' & E & _ & Hh & Ho). eauto 10.
  - intros H1 Hlen. by apply length_run.
  - intros H1 Hl. destruct Hch as [|c l Hc Hch]; [done|]. destruct fuel as [|fuel]; [simpl in Hf; lia|].
    unfold fat_chain_cluster_length. simpl. rewrite Hc. unfold fat_read_cluster, dev_read, mbind, M_bind. simpl.
    by rewrite (proj2 (Z.leb_gt _ _)) by lia.
Qed.
End ReadChain.

(** ** Writing a chain *)
Section WriteChain.
Context `{BlockDriver 512} (boot : bpb) (junk : mem) (Hvol : volume_ok boot).

(** [x] lies in no cluster of [l]. *)
Definition outside (l : list Z) (x : Z) : Prop :=
  forall c, c ∈ l -> x < cluster_start boot c \/ cluster_start boot c + cluster_bytes boot <= x.

Lemma write_cluster_run b p c disk :
  2 <= c < 0xffffff7 -> in_table boot c -> p + cluster_bytes boot <= b_size b ->
  exists disk', fat_write_cluster boot junk b p c disk = Done (fat_value boot disk c, disk') /\
    forall x, disk' x = put (cluster_bytes boot) disk (cluster_start boot c) (b_mem b) p x.
Proof.
  intros Hc Ht Hp. pose proof (cluster_to_sector_start boot c Hvol Hc) as Hs.
  assert (0 <= fat_cluster_to_sector boot c) by apply u64_range. unfold cluster_bytes in *.
  destruct (dev_write_run (fat_cluster_to_sector boot c) (cluster_size boot) b p disk) as (disk' & E & Hd);
    [lia|destruct Hvol; lia|lia|].
  exists disk'. unfold fat_write_cluster. rewrite (bind_run _ _ _ _ _ E), (next_run boot junk Hvol c disk' ltac:(lia)).
  assert (Hd' : forall x, disk' x = put (cluster_size boot * 512) disk (cluster_start boot c) (b_mem b) p x)
    by (intros x; rewrite Hd; f_equal; lia).
  split; [|done]. do 2 f_equal. apply fat_value_ext. intros x Hx. rewrite Hd', put_out; [done|].
  pose proof (table_before_clusters boot c c Hvol Ht ltac:(lia)). lia.
Qed.

Lemma write_loop_run fuel b p c l disk :
  chain boot disk c l -> NoDup l -> Forall (in_table boot) l -> (length l <= fuel)%nat ->
  p + Z.of_nat (length l) * cluster_bytes boot <= b_size b ->
  exists disk', write_chain_loop boot junk fuel b p c disk = Done (tt, disk') /\
    holds_clusters boot (b_mem b) disk' p l /\ forall x, outside l x -> disk' x = disk x.
Proof.
  intros Hch. revert fuel b p. 
  assert (Hcb : 512 <= cluster_bytes boot) by (unfold cluster_bytes; destruct Hvol; lia).
  remember l as l0 eqn:El. revert c disk l El Hch. induction l0 as [|c0 l0 IH]; intros c disk l El Hch fuel b p Hnd Ht Hf Hp.
  - exists disk. inversion Hch; subst. destruct fuel; simpl; rewrite H1; (split; [done|split; [intros k c' Hk; by rewrite lookup_nil in Hk|done]]).
  - inversion Hch as [|? ? Hc Hch']; subst. destruct fuel as [|fuel]; [simpl in Hf; lia|]. simpl in Hf, Hp |- *. rewrite Hc.
    apply NoDup_cons in Hnd as [Hnin Hnd]. apply Forall_cons in Ht as [Ht0 Ht].
    pose proof (in_chain_range _ Hc) as Hr.
    destruct (write_cluster_run b p c0 disk Hr Ht0) as (disk1 & E1 & Hd1); [lia|].
    rewrite (bind_run _ _ _ _ _ E1).
    assert (Hch1 : chain boot disk1 (fat_value boot disk c0) l0).
    { apply (chain_ext boot disk); [|done]. intros c' Hc'. apply fat_value_ext. intros x Hx. rewrite Hd1, put_out; [done|].
      pose proof (table_before_clusters boot c' c0 Hvol (proj1 (Forall_forall _ _) Ht c' Hc') ltac:(lia)). lia. }
    destruct (IH _ disk1 l0 eq_refl Hch1 fuel b (p + cluster_bytes boot)) as (disk2 & E2 & Hh & Ho); [done|done|lia|lia|].
    exists disk2. split; [exact E2|]. split.
    + intros [|k] c' Hk x Hx; simpl in Hk.
      * injection Hk as <-. rewrite (Ho (cluster_start boot c0 + x)).
        { rewrite Hd1, put_in by lia. f_equal. lia. }
        intros c' Hc'. apply (cluster_disjoint boot c0); [done|by intros ->|lia].
      * rewrite <- (Hh k c' Hk x Hx). f_equal. lia.
    + intros x Hx. rewrite Ho by (intros c' Hc'; apply Hx; by constructor).
      rewrite Hd1, put_out; [done|]. apply Hx. constructor.
Qed.

(** The table is outside the clusters. *)
Lemma chain_after disk disk' c l :
  chain boot disk c l -> Forall (in_table boot) l -> (forall x, outside l x -> disk' x = disk x) -> chain boot disk' c l.
Proof.
  intros Hch Ht Ho. apply (chain_ext boot disk); [|done]. intros c' Hc'. apply fat_value_ext. intros x Hx. symmetry. apply Ho.
  intros c2 Hc2. pose proof (proj1 (Forall_forall _ _) Ht _ Hc') as Ht'. pose proof (proj1 (Forall_forall _ _) Ht _ Hc2) as [? _].
  pose proof (table_before_clusters boot c' c2 Hvol Ht' ltac:(lia)). lia.
Qed.

(** Two memories that hold the same clusters agree on them. *)
Lemma same_clusters disk l m m' :
  holds_clusters boot m disk 0 l -> holds_clusters boot m' disk 0 l ->
  forall x, 0 <= x < Z.of_nat (length l) * cluster_bytes boot -> m x = m' x.
Proof.
  intros Hm Hm' x Hx. assert (Hcb : 512 <= cluster_bytes boot) by (unfold cluster_bytes; destruct Hvol; lia).
  set (k := x / cluster_bytes boot).
  assert (0 <= k < Z.of_nat (length l)) by (split; [apply Z.div_pos; lia|apply Z.div_lt_upper_bound; nia]).
  destruct (lookup_Z_Some l k) as [c Hc]; [done|].
  pose proof (Z.mod_pos_bound x (cluster_bytes boot) ltac:(lia)) as Hr.
  specialize (Hm _ _ Hc _ Hr). specialize (Hm' _ _ Hc _ Hr). rewrite Z2Nat.id in Hm, Hm' by lia.
  replace (0 + k * cluster_bytes boot + x mod cluster_bytes boot) with x in Hm, Hm'
    by (subst k; rewrite (Z.div_mod x (cluster_bytes boot)) at 1 by lia; lia). congruence.
Qed.

Lemma write_read_run fuel b b0 c l disk :
  chain boot disk c l -> NoDup l -> Forall (in_table boot) l -> (length l <= fuel)%nat ->
  let n := Z.of_nat (length l) * cluster_bytes boot in
  n <= b_size b -> n <= b_size b0 ->
  exists disk' b', fat_write_cluster_chain boot junk fuel b c disk = Done (tt, disk') /\
    (forall x, outside l x -> disk' x = disk x) /\ chain boot disk' c l /\
    fat_read_cluster_chain boot junk fuel b0 c disk' = Done (b', disk') /\
    forall x, 0 <= x < n -> b_mem b' x = b_mem b x.
Proof.
  intros Hch Hnd Ht Hf n Hb Hb0.
  destruct (write_loop_run fuel b 0 c l disk Hch Hnd Ht Hf ltac:(lia)) as (disk' & E & Hh & Ho).
  assert (Hch' : chain boot disk' c l) by (by apply (chain_after disk)).
  destruct (read_loop_run boot junk Hvol fuel b0 0 c l disk' Hch' Hf ltac:(lia)) as (b' & E' & _ & Hh' & _).
  exists disk', b'. do 4 (split; [done|]). by apply (same_clusters disk' l).
Qed.
(** C17: writing a file's clusters and reading them back: on a well-formed volume, for a chain of
    distinct clusters that the table has entries for, [fat_write_cluster_chain] stores the
    buffer in the clusters of the chain, changes no byte outside them, leaves the chain as it
    was, and [fat_read_cluster_chain] then reads the same bytes back. *)
Theorem write_read_chain fuel b b0 c l disk :
  chain boot disk c l -> NoDup l -> Forall (in_table boot) l -> (length l <= fuel)%nat ->
  let n := Z.of_nat (length l) * cluster_bytes boot in
  n <= b_size b -> n <= b_size b0 ->
  exists disk' b', fat_write_cluster_chain boot junk fuel b c disk = Done (tt, disk') /\
    (forall x, outside l x -> disk' x = disk x) /\ chain boot disk' c l /\
    fat_read_cluster_chain boot junk fuel b0 c disk' = Done (b', disk') /\
    forall x, 0 <= x < n -> b_mem b' x = b_mem b x.
Proof. apply write_read_run. Qed.
End WriteChain.
