(* ===== verification/FatDir.v ===== *)
(** * FAT32 directories: the layout of entries, replacing an entry, finding a name, and what the
    allocation functions do to the table *)
From S2P Require Import Prelude CString Vec Rtc Device Pipe FatTypes Fs FatDisk FatChain.

(** ** Entries as bytes *)

Lemma poke_at a bs m k : 0 <= k < Z.of_nat (length bs) -> poke a bs m (a + k) = nth (Z.to_nat k) bs 0.
Proof.
  intros Hk. unfold poke. rewrite (proj2 (Z.leb_le _ _)), (proj2 (Z.ltb_lt _ _)) by lia. simpl. f_equal. lia.
Qed.
Lemma buf_poke_out a bs m x : x < a \/ a + Z.of_nat (length bs) <= x -> poke a bs m x = m x.
Proof. intros Hx. unfold poke. destruct (Z.leb_spec a x), (Z.ltb_spec x (a + Z.of_nat (length bs))); simpl; (done || lia). Qed.

Lemma length_le n x : length (le n x) = n.
Proof. revert x. induction n as [|n IH]; intros x; simpl; [done|]. by rewrite IH. Qed.

Lemma ld_le n m a x :
  (forall i, (i < n)%nat -> m (a + Z.of_nat i) = nth i (le n x) 0) -> ld n m a = x mod 2 ^ (8 * Z.of_nat n).
Proof.
  revert a x. induction n as [|n IH]; intros a x E; [simpl; by rewrite Z.mod_1_r|].
  replace (8 * Z.of_nat (S n)) with (8 + 8 * Z.of_nat n) by lia. rewrite Z.pow_add_r, Z.rem_mul_r by lia. simpl ld.
  rewrite <- (IH (a + 1) (x / 2 ^ 8)).
  - f_equal. pose proof (E 0%nat ltac:(lia)) as E0. rewrite Z.add_0_r in E0. rewrite E0. simpl. unfold u8. by rewrite Zmod_mod.
  - intros i Hi. change (nth i (le n (x / 2 ^ 8)) 0) with (nth (S i) (le (S n) x) 0). rewrite <- (E (S i)) by lia. f_equal. lia.
Qed.

Lemma time16_fields s m h : 0 <= s < 32 -> 0 <= m < 64 -> 0 <= h < 32 ->
  time16 s m h mod 2 ^ 16 = time16 s m h /\
  field (time16 s m h) 0 5 = s /\ field (time16 s m h) 5 6 = m /\ field (time16 s m h) 11 5 = h.
Proof. intros. unfold field, time16. change (2 ^ 0) with 1. split; [|split; [|split]]; Z.div_mod_to_equations; lia. Qed.
Lemma date16_fields d m y : 0 <= d < 32 -> 0 <= m < 16 -> 0 <= y < 128 ->
  date16 d m y mod 2 ^ 16 = date16 d m y /\
  field (date16 d m y) 0 5 = d /\ field (date16 d m y) 5 4 = m /\ field (date16 d m y) 9 7 = y.
Proof. intros. unfold field, date16. change (2 ^ 0) with 1. split; [|split; [|split]]; Z.div_mod_to_equations; lia. Qed.

Lemma entry_bytes_length e : entry_ok e -> length (entry_bytes e) = 32%nat.
Proof. intros Hok. destruct (ok_name _ Hok) as [Hn _]. unfold entry_bytes. rewrite !length_app, !length_le. simpl. by rewrite Hn. Qed.

Lemma buf_peek_poke a bs m n : (n <= length bs)%nat -> peek a n (poke a bs m) = take n bs.
Proof.
  intros Hn. unfold peek. apply list_eq. intros i. rewrite list_lookup_fmap. destruct (decide (i < n)%nat) as [Hi|Hi].
  - rewrite lookup_seq_lt by done. simpl. rewrite poke_at by lia. rewrite lookup_take_lt by done. rewrite Nat2Z.id.
    destruct (lookup_lt_is_Some_2 bs i ltac:(lia)) as [z Hz]. rewrite Hz. by rewrite (nth_lookup_Some _ _ _ _ Hz).
  - rewrite lookup_seq_ge by lia. rewrite lookup_take_ge by lia. done.
Qed.

(** The bytes of a little-endian field, from the description [Hm] of the memory. *)
Ltac bytes_at Hm :=
  let i := fresh "i" in let Hi := fresh "Hi" in intros i Hi;
  rewrite <- Z.add_assoc; rewrite Hm by lia; do 4 (destruct i as [|i]; [first [lia | reflexivity]|]); lia.

Lemma map_u8_bytes l : Forall byte l -> u8 <$> l = l.
Proof. induction 1 as [|x l Hx _ IH]; [done|]. rewrite fmap_cons, IH, u8_small by (unfold byte in Hx; lia). done. Qed.

(** The fields of an entry that was stored. *)
Lemma read_entry_bytes e a m : entry_ok e -> read_entry (poke a (entry_bytes e) m) a = e.
Proof.
  intros Hok. pose proof (entry_bytes_length e Hok) as Hlen.
  assert (Hm : forall k, 0 <= k < 32 -> poke a (entry_bytes e) m (a + k) = nth (Z.to_nat k) (entry_bytes e) 0)
    by (intros; apply poke_at; lia).
  assert (Hp : peek a 11 (poke a (entry_bytes e) m) = take 11 (entry_bytes e)) by (apply buf_peek_poke; lia).
  set (m' := poke a (entry_bytes e) m) in *. clearbody m'.
  destruct Hok as [[Hn Hb] (Hf & Hr & Ht) (H1 & H2 & H3) (H4 & H5 & H6) (H7 & H8 & H9) (H10 & H11 & H12)
    (H13 & H14 & H15) [Hhi Hlo] Hsz].
  destruct e as [nm fl r2 tk cs cm ch cd cmo cy ad am ay hi ms mm mh md mmo my lo sz]. simpl in *.
  destruct nm as [|c0 [|c1 [|c2 [|c3 [|c4 [|c5 [|c6 [|c7 [|c8 [|c9 [|c10 []]]]]]]]]]]]; try done. clear Hn Hlen.
  pose proof (time16_fields _ _ _ H1 H2 H3) as (E1 & E2 & E3 & E4). pose proof (date16_fields _ _ _ H4 H5 H6) as (E5 & E6 & E7 & E8).
  pose proof (date16_fields _ _ _ H7 H8 H9) as (E9 & E10 & E11 & E12). pose proof (time16_fields _ _ _ H10 H11 H12) as (F1 & F2 & F3 & F4).
  pose proof (date16_fields _ _ _ H13 H14 H15) as (F5 & F6 & F7 & F8).
  assert (L : forall n k x, (forall i, (i < n)%nat -> m' (a + k + Z.of_nat i) = nth i (le n x) 0) ->
    0 <= x < 2 ^ (8 * Z.of_nat n) -> ld n m' (a + k) = x).
  { intros n k x Hx Hx'. rewrite (ld_le n m' (a + k) x Hx). by apply Z.mod_small. }
  unfold read_entry.
  assert (L14 : ld 2 m' (a + 14) = time16 cs cm ch) by (apply L; [bytes_at Hm|rewrite <- E1; apply Z.mod_pos_bound; lia]).
  assert (L16 : ld 2 m' (a + 16) = date16 cd cmo cy) by (apply L; [bytes_at Hm|rewrite <- E5; apply Z.mod_pos_bound; lia]).
  assert (L18 : ld 2 m' (a + 18) = date16 ad am ay) by (apply L; [bytes_at Hm|rewrite <- E9; apply Z.mod_pos_bound; lia]).
  assert (L22 : ld 2 m' (a + 22) = time16 ms mm mh) by (apply L; [bytes_at Hm|rewrite <- F1; apply Z.mod_pos_bound; lia]).
  assert (L24 : ld 2 m' (a + 24) = date16 md mmo my) by (apply L; [bytes_at Hm|rewrite <- F5; apply Z.mod_pos_bound; lia]).
  assert (L20 : ld 2 m' (a + 20) = hi) by (apply L; [bytes_at Hm|done]).
  assert (L26 : ld 2 m' (a + 26) = lo) by (apply L; [bytes_at Hm|done]).
  assert (L28 : ld 4 m' (a + 28) = sz) by (apply L; [bytes_at Hm|done]).
  assert (S1 : forall k x, byte x -> m' (a + k) = x -> ld 1 m' (a + k) = x).
  { intros k x Hx E. simpl. rewrite E, u8_small by (unfold byte in Hx; lia). lia. }
  rewrite L14, L16, L18, L22, L24, L20, L26, L28, E2, E3, E4, E6, E7, E8, E10, E11, E12, F2, F3, F4, F6, F7, F8.
  rewrite (S1 11 fl), (S1 12 r2), (S1 13 tk) by (done || (rewrite Hm by lia; reflexivity)).
  f_equal. rewrite Hp. change (u8 <$> [c0; c1; c2; c3; c4; c5; c6; c7; c8; c9; c10] = [c0; c1; c2; c3; c4; c5; c6; c7; c8; c9; c10]).
  by apply map_u8_bytes.
Qed.

(** ** Replacing an entry *)
Section Dir.
Context `{BlockDriver 512} (boot : bpb) (junk : mem) (fuel : nat) (Hvol : volume_ok boot).
Context (H1 : cluster_size boot = 1).

(** A directory: a chain of distinct clusters, within the fuel. *)
Record dir_chain (disk : mem) (dir : Z) (l : list Z) : Prop := mk_dir_chain {
  dc_chain : chain boot disk dir l;
  dc_some : l <> [];
  dc_nodup : NoDup l;
  dc_table : Forall (in_table boot) l;
  dc_fuel : (length l <= fuel)%nat;
  dc_small : Z.of_nat (length l) < 2 ^ 32
}.

Lemma dir_chain_in disk dir l : dir_chain disk dir l -> 2 <= dir < 0xffffff7.
Proof. intros [Hch Hne _ _ _ _]. destruct Hch as [|c l Hc _]; [done|]. by apply in_chain_range. Qed.

Lemma dir_chain_start disk dir l : dir_chain disk dir l -> dir_start boot dir = dir.
Proof. intros Hd%dir_chain_in. unfold dir_start, truthy. by rewrite (proj2 (Z.eqb_neq dir 0)) by lia. Qed.

Lemma dir_length disk dir l : dir_chain disk dir l ->
  fat_chain_cluster_length boot junk fuel dir disk = Done (Z.of_nat (length l), disk) /\
  u64 (Z.of_nat (length l) * cluster_size boot * 512) = Z.of_nat (length l) * cluster_bytes boot.
Proof.
  intros [Hch _ _ _ Hf Hs]. split; [apply length_run; (done || lia)|]. rewrite u64_small; unfold cluster_bytes; lia.
Qed.

Lemma load_dir_run disk dir l : dir_chain disk dir l ->
  exists b, load_dir boot junk fuel dir disk = Done (b, disk) /\ b_size b = Z.of_nat (length l) * cluster_bytes boot /\
    holds_clusters boot (b_mem b) disk 0 l.
Proof.
  intros Hd. destruct (dir_length _ _ _ Hd) as [Hl Hs]. destruct Hd as [Hch _ _ _ Hf _]. unfold load_dir.
  rewrite (bind_run _ _ _ _ _ Hl), Hs.
  destruct (read_loop_run boot junk Hvol fuel (kmalloc_buffer junk (Z.of_nat (length l) * cluster_bytes boot)) 0 dir l disk Hch Hf)
    as (b & E & Hb & Hh & _); [simpl; lia|]. eauto.
Qed.

Lemma read_entry_ext m m' a : (forall x, a <= x < a + 32 -> m x = m' x) -> read_entry m a = read_entry m' a.
Proof.
  intros E. unfold read_entry.
  assert (L : forall n k, 0 <= k -> k + Z.of_nat n <= 32 -> ld n m (a + k) = ld n m' (a + k)) by (intros; apply ld_ext; intros; apply E; lia).
  rewrite !L by lia. f_equal. f_equal. apply list_eq. intros i. unfold peek. rewrite !list_lookup_fmap.
  destruct (decide (i < 11)%nat); [|by rewrite lookup_seq_ge by lia]. rewrite lookup_seq_lt by done. simpl. f_equal. apply E. lia.
Qed.

Lemma set_dir_entry_run disk dir l index e :
  dir_chain disk dir l -> 0 <= index < 16 * Z.of_nat (length l) -> entry_ok e ->
  exists disk' b b', fat_set_dir_entry boot junk fuel dir index (entry_bytes e) disk = Done (tt, disk') /\
    dir_chain disk' dir l /\ (forall x, outside boot l x -> disk' x = disk x) /\
    load_dir boot junk fuel dir disk = Done (b, disk) /\ load_dir boot junk fuel dir disk' = Done (b', disk') /\
    read_entry (b_mem b') (32 * index) = e /\
    forall j, 0 <= j < 16 * Z.of_nat (length l) -> j <> index -> read_entry (b_mem b') (32 * j) = read_entry (b_mem b) (32 * j).
Proof.
  intros Hd Hi He. destruct (load_dir_run _ _ _ Hd) as (b & Eb & Hsz & Hh). destruct (dir_length _ _ _ Hd) as [Hl Hs].
  pose proof (dir_chain_start _ _ _ Hd) as Hst. assert (Hcb : cluster_bytes boot = 512) by (unfold cluster_bytes; lia).
  set (n := Z.of_nat (length l) * cluster_bytes boot) in *.
  set (bw := mk_buffer n (poke (32 * index) (entry_bytes e) (b_mem b))).
  pose proof Hd as [Hch Hne Hnd Ht Hf Hsm].
  destruct (write_read_run boot junk Hvol fuel bw (kmalloc_buffer junk n) dir l disk Hch Hnd Ht Hf)
    as (disk' & b' & Ew & Ho & Hch' & Er & Hb'); [simpl; lia|simpl; lia|].
  assert (Hd' : dir_chain disk' dir l) by (by constructor).
  destruct (dir_length _ _ _ Hd') as [Hl' _].
  exists disk', b, b'. split; [|split; [done|split; [done|split; [done|split]]]].
  - unfold fat_set_dir_entry. rewrite Hst, (bind_run _ _ _ _ _ Hl), Hs. rewrite (proj2 (Z.ltb_ge _ _)).
    + unfold load_dir in Eb. rewrite (bind_run _ _ _ _ _ Hl), Hs in Eb. rewrite (bind_run _ _ _ _ _ Eb).
      rewrite (proj2 (Z.ltb_ge _ _)) by lia. exact Ew.
    + apply Z.div_le_lower_bound; lia.
  - unfold load_dir. by rewrite (bind_run _ _ _ _ _ Hl'), Hs.
  - assert (Hread : forall j, 0 <= j < 16 * Z.of_nat (length l) -> read_entry (b_mem b') (32 * j) = read_entry (b_mem bw) (32 * j))
      by (intros j Hj; apply read_entry_ext; intros x Hx; apply Hb'; lia).
    split; [rewrite Hread by done; by apply read_entry_bytes|]. intros j Hj Hne'. rewrite Hread by done.
    apply read_entry_ext. intros x Hx. apply buf_poke_out. rewrite (entry_bytes_length e He). lia.
Qed.

End Dir.

(** ** The allocation table *)
Section Table.
Context `{BlockDriver 512} (boot : bpb) (junk : mem) (Hvol : volume_ok boot).

(** The 32 bits of table entry [c]; zero marks a free cluster. *)
Definition raw_entry (disk : mem) (c : Z) : Z := ld 4 disk (512 * reserved_sectors boot + 4 * c).

Lemma change_run c v disk : 0 <= c < 2 ^ 30 ->
  exists disk', fat_change_fat_value boot junk c v disk = Done (tt, disk') /\
    forall x, disk' x = if x =? 512 * reserved_sectors boot + 4 * c then u8 v else disk x.
Proof.
  intros Hc. destruct (fat_position boot Hvol c Hc) as (Hpos & Hs & Ho). unfold fat_change_fat_value.
  destruct (dev_read_run (fat_sector boot c) 1 (kmalloc_buffer junk 512) 0 disk) as (b & E & _ & Hb); [lia|lia|simpl; lia|].
  rewrite (bind_run _ _ _ _ _ E).
  destruct (dev_write_run (fat_sector boot c) 1 (mk_buffer 512 (st 1 (fat_offset c) (u8 v) (b_mem b))) 0 disk)
    as (disk' & E' & Hd'); [lia|lia|simpl; lia|].
  exists disk'. split; [exact E'|]. intros x. rewrite Hd'. rewrite <- Hpos.
  destruct (decide (fat_sector boot c * 512 <= x < fat_sector boot c * 512 + 1 * 512)) as [Hx|Hx].
  - rewrite put_in by lia. simpl. destruct (Z.eqb_spec (0 + (x - fat_sector boot c * 512)) (fat_offset c)) as [E0|E0].
    + rewrite (proj2 (Z.eqb_eq x _)) by lia. apply u8_small, u8_range.
    + rewrite (proj2 (Z.eqb_neq x _)) by lia. rewrite Hb, put_in by lia. f_equal. lia.
  - rewrite put_out by lia. by rewrite (proj2 (Z.eqb_neq x _)) by lia.
Qed.

Lemma free_word_spec m n j :
  match free_word m n j with
  | Some k => j <= k < j + Z.of_nat n /\ ld 4 m (4 * k) = 0 /\ forall i, j <= i < k -> ld 4 m (4 * i) <> 0
  | None => forall i, j <= i < j + Z.of_nat n -> ld 4 m (4 * i) <> 0
  end.
Proof.
  revert j. induction n as [|n IH]; intros j; [intros i; simpl; lia|]. cbn [free_word].
  destruct (Z.eqb_spec (ld 4 m (4 * j)) 0) as [E|E]; [split; [lia|split; [done|lia]]|].
  specialize (IH (j + 1)). destruct (free_word m n (j + 1)) as [k|].
  - destruct IH as (Hk & E' & Hlow). split; [lia|]. split; [done|]. intros i Hi.
    destruct (Z.eq_dec i j) as [->|]; [done|]. apply Hlow. lia.
  - intros i Hi. destruct (Z.eq_dec i j) as [->|]; [done|]. apply IH. lia.
Qed.

(** The least free cluster from sector [i] of the table on, or none. *)
Definition least_free (disk : mem) (lo hi c : Z) : Prop :=
  (lo <= c < hi /\ raw_entry disk c = 0 /\ forall c', lo <= c' < c -> raw_entry disk c' <> 0) \/
  (c = 0xfffffff /\ forall c', lo <= c' < hi -> raw_entry disk c' <> 0).

Lemma free_loop_run disk n i : 0 <= i -> 128 * (i + Z.of_nat n) < 2 ^ 28 ->
  exists c, free_cluster_loop boot junk n i disk = Done (c, disk) /\ least_free disk (128 * i) (128 * (i + Z.of_nat n)) c.
Proof.
  revert i. induction n as [|n IH]; intros i Hi Hn; [exists 0xfffffff; split; [done|right; split; [done|lia]]|].
  cbn [free_cluster_loop]. destruct Hvol as [_ Hr _ _].
  destruct (dev_read_run (reserved_sectors boot + i) 1 (kmalloc_buffer junk 512) 0 disk) as (b & E & _ & Hb); [lia|lia|simpl; lia|].
  rewrite (bind_run _ _ _ _ _ E).
  assert (Hw : forall k, 0 <= k < 128 -> ld 4 (b_mem b) (4 * k) = raw_entry disk (128 * i + k)).
  { intros k Hk. apply ld_shift. intros x Hx. rewrite Hb, put_in by lia. f_equal. lia. }
  pose proof (free_word_spec (b_mem b) 128 0) as Hf. destruct (free_word (b_mem b) 128 0) as [k|].
  - destruct Hf as (Hk & E0 & Hlow). exists (i * 128 + k). change 0xfffffff with (Z.ones 28).
    rewrite Z.land_ones, Z.mod_small by lia. split; [done|]. left.
    replace (i * 128 + k) with (128 * i + k) by lia. split; [lia|]. split; [rewrite <- Hw by lia; done|].
    intros c' Hc'. replace c' with (128 * i + (c' - 128 * i)) by lia. rewrite <- Hw by lia. apply Hlow. lia.
  - assert (Hlow : forall c', 128 * i <= c' < 128 * (i + 1) -> raw_entry disk c' <> 0).
    { intros c' Hc'. replace c' with (128 * i + (c' - 128 * i)) by lia. rewrite <- Hw by lia. apply Hf. lia. }
    destruct (IH (i + 1)) as (c & E' & Hc); [lia|lia|]. exists c. split; [exact E'|].
    destruct Hc as [(Hr' & E0 & Hlow')|(-> & Hlow')]; [left|right]; (split; [lia|]);
      try (split; [done|]); intros c' Hc'; (destruct (decide (c' < 128 * (i + 1))); [apply Hlow; lia|apply Hlow'; lia]).
Qed.

(** allocating a cluster does not end the new chain: [fat_find_free_cluster] finds the least
    cluster whose table entry is zero, and [fat_find_free_cluster_chain] for up to one cluster
    returns it after changing one byte of the disk; since only the low byte of the end mark
    0xffffff8 is stored, the new entry is 0xf8, a link to cluster 248. *)
Theorem alloc_links_to_248 disk size c :
  0 < size <= cluster_bytes boot -> 128 * table_size boot < 2 ^ 28 ->
  least_free disk 0 (128 * table_size boot) c -> c <> 0xfffffff ->
  fat_find_free_cluster boot junk disk = Done (c, disk) /\
  exists disk', fat_find_free_cluster_chain boot junk size disk = Done (c, disk') /\
    (forall x, x <> 512 * reserved_sectors boot + 4 * c -> disk' x = disk x) /\
    fat_value boot disk' c = 0xf8 /\ in_chain 0xf8 = true.
Proof.
  intros Hsize Htab Hfree Hc. pose proof Hvol as [Hcs Hr _ Hts].
  assert (Ef : fat_find_free_cluster boot junk disk = Done (c, disk)).
  { destruct (free_loop_run disk (Z.to_nat (table_size boot)) 0) as (c1 & E & Hc1); [lia|lia|].
    rewrite Z2Nat.id, Z.add_0_l, Z.mul_0_r in Hc1 by lia. unfold fat_find_free_cluster. rewrite E. do 2 f_equal.
    destruct Hfree as [(Hb & E0 & Hlow)|[]]; [|done]. destruct Hc1 as [(Hb1 & E1 & Hlow1)|[_ Hn]]; [|by destruct (Hn c Hb)].
    destruct (Z.lt_total c1 c) as [|[|]]; [by destruct (Hlow c1 ltac:(lia))|done|by destruct (Hlow1 c ltac:(lia))]. }
  split; [done|]. destruct Hfree as [(Hb & E0 & _)|[]]; [|done].
  destruct (change_run c 0xffffff8 disk) as (disk' & Ec & Hd'); [lia|]. exists disk'.
  unfold cluster_bytes in Hsize. split; [|split; [|split; [|done]]].
  - unfold fat_find_free_cluster_chain. rewrite (proj2 (Z.eqb_neq _ 0)) by lia.
    replace (Z.to_nat _) with 1%nat.
    + cbn [alloc_loop]. rewrite (bind_run _ _ _ _ _ Ef). rewrite (bind_run _ _ disk tt disk) by done.
      by rewrite (bind_run _ _ _ _ _ Ec).
    + rewrite u64_small by lia.
      replace ((size + (cluster_size boot * 512 - 1)) / (cluster_size boot * 512)) with 1; [done|].
      apply Z.div_unique with (size - 1); lia.
  - intros x Hx. rewrite Hd'. by rewrite (proj2 (Z.eqb_neq _ _)).
  - unfold fat_value, raw_entry in *. set (a := 512 * reserved_sectors boot + 4 * c) in *.
    assert (E4 : ld 4 disk' a = 0xf8); [|by rewrite E4].
    assert (Hz : ld 3 disk (a + 1) = 0) by (cbn [ld] in E0 |- *; pose proof (u8_range (disk a)); pose proof (ld_range 3 disk (a + 1)); cbn [ld] in *; lia).
    change (ld 4 disk' a) with (u8 (disk' a) + 2 ^ 8 * ld 3 disk' (a + 1)).
    rewrite (ld_ext 3 disk' disk) by (intros x Hx; rewrite Hd', (proj2 (Z.eqb_neq _ _)) by lia; done).
    rewrite Hz, Hd', Z.eqb_refl. done.
Qed.
End Table.

(** ** Finding a name *)

Lemma strncmp_take n a b : (n <= length a)%nat -> (n <= length b)%nat ->
  exists d, CString.Kernel.strncmp a b n = Some d /\ (d = 0 <-> take n a = take n b).
Proof.
  revert a b. induction n as [|n IH]; intros a b Ha Hb; [exists 0; split; [by destruct a|done]|].
  destruct a as [|x a], b as [|y b]; try (simpl in *; lia). simpl. destruct (Z.eqb_spec x y) as [->|Hne].
  - destruct (IH a b) as (d & E & Hd); [simpl in *; lia|simpl in *; lia|]. exists d. split; [done|].
    rewrite Hd. split; [by intros ->|by intros [= ->]].
  - exists 1. split; [done|]. split; [done|]. congruence.
Qed.

Lemma short_loop_length rest name pos k :
  length (fst (fst (short_loop rest name pos k))) = length name.
Proof.
  revert name pos k. induction rest as [|c rest IH]; intros name pos k; simpl; [done|].
  destruct (_ || _); [done|]. destruct (c =? 46); [apply IH|]. rewrite IH. apply length_insert.
Qed.

Lemma short_loop_consumed rest name pos k :
  k <= snd (short_loop rest name pos k) <= k + Z.of_nat (length rest).
Proof.
  revert name pos k. induction rest as [|c rest IH]; intros name pos k; simpl; [lia|].
  destruct (_ || _); [simpl; lia|]. destruct (c =? 46).
  - specialize (IH name (if pos <? 8 then 8 else pos) (k + 1)). lia.
  - specialize (IH (<[Z.to_nat pos:=upper c]> name) (pos + 1) (k + 1)). lia.
Qed.

(** The 8.3 form of a name, said without the loop: what is before the first dot, padded with spaces to
    eight characters, then what is after it, padded to eleven, all letters in upper case; later dots
    are dropped, and what does not fit is cut. *)
Definition capital (c : Z) : Z := if (97 <=? c) && (c <=? 122) then c - 32 else c.
Fixpoint before_dot (s : list Z) : list Z :=
  match s with [] => [] | c :: s' => if decide (c = 46) then [] else c :: before_dot s' end.
Fixpoint after_dot (s : list Z) : list Z :=
  match s with [] => [] | c :: s' => if decide (c = 46) then s' else after_dot s' end.
Definition pad (n : nat) (s : list Z) : list Z := s ++ replicate (n - length s) 32.
Definition short_name_of (comp : list Z) : list Z :=
  let base := capital <$> before_dot comp in
  let ext := capital <$> filter (fun c => c <> 46) (after_dot comp) in
  take 11 (pad 11 (pad 8 base ++ ext)).

Lemma upper_capital c : upper c = capital c.
Proof. unfold upper, capital. destruct (_ && _); lia. Qed.

Lemma before_after_dot s : filter (fun c => c <> 46) s = before_dot s ++ filter (fun c => c <> 46) (after_dot s).
Proof.
  induction s as [|c s IH]; [done|]. cbn [before_dot after_dot]. destruct (decide (c = 46)) as [->|Hc].
  - by rewrite filter_cons_False by auto.
  - rewrite filter_cons_True by done. by rewrite IH.
Qed.

Lemma take_pad n s : (n <= length s)%nat -> take n (pad n s) = take n s.
Proof. intros H. unfold pad. by rewrite take_app_le by done. Qed.

Lemma pad_long n s : (n <= length s)%nat -> pad n s = s.
Proof. intros H. unfold pad. replace (n - length s)%nat with 0%nat by lia. apply app_nil_r. Qed.

Lemma pad_store w u : (length w < 12)%nat -> <[length w := u]> (pad 12 w) = pad 12 (w ++ [u]).
Proof.
  intros H. unfold pad. rewrite insert_app_r_alt by lia. rewrite Nat.sub_diag, length_app. cbn [length].
  replace (12 - length w)%nat with (S (12 - (length w + 1)))%nat by lia. cbn. by rewrite <- app_assoc.
Qed.

(** The loop behind the eighth character: the rest without its dots. *)
Lemma short_loop_ext rest w k :
  Forall (fun c => c <> 47) rest -> (8 <= length w <= 11)%nat ->
  take 11 (fst (fst (short_loop rest (pad 12 w) (Z.of_nat (length w)) k))) =
  take 11 (pad 11 (w ++ (capital <$> filter (fun c => c <> 46) rest))).
Proof.
  intros Hr. revert w k. induction Hr as [|c rest Hc Hr IH]; intros w k Hw.
  - cbn. rewrite app_nil_r. unfold pad. rewrite !take_app. f_equal. rewrite !take_replicate. f_equal. lia.
  - cbn [short_loop]. rewrite (proj2 (Z.eqb_neq c 47) Hc), orb_false_r.
    destruct (Z.eqb_spec (Z.of_nat (length w)) 11) as [E|N].
    { cbn [fst]. assert (length w = 11%nat) by lia. rewrite take_pad by (rewrite length_app; lia).
      unfold pad. by rewrite !take_app_le by lia. }
    rewrite (proj2 (Z.ltb_ge _ 8)) by lia. destruct (Z.eqb_spec c 46) as [->|N46].
    + rewrite filter_cons_False by auto. by apply IH.
    + rewrite filter_cons_True by done. rewrite Nat2Z.id, pad_store, upper_capital by lia.
      replace (Z.of_nat (length w) + 1) with (Z.of_nat (length (w ++ [capital c]))) by (rewrite length_app; cbn; lia).
      rewrite IH by (rewrite length_app; cbn; lia). cbn [fmap list_fmap]. by rewrite <- app_assoc.
Qed.

Lemma short_loop_base rest w k :
  Forall (fun c => c <> 47) rest -> (length w <= 8)%nat ->
  take 11 (fst (fst (short_loop rest (pad 12 w) (Z.of_nat (length w)) k))) =
  take 11 (pad 11 (pad 8 (w ++ (capital <$> before_dot rest)) ++ (capital <$> filter (fun c => c <> 46) (after_dot rest)))).
Proof.
  intros Hr. revert w k. induction Hr as [|c rest Hc Hr IH]; intros w k Hw.
  - cbn. rewrite !app_nil_r. unfold pad. rewrite <- app_assoc, <- replicate_add, !take_app. f_equal. rewrite !take_replicate. f_equal.
    rewrite length_app, length_replicate. lia.
  - destruct (decide (length w = 8%nat)) as [E8|N8].
    { rewrite short_loop_ext; [|by constructor|lia]. rewrite before_after_dot, fmap_app, app_assoc.
      by rewrite (pad_long 8) by (rewrite length_app; lia). }
    cbn [short_loop before_dot after_dot]. rewrite (proj2 (Z.eqb_neq c 47) Hc), orb_false_r.
    rewrite (proj2 (Z.eqb_neq _ 11)) by lia. rewrite (proj2 (Z.ltb_lt _ 8)) by lia.
    destruct (decide (c = 46)) as [->|N46].
    + cbn [Z.eqb Pos.eqb fmap list_fmap]. rewrite app_nil_r.
      assert (L : length (pad 8 w) = 8%nat) by (unfold pad; rewrite length_app, length_replicate; lia).
      replace (pad 12 w) with (pad 12 (pad 8 w)).
      2: { unfold pad. rewrite <- app_assoc, <- replicate_add. do 2 f_equal. rewrite length_app, length_replicate. lia. }
      pose proof (short_loop_ext rest (pad 8 w) (k + 1) Hr ltac:(lia)) as X. rewrite L in X. exact X.
    + rewrite (proj2 (Z.eqb_neq c 46) N46). rewrite Nat2Z.id, pad_store, upper_capital by lia.
      replace (Z.of_nat (length w) + 1) with (Z.of_nat (length (w ++ [capital c]))) by (rewrite length_app; cbn; lia).
      rewrite IH by (rewrite length_app; cbn; lia). cbn [fmap list_fmap]. by rewrite <- app_assoc.
Qed.

(** The loop of [fat_find] computes the 8.3 form. *)
Lemma short_loop_name comp : Forall (fun c => c <> 47) comp ->
  take 11 (fst (fst (short_loop comp (blank 12) 0 0))) = short_name_of comp.
Proof. intros H. exact (short_loop_base comp [] 0 H ltac:(cbn; lia)). Qed.

(** Entry [i] of the directory in [b] is in use and has this name. *)
Definition named (b : buffer) (name : list Z) (i : Z) : Prop :=
  unused b i = false /\ filename (read_entry (b_mem b) (32 * i)) = name.

(** No entry of the directory in [b] belongs to a long name. *)
Definition no_long_names (b : buffer) : Prop :=
  forall i, 0 <= i < b_size b / 32 -> unused b i = false -> de_flags (read_entry (b_mem b) (32 * i)) <> 0xf.

Lemma length_filename m a : length (filename (read_entry m a)) = 11%nat.
Proof. reflexivity. Qed.

Lemma scan_run reused n b path i pi pos name disk :
  no_long_names b -> length name = 12%nat -> 0 <= i -> b_size b / 32 < i + Z.of_nat n ->
  exists r, scan_loop reused n b path i pi pos name false disk = Done (r, disk) /\
    match r with
    | Match pi' k => pi' = pi /\ i <= k < b_size b / 32 /\ named b (take 11 name) k /\
        forall j, i <= j < k -> ~ named b (take 11 name) j
    | NoMatch => forall j, i <= j < b_size b / 32 -> ~ named b (take 11 name) j
    end.
Proof.
  intros Hno Hname. revert i. induction n as [|n IH]; intros i Hi Hn; [exists NoMatch; split; [done|lia]|].
  cbn [scan_loop]. destruct (Z.leb_spec (b_size b / 32) i) as [|Hlt]; [exists NoMatch; split; [done|lia]|].
  destruct (IH (i + 1)) as (r & E & Hr); [lia|lia|]. clear IH.
  assert (Hskip : ~ named b (take 11 name) i -> exists r, scan_loop reused n b path (i + 1) pi pos name false disk = Done (r, disk) /\
    match r with
    | Match pi' k => pi' = pi /\ i <= k < b_size b / 32 /\ named b (take 11 name) k /\
        forall j, i <= j < k -> ~ named b (take 11 name) j
    | NoMatch => forall j, i <= j < b_size b / 32 -> ~ named b (take 11 name) j
    end).
  { intros Hi'. exists r. split; [done|]. destruct r as [pi' k|].
    - destruct Hr as (-> & Hk & Hnk & Hlow). split; [done|]. split; [lia|]. split; [done|]. intros j Hj.
      destruct (Z.eq_dec j i) as [->|]; [done|]. apply Hlow. lia.
    - intros j Hj. destruct (Z.eq_dec j i) as [->|]; [done|]. apply Hr. lia. }
  destruct (unused b i) eqn:Eu; [apply Hskip; intros [? _]; congruence|].
  rewrite (proj2 (Z.eqb_neq _ 0xf)) by (apply Hno; [lia|done]).
  destruct (strncmp_take 11 name (filename (read_entry (b_mem b) (32 * i)))) as (d & Ed & Hd); [lia|rewrite length_filename; lia|].
  rewrite Ed. rewrite (bind_run (of_option (Some d)) _ disk d disk) by done.
  rewrite (take_ge (filename _)) in Hd by (rewrite length_filename; lia).
  destruct (Z.eqb_spec d 0) as [->|Hne].
  - exists (Match pi i). split; [done|]. split; [done|]. split; [lia|]. split; [|lia]. split; [done|]. symmetry. by apply Hd.
  - apply Hskip. intros [_ E']. apply Hne. by apply Hd.
Qed.

Section Find.
Context `{BlockDriver 512} (boot : bpb) (junk : mem) (reused : Z -> list Z) (fuel : nat) (Hvol : volume_ok boot).
Context (H1 : cluster_size boot = 1).

(** A path component that [fat_find] reads from its first character. *)
Definition plain_component (comp : list Z) : Prop :=
  exists c rest, comp = c :: rest /\ Forall (fun x => x <> 0 /\ x <> 47) comp /\ c <> 32 /\ c <> 46.

Lemma char_at_in path i c disk : 0 <= i -> path !! Z.to_nat i = Some c -> char_at path i disk = Done (c, disk).
Proof.
  intros Hi E. unfold char_at. pose proof (lookup_lt_Some _ _ _ E).
  rewrite (proj2 (Z.leb_le 0 i)), (proj2 (Z.ltb_lt _ _)) by lia. simpl. by rewrite E.
Qed.

(** A position in the component reads a character other than '/'. *)
Lemma char_at_comp comp i disk : plain_component comp -> 1 <= i <= 1 + Z.of_nat (length comp) ->
  exists c, char_at (47 :: comp) i disk = Done (c, disk) /\ c <> 47.
Proof.
  intros (c0 & rest & -> & Hall & _) Hi. destruct (Z.eq_dec i (1 + Z.of_nat (length (c0 :: rest)))) as [->|].
  - exists 0. split; [|done]. unfold char_at. simpl length.
    rewrite (proj2 (Z.ltb_ge _ _)), andb_false_r by (simpl; lia). by rewrite (proj2 (Z.eqb_eq _ _)) by (simpl; lia).
  - destruct (lookup_Z_Some (c0 :: rest) (i - 1)) as [c Hc]; [simpl in *; lia|]. exists c. split.
    + apply char_at_in; [lia|]. replace (Z.to_nat i) with (S (Z.to_nat (i - 1))) by lia. exact Hc.
    + rewrite Forall_lookup in Hall. apply (Hall _ _ Hc).
Qed.

Lemma find_root_run n disk l comp b o :
  dir_chain boot fuel disk (root_cluster boot) l -> load_dir boot junk fuel (root_cluster boot) disk = Done (b, disk) ->
  no_long_names b -> plain_component comp ->
  let name := short_name_of comp in let root := root_cluster boot in
  exists r, fat_find boot junk reused fuel (S (S n)) 0 true (47 :: comp) 0 o disk = Done (r, disk) /\
    ((exists i, 0 <= i < b_size b / 32 /\ named b name i /\ (forall j, 0 <= j < i -> ~ named b name j) /\
        let e := read_entry (b_mem b) (32 * i) in r = mk_found (entry_cluster e) (Some root) (Some e) (Some i)) \/
     ((forall i, 0 <= i < b_size b / 32 -> ~ named b name i) /\ r = mk_found not_found (Some root) (fo_entry o) (fo_index o))).
Proof.
  intros Hd Hload Hno Hcomp name root. pose proof (dir_chain_start boot fuel _ _ _ Hd) as Hst. fold root in Hst, Hload.
  pose proof Hcomp as (c0 & rest & Ec & Hall & H32 & H46). assert (Hc0 : c0 <> 0 /\ c0 <> 47) by (subst; by inversion Hall).
  pose proof (dir_chain_in boot fuel _ _ _ Hd) as Hroot. fold root in Hroot.
  assert (Hst0 : dir_start boot 0 = root) by done.
  cbn [fat_find]. change (268435447 <=? 0) with false. cbv iota. rewrite Hst0.
  rewrite (bind_run _ _ disk 47 disk) by (by apply char_at_in). cbn [Z.eqb Pos.eqb orb]. rewrite (proj2 (Z.leb_gt _ _)) by lia.
  rewrite Hst. rewrite (bind_run (char_at (47 :: comp) (0 + 1)) _ disk c0 disk) by (apply char_at_in; [lia|rewrite Ec; reflexivity]).
  rewrite (proj2 (Z.eqb_neq c0 0)), (proj2 (Z.eqb_neq c0 32)), (proj2 (Z.eqb_neq c0 47)), (proj2 (Z.eqb_neq c0 46)) by tauto.
  cbn [orb]. rewrite (bind_run (char_at (47 :: comp) (0 + 1)) _ disk c0 disk) by (apply char_at_in; [lia|rewrite Ec; reflexivity]).
  change (drop (Z.to_nat (0 + 1)) (47 :: comp)) with comp.
  pose proof (short_loop_length comp (blank 12) 0 0) as Hlen. pose proof (short_loop_consumed comp (blank 12) 0 0) as Hcon.
  assert (Hname : take 11 (fst (fst (short_loop comp (blank 12) 0 0))) = name).
  { apply short_loop_name. eapply Forall_impl; [exact Hall|]. by intros x [_ Hx]. }
  destruct (short_loop comp (blank 12) 0 0) as [[nm pos] k]. simpl fst in *. simpl snd in Hcon. rewrite <- Hname. clear Hname.
  rewrite (bind_run _ _ _ _ _ Hload).
  destruct (scan_run reused (S (Z.to_nat (b_size b / 32))) b (47 :: comp) 0 (0 + 1 + k) pos nm disk Hno Hlen) as (r & Er & Hr); [lia|lia|].
  rewrite (bind_run _ _ _ _ _ Er). destruct r as [pi i|].
  - destruct Hr as (-> & Hi & Hn & Hlow). destruct (char_at_comp comp (0 + 1 + k) disk Hcomp) as (c & Echar & Hc); [lia|].
    rewrite (bind_run _ _ _ _ _ Echar). rewrite (proj2 (Z.eqb_neq c 47)) by done. cbn [andb]. eexists. split; [reflexivity|].
    left. exists i. done.
  - eexists. split; [reflexivity|]. right. done.
Qed.

End Find.

(** ** A small volume: one table of two sectors, the root directory in cluster 2 with one file,
    "A-.TXT", in clusters 3 and 4 *)

Definition small_boot : bpb := mk_bpb 1 1 1 2 2 0x29.
Definition small_entry : dir_entry :=
  mk_entry ([65; 45] ++ blank 6 ++ [84; 88; 84]) 0x20 0 1 5 6 7 8 9 10 11 12 13 0 14 15 16 17 12 19 3 1024.
Definition small_disk : mem :=
  st 4 512 0xffffff8 (st 4 516 0xfffffff (st 4 520 0xffffff8 (st 4 524 4 (st 4 528 0xffffff8
    (poke 1536 (entry_bytes small_entry) (fun x => if x <? 2048 then 0 else x mod 251)))))).

Lemma small_volume : volume_ok small_boot.
Proof. by constructor. Qed.
Lemma small_entry_ok : entry_ok small_entry.
Proof. constructor; repeat split; try done. repeat constructor; done. Qed.

Lemma small_root_chain : chain small_boot small_disk 2 [2].
Proof. constructor; [done|]. constructor. vm_compute. reflexivity. Qed.
Lemma small_file_chain : chain small_boot small_disk 3 [3; 4].
Proof.
  constructor; [done|]. change (fat_value small_boot small_disk 3) with 4 || replace (fat_value small_boot small_disk 3) with 4 by (vm_compute; reflexivity).
  constructor; [done|]. constructor. vm_compute. reflexivity.
Qed.

Lemma read_chain_spec_witness :
  @fat_chain_cluster_length ram_ops small_boot (fun _ => 7) 9 3 small_disk = Done (2, small_disk) /\
  exists b', @fat_read_cluster_chain ram_ops small_boot (fun _ => 7) 9 (mk_buffer 1024 (fun _ => 7)) 3 small_disk = Done (b', small_disk).
Proof.
  destruct (@read_chain_spec ram_ops ram_driver small_boot (fun _ => 7) small_volume 9 (mk_buffer 1024 (fun _ => 7)) 3 [3; 4] small_disk
    small_file_chain ltac:(simpl; lia) ltac:(vm_compute; discriminate)) as ((b' & E & _) & Hl & _).
  split; [apply Hl; done|]. exists b'. exact E.
Defined.

Lemma small_table : Forall (in_table small_boot) [3; 4].
Proof. repeat constructor; done. Qed.

Lemma write_read_chain_witness :
  exists disk' b', @fat_write_cluster_chain ram_ops small_boot (fun _ => 7) 9 (mk_buffer 1024 (fun x => x mod 256)) 3 small_disk = Done (tt, disk') /\
    @fat_read_cluster_chain ram_ops small_boot (fun _ => 7) 9 (mk_buffer 1024 (fun _ => 7)) 3 disk' = Done (b', disk') /\ b_mem b' 700 = 188.
Proof.
  destruct (@write_read_chain ram_ops ram_driver small_boot (fun _ => 7) small_volume 9 (mk_buffer 1024 (fun x => x mod 256))
    (mk_buffer 1024 (fun _ => 7)) 3 [3; 4] small_disk small_file_chain ltac:(apply (bool_decide_unpack _); done) small_table
    ltac:(simpl; lia) ltac:(vm_compute; discriminate) ltac:(vm_compute; discriminate)) as (disk' & b' & E & _ & _ & E' & Hb).
  exists disk', b'. split; [exact E|]. split; [exact E'|]. exact (Hb 700 ltac:(vm_compute; split; [discriminate|reflexivity])).
Defined.

Lemma small_dir : dir_chain small_boot 9 small_disk 2 [2].
Proof.
  constructor; [apply small_root_chain|done|apply (bool_decide_unpack _); done|by repeat constructor|simpl; lia|simpl; lia].
Qed.


Lemma small_least_free : least_free small_boot small_disk 0 256 5.
Proof.
  left. split; [lia|]. split; [vm_compute; reflexivity|]. intros c Hc.
  assert (c = 0 \/ c = 1 \/ c = 2 \/ c = 3 \/ c = 4) as [->|[->|[->|[->| ->]]]] by lia; vm_compute; discriminate.
Qed.

Lemma alloc_links_to_248_witness :
  exists disk', @fat_find_free_cluster_chain ram_ops small_boot (fun _ => 7) 1 small_disk = Done (5, disk') /\
    fat_value small_boot disk' 5 = 0xf8.
Proof.
  destruct (proj2 (@alloc_links_to_248 ram_ops ram_driver small_boot (fun _ => 7) small_volume small_disk 1 5
    ltac:(closed_Z) ltac:(closed_Z) small_least_free ltac:(done))) as (disk' & E & _ & Hv & _).
  exists disk'. split; [exact E|exact Hv].
Defined.

(** The root directory read into a buffer. *)
Lemma small_load : exists b, @load_dir ram_ops small_boot (fun _ => 7) 9 2 small_disk = Done (b, small_disk) /\ b_size b = 512 /\
  forall x, 0 <= x < 512 -> b_mem b x = small_disk (1536 + x).
Proof.
  destruct (@load_dir_run ram_ops ram_driver small_boot (fun _ => 7) 9 small_volume eq_refl small_disk 2 [2] small_dir) as (b & E & Hs & Hh).
  exists b. split; [exact E|]. split; [exact Hs|]. intros x Hx. exact (Hh 0%nat 2 eq_refl x Hx).
Qed.

Lemma small_entries b : b_size b = 512 -> (forall x, 0 <= x < 512 -> b_mem b x = small_disk (1536 + x)) ->
  (forall i, 0 <= i < 16 -> unused b i = negb (i =? 0)) /\ read_entry (b_mem b) 0 = small_entry.
Proof.
  intros Hs Hb. split.
  - intros i Hi. unfold unused, entry_head.
    rewrite (ld_shift 1 (b_mem b) small_disk (32 * i) (1536 + 32 * i)) by (intros x Hx; rewrite <- Z.add_assoc; apply Hb; lia).
    assert (Hall : forallb (fun k => let i := Z.of_nat k in let h := ld 1 small_disk (1536 + 32 * i) in
      Bool.eqb ((h =? 0) || (h =? 0xe5)) (negb (i =? 0))) (seq 0 16) = true) by (vm_compute; reflexivity).
    rewrite forallb_forall in Hall. specialize (Hall (Z.to_nat i) (proj2 (in_seq 16 0 (Z.to_nat i)) ltac:(lia))).
    rewrite Z2Nat.id in Hall by lia. by apply eqb_prop in Hall.
  - rewrite <- (read_entry_bytes small_entry 0 (fun _ => 0) small_entry_ok). apply read_entry_ext. intros x Hx.
    rewrite Hb by lia. replace x with (0 + x) at 2 by lia. rewrite poke_at by (rewrite (entry_bytes_length _ small_entry_ok); lia).
    rewrite <- (poke_at 1536 (entry_bytes small_entry) (fun x => if x <? 2048 then 0 else x mod 251) x)
      by (rewrite (entry_bytes_length _ small_entry_ok); lia).
    unfold small_disk. rewrite !st_other by lia. done.
Qed.

Lemma small_no_long b : b_size b = 512 -> (forall x, 0 <= x < 512 -> b_mem b x = small_disk (1536 + x)) -> no_long_names b.
Proof.
  intros Hs Hb i Hi Hu. rewrite Hs in Hi. change (512 / 32) with 16 in Hi. destruct (small_entries b Hs Hb) as [Hun He].
  rewrite Hun in Hu by done. destruct (Z.eqb_spec i 0) as [->|]; [|done]. rewrite Z.mul_0_r, He. done.
Qed.

(** The file under the name "a-.txt". *)
Definition small_name : list Z := [97; 45; 46; 116; 120; 116].

Lemma small_comp : plain_component small_name.
Proof. exists 97, [45; 46; 116; 120; 116]. repeat split; try done. by repeat constructor. Qed.

