(* ===== verification/Tmpfs.v ===== *)
(** * The memory file system (src/src/kernel/fs/tmpfs.c, devfs.c)

    Each function of tmpfs.c over the store of Fs.v.  A directory's children are a vector of
    pointers to files.  The loop of [tmpfs_find] runs on fuel: it can stay on a '/' for as
    long as directories have a child with an empty name; [tmpfs_find_run] shows that one pass
    per path character is enough when no name is empty. *)
From S2P Require Import Prelude CString Vec Rtc Device Pipe Fs.

(** The addresses of [tmpfs_file_ops] and [tmpfs_fs_ops]. *)
Definition tmpfs_file_ops : Z := 1.
Definition tmpfs_fs_ops : Z := 1.
(** [init_devfs] copies both tables, with another name. *)
Definition devfs_fs_ops : Z := 2.

(** [(tmpfs_dirent_t * )file->private_data] *)
Definition dir_of (f : fs_file) : FM tmpfs_dirent :=
  match private_data f with PDir d => mret d | _ => fault end.

(** [strcpy(dirent->name, ..)] into 512 bytes. *)
Definition set_name (name : list Z) (d : dirent_t) : FM dirent_t :=
  if Z.of_nat (length name) <? 512 then mret (mk_dirent_t name (d_serial d)) else fault.

Definition tmpfs_readdir (file : Z) (dirent : dirent_t) (pos : Z) : FM (Z * dirent_t) :=
  if pos =? 0 then d ← set_name [46] dirent; mret (0, d)
  else if pos =? 1 then d ← set_name [46] dirent; mret (0, d)
  else
    f ← get_file file;
    dir ← dir_of f;
    if pos <? u64 (vlength (children dir)) then
      p ← of_option (data (children dir) !! Z.to_nat pos);
      c ← get_file p;
      d ← set_name (f_path c) dirent;
      mret (0, d)
    else mret (1, dirent).

(** The loop of [tmpfs_finddir] from index [i]. *)
Fixpoint finddir_loop (n : nat) (i : Z) (name : list Z) (v : vec Z) (dirent : dirent_t) : FM (Z * dirent_t) :=
  match n with
  | O => mret (1, dirent)
  | S n' =>
      p ← of_option (data v !! Z.to_nat i);
      c ← get_file p;
      if streq name (f_path c) then
        d ← set_name (f_path c) (mk_dirent_t (d_name dirent) (f_inode c));
        mret (0, d)
      else finddir_loop n' (i + 1) name v dirent
  end.

Definition tmpfs_finddir (file : Z) (name : list Z) (dirent : dirent_t) : FM (Z * dirent_t) :=
  f ← get_file file;
  dir ← dir_of f;
  finddir_loop (Z.to_nat (u64 (vlength (children dir)))) 0 name (children dir) dirent.

(** The loop of [tmpfs_find]: the result, [root] and [*parent_dir] at the end. *)
Fixpoint find_loop (fuel : nat) (path : list Z) (root parent_dir : Z) : FM (Z * Z * Z) :=
  match path, fuel with
  | [], _ => mret (0, root, parent_dir)
  | _, O => out_of_fuel
  | _, S fuel' =>
      let '(tok, path') := short_name path in
      let parent_dir := root in
      r ← tmpfs_finddir root tok (mk_dirent_t [] 0);
      if truthy (fst r) then mret (1, root, parent_dir)
      else find_loop fuel' path' (d_serial (snd r)) parent_dir
  end.

(** The path after its first '/'. *)
Definition skip_slash (path : list Z) : list Z :=
  match path with c :: path' => if c =? 47 then path' else path | [] => path end.

(** [tmpfs_find]: the result, the file and its parent ([parent0] is the caller's initial
    [*parent_dir]). *)
Definition tmpfs_find (fs : Z) (path : list Z) (parent0 : Z) : FM (Z * Z * Z) :=
  f ← get_fs fs;
  find_loop (S (length path)) (skip_slash path) (fs_root f) parent0.

Definition tmpfs_mmap (file pg sfile addr size offset prot flags : Z) : FM Z := mret 0.
Definition tmpfs_close (file : Z) : FM Z := mret 0.
Definition tmpfs_ioctl (file cmd arg : Z) : FM Z := mret 0.

Definition tmpfs_chmod (file mode : Z) : FM Z :=
  f ← get_file file; put_file file (with_mode mode f);; mret 0.
Definition tmpfs_chown (file uid gid : Z) : FM Z :=
  f ← get_file file; put_file file (with_owner uid gid f);; mret 0.
Definition tmpfs_truncate (file size : Z) : FM Z :=
  f ← get_file file; put_file file (with_data size (private_data f) f);; mret 0.

(** [memcpy] of zero bytes touches nothing, whatever [private_data] is. *)
Definition tmpfs_read (file buf offset count : Z) : FM Z :=
  f ← get_file file;
  let count := if f_length f <? u64 (count + offset) then u64 (f_length f - offset) else count in
  if count =? 0 then mret offset
  else
    match private_data f with
    | PBlock d =>
        if offset + count <=? Z.of_nat (length d) then
          modify (fun s => set_ubuf (poke buf (take (Z.to_nat count) (drop (Z.to_nat offset) d)) (ubuf s)) s);;
          mret offset
        else fault
    | _ => fault
    end.

(** Replaces the bytes of [d] from [offset]. *)
Definition overwrite (d : list Z) (offset : nat) (bs : list Z) : list Z :=
  take offset d ++ bs ++ drop (offset + length bs) d.

Definition tmpfs_rmdir (file : Z) : FM Z :=
  f ← get_file file;
  if negb (S_ISDIR (f_mode f)) then mret 1
  else _ ← dir_of f; free_file file;; mret 0.

Definition tmpfs_delete (file : Z) : FM Z :=
  f ← get_file file;
  if S_ISDIR (f_mode f) then mret 1
  else free_file file;; tmpfs_close file.

(** [tmpfs_open] leaks the [fs_file_t] it allocates for the result pointer. *)
Definition tmpfs_open (fs : Z) (name : list Z) : FM Z :=
  q_file ← kmalloc_ptr;
  r ← tmpfs_find fs name 0;
  let '(err, ref, _) := r in
  if truthy err then mret 0 else mret ref.

Section Ops.
Context `{Env}.

Definition tmpfs_write (file buf offset count : Z) : FM Z :=
  f ← get_file file;
  f ← (if f_length f <? u64 (count + offset) then
         match private_data f with
         | PDir _ | PFat _ => fault
         | PNull => mret (with_data (u64 (count + offset)) (PBlock (realloc_bytes [] (Z.to_nat (u64 (count + offset))))) f)
         | PBlock d => mret (with_data (u64 (count + offset)) (PBlock (realloc_bytes d (Z.to_nat (u64 (count + offset))))) f)
         end
       else mret f);
  put_file file f;;
  if count =? 0 then mret count
  else
    match private_data f with
    | PBlock d =>
        if offset + count <=? Z.of_nat (length d) then
          m ← gets ubuf;
          put_file file (with_data (f_length f)
            (PBlock (overwrite d (Z.to_nat offset) (peek buf (Z.to_nat count) m))) f);;
          mret count
        else fault
    | _ => fault
    end.

(** [vec_push(&((tmpfs_dirent_t * )parent_dir->private_data)->children, file)] *)
Definition push_child (parent_dir file : Z) : FM unit :=
  p ← get_file parent_dir;
  dir ← dir_of p;
  r ← of_option (vec_push (children dir) file);
  put_file parent_dir (with_data (f_length p) (PDir (mk_dirent (d_file dir) (snd r) (d_parent dir))) p).

(** The common text of [tmpfs_create], [tmpfs_mkfifo], [tmpfs_mkdir] and [tmpfs_mknod]: look
    the path up, make the file object [mk], name it after the first component of the path
    and add it to the directory the search ended in. *)
Definition make_node (fs : Z) (path : list Z) (mk : Z -> Z -> FM fs_file) : FM (Z * option Z) :=
  tim ← current_time;
  parent0 ← kmalloc_ptr;
  r ← tmpfs_find fs path parent0;
  let '(err, _, parent_dir) := r in
  if negb (truthy err) then
    f ← tmpfs_open fs path; mret (f, None)
  else
    file ← kmalloc_ptr;
    f ← mk tim file;
    let name := fst (short_name (drop 1 path)) in
    put_file file (mk_file name (f_uid f) (f_gid f) (f_ops f) (f_fs f) (f_dev f) (f_pipe f)
      (last_access_time f) (last_modification_time f) (last_status_change_time f) (creation_time f)
      (ref_count f) (f_mode f) (f_length f) (f_inode f) (private_data f) (f_offset f));;
    push_child parent_dir file;;
    mret (file, Some parent_dir).

Definition tmpfs_create (fs : Z) (path : list Z) (mode uid gid : Z) : FM Z :=
  r ← make_node fs path (fun tim file =>
    mret (mk_file [] uid gid tmpfs_file_ops fs 0 0 tim tim tim tim 1 (Z.lor S_IFREG mode) 0 file PNull 0));
  mret (fst r).

Definition tmpfs_mkfifo (fs : Z) (path : list Z) (mode uid gid : Z) : FM Z :=
  r ← make_node fs path (fun tim file =>
    p ← new_pipe;
    mret (mk_file [] uid gid tmpfs_file_ops fs 0 p tim tim tim tim 1 (Z.lor S_IFIFO mode) 0 file PNull 0));
  mret (fst r).

Definition tmpfs_mknod (fs : Z) (name : list Z) (mode uid gid dev : Z) : FM Z :=
  r ← make_node fs name (fun tim file =>
    mret (mk_file [] uid gid tmpfs_file_ops fs dev 0 tim tim tim tim 1 mode 0 file PNull 0));
  mret (fst r).

(** [sizeof(fs_file_t)] in pointers: the first array of a new directory. *)
Definition dir_slots : nat := 19.

(** The directory object keeps the length and the capacity the heap block had. *)
Definition tmpfs_mkdir (fs : Z) (path : list Z) (mode uid gid : Z) : FM Z :=
  r ← make_node fs path (fun tim file =>
    mret (mk_file [] uid gid tmpfs_file_ops fs 0 0 tim tim tim tim 1 (Z.lor S_IFDIR mode) 0 file
      (PDir (mk_dirent 0 (junk_dir file) 0)) 0));
  match snd r with
  | None => mret (fst r)
  | Some parent_dir =>
      f ← get_file (fst r);
      dir ← dir_of f;
      put_file (fst r) (with_data (f_length f)
        (PDir (mk_dirent (fst r)
           (mk_vec (replicate dir_slots (-1)) (vlength (children dir)) (capacity (children dir))) parent_dir)) f);;
      mret (fst r)
  end.

(** [vec_push] on the vector inside a block that was never initialised: a data word other than NULL is
    handed to [krealloc], or stored through, and is no pointer of this program. *)
Definition push_uninitialised (file : Z) : FM unit :=
  if truthy (junk_data file) then fault
  else
    _ ← of_option (vec_push (mk_vec [] (vlength (junk_dir file)) (capacity (junk_dir file))) file);
    mret tt.

Definition tmpfs_mount (dev : Z) : FM Z :=
  fs ← kmalloc_ptr;
  tim ← current_time;
  file ← kmalloc_ptr;
  _ ← push_uninitialised file;
  put_file file (mk_file [47] 0 0 tmpfs_file_ops fs 0 0 tim tim tim tim 1 (Z.lor S_IFDIR S_IRWX) 0 file
    (PDir (mk_dirent file (mk_vec (replicate dir_slots (-1)) 0 1) file)) 0);;
  modify (fun s => set_fses (<[fs := mk_fs tmpfs_fs_ops dev file None]> (fses s)) s);;
  mret fs.
End Ops.

(** ** Names and directories *)

Definition valid_name (n : list Z) : Prop := str_ok n /\ (47 ∉ n) /\ n <> [] /\ (length n < 512)%nat.

Lemma short_name_plain n : 47 ∉ n -> short_name n = (n, []).
Proof.
  induction n as [|c n IH]; intros Hn; [done|]. apply not_elem_of_cons in Hn as [Hc Hn].
  simpl. rewrite (proj2 (Z.eqb_neq c 47)) by congruence. by rewrite IH.
Qed.

Lemma short_name_slash n r : 47 ∉ n -> short_name (n ++ 47 :: r) = (n, 47 :: r).
Proof.
  induction n as [|c n IH]; intros Hn; [done|]. apply not_elem_of_cons in Hn as [Hc Hn].
  simpl. rewrite (proj2 (Z.eqb_neq c 47)) by congruence. by rewrite IH.
Qed.

(** A file that a directory may list. *)
Record child_ok (fs : gmap Z fs_file) (p : Z) : Prop := mk_child_ok {
  child_file : exists f, fs !! p = Some f /\ f_inode f = p /\ valid_name (f_path f)
}.

(** The first child with a name. *)
Fixpoint first_child (fs : gmap Z fs_file) (cs : list Z) (name : list Z) : option Z :=
  match cs with
  | [] => None
  | p :: cs' => if bool_decide (f_path <$> fs !! p = Some name) then Some p else first_child fs cs' name
  end.

Lemma first_child_app fs cs cs' name :
  first_child fs (cs ++ cs') name =
    match first_child fs cs name with Some p => Some p | None => first_child fs cs' name end.
Proof. induction cs as [|p cs IH]; simpl; [done|]. by case_bool_decide. Qed.

Lemma first_child_ext fs fs' cs name :
  (forall p, p ∈ cs -> f_path <$> fs' !! p = f_path <$> fs !! p) ->
  first_child fs' cs name = first_child fs cs name.
Proof.
  induction cs as [|p cs IH]; intros E; simpl; [done|].
  rewrite (E p) by left. rewrite IH; [done|]. intros; apply E; by right.
Qed.

Lemma first_child_elem fs cs name p : first_child fs cs name = Some p -> p ∈ cs.
Proof.
  induction cs as [|q cs IH]; simpl; [done|]. case_bool_decide; [intros [= ->]; left|right; auto].
Qed.

Lemma finddir_loop_run s v name de cs i n :
  str_ok name -> take n (drop i (data v)) = cs -> length cs = n -> Forall (child_ok (files s)) cs ->
  exists de', finddir_loop n (Z.of_nat i) name v de s =
    Done (match first_child (files s) cs name with Some p => (0, de') | None => (1, de) end, s) /\
    forall p, first_child (files s) cs name = Some p -> d_serial de' = p.
Proof.
  intros Hn. revert i cs. induction n as [|n IH]; intros i cs Hcs Hlen Hok.
  { destruct cs; [|done]. by exists de. }
  destruct (data v !! i) as [p|] eqn:Ep.
  2: { apply lookup_ge_None in Ep. rewrite drop_ge in Hcs by done. subst cs. simpl in Hlen. lia. }
  rewrite (drop_S _ p) in Hcs by done. simpl in Hcs. subst cs. simpl in Hlen.
  apply Forall_cons in Hok as [[(f & Hf & Hi & Hp)] Hok].
  simpl finddir_loop. rewrite Nat2Z.id, Ep. unfold mbind at 1, M_bind at 1. simpl.
  unfold mbind at 1, M_bind at 1, get_file at 1. rewrite Hf. simpl.
  rewrite streq_spec by (done || apply Hp). simpl.
  destruct (decide (name = f_path f)) as [->|N].
  - rewrite !bool_decide_true by done. destruct Hp as (_ & _ & _ & Hl).
    unfold set_name. rewrite (proj2 (Z.ltb_lt _ _)) by lia.
    eexists. split; [reflexivity|]. by intros ? [= <-].
  - rewrite bool_decide_false by done. rewrite (bool_decide_false (Some (f_path f) = _)) by congruence.
    replace (Z.of_nat i + 1) with (Z.of_nat (S i)) by lia. apply IH; [done|lia|done].
Qed.

(** A directory whose children are all live, properly named files. *)
Record dir_ok (s : fs_state) (p : Z) (d : tmpfs_dirent) : Prop := mk_dir_ok {
  dir_file : exists f, files s !! p = Some f /\ private_data f = PDir d;
  dir_vec : vec_ok (children d);
  dir_room : vlength (children d) < 2 ^ 29;
  dir_children : Forall (child_ok (files s)) (contents (children d))
}.

Definition resolve (s : fs_state) (d : tmpfs_dirent) (name : list Z) : option Z :=
  first_child (files s) (contents (children d)) name.

Lemma length_contents {A} (v : vec A) : vec_ok v -> length (contents v) = Z.to_nat (vlength v).
Proof. intros [H1 H2 _]. unfold contents. rewrite length_take. lia. Qed.

Lemma finddir_run s p d name de :
  dir_ok s p d -> str_ok name ->
  exists de', tmpfs_finddir p name de s =
    Done (match resolve s d name with Some _ => (0, de') | None => (1, de) end, s) /\
    forall c, resolve s d name = Some c -> d_serial de' = c.
Proof.
  intros [(f & Hf & Hd) Hv Hr Hc] Hn. unfold tmpfs_finddir, get_file, dir_of.
  unfold mbind, M_bind. rewrite Hf. simpl. rewrite Hd. simpl.
  pose proof (vec_length _ Hv). rewrite u64_small by lia.
  apply (finddir_loop_run s (children d) name de _ 0); [done|done| |done].
  by apply length_contents.
Qed.

(** A mounted tmpfs with root directory [root] holding [d]; new addresses are unused. *)
Record mount_ok (s : fs_state) (fs root : Z) (d : tmpfs_dirent) : Prop := mk_mount_ok {
  mount_fs : exists F, fses s !! fs = Some F /\ fs_root F = root;
  mount_dir : dir_ok s root d;
  mount_fresh : forall p, is_Some (files s !! p) -> 0 < p < next_ptr s
}.

Lemma find_loop_plain s root d fuel name parent0 :
  dir_ok s root d -> valid_name name -> (1 <= fuel)%nat ->
  find_loop fuel name root parent0 s =
    Done (match resolve s d name with Some c => (0, c, root) | None => (1, root, root) end, s).
Proof.
  intros Hd (Hs & Hslash & Hne & Hl) Hfuel. destruct fuel as [|fuel]; [lia|].
  destruct name as [|c name]; [done|]. cbn [find_loop]. rewrite short_name_plain by done.
  destruct (finddir_run s root d (c :: name) (mk_dirent_t [] 0) Hd Hs) as (de & E & Hser).
  rewrite (bind_run _ _ _ _ _ E). destruct (resolve s d (c :: name)) as [p|]; [|done].
  simpl. rewrite (Hser p) by done. by destruct fuel.
Qed.

Lemma find_run s fs root d name parent0 :
  mount_ok s fs root d -> valid_name name ->
  tmpfs_find fs (47 :: name) parent0 s =
    Done (match resolve s d name with Some c => (0, c, root) | None => (1, root, root) end, s).
Proof.
  intros [(F & HF & HR) Hd _] Hn. unfold tmpfs_find.
  rewrite (bind_run (get_fs fs) _ s F s) by (unfold get_fs; by rewrite HF). rewrite HR.
  change (skip_slash (47 :: name)) with name. apply find_loop_plain; [done|done|lia].
Qed.

(** Allocating an address changes nothing a lookup can see. *)
Definition bump (s : fs_state) : fs_state :=
  mk_fs_state (files s) (fses s) (pipes s) (devs s) (next_ptr s + 1) (ubuf s).

Lemma bump_ok s fs root d : mount_ok s fs root d -> mount_ok (bump s) fs root d.
Proof.
  intros [HF [H1 H2 H3 H4] Hn]. constructor; [done|by constructor|]. intros p Hp.
  specialize (Hn p Hp). simpl. lia.
Qed.

Lemma resolve_bump s d name : resolve (bump s) d name = resolve s d name.
Proof. done. Qed.

Lemma open_run s fs root d name :
  mount_ok s fs root d -> valid_name name ->
  tmpfs_open fs (47 :: name) s = Done (default 0 (resolve s d name), bump s).
Proof.
  intros Hm Hn. unfold tmpfs_open. rewrite (bind_run kmalloc_ptr _ s (next_ptr s) (bump s)) by done.
  rewrite (bind_run _ _ _ _ _ (find_run (bump s) fs root d name 0 (bump_ok _ _ _ _ Hm) Hn)).
  rewrite resolve_bump. by destruct (resolve s d name).
Qed.

(** ** Creating files *)

Section Create.
Context `{Env}.

Definition named (name : list Z) (f : fs_file) : fs_file :=
  mk_file name (f_uid f) (f_gid f) (f_ops f) (f_fs f) (f_dev f) (f_pipe f)
    (last_access_time f) (last_modification_time f) (last_status_change_time f) (creation_time f)
    (ref_count f) (f_mode f) (f_length f) (f_inode f) (private_data f) (f_offset f).

(** The state after adding file object [f] under address [p] to directory [root]. *)
Lemma push_child_run s root r d p :
  files s !! root = Some r -> private_data r = PDir d -> vec_ok (children d) ->
  vlength (children d) < 2 ^ 29 ->
  exists w, push_child root p s = Done (tt, set_files (<[root := with_data (f_length r)
      (PDir (mk_dirent (d_file d) w (d_parent d))) r]> (files s)) s) /\
    vec_ok w /\ contents w = contents (children d) ++ [p] /\ vlength w = vlength (children d) + 1.
Proof.
  intros Hr Hd Hv Hl. destruct (vec_push_run (children d) p Hv Hl) as (e & w & Hw & Hcase).
  destruct Hcase as [(-> & Hc & Hok)|[-> ->]].
  - exists w. unfold push_child, get_file, dir_of, mbind, M_bind. rewrite Hr. simpl. rewrite Hd. simpl.
    rewrite Hw. simpl. split; [done|]. split; [done|]. split; [done|].
    pose proof (f_equal length Hc) as HL. rewrite length_app in HL. simpl in HL.
    rewrite !length_contents in HL by done. pose proof (vec_length _ Hok). pose proof (vec_length _ Hv). lia.
  - exfalso. assert (E : fst (vec_expand_ (children d)) = 0) by (unfold vec_expand_; by destruct (_ <? _)).
    unfold vec_push in Hw. destruct (vec_expand_ (children d)) as [err w]. simpl in E. subst err.
    simpl in Hw. by destruct (data w !! _).
Qed.

(** Extending a directory keeps it well formed and resolves exactly one more name. *)
Record added (s s' : fs_state) (fs root p : Z) (d d' : tmpfs_dirent) (f : fs_file) : Prop := mk_added {
  added_ok : mount_ok s' fs root d';
  added_fses : fses s' = fses s;
  added_fresh : files s !! p = None;
  added_file : files s' !! p = Some f;
  added_contents : contents (children d') = contents (children d) ++ [p];
  added_others : forall q, q <> p -> q <> root -> files s' !! q = files s !! q;
  added_resolve : forall m, resolve s' d' m =
    match resolve s d m with
    | Some c => Some c
    | None => if bool_decide (m = f_path f) then Some p else None
    end
}.

Lemma add_child s s' fs root r p d w f :
  mount_ok s fs root d -> files s !! root = Some r -> private_data r = PDir d ->
  vlength (children d) + 1 < 2 ^ 29 ->
  next_ptr s <= p < next_ptr s' -> f_inode f = p -> valid_name (f_path f) ->
  vec_ok w -> contents w = contents (children d) ++ [p] -> vlength w = vlength (children d) + 1 ->
  fses s' = fses s ->
  files s' = <[root := with_data (f_length r) (PDir (mk_dirent (d_file d) w (d_parent d))) r]>
    (<[p := f]> (files s)) ->
  added s s' fs root p d (mk_dirent (d_file d) w (d_parent d)) f.
Proof.
  intros [HF [Hdf Hv Hr Hc] Hfresh] Hroot Hd Hroom Hp Hi Hname Hw Hcw Hlw Hfs Hfiles.
  assert (Hnew : files s !! p = None).
  { destruct (files s !! p) eqn:E; [|done]. specialize (Hfresh p ltac:(eauto)). lia. }
  assert (Hne : root <> p) by congruence.
  assert (Hpath : forall q, q <> p -> f_path <$> files s' !! q = f_path <$> files s !! q).
  { intros q Hq. rewrite Hfiles. destruct (decide (q = root)) as [->|].
    - rewrite lookup_insert_eq, Hroot. done.
    - by rewrite !lookup_insert_ne by congruence. }
  assert (Hcne : forall q, q ∈ contents (children d) -> q <> p).
  { intros q Hq ->. rewrite Forall_forall in Hc. destruct (Hc p Hq) as [(g & Hg & _)]. congruence. }
  assert (Hfp : files s' !! p = Some f) by (rewrite Hfiles, lookup_insert_ne, lookup_insert_eq; congruence).
  constructor; try done.
  - constructor.
    + by rewrite Hfs.
    + constructor; simpl; [|done|lia|].
      * eexists. rewrite Hfiles, lookup_insert_eq. done.
      * rewrite Hcw. apply Forall_app. split.
        -- apply Forall_forall. intros q Hq. rewrite Forall_forall in Hc. destruct (Hc q Hq) as [(g & Hg & Hgi & Hgn)].
           constructor. pose proof (Hcne q Hq). rewrite Hfiles. destruct (decide (q = root)) as [->|].
           ++ rewrite lookup_insert_eq. assert (g = r) as -> by congruence. eexists. split; [done|]. done.
           ++ exists g. by rewrite !lookup_insert_ne by congruence.
        -- repeat constructor. by exists f.
    + intros q [g Hq]. rewrite Hfiles in Hq. destruct (decide (q = root)) as [->|].
      { specialize (Hfresh root ltac:(eauto)). lia. }
      rewrite lookup_insert_ne in Hq by congruence. destruct (decide (q = p)) as [->|].
      { specialize (Hfresh root ltac:(eauto)). lia. }
      rewrite lookup_insert_ne in Hq by congruence. specialize (Hfresh q ltac:(eauto)). lia.
  - intros q H1 H2. rewrite Hfiles. by rewrite !lookup_insert_ne by congruence.
  - intros m. unfold resolve. simpl. rewrite Hcw, first_child_app.
    rewrite (first_child_ext (files s) (files s')) by (intros q Hq; by apply Hpath, Hcne).
    destruct (first_child (files s) _ m); [done|]. simpl. rewrite Hfp. simpl.
    repeat case_bool_decide; congruence.
Qed.

Lemma make_node_run s fs root d name dt (g : Z -> Z -> fs_file) :
  mount_ok s fs root d -> valid_name name -> vlength (children d) + 1 < 2 ^ 29 ->
  resolve s d name = None -> rtc_get_datetime cmos century = Some dt ->
  (forall tim p, f_inode (g tim p) = p) ->
  exists s' d', make_node fs (47 :: name) (fun tim p => mret (g tim p)) s =
      Done ((next_ptr s + 1, Some root), s') /\
    added s s' fs root (next_ptr s + 1) d d' (named name (g (rtc_mktime dt) (next_ptr s + 1))).
Proof.
  intros Hm Hn Hroom Hres Hdt Hg. pose proof Hm as [_ [(r & Hr & Hd) Hv _ _] Hfresh].
  unfold make_node, current_time. rewrite Hdt.
  rewrite (bind_run (mret _) _ s (rtc_mktime dt) s) by done.
  rewrite (bind_run kmalloc_ptr _ s (next_ptr s) (bump s)) by done.
  rewrite (bind_run _ _ _ _ _ (find_run (bump s) fs root d name _ (bump_ok _ _ _ _ Hm) Hn)).
  rewrite resolve_bump, Hres. change (negb (truthy 1)) with false. cbv iota.
  rewrite (bind_run kmalloc_ptr _ (bump s) (next_ptr s + 1) (bump (bump s))) by done.
  rewrite (bind_run (mret _) _ _ (g (rtc_mktime dt) (next_ptr s + 1)) (bump (bump s))) by done.
  change (drop 1 (47 :: name)) with name. rewrite short_name_plain by apply Hn. cbn [fst].
  set (f := named name (g (rtc_mktime dt) (next_ptr s + 1))).
  set (s1 := set_files (<[next_ptr s + 1 := f]> (files s)) (bump (bump s))).
  rewrite (bind_run (put_file _ _) _ (bump (bump s)) tt s1) by done.
  assert (Hr1 : files s1 !! root = Some r).
  { subst s1. simpl. rewrite lookup_insert_ne; [done|]. specialize (Hfresh root ltac:(eauto)). lia. }
  destruct (push_child_run s1 root r d (next_ptr s + 1) Hr1 Hd Hv ltac:(lia)) as (w & Hpush & Hw & Hcw & Hlw).
  rewrite (bind_run _ _ _ _ _ Hpush). eexists _, _. split; [done|].
  apply (add_child s _ fs root r (next_ptr s + 1) d w f); try done; try (simpl; lia); apply Hg.
Qed.

Lemma make_node_existing s fs root d name dt mk c :
  mount_ok s fs root d -> valid_name name -> resolve s d name = Some c ->
  rtc_get_datetime cmos century = Some dt ->
  make_node fs (47 :: name) mk s = Done ((c, None), bump (bump s)).
Proof.
  intros Hm Hn Hres Hdt. unfold make_node, current_time. rewrite Hdt.
  rewrite (bind_run (mret _) _ s (rtc_mktime dt) s) by done.
  rewrite (bind_run kmalloc_ptr _ s (next_ptr s) (bump s)) by done.
  rewrite (bind_run _ _ _ _ _ (find_run (bump s) fs root d name _ (bump_ok _ _ _ _ Hm) Hn)).
  rewrite resolve_bump, Hres. change (negb (truthy 0)) with true. cbv iota.
  rewrite (bind_run _ _ _ _ _ (open_run (bump s) fs root d name (bump_ok _ _ _ _ Hm) Hn)).
  by rewrite resolve_bump, Hres.
Qed.

Lemma create_run s fs root d name mode uid gid dt :
  mount_ok s fs root d -> valid_name name -> vlength (children d) + 1 < 2 ^ 29 ->
  rtc_get_datetime cmos century = Some dt ->
  match resolve s d name with
  | Some c => exists s', tmpfs_create fs (47 :: name) mode uid gid s = Done (c, s') /\ files s' = files s
  | None => exists p s' d' f, tmpfs_create fs (47 :: name) mode uid gid s = Done (p, s') /\
      added s s' fs root p d d' f /\ f_path f = name /\ f_mode f = Z.lor S_IFREG mode /\
      f_uid f = uid /\ f_gid f = gid /\ f_length f = 0 /\ private_data f = PNull /\ ref_count f = 1
  end.
Proof.
  intros Hm Hn Hroom Hdt. unfold tmpfs_create. destruct (resolve s d name) as [c|] eqn:Hres.
  - rewrite (bind_run _ _ _ _ _ (make_node_existing s fs root d name dt _ c Hm Hn Hres Hdt)). by eexists.
  - destruct (make_node_run s fs root d name dt (fun tim p => mk_file [] uid gid tmpfs_file_ops fs 0 0
      tim tim tim tim 1 (Z.lor S_IFREG mode) 0 p PNull 0) Hm Hn Hroom Hres Hdt) as (s' & d' & E & Ha); [done|].
    rewrite (bind_run _ _ _ _ _ E). eexists _, s', d', _. split; [done|]. split; [exact Ha|]. done.
Qed.

Lemma mknod_run s fs root d name mode uid gid dev dt :
  mount_ok s fs root d -> valid_name name -> vlength (children d) + 1 < 2 ^ 29 ->
  rtc_get_datetime cmos century = Some dt -> resolve s d name = None ->
  exists p s' d' f, tmpfs_mknod fs (47 :: name) mode uid gid dev s = Done (p, s') /\
    added s s' fs root p d d' f /\ p = next_ptr s + 1 /\ f_path f = name /\ f_mode f = mode /\ f_dev f = dev.
Proof.
  intros Hm Hn Hroom Hdt Hres. unfold tmpfs_mknod.
  destruct (make_node_run s fs root d name dt (fun tim p => mk_file [] uid gid tmpfs_file_ops fs dev 0
    tim tim tim tim 1 mode 0 p PNull 0) Hm Hn Hroom Hres Hdt) as (s' & d' & E & Ha); [done|].
  rewrite (bind_run _ _ _ _ _ E). eexists _, s', d', _. split; [done|]. split; [exact Ha|]. done.
Qed.

(** [tmpfs_create] of a plain name in the root directory: a name that exists gives the
    file that has it and changes no file; a new name gives a new empty regular file with the
    requested mode and owner, appended to the directory, so that afterwards every name
    resolves as before and the new name to the new file. *)
Theorem tmpfs_create_spec s fs root d name mode uid gid dt :
  mount_ok s fs root d -> valid_name name -> vlength (children d) + 1 < 2 ^ 29 ->
  rtc_get_datetime cmos century = Some dt ->
  match resolve s d name with
  | Some c => exists s', tmpfs_create fs (47 :: name) mode uid gid s = Done (c, s') /\ files s' = files s
  | None => exists p s' d' f, tmpfs_create fs (47 :: name) mode uid gid s = Done (p, s') /\
      added s s' fs root p d d' f /\ f_path f = name /\ f_mode f = Z.lor S_IFREG mode /\
      f_uid f = uid /\ f_gid f = gid /\ f_length f = 0 /\ private_data f = PNull /\ ref_count f = 1
  end.
Proof. apply create_run. Qed.

End Create.

(** ** Nested paths *)

Lemma resolve_empty s p d : dir_ok s p d -> resolve s d [] = None.
Proof.
  intros [_ _ _ Hc]. unfold resolve. induction Hc as [|q cs [(f & Hf & _ & _ & _ & Hne & _)] _ IH]; [done|].
  simpl. rewrite Hf. simpl. by rewrite bool_decide_false by congruence.
Qed.

Lemma find_loop_step fuel path tok path' root q :
  path <> [] -> short_name path = (tok, path') ->
  find_loop (S fuel) path root q =
    (r ← tmpfs_finddir root tok (mk_dirent_t [] 0);
     if truthy (fst r) then mret (1, root, root) else find_loop fuel path' (d_serial (snd r)) root).
Proof. intros Hne E. destruct path; [done|]. cbn [find_loop]. by rewrite E. Qed.

Lemma find_nested s fs root d a b parent0 c :
  mount_ok s fs root d -> valid_name a -> resolve s d a = Some c ->
  tmpfs_find fs (47 :: a ++ 47 :: b) parent0 s =
    (r ← tmpfs_finddir c [] (mk_dirent_t [] 0);
     if truthy (fst r) then mret (1, c, c)
     else find_loop (S (length a + length b)) (47 :: b) (d_serial (snd r)) c) s.
Proof.
  intros [(F & HF & HR) Hd _] (Hs & Hsl & Hne & Hl) Hres. unfold tmpfs_find.
  rewrite (bind_run (get_fs fs) _ s F s) by (unfold get_fs; by rewrite HF). rewrite HR.
  change (skip_slash (47 :: a ++ 47 :: b)) with (a ++ 47 :: b).
  replace (S (length (47 :: a ++ 47 :: b))) with (S (S (S (length a + length b))))
    by (cbn [length]; rewrite length_app; cbn [length]; lia).
  destruct (finddir_run s root d a (mk_dirent_t [] 0) Hd Hs) as (de & E & Hser). rewrite Hres in E.
  rewrite (find_loop_step _ (a ++ 47 :: b) a (47 :: b)) by (first [by destruct a | by apply short_name_slash]).
  rewrite (bind_run _ _ _ _ _ E). cbn [fst snd]. rewrite (Hser c) by done. change (truthy 0) with false.
  cbv iota. by rewrite (find_loop_step _ (47 :: b) [] (47 :: b)).
Qed.

(** a path with two components never reaches the file it names: [tmpfs_find] does not skip
    the separator, so it looks for an empty name.  [tmpfs_open] of "/a/b" returns NULL when
    [a] is missing or a directory, whatever the directory holds, and when [a] is an empty
    regular file it dereferences that file's NULL [private_data]. *)
Theorem tmpfs_open_nested s fs root d a b :
  mount_ok s fs root d -> valid_name a ->
  match resolve s d a with
  | None => tmpfs_open fs (47 :: a ++ 47 :: b) s = Done (0, bump s)
  | Some c =>
      ((exists d', dir_ok s c d') -> tmpfs_open fs (47 :: a ++ 47 :: b) s = Done (0, bump s)) /\
      (private_data <$> files s !! c = Some PNull -> tmpfs_open fs (47 :: a ++ 47 :: b) s = Fault)
  end.
Proof.
  intros Hm Hn. unfold tmpfs_open. rewrite (bind_run kmalloc_ptr _ s (next_ptr s) (bump s)) by done.
  apply bump_ok in Hm as Hb. destruct (resolve s d a) as [c|] eqn:Hres.
  - split.
    + intros [d' Hd']. erewrite bind_run; [|rewrite (find_nested (bump s) fs root d a b _ c) by done].
      2: { destruct (finddir_run (bump s) c d' [] (mk_dirent_t [] 0)) as (de & E & _).
           { destruct Hd' as [? ? ? ?]. by constructor. } { constructor. }
           rewrite (bind_run _ _ _ _ _ E), resolve_bump, (resolve_empty s c d' Hd'). reflexivity. }
      done.
    + intros Hnull. unfold mbind at 1, M_bind at 1. rewrite (find_nested (bump s) fs root d a b _ c) by done.
      unfold tmpfs_finddir, get_file, dir_of, mbind, M_bind. simpl.
      destruct (files s !! c) as [f|]; [|done]. simpl in *. injection Hnull as ->. done.
  - pose proof Hb as [(F & HF & HR) Hd _]. unfold tmpfs_find.
    erewrite bind_run; [|rewrite (bind_run (get_fs fs) _ (bump s) F (bump s)) by (unfold get_fs; by rewrite HF)].
    2: { rewrite HR. change (skip_slash (47 :: a ++ 47 :: b)) with (a ++ 47 :: b).
         destruct Hn as (Hs & Hsl & Hne & Hl).
         rewrite (find_loop_step _ (a ++ 47 :: b) a (47 :: b)) by (first [by destruct a | by apply short_name_slash]).
         destruct (finddir_run (bump s) root d a (mk_dirent_t [] 0) Hd Hs) as (de & E & _).
         rewrite (bind_run _ _ _ _ _ E), resolve_bump, Hres. reflexivity. }
    done.
Qed.

(** ** Reading and writing *)

Definition file_bytes (f : fs_file) : list Z := match private_data f with PBlock d => d | _ => [] end.

(** The block of a regular file has exactly the file's length. *)
Record regular_ok (f : fs_file) : Prop := mk_regular_ok {
  regular_kind : match private_data f with PDir _ | PFat _ => False | _ => True end;
  regular_length : f_length f = Z.of_nat (length (file_bytes f));
  regular_small : f_length f < 2 ^ 64
}.

Lemma length_peek a n m : length (peek a n m) = n.
Proof. unfold peek. by rewrite length_fmap, length_seq. Qed.

Lemma lookup_peek a n m i : (i < n)%nat -> peek a n m !! i = Some (m (a + Z.of_nat i)).
Proof. intros. unfold peek. rewrite list_lookup_fmap, lookup_seq_lt by lia. done. Qed.

Lemma peek_poke a bs m : peek a (length bs) (poke a bs m) = bs.
Proof.
  apply list_eq. intros i. destruct (decide (i < length bs)%nat).
  - rewrite lookup_peek by done. unfold poke.
    rewrite (proj2 (Z.leb_le _ _)), (proj2 (Z.ltb_lt _ _)) by lia. simpl.
    replace (Z.to_nat (a + Z.of_nat i - a)) with i by lia.
    destruct (lookup_lt_is_Some_2 bs i ltac:(done)) as [x Hx]. rewrite Hx. f_equal. by apply nth_lookup_Some.
  - by rewrite !lookup_ge_None_2 by (rewrite ?length_peek; lia).
Qed.

Lemma length_overwrite d off bs : (off + length bs <= length d)%nat -> length (overwrite d off bs) = length d.
Proof. intros. unfold overwrite. rewrite !length_app, length_take, length_drop. lia. Qed.

Lemma overwrite_in d off bs :
  (off + length bs <= length d)%nat -> take (length bs) (drop off (overwrite d off bs)) = bs.
Proof.
  intros. unfold overwrite. rewrite drop_app_length' by (rewrite length_take; lia).
  by rewrite take_app_length.
Qed.

Lemma overwrite_out d off bs i :
  (off + length bs <= length d)%nat -> (i < off \/ off + length bs <= i)%nat ->
  overwrite d off bs !! i = d !! i.
Proof.
  intros Hl [Hi|Hi]; unfold overwrite.
  - rewrite lookup_app_l by (rewrite length_take; lia). by apply lookup_take_lt.
  - rewrite lookup_app_r by (rewrite length_take; lia).
    rewrite lookup_app_r by (rewrite length_take; lia). rewrite lookup_drop. f_equal. rewrite length_take. lia.
Qed.

Lemma file_read_run s p f buf offset count :
  files s !! p = Some f -> regular_ok f -> 0 <= offset <= f_length f -> 0 <= count -> offset + count < 2 ^ 64 ->
  let n := Z.to_nat (Z.min count (f_length f - offset)) in
  tmpfs_read p buf offset count s =
    Done (offset, if Z.min count (f_length f - offset) =? 0 then s
                  else set_ubuf (poke buf (take n (drop (Z.to_nat offset) (file_bytes f))) (ubuf s)) s).
Proof.
  intros Hf [Hk Hl Hs] Ho Hc Hb n. unfold tmpfs_read, get_file, mbind, M_bind. rewrite Hf. simpl.
  assert (E : (if f_length f <? u64 (count + offset) then u64 (f_length f - offset) else count)
    = Z.min count (f_length f - offset)).
  { rewrite (u64_small (count + offset)) by lia. zcase; [rewrite u64_small|]; lia. }
  rewrite E. destruct (Z.eqb_spec (Z.min count (f_length f - offset)) 0); [done|].
  unfold file_bytes in *. destruct (private_data f) as [|d| |]; [simpl in Hl; lia| |done|done].
  rewrite (proj2 (Z.leb_le _ _)) by lia. done.
Qed.

Section Write.
Context `{Env}.

Lemma length_realloc_bytes d n : length (realloc_bytes d n) = n.
Proof. unfold realloc_bytes, junk_bytes. rewrite length_app, length_take, length_fmap, length_seq. lia. Qed.

Lemma realloc_bytes_lookup d n i : (i < length d)%nat -> (i < n)%nat -> realloc_bytes d n !! i = d !! i.
Proof.
  intros. unfold realloc_bytes. rewrite lookup_app_l by (rewrite length_take; lia). by apply lookup_take_lt.
Qed.

Lemma file_write_run s p f buf offset count :
  files s !! p = Some f -> regular_ok f -> 0 <= offset -> 0 < count -> offset + count < 2 ^ 64 ->
  exists f', tmpfs_write p buf offset count s = Done (count, set_files (<[p := f']> (files s)) s) /\
    f_offset f' = f_offset f /\ regular_ok f' /\ f_length f' = Z.max (f_length f) (offset + count) /\
    take (Z.to_nat count) (drop (Z.to_nat offset) (file_bytes f')) = peek buf (Z.to_nat count) (ubuf s) /\
    forall i, (i < length (file_bytes f))%nat -> (Z.of_nat i < offset \/ offset + count <= Z.of_nat i) ->
      file_bytes f' !! i = file_bytes f !! i.
Proof.
  intros Hf [Hk Hl Hs] Ho Hc Hb. unfold tmpfs_write.
  rewrite (bind_run (get_file p) _ s f s) by (unfold get_file; by rewrite Hf).
  rewrite (u64_small (count + offset)) by lia.
  set (d := if f_length f <? count + offset then realloc_bytes (file_bytes f) (Z.to_nat (count + offset)) else file_bytes f).
  set (L := Z.max (f_length f) (offset + count)).
  assert (HL : Z.of_nat (length d) = L).
  { subst d L. zcase; [rewrite length_realloc_bytes|]; lia. }
  rewrite (bind_run _ _ s (with_data L (PBlock d) f) s).
  2: { subst d L. destruct (Z.ltb_spec (f_length f) (count + offset)) as [Hlt|Hge].
       - rewrite Z.max_r, (Z.add_comm offset) by lia. unfold file_bytes. by destruct (private_data f).
       - rewrite Z.max_l by lia. unfold file_bytes in *. destruct f as [????????????? len ino [] ?]; simpl in *; try done. lia. }
  rewrite (bind_run (put_file _ _) _ s tt _ eq_refl). rewrite (proj2 (Z.eqb_neq count 0)) by lia. cbn [private_data with_data].
  rewrite (proj2 (Z.leb_le _ _)) by lia.
  set (w := overwrite d (Z.to_nat offset) (peek buf (Z.to_nat count) (ubuf s))).
  assert (Hfit : (Z.to_nat offset + length (peek buf (Z.to_nat count) (ubuf s)) <= length d)%nat) by (rewrite length_peek; lia).
  exists (with_data L (PBlock w) f). split.
  { unfold mbind, M_bind, gets, put_file, modify, set_files. simpl. do 3 f_equal. by rewrite insert_insert_eq. }
  split; [done|]. split. { constructor; simpl; [done| |lia]. unfold file_bytes, w. simpl. rewrite length_overwrite by done. lia. }
  split; [done|]. unfold file_bytes at 1 3. cbn [private_data with_data]. split.
  { rewrite <- (length_peek buf (Z.to_nat count) (ubuf s)) at 1. by apply overwrite_in. }
  intros i Hi Hout. unfold w. rewrite overwrite_out; [|done|rewrite length_peek; lia].
  subst d. zcase; [|done]. apply realloc_bytes_lookup; lia.
Qed.

(** C30: writing and reading back a regular file of a tmpfs: the write makes the file at least
    [offset + count] bytes long, replaces exactly that range, and a read of the range then
    delivers the written bytes, but returns [offset] rather than the number of bytes. *)
Theorem tmpfs_write_read s p f buf offset count buf2 :
  files s !! p = Some f -> regular_ok f -> 0 <= offset -> 0 < count -> offset + count < 2 ^ 64 ->
  exists s1 f1 s2, tmpfs_write p buf offset count s = Done (count, s1) /\
    files s1 !! p = Some f1 /\ regular_ok f1 /\ f_length f1 = Z.max (f_length f) (offset + count) /\
    (forall i, (i < length (file_bytes f))%nat -> (Z.of_nat i < offset \/ offset + count <= Z.of_nat i) ->
       file_bytes f1 !! i = file_bytes f !! i) /\
    tmpfs_read p buf2 offset count s1 = Done (offset, s2) /\
    peek buf2 (Z.to_nat count) (ubuf s2) = peek buf (Z.to_nat count) (ubuf s).
Proof.
  intros Hf Hok Ho Hc Hb. destruct (file_write_run s p f buf offset count Hf Hok Ho Hc Hb) as (f1 & Hw & _ & Hok1 & HL & Hin & Hout).
  set (s1 := set_files (<[p := f1]> (files s)) s) in *.
  assert (Hf1 : files s1 !! p = Some f1) by (subst s1; simpl; apply lookup_insert_eq).
  pose proof (file_read_run s1 p f1 buf2 offset count Hf1 Hok1 ltac:(lia) ltac:(lia) Hb) as Hr.
  cbv zeta in Hr. rewrite Z.min_l in Hr by lia. rewrite (proj2 (Z.eqb_neq count 0)), Hin in Hr by lia.
  eexists s1, f1, _. split; [done|]. split; [done|]. split; [done|]. split; [done|]. split; [done|].
  split; [exact Hr|]. simpl. rewrite <- (length_peek buf (Z.to_nat count) (ubuf s)) at 1. apply peek_poke.
Qed.
End Write.

(** ** Deleting files *)

Lemma first_child_delete fs cs name p :
  first_child fs cs name = None -> first_child (delete p fs) cs name = None.
Proof.
  induction cs as [|q cs IH]; simpl; [done|]. case_bool_decide as E; [done|]. intros Hn.
  rewrite bool_decide_false; [auto|]. destruct (decide (q = p)) as [->|].
  - by rewrite lookup_delete_eq.
  - by rewrite lookup_delete_ne by congruence.
Qed.

Lemma finddir_loop_dangling s v name de cs p rest i n :
  str_ok name -> take n (drop i (data v)) = cs ++ p :: rest -> files s !! p = None ->
  Forall (fun q => files s !! q = None \/ child_ok (files s) q) cs -> first_child (files s) cs name = None ->
  finddir_loop n (Z.of_nat i) name v de s = Fault.
Proof.
  intros Hn. revert i cs. induction n as [|n IH]; intros i cs Hcs Hp Hok Hnone.
  { by destruct cs. }
  destruct (data v !! i) as [q|] eqn:Eq.
  2: { apply lookup_ge_None in Eq. rewrite drop_ge, take_nil in Hcs by done. by destruct cs. }
  rewrite (drop_S _ q) in Hcs by done. simpl in Hcs. simpl finddir_loop. rewrite Nat2Z.id, Eq.
  unfold mbind at 1, M_bind at 1. simpl. unfold mbind at 1, M_bind at 1, get_file at 1.
  destruct cs as [|q' cs]; simpl in Hcs; injection Hcs as <- Hcs; [by rewrite Hp|].
  apply Forall_cons in Hok as [Hq Hok]. simpl in Hnone. destruct Hq as [Hq|[(f & Hf & Hi & Hname)]]; [by rewrite Hq|].
  rewrite Hf in *. simpl in *. case_bool_decide as E; [done|].
  rewrite streq_spec by (done || apply Hname). rewrite bool_decide_false by congruence.
  replace (Z.of_nat i + 1) with (Z.of_nat (S i)) by lia. by apply (IH (S i) cs).
Qed.

(** deleting a file does not take it out of its directory: after [tmpfs_delete] of the
    child at position [i], looking up any name that no earlier child has runs into the
    freed file object. *)
Theorem tmpfs_delete_dangles s fs root d i p f :
  mount_ok s fs root d -> contents (children d) !! i = Some p -> p <> root ->
  files s !! p = Some f -> S_ISDIR (f_mode f) = false ->
  exists s', tmpfs_delete p s = Done (0, s') /\ forall name, valid_name name ->
    first_child (files s) (take i (contents (children d))) name = None ->
    tmpfs_open fs (47 :: name) s' = Fault.
Proof.
  intros [(F & HF & HR) [(r & Hr & Hd) Hv _ Hc] _] Hi Hne Hf Hdir.
  set (s' := set_files (delete p (files s)) s). exists s'. split.
  { unfold tmpfs_delete, free_file, get_file, mbind, M_bind. rewrite Hf. simpl. rewrite Hdir.
    unfold mbind, M_bind. simpl. by rewrite Hf. }
  intros name (Hs & Hsl & Hnn & Hl) Hfirst. unfold tmpfs_open, tmpfs_find.
  rewrite (bind_run kmalloc_ptr _ s' (next_ptr s') (bump s')) by done.
  unfold mbind at 1, M_bind at 1. rewrite (bind_run (get_fs fs) _ (bump s') F (bump s')) by (unfold get_fs; simpl; by rewrite HF).
  change (skip_slash (47 :: name)) with name.
  rewrite (find_loop_step _ name name []) by (done || by apply short_name_plain).
  rewrite HR. unfold mbind at 1, M_bind at 1. unfold tmpfs_finddir.
  rewrite (bind_run (get_file root) _ (bump s') r (bump s'))
    by (unfold get_file; simpl; rewrite lookup_delete_ne by done; by rewrite Hr).
  unfold dir_of. rewrite Hd. rewrite (bind_run (mret d) _ (bump s') d (bump s')) by done.
  pose proof (vec_length _ Hv). rewrite u64_small by (pose proof (vec_int _ Hv); lia).
  rewrite (finddir_loop_dangling (bump s') (children d) name _ (take i (contents (children d))) p
    (drop (S i) (contents (children d))) 0); [done|done| |simpl; apply lookup_delete_eq| |].
  - rewrite drop_0. fold (contents (children d)). symmetry. by apply take_drop_middle.
  - apply Forall_take. eapply Forall_impl; [exact Hc|]. intros q [(g & Hg & Hq)]. simpl.
    destruct (decide (q = p)) as [->|]; [left; apply lookup_delete_eq|right].
    constructor. exists g. by rewrite lookup_delete_ne by congruence.
  - simpl. by apply first_child_delete.
Qed.

(** [tmpfs_readdir] never lists the first two children: positions 0 and 1 are both ".",
    and position [pos] from 2 on is the child at index [pos], so a directory with at most
    two children reads as empty. *)
Theorem tmpfs_readdir_skips_two s p d pos de :
  dir_ok s p d -> 0 <= pos < 2 ^ 64 ->
  exists de', tmpfs_readdir p de pos s =
    Done (if pos <? 2 then (0, mk_dirent_t [46] (d_serial de))
          else if pos <? vlength (children d) then (0, de') else (1, de), s) /\
  (2 <= pos -> forall c, contents (children d) !! Z.to_nat pos = Some c ->
     Some (d_name de') = (f_path <$> files s !! c)).
Proof.
  intros [(f & Hf & Hd) Hv Hr Hc] Hpos. unfold tmpfs_readdir.
  destruct (Z.eqb_spec pos 0) as [->|]; [exists de; done|]. destruct (Z.eqb_spec pos 1) as [->|]; [exists de; done|].
  rewrite (proj2 (Z.ltb_ge pos 2)) by lia.
  rewrite (bind_run (get_file p) _ s f s) by (unfold get_file; by rewrite Hf).
  unfold dir_of. rewrite Hd. rewrite (bind_run (mret d) _ s d s) by done.
  pose proof (vec_length _ Hv). rewrite u64_small by lia.
  destruct (Z.ltb_spec pos (vlength (children d))) as [Hlt|Hge].
  - destruct (contents (children d) !! Z.to_nat pos) as [c|] eqn:Ec.
    2: { apply lookup_ge_None in Ec. rewrite length_contents in Ec by done. lia. }
    rewrite Forall_forall in Hc. destruct (Hc c (list_elem_of_lookup_2 _ _ _ Ec)) as [(g & Hg & _ & Hname)].
    assert (Ed : data (children d) !! Z.to_nat pos = Some c).
    { unfold contents in Ec. rewrite lookup_take_lt in Ec by lia. done. }
    exists (mk_dirent_t (f_path g) (d_serial de)). split; [|intros _ ? [= <-]; by rewrite Hg].
    rewrite Ed. unfold mbind, M_bind, get_file. simpl. rewrite Hg. simpl.
    unfold set_name. destruct Hname as (_ & _ & _ & Hl). by rewrite (proj2 (Z.ltb_lt _ _)) by lia.
  - exists de. split; [done|]. intros _ c Ec. apply lookup_lt_Some in Ec. rewrite length_contents in Ec by done. lia.
Qed.

(** [tmpfs_chmod] stores the permission bits as the whole mode: after a chmod whose
    argument has no type bits, a directory is no longer a directory to [rmdir], and
    [tmpfs_delete] frees it. *)
Theorem tmpfs_chmod_loses_type s p f mode :
  files s !! p = Some f -> S_ISDIR (f_mode f) = true -> 0 <= mode < 0x1000 ->
  exists s' s2, tmpfs_chmod p mode s = Done (0, s') /\ tmpfs_rmdir p s' = Done (1, s') /\
    tmpfs_delete p s' = Done (0, s2) /\ files s2 !! p = None.
Proof.
  intros Hf Hdir Hm. assert (Hnd : S_ISDIR mode = false).
  { unfold S_ISDIR. apply Z.eqb_neq. intros E. apply (f_equal (fun x => Z.testbit x 14)) in E.
    rewrite Z.land_spec, (testbit_small mode 12) in E by lia. done. }
  set (s' := set_files (<[p := with_mode mode f]> (files s)) s).
  assert (Hp : files s' !! p = Some (with_mode mode f)) by apply lookup_insert_eq.
  exists s', (set_files (delete p (files s')) s'). split_and!.
  - unfold tmpfs_chmod, get_file, mbind, M_bind. by rewrite Hf.
  - unfold tmpfs_rmdir, get_file, mbind, M_bind. rewrite Hp. simpl. by rewrite Hnd.
  - unfold tmpfs_delete, free_file, get_file, mbind, M_bind. rewrite Hp. simpl. rewrite Hnd.
    unfold mbind, M_bind. simpl. by rewrite lookup_insert_eq.
  - apply lookup_delete_eq.
Qed.

(** ** A mounted file system with an empty file "a" and a directory "d" *)

#[export] Instance sample_env : Env := {|
  cmos := sample_cmos; century := 0x32; junk_byte := fun _ => 0; junk_dir := fun _ => mk_vec [] 0 0; junk_data := fun _ => 0
|}.

Definition plain_file (ino : Z) (name : list Z) (mode len : Z) (p : private) : fs_file :=
  mk_file name 0 0 tmpfs_file_ops 1 0 0 0 0 0 0 1 mode len ino p 0.
Definition sample_a : fs_file := plain_file 3 [97] 0x81ff 0 PNull.
Definition sample_dir : tmpfs_dirent := mk_dirent 2 (mk_vec ([3; 4] ++ replicate 17 (-1)) 2 2) 2.
Definition sample_sub : tmpfs_dirent := mk_dirent 4 (mk_vec (replicate 19 (-1)) 0 0) 2.
Definition sample_fs : fs_state :=
  mk_fs_state
    (<[2 := plain_file 2 [47] 0x41ff 0 (PDir sample_dir)]>
       (<[3 := sample_a]> (<[4 := plain_file 4 [100] 0x41ff 0 (PDir sample_sub)]> ∅)))
    (<[1 := mk_fs tmpfs_fs_ops 0 2 None]> ∅) ∅ ∅ 5 (fun x => x).

Ltac solve_valid_name :=
  repeat match goal with
  | |- valid_name _ => split_and!
  | |- str_ok _ => repeat constructor; vm_compute; done
  | |- _ ∉ _ => by apply (bool_decide_unpack _)
  | |- _ <> _ => done
  | |- (_ < _)%nat => simpl; lia
  end.

Lemma sample_child_3 : child_ok (files sample_fs) 3.
Proof. constructor. eexists. split; [reflexivity|]. split; [done|]. solve_valid_name. Qed.
Lemma sample_child_4 : child_ok (files sample_fs) 4.
Proof. constructor. eexists. split; [reflexivity|]. split; [done|]. solve_valid_name. Qed.

Lemma sample_mount : mount_ok sample_fs 1 2 sample_dir.
Proof.
  constructor.
  - eexists. split; [reflexivity|done].
  - constructor; [by eexists|constructor; vm_compute; done|done|].
    repeat constructor; [apply sample_child_3|apply sample_child_4].
  - intros p [f Hp]. simpl. unfold sample_fs in Hp. simpl in Hp.
    repeat (rewrite lookup_insert_Some in Hp; destruct Hp as [[<- _]|[_ Hp]]; [lia|]). by rewrite lookup_empty in Hp.
Qed.

Lemma sample_sub_ok : dir_ok sample_fs 4 sample_sub.
Proof. constructor; [by eexists|constructor; vm_compute; done|done|constructor]. Qed.

Lemma tmpfs_create_spec_witness :
  resolve sample_fs sample_dir [98] = None /\
  exists p s' d' f, tmpfs_create 1 [47; 98] 0x1a4 7 8 sample_fs = Done (p, s') /\
      added sample_fs s' 1 2 p sample_dir d' f /\ f_path f = [98] /\ f_mode f = Z.lor S_IFREG 0x1a4 /\
      f_uid f = 7 /\ f_gid f = 8 /\ f_length f = 0 /\ private_data f = PNull /\ ref_count f = 1.
Proof.
  split; [reflexivity|].
  refine (tmpfs_create_spec sample_fs 1 2 sample_dir [98] 0x1a4 7 8 _ sample_mount _ _ eq_refl);
    [solve_valid_name|done].
Defined.

Lemma tmpfs_open_nested_witness :
  tmpfs_open 1 [47; 100; 47; 98] sample_fs = Done (0, bump sample_fs) /\
  tmpfs_open 1 [47; 97; 47; 98] sample_fs = Fault.
Proof.
  split.
  - refine (proj1 (tmpfs_open_nested sample_fs 1 2 sample_dir [100] [98] sample_mount _) _); [solve_valid_name|].
    exists sample_sub. apply sample_sub_ok.
  - refine (proj2 (tmpfs_open_nested sample_fs 1 2 sample_dir [97] [98] sample_mount _) _); [solve_valid_name|done].
Defined.

Lemma tmpfs_write_read_witness :
  exists s1 f1 s2, tmpfs_write 3 100 5 3 sample_fs = Done (3, s1) /\
    files s1 !! 3 = Some f1 /\ regular_ok f1 /\ f_length f1 = Z.max 0 (5 + 3) /\
    (forall i, (i < length (file_bytes sample_a))%nat ->
       (Z.of_nat i < 5 \/ 5 + 3 <= Z.of_nat i) ->
       file_bytes f1 !! i = file_bytes sample_a !! i) /\
    tmpfs_read 3 200 5 3 s1 = Done (5, s2) /\
    peek 200 3 (ubuf s2) = [100; 101; 102].
Proof.
  apply (tmpfs_write_read sample_fs 3 sample_a 100 5 3 200); [reflexivity| |lia|lia|lia].
  constructor; vm_compute; done.
Defined.

Lemma tmpfs_delete_dangles_witness :
  exists s', tmpfs_delete 3 sample_fs = Done (0, s') /\ tmpfs_open 1 [47; 100] s' = Fault.
Proof.
  destruct (tmpfs_delete_dangles sample_fs 1 2 sample_dir 0 3 sample_a
    sample_mount eq_refl ltac:(done) eq_refl eq_refl) as (s' & E & F).
  exists s'. split; [exact E|]. apply (F [100]); [solve_valid_name|reflexivity].
Defined.

Lemma tmpfs_readdir_skips_two_witness :
  tmpfs_readdir 2 (mk_dirent_t [] 0) 2 sample_fs = Done ((1, mk_dirent_t [] 0), sample_fs).
Proof.
  destruct (tmpfs_readdir_skips_two sample_fs 2 sample_dir 2 (mk_dirent_t [] 0) (mount_dir _ _ _ _ sample_mount)
    ltac:(lia)) as (de & E & _). exact E.
Defined.

Lemma tmpfs_chmod_loses_type_witness :
  exists s' s2, tmpfs_chmod 4 0x1ed sample_fs = Done (0, s') /\ tmpfs_rmdir 4 s' = Done (1, s') /\
    tmpfs_delete 4 s' = Done (0, s2) /\ files s2 !! 4 = None.
Proof.
  apply (tmpfs_chmod_loses_type sample_fs 4 (plain_file 4 [100] 0x41ff 0 (PDir sample_sub)));
    [reflexivity|reflexivity|lia].
Defined.
