(* ===== verification/Vfs.v ===== *)
(** * The virtual file system (src/src/kernel/fs/vfs.c)

    Mounts, permission checks and the dispatch of every file operation to the pipe, the device
    or the file system behind a file.  The tables of function pointers are records of
    operations, [fs_ops] and [file_ops], found through the addresses that [fs_t] and
    [fs_file_t] hold; the tables themselves, the drivers' transfers and the drivers'
    [mmap] and [ioctl] are the section's context.  [Halt] is a loop that can only end if
    another CPU changes the pipe. *)
From S2P Require Import Prelude CString Vec Rtc Device Pipe Fs Tmpfs.

Record fs_ops := mk_fs_ops {
  fs_name : list Z;
  op_mount : option (Z -> FM Z);
  op_open : Z -> list Z -> FM Z;
  op_mkdir : Z -> list Z -> Z -> Z -> Z -> FM Z;
  op_create : Z -> list Z -> Z -> Z -> Z -> FM Z;
  op_mkfifo : Z -> list Z -> Z -> Z -> Z -> FM Z;
  op_mknod : Z -> list Z -> Z -> Z -> Z -> Z -> FM Z
}.

Record file_ops := mk_file_ops {
  op_read : Z -> Z -> Z -> Z -> FM Z;
  op_write : Z -> Z -> Z -> Z -> FM Z;
  op_rmdir : Z -> FM Z;
  op_delete : Z -> FM Z;
  op_truncate : Z -> Z -> FM Z;
  op_close : Z -> FM Z;
  op_readdir : Z -> dirent_t -> Z -> FM (Z * dirent_t);
  op_chmod : Z -> Z -> FM Z;
  op_chown : Z -> Z -> Z -> FM Z;
  op_ioctl : Z -> Z -> Z -> FM Z;
  op_mmap : Z -> Z -> Z -> Z -> Z -> Z -> Z -> Z -> FM Z
}.

Record vfs_mount_info := mk_mount_info { mi_path : list Z; mi_dev : Z; mi_fs : Z }.

Record vfs_state := mk_vfs_state {
  vfs_mounts : list vfs_mount_info;
  registered_fses : list Z;
  root_mount : option vfs_mount_info;
  v_fs : fs_state
}.

Abbreviation VFM := (M vfs_state).

Definition set_fs (x : fs_state) (s : vfs_state) : vfs_state :=
  mk_vfs_state (vfs_mounts s) (registered_fses s) (root_mount s) x.

(** An operation on the files inside the whole state. *)
Definition on_fs {A} (o : FM A) : VFM A := fun s =>
  match o (v_fs s) with
  | Done (a, f) => Done (a, set_fs f s)
  | Halt => Halt
  | Fault => Fault
  | Fuel => Fuel
  end.

(** ** Mounts *)

Definition vfs_is_mounted (mounts : list vfs_mount_info) (path : list Z) : bool :=
  existsb (fun mi => streq (mi_path mi) path) mounts.

Fixpoint mount_at (mounts : list vfs_mount_info) (path : list Z) : option vfs_mount_info :=
  match mounts with
  | [] => None
  | mi :: ms => if streq (mi_path mi) path then Some mi else mount_at ms path
  end.

(** The loop of [vfs_find_mount]; each round shortens [path_dup] by one character. *)
Fixpoint find_mount_loop (n : nat) (mounts : list vfs_mount_info) (path_dup : list Z) : option vfs_mount_info :=
  match n with
  | O => None
  | S n' =>
      if 1 <? Z.of_nat (length path_dup) then
        match mount_at mounts path_dup with
        | Some mi => Some mi
        | None => find_mount_loop n' mounts (removelast path_dup)
        end
      else None
  end.

(** The result is a pointer that is NULL as long as nothing is mounted on "/". *)
Definition vfs_find_mount (s : vfs_state) (path : list Z) : option vfs_mount_info :=
  if streq path [47] then root_mount s
  else
    match find_mount_loop (length path) (vfs_mounts s) path with
    | Some mi => Some mi
    | None => root_mount s
    end.

(** The path below the mount point, as the calls on [mi->fs->ops] pass it. *)
Definition mount_suffix (path : list Z) (mi : vfs_mount_info) : list Z :=
  if Nat.eqb (length path) (length (mi_path mi)) then [47]
  else drop (length (mi_path mi) - 1) path.

Section Vfs.
Context (fs_table : Z -> option fs_ops) (file_table : Z -> option file_ops).
Context (drivers : Z -> DriverOps).
Context (dev_mmap : Z -> Z -> Z -> Z -> Z -> Z -> Z -> Z -> FM Z) (dev_ioctl : Z -> Z -> Z -> FM Z).
Context `{Env}.

Definition get_ops (f : fs_file) : FM file_ops := of_option (file_table (f_ops f)).
Definition get_fs_ops (fs : Z) : FM fs_ops := f ← get_fs fs; of_option (fs_table (fs_ops_id f)).

(** [vfs_mount_fs]: the first registered file system of that name whose [mount] succeeds;
    [name = None] is a NULL pointer. *)
Fixpoint vfs_mount_fs (registered : list Z) (dev : Z) (name : option (list Z)) : FM Z :=
  match registered with
  | [] => mret 0
  | id :: ids =>
      ops ← of_option (fs_table id);
      match op_mount ops with
      | None => vfs_mount_fs ids dev name
      | Some mount =>
          if match name with Some n => streq n (fs_name ops) | None => true end then
            fs ← mount dev;
            if truthy fs then mret fs else vfs_mount_fs ids dev name
          else vfs_mount_fs ids dev name
      end
  end.

Definition vfs_mount (path : list Z) (dev : Z) (fs_name : option (list Z)) : VFM Z :=
  s ← get;
  if match root_mount s with None => negb (streq path [47]) | Some _ => false end then mret 1
  else if vfs_is_mounted (vfs_mounts s) path then mret 1
  else
    fs ← on_fs (vfs_mount_fs (registered_fses s) dev fs_name);
    if negb (truthy fs) then mret 1
    else
      let mi := mk_mount_info path dev fs in
      modify (fun s => mk_vfs_state (vfs_mounts s ++ [mi]) (registered_fses s)
        (match root_mount s with None => Some mi | r => r end) (v_fs s));;
      on_fs (if truthy dev then
               d ← get_dev dev;
               modify (fun s => set_devs (<[dev := mk_devobj (dv d) (dv_disk d) fs]> (devs s)) s)
             else mret tt);;
      mret 0.

Definition vfs_register_fs (ops : Z) : VFM unit :=
  modify (fun s => mk_vfs_state (vfs_mounts s) (registered_fses s ++ [ops]) (root_mount s) (v_fs s)).

(** ** Permissions *)

Definition may (uid gid : Z) (f : fs_file) (usr grp oth : Z) : bool :=
  ((uid =? f_uid f) && truthy (Z.land (f_mode f) usr)) ||
  ((gid =? f_gid f) && truthy (Z.land (f_mode f) grp)) ||
  truthy (Z.land (f_mode f) oth).

Definition vfs_check_can_read (file uid gid : Z) : FM Z :=
  if negb (truthy uid) then mret 0
  else f ← get_file file; mret (if negb (may uid gid f S_IRUSR S_IRGRP S_IROTH) then 1 else 0).
Definition vfs_check_can_write (file uid gid : Z) : FM Z :=
  if negb (truthy uid) then mret 0
  else f ← get_file file; mret (if negb (may uid gid f S_IWUSR S_IWGRP S_IWOTH) then 1 else 0).
Definition vfs_check_can_exec (file uid gid : Z) : FM Z :=
  if negb (truthy uid) then mret 0
  else f ← get_file file; mret (if negb (may uid gid f S_IXUSR S_IXGRP S_IXOTH) then 1 else 0).

(** ** File operations *)

Definition vfs_read (file buf offset count : Z) : FM Z :=
  f ← get_file file;
  if ISFIFO f then
    p ← get_pipe (f_pipe f);
    r ← of_option (pipe_read p count);
    let '(ret, item, p') := r in
    if ret =? 0 then halt
    else
      put_pipe (f_pipe f) p';;
      modify (fun s => set_ubuf (poke buf item (ubuf s)) s);;
      mret ret
  else if ISDEV f then
    d ← get_dev (f_dev f);
    m ← gets ubuf;
    let '(ret, m') := @device_read (drivers (f_dev f)) (dv d) offset count (dv_disk d) buf m junk_byte in
    modify (set_ubuf m');;
    mret ret
  else ops ← get_ops f; op_read ops file buf offset count.

Definition vfs_write (file buf offset count : Z) : FM Z :=
  f ← get_file file;
  if ISFIFO f then
    p ← get_pipe (f_pipe f);
    m ← gets ubuf;
    r ← of_option (pipe_write p (peek buf (Z.to_nat count) m) count);
    let '(ret, p') := r in
    if ret =? 0 then halt
    else put_pipe (f_pipe f) p';; mret ret
  else if ISDEV f then
    d ← get_dev (f_dev f);
    m ← gets ubuf;
    let '(ret, disk) := @device_write (drivers (f_dev f)) (dv d) offset count (dv_disk d) buf m junk_byte in
    modify (fun s => set_devs (<[f_dev f := mk_devobj (dv d) disk (dv_fs d)]> (devs s)) s);;
    mret ret
  else ops ← get_ops f; op_write ops file buf offset count.

Definition vfs_mmap (file pg sfile addr size offset prot flags : Z) : FM Z :=
  f ← get_file file;
  if ISFIFO f then mret 0
  else if ISDEV f then _ ← get_dev (f_dev f); dev_mmap (f_dev f) pg sfile addr size offset prot flags
  else ops ← get_ops f; op_mmap ops file pg sfile addr size offset prot flags.

Definition vfs_rmdir (file : Z) : FM Z := f ← get_file file; ops ← get_ops f; op_rmdir ops file.
Definition vfs_delete (file : Z) : FM Z := f ← get_file file; ops ← get_ops f; op_delete ops file.
Definition vfs_truncate (file size : Z) : FM Z :=
  f ← get_file file; ops ← get_ops f; op_truncate ops file size.
Definition vfs_readdir (file : Z) (dirent : dirent_t) (pos : Z) : FM (Z * dirent_t) :=
  f ← get_file file; ops ← get_ops f; op_readdir ops file dirent pos.
Definition vfs_chmod (file mode : Z) : FM Z :=
  f ← get_file file; ops ← get_ops f; op_chmod ops file mode.
Definition vfs_chown (file uid gid : Z) : FM Z :=
  f ← get_file file; ops ← get_ops f; op_chown ops file uid gid.
Definition vfs_ioctl (file cmd arg : Z) : FM Z :=
  f ← get_file file;
  if ISDEV f then _ ← get_dev (f_dev f); dev_ioctl (f_dev f) cmd arg
  else ops ← get_ops f; op_ioctl ops file cmd arg.

(** The initialiser leaves out [file_mode], which is therefore zero. *)
Definition vfs_fstat (file : Z) : FM (Z * stat_t) :=
  f ← get_file file;
  fs ← get_fs (f_fs f);
  ids ← (if truthy (fs_dev fs) then d ← get_dev (fs_dev fs); mret (d_id (dv d), d_type (dv d))
         else mret (2 ^ 64 - 1, 2 ^ 64 - 1));
  blocks ← (if truthy (f_dev f) then d ← get_dev (f_dev f); mret (block_size (dv d), block_count (dv d))
            else mret (0, 0));
  mret (0, mk_stat (fst ids) (u16 (f_inode f)) 0 0 (u16 (f_uid f)) (u16 (f_gid f)) (snd ids) (f_length f)
    (last_access_time f) (last_modification_time f) (last_status_change_time f) (creation_time f)
    (fst blocks) (snd blocks)).

Definition vfs_close (file : Z) : FM Z :=
  f ← get_file file;
  let f := with_ref_count (s32 (ref_count f - 1)) f in
  put_file file f;;
  if truthy (ref_count f) then mret 0
  else if ISFIFO f && (f_fs f =? 0) then
    _ ← get_pipe (f_pipe f);
    pipe_free (f_pipe f);;
    free_file file;;
    mret 0
  else ops ← get_ops f; op_close ops file.

(** ** Operations on paths *)

(** [vfs_find_mount] and the operations table of its file system; a NULL mount faults. *)
Definition mount_ops (path : list Z) : VFM (Z * list Z * fs_ops) :=
  s ← get;
  mi ← of_option (vfs_find_mount s path);
  ops ← on_fs (get_fs_ops (mi_fs mi));
  mret (mi_fs mi, mount_suffix path mi, ops).

Definition vfs_mknod (path : list Z) (mode uid gid dev : Z) : VFM Z :=
  r ← mount_ops path; let '(fs, str, ops) := r in on_fs (op_mknod ops fs str mode uid gid dev).
Definition vfs_mkdir (path : list Z) (mode uid gid : Z) : VFM Z :=
  r ← mount_ops path; let '(fs, str, ops) := r in on_fs (op_mkdir ops fs str mode uid gid).
Definition vfs_create (path : list Z) (mode uid gid : Z) : VFM Z :=
  r ← mount_ops path; let '(fs, str, ops) := r in on_fs (op_create ops fs str mode uid gid).
Definition vfs_open (name : list Z) : VFM Z :=
  r ← mount_ops name; let '(fs, str, ops) := r in on_fs (op_open ops fs str).

Definition vfs_mkfifo (name : list Z) (mode uid gid named : Z) : VFM Z :=
  if truthy named then
    r ← mount_ops name; let '(fs, str, ops) := r in on_fs (op_mkfifo ops fs str mode uid gid)
  else on_fs (
    tim ← current_time;
    file ← kmalloc_ptr;
    pipe ← new_pipe;
    put_file file (mk_file (fst (short_name name)) uid gid 0 0 0 pipe tim tim tim tim 1
      (Z.lor S_IFIFO mode) 0 file PNull 0);;
    mret file).
End Vfs.

(** ** The tables of tmpfs and devfs *)
Section Tables.
Context `{Env}.

(** [tmpfs_file_ops] has no [mmap]: calling it jumps to address 0. *)
Definition tmpfs_file_table : file_ops :=
  mk_file_ops tmpfs_read tmpfs_write tmpfs_rmdir tmpfs_delete tmpfs_truncate tmpfs_close tmpfs_readdir
    tmpfs_chmod tmpfs_chown tmpfs_ioctl (fun _ _ _ _ _ _ _ _ => fault).
Definition tmpfs_fs_table (name : list Z) : fs_ops :=
  mk_fs_ops name (Some tmpfs_mount) tmpfs_open tmpfs_mkdir tmpfs_create tmpfs_mkfifo tmpfs_mknod.
End Tables.

(** ** Finding mounts *)

Definition mount_paths_ok (ms : list vfs_mount_info) : Prop := Forall (fun mi => str_ok (mi_path mi)) ms.

Lemma mount_at_spec ms path :
  mount_paths_ok ms -> str_ok path ->
  match mount_at ms path with
  | Some mi => mi ∈ ms /\ mi_path mi = path
  | None => forall mi, mi ∈ ms -> mi_path mi <> path
  end.
Proof.
  intros Hms Hp. induction Hms as [|mi ms Hmi Hms IH]; simpl; [by intros ? ?%elem_of_nil|].
  rewrite streq_spec by done. case_bool_decide as E; [by split; [left|]|].
  destruct (mount_at ms path) as [mi'|].
  - destruct IH. split; [by right|done].
  - intros mi' [->|]%elem_of_cons; auto.
Qed.

(** [mi] is the mount with the longest path that is a prefix of [path] and longer than "/". *)
Definition longest_mount (ms : list vfs_mount_info) (path : list Z) (mi : vfs_mount_info) : Prop :=
  mi ∈ ms /\ mi_path mi `prefix_of` path /\ (2 <= length (mi_path mi))%nat /\
  forall mi', mi' ∈ ms -> mi_path mi' `prefix_of` path -> (length (mi_path mi') <= length (mi_path mi))%nat.

Definition no_mount (ms : list vfs_mount_info) (path : list Z) : Prop :=
  forall mi, mi ∈ ms -> mi_path mi `prefix_of` path -> (length (mi_path mi) <= 1)%nat.

Lemma prefix_same_length (a b c : list Z) :
  a `prefix_of` c -> b `prefix_of` c -> length a = length b -> a = b.
Proof. intros [k ->] [k' E] L. by apply app_inj_1 in E as [? _]. Qed.

Lemma find_mount_loop_spec ms path n p :
  mount_paths_ok ms -> str_ok path -> p `prefix_of` path -> (length p <= n)%nat ->
  (forall mi, mi ∈ ms -> mi_path mi `prefix_of` path -> (length (mi_path mi) <= length p)%nat) ->
  match find_mount_loop n ms p with
  | Some mi => longest_mount ms path mi
  | None => no_mount ms path
  end.
Proof.
  intros Hms Hpath. revert p. induction n as [|n IH]; intros p Hp Hn Hmax; simpl.
  { intros mi Hmi Hpre. specialize (Hmax mi Hmi Hpre). lia. }
  destruct (Z.ltb_spec 1 (Z.of_nat (length p))) as [Hlen|Hlen].
  2: { intros mi Hmi Hpre. specialize (Hmax mi Hmi Hpre). lia. }
  assert (Hps : str_ok p) by (destruct Hp as [k ->]; by apply Forall_app in Hpath as [? _]).
  pose proof (mount_at_spec ms p Hms Hps) as Hat. destruct (mount_at ms p) as [mi|].
  - destruct Hat as [Hin <-]. split; [done|]. split; [done|]. split; [lia|done].
  - destruct (exists_last (l := p)) as (q & x & ->); [by destruct p|].
    rewrite removelast_last. rewrite length_app in *. simpl in *. apply IH.
    + etrans; [by exists [x]|done].
    + lia.
    + intros mi Hmi Hpre. specialize (Hmax mi Hmi Hpre). 
      destruct (decide (length (mi_path mi) = length q + 1)%nat) as [E|]; [|lia].
      exfalso. apply (Hat mi Hmi). apply (prefix_same_length _ _ path); [done|done|].
      rewrite length_app. simpl. lia.
Qed.

Lemma find_mount_run s path :
  mount_paths_ok (vfs_mounts s) -> str_ok path -> path <> [47] ->
  exists r, vfs_find_mount s path = r /\
    ((exists mi, r = Some mi /\ longest_mount (vfs_mounts s) path mi) \/
     r = root_mount s /\ no_mount (vfs_mounts s) path).
Proof.
  intros Hms Hp Hne. unfold vfs_find_mount. rewrite streq_spec by (first [done | repeat constructor; vm_compute; done]).
  rewrite bool_decide_false by done.
  pose proof (find_mount_loop_spec (vfs_mounts s) path (length path) path Hms Hp ltac:(done) ltac:(done)) as HL.
  destruct (find_mount_loop _ _ _) as [mi|]; eexists; (split; [done|]).
  - left. exists mi. split; [done|]. apply HL. intros mi' _ Hpre. by apply prefix_length.
  - right. split; [done|]. apply HL. intros mi' _ Hpre. by apply prefix_length.
Qed.

(** C31: [vfs_find_mount] chooses the longest mount: for every path other than "/" the result is
    a mount whose path is the longest prefix of it among all mounts, or the root mount when
    only "/" matches. *)
Theorem vfs_find_mount_longest s path :
  mount_paths_ok (vfs_mounts s) -> str_ok path -> path <> [47] ->
  (exists mi, vfs_find_mount s path = Some mi /\ longest_mount (vfs_mounts s) path mi) \/
  vfs_find_mount s path = root_mount s /\ no_mount (vfs_mounts s) path.
Proof.
  intros Hms Hp Hne. destruct (find_mount_run s path Hms Hp Hne) as (r & <- & H). exact H.
Qed.

(** ** Paths through a tmpfs mount *)

(** The suffix below a mount point that ends in '/' is the rest of the path with that '/'. *)
Lemma mount_suffix_slash m rest mi :
  mi_path mi = m ++ [47] -> rest <> [] -> mount_suffix (m ++ 47 :: rest) mi = 47 :: rest.
Proof.
  intros E Hr. unfold mount_suffix. rewrite E, !length_app. simpl.
  destruct (Nat.eqb_spec (length m + S (length rest)) (length m + 1)) as [Hl|].
  - destruct rest; [done|simpl in Hl; lia].
  - rewrite drop_app_ge by lia. by replace (length m + 1 - 1 - length m)%nat with 0%nat by lia.
Qed.

Section Paths.
Context (fs_table : Z -> option fs_ops) `{Env}.
Context (fsname : list Z) (Htable : fs_table tmpfs_fs_ops = Some (tmpfs_fs_table fsname)).

(** [path] goes to the tmpfs [fs] with root directory [root], where it is [name]. *)
Record through (s : vfs_state) (path : list Z) (fs root : Z) (d : tmpfs_dirent) (name : list Z) : Prop := mk_through {
  thr_paths : mount_paths_ok (vfs_mounts s) /\ str_ok path;
  thr_mount : exists m mi, path = m ++ 47 :: name /\ mi_path mi = m ++ [47] /\ m <> [] /\
    longest_mount (vfs_mounts s) path mi /\ mi_fs mi = fs /\
    forall mi', mi' ∈ vfs_mounts s -> mi_path mi' = mi_path mi -> mi' = mi;
  thr_ok : mount_ok (v_fs s) fs root d;
  thr_ops : fs_ops_id <$> fses (v_fs s) !! fs = Some tmpfs_fs_ops;
  thr_name : valid_name name
}.

Lemma through_find s path fs root d name :
  through s path fs root d name ->
  mount_ops fs_table path s = Done ((fs, 47 :: name, tmpfs_fs_table fsname), s).
Proof using Htable.
  intros [[Hms Hp] (m & mi & -> & Hmi & Hm & Hlong & Hfs & Huniq) Hok Hops (_ & _ & Hne & _)].
  unfold mount_ops. rewrite (bind_run get _ s s s) by done.
  destruct (find_mount_run s (m ++ 47 :: name) Hms Hp) as (r & Er & [(mi' & -> & Hl')|[_ Hno]]).
  { destruct m as [|? [|]]; [done|destruct name; done|done]. }
  2: { destruct Hlong as (Hin & Hpre & Hlen & _). specialize (Hno mi Hin Hpre). lia. }
  assert (mi' = mi) as ->.
  { destruct Hlong as (Hin & Hpre & _ & Hmax), Hl' as (Hin' & Hpre' & _ & Hmax'). apply Huniq; [done|].
    apply (prefix_same_length _ _ (m ++ 47 :: name)); [done|done|].
    specialize (Hmax mi' Hin' Hpre'). specialize (Hmax' mi Hin Hpre). lia. }
  rewrite Er. rewrite (bind_run (of_option (Some mi)) _ s mi s) by done. rewrite Hfs.
  rewrite (mount_suffix_slash m name mi) by done.
  unfold on_fs, get_fs_ops, get_fs, mbind, M_bind.
  destruct (fses (v_fs s) !! fs) as [F|]; [|done]. simpl in *. injection Hops as ->. rewrite Htable. simpl.
  by destruct s.
Qed.

Lemma through_open s path fs root d name :
  through s path fs root d name ->
  exists s', vfs_open fs_table path s = Done (default 0 (resolve (v_fs s) d name), s').
Proof using Htable.
  intros Ht. unfold vfs_open. rewrite (bind_run _ _ _ _ _ (through_find _ _ _ _ _ _ Ht)).
  cbn [op_open tmpfs_fs_table]. unfold on_fs.
  rewrite (open_run (v_fs s) fs root d name (thr_ok _ _ _ _ _ _ Ht) (thr_name _ _ _ _ _ _ Ht)). by eexists.
Qed.

(** Adding a file keeps the paths. *)
Lemma through_added s s1 fs root p d d' f path name :
  added (v_fs s) s1 fs root p d d' f -> through s path fs root d name -> through (set_fs s1 s) path fs root d' name.
Proof.
  intros Ha [H1 H2 H3 H4 H5]. constructor; [done|done|apply Ha| |done].
  simpl. by rewrite (added_fses _ _ _ _ _ _ _ _ Ha).
Qed.

(** C12: creating and opening through the VFS: below a tmpfs mount point, [vfs_create] of a new
    name makes one regular file in the root directory of that mount, and [vfs_open] of the same
    path then returns exactly that file, while every other plain name of the mount still
    opens to what it did before. *)
Theorem vfs_create_open s path fs root d name mode uid gid dt :
  through s path fs root d name -> vlength (children d) + 1 < 2 ^ 29 ->
  rtc_get_datetime cmos century = Some dt -> resolve (v_fs s) d name = None ->
  exists p s' d' f s'', vfs_create fs_table path mode uid gid s = Done (p, s') /\
    added (v_fs s) (v_fs s') fs root p d d' f /\ f_mode f = Z.lor S_IFREG mode /\
    vfs_open fs_table path s' = Done (p, s'') /\
    forall path' name', through s path' fs root d name' -> name' <> name ->
      exists t t', vfs_open fs_table path' s = Done (default 0 (resolve (v_fs s) d name'), t) /\
        vfs_open fs_table path' s' = Done (default 0 (resolve (v_fs s) d name'), t').
Proof using Htable.
  intros Hthr Hroom Hdt Hres. pose proof (thr_ok _ _ _ _ _ _ Hthr) as Hok.
  pose proof (create_run (v_fs s) fs root d name mode uid gid dt Hok (thr_name _ _ _ _ _ _ Hthr) Hroom Hdt) as Hc.
  rewrite Hres in Hc. destruct Hc as (p & s1 & d' & f & Ec & Ha & Hname & Hmode & _).
  destruct (through_open _ _ _ _ _ _ (through_added _ _ _ _ _ _ _ _ _ _ Ha Hthr)) as (s'' & Eo).
  exists p, (set_fs s1 s), d', f, s''. split.
  { unfold vfs_create. rewrite (bind_run _ _ _ _ _ (through_find _ _ _ _ _ _ Hthr)).
    cbn [op_create tmpfs_fs_table]. unfold on_fs. by rewrite Ec. }
  split; [exact Ha|]. split; [done|]. split.
  { rewrite Eo. simpl. by rewrite (added_resolve _ _ _ _ _ _ _ _ Ha), Hres, Hname, bool_decide_true. }
  intros path' name' Ht Hne. destruct (through_open _ _ _ _ _ _ Ht) as (t & Et).
  destruct (through_open _ _ _ _ _ _ (through_added _ _ _ _ _ _ _ _ _ _ Ha Ht)) as (t' & Et').
  exists t, t'. split; [done|]. rewrite Et'. simpl. rewrite (added_resolve _ _ _ _ _ _ _ _ Ha), Hname.
  rewrite bool_decide_false by done. by destruct (resolve (v_fs s) d name').
Qed.
End Paths.

(** ** Anonymous pipes *)
Section Fifo.
Context (file_table : Z -> option file_ops) (drivers : Z -> DriverOps) `{Env}.

(** A file made by [vfs_mkfifo] without a name, and its pipe. *)
Record fifo_ok (s : fs_state) (p : Z) (f : fs_file) (q : pipe_t) : Prop := mk_fifo_ok {
  fifo_file : files s !! p = Some f;
  fifo_mode : ISFIFO f = true;
  fifo_fs : f_fs f = 0;
  fifo_pipe : pipes s !! f_pipe f = Some q
}.

Lemma close_dec s p f q n :
  fifo_ok s p f q -> ref_count f = n -> 1 < n < 2 ^ 31 ->
  vfs_close file_table p s = Done (0, set_files (<[p := with_ref_count (n - 1) f]> (files s)) s).
Proof.
  intros [Hf _ _ _] Hn Hr. unfold vfs_close, get_file, mbind, M_bind. rewrite Hf. simpl.
  rewrite Hn, s32_small by lia. unfold truthy. by rewrite (proj2 (Z.eqb_neq (n - 1) 0)) by lia.
Qed.

(** The last close of a pipe frees the file and the pipe. *)
Lemma close_free s p f q :
  fifo_ok s p f q -> ref_count f = 1 ->
  vfs_close file_table p s =
    Done (0, set_files (delete p (<[p := with_ref_count 0 f]> (files s))) (set_pipes (delete (f_pipe f) (pipes s)) s)).
Proof.
  intros [Hf Hm Hfs Hp] Hr. unfold vfs_close, get_file, free_file, mbind, M_bind. rewrite Hf. simpl. rewrite Hr.
  change (s32 (1 - 1)) with 0. change (truthy 0) with false. cbv iota.
  unfold ISFIFO in *. simpl in *. rewrite Hm, Hfs. simpl. unfold get_pipe, get_file. simpl. rewrite Hp. simpl.
  unfold mbind, M_bind. by rewrite lookup_insert_eq.
Qed.

Fixpoint closes (n : nat) (p : Z) : FM unit :=
  match n with O => mret tt | S n' => _ ← vfs_close file_table p; closes n' p end.

Lemma closes_run n s p f q :
  fifo_ok s p f q -> ref_count f = Z.of_nat (S n) -> ref_count f < 2 ^ 31 ->
  exists s1, closes n p s = Done (tt, s1) /\ fifo_ok s1 p (with_ref_count 1 f) q /\
    forall r, r <> p -> files s1 !! r = files s !! r.
Proof.
  revert s f. induction n as [|n IH]; intros s f Hok Hn Hr.
  - exists s. split; [done|]. split; [|done]. destruct Hok. constructor; try done.
    rewrite fifo_file0. f_equal. destruct f. simpl in *. by subst.
  - simpl closes. rewrite (bind_run _ _ _ _ _ (close_dec s p f q _ Hok eq_refl ltac:(lia))).
    set (s' := set_files _ s). destruct (IH s' (with_ref_count (ref_count f - 1) f)) as (s1 & E & Hok1 & Hother).
    + destruct Hok. constructor; try done. subst s'. simpl. apply lookup_insert_eq.
    + simpl. lia.
    + simpl. lia.
    + exists s1. split; [done|]. split; [exact Hok1|]. intros r Hne. rewrite Hother by done.
      subst s'. simpl. by rewrite lookup_insert_ne by congruence.
Qed.

(** the reference count of an anonymous pipe: of its [ref_count] closes all but the last
    leave the file and its pipe alone, the last frees both and nothing else, and one close
    more is an access to freed memory. *)
Theorem vfs_close_last n s p f q :
  fifo_ok s p f q -> ref_count f = Z.of_nat (S n) -> ref_count f < 2 ^ 31 ->
  exists s1 s2, closes n p s = Done (tt, s1) /\ fifo_ok s1 p (with_ref_count 1 f) q /\
    vfs_close file_table p s1 = Done (0, s2) /\ files s2 !! p = None /\ pipes s2 !! f_pipe f = None /\
    (forall r, r <> p -> files s2 !! r = files s !! r) /\ vfs_close file_table p s2 = Fault.
Proof.
  intros Hok Hn Hr. destruct (closes_run n s p f q Hok Hn Hr) as (s1 & E & Hok1 & Hother).
  set (s2 := set_files (delete p (<[p := with_ref_count 0 f]> (files s1))) (set_pipes (delete (f_pipe f) (pipes s1)) s1)).
  exists s1, s2. split; [done|]. split; [done|]. split; [exact (close_free s1 p (with_ref_count 1 f) q Hok1 eq_refl)|].
  assert (Hdel : files s2 !! p = None) by apply lookup_delete_eq.
  split; [done|]. split; [apply lookup_delete_eq|]. split.
  { intros r Hne. simpl. rewrite lookup_delete_ne, lookup_insert_ne by congruence. by apply Hother. }
  unfold vfs_close, get_file, mbind, M_bind. by rewrite Hdel.
Qed.

(** an anonymous pipe does not block: a read of an empty pipe returns -1 at once, while a
    write that does not fit, or of no bytes, never returns; and [fstat] dereferences the
    file's NULL [fs]. *)
Theorem vfs_fifo_edge s p f q buf offset count :
  fifo_ok s p f q -> fses s !! 0 = None ->
  (head q <= tail q -> exists s', vfs_read file_table drivers p buf offset count s = Done (-1, s')) /\
  (end_addr q <= addr q (head q + count) \/ pipe_ok q /\ count = 0 -> vfs_write file_table drivers p buf offset count s = Halt) /\
  vfs_fstat p s = Fault.
Proof.
  intros [Hf Hm Hfs Hp] H0. split; [|split].
  - intros He. unfold vfs_read, get_file, get_pipe, mbind, M_bind. rewrite Hf. simpl. rewrite Hm, Hp. simpl.
    unfold pipe_read. rewrite (proj2 (Z.leb_le _ _)) by lia. simpl. by eexists.
  - intros He. unfold vfs_write, get_file, get_pipe, mbind, M_bind. rewrite Hf. simpl. rewrite Hm, Hp. simpl.
    unfold pipe_write. destruct (Z.leb_spec (end_addr q) (addr q (head q + count))) as [|Hlt]; [done|].
    destruct He as [He|[[Ht Hh _] ->]]; [lia|]. unfold buffer_end in *.
    unfold store. rewrite (proj2 (Z.leb_le 0 _)), (proj2 (Z.leb_le (head q + 0) _)) by lia. done.
  - unfold vfs_fstat, get_file, get_fs, mbind, M_bind. rewrite Hf. simpl. rewrite Hfs, H0. done.
Qed.

(** [vfs_fstat] never reports the type or the permissions of a file: it returns 0 with a
    [file_mode] of zero, and the inode, which is a 64-bit pointer, cut to 16 bits. *)
Theorem vfs_fstat_mode s p ret st s' :
  vfs_fstat p s = Done ((ret, st), s') ->
  exists f, files s !! p = Some f /\ s' = s /\ ret = 0 /\ file_mode st = 0 /\
    file_size st = f_length f /\ file_serial st = f_inode f mod 2 ^ 16.
Proof.
  unfold vfs_fstat. intros E. inv_bind E. inv_bind Hk. inv_bind Hk0. inv_bind Hk.
  unfold get_file in Hm. destruct (files s !! p) as [f|]; [|done]. injection Hm as <- <-.
  unfold get_fs in Hm0. destruct (fses s !! f_fs f) as [F|]; [|done]. injection Hm0 as <- <-.
  assert (s2 = s) as ->.
  { destruct (truthy (fs_dev F)); [|by injection Hm1 as _ <-]. inv_bind Hm1. unfold get_dev in Hm.
    destruct (devs s !! fs_dev F); [|done]. injection Hm as <- <-. by injection Hk as _ <-. }
  assert (s3 = s) as ->.
  { destruct (truthy (f_dev f)); [|by injection Hm2 as _ <-]. inv_bind Hm2. unfold get_dev in Hm.
    destruct (devs s !! f_dev f); [|done]. injection Hm as <- <-. by injection Hk as _ <-. }
  injection Hk0 as <- <- <-. exists f. done.
Qed.
End Fifo.

(** ** Instances *)

(** "/" and "/dev/" (as src/src/kernel/main.c mounts them), the second a tmpfs. *)
Definition dev_mount : vfs_mount_info := mk_mount_info [47; 100; 101; 118; 47] 0 1.
Definition sample_vfs : vfs_state :=
  mk_vfs_state [mk_mount_info [47] 0 7; dev_mount] [1] (Some (mk_mount_info [47] 0 7)) sample_fs.
Definition sample_table (id : Z) : option fs_ops := if id =? 1 then Some (tmpfs_fs_table [84]) else None.

Lemma sample_paths : mount_paths_ok (vfs_mounts sample_vfs).
Proof. repeat constructor; vm_compute; done. Qed.

Lemma vfs_find_mount_longest_witness :
  vfs_find_mount sample_vfs [47; 100; 101; 118; 47; 120] = Some dev_mount /\
  ((exists mi, vfs_find_mount sample_vfs [47; 100; 101; 118; 47; 120] = Some mi /\
      longest_mount (vfs_mounts sample_vfs) [47; 100; 101; 118; 47; 120] mi) \/
   vfs_find_mount sample_vfs [47; 100; 101; 118; 47; 120] = root_mount sample_vfs /\
      no_mount (vfs_mounts sample_vfs) [47; 100; 101; 118; 47; 120]).
Proof.
  split; [reflexivity|].
  refine (vfs_find_mount_longest sample_vfs _ sample_paths _ _); [repeat constructor; vm_compute; done|done].
Defined.

Lemma sample_through : through sample_vfs [47; 100; 101; 118; 47; 98] 1 2 sample_dir [98].
Proof.
  constructor; [split; [apply sample_paths|repeat constructor; vm_compute; done]| |apply sample_mount|done|solve_valid_name].
  exists [47; 100; 101; 118], dev_mount. split; [done|]. split; [done|]. split; [done|].
  split; [|split; [done|]].
  - split; [right; left|]. split; [by exists [98]|]. split; [simpl; lia|].
    intros mi [->|[->|Hin%elem_of_nil]%elem_of_cons]%elem_of_cons _; simpl; [lia|lia|done].
  - intros mi [->|[->|Hin%elem_of_nil]%elem_of_cons]%elem_of_cons; done.
Qed.

Lemma vfs_create_open_witness :
  exists p s' s'', vfs_create sample_table [47; 100; 101; 118; 47; 98] 0x1a4 0 0 sample_vfs = Done (p, s') /\
    vfs_open sample_table [47; 100; 101; 118; 47; 98] s' = Done (p, s'').
Proof.
  destruct (vfs_create_open sample_table [84] eq_refl sample_vfs [47; 100; 101; 118; 47; 98] 1 2 sample_dir [98]
    0x1a4 0 0 _ sample_through ltac:(done) eq_refl eq_refl) as (p & s' & d' & f & s'' & E & _ & _ & E' & _).
  exists p, s', s''. split; [exact E|exact E'].
Defined.

Definition fifo_file_2 : fs_file := mk_file [] 0 0 0 0 0 9 0 0 0 0 2 0x1000 0 8 PNull 0.
Definition fifo_fs_state : fs_state :=
  mk_fs_state (<[8 := fifo_file_2]> ∅) ∅ (<[9 := small_pipe]> ∅) ∅ 10 (fun x => x).
Definition no_drivers (dev : Z) : DriverOps := ram_ops.

Lemma sample_fifo : fifo_ok fifo_fs_state 8 fifo_file_2 small_pipe.
Proof. constructor; reflexivity. Qed.

Lemma vfs_close_last_witness :
  exists s1 s2, closes (fun _ => None) 1 8 fifo_fs_state = Done (tt, s1) /\
    vfs_close (fun _ => None) 8 s1 = Done (0, s2) /\ files s2 !! 8 = None /\
    vfs_close (fun _ => None) 8 s2 = Fault.
Proof.
  destruct (vfs_close_last (fun _ => None) 1 fifo_fs_state 8 fifo_file_2 small_pipe sample_fifo eq_refl ltac:(done))
    as (s1 & s2 & E1 & _ & E2 & E3 & _ & _ & E4).
  exists s1, s2. split; [exact E1|]. split; [exact E2|]. split; [exact E3|exact E4].
Defined.

Lemma vfs_fifo_edge_witness :
  vfs_write (fun _ => None) no_drivers 8 0 0 16 fifo_fs_state = Halt /\ vfs_fstat 8 fifo_fs_state = Fault.
Proof.
  destruct (vfs_fifo_edge (fun _ => None) no_drivers fifo_fs_state 8 fifo_file_2 small_pipe 0 0 16 sample_fifo eq_refl)
    as (_ & Hw & Hs). split; [apply Hw; left; vm_compute; done|exact Hs].
Defined.

Definition sample_stat : stat_t := mk_stat (2 ^ 64 - 1) 3 0 0 0 0 (2 ^ 64 - 1) 0 0 0 0 0 0 0.
Lemma vfs_fstat_mode_witness :
  vfs_fstat 3 sample_fs = Done ((0, sample_stat), sample_fs) /\
  exists f, files sample_fs !! 3 = Some f /\ sample_fs = sample_fs /\ 0 = 0 /\ file_mode sample_stat = 0 /\
    file_size sample_stat = f_length f /\ file_serial sample_stat = f_inode f mod 2 ^ 16.
Proof. split; [reflexivity|]. by apply (vfs_fstat_mode sample_fs 3 0 sample_stat sample_fs). Defined.
