(* ===== verification/Fat32.v ===== *)
(** * The FAT32 file system (src/src/kernel/fs/fat32.c: the operations behind the VFS)

    The operations of [fat_file_ops] and [fat_fs_ops] over the file objects of Fs.v and the
    contents of their devices.  [junk] and [junk_private] are what fresh heap blocks hold;
    [chain_fuel] bounds walks along chains and the loops that extend them. *)
From S2P Require Import Prelude CString Vec Rtc Device Pipe FatTypes Fs FatDisk FatChain FatDir Tmpfs Vfs.

Definition fat_file_ops : Z := 3.
Definition fat_fs_ops : Z := 3.

(** ** Stamping an entry with the time *)

Definition stamp_accessed (t : datetime) (e : dir_entry) : dir_entry :=
  mk_entry (filename e) (de_flags e) (reserved2 e) (created_ticks e) (created_second e) (created_minute e)
    (created_hour e) (created_day e) (created_month e) (created_year e)
    (bits 5 (day t)) (bits 4 (month t)) (bits 7 (year t - 1980)) (cluster_hi e)
    (modified_second e) (modified_minute e) (modified_hour e) (modified_day e) (modified_month e) (modified_year e)
    (cluster_lo e) (de_size e).

Definition stamp_modified (t : datetime) (e : dir_entry) : dir_entry :=
  mk_entry (filename e) (de_flags e) (reserved2 e) (created_ticks e) (created_second e) (created_minute e)
    (created_hour e) (created_day e) (created_month e) (created_year e)
    (accessed_day e) (accessed_month e) (accessed_year e) (cluster_hi e)
    (bits 5 (seconds t / 2)) (bits 6 (minutes t)) (bits 5 (hours t)) (bits 5 (day t)) (bits 4 (month t)) (bits 7 (year t - 1980))
    (cluster_lo e) (de_size e).

Definition with_size (n : Z) (e : dir_entry) : dir_entry :=
  mk_entry (filename e) (de_flags e) (reserved2 e) (created_ticks e) (created_second e) (created_minute e)
    (created_hour e) (created_day e) (created_month e) (created_year e)
    (accessed_day e) (accessed_month e) (accessed_year e) (cluster_hi e)
    (modified_second e) (modified_minute e) (modified_hour e) (modified_day e) (modified_month e) (modified_year e)
    (cluster_lo e) (u32 n).

Definition with_filename (n : list Z) (e : dir_entry) : dir_entry :=
  mk_entry n (de_flags e) (reserved2 e) (created_ticks e) (created_second e) (created_minute e)
    (created_hour e) (created_day e) (created_month e) (created_year e)
    (accessed_day e) (accessed_month e) (accessed_year e) (cluster_hi e)
    (modified_second e) (modified_minute e) (modified_hour e) (modified_day e) (modified_month e) (modified_year e)
    (cluster_lo e) (de_size e).

(** A new entry: [dir = {0}] and the assignments that follow it. *)
Definition make_entry (t : datetime) (ticks flags cluster : Z) (name : list Z) : dir_entry :=
  mk_entry name flags 0 ticks
    (bits 5 (seconds t / 2)) (bits 6 (minutes t)) (bits 5 (hours t)) (bits 5 (day t)) (bits 4 (month t)) (bits 7 (year t - 1980))
    (bits 5 (day t)) (bits 4 (month t)) (bits 7 (year t - 1980)) (u16 (cluster / 2 ^ 16))
    (bits 5 (seconds t / 2)) (bits 6 (minutes t)) (bits 5 (hours t)) (bits 5 (day t)) (bits 4 (month t)) (bits 7 (year t - 1980))
    (u16 cluster) 0.

(** [time.year += 1900] *)
Definition full_year (t : datetime) : datetime :=
  mk_datetime (seconds t) (minutes t) (hours t) (day t) (month t) (u16 (year t + 1900)) (day_of_week t) (day_of_year t)
    (is_daylight_savings t).

(** ** Names for new entries *)

(** Whether a name needs a long entry: more than 11 characters besides dots. *)
Fixpoint is_long_filename (rest : list Z) (name_length : Z) : bool :=
  match rest with
  | [] => false
  | c :: rest' =>
      if c =? 46 then is_long_filename rest' name_length
      else if 10 <? name_length then true
      else is_long_filename rest' (name_length + 1)
  end.

(** The loop that builds the short name of a long one; [fat_mkdir] has no case for dots. *)
Fixpoint tilde_loop (dots : bool) (rest name : list Z) (pos consumed : Z) : list Z * Z * Z :=
  match rest with
  | [] => (name, pos, consumed)
  | c :: rest' =>
      if pos =? 11 then (name, pos, consumed)
      else
        let name := if 6 <? pos then <[7%nat := 48]> (<[6%nat := 126]> name) else name in
        if dots && (c =? 46) then tilde_loop dots rest' name (if pos <? 8 then 8 else pos) (consumed + 1)
        else tilde_loop dots rest' (<[Z.to_nat pos := upper c]> name) (pos + 1) (consumed + 1)
  end.

(** The short name of a directory: no case for dots. *)
Fixpoint upper_loop (rest name : list Z) (pos : Z) : list Z :=
  match rest with
  | [] => name
  | c :: rest' => if pos =? 11 then name else upper_loop rest' (<[Z.to_nat pos := upper c]> name) (pos + 1)
  end.

(** The [n] 16-bit characters of the next long-name slots: the rest of the name, a zero, then
    0xffff; [done_] says whether the zero has been written. *)
Fixpoint lfn_fill (n : nat) (rest : list Z) (done_ : bool) : list Z * list Z * bool :=
  match n with
  | O => ([], rest, done_)
  | S n' =>
      if done_ then let '(cs, r, d) := lfn_fill n' rest true in (0xffff :: cs, r, d)
      else
        match rest with
        | [] => let '(cs, r, d) := lfn_fill n' [] true in (0 :: cs, r, d)
        | c :: rest' => let '(cs, r, d) := lfn_fill n' rest' false in (u16 (s8 c) :: cs, r, d)
        end
  end.

Definition next_placement (placement len : Z) : Z :=
  if placement =? len - 1 then u8 (Z.lor (placement + 1) 0x40) else u8 (placement + 1).

Fixpoint until_zero (l : list Z) : list Z :=
  match l with [] => [] | c :: l' => if c =? 0 then [] else c :: until_zero l' end.

Section Fat32.
Context (drivers : Z -> DriverOps) `{Env} (junk : mem) (junk_private : fat_private) (reused : Z -> list Z).
Context (chain_fuel find_fuel : nat).

(** An operation on the disk of device [dev], with the boot record of [dev->fs]. *)
Definition on_disk {A} (dev : Z) (o : DriverOps -> bpb -> DM A) : FM A := fun s =>
  match devs s !! dev with
  | None => Fault
  | Some d =>
      match fses s !! dv_fs d with
      | Some fs =>
          match fs_boot fs with
          | Some boot =>
              match o (drivers dev) boot (dv_disk d) with
              | Done (a, disk) => Done (a, set_devs (<[dev := mk_devobj (dv d) disk (dv_fs d)]> (devs s)) s)
              | Halt => Halt
              | Fault => Fault
              | Fuel => Fuel
              end
          | None => Fault
          end
      | None => Fault
      end
  end.

Definition fat_private_of (f : fs_file) : FM fat_private :=
  match private_data f with PFat p => mret p | _ => fault end.

(** [file->fs->dev] and the boot record of [file->fs]. *)
Definition file_dev (f : fs_file) : FM Z := fs ← get_fs (f_fs f); mret (fs_dev fs).
Definition file_boot (f : fs_file) : FM bpb := fs ← get_fs (f_fs f); of_option (fs_boot fs).

Definition now : FM datetime :=
  match rtc_get_datetime cmos century with Some t => mret t | None => halt end.

Definition set_entry (dev dir index : Z) (e : dir_entry) : FM unit :=
  on_disk dev (fun _ boot => fat_set_dir_entry boot junk chain_fuel dir index (entry_bytes e)).
Definition find_path (dev dir : Z) (has_dir : bool) (path : list Z) : FM found :=
  on_disk dev (fun _ boot =>
    fat_find boot junk reused chain_fuel find_fuel dir has_dir path 0 (mk_found 0 None None None)).

(** ** Operations on files *)

Definition fat_ioctl (file cmd arg : Z) : FM Z := mret 0.
Definition fat_chmod (file mode : Z) : FM Z := f ← get_file file; put_file file (with_mode mode f);; mret 0.
Definition fat_chown (file uid gid : Z) : FM Z := f ← get_file file; put_file file (with_owner uid gid f);; mret 0.
Definition fat_mknod (fs : Z) (name : list Z) (mode uid gid dev : Z) : FM Z := mret 0.
Definition fat_mmap (file pg sfile addr size offset prot flags : Z) : FM Z := mret 0.
Definition fat_mkfifo (fs : Z) (path : list Z) (mode uid gid : Z) : FM Z := mret 0.

(** Marks the last cluster of the chain as the end. *)
Fixpoint shrink_loop (fuel : nat) (cluster : Z) (D : DriverOps) (boot : bpb) : DM unit :=
  match fuel with
  | O => out_of_fuel
  | S n =>
      next ← fat_get_next_cluster boot junk cluster;
      if negb (truthy next) || (next =? 0xffffff8) then fat_change_fat_value boot junk cluster 0xffffff8
      else shrink_loop n next D boot
  end.

(** Growing passes [file->fs->private_data] where a device is expected. *)
Definition fat_truncate (file size : Z) : FM Z :=
  f ← get_file file;
  p ← fat_private_of f;
  boot ← file_boot f;
  dev ← file_dev f;
  let cs := cluster_size boot in
  if cs =? 0 then fault
  else
    (if size / cs <? de_size (fp_dir p) / cs then on_disk dev (shrink_loop chain_fuel (fp_cluster p))
     else if de_size (fp_dir p) / cs <? size / cs then fault
     else mret tt);;
    set_entry dev (fp_parent p) (fp_index p) (with_size size (fp_dir p));;
    mret 0.

Definition fat_read (file buf offset count : Z) : FM Z :=
  time ← now;
  f ← get_file file;
  p ← fat_private_of f;
  dev ← file_dev f;
  let entry := stamp_accessed (full_year time) (fp_dir p) in
  set_entry dev (fp_parent p) (fp_index p) entry;;
  if directory entry then mret 0
  else
    let count := if de_size entry <? u64 (offset + count) then u64 (de_size entry - offset) else count in
    if negb (truthy count) then mret 0
    else
      b ← on_disk dev (fun _ boot =>
        fat_read_cluster_chain boot junk chain_fuel (kmalloc_buffer junk (de_size entry)) (entry_cluster entry));
      if de_size entry <? offset + count then fault
      else
        modify (fun s => set_ubuf (put count (ubuf s) buf (b_mem b) offset) s);;
        mret count.

(** [last_entry_in_chain]: [n] steps from a cluster. *)
Fixpoint walk (n : nat) (cluster : Z) (D : DriverOps) (boot : bpb) : DM Z :=
  match n with
  | O => mret cluster
  | S n' => next ← fat_get_next_cluster boot junk cluster; walk n' next D boot
  end.

(** Extends the chain until it has room for [need] bytes; a chain without clusters makes the
    walk take 2^64 - 1 steps. *)
Fixpoint extend_loop (fuel : nat) (need writing first : Z) (D : DriverOps) (boot : bpb) : DM unit :=
  match fuel with
  | O => out_of_fuel
  | S n =>
      len ← fat_chain_cluster_length boot junk chain_fuel writing;
      if u64 (len * cluster_size boot * 512) <? need then
        if len =? 0 then halt
        else
          last ← walk (Z.to_nat (len - 1)) first D boot;
          free_entry ← fat_find_free_cluster boot junk;
          fat_change_fat_value boot junk last free_entry;;
          fat_change_fat_value boot junk free_entry 0xffffff8;;
          extend_loop n need writing first D boot
      else mret tt
  end.

Definition fat_write (file buf offset count : Z) : FM Z :=
  time ← now;
  f ← get_file file;
  p ← fat_private_of f;
  dev ← file_dev f;
  let writing := fp_cluster p in
  let entry := stamp_accessed time (fp_dir p) in
  if negb (truthy count) then mret 0
  else if directory entry then mret 0
  else
    on_disk dev (extend_loop chain_fuel (u64 (count + offset)) writing (entry_cluster entry));;
    m ← gets ubuf;
    on_disk dev (fun _ boot =>
      len ← fat_chain_cluster_length boot junk chain_fuel writing;
      let size := u64 (len * cluster_size boot * 512) in
      b ← fat_read_cluster_chain boot junk chain_fuel (kmalloc_buffer junk size) writing;
      if size <? offset + count then fault
      else fat_write_cluster_chain boot junk chain_fuel (mk_buffer size (put count (b_mem b) offset m buf)) writing);;
    let entry := stamp_modified time entry in
    entry ← (if de_size entry <? u64 (offset + count) then
               put_file file (with_data (u64 (offset + count)) (private_data f) f);;
               mret (with_size (u64 (offset + count)) entry)
             else mret entry);
    set_entry dev (fp_parent p) (fp_index p) entry;;
    mret count.

(** The string that starts at byte [a] of the buffer and ends at a zero inside it. *)
Fixpoint buffer_string (n : nat) (b : buffer) (a : Z) : option (list Z) :=
  match n with
  | O => None
  | S n' =>
      if b_size b <=? a then None
      else if u8 (b_mem b a) =? 0 then Some [] else r ← buffer_string n' b (a + 1); Some (u8 (b_mem b a) :: r)
  end.

(** The buffer has room for one sector per cluster; the directory read is [parent_cluster]. *)
Definition fat_readdir (file : Z) (dirent : dirent_t) (pos : Z) : FM (Z * dirent_t) :=
  time ← now;
  f ← get_file file;
  p ← fat_private_of f;
  dev ← file_dev f;
  b ← on_disk dev (fun _ boot =>
    len ← fat_chain_cluster_length boot junk chain_fuel (fp_parent p);
    fat_read_cluster_chain boot junk chain_fuel (kmalloc_buffer junk (u64 (len * 512))) (fp_parent p));
  if b_size b <? 32 * pos + 32 then fault
  else
    let e := read_entry (b_mem b) (32 * pos) in
    if de_flags e =? 0xf then
      count ← of_option (lfn_count b (Z.to_nat (b_size b / 32)) pos 0);
      let long := long_name b pos count in
      if bool_decide (0 ∈ long) then
        let name := d_name dirent ++ until_zero long in
        if 511 <? Z.of_nat (length name) then fault else mret (0, mk_dirent_t name (d_serial dirent))
      else fault
    else
      boot ← file_boot f;
      let e := stamp_accessed (full_year time) e in
      let b := mk_buffer (b_size b) (poke (32 * pos) (entry_bytes e) (b_mem b)) in
      if cluster_size boot =? 0 then fault
      else
        set_entry dev (fp_cluster p) (pos mod (cluster_size boot * 512 / 32)) e;;
        name ← of_option (buffer_string 512 b (32 * pos));
        let name := d_name dirent ++ name in
        if 511 <? Z.of_nat (length name) then fault
        else mret (0, mk_dirent_t (take 11 name) (d_serial dirent)).

Definition fat_close (file : Z) : FM Z := f ← get_file file; _ ← fat_private_of f; free_file file;; mret 0.

(** [cluster] and [dir] are exchanged: the chain that is freed is the parent directory's. *)
Definition fat_unlink (file : Z) (wants_directory : bool) : FM Z :=
  f ← get_file file;
  p ← fat_private_of f;
  dev ← file_dev f;
  let cluster := fp_parent p in
  let entry := fp_dir p in
  let dir := fp_cluster p in
  if negb (Bool.eqb (directory entry) wants_directory) then mret 1
  else
    on_disk dev (fun _ boot => fat_free_chain boot junk chain_fuel cluster);;
    set_entry dev dir (fp_index p) (with_filename (<[0%nat := 0xe5]> (filename entry)) entry);;
    fat_close file.
Definition fat_delete (file : Z) : FM Z := fat_unlink file false.
Definition fat_rmdir (file : Z) : FM Z := fat_unlink file true.

Definition fat_file_table : file_ops :=
  mk_file_ops fat_read fat_write fat_rmdir fat_delete fat_truncate fat_close fat_readdir fat_chmod fat_chown fat_ioctl fat_mmap.

(** ** Operations on paths *)

Definition fat_mode (e : dir_entry) : Z :=
  Z.lor (Z.lor (Z.lor S_IRUSR (Z.lor S_IRGRP S_IROTH)) (Z.lor S_IXUSR (Z.lor S_IXGRP S_IXOTH)))
    (Z.lor (if directory e then S_IFDIR else S_IFREG) (if read_only e then 0 else Z.lor S_IWUSR (Z.lor S_IWGRP S_IWOTH))).

Definition fat_open (fs : Z) (path : list Z) : FM Z :=
  f ← get_fs fs;
  r ← find_path (fs_dev f) 0 true path;
  if fo_cluster r =? not_found then mret 0
  else
    parent ← of_option (fo_dir r);
    let e := default (fp_dir junk_private) (fo_entry r) in
    let p := mk_fat_private e (default (fp_index junk_private) (fo_index r)) (fo_cluster r) parent in
    file ← kmalloc_ptr;
    let modified := rtc_mktime (mk_datetime (u8 (modified_second e * 2)) (modified_minute e) (modified_hour e) (modified_day e)
      (modified_month e) (modified_year e + 1980) 0 0 0) in
    put_file file (mk_file path 0 0 fat_file_ops fs 0 0
      (rtc_mktime (mk_datetime 0 0 0 (accessed_day e) (accessed_month e) (accessed_year e + 1980) 0 0 0))
      modified modified
      (rtc_mktime (mk_datetime (u8 (created_second e * 2 + created_ticks e mod 2)) (created_minute e) (created_hour e) (created_day e)
        (created_month e) (created_year e + 1980) 0 0 0))
      1 (fat_mode e) (de_size e) (fo_cluster r) (PFat p) 0);;
    mret file.

(** The lookups that try the short name of a new long name, changing its seventh character
    until it is not taken; [tmp_short_name] is a block of 13 bytes whose last is not set.  After
    256 rounds the character is back at its first value and the loop never ends. *)
Fixpoint unique_loop (fuel : nat) (dev dir : Z) (short : list Z) : FM (list Z) :=
  match fuel with
  | O => halt
  | S n =>
      r ← find_path dev dir false (until_zero (47 :: short));
      if fo_cluster r =? not_found then mret short
      else unique_loop n dev dir (<[6%nat := u8 (default 0 (short !! 6%nat) + 1)]> short)
  end.

(** The long-name entries: entry [i] of [len] goes to index [index + len - 1 - i]. *)
Fixpoint write_lfns (n : nat) (i len index placement : Z) (rest : list Z) (done_ : bool) (short : list Z) (dev dir : Z) : FM unit :=
  match n with
  | O => mret tt
  | S n' =>
      let '(chars, rest, done_) := lfn_fill 13 rest done_ in
      on_disk dev (fun _ boot => fat_set_dir_entry boot junk chain_fuel dir (index + len - 1 - i)
        (lfn_bytes placement chars (fat_get_short_filename_checksum short)));;
      write_lfns n' (i + 1) len index (next_placement placement len) rest done_ short dev dir
  end.

(** The part of [fat_create] and [fat_mkdir] that names the new entry: its short name and its
    index, after the long-name entries, if any, have been written. *)
Definition place_long (dots : bool) (dev dir : Z) (path : list Z) (start : Z) : FM (list Z * Z) :=
  let '(short, pos, consumed) := tilde_loop dots (drop (Z.to_nat start) path) (blank 11) 0 0 in
  if negb (u8 (junk 12) =? 0) then fault
  else
    short ← unique_loop 256 dev dir short;
    let from := start + consumed - pos in
    if from <? 0 then fault
    else
      let rest := drop (Z.to_nat from) path in
      let len := Z.of_nat (length rest) / 13 + 1 in
      index ← on_disk dev (fun _ boot => fat_get_free_dir_entry_chain boot junk chain_fuel dir (Z.to_nat len));
      write_lfns (Z.to_nat len) 0 len index 1 rest false short dev dir;;
      mret (short, index + len).

Definition new_cluster (dev : Z) : FM Z := on_disk dev (fun _ boot => fat_find_free_cluster_chain boot junk 1).
Definition new_index (dev dir : Z) : FM Z := on_disk dev (fun _ boot => fat_get_free_dir_entry_chain boot junk chain_fuel dir 1).

(** The start of both: an existing path is opened; otherwise the directory the lookup stopped in
    and the position behind the last '/'. *)
Definition locate_new (fs : Z) (path : list Z) : FM (Z + (Z * Z)) :=
  f ← get_fs fs;
  r ← find_path (fs_dev f) 0 true path;
  if negb (fo_cluster r =? not_found) then file ← fat_open fs path; mret (inl file)
  else
    slash ← of_option (CString.Kernel.strrchr (path ++ [0]) 47);
    match slash with
    | None => mret (inl 0)
    | Some i => dir ← of_option (fo_dir r); mret (inr (dir, i + 1))
    end.

Definition fat_create (fs : Z) (path : list Z) (mode uid gid : Z) : FM Z :=
  time ← now;
  let time := full_year time in
  f ← get_fs fs;
  let dev := fs_dev f in
  r ← locate_new fs path;
  match r with
  | inl file => mret file
  | inr (dir, start) =>
      let rest := drop (Z.to_nat start) path in
      (if is_long_filename rest 0 then
         place ← place_long true dev dir path start;
         cluster ← new_cluster dev;
         set_entry dev dir (snd place) (make_entry time (seconds time mod 2) 0 cluster (fst place))
       else
         let short := fst (fst (short_loop rest (blank 11) 0 0)) in
         index ← new_index dev dir;
         cluster ← new_cluster dev;
         set_entry dev dir index (make_entry time (seconds time mod 2) 0 cluster short));;
      fat_open fs path
  end.

Definition dot : list Z := 46 :: blank 10.
Definition dot_dot : list Z := 46 :: 46 :: blank 9.
Definition plain_dir (cluster : Z) (name : list Z) : dir_entry :=
  mk_entry name 0x10 0 0 0 0 0 0 0 0 0 0 0 (u16 (cluster / 2 ^ 16)) 0 0 0 0 0 0 (u16 cluster) 0.

Definition fat_mkdir (fs : Z) (path : list Z) (mode uid gid : Z) : FM Z :=
  time ← now;
  let time := full_year time in
  f ← get_fs fs;
  let dev := fs_dev f in
  r ← locate_new fs path;
  match r with
  | inl file => mret file
  | inr (dir, start) =>
      let rest := drop (Z.to_nat start) path in
      (if is_long_filename rest 0 then
         place ← place_long false dev dir path start;
         cluster ← new_cluster dev;
         set_entry dev dir (snd place) (make_entry time (seconds time mod 2 * 100) 0x10 cluster (fst place));;
         set_entry dev cluster 0 (plain_dir cluster dot);;
         set_entry dev cluster 1 (plain_dir cluster dot_dot)
       else
         let e cluster name := make_entry time (seconds time mod 2 * 100) 0x10 cluster name in
         index ← new_index dev dir;
         cluster ← new_cluster dev;
         set_entry dev dir index (e cluster (upper_loop rest (blank 11) 0));;
         i ← new_index dev cluster;
         set_entry dev cluster i (e cluster dot);;
         i ← new_index dev cluster;
         set_entry dev cluster i (e cluster dot_dot));;
      fat_open fs path
  end.

(** The boot sector is read straight into [bios_block]; the caller links the device to the
    file system. *)
Definition fat_mount (dev : Z) : FM Z :=
  d ← get_dev dev;
  let block := @drv_read (drivers dev) 0 1 (dv_disk d) junk 0 in
  let boot := read_bpb block in
  if negb (signature boot =? 0x28) && negb (signature boot =? 0x29) then mret 0
  else
    fs ← kmalloc_ptr;
    modify (fun s => set_fses (<[fs := mk_fs fat_fs_ops dev 0 (Some boot)]> (fses s)) s);;
    mret fs.

Definition fat_fs_table (name : list Z) : fs_ops :=
  mk_fs_ops name (Some fat_mount) fat_open fat_mkdir fat_create fat_mkfifo fat_mknod.

(** [init_fat]: the file system is registered under the name "FAT32". *)
Definition init_fat : VFM Z := vfs_register_fs fat_fs_ops;; mret 0.
End Fat32.

(** ** Reading a file *)

Lemma stamp_accessed_ok t e : entry_ok e -> entry_ok (stamp_accessed t e).
Proof. intros []. constructor; simpl; try done. unfold bits. repeat split; apply Z.mod_pos_bound; lia. Qed.

Section ReadFile.
Context (drivers : Z -> DriverOps) `{Env} (junk : mem) (chain_fuel : nat).
Context (dev : Z) (Hdrv : @BlockDriver 512 (drivers dev)).

(** The device [dev] holds a FAT volume with one-sector clusters, mounted as [fs]. *)
Record mounted (s : fs_state) (fs : Z) (f : fs_t) (boot : bpb) (d : devobj) : Prop := mk_mounted {
  mo_fs : fses s !! fs = Some f;
  mo_dev : fs_dev f = dev;
  mo_boot : fs_boot f = Some boot;
  mo_obj : devs s !! dev = Some d;
  mo_link : dv_fs d = fs;
  mo_volume : volume_ok boot;
  mo_cluster : cluster_size boot = 1
}.

(** A regular file: its entry is in the directory with the clusters [lp], its data in the
    clusters [l]. *)
Record fat_file (boot : bpb) (disk : mem) (p : fat_private) (lp l : list Z) : Prop := mk_fat_file {
  ff_dir : dir_chain boot chain_fuel disk (fp_parent p) lp;
  ff_index : 0 <= fp_index p < 16 * Z.of_nat (length lp);
  ff_entry : entry_ok (fp_dir p);
  ff_regular : directory (fp_dir p) = false;
  ff_chain : chain boot disk (entry_cluster (fp_dir p)) l;
  ff_table : Forall (in_table boot) l;
  ff_apart : forall c, c ∈ l -> c ∉ lp;
  ff_fuel : (length l <= chain_fuel)%nat
}.

Lemma on_disk_run {A} s fs f boot d (o : DriverOps -> bpb -> DM A) :
  mounted s fs f boot d ->
  on_disk drivers dev o s =
    match o (drivers dev) boot (dv_disk d) with
    | Done (a, disk) => Done (a, set_devs (<[dev := mk_devobj (dv d) disk (dv_fs d)]> (devs s)) s)
    | Halt => Halt | Fault => Fault | Fuel => Fuel
    end.
Proof. intros [Hfs _ Hb Hd Hl _ _]. unfold on_disk. by rewrite Hd, Hl, Hfs, Hb. Qed.

(** The clusters of the file lie outside those of its directory. *)
Lemma file_outside boot disk p lp l k c x :
  volume_ok boot -> fat_file boot disk p lp l -> l !! k = Some c -> 0 <= x < cluster_bytes boot ->
  outside boot lp (cluster_start boot c + x).
Proof.
  intros Hvol Hf Hk Hx c' Hc'. apply (cluster_disjoint boot c); [done| |lia]. intros ->.
  apply (ff_apart _ _ _ _ _ Hf c'); [by apply list_elem_of_lookup_2 with k|done].
Qed.

(** The file after its directory entry has been stamped. *)
Lemma fat_file_after boot disk disk' p lp l :
  volume_ok boot -> fat_file boot disk p lp l -> (forall x, outside boot lp x -> disk' x = disk x) ->
  chain boot disk' (entry_cluster (fp_dir p)) l /\
  forall m, holds_clusters boot m disk' 0 l -> holds_clusters boot m disk 0 l.
Proof.
  intros Hvol Hf Ho. split.
  - apply (chain_ext boot disk); [|apply Hf]. intros c Hc. apply fat_value_ext. intros x Hx. symmetry. apply Ho.
    intros c' Hc'. destruct Hf as [Hd _ _ _ _ Ht _ _]. pose proof (proj1 (Forall_forall _ _) Ht c Hc) as Hc1.
    pose proof (proj1 (Forall_forall _ _) (dc_table _ _ _ _ _ Hd) c' Hc') as [H2 _].
    pose proof (table_before_clusters boot c c' Hvol Hc1 ltac:(lia)). lia.
  - intros m Hm k c Hk x Hx. rewrite (Hm k c Hk x Hx). apply Ho. by apply (file_outside boot disk p lp l k).
Qed.

Lemma stamp_run s fs f boot d p lp l e :
  mounted s fs f boot d -> fat_file boot (dv_disk d) p lp l -> entry_ok e ->
  exists d', set_entry drivers junk chain_fuel dev (fp_parent p) (fp_index p) e s = Done (tt, set_devs (<[dev := d']> (devs s)) s) /\
    dv_fs d' = dv_fs d /\ (forall x, outside boot lp x -> dv_disk d' x = dv_disk d x).
Proof.
  intros Hm Hf He. pose proof Hm as [_ _ _ _ _ Hvol H1].
  destruct (@set_dir_entry_run (drivers dev) Hdrv boot junk chain_fuel Hvol H1 (dv_disk d) (fp_parent p) lp (fp_index p) e
    (ff_dir _ _ _ _ _ Hf) (ff_index _ _ _ _ _ Hf) He) as (disk' & b & b' & E & _ & Ho & _).
  exists (mk_devobj (dv d) disk' (dv_fs d)). unfold set_entry. rewrite (on_disk_run s fs f boot d _ Hm), E. done.
Qed.

End ReadFile.

(** ** Opening a file *)
Section OpenFile.
Context (drivers : Z -> DriverOps) `{Env} (junk : mem) (junk_private : fat_private) (reused : Z -> list Z) (chain_fuel n : nat).
Context (dev : Z) (Hdrv : @BlockDriver 512 (drivers dev)).

Lemma fat_mode_type e : S_ISDIR (fat_mode e) = directory e /\ S_ISREG (fat_mode e) = negb (directory e).
Proof. unfold fat_mode. by destruct (directory e), (read_only e). Qed.

(** opening a file of the root directory: on a mounted volume whose root directory has no
    long names, [fat_open] of "/name" allocates a file object for the first entry with that name,
    with the entry's size, type and clusters and one reference, and changes no other file;
    without such an entry it returns NULL and changes no file. *)
Theorem fat_open_root s fs g boot d l comp b :
  mounted dev s fs g boot d -> dir_chain boot chain_fuel (dv_disk d) (root_cluster boot) l ->
  @load_dir (drivers dev) boot junk chain_fuel (root_cluster boot) (dv_disk d) = Done (b, dv_disk d) ->
  no_long_names b -> plain_component comp ->
  let open := fat_open drivers junk junk_private reused chain_fuel (S (S n)) fs (47 :: comp) in
  (forall i, 0 <= i < b_size b / 32 -> FatDir.named b (short_name_of comp) i ->
     (forall j, 0 <= j < i -> ~ FatDir.named b (short_name_of comp) j) ->
     let e := read_entry (b_mem b) (32 * i) in entry_cluster e <> not_found ->
     exists f s', open s = Done (next_ptr s, s') /\ files s' = <[next_ptr s := f]> (files s) /\
       private_data f = PFat (mk_fat_private e i (entry_cluster e) (root_cluster boot)) /\ f_fs f = fs /\
       f_length f = de_size e /\ ref_count f = 1 /\ S_ISDIR (f_mode f) = directory e /\ S_ISREG (f_mode f) = negb (directory e)) /\
  ((forall i, 0 <= i < b_size b / 32 -> ~ FatDir.named b (short_name_of comp) i) ->
     exists s', open s = Done (0, s') /\ files s' = files s).
Proof.
  intros Hm Hd Hload Hno Hcomp open. pose proof Hm as [Hfs Hdev Hboot Hobj Hlink Hvol H1].
  destruct (@find_root_run (drivers dev) boot junk reused chain_fuel n (dv_disk d) l comp b (mk_found 0 None None None)
    Hd Hload Hno Hcomp) as (r & Er & Hr).
  set (s1 := set_devs (<[dev := mk_devobj (dv d) (dv_disk d) (dv_fs d)]> (devs s)) s).
  assert (Ef : find_path drivers junk reused chain_fuel (S (S n)) dev 0 true (47 :: comp) s = Done (r, s1)).
  { unfold find_path. rewrite (on_disk_run drivers dev s fs g boot d _ Hm). by rewrite Er. }
  assert (Eo : open s = (if fo_cluster r =? not_found then mret 0
    else parent ← of_option (fo_dir r);
      let e := default (fp_dir junk_private) (fo_entry r) in
      let p := mk_fat_private e (default (fp_index junk_private) (fo_index r)) (fo_cluster r) parent in
      file ← kmalloc_ptr;
      let modified := rtc_mktime (mk_datetime (u8 (modified_second e * 2)) (modified_minute e) (modified_hour e) (modified_day e)
        (modified_month e) (modified_year e + 1980) 0 0 0) in
      put_file file (mk_file (47 :: comp) 0 0 fat_file_ops fs 0 0
        (rtc_mktime (mk_datetime 0 0 0 (accessed_day e) (accessed_month e) (accessed_year e + 1980) 0 0 0))
        modified modified
        (rtc_mktime (mk_datetime (u8 (created_second e * 2 + created_ticks e mod 2)) (created_minute e) (created_hour e) (created_day e)
          (created_month e) (created_year e + 1980) 0 0 0))
        1 (fat_mode e) (de_size e) (fo_cluster r) (PFat p) 0);;
      mret file) s1).
  { subst open. unfold fat_open. rewrite (bind_run (get_fs fs) _ s g s) by (unfold get_fs; by rewrite Hfs). rewrite Hdev.
    by rewrite (bind_run _ _ _ _ _ Ef). }
  split.
  - intros i Hi Hn Hlow e Hc. destruct Hr as [(j & Hj & Hnj & Hlowj & ->)|[Hnone _]]; [|by destruct (Hnone i Hi)].
    assert (j = i) as ->.
    { destruct (Z.lt_total i j) as [|[|]]; [by destruct (Hlowj i ltac:(lia))|done|by destruct (Hlow j ltac:(lia))]. }
    rewrite Eo. cbn [fo_cluster]. rewrite (proj2 (Z.eqb_neq _ _)) by exact Hc. eexists _, _. split; [reflexivity|].
    simpl. split_and!; try done; apply fat_mode_type.
  - intros Hnone. destruct Hr as [(j & Hj & Hnj & _)|[_ ->]]; [by destruct (Hnone j Hj)|].
    rewrite Eo. by eexists.
Qed.
End OpenFile.

(** ** Instances on the small volume *)

Definition small_dev : devobj := mk_devobj ram_disk small_disk 1.
Definition small_private : fat_private := mk_fat_private small_entry 0 3 2.
Definition small_file : fs_file := mk_file (47 :: small_name) 0 0 fat_file_ops 1 0 0 0 0 0 0 1 0x81ff 1024 3 (PFat small_private) 0.
Definition small_state : fs_state :=
  mk_fs_state (<[8 := small_file]> ∅) (<[1 := mk_fs fat_fs_ops 4 0 (Some small_boot)]> ∅) ∅ (<[4 := small_dev]> ∅) 9 (fun _ => 0).

Lemma small_mounted : mounted 4 small_state 1 (mk_fs fat_fs_ops 4 0 (Some small_boot)) small_boot small_dev.
Proof. constructor; try reflexivity. apply small_volume. Qed.

Lemma small_fat_file : fat_file 9 small_boot small_disk small_private [2] [3; 4].
Proof.
  constructor; [apply small_dir|simpl; lia|apply small_entry_ok|reflexivity|apply small_file_chain|apply small_table| |simpl; lia].
  intros c Hc Hc'. apply list_elem_of_singleton in Hc' as ->. rewrite !elem_of_cons, elem_of_nil in Hc. lia.
Qed.

Definition sample_time : datetime :=
  match rtc_get_datetime (@cmos sample_env) (@century sample_env) with Some t => t | None => mk_datetime 0 0 0 0 0 0 0 0 0 end.
Lemma sample_clock : rtc_get_datetime (@cmos sample_env) (@century sample_env) = Some sample_time.
Proof. vm_compute. reflexivity. Qed.


Lemma fat_open_root_witness :
  exists f s', fat_open no_drivers (fun _ => 7) small_private (fun _ => []) 9 2 1 (47 :: small_name) small_state = Done (9, s') /\
    files s' = <[9 := f]> (files small_state) /\ f_length f = 1024.
Proof.
  destruct small_load as (b & E & Hs & Hb). destruct (small_entries b Hs Hb) as [Hun He].
  destruct (proj1 (fat_open_root no_drivers (fun _ => 7) small_private (fun _ => []) 9 0 4 small_state 1 _ small_boot small_dev
    [2] small_name b small_mounted small_dir E (small_no_long b Hs Hb) small_comp) 0) as (f & s' & E' & Ef & _ & _ & Hl & _);
    [rewrite Hs; done|split; [by rewrite Hun|change (32 * 0) with 0; by rewrite He]|lia|change (32 * 0) with 0; by rewrite He|].
  exists f, s'. split; [exact E'|]. split; [exact Ef|]. rewrite Hl. change (32 * 0) with 0. by rewrite He.
Defined.
