(* ===== verification/Event.v ===== *)
(** * Events (src/src/kernel/event.c)

    The event objects of the kernel by address.  A lock that is already taken makes [LOCK]
    spin: [Halt], as one CPU sees it.  What the other CPUs do while [event_await] polls is a
    list of rounds, each the list of events they trigger before the next poll. *)
From S2P Require Import Prelude.

Record event_t := mk_event { pending : Z; e_lock : bool }.

Abbreviation EM := (M (gmap Z event_t)).

Definition get_event (e : Z) : EM event_t := fun s => of_option (s !! e) s.
Definition put_event (e : Z) (v : event_t) : EM unit := modify (insert e v).

Definition LOCK_event (e : Z) : EM unit :=
  v ← get_event e; if e_lock v then halt else put_event e (mk_event (pending v) true).
Definition UNLOCK_event (e : Z) : EM unit :=
  v ← get_event e; put_event e (mk_event (pending v) false).

Fixpoint lock_all (events : list Z) : EM unit :=
  match events with [] => mret tt | e :: es => LOCK_event e;; lock_all es end.
Fixpoint unlock_all (events : list Z) : EM unit :=
  match events with [] => mret tt | e :: es => UNLOCK_event e;; unlock_all es end.

(** The scan for a pending event: its index, counted from [i], after consuming it. *)
Fixpoint take_pending (events : list Z) (i : Z) : EM (option Z) :=
  match events with
  | [] => mret None
  | e :: es =>
      v ← get_event e;
      if truthy (pending v) then put_event e (mk_event (u64 (pending v - 1)) (e_lock v));; mret (Some i)
      else take_pending es (i + 1)
  end.

Definition event_trigger (e : Z) : EM unit :=
  LOCK_event e;;
  v ← get_event e;
  put_event e (mk_event (u64 (pending v + 1)) (e_lock v));;
  UNLOCK_event e.

Fixpoint trigger_all (events : list Z) : EM unit :=
  match events with [] => mret tt | e :: es => event_trigger e;; trigger_all es end.

(** The polling loop, one round of the other CPUs at a time. *)
Fixpoint await_loop (events : list Z) (rounds : list (list Z)) : EM Z :=
  match rounds with
  | [] => out_of_fuel
  | round :: rounds' =>
      trigger_all round;;
      r ← take_pending events 0;
      match r with Some i => mret i | None => await_loop events rounds' end
  end.

Definition event_await (events : list Z) (block : bool) (rounds : list (list Z)) : EM Z :=
  lock_all events;;
  r ← take_pending events 0;
  match r with
  | Some i => mret i
  | None =>
      unlock_all events;;
      if negb block then mret (-1) else await_loop events rounds
  end.

(** ** Properties *)

Definition with_lock (b : bool) (v : event_t) : event_t := mk_event (pending v) b.

(** The events with the locks of the listed ones set to [b]. *)
Definition relock (b : bool) (events : list Z) (s : gmap Z event_t) : gmap Z event_t :=
  map_imap (fun e v => Some (if bool_decide (e ∈ events) then with_lock b v else v)) s.

Lemma relock_lookup b events s e :
  relock b events s !! e = (fun v => if bool_decide (e ∈ events) then with_lock b v else v) <$> s !! e.
Proof. unfold relock. rewrite map_lookup_imap. by destruct (s !! e). Qed.

Lemma relock_cons b e events s v :
  s !! e = Some v -> relock b events (<[e := with_lock b v]> s) = relock b (e :: events) s.
Proof.
  intros He. apply map_eq. intros k. rewrite !relock_lookup. destruct (decide (k = e)) as [->|Hne].
  - rewrite lookup_insert_eq, He. simpl. rewrite (bool_decide_true (e ∈ e :: events)) by left.
    by case_bool_decide.
  - rewrite lookup_insert_ne by congruence. destruct (s !! k); simpl; [|done]. f_equal.
    rewrite (bool_decide_ext (k ∈ e :: events) (k ∈ events)); [done|]. rewrite elem_of_cons. naive_solver.
Qed.

Lemma lock_all_run events s :
  NoDup events -> (forall e, e ∈ events -> exists v, s !! e = Some v /\ e_lock v = false) ->
  lock_all events s = Done (tt, relock true events s).
Proof.
  revert s. induction events as [|e es IH]; intros s Hnd Hfree; simpl.
  - unfold mret, M_ret. do 2 f_equal. apply map_eq. intros k. rewrite relock_lookup. by destruct (s !! k).
  - apply NoDup_cons in Hnd as [Hni Hnd]. destruct (Hfree e ltac:(left)) as (v & Hv & Hl).
    rewrite (bind_run (LOCK_event e) _ s tt (<[e := with_lock true v]> s)).
    2: { unfold LOCK_event, get_event, mbind, M_bind. rewrite Hv. simpl. by rewrite Hl. }
    rewrite IH; [by rewrite (relock_cons true e es s v Hv)|done|].
    intros e' He'. destruct (Hfree e' ltac:(by right)) as (v' & Hv' & Hl'). exists v'.
    by rewrite lookup_insert_ne by congruence.
Qed.

Lemma unlock_all_run events s :
  (forall e, e ∈ events -> is_Some (s !! e)) -> unlock_all events s = Done (tt, relock false events s).
Proof.
  revert s. induction events as [|e es IH]; intros s Hin; simpl.
  - unfold mret, M_ret. do 2 f_equal. apply map_eq. intros k. rewrite relock_lookup. by destruct (s !! k).
  - destruct (Hin e ltac:(left)) as [v Hv].
    rewrite (bind_run (UNLOCK_event e) _ s tt (<[e := with_lock false v]> s)).
    2: { unfold UNLOCK_event, get_event, mbind, M_bind. by rewrite Hv. }
    rewrite IH; [by rewrite (relock_cons false e es s v Hv)|].
    intros e' He'. destruct (decide (e' = e)) as [->|]; [rewrite lookup_insert_eq; eauto|].
    rewrite lookup_insert_ne by congruence. apply Hin. by right.
Qed.

Definition is_pending (s : gmap Z event_t) (e : Z) : bool :=
  match s !! e with Some v => truthy (pending v) | None => false end.

(** The first pending event of the list, and its index. *)
Fixpoint first_pending (s : gmap Z event_t) (events : list Z) (i : Z) : option (Z * Z) :=
  match events with
  | [] => None
  | e :: es => if is_pending s e then Some (i, e) else first_pending s es (i + 1)
  end.

Definition consume (e : Z) (s : gmap Z event_t) : gmap Z event_t :=
  match s !! e with Some v => <[e := mk_event (u64 (pending v - 1)) (e_lock v)]> s | None => s end.

Lemma take_pending_run events i s :
  (forall e, e ∈ events -> is_Some (s !! e)) ->
  take_pending events i s =
    Done (match first_pending s events i with Some (k, e) => (Some k, consume e s) | None => (None, s) end).
Proof.
  revert i. induction events as [|e es IH]; intros i Hin; simpl; [done|].
  destruct (Hin e ltac:(left)) as [v Hv]. unfold is_pending.
  rewrite (bind_run (get_event e) _ s v s) by (unfold get_event; by rewrite Hv). rewrite Hv.
  destruct (truthy (pending v)).
  - unfold consume. by rewrite Hv.
  - apply IH. intros; apply Hin; by right.
Qed.

(** No event listed twice, none locked. *)
Record ready (s : gmap Z event_t) (events : list Z) : Prop := mk_ready {
  ready_nodup : NoDup events;
  ready_free : forall e, e ∈ events -> exists v, s !! e = Some v /\ e_lock v = false
}.

Lemma first_pending_relock b s l events i : first_pending (relock b l s) events i = first_pending s events i.
Proof.
  revert i. induction events as [|e es IH]; intros i; simpl; [done|]. unfold is_pending.
  rewrite relock_lookup, IH. destruct (s !! e); simpl; [|done]. by case_bool_decide.
Qed.

Lemma relock_in b s events e : is_Some (s !! e) -> is_Some (relock b events s !! e).
Proof. intros [v Hv]. rewrite relock_lookup, Hv. by eexists. Qed.

Lemma relock_undo s events : ready s events -> relock false events (relock true events s) = s.
Proof.
  intros [_ Hf]. apply map_eq. intros k. rewrite !relock_lookup. destruct (s !! k) as [v|] eqn:E; [|done]. simpl.
  case_bool_decide as Hk; [|done]. destruct (Hf k Hk) as (v' & Hv' & Hl). assert (v' = v) as -> by congruence.
  destruct v. unfold with_lock. simpl in *. by subst.
Qed.

Lemma await_run s events block rounds :
  ready s events ->
  match first_pending s events 0 with
  | None => event_await events false rounds s = Done (-1, s)
  | Some (i, e) => event_await events block rounds s = Done (i, consume e (relock true events s))
  end.
Proof.
  intros Hr. pose proof Hr as [Hnd Hf].
  assert (Hin : forall e, e ∈ events -> is_Some (relock true events s !! e)).
  { intros e He. apply relock_in. destruct (Hf e He) as (v & Hv & _). by eexists. }
  pose proof (take_pending_run events 0 (relock true events s) Hin) as Ht. rewrite first_pending_relock in Ht.
  destruct (first_pending s events 0) as [[i e]|]; unfold event_await;
    rewrite (bind_run _ _ _ _ _ (lock_all_run events s Hnd Hf)), (bind_run _ _ _ _ _ Ht); [done|].
  rewrite (bind_run _ _ _ _ _ (unlock_all_run events _ Hin)). by rewrite relock_undo.
Qed.

Lemma consume_lock e s k : e_lock <$> consume e s !! k = e_lock <$> s !! k.
Proof.
  unfold consume. destruct (s !! e) as [v|] eqn:Hv; [|done]. destruct (decide (k = e)) as [->|].
  - by rewrite lookup_insert_eq, Hv.
  - by rewrite lookup_insert_ne by congruence.
Qed.

(** *** Polling *)

(** An event after one more trigger. *)
Definition triggered (e : Z) (s : gmap Z event_t) : gmap Z event_t :=
  match s !! e with Some v => <[e := mk_event (u64 (pending v + 1)) (e_lock v)]> s | None => s end.

(** The events after the first [k] rounds of the other CPUs. *)
Definition after (s : gmap Z event_t) (rounds : list (list Z)) (k : nat) : gmap Z event_t :=
  foldl (fun s e => triggered e s) s (concat (take k rounds)).

(** All the listed events exist and are unlocked. *)
Definition unlocked (s : gmap Z event_t) (events : list Z) : Prop :=
  forall e, e ∈ events -> e_lock <$> s !! e = Some false.

Lemma triggered_lock e s k : e_lock <$> triggered e s !! k = e_lock <$> s !! k.
Proof.
  unfold triggered. destruct (s !! e) as [v|] eqn:Hv; [|done]. destruct (decide (k = e)) as [->|].
  - by rewrite lookup_insert_eq, Hv.
  - by rewrite lookup_insert_ne by congruence.
Qed.

Lemma foldl_triggered_lock l s k : e_lock <$> foldl (fun s e => triggered e s) s l !! k = e_lock <$> s !! k.
Proof. revert s. induction l as [|e l IH]; intros s; [done|]. cbn [foldl]. by rewrite IH, triggered_lock. Qed.

Lemma trigger_all_run l s : unlocked s l -> trigger_all l s = Done (tt, foldl (fun s e => triggered e s) s l).
Proof.
  revert s. induction l as [|e l IH]; intros s Hu; [done|]. cbn [trigger_all foldl].
  rewrite (bind_run (event_trigger e) _ s tt (triggered e s)).
  - apply IH. intros x Hx. rewrite triggered_lock. apply Hu. by right.
  - specialize (Hu e ltac:(left)). unfold triggered. destruct (s !! e) as [v|] eqn:Hv; [|done]. injection Hu as Hl.
    unfold event_trigger, LOCK_event, UNLOCK_event, get_event, put_event, modify, mbind, M_bind. rewrite Hv. simpl.
    rewrite Hl. simpl. rewrite !lookup_insert_eq. simpl. rewrite !lookup_insert_eq. simpl.
    rewrite !insert_insert_eq. done.
Qed.

Lemma unlocked_in s events e : unlocked s events -> e ∈ events -> is_Some (s !! e).
Proof. intros Hu He. specialize (Hu e He). destruct (s !! e); [by eexists|done]. Qed.

Lemma after_cons s r rounds k : after s (r :: rounds) (S k) = after (foldl (fun s e => triggered e s) s r) rounds k.
Proof. unfold after. cbn [take concat]. by rewrite foldl_app. Qed.

(** The polling loop: it returns after the first round that leaves an awaited event pending, and
    goes on as long as there is none. *)
Lemma await_loop_run events rounds s :
  unlocked s events -> unlocked s (concat rounds) ->
  (exists k i e, (k < length rounds)%nat /\ (forall j, (j < k)%nat -> first_pending (after s rounds (S j)) events 0 = None) /\
     first_pending (after s rounds (S k)) events 0 = Some (i, e) /\
     await_loop events rounds s = Done (i, consume e (after s rounds (S k)))) \/
  ((forall j, (j < length rounds)%nat -> first_pending (after s rounds (S j)) events 0 = None) /\
     await_loop events rounds s = Fuel).
Proof.
  revert s. induction rounds as [|r rounds IH]; intros s He Hr; [right; split; [intros j Hj; cbn in Hj; lia|done]|].
  cbn [await_loop]. rewrite (bind_run _ _ _ _ _ (trigger_all_run r s ltac:(intros x Hx; apply Hr; cbn; apply elem_of_app; by left))).
  set (s1 := foldl (fun s e => triggered e s) s r).
  assert (He1 : unlocked s1 events) by (intros x Hx; unfold s1; rewrite foldl_triggered_lock; by apply He).
  assert (Hr1 : unlocked s1 (concat rounds)) by (intros x Hx; unfold s1; rewrite foldl_triggered_lock; apply Hr; cbn; apply elem_of_app; by right).
  pose proof (take_pending_run events 0 s1 (fun e => unlocked_in s1 events e He1)) as Ht.
  assert (E0 : after s (r :: rounds) 1 = s1) by (rewrite after_cons; unfold after; by rewrite take_0).
  destruct (first_pending s1 events 0) as [[i e]|] eqn:Ef; rewrite (bind_run _ _ _ _ _ Ht).
  - left. exists 0%nat, i, e. rewrite E0. split; [cbn; lia|]. split; [intros j Hj; lia|]. done.
  - assert (Low : forall n, (forall j, (j < n)%nat -> first_pending (after s1 rounds (S j)) events 0 = None) ->
      forall j, (j < S n)%nat -> first_pending (after s (r :: rounds) (S j)) events 0 = None).
    { intros n Hn [|j] Hj; [by rewrite E0|]. rewrite after_cons. apply Hn. lia. }
    destruct (IH s1 He1 Hr1) as [(k & i & e & Hk & Hlow & Hf & E)|[Hlow E]].
    + left. exists (S k), i, e. split; [cbn; lia|]. split; [by apply Low|]. rewrite (after_cons s r rounds (S k)). done.
    + right. split; [by apply Low|done].
Qed.

(** C24: [event_await] on events that are not locked, whatever the other CPUs trigger in the rounds
    between two polls.  When an awaited event is pending, it returns the index of the first pending
    one and consumes one occurrence of exactly that event, but returns with the locks of all the
    awaited events still held.  When none is pending, a non-blocking call returns -1 with every
    event, its lock included, as it was; a blocking call polls with the locks released: it returns
    after the first round of triggers that leaves an awaited event pending, with the index of the
    first such event, one occurrence of it consumed and no awaited event locked, and it goes on
    polling exactly as long as no round does. *)
Theorem event_await_spec s events block rounds :
  ready s events -> unlocked s (concat rounds) ->
  match first_pending s events 0 with
  | Some (i, e) => event_await events block rounds s = Done (i, consume e (relock true events s))
  | None =>
      if block then
        (exists k i e, (k < length rounds)%nat /\ (forall j, (j < k)%nat -> first_pending (after s rounds (S j)) events 0 = None) /\
           first_pending (after s rounds (S k)) events 0 = Some (i, e) /\
           event_await events true rounds s = Done (i, consume e (after s rounds (S k))) /\
           unlocked (consume e (after s rounds (S k))) events) \/
        ((forall j, (j < length rounds)%nat -> first_pending (after s rounds (S j)) events 0 = None) /\
           event_await events true rounds s = Fuel)
      else event_await events false rounds s = Done (-1, s)
  end.
Proof.
  intros Hr Hu. pose proof (await_run s events block rounds Hr) as A.
  destruct (first_pending s events 0) as [[i e]|] eqn:Ef; [done|]. destruct block; [|done]. clear A.
  pose proof Hr as [Hnd Hf].
  assert (He : unlocked s events) by (intros e He; destruct (Hf e He) as (v & -> & <-); done).
  assert (Hin : forall e, e ∈ events -> is_Some (relock true events s !! e)) by (intros e Hx; apply relock_in; by eapply unlocked_in).
  assert (L : event_await events true rounds s = await_loop events rounds s).
  { pose proof (take_pending_run events 0 (relock true events s) Hin) as Ht. rewrite first_pending_relock, Ef in Ht.
    unfold event_await. rewrite (bind_run _ _ _ _ _ (lock_all_run events s Hnd Hf)), (bind_run _ _ _ _ _ Ht).
    rewrite (bind_run _ _ _ _ _ (unlock_all_run events _ Hin)). by rewrite relock_undo. }
  rewrite L. destruct (await_loop_run events rounds s He Hu) as [(k & i & e & Hk & Hlow & Hfp & E)|R]; [left|by right].
  exists k, i, e. do 4 (split; [done|]). intros x Hx. rewrite consume_lock. unfold after. rewrite foldl_triggered_lock. by apply He.
Qed.

Lemma await_locks s events block rounds i s' e :
  ready s events -> is_Some (first_pending s events 0) ->
  event_await events block rounds s = Done (i, s') -> e ∈ events ->
  event_trigger e s' = Halt /\ forall b r, event_await [e] b r s' = Halt.
Proof.
  intros Hr [[k c] Hp] E He. pose proof Hr as [Hnd Hf].
  assert (Hs' : s' = consume c (relock true events s)).
  { assert (Hin : forall e, e ∈ events -> is_Some (relock true events s !! e)).
    { intros x Hx. apply relock_in. destruct (Hf x Hx) as (v & Hv & _). by eexists. }
    pose proof (take_pending_run events 0 (relock true events s) Hin) as Ht.
    rewrite first_pending_relock, Hp in Ht. unfold event_await in E.
    rewrite (bind_run _ _ _ _ _ (lock_all_run events s Hnd Hf)), (bind_run _ _ _ _ _ Ht) in E. by injection E as _ <-. }
  assert (Hl : exists v, s' !! e = Some v /\ e_lock v = true).
  { pose proof (consume_lock c (relock true events s) e) as Hc. rewrite <- Hs' in Hc.
    rewrite relock_lookup in Hc. destruct (Hf e He) as (v & Hv & _). rewrite Hv in Hc. simpl in Hc.
    rewrite bool_decide_true in Hc by done. destruct (s' !! e) as [v'|]; [|done]. exists v'. split; [done|].
    simpl in Hc. congruence. }
  destruct Hl as (v & Hv & Hl).
  assert (HL : LOCK_event e s' = Halt).
  { unfold LOCK_event, get_event, mbind, M_bind. rewrite Hv. simpl. by rewrite Hl. }
  split; [|intros b r]; unfold event_trigger, event_await; simpl; unfold mbind, M_bind; by rewrite HL.
Qed.

(** after an [event_await] that returned an index, every awaited event is dead: triggering it
    again spins on the lock that was never released, and so does waiting for it. *)
Theorem event_await_leaks_locks s events block rounds i s' e :
  ready s events -> is_Some (first_pending s events 0) ->
  event_await events block rounds s = Done (i, s') -> e ∈ events ->
  event_trigger e s' = Halt /\ forall b r, event_await [e] b r s' = Halt.
Proof. apply await_locks. Qed.

(** a blocking [event_await] on events of which none is pending returns as soon as another
    CPU triggers one of them: with one round that triggers an awaited event it gives that
    event's index, consumes the trigger and holds no lock. *)
Theorem event_await_blocks s events e k rest :
  ready s events -> first_pending s events 0 = None -> events !! k = Some e ->
  (forall v, s !! e = Some v -> pending v = 0) ->
  event_await events true ([e] :: rest) s = Done (Z.of_nat k, s).
Proof.
  intros Hr Hnone Hk Hzero. pose proof Hr as [Hnd Hf].
  assert (Hin : forall e, e ∈ events -> is_Some (relock true events s !! e)).
  { intros x Hx. apply relock_in. destruct (Hf x Hx) as (v & Hv & _). by eexists. }
  pose proof (take_pending_run events 0 (relock true events s) Hin) as Ht. rewrite first_pending_relock, Hnone in Ht.
  unfold event_await. rewrite (bind_run _ _ _ _ _ (lock_all_run events s Hnd Hf)), (bind_run _ _ _ _ _ Ht).
  rewrite (bind_run _ _ _ _ _ (unlock_all_run events _ Hin)). rewrite relock_undo by done.
  destruct (Hf e (list_elem_of_lookup_2 _ _ _ Hk)) as (v & Hv & Hl). pose proof (Hzero v Hv) as H0.
  set (s1 := <[e := mk_event 1 false]> s).
  change (negb true) with false. cbv iota. cbn [await_loop].
  rewrite (bind_run (trigger_all [e]) _ s tt s1).
  2: { unfold trigger_all, event_trigger, LOCK_event, UNLOCK_event, get_event, put_event, modify, mbind, M_bind.
       rewrite Hv. simpl. rewrite Hl. simpl. rewrite !lookup_insert_eq. simpl. rewrite !lookup_insert_eq. simpl.
       unfold mret, M_ret. subst s1. rewrite H0, !insert_insert_eq. done. }
  assert (Hfp : first_pending s1 events 0 = Some (Z.of_nat k, e)).
  { clear Ht Hin Hf Hr. change (Z.of_nat k) with (0 + Z.of_nat k). revert Hnone Hk. generalize 0 as i. revert k.
    induction Hnd as [|x es Hx Hnd IH]; intros k i Hnone Hk; [done|]. simpl in *.
    destruct k as [|k]; simpl in Hk.
    - injection Hk as ->. unfold is_pending at 1, s1. rewrite lookup_insert_eq. simpl. by rewrite Z.add_0_r.
    - assert (x <> e) by (intros ->; apply Hx; by apply list_elem_of_lookup_2 in Hk).
      unfold is_pending, s1 in *. rewrite lookup_insert_ne by congruence. fold s1.
      destruct (match s !! x with Some v => _ | None => _ end); [done|].
      replace (i + Z.of_nat (S k)) with ((i + 1) + Z.of_nat k) by lia. by apply IH. }
  assert (Hin1 : forall x, x ∈ events -> is_Some (s1 !! x)).
  { intros x Hx. destruct (Hf x Hx) as (w & Hw & _). subst s1. destruct (decide (x = e)) as [->|].
    - rewrite lookup_insert_eq. by eexists. - rewrite lookup_insert_ne by congruence. by eexists. }
  pose proof (take_pending_run events 0 s1 Hin1) as Ht1. rewrite Hfp in Ht1. rewrite (bind_run _ _ _ _ _ Ht1).
  unfold mret, M_ret, consume, s1. rewrite lookup_insert_eq. simpl. rewrite insert_insert_eq. do 2 f_equal.
  change (u64 (1 - 1)) with 0. apply insert_id. rewrite Hv. destruct v. simpl in *. by subst.
Qed.

(** ** Instances *)

Definition two_events : gmap Z event_t := <[1 := mk_event 0 false]> (<[2 := mk_event 1 false]> ∅).
Definition idle_events : gmap Z event_t := <[1 := mk_event 0 false]> (<[2 := mk_event 0 false]> ∅).

Lemma two_ready (s : gmap Z event_t) :
  e_lock <$> s !! 1 = Some false -> e_lock <$> s !! 2 = Some false -> ready s [1; 2].
Proof.
  intros H1 H2. constructor; [by apply (bool_decide_unpack _)|].
  intros e [->|[->|[]%elem_of_nil]%elem_of_cons]%elem_of_cons; [destruct (s !! 1)|destruct (s !! 2)];
    try done; eexists; split; try done; simpl in *; congruence.
Qed.

(** An event that is pending at once, and one that another CPU triggers in the second round. *)
Lemma event_await_spec_witness :
  event_await [1; 2] true [] two_events = Done (1, consume 2 (relock true [1; 2] two_events)) /\
  event_await [1; 2] false [] idle_events = Done (-1, idle_events) /\
  exists s', event_await [1; 2] true [[]; [2]] idle_events = Done (1, s') /\ unlocked s' [1; 2].
Proof.
  split; [|split].
  - apply (event_await_spec two_events [1; 2] true [] (two_ready two_events eq_refl eq_refl)). intros e []%elem_of_nil.
  - apply (event_await_spec idle_events [1; 2] false [] (two_ready idle_events eq_refl eq_refl)). intros e []%elem_of_nil.
  - assert (U : unlocked idle_events (concat [[]; [2]])) by (intros e [->|[]%elem_of_nil]%elem_of_cons; reflexivity).
    destruct (event_await_spec idle_events [1; 2] true [[]; [2]] (two_ready idle_events eq_refl eq_refl) U)
      as [(k & i & e & Hk & _ & Hf & E & Hl)|[Hn _]].
    + assert (R : match event_await [1; 2] true [[]; [2]] idle_events with Done (i, _) => i | _ => -2 end = 1) by (vm_compute; reflexivity).
      rewrite E in R. subst i. eexists. split; [exact E|exact Hl].
    + specialize (Hn 1%nat ltac:(cbn; lia)). vm_compute in Hn. discriminate Hn.
Defined.

Lemma event_await_leaks_locks_witness :
  event_trigger 1 (consume 2 (relock true [1; 2] two_events)) = Halt.
Proof.
  refine (proj1 (event_await_leaks_locks two_events [1; 2] true [] 1 _ 1 (two_ready two_events eq_refl eq_refl) _ _ _));
    [by eexists|reflexivity|left].
Defined.

Lemma event_await_blocks_witness : event_await [1; 2] true [[2]] idle_events = Done (1, idle_events).
Proof.
  apply (event_await_blocks idle_events [1; 2] 2 1 [] (two_ready idle_events eq_refl eq_refl)); [done|done|].
  intros v [= <-]. reflexivity.
Defined.
