(* ===== verification/Kernel.v ===== *)
(** * The kernel's objects (include/tasking/scheduler.h, cpu_locals.h, sys/syscall.h, registers.h)

    The state that scheduling, processes and system calls share: threads, processes, events and
    open-file objects by address, the run queues, the CPUs, the memory manager and the file
    systems.  Every operation runs on one CPU, whose number the code finds through
    [get_locals()]; [v_cr3] of the memory manager is that CPU's. *)
From S2P Require Import Prelude Pmm PageTable Vmm Fs Vfs Event.

Definition FDS_COUNT : Z := 128.
Definition PRIORITY_LEVELS : Z := 20.
Definition WNOHANG : Z := 1.

(** [registers_t]: the register file, by register. *)
Inductive reg :=
| R15 | R14 | R13 | R12 | R11 | R10 | R9 | R8 | RBP | RDI | RSI | RDX | RCX | RBX | RAX
| RIP | CS | RFLAGS | RSP | SS.
#[export] Instance reg_eq_dec : EqDecision reg.
Proof. solve_decision. Defined.

Definition registers : Type := reg -> Z.
Definition set_reg (r : reg) (v : Z) (rs : registers) : registers := fun q => if decide (q = r) then v else rs q.

(** [thread_t], without [which_event], which no code uses. *)
Record thread_t := mk_thread {
  t_parent : Z; alive : Z; t_gid : Z; t_uid : Z; tid : Z; t_lock : bool; queued : Z; priority : Z;
  kernel_stack : Z; t_regs : registers; fpu_storage : list Z
}.

Record proc_t := mk_proc {
  user : Z; pid : Z; p_parent : Z; p_children : list Z; p_threads : list Z; p_pagemap : Z;
  stack_top : Z; mmap_top : Z; mmaped_len : Z; fds : list Z; p_event : Z; p_status : Z
}.

(** [syscall_file_t]: an open file of a process. *)
Record syscall_file := mk_sfile { sf_file : Z; sf_flags : Z }.

(** [cpu_locals_t], the CPU's FPU registers and its one-shot timer. *)
Record cpu_locals := mk_cpu {
  current_thread : Z; last_run_thread_index : list Z; current_priority_peg : Z; current_priority : Z;
  tss_rsp0 : Z; c_fpu : list Z; c_timer : option Z
}.

Record kstate := mk_kstate {
  k_vmm : vmm_state;
  k_vfs : vfs_state;
  k_threads : gmap Z thread_t;
  k_procs : gmap Z proc_t;
  k_events : gmap Z event_t;
  k_sfiles : gmap Z syscall_file;
  queues : list (list Z);
  k_cpus : list cpu_locals;
  sched_lock : bool;
  current_pid : Z;
  current_tid : Z;
  k_next : Z
}.

Abbreviation KM := (M kstate).

Definition set_k_vmm (x : vmm_state) (s : kstate) : kstate :=
  mk_kstate x (k_vfs s) (k_threads s) (k_procs s) (k_events s) (k_sfiles s) (queues s) (k_cpus s) (sched_lock s) (current_pid s) (current_tid s) (k_next s).
Definition set_k_vfs (x : vfs_state) (s : kstate) : kstate :=
  mk_kstate (k_vmm s) x (k_threads s) (k_procs s) (k_events s) (k_sfiles s) (queues s) (k_cpus s) (sched_lock s) (current_pid s) (current_tid s) (k_next s).
Definition set_k_threads (x : gmap Z thread_t) (s : kstate) : kstate :=
  mk_kstate (k_vmm s) (k_vfs s) x (k_procs s) (k_events s) (k_sfiles s) (queues s) (k_cpus s) (sched_lock s) (current_pid s) (current_tid s) (k_next s).
Definition set_k_procs (x : gmap Z proc_t) (s : kstate) : kstate :=
  mk_kstate (k_vmm s) (k_vfs s) (k_threads s) x (k_events s) (k_sfiles s) (queues s) (k_cpus s) (sched_lock s) (current_pid s) (current_tid s) (k_next s).
Definition set_k_events (x : gmap Z event_t) (s : kstate) : kstate :=
  mk_kstate (k_vmm s) (k_vfs s) (k_threads s) (k_procs s) x (k_sfiles s) (queues s) (k_cpus s) (sched_lock s) (current_pid s) (current_tid s) (k_next s).
Definition set_k_sfiles (x : gmap Z syscall_file) (s : kstate) : kstate :=
  mk_kstate (k_vmm s) (k_vfs s) (k_threads s) (k_procs s) (k_events s) x (queues s) (k_cpus s) (sched_lock s) (current_pid s) (current_tid s) (k_next s).
Definition set_queues (x : list (list Z)) (s : kstate) : kstate :=
  mk_kstate (k_vmm s) (k_vfs s) (k_threads s) (k_procs s) (k_events s) (k_sfiles s) x (k_cpus s) (sched_lock s) (current_pid s) (current_tid s) (k_next s).
Definition set_k_cpus (x : list cpu_locals) (s : kstate) : kstate :=
  mk_kstate (k_vmm s) (k_vfs s) (k_threads s) (k_procs s) (k_events s) (k_sfiles s) (queues s) x (sched_lock s) (current_pid s) (current_tid s) (k_next s).
Definition set_sched_lock (x : bool) (s : kstate) : kstate :=
  mk_kstate (k_vmm s) (k_vfs s) (k_threads s) (k_procs s) (k_events s) (k_sfiles s) (queues s) (k_cpus s) x (current_pid s) (current_tid s) (k_next s).
Definition set_current_pid (x : Z) (s : kstate) : kstate :=
  mk_kstate (k_vmm s) (k_vfs s) (k_threads s) (k_procs s) (k_events s) (k_sfiles s) (queues s) (k_cpus s) (sched_lock s) x (current_tid s) (k_next s).
Definition set_current_tid (x : Z) (s : kstate) : kstate :=
  mk_kstate (k_vmm s) (k_vfs s) (k_threads s) (k_procs s) (k_events s) (k_sfiles s) (queues s) (k_cpus s) (sched_lock s) (current_pid s) x (k_next s).
Definition set_k_next (x : Z) (s : kstate) : kstate :=
  mk_kstate (k_vmm s) (k_vfs s) (k_threads s) (k_procs s) (k_events s) (k_sfiles s) (queues s) (k_cpus s) (sched_lock s) (current_pid s) (current_tid s) x.

(** Running an operation of a component on its part of the state. *)
Definition on {S A} (get_part : kstate -> S) (set_part : S -> kstate -> kstate) (o : M S A) : KM A := fun s =>
  match o (get_part s) with
  | Done (a, x) => Done (a, set_part x s)
  | Halt => Halt
  | Fault => Fault
  | Fuel => Fuel
  end.
Definition on_vmm {A} (o : M vmm_state A) : KM A := on k_vmm set_k_vmm o.
Definition on_vfs {A} (o : M vfs_state A) : KM A := on k_vfs set_k_vfs o.
Definition on_files {A} (o : FM A) : KM A := on_vfs (on_fs o).
Definition on_events {A} (o : M (gmap Z event_t) A) : KM A := on k_events set_k_events o.

Definition get_thread (t : Z) : KM thread_t := fun s => of_option (k_threads s !! t) s.
Definition put_thread (t : Z) (x : thread_t) : KM unit := modify (fun s => set_k_threads (<[t := x]> (k_threads s)) s).
Definition get_proc (p : Z) : KM proc_t := fun s => of_option (k_procs s !! p) s.
Definition put_proc (p : Z) (x : proc_t) : KM unit := modify (fun s => set_k_procs (<[p := x]> (k_procs s)) s).
Definition get_sfile (p : Z) : KM syscall_file := fun s => of_option (k_sfiles s !! p) s.
Definition put_sfile (p : Z) (x : syscall_file) : KM unit := modify (fun s => set_k_sfiles (<[p := x]> (k_sfiles s)) s).

(** The address of a new kernel object. *)
Definition kalloc : KM Z := fun s => Done (k_next s, set_k_next (k_next s + 1) s).

Definition with_t_lock (b : bool) (t : thread_t) : thread_t :=
  mk_thread (t_parent t) (alive t) (t_gid t) (t_uid t) (tid t) b (queued t) (priority t) (kernel_stack t)
    (t_regs t) (fpu_storage t).
Definition with_queued (q : Z) (t : thread_t) : thread_t :=
  mk_thread (t_parent t) (alive t) (t_gid t) (t_uid t) (tid t) (t_lock t) q (priority t) (kernel_stack t)
    (t_regs t) (fpu_storage t).
Definition with_context (rs : registers) (fpu : list Z) (t : thread_t) : thread_t :=
  mk_thread (t_parent t) (alive t) (t_gid t) (t_uid t) (tid t) (t_lock t) (queued t) (priority t) (kernel_stack t)
    rs fpu.
Definition with_kernel_stack (k : Z) (t : thread_t) : thread_t :=
  mk_thread (t_parent t) (alive t) (t_gid t) (t_uid t) (tid t) (t_lock t) (queued t) (priority t) k
    (t_regs t) (fpu_storage t).

Definition with_children (l : list Z) (p : proc_t) : proc_t :=
  mk_proc (user p) (pid p) (p_parent p) l (p_threads p) (p_pagemap p) (stack_top p) (mmap_top p) (mmaped_len p)
    (fds p) (p_event p) (p_status p).
Definition with_threads (l : list Z) (p : proc_t) : proc_t :=
  mk_proc (user p) (pid p) (p_parent p) (p_children p) l (p_pagemap p) (stack_top p) (mmap_top p) (mmaped_len p)
    (fds p) (p_event p) (p_status p).
Definition with_stack_top (x : Z) (p : proc_t) : proc_t :=
  mk_proc (user p) (pid p) (p_parent p) (p_children p) (p_threads p) (p_pagemap p) x (mmap_top p) (mmaped_len p)
    (fds p) (p_event p) (p_status p).
Definition with_mmap (top len : Z) (p : proc_t) : proc_t :=
  mk_proc (user p) (pid p) (p_parent p) (p_children p) (p_threads p) (p_pagemap p) (stack_top p) top len
    (fds p) (p_event p) (p_status p).
Definition with_fds (l : list Z) (p : proc_t) : proc_t :=
  mk_proc (user p) (pid p) (p_parent p) (p_children p) (p_threads p) (p_pagemap p) (stack_top p) (mmap_top p)
    (mmaped_len p) l (p_event p) (p_status p).
Definition with_parent (x : Z) (p : proc_t) : proc_t :=
  mk_proc (user p) (pid p) x (p_children p) (p_threads p) (p_pagemap p) (stack_top p) (mmap_top p)
    (mmaped_len p) (fds p) (p_event p) (p_status p).

(** ** The CPU that runs: [get_locals()] *)
Section Cpu.
Context (me : nat).

Definition get_locals : KM cpu_locals := fun s => of_option (k_cpus s !! me) s.
Definition set_locals (c : cpu_locals) : KM unit := modify (fun s => set_k_cpus (<[me := c]> (k_cpus s)) s).

Definition CURRENT_THREAD : KM thread_t := c ← get_locals; get_thread (current_thread c).
Definition CURRENT_PROC_ptr : KM Z := t ← CURRENT_THREAD; mret (t_parent t).
Definition CURRENT_PROC : KM proc_t := p ← CURRENT_PROC_ptr; get_proc p.
End Cpu.

Definition LOCK_sched : KM unit :=
  s ← get; if sched_lock s then halt else modify (set_sched_lock true).
Definition UNLOCK_sched : KM unit := modify (set_sched_lock false).
