(* ===== verification/Sched.v ===== *)
(** * Scheduling (src/src/kernel/tasking/scheduler.c: run queues and [schedule])

    [schedule] runs in the timer interrupt of one CPU with the registers of the interrupted
    thread; it returns [None] when the interrupt returns to that thread and [Some t] when it
    switches to thread [t].  The priority loop is bounded by the number of pairs (priority,
    peg), and [priority_loop_reaches] shows the bound is never what ends it; the loop over
    a queue ends after one round, since after a full round without a free thread it can only
    go on spinning ([Halt]). *)
From S2P Require Import Prelude Pmm PageTable Vmm Fs Vfs Event Kernel.

Definition DEFAULT_WAIT_TIMESLICE : Z := 20000.
Definition DEFAULT_TIMESLICE : Z := 5000.

Definition queue_of (prio : Z) : KM (list Z) := fun s => of_option (queues s !! Z.to_nat prio) s.

(** [vec_push(&threads[thread->priority], thread)] *)
Definition push_queue (prio t : Z) : KM unit :=
  q ← queue_of prio;
  modify (fun s => set_queues (<[Z.to_nat prio := q ++ [t]]> (queues s)) s).

Definition sched_enqueue (thread : Z) : KM unit :=
  t ← get_thread thread;
  if truthy (queued t) then mret tt
  else
    put_thread thread (with_queued 1 t);;
    LOCK_sched;;
    push_queue (priority t) thread;;
    UNLOCK_sched.

(** [LOCK_ACQUIRE(thread->lock)] *)
Definition acquire_thread (thread : Z) : KM bool :=
  t ← get_thread thread;
  if t_lock t then mret false else put_thread thread (with_t_lock true t);; mret true.

Section Schedule.
Context (me : nat).

(** The loop of [sched_get_next_thread], from [index]. *)
Fixpoint next_loop (n : nat) (orig_i priority index : Z) : KM (option (Z * Z)) :=
  match n with
  | O => halt
  | S n' =>
      q ← queue_of priority;
      let index := if Z.of_nat (length q) <=? index then 0 else index in
      thread ← of_option (q !! Z.to_nat index);
      c ← get_locals me;
      ok ← (if thread =? current_thread c then mret true else acquire_thread thread);
      if (ok : bool) then mret (Some (thread, index))
      else if index =? orig_i then mret None
      else next_loop n' orig_i priority (index + 1)
  end.

Definition sched_get_next_thread (orig_i priority : Z) : KM (option (Z * Z)) :=
  q ← queue_of priority;
  next_loop (S (length q)) orig_i priority (orig_i + 1).

(** One round of the [do .. while] loop on (current_priority, current_priority_peg). *)
Definition next_priority (cp peg : Z) : Z * Z :=
  let cp := u8 (cp + 1) in
  if peg <? cp then
    let peg := u8 (peg + 1) in
    (0, if peg =? PRIORITY_LEVELS then 0 else peg)
  else (cp, peg).

Definition priority_rounds : nat := 420.

Fixpoint priority_loop (n : nat) (qs : list (list Z)) (cp peg : Z) : option (Z * Z) :=
  match n with
  | O => None
  | S n' =>
      let '(cp, peg) := next_priority cp peg in
      match qs !! Z.to_nat cp with
      | Some (_ :: _) => Some (cp, peg)
      | _ => priority_loop n' qs cp peg
      end
  end.

(** [lapic_timer_stop], and [lapic_eoi(); lapic_timer_oneshot(SCHEDULE_REG, ts)]. *)
Definition set_timer (x : option Z) : KM unit :=
  c ← get_locals me;
  set_locals me (mk_cpu (current_thread c) (last_run_thread_index c) (current_priority_peg c)
    (current_priority c) (tss_rsp0 c) (c_fpu c) x).

Definition schedule (interrupted : registers) : KM (option Z) :=
  set_timer None;;
  s ← get;
  if sched_lock s then
    set_timer (Some DEFAULT_TIMESLICE);; mret None
  else
    modify (set_sched_lock true);;
    c ← get_locals me;
    let current := current_thread c in
    old_index ← of_option (last_run_thread_index c !! Z.to_nat (current_priority c));
    let old_priority := current_priority c in
    match priority_loop priority_rounds (queues s) (current_priority c) (current_priority_peg c) with
    | None => halt
    | Some (cp, peg) =>
        set_locals me (mk_cpu current (last_run_thread_index c) peg cp (tss_rsp0 c) (c_fpu c) (c_timer c));;
        orig_i ← of_option (last_run_thread_index c !! Z.to_nat cp);
        r ← sched_get_next_thread orig_i cp;
        match r with
        | None =>
            set_timer (Some DEFAULT_TIMESLICE);; UNLOCK_sched;; mret None
        | Some (new_thread, new_index) =>
            if truthy current && ((cp =? old_priority) && (new_index =? old_index)) then
              set_timer (Some DEFAULT_TIMESLICE);; UNLOCK_sched;; mret None
            else
              (if truthy current then
                 t ← get_thread current;
                 put_thread current (with_t_lock false (with_context interrupted (c_fpu c) t))
               else mret tt);;
              n ← get_thread new_thread;
              set_locals me (mk_cpu new_thread (<[Z.to_nat cp := new_index]> (last_run_thread_index c)) peg cp
                (kernel_stack n) (fpu_storage n) (Some DEFAULT_TIMESLICE));;
              p ← get_proc (t_parent n);
              on_vmm (vmm_load_pagemap (p_pagemap p));;
              UNLOCK_sched;;
              mret (Some new_thread)
        end
    end.

(** [sched_await]: spins until the scheduler has started, then arms the timer and idles. *)
Definition sched_await (sched_has_started : bool) : KM unit :=
  if sched_has_started then set_timer (Some DEFAULT_WAIT_TIMESLICE) else halt.
End Schedule.

(** ** Round robin within a queue *)

(** [schedule] on CPU [me] may take thread [t]. *)
Definition available (s : kstate) (cur t : Z) : Prop :=
  t = cur \/ exists th, k_threads s !! t = Some th /\ t_lock th = false.

Definition lock_thread (cur t : Z) (s : kstate) : kstate :=
  if t =? cur then s
  else set_k_threads (alter (with_t_lock true) t (k_threads s)) s.

(** Every thread of the queue exists. *)
Definition queue_live (s : kstate) (q : list Z) : Prop := forall t, t ∈ q -> is_Some (k_threads s !! t).

Section RoundRobin.
Context (me : nat) (s : kstate) (prio : Z) (q : list Z) (c : cpu_locals).
Context (Hq : queues s !! Z.to_nat prio = Some q) (Hc : k_cpus s !! me = Some c) (Hlive : queue_live s q).

Local Abbreviation L := (Z.of_nat (length q)).
Local Abbreviation cur := (current_thread c).

(** One step of the loop, at queue index [i]. *)
Lemma next_loop_step n orig_i x i t :
  i = (if L <=? x then 0 else x) -> q !! Z.to_nat i = Some t ->
  (available s cur t -> next_loop me (S n) orig_i prio x s = Done (Some (t, i), lock_thread cur t s)) /\
  (~ available s cur t -> next_loop me (S n) orig_i prio x s =
     if i =? orig_i then Done (None, s) else next_loop me n orig_i prio (i + 1) s).
Proof using Hq Hc Hlive.
  intros -> Ht. destruct (Hlive t (list_elem_of_lookup_2 _ _ _ Ht)) as [th Hth].
  set (i := if L <=? x then 0 else x) in *. unfold available.
  assert (E : next_loop me (S n) orig_i prio x s =
    (ok ← (if t =? cur then mret true else acquire_thread t);
     if (ok : bool) then mret (Some (t, i))
     else if i =? orig_i then mret None else next_loop me n orig_i prio (i + 1)) s).
  { cbn [next_loop]. rewrite (bind_run (queue_of prio) _ s q s) by (unfold queue_of; by rewrite Hq).
    fold i. rewrite Ht. rewrite (bind_run (of_option (Some t)) _ s t s) by done.
    by rewrite (bind_run (get_locals me) _ s c s) by (unfold get_locals; by rewrite Hc). }
  rewrite E. unfold lock_thread. destruct (Z.eqb_spec t cur) as [->|Hne]; [split; [done|tauto]|].
  unfold acquire_thread, get_thread. unfold mbind, M_bind. rewrite Hth. simpl.
  destruct (t_lock th) eqn:El; split; intros Ha.
  - exfalso. destruct Ha as [?|(th' & Hth' & ?)]; [done|]. congruence.
  - by destruct (i =? orig_i).
  - assert (Ea : alter (with_t_lock true) t (k_threads s) = <[t := with_t_lock true th]> (k_threads s)).
    { apply map_eq. intros k. destruct (decide (k = t)) as [->|].
      - by rewrite lookup_alter_eq, lookup_insert_eq, Hth.
      - by rewrite lookup_alter_ne, lookup_insert_ne by congruence. }
    by rewrite Ea.
  - exfalso. apply Ha. right. by exists th.
Qed.

(** The result of the search from distance [d] after [orig_i]. *)
Definition picked (orig_i d : Z) (r : option (Z * Z)) (s' : kstate) : Prop :=
  match r with
  | Some (t, i) => exists e, d <= e <= L /\ i = (orig_i + e) mod L /\ q !! Z.to_nat i = Some t /\
      available s cur t /\ s' = lock_thread cur t s /\
      forall k u, d <= k < e -> q !! Z.to_nat ((orig_i + k) mod L) = Some u -> ~ available s cur u
  | None => s' = s /\
      forall k u, d <= k <= L -> q !! Z.to_nat ((orig_i + k) mod L) = Some u -> ~ available s cur u
  end.

Lemma available_dec t : is_Some (k_threads s !! t) -> available s cur t \/ ~ available s cur t.
Proof.
  intros [th Hth]. unfold available. destruct (Z.eq_dec t cur); [tauto|]. destruct (t_lock th) eqn:E.
  - right. intros [?|(th' & Hth' & ?)]; [done|]. congruence.
  - left. right. by exists th.
Qed.

Lemma next_loop_run n orig_i d x :
  0 <= orig_i < L -> 1 <= d <= L -> L - d < Z.of_nat n ->
  (if L <=? x then 0 else x) = (orig_i + d) mod L ->
  exists r s', next_loop me n orig_i prio x s = Done (r, s') /\ picked orig_i d r s'.
Proof using Hq Hc Hlive.
  intros Ho. revert d x. induction n as [|n IH]; intros d x Hd Hn Hx; [lia|].
  pose proof (Z.mod_pos_bound (orig_i + d) L ltac:(lia)) as Hb.
  destruct (lookup_Z_Some q ((orig_i + d) mod L) Hb) as [t Ht].
  destruct (next_loop_step n orig_i x ((orig_i + d) mod L) t (eq_sym Hx) Ht) as [Hyes Hno].
  destruct (available_dec t (Hlive t (list_elem_of_lookup_2 _ _ _ Ht))) as [Ha|Hna].
  { rewrite Hyes by done. eexists _, _. split; [done|]. exists d. split_and!; try done; try lia. }
  rewrite Hno by done. destruct (decide (d = L)) as [->|HdL].
  { replace ((orig_i + L) mod L) with orig_i in * by (rewrite <- Z.add_mod_idemp_r, Z.mod_same, Z.add_0_r, Z.mod_small; lia).
    rewrite Z.eqb_refl. eexists _, _. split; [done|]. split; [done|]. intros k u Hk Hu. assert (k = L) as -> by lia.
    replace ((orig_i + L) mod L) with orig_i in Hu by (rewrite <- Z.add_mod_idemp_r, Z.mod_same, Z.add_0_r, Z.mod_small; lia).
    congruence. }
  assert (Hmod : (orig_i + d) mod L = if orig_i + d <? L then orig_i + d else orig_i + d - L).
  { destruct (Z.ltb_spec (orig_i + d) L); [by apply Z.mod_small; lia|].
    symmetry. apply Z.mod_unique_pos with 1; lia. }
  rewrite (proj2 (Z.eqb_neq _ _)).
  2: { rewrite Hmod. destruct (Z.ltb_spec (orig_i + d) L); lia. }
  destruct (IH (d + 1) ((orig_i + d) mod L + 1)) as (r & s' & E & Hp); [lia|lia| |].
  { assert (Hmod1 : (orig_i + (d + 1)) mod L = if orig_i + d + 1 <? L then orig_i + d + 1 else orig_i + d + 1 - L).
    { destruct (Z.ltb_spec (orig_i + d + 1) L); [rewrite Z.mod_small; lia|].
      symmetry. apply Z.mod_unique_pos with 1; lia. }
    rewrite Hmod1, Hmod. destruct (Z.ltb_spec (orig_i + d) L), (Z.ltb_spec (orig_i + d + 1) L); zcase; lia. }
  exists r, s'. split; [done|]. destruct r as [[t' i']|].
  - destruct Hp as (e & He & Hi & Hl & Hav & Hs' & Hbefore). exists e. split_and!; try done; try lia.
    intros k u Hk Hu. destruct (decide (k = d)) as [->|]; [congruence|]. apply (Hbefore k u); [lia|done].
  - destruct Hp as [Hs' Hall]. split; [done|]. intros k u Hk Hu.
    destruct (decide (k = d)) as [->|]; [congruence|]. apply (Hall k u); [lia|done].
Qed.
End RoundRobin.

Lemma get_next_run me s prio q c orig_i :
  queues s !! Z.to_nat prio = Some q -> k_cpus s !! me = Some c -> queue_live s q ->
  0 <= orig_i < Z.of_nat (length q) ->
  exists r s', sched_get_next_thread me orig_i prio s = Done (r, s') /\ picked s q c orig_i 1 r s'.
Proof.
  intros Hq Hc Hl Ho. unfold sched_get_next_thread.
  rewrite (bind_run (queue_of prio) _ s q s) by (unfold queue_of; by rewrite Hq).
  apply (next_loop_run me s prio q c Hq Hc Hl); [lia|lia|lia|].
  destruct (Z.leb_spec (Z.of_nat (length q)) (orig_i + 1)).
  - replace (orig_i + 1) with (Z.of_nat (length q)) by lia. by rewrite Z.mod_same by lia.
  - by rewrite Z.mod_small by lia.
Qed.

(** C25: [sched_get_next_thread] is round robin: starting after the thread that ran last it
    goes once around the queue and takes the first thread that is not running on another
    CPU, locking it; it returns NULL exactly when every thread of the queue is running
    elsewhere, and it always returns. *)
Theorem next_thread_round_robin me s prio q c orig_i :
  queues s !! Z.to_nat prio = Some q -> k_cpus s !! me = Some c -> queue_live s q ->
  0 <= orig_i < Z.of_nat (length q) ->
  exists r s', sched_get_next_thread me orig_i prio s = Done (r, s') /\ picked s q c orig_i 1 r s'.
Proof. apply get_next_run. Qed.

(** ** The priority loop *)

(** The pairs (priority, peg) the loop visits. *)
Fixpoint visits (n : nat) (st : Z * Z) : list (Z * Z) :=
  match n with O => [] | S n' => let st' := next_priority (fst st) (snd st) in st' :: visits n' st' end.

Definition level_range : list Z := Z.of_nat <$> seq 0 20.

Definition covers_levels (n : nat) (cp peg : Z) : bool :=
  forallb (fun e => existsb (fun st => fst st =? e) (visits n (cp, peg))) level_range.
Definition all_covered (n : nat) : bool := forallb (fun cp => forallb (covers_levels n cp) level_range) level_range.

Lemma all_levels_covered : all_covered priority_rounds = true.
Proof. vm_compute. reflexivity. Qed.

Lemma in_level_range x : 0 <= x < 20 -> In x level_range.
Proof.
  intros Hx. apply in_map_iff. exists (Z.to_nat x). split; [lia|]. apply in_seq. lia.
Qed.

Definition nonempty (qs : list (list Z)) (e : Z) : Prop := exists t q, qs !! Z.to_nat e = Some (t :: q).

Lemma visits_level n cp peg e :
  all_covered n = true -> 0 <= cp < 20 -> 0 <= peg < 20 -> 0 <= e < 20 ->
  exists k peg', visits n (cp, peg) !! k = Some (e, peg').
Proof.
  intros H Hc Hp He. unfold all_covered in H. rewrite forallb_forall in H.
  specialize (H cp (in_level_range cp Hc)). rewrite forallb_forall in H.
  specialize (H peg (in_level_range peg Hp)). unfold covers_levels in H. rewrite forallb_forall in H.
  specialize (H e (in_level_range e He)). apply existsb_exists in H as ([e' peg'] & Hin & Heq).
  apply Z.eqb_eq in Heq. simpl in Heq. subst e'. apply list_elem_of_In, list_elem_of_lookup in Hin as [k Hk].
  by exists k, peg'.
Qed.

(** If a non-empty level is the [k]-th visited, the loop stops there or earlier, at a
    non-empty level, and goes on from that point the next time. *)
Lemma priority_loop_stops n qs cp peg k e peg' :
  visits n (cp, peg) !! k = Some (e, peg') -> nonempty qs e ->
  exists j st, (j <= k)%nat /\ visits n (cp, peg) !! j = Some st /\
    priority_loop n qs cp peg = Some st /\ nonempty qs (fst st).
Proof.
  revert cp peg k. induction n as [|n IH]; intros cp peg k Hk Hne; [done|]. simpl in *.
  destruct (next_priority cp peg) as [cp1 peg1] eqn:E1.
  destruct (qs !! Z.to_nat cp1) as [[|t q]|] eqn:Eq.
  2: { exists 0%nat, (cp1, peg1). split; [lia|]. split; [done|]. split; [done|]. by exists t, q. }
  all: destruct k as [|k]; [simpl in Hk; injection Hk as -> ->; destruct Hne as (t & q & Hn); congruence|].
  all: destruct (IH cp1 peg1 k Hk Hne) as (j & st & Hj & Hv & Hp & Hn); exists (S j), st; split; [lia|]; done.
Qed.

Lemma visits_range n cp peg j st :
  0 <= cp < 20 -> 0 <= peg < 20 -> visits n (cp, peg) !! j = Some st -> 0 <= fst st < 20 /\ 0 <= snd st < 20.
Proof.
  intros Hc Hp. revert cp peg j Hc Hp. induction n as [|n IH]; intros cp peg j Hc Hp Hj; [done|]. simpl in Hj.
  destruct (next_priority cp peg) as [cp1 peg1] eqn:E1.
  assert (0 <= cp1 < 20 /\ 0 <= peg1 < 20).
  { unfold next_priority, PRIORITY_LEVELS in E1. rewrite !(u8_small) in E1 by lia.
    destruct (Z.ltb_spec peg (cp + 1)); [|injection E1 as <- <-; lia].
    destruct (Z.eqb_spec (peg + 1) 20); injection E1 as <- <-; lia. }
  destruct j as [|j]; [simpl in Hj; injection Hj as <-; simpl; lia|]. apply (IH cp1 peg1 j); [lia|lia|done].
Qed.

(** the priority loop of [schedule] ends: from every reachable pair of priority and peg, if
    any run queue is not empty, it stops at a non-empty queue within its bound, with both
    counters in range. *)
Theorem priority_loop_reaches qs cp peg e :
  0 <= cp < 20 -> 0 <= peg < 20 -> 0 <= e < 20 -> nonempty qs e ->
  exists cp' peg', priority_loop priority_rounds qs cp peg = Some (cp', peg') /\ nonempty qs cp' /\
    0 <= cp' < 20 /\ 0 <= peg' < 20.
Proof.
  intros Hc Hp He Hne. destruct (visits_level priority_rounds cp peg e all_levels_covered Hc Hp He) as (k & peg' & Hk).
  destruct (priority_loop_stops _ qs cp peg k e peg' Hk Hne) as (j & [cp' pg] & _ & Hv & HP & Hn).
  exists cp', pg. split; [done|]. split; [done|]. apply (visits_range _ _ _ _ _ Hc Hp Hv).
Qed.

(** The levels that successive runs of the loop stop at. *)
Fixpoint stops (R n : nat) (qs : list (list Z)) (cp peg : Z) : list Z :=
  match n with
  | O => []
  | S n' =>
      match priority_loop R qs cp peg with
      | Some (cp', peg') => cp' :: stops R n' qs cp' peg'
      | None => []
      end
  end.

Lemma visits_split n cp peg j st k x :
  visits n (cp, peg) !! j = Some st -> (j < k)%nat -> visits n (cp, peg) !! k = Some x ->
  forall m, (n <= m)%nat -> visits m st !! (k - S j)%nat = Some x.
Proof.
  revert cp peg j k. induction n as [|n IH]; intros cp peg j k Hj Hlt Hk m Hm; [done|]. cbn [visits] in Hj, Hk.
  cbn [fst snd] in Hj, Hk. destruct (next_priority cp peg) as [cp1 peg1] eqn:E1. destruct k as [|k]; [lia|].
  destruct j as [|j]; simpl in Hj, Hk.
  - injection Hj as <-. replace (S k - 1)%nat with k by lia. clear -Hk Hm.
    revert n k cp1 peg1 Hk Hm. induction m as [|m IHm]; intros n k cp1 peg1 Hk Hm; destruct n as [|n]; try done; [lia|].
    simpl in *. destruct k as [|k]; [done|]. simpl in *. destruct (next_priority cp1 peg1) as [a b]. apply (IHm n k a b Hk). lia.
  - replace (S k - S (S j))%nat with (k - S j)%nat by lia. apply (IH cp1 peg1 j k Hj); [lia|done|lia].
Qed.

Lemma length_visits n st : length (visits n st) = n.
Proof. revert st. induction n as [|n IH]; intros st; simpl; [done|by rewrite IH]. Qed.

Lemma stops_reach R qs e peg' :
  nonempty qs e -> forall k cp peg, 0 <= cp < 20 -> 0 <= peg < 20 -> visits R (cp, peg) !! k = Some (e, peg') ->
  forall n, (k < n)%nat -> In e (stops R n qs cp peg).
Proof.
  intros Hne. induction k as [k IH] using lt_wf_ind. intros cp peg Hc Hp Hk n Hlt.
  destruct n as [|n]; [lia|]. simpl.
  destruct (priority_loop_stops _ qs cp peg k e peg' Hk Hne) as (j & [cp1 peg1] & Hj & Hv & HP & Hn). rewrite HP.
  destruct (decide (j = k)) as [->|].
  - left. congruence.
  - right. destruct (visits_range _ _ _ _ _ Hc Hp Hv). simpl in *.
    apply (IH (k - S j)%nat); [lia|done|done| |lia].
    apply (visits_split R cp peg j); [done|lia|done|lia].
Qed.

(** no priority level starves: with unchanged queues, successive runs of the priority loop
    stop at every non-empty level within 420 runs, whatever the other levels hold. *)
Theorem priority_no_starvation qs cp peg e :
  0 <= cp < 20 -> 0 <= peg < 20 -> 0 <= e < 20 -> nonempty qs e ->
  In e (stops priority_rounds priority_rounds qs cp peg).
Proof.
  intros Hc Hp He Hne. destruct (visits_level priority_rounds cp peg e all_levels_covered Hc Hp He) as (k & peg' & Hk).
  apply (stops_reach priority_rounds qs e peg' Hne k cp peg); [done|done|done|].
  apply lookup_lt_Some in Hk. by rewrite length_visits in Hk.
Qed.

(** ** What a call of [schedule] does *)

Definition cpu_update (me : nat) (c : cpu_locals) (s : kstate) : kstate := set_k_cpus (<[me := c]> (k_cpus s)) s.
Definition with_timer (x : option Z) (c : cpu_locals) : cpu_locals :=
  mk_cpu (current_thread c) (last_run_thread_index c) (current_priority_peg c) (current_priority c) (tss_rsp0 c)
    (c_fpu c) x.
Definition with_level (cp peg : Z) (c : cpu_locals) : cpu_locals :=
  mk_cpu (current_thread c) (last_run_thread_index c) peg cp (tss_rsp0 c) (c_fpu c) (c_timer c).

Lemma set_timer_run me c x s : k_cpus s !! me = Some c -> set_timer me x s = Done (tt, cpu_update me (with_timer x c) s).
Proof. intros Hc. unfold set_timer, get_locals, mbind, M_bind. by rewrite Hc. Qed.

Lemma cpu_update_lookup me c s : is_Some (k_cpus s !! me) -> k_cpus (cpu_update me c s) !! me = Some c.
Proof. intros [c' Hc']. simpl. apply list_lookup_insert_eq. by apply lookup_lt_Some in Hc'. Qed.

Lemma cpu_update_twice me c c' s : cpu_update me c (cpu_update me c' s) = cpu_update me c s.
Proof. unfold cpu_update. simpl. by rewrite list_insert_insert_eq. Qed.

(** The conditions under which [schedule] makes a choice: lock free, queues and CPU sane. *)
Record sched_ok (me : nat) (s : kstate) (c : cpu_locals) : Prop := mk_sched_ok {
  so_lock : sched_lock s = false;
  so_cpu : k_cpus s !! me = Some c;
  so_levels : length (queues s) = 20%nat;
  so_some : exists e, 0 <= e < 20 /\ nonempty (queues s) e;
  so_prio : 0 <= current_priority c < 20;
  so_peg : 0 <= current_priority_peg c < 20;
  so_live : forall q, q ∈ queues s -> queue_live s q;
  so_index : forall e q, 0 <= e < 20 -> queues s !! Z.to_nat e = Some q ->
    exists i, last_run_thread_index c !! Z.to_nat e = Some i /\ 0 <= i /\ (q <> [] -> i < Z.of_nat (length q));
  so_procs : forall t th, k_threads s !! t = Some th -> exists p m, k_procs s !! t_parent th = Some p /\
    v_maps (k_vmm s) !! p_pagemap p = Some m;
  so_current : current_thread c = 0 \/ is_Some (k_threads s !! current_thread c)
}.

(** The state after switching CPU [me] from its thread to [t], found at [idx] of level [cp]. *)
Definition switched (me : nat) (c : cpu_locals) (regs : registers) (cp peg t idx : Z) (s s' : kstate) : Prop :=
  exists s1 th, s1 = lock_thread (current_thread c) t s /\
    k_threads s' = (if truthy (current_thread c)
                    then alter (fun x => with_t_lock false (with_context regs (c_fpu c) x)) (current_thread c) (k_threads s1)
                    else k_threads s1) /\
    k_threads s' !! t = Some th /\
    k_cpus s' = <[me := mk_cpu t (<[Z.to_nat cp := idx]> (last_run_thread_index c)) peg cp (kernel_stack th)
                   (fpu_storage th) (Some DEFAULT_TIMESLICE)]> (k_cpus s) /\
    queues s' = queues s /\ sched_lock s' = false.

(** Outcome of [schedule] at level [cp]: the search of the queue decides between going back
    and switching. *)
Definition outcome_at (me : nat) (c : cpu_locals) (regs : registers) (cp peg : Z) (q : list Z) (orig old : Z)
    (r : option Z) (s s' : kstate) : Prop :=
  exists pick s1, picked s q c orig 1 pick s1 /\
  match pick with
  | None => r = None /\ s' = cpu_update me (with_timer (Some DEFAULT_TIMESLICE) (with_level cp peg c)) s
  | Some (t, i) =>
      if truthy (current_thread c) && ((cp =? current_priority c) && (i =? old)) then
        r = None /\ s' = cpu_update me (with_timer (Some DEFAULT_TIMESLICE) (with_level cp peg c)) s1
      else r = Some t /\ switched me c regs cp peg t i s s'
  end.

(** [s] while [schedule] holds the lock and has chosen the level. *)
Definition choosing (me : nat) (c : cpu_locals) (cp peg : Z) (s : kstate) : kstate :=
  cpu_update me (with_level cp peg (with_timer None c)) (set_sched_lock true s).

Lemma picked_choosing me s q c cp peg orig pick s1 :
  picked (choosing me c cp peg s) q (with_level cp peg (with_timer None c)) orig 1 pick s1 ->
  exists s0, picked s q c orig 1 pick s0 /\ s1 = choosing me c cp peg s0 /\
    k_cpus s0 = k_cpus s /\ sched_lock s0 = sched_lock s /\ queues s0 = queues s /\ k_procs s0 = k_procs s /\
    k_vmm s0 = k_vmm s.
Proof.
  destruct pick as [[t i]|]; simpl.
  - intros (e & He & Hi & Hl & Ha & -> & Hb). exists (lock_thread (current_thread c) t s).
    unfold lock_thread. simpl. split; [|by destruct (t =? current_thread c)].
    exists e. split_and!; try done; try lia.
  - intros [-> Hb]. exists s. done.
Qed.

Lemma unlock_choosing me c cp peg s :
  is_Some (k_cpus s !! me) -> sched_lock s = false ->
  (set_timer me (Some DEFAULT_TIMESLICE);; UNLOCK_sched;; mret (@None Z)) (choosing me c cp peg s) =
    Done (None, cpu_update me (with_timer (Some DEFAULT_TIMESLICE) (with_level cp peg c)) s).
Proof.
  intros Hc Hl.
  rewrite (bind_run _ _ _ _ _ (set_timer_run me (with_level cp peg (with_timer None c)) _ (choosing me c cp peg s)
    (cpu_update_lookup me _ (set_sched_lock true s) Hc))).
  unfold choosing. rewrite cpu_update_twice. destruct s; simpl in *. by subst.
Qed.

Lemma alter_parent (f : thread_t -> thread_t) (T : gmap Z thread_t) k t :
  (forall x, t_parent (f x) = t_parent x) -> t_parent <$> alter f k T !! t = t_parent <$> T !! t.
Proof.
  intros Hf. destruct (decide (t = k)) as [->|].
  - rewrite lookup_alter_eq. destruct (T !! k); [|done]. simpl. by rewrite Hf.
  - by rewrite lookup_alter_ne by congruence.
Qed.

Lemma lock_thread_parent cur t s u : t_parent <$> k_threads (lock_thread cur t s) !! u = t_parent <$> k_threads s !! u.
Proof. unfold lock_thread. destruct (t =? cur); [done|]. simpl. by apply alter_parent. Qed.

Lemma alter_as_insert {A} (f : A -> A) (T : gmap Z A) k x : T !! k = Some x -> alter f k T = <[k := f x]> T.
Proof.
  intros Hx. apply map_eq. intros u. destruct (decide (u = k)) as [->|].
  - by rewrite lookup_alter_eq, lookup_insert_eq, Hx.
  - by rewrite lookup_alter_ne, lookup_insert_ne by congruence.
Qed.

Lemma switch_run me c regs cp peg t i s :
  k_cpus s !! me = Some c -> is_Some (k_threads s !! t) ->
  (forall t th, k_threads s !! t = Some th -> exists p m, k_procs s !! t_parent th = Some p /\
    v_maps (k_vmm s) !! p_pagemap p = Some m) ->
  (current_thread c = 0 \/ is_Some (k_threads s !! current_thread c)) ->
  exists s',
    ((if truthy (current_thread c) then
        t ← get_thread (current_thread c);
        put_thread (current_thread c) (with_t_lock false (with_context regs (c_fpu c) t))
      else mret tt);;
     n ← get_thread t;
     set_locals me (mk_cpu t (<[Z.to_nat cp := i]> (last_run_thread_index c)) peg cp
       (kernel_stack n) (fpu_storage n) (Some DEFAULT_TIMESLICE));;
     p ← get_proc (t_parent n);
     on_vmm (vmm_load_pagemap (p_pagemap p));;
     UNLOCK_sched;;
     mret (Some t)) (choosing me c cp peg (lock_thread (current_thread c) t s)) = Done (Some t, s') /\
    switched me c regs cp peg t i s s'.
Proof.
  intros Hc [th0 Ht] Hprocs Hcur. set (s1 := lock_thread (current_thread c) t s). set (sc := choosing me c cp peg s1).
  set (save := fun x => with_t_lock false (with_context regs (c_fpu c) x)).
  set (T := if truthy (current_thread c) then alter save (current_thread c) (k_threads s1) else k_threads s1).
  rewrite (bind_run _ _ sc tt (set_k_threads T sc)).
  2: { subst T. unfold truthy. destruct (Z.eqb_spec (current_thread c) 0) as [E0|E0]; [by destruct s1|]. simpl.
       destruct Hcur as [?|Hcur]; [done|]. pose proof (lock_thread_parent (current_thread c) t s (current_thread c)) as Hp.
       destruct Hcur as [x Hx]. rewrite Hx in Hp. fold s1 in Hp. destruct (k_threads s1 !! current_thread c) as [y|] eqn:Hy; [|done].
       rewrite (alter_as_insert save _ _ y Hy). unfold get_thread, put_thread, mbind, M_bind. simpl. rewrite Hy. done. }
  assert (Hpar : t_parent <$> T !! t = Some (t_parent th0)).
  { transitivity (t_parent <$> k_threads s1 !! t).
    - subst T. destruct (truthy (current_thread c)); [|done]. by apply alter_parent.
    - unfold s1. rewrite lock_thread_parent, Ht. done. }
  destruct (T !! t) as [th|] eqn:HT; [|done]. injection Hpar as Hpar.
  rewrite (bind_run (get_thread t) _ (set_k_threads T sc) th (set_k_threads T sc)) by (unfold get_thread; simpl; by rewrite HT).
  destruct (Hprocs t th0 Ht) as (p & m & Hproc & Hmap).
  assert (Esame : k_procs s1 = k_procs s /\ k_vmm s1 = k_vmm s /\ queues s1 = queues s /\ k_cpus s1 = k_cpus s).
  { subst s1. unfold lock_thread. by destruct (t =? current_thread c). }
  destruct Esame as (Ep & Ev & Eq & Ec).
  eexists. split.
  { unfold set_locals, modify. unfold mbind at 1, M_bind at 1. unfold get_proc. unfold mbind at 1, M_bind at 1. simpl.
    rewrite Ep, Hpar, Hproc. simpl. unfold on_vmm, on, vmm_load_pagemap, get_map, mbind, M_bind. simpl. rewrite Ev, Hmap. simpl. reflexivity. }
  exists s1, th. simpl. split_and!; try done. rewrite list_insert_insert_eq. by rewrite Ec.
Qed.

Lemma schedule_run me regs s c :
  sched_ok me s c ->
  exists cp peg q orig old r s',
    priority_loop priority_rounds (queues s) (current_priority c) (current_priority_peg c) = Some (cp, peg) /\
    0 <= cp < 20 /\ 0 <= peg < 20 /\ queues s !! Z.to_nat cp = Some q /\ q <> [] /\
    last_run_thread_index c !! Z.to_nat cp = Some orig /\ 0 <= orig < Z.of_nat (length q) /\
    last_run_thread_index c !! Z.to_nat (current_priority c) = Some old /\
    schedule me regs s = Done (r, s') /\ outcome_at me c regs cp peg q orig old r s s'.
Proof.
  intros [Hlock Hc HL (e & He & Hne) Hp Hpeg Hlive Hidx Hprocs Hcur].
  destruct (visits_level priority_rounds _ _ e all_levels_covered Hp Hpeg He) as (k & peg' & Hk).
  destruct (priority_loop_stops _ (queues s) _ _ k e peg' Hk Hne) as (j & [cp peg] & _ & Hv & HP & (t0 & q0 & Hq)).
  simpl in Hq. destruct (visits_range _ _ _ _ _ Hp Hpeg Hv) as [Hcp Hpg]. simpl in Hcp, Hpg. clear Hk Hv.
  destruct (Hidx cp _ Hcp Hq) as (orig & Horig & Ho0 & Holt). specialize (Holt ltac:(done)).
  destruct (lookup_lt_is_Some_2 (queues s) (Z.to_nat (current_priority c)) ltac:(lia)) as [qo Hqo].
  destruct (Hidx _ qo Hp Hqo) as (old & Hold & _).
  set (q := t0 :: q0) in *. set (sm := choosing me c cp peg s).
  assert (Hcm : k_cpus sm !! me = Some (with_level cp peg (with_timer None c))).
  { apply (cpu_update_lookup me _ (set_sched_lock true s)). by eexists. }
  destruct (get_next_run me sm cp q _ orig Hq Hcm (Hlive q (list_elem_of_lookup_2 _ _ _ Hq)) ltac:(lia))
    as (pick & s1 & Epick & Hpick).
  destruct (picked_choosing me s q c cp peg orig pick s1 Hpick) as (s0 & Hpick0 & -> & E1 & E2 & E3 & E4 & E5).
  assert (E : schedule me regs s =
    match pick with
    | None => (set_timer me (Some DEFAULT_TIMESLICE);; UNLOCK_sched;; mret None)
    | Some (new_thread, new_index) =>
        if truthy (current_thread c) && ((cp =? current_priority c) && (new_index =? old)) then
          set_timer me (Some DEFAULT_TIMESLICE);; UNLOCK_sched;; mret None
        else
          (if truthy (current_thread c) then
             t ← get_thread (current_thread c);
             put_thread (current_thread c) (with_t_lock false (with_context regs (c_fpu c) t))
           else mret tt);;
          n ← get_thread new_thread;
          set_locals me (mk_cpu new_thread (<[Z.to_nat cp := new_index]> (last_run_thread_index c)) peg cp
            (kernel_stack n) (fpu_storage n) (Some DEFAULT_TIMESLICE));;
          p ← get_proc (t_parent n);
          on_vmm (vmm_load_pagemap (p_pagemap p));;
          UNLOCK_sched;;
          mret (Some new_thread)
    end (choosing me c cp peg s0)).
  { unfold schedule. rewrite (bind_run _ _ _ _ _ (set_timer_run me c None s Hc)).
    set (sa := cpu_update me (with_timer None c) s). rewrite (bind_run get _ sa sa sa) by done.
    change (sched_lock sa) with (sched_lock s). rewrite Hlock.
    rewrite (bind_run (modify (set_sched_lock true)) _ sa tt (set_sched_lock true sa)) by done.
    rewrite (bind_run (get_locals me) _ _ (with_timer None c) (set_sched_lock true sa)).
    2: { unfold get_locals. change (k_cpus (set_sched_lock true sa)) with (k_cpus sa).
         subst sa. rewrite cpu_update_lookup by (by eexists). done. }
    cbn [current_priority with_timer last_run_thread_index current_thread current_priority_peg tss_rsp0 c_fpu c_timer].
    rewrite Hold. rewrite (bind_run (of_option (Some old)) _ _ old (set_sched_lock true sa)) by done.
    change (queues sa) with (queues s). rewrite HP.
    rewrite (bind_run (set_locals me _) _ _ tt sm).
    2: { subst sm sa. unfold choosing, set_locals, modify, cpu_update, with_level, with_timer. simpl. by rewrite list_insert_insert_eq. }
    rewrite Horig. rewrite (bind_run (of_option (Some orig)) _ _ orig sm) by done.
    rewrite (bind_run _ _ _ _ _ Epick). done. }
  exists cp, peg, q, orig, old.
  assert (Hc0 : is_Some (k_cpus s0 !! me)) by (rewrite E1; by eexists).
  destruct pick as [[t i]|].
  2: { eexists None, _. split_and!; try done; try lia. { rewrite E. apply unlock_choosing; congruence. }
       exists None, s0. split; [done|]. split; [done|]. destruct Hpick0 as [-> _]. done. }
  destruct (truthy (current_thread c) && ((cp =? current_priority c) && (i =? old))) eqn:Esame.
  { eexists None, _. split_and!; try done; try lia. { rewrite E. apply unlock_choosing; congruence. }
    exists (Some (t, i)), s0. split; [done|]. rewrite Esame. done. }
  assert (Hs0 : s0 = lock_thread (current_thread c) t s) by (by destruct Hpick0 as (? & ? & ? & ? & ? & -> & ?)).
  assert (Ht : is_Some (k_threads s !! t)).
  { destruct Hpick0 as (? & ? & ? & Hlk & _). apply (Hlive q (list_elem_of_lookup_2 _ _ _ Hq) t), (list_elem_of_lookup_2 _ _ _ Hlk). }
  destruct (switch_run me c regs cp peg t i s Hc Ht Hprocs Hcur) as (s' & Esw & Hsw). rewrite <- Hs0 in Esw.
  exists (Some t), s'. split_and!; try done; try lia; [by rewrite E|].
  exists (Some (t, i)), s0. split; [done|]. by rewrite Esame.
Qed.

(** preemption never stops: whenever the scheduler lock is free and some thread is queued,
    [schedule] returns with the lock free again and the CPU's timer armed, and the thread it
    switched to, if any, is the CPU's current thread with its kernel stack and FPU state loaded. *)
Theorem schedule_rearms me regs s c :
  sched_ok me s c ->
  exists r s' c', schedule me regs s = Done (r, s') /\ sched_lock s' = false /\
    k_cpus s' !! me = Some c' /\ c_timer c' = Some DEFAULT_TIMESLICE /\
    match r with
    | None => current_thread c' = current_thread c
    | Some t => current_thread c' = t /\ exists th, k_threads s' !! t = Some th /\
        tss_rsp0 c' = kernel_stack th /\ c_fpu c' = fpu_storage th
    end.
Proof.
  intros Hok. destruct (schedule_run me regs s c Hok) as (cp & peg & q & orig & old & r & s' & _ & _ & _ & _ & _ & _ & _ & _ & E & Ho).
  destruct Ho as (pick & s1 & Hpick & Hcase). pose proof (so_cpu _ _ _ Hok) as Hc. pose proof (so_lock _ _ _ Hok) as Hl.
  exists r, s'. destruct pick as [[t i]|].
  2: { destruct Hcase as [-> ->]. eexists. split; [done|]. split; [done|].
       rewrite cpu_update_lookup by (by eexists). split_and!; done. }
  assert (Hs1 : s1 = lock_thread (current_thread c) t s) by (by destruct Hpick as (? & ? & ? & ? & ? & -> & ?)).
  destruct (_ && _).
  - destruct Hcase as [-> ->]. eexists. split; [done|]. subst s1.
    unfold lock_thread. split; [by destruct (t =? _)|].
    rewrite cpu_update_lookup by (destruct (t =? _); by eexists). split_and!; done.
  - destruct Hcase as [-> (sa & th & Hsa & HT & Hth & Hcpus & Hq & Hlk)]. eexists. split; [done|]. split; [done|].
    rewrite Hcpus, list_lookup_insert_eq by (by apply lookup_lt_Some in Hc). split; [done|]. split; [done|].
    split; [done|]. by exists th.
Qed.

(** ** Exclusive execution *)

Lemma concat_position (qs : list (list Z)) a b qa qb i j x :
  NoDup (concat qs) -> qs !! a = Some qa -> qs !! b = Some qb -> qa !! i = Some x -> qb !! j = Some x ->
  a = b /\ i = j.
Proof.
  revert a b. induction qs as [|q qs IH]; intros a b Hnd Ha Hb Hi Hj; [done|]. simpl in Hnd.
  apply NoDup_app in Hnd as (Hq & Hdis & Hqs).
  assert (Hin : forall n r k, qs !! n = Some r -> r !! k = Some x -> x ∈ concat qs).
  { intros n r k Hn Hk. apply list_elem_of_In, in_concat. exists r.
    split; [apply list_elem_of_In; by apply list_elem_of_lookup_2 in Hn|apply list_elem_of_In; by apply list_elem_of_lookup_2 in Hk]. }
  destruct a as [|a], b as [|b]; simpl in Ha, Hb.
  - assert (qb = qa) as -> by congruence. split; [done|]. injection Ha as ->. by apply (NoDup_lookup qa i j x).
  - injection Ha as ->. exfalso. apply (Hdis x); [by apply list_elem_of_lookup_2 in Hi|by apply (Hin b qb j)].
  - injection Hb as ->. exfalso. apply (Hdis x); [by apply list_elem_of_lookup_2 in Hj|by apply (Hin a qa i)].
  - destruct (IH a b Hqs Ha Hb Hi Hj) as [-> ->]. done.
Qed.

(** Every running thread is locked, runs on one CPU only, and is where the CPU remembers it. *)
Record exclusive (s : kstate) : Prop := mk_exclusive {
  ex_nodup : NoDup (concat (queues s));
  ex_null : 0 ∉ concat (queues s);
  ex_locked : forall m c, k_cpus s !! m = Some c -> current_thread c <> 0 ->
    exists th, k_threads s !! current_thread c = Some th /\ t_lock th = true;
  ex_place : forall m c, k_cpus s !! m = Some c -> current_thread c <> 0 ->
    exists q i, queues s !! Z.to_nat (current_priority c) = Some q /\
      last_run_thread_index c !! Z.to_nat (current_priority c) = Some i /\ 0 <= i /\
      q !! Z.to_nat i = Some (current_thread c);
  ex_apart : forall m m' c c', k_cpus s !! m = Some c -> k_cpus s !! m' = Some c' -> m <> m' ->
    current_thread c = current_thread c' -> current_thread c = 0
}.

(** Going back to the interrupted thread at an unchanged level. *)
Lemma exclusive_return me s c c' :
  exclusive s -> k_cpus s !! me = Some c -> current_thread c' = current_thread c ->
  current_priority c' = current_priority c -> last_run_thread_index c' = last_run_thread_index c ->
  exclusive (cpu_update me c' s).
Proof.
  intros [H1 H2 H3 H4 H5] Hc Ht Hp Hl. pose proof (lookup_lt_Some _ _ _ Hc) as Hlen.
  assert (Hold : forall m d, k_cpus (cpu_update me c' s) !! m = Some d ->
    exists d0, k_cpus s !! m = Some d0 /\ current_thread d = current_thread d0 /\
      current_priority d = current_priority d0 /\ last_run_thread_index d = last_run_thread_index d0).
  { intros m d Hm. simpl in Hm. destruct (decide (m = me)) as [->|].
    - rewrite list_lookup_insert_eq in Hm by done. injection Hm as <-. by exists c.
    - rewrite list_lookup_insert_ne in Hm by congruence. by exists d. }
  constructor; [done|done| | |].
  - intros m d Hm Hn. destruct (Hold m d Hm) as (d0 & Hm0 & Et & _). rewrite Et in Hn |- *. by apply (H3 m d0).
  - intros m d Hm Hn. destruct (Hold m d Hm) as (d0 & Hm0 & Et & Ep & El). rewrite Et in Hn |- *. rewrite Ep, El. by apply (H4 m d0).
  - intros m m' d d' Hm Hm' Hne Heq. destruct (Hold m d Hm) as (d0 & Hm0 & Et & _), (Hold m' d' Hm') as (d0' & Hm0' & Et' & _).
    rewrite Et, Et' in Heq. rewrite Et. by apply (H5 m m' d0 d0').
Qed.

Lemma exclusive_switch me regs s s' c cp peg t i q :
  exclusive s -> k_cpus s !! me = Some c -> is_Some (last_run_thread_index c !! Z.to_nat cp) ->
  queues s !! Z.to_nat cp = Some q -> 0 <= i -> q !! Z.to_nat i = Some t -> t <> current_thread c ->
  (exists th, k_threads s !! t = Some th /\ t_lock th = false) ->
  switched me c regs cp peg t i s s' -> exclusive s'.
Proof.
  intros [H1 H2 H3 H4 H5] Hc Hlr Hq Hi Hqt Hne (th0 & Hth0 & Hfree) (s1 & th & Hs1 & HT & Hth & Hcpus & Hqs & Hlk).
  pose proof (lookup_lt_Some _ _ _ Hc) as Hlen.
  assert (HT' : forall u, u <> t -> u <> current_thread c -> k_threads s' !! u = k_threads s !! u).
  { intros u Hu1 Hu2. rewrite HT, Hs1. unfold lock_thread. rewrite (proj2 (Z.eqb_neq t _)) by done.
    destruct (truthy _); simpl; by rewrite !lookup_alter_ne by congruence. }
  assert (Hlockt : exists x, k_threads s' !! t = Some x /\ t_lock x = true).
  { rewrite HT, Hs1. unfold lock_thread. rewrite (proj2 (Z.eqb_neq t _)) by done.
    exists (with_t_lock true th0). split; [|done].
    destruct (truthy _); simpl; rewrite ?(lookup_alter_ne _ _ (current_thread c)) by congruence; by rewrite lookup_alter_eq, Hth0. }
  assert (Hnotrun : forall m d, k_cpus s !! m = Some d -> current_thread d <> 0 -> current_thread d <> t).
  { intros m d Hm Hn Ed. destruct (H3 m d Hm Hn) as (x & Hx & Hl). congruence. }
  assert (Hold : forall m d, k_cpus s' !! m = Some d -> m = me /\ current_thread d = t /\ current_priority d = cp /\
      last_run_thread_index d = <[Z.to_nat cp := i]> (last_run_thread_index c) \/ m <> me /\ k_cpus s !! m = Some d).
  { intros m d Hm. rewrite Hcpus in Hm. destruct (decide (m = me)) as [->|].
    - rewrite list_lookup_insert_eq in Hm by done. injection Hm as <-. by left.
    - rewrite list_lookup_insert_ne in Hm by congruence. by right. }
  constructor; rewrite ?Hqs; [done|done| | |].
  - intros m d Hm Hn. destruct (Hold m d Hm) as [(-> & Et & _)|(Hmm & Hm0)]; [by rewrite Et|].
    rewrite HT'; [by apply (H3 m d)|by apply (Hnotrun m)|].
    intros Ecur. apply Hn. by apply (H5 m me d c).
  - intros m d Hm Hn. destruct (Hold m d Hm) as [(-> & Et & Ep & El)|(Hmm & Hm0)]; [|by apply (H4 m d)].
    rewrite Ep, Et, El. exists q, i. split; [done|]. split; [|done]. apply list_lookup_insert_eq.
    destruct Hlr as [z Hz]. by apply lookup_lt_Some in Hz.
  - assert (Hcase : forall m d, m <> me -> k_cpus s !! m = Some d -> current_thread d = t -> False).
    { intros m d Hm Hd Ed. assert (t <> 0) by (intros ->; apply H2, list_elem_of_In, in_concat; exists q;
        split; [apply list_elem_of_In, (list_elem_of_lookup_2 _ _ _ Hq)|apply list_elem_of_In, (list_elem_of_lookup_2 _ _ _ Hqt)]).
      apply (Hnotrun m d Hd); congruence. }
    intros m m' d d' Hm Hm' Hmm Heq. destruct (Hold m d Hm) as [(-> & Et & _)|(Hm1 & Hm0)], (Hold m' d' Hm') as [(-> & Et' & _)|(Hm1' & Hm0')].
    + done.
    + exfalso. apply (Hcase m' d' Hm1' Hm0'). congruence.
    + exfalso. apply (Hcase m d Hm1 Hm0). congruence.
    + by apply (H5 m m' d d').
Qed.

(** C10: exclusive execution: as long as running threads are locked, run on one CPU each and sit
    where their CPU last found them, a [schedule] that switches, or that stays at its
    level, keeps this so; the thread it switches to was running nowhere. *)
Theorem schedule_exclusive me regs s c r s' :
  sched_ok me s c -> exclusive s -> schedule me regs s = Done (r, s') ->
  (r = None -> forall c', k_cpus s' !! me = Some c' -> current_priority c' = current_priority c) ->
  exclusive s' /\ forall t m d, r = Some t -> k_cpus s !! m = Some d -> current_thread d <> t.
Proof.
  intros Hok Hex E Hlevel. pose proof (so_cpu _ _ _ Hok) as Hc.
  destruct (schedule_run me regs s c Hok) as (cp & peg & q & orig & old & r' & s'' & _ & Hcp & _ & Hq & _ & Horig & Hob & Hold & E' & Ho).
  rewrite E in E'. injection E' as <- <-. destruct Ho as (pick & s1 & Hpick & Hcase). destruct pick as [[t i]|].
  2: { destruct Hcase as [-> ->]. split; [|done]. apply (exclusive_return me s c); try done. simpl.
       specialize (Hlevel eq_refl _ (cpu_update_lookup me _ s ltac:(by eexists))). done. }
  destruct Hpick as (e & He & Hi & Hqt & Hav & -> & _).
  assert (Hi0 : 0 <= i) by (rewrite Hi; apply Z.mod_pos_bound; lia).
  assert (Hplace : current_thread c <> 0 -> t = current_thread c -> cp = current_priority c /\ i = old).
  { intros Hn ->. destruct (ex_place _ Hex me c Hc Hn) as (q' & i' & Hq' & Hi' & Hi'0 & Hqc).
    destruct (concat_position (queues s) _ _ q q' _ _ _ (ex_nodup _ Hex) Hq Hq' Hqt Hqc) as [E1 E2].
    pose proof (so_prio _ _ _ Hok). rewrite Hold in Hi'. injection Hi' as ->. split; lia. }
  destruct (truthy (current_thread c) && _) eqn:Esame.
  - destruct Hcase as [-> ->]. split; [|done]. unfold truthy in Esame. zbool.
    assert (t = current_thread c) as ->.
    { destruct (ex_place _ Hex me c Hc) as (q' & i' & Hq' & Hi' & Hi'0 & Hqc); [done|]. subst.
      rewrite Hq in Hq'. rewrite Hold in Hi'. congruence. }
    unfold lock_thread. rewrite Z.eqb_refl. by apply (exclusive_return me s c).
  - destruct Hcase as [-> Hsw].
    assert (Hn0 : t <> 0).
    { intros ->. apply (ex_null _ Hex), list_elem_of_In, in_concat. exists q.
      split; apply list_elem_of_In; [by apply list_elem_of_lookup_2 in Hq|by apply list_elem_of_lookup_2 in Hqt]. }
    assert (Hne : t <> current_thread c).
    { intros Et. assert (Hc0 : current_thread c <> 0) by congruence. destruct (Hplace Hc0 Et) as [-> ->].
      unfold truthy in Esame. rewrite (proj2 (Z.eqb_neq _ 0)), !Z.eqb_refl in Esame by done. done. }
    destruct Hav as [?|Hav]; [done|].
    split; [apply (exclusive_switch me regs s s' c cp peg t i q); try done; by eexists|].
    intros t' m d [= <-] Hd Ed. destruct (ex_locked _ Hex m d Hd) as (x & Hx & Hl); [congruence|].
    destruct Hav as (y & Hy & Hfy). congruence.
Qed.

(** [sched_enqueue] adds a thread that is not queued to the end of the queue of its
    priority and keeps execution exclusive; a thread already queued is left alone. *)
Theorem enqueue_exclusive s t th q :
  exclusive s -> sched_lock s = false -> k_threads s !! t = Some th -> t <> 0 ->
  queues s !! Z.to_nat (priority th) = Some q ->
  (queued th = 0 -> t ∉ concat (queues s)) ->
  exists s', sched_enqueue t s = Done (tt, s') /\ exclusive s' /\ sched_lock s' = false /\
    queues s' = (if truthy (queued th) then queues s else <[Z.to_nat (priority th) := q ++ [t]]> (queues s)).
Proof.
  intros Hex Hl Ht Hn Hq Hfresh. unfold sched_enqueue.
  rewrite (bind_run (get_thread t) _ s th s) by (unfold get_thread; by rewrite Ht).
  unfold truthy. destruct (Z.eqb_spec (queued th) 0) as [E0|E0]; simpl; [|by exists s].
  specialize (Hfresh E0). set (p := Z.to_nat (priority th)) in *.
  exists (set_queues (<[p := q ++ [t]]> (queues s)) (set_k_threads (<[t := with_queued 1 th]> (k_threads s)) s)). split.
  { unfold LOCK_sched, push_queue, queue_of, mbind, M_bind. simpl. rewrite Hl. simpl. fold p. rewrite Hq. simpl.
    destruct s; simpl in *. by subst. }
  split; [|done]. destruct Hex as [H1 H2 H3 H4 H5].
  assert (Hperm : concat (<[p := q ++ [t]]> (queues s)) ≡ₚ t :: concat (queues s)).
  { rewrite <- (take_drop_middle (queues s) p q Hq) at 2. rewrite insert_take_drop by (by apply lookup_lt_Some in Hq).
    rewrite !concat_app. simpl. rewrite <- !app_assoc. simpl.
    rewrite !Permutation_middle. by rewrite !app_assoc. }
  constructor; simpl.
  - rewrite Hperm. by constructor.
  - rewrite Hperm. rewrite elem_of_cons. intros [?|?]; [congruence|done].
  - intros m c Hm Hnz. destruct (H3 m c Hm Hnz) as (x & Hx & Hlk). destruct (decide (current_thread c = t)) as [Ec|].
    + rewrite Ec, lookup_insert_eq. exists (with_queued 1 th). split; [done|]. simpl. congruence.
    + rewrite lookup_insert_ne by congruence. by exists x.
  - intros m c Hm Hnz. destruct (H4 m c Hm Hnz) as (q' & i & Hq' & Hi & Hi0 & Hlk).
    destruct (decide (Z.to_nat (current_priority c) = p)) as [Ep|].
    + rewrite Ep in *. assert (q' = q) as -> by congruence. exists (q ++ [t]), i.
      rewrite list_lookup_insert_eq by (by apply lookup_lt_Some in Hq). split_and!; try done.
      by apply lookup_app_l_Some.
    + exists q', i. rewrite list_lookup_insert_ne by congruence. done.
  - done.
Qed.

(** ** Two CPUs, two priorities *)

Definition plain_thread (prio : Z) (locked : bool) : thread_t :=
  mk_thread 5 1 0 0 0 locked 1 prio 0 (fun _ => 0) [].
Definition plain_cpu (t peg cp : Z) : cpu_locals := mk_cpu t (replicate 20 0) peg cp 0 [] None.
Definition kernel_proc_sample : proc_t := mk_proc 0 0 0 [] [10; 11] 7 0 0 0 [] 0 0.

(** Thread 10 at priority 0 runs on CPU 0, thread 11 at priority 1 on CPU 1. *)
Definition two_running : kstate :=
  mk_kstate sample_vmm sample_vfs (<[10 := plain_thread 0 true]> (<[11 := plain_thread 1 true]> ∅))
    (<[5 := kernel_proc_sample]> ∅) ∅ ∅ ([10] :: [11] :: replicate 18 [])
    [plain_cpu 10 1 0; plain_cpu 11 1 1] false 1 2 20.

Fixpoint ticks (cpus : list nat) : KM (list (option Z)) :=
  match cpus with
  | [] => mret []
  | me :: cpus' => r ← schedule me (fun _ => 0); rs ← ticks cpus'; mret (r :: rs)
  end.

(** two CPUs can run the same thread: when CPU 0 finds every thread of the next level
    running elsewhere it returns but keeps the new level, so at its next tick it takes its own
    thread for a different one, releases that thread's lock and goes on running it; CPU 1 then
    takes the free lock and runs the same thread. *)
Theorem schedule_runs_thread_twice :
  match ticks [0; 0; 1]%nat two_running with
  | Done (rs, s') => rs = [None; Some 10; Some 10] /\ current_thread <$> k_cpus s' = [10; 10]
  | _ => False
  end.
Proof. vm_compute. split; reflexivity. Qed.

(** Thread 10 runs on CPU 0, thread 11 of the same priority waits, thread 12 is not queued. *)
Definition one_free : kstate :=
  mk_kstate sample_vmm sample_vfs (<[10 := plain_thread 0 true]> (<[11 := plain_thread 0 false]>
      (<[12 := with_queued 0 (plain_thread 0 false)]> ∅)))
    (<[5 := kernel_proc_sample]> ∅) ∅ ∅ ([10; 11] :: replicate 19 []) [plain_cpu 10 0 0] false 1 2 20.
Definition after_tick : kstate :=
  match schedule 0 (fun _ => 0) one_free with Done (_, s) => s | _ => one_free end.

Lemma one_free_threads t th : k_threads one_free !! t = Some th -> t_parent th = 5.
Proof.
  simpl. intros H. repeat (rewrite lookup_insert_Some in H; destruct H as [[<- <-]|[_ H]]; [done|]).
  by rewrite lookup_empty in H.
Qed.

Lemma one_free_live q : q ∈ queues one_free -> queue_live one_free q.
Proof.
  intros Hq t Ht. apply elem_of_cons in Hq as [->|Hq].
  - apply elem_of_cons in Ht as [->|Ht]; [by eexists|]. apply elem_of_cons in Ht as [->|Ht]; [by eexists|].
    by apply elem_of_nil in Ht.
  - apply elem_of_replicate in Hq as [-> _]. by apply elem_of_nil in Ht.
Qed.

Lemma one_free_ok : sched_ok 0 one_free (plain_cpu 10 0 0).
Proof.
  constructor; try done; try (simpl; lia).
  - exists 0. split; [lia|]. by exists 10, [11].
  - apply one_free_live.
  - intros e q He Hq. exists 0. split; [apply lookup_replicate_2; lia|]. split; [lia|].
    destruct q; [done|]. simpl. lia.
  - intros t th Ht. rewrite (one_free_threads t th Ht). by eexists _, _.
  - right. by eexists.
Qed.

Lemma one_free_exclusive : exclusive one_free.
Proof.
  constructor.
  - by apply (bool_decide_unpack _).
  - by apply (bool_decide_unpack _).
  - intros [|m] c Hm _; [|by destruct m]. injection Hm as <-. by eexists.
  - intros [|m] c Hm _; [|by destruct m]. injection Hm as <-. exists [10; 11], 0. done.
  - intros [|m] [|m'] c c' Hm Hm'; try done; by destruct m.
Qed.

Lemma next_thread_round_robin_witness :
  exists r s', sched_get_next_thread 0 0 0 one_free = Done (r, s') /\
    picked one_free [10; 11] (plain_cpu 10 0 0) 0 1 r s'.
Proof.
  apply (next_thread_round_robin 0 one_free 0 [10; 11] (plain_cpu 10 0 0) 0); [done|done| |simpl; lia].
  apply one_free_live. left.
Defined.

Lemma priority_loop_reaches_witness :
  exists cp' peg', priority_loop priority_rounds (queues one_free) 3 7 = Some (cp', peg') /\
    nonempty (queues one_free) cp' /\ 0 <= cp' < 20 /\ 0 <= peg' < 20.
Proof. apply (priority_loop_reaches (queues one_free) 3 7 0); [lia|lia|lia|]. by exists 10, [11]. Defined.

Lemma priority_no_starvation_witness : In 0 (stops priority_rounds priority_rounds (queues one_free) 3 7).
Proof. apply (priority_no_starvation (queues one_free) 3 7 0); [lia|lia|lia|]. by exists 10, [11]. Defined.

Lemma schedule_rearms_witness :
  exists r s' c', schedule 0 (fun _ => 0) one_free = Done (r, s') /\ sched_lock s' = false /\
    k_cpus s' !! 0%nat = Some c' /\ c_timer c' = Some DEFAULT_TIMESLICE /\
    match r with
    | None => current_thread c' = current_thread (plain_cpu 10 0 0)
    | Some t => current_thread c' = t /\ exists th, k_threads s' !! t = Some th /\
        tss_rsp0 c' = kernel_stack th /\ c_fpu c' = fpu_storage th
    end.
Proof. apply (schedule_rearms 0 (fun _ => 0) one_free (plain_cpu 10 0 0) one_free_ok). Defined.

Lemma schedule_exclusive_witness :
  exclusive after_tick /\ forall t m d, Some 11 = Some t -> k_cpus one_free !! m = Some d -> current_thread d <> t.
Proof.
  apply (schedule_exclusive 0 (fun _ => 0) one_free (plain_cpu 10 0 0) (Some 11) after_tick
    one_free_ok one_free_exclusive); [vm_compute; reflexivity|done].
Defined.

Lemma enqueue_exclusive_witness :
  exists s', sched_enqueue 12 one_free = Done (tt, s') /\ exclusive s' /\ sched_lock s' = false /\
    queues s' = [10; 11; 12] :: replicate 19 [].
Proof.
  apply (enqueue_exclusive one_free 12 (with_queued 0 (plain_thread 0 false)) [10; 11] one_free_exclusive); try done.
  intros _. by apply (bool_decide_unpack _).
Defined.
