(* ===== verification/Elf.v ===== *)
(** * Loading programs (src/src/kernel/elf.c)

    The file is read into a kernel buffer (bytes of [ubuf] at a new address) and parsed there
    field by field at the offsets of [elf_header_t] and [elf_prog_header_t]. *)
From S2P Require Import Prelude CString Rtc Device Pmm PageTable Vmm Fs Tmpfs Vfs Event Kernel.

Definition ELF_EXECUTABLE : Z := 2.
Definition ELF_HEAD_LOAD : Z := 1.
Definition PF_W : Z := 2.
Definition PROT_READ : Z := 1.
Definition PROT_EXEC : Z := 4.
Definition MAP_PRIVATE : Z := 1.
Definition MAP_FIXED : Z := 4.

(** [ROUND_UP]: a quotient rounded up, not a multiple. *)
Definition ROUND_UP (a b : Z) : Z := u64 (a + (b - 1)) / b.

Definition elf_ident : list Z := [0x7f; 69; 76; 70].

Record elf_header := mk_elf_header {
  identifier : list Z; e_type : Z; e_entry : Z; prog_head_off : Z; prog_head_count : Z
}.
Record elf_prog_header := mk_prog_header {
  ph_type : Z; ph_flags : Z; ph_offset : Z; ph_virt_addr : Z; ph_file_size : Z; ph_mem_size : Z
}.

(** The fields of the packed structures at address [a]. *)
Definition read_header (m : mem) (a : Z) : elf_header :=
  mk_elf_header (u8 <$> peek a 16 m) (ld 2 m (a + 16)) (ld 8 m (a + 24)) (ld 8 m (a + 32)) (ld 2 m (a + 56)).
Definition read_prog_header (m : mem) (a : Z) : elf_prog_header :=
  mk_prog_header (ld 4 m a) (ld 4 m (a + 4)) (ld 8 m (a + 8)) (ld 8 m (a + 16)) (ld 8 m (a + 32)) (ld 8 m (a + 40)).
Definition prog_header_size : Z := 56.

(** [kmalloc(n)] for a buffer of bytes. *)
Definition kalloc_bytes (n : Z) : KM Z := fun s => Done (k_next s, set_k_next (k_next s + n) s).

Definition segment_pages (ph : elf_prog_header) : Z :=
  ROUND_UP (u64 (Z.land (ph_virt_addr ph) (PAGE_SIZE - 1) + ph_mem_size ph)) PAGE_SIZE.

(** One iteration of the loop: [first] is [prog_header[0]], whose [virt_addr] the mapping
    uses; the protection is a conditional expression whose condition is never zero. *)
Definition load_segment (pagemap : Z) (m : mem) (buffer : Z) (first ph : elf_prog_header) : KM unit :=
  if ph_type ph =? ELF_HEAD_LOAD then
    addr ← on_vmm (on_phys (pcalloc (segment_pages ph)));
    let length := segment_pages ph * PAGE_SIZE in
    on_vmm (map_pages pagemap addr (ph_virt_addr first) length
      (if truthy (Z.land (ph_flags ph) PF_W) then 7 else 5));;
    on_vmm (push_range pagemap (mk_range 0 addr (ph_virt_addr ph) 0 length (Z.lor MAP_FIXED MAP_ANON)
      (if truthy (Z.lor (Z.lor PROT_READ PROT_EXEC) (Z.land (ph_flags ph) PF_W)) then PROT_WRITE else 0)));;
    on_vmm (on_phys (modify (fun p => with_phys
      (Device.put (ph_file_size ph) (phys p)
         (dmap (u64 (addr + PHYS_MEM_OFFSET + Z.land (ph_virt_addr ph) (PAGE_SIZE - 1))))
         m (buffer + ph_offset ph)) p)))
  else mret tt.

Fixpoint load_segments (n : nat) (i : Z) (pagemap : Z) (m : mem) (buffer table : Z) : KM unit :=
  match n with
  | O => mret tt
  | S n' =>
      load_segment pagemap m buffer (read_prog_header m table) (read_prog_header m (table + prog_header_size * i));;
      load_segments n' (i + 1) pagemap m buffer table
  end.

Section Elf.
Context (fs_table : Z -> option fs_ops) (file_table : Z -> option file_ops) (drivers : Z -> DriverOps) `{Env}.

(** The result and [*entry], when it is written.  A missing file is a NULL pointer that
    [file->length] dereferences. *)
Definition elf_run_binary (path : list Z) (pagemap : Z) : KM (Z * option Z) :=
  file ← on_vfs (vfs_open fs_table path);
  f ← on_files (get_file file);
  buffer ← kalloc_bytes (f_length f);
  _ ← on_files (vfs_read file_table drivers file buffer 0 (f_length f));
  m ← gets (fun s => ubuf (v_fs (k_vfs s)));
  let header := read_header m buffer in
  if negb (e_type header =? ELF_EXECUTABLE) then mret (1, None)
  else
    differs ← of_option (CString.Kernel.memcmp (identifier header) elf_ident 4);
    if truthy differs then mret (1, None)
    else
      load_segments (Z.to_nat (prog_head_count header)) 0 pagemap m buffer (buffer + prog_head_off header);;
      mret (0, Some (e_entry header)).
End Elf.

(** ** Properties *)

Section Properties.
Context (fs_table : Z -> option fs_ops) (file_table : Z -> option file_ops) (drivers : Z -> DriverOps) `{Env}.

Lemma on_vfs_vmm {A} (o : M vfs_state A) s a s' : on_vfs o s = Done (a, s') -> k_vmm s' = k_vmm s.
Proof. unfold on_vfs, on. destruct (o (k_vfs s)) as [[x y]| | |]; intros [=]. by subst. Qed.

Lemma on_files_vmm {A} (o : FM A) s a s' : on_files o s = Done (a, s') -> k_vmm s' = k_vmm s.
Proof. apply on_vfs_vmm. Qed.

Lemma memcmp_zero a b n :
  CString.Kernel.memcmp a b n = Some 0 -> Forall (fun x => 0 <= x < 256) a -> Forall (fun x => 0 <= x < 256) b ->
  take n a = take n b.
Proof.
  revert a b. induction n as [|n IH]; intros a b E Ha Hb; [done|].
  destruct a as [|x a], b as [|y b]; try done. cbn [CString.Kernel.memcmp] in E. apply Forall_cons in Ha as [Hx Ha]. apply Forall_cons in Hb as [Hy Hb].
  simpl. revert E. destruct (Z.eqb_spec x y) as [->|Hne]; intros E.
  - f_equal. by apply IH.
  - exfalso. apply Hne. apply s8_inj; [done|done|]. congruence.
Qed.

Lemma on_vmm_vfs {A} (o : M vmm_state A) s a s' : on_vmm o s = Done (a, s') -> k_vfs s' = k_vfs s.
Proof. unfold on_vmm, on. destruct (o (k_vmm s)) as [[x y]| | |]; intros [=]. by subst. Qed.

Lemma load_segments_vfs n i pagemap m buffer table s u s' :
  load_segments n i pagemap m buffer table s = Done (u, s') -> k_vfs s' = k_vfs s.
Proof.
  revert i s. induction n as [|n IH]; intros i s E; [by injection E as _ <-|]. simpl in E. inv_bind E.
  apply IH in Hk. rewrite Hk. unfold load_segment in Hm. destruct (_ =? _); [|by injection Hm as _ <-].
  inv_bind Hm. inv_bind Hk0. inv_bind Hk1.
  apply on_vmm_vfs in Hm0, Hm, Hm1, Hk0. congruence.
Qed.

(** [elf_run_binary] refuses a file without touching the address space: when it returns 1 no
    page table, range or physical page has changed and no entry point is given; when it
    returns 0 the buffer it read holds an executable header with the ELF magic and the
    entry point is the header's. *)
Theorem elf_run_binary_checks path pagemap s r e s' :
  elf_run_binary fs_table file_table drivers path pagemap s = Done ((r, e), s') ->
  (r = 1 /\ e = None /\ k_vmm s' = k_vmm s) \/
  (r = 0 /\ exists buffer, let h := read_header (ubuf (v_fs (k_vfs s'))) buffer in
     e_type h = ELF_EXECUTABLE /\ take 4 (identifier h) = elf_ident /\ e = Some (e_entry h)).
Proof.
  unfold elf_run_binary. intros E. inv_bind E. inv_bind Hk. inv_bind Hk0. inv_bind Hk. inv_bind Hk0.
  apply on_vfs_vmm in Hm. apply on_files_vmm in Hm0. injection Hm1 as -> <-. apply on_files_vmm in Hm2.
  injection Hm3 as <- <-. set (m := ubuf _) in *.
  assert (Hv : k_vmm s3 = k_vmm s) by (rewrite Hm2; simpl; congruence).
  destruct (Z.eqb_spec (e_type (read_header m a1)) ELF_EXECUTABLE) as [Et|Et]; cbn [negb] in Hk.
  2: { injection Hk as <- <- <-. left. done. }
  inv_bind Hk. destruct (CString.Kernel.memcmp _ _ _) as [d|] eqn:Ed; [|done]. injection Hm1 as <- <-.
  unfold truthy in Hk0. destruct (Z.eqb_spec d 0) as [->|]; cbn [negb] in Hk0.
  2: { injection Hk0 as <- <- <-. left. done. }
  inv_bind Hk0. injection Hk as <- <- <-. right. split; [done|]. exists a1.
  apply load_segments_vfs in Hm1. rewrite Hm1. fold m. split; [done|]. split; [|done].
  apply (memcmp_zero _ _ _ Ed).
  - apply Forall_fmap, Forall_forall. intros x _. apply u8_range.
  - repeat constructor; lia.
Qed.
End Properties.

(** ** A program with two segments *)

(** Program headers at 1000: four bytes of text at 0x400000, four bytes of data at 0x600000. *)
Definition two_segments : mem :=
  st 4 1000 1 (st 4 1004 5 (st 8 1008 0x2000 (st 8 1016 0x400000 (st 8 1032 4 (st 8 1040 4
  (st 4 1056 1 (st 4 1060 6 (st 8 1064 0x3000 (st 8 1072 0x600000 (st 8 1088 4 (st 8 1096 4
    (fun x => if x <? 0x3000 then 17 else 34)))))))))))).

Definition blank_kernel : kstate :=
  mk_kstate sample_vmm sample_vfs ∅ ∅ ∅ ∅ [] [] false 0 0 100.

(** a second segment is mapped over the first: with segments at 0x400000 and 0x600000,
    both are mapped at 0x400000, the address 0x600000 stays unmapped although a range is
    recorded there, and the range of the read-only first segment is recorded as
    writable only. *)
Theorem elf_second_segment_misplaced :
  match (load_segments 2 0 7 two_segments 0 1000;;
         a ← on_vmm (vmm_get_kernel_address 7 0x400000);
         b ← on_vmm (vmm_virt_to_phys 7 0x600000);
         mret (a, b)) blank_kernel with
  | Done ((a, b), s') =>
      phys (v_pmm (k_vmm s')) (dmap a) = 34 /\ b = 0 /\
      (fun m => (fun r => (r_virt_addr r, r_prot r)) <$> ranges m) <$> v_maps (k_vmm s') !! 7 =
        Some [(0x400000, PROT_WRITE); (0x600000, PROT_WRITE)]
  | _ => False
  end.
Proof. vm_compute. repeat split. Qed.

(** A file that is not an ELF image: the empty file "a" of the sample tmpfs, opened as
    "/dev/a". *)
Definition after_refusal : kstate :=
  match elf_run_binary sample_table (fun _ => Some tmpfs_file_table) no_drivers [47; 100; 101; 118; 47; 97] 7 blank_kernel with
  | Done (_, s) => s | _ => blank_kernel end.

Lemma elf_run_binary_checks_witness :
  elf_run_binary sample_table (fun _ => Some tmpfs_file_table) no_drivers [47; 100; 101; 118; 47; 97] 7 blank_kernel
    = Done ((1, None), after_refusal) /\
  (1 = 1 /\ @None Z = None /\ k_vmm after_refusal = k_vmm blank_kernel \/
   1 = 0 /\ exists buffer, let h := read_header (ubuf (v_fs (k_vfs after_refusal))) buffer in
     e_type h = ELF_EXECUTABLE /\ take 4 (identifier h) = elf_ident /\ @None Z = Some (e_entry h)).
Proof.
  assert (E : elf_run_binary sample_table (fun _ => Some tmpfs_file_table) no_drivers [47; 100; 101; 118; 47; 97] 7
    blank_kernel = Done ((1, None), after_refusal)) by (vm_compute; reflexivity).
  split; [exact E|]. exact (elf_run_binary_checks sample_table (fun _ => Some tmpfs_file_table) no_drivers _ _ _ _ _ _ E).
Defined.
