(* ===== verification/Loader.v ===== *)
(** * Loading a program (src/src/kernel/elf.c over mm/vmm.c and fs/vfs.c)

    What [elf_run_binary] of Elf.v does to the address space of a new program, over the spaces of
    Spaces.v.  The loader maps every segment at the address of the first program header, so the
    programs it can load are those whose first header is their only loadable segment. *)
From S2P Require Import Prelude CString Rtc Device Pmm PageTable Vmm Spaces Fork Fs Tmpfs Vfs Event Kernel Elf.
Open Scope Z_scope.

(** The bytes of a file as a memory. *)
Definition image_mem (image : list Z) : mem := fun x => default 0 (image !! Z.to_nat x).

(** [m] has the image at [buffer]. *)
Definition holds_image (m : mem) (buffer : Z) (image : list Z) : Prop :=
  forall i, 0 <= i < Z.of_nat (length image) -> m (buffer + i) = image_mem image i.

Definition image_header (image : list Z) : elf_header := read_header (image_mem image) 0.
Definition image_segment (image : list Z) (i : Z) : elf_prog_header :=
  read_prog_header (image_mem image) (prog_head_off (image_header image) + prog_header_size * i).

(** An executable with one loadable segment, its first. *)
Record program_image (image : list Z) : Prop := mk_program_image {
  pi_size : 64 <= Z.of_nat (length image);
  pi_type : e_type (image_header image) = ELF_EXECUTABLE;
  pi_magic : take 4 (identifier (image_header image)) = elf_ident;
  pi_count : 0 < prog_head_count (image_header image);
  pi_headers : prog_head_off (image_header image) + prog_header_size * prog_head_count (image_header image) <= Z.of_nat (length image);
  pi_first : ph_type (image_segment image 0) = ELF_HEAD_LOAD;
  pi_only : forall i, 0 < i < prog_head_count (image_header image) -> ph_type (image_segment image i) <> ELF_HEAD_LOAD;
  pi_bytes : ph_offset (image_segment image 0) + ph_file_size (image_segment image 0) <= Z.of_nat (length image);
  pi_mem : ph_file_size (image_segment image 0) <= ph_mem_size (image_segment image 0) /\ 0 < ph_mem_size (image_segment image 0);
  pi_virt : ph_virt_addr (image_segment image 0) + ph_mem_size (image_segment image 0) <= 0x70000000000 - 2 * PAGE_SIZE
}.

Lemma ld_image n m buffer image a : holds_image m buffer image -> 0 <= a -> a + Z.of_nat n <= Z.of_nat (length image) ->
  ld n m (buffer + a) = ld n (image_mem image) a.
Proof.
  intros H. revert a. induction n as [|n IH]; intros a Ha Hn; [done|]. cbn [ld]. rewrite H by lia.
  by rewrite <- IH, Z.add_assoc by lia.
Qed.

Lemma header_image m buffer image : holds_image m buffer image -> 64 <= Z.of_nat (length image) ->
  read_header m buffer = image_header image.
Proof.
  intros H Hl. unfold image_header, read_header. rewrite !Z.add_0_l, !(ld_image _ m buffer image _ H) by (cbn; lia).
  f_equal. f_equal. unfold peek. apply list_fmap_ext. intros i x Hi. apply lookup_seq in Hi as [-> Hi]. cbn. by rewrite H by lia.
Qed.

Lemma segment_image m buffer image a : holds_image m buffer image -> 0 <= a -> a + prog_header_size <= Z.of_nat (length image) ->
  read_prog_header m (buffer + a) = read_prog_header (image_mem image) a.
Proof.
  intros H Ha Hl. unfold read_prog_header, prog_header_size in *. rewrite <- !Z.add_assoc.
  by rewrite !(ld_image _ m buffer image _ H) by (cbn; lia).
Qed.

Lemma on_vmm_run {A} (o : VM A) s a x : o (k_vmm s) = Done (a, x) -> on_vmm o s = Done (a, set_k_vmm x s).
Proof. intros E. unfold on_vmm, on. by rewrite E. Qed.

Lemma on_vmm_returns {A} (o : VM A) s Q : returns (o (k_vmm s)) Q ->
  returns (on_vmm o s) (fun a s' => exists x, s' = set_k_vmm x s /\ Q a x).
Proof. intros (a & x & E & H). exists a, (set_k_vmm x s). split; [by apply on_vmm_run|]. by exists x. Qed.

(** A byte of a program stays while translations and data do. *)
Lemma vbyte_kept s s' F pm va : evolves s s' F -> user_va va -> F pm va = view s pm va ->
  data s (target (view s pm va) + va mod PAGE_SIZE) -> vbyte s' pm va = vbyte s pm va.
Proof.
  intros E Hva HF Hd. unfold vbyte. rewrite (ev_view _ _ _ E), HF by done. destruct (present _); [|done].
  f_equal. by apply (ev_data _ _ _ E).
Qed.

Lemma segment_pages_spec ph : 0 <= ph_virt_addr ph -> 0 < ph_mem_size ph -> ph_virt_addr ph + ph_mem_size ph < 2 ^ 47 ->
  let c := segment_pages ph in
  0 < c /\ ph_virt_addr ph mod PAGE_SIZE + ph_mem_size ph <= c * PAGE_SIZE < ph_virt_addr ph mod PAGE_SIZE + ph_mem_size ph + PAGE_SIZE.
Proof.
  intros Hv Hm Hh. unfold segment_pages, ROUND_UP. change (PAGE_SIZE - 1) with (Z.ones 12). rewrite Z.land_ones by lia.
  change (2 ^ 12) with PAGE_SIZE. pose proof (Z.mod_pos_bound (ph_virt_addr ph) PAGE_SIZE ltac:(done)) as Hp.
  set (x := ph_virt_addr ph mod PAGE_SIZE + ph_mem_size ph) in *. change (Z.ones 12) with 4095.
  assert (Hx : 0 < x < 2 ^ 48) by (unfold PAGE_SIZE in *; lia). rewrite (u64_small x), (u64_small (x + 4095)) by lia.
  pose proof (Z.div_mod (x + 4095) PAGE_SIZE ltac:(done)) as D. pose proof (Z.mod_pos_bound (x + 4095) PAGE_SIZE ltac:(done)) as B.
  unfold PAGE_SIZE in *. lia.
Qed.

(** The space [pm] with the segment [ph] of the image. *)
Record segment_loaded (t u : vmm_state) (pm : Z) (m : pagemap) (image : list Z) (ph : elf_prog_header) : Prop := mk_segment_loaded {
  sl_ok : spaces_ok u;
  sl_high : highest_page (v_pmm u) = highest_page (v_pmm t);
  sl_maps : exists r, r_virt_addr r = ph_virt_addr ph /\
    v_maps u = <[pm := mk_pagemap false (top_level m) (ranges m ++ [r])]> (v_maps t);
  sl_bytes : forall i, 0 <= i < ph_mem_size ph -> vbyte u pm (ph_virt_addr ph + i) =
    Some (if i <? ph_file_size ph then image_mem image (ph_offset ph + i) else 0);
  sl_frames : forall i, 0 <= i < ph_mem_size ph -> let x := target (view u pm (ph_virt_addr ph + i)) + (ph_virt_addr ph + i) mod PAGE_SIZE in
    data u x /\ ~ data t x;
  sl_view : forall pm' va, user_va va -> pm' <> pm \/ ph_virt_addr ph + ph_mem_size ph + 2 * PAGE_SIZE <= va -> view u pm' va = view t pm' va;
  sl_data : forall x, data t x -> data u x /\ phys (v_pmm u) x = phys (v_pmm t) x
}.

Definition load_cost (image : list Z) : Z := 4 * segment_pages (image_segment image 0).

Lemma load_segment_run pm m mm buffer image k s : let ph := image_segment image 0 in
  program_image image -> holds_image mm buffer image -> 0 <= ph_virt_addr ph -> 0 <= ph_offset ph -> 0 <= ph_file_size ph ->
  spaces_ok (k_vmm s) -> v_maps (k_vmm s) !! pm = Some m -> 0 <= k -> room (k_vmm s) (load_cost image + k) ->
  returns (load_segment pm mm buffer ph ph s) (fun _ s' => exists u, s' = set_k_vmm u s /\
    segment_loaded (k_vmm s) u pm m image ph /\ room u k).
Proof.
  intros ph Himg Hmm Hv Ho Hfs Hok Hm Hk Hroom. unfold load_segment. pose proof (pi_mem _ Himg) as [Hfm Hms]. pose proof (pi_virt _ Himg) as Hvirt.
  fold ph in Hfm, Hms, Hvirt. rewrite (pi_first _ Himg : ph_type ph = _), Z.eqb_refl.
  destruct (segment_pages_spec ph Hv Hms ltac:(unfold PAGE_SIZE in *; lia)) as [Hc Hcs]. unfold load_cost in Hroom. fold ph in Hroom.
  set (c := segment_pages ph) in *. set (v := ph_virt_addr ph) in *. pose proof (Z.mod_pos_bound v PAGE_SIZE ltac:(done)) as Hvm.
  set (fl := if truthy (Z.land (ph_flags ph) PF_W) then 7 else 5).
  assert (Hfl : fl = 5 \/ fl = 7) by (unfold fl; destruct (truthy _); auto).
  destruct (map_fresh pm m c v fl k (k_vmm s) Hok Hm Hc Hv ltac:(unfold PAGE_SIZE in *; lia) Hfl Hk Hroom)
    as (a & t1 & R1 & [] & u1 & R2 & Hfm1 & Hroom1).
  destruct (fm_frames _ _ _ _ _ _ _ Hfm1) as (n & En & Hn & Hlow & _). pose proof (fm_ev _ _ _ _ _ _ _ Hfm1) as Hev.
  set (r := mk_range 0 a v 0 (c * PAGE_SIZE) (Z.lor MAP_FIXED MAP_ANON)
      (if truthy (Z.lor (Z.lor PROT_READ PROT_EXEC) (Z.land (ph_flags ph) PF_W)) then PROT_WRITE else 0)).
  destruct (push_range_run pm m r u1 (ev_ok _ _ _ Hev)) as (u2 & R3 & Ep & Pp & Mp).
  { by rewrite (fm_maps _ _ _ _ _ _ _ Hfm1). }
  set (m3 := Device.put (ph_file_size ph) (phys (v_pmm u2)) (dmap (u64 (a + PHYS_MEM_OFFSET + Z.land v (PAGE_SIZE - 1)))) mm (buffer + ph_offset ph)).
  assert (Em3 : forall x, m3 x = if (a + v mod PAGE_SIZE <=? x) && (x <? a + v mod PAGE_SIZE + ph_file_size ph)
    then mm (buffer + ph_offset ph + (x - (a + v mod PAGE_SIZE))) else phys (v_pmm u1) x).
  { intros x. unfold m3, put. rewrite Pp. change (PAGE_SIZE - 1) with (Z.ones 12). rewrite Z.land_ones by lia. change (2 ^ 12) with PAGE_SIZE.
    replace (a + PHYS_MEM_OFFSET + v mod PAGE_SIZE) with (a + v mod PAGE_SIZE + PHYS_MEM_OFFSET) by lia.
    by rewrite dmap_direct by (unfold PAGE_SIZE in *; lia). }
  assert (Hin : forall x, a <= x < a + c * PAGE_SIZE -> data u2 x /\ ~ data (k_vmm s) x).
  { intros x Hx. destruct (fm_new _ _ _ _ _ _ _ Hfm1 x Hx) as (D & _ & N). split; [by apply (ev_data _ _ _ Ep)|done]. }
  destruct (write_data u2 m3 (ev_ok _ _ _ Ep)) as (Hok3 & V3 & D3).
  { intros x. rewrite Em3, Pp. destruct (Z.leb_spec (a + v mod PAGE_SIZE) x), (Z.ltb_spec x (a + v mod PAGE_SIZE + ph_file_size ph));
      cbn [andb]; [right|by left..]. apply Hin. lia. }
  eexists tt, (set_k_vmm (with_mem m3 u2) s). split.
  { erewrite bind_run by (apply on_vmm_run; exact R1). erewrite bind_run by (apply on_vmm_run; exact R2).
    erewrite bind_run by (apply on_vmm_run; exact R3). erewrite on_vmm_run; [reflexivity|]. reflexivity. }
  exists (with_mem m3 u2). split; [done|].
  assert (Vu : forall pm' va, user_va va -> view (with_mem m3 u2) pm' va = view u1 pm' va)
    by (intros pm' va Hva; rewrite V3 by done; by apply (ev_view _ _ _ Ep)).
  assert (Hva : forall i, 0 <= i < ph_mem_size ph -> user_va (v + i)) by (intros i Hi; unfold user_va, PAGE_SIZE in *; lia).
  assert (Hat : forall i, 0 <= i < ph_mem_size ph -> present (view u1 pm (v + i)) = true /\
    target (view u1 pm (v + i)) + (v + i) mod PAGE_SIZE = a + v mod PAGE_SIZE + i).
  { intros i Hi. pose proof (Z.div_mod v PAGE_SIZE ltac:(done)) as D1. pose proof (Z.div_mod (v + i) PAGE_SIZE ltac:(done)) as D2.
    pose proof (Z.mod_pos_bound (v + i) PAGE_SIZE ltac:(done)).
    destruct (fresh_at _ _ _ _ _ _ _ (v + i) Hfm1 (Hva i Hi)) as (Q1 & Q2 & _); [unfold PAGE_SIZE in *; lia|].
    split; [done|]. rewrite Q2. unfold PAGE_SIZE in *. lia. }
  split; [constructor|].
  - done.
  - cbn. rewrite Pp. apply (ev_high _ _ _ Hev).
  - exists r. split; [done|]. cbn. by rewrite Mp, (fm_maps _ _ _ _ _ _ _ Hfm1).
  - fold v. intros i Hi. destruct (Hat i Hi) as [Q1 Q2]. unfold vbyte. rewrite Vu, Q1, Q2 by (by apply Hva). f_equal.
    change (phys (v_pmm (with_mem m3 u2))) with m3. rewrite Em3. rewrite (proj2 (Z.leb_le _ _)) by lia. cbn [andb].
    destruct (Z.ltb_spec i (ph_file_size ph)).
    + rewrite (proj2 (Z.ltb_lt _ _)) by lia. replace (buffer + ph_offset ph + (a + v mod PAGE_SIZE + i - (a + v mod PAGE_SIZE))) with (buffer + (ph_offset ph + i)) by lia.
      apply Hmm. pose proof (pi_bytes _ Himg) as Hb. fold ph in Hb. lia.
    + rewrite (proj2 (Z.ltb_ge _ _)) by lia. apply (fm_new _ _ _ _ _ _ _ Hfm1). lia.
  - fold v. intros i Hi. destruct (Hat i Hi) as [_ Q2]. cbv zeta. rewrite Vu, Q2 by (by apply Hva).
    destruct (Hin (a + v mod PAGE_SIZE + i)) as [Hd Hn']; [lia|]. split; [by apply D3|done].
  - fold v. intros pm' va Hu Hout. rewrite Vu by done. apply (fresh_other _ _ _ _ _ _ _ _ _ Hfm1 Hu). destruct Hout as [Hne|Hout]; [by left|right].
    intros [_ Hlt]. pose proof (Z.div_mod v PAGE_SIZE ltac:(done)) as D1. pose proof (Z.div_mod va PAGE_SIZE ltac:(done)) as D2.
    pose proof (Z.mod_pos_bound va PAGE_SIZE ltac:(done)). unfold PAGE_SIZE in *. lia.
  - intros x Hx. destruct (ev_data _ _ _ Hev x Hx) as [Hx1 E1]. split; [by apply D3, (ev_data _ _ _ Ep)|].
    change (phys (v_pmm (with_mem m3 u2))) with m3. rewrite Em3, <- E1.
    destruct (Z.leb_spec (a + v mod PAGE_SIZE) x), (Z.ltb_spec x (a + v mod PAGE_SIZE + ph_file_size ph)); cbn [andb]; try done.
    exfalso. apply (proj2 (Hin x ltac:(lia))). done.
  - apply room_mem. destruct Hroom1 as (n1 & [U1 U2] & H1). exists n1. rewrite Pp. split; [by constructor|done].
Qed.

(** Segments that are not loadable are passed over. *)
Lemma load_segments_skip n i pm mm buffer table s :
  (forall j, i <= j < i + Z.of_nat n -> ph_type (read_prog_header mm (table + prog_header_size * j)) <> ELF_HEAD_LOAD) ->
  load_segments n i pm mm buffer table s = Done (tt, s).
Proof.
  revert i. induction n as [|n IH]; intros i H; [done|]. cbn [load_segments].
  erewrite bind_run; [apply IH; intros j Hj; apply H; lia|]. unfold load_segment.
  rewrite (proj2 (Z.eqb_neq _ _)) by (apply H; lia). reflexivity.
Qed.

Lemma memcmp_magic l : take 4 l = elf_ident -> CString.Kernel.memcmp l elf_ident 4 = Some 0.
Proof. destruct l as [|a [|b [|c [|d l]]]]; intros [=]; subst; by destruct l. Qed.

Section Load.
Context (fs_table : Z -> option fs_ops) (file_table : Z -> option file_ops) (drivers : Z -> DriverOps) `{Env}.

(** Opening and reading the file at [path] gives [image]. *)
Definition file_image (v v' : vfs_state) (path image : list Z) (buffer : Z) : Prop :=
  exists file v1 f n fs', vfs_open fs_table path v = Done (file, v1) /\ files (v_fs v1) !! file = Some f /\
    f_length f = Z.of_nat (length image) /\ vfs_read file_table drivers file buffer 0 (f_length f) (v_fs v1) = Done (n, fs') /\
    v' = set_fs fs' v1 /\ holds_image (ubuf fs') buffer image.

Lemma elf_load_run path pm m image v' k s : program_image image -> file_image (k_vfs s) v' path image (k_next s) ->
  spaces_ok (k_vmm s) -> v_maps (k_vmm s) !! pm = Some m -> 0 <= k -> room (k_vmm s) (load_cost image + k) ->
  exists u, elf_run_binary fs_table file_table drivers path pm s =
      Done ((0, Some (e_entry (image_header image))), set_k_vmm u (set_k_vfs v' (set_k_next (k_next s + Z.of_nat (length image)) s))) /\
    segment_loaded (k_vmm s) u pm m image (image_segment image 0) /\ room u k.
Proof.
  intros Himg (file & v1 & f & n & fs' & Eo & Ef & El & Er & -> & Hmm) Hok Hm Hk Hroom. unfold elf_run_binary.
  erewrite bind_run by (unfold on_vfs, on; rewrite Eo; reflexivity).
  erewrite bind_run by (unfold on_files, on_vfs, on, on_fs; cbn; unfold get_file; rewrite Ef; reflexivity).
  erewrite bind_run by reflexivity.
  erewrite bind_run by (unfold on_files, on_vfs, on, on_fs; cbn; rewrite Er; reflexivity).
  erewrite bind_run by reflexivity. cbn [k_vfs set_k_vfs v_fs set_fs k_next set_k_next]. rewrite El.
  set (mm := ubuf fs') in *. set (buffer := k_next s) in *. rewrite (header_image mm buffer image Hmm (pi_size _ Himg)).
  rewrite (pi_type _ Himg), Z.eqb_refl. cbn [negb]. erewrite bind_run by (by rewrite (memcmp_magic _ (pi_magic _ Himg))).
  change (truthy 0) with false. cbv iota. set (h := image_header image) in *.
  pose proof (pi_count _ Himg) as Hcount. pose proof (pi_headers _ Himg) as Hheads. fold h in Hcount, Hheads.
  assert (Hoff : 0 <= prog_head_off h) by apply (ld_range 8).
  assert (Hseg : forall j, 0 <= j < prog_head_count h -> read_prog_header mm (buffer + prog_head_off h + prog_header_size * j) = image_segment image j).
  { intros j Hj. unfold image_segment. fold h. rewrite <- Z.add_assoc. apply (segment_image mm buffer image _ Hmm); unfold prog_header_size in *; lia. }
  replace (Z.to_nat (prog_head_count h)) with (S (Z.to_nat (prog_head_count h - 1))) by lia. cbn [load_segments].
  pose proof (Hseg 0 ltac:(lia)) as H0. rewrite Z.mul_0_r, Z.add_0_r in *. rewrite H0.
  set (s1 := set_k_vfs _ _). destruct (load_segment_run pm m mm buffer image k s1 Himg Hmm) as ([] & s2 & R & u & -> & Hl & Hr);
    [apply (ld_range 8)|apply (ld_range 8)|apply (ld_range 8)|done|done|done|done|].
  exists u. split; [|by split]. erewrite bind_run.
  2:{ erewrite bind_run by exact R. apply load_segments_skip. intros j Hj. rewrite Hseg by lia. apply (pi_only _ Himg). fold h. lia. }
  reflexivity.
Qed.
End Load.
