(* ===== verification/Proc.v ===== *)
(** * Processes (src/src/kernel/tasking/scheduler.c: processes, threads, fork, wait, exec)

    The code that runs on CPU [me].  File-backed mappings are copied by a driver
    ([vfs_mmap] of Vmm.v), a parameter.  [junk_child] and [junk_event] are the values of
    the variables that [sched_waitpid] reads before it assigns them. *)
From S2P Require Import Prelude CString Rtc Device Pmm PageTable Vmm Fs Tmpfs Vfs Event Kernel Sched Elf.

Definition SCHED_STACK_TOP : Z := 0x70000000000.
Definition SCHED_MMAP_TOP : Z := 0x90000000000.
Definition SCHED_STACK_SIZE : Z := PAGE_SIZE * 0x40.
Definition GDT_SEG_KCODE : Z := 8.
Definition GDT_SEG_KDATA : Z := 16.
Definition GDT_SEG_UCODE : Z := 27.
Definition GDT_SEG_UDATA : Z := 35.
Definition ECHILD : Z := 12.
Definition EINVAL : Z := 28.

(** [kcalloc(sizeof(event_t))] *)
Definition new_event : KM Z :=
  e ← kalloc; modify (fun s => set_k_events (<[e := mk_event 0 false]> (k_events s)) s);; mret e.

Definition next_pid : KM Z := fun s => Done (current_pid s, set_current_pid (u64 (current_pid s + 1)) s).
Definition next_tid : KM Z := fun s => Done (current_tid s, set_current_tid (u64 (current_tid s + 1)) s).

(** The loop that copies the open files into a forked process. *)
Fixpoint copy_fds (l : list Z) : KM (list Z) :=
  match l with
  | [] => mret []
  | fd :: l' =>
      fd' ← (if truthy fd then
               sfile ← kalloc;
               sf ← get_sfile fd;
               put_sfile sfile sf;;
               f ← on_files (get_file (sf_file sf));
               on_files (put_file (sf_file sf) (with_ref_count (s32 (ref_count f + 1)) f));;
               mret sfile
             else mret 0);
      rest ← copy_fds l';
      mret (fd' :: rest)
  end.

(** [vec_remove] on a run queue: the first occurrence goes. *)
Fixpoint remove_first (x : Z) (l : list Z) : list Z :=
  match l with [] => [] | y :: l' => if y =? x then l' else y :: remove_first x l' end.

Section Proc.
Context (me : nat).
Context (vm_mmap : Z -> Z -> Z -> Z -> Z -> Z -> Z -> VM Z).

Definition sched_new_proc (old_proc pagemap user : Z) : KM Z :=
  new_proc ← kalloc;
  if negb (truthy old_proc) then
    pagemap ← (if negb (truthy pagemap) then
                 if truthy user then on_vmm vmm_create_new_pagemap else mret kernel_pagemap
               else mret pagemap);
    pid ← next_pid;
    event ← new_event;
    put_proc new_proc (mk_proc user pid 0 [] [] pagemap SCHED_STACK_TOP SCHED_MMAP_TOP 0
      (replicate (Z.to_nat FDS_COUNT) 0) event 0);;
    mret new_proc
  else
    old ← get_proc old_proc;
    pid ← next_pid;
    pagemap ← on_vmm (vmm_fork_pagemap vm_mmap (p_pagemap old));
    event ← new_event;
    fds ← copy_fds (fds old);
    put_proc new_proc (mk_proc user pid old_proc [] [] pagemap (stack_top old) (mmap_top old) 0 fds event 0);;
    mret new_proc.

(** [SCHED_STACK_SIZE / PAGE_SIZE] *)
Definition stack_pages : Z := SCHED_STACK_SIZE / PAGE_SIZE.

Definition zero_regs : registers := fun _ => 0.

Definition sched_new_thread (thread parent addr priority uid gid auto_start : Z) : KM Z :=
  thread ← (if negb (truthy thread) then kalloc else mret thread);
  if negb (truthy parent) then mret 0
  else
    p ← get_proc parent;
    tid ← next_tid;
    c ← get_locals me;
    let rs := set_reg RIP addr (set_reg CS (if truthy (user p) then GDT_SEG_UCODE else GDT_SEG_KCODE)
      (set_reg SS (if truthy (user p) then GDT_SEG_UDATA else GDT_SEG_KDATA) (set_reg RFLAGS 0x202 zero_regs))) in
    (if truthy (user p) then
       user_stack ← on_vmm (on_phys (pcalloc stack_pages));
       kstack ← on_vmm (on_phys (pcalloc stack_pages));
       let virt_stack := stack_top p in
       put_proc parent (with_stack_top (u64 (stack_top p - SCHED_STACK_SIZE)) p);;
       on_vmm (vmm_mmap_range (p_pagemap p) user_stack virt_stack SCHED_STACK_SIZE
         (Z.lor MAP_ANON (Z.lor MAP_PRIVATE MAP_FIXED)) (Z.lor PROT_READ (Z.lor PROT_WRITE PROT_EXEC)));;
       put_thread thread (mk_thread parent 1 gid uid tid false 0 priority
         (u64 (kstack + PHYS_MEM_OFFSET + SCHED_STACK_SIZE))
         (set_reg RSP (u64 (virt_stack + SCHED_STACK_SIZE)) rs) (c_fpu c))
     else
       kstack ← on_vmm (on_phys (pcalloc stack_pages));
       let top := u64 (kstack + PHYS_MEM_OFFSET + SCHED_STACK_SIZE) in
       put_thread thread (mk_thread parent 1 gid uid tid false 0 priority top (set_reg RSP top rs) (c_fpu c)));;
    p ← get_proc parent;
    put_proc parent (with_threads (p_threads p ++ [thread]) p);;
    (if truthy auto_start then sched_enqueue thread else mret tt);;
    mret thread.

(** The new thread comes from [kcalloc]: what is not assigned is zero. *)
Definition sched_fork (regs : registers) : KM Z :=
  c ← get_locals me;
  old_thread ← get_thread (current_thread c);
  let old_proc := t_parent old_thread in
  new_proc ← sched_new_proc old_proc 0 1;
  new_thread ← kalloc;
  tid ← next_tid;
  old ← get_proc old_proc;
  put_proc old_proc (with_children (p_children old ++ [new_proc]) old);;
  new ← get_proc new_proc;
  put_proc new_proc (with_threads (p_threads new ++ [new_thread]) new);;
  kstack ← on_vmm (on_phys (pcalloc stack_pages));
  let top := u64 (kstack + PHYS_MEM_OFFSET + SCHED_STACK_SIZE) in
  put_thread new_thread (mk_thread new_proc 0 0 0 tid false 0 (priority old_thread) top
    (set_reg RAX 0 (set_reg CS GDT_SEG_UCODE (set_reg SS GDT_SEG_UDATA regs))) (fpu_storage old_thread));;
  on_vmm (on_phys (modify (fun p => with_phys
    (memcpy (dmap (u64 (top - SCHED_STACK_SIZE))) (dmap (u64 (kernel_stack old_thread - SCHED_STACK_SIZE)))
       SCHED_STACK_SIZE (phys p)) p)));;
  sched_enqueue new_thread;;
  new ← get_proc new_proc;
  mret (s32 (pid new)).

Definition sched_destroy_thread (thread : Z) : KM unit :=
  t ← get_thread thread;
  on_vmm (on_phys (pmm_free_pages (kernel_stack t) stack_pages));;
  q ← queue_of (priority t);
  modify (fun s => set_queues (<[Z.to_nat (priority t) := remove_first thread q]> (queues s)) s);;
  modify (fun s => set_k_threads (delete thread (k_threads s)) s).

(** Everything [sched_exit] does before its [while (1);]. *)
Definition sched_exit (code : Z) : KM unit :=
  p ← CURRENT_PROC me; on_events (event_trigger (p_event p)).

(** The events of all children, and the last child with a pid and its event. *)
Fixpoint child_events (l : list Z) : KM (list Z) :=
  match l with
  | [] => mret []
  | c :: l' => p ← get_proc c; rest ← child_events l'; mret (p_event p :: rest)
  end.
Fixpoint find_child (l : list Z) (want : Z) (found : Z * Z) : KM (Z * Z) :=
  match l with
  | [] => mret found
  | c :: l' => p ← get_proc c; find_child l' want (if pid p =? u64 want then (p_event p, c) else found)
  end.

Definition sched_waitpid (junk_child junk_event : Z) (rounds : list (list Z)) (want options : Z) : KM Z :=
  p ← CURRENT_PROC me;
  r ← (if want =? -1 then es ← child_events (p_children p); mret (Some (es, junk_child))
       else if 0 <? want then
         f ← find_child (p_children p) want (junk_event, junk_child); mret (Some ([fst f], snd f))
       else mret None);
  match r with
  | None => mret (- EINVAL)
  | Some (events, child) =>
      if (0 <? want) && match events with [e] => e =? 0 | _ => false end then mret (- ECHILD)
      else
        which ← on_events (event_await events (negb (truthy (Z.land options WNOHANG))) rounds);
        if which =? -1 then mret 0
        else
          child ← (if negb (truthy child) then of_option (p_children p !! Z.to_nat which) else mret child);
          if negb (truthy child) then halt
          else q ← get_proc child; mret (s32 (pid q))
  end.
End Proc.

(** ** The arguments of a new program *)

(** Pushing strings below [stack]: the new top and memory. *)
Fixpoint push_strings (l : list (list Z)) (stack : Z) (m : mem) : Z * mem :=
  match l with
  | [] => (stack, m)
  | x :: l' =>
      let stack := u64 (stack - (Z.of_nat (length x) + 1)) in
      push_strings l' stack (poke (dmap stack) (x ++ [0]) m)
  end.

(** [sa -= strlen(l[i]) + 1; stack[i] = sa] for each string. *)
Fixpoint store_pointers (l : list (list Z)) (stack sa : Z) (m : mem) : Z * mem :=
  match l with
  | [] => (sa, m)
  | x :: l' =>
      let sa := u64 (sa - (Z.of_nat (length x) + 1)) in
      store_pointers l' (u64 (stack + 8)) sa (st 8 (dmap stack) sa m)
  end.

Definition push_table (l : option (list (list Z))) (stack sa : Z) (m : mem) : Z * Z * mem :=
  match l with
  | None => (stack, sa, m)
  | Some l =>
      let stack := u64 (stack - 8) in
      let m := st 8 (dmap stack) 0 m in
      let stack := u64 (stack - 8 * Z.of_nat (length l)) in
      let '(sa, m) := store_pointers l stack sa m in
      (stack, sa, m)
  end.

Definition sched_load_args_to_stack (rs : registers) (phys_addr virt_addr : Z) (argv env : option (list (list Z)))
    (m : mem) : registers * mem :=
  let stack_top := phys_addr in
  let '(stack, m) := push_strings (default [] env) stack_top m in
  let '(stack, m) := push_strings (default [] argv) stack m in
  let stack := u64 (stack - Z.land stack 0xf) in
  let '(envp_addr, sa, m) := push_table env stack virt_addr m in
  let '(argv_addr, sa, m) := push_table argv envp_addr sa m in
  let rs := set_reg RDI (Z.of_nat (length (default [] argv))) rs in
  let rs := set_reg RSI (match argv with Some _ => u64 (virt_addr - (stack_top - argv_addr)) | None => 0 end) rs in
  let rs := set_reg RDX (match env with Some _ => u64 (virt_addr - (stack_top - envp_addr)) | None => 0 end) rs in
  let rs := set_reg RSP (u64 (rs RSP - (stack_top - argv_addr))) rs in
  let rs := set_reg RSP (rs RSP - Z.land (rs RSP) 8) rs in
  (rs, m).

Section Program.
Context (me : nat).
Context (fs_table : Z -> option fs_ops) (file_table : Z -> option file_ops) (drivers : Z -> DriverOps) `{Env}.

(** One of stdin, stdout, stderr. *)
Definition open_std (proc : Z) (path : option (list Z)) (fd : nat) (flags : Z) : KM unit :=
  match path with
  | None => mret tt
  | Some path =>
      file ← on_vfs (vfs_open fs_table path);
      sfile ← kalloc;
      put_sfile sfile (mk_sfile file flags);;
      p ← get_proc proc;
      put_proc proc (with_fds (<[fd := sfile]> (fds p)) p)
  end.

(** Loading the arguments into the stack of [thread] in process [proc]. *)
Definition load_args (thread proc : Z) (argv env : option (list (list Z))) : KM unit :=
  t ← get_thread thread;
  p ← get_proc proc;
  base ← on_vmm (vmm_range_to_addr (p_pagemap p) (u64 (t_regs t RSP - SCHED_STACK_SIZE)));
  m ← gets (fun s => phys (v_pmm (k_vmm s)));
  let '(rs, m') := sched_load_args_to_stack (t_regs t) (u64 (base + SCHED_STACK_SIZE + PHYS_MEM_OFFSET))
    (t_regs t RSP) argv env m in
  on_vmm (on_phys (modify (with_phys m')));;
  put_thread thread (with_context rs (fpu_storage t) t).

(** [junk_entry] is the value of the uninitialised [entry] when loading failed; the result is
    the value returned, or the thread that [switch_and_run_stack] continues with. *)
Definition sched_run_program (junk_entry : Z) (path : list Z) (argv env : option (list (list Z)))
    (stdin stdout stderr : option (list Z)) (replace : Z) : KM (Z + Z) :=
  new_pagemap ← on_vmm vmm_create_new_pagemap;
  r ← elf_run_binary fs_table file_table drivers path new_pagemap;
  let entry := default junk_entry (snd r) in
  c ← get_locals me;
  current ← get_thread (current_thread c);
  if negb (truthy replace) then
    new_proc ← sched_new_proc (fun _ _ _ _ _ _ _ => mret 0) 0 new_pagemap 1;
    p ← get_proc new_proc;
    put_proc new_proc (with_parent (t_parent current) p);;
    open_std new_proc stdin 0 O_RDONLY;;
    open_std new_proc stdout 1 O_WRONLY;;
    open_std new_proc stderr 2 O_WRONLY;;
    new_thread ← sched_new_thread me 0 new_proc entry (priority current) (t_uid current) (t_gid current) 0;
    load_args new_thread new_proc argv env;;
    sched_enqueue new_thread;;
    mret (inl 0)
  else
    let thread := current_thread c in
    let proc := t_parent current in
    p ← get_proc proc;
    let old_pagemap := p_pagemap p in
    pid ← next_pid;
    put_proc proc (mk_proc (user p) pid (p_parent p) (p_children p) (p_threads p) new_pagemap SCHED_STACK_TOP
      SCHED_MMAP_TOP 0 (fds p) (p_event p) (p_status p));;
    _ ← sched_new_thread me thread proc entry (priority current) (t_uid current) (t_gid current) 0;
    LOCK_sched;;
    load_args thread proc argv env;;
    on_vmm (vmm_load_pagemap new_pagemap);;
    on_vmm (vmm_destroy_pagemap old_pagemap);;
    UNLOCK_sched;;
    mret (inr thread).

(** [init_sched] up to [sched_await]; the new thread is the first of the kernel process. *)
Definition init_sched (start_addr : Z) : KM Z :=
  modify (set_queues (replicate (Z.to_nat PRIORITY_LEVELS) []));;
  kernel_proc ← sched_new_proc (fun _ _ _ _ _ _ _ => mret 0) 0 0 0;
  _ ← sched_new_thread me 0 kernel_proc start_addr 0 0 0 1;
  sched_await me true;;
  mret kernel_proc.
End Program.

(** ** The layout of the arguments *)

Definition total (l : list (list Z)) : Z := foldr (fun x n => Z.of_nat (length x) + 1 + n) 0 l.
(** The distance of the [i]-th string from the top. *)
Definition depth (l : list (list Z)) (i : nat) : Z := total (take (S i) l).

Lemma total_nonneg l : 0 <= total l.
Proof. induction l; simpl; lia. Qed.

Lemma total_app l l' : total (l ++ l') = total l + total l'.
Proof. induction l as [|x l IH]; simpl; lia. Qed.

Lemma depth_bounds l i x : l !! i = Some x -> Z.of_nat (length x) + 1 <= depth l i <= total l.
Proof.
  intros Hi. unfold depth. rewrite (take_S_r _ _ _ Hi), total_app. rewrite <- (take_drop (S i) l) at 3.
  rewrite total_app, (take_S_r _ _ _ Hi), total_app. pose proof (total_nonneg (take i l)).
  pose proof (total_nonneg (drop (S i) l)). simpl. lia.
Qed.

Lemma dmap_offset x : 0 <= x -> dmap (PHYS_MEM_OFFSET + x) = x.
Proof. intros. unfold dmap. rewrite (proj2 (Z.leb_le _ _)) by lia. lia. Qed.

Lemma poke_out a bs m x : x < a \/ a + Z.of_nat (length bs) <= x -> poke a bs m x = m x.
Proof. intros H. unfold poke. destruct (Z.leb_spec a x), (Z.ltb_spec x (a + Z.of_nat (length bs))); simpl; try done; lia. Qed.

Lemma peek_ext a n m m' : (forall x, a <= x < a + Z.of_nat n -> m x = m' x) -> peek a n m = peek a n m'.
Proof.
  intros E. unfold peek. apply list_fmap_ext. intros i x Hi. apply lookup_seq in Hi as [-> Hi]. apply E. lia.
Qed.

(** The strings [l] lie below [p], each ended by a zero. *)
Definition strings_at (l : list (list Z)) (p : Z) (m : mem) : Prop :=
  forall i x, l !! i = Some x -> peek (p - depth l i) (length x + 1) m = x ++ [0].

Lemma strings_ext l p m m' :
  strings_at l p m -> (forall x, p - total l <= x < p -> m' x = m x) -> strings_at l p m'.
Proof.
  intros Hs E i x Hi. rewrite <- (Hs i x Hi). pose proof (depth_bounds l i x Hi).
  apply peek_ext. intros y Hy. apply E. lia.
Qed.

Lemma push_strings_run l p m :
  total l <= p < 2 ^ 47 ->
  exists m', push_strings l (PHYS_MEM_OFFSET + p) m = (PHYS_MEM_OFFSET + (p - total l), m') /\
    strings_at l p m' /\ forall x, x < p - total l \/ p <= x -> m' x = m x.
Proof.
  revert p m. induction l as [|x l IH]; intros p m Hp; simpl in *.
  - exists m. split; [by rewrite Z.sub_0_r|]. split; [done|]. done.
  - pose proof (total_nonneg l). set (k := Z.of_nat (length x) + 1) in *.
    replace (u64 (PHYS_MEM_OFFSET + p - k)) with (PHYS_MEM_OFFSET + (p - k))
      by (rewrite u64_small; unfold PHYS_MEM_OFFSET in *; lia).
    rewrite dmap_offset by lia.
    destruct (IH (p - k) (poke (p - k) (x ++ [0]) m) ltac:(lia)) as (m' & E & Hs & Hout). exists m'.
    assert (Hlen : Z.of_nat (length (x ++ [0])) = k) by (rewrite length_app; simpl; lia).
    split; [rewrite E; do 2 f_equal; lia|]. split.
    + intros [|i] y Hi; simpl in Hi.
      * injection Hi as ->. unfold depth. simpl. rewrite Z.add_0_r. fold k.
        rewrite (peek_ext _ _ m' (poke (p - k) (y ++ [0]) m)) by (intros z Hz; apply Hout; lia).
        replace (length y + 1)%nat with (length (y ++ [0])) by (rewrite length_app; simpl; lia). apply peek_poke.
      * specialize (Hs i y Hi). unfold depth in *. cbn [take total foldr]. fold (total (take (S i) l)). fold k.
        by replace (p - (k + total (take (S i) l))) with (p - k - total (take (S i) l)) by lia.
    + intros z Hz. rewrite Hout by lia. apply poke_out. lia.
Qed.

(** Pointers to the strings, [virt] being the user's address of the top. *)
Definition pointers_at (l : list (list Z)) (a virt : Z) (m : mem) : Prop :=
  forall i x, l !! i = Some x -> ld 8 m (a + 8 * Z.of_nat i) = virt - depth l i.

Lemma store_pointers_run l a virt m :
  0 <= a -> a + 8 * Z.of_nat (length l) < 2 ^ 47 -> total l <= virt < 2 ^ 64 ->
  exists m', store_pointers l (PHYS_MEM_OFFSET + a) virt m = (virt - total l, m') /\
    pointers_at l a virt m' /\ forall x, x < a \/ a + 8 * Z.of_nat (length l) <= x -> m' x = m x.
Proof.
  revert a virt m. induction l as [|x l IH]; intros a virt m Ha Hb Hv;
    cbn [store_pointers total foldr length] in *; try fold (total l) in *.
  - exists m. split; [by rewrite Z.sub_0_r|]. done.
  - pose proof (total_nonneg l). set (k := Z.of_nat (length x) + 1) in *. rewrite (u64_small (virt - k)) by lia.
    replace (u64 (PHYS_MEM_OFFSET + a + 8)) with (PHYS_MEM_OFFSET + (a + 8))
      by (rewrite u64_small; unfold PHYS_MEM_OFFSET in *; lia).
    rewrite dmap_offset by lia.
    destruct (IH (a + 8) (virt - k) (st 8 a (virt - k) m) ltac:(lia) ltac:(lia) ltac:(lia)) as (m' & E & Hp & Hout).
    exists m'. split; [rewrite E; f_equal; lia|]. split.
    + intros [|i] y Hi; simpl in Hi.
      * injection Hi as ->. unfold depth. simpl total. rewrite !Z.add_0_r. fold k.
        rewrite (ld_ext 8 m' (st 8 a (virt - k) m)) by (intros z Hz; apply Hout; lia).
        rewrite ld_st_same. apply Z.mod_small. simpl. lia.
      * specialize (Hp i y Hi). unfold depth in *. cbn [take total foldr]. fold (total (take (S i) l)). fold k.
        replace (a + 8 * Z.of_nat (S i)) with (a + 8 + 8 * Z.of_nat i) by lia. rewrite Hp. lia.
    + intros z Hz. rewrite Hout by lia. apply st_other. simpl. lia.
Qed.

Lemma push_table_run l q virt m :
  8 * Z.of_nat (length l) + 8 <= q < 2 ^ 47 -> total l <= virt < 2 ^ 64 ->
  let a := q - 8 - 8 * Z.of_nat (length l) in
  exists m', push_table (Some l) (PHYS_MEM_OFFSET + q) virt m = (PHYS_MEM_OFFSET + a, virt - total l, m') /\
    pointers_at l a virt m' /\ ld 8 m' (a + 8 * Z.of_nat (length l)) = 0 /\
    forall x, x < a \/ q <= x -> m' x = m x.
Proof.
  intros Hq Hv a. unfold push_table. 
  replace (u64 (PHYS_MEM_OFFSET + q - 8)) with (PHYS_MEM_OFFSET + (q - 8))
    by (rewrite u64_small; unfold PHYS_MEM_OFFSET in *; lia).
  replace (u64 (PHYS_MEM_OFFSET + (q - 8) - 8 * Z.of_nat (length l))) with (PHYS_MEM_OFFSET + a)
    by (rewrite u64_small; unfold PHYS_MEM_OFFSET, a in *; lia).
  rewrite dmap_offset by lia.
  destruct (store_pointers_run l a virt (st 8 (q - 8) 0 m) ltac:(unfold a; lia) ltac:(unfold a; lia) Hv) as (m' & E & Hp & Hout).
  exists m'. rewrite E. split; [done|]. split; [done|]. split.
  - replace (a + 8 * Z.of_nat (length l)) with (q - 8) in * by (unfold a; lia).
    rewrite (ld_ext 8 m' (st 8 (q - 8) 0 m)) by (intros z Hz; apply Hout; lia). by rewrite ld_st_same.
  - intros x Hx. rewrite Hout by (unfold a in *; lia). apply st_other. unfold a in *. simpl. lia.
Qed.

(** The stack page as the program sees it: the byte at user address [v]. *)
Definition user_view (p virt : Z) (m : mem) : mem := fun v => m (p + v - virt).

Lemma ld_view n p virt m a : ld n (user_view p virt m) a = ld n m (p + a - virt).
Proof.
  revert a. induction n as [|n IH]; intros a; [done|]. cbn [ld]. rewrite IH. unfold user_view.
  by replace (p + a - virt + 1) with (p + (a + 1) - virt) by lia.
Qed.

Lemma peek_view n p virt m a : peek a n (user_view p virt m) = peek (p + a - virt) n m.
Proof. unfold peek, user_view. apply list_fmap_ext. intros i x _. f_equal. lia. Qed.

(** [table] in the program's memory is an array of pointers to the strings [l], ended by NULL. *)
Definition string_array (view : mem) (table : Z) (l : list (list Z)) : Prop :=
  (forall i x, l !! i = Some x -> exists ptr, ld 8 view (table + 8 * Z.of_nat i) = ptr /\
     peek ptr (length x + 1) view = x ++ [0]) /\
  ld 8 view (table + 8 * Z.of_nat (length l)) = 0.

Lemma table_view l base p virt a m :
  strings_at l base m -> pointers_at l a (virt - (p - base)) m -> ld 8 m (a + 8 * Z.of_nat (length l)) = 0 ->
  string_array (user_view p virt m) (virt - (p - a)) l.
Proof.
  intros Hs Hp Hn. split.
  - intros i x Hi. exists (virt - (p - base) - depth l i). rewrite ld_view, peek_view. split.
    + replace (p + (virt - (p - a) + 8 * Z.of_nat i) - virt) with (a + 8 * Z.of_nat i) by lia. by apply (Hp i x).
    + replace (p + (virt - (p - base) - depth l i) - virt) with (base - depth l i) by lia. by apply Hs.
  - rewrite ld_view. by replace (p + (virt - (p - a) + 8 * Z.of_nat (length l)) - virt)
      with (a + 8 * Z.of_nat (length l)) by lia.
Qed.

Lemma align_16 x : 0 <= x -> 0 <= x - Z.land x 15 <= x /\ (x - Z.land x 15) mod 16 = 0.
Proof.
  intros. change 15 with (Z.ones 4). rewrite Z.land_ones by lia. change (2 ^ 4) with 16.
  pose proof (Z.mod_pos_bound x 16 ltac:(lia)). pose proof (Z.mod_le x 16 ltac:(lia) ltac:(lia)).
  split; [lia|]. rewrite Zminus_mod_idemp_r, Z.sub_diag. done.
Qed.

Lemma align_down_8 x : x mod 8 = 0 -> (x - Z.land x 8) mod 16 = 0 /\ 0 <= Z.land x 8 <= 8.
Proof.
  intros H8. assert (E : Z.land x 8 = Z.land (x mod 16) 8).
  { change 16 with (2 ^ 4). rewrite <- Z.land_ones, <- Z.land_assoc by lia. done. }
  rewrite E. pose proof (Z.mod_pos_bound x 16 ltac:(lia)).
  assert (Hc : x mod 16 = 0 \/ x mod 16 = 8).
  { pose proof (Z.div_mod x 16 ltac:(lia)) as D. apply Z.mod_divide in H8 as [k Hk]; [|done]. lia. }
  rewrite <- Zminus_mod_idemp_l. destruct Hc as [-> | ->]; closed_Z.
Qed.

(** Room for the strings, the alignment and the two tables. *)
Definition args_size (av ev : list (list Z)) : Z :=
  total ev + total av + 15 + 8 * (Z.of_nat (length ev) + 1) + 8 * (Z.of_nat (length av) + 1).

Definition table_size (l : option (list (list Z))) : Z := match l with Some l => 8 * (Z.of_nat (length l) + 1) | None => 0 end.

Lemma push_table_opt l q virt m :
  table_size l <= q < 2 ^ 47 -> total (default [] l) <= virt < 2 ^ 64 ->
  let a := q - table_size l in
  exists m', push_table l (PHYS_MEM_OFFSET + q) virt m = (PHYS_MEM_OFFSET + a, virt - total (default [] l), m') /\
    (forall l', l = Some l' -> pointers_at l' a virt m' /\ ld 8 m' (a + 8 * Z.of_nat (length l')) = 0) /\
    forall x, x < a \/ q <= x -> m' x = m x.
Proof.
  intros Hq Hv a. destruct l as [l|]; cbn [default from_option id table_size] in *.
  - destruct (push_table_run l q virt m ltac:(lia) Hv) as (m' & E & Hp & Hn & Ho).
    replace (q - 8 - 8 * Z.of_nat (length l)) with a in * by (unfold a, table_size; lia).
    exists m'. split; [exact E|]. split; [|exact Ho]. by intros l' [= <-].
  - exists m. unfold push_table, a. cbn [table_size total foldr]. rewrite !Z.sub_0_r. done.
Qed.

(** What the program finds in a register that should point to an array of strings. *)
Definition arg_array (view : mem) (r : Z) (l : option (list (list Z))) : Prop :=
  match l with Some l => string_array view r l | None => r = 0 end.

(** The array and its strings lie in [lo .. hi). *)
Definition array_within (lo hi : Z) (view : mem) (table : Z) (l : list (list Z)) : Prop :=
  lo <= table /\ table + 8 * (Z.of_nat (length l) + 1) <= hi /\
  forall i x, l !! i = Some x -> lo <= ld 8 view (table + 8 * Z.of_nat i) /\
    ld 8 view (table + 8 * Z.of_nat i) + Z.of_nat (length x) + 1 <= hi.

Lemma string_array_ext lo hi view view' table l : array_within lo hi view table l ->
  (forall v, lo <= v < hi -> view' v = view v) -> string_array view table l -> string_array view' table l.
Proof.
  intros (H1 & H2 & H3) E [Hs Hn]. split.
  - intros i x Hi. destruct (Hs i x Hi) as (ptr & Hp & Hx). pose proof (lookup_lt_Some _ _ _ Hi). destruct (H3 i x Hi) as [B1 B2].
    exists ptr. rewrite <- Hp, <- Hx in *. split.
    + apply ld_ext. intros y Hy. apply E. cbn in *. lia.
    + apply peek_ext. intros y Hy. apply E. lia.
  - rewrite <- Hn. apply ld_ext. intros y Hy. apply E. cbn in *. lia.
Qed.

Lemma table_within l lo base p virt a m : pointers_at l a (virt - (p - base)) m -> lo <= virt - (p - a) ->
  lo <= virt - (p - base) - total l -> a + 8 * (Z.of_nat (length l) + 1) <= p -> base <= p ->
  array_within lo virt (user_view p virt m) (virt - (p - a)) l.
Proof.
  intros Hp Ha Hb Ht Hbase. split; [done|]. split; [lia|]. intros i x Hi. rewrite ld_view.
  replace (p + (virt - (p - a) + 8 * Z.of_nat i) - virt) with (a + 8 * Z.of_nat i) by lia.
  rewrite (Hp i x Hi). pose proof (depth_bounds l i x Hi). lia.
Qed.

Lemma args_run rs p virt argv env m :
  args_size (default [] argv) (default [] env) <= p < 2 ^ 47 -> args_size (default [] argv) (default [] env) <= virt < 2 ^ 64 ->
  rs RSP = virt -> virt mod 16 = 0 -> p mod 16 = 0 ->
  exists rs' m', sched_load_args_to_stack rs (PHYS_MEM_OFFSET + p) virt argv env m = (rs', m') /\
  rs' RDI = Z.of_nat (length (default [] argv)) /\
  arg_array (user_view p virt m') (rs' RSI) argv /\ arg_array (user_view p virt m') (rs' RDX) env /\
  rs' RSP mod 16 = 0 /\ virt - args_size (default [] argv) (default [] env) - 8 <= rs' RSP <= virt /\ (is_Some argv -> rs' RSP <= rs' RSI) /\ (is_Some env -> rs' RSP <= rs' RDX) /\
  (is_Some argv -> is_Some env -> rs' RSI <= rs' RDX) /\
  (forall l, argv = Some l -> array_within (virt - args_size (default [] argv) (default [] env)) virt (user_view p virt m') (rs' RSI) l) /\
  (forall l, env = Some l -> array_within (virt - args_size (default [] argv) (default [] env)) virt (user_view p virt m') (rs' RDX) l) /\
  (forall r, r <> RDI -> r <> RSI -> r <> RDX -> r <> RSP -> rs' r = rs r) /\
  forall x, x < p - args_size (default [] argv) (default [] env) \/ p <= x -> m' x = m x.
Proof.
  set (av := default [] argv). set (ev := default [] env).
  intros Hp Hv Hrsp Hva Hpa. unfold args_size in *. pose proof (total_nonneg av). pose proof (total_nonneg ev).
  assert (Hta : 0 <= table_size argv <= 8 * (Z.of_nat (length av) + 1)) by (unfold av; destruct argv; cbn; lia).
  assert (Hte : 0 <= table_size env <= 8 * (Z.of_nat (length ev) + 1)) by (unfold ev; destruct env; cbn; lia).
  unfold sched_load_args_to_stack. fold av ev.
  destruct (push_strings_run ev p m ltac:(lia)) as (m1 & -> & S1 & O1).
  destruct (push_strings_run av (p - total ev) m1 ltac:(lia)) as (m2 & -> & S2 & O2).
  set (q0 := p - total ev - total av) in *.
  assert (Hal : Z.land (PHYS_MEM_OFFSET + q0) 15 = Z.land q0 15).
  { change 15 with (Z.ones 4). rewrite !Z.land_ones by lia. unfold PHYS_MEM_OFFSET.
    change 0xffff800000000000 with (0xffff80000000000 * 2 ^ 4). by rewrite Z.add_comm, Z.mod_add. }
  rewrite Hal. destruct (align_16 q0 ltac:(lia)) as [Hq Hqm]. set (q := q0 - Z.land q0 15) in *.
  assert (Hq15 : q0 - 15 <= q).
  { subst q. change 15 with (Z.ones 4) at 2. rewrite Z.land_ones by lia. pose proof (Z.mod_pos_bound q0 (2 ^ 4)). lia. }
  replace (u64 (PHYS_MEM_OFFSET + q0 - Z.land q0 15)) with (PHYS_MEM_OFFSET + q)
    by (rewrite u64_small; unfold PHYS_MEM_OFFSET, q in *; lia).
  destruct (push_table_opt env q virt m2 ltac:(lia) ltac:(fold ev; lia)) as (m3 & -> & P3 & O3). fold ev.
  set (qe := q - table_size env) in *.
  destruct (push_table_opt argv qe (virt - total ev) m3 ltac:(lia) ltac:(fold av; lia)) as (m4 & -> & P4 & O4).
  set (qa := qe - table_size argv) in *.
  replace (u64 (virt - (PHYS_MEM_OFFSET + p - (PHYS_MEM_OFFSET + qa)))) with (virt - (p - qa)) by (rewrite u64_small; lia).
  replace (u64 (virt - (PHYS_MEM_OFFSET + p - (PHYS_MEM_OFFSET + qe)))) with (virt - (p - qe)) by (rewrite u64_small; lia).
  set (r3 := set_reg RDX _ _). assert (Er3 : r3 RSP = virt) by done. rewrite Er3.
  replace (u64 (virt - (PHYS_MEM_OFFSET + p - (PHYS_MEM_OFFSET + qa)))) with (virt - (p - qa)) by (rewrite u64_small; lia).
  set (r4 := set_reg RSP (virt - (p - qa)) r3). assert (Er4 : r4 RSP = virt - (p - qa)) by done. rewrite Er4.
  set (rf := set_reg RSP _ r4).
  assert (Edi : rf RDI = Z.of_nat (length av)) by done.
  assert (Esi : rf RSI = match argv with Some _ => virt - (p - qa) | None => 0 end) by done.
  assert (Edx : rf RDX = match env with Some _ => virt - (p - qe) | None => 0 end) by done.
  assert (Esp : rf RSP = virt - (p - qa) - Z.land (virt - (p - qa)) 8) by done.
  assert (Eother : forall r, r <> RDI -> r <> RSI -> r <> RDX -> r <> RSP -> rf r = rs r).
  { intros r H1 H2 H3 H4. unfold rf, r4, r3, set_reg. by rewrite !decide_False by done. }
  exists rf, m4. rewrite Edi, Esi, Edx, Esp. clear Edi Esi Edx Esp Er4 Er3. split; [reflexivity|].
  split; [done|].
  destruct (align_down_8 (virt - (p - qa))) as [Hal1 Hal2].
  { assert (Hts : exists i j, table_size argv = 8 * i /\ table_size env = 8 * j)
      by (unfold table_size; destruct argv, env; eexists _, _; split; reflexivity || (rewrite Z.mul_0_r; reflexivity) || exact (eq_sym (Z.mul_0_r 8))).
    destruct Hts as (i & j & Ei & Ej). apply Z.mod_divide; [done|]. apply Z.mod_divide in Hva, Hpa, Hqm; try done.
    destruct Hva as [a Ha], Hpa as [b Hb], Hqm as [c' Hc]. exists (2 * a - 2 * b + 2 * c' - j - i). lia. }
  split.
  { destruct argv as [l|]; [|done]. change av with l in *. cbn [arg_array]. destruct (P4 l eq_refl) as [P N].
    apply (table_view l (p - total ev)); [|by replace (virt - (p - (p - total ev))) with (virt - total ev) by lia|done].
    apply (strings_ext _ _ m2); [done|]. intros x Hx. rewrite O4, O3 by lia. done. }
  split.
  { destruct env as [l|]; [|done]. change ev with l in *. cbn [arg_array]. destruct (P3 l eq_refl) as [P N]. apply (table_view l p).
    - apply (strings_ext _ _ m1); [done|]. intros x Hx. rewrite O4, O3, O2 by lia. done.
    - intros i x Hi. rewrite Z.sub_diag, Z.sub_0_r, <- (P i x Hi).
      apply ld_ext. intros y Hy. pose proof (lookup_lt_Some _ _ _ Hi). apply O4. cbn in *. lia.
    - rewrite <- N. apply ld_ext. intros y Hy. apply O4. cbn in *. lia. }
  split; [done|]. split; [lia|]. split; [intros [? ->]; lia|]. split; [intros [? ->]; lia|]. split; [intros [? ->] [? ->]; lia|].
  split.
  { intros l ->. change av with l in *. destruct (P4 l eq_refl) as [P N]. cbn [table_size] in *. apply (table_within l _ (p - total ev)); try lia.
    by replace (virt - (p - (p - total ev))) with (virt - total ev) by lia. }
  split.
  { intros l ->. change ev with l in *. destruct (P3 l eq_refl) as [P N]. cbn [table_size] in *. apply (table_within l _ p); try lia.
    intros i x Hi. rewrite Z.sub_diag, Z.sub_0_r, <- (P i x Hi).
    apply ld_ext. intros y Hy. pose proof (lookup_lt_Some _ _ _ Hi). apply O4. cbn in *. lia. }
  split; [exact Eother|]. intros x Hx. rewrite O4, O3, O2, O1 by lia. done.
Qed.

(** C20: the arguments of a new program: for a stack top aligned to 16 bytes, with room for the
    arguments below it, in the program's own view of its stack, [rdi] is the
    number of arguments, [rsi] and [rdx] point to arrays of pointers to exactly the strings
    of [argv] and [env], each ended by NULL, the stack pointer is 16-byte aligned and at or
    below both arrays, and no byte at or above the top or further below is touched. *)
Theorem args_layout rs p virt av ev m :
  args_size av ev <= p < 2 ^ 47 -> args_size av ev <= virt < 2 ^ 64 -> rs RSP = virt -> virt mod 16 = 0 ->
  p mod 16 = 0 ->
  let '(rs', m') := sched_load_args_to_stack rs (PHYS_MEM_OFFSET + p) virt (Some av) (Some ev) m in
  rs' RDI = Z.of_nat (length av) /\
  string_array (user_view p virt m') (rs' RSI) av /\
  string_array (user_view p virt m') (rs' RDX) ev /\
  rs' RSP mod 16 = 0 /\ rs' RSP <= rs' RSI <= rs' RDX /\
  forall x, x < p - args_size av ev \/ p <= x -> m' x = m x.
Proof.
  intros Hp Hv Hrsp Hva Hpa.
  destruct (args_run rs p virt (Some av) (Some ev) m Hp Hv Hrsp Hva Hpa) as (rs' & m' & E & H1 & H2 & H3 & H4 & _ & H5 & _ & H6 & _ & _ & _ & H7).
  rewrite E. split_and!; try done; [by apply H5|by apply H6].
Qed.

(** ** Fork and exec *)

Lemma on_keeps {T A} (gp : kstate -> T) (sp : T -> kstate -> kstate) (o : M T A) s a s' :
  (forall x t, k_threads (sp x t) = k_threads t) -> (forall x t, k_procs (sp x t) = k_procs t) ->
  on gp sp o s = Done (a, s') -> k_threads s' = k_threads s /\ k_procs s' = k_procs s.
Proof.
  intros Ht Hp. unfold on. destruct (o (gp s)) as [[x y]| | |]; intros [=]. subst. by rewrite Ht, Hp.
Qed.

Lemma on_vmm_keeps {A} (o : VM A) s a s' : on_vmm o s = Done (a, s') -> k_threads s' = k_threads s /\ k_procs s' = k_procs s.
Proof. by apply on_keeps. Qed.

Lemma enqueue_keeps t s u s' th :
  sched_enqueue t s = Done (u, s') -> k_threads s !! t = Some th ->
  k_procs s' = k_procs s /\ exists q, k_threads s' !! t = Some (with_queued q th).
Proof.
  intros E Ht. unfold sched_enqueue in E.
  rewrite (bind_run (get_thread t) _ s th s) in E by (unfold get_thread; by rewrite Ht).
  destruct (truthy (queued th)).
  - injection E as _ <-. split; [done|]. exists (queued th). rewrite Ht. by destruct th.
  - inv_bind E. injection Hm as _ <-. inv_bind Hk. unfold LOCK_sched in Hm. inv_bind Hm. injection Hm0 as <- <-.
    destruct (sched_lock _); [done|]. injection Hk as _ <-. inv_bind Hk0. unfold push_queue in Hm. inv_bind Hm.
    unfold queue_of in Hm0. destruct (_ !! _) as [q|]; [|done]. injection Hm0 as <- <-. injection Hk0 as _ <-.
    injection Hk as _ <-. simpl. split; [done|]. exists 1. by rewrite lookup_insert_eq.
Qed.

(** a forked child runs as root: whenever [sched_fork] returns, the new thread has the
    interrupted registers with [rax] zero and the user segments, and its uid and gid are 0
    whatever those of the forking thread are. *)
Theorem fork_child_is_root me vm_mmap regs s r s' :
  sched_fork me vm_mmap regs s = Done (r, s') ->
  exists child th proc p, k_threads s' !! child = Some th /\ t_parent th = proc /\
    k_procs s' !! proc = Some p /\ r = s32 (pid p) /\ child ∈ p_threads p /\
    t_uid th = 0 /\ t_gid th = 0 /\ t_regs th RAX = 0 /\
    (forall g, g <> RAX -> g <> CS -> g <> SS -> t_regs th g = regs g).
Proof.
  unfold sched_fork. intros E. inv_bind E. inv_bind Hk. inv_bind Hk0. inv_bind Hk. inv_bind Hk0. inv_bind Hk.
  inv_bind Hk0. inv_bind Hk. inv_bind Hk0. inv_bind Hk. inv_bind Hk0. inv_bind Hk. inv_bind Hk0. inv_bind Hk.
  injection Hk0 as <- <-. apply on_vmm_keeps in Hm8 as [T8 P8], Hm10 as [T10 P10].
  injection Hm9 as _ <-. injection Hm7 as _ <-.
  set (th := mk_thread _ _ _ _ _ _ _ _ _ _ _) in *.
  destruct (enqueue_keeps _ _ _ _ th Hm11) as [P11 (q & Q11)].
  { rewrite T10. simpl. apply lookup_insert_eq. }
  unfold get_proc in Hm12. destruct (k_procs _ !! a1) as [p|] eqn:Ep; [|done]. injection Hm12 as <- <-.
  exists a2, (with_queued q th), a1, p. split_and!; try done.
  - rewrite P11, P10 in Ep. simpl in Ep. rewrite P8 in Ep. simpl in Ep. rewrite lookup_insert_eq in Ep.
    injection Ep as <-. simpl. apply elem_of_app. right. left.
  - intros g H1 H2 H3. simpl. unfold set_reg. by rewrite !decide_False.
Qed.

(** replacing the program of a running thread releases its lock: [sched_new_thread] on the
    current thread, as [sched_run_program] calls it for exec, leaves the thread unlocked
    while its CPU still runs it. *)
Theorem exec_unlocks_running_thread me thread parent addr prio uid gid s r s' :
  thread <> 0 -> parent <> 0 -> sched_new_thread me thread parent addr prio uid gid 0 s = Done (r, s') ->
  r = thread /\ exists th, k_threads s' !! thread = Some th /\ t_lock th = false /\ queued th = 0.
Proof.
  intros Ht Hp. unfold sched_new_thread, truthy. rewrite (proj2 (Z.eqb_neq thread 0)), (proj2 (Z.eqb_neq parent 0)) by done.
  cbn [negb]. rewrite (bind_run (mret thread) _ s thread s) by done. intros E.
  inv_bind E. inv_bind Hk. inv_bind Hk0. inv_bind Hk. inv_bind Hk0. inv_bind Hk.
  change (0 =? 0) with true in Hk0. cbn [negb] in Hk0. inv_bind Hk0. injection Hm4 as _ <-. injection Hk as <- <-.
  split; [done|].
  assert (HT : exists th, k_threads s3 !! thread = Some th /\ t_lock th = false /\ queued th = 0).
  { destruct (negb (user a =? 0)).
    - inv_bind Hm2. inv_bind Hk. inv_bind Hk0. inv_bind Hk. injection Hk0 as _ <-. simpl. rewrite lookup_insert_eq. by eexists.
    - inv_bind Hm2. injection Hk as _ <-. simpl. rewrite lookup_insert_eq. by eexists. }
  unfold get_proc in Hm3. destruct (k_procs s3 !! parent); [|done]. simpl in Hm3. simplify_eq.
  injection Hm5 as _ <-. exact HT.
Qed.

(** ** Waiting for children *)

Definition child_ids (s : kstate) (l : list Z) : Prop := Forall (fun c => is_Some (k_procs s !! c)) l.

(** The last child with the pid. *)
Definition is_child (s : kstate) (l : list Z) (want c e : Z) : Prop :=
  exists k q, l !! k = Some c /\ k_procs s !! c = Some q /\ pid q = want /\ p_event q = e /\
    forall j c' q', l !! j = Some c' -> k_procs s !! c' = Some q' -> pid q' = want -> j = k.

Lemma find_child_none l want found s :
  child_ids s l -> (forall c q, c ∈ l -> k_procs s !! c = Some q -> pid q <> u64 want) ->
  find_child l want found s = Done (found, s).
Proof.
  intros Hl. revert found. induction Hl as [|c l [q Hq] Hl IH]; intros found Hno; [done|]. simpl.
  rewrite (bind_run (get_proc c) _ s q s) by (unfold get_proc; by rewrite Hq).
  rewrite (proj2 (Z.eqb_neq _ _)) by (by apply (Hno c q); [left|]).
  apply IH. intros c' q' Hc'. apply Hno. by right.
Qed.

Lemma find_child_run l want found c e s :
  child_ids s l -> 0 < want < 2 ^ 63 -> is_child s l want c e -> find_child l want found s = Done ((e, c), s).
Proof.
  intros Hl Hw. revert found. induction Hl as [|c0 l [q0 Hq0] Hl IH]; intros found (k & q & Hk & Hq & Hpid & He & Hu); [done|].
  simpl. rewrite (bind_run (get_proc c0) _ s q0 s) by (unfold get_proc; by rewrite Hq0). rewrite (u64_small want) by lia.
  destruct k as [|k]; simpl in Hk.
  - injection Hk as ->. assert (q0 = q) as -> by congruence. rewrite Hpid, Z.eqb_refl, He.
    apply find_child_none; [done|]. intros c' q' Hc' Hq' Hp'. rewrite u64_small in Hp' by lia.
    apply list_elem_of_lookup in Hc' as [j Hj]. specialize (Hu (S j) c' q' Hj Hq' Hp'). lia.
  - rewrite (proj2 (Z.eqb_neq _ _)).
    + apply IH. exists k, q. split_and!; try done. intros j c' q' Hj Hq' Hp'. specialize (Hu (S j) c' q' Hj Hq' Hp'). lia.
    + intros E. specialize (Hu 0%nat c0 q0 eq_refl Hq0 E). lia.
Qed.

(** C33: [sched_waitpid] for an exited child: it returns the child's pid and consumes its exit
    event, whatever the uninitialised variables held; but the event's lock stays taken, so
    a second wait for the same child, and that child's event being triggered again, never
    return. *)
Theorem waitpid_reaps_once me junk_child junk_event rounds want options s p c e v :
  CURRENT_PROC me s = Done (p, s) -> child_ids s (p_children p) -> 0 < want < 2 ^ 31 ->
  is_child s (p_children p) want c e -> c <> 0 -> e <> 0 ->
  k_events s !! e = Some v -> e_lock v = false -> pending v <> 0 ->
  let s' := set_k_events (consume e (relock true [e] (k_events s))) s in
  sched_waitpid me junk_child junk_event rounds want options s = Done (want, s') /\
  sched_waitpid me junk_child junk_event rounds want options s' = Halt /\
  on_events (event_trigger e) s' = Halt.
Proof.
  intros Hp Hids Hw Hc Hc0 He0 Hv Hl Hpend s'.
  assert (Hready : ready (k_events s) [e]).
  { constructor; [apply NoDup_singleton|]. intros x ->%list_elem_of_singleton. by exists v. }
  assert (Hfp : first_pending (k_events s) [e] 0 = Some (0, e)).
  { simpl. unfold is_pending. rewrite Hv. unfold truthy. by rewrite (proj2 (Z.eqb_neq _ 0)). }
  set (b := negb (truthy (Z.land options WNOHANG))).
  pose proof (await_run (k_events s) [e] b rounds Hready) as Haw. rewrite Hfp in Haw.
  destruct (await_locks (k_events s) [e] b rounds 0 _ e Hready ltac:(rewrite Hfp; by eexists) Haw ltac:(left)) as [Htr Hagain].
  assert (Hgen : forall t, CURRENT_PROC me t = Done (p, t) -> k_procs t = k_procs s ->
    sched_waitpid me junk_child junk_event rounds want options t =
    (which ← on_events (event_await [e] b rounds);
     if which =? -1 then mret 0
     else
       child ← mret c;
       if negb (truthy child) then halt else q ← get_proc child; mret (s32 (pid q))) t).
  { intros t Ht Hpt. unfold sched_waitpid. rewrite (bind_run _ _ _ _ _ Ht).
    rewrite (proj2 (Z.eqb_neq want (-1))), (proj2 (Z.ltb_lt 0 want)) by lia.
    assert (Hids' : child_ids t (p_children p)) by (unfold child_ids; by rewrite Hpt).
    assert (Hc' : is_child t (p_children p) want c e) by (unfold is_child; by rewrite Hpt).
    pose proof (find_child_run (p_children p) want (junk_event, junk_child) c e t Hids' ltac:(lia) Hc') as Hf.
    rewrite (bind_run _ _ t (Some ([e], c)) t) by (by rewrite (bind_run _ _ _ _ _ Hf)).
    cbn [fst snd andb]. rewrite (proj2 (Z.eqb_neq e 0)) by done. cbn [andb].
    unfold truthy at 2. rewrite (proj2 (Z.eqb_neq c 0)) by done. done. }
  split; [|split].
  - rewrite (Hgen s Hp eq_refl). rewrite (bind_run _ _ s 0 s') by (unfold on_events, on; by rewrite Haw).
    change (0 =? -1) with false. cbv iota. rewrite (bind_run (mret c) _ s' c s') by done.
    unfold truthy. rewrite (proj2 (Z.eqb_neq c 0)) by done. cbn [negb].
    destruct Hc as (k & q & _ & Hq & Hpid & _). rewrite (bind_run (get_proc c) _ s' q s') by (unfold get_proc; simpl; by rewrite Hq).
    rewrite Hpid, s32_small by lia. done.
  - rewrite (Hgen s'); [|clear -Hp|done].
    + unfold mbind at 1, M_bind at 1, on_events, on. simpl k_events. by rewrite Hagain.
    + subst s'. unfold CURRENT_PROC, CURRENT_PROC_ptr, CURRENT_THREAD in *. inv_bind Hp. inv_bind Hm. inv_bind Hm0.
      unfold get_locals in Hm. destruct (k_cpus s !! me) as [cpu|] eqn:Ec; [|done]. injection Hm as <- <-.
      unfold get_thread in Hk1. destruct (k_threads s !! current_thread cpu) as [th|] eqn:Et; [|done]. injection Hk1 as <- <-.
      injection Hk0 as <- <-. unfold get_proc in Hk. destruct (k_procs s !! t_parent th) as [pp|] eqn:Epp; [|done]. injection Hk as <-.
      unfold mbind, M_bind, get_locals, get_thread, get_proc. simpl. rewrite Ec. simpl. rewrite Et. simpl. by rewrite Epp.
  - unfold on_events, on. simpl k_events. by rewrite Htr.
Qed.

(** ** Instances *)

Lemma args_layout_witness :
  let '(rs', m') := sched_load_args_to_stack (set_reg RSP 0x70000040000 zero_regs) (PHYS_MEM_OFFSET + 0x10000)
    0x70000040000 (Some [[97]; [98; 99]]) (Some [[80]]) (fun _ => 0) in
  rs' RDI = 2 /\
  string_array (user_view 0x10000 0x70000040000 m') (rs' RSI) [[97]; [98; 99]] /\
  string_array (user_view 0x10000 0x70000040000 m') (rs' RDX) [[80]] /\
  rs' RSP mod 16 = 0 /\ rs' RSP <= rs' RSI <= rs' RDX /\
  forall x, x < 0x10000 - args_size [[97]; [98; 99]] [[80]] \/ 0x10000 <= x -> m' x = 0.
Proof.
  apply (args_layout (set_reg RSP 0x70000040000 zero_regs) 0x10000 0x70000040000 [[97]; [98; 99]] [[80]] (fun _ => 0));
    [vm_compute; split; done|vm_compute; split; done|done|done|done].
Defined.

(** A user process (uid 1000) running on CPU 0 in an empty address space; its child, process 6,
    has exited. *)
Definition user_vmm : vmm_state :=
  mk_vmm (mk_pmm false 1 (7 :: replicate 31 0) (255 * PAGE_SIZE) (fun _ => 0))
    (<[1 := mk_pagemap false (2 * PAGE_SIZE) []]> (<[7 := sample_space]> ∅)) 8 PAGE_SIZE [].
Definition user_proc : proc_t :=
  mk_proc 1 3 0 [6] [10] 7 SCHED_STACK_TOP SCHED_MMAP_TOP 0 (replicate 128 0) 30 0.
Definition child_proc : proc_t :=
  mk_proc 1 4 5 [] [] 7 SCHED_STACK_TOP SCHED_MMAP_TOP 0 (replicate 128 0) 31 0.
Definition user_thread : thread_t := mk_thread 5 1 1000 1000 0 true 1 0 (PHYS_MEM_OFFSET + 0xc0000) zero_regs [].
Definition user_kernel : kstate :=
  mk_kstate user_vmm sample_vfs (<[10 := user_thread]> ∅) (<[5 := user_proc]> (<[6 := child_proc]> ∅))
    (<[30 := mk_event 0 false]> (<[31 := mk_event 1 false]> ∅)) ∅ ([10] :: replicate 19 []) [plain_cpu 10 0 0] false 5 1 100.
Definition no_vm_mmap (file pm addr size offset prot flags : Z) : VM Z := mret 0.

Lemma fork_child_is_root_witness :
  exists r s' child th, sched_fork 0 no_vm_mmap (fun _ => 9) user_kernel = Done (r, s') /\
    k_threads s' !! child = Some th /\ t_uid th = 0 /\ t_regs th RAX = 0 /\ t_regs th RBX = 9.
Proof.
  assert (Hd : is_done (sched_fork 0 no_vm_mmap (fun _ => 9) user_kernel) = true) by (vm_compute; reflexivity).
  destruct (sched_fork 0 no_vm_mmap (fun _ => 9) user_kernel) as [[r s']| | |] eqn:E; try discriminate Hd.
  destruct (fork_child_is_root 0 no_vm_mmap (fun _ => 9) user_kernel r s' E)
    as (child & th & proc & p & H1 & _ & _ & _ & _ & H2 & _ & H3 & H4).
  clear E Hd. exists r, s', child, th. split; [reflexivity|]. split; [exact H1|]. split; [exact H2|]. split; [exact H3|].
  apply H4; discriminate.
Defined.

Lemma exec_unlocks_running_thread_witness :
  exists r s' th, sched_new_thread 0 10 5 0x400000 0 1000 1000 0 user_kernel = Done (r, s') /\
    k_threads s' !! 10 = Some th /\ t_lock th = false.
Proof.
  assert (Hd : is_done (sched_new_thread 0 10 5 0x400000 0 1000 1000 0 user_kernel) = true) by (vm_compute; reflexivity).
  destruct (sched_new_thread 0 10 5 0x400000 0 1000 1000 0 user_kernel) as [[r s']| | |] eqn:E; try discriminate Hd.
  destruct (exec_unlocks_running_thread 0 10 5 0x400000 0 1000 1000 user_kernel r s' ltac:(done) ltac:(done) E)
    as (-> & th & H1 & H2 & _).
  clear E Hd. exists 10, s', th. split; [reflexivity|]. split; [exact H1|exact H2].
Defined.

Lemma waitpid_reaps_once_witness :
  sched_waitpid 0 77 78 [] 4 0 user_kernel =
    Done (4, set_k_events (consume 31 (relock true [31] (k_events user_kernel))) user_kernel).
Proof.
  refine (proj1 (waitpid_reaps_once 0 77 78 [] 4 0 user_kernel user_proc 6 31 (mk_event 1 false) eq_refl _ _ _ _ _ eq_refl eq_refl _));
    try done.
  - repeat constructor. by eexists.
  - exists 0%nat, child_proc. split_and!; try done. intros [|[|j]] c' q' Hj; done.
Defined.
