(* ===== verification/Start.v ===== *)
(** * Starting a program ([sched_run_program] of src/src/kernel/tasking/scheduler.c)

    The whole way of a new program: an address space, the image from the file system, a process with
    its three open files, a thread with its stack, the arguments on the stack, and the run queue. *)
From S2P Require Import Prelude CString Rtc Device Pmm PageTable Vmm Spaces Fork Fs Tmpfs Vfs Event Kernel Sched Elf Loader Proc.
Open Scope Z_scope.

(** The memory as the program of a space sees it. *)
Definition vmem (s : vmm_state) (pm : Z) : mem := fun va => default 0 (vbyte s pm va).

Section Pieces.
Context (me : nat) (fs_table : Z -> option fs_ops) (file_table : Z -> option file_ops) (drivers : Z -> DriverOps) `{Env}.

(** The process that [sched_new_proc] makes for a program. *)
Definition fresh_proc (pid pagemap event : Z) : proc_t :=
  mk_proc 1 pid 0 [] [] pagemap SCHED_STACK_TOP SCHED_MMAP_TOP 0 (replicate (Z.to_nat FDS_COUNT) 0) event 0.

Lemma new_proc_run vm_mmap pm s : pm <> 0 ->
  sched_new_proc vm_mmap 0 pm 1 s = Done (k_next s,
    set_k_procs (<[k_next s := fresh_proc (current_pid s) pm (k_next s + 1)]> (k_procs s))
      (set_k_events (<[k_next s + 1 := mk_event 0 false]> (k_events s))
        (set_current_pid (u64 (current_pid s + 1)) (set_k_next (k_next s + 2) s)))).
Proof.
  intros Hpm. unfold sched_new_proc. erewrite bind_run by reflexivity. change (negb (truthy 0)) with true. cbv iota.
  assert (Ht : negb (truthy pm) = false) by (unfold truthy; by rewrite (proj2 (Z.eqb_neq pm 0))). rewrite Ht.
  erewrite bind_run by reflexivity. erewrite bind_run by reflexivity. erewrite bind_run by reflexivity. erewrite bind_run by reflexivity.
  unfold mret, M_ret. cbn. do 3 f_equal. replace (k_next s + 1 + 1) with (k_next s + 2) by lia. reflexivity.
Qed.

Lemma open_std_run proc path fd flags s p f v' : k_procs s !! proc = Some p -> vfs_open fs_table path (k_vfs s) = Done (f, v') ->
  open_std fs_table proc (Some path) fd flags s = Done (tt,
    set_k_procs (<[proc := with_fds (<[fd := k_next s]> (fds p)) p]> (k_procs s))
      (set_k_sfiles (<[k_next s := mk_sfile f flags]> (k_sfiles s)) (set_k_next (k_next s + 1) (set_k_vfs v' s)))).
Proof.
  intros Hp Ho. unfold open_std. erewrite bind_run by (unfold on_vfs, on; rewrite Ho; reflexivity).
  erewrite bind_run by reflexivity. erewrite bind_run by reflexivity.
  erewrite bind_run by (unfold get_proc; cbn; rewrite Hp; reflexivity). reflexivity.
Qed.

Lemma enqueue_run th t q s : k_threads s !! th = Some t -> queued t = 0 -> sched_lock s = false -> queues s !! Z.to_nat (priority t) = Some q ->
  sched_enqueue th s = Done (tt, set_sched_lock false (set_queues (<[Z.to_nat (priority t) := q ++ [th]]> (queues s))
    (set_k_threads (<[th := with_queued 1 t]> (k_threads s)) s))).
Proof.
  intros Ht Hq Hl Hqs. unfold sched_enqueue. erewrite bind_run by (unfold get_thread; rewrite Ht; reflexivity). rewrite Hq.
  change (truthy 0) with false. cbv iota. erewrite bind_run by reflexivity.
  erewrite bind_run by (unfold LOCK_sched; erewrite bind_run by reflexivity; cbn; rewrite Hl; reflexivity).
  erewrite bind_run; [|unfold push_queue; erewrite bind_run by (unfold queue_of; cbn; rewrite Hqs; reflexivity); reflexivity].
  reflexivity.
Qed.

(** ** The stack *)

Definition stack_range (a : Z) : mmap_range :=
  mk_range 0 a SCHED_STACK_TOP 0 SCHED_STACK_SIZE (Z.lor (Z.lor MAP_ANON (Z.lor MAP_PRIVATE MAP_FIXED)) MAP_ANON)
    (Z.lor PROT_READ (Z.lor PROT_WRITE PROT_EXEC)).

(** [u] is [t] with the stack of a new thread, in 64 fresh frames from [a]. *)
Record stack_made (t u : vmm_state) (pm : Z) (m : pagemap) (a : Z) : Prop := mk_stack_made {
  sm_ok : spaces_ok u;
  sm_maps : v_maps u = <[pm := mk_pagemap false (top_level m) (ranges m ++ [stack_range a])]> (v_maps t);
  sm_frames : exists n, a = n * PAGE_SIZE /\ 0 < n /\ (n + 64) * PAGE_SIZE <= 2 ^ 46;
  sm_new : forall x, a <= x < a + SCHED_STACK_SIZE -> data u x /\ ~ data t x;
  sm_at : forall i, 0 <= i < SCHED_STACK_SIZE -> present (view u pm (SCHED_STACK_TOP + i)) = true /\
    target (view u pm (SCHED_STACK_TOP + i)) + (SCHED_STACK_TOP + i) mod PAGE_SIZE = a + i;
  sm_view : forall pm' va, user_va va -> pm' <> pm \/ va < SCHED_STACK_TOP -> view u pm' va = view t pm' va;
  sm_data : forall x, data t x -> data u x /\ phys (v_pmm u) x = phys (v_pmm t) x;
  sm_high : highest_page (v_pmm u) = highest_page (v_pmm t)
}.

Lemma stack_run pm m k t : spaces_ok t -> v_maps t !! pm = Some m -> 0 <= k -> room t (320 + k) ->
  exists a kstack t1 t2 u, on_phys (pcalloc stack_pages) t = Done (a, t1) /\ on_phys (pcalloc stack_pages) t1 = Done (kstack, t2) /\
    vmm_mmap_range pm a SCHED_STACK_TOP SCHED_STACK_SIZE (Z.lor MAP_ANON (Z.lor MAP_PRIVATE MAP_FIXED))
      (Z.lor PROT_READ (Z.lor PROT_WRITE PROT_EXEC)) t2 = Done (tt, u) /\ stack_made t u pm m a /\ room u k.
Proof.
  intros Hok Hm Hk Hroom. change stack_pages with 64.
  destruct (alloc_frames 64 (256 + k) t Hok) as (a & t1 & R1 & E1 & M1 & Rm1 & n & -> & Hn & Hhigh & Hlow & Hnew); [by rewrite Z.add_assoc|lia|lia|].
  destruct (alloc_frames 64 (192 + k) t1 (ev_ok _ _ _ E1)) as (b & t2 & R2 & E2 & M2 & Rm2 & _); [by rewrite Z.add_assoc|lia|lia|].
  destruct (map_frames pm m n 64 SCHED_STACK_TOP 7 k t t1 t2 E1 E2 M1 M2 Hm Hn Hlow Hhigh Hnew) as ([] & w & R3 & Hfm & Rm3);
    [lia|done|closed_Z|by right|done|by replace (3 * 64 + k) with (192 + k) by lia|].
  pose proof (fm_ev _ _ _ _ _ _ _ Hfm) as Hev.
  destruct (push_range_run pm m (stack_range (n * PAGE_SIZE)) w (ev_ok _ _ _ Hev)) as (u & R4 & Ep & Pp & Mp).
  { by rewrite (fm_maps _ _ _ _ _ _ _ Hfm). }
  exists (n * PAGE_SIZE), b, t1, t2, u. split; [exact R1|]. split; [exact R2|]. split.
  { unfold vmm_mmap_range. change (page_flags _) with 7. change SCHED_STACK_SIZE with (64 * PAGE_SIZE).
    erewrite bind_run by exact R3. exact R4. }
  split.
  2:{ destruct Rm3 as (n1 & [U1 U2] & H1). exists n1. rewrite Pp. split; [by constructor|done]. }
  constructor.
  - apply (ev_ok _ _ _ Ep).
  - by rewrite Mp, (fm_maps _ _ _ _ _ _ _ Hfm).
  - by exists n.
  - intros x Hx. destruct (fm_new _ _ _ _ _ _ _ Hfm x Hx) as (D & _ & N). split; [by apply (ev_data _ _ _ Ep)|done].
  - intros i Hi. assert (Hva : user_va (SCHED_STACK_TOP + i)) by (unfold user_va, SCHED_STACK_TOP, SCHED_STACK_SIZE, PAGE_SIZE in *; lia).
    pose proof (Z.div_mod (SCHED_STACK_TOP + i) PAGE_SIZE ltac:(done)) as D. pose proof (Z.mod_pos_bound (SCHED_STACK_TOP + i) PAGE_SIZE ltac:(done)).
    assert (E : SCHED_STACK_TOP / PAGE_SIZE = 0x70000000) by reflexivity.
    rewrite (ev_view _ _ _ Ep) by done. destruct (fresh_at _ _ _ _ _ _ _ _ Hfm Hva) as (Q1 & Q2 & _);
      [rewrite E; unfold SCHED_STACK_TOP, SCHED_STACK_SIZE, PAGE_SIZE in *; lia|].
    split; [done|]. rewrite Q2, E. unfold SCHED_STACK_TOP, PAGE_SIZE in *. lia.
  - intros pm' va Hva Hout. rewrite (ev_view _ _ _ Ep) by done. apply (fresh_other _ _ _ _ _ _ _ _ _ Hfm Hva). destruct Hout as [Hne|Hlt]; [by left|right].
    intros [Hge _]. pose proof (Z.div_lt_upper_bound va PAGE_SIZE 0x70000000 ltac:(done) ltac:(exact Hlt)).
    change (SCHED_STACK_TOP / PAGE_SIZE) with 0x70000000 in Hge. lia.
  - intros x Hx. destruct (ev_data _ _ _ Hev x Hx) as [D1 P1]. destruct (ev_data _ _ _ Ep x D1) as [D2 P2]. split; [done|congruence].
  - rewrite (ev_high _ _ _ Ep). apply (ev_high _ _ _ Hev).
Qed.

(** ** The thread *)

Definition start_regs (entry : Z) : registers :=
  set_reg RSP (SCHED_STACK_TOP + SCHED_STACK_SIZE)
    (set_reg RIP entry (set_reg CS GDT_SEG_UCODE (set_reg SS GDT_SEG_UDATA (set_reg RFLAGS 0x202 zero_regs)))).

(** The thread [th] is a new one or, in an exec, the one that runs. *)
Lemma thread_run thread th np p c m entry prio uid gid k s0 s : (if negb (truthy thread) then kalloc else mret thread) s0 = Done (th, s) ->
  k_procs s !! np = Some p -> user p = 1 -> stack_top p = SCHED_STACK_TOP -> np <> 0 ->
  k_cpus s !! me = Some c -> spaces_ok (k_vmm s) -> v_maps (k_vmm s) !! p_pagemap p = Some m -> 0 <= k -> room (k_vmm s) (320 + k) ->
  exists a kstack u, sched_new_thread me thread np entry prio uid gid 0 s0 = Done (th,
      set_k_procs (<[np := with_threads (p_threads p ++ [th]) (with_stack_top (u64 (SCHED_STACK_TOP - SCHED_STACK_SIZE)) p)]> (k_procs s))
        (set_k_threads (<[th := mk_thread np 1 gid uid (current_tid s) false 0 prio kstack (start_regs entry) (c_fpu c)]> (k_threads s))
          (set_k_vmm u (set_current_tid (u64 (current_tid s + 1)) s)))) /\
    stack_made (k_vmm s) u (p_pagemap p) m a /\ room u k.
Proof.
  intros Hal Hp Hu Hst Hnp Hc Hok Hm Hk Hroom.
  destruct (stack_run (p_pagemap p) m k (k_vmm s) Hok Hm Hk Hroom) as (a & ks & t1 & t2 & u & R1 & R2 & R3 & Hsm & Hr).
  exists a, (u64 (ks + PHYS_MEM_OFFSET + SCHED_STACK_SIZE)), u. split; [|by split].
  unfold sched_new_thread. erewrite bind_run by exact Hal.
  assert (Ht : negb (truthy np) = false) by (unfold truthy; by rewrite (proj2 (Z.eqb_neq np 0))). rewrite Ht.
  erewrite bind_run by (unfold get_proc; cbn; rewrite Hp; reflexivity). erewrite bind_run by reflexivity.
  erewrite bind_run by (unfold get_locals; cbn; rewrite Hc; reflexivity). rewrite Hu, Hst. change (truthy 1) with true. cbv iota zeta.
  erewrite bind_run.
  2:{ erewrite bind_run by (apply on_vmm_run; exact R1). erewrite bind_run by (apply on_vmm_run; exact R2).
      erewrite bind_run by reflexivity. erewrite bind_run by (apply on_vmm_run; exact R3). reflexivity. }
  erewrite bind_run by (unfold get_proc; cbn; rewrite lookup_insert_eq; reflexivity). erewrite bind_run by reflexivity.
  erewrite bind_run by reflexivity. unfold mret, M_ret. cbn. rewrite insert_insert_eq.
  rewrite (u64_small (SCHED_STACK_TOP + SCHED_STACK_SIZE)) by closed_Z. reflexivity.
Qed.

Lemma new_thread_run np p c m entry prio uid gid k s : k_procs s !! np = Some p -> user p = 1 -> stack_top p = SCHED_STACK_TOP -> np <> 0 ->
  k_cpus s !! me = Some c -> spaces_ok (k_vmm s) -> v_maps (k_vmm s) !! p_pagemap p = Some m -> 0 <= k -> room (k_vmm s) (320 + k) ->
  exists a kstack u, sched_new_thread me 0 np entry prio uid gid 0 s = Done (k_next s,
      set_k_procs (<[np := with_threads (p_threads p ++ [k_next s]) (with_stack_top (u64 (SCHED_STACK_TOP - SCHED_STACK_SIZE)) p)]> (k_procs s))
        (set_k_threads (<[k_next s := mk_thread np 1 gid uid (current_tid s) false 0 prio kstack (start_regs entry) (c_fpu c)]> (k_threads s))
          (set_k_vmm u (set_current_tid (u64 (current_tid s + 1)) (set_k_next (k_next s + 1) s))))) /\
    stack_made (k_vmm s) u (p_pagemap p) m a /\ room u k.
Proof. exact (thread_run 0 (k_next s) np p c m entry prio uid gid k s (set_k_next (k_next s + 1) s) eq_refl). Qed.

Lemma range_to_addr_last l r va : Forall (fun r' => r_virt_addr r' <> va) l -> r_virt_addr r = va -> range_to_addr (l ++ [r]) va = r_phys_addr r.
Proof.
  intros Hl Hr. induction Hl as [|x l Hx _ IH]; cbn; [by rewrite Hr, Z.eqb_refl|]. by rewrite (proj2 (Z.eqb_neq _ _)).
Qed.

(** What [sched_load_args_to_stack] leaves in the registers [rs'] and in the program's memory. *)
Record args_ready (rs rs' : registers) (view : mem) (argv env : option (list (list Z))) : Prop := mk_args_ready {
  ag_argc : rs' RDI = Z.of_nat (length (default [] argv));
  ag_argv : arg_array view (rs' RSI) argv;
  ag_env : arg_array view (rs' RDX) env;
  ag_stack : rs' RSP mod 16 = 0 /\ SCHED_STACK_TOP <= rs' RSP <= SCHED_STACK_TOP + SCHED_STACK_SIZE;
  ag_others : forall r, r <> RDI -> r <> RSI -> r <> RDX -> r <> RSP -> rs' r = rs r
}.

Lemma load_args_run th np t p m l a argv env s t0 : k_threads s !! th = Some t -> k_procs s !! np = Some p ->
  t_regs t RSP = SCHED_STACK_TOP + SCHED_STACK_SIZE -> v_maps t0 !! p_pagemap p = Some m -> ranges m = l ->
  stack_made t0 (k_vmm s) (p_pagemap p) m a -> Forall (fun r => r_virt_addr r <> SCHED_STACK_TOP) l ->
  args_size (default [] argv) (default [] env) <= SCHED_STACK_SIZE - 8 ->
  exists rs' mem', load_args th np argv env s = Done (tt,
      set_k_threads (<[th := with_context rs' (fpu_storage t) t]> (k_threads s)) (set_k_vmm (with_mem mem' (k_vmm s)) s)) /\
    (forall x, ~ (a <= x < a + SCHED_STACK_SIZE) -> mem' x = phys (v_pmm (k_vmm s)) x) /\
    (forall view, (forall v, SCHED_STACK_TOP <= v < SCHED_STACK_TOP + SCHED_STACK_SIZE -> view v = mem' (a + (v - SCHED_STACK_TOP))) ->
       args_ready (t_regs t) rs' view argv env).
Proof.
  intros Ht Hp Hrsp Hm Hl Hsm Hne Hsz. destruct (sm_frames _ _ _ _ _ Hsm) as (n & En & Hn & Hlow).
  set (virt := SCHED_STACK_TOP + SCHED_STACK_SIZE) in *. set (top := a + SCHED_STACK_SIZE).
  assert (Hb : 0 <= args_size (default [] argv) (default [] env)).
  { unfold args_size. pose proof (total_nonneg (default [] argv)). pose proof (total_nonneg (default [] env)). lia. }
  set (m0 := phys (v_pmm (k_vmm s))).
  destruct (args_run (t_regs t) top virt argv env m0) as (rs' & mem' & E & A1 & A2 & A3 & A4 & A5 & _ & _ & _ & A6 & A7 & A8 & A9);
    [unfold top, SCHED_STACK_SIZE, PAGE_SIZE in *; lia|unfold virt, SCHED_STACK_TOP, SCHED_STACK_SIZE, PAGE_SIZE in *; lia|done|done| |].
  { unfold top. rewrite En. change SCHED_STACK_SIZE with (64 * PAGE_SIZE). rewrite <- Z.mul_add_distr_r.
    apply Z.mod_divide; [done|]. exists ((n + 64) * 256). unfold PAGE_SIZE. lia. }
  assert (Hout : forall x, ~ (a <= x < a + SCHED_STACK_SIZE) -> mem' x = m0 x)
    by (intros x Hx; apply A9; unfold top; lia).
  exists rs', mem'. split; [|split; [exact Hout|]].
  - unfold load_args. erewrite bind_run by (unfold get_thread; rewrite Ht; reflexivity).
    erewrite bind_run by (unfold get_proc; rewrite Hp; reflexivity). rewrite Hrsp. fold virt.
    replace (u64 (virt - SCHED_STACK_SIZE)) with SCHED_STACK_TOP by reflexivity.
    erewrite bind_run.
    2:{ apply on_vmm_run. unfold vmm_range_to_addr. erewrite bind_run by (apply get_map_run; rewrite (sm_maps _ _ _ _ _ Hsm); apply lookup_insert_eq).
        cbn [ranges]. rewrite Hl, (range_to_addr_last l (stack_range a)) by done. reflexivity. }
    erewrite bind_run by reflexivity. change (r_phys_addr (stack_range a)) with a.
    replace (u64 (a + SCHED_STACK_SIZE + PHYS_MEM_OFFSET)) with (PHYS_MEM_OFFSET + top)
      by (rewrite u64_small; unfold top, PHYS_MEM_OFFSET, SCHED_STACK_SIZE, PAGE_SIZE in *; lia).
    change (phys (v_pmm (k_vmm (set_k_vmm (k_vmm s) s)))) with m0. rewrite E.
    erewrite bind_run by (apply on_vmm_run, on_phys_run; reflexivity). reflexivity.
  - intros view Hv. assert (Hview : forall v, virt - args_size (default [] argv) (default [] env) <= v < virt -> view v = user_view top virt mem' v).
    { intros v Hvr. rewrite Hv by (unfold virt in *; lia). unfold user_view. f_equal. unfold top, virt. lia. }
    constructor; [done| | | |done].
    + destruct argv as [av|]; [|done]. exact (string_array_ext _ _ _ _ _ _ (A6 av eq_refl) Hview A2).
    + destruct env as [ev|]; [|done]. exact (string_array_ext _ _ _ _ _ _ (A7 ev eq_refl) Hview A3).
    + split; [done|]. unfold virt in *. lia.
Qed.
(** The stack as the program sees it, once the arguments are in its frames. *)
Lemma stack_bytes t u pm m a mem' : stack_made t u pm m a -> (forall x, ~ (a <= x < a + SCHED_STACK_SIZE) -> mem' x = phys (v_pmm u) x) ->
  forall v, SCHED_STACK_TOP <= v < SCHED_STACK_TOP + SCHED_STACK_SIZE -> vmem (with_mem mem' u) pm v = mem' (a + (v - SCHED_STACK_TOP)).
Proof.
  intros Hsm Hout v Hv. destruct (sm_at _ _ _ _ _ Hsm (v - SCHED_STACK_TOP) ltac:(lia)) as [Q1 Q2].
  replace (SCHED_STACK_TOP + (v - SCHED_STACK_TOP)) with v in * by lia.
  assert (Hva : user_va v) by (unfold user_va, SCHED_STACK_TOP, SCHED_STACK_SIZE, PAGE_SIZE in *; lia).
  destruct (write_data u mem' (sm_ok _ _ _ _ _ Hsm)) as (_ & V & _).
  { intros x. destruct (decide (a <= x < a + SCHED_STACK_SIZE)) as [Hx|Hx]; [right; by apply (sm_new _ _ _ _ _ Hsm)|left; by apply Hout]. }
  unfold vmem, vbyte. by rewrite V, Q1, Q2 by done.
Qed.

(** The thread of a new program: made, given its arguments, and queued. *)
Lemma start_thread_run np p c m entry prio uid gid argv env q s : k_procs s !! np = Some p -> user p = 1 -> stack_top p = SCHED_STACK_TOP ->
  np <> 0 -> k_cpus s !! me = Some c -> queues s !! Z.to_nat prio = Some q -> sched_lock s = false ->
  spaces_ok (k_vmm s) -> v_maps (k_vmm s) !! p_pagemap p = Some m -> room (k_vmm s) 320 ->
  Forall (fun r => r_virt_addr r <> SCHED_STACK_TOP) (ranges m) -> args_size (default [] argv) (default [] env) <= SCHED_STACK_SIZE - 8 ->
  returns ((new_thread ← sched_new_thread me 0 np entry prio uid gid 0;
            load_args new_thread np argv env;; sched_enqueue new_thread;; mret (inl 0 : Z + Z)) s)
    (fun r s' => r = inl 0 /\ exists a kst u mem' rs', let th := k_next s in
      k_threads s' !! th = Some (mk_thread np 1 gid uid (current_tid s) false 1 prio kst rs' (c_fpu c)) /\
      k_procs s' !! np = Some (with_threads (p_threads p ++ [th]) (with_stack_top (u64 (SCHED_STACK_TOP - SCHED_STACK_SIZE)) p)) /\
      queues s' = <[Z.to_nat prio := q ++ [th]]> (queues s) /\ k_vfs s' = k_vfs s /\ k_sfiles s' = k_sfiles s /\
      k_vmm s' = with_mem mem' u /\ stack_made (k_vmm s) u (p_pagemap p) m a /\
      (forall x, ~ (a <= x < a + SCHED_STACK_SIZE) -> mem' x = phys (v_pmm u) x) /\
      args_ready (start_regs entry) rs' (vmem (with_mem mem' u) (p_pagemap p)) argv env).
Proof.
  intros Hp Hu Hst Hnp Hc Hq Hlock Hok Hm Hroom Hr Hargs.
  destruct (new_thread_run np p c m entry prio uid gid 0 s Hp Hu Hst Hnp Hc Hok Hm) as (a & kst & u & R2 & Hsm & _); [lia|exact Hroom|].
  erewrite bind_run by exact R2. clear R2. match goal with |- returns (_ ?st) _ => set (s6 := st) end. set (th := k_next s) in *.
  set (t6 := mk_thread np 1 gid uid (current_tid s) false 0 prio kst (start_regs entry) (c_fpu c)).
  set (p6 := with_threads (p_threads p ++ [th]) (with_stack_top (u64 (SCHED_STACK_TOP - SCHED_STACK_SIZE)) p)).
  assert (Ht6 : k_threads s6 !! th = Some t6) by apply lookup_insert_eq.
  assert (Hp6 : k_procs s6 !! np = Some p6) by apply lookup_insert_eq.
  destruct (load_args_run th np t6 p6 m (ranges m) a argv env s6 (k_vmm s) Ht6 Hp6 eq_refl Hm eq_refl Hsm Hr Hargs) as (rs' & mem' & R3 & Hout & Hag).
  erewrite bind_run by exact R3. clear R3. match goal with |- returns (_ ?st) _ => set (s7 := st) end.
  set (t7 := with_context rs' (fpu_storage t6) t6). assert (Ht7 : k_threads s7 !! th = Some t7) by apply lookup_insert_eq.
  erewrite bind_run by (apply (enqueue_run th t7 q); [exact Ht7|reflexivity|exact Hlock|exact Hq]).
  apply returns_ret. split; [reflexivity|]. exists a, kst, u, mem', rs'. split; [apply lookup_insert_eq|]. split; [exact Hp6|].
  repeat (split; [reflexivity|]). split; [exact Hsm|]. split; [exact Hout|].
  exact (Hag _ (stack_bytes _ _ _ _ _ _ Hsm Hout)).
Qed.

(** ** The program *)

(** The space, the image, two stacks of 64 pages and at most three tables for every mapped page. *)
Definition start_cost (image : list Z) : Z := 1 + load_cost image + 320.

(** [s'] is [s] with a program that has the image, the open files [std] and the arguments, and waits in the
    run queue of the thread [cur] that started it. *)
Record program_started (s s' : kstate) (cur : thread_t) (image : list Z) (argv env : option (list (list Z))) (std : list (Z * Z))
    (proc th : Z) (p : proc_t) (t : thread_t) : Prop := mk_program_started {
  ps_proc : k_procs s' !! proc = Some p /\ k_next s <= proc;
  ps_fields : user p = 1 /\ pid p = current_pid s /\ p_parent p = t_parent cur /\ p_threads p = [th];
  ps_space : p_pagemap p = v_next (k_vmm s) /\ spaces_ok (k_vmm s');
  ps_files : forall i f flags, std !! i = Some (f, flags) -> exists sf, fds p !! i = Some sf /\ k_sfiles s' !! sf = Some (mk_sfile f flags);
  ps_closed : forall i, (length std <= i < 128)%nat -> fds p !! i = Some 0;
  ps_thread : k_threads s' !! th = Some t /\ t_parent t = proc /\ t_uid t = t_uid cur /\ t_gid t = t_gid cur /\ priority t = priority cur;
  ps_regs : t_regs t RIP = e_entry (image_header image) /\ t_regs t CS = GDT_SEG_UCODE /\ t_regs t SS = GDT_SEG_UDATA;
  ps_queue : exists q, queues s !! Z.to_nat (priority cur) = Some q /\ queues s' = <[Z.to_nat (priority cur) := q ++ [th]]> (queues s);
  ps_args : args_ready (start_regs (e_entry (image_header image))) (t_regs t) (vmem (k_vmm s') (p_pagemap p)) argv env;
  ps_bytes : forall i, let ph := image_segment image 0 in 0 <= i < ph_mem_size ph ->
    vbyte (k_vmm s') (p_pagemap p) (ph_virt_addr ph + i) = Some (if i <? ph_file_size ph then image_mem image (ph_offset ph + i) else 0);
  ps_others : forall pm va, pm <> p_pagemap p -> user_va va -> view (k_vmm s') pm va = view (k_vmm s) pm va;
  ps_data : forall x, data (k_vmm s) x -> phys (v_pmm (k_vmm s')) x = phys (v_pmm (k_vmm s)) x
}.

(** The three files of a new process, in the slots [n] to [n + 2] of the open files. *)
Lemma std_files n f0 f1 f2 (sfs : gmap Z syscall_file) :
  let std := [(f0, O_RDONLY); (f1, O_WRONLY); (f2, O_WRONLY)] in
  let fds := <[2%nat := n + 1 + 1]> (<[1%nat := n + 1]> (<[0%nat := n]> (replicate (Z.to_nat FDS_COUNT) 0))) in
  let sfs' := <[n + 1 + 1 := mk_sfile f2 O_WRONLY]> (<[n + 1 := mk_sfile f1 O_WRONLY]> (<[n := mk_sfile f0 O_RDONLY]> sfs)) in
  (forall i f flags, std !! i = Some (f, flags) -> exists sf, fds !! i = Some sf /\ sfs' !! sf = Some (mk_sfile f flags)) /\
  (forall i, (length std <= i < 128)%nat -> fds !! i = Some 0).
Proof.
  intros std fds sfs'. split.
  - intros i f flags Hi. destruct i as [|[|[|i]]]; cbn in Hi; try discriminate; injection Hi as <- <-; eexists; (split; [reflexivity|]);
      unfold sfs'; rewrite ?lookup_insert_ne by lia; apply lookup_insert_eq.
  - intros i Hi. cbn [length std] in Hi. unfold fds. rewrite !list_lookup_insert_ne by lia.
    apply lookup_replicate_2. change (Z.to_nat FDS_COUNT) with 128%nat. lia.
Qed.

(** The memory of a started program: [t0] is the memory with the new space, [u1] with the image, [u2] with the
    stack, and [mem'] has the arguments in the stack. *)
Lemma memory_started image pm z r a mem' t0 u1 u2 : program_image image ->
  let ph := image_segment image 0 in let m1 := mk_pagemap false z [r] in
  segment_loaded t0 u1 pm (mk_pagemap false z []) image ph -> stack_made u1 u2 pm m1 a ->
  (forall x, ~ (a <= x < a + SCHED_STACK_SIZE) -> mem' x = phys (v_pmm u2) x) ->
  spaces_ok (with_mem mem' u2) /\
  (forall i, 0 <= i < ph_mem_size ph ->
    vbyte (with_mem mem' u2) pm (ph_virt_addr ph + i) = Some (if i <? ph_file_size ph then image_mem image (ph_offset ph + i) else 0) /\
    let x := target (view (with_mem mem' u2) pm (ph_virt_addr ph + i)) + (ph_virt_addr ph + i) mod PAGE_SIZE in data (with_mem mem' u2) x /\ ~ data t0 x) /\
  (forall pm' va, pm' <> pm -> user_va va -> view (with_mem mem' u2) pm' va = view t0 pm' va) /\
  (forall x, data t0 x -> data (with_mem mem' u2) x /\ phys (v_pmm (with_mem mem' u2)) x = phys (v_pmm t0) x).
Proof.
  intros Himg ph m1 Hsl Hsm Hout. pose proof (pi_virt _ Himg) as Hv. fold ph in Hv.
  destruct (write_data u2 mem' (sm_ok _ _ _ _ _ Hsm)) as (Ok & V & Dw).
  { intros x. destruct (decide (a <= x < a + SCHED_STACK_SIZE)) as [Hx|Hx]; [right; by apply (sm_new _ _ _ _ _ Hsm)|left; by apply Hout]. }
  assert (Hd : forall x, data u1 x -> data (with_mem mem' u2) x) by (intros x Hx; by apply Dw, (sm_data _ _ _ _ _ Hsm)).
  assert (Hkeep : forall x, data u1 x -> mem' x = phys (v_pmm u1) x).
  { intros x Hx. rewrite Hout; [by apply (sm_data _ _ _ _ _ Hsm)|]. intros Hin. by destruct (sm_new _ _ _ _ _ Hsm x Hin). }
  split; [exact Ok|]. split; [|split].
  - intros i Hi. assert (H0 : 0 <= ph_virt_addr ph) by apply (ld_range 8).
    assert (Hva : user_va (ph_virt_addr ph + i)) by (unfold user_va, PAGE_SIZE in *; lia).
    destruct (sl_frames _ _ _ _ _ _ Hsl i Hi) as [Hf Hn].
    rewrite <- (sl_bytes _ _ _ _ _ _ Hsl i Hi). unfold vbyte. rewrite V, (sm_view _ _ _ _ _ Hsm) by (done || right; unfold SCHED_STACK_TOP, PAGE_SIZE in *; lia).
    split; [|split; [by apply Hd|done]]. destruct (present _); [|done]. f_equal. exact (Hkeep _ Hf).
  - intros pm' va Hne Hva. rewrite V, (sm_view _ _ _ _ _ Hsm), (sl_view _ _ _ _ _ _ Hsl) by auto. done.
  - intros x Hx. destruct (sl_data _ _ _ _ _ _ Hsl x Hx) as [D <-]. split; [by apply Hd|exact (Hkeep x D)].
Qed.

(** The new space [pm], empty in [u0] and with the image in [u1]. *)
Record space_loaded (v u0 u1 : vmm_state) (pm z : Z) (r : mmap_range) (image : list Z) : Prop := mk_space_loaded {
  lp_maps0 : v_maps u0 = <[pm := mk_pagemap false z []]> (v_maps v);
  lp_maps1 : v_maps u1 = <[pm := mk_pagemap false z [r]]> (v_maps u0);
  lp_range : Forall (fun r => r_virt_addr r <> SCHED_STACK_TOP) [r];
  lp_high : highest_page (v_pmm u1) = highest_page (v_pmm v);
  lp_view : forall pm' va, user_va va -> view u0 pm' va = view v pm' va;
  lp_data : forall x, data v x -> data u0 x /\ phys (v_pmm u0) x = phys (v_pmm v) x;
  lp_segment : segment_loaded u0 u1 pm (mk_pagemap false z []) image (image_segment image 0);
  lp_room : room u1 320
}.

(** What starting and replacing a program begin with. *)
Lemma load_program_run {A} (rest : Z -> Z * option Z -> KM A) path image v1 s : program_image image ->
  file_image fs_table file_table drivers (k_vfs s) v1 path image (k_next s) -> spaces_ok (k_vmm s) -> room (k_vmm s) (start_cost image) ->
  exists u0 u1 z r, let pm := v_next (k_vmm s) in space_loaded (k_vmm s) u0 u1 pm z r image /\
    (new_pagemap ← on_vmm vmm_create_new_pagemap; x ← elf_run_binary fs_table file_table drivers path new_pagemap; rest new_pagemap x) s =
    rest pm (0, Some (e_entry (image_header image))) (set_k_vmm u1 (set_k_vfs v1 (set_k_next (k_next s + Z.of_nat (length image)) (set_k_vmm u0 s)))).
Proof.
  intros Himg Hfile Hok Hroom. pose proof (pi_virt _ Himg) as Hvirt. pose proof (pi_mem _ Himg) as [_ Hms].
  destruct (segment_pages_spec (image_segment image 0)) as [Hsp _]; [apply (ld_range 8)|done|unfold PAGE_SIZE in *; lia|].
  destruct (create_total (k_vmm s) (load_cost image + 320) Hok) as (pm & u0 & R0 & -> & Hok0 & (z & M0) & [N0 H0] & V0 & D0 & Rm0);
    [by unfold start_cost in Hroom; rewrite Z.add_assoc|unfold load_cost; lia|].
  set (pm := v_next (k_vmm s)) in *.
  assert (Hm0 : v_maps u0 !! pm = Some (mk_pagemap false z [])) by (rewrite M0; apply lookup_insert_eq).
  destruct (elf_load_run fs_table file_table drivers path pm (mk_pagemap false z []) image v1 320 (set_k_vmm u0 s) Himg Hfile Hok0 Hm0)
    as (u1 & R1 & Hsl & Rm1); [lia|exact Rm0|]. destruct (sl_maps _ _ _ _ _ _ Hsl) as (r & Hr & M1).
  exists u0, u1, z, r. split; [|erewrite bind_run by (apply on_vmm_run; exact R0); by erewrite bind_run by exact R1].
  constructor; try done.
  - constructor; [rewrite Hr; unfold SCHED_STACK_TOP, PAGE_SIZE in *; lia|constructor].
  - rewrite (sl_high _ _ _ _ _ _ Hsl). exact H0.
Qed.

(** C3: a program starts: if the file at the path holds an executable with one loadable segment, and the
    files for its input and output can be opened, and there are enough free pages that no table or data
    was ever in ([room]), then [sched_run_program] returns 0 and there is a new
    process, child of the one that asked, with exactly these three files open, in an address space of its
    own in which the segment holds the bytes of the file followed by zeros; its only thread starts at the
    entry point in user mode, finds its arguments and environment through its registers in its own
    memory, has the rights and the priority of the thread that asked, and is the last in its run queue.
    The translations of all other spaces and all data in memory are as before. *)
Theorem program_starts (junk_entry : Z) (path : list Z) (argv env : option (list (list Z))) (tin tout terr : list Z) (image : list Z)
    (c : cpu_locals) (cur : thread_t) (q : list Z) (v1 v2 v3 v4 : vfs_state) (f0 f1 f2 : Z) (s : kstate) :
  program_image image -> file_image fs_table file_table drivers (k_vfs s) v1 path image (k_next s) ->
  vfs_open fs_table tin v1 = Done (f0, v2) -> vfs_open fs_table tout v2 = Done (f1, v3) -> vfs_open fs_table terr v3 = Done (f2, v4) ->
  k_cpus s !! me = Some c -> k_threads s !! current_thread c = Some cur -> queues s !! Z.to_nat (priority cur) = Some q ->
  sched_lock s = false -> spaces_ok (k_vmm s) -> 0 < v_next (k_vmm s) -> 0 < k_next s ->
  args_size (default [] argv) (default [] env) <= SCHED_STACK_SIZE - 8 -> room (k_vmm s) (start_cost image) ->
  returns (sched_run_program me fs_table file_table drivers junk_entry path argv env (Some tin) (Some tout) (Some terr) 0 s)
    (fun r s' => r = inl 0 /\ k_vfs s' = v4 /\ exists proc th p t,
       program_started s s' cur image argv env [(f0, O_RDONLY); (f1, O_WRONLY); (f2, O_WRONLY)] proc th p t).
Proof.
  intros Himg Hfile Ho0 Ho1 Ho2 Hc Hcur Hq Hlock Hok Hvn Hkn Hargs Hroom. unfold sched_run_program.
  match goal with |- returns ((_ ≫= fun pm => _ ≫= @?k pm) s) _ => destruct (load_program_run k path image v1 s Himg Hfile Hok Hroom) as (u0 & u1 & z & r & Hl & E) end.
  rewrite E. clear E. destruct Hl as [M0 M1 Hrv _ V0 D0 Hsl Rm1]. set (pm := v_next (k_vmm s)) in *. cbn [snd default from_option id].
  erewrite bind_run by (unfold get_locals; cbn; rewrite Hc; reflexivity).
  erewrite bind_run by (unfold get_thread; cbn; rewrite Hcur; reflexivity). change (negb (truthy 0)) with true. cbv iota.
  erewrite bind_run by (apply new_proc_run; lia).
  erewrite bind_run by (unfold get_proc; cbn; rewrite lookup_insert_eq; reflexivity). erewrite bind_run by reflexivity.
  erewrite bind_run by (eapply open_std_run; [apply lookup_insert_eq|exact Ho0]).
  erewrite bind_run by (eapply open_std_run; [apply lookup_insert_eq|exact Ho1]).
  erewrite bind_run by (eapply open_std_run; [apply lookup_insert_eq|exact Ho2]).
  match goal with |- returns (_ ?st) _ => set (s5 := st) end.
  set (np := k_next s + Z.of_nat (length image)).
  set (P5 := mk_proc 1 (current_pid s) (t_parent cur) [] [] pm SCHED_STACK_TOP SCHED_MMAP_TOP 0
    (<[2%nat := np + 2 + 1 + 1]> (<[1%nat := np + 2 + 1]> (<[0%nat := np + 2]> (replicate (Z.to_nat FDS_COUNT) 0)))) (np + 1) 0).
  assert (Hp5 : k_procs s5 !! np = Some P5) by apply lookup_insert_eq.
  set (m1 := mk_pagemap false z [r]). assert (Hm1 : v_maps u1 !! pm = Some m1) by (rewrite M1; apply lookup_insert_eq).
  eapply returns_mono.
  { apply (start_thread_run np P5 c m1 (e_entry (image_header image)) (priority cur) (t_uid cur) (t_gid cur) argv env q s5 Hp5 eq_refl eq_refl
      ltac:(unfold np; lia) Hc Hq Hlock (sl_ok _ _ _ _ _ _ Hsl) Hm1 Rm1 Hrv Hargs). }
  intros o s' (-> & a & kst & u2 & mem' & rs' & Ht & Hp & Hqs & Hv & Hf & Hvm & Hsm & Hout & Hag).
  split; [reflexivity|]. split; [exact Hv|]. exists np, (k_next s5). eexists _, _.
  destruct (memory_started image pm z r a mem' u0 u1 u2 Himg Hsl Hsm Hout) as (Ok & B & V & D).
  constructor; rewrite ?Hvm, ?Hf.
  - split; [exact Hp|unfold np; lia].
  - repeat split; reflexivity.
  - split; [reflexivity|exact Ok].
  - exact (proj1 (std_files (np + 2) f0 f1 f2 (k_sfiles s))).
  - exact (proj2 (std_files (np + 2) f0 f1 f2 (k_sfiles s))).
  - split; [exact Ht|]. repeat split; reflexivity.
  - cbn [t_regs]. rewrite !(ag_others _ _ _ _ _ Hag) by discriminate. repeat split; reflexivity.
  - exists q. split; [exact Hq|exact Hqs].
  - exact Hag.
  - intros i ph Hi. exact (proj1 (B i Hi)).
  - intros pm' va Hne Hva. etransitivity; [exact (V pm' va Hne Hva)|exact (V0 pm' va Hva)].
  - intros x Hx. destruct (D0 x Hx) as [D1 <-]. exact (proj2 (D x D1)).
Qed.
End Pieces.

(** ** A program of eight bytes *)

(** An image with four bytes of code at 0x400000, in the file "/dev/a" of the sample tmpfs. *)
Definition small_image : list Z := Eval vm_compute in
  peek 0 124 (st 4 0 0x464c457f (st 2 16 2 (st 8 24 0x400000 (st 8 32 64 (st 2 56 1 (st 4 64 1 (st 4 68 5 (st 8 72 120
    (st 8 80 0x400000 (st 8 96 4 (st 8 104 8 (st 4 120 0x90909090 (fun _ => 0))))))))))))).
Definition small_path : list Z := [47; 100; 101; 118; 47; 97].
Definition tmpfs_files (_ : Z) : option file_ops := Some tmpfs_file_table.

Definition small_vfs : vfs_state :=
  match vfs_write tmpfs_files no_drivers 3 500 0 124 (set_ubuf (fun x => image_mem small_image (x - 500)) (v_fs sample_vfs)) with
  | Done (_, s) => set_fs s sample_vfs | _ => sample_vfs end.

(** Thread 10 of process 5 asks, on CPU 0 of a machine with 480 pages. *)
Definition small_kernel : kstate :=
  mk_kstate two_spaces small_vfs (<[10 := user_thread]> ∅) (<[5 := user_proc]> ∅)
    ∅ ∅ ([10] :: replicate 19 []) [plain_cpu 10 0 0] false 5 1 100.

Lemma small_image_ok : program_image small_image.
Proof.
  assert (Hc : prog_head_count (image_header small_image) = 1) by (vm_compute; reflexivity).
  constructor; [closed_Z..| |closed_Z|closed_Z|closed_Z]. rewrite Hc. lia.
Qed.

Definition opened (path : list Z) (v : vfs_state) : vfs_state :=
  match vfs_open sample_table path v with Done (_, v') => v' | _ => v end.
Definition small_read : vfs_state :=
  let v1 := opened small_path small_vfs in
  match vfs_read tmpfs_files no_drivers 3 100 0 124 (v_fs v1) with Done (_, fs) => set_fs fs v1 | _ => v1 end.

(** The result of a run that is known to end. *)
Lemma ends_with {S A} (r : outcome (A * S)) (a : A) (s0 : S) :
  match r with Done (x, _) => Some x | _ => None end = Some a -> r = Done (a, match r with Done (_, s) => s | _ => s0 end).
Proof. destruct r as [[x s]| | |]; intros [=]; by subst. Qed.

Lemma small_opens v : match vfs_open sample_table small_path v with Done (x, _) => Some x | _ => None end = Some 3 ->
  vfs_open sample_table small_path v = Done (3, opened small_path v).
Proof. apply ends_with. Qed.

Lemma small_file : file_image sample_table tmpfs_files no_drivers small_vfs small_read small_path small_image 100.
Proof.
  assert (E1 : vfs_open sample_table small_path small_vfs = Done (3, opened small_path small_vfs)) by (apply small_opens; vm_compute; reflexivity).
  set (v1 := opened small_path small_vfs) in *.
  assert (E2 : vfs_read tmpfs_files no_drivers 3 100 0 124 (v_fs v1) = Done (0, v_fs small_read)).
  { etransitivity; [apply (ends_with _ 0 (v_fs v1)); vm_compute; reflexivity|].
    unfold small_read. fold v1. by destruct (vfs_read _ _ _ _ _ _ _) as [[]| | |]. }
  assert (E3 : f_length <$> files (v_fs v1) !! 3 = Some 124) by (vm_compute; reflexivity).
  destruct (files (v_fs v1) !! 3) as [f|] eqn:Ef; [|discriminate E3]. injection E3 as E3.
  exists 3, v1, f, 0, (v_fs small_read). split; [exact E1|]. split; [exact Ef|]. split; [exact E3|]. split; [by rewrite E3|].
  split; [unfold small_read; fold v1; by destruct (vfs_read _ _ _ _ _ _ _) as [[]| | |]|].
  assert (Hall : forallb (fun i => ubuf (v_fs small_read) (100 + i) =? image_mem small_image i) (seqZ 0 124) = true) by (vm_compute; reflexivity).
  rewrite forallb_forall in Hall. intros i Hi. apply Z.eqb_eq, Hall, list_elem_of_In, elem_of_seqZ. exact Hi.
Qed.

Lemma program_starts_witness : exists s' proc th p t,
  sched_run_program 0 sample_table tmpfs_files no_drivers 0 small_path (Some [[97]]) None (Some small_path) (Some small_path) (Some small_path) 0
    small_kernel = Done (inl 0, s') /\
  k_threads s' !! th = Some t /\ t_regs t RIP = 0x400000 /\ t_regs t RDI = 1 /\ k_procs s' !! proc = Some p /\
  vbyte (k_vmm s') (p_pagemap p) 0x400003 = Some 0x90 /\ vbyte (k_vmm s') (p_pagemap p) 0x400004 = Some 0.
Proof.
  set (v2 := opened small_path small_read). set (v3 := opened small_path v2). set (v4 := opened small_path v3).
  destruct (program_starts 0 sample_table tmpfs_files no_drivers 0 small_path (Some [[97]]) None small_path small_path small_path
    small_image (plain_cpu 10 0 0) user_thread [10] small_read v2 v3 v4 3 3 3 small_kernel small_image_ok small_file)
    as (r & s' & E & -> & _ & proc & th & p & t & Hst).
  1-3: apply small_opens; vm_compute; reflexivity.
  1-4: reflexivity.
  - exact two_spaces_ok.
  - closed_Z.
  - closed_Z.
  - closed_Z.
  - apply (room_le _ _ 477); [closed_Z|exact two_spaces_room].
  - exists s', proc, th, p, t. split; [exact E|]. clear E. destruct Hst as [[H1 _] _ _ _ _ [H2 _] [H3 _] _ H4 H5 _ _].
    split; [exact H2|]. split; [exact H3|]. split; [exact (ag_argc _ _ _ _ _ H4)|]. split; [exact H1|].
    split; [exact (H5 3 ltac:(closed_Z))|exact (H5 4 ltac:(closed_Z))].
Defined.
