(* ===== verification/ForkProc.v ===== *)
(** * Forking a process ([sched_fork] of src/src/kernel/tasking/scheduler.c)

    The whole way of a fork: the copy of the address space, the open files, which the child shares, the
    thread with its kernel stack, and the run queue. *)
From S2P Require Import Prelude CString Rtc Device Pmm PageTable Vmm Spaces Fork FatTypes Fs Tmpfs Vfs Event Kernel Sched Elf Loader Proc Start.
Open Scope Z_scope.

(** ** The open files *)

Definition bump (f : fs_file) : fs_file := with_ref_count (s32 (ref_count f + 1)) f.

(** How many of the descriptors have the file at [p] open. *)
Definition opens_of (sfs : gmap Z syscall_file) (l : list Z) (p : Z) : nat :=
  foldr (fun fd n => if truthy fd && bool_decide (sf_file <$> sfs !! fd = Some p) then S n else n) 0%nat l.

Definition with_open_files (n : Z) (sfs : gmap Z syscall_file) (fm : gmap Z fs_file) (s : kstate) : kstate :=
  set_k_next n (set_k_sfiles sfs (set_k_vfs (set_fs (set_files fm (v_fs (k_vfs s))) (k_vfs s)) s)).

(** Every descriptor of [l] names an open file of the kernel. *)
Definition fds_open (s : kstate) (l : list Z) : Prop :=
  forall fd, fd ∈ l -> fd <> 0 -> fd < k_next s /\ exists sf, k_sfiles s !! fd = Some sf /\ is_Some (files (v_fs (k_vfs s)) !! sf_file sf).

(** The descriptors [l'] are new and stand for the same files as [l]; every file has as many references
    more as there are descriptors for it. *)
Record fds_copied (s : kstate) (l l' : list Z) (n : Z) (sfs : gmap Z syscall_file) (fm : gmap Z fs_file) : Prop := mk_fds_copied {
  fc_next : k_next s <= n;
  fc_old : forall x, x < k_next s -> sfs !! x = k_sfiles s !! x;
  fc_each : Forall2 (fun fd fd' => fd = 0 /\ fd' = 0 \/ fd <> 0 /\ k_next s <= fd' < n /\ sfs !! fd' = k_sfiles s !! fd) l l';
  fc_files : forall p, fm !! p = Nat.iter (opens_of (k_sfiles s) l p) bump <$> files (v_fs (k_vfs s)) !! p
}.

Lemma opens_of_ext sfs sfs' l p : (forall fd, fd ∈ l -> fd <> 0 -> sfs' !! fd = sfs !! fd) -> opens_of sfs' l p = opens_of sfs l p.
Proof.
  induction l as [|fd l IH]; intros H; [done|]. cbn [opens_of foldr]. fold (opens_of sfs' l p) (opens_of sfs l p).
  rewrite IH by (intros x Hx; apply H; by right). unfold truthy. destruct (Z.eqb_spec fd 0) as [->|Hne]; [done|]. by rewrite H by (done || left).
Qed.

Lemma copy_fds_run l s : 0 <= k_next s -> fds_open s l ->
  exists l' n sfs fm, copy_fds l s = Done (l', with_open_files n sfs fm s) /\ fds_copied s l l' n sfs fm.
Proof.
  revert s. induction l as [|fd l IH]; intros s Hn Hopen.
  { exists [], (k_next s), (k_sfiles s), (files (v_fs (k_vfs s))). split; [by destruct s as [? [? ? ? []]]|].
    constructor; [lia|done|constructor|]. intros p. cbn. by rewrite option_fmap_id. }
  cbn [copy_fds]. destruct (Z.eq_dec fd 0) as [->|Hne].
  - change (truthy 0) with false. cbv iota. erewrite bind_run by reflexivity.
    destruct (IH s Hn) as (l' & n & sfs & fm & R & [H1 H2 H3 H4]); [intros x Hx; apply Hopen; by right|].
    erewrite bind_run by exact R. exists (0 :: l'), n, sfs, fm. split; [reflexivity|]. constructor; try done. constructor; [by left|exact H3].
  - assert (Ht : truthy fd = true) by (unfold truthy; by rewrite (proj2 (Z.eqb_neq fd 0))). rewrite Ht.
    destruct (Hopen fd ltac:(left) Hne) as (Hlt & sf & Hsf & f & Hf).
    set (s1 := with_open_files (k_next s + 1) (<[k_next s := sf]> (k_sfiles s)) (<[sf_file sf := bump f]> (files (v_fs (k_vfs s)))) s).
    rewrite (bind_run _ _ s (k_next s) s1).
    2:{ erewrite bind_run by reflexivity. erewrite bind_run by (unfold get_sfile; cbn; rewrite Hsf; reflexivity). erewrite bind_run by reflexivity.
        erewrite bind_run by (unfold on_files, on_vfs, on, on_fs; cbn; unfold get_file; rewrite Hf; reflexivity).
        erewrite bind_run by reflexivity. by destruct s as [? [? ? ? []]]. }
    destruct (IH s1) as (l' & n & sfs & fm & R & [H1 H2 H3 H4]); [cbn; lia| |].
    { intros x Hx Hx0. destruct (Hopen x ltac:(by right) Hx0) as (Hlx & sx & Hsx & Hfx). cbn. split; [lia|]. exists sx.
      rewrite lookup_insert_ne by lia. split; [done|]. apply lookup_insert_is_Some'. by right. }
    cbn [s1 with_open_files k_next set_k_next set_k_sfiles set_k_vfs k_sfiles k_vfs set_fs set_files v_fs files] in H1, H2, H3, H4.
    erewrite bind_run by exact R. exists (k_next s :: l'), n, sfs, fm. split; [by destruct s as [? [? ? ? []]]|]. constructor.
    + lia.
    + intros x Hx. rewrite H2, lookup_insert_ne by lia. done.
    + constructor; [right; split; [done|]; split; [lia|]; rewrite H2 by lia; by rewrite lookup_insert_eq|].
      rewrite Forall2_lookup in H3 |- *. intros i. specialize (H3 i). destruct (l !! i) as [x|] eqn:Ex; inversion H3 as [? y Hxy E1 E2|]; constructor.
      destruct Hxy as [Hxy|(Hx0 & Hy & E)]; [by left|right]. split; [done|]. split; [lia|].
      destruct (Hopen x ltac:(right; by eapply list_elem_of_lookup_2) Hx0) as [Hlx _]. by rewrite E, lookup_insert_ne by lia.
    + intros p. rewrite H4. rewrite (opens_of_ext (k_sfiles s)).
      2:{ intros x Hx Hx0. destruct (Hopen x ltac:(by right) Hx0) as [Hlx _]. by rewrite lookup_insert_ne by lia. }
      cbn [opens_of foldr]. fold (opens_of (k_sfiles s) l p). rewrite Ht, Hsf. cbn [andb fmap option_fmap option_map].
      destruct (Z.eq_dec (sf_file sf) p) as [<-|Hp].
      * rewrite bool_decide_eq_true_2 by done. rewrite lookup_insert_eq, Hf. cbn [fmap option_fmap option_map]. f_equal. symmetry. apply Nat.iter_succ_r.
      * rewrite bool_decide_eq_false_2 by congruence. by rewrite lookup_insert_ne.
Qed.

(** ** The kernel stack *)

(** [u] is [t] with a copy of the 64 pages at [src] in fresh frames from [a]. *)
Record stack_copied (t u : vmm_state) (a src : Z) : Prop := mk_stack_copied {
  sk_ok : spaces_ok u;
  sk_view : forall pm va, user_va va -> view u pm va = view t pm va;
  sk_data : forall x, data t x -> data u x /\ phys (v_pmm u) x = phys (v_pmm t) x;
  sk_bytes : forall i, 0 <= i < SCHED_STACK_SIZE -> data t (src + i) -> phys (v_pmm u) (a + i) = phys (v_pmm t) (src + i);
  sk_frames : exists n, a = n * PAGE_SIZE /\ 0 < n /\ (n + 64) * PAGE_SIZE <= 2 ^ 46
}.

Lemma stack_copy_run src k t : spaces_ok t -> 0 <= k -> room t (64 + k) ->
  returns (on_phys (pcalloc stack_pages) t) (fun a t1 =>
    stack_copied t (with_mem (memcpy a src SCHED_STACK_SIZE (phys (v_pmm t1))) t1) a src /\ v_maps t1 = v_maps t).
Proof.
  intros Hok Hk Hroom. change stack_pages with 64. eapply returns_mono; [apply (alloc_frames 64 k t Hok Hroom); lia|].
  intros a t1 (E & M & _ & n & -> & Hn & _ & Hlow & Hnew). split; [|exact M]. change (64 * PAGE_SIZE) with SCHED_STACK_SIZE in Hnew.
  set (mm := memcpy _ _ _ _).
  assert (Hout : forall x, ~ (n * PAGE_SIZE <= x < n * PAGE_SIZE + SCHED_STACK_SIZE) -> mm x = phys (v_pmm t1) x).
  { intros x Hx. unfold mm, memcpy. destruct (Z.leb_spec (n * PAGE_SIZE) x), (Z.ltb_spec x (n * PAGE_SIZE + SCHED_STACK_SIZE)); cbn [andb]; try done. lia. }
  destruct (write_data t1 mm (ev_ok _ _ _ E)) as (Ok & V & D).
  { intros x. destruct (decide (n * PAGE_SIZE <= x < n * PAGE_SIZE + SCHED_STACK_SIZE)) as [Hx|Hx]; [right; by apply Hnew|left; by apply Hout]. }
  constructor.
  - exact Ok.
  - intros pm va Hva. rewrite V by done. by apply (ev_view _ _ _ E).
  - intros x Hx. destruct (ev_data _ _ _ E x Hx) as [D1 P1]. split; [by apply D|]. rewrite <- P1. apply Hout. intros Hin. by destruct (Hnew x Hin) as (_ & _ & ?).
  - intros i Hi Hd. destruct (ev_data _ _ _ E _ Hd) as [_ <-]. cbn [with_mem set_pmm v_pmm phys with_phys]. unfold mm, memcpy.
    rewrite (proj2 (Z.leb_le _ _)), (proj2 (Z.ltb_lt _ _)) by lia. cbn [andb]. f_equal. lia.
  - by exists n.
Qed.

Lemma copied_vbyte t u a src pm va : stack_copied t u a src -> user_va va -> data t (target (view t pm va) + va mod PAGE_SIZE) ->
  vbyte u pm va = vbyte t pm va.
Proof.
  intros Hsk Hva Hd. unfold vbyte. rewrite (sk_view _ _ _ _ Hsk) by done. destruct (present _); [|done]. f_equal. by apply (sk_data _ _ _ _ Hsk).
Qed.

Section ForkProc.
Context (me : nat) (vm_mmap : Z -> Z -> Z -> Z -> Z -> Z -> Z -> VM Z).

(** The process that a fork makes. *)
Lemma fork_proc_run old p m k s : k_procs s !! old = Some p -> 0 < old < k_next s -> fds_open s (fds p) ->
  spaces_ok (k_vmm s) -> v_maps (k_vmm s) !! p_pagemap p = Some m -> Forall (anon_range (k_vmm s) (p_pagemap p)) (ranges m) ->
  ranges_apart (ranges m) -> 0 <= k -> room (k_vmm s) (1 + (fork_cost (ranges m) + k)) ->
  returns (sched_new_proc vm_mmap old 0 1 s) (fun np s' => np = k_next s /\ exists l' s1, let child := v_next (k_vmm s) in
    k_sfiles s1 = k_sfiles s /\ k_vfs s1 = k_vfs s /\ k_next s1 = k_next s + 2 /\
    fds_copied s1 (fds p) l' (k_next s') (k_sfiles s') (files (v_fs (k_vfs s'))) /\
    k_procs s' = <[np := mk_proc 1 (current_pid s) old [] [] child (stack_top p) (mmap_top p) 0 l' (np + 1) 0]> (k_procs s) /\
    queues s' = queues s /\ sched_lock s' = sched_lock s /\
    v_maps (k_vmm s) !! child = None /\ p_pagemap p <> child /\ forked (k_vmm s) (k_vmm s') child (ranges m) /\ room (k_vmm s') k).
Proof.
  intros Hp Hold Hfds Hok Hm Hl Hap Hk Hroom.
  destruct (fork_pagemap_run vm_mmap (p_pagemap p) m k (k_vmm s) Hok Hm Hl Hap Hk Hroom) as (pm & u & R & -> & Hfresh & Hne & Hfk & Hr).
  set (s1 := set_k_events (<[k_next s + 1 := mk_event 0 false]> (k_events s)) (set_k_next (k_next s + 2) (set_k_vmm u (set_current_pid (u64 (current_pid s + 1)) s)))).
  destruct (copy_fds_run (fds p) s1) as (l' & n & sfs & fm & Rc & Hc).
  { cbn. lia. } { intros fd Hin H0. destruct (Hfds fd Hin H0) as [H1 H2]. split; [cbn; lia|exact H2]. }
  unfold sched_new_proc. erewrite bind_run by reflexivity.
  assert (Ht : negb (truthy old) = false) by (unfold truthy; rewrite (proj2 (Z.eqb_neq old 0)) by lia; done). rewrite Ht.
  erewrite bind_run by (unfold get_proc; cbn; rewrite Hp; reflexivity). erewrite bind_run by reflexivity.
  erewrite bind_run by (apply on_vmm_run; exact R). erewrite bind_run by reflexivity.
  match goal with |- returns ((_ ≫= _) ?st) _ => replace st with s1 by (unfold s1; cbn; by replace (k_next s + 1 + 1) with (k_next s + 2) by lia) end.
  erewrite bind_run by exact Rc. erewrite bind_run by reflexivity. apply returns_ret. split; [reflexivity|]. exists l', s1.
  split; [reflexivity|]. split; [reflexivity|]. split; [reflexivity|]. split; [exact Hc|]. split; [reflexivity|].
  split; [reflexivity|]. split; [reflexivity|]. split; [exact Hfresh|]. split; [exact Hne|]. split; [exact Hfk|exact Hr].
Qed.

Definition child_regs (regs : registers) : registers := set_reg RAX 0 (set_reg CS GDT_SEG_UCODE (set_reg SS GDT_SEG_UDATA regs)).

(** The rest of the fork: the thread [th] in the process [np] that was made. *)
Lemma fork_thread_run old np oldp p cur regs q s : k_procs s !! old = Some oldp -> k_procs s !! np = Some p -> np <> old ->
  queues s !! Z.to_nat (priority cur) = Some q -> sched_lock s = false -> spaces_ok (k_vmm s) -> room (k_vmm s) 64 ->
  let src := dmap (u64 (kernel_stack cur - SCHED_STACK_SIZE)) in
  returns ((new_thread ← kalloc;
            tid ← next_tid;
            o ← get_proc old;
            put_proc old (with_children (p_children o ++ [np]) o);;
            new ← get_proc np;
            put_proc np (with_threads (p_threads new ++ [new_thread]) new);;
            kstack ← on_vmm (on_phys (pcalloc stack_pages));
            let top := u64 (kstack + PHYS_MEM_OFFSET + SCHED_STACK_SIZE) in
            put_thread new_thread (mk_thread np 0 0 0 tid false 0 (priority cur) top (child_regs regs) (fpu_storage cur));;
            on_vmm (on_phys (modify (fun p => with_phys (memcpy (dmap (u64 (top - SCHED_STACK_SIZE))) src SCHED_STACK_SIZE (phys p)) p)));;
            sched_enqueue new_thread;;
            new ← get_proc np;
            mret (s32 (pid new))) s)
    (fun r s' => r = s32 (pid p) /\ exists a top, let th := k_next s in dmap (u64 (top - SCHED_STACK_SIZE)) = a /\
      k_procs s' = <[np := with_threads (p_threads p ++ [th]) p]> (<[old := with_children (p_children oldp ++ [np]) oldp]> (k_procs s)) /\
      k_threads s' !! th = Some (mk_thread np 0 0 0 (current_tid s) false 1 (priority cur) top (child_regs regs) (fpu_storage cur)) /\
      queues s' = <[Z.to_nat (priority cur) := q ++ [th]]> (queues s) /\ k_vfs s' = k_vfs s /\ k_sfiles s' = k_sfiles s /\
      stack_copied (k_vmm s) (k_vmm s') a src).
Proof.
  intros Ho Hp Hne Hq Hlock Hok Hr src.
  destruct (stack_copy_run src 0 (k_vmm s) Hok) as (a & u1 & Ra & Hsk & Mu); [lia|exact Hr|].
  erewrite bind_run by reflexivity. erewrite bind_run by reflexivity.
  erewrite bind_run by (unfold get_proc; cbn; rewrite Ho; reflexivity). erewrite bind_run by reflexivity.
  erewrite bind_run by (unfold get_proc; cbn; rewrite lookup_insert_ne, Hp by congruence; reflexivity). erewrite bind_run by reflexivity.
  erewrite bind_run by (apply on_vmm_run; exact Ra). cbv zeta. erewrite bind_run by reflexivity.
  destruct (sk_frames _ _ _ _ Hsk) as (nf & Ea & Hnf & Hlow). set (top := u64 (a + PHYS_MEM_OFFSET + SCHED_STACK_SIZE)).
  assert (Etop : dmap (u64 (top - SCHED_STACK_SIZE)) = a).
  { unfold top. rewrite (u64_small (_ + SCHED_STACK_SIZE)) by (unfold PHYS_MEM_OFFSET, SCHED_STACK_SIZE, PAGE_SIZE in *; lia).
    replace (a + PHYS_MEM_OFFSET + SCHED_STACK_SIZE - SCHED_STACK_SIZE) with (a + PHYS_MEM_OFFSET) by lia.
    apply dmap_direct. unfold PAGE_SIZE in *. lia. }
  erewrite bind_run by (apply on_vmm_run, on_phys_run; reflexivity). rewrite Etop.
  set (t6 := mk_thread np 0 0 0 (current_tid s) false 0 (priority cur) top (child_regs regs) (fpu_storage cur)).
  erewrite bind_run by (apply (enqueue_run (k_next s) t6 q); [apply lookup_insert_eq|reflexivity|exact Hlock|exact Hq]).
  erewrite bind_run by (unfold get_proc; cbn; rewrite lookup_insert_eq; reflexivity).
  apply returns_ret. split; [reflexivity|]. exists a, top. split; [exact Etop|]. split; [reflexivity|]. split; [apply lookup_insert_eq|].
  split; [reflexivity|]. split; [reflexivity|]. split; [reflexivity|exact Hsk].
Qed.

(** [s'] is [s] with a child [proc] of the process [old], with the one thread [th]. *)
Record process_forked (s s' : kstate) (old : Z) (oldp : proc_t) (cur : thread_t) (m : pagemap) (regs : registers)
    (proc th : Z) (p : proc_t) (t : thread_t) : Prop := mk_process_forked {
  pf_parent : k_procs s' !! old = Some (with_children (p_children oldp ++ [proc]) oldp) /\ proc <> old;
  pf_child : k_procs s' !! proc = Some p /\ user p = 1 /\ pid p = current_pid s /\ p_parent p = old /\ p_children p = [] /\ p_threads p = [th];
  pf_tops : stack_top p = stack_top oldp /\ mmap_top p = mmap_top oldp;
  pf_files : Forall2 (fun fd fd' => fd = 0 /\ fd' = 0 \/ fd <> 0 /\ fd' <> 0 /\ fd' <> fd /\ k_sfiles s' !! fd' = k_sfiles s !! fd) (fds oldp) (fds p);
  pf_refs : forall f, files (v_fs (k_vfs s')) !! f = Nat.iter (opens_of (k_sfiles s) (fds oldp) f) bump <$> files (v_fs (k_vfs s)) !! f;
  pf_thread : k_threads s' !! th = Some t /\ t_parent t = proc /\ t_regs t = child_regs regs /\ fpu_storage t = fpu_storage cur /\ priority t = priority cur;
  pf_rights : t_uid t = 0 /\ t_gid t = 0;
  pf_stack : forall i, 0 <= i < SCHED_STACK_SIZE ->
    let old_byte := dmap (u64 (kernel_stack cur - SCHED_STACK_SIZE)) + i in data (k_vmm s) old_byte ->
    phys (v_pmm (k_vmm s')) (dmap (u64 (kernel_stack t - SCHED_STACK_SIZE)) + i) = phys (v_pmm (k_vmm s)) old_byte;
  pf_queue : exists q, queues s !! Z.to_nat (priority cur) = Some q /\ queues s' = <[Z.to_nat (priority cur) := q ++ [th]]> (queues s);
  pf_space : spaces_ok (k_vmm s') /\ v_maps (k_vmm s) !! p_pagemap p = None;
  pf_bytes : forall r va, r ∈ ranges m -> user_va va -> in_range r va -> is_Some (vbyte (k_vmm s) (p_pagemap oldp) va) /\
    vbyte (k_vmm s') (p_pagemap p) va = vbyte (k_vmm s) (p_pagemap oldp) va /\
    target (view (k_vmm s') (p_pagemap p) va) <> target (view (k_vmm s') (p_pagemap oldp) va);
  pf_none : forall va, user_va va -> (forall r, r ∈ ranges m -> ~ in_range r va) -> vbyte (k_vmm s') (p_pagemap p) va = None;
  pf_others : forall pm va, pm <> p_pagemap p -> user_va va -> view (k_vmm s') pm va = view (k_vmm s) pm va;
  pf_data : forall x, data (k_vmm s) x -> phys (v_pmm (k_vmm s')) x = phys (v_pmm (k_vmm s)) x
}.

(** The descriptors of the child are new ones for the same files. *)
Lemma shared_files s l l' n (sfs : gmap Z syscall_file) : fds_open s l -> 0 <= k_next s ->
  Forall2 (fun fd fd' => fd = 0 /\ fd' = 0 \/ fd <> 0 /\ k_next s + 2 <= fd' < n /\ sfs !! fd' = k_sfiles s !! fd) l l' ->
  Forall2 (fun fd fd' => fd = 0 /\ fd' = 0 \/ fd <> 0 /\ fd' <> 0 /\ fd' <> fd /\ sfs !! fd' = k_sfiles s !! fd) l l'.
Proof.
  intros Hopen Hn. rewrite !Forall2_lookup. intros H i. specialize (H i). destruct (l !! i) as [x|] eqn:Ex; inversion H as [? y Hxy E1 E2|]; constructor.
  destruct Hxy as [Hxy|(Hx0 & Hy & E)]; [by left|right]. destruct (Hopen x ltac:(by eapply list_elem_of_lookup_2) Hx0) as [Hlx _].
  split; [done|]. split; [lia|]. split; [lia|exact E].
Qed.

(** The memory of both processes after the fork and the copy of the kernel stack. *)
Lemma memory_forked v u w pm child m a src : forked v u child (ranges m) -> Forall (anon_range v pm) (ranges m) -> pm <> child -> stack_copied u w a src ->
  (forall r va, r ∈ ranges m -> user_va va -> in_range r va -> is_Some (vbyte v pm va) /\ vbyte w child va = vbyte v pm va /\
     target (view w child va) <> target (view w pm va)) /\
  (forall va, user_va va -> (forall r, r ∈ ranges m -> ~ in_range r va) -> vbyte w child va = None) /\
  (forall pm' va, pm' <> child -> user_va va -> view w pm' va = view v pm' va) /\
  (forall x, data v x -> phys (v_pmm w) x = phys (v_pmm v) x).
Proof.
  intros Hfk Hl Hne Hsk. split_and!.
  - intros r va Hr Hva Hin. destruct (forked_byte v u pm child _ r va Hfk Hl Hne Hr Hva Hin) as (H1 & H2 & _ & H3 & H4).
    rewrite (copied_vbyte u w a src child va Hsk Hva H3), !(sk_view _ _ _ _ Hsk) by done. done.
  - intros va Hva Hout. unfold vbyte. by rewrite (sk_view _ _ _ _ Hsk), (fk_out _ _ _ _ Hfk).
  - intros pm' va Hpm Hva. by rewrite (sk_view _ _ _ _ Hsk), (fk_other _ _ _ _ Hfk).
  - intros x Hx. destruct (fk_data _ _ _ _ Hfk x Hx) as [D <-]. by apply (sk_data _ _ _ _ Hsk).
Qed.

(** C5: a process forks: for a process whose memory is private anonymous ranges and whose descriptors are
    open, on untouched memory with room for the copies, [sched_fork] returns the child's process number,
    and there is a new process, registered as a child of the one that forked, in an address space of its
    own in which every byte of every range is that of the parent, in another frame, and which has nothing
    else; it has every file of the parent open at the same descriptor, and each file counts its new
    references; its only thread has the interrupted registers with 0 as the result, a copy of the kernel
    stack, and is the last in its run queue.  The parent, all other spaces and all data in memory are as
    before.  The thread's user and group, though, are 0, whatever those of the parent are. *)
Theorem process_forks (regs : registers) (c : cpu_locals) (cur : thread_t) (oldp : proc_t) (m : pagemap) (q : list Z) (s : kstate) :
  k_cpus s !! me = Some c -> k_threads s !! current_thread c = Some cur -> k_procs s !! t_parent cur = Some oldp ->
  0 < t_parent cur < k_next s -> fds_open s (fds oldp) -> queues s !! Z.to_nat (priority cur) = Some q -> sched_lock s = false ->
  spaces_ok (k_vmm s) -> v_maps (k_vmm s) !! p_pagemap oldp = Some m -> Forall (anon_range (k_vmm s) (p_pagemap oldp)) (ranges m) ->
  ranges_apart (ranges m) -> room (k_vmm s) (1 + (fork_cost (ranges m) + 64)) ->
  returns (sched_fork me vm_mmap regs s) (fun r s' => r = s32 (current_pid s) /\ exists proc th p t,
    process_forked s s' (t_parent cur) oldp cur m regs proc th p t).
Proof.
  intros Hc Hcur Hp Hold Hfds Hq Hlock Hok Hm Hl Hap Hroom. unfold sched_fork.
  erewrite bind_run by (unfold get_locals; cbn; rewrite Hc; reflexivity).
  erewrite bind_run by (unfold get_thread; cbn; rewrite Hcur; reflexivity).
  eapply returns_bind; [apply (fork_proc_run (t_parent cur) oldp m 64 s Hp Hold Hfds Hok Hm Hl Hap ltac:(lia) Hroom)|].
  intros np s2 (-> & l' & s1 & F1 & V1 & N1 & [C1 C2 C3 C4] & Hps & Hqs & Hls & Hfresh & Hne & Hfk & Hr).
  set (P := mk_proc _ _ _ _ _ _ _ _ _ _ _ _) in *. set (np := k_next s) in *. set (child := v_next (k_vmm s)) in *.
  assert (Hnp : np <> t_parent cur) by lia. rewrite <- Hqs in Hq. rewrite <- Hls in Hlock.
  eapply returns_mono.
  { apply (fork_thread_run (t_parent cur) np oldp P cur regs q s2);
      [by rewrite Hps, lookup_insert_ne|by rewrite Hps, lookup_insert_eq|exact Hnp|exact Hq|exact Hlock|exact (fk_ok _ _ _ _ Hfk)|exact Hr]. }
  intros r s' (-> & a & top & Etop & Hp' & Ht' & Hq' & Hv' & Hf' & Hsk). split; [done|]. exists np, (k_next s2). eexists _, _.
  destruct (memory_forked (k_vmm s) (k_vmm s2) (k_vmm s') (p_pagemap oldp) child m a _ Hfk Hl Hne Hsk) as (B & N & V & D).
  rewrite F1, V1, N1 in *. constructor.
  - split; [|exact Hnp]. rewrite Hp', lookup_insert_ne by done. apply lookup_insert_eq.
  - split; [rewrite Hp'; apply lookup_insert_eq|done].
  - done.
  - rewrite Hf'. apply (shared_files s (fds oldp) l' (k_next s2)); [done|unfold np in *; lia|exact C3].
  - rewrite Hv'. exact C4.
  - split; [exact Ht'|done].
  - done.
  - intros i Hi old_byte Hd. cbn [kernel_stack]. rewrite Etop. destruct (fk_data _ _ _ _ Hfk _ Hd) as [Hd' <-].
    exact (sk_bytes _ _ _ _ Hsk i Hi Hd').
  - exists q. rewrite Hq', <- Hqs. done.
  - split; [exact (sk_ok _ _ _ _ Hsk)|exact Hfresh].
  - exact B.
  - exact N.
  - exact V.
  - exact D.
Qed.
End ForkProc.

(** A process with two pages of memory and one open file forks. *)
Definition forking : kstate :=
  mk_kstate parent sample_vfs (<[10 := user_thread]> ∅)
    (<[5 := mk_proc 1 3 0 [] [10] 7 SCHED_STACK_TOP SCHED_MMAP_TOP 0 (40 :: replicate 127 0) 30 0]> ∅)
    (<[30 := mk_event 0 false]> ∅) (<[40 := mk_sfile 3 O_RDONLY]> ∅) ([10] :: replicate 19 []) [plain_cpu 10 0 0] false 5 1 100.

Lemma forking_open : fds_open forking (40 :: replicate 127 0).
Proof.
  intros fd Hin Hne. apply elem_of_cons in Hin as [->|Hin].
  - split; [reflexivity|]. exists (mk_sfile 3 O_RDONLY). split; [reflexivity|]. exists sample_a. reflexivity.
  - apply elem_of_replicate in Hin as [-> _]. exfalso. exact (Hne eq_refl).
Qed.

Lemma process_forks_witness : exists s' proc th p t,
  sched_fork 0 no_vm_mmap (fun _ => 9) forking = Done (5, s') /\ k_procs s' !! proc = Some p /\ p_parent p = 5 /\
  k_threads s' !! th = Some t /\ t_regs t RAX = 0 /\ t_regs t RBX = 9 /\ is_Some (vbyte parent 7 0x401000) /\
  vbyte (k_vmm s') (p_pagemap p) 0x401000 = vbyte parent 7 0x401000 /\ ref_count <$> files (v_fs (k_vfs s')) !! 3 = Some 2.
Proof.
  destruct parent_ok as (a & Hok & _ & Hm & Har & Hroom & _).
  destruct (process_forks 0 no_vm_mmap (fun _ => 9) (plain_cpu 10 0 0) user_thread
    (mk_proc 1 3 0 [] [10] 7 SCHED_STACK_TOP SCHED_MMAP_TOP 0 (40 :: replicate 127 0) 30 0) (mk_pagemap false (2 * PAGE_SIZE) [two_pages a]) [10] forking)
    as (r & s' & E & -> & proc & th & p & t & Hpf).
  - reflexivity.
  - reflexivity.
  - reflexivity.
  - split; reflexivity.
  - exact forking_open.
  - reflexivity.
  - reflexivity.
  - exact Hok.
  - exact Hm.
  - constructor; [exact Har|constructor].
  - split; [|exact I]. intros r' va Hr'. by apply not_elem_of_nil in Hr'.
  - apply (room_le _ _ 400); [closed_Z|exact Hroom].
  - exists s', proc, th, p, t. split; [exact E|]. clear E.
    destruct Hpf as [_ (H1 & _ & _ & H2 & _) _ _ H3 (H4 & _ & H5 & _) _ _ _ _ H6 _ _ _]. rewrite H5.
    destruct (H6 (two_pages a) 0x401000) as (B1 & B2 & _); [by left|split; closed_Z|split; closed_Z|].
    split; [exact H1|]. split; [exact H2|]. split; [exact H4|]. split; [reflexivity|]. split; [reflexivity|]. split; [exact B1|]. split; [exact B2|].
    rewrite H3. vm_compute. reflexivity.
Defined.
