(* ===== verification/Exec.v ===== *)
(** * Replacing a program ([sched_run_program] of src/src/kernel/tasking/scheduler.c, as exec calls it)

    The running thread gets a new address space with another program and new registers; the old space is
    destroyed. *)
From S2P Require Import Prelude CString Rtc Device Pmm PageTable Vmm Spaces Fork Destroy Fs Tmpfs Vfs Event Kernel Sched Elf Loader Proc Start.
Open Scope Z_scope.

Definition with_cr3 (c : Z) (s : vmm_state) : vmm_state := mk_vmm (v_pmm s) (v_maps s) (v_next s) c (v_invlpg s).

Lemma cr3_ok c s : spaces_ok s -> spaces_ok (with_cr3 c s).
Proof. intros []. by constructor. Qed.

(** The pages a space gives back: the frames of its ranges and its top level. *)
Definition space_page (mo : pagemap) (c : Z) : Prop := c = top_level mo / PAGE_SIZE \/ frame_of (ranges mo) c = true.

(** [w] is [u] without the space [old], whose pages are free; the frames of its ranges are those of data
    of [v]. *)
Record space_dropped (v u w : vmm_state) (old : Z) (mo : pagemap) : Prop := mk_space_dropped {
  sd_maps : v_maps w = delete old (v_maps u);
  sd_ok : spaces_ok w;
  sd_view : forall pm va, pm <> old -> user_va va -> view w pm va = view u pm va;
  sd_data : forall x, data u x -> frame_of (ranges mo) (x / PAGE_SIZE) = false -> data w x /\ phys (v_pmm w) x = phys (v_pmm u) x;
  sd_frames : forall x, frame_of (ranges mo) (x / PAGE_SIZE) = true -> data v x;
  sd_freed : forall c, 0 <= c -> space_page mo c -> used (bitmap (v_pmm w)) c = false
}.

(** Bytes that are new since [v] survive. *)
Lemma dropped_vbyte v u w old mo pm va : space_dropped v u w old mo -> pm <> old -> user_va va ->
  let x := target (view u pm va) + va mod PAGE_SIZE in data u x -> ~ data v x -> vbyte w pm va = vbyte u pm va.
Proof.
  intros Hsd Hne Hva x Hx Hn. unfold vbyte. rewrite (sd_view _ _ _ _ _ Hsd) by done. destruct (present _); [|done]. f_equal.
  apply (sd_data _ _ _ _ _ Hsd); [exact Hx|]. destruct (frame_of _ _) eqn:E; [|done]. by destruct Hn; apply (sd_frames _ _ _ _ _ Hsd).
Qed.

Lemma drop_run v u c old mo : spaces_ok u -> v_maps u !! old = Some mo -> old <> kernel_pagemap -> Forall (owned_range v old) (ranges mo) ->
  (forall va, user_va va -> view u old va = view v old va) -> (forall x, data v x -> data u x) -> highest_page (v_pmm u) = highest_page (v_pmm v) ->
  returns (vmm_destroy_pagemap old (with_cr3 c u)) (fun _ w => space_dropped v u w old mo).
Proof.
  intros Hok Hm Hk Hl V D Hh. eapply returns_mono.
  { apply (space_destroyed old mo (with_cr3 c u)); [by apply cr3_ok|exact Hm|done|]. eapply Forall_impl; [exact Hl|].
    intros r Hr. by apply (owned_kept v). }
  intros [] w (H1 & _ & H2 & HU & H3 & H4). constructor; try done.
  - intros x. by apply (frame_of_data v old).
  - intros k Hk0 [->|Hf]; rewrite HU by done; [by rewrite Z.eqb_refl|by rewrite Hf, orb_true_r].
Qed.

Section Exec.
Context (me : nat) (fs_table : Z -> option fs_ops) (file_table : Z -> option file_ops) (drivers : Z -> DriverOps) `{Env}.

(** The thread of the new program, and the end of the old one. *)
Lemma exec_thread_run v thread proc p c m entry prio uid gid argv env old mo s : k_procs s !! proc = Some p -> user p = 1 -> stack_top p = SCHED_STACK_TOP ->
  proc <> 0 -> thread <> 0 -> k_cpus s !! me = Some c -> sched_lock s = false -> spaces_ok (k_vmm s) -> v_maps (k_vmm s) !! p_pagemap p = Some m ->
  room (k_vmm s) 320 -> Forall (fun r => r_virt_addr r <> SCHED_STACK_TOP) (ranges m) -> args_size (default [] argv) (default [] env) <= SCHED_STACK_SIZE - 8 ->
  v_maps (k_vmm s) !! old = Some mo -> old <> kernel_pagemap -> old <> p_pagemap p -> Forall (owned_range v old) (ranges mo) ->
  (forall va, user_va va -> view (k_vmm s) old va = view v old va) -> (forall x, data v x -> data (k_vmm s) x) -> highest_page (v_pmm (k_vmm s)) = highest_page (v_pmm v) ->
  returns ((_ ← sched_new_thread me thread proc entry prio uid gid 0;
            LOCK_sched;; load_args thread proc argv env;; on_vmm (vmm_load_pagemap (p_pagemap p));; on_vmm (vmm_destroy_pagemap old);; UNLOCK_sched;;
            mret (inr thread : Z + Z)) s)
    (fun r s' => r = inr thread /\ exists a kst u mem' rs',
      k_threads s' !! thread = Some (mk_thread proc 1 gid uid (current_tid s) false 0 prio kst rs' (c_fpu c)) /\
      k_procs s' !! proc = Some (with_threads (p_threads p ++ [thread]) (with_stack_top (u64 (SCHED_STACK_TOP - SCHED_STACK_SIZE)) p)) /\
      queues s' = queues s /\ k_vfs s' = k_vfs s /\ k_sfiles s' = k_sfiles s /\ sched_lock s' = false /\
      stack_made (k_vmm s) u (p_pagemap p) m a /\ (forall x, ~ (a <= x < a + SCHED_STACK_SIZE) -> mem' x = phys (v_pmm u) x) /\
      space_dropped v (with_mem mem' u) (k_vmm s') old mo /\
      (forall view, (forall x, SCHED_STACK_TOP <= x < SCHED_STACK_TOP + SCHED_STACK_SIZE -> view x = mem' (a + (x - SCHED_STACK_TOP))) ->
         args_ready (start_regs entry) rs' view argv env)).
Proof.
  intros Hp Hu Hst Hnp Hth Hc Hlock Hok Hm Hroom Hr Hargs Hmo Hk Hold Hown V D Hh.
  assert (Hal : (if negb (truthy thread) then kalloc else mret thread) s = Done (thread, s))
    by (unfold truthy; by rewrite (proj2 (Z.eqb_neq thread 0))).
  destruct (thread_run me thread thread proc p c m entry prio uid gid 0 s s Hal Hp Hu Hst Hnp Hc Hok Hm) as (a & kst & u & R & Hsm & _); [lia|exact Hroom|].
  erewrite bind_run by exact R. clear R Hal. erewrite bind_run by (unfold LOCK_sched; erewrite bind_run by reflexivity; cbn; rewrite Hlock; reflexivity).
  match goal with |- returns (_ ?st) _ => set (s6 := st) end.
  set (t6 := mk_thread proc 1 gid uid (current_tid s) false 0 prio kst (start_regs entry) (c_fpu c)).
  set (p6 := with_threads (p_threads p ++ [thread]) (with_stack_top (u64 (SCHED_STACK_TOP - SCHED_STACK_SIZE)) p)).
  destruct (load_args_run thread proc t6 p6 m (ranges m) a argv env s6 (k_vmm s) (lookup_insert_eq _ _ _) (lookup_insert_eq _ _ _) eq_refl Hm eq_refl Hsm Hr Hargs)
    as (rs' & mem' & R & Hout & Hag).
  erewrite bind_run by exact R. clear R. change (k_vmm s6) with u in *. set (u3 := with_mem mem' u) in *.
  assert (Hm3 : v_maps u3 = <[p_pagemap p := mk_pagemap false (top_level m) (ranges m ++ [stack_range a])]> (v_maps (k_vmm s))) by exact (sm_maps _ _ _ _ _ Hsm).
  destruct (write_data u mem' (sm_ok _ _ _ _ _ Hsm)) as (Ok3 & V3 & D3).
  { intros x. destruct (decide (a <= x < a + SCHED_STACK_SIZE)) as [Hx|Hx]; [right; by apply (sm_new _ _ _ _ _ Hsm)|left; by apply Hout]. }
  erewrite bind_run.
  2:{ apply on_vmm_run. unfold vmm_load_pagemap. erewrite bind_run; [reflexivity|]. apply get_map_run. cbn [k_vmm set_k_vmm set_k_threads]. rewrite Hm3. apply lookup_insert_eq. }
  destruct (drop_run v u3 (top_level (mk_pagemap false (top_level m) (ranges m ++ [stack_range a]))) old mo) as ([] & w & R & Hsd); try done.
  { by rewrite Hm3, lookup_insert_ne by done. }
  { intros va Hva. unfold u3. rewrite V3, (sm_view _ _ _ _ _ Hsm) by auto. by apply V. }
  { intros x Hx. by apply D3, (sm_data _ _ _ _ _ Hsm), D. }
  { change (highest_page (v_pmm u3)) with (highest_page (v_pmm u)). by rewrite (sm_high _ _ _ _ _ Hsm). }
  erewrite bind_run by (apply on_vmm_run; exact R). erewrite bind_run by reflexivity.
  apply returns_ret. split; [reflexivity|]. exists a, kst, u, mem', rs'. split; [apply lookup_insert_eq|]. split; [apply lookup_insert_eq|].
  split; [reflexivity|]. split; [reflexivity|]. split; [reflexivity|]. split; [reflexivity|]. split; [exact Hsm|]. split; [exact Hout|]. split; [exact Hsd|exact Hag].
Qed.

(** [s'] is [s] with another program in the process [proc] and its running thread. *)
Record program_replaced (s s' : kstate) (proc thread : Z) (oldp p : proc_t) (cur t : thread_t) (mo : pagemap) (image : list Z)
    (argv env : option (list (list Z))) : Prop := mk_program_replaced {
  pr_proc : k_procs s' !! proc = Some p /\ pid p = current_pid s /\ p_parent p = p_parent oldp /\ p_children p = p_children oldp /\ fds p = fds oldp;
  pr_threads : p_threads p = p_threads oldp ++ [thread];
  pr_space : p_pagemap p = v_next (k_vmm s) /\ v_maps (k_vmm s') !! p_pagemap oldp = None /\ spaces_ok (k_vmm s');
  pr_thread : k_threads s' !! thread = Some t /\ t_parent t = proc /\ t_uid t = t_uid cur /\ t_gid t = t_gid cur /\ priority t = priority cur;
  pr_lock : t_lock t = false /\ queues s' = queues s;
  pr_regs : t_regs t RIP = e_entry (image_header image) /\ t_regs t CS = GDT_SEG_UCODE /\ t_regs t SS = GDT_SEG_UDATA;
  pr_args : args_ready (start_regs (e_entry (image_header image))) (t_regs t) (vmem (k_vmm s') (p_pagemap p)) argv env;
  pr_bytes : forall i, let ph := image_segment image 0 in 0 <= i < ph_mem_size ph ->
    vbyte (k_vmm s') (p_pagemap p) (ph_virt_addr ph + i) = Some (if i <? ph_file_size ph then image_mem image (ph_offset ph + i) else 0);
  pr_others : forall pm va, pm <> p_pagemap p -> pm <> p_pagemap oldp -> user_va va -> view (k_vmm s') pm va = view (k_vmm s) pm va;
  pr_data : forall x, data (k_vmm s) x -> frame_of (ranges mo) (x / PAGE_SIZE) = false -> phys (v_pmm (k_vmm s')) x = phys (v_pmm (k_vmm s)) x;
  pr_freed : forall c, 0 <= c -> space_page mo c -> used (bitmap (v_pmm (k_vmm s'))) c = false
}.

(** The memory of the new program once the old space is gone. *)
Lemma memory_replaced image v pm z r a mem' u0 u1 u2 w old mo : program_image image -> let ph := image_segment image 0 in
  (forall pm' va, user_va va -> view u0 pm' va = view v pm' va) -> (forall x, data v x -> data u0 x /\ phys (v_pmm u0) x = phys (v_pmm v) x) ->
  segment_loaded u0 u1 pm (mk_pagemap false z []) image ph -> stack_made u1 u2 pm (mk_pagemap false z [r]) a ->
  (forall x, ~ (a <= x < a + SCHED_STACK_SIZE) -> mem' x = phys (v_pmm u2) x) -> pm <> old -> space_dropped v (with_mem mem' u2) w old mo ->
  (forall i, 0 <= i < ph_mem_size ph ->
    vbyte w pm (ph_virt_addr ph + i) = Some (if i <? ph_file_size ph then image_mem image (ph_offset ph + i) else 0)) /\
  (forall x, SCHED_STACK_TOP <= x < SCHED_STACK_TOP + SCHED_STACK_SIZE -> vmem w pm x = mem' (a + (x - SCHED_STACK_TOP))) /\
  (forall pm' va, pm' <> pm -> pm' <> old -> user_va va -> view w pm' va = view v pm' va) /\
  (forall x, data v x -> frame_of (ranges mo) (x / PAGE_SIZE) = false -> phys (v_pmm w) x = phys (v_pmm v) x).
Proof.
  intros Himg ph V0 D0 Hsl Hsm Hout Hne Hsd. pose proof (pi_virt _ Himg) as Hv. fold ph in Hv. set (u3 := with_mem mem' u2) in *.
  destruct (memory_started image pm z r a mem' u0 u1 u2 Himg Hsl Hsm Hout) as (Ok & B & V & D). fold u3 in B, V, D. split; [|split; [|split]].
  - intros i Hi. destruct (B i Hi) as (Hb & Hd & Hn). fold ph in Hb, Hd, Hn. etransitivity; [|exact Hb]. assert (H0 : 0 <= ph_virt_addr ph) by apply (ld_range 8).
    apply (dropped_vbyte v u3 w old mo); [done|done|unfold user_va, PAGE_SIZE in *; lia|done|]. intros Hx. by apply Hn, D0.
  - intros x Hx. rewrite <- (stack_bytes _ _ _ _ _ _ Hsm Hout x Hx). fold u3. unfold vmem. f_equal.
    assert (Hva : user_va x) by (unfold user_va, SCHED_STACK_TOP, SCHED_STACK_SIZE, PAGE_SIZE in *; lia).
    destruct (write_data u2 mem' (sm_ok _ _ _ _ _ Hsm)) as (_ & V2 & Dw).
    { intros y. destruct (decide (a <= y < a + SCHED_STACK_SIZE)) as [Hy|Hy]; [right; by apply (sm_new _ _ _ _ _ Hsm)|left; by apply Hout]. }
    destruct (sm_at _ _ _ _ _ Hsm (x - SCHED_STACK_TOP) ltac:(lia)) as [_ Q]. replace (SCHED_STACK_TOP + (x - SCHED_STACK_TOP)) with x in Q by lia.
    destruct (sm_new _ _ _ _ _ Hsm (a + (x - SCHED_STACK_TOP)) ltac:(lia)) as [Hd Hn].
    apply (dropped_vbyte v u3 w old mo); [done|done|done|..]; unfold u3 at 1; rewrite V2, Q by done; [by apply Dw|].
    intros Hx'. by apply Hn, (sl_data _ _ _ _ _ _ Hsl), D0.
  - intros pm' va H1 H2 Hva. by rewrite (sd_view _ _ _ _ _ Hsd), V, V0.
  - intros x Hx Hf. destruct (D0 x Hx) as [Hx0 <-]. destruct (D x Hx0) as [Hx3 <-]. by apply (sd_data _ _ _ _ _ Hsd).
Qed.

(** C6: a program is replaced: if the file at the path holds an executable with one loadable segment, and
    the memory of the process is private anonymous ranges, and there are enough free pages that no table
    or data was ever in ([room]), then [sched_run_program] as exec calls it goes
    on with the thread that called it, now at the entry point of the new program in user mode, with its
    arguments and environment; the process has the same parent, children and open files, a new process
    number and a new address space in which the segment holds the bytes of the file followed by zeros;
    the old space is gone, the frames of its ranges and its top level are free pages again, and all other
    spaces and all data outside its frames are as before.  The
    thread is listed once more among those of the process, and its lock is released. *)
Theorem program_replaces (junk_entry : Z) (path : list Z) (argv env : option (list (list Z))) (stdin stdout stderr : option (list Z)) (image : list Z)
    (c : cpu_locals) (cur : thread_t) (oldp : proc_t) (mo : pagemap) (v1 : vfs_state) (s : kstate) :
  program_image image -> file_image fs_table file_table drivers (k_vfs s) v1 path image (k_next s) ->
  k_cpus s !! me = Some c -> k_threads s !! current_thread c = Some cur -> current_thread c <> 0 ->
  k_procs s !! t_parent cur = Some oldp -> t_parent cur <> 0 -> user oldp = 1 -> sched_lock s = false ->
  spaces_ok (k_vmm s) -> v_maps (k_vmm s) !! p_pagemap oldp = Some mo -> p_pagemap oldp <> kernel_pagemap ->
  Forall (owned_range (k_vmm s) (p_pagemap oldp)) (ranges mo) ->
  args_size (default [] argv) (default [] env) <= SCHED_STACK_SIZE - 8 -> room (k_vmm s) (start_cost image) ->
  returns (sched_run_program me fs_table file_table drivers junk_entry path argv env stdin stdout stderr 1 s)
    (fun r s' => r = inr (current_thread c) /\ k_vfs s' = v1 /\ sched_lock s' = false /\ exists p t,
       program_replaced s s' (t_parent cur) (current_thread c) oldp p cur t mo image argv env).
Proof.
  intros Himg Hfile Hc Hcur Hth Hp Hnp Huser Hlock Hok Hmo Hk Hown Hargs Hroom. unfold sched_run_program.
  match goal with |- returns ((_ ≫= fun pm => _ ≫= @?k pm) s) _ =>
    destruct (load_program_run fs_table file_table drivers k path image v1 s Himg Hfile Hok Hroom) as (u0 & u1 & z & r & Hl & E) end.
  rewrite E. clear E. destruct Hl as [M0 M1 Hrv Hh V0 D0 Hsl Rm1]. set (pm := v_next (k_vmm s)) in *. cbn [snd default from_option id].
  assert (Hne : p_pagemap oldp <> pm) by (intros E; pose proof (so_next _ Hok _ _ Hmo); unfold pm in E; lia).
  erewrite bind_run by (unfold get_locals; cbn; rewrite Hc; reflexivity).
  erewrite bind_run by (unfold get_thread; cbn; rewrite Hcur; reflexivity). change (negb (truthy 1)) with false. cbv iota zeta.
  erewrite bind_run by (unfold get_proc; cbn; rewrite Hp; reflexivity). erewrite bind_run by reflexivity. erewrite bind_run by reflexivity.
  match goal with |- returns (_ ?st) _ => set (s5 := st) end.
  set (P5 := mk_proc (user oldp) (current_pid s) (p_parent oldp) (p_children oldp) (p_threads oldp) pm SCHED_STACK_TOP SCHED_MMAP_TOP 0 (fds oldp) (p_event oldp) (p_status oldp)).
  assert (F5 : k_procs s5 !! t_parent cur = Some P5 /\ k_cpus s5 = k_cpus s /\ sched_lock s5 = sched_lock s /\ k_vmm s5 = u1 /\ queues s5 = queues s /\ k_vfs s5 = v1)
    by (split; [apply lookup_insert_eq|repeat split; reflexivity]).
  clearbody s5. destruct F5 as (Hp5 & Hc5 & Hl5 & Hv5 & Hq5 & Hf5). set (m1 := mk_pagemap false z [r]).
  eapply returns_mono.
  { apply (exec_thread_run (k_vmm s) (current_thread c) (t_parent cur) P5 c m1 (e_entry (image_header image)) (priority cur) (t_uid cur) (t_gid cur) argv env
      (p_pagemap oldp) mo s5 Hp5 Huser eq_refl Hnp Hth); rewrite ?Hc5, ?Hl5, ?Hv5; try done.
    - apply (sl_ok _ _ _ _ _ _ Hsl).
    - rewrite M1. apply lookup_insert_eq.
    - by rewrite M1, M0, !lookup_insert_ne by done.
    - intros va Hva. rewrite (sl_view _ _ _ _ _ _ Hsl) by auto. by apply V0.
    - intros x Hx. by apply (sl_data _ _ _ _ _ _ Hsl), D0.
    }
  rewrite Hv5, Hq5, Hf5. intros o s' (-> & a & kst & u2 & mem' & rs' & Ht & Hp' & Hqs & Hvf & _ & Hlk & Hsm & Hout & Hsd & Hag).
  split; [done|]. split; [done|]. split; [done|]. eexists _, _. change (p_pagemap P5) with pm in *.
  destruct (memory_replaced image (k_vmm s) pm z r a mem' u0 u1 u2 (k_vmm s') (p_pagemap oldp) mo Himg V0 D0 Hsl Hsm Hout ltac:(done) Hsd) as (B & S & V & D).
  specialize (Hag _ S). constructor.
  - split; [exact Hp'|]. done.
  - done.
  - split; [done|]. split; [rewrite (sd_maps _ _ _ _ _ Hsd); apply lookup_delete_eq|exact (sd_ok _ _ _ _ _ Hsd)].
  - split; [exact Ht|]. done.
  - done.
  - cbn [t_regs]. rewrite !(ag_others _ _ _ _ _ Hag) by discriminate. done.
  - exact Hag.
  - exact B.
  - exact V.
  - exact D.
  - exact (sd_freed _ _ _ _ _ Hsd).
Qed.
End Exec.

(** The process with two pages of memory runs the program of Start.v instead. *)
Definition replacing : kstate :=
  mk_kstate parent small_vfs (<[10 := user_thread]> ∅) (<[5 := user_proc]> ∅) ∅ ∅ ([10] :: replicate 19 []) [plain_cpu 10 0 0] false 5 1 100.

Lemma program_replaces_witness : exists s' p t,
  sched_run_program 0 sample_table tmpfs_files no_drivers 0 small_path (Some [[97]]) None None None None 1 replacing = Done (inr 10, s') /\
  k_procs s' !! 5 = Some p /\ k_threads s' !! 10 = Some t /\ t_regs t RIP = 0x400000 /\ v_maps (k_vmm s') !! 7 = None /\ used (bitmap (v_pmm (k_vmm s'))) 2 = false /\
  vbyte (k_vmm s') (p_pagemap p) 0x400003 = Some 0x90 /\ vbyte (k_vmm s') (p_pagemap p) 0x400004 = Some 0.
Proof.
  destruct parent_ok as (a & Hok & _ & Hm & Har & Hroom & n & En & Hn & Hhi).
  destruct (program_replaces 0 sample_table tmpfs_files no_drivers 0 small_path (Some [[97]]) None None None None small_image (plain_cpu 10 0 0) user_thread
    user_proc (mk_pagemap false (2 * PAGE_SIZE) [two_pages a]) small_read replacing small_image_ok small_file)
    as (r & s' & E & -> & _ & _ & p & t & Hpr).
  - reflexivity.
  - reflexivity.
  - discriminate.
  - reflexivity.
  - discriminate.
  - reflexivity.
  - reflexivity.
  - exact Hok.
  - exact Hm.
  - discriminate.
  - constructor; [|constructor]. split; [exact Har|]. exists n. split; [exact En|]. split; [exact Hn|exact Hhi].
  - closed_Z.
  - apply (room_le _ _ 400); [closed_Z|exact Hroom].
  - exists s', p, t. split; [exact E|]. clear E. destruct Hpr as [[H1 _] _ (_ & H2 & _) [H3 _] _ [H4 _] _ H5 _ _ H6].
    split; [exact H1|]. split; [exact H3|]. split; [exact H4|]. split; [exact H2|].
    split; [apply (H6 2); [lia|left; reflexivity]|].
    split; [exact (H5 3 ltac:(closed_Z))|exact (H5 4 ltac:(closed_Z))].
Defined.
