(* ===== verification/Syscall.v ===== *)
(** * System calls (src/src/kernel/sys/syscall.c)

    Each handler, on CPU [me], over the kernel state.  Paths are the strings the user
    pointers name; buffers and out-parameters are addresses in [ubuf], structures are written
    there field by field.  Negative error codes are returned as such and converted to 64 bits
    by [c_syscall_handler].  A file descriptor outside the table reads memory behind it:
    [Fault].  What [vfs_mmap] does with a device or a file is a parameter. *)
From S2P Require Import Prelude CString Rtc Device Pipe Pmm PageTable Vmm Fs Tmpfs Vfs Event Kernel Sched Elf Proc.

Definition EACCES : Z := 2.
Definition EBADF : Z := 8.
Definition EMFILE : Z := 33.
Definition ENODEV : Z := 44.
Definition ENOENT : Z := 45.
Definition ENOMEM : Z := 49.
Definition ESPIPE : Z := 72.
Definition O_EXEC : Z := 0x400000.
Definition F_OK : Z := 0.
Definition F_DUPFD : Z := 1.
Definition SEEK_SET : Z := 0.
Definition SEEK_CUR : Z := 1.
Definition SEEK_END : Z := 2.
Definition MMAP_MAX_SIZE : Z := 0x2000000.

(** [CURRENT_PROC->fds[id]] *)
Definition fd_entry (p : proc_t) (id : Z) : KM Z :=
  if (0 <=? id) && (id <? FDS_COUNT) then of_option (fds p !! Z.to_nat id) else fault.

(** The loop that looks for a free descriptor from [i] on. *)
Fixpoint free_fd (l : list Z) (i : Z) : Z :=
  match l with [] => i | fd :: l' => if fd =? 0 then i else free_fd l' (i + 1) end.

(** The path up to its last '/'. *)
Fixpoint cut_last_slash (rev_path : list Z) : option (list Z) :=
  match rev_path with [] => None | c :: r => if c =? 47 then Some (rev r) else cut_last_slash r end.
Definition parent_path (path : list Z) : list Z := default path (cut_last_slash (rev path)).

(** [*stat = ..] *)
Definition write_stat (a : Z) (x : stat_t) (m : mem) : mem :=
  st 8 a (device_id x) (st 2 (a + 8) (file_serial x) (st 4 (a + 12) (file_mode x) (st 2 (a + 16) (hardlink_count x)
  (st 2 (a + 18) (user_id x) (st 2 (a + 20) (group_id x) (st 8 (a + 24) (device_type x) (st 8 (a + 32) (file_size x)
  (st 8 (a + 40) (st_atime x) (st 8 (a + 48) 0 (st 8 (a + 56) (st_mtime x) (st 8 (a + 64) 0
  (st 8 (a + 72) (st_ctime x) (st 8 (a + 80) 0 (st 8 (a + 88) (st_btime x) (st 8 (a + 96) 0
  (st 8 (a + 104) (st_block_size x) (st 8 (a + 112) (st_block_count x) m))))))))))))))))).

Record mmap_args := mk_mmap_args { ma_addr : Z; ma_length : Z; ma_flags : Z; ma_prot : Z; ma_fd : Z; ma_offset : Z }.
Definition read_mmap_args (m : mem) (a : Z) : mmap_args :=
  mk_mmap_args (ld 8 m a) (ld 8 m (a + 8)) (ld 8 m (a + 16)) (ld 8 m (a + 24)) (s32 (ld 4 m (a + 32))) (ld 8 m (a + 40)).

Definition write_user (f : mem -> mem) : KM unit := on_files (modify (fun s => set_ubuf (f (ubuf s)) s)).
Definition user_mem : KM mem := on_files (gets ubuf).

Section Syscall.
Context (me : nat).
Context (fs_table : Z -> option fs_ops) (file_table : Z -> option file_ops) (drivers : Z -> DriverOps).
Context (dev_ioctl : Z -> Z -> Z -> FM Z).
Context (vfs_mmap : Z -> Z -> Z -> Z -> Z -> Z -> Z -> Z -> KM Z).
Context (vm_mmap : Z -> Z -> Z -> Z -> Z -> Z -> Z -> VM Z).
Context `{Env}.

(** The permission tests on a file with the ids of the current thread: 1 when refused. *)
Definition can (check : Z -> Z -> Z -> FM Z) (file : Z) : KM bool :=
  t ← CURRENT_THREAD me; r ← on_files (check file (t_uid t) (t_gid t)); mret (truthy r).

Definition deny (flag : bool) (test : KM bool) : KM bool := if flag then test else mret false.

Definition either (a b : KM bool) : KM bool := x ← a; if (x : bool) then mret true else b.

(** The chain of permission tests of [syscall_open]: whether it returns [-EACCES]. *)
Definition open_denied (file flags : Z) : KM bool :=
  either
    (either (deny (truthy (Z.land flags O_RDONLY)) (can vfs_check_can_read file))
    (either (deny (truthy (Z.land flags O_WRONLY)) (can vfs_check_can_write file))
       (deny (truthy (Z.land flags O_RDWR)) (either (can vfs_check_can_read file) (can vfs_check_can_write file)))))
    (deny (truthy (Z.land flags O_EXEC)) (can vfs_check_can_exec file)).

Definition set_fd (id fd : Z) : KM unit :=
  ptr ← CURRENT_PROC_ptr me; p ← get_proc ptr; put_proc ptr (with_fds (<[Z.to_nat id := fd]> (fds p)) p).

Definition free_sfile (p : Z) : KM unit := modify (fun s => set_k_sfiles (delete p (k_sfiles s)) s).

Definition close_file (file : Z) : KM unit := _ ← on_files (vfs_close file_table file); mret tt.

(** The end of [syscall_open], for a file the caller may use. *)
Definition install_file (file flags : Z) : KM Z :=
  sfile ← kalloc;
  put_sfile sfile (mk_sfile file flags);;
  f ← on_files (get_file file);
  on_files (put_file file (with_offset 0 f));;
  p ← CURRENT_PROC me;
  let i := free_fd (fds p) 0 in
  if i =? FDS_COUNT then
    close_file file;; free_sfile sfile;; mret (- EMFILE)
  else set_fd i sfile;; mret i.

Definition syscall_open (path : list Z) (flags mode : Z) : KM Z :=
  file ← on_vfs (vfs_open fs_table path);
  r ← (if truthy file then mret (inr file)
       else if negb (truthy (Z.land flags O_CREAT)) then mret (inl (- ENOENT))
       else
         parent ← on_vfs (vfs_open fs_table (parent_path path));
         if negb (truthy parent) then mret (inl (- ENOENT))
         else
           d ← open_denied parent flags;
           if (d : bool) then mret (inl (- EACCES))
           else
             close_file parent;;
             t ← CURRENT_THREAD me;
             file ← on_vfs (vfs_create fs_table path mode (t_uid t) (t_gid t));
             mret (inr file));
  match r with
  | inl e => mret e
  | inr file =>
      d ← open_denied file flags;
      if (d : bool) then mret (- EACCES) else install_file file flags
  end.

(** [CURRENT_PROC->fds[id]] with its contents, when it is open. *)
Definition open_file (id : Z) : KM (option (Z * syscall_file)) :=
  p ← CURRENT_PROC me;
  fd ← fd_entry p id;
  if truthy fd then sf ← get_sfile fd; mret (Some (fd, sf)) else mret None.

Definition syscall_close (id : Z) : KM Z :=
  o ← open_file id;
  match o with
  | None => mret (- EBADF)
  | Some (fd, sf) =>
      close_file (sf_file sf);; free_sfile fd;; set_fd id 0;; mret 0
  end.

(** The size that [syscall_read] and [syscall_write] pass on. *)
Definition clamp (f : fs_file) (size : Z) : Z :=
  if (f_length f <? u64 (size + f_offset f)) && negb (ISDEV f) && negb (ISFIFO f)
  then u64 (f_length f - f_offset f) else size.

Definition advance_offset (file size : Z) : FM unit :=
  f ← get_file file; put_file file (with_offset (u64 (f_offset f + size)) f).

Definition syscall_read (id buffer size : Z) : KM Z :=
  o ← open_file id;
  match o with
  | None => mret (- EBADF)
  | Some (_, sf) =>
      if negb (truthy (Z.land (sf_flags sf) (Z.lor O_RDONLY O_RDWR))) then mret (- EINVAL)
      else if negb (truthy size) then mret 0
      else
        f ← on_files (get_file (sf_file sf));
        let size := clamp f size in
        read ← on_files (vfs_read file_table drivers (sf_file sf) buffer (f_offset f) size);
        on_files (advance_offset (sf_file sf) size);;
        mret read
  end.

Definition syscall_write (id buffer size : Z) : KM Z :=
  o ← open_file id;
  match o with
  | None => mret 0
  | Some (_, sf) =>
      if negb (truthy (Z.land (sf_flags sf) (Z.lor O_WRONLY O_RDWR))) then mret 0
      else if negb (truthy size) then mret 0
      else
        f ← on_files (get_file (sf_file sf));
        let size := clamp f size in
        read ← on_files (vfs_write file_table drivers (sf_file sf) buffer (f_offset f) size);
        on_files (advance_offset (sf_file sf) size);;
        mret read
  end.

Definition tty0 : list Z := [47; 100; 101; 118; 47; 116; 116; 121; 48].

Definition syscall_execve (junk_entry : Z) (path : list Z) (argv env : option (list (list Z))) : KM (Z + Z) :=
  file ← on_vfs (vfs_open fs_table path);
  if negb (truthy file) then mret (inl (- ENOENT))
  else
    d ← either (can vfs_check_can_read file) (can vfs_check_can_exec file);
    close_file file;;
    if (d : bool) then mret (inl (- EACCES))
    else sched_run_program me fs_table file_table drivers junk_entry path argv env (Some tty0) (Some tty0) (Some tty0) 1.

Definition update_proc (f : proc_t -> proc_t) : KM unit :=
  ptr ← CURRENT_PROC_ptr me; p ← get_proc ptr; put_proc ptr (f p).

(** The address [syscall_mmap] chooses, or an error; the accounting of mapped bytes included. *)
Definition mmap_address (args : mmap_args) (needed_pages : Z) : KM (Z + Z) :=
  p ← CURRENT_PROC me;
  let mapped := u64 (mmaped_len p + needed_pages * PAGE_SIZE) in
  if MMAP_MAX_SIZE <? mapped then mret (inl (- EMFILE))
  else
    update_proc (fun p => with_mmap (mmap_top p) mapped p);;
    if truthy (Z.land (ma_flags args) MAP_FIXED) then
      if truthy (ma_addr args mod PAGE_SIZE) then mret (inl (- EINVAL)) else mret (inr (ma_addr args))
    else
      update_proc (fun p => with_mmap (u64 (mmap_top p + (needed_pages + 1) * PAGE_SIZE)) (mmaped_len p) p);;
      mret (inr (mmap_top p)).

Definition syscall_mmap (args : mmap_args) : KM Z :=
  p ← CURRENT_PROC me;
  bad ← (if -1 <? ma_fd args then
           if FDS_COUNT <=? ma_fd args then mret (- EBADF)
           else
             fd ← fd_entry p (ma_fd args);
             if negb (truthy fd) then mret (- EBADF)
             else
               sf ← get_sfile fd;
               mret (if negb (truthy (Z.land (sf_flags sf) (Z.lor O_RDONLY O_RDWR))) then - EACCES else 0)
         else mret 0);
  if truthy bad then mret bad
  else if negb (truthy (ma_length args)) then mret (- EINVAL)
  else if negb (truthy (Z.land (ma_flags args) MAP_SHARED)) && negb (truthy (Z.land (ma_flags args) MAP_PRIVATE))
  then mret (- EINVAL)
  else
    let needed_pages := ALIGN_UP (ma_length args) / PAGE_SIZE in
    r ← mmap_address args needed_pages;
    match r with
    | inl e => mret e
    | inr addr =>
        if truthy (Z.land (ma_flags args) MAP_ANON) then
          given_pages ← on_vmm (on_phys (pcalloc needed_pages));
          if negb (truthy given_pages) then mret (- ENOMEM)
          else
            on_vmm (vmm_mmap_range (p_pagemap p) given_pages addr (needed_pages * PAGE_SIZE)
              (s32 (ma_flags args)) (s32 (ma_prot args)));;
            mret addr
        else if ma_fd args <? 0 then mret (- EBADF)
        else
          fd ← fd_entry p (ma_fd args);
          sf ← get_sfile fd;
          if truthy (Z.land (ma_prot args) PROT_WRITE) && truthy (Z.land (ma_flags args) MAP_SHARED)
             && negb (truthy (Z.land (sf_flags sf) (Z.lor O_RDWR O_WRONLY))) then mret (- EACCES)
          else
            f ← on_files (get_file (sf_file sf));
            if ISFIFO f then mret (- ENODEV)
            else
              on_vmm (vmm_load_pagemap kernel_pagemap);;
              _ ← vfs_mmap (sf_file sf) (p_pagemap p) fd addr (ma_length args) (ma_offset args)
                    (s32 (ma_prot args)) (s32 (ma_flags args));
              on_vmm (vmm_load_pagemap (p_pagemap p));;
              mret addr
    end.

(** The index of the range that starts at an address. *)
Fixpoint range_index (rs : list mmap_range) (addr : Z) (i : nat) : option nat :=
  match rs with [] => None | r :: rs' => if r_virt_addr r =? addr then Some i else range_index rs' addr (S i) end.

(** The loop over [i = 0, 4096, ..]: its counter wraps to 0 when [length] is in the last page of
    the 64-bit range, and the loop never ends. *)
Definition unmap_pages (pm addr : Z) (pages : nat) : VM unit :=
  for_n pages 0 (fun j => vmm_unmap_page pm (u64 (addr + j * PAGE_SIZE))).

(** After [vec_remove] the array slot holds the next range, or, behind the new end, still the
    removed one: that is the range whose pages [syscall_munmap] frees.  The ranges are a list here,
    so what [vec_remove] moves beyond the array, because its [memmove] counts words
    ([vec_remove_spec] of Vec.v), is not part of this definition. *)
Definition syscall_munmap (addr length : Z) : KM Z :=
  p ← CURRENT_PROC me;
  m ← on_vmm (get_map (p_pagemap p));
  match range_index (ranges m) addr 0 with
  | None => mret 1
  | Some i =>
      removed ← of_option (ranges m !! i);
      let rest := delete i (ranges m) in
      on_vmm (put_map (p_pagemap p) (mk_pagemap (pm_lock m) (top_level m) rest));;
      (if 2 ^ 64 - PAGE_SIZE <? length then halt
       else on_vmm (unmap_pages (p_pagemap p) addr (Z.to_nat ((length + PAGE_SIZE - 1) / PAGE_SIZE))));;
      let slot := default removed (rest !! i) in
      (if truthy (Z.land (r_flags slot) MAP_ANON) then
         on_vmm (on_phys (pmm_free_pages (r_phys_addr slot) (r_length slot / PAGE_SIZE)))
       else mret tt);;
      mret 0
  end.

Definition syscall_stat (path : list Z) (stat : Z) : KM Z :=
  file ← on_vfs (vfs_open fs_table path);
  if negb (truthy file) then mret (- ENOENT)
  else
    d ← can vfs_check_can_read file;
    if (d : bool) then mret (- EACCES)
    else
      r ← on_files (vfs_fstat file);
      write_user (write_stat stat (snd r));;
      close_file file;;
      mret 0.

Definition syscall_fstat (id stat : Z) : KM Z :=
  o ← open_file id;
  match o with
  | None => mret (- EBADF)
  | Some (_, sf) =>
      d ← can vfs_check_can_read (sf_file sf);
      if (d : bool) then mret (- EACCES)
      else r ← on_files (vfs_fstat (sf_file sf)); write_user (write_stat stat (snd r));; mret 0
  end.

Definition syscall_getpid : KM Z := p ← CURRENT_PROC me; mret (pid p).
Definition syscall_getppid : KM Z :=
  p ← CURRENT_PROC me;
  if truthy (p_parent p) then q ← get_proc (p_parent p); mret (pid q) else mret (2 ^ 64 - 1).

Definition syscall_exit (code : Z) : KM Z := sched_exit me code;; halt.

Definition syscall_fork (regs : registers) : KM Z :=
  on_vmm (vmm_load_pagemap kernel_pagemap);;
  ret ← sched_fork me vm_mmap regs;
  p ← CURRENT_PROC me;
  on_vmm (vmm_load_pagemap (p_pagemap p));;
  mret ret.

Definition syscall_gettimeofday (time : Z) : KM unit :=
  t ← on_files current_time;
  write_user (fun m => st 8 time t (st 8 (time + 8) 0 m)).

Definition syscall_fsync (id : Z) : KM Z :=
  o ← open_file id;
  match o with
  | None => mret (- EBADF)
  | Some (_, sf) => f ← on_files (get_file (sf_file sf)); mret (if ISFIFO f then - EINVAL else 0)
  end.

Definition syscall_ioctl (fd cmd arg : Z) : KM Z :=
  o ← open_file fd;
  match o with
  | None => mret (- EBADF)
  | Some (_, sf) => on_files (vfs_ioctl file_table dev_ioctl (sf_file sf) cmd arg)
  end.

Definition syscall_seek (fd offset type : Z) : KM Z :=
  o ← open_file fd;
  match o with
  | None => mret (- EBADF)
  | Some (_, sf) =>
      f ← on_files (get_file (sf_file sf));
      let move (x : Z) : KM Z := on_files (put_file (sf_file sf) (with_offset x f));; mret x in
      if ISFIFO f then mret (- ESPIPE)
      else if type =? SEEK_END then move (u64 (f_length f + offset))
      else if type =? SEEK_CUR then
        if s64 (s64 (f_offset f) + offset) <? 0 then mret (- EINVAL) else move (u64 (f_offset f + offset))
      else if type =? SEEK_SET then
        if offset <? 0 then mret (- EINVAL) else move offset
      else mret (- EINVAL)
  end.

Definition syscall_waitpid (junk_child junk_event : Z) (rounds : list (list Z)) (want options : Z) : KM Z :=
  sched_waitpid me junk_child junk_event rounds want options.

Definition syscall_access (path : list Z) (mode : Z) : KM Z :=
  file ← on_vfs (vfs_open fs_table path);
  if negb (truthy file) then mret (- ENOENT)
  else if mode =? F_OK then close_file file;; mret 0
  else
    d ← either (deny (truthy (Z.land mode R_OK)) (can vfs_check_can_read file))
        (either (deny (truthy (Z.land mode W_OK)) (can vfs_check_can_write file))
           (deny (truthy (Z.land mode X_OK)) (can vfs_check_can_exec file)));
    close_file file;;
    mret (if (d : bool) then - EACCES else 0).

Definition unamed_fifo : list Z := [117; 110; 97; 109; 101; 100; 95; 102; 105; 102; 111].

Definition syscall_pipe (pipefd : Z) : KM Z :=
  t ← CURRENT_THREAD me;
  file ← on_vfs (vfs_mkfifo fs_table unamed_fifo 0x1ff (t_uid t) (t_gid t) 0);
  if negb (truthy file) then mret (-1)
  else
    sfile_r ← kalloc;
    put_sfile sfile_r (mk_sfile file O_RDONLY);;
    sfile_w ← kalloc;
    put_sfile sfile_w (mk_sfile file O_WRONLY);;
    f ← on_files (get_file file);
    on_files (put_file file (with_offset 0 f));;
    p ← CURRENT_PROC me;
    let i := free_fd (fds p) 0 in
    if i =? FDS_COUNT then
      close_file file;; free_sfile sfile_r;; free_sfile sfile_w;; mret (- EMFILE)
    else
      set_fd i sfile_r;;
      write_user (st 4 pipefd i);;
      p ← CURRENT_PROC me;
      let j := free_fd (fds p) 0 in
      if j =? FDS_COUNT then
        close_file file;; free_sfile sfile_r;; free_sfile sfile_w;; write_user (st 4 pipefd 0);; mret (- EMFILE)
      else
        set_fd j sfile_w;;
        write_user (st 4 (pipefd + 4) j);;
        mret 0.

Definition syscall_fcntl (fd cmd arg : Z) : KM Z :=
  o ← open_file fd;
  match o with
  | None => mret (- EBADF)
  | Some (_, sf) =>
      if cmd =? F_DUPFD then
        new_file ← kalloc;
        put_sfile new_file sf;;
        f ← on_files (get_file (sf_file sf));
        on_files (put_file (sf_file sf) (with_ref_count (s32 (ref_count f + 1)) f));;
        p ← CURRENT_PROC me;
        let i := if u64 arg <? FDS_COUNT then free_fd (drop (Z.to_nat arg) (fds p)) arg else u64 arg in
        (if i <? FDS_COUNT then set_fd i new_file else mret tt);;
        mret (s32 i)
      else mret (- EINVAL)
  end.

Definition syscall_remove (path : list Z) : KM Z :=
  file ← on_vfs (vfs_open fs_table path);
  if negb (truthy file) then mret (- ENOENT)
  else
    d ← can vfs_check_can_write file;
    if (d : bool) then close_file file;; mret (- EACCES)
    else
      f ← on_files (get_file file);
      if S_ISDIR (f_mode f) then on_files (vfs_rmdir file_table file) else on_files (vfs_delete file_table file).

(** ** The dispatcher *)

(** The string at a user address; the bound is one page. *)
Fixpoint cstr (fuel : nat) (m : mem) (a : Z) : option (list Z) :=
  match fuel with
  | O => None
  | S n => if u8 (m a) =? 0 then Some [] else t ← cstr n m (a + 1); Some (u8 (m a) :: t)
  end.
Definition user_string (a : Z) : KM (list Z) :=
  m ← user_mem; match cstr 4096 m a with Some t => mret t | None => out_of_fuel end.

(** A NULL-terminated array of strings, or NULL. *)
Fixpoint cstrs (fuel : nat) (m : mem) (a : Z) : option (list (list Z)) :=
  match fuel with
  | O => None
  | S n =>
      let p := ld 8 m a in
      if p =? 0 then Some [] else x ← cstr 4096 m p; r ← cstrs n m (a + 8); Some (x :: r)
  end.
Definition user_strings (a : Z) : KM (option (list (list Z))) :=
  if a =? 0 then mret None
  else m ← user_mem; match cstrs 512 m a with Some l => mret (Some l) | None => out_of_fuel end.

Definition return_value (o : KM Z) : KM (Z + Z) := r ← o; mret (inl (u64 r)).

Context (junk_entry junk_child junk_event : Z) (rounds : list (list Z)).

(** [inl ret] goes back to the caller, [inr t] continues with thread [t] (exec). *)
Definition c_syscall_handler (rs : registers) : KM (Z + Z) :=
  let call := rs RDI in let a := rs RSI in let b := rs RDX in let c := rs RCX in
  if call =? 0 then path ← user_string a; return_value (syscall_open path (s32 b) (s32 c))
  else if call =? 1 then return_value (syscall_close a)
  else if call =? 2 then return_value (syscall_read a b c)
  else if call =? 3 then return_value (syscall_write a b c)
  else if call =? 4 then
    path ← user_string a; argv ← user_strings b; env ← user_strings c;
    r ← syscall_execve junk_entry path argv env;
    mret (match r with inl e => inl (u64 e) | inr t => inr t end)
  else if call =? 5 then m ← user_mem; return_value (syscall_mmap (read_mmap_args m a))
  else if call =? 6 then return_value (syscall_munmap a b)
  else if call =? 7 then path ← user_string a; return_value (syscall_stat path b)
  else if call =? 8 then return_value (syscall_fstat a b)
  else if call =? 9 then return_value syscall_getpid
  else if call =? 10 then return_value (syscall_exit (s32 a))
  else if call =? 11 then return_value (syscall_fork rs)
  else if call =? 12 then syscall_gettimeofday a;; mret (inl (rs RAX))
  else if call =? 13 then _ ← syscall_fsync a; mret (inl (rs RAX))
  else if call =? 14 then return_value (syscall_ioctl a b c)
  else if call =? 15 then return_value syscall_getppid
  else if call =? 16 then return_value (syscall_seek a (s64 b) (s32 c))
  else if call =? 17 then return_value (syscall_waitpid junk_child junk_event rounds (s64 a) (s32 c))
  else if call =? 18 then path ← user_string a; return_value (syscall_access path (s32 b))
  else if call =? 19 then return_value (syscall_pipe a)
  else if call =? 20 then return_value (syscall_fcntl (s32 a) (s32 b) (s32 c))
  else if call =? 21 then path ← user_string a; return_value (syscall_remove path)
  else mret (inl (2 ^ 64 - 1)).
End Syscall.

(** ** Descriptors *)

Lemma on_files_run {A} (o : FM A) s a f :
  o (v_fs (k_vfs s)) = Done (a, f) -> on_files o s = Done (a, set_k_vfs (set_fs f (k_vfs s)) s).
Proof. intros E. unfold on_files, on_vfs, on, on_fs. by rewrite E. Qed.

Lemma on_files_pure {A} (o : FM A) s a :
  o (v_fs (k_vfs s)) = Done (a, v_fs (k_vfs s)) -> on_files o s = Done (a, s).
Proof. intros E. rewrite (on_files_run o s a _ E). destruct s as [? []]; done. Qed.

(** The thread and process that CPU [me] runs. *)
Record running (me : nat) (s : kstate) (t : thread_t) (ptr : Z) (p : proc_t) : Prop := mk_running {
  run_cpu : exists c, k_cpus s !! me = Some c /\ k_threads s !! current_thread c = Some t;
  run_parent : t_parent t = ptr;
  run_proc : k_procs s !! ptr = Some p
}.

Lemma running_thread me s t ptr p : running me s t ptr p -> CURRENT_THREAD me s = Done (t, s).
Proof.
  intros [(c & Hc & Ht) _ _]. unfold CURRENT_THREAD, get_locals, get_thread, mbind, M_bind. rewrite Hc. simpl. by rewrite Ht.
Qed.
Lemma running_ptr me s t ptr p : running me s t ptr p -> CURRENT_PROC_ptr me s = Done (ptr, s).
Proof.
  intros H. unfold CURRENT_PROC_ptr. rewrite (bind_run _ _ _ _ _ (running_thread _ _ _ _ _ H)).
  by rewrite (run_parent _ _ _ _ _ H).
Qed.
Lemma running_proc me s t ptr p : running me s t ptr p -> CURRENT_PROC me s = Done (p, s).
Proof.
  intros H. unfold CURRENT_PROC. rewrite (bind_run _ _ _ _ _ (running_ptr _ _ _ _ _ H)).
  unfold get_proc. by rewrite (run_proc _ _ _ _ _ H).
Qed.

(** [free_fd] is the lowest free index. *)
Lemma free_fd_spec l i :
  i <= free_fd l i <= i + Z.of_nat (length l) /\
  (forall k, (k < Z.to_nat (free_fd l i - i))%nat -> exists fd, l !! k = Some fd /\ fd <> 0) /\
  (free_fd l i < i + Z.of_nat (length l) -> l !! Z.to_nat (free_fd l i - i) = Some 0).
Proof.
  revert i. induction l as [|fd l IH]; intros i; simpl.
  - split; [lia|]. split; [lia|]. lia.
  - destruct (Z.eqb_spec fd 0) as [->|Hne].
    + split; [lia|]. split; [lia|]. intros _. by replace (Z.to_nat (i - i)) with 0%nat by lia.
    + destruct (IH (i + 1)) as (Hb & Hlow & Hfree). set (j := free_fd l (i + 1)) in *. split; [lia|].
      assert (E : Z.to_nat (j - i) = S (Z.to_nat (j - (i + 1)))) by lia. split.
      * intros [|k] Hk; [by exists fd|]. apply Hlow. lia.
      * intros Hlt. rewrite E. apply Hfree. lia.
Qed.

(** The process table has 128 descriptors. *)
Definition fds_ok (p : proc_t) : Prop := length (fds p) = 128%nat.

Section Install.
Context (me : nat) (file_table : Z -> option file_ops).

(** The state in which the descriptor of an opened file is chosen. *)
Definition installing (s : kstate) (file flags : Z) (f : fs_file) : kstate :=
  set_k_vfs (set_fs (set_files (<[file := with_offset 0 f]> (files (v_fs (k_vfs s)))) (v_fs (k_vfs s))) (k_vfs s))
    (set_k_sfiles (<[k_next s := mk_sfile file flags]> (k_sfiles s)) (set_k_next (k_next s + 1) s)).

Lemma running_installing s t ptr p file flags f :
  running me (installing s file flags f) t ptr p <-> running me s t ptr p.
Proof. split; intros []; by constructor. Qed.

Lemma set_fd_run s t ptr p i fd :
  running me s t ptr p ->
  set_fd me i fd s = Done (tt, set_k_procs (<[ptr := with_fds (<[Z.to_nat i := fd]> (fds p)) p]> (k_procs s)) s).
Proof.
  intros Hrun. unfold set_fd. rewrite (bind_run _ _ _ _ _ (running_ptr _ _ _ _ _ Hrun)).
  by rewrite (bind_run (get_proc ptr) _ s p s) by (unfold get_proc; by rewrite (run_proc _ _ _ _ _ Hrun)).
Qed.

Lemma install_run s t ptr p file flags f :
  running me s t ptr p -> files (v_fs (k_vfs s)) !! file = Some f ->
  let i := free_fd (fds p) 0 in let s2 := installing s file flags f in
  install_file me file_table file flags s =
    if i =? FDS_COUNT then (close_file file_table file;; free_sfile (k_next s);; mret (- EMFILE)) s2
    else Done (i, set_k_procs (<[ptr := with_fds (<[Z.to_nat i := k_next s]> (fds p)) p]> (k_procs s2)) s2).
Proof.
  intros Hrun Hf i s2. assert (Hrun2 : running me s2 t ptr p) by (by apply running_installing).
  set (s1 := set_k_sfiles (<[k_next s := mk_sfile file flags]> (k_sfiles s)) (set_k_next (k_next s + 1) s)).
  unfold install_file. rewrite (bind_run kalloc _ s (k_next s) (set_k_next (k_next s + 1) s)) by done.
  rewrite (bind_run (put_sfile _ _) _ _ tt s1) by done.
  rewrite (bind_run _ _ s1 f s1) by (apply on_files_pure; unfold get_file; simpl; by rewrite Hf).
  rewrite (bind_run _ _ s1 tt s2) by (exact (on_files_run (put_file file (with_offset 0 f)) s1 tt _ eq_refl)).
  rewrite (bind_run _ _ _ _ _ (running_proc _ _ _ _ _ Hrun2)). fold i. destruct (i =? FDS_COUNT); [done|].
  by rewrite (bind_run _ _ _ _ _ (set_fd_run s2 t ptr p i (k_next s) Hrun2)).
Qed.

(** Closing a file touches nothing but the file systems. *)
Lemma close_file_inv file s u s' :
  close_file file_table file s = Done (u, s') -> exists x, s' = set_k_vfs x s.
Proof.
  unfold close_file. intros E. inv_bind E. injection Hk as _ <-. unfold on_files, on_vfs, on in Hm.
  destruct (on_fs _ _) as [[x y]| | |]; [|done|done|done]. injection Hm as _ <-. by exists y.
Qed.

(** C32: a new descriptor is the lowest free one: for a file that exists, the end of
    [syscall_open] rewinds the file and returns the least index whose slot is empty, points
    that slot at a new open-file object with the given flags and changes no other slot; with
    a full table it returns -EMFILE, or faults in closing the file, and changes no slot. *)
Theorem install_lowest_fd s t ptr p file flags f :
  running me s t ptr p -> fds_ok p -> files (v_fs (k_vfs s)) !! file = Some f ->
  let i := free_fd (fds p) 0 in
  (i < 128 -> exists s', install_file me file_table file flags s = Done (i, s') /\
     k_sfiles s' !! k_next s = Some (mk_sfile file flags) /\
     k_procs s' !! ptr = Some (with_fds (<[Z.to_nat i := k_next s]> (fds p)) p) /\
     (forall k, (k < Z.to_nat i)%nat -> exists fd, fds p !! k = Some fd /\ fd <> 0) /\
     fds p !! Z.to_nat i = Some 0 /\
     files (v_fs (k_vfs s')) = <[file := with_offset 0 f]> (files (v_fs (k_vfs s)))) /\
  (i = 128 -> forall r s', install_file me file_table file flags s = Done (r, s') ->
     r = - EMFILE /\ k_procs s' = k_procs s /\ k_sfiles s' !! k_next s = None).
Proof.
  intros Hrun Hfds Hf i. destruct (free_fd_spec (fds p) 0) as (Hb & Hlow & Hfree). fold i in Hb, Hlow, Hfree.
  unfold fds_ok in Hfds. rewrite Z.sub_0_r in Hlow, Hfree.
  pose proof (install_run s t ptr p file flags f Hrun Hf) as E. cbv zeta in E. fold i in E. unfold FDS_COUNT in E.
  split.
  - intros Hi. rewrite (proj2 (Z.eqb_neq i 128)) in E by lia. eexists. split; [exact E|]. simpl.
    rewrite !lookup_insert_eq. split_and!; try done. apply Hfree. lia.
  - intros Hi r s' Hr. rewrite E, Hi in Hr. simpl in Hr. inv_bind Hr. apply close_file_inv in Hm as (x & ->).
    inv_bind Hk. injection Hm as _ <-. injection Hk0 as <- <-. split; [done|]. split; [done|]. simpl. apply lookup_delete_eq.
Qed.
End Install.

(** ** Reading and writing through descriptors *)

(** Descriptor [id] of the running process is open on the file at [file]. *)
Record open_on (me : nat) (s : kstate) (id fd : Z) (sf : syscall_file) (f : fs_file) : Prop := mk_open_on {
  on_running : exists t ptr p, running me s t ptr p /\ fds_ok p /\ 0 <= id < 128 /\ fds p !! Z.to_nat id = Some fd;
  on_fd : fd <> 0;
  on_sfile : k_sfiles s !! fd = Some sf;
  on_file : files (v_fs (k_vfs s)) !! sf_file sf = Some f
}.

Lemma open_file_run me s id fd sf :
  (exists t ptr p, running me s t ptr p /\ fds_ok p /\ 0 <= id < 128 /\ fds p !! Z.to_nat id = Some fd) ->
  fd <> 0 -> k_sfiles s !! fd = Some sf -> open_file me id s = Done (Some (fd, sf), s).
Proof.
  intros (t & ptr & p & Hrun & Hok & Hid & Hfd) Hne Hsf. unfold open_file.
  rewrite (bind_run _ _ _ _ _ (running_proc _ _ _ _ _ Hrun)). unfold fd_entry, FDS_COUNT.
  rewrite (proj2 (Z.leb_le 0 id)), (proj2 (Z.ltb_lt id 128)) by lia. cbn [andb]. rewrite Hfd.
  rewrite (bind_run (of_option (Some fd)) _ s fd s) by done. unfold truthy. rewrite (proj2 (Z.eqb_neq fd 0)) by done.
  cbn [negb]. unfold get_sfile, mbind, M_bind. by rewrite Hsf.
Qed.

Lemma get_file_run s p f : files s !! p = Some f -> get_file p s = Done (f, s).
Proof. intros E. unfold get_file. by rewrite E. Qed.

Section ReadWrite.
Context (me : nat) (file_table : Z -> option file_ops) (drivers : Z -> DriverOps) `{Env}.

(** [syscall_write] can never extend a file: on a regular tmpfs file open for writing, it
    writes at most up to the end of the file, so the length stays what it was and a write at the end
    of a file, in particular to a file just created, stores nothing. *)
Theorem syscall_write_never_extends s id fd sf f buffer size :
  open_on me s id fd sf f -> truthy (Z.land (sf_flags sf) (Z.lor O_WRONLY O_RDWR)) = true ->
  file_table (f_ops f) = Some tmpfs_file_table -> ISDEV f = false -> ISFIFO f = false ->
  regular_ok f -> 0 <= f_offset f <= f_length f -> 0 < size -> f_length f + size < 2 ^ 63 ->
  let n := Z.min size (f_length f - f_offset f) in
  exists s' f', syscall_write me file_table drivers id buffer size s = Done (n, s') /\
    files (v_fs (k_vfs s')) !! sf_file sf = Some f' /\ f_length f' = f_length f /\ f_offset f' = f_offset f + n /\
    (n = 0 -> file_bytes f' = file_bytes f).
Proof.
  intros [Hrun Hne Hsf Hf] Hflags Htab Hdev Hfifo Hreg Hoff Hsize Hbig n. pose proof Hreg as [Hk Hl Hs].
  unfold syscall_write. rewrite (bind_run _ _ _ _ _ (open_file_run me s id fd sf Hrun Hne Hsf)). rewrite Hflags.
  unfold truthy. rewrite (proj2 (Z.eqb_neq size 0)) by lia. cbn [negb].
  rewrite (bind_run _ _ s f s) by (by apply on_files_pure, get_file_run).
  assert (Hn : clamp f size = n).
  { unfold clamp. rewrite Hdev, Hfifo. cbn [negb]. rewrite !andb_true_r. rewrite u64_small by lia.
    subst n. zcase; [rewrite u64_small|]; lia. }
  rewrite Hn. set (fs0 := v_fs (k_vfs s)) in *.
  assert (Hw : exists f1, vfs_write file_table drivers (sf_file sf) buffer (f_offset f) n fs0 =
    Done (n, set_files (<[sf_file sf := f1]> (files fs0)) fs0) /\ f_length f1 = f_length f /\ f_offset f1 = f_offset f /\
    (n = 0 -> file_bytes f1 = file_bytes f)).
  { unfold vfs_write. rewrite (bind_run _ _ _ _ _ (get_file_run fs0 (sf_file sf) f Hf)). rewrite Hfifo, Hdev.
    unfold get_ops. rewrite Htab. rewrite (bind_run (of_option (Some _)) _ fs0 tmpfs_file_table fs0) by done.
    cbn [op_write tmpfs_file_table]. destruct (Z.eq_dec n 0) as [E0|E0].
    - exists f. rewrite E0. split; [|done]. unfold tmpfs_write. rewrite (bind_run _ _ _ _ _ (get_file_run fs0 _ f Hf)).
      rewrite Z.add_0_l, u64_small by lia. rewrite (proj2 (Z.ltb_ge _ _)) by lia.
      rewrite (bind_run (mret f) _ fs0 f fs0) by done. done.
    - destruct (file_write_run fs0 (sf_file sf) f buffer (f_offset f) n Hf Hreg) as (f1 & E & Ho & _ & HL & _); [lia|lia|lia|].
      exists f1. split; [done|]. split; [lia|]. split; [done|]. intros; lia. }
  destruct Hw as (f1 & Hw & HL & Ho & Hb). set (fs1 := set_files (<[sf_file sf := f1]> (files fs0)) fs0) in *.
  rewrite (bind_run _ _ s n _ (on_files_run _ s n fs1 Hw)). set (s1 := set_k_vfs (set_fs fs1 (k_vfs s)) s).
  set (f2 := with_offset (u64 (f_offset f1 + n)) f1).
  assert (Ha : advance_offset (sf_file sf) n fs1 = Done (tt, set_files (<[sf_file sf := f2]> (files fs1)) fs1)).
  { unfold advance_offset. rewrite (bind_run _ _ _ _ _ (get_file_run fs1 (sf_file sf) f1 (lookup_insert_eq _ _ _))). done. }
  rewrite (bind_run _ _ s1 tt _ (on_files_run _ s1 tt _ Ha)).
  eexists _, f2. split; [done|]. split; [apply lookup_insert_eq|]. split; [done|].
  split; [|done]. unfold f2. simpl. rewrite Ho, u64_small; lia.
Qed.
End ReadWrite.

(** ** Permissions of [open] *)

(** The permission tests of the file-system layer differ only in the mode bits. *)
Definition check_bits (u g o : Z) (file uid gid : Z) : FM Z :=
  if negb (truthy uid) then mret 0
  else f ← get_file file; mret (if negb (may uid gid f u g o) then 1 else 0).

(** Thread [t] may open file [f] with [flags]: it is root, or every requested access has its bit. *)
Definition permitted (t : thread_t) (f : fs_file) (flags : Z) : Prop :=
  t_uid t = 0 \/
  let ok u g o := may (t_uid t) (t_gid t) f u g o = true in
  (Z.land flags O_RDONLY <> 0 -> ok S_IRUSR S_IRGRP S_IROTH) /\
  (Z.land flags O_WRONLY <> 0 -> ok S_IWUSR S_IWGRP S_IWOTH) /\
  (Z.land flags O_RDWR <> 0 -> ok S_IRUSR S_IRGRP S_IROTH /\ ok S_IWUSR S_IWGRP S_IWOTH) /\
  (Z.land flags O_EXEC <> 0 -> ok S_IXUSR S_IXGRP S_IXOTH).

(** The test passed: the thread is root or the bits of the file allow it. *)
Definition passes (me : nat) (file u g o : Z) (s : kstate) : Prop :=
  exists t, CURRENT_THREAD me s = Done (t, s) /\
    (t_uid t = 0 \/ exists f, files (v_fs (k_vfs s)) !! file = Some f /\ may (t_uid t) (t_gid t) f u g o = true).

Lemma current_thread_inv me s t s' : CURRENT_THREAD me s = Done (t, s') -> s' = s.
Proof.
  intros E. unfold CURRENT_THREAD in E. inv_bind E. unfold get_locals in Hm.
  destruct (k_cpus s !! me); [|done]. injection Hm as <- <-. unfold get_thread in Hk.
  destruct (k_threads s !! _); [|done]. by injection Hk as <- <-.
Qed.

Lemma can_inv me u g o file s b s' :
  can me (check_bits u g o) file s = Done (b, s') -> s' = s /\ (b = false -> passes me file u g o s).
Proof.
  intros E. unfold can in E. inv_bind E. pose proof (current_thread_inv _ _ _ _ Hm) as ->. inv_bind Hk. injection Hk0 as <- <-.
  unfold on_files, on_vfs, on, on_fs, check_bits in Hm0. destruct (Z.eq_dec (t_uid a) 0) as [E0|E0].
  - rewrite E0 in Hm0. simpl in Hm0. injection Hm0 as <- <-. split; [by destruct s as [? []]|]. intros _. exists a. auto.
  - unfold truthy in Hm0. rewrite (proj2 (Z.eqb_neq _ 0) E0) in Hm0. cbn [negb] in Hm0.
    unfold get_file, mbind, M_bind in Hm0. destruct (files _ !! file) as [f|] eqn:Ef; [|done]. simpl in Hm0.
    injection Hm0 as <- <-. split; [by destruct s as [? []]|]. intros Hb. exists a. split; [done|]. right. exists f.
    split; [done|]. by destruct (may _ _ _ _ _ _).
Qed.

Lemma either_inv a b s s' :
  either a b s = Done (false, s') -> exists s1, a s = Done (false, s1) /\ b s1 = Done (false, s').
Proof. unfold either. intros E. inv_bind E. destruct a0; [done|]. eauto. Qed.

Lemma deny_inv (me : nat) flag u g o file s s' :
  deny flag (can me (check_bits u g o) file) s = Done (false, s') -> s' = s /\ (flag = true -> passes me file u g o s).
Proof.
  unfold deny. destruct flag; [|intros E; by injection E as <-].
  intros [-> H]%can_inv. split; [done|]. intros _. by apply H.
Qed.

Lemma open_denied_inv me file flags s s' :
  open_denied me file flags s = Done (false, s') ->
  s' = s /\ (forall t f, CURRENT_THREAD me s = Done (t, s) -> files (v_fs (k_vfs s)) !! file = Some f -> permitted t f flags).
Proof.
  intros (s1 & (s2 & [-> Hr]%(deny_inv _ _ S_IRUSR S_IRGRP S_IROTH) &
    (s3 & [-> Hw]%(deny_inv _ _ S_IWUSR S_IWGRP S_IWOTH) & Hrw)%either_inv)%either_inv & Hx)%either_inv.
  assert (Hrw' : s1 = s /\ (truthy (Z.land flags O_RDWR) = true -> passes me file S_IRUSR S_IRGRP S_IROTH s /\
    passes me file S_IWUSR S_IWGRP S_IWOTH s)).
  { unfold deny in Hrw. destruct (truthy (Z.land flags O_RDWR)); [|by injection Hrw as <-].
    apply either_inv in Hrw as (s4 & [-> H1]%(can_inv _ S_IRUSR S_IRGRP S_IROTH) & [-> H2]%(can_inv _ S_IWUSR S_IWGRP S_IWOTH)).
    auto. }
  destruct Hrw' as [-> Hrw']. apply (deny_inv _ _ S_IXUSR S_IXGRP S_IXOTH) in Hx as [-> Hx]. split; [done|].
  intros t f Ht Hf. unfold permitted. destruct (Z.eq_dec (t_uid t) 0) as [?|E0]; [by left|right].
  assert (Hp : forall u g o, passes me file u g o s -> may (t_uid t) (t_gid t) f u g o = true).
  { intros u g o (t' & Ht' & H'). rewrite Ht in Ht'. injection Ht' as <-. destruct H' as [|(f' & Hf' & ?)]; [done|]. congruence. }
  assert (Htr : forall x, x <> 0 -> truthy x = true) by (intros x Hx0; unfold truthy; by rewrite (proj2 (Z.eqb_neq x 0))).
  split; [intros; by apply Hp, Hr, Htr|]. split; [intros; by apply Hp, Hw, Htr|].
  split; [|intros; by apply Hp, Hx, Htr]. intros Hn. destruct (Hrw' (Htr _ Hn)). auto.
Qed.

Lemma current_proc_inv me s p s' : CURRENT_PROC me s = Done (p, s') -> s' = s /\ exists t ptr, running me s t ptr p.
Proof.
  intros E. unfold CURRENT_PROC in E. inv_bind E. unfold CURRENT_PROC_ptr in Hm. inv_bind Hm. injection Hk0 as <- <-.
  pose proof (current_thread_inv _ _ _ _ Hm0) as ->. unfold get_proc in Hk.
  destruct (k_procs s !! t_parent a0) eqn:Ep; [|done]. injection Hk as <- <-. split; [done|]. exists a0, (t_parent a0).
  unfold CURRENT_THREAD in Hm0. inv_bind Hm0. unfold get_locals in Hm. destruct (k_cpus s !! me) as [c|] eqn:Ec; [|done].
  injection Hm as <- <-. unfold get_thread in Hk. destruct (k_threads s !! _) eqn:Et; [|done]. injection Hk as <-.
  constructor; eauto.
Qed.

(** What a returning end of [open] needs. *)
Lemma install_inv me file_table file flags s r s' :
  install_file me file_table file flags s = Done (r, s') ->
  exists f t ptr p, files (v_fs (k_vfs s)) !! file = Some f /\ running me s t ptr p.
Proof.
  intros E. unfold install_file in E. inv_bind E. unfold kalloc in Hm. injection Hm as <- <-.
  inv_bind Hk. injection Hm as <- <-. inv_bind Hk0. unfold on_files, on_vfs, on, on_fs, get_file in Hm. simpl in Hm.
  destruct (files _ !! file) as [f|] eqn:Ef; [|done]. simpl in Hm. injection Hm as <- <-. inv_bind Hk.
  injection Hm as <- <-. inv_bind Hk0. apply current_proc_inv in Hm as (-> & t & ptr & [(c & Hc & Ht) Hp Hpr]).
  exists f, t, ptr, a. split; [done|]. constructor; [by exists c|done|done].
Qed.

Section Open.
Context (me : nat) (fs_table : Z -> option fs_ops) (file_table : Z -> option file_ops).

(** [open] that returns a descriptor: the permission test passed on the file it installs. *)
Lemma open_granted path flags mode s r s' :
  syscall_open me fs_table file_table path flags mode s = Done (r, s') -> 0 <= r ->
  exists file s1, open_denied me file flags s1 = Done (false, s1) /\ install_file me file_table file flags s1 = Done (r, s').
Proof.
  intros E Hr. unfold syscall_open in E. inv_bind E. clear Hm. inv_bind Hk.
  destruct a0 as [e|file]; [exfalso; injection Hk0 as <- <-|].
  - destruct (truthy a); [done|]. destruct (negb _); [injection Hm as <- <-; done|]. inv_bind Hm.
    destruct (negb _); [injection Hk as <- <-; done|]. inv_bind Hk. destruct a1; [injection Hk0 as <- <-; done|].
    inv_bind Hk0. inv_bind Hk. inv_bind Hk0. done.
  - clear Hm. inv_bind Hk0. destruct a0; [by injection Hk as <- <-|]. pose proof (open_denied_inv _ _ _ _ _ Hm) as [-> _]. eauto.
Qed.

(** C11: [open] respects permissions: whenever it returns a descriptor (for an existing file or
    one it has just created), that slot of the process holds a new open-file object with the
    requested flags, and the calling thread is root or the file's mode bits grant it, for its
    uid, its gid or others, every access the flags ask for. *)
Theorem open_permission path flags mode s r s' :
  syscall_open me fs_table file_table path flags mode s = Done (r, s') -> 0 <= r ->
  exists t ptr p fd sf f, running me s' t ptr p /\ (r < Z.of_nat (length (fds p)) -> fds p !! Z.to_nat r = Some fd) /\
    k_sfiles s' !! fd = Some sf /\ sf_flags sf = flags /\
    files (v_fs (k_vfs s')) !! sf_file sf = Some f /\ permitted t f flags.
Proof.
  intros E Hr. destruct (open_granted _ _ _ _ _ _ E Hr) as (file & s1 & Hd & Hi). clear E.
  destruct (install_inv _ _ _ _ _ _ _ Hi) as (f & t & ptr & p & Hf & Hrun).
  destruct (open_denied_inv _ _ _ _ _ Hd) as [_ Hok]. specialize (Hok t f (running_thread _ _ _ _ _ Hrun) Hf).
  rewrite (install_run me file_table s1 t ptr p file flags f Hrun Hf) in Hi.
  destruct (Z.eqb_spec (free_fd (fds p) 0) FDS_COUNT) as [_|Hne].
  { inv_bind Hi. inv_bind Hk. injection Hk0 as <- <-. done. }
  injection Hi as <- <-. set (i := free_fd (fds p) 0) in *.
  exists t, ptr, (with_fds (<[Z.to_nat i := k_next s1]> (fds p)) p), (k_next s1), (mk_sfile file flags), (with_offset 0 f).
  split; [|split].
  - destruct Hrun as [(c & Hc & Ht) Hp Hpr]. constructor; [by exists c|done|]. simpl. apply lookup_insert_eq.
  - simpl. rewrite length_insert. intros Hlt. apply list_lookup_insert_eq. lia.
  - simpl. rewrite !lookup_insert_eq. done.
Qed.
End Open.

(** ** Unmapping *)

Lemma unmap_page_ranges pm va v u v' m :
  v_maps v !! pm = Some m -> vmm_unmap_page pm va v = Done (u, v') ->
  exists m', v_maps v' !! pm = Some m' /\ ranges m' = ranges m.
Proof.
  intros Hm E. unfold vmm_unmap_page, LOCK_map, UNLOCK_map in E. inv_bind E. inv_bind Hm0.
  unfold get_map in Hm1. rewrite Hm in Hm1. injection Hm1 as <- <-. destruct (pm_lock m); [done|]. injection Hk0 as <- <-.
  inv_bind Hk. unfold get_map in Hm0. simpl in Hm0. rewrite lookup_insert_eq in Hm0. injection Hm0 as <- <-.
  inv_bind Hk0. apply on_phys_maps in Hm0. inv_bind Hk. apply on_phys_maps in Hm1. inv_bind Hk0.
  assert (E2 : v_maps s1 = v_maps s0).
  { unfold vmm_invalidate_tlb in Hm2. inv_bind Hm2. unfold get_map in Hm3. destruct (v_maps s0 !! pm); [|done].
    injection Hm3 as <- <-. unfold modify in Hk0. destruct (_ =? _) in Hk0; by simplify_eq/=. }
  inv_bind Hk. unfold get_map in Hm3. rewrite E2, Hm1, Hm0 in Hm3. simpl in Hm3. rewrite lookup_insert_eq in Hm3.
  injection Hm3 as <- <-. injection Hk0 as _ <-. simpl. rewrite lookup_insert_eq. by eexists.
Qed.

Lemma unmap_pages_ranges pm addr n v u v' m :
  v_maps v !! pm = Some m -> unmap_pages pm addr n v = Done (u, v') ->
  exists m', v_maps v' !! pm = Some m' /\ ranges m' = ranges m.
Proof.
  unfold unmap_pages. generalize 0. revert v m. induction n as [|n IH]; intros v m j Hm E; simpl in E.
  - injection E as _ <-. eauto.
  - inv_bind E. destruct (unmap_page_ranges _ _ _ _ _ _ Hm Hm0) as (m1 & Hm1 & E1).
    destruct (IH s m1 (j + 1) Hm1 Hk) as (m2 & Hm2 & E2). exists m2. split; [done|congruence].
Qed.

(** [munmap] frees the wrong frames: unmapping the range at [addr], when another range of
    anonymous memory follows it in the process's list, gives the frames of that other range back
    to the physical allocator, while the range stays in the address space; the frames of the
    unmapped range are not freed. *)
Theorem munmap_frees_next me s t ptr p m addr length i next r s' :
  running me s t ptr p -> v_maps (k_vmm s) !! p_pagemap p = Some m ->
  range_index (ranges m) addr 0 = Some i -> ranges m !! S i = Some next -> truthy (Z.land (r_flags next) MAP_ANON) = true ->
  syscall_munmap me addr length s = Done (r, s') ->
  exists before m', pmm_free_pages (r_phys_addr next) (r_length next / PAGE_SIZE) before = Done (tt, v_pmm (k_vmm s')) /\
    v_maps (k_vmm s') !! p_pagemap p = Some m' /\ ranges m' = delete i (ranges m) /\ next ∈ ranges m'.
Proof.
  intros Hrun Hm Hi Hn Ha E. unfold syscall_munmap in E.
  rewrite (bind_run _ _ _ _ _ (running_proc _ _ _ _ _ Hrun)) in E. inv_bind E.
  unfold on_vmm, on, get_map in Hm0. rewrite Hm in Hm0. injection Hm0 as <- <-. rewrite Hi in Hk. inv_bind Hk.
  destruct (ranges m !! i) as [removed|] eqn:Er; [|done]. injection Hm0 as <- <-. inv_bind Hk0. injection Hm0 as <- <-.
  inv_bind Hk. destruct (_ <? length); [done|]. unfold on_vmm, on in Hm0.
  destruct (unmap_pages _ _ _ _) as [[x v1]| | |] eqn:Eu; [|done|done|done]. injection Hm0 as <- <-.
  destruct (unmap_pages_ranges _ _ _ _ _ _ (mk_pagemap (pm_lock m) (top_level m) (delete i (ranges m)))
    (lookup_insert_eq _ _ _) Eu) as (m' & Hm' & Er').
  simpl in Er'. assert (Hnext : delete i (ranges m) !! i = Some next) by (rewrite list_lookup_delete_ge by lia; done).
  rewrite Hnext in Hk0. cbn [default from_option id] in Hk0. rewrite Ha in Hk0. inv_bind Hk0. injection Hk as <- <-.
  unfold on_vmm, on in Hm0. simpl k_vmm in Hm0. unfold on_phys in Hm0.
  destruct (pmm_free_pages _ _ _) as [[[] ph]| | |] eqn:Ef; [|done|done|done]. injection Hm0 as <- <-. simpl.
  exists (v_pmm v1), m'. split; [done|]. split; [done|]. split; [done|]. rewrite Er'. by apply list_elem_of_lookup_2 with i.
Qed.

(** ** The two ends of a pipe *)

Lemma close_file_run file_table file s fs1 :
  vfs_close file_table file (v_fs (k_vfs s)) = Done (0, fs1) ->
  close_file file_table file s = Done (tt, set_k_vfs (set_fs fs1 (k_vfs s)) s).
Proof. intros E. unfold close_file. by rewrite (bind_run _ _ _ _ _ (on_files_run _ s 0 fs1 E)). Qed.

Lemma syscall_close_run me file_table s t ptr p id fd sf fs1 :
  running me s t ptr p -> fds_ok p -> 0 <= id < 128 -> fds p !! Z.to_nat id = Some fd -> fd <> 0 ->
  k_sfiles s !! fd = Some sf -> vfs_close file_table (sf_file sf) (v_fs (k_vfs s)) = Done (0, fs1) ->
  syscall_close me file_table id s =
    Done (0, set_k_procs (<[ptr := with_fds (<[Z.to_nat id := 0]> (fds p)) p]> (k_procs s))
      (set_k_sfiles (delete fd (k_sfiles s)) (set_k_vfs (set_fs fs1 (k_vfs s)) s))).
Proof.
  intros Hrun Hok Hid Hfd Hne Hsf Hc. unfold syscall_close.
  rewrite (bind_run _ _ _ _ _ (open_file_run me s id fd sf ltac:(by exists t, ptr, p) Hne Hsf)).
  rewrite (bind_run _ _ _ _ _ (close_file_run _ _ _ _ Hc)).
  set (s1 := set_k_sfiles (delete fd (k_sfiles s)) (set_k_vfs (set_fs fs1 (k_vfs s)) s)).
  rewrite (bind_run (free_sfile fd) _ _ tt s1) by done.
  rewrite (bind_run _ _ s1 tt _ (set_fd_run me s1 t ptr p id 0 ltac:(destruct Hrun; by constructor))). done.
Qed.

(** Descriptor [k] is open on a freed file. *)
Lemma dead_file me file_table drivers k fd sf s buffer size `{Env} :
  open_file me k s = Done (Some (fd, sf), s) -> files (v_fs (k_vfs s)) !! sf_file sf = None -> size <> 0 ->
  syscall_close me file_table k s = Fault /\
  (truthy (Z.land (sf_flags sf) (Z.lor O_WRONLY O_RDWR)) = true -> syscall_write me file_table drivers k buffer size s = Fault) /\
  (truthy (Z.land (sf_flags sf) (Z.lor O_RDONLY O_RDWR)) = true -> syscall_read me file_table drivers k buffer size s = Fault).
Proof.
  intros Ho Hgone Hsize. unfold syscall_close, syscall_write, syscall_read. rewrite !(bind_run _ _ _ _ _ Ho).
  assert (Hg : on_files (get_file (sf_file sf)) s = Fault).
  { unfold on_files, on_vfs, on, on_fs, get_file. by rewrite Hgone. }
  assert (Hs : truthy size = true) by (unfold truthy; by rewrite (proj2 (Z.eqb_neq size 0))). rewrite Hs.
  split; [|split; intros ->; cbn [negb]; unfold mbind, M_bind; by rewrite Hg].
  unfold close_file, on_files, on_vfs, on, on_fs, vfs_close, get_file, mbind, M_bind. by rewrite Hgone.
Qed.

(** Closing descriptor [k] leaves descriptor [k'] open. *)
Lemma other_end me s t ptr p fs1 k k' fd fd' sf' :
  running me s t ptr p -> fds_ok p -> 0 <= k < 128 -> 0 <= k' < 128 -> k <> k' ->
  fds p !! Z.to_nat k' = Some fd' -> fd' <> 0 -> fd <> fd' -> k_sfiles s !! fd' = Some sf' ->
  let s' := set_k_procs (<[ptr := with_fds (<[Z.to_nat k := 0]> (fds p)) p]> (k_procs s))
    (set_k_sfiles (delete fd (k_sfiles s)) (set_k_vfs (set_fs fs1 (k_vfs s)) s)) in
  open_file me k' s' = Done (Some (fd', sf'), s').
Proof.
  intros Hrun Hok Hk Hk' Hne Hfd' Hn' Hd Hsf' s'. apply open_file_run; [|done|simpl; by rewrite lookup_delete_ne].
  exists t, ptr, (with_fds (<[Z.to_nat k := 0]> (fds p)) p).
  split; [|split; [unfold fds_ok; simpl; by rewrite length_insert|split; [done|]]].
  - destruct Hrun as [(c & Hcpu & Ht) Hp Hpr]. constructor; [by exists c|done|]. simpl. apply lookup_insert_eq.
  - simpl. rewrite list_lookup_insert_ne; [done|lia].
Qed.

(** the two descriptors of a pipe share one reference: closing one end of an anonymous pipe
    frees the pipe, and closing, reading from or writing to the other end is then a use of the
    freed file. *)
Theorem pipe_close_one_end me file_table drivers s t ptr p i j fd1 fd2 file f q buffer size `{Env} :
  running me s t ptr p -> fds_ok p -> 0 <= i < 128 -> 0 <= j < 128 -> i <> j ->
  fds p !! Z.to_nat i = Some fd1 -> fds p !! Z.to_nat j = Some fd2 -> fd1 <> 0 -> fd2 <> 0 -> fd1 <> fd2 ->
  k_sfiles s !! fd1 = Some (mk_sfile file O_RDONLY) -> k_sfiles s !! fd2 = Some (mk_sfile file O_WRONLY) ->
  fifo_ok (v_fs (k_vfs s)) file f q -> ref_count f = 1 -> size <> 0 ->
  (exists s', syscall_close me file_table i s = Done (0, s') /\
     syscall_close me file_table j s' = Fault /\ syscall_write me file_table drivers j buffer size s' = Fault) /\
  (exists s', syscall_close me file_table j s = Done (0, s') /\
     syscall_close me file_table i s' = Fault /\ syscall_read me file_table drivers i buffer size s' = Fault).
Proof.
  intros Hrun Hok Hi Hj Hij Hfi Hfj H1 H2 H12 Hs1 Hs2 Hfifo Href Hsize.
  pose proof (close_free file_table _ _ _ _ Hfifo Href) as Hc.
  set (fs1 := set_files _ (set_pipes _ _)) in Hc. assert (Hgone : files fs1 !! file = None) by apply lookup_delete_eq.
  split; eexists.
  - split; [exact (syscall_close_run me file_table s t ptr p i fd1 _ fs1 Hrun Hok Hi Hfi H1 Hs1 Hc)|].
    destruct (dead_file me file_table drivers j fd2 (mk_sfile file O_WRONLY) _ buffer size
      (other_end me s t ptr p fs1 i j fd1 fd2 _ Hrun Hok Hi Hj Hij Hfj H2 H12 Hs2) Hgone Hsize) as (E1 & E2 & _).
    split; [exact E1|apply E2; reflexivity].
  - split; [exact (syscall_close_run me file_table s t ptr p j fd2 _ fs1 Hrun Hok Hj Hfj H2 Hs2 Hc)|].
    destruct (dead_file me file_table drivers i fd1 (mk_sfile file O_RDONLY) _ buffer size
      (other_end me s t ptr p fs1 j i fd2 fd1 _ Hrun Hok Hj Hi (not_eq_sym Hij) Hfi H1 (not_eq_sym H12) Hs1) Hgone Hsize)
      as (E1 & _ & E2).
    split; [exact E1|apply E2; reflexivity].
Qed.

(** ** Instances *)

(** The user process with descriptor 0 open for writing on the file "a", five bytes long, of
    which three are behind the offset. *)
Definition five_bytes : fs_file := with_offset 3 (with_data 5 (PBlock [1; 2; 3; 4; 5]) sample_a).
Definition writing_kernel : kstate :=
  set_k_vfs (set_fs (set_files (<[3 := five_bytes]> (files sample_fs)) sample_fs) sample_vfs)
  (set_k_sfiles (<[40 := mk_sfile 3 O_WRONLY]> ∅)
    (set_k_procs (<[5 := with_fds (40 :: replicate 127 0) user_proc]> (k_procs user_kernel)) user_kernel)).

Lemma writing_running : running 0 writing_kernel user_thread 5 (with_fds (40 :: replicate 127 0) user_proc).
Proof. constructor; [by eexists|done|done]. Qed.

Lemma install_lowest_fd_witness :
  exists s', install_file 0 (fun _ => None) 3 O_RDONLY writing_kernel = Done (1, s') /\
    k_sfiles s' !! 100 = Some (mk_sfile 3 O_RDONLY).
Proof.
  destruct (proj1 (install_lowest_fd 0 (fun _ => None) writing_kernel user_thread 5 _ 3 O_RDONLY five_bytes
    writing_running eq_refl eq_refl) ltac:(vm_compute; done)) as (s' & E & H1 & _).
  exists s'. split; [exact E|exact H1].
Defined.

Lemma syscall_write_never_extends_witness :
  exists s' f', syscall_write 0 (fun _ => Some tmpfs_file_table) no_drivers 0 0x1000 7 writing_kernel = Done (2, s') /\
    files (v_fs (k_vfs s')) !! 3 = Some f' /\ f_length f' = 5.
Proof.
  assert (Ho : open_on 0 writing_kernel 0 40 (mk_sfile 3 O_WRONLY) five_bytes).
  { refine (mk_open_on _ _ _ _ _ _ _ _ _ _); try reflexivity; [|done].
    exists user_thread, 5, (with_fds (40 :: replicate 127 0) user_proc). split; [apply writing_running|done]. }
  destruct (syscall_write_never_extends 0 (fun _ => Some tmpfs_file_table) no_drivers writing_kernel 0 40
    (mk_sfile 3 O_WRONLY) five_bytes 0x1000 7 Ho) as (s' & f' & E & H1 & H2 & _);
    [reflexivity|reflexivity|reflexivity|reflexivity|constructor; done|done|done|done|].
  exists s', f'. split; [exact E|]. split; [exact H1|exact H2].
Defined.

Lemma open_permission_witness :
  exists r s', syscall_open 0 sample_table (fun _ => Some tmpfs_file_table) [47; 100; 101; 118; 47; 97] O_RDWR 0 user_kernel = Done (r, s') /\
    exists t ptr p, running 0 s' t ptr p.
Proof.
  set (run := syscall_open 0 sample_table (fun _ => Some tmpfs_file_table) [47; 100; 101; 118; 47; 97] O_RDWR 0 user_kernel).
  assert (Hd : match run with Done (r, _) => 0 <=? r | _ => false end = true) by (vm_compute; reflexivity).
  destruct run as [[r s']| | |] eqn:E; try discriminate Hd.
  destruct (open_permission 0 sample_table (fun _ => Some tmpfs_file_table) [47; 100; 101; 118; 47; 97] O_RDWR 0 user_kernel r s' E (proj1 (Z.leb_le 0 r) Hd))
    as (t & ptr & p & _ & _ & _ & H & _).
  clear E Hd. exists r, s'. split; [reflexivity|]. exists t, ptr, p. exact H.
Defined.

(** Two anonymous pages of the user process, at 0x400000 and 0x500000. *)
Definition range_b : mmap_range := mk_range 0 (30 * PAGE_SIZE) 0x500000 0 PAGE_SIZE (Z.lor MAP_PRIVATE MAP_ANON) 3.
Definition two_map : pagemap :=
  mk_pagemap false PAGE_SIZE [mk_range 0 (20 * PAGE_SIZE) 0x400000 0 PAGE_SIZE (Z.lor MAP_PRIVATE MAP_ANON) 3; range_b].
Definition two_ranges : kstate := set_k_vmm (set_maps (<[7 := two_map]> (v_maps user_vmm)) user_vmm) user_kernel.

Lemma two_ranges_running : running 0 two_ranges user_thread 5 user_proc.
Proof. constructor; [by eexists|done|done]. Qed.
Lemma two_lookup : v_maps (k_vmm two_ranges) !! p_pagemap user_proc = Some two_map.
Proof. reflexivity. Qed.

Lemma munmap_frees_next_witness :
  exists r s' before, syscall_munmap 0 0x400000 PAGE_SIZE two_ranges = Done (r, s') /\
    pmm_free_pages (30 * PAGE_SIZE) 1 before = Done (tt, v_pmm (k_vmm s')).
Proof.
  pose proof (munmap_frees_next 0 two_ranges user_thread 5 user_proc two_map 0x400000 PAGE_SIZE 0%nat range_b) as T.
  assert (Hd : is_done (syscall_munmap 0 0x400000 PAGE_SIZE two_ranges) = true) by (vm_compute; reflexivity).
  destruct (syscall_munmap 0 0x400000 PAGE_SIZE two_ranges) as [[r s']| | |]; [|discriminate Hd..]. clear Hd.
  destruct (T r s' two_ranges_running two_lookup eq_refl eq_refl eq_refl eq_refl) as (before & m' & H & _).
  exists r, s', before. split; [reflexivity|exact H].
Defined.

(** A process as [pipe] leaves it: descriptors 0 and 1 are the ends of the pipe at 8. *)
Definition piped_proc : proc_t := with_fds (100 :: 101 :: replicate 126 0) user_proc.
Definition piped_file : fs_file := with_ref_count 1 fifo_file_2.
Definition piped_fs : fs_state := set_files (<[8 := piped_file]> ∅) fifo_fs_state.
Definition piped : kstate :=
  set_k_vfs (set_fs piped_fs sample_vfs)
    (set_k_sfiles (<[100 := mk_sfile 8 O_RDONLY]> (<[101 := mk_sfile 8 O_WRONLY]> ∅))
      (set_k_procs (<[5 := piped_proc]> ∅) user_kernel)).

Lemma piped_running : running 0 piped user_thread 5 piped_proc.
Proof. constructor; [by eexists|done|done]. Qed.
Lemma piped_fifo : fifo_ok (v_fs (k_vfs piped)) 8 piped_file small_pipe.
Proof. constructor; reflexivity. Qed.

Lemma pipe_close_one_end_witness :
  exists s', syscall_close 0 (fun _ => None) 0 piped = Done (0, s') /\
    syscall_write 0 (fun _ => None) no_drivers 1 0 4 s' = Fault.
Proof.
  destruct (proj1 (pipe_close_one_end 0 (fun _ => None) no_drivers piped user_thread 5 piped_proc 0 1 100 101 8
    piped_file small_pipe 0 4 piped_running eq_refl ltac:(lia) ltac:(lia) ltac:(lia) eq_refl eq_refl
    ltac:(lia) ltac:(lia) ltac:(lia) eq_refl eq_refl piped_fifo eq_refl ltac:(lia))) as (s' & E & _ & Ew).
  exists s'. split; [exact E|exact Ew].
Defined.
