(* ===== verification/Printf.v ===== *)
(** * Formatted output (src/src/kernel/fb/printf.c, src/src/libc/src/stdio.c)

    The two files hold the same engine: the library's one prints unsigned numbers with the signed
    routine, writes to a descriptor instead of the screen and knows the floating point conversions.
    The model shares the engine and takes these two differences as arguments.

    A format is the array of its bytes, terminator included, from the current position on; a
    [va_list] is the list of the arguments still to be read; the state collects the characters sent
    to the screen or to the descriptor, the counter [chars] and the stores of [%n].  The 256-byte
    buffers are lists of bytes: reading or writing outside one is [Fault].  Signed overflow of the
    counters wraps. *)
From Stdlib Require Import Ascii String SpecFloat.
From S2P Require Import Prelude CString.
Import CString.Kernel.
Open Scope Z_scope.

(** ** Values *)

Definition chr (c : ascii) : Z := Z.of_N (N_of_ascii c).
Definition text (s : string) : list Z := chr <$> list_ascii_of_string s.
Definition s16 (x : Z) : Z := (x + 2 ^ 15) mod 2 ^ 16 - 2 ^ 15.

(** An argument: an integer or pointer register, a string, a double. *)
Inductive varg := VInt (v : Z) | VStr (s : list Z) | VDouble (d : spec_float).

Record pstate := mk_pstate {
  p_out : list Z;
  p_args : list varg;
  p_chars : Z;
  p_stores : list (Z * Z * Z);    (* address, width in bytes, value *)
}.

Definition P := M pstate.

(** ** Buffers *)

Definition zeros (n : nat) : list Z := replicate n 0.

Definition digit_at (b : list Z) (i : Z) : P Z :=
  if 0 <=? i then of_option (b !! Z.to_nat i) else fault.

Definition set_at (b : list Z) (i v : Z) : P (list Z) :=
  if (0 <=? i) && (i <? Z.of_nat (length b)) then mret (<[Z.to_nat i := v]> b) else fault.

Definition length_of (b : list Z) : P Z := of_option (strlen b).

(** ** __int_str and __uint_str *)

(** [digit], and the base after the adjustment. *)
Definition digit_table (base : Z) : P (list Z * Z) :=
  d ← of_option (strcpy (zeros 32) (text "0123456789" ++ [0]));
  if base =? 16 then d' ← of_option (strcat d (text "ABCDEF" ++ [0])); mret (d', base)
  else if base =? 17 then d' ← of_option (strcat d (text "abcdef" ++ [0])); mret (d', 16)
  else mret (d, base).

(** [do { ++p; shifter = shifter / base; } while (shifter);] *)
Fixpoint count_loop (fuel : nat) (p shifter base : Z) : P Z :=
  match fuel with
  | O => out_of_fuel
  | S f =>
      let shifter' := Z.quot shifter base in
      if truthy shifter' then count_loop f (p + 1) shifter' base else mret (p + 1)
  end.

(** [do { *--p = digit[i % base]; i = i / base; } while (i);] *)
Fixpoint digit_loop (fuel : nat) (b digit : list Z) (p i base : Z) : P (list Z) :=
  match fuel with
  | O => out_of_fuel
  | S f =>
      c ← digit_at digit (Z.rem i base);
      b' ← set_at b (p - 1) c;
      let i' := Z.quot i base in
      if truthy i' then digit_loop f b' digit (p - 1) i' base else mret b'
  end.

(** [while (padding--) b[strlen(b)] = pad;] *)
Fixpoint pad_loop (padding : nat) (b : list Z) (pad : Z) : P (list Z) :=
  match padding with
  | O => mret b
  | S n => l ← length_of b; b' ← set_at b l pad; pad_loop n b' pad
  end.

(** The padding at the end of both functions. *)
Definition pad_number (b : list Z) (paddingNo : Z) (justify zeroPad : bool) : P (list Z) :=
  l ← length_of b;
  let padding := s32 (paddingNo - s32 l) in
  let padding := if padding <? 0 then 0 else padding in
  let pad := if zeroPad then chr "0" else chr " " in
  if justify then pad_loop (Z.to_nat padding) b pad
  else
    a ← pad_loop (Z.to_nat padding) (zeros 256) pad;
    a ← of_option (strcat a b);
    of_option (strcpy b a).

(** A 64-bit number has at most 64 digits. *)
Definition DIGITS : nat := 64.

(** From the first digit's position to the end: the count, the terminator, the digits, the padding. *)
Definition put_number (i : Z) (b digit : list Z) (p base paddingNo : Z) (justify zeroPad : bool) : P (list Z) :=
  p ← count_loop DIGITS p i base;
  b ← set_at b p 0;
  b ← digit_loop DIGITS b digit p i base;
  pad_number b paddingNo justify zeroPad.

Definition __int_str (i : Z) (b : list Z) (base : Z) (plusSignIfNeeded spaceSignIfNeeded : bool)
    (paddingNo : Z) (justify zeroPad : bool) : P (list Z) :=
  '(digit, base) ← digit_table base;
  if i <? 0 then
    b ← set_at b 0 (chr "-");
    put_number (s64 (i * -1)) b digit 1 base paddingNo justify zeroPad
  else if plusSignIfNeeded then
    b ← set_at b 0 (chr "+");
    put_number i b digit 1 base paddingNo justify zeroPad
  else if spaceSignIfNeeded then
    b ← set_at b 0 (chr " ");
    put_number i b digit 1 base paddingNo justify zeroPad
  else put_number i b digit 0 base paddingNo justify zeroPad.

Definition __uint_str (i : Z) (b : list Z) (base : Z) (plusSignIfNeeded spaceSignIfNeeded : bool)
    (paddingNo : Z) (justify zeroPad : bool) : P (list Z) :=
  '(digit, base) ← digit_table base;
  if plusSignIfNeeded then
    b ← set_at b 0 (chr "+");
    put_number i b digit 1 base paddingNo justify zeroPad
  else if spaceSignIfNeeded then
    b ← set_at b 0 (chr " ");
    put_number i b digit 1 base paddingNo justify zeroPad
  else put_number i b digit 0 base paddingNo justify zeroPad.

(** ** Output *)

Definition displayCharacter (c : Z) : P unit :=
  modify (fun s => mk_pstate (p_out s ++ [u8 c]) (p_args s) (s32 (p_chars s + 1)) (p_stores s)).

Fixpoint displayString (c : list Z) : P unit :=
  match c with
  | [] => fault
  | x :: c' => if truthy x then _ ← displayCharacter x; displayString c' else mret tt
  end.

(** ** Arguments *)

Definition set_args (a : list varg) : P unit :=
  modify (fun s => mk_pstate (p_out s) a (p_chars s) (p_stores s)).

Definition va_next : P varg :=
  a ← gets p_args;
  match a with [] => fault | v :: a' => _ ← set_args a'; mret v end.

(** [va_arg] at an integer or pointer type, at [char *], at [double]. *)
Definition va_int : P Z := v ← va_next; match v with VInt z => mret z | _ => fault end.
Definition va_str : P (list Z) := v ← va_next; match v with VStr t => mret t | _ => fault end.
Definition va_double : P spec_float := v ← va_next; match v with VDouble d => mret d | _ => fault end.

(** ** Parsing a directive *)

Record dflags := mk_dflags {
  leftJustify : bool; plusSign : bool; altForm : bool; spaceNoSign : bool; zeroPad : bool;
}.
Definition no_flags : dflags := mk_dflags false false false false false.

(** The [while (1)] over the flags: the flags and the format after them. *)
Fixpoint flag_loop (f : list Z) (d : dflags) : P (dflags * list Z) :=
  match f with
  | [] => fault
  | c :: f' =>
      let '(mk_dflags l p a s z) := d in
      if c =? chr "-" then flag_loop f' (mk_dflags true p a s z)
      else if c =? chr "+" then flag_loop f' (mk_dflags l true a s z)
      else if c =? chr "#" then flag_loop f' (mk_dflags l p true s z)
      else if c =? chr " " then flag_loop f' (mk_dflags l p a true z)
      else if c =? chr "0" then flag_loop f' (mk_dflags l p a s true)
      else mret (d, f)
  end.

(** [while (isdigit(format[i]))] *)
Fixpoint number_loop (f : list Z) (n : Z) : P (Z * list Z) :=
  match f with
  | [] => fault
  | c :: f' => if truthy (isdigit c) then number_loop f' (s32 (s32 (n * 10) + (c - 48))) else mret (n, f)
  end.

(** [if (format[i] == '*')] *)
Definition star (f : list Z) (n : Z) : P (Z * list Z) :=
  match f with
  | [] => fault
  | c :: f' => if c =? chr "*" then v ← va_int; mret (s32 v, f') else mret (n, f)
  end.

Definition width_of (f : list Z) : P (Z * list Z) :=
  '(n, f) ← number_loop f 0; star f n.

Definition precision_of (f : list Z) : P (Z * list Z) :=
  match f with
  | [] => fault
  | c :: f' => if c =? chr "." then '(n, f) ← number_loop f' 0; star f n else mret (6, f)
  end.

Definition is_length (c : Z) : bool :=
  (c =? chr "h") || (c =? chr "l") || (c =? chr "j") || (c =? chr "z") || (c =? chr "t") || (c =? chr "L").

(** The length modifier; [0] when there is none.  A second [h] is not skipped. *)
Definition length_mod (f : list Z) : P (Z * list Z) :=
  match f with
  | [] => fault
  | c :: f' =>
      if is_length c then
        match f' with
        | [] => fault
        | c2 :: f'' =>
            if c2 =? chr "h" then mret (chr "H", f')
            else if c2 =? chr "l" then mret (chr "q", f'') else mret (c, f')
        end
      else mret (0, f)
  end.

(** ** The conversions *)

Record directive := mk_directive {
  d_flags : dflags; lengthSpec : Z; precSpec : Z; d_length : Z; specifier : Z;
}.

(** The argument of an unsigned conversion, by its length modifier, as it is passed on. *)
Definition unsigned_arg (length : Z) (v : Z) : option Z :=
  if length =? 0 then Some (u32 v)
  else if length =? chr "H" then Some (u8 (u32 v))
  else if length =? chr "h" then Some (u16 (u32 v))
  else if (length =? chr "l") || (length =? chr "q") || (length =? chr "j") || (length =? chr "z")
       then Some (u64 v)
  else if length =? chr "t" then Some (u64 (s64 v))
  else None.

Definition signed_arg (length : Z) (v : Z) : option Z :=
  if length =? 0 then Some (s32 v)
  else if length =? chr "H" then Some (s8 (s32 v))
  else if length =? chr "h" then Some (s16 (s32 v))
  else if (length =? chr "l") || (length =? chr "q") || (length =? chr "j") then Some (s64 v)
  else if length =? chr "z" then Some (s64 (u64 v))
  else if length =? chr "t" then Some (s64 v)
  else None.

(** The width in bytes of the object [%n] stores to. *)
Definition store_width (length : Z) : option Z :=
  if length =? chr "H" then Some 1
  else if length =? chr "h" then Some 2
  else if length =? 0 then Some 4
  else if (length =? chr "l") || (length =? chr "q") || (length =? chr "j") || (length =? chr "z")
          || (length =? chr "t") then Some 8
  else None.

Definition number_printer : Type := Z -> list Z -> Z -> bool -> bool -> Z -> bool -> bool -> P (list Z).

Section Engine.
(** What the two files do differently: the routine that prints unsigned numbers and the cases of
    the floating point conversions, which give back [expo] and the buffer. *)
Context (print_unsigned : number_printer).
Context (float_case : directive -> list Z -> P (Z * list Z)).

Definition print_integer (pr : number_printer) (arg : Z -> Z -> option Z) (base : Z) (d : directive)
    (buf : list Z) : P (list Z) :=
  match arg (d_length d) 0 with
  | None => mret buf
  | Some _ =>
      v ← va_int;
      i ← of_option (arg (d_length d) v);
      let f := d_flags d in
      buf ← pr i buf base (plusSign f) (spaceNoSign f) (lengthSpec d) (leftJustify f) (zeroPad f);
      _ ← displayString buf;
      mret buf
  end.

Definition store_count (d : directive) : P unit :=
  match store_width (d_length d) with
  | None => mret tt
  | Some w =>
      a ← va_int;
      modify (fun s => mk_pstate (p_out s) (p_args s) (p_chars s)
                        (p_stores s ++ [(a, w, p_chars s mod 2 ^ (8 * w))]))
  end.

(** The rewriting of [o] and [p] to [u], with the base. *)
Definition rewrite_spec (d : directive) : P (directive * Z) :=
  let '(mk_directive f w pr len sp) := d in
  if sp =? chr "o" then
    _ ← when (altForm f) (displayString (text "0" ++ [0]));
    mret (mk_directive f w pr len (chr "u"), 8)
  else if sp =? chr "p" then mret (mk_directive f w pr (chr "z") (chr "u"), 16)
  else mret (d, 10).

(** [switch (specifier)]; the result is [expo] and the buffer. *)
Definition switch_spec (d : directive) (base : Z) (buf : list Z) : P (Z * list Z) :=
  let sp := specifier d in
  if (sp =? chr "X") || (sp =? chr "x") then
    let base := if sp =? chr "X" then 16 else base in
    let base := if base =? 10 then 17 else base in
    _ ← when (altForm (d_flags d)) (displayString (text "0x" ++ [0]));
    buf ← print_integer print_unsigned unsigned_arg base d buf; mret (0, buf)
  else if sp =? chr "u" then
    buf ← print_integer print_unsigned unsigned_arg base d buf; mret (0, buf)
  else if (sp =? chr "d") || (sp =? chr "i") then
    buf ← print_integer __int_str signed_arg base d buf; mret (0, buf)
  else if sp =? chr "c" then v ← va_int; _ ← displayCharacter (s32 v); mret (0, buf)
  else if sp =? chr "s" then t ← va_str; _ ← displayString t; mret (0, buf)
  else if sp =? chr "n" then _ ← store_count d; mret (0, buf)
  else float_case d buf.

(** The exponent printed after [e] and [E]. *)
Definition print_expo (d : directive) (expo : Z) (buf : list Z) : P unit :=
  if (specifier d =? chr "e") || (specifier d =? chr "E") then
    _ ← displayString (text (if specifier d =? chr "e" then "e+" else "E+") ++ [0]);
    buf ← __int_str expo buf 10 false false 2 false true;
    displayString buf
  else mret tt.

(** A directive, from the character after [%]; the format after the specifier. *)
Definition run_directive (f : list Z) : P (list Z) :=
  '(fl, f) ← flag_loop f no_flags;
  '(w, f) ← width_of f;
  '(pr, f) ← precision_of f;
  '(len, f) ← length_mod f;
  match f with
  | [] => fault
  | sp :: f' =>
      '(d, base) ← rewrite_spec (mk_directive fl w pr len sp);
      '(expo, buf) ← switch_spec d base (zeros 256);
      _ ← print_expo d expo buf;
      mret f'
  end.

(** [for (int i = 0; format[i]; ++i)]; each turn consumes a character. *)
Fixpoint format_loop (fuel : nat) (f : list Z) : P unit :=
  match fuel, f with
  | O, _ => out_of_fuel
  | S _, [] => fault
  | S n, c :: f' =>
      if negb (truthy c) then mret tt
      else if c =? chr "%" then f'' ← run_directive f'; format_loop n f''
      else _ ← displayCharacter c; format_loop n f'
  end.

(** The engine from an empty output: the state at the end holds the characters and [chars]. *)
Definition print_format (format : list Z) (list : list varg) : outcome pstate :=
  match format_loop (length format) format (mk_pstate [] list 0 []) with
  | Done (_, s) => Done s
  | Halt => Halt
  | Fault => Fault
  | Fuel => Fuel
  end.
End Engine.

(** ** The kernel *)
Module Screen.

(** No floating point conversions: the [default] case. *)
Definition no_float (d : directive) (buf : list Z) : P (Z * list Z) := mret (0, buf).

(** [vprintf]: [None] when [printf_lock] is held.  The value is the characters put on the screen,
    the result and the stores. *)
Definition vprintf (locked : bool) (format : list Z) (list : list varg) : outcome pstate :=
  if locked then Halt else print_format __uint_str no_float format list.

Definition printf (locked : bool) (format : list Z) (args : list varg) : outcome pstate :=
  vprintf locked format args.
End Screen.

(** ** The reference: positional numerals *)

(** The digits of [n], most significant first. *)
Fixpoint numeral_n (fuel : nat) (base n : Z) : list Z :=
  match fuel with
  | O => []
  | S f => if n <? base then [n] else numeral_n f base (n / base) ++ [n mod base]
  end.
Definition numeral (base n : Z) : list Z := numeral_n DIGITS base n.

(** The number a list of digits stands for. *)
Definition numeral_value (base : Z) (ds : list Z) : Z := fold_left (fun a d => a * base + d) ds 0.

Definition digit_char (upper : bool) (d : Z) : Z :=
  if d <? 10 then chr "0" + d else (if upper then chr "A" else chr "a") + (d - 10).

Definition sign_text (plus space : bool) (i : Z) : list Z :=
  if i <? 0 then text "-" else if plus then text "+" else if space then text " " else [].

(** The base meant by the [base] argument: 17 asks for lower case hexadecimal. *)
Definition real_base (base : Z) : Z := if base =? 17 then 16 else base.

Definition number_text (base : Z) (plus space : bool) (i : Z) : list Z :=
  sign_text plus space i ++ (digit_char (base =? 16) <$> numeral (real_base base) (Z.abs i)).

(** Padding to a width, after the text when left-justified. *)
Definition pad_text (width : Z) (left zero : bool) (t : list Z) : list Z :=
  let pad := replicate (Z.to_nat (width - Z.of_nat (length t))) (if zero then chr "0" else chr " ") in
  if left then t ++ pad else pad ++ t.

(** *** The reference is a positional notation *)

Lemma value_snoc base ds d : numeral_value base (ds ++ [d]) = numeral_value base ds * base + d.
Proof. unfold numeral_value. by rewrite fold_left_app. Qed.

Lemma div_pow_bound base i (f : nat) :
  2 <= base -> base <= i -> i < base ^ Z.of_nat (S f) -> 0 <= i / base < base ^ Z.of_nat f /\ f <> O.
Proof.
  intros Hb Hi Hf. rewrite Nat2Z.inj_succ, Z.pow_succ_r in Hf by lia.
  split; [split; [apply Z.div_pos; lia|apply Z.div_lt_upper_bound; lia]|].
  intros ->. simpl in Hf. lia.
Qed.

Lemma numeral_n_spec (base : Z) (fuel : nat) (n : Z) :
  2 <= base -> 0 <= n < base ^ Z.of_nat fuel ->
  numeral_value base (numeral_n fuel base n) = n /\
  Forall (fun d => 0 <= d < base) (numeral_n fuel base n) /\
  (hd 0 (numeral_n fuel base n) = 0 -> n = 0) /\ (length (numeral_n fuel base n) <= fuel)%nat /\
  (fuel <> O -> numeral_n fuel base n <> []).
Proof.
  intros Hb. revert n. induction fuel as [|f IH]; intros n Hn.
  - simpl in Hn. assert (n = 0) as -> by lia. repeat split; auto; lia.
  - cbn [numeral_n]. destruct (Z.ltb_spec n base).
    + repeat split; try done; [|cbn; lia]. constructor; [lia|done].
    + destruct (div_pow_bound base n f) as [Hd Hf]; [lia..|].
      destruct (IH _ Hd) as (Hv & Hr & Hh & Hl & Hne). specialize (Hne Hf).
      rewrite value_snoc, Hv, length_app. pose proof (Z.mod_pos_bound n base ltac:(lia)).
      pose proof (Z_div_mod_eq_full n base).
      split; [lia|]. split; [apply Forall_app; split; [done|by constructor]|].
      split; [|split; [cbn; lia|by destruct (numeral_n f base (n / base))]].
      destruct (numeral_n f base (n / base)); [done|]. cbn [app hd]. cbn [hd] in Hh. intros E.
      apply Hh in E. pose proof (Z.div_le_lower_bound n base 1). lia.
Qed.

Lemma numeral_small_base base n :
  2 <= base -> 0 <= n < 2 ^ 64 -> 0 <= n < base ^ Z.of_nat DIGITS.
Proof.
  intros Hb Hn. change (Z.of_nat DIGITS) with 64. pose proof (Z.pow_le_mono_l 2 base 64). lia.
Qed.

(** ** The routines meet the reference *)

Create HintDb chars.

Lemma digit_char_ok upper d : 0 <= d < 16 -> char_ok (digit_char upper d).
Proof.
  intros. unfold digit_char, char_ok. change (chr "0") with 48. change (chr "A") with 65.
  change (chr "a") with 97. destruct (d <? 10), upper; lia.
Qed.

Lemma sign_ok plus space i : str_ok (sign_text plus space i).
Proof. unfold sign_text. destruct (i <? 0), plus, space; repeat constructor. Qed.

Lemma digits_ok upper ds : Forall (fun d => 0 <= d < 16) ds -> str_ok (digit_char upper <$> ds).
Proof. intros H. apply Forall_fmap. eapply Forall_impl; [done|]. intros d. apply digit_char_ok. Qed.

Lemma pad_ok n (z : bool) : str_ok (replicate n (if z then chr "0" else chr " ")).
Proof. apply Forall_replicate. by destruct z. Qed.
#[export] Hint Resolve sign_ok pad_ok : chars.

(** The bases the engine uses, with their digits. *)
Definition base_ok (base : Z) : Prop := base = 8 \/ base = 10 \/ base = 16 \/ base = 17.

Lemma digit_table_run base s :
  base_ok base ->
  exists t, digit_table base s = Done ((t, real_base base), s) /\
    forall d, 0 <= d < real_base base -> t !! Z.to_nat d = Some (digit_char (base =? 16) d).
Proof.
  intros H. assert (D : exists t, digit_table base s = Done ((t, real_base base), s) /\
    forall k, (k < Z.to_nat (real_base base))%nat -> t !! k = Some (digit_char (base =? 16) (Z.of_nat k))).
  { destruct H as [->|[->|[-> | ->]]]; (eexists; split; [reflexivity|]); intros k Hk;
      vm_compute in Hk; (do 16 (destruct k as [|k]; [first [reflexivity|lia]|])); lia. }
  destruct D as (t & E & Hd). exists t. split; [exact E|]. intros d Hdr.
  rewrite Hd by lia. by rewrite Z2Nat.id by lia.
Qed.

Lemma count_loop_run base fuel i p (s : pstate) :
  2 <= base -> 0 <= i < base ^ Z.of_nat fuel -> fuel <> O ->
  count_loop fuel p i base s = Done (p + Z.of_nat (length (numeral_n fuel base i)), s).
Proof.
  intros Hb. revert i p. induction fuel as [|f IH]; intros i p Hi Hf; [done|].
  cbn [count_loop numeral_n]. rewrite Z.quot_div_nonneg by lia. unfold truthy.
  destruct (Z.ltb_spec i base).
  - by rewrite Z.div_small by lia.
  - destruct (div_pow_bound base i f) as [Hd Hf']; [lia..|].
    assert (1 <= i / base) by (apply Z.div_le_lower_bound; lia).
    rewrite (proj2 (Z.eqb_neq (i / base) 0)) by lia. cbn [negb].
    rewrite IH by done. rewrite length_app. cbn [length]. do 2 f_equal. lia.
Qed.

Lemma digit_at_run (b : list Z) i c (s : pstate) : 0 <= i -> b !! Z.to_nat i = Some c -> digit_at b i s = Done (c, s).
Proof. intros Hi H. unfold digit_at. rewrite (proj2 (Z.leb_le 0 i)) by done. by rewrite H. Qed.

Lemma set_at_run (b : list Z) i v (s : pstate) :
  0 <= i < Z.of_nat (length b) -> set_at b i v s = Done (<[Z.to_nat i := v]> b, s).
Proof.
  intros H. unfold set_at. rewrite (proj2 (Z.leb_le 0 i)), (proj2 (Z.ltb_lt i _)) by lia. done.
Qed.

Lemma digit_loop_run base upper digit fuel i k p b (s : pstate) :
  2 <= base -> (forall d, 0 <= d < base -> digit !! Z.to_nat d = Some (digit_char upper d)) ->
  0 <= i < base ^ Z.of_nat fuel -> fuel <> O ->
  p = Z.of_nat (k + length (numeral_n fuel base i)) -> p <= Z.of_nat (length b) ->
  digit_loop fuel b digit p i base s =
    Done (take k b ++ (digit_char upper <$> numeral_n fuel base i) ++ drop (Z.to_nat p) b, s).
Proof.
  intros Hb Hdig. revert i p b. induction fuel as [|f IH]; intros i p b Hi Hf Hp Hl; [done|].
  cbn [digit_loop]. pose proof (Z.mod_pos_bound i base ltac:(lia)) as Hm.
  assert (Hp1 : 1 <= p).
  { subst p. destruct (numeral_n_spec base (S f) i) as (_ & _ & _ & _ & Hne); [done..|].
    destruct (numeral_n (S f) base i); [by specialize (Hne Hf)|cbn [length]; lia]. }
  rewrite Z.rem_mod_nonneg, Z.quot_div_nonneg by lia.
  rewrite (bind_run _ _ _ _ _ (digit_at_run _ _ _ s (proj1 Hm) (Hdig _ Hm))).
  rewrite (bind_run _ _ _ _ _ (set_at_run b (p - 1) (digit_char upper (i mod base)) s ltac:(lia))). cbn beta.
  cbn [numeral_n] in *. unfold truthy. destruct (Z.ltb_spec i base).
  - rewrite Z.div_small, Z.mod_small by lia. cbn [Z.eqb negb length] in *.
    replace (Z.to_nat (p - 1)) with k by lia. unfold mret, M_ret. do 2 f_equal.
    rewrite insert_take_drop by lia. cbn [fmap list_fmap app]. by replace (Z.to_nat p) with (S k) by lia.
  - destruct (div_pow_bound base i f) as [Hd Hf']; [lia..|]. rewrite length_app in Hp. cbn [length] in Hp.
    assert (1 <= i / base) by (apply Z.div_le_lower_bound; lia).
    rewrite (proj2 (Z.eqb_neq (i / base) 0)) by lia. cbn [negb].
    rewrite IH; [|lia|done|lia|rewrite length_insert; lia]. do 2 f_equal.
    rewrite take_insert_ge by lia. f_equal. rewrite fmap_app, <- app_assoc. f_equal. cbn [fmap list_fmap app].
    rewrite (drop_S _ (digit_char upper (i mod base)) (Z.to_nat (p - 1)))
      by (apply list_lookup_insert_eq; lia). f_equal. rewrite drop_insert_lt by lia. f_equal. lia.
Qed.

Lemma length_of_run t r (s : pstate) : str_ok t -> length_of (t ++ 0 :: r) s = Done (Z.of_nat (length t), s).
Proof. intros H. unfold length_of. by rewrite strlen_spec. Qed.

Lemma zeros_S n : zeros (S n) = 0 :: zeros n.
Proof. done. Qed.

Lemma pad_loop_run n t m c (s : pstate) :
  str_ok t -> char_ok c -> (n < m)%nat ->
  pad_loop n (t ++ zeros m) c s = Done (t ++ replicate n c ++ zeros (m - n), s).
Proof.
  intros Ht Hc. revert t m Ht. induction n as [|n IH]; intros t m Ht Hm; cbn [pad_loop].
  - by rewrite Nat.sub_0_r.
  - destruct m as [|m]; [lia|]. rewrite zeros_S.
    rewrite (bind_run _ _ _ _ _ (length_of_run t _ s Ht)).
    rewrite (bind_run _ _ _ _ _ (set_at_run (t ++ 0 :: zeros m) (Z.of_nat (length t)) c s
      ltac:(rewrite length_app; cbn [length]; lia))).
    rewrite Nat2Z.id, insert_app_r_alt, Nat.sub_diag by lia. cbn [insert list_insert replicate].
    replace (t ++ c :: zeros m) with ((t ++ [c]) ++ zeros m) by by rewrite <- app_assoc.
    rewrite IH; [|apply Forall_app; split; [done|by apply Forall_singleton]|lia].
    rewrite <- app_assoc. by rewrite Nat.sub_succ.
Qed.

Lemma pad_number_run t r w (left zero : bool) (s : pstate) :
  str_ok t -> length (t ++ 0 :: r) = 256%nat -> (left = true -> r = zeros (length r)) ->
  0 <= w <= 255 ->
  exists r', pad_number (t ++ 0 :: r) w left zero s = Done (pad_text w left zero t ++ 0 :: r', s).
Proof.
  intros Ht Hl Hr Hw. rewrite length_app in Hl. cbn [length] in Hl. unfold pad_number.
  rewrite (bind_run _ _ _ _ _ (length_of_run t r s Ht)). cbn beta. unfold pad_text.
  rewrite (s32_small (Z.of_nat (length t))), s32_small by lia.
  set (n := Z.to_nat (w - Z.of_nat (length t))).
  replace (Z.to_nat (if w - Z.of_nat (length t) <? 0 then 0 else w - Z.of_nat (length t))) with n
    by (destruct (Z.ltb_spec (w - Z.of_nat (length t)) 0); lia).
  assert (Hc : char_ok (if zero then chr "0" else chr " ")) by by destruct zero.
  pose proof (pad_ok n zero) as Hp. destruct left.
  - rewrite (Hr eq_refl). change (0 :: zeros (length r)) with (zeros (S (length r))).
    rewrite pad_loop_run by (done || lia). exists (zeros (length r - n)).
    replace (S (length r) - n)%nat with (S (length r - n)) by lia. by rewrite <- app_assoc.
  - rewrite (bind_run _ _ _ _ _ (pad_loop_run n [] 256 _ s ltac:(by constructor) Hc ltac:(lia))).
    cbn beta. cbn [app]. destruct (256 - n)%nat as [|q] eqn:Hq; [lia|]. rewrite zeros_S.
    rewrite strcat_spec by done.
    rewrite (proj2 (Nat.leb_le (length t) (length (zeros q)))) by (unfold zeros; rewrite length_replicate; lia).
    cbn [of_option]. unfold mbind at 1, M_bind. rewrite app_assoc, strcpy_spec by by apply Forall_app.
    rewrite (proj2 (Nat.ltb_lt _ _)) by (rewrite !length_app, length_replicate; cbn [length]; lia).
    eexists. reflexivity.
Qed.

Lemma put_number_run base upper digit i sg w (left zero : bool) (s : pstate) :
  2 <= base <= 16 -> (forall d, 0 <= d < base -> digit !! Z.to_nat d = Some (digit_char upper d)) ->
  0 <= i < 2 ^ 64 -> str_ok sg -> (length sg <= 1)%nat -> 0 <= w <= 255 ->
  exists r, put_number i (sg ++ zeros (256 - length sg)) digit (Z.of_nat (length sg)) base w left zero s =
    Done (pad_text w left zero (sg ++ (digit_char upper <$> numeral base i)) ++ 0 :: r, s).
Proof.
  intros Hb Hd Hi Hs Hl Hw. pose proof (numeral_small_base base i ltac:(lia) Hi) as Hi'.
  destruct (numeral_n_spec base DIGITS i) as (_ & Hr & _ & Hn & _); [lia..|].
  unfold put_number. rewrite (bind_run _ _ _ _ _ (count_loop_run base DIGITS i _ s ltac:(lia) Hi' ltac:(done))).
  cbn beta. fold (numeral base i) in *. set (ds := numeral base i) in *.
  assert (Z.of_nat DIGITS = 64) by done.
  assert (Hlen : (length (sg ++ zeros (256 - length sg)) = 256)%nat)
    by (unfold zeros; rewrite length_app, length_replicate; lia).
  rewrite (bind_run _ _ _ _ _ (set_at_run (sg ++ zeros (256 - length sg))
    (Z.of_nat (length sg) + Z.of_nat (length ds)) 0 s ltac:(lia))). cbn beta.
  rewrite list_insert_id by (rewrite lookup_app_r by lia; unfold zeros; apply lookup_replicate_2; lia).
  assert (Hp : Z.of_nat (length sg) + Z.of_nat (length ds) = Z.of_nat (length sg + length ds)) by lia.
  rewrite (bind_run _ _ _ _ _ (digit_loop_run base upper digit DIGITS i (length sg)
    (Z.of_nat (length sg) + Z.of_nat (length ds)) (sg ++ zeros (256 - length sg)) s
    ltac:(lia) Hd Hi' ltac:(done) Hp ltac:(lia))).
  cbn beta. fold (numeral base i). fold ds. rewrite take_app_length.
  rewrite drop_app_ge by lia. unfold zeros at 1. rewrite drop_replicate, app_assoc.
  replace (256 - length sg - _)%nat with (S (255 - length sg - length ds)) by lia.
  change (replicate (S (255 - length sg - length ds)) 0) with (0 :: zeros (255 - length sg - length ds)).
  apply pad_number_run; [|rewrite !length_app, length_fmap; unfold zeros; cbn [length]; rewrite length_replicate; lia
    |intros _; unfold zeros; by rewrite length_replicate|done].
  apply Forall_app. split; [done|]. apply digits_ok. eapply Forall_impl; [done|]. cbn. lia.
Qed.

Lemma store_sign c (s : pstate) : set_at (zeros 256) 0 c s = Done ([c] ++ zeros 255, s).
Proof. by rewrite set_at_run by (cbn; lia). Qed.

Lemma real_base_bounds base : base_ok base -> 2 <= real_base base <= 16.
Proof. intros [->|[->|[-> | ->]]]; vm_compute; split; discriminate. Qed.

(** A printer that follows the reference for the numbers in [lo, hi). *)
Definition prints (pr : number_printer) (lo hi : Z) : Prop :=
  forall i base plus space w (left zero : bool) (s : pstate),
    lo <= i < hi -> base_ok base -> 0 <= w <= 255 ->
    exists r, pr i (zeros 256) base plus space w left zero s =
      Done (pad_text w left zero (number_text base plus space i) ++ 0 :: r, s).

Lemma int_str_prints : prints __int_str (- 2 ^ 63 + 1) (2 ^ 63).
Proof.
  intros i base plus space w left zero s Hi Hb Hw. unfold __int_str, number_text, sign_text.
  destruct (digit_table_run base s Hb) as (t & Et & Ht). rewrite (bind_run _ _ _ _ _ Et).
  pose proof (real_base_bounds base Hb).
  pose proof (fun sg n A B C => put_number_run (real_base base) (base =? 16) t n sg w left zero s H Ht A B C Hw) as R.
  destruct (Z.ltb_spec i 0).
  - rewrite (bind_run _ _ _ _ _ (store_sign _ s)). cbn beta. rewrite s64_small by lia.
    replace (i * -1) with (Z.abs i) by lia. apply (R (text "-")); [lia|by repeat constructor|done].
  - rewrite Z.abs_eq by lia. destruct plus; [|destruct space].
    + rewrite (bind_run _ _ _ _ _ (store_sign _ s)). apply (R (text "+")); [lia|by repeat constructor|done].
    + rewrite (bind_run _ _ _ _ _ (store_sign _ s)). apply (R (text " ")); [lia|by repeat constructor|done].
    + apply (R []); [lia|by constructor|cbn; lia].
Qed.

Lemma uint_str_prints : prints __uint_str 0 (2 ^ 64).
Proof.
  intros i base plus space w left zero s Hi Hb Hw. unfold __uint_str, number_text, sign_text.
  destruct (digit_table_run base s Hb) as (t & Et & Ht). rewrite (bind_run _ _ _ _ _ Et).
  pose proof (real_base_bounds base Hb).
  pose proof (fun sg A B => put_number_run (real_base base) (base =? 16) t i sg w left zero s H Ht Hi A B Hw) as R.
  rewrite (proj2 (Z.ltb_ge i 0)), Z.abs_eq by lia. destruct plus; [|destruct space].
  - rewrite (bind_run _ _ _ _ _ (store_sign _ s)). apply (R (text "+")); [by repeat constructor|done].
  - rewrite (bind_run _ _ _ _ _ (store_sign _ s)). apply (R (text " ")); [by repeat constructor|done].
  - apply (R []); [by constructor|cbn; lia].
Qed.

(** ** Formats as data

    A format is a sequence of ordinary characters and directives: flags in any order and number, a
    width up to 255, a precision, a length modifier and a conversion.  [format_text] writes it down,
    [render] says what it prints for a list of arguments. *)

Inductive modifier := LNone | Lh | Ll | Lll | Lj | Lz | Lt.
Inductive conversion := Cd | Ci | Cu | Cx | CX | Co | Cp | Cc | Cs.
Record dfield := mk_field {
  f_flags : list Z; f_width : option Z; f_prec : option Z; f_mod : modifier; f_conv : conversion;
}.
Inductive item := Lit (c : Z) | Dir (f : dfield).

Definition modifier_text (m : modifier) : list Z :=
  text match m with LNone => "" | Lh => "h" | Ll => "l" | Lll => "ll" | Lj => "j" | Lz => "z" | Lt => "t" end.
Definition conversion_char (c : conversion) : Z :=
  match c with
  | Cd => chr "d" | Ci => chr "i" | Cu => chr "u" | Cx => chr "x" | CX => chr "X" | Co => chr "o"
  | Cp => chr "p" | Cc => chr "c" | Cs => chr "s"
  end.
Definition decimal (n : Z) : list Z := digit_char false <$> numeral 10 n.
Definition optional (pre : list Z) (n : option Z) : list Z :=
  match n with None => [] | Some n => pre ++ decimal n end.

Definition field_text (f : dfield) : list Z :=
  f_flags f ++ optional [] (f_width f) ++ optional (text ".") (f_prec f) ++ modifier_text (f_mod f)
  ++ [conversion_char (f_conv f)].
Definition item_text (i : item) : list Z :=
  match i with Lit c => [c] | Dir f => chr "%" :: field_text f end.
Definition format_text (fmt : list item) : list Z := concat (item_text <$> fmt).

Definition is_flag (c : Z) : bool :=
  (c =? chr "-") || (c =? chr "+") || (c =? chr "#") || (c =? chr " ") || (c =? chr "0").

Definition field_ok (f : dfield) : Prop :=
  Forall (fun c => is_flag c = true) (f_flags f) /\
  match f_width f with None => True | Some w => 0 < w <= 255 end /\
  match f_prec f with None => True | Some p => 0 <= p < 2 ^ 31 end.
Definition item_ok (i : item) : Prop :=
  match i with Lit c => c <> 0 /\ c <> chr "%" | Dir f => field_ok f end.

(** What the flags ask for. *)
Definition has (c : Z) (l : list Z) : bool := existsb (Z.eqb c) l.
Definition flags_of (l : list Z) : dflags :=
  mk_dflags (has (chr "-") l) (has (chr "+") l) (has (chr "#") l) (has (chr " ") l) (has (chr "0") l).

Definition width_val (f : dfield) : Z := match f_width f with None => 0 | Some w => w end.

Definition signed_value (m : modifier) (v : Z) : Z :=
  match m with LNone => s32 v | Lh => s16 v | _ => s64 v end.
Definition unsigned_value (m : modifier) (v : Z) : Z :=
  match m with LNone => u32 v | Lh => u16 v | _ => u64 v end.

Definition integer_text (f : dfield) (base i : Z) : list Z :=
  let fl := flags_of (f_flags f) in
  pad_text (width_val f) (leftJustify fl) (zeroPad fl) (number_text base (plusSign fl) (spaceNoSign fl) i).

Definition alt (f : dfield) (t : list Z) : list Z := if has (chr "#") (f_flags f) then t else [].

(** The characters of a terminated array. *)
Fixpoint cstring (a : list Z) : option (list Z) :=
  match a with
  | [] => None
  | x :: a' => if truthy x then t ← cstring a'; Some (u8 x :: t) else Some []
  end.

(** What an item prints and the arguments left; [None] where an argument is missing or of another
    kind, for the least signed number, and for an unsigned number from [hi] on. *)
Definition render_item (hi : Z) (i : item) (args : list varg) : option (list Z * list varg) :=
  match i with
  | Lit c => Some ([u8 c], args)
  | Dir f =>
      let unsigned m v k := let i := unsigned_value m v in if i <? hi then Some (k i) else None in
      match f_conv f, args with
      | (Cd | Ci), VInt v :: r =>
          let i := signed_value (f_mod f) v in
          if i =? - 2 ^ 63 then None else Some (integer_text f 10 i, r)
      | Cu, VInt v :: r => unsigned (f_mod f) v (fun i => (integer_text f 10 i, r))
      | Cx, VInt v :: r => unsigned (f_mod f) v (fun i => (alt f (text "0x") ++ integer_text f 17 i, r))
      | CX, VInt v :: r => unsigned (f_mod f) v (fun i => (alt f (text "0x") ++ integer_text f 16 i, r))
      | Co, VInt v :: r => unsigned (f_mod f) v (fun i => (alt f (text "0") ++ integer_text f 8 i, r))
      | Cp, VInt v :: r => unsigned Lz v (fun i => (integer_text f 16 i, r))
      | Cc, VInt v :: r => Some ([u8 v], r)
      | Cs, VStr a :: r => t ← cstring a; Some (t, r)
      | _, _ => None
      end
  end.

Fixpoint render (hi : Z) (fmt : list item) (args : list varg) : option (list Z * list varg) :=
  match fmt with
  | [] => Some ([], args)
  | i :: fmt' =>
      '(t, args) ← render_item hi i args;
      '(t', args) ← render hi fmt' args; Some (t ++ t', args)
  end.

(** *** Conversions between widths *)

Lemma umod_umod x a b : 0 <= a -> a <= b -> (x mod 2 ^ b) mod 2 ^ a = x mod 2 ^ a.
Proof.
  intros Ha Hb. apply Z.mod_mod_divide. exists (2 ^ (b - a)). rewrite <- Z.pow_add_r by lia. f_equal. lia.
Qed.

Lemma smod_umod x k a b : 0 <= a -> a <= b -> ((x + k) mod 2 ^ b - k) mod 2 ^ a = x mod 2 ^ a.
Proof.
  intros Ha Hb. rewrite Zminus_mod, umod_umod, <- Zminus_mod by lia. f_equal. lia.
Qed.

Definition modifier_length (m : modifier) : Z :=
  match m with LNone => 0 | Lh => chr "h" | Ll => chr "l" | Lll => chr "q" | Lj => chr "j" | Lz => chr "z"
  | Lt => chr "t" end.

Lemma unsigned_arg_value m v : unsigned_arg (modifier_length m) v = Some (unsigned_value m v).
Proof.
  destruct m; try reflexivity.
  - change (Some (u16 (u32 v)) = Some (u16 v)). unfold u16, u32. by rewrite umod_umod by lia.
  - change (Some (u64 (s64 v)) = Some (u64 v)). unfold u64, s64. by rewrite smod_umod by lia.
Qed.

Lemma signed_smod x k a b :
  0 <= a -> a <= b -> ((x + k) mod 2 ^ b - k + 2 ^ (a - 1)) mod 2 ^ a = (x + 2 ^ (a - 1)) mod 2 ^ a.
Proof. intros Ha Hb. rewrite Zplus_mod, smod_umod, <- Zplus_mod by lia. done. Qed.

Lemma signed_arg_value m v : signed_arg (modifier_length m) v = Some (signed_value m v).
Proof.
  destruct m; try reflexivity.
  - change (Some (s16 (s32 v)) = Some (s16 v)). unfold s16, s32.
    change (2 ^ 15) with (2 ^ (16 - 1)). by rewrite (signed_smod v (2 ^ 31) 16 32) by lia.
  - change (Some (s64 (u64 v)) = Some (s64 v)). unfold s64, u64.
    by rewrite Zplus_mod, umod_umod, <- Zplus_mod by lia.
Qed.

(** *** The parts of the engine *)

(** The state after some output. *)
Definition at_out (out : list Z) (args : list varg) : pstate :=
  mk_pstate out args (s32 (Z.of_nat (length out))) [].

Lemma s32_succ x : s32 (s32 x + 1) = s32 (x + 1).
Proof.
  unfold s32. replace ((x + 2 ^ 31) mod 2 ^ 32 - 2 ^ 31 + 1 + 2 ^ 31) with ((x + 2 ^ 31) mod 2 ^ 32 + 1) by lia.
  rewrite Zplus_mod_idemp_l. do 2 f_equal. lia.
Qed.

Lemma displayCharacter_run c out args : displayCharacter c (at_out out args) = Done (tt, at_out (out ++ [u8 c]) args).
Proof.
  unfold displayCharacter, modify, at_out. cbn [p_out p_args p_chars p_stores].
  rewrite s32_succ, length_app. cbn [length]. do 4 f_equal. lia.
Qed.

Lemma displayString_run a t out args :
  cstring a = Some t -> displayString a (at_out out args) = Done (tt, at_out (out ++ t) args).
Proof.
  revert t out. induction a as [|x a IH]; intros t out H; [done|]. cbn [cstring displayString] in *.
  destruct (truthy x); [|injection H as <-; by rewrite app_nil_r].
  apply bind_Some in H as (t' & Ht & [= <-]).
  rewrite (bind_run _ _ _ _ _ (displayCharacter_run x out args)), (IH _ _ Ht), <- app_assoc. done.
Qed.

Lemma cstring_str t r : str_ok t -> cstring (t ++ 0 :: r) = Some t.
Proof.
  induction 1 as [|x t Hx Ht IH]; [done|]. cbn [app cstring]. unfold char_ok in Hx.
  unfold truthy. rewrite (proj2 (Z.eqb_neq x 0)) by lia. cbn [negb]. rewrite IH. cbn.
  by rewrite u8_small by lia.
Qed.

(** A character that ends the flags and numbers of a directive. *)
Definition letter (c : Z) : Prop := 58 <= c < 128.

Lemma flag_loop_run fl c f d (s : pstate) :
  Forall (fun c => is_flag c = true) fl -> is_flag c = false ->
  flag_loop (fl ++ c :: f) d s =
    Done ((mk_dflags (leftJustify d || has (chr "-") fl) (plusSign d || has (chr "+") fl)
             (altForm d || has (chr "#") fl) (spaceNoSign d || has (chr " ") fl)
             (zeroPad d || has (chr "0") fl), c :: f), s).
Proof.
  intros Hfl Hc. revert d. induction Hfl as [|x fl Hx Hfl IH]; intros [l p a sp z]; cbn [app flag_loop].
  - unfold is_flag in Hc. destruct (c =? chr "-"), (c =? chr "+"), (c =? chr "#"), (c =? chr " "), (c =? chr "0");
      try discriminate. cbn. by rewrite !orb_false_r.
  - unfold is_flag in Hx. cbn [has existsb]. rewrite !(Z.eqb_sym _ x).
    destruct (Z.eqb_spec x (chr "-")) as [->|]; [|destruct (Z.eqb_spec x (chr "+")) as [->|];
      [|destruct (Z.eqb_spec x (chr "#")) as [->|]; [|destruct (Z.eqb_spec x (chr " ")) as [->|];
      [|destruct (Z.eqb_spec x (chr "0")) as [->|]; [|done]]]]];
      rewrite IH; cbn; by rewrite ?orb_true_r.
Qed.

Lemma isdigit_digit d : 0 <= d < 10 -> truthy (isdigit (digit_char false d)) = true /\ digit_char false d - 48 = d.
Proof.
  intros H. unfold digit_char, isdigit, s8. rewrite (proj2 (Z.ltb_lt d 10)) by lia. change (chr "0") with 48.
  rewrite Z.mod_small by lia. rewrite (proj2 (Z.leb_le _ _)), (proj2 (Z.leb_le _ _)) by lia. split; [done|lia].
Qed.

Lemma isdigit_other c : 0 <= c < 48 \/ 57 < c < 128 -> truthy (isdigit c) = false.
Proof.
  intros H. unfold isdigit, s8. rewrite Z.mod_small by lia.
  destruct (Z.leb_spec 48 (c + 2 ^ 7 - 2 ^ 7)), (Z.leb_spec (c + 2 ^ 7 - 2 ^ 7) 57); try done. lia.
Qed.

Lemma fold_ge ds acc :
  Forall (fun d => 0 <= d < 10) ds -> 0 <= acc -> acc <= fold_left (fun a d => a * 10 + d) ds acc.
Proof. intros H. revert acc. induction H; intros acc Ha; cbn; [lia|]. specialize (IHForall (acc * 10 + x)). lia. Qed.

Lemma number_loop_run ds acc c f (s : pstate) :
  Forall (fun d => 0 <= d < 10) ds -> 0 <= acc -> fold_left (fun a d => a * 10 + d) ds acc < 2 ^ 31 ->
  truthy (isdigit c) = false ->
  number_loop ((digit_char false <$> ds) ++ c :: f) acc s =
    Done ((fold_left (fun a d => a * 10 + d) ds acc, c :: f), s).
Proof.
  intros Hds. revert acc. induction Hds as [|d ds Hd Hds IH]; intros acc Ha Hv Hc;
    cbn [fmap list_fmap app number_loop fold_left] in *.
  - by rewrite Hc.
  - destruct (isdigit_digit d Hd) as [-> ->]. pose proof (fold_ge ds (acc * 10 + d) Hds ltac:(lia)).
    rewrite (s32_small (acc * 10)), s32_small by lia. apply IH; (lia || done).
Qed.

Lemma decimal_loop_run n c f (s : pstate) :
  0 <= n < 2 ^ 31 -> truthy (isdigit c) = false ->
  number_loop (decimal n ++ c :: f) 0 s = Done ((n, c :: f), s).
Proof.
  intros Hn Hc. destruct (numeral_n_spec 10 DIGITS n) as (Hv & Hr & _); [lia|change (Z.of_nat DIGITS) with 64; lia|].
  unfold numeral_value in Hv. unfold decimal, numeral.
  rewrite number_loop_run; [by rewrite Hv|done|lia|rewrite Hv; lia|done].
Qed.

Lemma field_head f rest :
  exists c t, modifier_text (f_mod f) ++ conversion_char (f_conv f) :: rest = c :: t /\
    letter c /\ is_flag c = false /\ (c =? chr "*") = false /\ (c =? chr ".") = false.
Proof. destruct f as [? ? ? m c]; destruct m, c; do 2 eexists; (split; [reflexivity|]); unfold letter; repeat split; by vm_compute. Qed.

Lemma letter_not_digit c : letter c -> truthy (isdigit c) = false.
Proof. intros H. apply isdigit_other. unfold letter in H. lia. Qed.

Lemma star_none c t n (s : pstate) : (c =? chr "*") = false -> star (c :: t) n s = Done ((n, c :: t), s).
Proof. intros H. unfold star. by rewrite H. Qed.

Lemma width_run w c t (s : pstate) :
  match w with None => True | Some w => 0 < w <= 255 end ->
  truthy (isdigit c) = false -> (c =? chr "*") = false ->
  width_of (optional [] w ++ c :: t) s = Done ((match w with None => 0 | Some w => w end, c :: t), s).
Proof.
  intros Hw Hc Hs. unfold width_of.
  assert (E : number_loop (optional [] w ++ c :: t) 0 s =
    Done ((match w with None => 0 | Some w => w end, c :: t), s)).
  { destruct w as [w|]; cbn [optional app]; [by apply decimal_loop_run; [lia|]|]. cbn [number_loop]. by rewrite Hc. }
  rewrite (bind_run _ _ _ _ _ E). by apply star_none.
Qed.

Lemma precision_run p c t (s : pstate) :
  match p with None => True | Some p => 0 <= p < 2 ^ 31 end ->
  truthy (isdigit c) = false -> (c =? chr "*") = false -> (c =? chr ".") = false ->
  precision_of (optional (text ".") p ++ c :: t) s = Done ((match p with None => 6 | Some p => p end, c :: t), s).
Proof.
  intros Hp Hc Hs Hd. destruct p as [p|]; cbn [optional app text].
  - cbn [precision_of text fmap list_fmap list_ascii_of_string app]. rewrite Z.eqb_refl.
    rewrite (bind_run _ _ _ _ _ (decimal_loop_run p c t s Hp Hc)). by apply star_none.
  - unfold precision_of. by rewrite Hd.
Qed.

Lemma length_mod_run m c rest (s : pstate) :
  length_mod (modifier_text m ++ conversion_char c :: rest) s =
    Done ((modifier_length m, conversion_char c :: rest), s).
Proof. destruct m, c; reflexivity. Qed.

(** The first character of what follows the flags is not a flag. *)
Lemma after_flags w p c t :
  match w with None => True | Some w => 0 < w <= 255 end -> is_flag c = false ->
  exists c' t', optional [] w ++ optional (text ".") p ++ c :: t = c' :: t' /\ is_flag c' = false.
Proof.
  intros Hw Hc. destruct w as [w|]; [|destruct p; do 2 eexists; (split; [reflexivity|done])].
  destruct (numeral_n_spec 10 DIGITS w) as (Hv & Hr & Hh & _ & Hne); [lia|change (Z.of_nat DIGITS) with 64; lia|].
  unfold optional, decimal, numeral. destruct (numeral_n DIGITS 10 w) as [|d ds]; [by specialize (Hne ltac:(done))|].
  cbn [app fmap list_fmap]. do 2 eexists. split; [reflexivity|]. apply Forall_cons_1, proj1 in Hr. cbn [hd] in Hh.
  unfold digit_char, is_flag. rewrite (proj2 (Z.ltb_lt d 10)) by lia.
  assert (d <> 0) by (intros ->; lia). change (chr "0") with 48. change (chr "-") with 45.
  change (chr "+") with 43. change (chr "#") with 35. change (chr " ") with 32. lia.
Qed.

Section Rendered.
Context (pru : number_printer) (fc : directive -> list Z -> P (Z * list Z)) (hi : Z).
Context (Hpru : prints pru 0 hi).

Lemma va_int_run v args out : va_int (at_out out (VInt v :: args)) = Done (v, at_out out args).
Proof. done. Qed.

Lemma number_text_ok base plus space i :
  base_ok base -> Z.abs i < 2 ^ 64 -> str_ok (number_text base plus space i).
Proof.
  intros Hb Hi. apply Forall_app. split; [apply sign_ok|]. apply digits_ok.
  pose proof (real_base_bounds base Hb).
  destruct (numeral_n_spec (real_base base) DIGITS (Z.abs i)) as (_ & Hr & _); [lia|apply numeral_small_base; lia|].
  eapply Forall_impl; [done|]. cbn. lia.
Qed.

Lemma pad_text_ok w left zero t : str_ok t -> str_ok (pad_text w left zero t).
Proof. intros H. unfold pad_text. destruct left; apply Forall_app; split; first [done|apply pad_ok]. Qed.

Lemma print_integer_run (pr : number_printer) arg lo up base f prec v i out args :
  prints pr lo up -> lo <= i < up -> Z.abs i < 2 ^ 64 -> base_ok base -> 0 <= width_val f <= 255 ->
  (forall v, arg (modifier_length (f_mod f)) v <> None) -> arg (modifier_length (f_mod f)) v = Some i ->
  forall m sp, modifier_length (f_mod f) = m ->
  exists buf, print_integer pr arg base (mk_directive (flags_of (f_flags f)) (width_val f) prec m sp)
    (zeros 256) (at_out out (VInt v :: args)) = Done (buf, at_out (out ++ integer_text f base i) args).
Proof.
  intros Hpr Hi Ha Hb Hw Hne Harg m sp <-. unfold print_integer. cbn [d_length d_flags lengthSpec].
  destruct (arg _ 0) eqn:E0; [|by apply Hne in E0]. clear E0.
  rewrite (bind_run _ _ _ _ _ (va_int_run v args out)), Harg.
  destruct (Hpr i base (plusSign (flags_of (f_flags f))) (spaceNoSign (flags_of (f_flags f))) (width_val f)
    (leftJustify (flags_of (f_flags f))) (zeroPad (flags_of (f_flags f))) (at_out out args) Hi Hb Hw) as [r Er].
  unfold of_option at 1. unfold mbind at 1, M_bind at 1. cbn beta iota zeta.
  rewrite (bind_run _ _ _ _ _ Er).
  rewrite (bind_run _ _ _ _ _ (displayString_run _ _ out args
    (cstring_str _ r (pad_text_ok _ _ _ _ (number_text_ok _ _ _ _ Hb Ha))))).
  by eexists.
Qed.

(** From the specifier on, with the directive parsed. *)
Definition finish_directive (d : directive) (f' : list Z) : P (list Z) :=
  '(d, base) ← rewrite_spec d;
  '(expo, buf) ← switch_spec pru fc d base (zeros 256);
  _ ← print_expo d expo buf;
  mret f'.

Lemma run_directive_parse f rest (s : pstate) :
  field_ok f ->
  run_directive pru fc (field_text f ++ rest) s =
    finish_directive (mk_directive (flags_of (f_flags f)) (width_val f)
              (match f_prec f with None => 6 | Some p => p end) (modifier_length (f_mod f))
              (conversion_char (f_conv f))) rest s.
Proof.
  intros (Hfl & Hw & Hp). unfold run_directive, field_text. rewrite <- !app_assoc. cbn [app].
  destruct (field_head f rest) as (c & t & E & Hl & Hc & Hs & Hd).
  pose proof (length_mod_run (f_mod f) (f_conv f) rest s) as HL. rewrite E in *.
  destruct (after_flags (f_width f) (f_prec f) c t Hw Hc) as (c' & t' & E' & Hc'). rewrite E'.
  rewrite (bind_run _ _ _ _ _ (flag_loop_run _ c' t' no_flags s Hfl Hc')). cbn beta iota. rewrite <- E'.
  assert (W : width_of (optional [] (f_width f) ++ optional (text ".") (f_prec f) ++ c :: t) s =
    Done ((width_val f, optional (text ".") (f_prec f) ++ c :: t), s)).
  { destruct (f_prec f) as [p|]; cbn [optional app].
    - apply (width_run _ (chr ".")); done.
    - apply width_run; [done|by apply letter_not_digit|done]. }
  rewrite (bind_run _ _ _ _ _ W). cbn beta iota.
  rewrite (bind_run _ _ _ _ _ (precision_run _ c t s Hp (letter_not_digit c Hl) Hs Hd)). cbn beta iota.
  rewrite (bind_run _ _ _ _ _ HL). reflexivity.
Qed.

(** The prefix of the alternative form, when the flag asks for it. *)
Lemma alt_run f (t : list Z) out args :
  str_ok t ->
  when (altForm (flags_of (f_flags f))) (displayString (t ++ [0])) (at_out out args) =
    Done (tt, at_out (out ++ alt f t) args).
Proof.
  intros Ht. unfold when, alt, flags_of. cbn [altForm]. destruct (has (chr "#") (f_flags f)).
  - apply displayString_run. by apply cstring_str.
  - by rewrite app_nil_r.
Qed.

Lemma unsigned_run f prec base v out args m sp :
  base_ok base -> 0 <= width_val f <= 255 -> unsigned_value m v < hi -> hi <= 2 ^ 64 ->
  exists buf, print_integer pru unsigned_arg base
      (mk_directive (flags_of (f_flags f)) (width_val f) prec (modifier_length m) sp)
      (zeros 256) (at_out out (VInt v :: args)) =
    Done (buf, at_out (out ++ integer_text f base (unsigned_value m v)) args).
Proof.
  intros Hb Hw Hv Hhi. assert (0 <= unsigned_value m v).
  { destruct m; cbn [unsigned_value]; apply Z.mod_pos_bound; lia. }
  pose proof (print_integer_run pru unsigned_arg 0 hi base
    (mk_field (f_flags f) (f_width f) (f_prec f) m (f_conv f)) prec v (unsigned_value m v) out args Hpru) as R.
  apply R; try done; try lia; cbn [f_mod]; [|apply unsigned_arg_value].
  intros v'. by rewrite unsigned_arg_value.
Qed.

Lemma signed_run f prec v out args sp :
  0 <= width_val f <= 255 -> signed_value (f_mod f) v <> - 2 ^ 63 ->
  exists buf, print_integer __int_str signed_arg 10
      (mk_directive (flags_of (f_flags f)) (width_val f) prec (modifier_length (f_mod f)) sp)
      (zeros 256) (at_out out (VInt v :: args)) =
    Done (buf, at_out (out ++ integer_text f 10 (signed_value (f_mod f) v)) args).
Proof.
  intros Hw Hv. assert (- 2 ^ 63 <= signed_value (f_mod f) v < 2 ^ 63).
  { destruct (f_mod f); cbn [signed_value]; unfold s16, s32, s64;
      match goal with |- context [?a mod ?b] => pose proof (Z.mod_pos_bound a b ltac:(lia)) end; lia. }
  apply (print_integer_run __int_str signed_arg _ _ 10 f prec v _ out args int_str_prints); try done; try lia.
  - by right; left.
  - intros v'. by rewrite signed_arg_value.
  - apply signed_arg_value.
Qed.

Lemma u8_s32 v : u8 (s32 v) = u8 v.
Proof. unfold u8, s32. by rewrite smod_umod by lia. Qed.

Lemma finish_of d d' base rest s s1 s2 expo buf :
  rewrite_spec d s = Done ((d', base), s1) ->
  switch_spec pru fc d' base (zeros 256) s1 = Done ((expo, buf), s2) ->
  (specifier d' =? chr "e") || (specifier d' =? chr "E") = false ->
  finish_directive d rest s = Done (rest, s2).
Proof.
  intros Hr Hs He. unfold finish_directive. rewrite (bind_run _ _ _ _ _ Hr). cbn beta iota.
  rewrite (bind_run _ _ _ _ _ Hs). cbn beta iota. unfold print_expo. by rewrite He.
Qed.

(** One case of [switch_spec], the conversion being known. *)
Lemma switch_number (pr : number_printer) arg base0 base (sp : Z) fl w prec m s s1 buf s' t :
  (sp = chr "u" /\ pr = pru /\ arg = unsigned_arg /\ base0 = base /\ t = mret tt) \/
  (sp = chr "x" /\ pr = pru /\ arg = unsigned_arg /\ base0 = 10 /\ base = 17 /\
     t = when (altForm fl) (displayString (text "0x" ++ [0]))) \/
  (sp = chr "X" /\ pr = pru /\ arg = unsigned_arg /\ base0 = 10 /\ base = 16 /\
     t = when (altForm fl) (displayString (text "0x" ++ [0]))) \/
  ((sp = chr "d" \/ sp = chr "i") /\ pr = __int_str /\ arg = signed_arg /\ base0 = base /\ t = mret tt) ->
  t s = Done (tt, s1) ->
  print_integer pr arg base (mk_directive fl w prec m sp) (zeros 256) s1 = Done (buf, s') ->
  switch_spec pru fc (mk_directive fl w prec m sp) base0 (zeros 256) s = Done ((0, buf), s').
Proof.
  intros Hc Ht H.
  assert (E : switch_spec pru fc (mk_directive fl w prec m sp) base0 (zeros 256) s =
    (_ ← t; b ← print_integer pr arg base (mk_directive fl w prec m sp) (zeros 256); mret (0, b)) s)
    by (destruct_or! Hc; destruct_and! Hc; destruct_or?; subst; reflexivity).
  rewrite E, (bind_run _ _ _ _ _ Ht). by rewrite (bind_run _ _ _ _ _ H).
Qed.

(** The directive a field stands for, with its modifier and conversion replaced. *)
Abbreviation dir_with f prec m sp :=
  (mk_directive (flags_of (f_flags f)) (width_val f) prec (modifier_length m) sp).

Lemma finish_signed f prec rest out v r sp :
  sp = chr "d" \/ sp = chr "i" -> 0 <= width_val f <= 255 -> signed_value (f_mod f) v <> - 2 ^ 63 ->
  finish_directive (dir_with f prec (f_mod f) sp) rest (at_out out (VInt v :: r)) =
    Done (rest, at_out (out ++ integer_text f 10 (signed_value (f_mod f) v)) r).
Proof.
  intros Hsp Hw Hv. destruct (signed_run f prec v out r sp Hw Hv) as [buf E].
  eapply finish_of; [|eapply (switch_number __int_str signed_arg 10 10 _ _ _ _ _ _ _ buf _ (mret tt)); [|done|exact E]|];
    [destruct Hsp as [-> | ->]; reflexivity|by do 3 right|destruct Hsp as [-> | ->]; reflexivity].
Qed.

Lemma finish_hex f prec rest out v r sp base :
  sp = chr "x" /\ base = 17 \/ sp = chr "X" /\ base = 16 ->
  0 <= width_val f <= 255 -> unsigned_value (f_mod f) v < hi -> hi <= 2 ^ 64 ->
  finish_directive (dir_with f prec (f_mod f) sp) rest (at_out out (VInt v :: r)) =
    Done (rest, at_out (out ++ alt f (text "0x") ++ integer_text f base (unsigned_value (f_mod f) v)) r).
Proof.
  intros Hsp Hw Hv Hhi. rewrite app_assoc.
  destruct (unsigned_run f prec base v (out ++ alt f (text "0x")) r (f_mod f) sp) as [buf E]; try done.
  { unfold base_ok. destruct Hsp as [[_ ->]|[_ ->]]; tauto. }
  eapply finish_of;
    [|eapply (switch_number pru unsigned_arg 10 base); [|apply (alt_run f (text "0x")); by repeat constructor|exact E]|];
    destruct Hsp as [[-> ->]|[-> ->]]; try reflexivity; [by right; left|by right; right; left].
Qed.

(** [u], [o] and [p]: [d'] is the directive after the rewriting to [u]. *)
Lemma finish_unsigned f prec rest out out' v r sp m0 m base :
  rewrite_spec (dir_with f prec m0 sp) (at_out out (VInt v :: r)) =
    Done ((dir_with f prec m (chr "u"), base), at_out out' (VInt v :: r)) ->
  base_ok base -> 0 <= width_val f <= 255 -> unsigned_value m v < hi -> hi <= 2 ^ 64 ->
  finish_directive (dir_with f prec m0 sp) rest (at_out out (VInt v :: r)) =
    Done (rest, at_out (out' ++ integer_text f base (unsigned_value m v)) r).
Proof.
  intros Hr Hb Hw Hv Hhi. destruct (unsigned_run f prec base v out' r m (chr "u")) as [buf E]; try done.
  eapply finish_of; [exact Hr|eapply (switch_number pru unsigned_arg base base); [by left|done|exact E]|reflexivity].
Qed.

Lemma finish_rendered f prec rest out args t args' :
  0 <= width_val f <= 255 -> hi <= 2 ^ 64 -> render_item hi (Dir f) args = Some (t, args') ->
  finish_directive (dir_with f prec (f_mod f) (conversion_char (f_conv f))) rest (at_out out args) =
    Done (rest, at_out (out ++ t) args').
Proof.
  intros Hw Hhi R. cbn [render_item] in R. cbv zeta in R.
  assert (Hbase : base_ok 8 /\ base_ok 10 /\ base_ok 16) by (unfold base_ok; lia). destruct Hbase as (B8 & B10 & B16).
  destruct (f_conv f); cbn [conversion_char]; destruct args as [|[v|a|x] r]; try discriminate.
  1,2: destruct (Z.eqb_spec (signed_value (f_mod f) v) (- 2 ^ 63)); [discriminate|]; injection R as <- <-;
    apply finish_signed; auto.
  1-5: match type of R with context [?a <? ?b] => destruct (Z.ltb_spec a b) end; [|discriminate]; injection R as <- <-.
  - by apply (finish_unsigned f prec rest out out v r (chr "u") (f_mod f) (f_mod f) 10).
  - by apply finish_hex; [left|..].
  - by apply finish_hex; [right|..].
  - rewrite app_assoc. apply (finish_unsigned f prec rest out _ v r (chr "o") (f_mod f) (f_mod f) 8); try done.
    unfold rewrite_spec. change (chr "o" =? chr "o") with true. cbv iota.
    by rewrite (bind_run _ _ _ _ _ (alt_run f (text "0") out (VInt v :: r) ltac:(by repeat constructor))).
  - by apply (finish_unsigned f prec rest out out v r (chr "p") (f_mod f) Lz 16).
  - injection R as <- <-. eapply (finish_of _ _ 10); [reflexivity| |reflexivity].
    transitivity ((_ ← displayCharacter (s32 v); mret (0, zeros 256)) (at_out out r)); [reflexivity|].
    by rewrite (bind_run _ _ _ _ _ (displayCharacter_run (s32 v) out r)), u8_s32.
  - apply bind_Some in R as (t' & Ht & [= <- <-]). eapply (finish_of _ _ 10); [reflexivity| |reflexivity].
    transitivity ((_ ← displayString a; mret (0, zeros 256)) (at_out out r)); [reflexivity|].
    by rewrite (bind_run _ _ _ _ _ (displayString_run a t' out r Ht)).
Qed.

Lemma format_loop_run fmt args out t args' rest fuel :
  hi <= 2 ^ 64 -> Forall item_ok fmt -> render hi fmt args = Some (t, args') ->
  (length (format_text fmt) < fuel)%nat ->
  format_loop pru fc fuel (format_text fmt ++ 0 :: rest) (at_out out args) = Done (tt, at_out (out ++ t) args').
Proof.
  intros Hhi Hok. revert args out t fuel. induction Hok as [|i fmt Hi Hok IH]; intros args out t fuel R Hf.
  - injection R as <- <-. destruct fuel as [|n]; [cbn in Hf; lia|]. cbn. by rewrite app_nil_r.
  - cbn [render] in R. apply bind_Some in R as ([t1 args1] & R1 & R).
    apply bind_Some in R as ([t2 args2] & R2 & [= <- <-]). destruct fuel as [|n]; [cbn in Hf; lia|].
    change (format_text (i :: fmt)) with (item_text i ++ format_text fmt) in *. rewrite length_app in Hf.
    rewrite app_assoc. destruct i as [c|f]; cbn [item_text app length] in *.
    + destruct Hi as [Hc Hp]. injection R1 as <- <-. cbn [format_loop]. unfold truthy.
      rewrite (proj2 (Z.eqb_neq c 0)), (proj2 (Z.eqb_neq c (chr "%"))) by done. cbn [negb].
      rewrite (bind_run _ _ _ _ _ (displayCharacter_run c out args)). apply IH; [done|lia].
    + cbn [format_loop]. change (negb (truthy (chr "%"))) with false. rewrite Z.eqb_refl. cbv iota.
      rewrite <- app_assoc.
      assert (W : 0 <= width_val f <= 255)
        by (destruct Hi as (_ & Hw & _); unfold width_val; destruct (f_width f); lia).
      assert (E : run_directive pru fc (field_text f ++ format_text fmt ++ 0 :: rest) (at_out out args) =
        Done (format_text fmt ++ 0 :: rest, at_out (out ++ t1) args1))
        by (rewrite run_directive_parse by done; by apply finish_rendered).
      rewrite (bind_run _ _ _ _ _ E). apply IH; [done|lia].
Qed.

Lemma print_format_run fmt args t args' rest :
  hi <= 2 ^ 64 -> Forall item_ok fmt -> render hi fmt args = Some (t, args') ->
  print_format pru fc (format_text fmt ++ 0 :: rest) args = Done (at_out t args').
Proof.
  intros Hhi Hok R. unfold print_format. change (mk_pstate [] args 0 []) with (at_out [] args).
  rewrite (format_loop_run fmt args [] t args' rest _ Hhi Hok R); [done|]. rewrite length_app. cbn [length]. lia.
Qed.
End Rendered.

(** ** The kernel's printf *)

(** C22: [printf] prints a format the way the format reads: for every format made of ordinary
    characters and of [d i u x X o p c s] directives with any flags, a width up to 255, a precision
    and one of the modifiers [h l ll j z t], and for arguments of the kinds it asks for, the call
    returns after printing exactly what [render] says - numbers in positional notation with their
    sign, prefix and padding, strings up to their terminator - with each argument read once and the
    number of characters as the result. *)
Theorem printf_renders (fmt : list item) (args args' : list varg) (t rest : list Z) :
  Forall item_ok fmt -> render (2 ^ 64) fmt args = Some (t, args') ->
  Screen.printf false (format_text fmt ++ 0 :: rest) args =
    Done (mk_pstate t args' (s32 (Z.of_nat (length t))) []).
Proof.
  intros Hok R. unfold Screen.printf, Screen.vprintf.
  exact (print_format_run __uint_str Screen.no_float (2 ^ 64) uint_str_prints fmt args t args' rest
    ltac:(lia) Hok R).
Qed.

(** A sample: [%-4d|%#x %s]. *)
Definition sample_format : list item :=
  [Dir (mk_field (text "-") (Some 4) None LNone Cd); Lit (chr "|");
   Dir (mk_field (text "#") None None Ll Cx); Lit (chr " "); Dir (mk_field [] None None LNone Cs)].
Definition sample_args : list varg := [VInt (2 ^ 64 - 7); VInt 48879; VStr (text "ok" ++ [0])].

Lemma printf_renders_witness :
  Screen.printf false (text "%-4d|%#lx %s" ++ [0]) sample_args =
    Done (mk_pstate (text "-7  |0xbeef ok") [] 14 []).
Proof.
  apply (printf_renders sample_format sample_args [] (text "-7  |0xbeef ok") []); [|reflexivity].
  repeat constructor; vm_compute; done.
Defined.

(** a printed numeral is the positional notation of the number: its digits are below the base,
    it has no leading zero, and reading it back gives the number; so [__uint_str] never prints the
    same text for two numbers. *)
Theorem numeral_positional (base n : Z) :
  2 <= base -> 0 <= n < 2 ^ 64 ->
  numeral_value base (numeral base n) = n /\
  Forall (fun d => 0 <= d < base) (numeral base n) /\
  (hd 0 (numeral base n) = 0 -> n = 0) /\ numeral base n <> [].
Proof.
  intros Hb Hn. destruct (numeral_n_spec base DIGITS n Hb (numeral_small_base _ _ Hb Hn)) as (? & ? & ? & _ & Hne).
  auto.
Qed.

Lemma numeral_positional_witness : numeral 16 48879 = [11; 14; 14; 15] /\ numeral_value 16 (numeral 16 48879) = 48879.
Proof. split; [reflexivity|]. apply (numeral_positional 16 48879); lia. Defined.

(** the forms the engine does not handle: [%%] prints nothing; the second [h] of [%hh] is taken
    for the specifier, so [%hhu] prints the letter [u] and leaves its argument to the next directive;
    zero padding goes before the sign; left-justified zero padding multiplies the number; the least
    [long] indexes the digits with a negative number; a format that ends in [%] is read past its
    terminator. *)
Theorem printf_unhandled :
  Screen.printf false (text "100%%" ++ [0]) [] = Done (mk_pstate (text "100") [] 3 []) /\
  Screen.printf false (text "%hhu %u" ++ [0]) [VInt 5; VInt 6] = Done (mk_pstate (text "u 5") [VInt 6] 3 []) /\
  Screen.printf false (text "%05d" ++ [0]) [VInt (-5)] = Done (mk_pstate (text "000-5") [] 5 []) /\
  Screen.printf false (text "%-05d" ++ [0]) [VInt 5] = Done (mk_pstate (text "50000") [] 5 []) /\
  Screen.printf false (text "%ld" ++ [0]) [VInt (- 2 ^ 63)] = Fault /\
  Screen.printf false (text "%" ++ [0]) [] = Fault.
Proof. repeat split; vm_compute; reflexivity. Qed.
