(* ===== verification/LibcStd.v ===== *)
(** * The user library's stdio.c, stdlib.c, errno.c and crt1.c

    [Stdio] instantiates the engine of Printf.v: unsigned numbers go through the signed routine,
    characters are written to a descriptor, and there are floating point conversions, computed with
    the binary64 arithmetic of the Standard Library's [SpecFloat].  [Stdlib] has the conversions
    from text and the environment.

    [environ] is the array of its entries, [None] the NULL pointer; an entry is the bytes of its
    string.  What [malloc] leaves in a new block is an argument of the functions that rely on it. *)
From Stdlib Require Import Ascii String SpecFloat.
From S2P Require Import Prelude CString Printf.
Open Scope Z_scope.

(** ** Doubles *)

Definition prec : Z := 53.
Definition emax : Z := 1024.
Definition dbl (z : Z) : spec_float := binary_normalize prec emax z 0 false.
Definition half : spec_float := SFdiv prec emax (dbl 1) (dbl 2).
Definition fadd := SFadd prec emax.
Definition fsub := SFsub prec emax.
Definition fmul := SFmul prec emax.
Definition fdiv := SFdiv prec emax.

(** Conversion to an integer type: towards zero, undefined outside its range. *)
Definition trunc (d : spec_float) : option Z :=
  match d with
  | S754_zero _ => Some 0
  | S754_finite s m e =>
      let a := if 0 <=? e then Z.pos m * 2 ^ e else Z.pos m / 2 ^ (- e) in
      Some (if s then - a else a)
  | _ => None
  end.
Definition to_int (bits : Z) (d : spec_float) : P Z :=
  match trunc d with
  | Some z => if (- 2 ^ (bits - 1) <=? z) && (z <? 2 ^ (bits - 1)) then mret z else fault
  | None => fault
  end.

(** ** stdio.c *)
Module Stdio.

(** [while (emode && floating >= 10)]: a finite double is below 10 after at most 309 divisions;
    an infinity never is. *)
Fixpoint expo_loop (fuel : nat) (emode : bool) (floating : spec_float) (expo : Z) : P (spec_float * Z) :=
  match fuel with
  | O => out_of_fuel
  | S n =>
      if emode && SFleb (dbl 10) floating then expo_loop n emode (fdiv floating (dbl 10)) (expo + 1)
      else mret (floating, expo)
  end.

(** [for (int i = 0; i < precSpec; ++i) floating *= 10;] *)
Fixpoint scale_loop (n : nat) (floating : spec_float) : spec_float :=
  match n with O => floating | S n' => scale_loop n' (fmul floating (dbl 10)) end.

Definition print_float (emode : bool) (d : directive) (buf : list Z) : P (Z * list Z) :=
  floating ← va_double;
  '(floating, expo) ← expo_loop 400 emode floating 0;
  let f := d_flags d in
  let form := s32 (lengthSpec d - precSpec d - expo - (if truthy (precSpec d) || altForm f then 1 else 0)) in
  let form := if emode then s32 (form - 4) else form in
  let form := if form <? 0 then 0 else form in
  whole ← to_int 64 floating;
  buf ← __int_str whole buf 10 (plusSign f) (spaceNoSign f) form (leftJustify f) (zeroPad f);
  _ ← displayString buf;
  part ← to_int 32 floating;
  let floating := scale_loop (Z.to_nat (precSpec d)) (fsub floating (dbl part)) in
  decPlaces ← to_int 64 (fadd floating half);
  if truthy (precSpec d) then
    _ ← displayCharacter (chr ".");
    buf ← __int_str decPlaces buf 10 false false 0 false false;
    buf ← set_at buf (precSpec d) 0;
    _ ← displayString buf;
    mret (expo, buf)
  else _ ← when (altForm f) (displayCharacter (chr ".")); mret (expo, buf).

(** The cases [e E f F g G]; [a], [A] and everything else print nothing. *)
Definition float_case (d : directive) (buf : list Z) : P (Z * list Z) :=
  let sp := specifier d in
  if (sp =? chr "e") || (sp =? chr "E") then print_float true d buf
  else if (sp =? chr "f") || (sp =? chr "F") || (sp =? chr "g") || (sp =? chr "G") then print_float false d buf
  else mret (0, buf).

(** The number passed to [__int_str] is converted to [intmax_t]. *)
Definition print_unsigned : number_printer := fun i => __int_str (s64 i).

(** [__int_vprintf]: the characters written to [fd] are [p_out]. *)
Definition __int_vprintf (format : list Z) (list : list varg) : outcome pstate :=
  print_format print_unsigned float_case format list.

Definition vprintf (fd : Z) (format : list Z) (args : list varg) : outcome (Z * pstate) :=
  match __int_vprintf format args with Done s => Done (fd, s) | Halt => Halt | Fault => Fault | Fuel => Fuel end.
Definition fprintf (fd : Z) (format : list Z) (args : list varg) : outcome (Z * pstate) := vprintf fd format args.
Definition STDOUT_FILENO : Z := 1.
Definition STDERR_FILENO : Z := 2.
Definition printf (format : list Z) (args : list varg) : outcome (Z * pstate) := vprintf STDOUT_FILENO format args.

(** errno.c *)
Definition __sys_errlist : list (option string) :=
  [Some "No error"; Some "Argument list too long"; Some "Permission denied"; Some "Address already in use"; 
   Some "Cannot assign requested address"; Some "Address family not supported by protocol"; Some "Try again"; 
   Some "Operation already in progress"; Some "Bad file number"; Some "Not a data message"; 
   Some "Device or resource busy"; Some "Operation Canceled"; Some "No child processes"; 
   Some "Software caused connection abort"; Some "Connection refused"; Some "Connection reset by peer"; 
   Some "Connection reset by peer"; Some "Destination address required"; 
   Some "Math argument out of domain of func"; Some "Quota exceeded"; Some "File exists"; Some "Bad address"; 
   Some "File too large"; Some "No route to host"; Some "Identifier removed"; Some "Illegal byte sequence"; 
   Some "Operation now in progress"; Some "Interrupted system call"; Some "Invalid argument"; 
   Some "I/O error"; Some "Transport endpoint is already connected"; Some "Is a directory"; 
   Some "Too many symbolic links encountered"; Some "Too many open files"; Some "Too many links"; 
   Some "Too many links"; Some "Multihop attempted"; Some "File name too long"; Some "Network is down"; 
   Some "Network dropped connection because of reset"; Some "Network is unreachable"; 
   Some "File table overflow"; Some "No buffer space available"; Some "No data available"; 
   Some "No such device"; Some "No such file or directory"; Some "Exec format error"; 
   Some "No record locks available"; Some "Link has been severed"; Some "Out of memory"; 
   Some "No message of desired type"; Some "Protocol not available"; Some "No space left on device"; 
   Some "Out of streams resources"; Some "Device not a stream"; Some "Function not implemented"; 
   Some "Transport endpoint is not connected"; Some "Not a directory"; Some "Directory not empty"; 
   Some "Socket operation on non-socket"; None; Some "Not a typewriter"; Some "No such device or address"; 
   Some "Operation not supported on transport endpoint"; Some "Not a typewriter"; 
   Some "Operation not permitted"; Some "Broken pipe"; Some "Protocol error"; Some "Protocol not supported"; 
   Some "Protocol wrong type for socket"; Some "Math result not representable"; Some "Read-only file system"; 
   Some "Illegal seek"; Some "No such process"; Some "Stale NFS file handle"; Some "Timer expired"; 
   Some "Connection timed out"; Some "Text file busy"; None; Some "Cross-device link"]%string.

(** [__sys_errlist[errno]] as an argument: a missing entry is a NULL pointer. *)
Definition errmsg (errno : Z) : option varg :=
  if 0 <=? errno then
    e ← __sys_errlist !! Z.to_nat errno;
    Some (match e with Some t => VStr (text t ++ [0]) | None => VInt 0 end)
  else None.

(** [perror]; [str] is [None] for NULL. *)
Definition perror (errno : Z) (str : option (list Z)) : outcome (Z * pstate) :=
  match errmsg errno with
  | None => Fault
  | Some e =>
      match str with
      | Some (c :: r) =>
          if truthy c then fprintf STDERR_FILENO (text "%s: %s" ++ [10; 0]) [VStr (c :: r); e]
          else fprintf STDERR_FILENO (text "%s" ++ [10; 0]) [e]
      | Some [] => Fault
      | None => fprintf STDERR_FILENO (text "%s" ++ [10; 0]) [e]
      end
  end.
End Stdio.

(** ** stdlib.c *)
Module Stdlib.

(** [k = (k << 3) + (k << 1) + *p - '0'] in a type whose conversion is [wrap]. *)
Fixpoint digits_loop (wrap : Z -> Z) (p : list Z) (k : Z) : option Z :=
  match p with
  | [] => None
  | c :: p' =>
      if truthy c then
        digits_loop wrap p' (wrap (wrap (wrap (wrap (Z.shiftl k 3) + wrap (Z.shiftl k 1)) + s8 c) - 48))
      else Some k
  end.
Definition atoi (p : list Z) : option Z := digits_loop s32 p 0.
Definition atol (p : list Z) : option Z := digits_loop s64 p 0.
Definition atoll (p : list Z) : option Z := digits_loop s64 p 0.

Definition abs (i : Z) : Z := if i <? 0 then s32 (- i) else i.

Fixpoint atof_loop (arr : list Z) (afterdot : bool) (scale val : spec_float) : option spec_float :=
  match arr with
  | [] => None
  | c :: arr' =>
      if negb (truthy c) then Some val
      else if afterdot then
        let scale := fdiv scale (dbl 10) in
        atof_loop arr' afterdot scale (fadd val (fmul (dbl (s8 c - 48)) scale))
      else if c =? chr "." then atof_loop arr' true scale val
      else atof_loop arr' afterdot scale (fadd (fmul val (dbl 10)) (dbl (s8 c - 48)))
  end.
Definition atof (arr : list Z) : option spec_float :=
  match arr with
  | [] => None
  | c :: arr' =>
      if c =? chr "-" then v ← atof_loop arr' false (dbl 1) (dbl 0); Some (SFopp v)
      else atof_loop arr false (dbl 1) (dbl 0)
  end.

(** *** The environment *)

Abbreviation env_entry := (option (list Z)).
Definition E := M (option (list env_entry)).

Definition lift {A} (o : option A) : E A := of_option o.

(** [!strncmp(name, *e, l) && ( *e)[l] == '='] *)
Definition matches (name e : list Z) (l : Z) : option bool :=
  r ← Libc.strncmp name e (Z.to_nat l);
  if r =? 0 then c ← e !! Z.to_nat l; Some (c =? chr "=") else Some false.

(** The loop over [environ]: the index of the first match. *)
Fixpoint find_entry (name : list Z) (l : Z) (env : list env_entry) (i : nat) : option (option (nat * list Z)) :=
  match env with
  | [] => None
  | None :: _ => Some None
  | Some e :: env' =>
      b ← matches name e l;
      if (b : bool) then Some (Some (i, e)) else find_entry name l env' (S i)
  end.

(** [environ && !name[l] && l], then the loop. *)
Definition search_env (name : list Z) (l : Z) : E (option (nat * list Z)) :=
  env ← get;
  match env with
  | None => mret None
  | Some env =>
      c ← lift (if 0 <=? l then name !! Z.to_nat l else None);
      if negb (truthy c) && truthy l then lift (find_entry name l env 0) else mret None
  end.

(** The value of the variable: the entry from behind the '='. *)
Definition getenv (name : list Z) : E (option (list Z)) :=
  l ← lift (Libc.strlen name);
  r ← search_env name l;
  match r with
  | Some (_, e) => mret (Some (drop (Z.to_nat (l + 1)) e))
  | None => mret None
  end.

(** [malloc(strlen(name) + strlen(value) + 2)] and the three [strcat]s; [junk] is what the block
    holds before. *)
Definition join (junk name value : list Z) : E (list Z) :=
  n ← lift (Libc.strlen name);
  v ← lift (Libc.strlen value);
  let block := take (Z.to_nat (n + v + 2)) junk in
  b ← lift (Libc.strcat block name);
  b ← lift (Libc.strcat b [chr "="; 0]);
  lift (Libc.strcat b value).

(** [while (environ[env_len]) env_len++] *)
Fixpoint env_len (env : list env_entry) : option nat :=
  match env with [] => None | None :: _ => Some O | Some _ :: env' => n ← env_len env'; Some (S n) end.

(** [realloc(environ, (env_len + 1) * sizeof(char * ))] and the store behind the last entry. *)
Definition append (e : list Z) : E unit :=
  env ← get;
  match env with
  | None => fault
  | Some env => n ← lift (env_len env); put (Some (take n env ++ [Some e]))
  end.

Definition replace_entry (i : nat) (e : list Z) : E unit :=
  env ← get;
  match env with Some env => put (Some (<[i := Some e]> env)) | None => fault end.

Definition setenv (junk name value : list Z) (overwrite : bool) : E Z :=
  l ← lift (Libc.strlen name);
  r ← search_env name l;
  match r with
  | Some (i, _) =>
      if overwrite then e ← join junk name value; _ ← replace_entry i e; mret 0 else mret 0
  | None => e ← join junk name value; _ ← append e; mret 0
  end.

(** [strchr(name, '=') - name]: without a '=' the difference is no index of [name]. *)
Definition putenv (name : list Z) : E Z :=
  o ← lift (Libc.strchr name (chr "="));
  l ← lift o;
  r ← search_env name l;
  match r with
  | Some (i, _) => _ ← replace_entry i name; mret 0
  | None => _ ← append name; mret 0
  end.

(** crt1.c: the initial environment is a copy of the kernel's, with its NULL. *)
Fixpoint copy_env (env : list (list Z)) : option (list env_entry) :=
  match env with [] => Some [None] | e :: env' => d ← Libc.strdup e; r ← copy_env env'; Some (Some d :: r) end.
Definition __crt_load_environ (env : option (list (list Z))) : E unit :=
  e ← lift (copy_env (default [] env)); put (Some e).
End Stdlib.

(** ** The library's printf *)

Lemma print_unsigned_prints : prints Stdio.print_unsigned 0 (2 ^ 63).
Proof.
  intros i base plus space w left zero s Hi. unfold Stdio.print_unsigned. rewrite s64_small by lia.
  apply int_str_prints. lia.
Qed.

Lemma stdio_run fmt args args' t rest fd :
  Forall item_ok fmt -> render (2 ^ 63) fmt args = Some (t, args') ->
  Stdio.vprintf fd (format_text fmt ++ 0 :: rest) args = Done (fd, at_out t args').
Proof.
  intros Hok R. unfold Stdio.vprintf, Stdio.__int_vprintf.
  by rewrite (print_format_run Stdio.print_unsigned Stdio.float_case (2 ^ 63) print_unsigned_prints fmt args t args'
    rest ltac:(lia) Hok R).
Qed.

(** The library's [printf], [fprintf] and [vprintf] print what the kernel's prints, as long as the
    unsigned arguments are below [2 ^ 63]. *)
Theorem stdio_renders (fd : Z) (fmt : list item) (args args' : list varg) (t rest : list Z) :
  Forall item_ok fmt -> render (2 ^ 63) fmt args = Some (t, args') ->
  Stdio.fprintf fd (format_text fmt ++ 0 :: rest) args =
    Done (fd, mk_pstate t args' (s32 (Z.of_nat (length t))) []).
Proof. apply stdio_run. Qed.

Lemma stdio_renders_witness :
  Stdio.fprintf 2 (text "%-4d|%#lx %s" ++ [0]) sample_args = Done (2, mk_pstate (text "-7  |0xbeef ok") [] 14 []).
Proof.
  apply (stdio_renders 2 sample_format sample_args [] (text "-7  |0xbeef ok") []); [|reflexivity].
  repeat constructor; vm_compute; done.
Defined.

(** the forms that go wrong in the library's printf only: unsigned numbers from [2 ^ 63] on are
    printed as negative ones and [2 ^ 63] itself reads outside the digits; a fraction loses its
    leading zeros, so 1.0625 is printed as 1.62500 (shown for [%f]). *)
Theorem stdio_wrong_numbers :
  Stdio.printf (text "%lu" ++ [0]) [VInt (2 ^ 64 - 1)] = Done (1, mk_pstate (text "-1") [] 2 []) /\
  Stdio.printf (text "%lu" ++ [0]) [VInt (2 ^ 63)] = Fault /\
  Stdio.printf (text "%f" ++ [0]) [VDouble (fdiv (dbl 17) (dbl 16))] =
    Done (1, mk_pstate (text "1.62500") [] 7 []).
Proof. repeat split; vm_compute; reflexivity. Qed.

(** ** Numbers from text *)

(** The value of digits read on top of [k]. *)
Abbreviation on_top ds k := (fold_left (fun a d => a * 10 + d) ds k).

Lemma on_top_split ds k : on_top ds k = k * 10 ^ Z.of_nat (length ds) + on_top ds 0.
Proof.
  revert k. induction ds as [|d ds IH]; intros k; [simpl; lia|].
  cbn [fold_left length]. rewrite (IH (k * 10 + d)), (IH (0 * 10 + d)), Nat2Z.inj_succ, Z.pow_succ_r by lia. lia.
Qed.

Lemma on_top_bound ds : Forall (fun d => 0 <= d < 10) ds -> 0 <= on_top ds 0 < 10 ^ Z.of_nat (length ds).
Proof.
  induction 1 as [|d ds Hd _ IH]; [simpl; lia|]. cbn [fold_left length]. rewrite (on_top_split ds).
  rewrite Nat2Z.inj_succ, Z.pow_succ_r by lia. nia.
Qed.

Lemma digits_loop_run (wrap : Z -> Z) lo hi ds k r :
  lo <= 0 <= hi -> (forall x, lo - 9 <= x < hi + 48 -> wrap x = x) ->
  Forall (fun d => 0 <= d < 10) ds ->
  (0 <= k /\ on_top ds k < hi) \/ (k < 0 /\ lo <= on_top ds k) ->
  Stdlib.digits_loop wrap ((digit_char false <$> ds) ++ 0 :: r) k = Some (on_top ds k).
Proof.
  intros Hlh Hw Hds. revert k. induction Hds as [|d ds Hd Hds IH]; intros k Hv; [done|].
  cbn [fmap list_fmap app Stdlib.digits_loop fold_left] in *.
  pose proof (on_top_split ds (k * 10 + d)) as Hs. pose proof (on_top_bound ds Hds) as Hb.
  assert (B : lo - 9 <= k * 10 /\ k * 10 + d < hi \/ k * 10 + d < hi /\ k < 0 /\ lo <= k * 10 + d) by nia.
  destruct (isdigit_digit d Hd) as [_ Hc].
  assert (T : truthy (digit_char false d) = true) by (unfold truthy; rewrite (proj2 (Z.eqb_neq _ 0)) by lia; done).
  rewrite T. assert (S8 : s8 (digit_char false d) = d + 48) by (unfold s8; rewrite Z.mod_small; lia).
  rewrite S8, !Z.shiftl_mul_pow2 by lia. change (2 ^ 3) with 8. change (2 ^ 1) with 2.
  rewrite (Hw (k * 8)), (Hw (k * 2)) by lia. replace (k * 8 + k * 2) with (k * 10) by lia.
  rewrite (Hw (k * 10)), (Hw (k * 10 + (d + 48))), Hw by lia.
  replace (k * 10 + (d + 48) - 48) with (k * 10 + d) by lia. apply IH. lia.
Qed.

(** The digits of a number. *)
Lemma numeral_digits n : 0 <= n < 2 ^ 62 ->
  on_top (numeral 10 n) 0 = n /\ Forall (fun d => 0 <= d < 10) (numeral 10 n) /\
  (length (numeral 10 n) <= DIGITS)%nat /\ n < 10 ^ Z.of_nat (length (numeral 10 n)) /\
  (0 < n -> 10 ^ (Z.of_nat (length (numeral 10 n)) - 1) <= n).
Proof.
  intros Hn. destruct (numeral_n_spec 10 DIGITS n) as (Hv & Hr & Hh & Hl & _);
    [lia|change (Z.of_nat DIGITS) with 64; lia|]. fold (numeral 10 n) in *. unfold numeral_value in Hv.
  split; [done|]. split; [done|]. split; [done|]. pose proof (on_top_bound _ Hr). split; [lia|]. intros H0.
  destruct (numeral 10 n) as [|d ds]; [simpl in Hv; lia|]. apply Forall_cons in Hr as [Hd Hr].
  cbn [hd] in Hh. cbn [fold_left] in Hv. rewrite on_top_split in Hv. pose proof (on_top_bound ds Hr).
  cbn [length]. replace (Z.of_nat (S (length ds)) - 1) with (Z.of_nat (length ds)) by lia. nia.
Qed.

Lemma atol_decimal n r : 0 <= n < 2 ^ 62 -> Stdlib.atol (decimal n ++ 0 :: r) = Some n.
Proof.
  intros Hn. destruct (numeral_digits n Hn) as (Hv & Hr & _). unfold Stdlib.atol, decimal.
  rewrite (digits_loop_run s64 (- 2 ^ 62) (2 ^ 62)); [by rewrite Hv|lia| |done|left; rewrite Hv; lia].
  intros x Hx. apply s64_small. lia.
Qed.

(** A minus sign counts as the digit -3. *)
Lemma atol_minus n r : 0 < n < 10 ^ 18 ->
  Stdlib.atol (chr "-" :: decimal n ++ 0 :: r) = Some (n - 3 * 10 ^ Z.of_nat (length (decimal n))) /\
  n < 10 ^ Z.of_nat (length (decimal n)).
Proof.
  intros Hn. destruct (numeral_digits n) as (Hv & Hr & _ & Hlt & Hge); [lia|].
  unfold decimal. rewrite length_fmap. split; [|done].
  assert (Hlen : 10 ^ Z.of_nat (length (numeral 10 n)) <= 10 ^ 18).
  { apply Z.pow_le_mono_r; [lia|].
    assert (Z.of_nat (length (numeral 10 n)) - 1 < 18); [|lia]. apply (Z.pow_lt_mono_r_iff 10); lia. }
  change (Stdlib.atol (chr "-" :: (digit_char false <$> numeral 10 n) ++ 0 :: r))
    with (Stdlib.digits_loop s64 ((digit_char false <$> numeral 10 n) ++ 0 :: r) (-3)).
  rewrite (digits_loop_run s64 (- 3 * 10 ^ 18) 0); [|lia| |done|].
  - rewrite on_top_split, Hv. f_equal. lia.
  - intros x Hx. apply s64_small. lia.
  - right. split; [lia|]. rewrite on_top_split, Hv. lia.
Qed.

Lemma integer_text_plain m c n :
  integer_text (mk_field [] None None m c) 10 n = (if n <? 0 then [chr "-"] else []) ++ decimal (Z.abs n).
Proof.
  unfold integer_text, pad_text, number_text, sign_text, decimal.
  cbn [f_flags flags_of has existsb plusSign spaceNoSign leftJustify zeroPad width_val f_width].
  change (real_base 10) with 10. change (10 =? 16) with false. change (text "-") with [chr "-"].
  set (t := (if n <? 0 then _ else _) ++ _).
  by replace (Z.to_nat (0 - Z.of_nat (length t))) with O by lia.
Qed.

(** C23: What [atol] makes of the text that [printf] writes for [%ld], for every number above
    [-10 ^ 18] and below [2 ^ 62]: a number that is not negative is read back as it was; a negative
    one is not, since the sign is taken for a digit of value -3, so that the result is the absolute
    value less three times the power of ten above it, and always below the number written. *)
Theorem atol_reads_printf (n : Z) :
  - 10 ^ 18 < n < 2 ^ 62 ->
  exists s v, Stdio.printf (text "%ld" ++ [0]) [VInt n] = Done (1, s) /\
    p_chars s = Z.of_nat (length (p_out s)) /\ Stdlib.atol (p_out s ++ [0]) = Some v /\
    (0 <= n -> v = n) /\
    (n < 0 -> v = - n - 3 * 10 ^ (Z.of_nat (length (p_out s)) - 1) /\ v < n).
Proof.
  intros Hn. set (t := (if n <? 0 then [chr "-"] else []) ++ decimal (Z.abs n)).
  assert (Hl : Z.of_nat (length t) <= 65).
  { destruct (numeral_digits (Z.abs n)) as (_ & _ & Hl & _); [lia|]. subst t. unfold decimal.
    rewrite length_app, length_fmap. change DIGITS with 64%nat in Hl. destruct (n <? 0); simpl; lia. }
  assert (E : Stdio.printf (text "%ld" ++ [0]) [VInt n] = Done (1, at_out t [])).
  { apply (stdio_run [Dir (mk_field [] None None Ll Cd)] [VInt n] [] t [] 1); [repeat constructor|].
    cbn [render render_item f_conv f_mod signed_value]. rewrite s64_small by lia.
    rewrite (proj2 (Z.eqb_neq n _)), integer_text_plain by lia. cbn. by rewrite app_nil_r. }
  assert (C : p_chars (at_out t []) = Z.of_nat (length t)) by (apply s32_small; lia).
  exists (at_out t []). cbn [p_out at_out] in *. destruct (Z.ltb_spec n 0) as [Hneg|Hpos]; subst t.
  - destruct (atol_minus (Z.abs n) []) as [Ea Hlt]; [lia|]. eexists. split; [exact E|]. split; [exact C|].
    split; [exact Ea|]. split; [lia|]. intros _. cbn [app length]. rewrite Nat2Z.inj_succ, Z.sub_1_r, Z.pred_succ. lia.
  - exists n. split; [exact E|]. split; [exact C|]. split; [|lia].
    rewrite Z.abs_eq by lia. apply (atol_decimal n []). lia.
Qed.

Lemma atol_reads_printf_witness :
  (exists s v, Stdio.printf (text "%ld" ++ [0]) [VInt 90210] = Done (1, s) /\
     Stdlib.atol (p_out s ++ [0]) = Some v /\ v = 90210) /\
  (exists s v, Stdio.printf (text "%ld" ++ [0]) [VInt (-5)] = Done (1, s) /\
     Stdlib.atol (p_out s ++ [0]) = Some v /\ v < -5).
Proof.
  split.
  - destruct (atol_reads_printf 90210) as (s & v & E & _ & A & P & _); [lia|]. exists s, v.
    split; [exact E|]. split; [exact A|]. apply P. lia.
  - destruct (atol_reads_printf (-5)) as (s & v & E & _ & A & _ & N); [lia|]. exists s, v.
    split; [exact E|]. split; [exact A|]. apply N. lia.
Defined.

(** [atoi] takes a sign for a digit. *)
Theorem atoi_negative : Stdlib.atoi (text "-5" ++ [0]) = Some (-25).
Proof. reflexivity. Qed.

(** ** The environment *)
Import Stdlib.

(** An entry as the library keeps it, and the entry of a variable. *)
Definition stored (e : list Z) : env_entry := Some (e ++ [0]).
Definition binding (n v : list Z) : list Z := n ++ chr "=" :: v.
Definition names (n e : list Z) : bool := bool_decide (take (length n + 1) e = n ++ [chr "="]).

Lemma names_binding n v : names n (binding n v) = true.
Proof. apply bool_decide_eq_true. unfold binding. by rewrite take_app_add. Qed.

Lemma matches_run n e :
  str_ok n -> str_ok e -> matches (n ++ [0]) (e ++ [0]) (Z.of_nat (length n)) = Some (names n e).
Proof.
  intros Hn He. unfold matches. rewrite Nat2Z.id.
  destruct (libc_strncmp_spec n e [] [] (length n) Hn He) as (d & E & Hd). rewrite E. clear E. cbn [mbind option_bind].
  rewrite take_app_length in Hd. unfold names.
  destruct (Z.eqb_spec d 0) as [D|D].
  - apply Hd in D. destruct (decide (length n <= length e)%nat) as [Hl|Hl].
    + rewrite take_app_le in D by done.
      destruct ((e ++ [0]) !! length n) as [c|] eqn:Hc; [|apply lookup_ge_None in Hc; rewrite length_app in Hc; cbn in Hc; lia].
      cbn. f_equal. destruct (Z.eqb_spec c (chr "=")) as [->|Hne]; symmetry.
      * apply bool_decide_eq_true.
        assert (L : e !! length n = Some (chr "=")).
        { destruct (decide (length n < length e)%nat); [by rewrite lookup_app_l in Hc|].
          rewrite lookup_app_r in Hc by lia. replace (length n - length e)%nat with O in Hc by lia. discriminate. }
        rewrite Nat.add_1_r, (take_S_r _ _ (chr "=")) by done. by rewrite <- D.
      * apply bool_decide_eq_false. intros E. apply Hne.
        assert (L : take (length n + 1) e !! length n = Some (chr "=")) by (rewrite E, lookup_app_r, Nat.sub_diag by lia; done).
        rewrite lookup_take_lt in L by lia. rewrite lookup_app_l in Hc by (apply lookup_lt_is_Some; eauto). congruence.
    + exfalso. assert (0 ∈ n); [rewrite D; rewrite take_ge by (rewrite length_app; cbn; lia); set_solver|].
      eapply Forall_forall in Hn; [|done]. unfold char_ok in Hn. lia.
  - symmetry. cbn. f_equal. apply bool_decide_eq_false. intros E. apply D, Hd.
    apply (f_equal (take (length n))) in E. rewrite take_take, take_app_length in E.
    replace (length n `min` (length n + 1))%nat with (length n) in E by lia.
    assert (length n <= length e)%nat by (apply (f_equal length) in E; rewrite length_take in E; lia).
    by rewrite take_app_le.
Qed.

Lemma find_skip n pre rest i :
  str_ok n -> Forall str_ok pre -> Forall (fun e => names n e = false) pre ->
  find_entry (n ++ [0]) (Z.of_nat (length n)) ((stored <$> pre) ++ rest) i =
    find_entry (n ++ [0]) (Z.of_nat (length n)) rest (length pre + i).
Proof.
  intros Hn Hok. revert i. induction Hok as [|e pre He Hok IH]; intros i Hf; [done|].
  apply Forall_cons_1 in Hf as [Hfe Hf]. cbn [fmap list_fmap app find_entry stored].
  rewrite matches_run by done. rewrite Hfe. cbn [mbind option_bind]. rewrite IH by done. f_equal. cbn. lia.
Qed.

Lemma find_here n e rest i :
  str_ok n -> str_ok e -> names n e = true ->
  find_entry (n ++ [0]) (Z.of_nat (length n)) (stored e :: rest) i = Some (Some (i, e ++ [0])).
Proof. intros Hn He Ht. cbn [find_entry stored]. rewrite matches_run by done. by rewrite Ht. Qed.

(** The first entry of a variable, if there is one. *)
Lemma env_split n (es : list (list Z)) :
  Forall (fun e => names n e = false) es \/
  exists pre e post, es = pre ++ e :: post /\ Forall (fun e => names n e = false) pre /\ names n e = true.
Proof.
  induction es as [|e es IH]; [by left; constructor|]. destruct (names n e) eqn:He.
  - right. by exists [], e, es.
  - destruct IH as [IH|(pre & e' & post & -> & Hp & He')]; [left; by constructor|].
    right. exists (e :: pre), e', post. split; [done|]. split; [by constructor|done].
Qed.

Lemma search_run n env :
  str_ok n -> n <> [] ->
  search_env (n ++ [0]) (Z.of_nat (length n)) (Some env) =
    match find_entry (n ++ [0]) (Z.of_nat (length n)) env 0 with
    | Some r => Done (r, Some env) | None => Fault end.
Proof.
  intros Hn Hne. unfold search_env. rewrite (bind_run _ _ _ _ _ (eq_refl : get (Some env) = _)).
  rewrite (proj2 (Z.leb_le 0 _)), Nat2Z.id by lia. rewrite lookup_app_r, Nat.sub_diag by lia. cbn.
  assert (T : truthy (Z.of_nat (length n)) = true).
  { unfold truthy. rewrite (proj2 (Z.eqb_neq _ 0)); [done|]. destruct n; [done|cbn; lia]. }
  rewrite T. unfold lift, of_option. by destruct (find_entry _ _ env 0).
Qed.

Lemma libc_strcpy_eq d t : Libc.strcpy d t = Kernel.strcpy d t.
Proof. done. Qed.
Lemma libc_strcat_eq d t : Libc.strcat d t = Kernel.strcat d t.
Proof. done. Qed.

Lemma equals_ok : str_ok [chr "="].
Proof. by apply Forall_singleton. Qed.

(** A block that starts with a zero byte gives the binding. *)
Lemma join_run n v j env :
  str_ok n -> str_ok v -> (length n + length v + 1 <= length j)%nat ->
  join (0 :: j) (n ++ [0]) (v ++ [0]) env = Done (binding n v ++ [0], env).
Proof.
  intros Hn Hv Hj. unfold join. rewrite !libc_strlen_eq, !strlen_spec by done. unfold lift, of_option.
  unfold mbind, M_bind. rewrite !libc_strcat_eq.
  replace (Z.to_nat (Z.of_nat (length n) + Z.of_nat (length v) + 2)) with (S (length n + length v + 1)) by lia.
  cbn [take]. set (b := take (length n + length v + 1) j).
  assert (Hb : length b = (length n + length v + 1)%nat) by (unfold b; rewrite length_take; lia).
  change (0 :: b) with ([] ++ 0 :: b). rewrite strcat_spec by (done || constructor).
  rewrite (proj2 (Nat.leb_le _ _)) by lia. cbn [app]. change [chr "="; 0] with ([chr "="] ++ 0 :: []).
  rewrite strcat_spec by (done || apply equals_ok). rewrite (proj2 (Nat.leb_le _ _)) by (rewrite length_drop; cbn; lia).
  rewrite drop_drop, app_assoc, libc_strcat_eq.
  rewrite (strcat_spec (n ++ [chr "="]) v) by first [done|apply Forall_app; split; [done|apply equals_ok]].
  rewrite (proj2 (Nat.leb_le _ _)) by (rewrite length_drop; cbn; lia). rewrite drop_drop, drop_ge by (cbn; lia).
  unfold binding. by rewrite <- !app_assoc.
Qed.

Lemma getenv_binding pre n v post :
  str_ok n -> n <> [] -> str_ok v -> Forall str_ok pre -> Forall (fun e => names n e = false) pre ->
  let env := Some ((stored <$> pre) ++ stored (binding n v) :: post) in
  getenv (n ++ [0]) env = Done (Some (v ++ [0]), env).
Proof.
  intros Hn Hne Hv Hp Hf env. unfold getenv. rewrite libc_strlen_eq, strlen_spec by done.
  unfold lift at 1, of_option at 1, mbind at 1, M_bind at 1.
  assert (Hb : str_ok (binding n v)).
  { apply Forall_app. split; [done|]. apply Forall_cons. split; [by apply Forall_singleton, equals_ok|done]. }
  pose proof (search_run n ((stored <$> pre) ++ stored (binding n v) :: post) Hn Hne) as S.
  rewrite find_skip, (find_here n (binding n v)) in S by (done || apply names_binding).
  rewrite (bind_run _ _ _ _ _ S). cbn. unfold mret, M_ret. do 3 f_equal.
  replace (Z.to_nat (Z.of_nat (length n) + 1)) with (length n + 1)%nat by lia.
  unfold binding. rewrite <- app_assoc, <- drop_drop, drop_app_length. done.
Qed.

Lemma env_len_run es rest : env_len ((stored <$> es) ++ None :: rest) = Some (length es).
Proof. induction es as [|e es IH]; [done|]. cbn [fmap list_fmap app env_len stored length]. by rewrite IH. Qed.

(** after [setenv(name, value, 1)], [getenv(name)] is the value - in an environment of
    terminated strings that ends with NULL, whether the variable was there or not, when the block
    that [malloc] returns happens to start with a zero byte. *)
Theorem getenv_setenv (n v j : list Z) (es : list (list Z)) :
  str_ok n -> n <> [] -> str_ok v -> Forall str_ok es -> (length n + length v + 1 <= length j)%nat ->
  exists env, setenv (0 :: j) (n ++ [0]) (v ++ [0]) true (Some ((stored <$> es) ++ [None])) = Done (0, Some env) /\
    getenv (n ++ [0]) (Some env) = Done (Some (v ++ [0]), Some env).
Proof.
  intros Hn Hne Hv Hes Hj. unfold setenv. rewrite libc_strlen_eq, strlen_spec by done.
  pose proof (search_run n ((stored <$> es) ++ [None]) Hn Hne) as S.
  destruct (env_split n es) as [Hf|(pre & e & post & -> & Hf & He)].
  - exists ((stored <$> es) ++ [stored (binding n v)]). split; [|by apply getenv_binding].
    rewrite find_skip in S by done. cbn [find_entry] in S.
    unfold lift at 1, of_option at 1, mbind at 1, M_bind at 1. rewrite (bind_run _ _ _ _ _ S).
    rewrite (bind_run _ _ _ _ _ (join_run n v j _ Hn Hv Hj)).
    unfold append, get, mbind, M_bind. rewrite env_len_run. cbn [lift of_option]. unfold put, mret, M_ret.
    rewrite take_app_length' by (by rewrite length_fmap). done.
  - apply Forall_app in Hes as [Hpre Hes]. apply Forall_cons_1 in Hes as [Hoke _].
    exists ((stored <$> pre) ++ stored (binding n v) :: (stored <$> post) ++ [None]).
    split; [|by apply getenv_binding].
    rewrite fmap_app, <- app_assoc in *. cbn [fmap list_fmap app] in *.
    rewrite find_skip, find_here in S by done.
    unfold lift at 1, of_option at 1, mbind at 1, M_bind at 1. rewrite (bind_run _ _ _ _ _ S).
    rewrite (bind_run _ _ _ _ _ (join_run n v j _ Hn Hv Hj)).
    unfold replace_entry, get, put, mbind, M_bind, mret, M_ret. rewrite Nat.add_0_r, insert_app_r_alt by (by rewrite length_fmap).
    rewrite length_fmap, Nat.sub_diag. done.
Qed.

Definition sample_environ : list (list Z) := [text "HOME=/"; text "PATH=/bin"].

Lemma getenv_setenv_witness :
  exists env, setenv (zeros 11) (text "PATH" ++ [0]) (text "/usr" ++ [0]) true (Some ((stored <$> sample_environ) ++ [None])) =
      Done (0, Some env) /\
    getenv (text "PATH" ++ [0]) (Some env) = Done (Some (text "/usr" ++ [0]), Some env).
Proof.
  apply (getenv_setenv (text "PATH") (text "/usr") (zeros 10) sample_environ); try discriminate.
  all: vm_compute; repeat constructor.
Defined.

(** what goes wrong with the environment: a new variable is stored over the NULL that ends the
    array, so that the next search_env for an unknown name runs off its end; [putenv] tests
    [!name[l]] where the '=' is, so it never looks the variable up and always appends, and [getenv]
    still sees the old value; a block that [malloc] returns with old contents makes [setenv] write outside it. *)
Theorem environ_flaws :
  let env := Some ((stored <$> sample_environ) ++ [None]) in
  (exists env', setenv (zeros 9) (text "A" ++ [0]) (text "b" ++ [0]) true env = Done (0, env') /\
     getenv (text "A" ++ [0]) env' = Done (Some (text "b" ++ [0]), env') /\
     getenv (text "B" ++ [0]) env' = Fault) /\
  (exists env', putenv (text "PATH=/usr" ++ [0]) env = Done (0, env') /\
     getenv (text "PATH" ++ [0]) env' = Done (Some (text "/bin" ++ [0]), env')) /\
  setenv [1; 1; 1; 1] (text "A" ++ [0]) (text "b" ++ [0]) true env = Fault.
Proof. split; [|split]; [eexists; repeat split; reflexivity..|reflexivity]. Qed.
