(* ===== verification/LibcSys.v ===== *)
(** * The user library's system calls (unistd.c, fcntl.c, sys/mman.c, sys/stat.c, sys/wait.c,
      sys/ioctl.c, and the calls of stdlib.c and stdio.c)

    A program sees the kernel through [intsyscall]; the wrappers turn a negative result into -1 and
    [errno].  They are written over any kernel with an [intsyscall]; [trap] is the kernel of
    Syscall.v, entered through the interrupt with the arguments in registers. *)
From S2P Require Import Prelude CString Rtc Device Pipe Pmm PageTable Vmm Fs Tmpfs Vfs Event Kernel Sched Elf Proc Syscall.

Definition SYSCALL_OPEN : Z := 0.
Definition SYSCALL_CLOSE : Z := 1.
Definition SYSCALL_READ : Z := 2.
Definition SYSCALL_WRITE : Z := 3.
Definition SYSCALL_EXEC : Z := 4.
Definition SYSCALL_MMAP : Z := 5.
Definition SYSCALL_MUNMAP : Z := 6.
Definition SYSCALL_FSTAT : Z := 8.
Definition SYSCALL_EXIT : Z := 10.
Definition SYSCALL_FORK : Z := 11.
Definition SYSCALL_IOCTL : Z := 14.
Definition SYSCALL_WAITPID : Z := 17.
Definition SYSCALL_ACCESS : Z := 18.
Definition SYSCALL_PIPE : Z := 19.
Definition SYSCALL_FCNTL : Z := 20.
Definition SYSCALL_REMOVE : Z := 21.
Definition MAP_FAILED : Z := 2 ^ 64 - 1.

(** The program's side: the rest of the system and [errno]. *)
Record ustate (S : Type) := mk_ustate { u_sys : S; u_errno : Z }.
Arguments mk_ustate {S} _ _.
Arguments u_sys {S} _.
Arguments u_errno {S} _.

(** A kernel: the six arguments of [intsyscall], and stores to and loads from the program's memory. *)
Class Sys (S : Type) := {
  intsyscall : Z -> Z -> Z -> Z -> Z -> Z -> M S Z;
  poke : (mem -> mem) -> M S unit;
  fetch : M S mem
}.

Section Wrappers.
Context {S : Type} `{Sys S}.

Definition U := M (ustate S).

Definition sys {A} (m : M S A) : U A := fun u =>
  match m (u_sys u) with
  | Done (a, s) => Done (a, mk_ustate s (u_errno u))
  | Halt => Halt
  | Fault => Fault
  | Fuel => Fuel
  end.

Definition set_errno (e : Z) : U unit := modify (fun u => mk_ustate (u_sys u) (s32 e)).

(** [if (ret < 0) { errno = -ret; return -1; } return ret;] *)
Definition result (ret : Z) : U Z := if ret <? 0 then _ ← set_errno (- ret); mret (-1) else mret ret.
(** The same with [return 0]. *)
Definition result0 (ret : Z) : U Z := if ret <? 0 then _ ← set_errno (- ret); mret (-1) else mret 0.

(** A call whose result is an [int], or a [pid_t]. *)
Definition int_call (id a b c : Z) : U Z := r ← sys (intsyscall id (u64 a) (u64 b) (u64 c) 0 0); mret (s32 r).
Definition pid_call (id a b c : Z) : U Z := r ← sys (intsyscall id (u64 a) (u64 b) (u64 c) 0 0); mret (s64 r).

Definition getpagesize : Z := 0x1000.
Definition _exit (status : Z) : U unit := _ ← sys (intsyscall SYSCALL_EXIT (u64 status) 0 0 0 0); mret tt.
Definition dup (fildes : Z) : U Z := ret ← int_call SYSCALL_FCNTL fildes F_DUPFD 0; result ret.
Definition access (pathname mode : Z) : U Z := ret ← int_call SYSCALL_ACCESS pathname mode 0; result ret.
Definition fork : U Z := ret ← pid_call SYSCALL_FORK 0 0 0; result ret.
Definition pipe (pipefd : Z) : U Z := ret ← int_call SYSCALL_PIPE pipefd 0 0; result ret.
Definition close (fd : Z) : U Z := ret ← int_call SYSCALL_CLOSE fd 0 0; result ret.
Definition execve (filename argv envp : Z) : U Z := ret ← int_call SYSCALL_EXEC filename argv envp; result ret.
Definition read (fd buf count : Z) : U Z := ret ← int_call SYSCALL_READ fd buf count; result ret.
Definition write (fd buf count : Z) : U Z := ret ← int_call SYSCALL_WRITE fd buf count; result ret.

(** [open]: the mode is an argument only with [O_CREAT]. *)
Definition open (pathname flags : Z) (mode : Z) : U Z :=
  if truthy (Z.land flags O_CREAT) then ret ← int_call SYSCALL_OPEN pathname flags mode; result ret
  else ret ← int_call SYSCALL_OPEN pathname flags 0; result ret.

(** [*args = (mmap_args_t){..}] at the address of the local. *)
Definition write_mmap_args (a : Z) (x : mmap_args) (m : mem) : mem :=
  st 8 a (ma_addr x) (st 8 (a + 8) (ma_length x) (st 8 (a + 16) (ma_flags x) (st 8 (a + 24) (ma_prot x)
  (st 4 (a + 32) (ma_fd x) (st 8 (a + 40) (ma_offset x) m))))).

Definition mmap (args addr length prot flags fd offset : Z) : U Z :=
  _ ← sys (poke (write_mmap_args args
        (mk_mmap_args addr length (u64 flags) (u64 prot) (u32 fd) (u64 offset))));
  ret ← sys (intsyscall SYSCALL_MMAP args 0 0 0 0);
  if s64 ret <? 0 then _ ← set_errno (- s64 ret); mret MAP_FAILED else mret ret.
Definition munmap (addr length : Z) : U Z := ret ← int_call SYSCALL_MUNMAP addr length 0; result0 ret.
Definition fstat (fd statbuf : Z) : U Z := ret ← int_call SYSCALL_FSTAT fd statbuf 0; result0 ret.
Definition waitpid (pid status options : Z) : U Z := ret ← pid_call SYSCALL_WAITPID pid status options; result ret.
Definition wait (status : Z) : U Z := waitpid (-1) status 0.
Definition ioctl (d request arg : Z) : U Z := ret ← int_call SYSCALL_IOCTL d request arg; result ret.

(** stdio.c *)
Definition remove (path : Z) : U Z := ret ← pid_call SYSCALL_REMOVE path 0 0; result ret.
(** [fgets]: NULL or the buffer; the descriptor is that of the stream. *)
Definition fgets (s size fd : Z) : U Z := n ← read fd s size; if n <? 0 then mret 0 else mret s.

(** stdlib.c *)
Definition _Exit (status : Z) : U unit := _ ← sys (intsyscall SYSCALL_EXIT (u64 status) 0 0 0 0); mret tt.
Definition exit (status : Z) : U unit := _exit status.
Definition abort : U unit := mret tt.
End Wrappers.

(** ** The kernel behind [int 0x45] *)
Section Trap.
Context (me : nat).
Context (fs_table : Z -> option fs_ops) (file_table : Z -> option file_ops) (drivers : Z -> DriverOps).
Context (dev_ioctl : Z -> Z -> Z -> FM Z).
Context (vfs_mmap : Z -> Z -> Z -> Z -> Z -> Z -> Z -> Z -> KM Z).
Context (vm_mmap : Z -> Z -> Z -> Z -> Z -> Z -> Z -> VM Z).
Context `{Env}.
Context (junk_entry junk_child junk_event : Z) (rounds : list (list Z)).

(** The registers at the interrupt: the arguments of the C call. *)
Definition call_registers (id a b c d e : Z) : registers :=
  set_reg RDI id (set_reg RSI a (set_reg RDX b (set_reg RCX c (set_reg R8 d (set_reg R9 e zero_regs))))).

(** Another program continues after a successful exec. *)
Definition trap : Sys kstate := {|
  intsyscall id a b c d e :=
    r ← c_syscall_handler me fs_table file_table drivers dev_ioctl vfs_mmap vm_mmap
          junk_entry junk_child junk_event rounds (call_registers id a b c d e);
    match r with inl v => mret v | inr _ => halt end;
  poke := write_user;
  fetch := user_mem
|}.
#[local] Existing Instance trap.

Lemma open_file_none s id t ptr p :
  running me s t ptr p -> 0 <= id < 128 -> fds p !! Z.to_nat id = Some 0 -> open_file me id s = Done (None, s).
Proof.
  intros Hrun Hid Hfd. unfold open_file. rewrite (bind_run _ _ _ _ _ (running_proc _ _ _ _ _ Hrun)).
  unfold fd_entry, FDS_COUNT. rewrite (proj2 (Z.leb_le 0 id)), (proj2 (Z.ltb_lt id 128)) by lia. cbn [andb].
  by rewrite Hfd.
Qed.

(** The kernel does not check the number: outside the table it reads what is not a descriptor. *)
Lemma open_file_outside s id t ptr p :
  running me s t ptr p -> id < 0 \/ 128 <= id -> open_file me id s = Fault.
Proof.
  intros Hrun Hid. unfold open_file. rewrite (bind_run _ _ _ _ _ (running_proc _ _ _ _ _ Hrun)).
  unfold fd_entry, FDS_COUNT. destruct (Z.leb_spec 0 id), (Z.ltb_spec id 128); try lia; done.
Qed.

(** A wrapper with an [int] result, when the handler answers [r]. *)
Lemma int_call_run id a b c s e r s' :
  c_syscall_handler me fs_table file_table drivers dev_ioctl vfs_mmap vm_mmap junk_entry junk_child junk_event rounds
    (call_registers id (u64 a) (u64 b) (u64 c) 0 0) s = Done (inl (u64 r), s') ->
  - 2 ^ 31 <= r < 2 ^ 31 ->
  int_call id a b c (mk_ustate s e) = Done (r, mk_ustate s' e).
Proof.
  intros E Hr. unfold int_call, sys, intsyscall, trap, mbind, M_bind. cbn [u_sys u_errno].
  rewrite E. unfold mret, M_ret. do 2 f_equal. unfold s32, u64.
  rewrite Zplus_mod, (Z.mod_mod_divide r (2 ^ 64) (2 ^ 32)), <- Zplus_mod by (by exists (2 ^ 32)).
  rewrite Z.mod_small; lia.
Qed.

(** A wrapper does not come back when the handler does not. *)
Lemma int_call_fault id a b c s e :
  c_syscall_handler me fs_table file_table drivers dev_ioctl vfs_mmap vm_mmap junk_entry junk_child junk_event rounds
    (call_registers id (u64 a) (u64 b) (u64 c) 0 0) s = Fault ->
  (r ← int_call id a b c; result r) (mk_ustate s e) = Fault.
Proof. intros E. unfold int_call, sys, intsyscall, trap, mbind, M_bind. cbn [u_sys]. by rewrite E. Qed.

Lemma result_error r s e : - 2 ^ 31 < r < 0 -> result r (mk_ustate s e : ustate kstate) = Done (-1, mk_ustate s (- r)).
Proof.
  intros Hr. unfold result. rewrite (proj2 (Z.ltb_lt r 0)) by lia. unfold set_errno, modify, mbind, M_bind. cbn [u_sys].
  by rewrite s32_small by lia.
Qed.

(** An open slot of the table is what a call needs; the closed ones answer. *)
Lemma closed_descriptor (s : kstate) (e fd buf count : Z) (t : thread_t) (ptr : Z) (p : proc_t) :
  running me s t ptr p -> 0 <= fd < 128 -> fds p !! Z.to_nat fd = Some 0 ->
  let u := mk_ustate s e in let failed := Done (-1, mk_ustate s EBADF) in
  read fd buf count u = failed /\ close fd u = failed /\ dup fd u = failed /\ ioctl fd buf count u = failed /\
  write fd buf count u = Done (0, u).
Proof.
  intros Hrun Hfd Hnone u failed.
  pose proof (open_file_none s fd t ptr p Hrun Hfd Hnone) as O.
  assert (F : u64 fd = fd) by (apply u64_small; lia). assert (F' : s32 (u64 fd) = fd) by (rewrite F; apply s32_small; lia).
  assert (C : forall id a b c m, c_syscall_handler me fs_table file_table drivers dev_ioctl vfs_mmap vm_mmap junk_entry
      junk_child junk_event rounds (call_registers id (u64 a) (u64 b) (u64 c) 0 0) s =
      return_value m s -> m s = Done (- EBADF, s) ->
    (r ← int_call id a b c; result r) u = failed).
  { intros id a b c m E1 E2. rewrite (bind_run _ _ _ _ _ (int_call_run id a b c s e (- EBADF) s
      ltac:(rewrite E1; unfold return_value; by rewrite (bind_run _ _ _ _ _ E2)) ltac:(vm_compute; split; [discriminate|done]))).
    by rewrite result_error by (vm_compute; done). }
  assert (W : int_call SYSCALL_WRITE fd buf count u = Done (0, u)).
  { apply int_call_run; [|lia]. transitivity (return_value (syscall_write me file_table drivers (u64 fd) (u64 buf) (u64 count)) s);
      [reflexivity|]. rewrite F. unfold return_value, syscall_write. unfold mbind, M_bind. by rewrite O. }
  repeat split.
  - apply (C _ _ _ _ (syscall_read me file_table drivers (u64 fd) (u64 buf) (u64 count))); [reflexivity|].
    rewrite F. unfold syscall_read. by rewrite (bind_run _ _ _ _ _ O).
  - apply (C _ _ _ _ (syscall_close me file_table (u64 fd))); [reflexivity|].
    rewrite F. unfold syscall_close. by rewrite (bind_run _ _ _ _ _ O).
  - apply (C _ _ _ _ (syscall_fcntl me (s32 (u64 fd)) (s32 (u64 F_DUPFD)) (s32 (u64 0)))); [reflexivity|].
    rewrite F'. unfold syscall_fcntl. by rewrite (bind_run _ _ _ _ _ O).
  - apply (C _ _ _ _ (syscall_ioctl me file_table dev_ioctl (u64 fd) (u64 buf) (u64 count))); [reflexivity|].
    rewrite F. unfold syscall_ioctl. by rewrite (bind_run _ _ _ _ _ O).
  - unfold write. by rewrite (bind_run _ _ _ _ _ W).
Qed.

Lemma outside_descriptor (s : kstate) (e fd buf count : Z) (t : thread_t) (ptr : Z) (p : proc_t) :
  running me s t ptr p -> - 2 ^ 31 <= fd < 2 ^ 31 -> fd < 0 \/ 128 <= fd ->
  let u := mk_ustate s e in
  read fd buf count u = Fault /\ close fd u = Fault /\ dup fd u = Fault /\ ioctl fd buf count u = Fault /\
  write fd buf count u = Fault.
Proof.
  intros Hrun Hint Hfd u.
  assert (F : u64 fd < 0 \/ 128 <= u64 fd).
  { right. unfold u64. destruct (Z.lt_ge_cases fd 0); [|rewrite Z.mod_small; lia].
    rewrite <- (Z.mod_add fd 1), Z.mod_small by lia. lia. }
  assert (F' : s32 (u64 fd) = fd).
  { unfold s32, u64. rewrite Zplus_mod, (Z.mod_mod_divide fd (2 ^ 64) (2 ^ 32)), <- Zplus_mod by (by exists (2 ^ 32)).
    rewrite Z.mod_small; lia. }
  pose proof (open_file_outside s (u64 fd) t ptr p Hrun F) as O. pose proof (open_file_outside s fd t ptr p Hrun Hfd) as O'.
  assert (C : forall id a b c m, c_syscall_handler me fs_table file_table drivers dev_ioctl vfs_mmap vm_mmap junk_entry
      junk_child junk_event rounds (call_registers id (u64 a) (u64 b) (u64 c) 0 0) s =
      return_value m s -> m s = Fault -> (r ← int_call id a b c; result r) u = Fault).
  { intros id a b c m E1 E2. apply int_call_fault. rewrite E1. unfold return_value, mbind, M_bind. by rewrite E2. }
  repeat split.
  - apply (C _ _ _ _ (syscall_read me file_table drivers (u64 fd) (u64 buf) (u64 count))); [reflexivity|].
    unfold syscall_read, mbind, M_bind. by rewrite O.
  - apply (C _ _ _ _ (syscall_close me file_table (u64 fd))); [reflexivity|]. unfold syscall_close, mbind, M_bind. by rewrite O.
  - apply (C _ _ _ _ (syscall_fcntl me (s32 (u64 fd)) (s32 (u64 F_DUPFD)) (s32 (u64 0)))); [reflexivity|].
    rewrite F'. unfold syscall_fcntl, mbind, M_bind. by rewrite O'.
  - apply (C _ _ _ _ (syscall_ioctl me file_table dev_ioctl (u64 fd) (u64 buf) (u64 count))); [reflexivity|].
    unfold syscall_ioctl, mbind, M_bind. by rewrite O.
  - apply (C _ _ _ _ (syscall_write me file_table drivers (u64 fd) (u64 buf) (u64 count))); [reflexivity|].
    unfold syscall_write, mbind, M_bind. by rewrite O.
Qed.

(** C40: what a program gets for a descriptor that is not open, for every [int] it may pass.  A
    number of the table, 0 to 127, whose slot is empty is reported: [read], [close], [dup] and [ioctl]
    return -1 with [errno] set to EBADF, the kernel state unchanged; [write] alone answers 0 and
    leaves [errno] as it was.  Any other number, -1 included, which is what a failed [open] returns,
    makes the kernel index its table out of bounds in all five: no handler checks it. *)
Theorem bad_descriptor (s : kstate) (e fd buf count : Z) (t : thread_t) (ptr : Z) (p : proc_t) :
  running me s t ptr p -> - 2 ^ 31 <= fd < 2 ^ 31 -> (0 <= fd < 128 -> fds p !! Z.to_nat fd = Some 0) ->
  let u := mk_ustate s e in let failed := Done (-1, mk_ustate s EBADF) in
  if (0 <=? fd) && (fd <? 128) then
    read fd buf count u = failed /\ close fd u = failed /\ dup fd u = failed /\ ioctl fd buf count u = failed /\
    write fd buf count u = Done (0, u)
  else
    read fd buf count u = Fault /\ close fd u = Fault /\ dup fd u = Fault /\ ioctl fd buf count u = Fault /\
    write fd buf count u = Fault.
Proof.
  intros Hrun Hint Hnone u failed.
  destruct (Z.leb_spec 0 fd), (Z.ltb_spec fd 128); cbn [andb];
    [apply (closed_descriptor s e fd buf count t ptr p Hrun ltac:(lia)); auto
    |apply (outside_descriptor s e fd buf count t ptr p Hrun Hint ltac:(lia))..].
Qed.
End Trap.

(** The sample kernel of Syscall.v as the system of a program. *)
Definition sample_trap : Sys kstate :=
  trap 0 (fun _ => None) (fun _ => Some tmpfs_file_table) no_drivers (fun _ _ _ => mret 0) (fun _ _ _ _ _ _ _ _ => mret 0)
    no_vm_mmap 0 0 0 [].

Lemma bad_descriptor_witness :
  @read _ sample_trap 5 0x1000 7 (mk_ustate writing_kernel 0) = Done (-1, mk_ustate writing_kernel EBADF) /\
  @write _ sample_trap 5 0x1000 7 (mk_ustate writing_kernel 0) = Done (0, mk_ustate writing_kernel 0) /\
  @read _ sample_trap (-1) 0x1000 7 (mk_ustate writing_kernel 0) = Fault.
Proof.
  destruct (bad_descriptor 0 (fun _ => None) (fun _ => Some tmpfs_file_table) no_drivers (fun _ _ _ => mret 0)
    (fun _ _ _ _ _ _ _ _ => mret 0) no_vm_mmap 0 0 0 [] writing_kernel 0 5 0x1000 7 user_thread 5 _
    writing_running ltac:(lia) (fun _ => eq_refl)) as (E & _ & _ & _ & W).
  destruct (bad_descriptor 0 (fun _ => None) (fun _ => Some tmpfs_file_table) no_drivers (fun _ _ _ => mret 0)
    (fun _ _ _ _ _ _ _ _ => mret 0) no_vm_mmap 0 0 0 [] writing_kernel 0 (-1) 0x1000 7 user_thread 5 _
    writing_running ltac:(lia) ltac:(lia)) as (E' & _).
  split; [exact E|]. split; [exact W|exact E'].
Defined.
