(* ===== verification/Ahci.v ===== *)
(** * SATA disks (src/src/kernel/drivers/ahci.c, drivers/mbr.c)

    A transfer fills in the command header of a free slot and its command table - the FIS that names
    the sectors and the list of memory regions (PRDT) - issues the slot and waits.  What the
    controller does with an issued command is a parameter ([Hba]): what every read of the port's
    registers finds, and how far the disk and memory have come by then, so that a command may fail
    half-way or never be answered; [HbaSpec] is what the AHCI specification says of the two commands
    the driver uses.  The wait loop has no bound; [waits] is how many of its rounds are followed, and
    a command that is not answered within them ends as [Fuel].  Memory is indexed by the addresses of
    the direct map.

    [sata_transfers] shows which sectors a call moves, [sata_ops] is the driver behind the
    interface of Device.v. *)
From S2P Require Import Prelude Pmm Device.

Definition SATA_SIG_ATAPI : Z := 0xEB140101.
Definition SATA_SIG_SEMB : Z := 0xC33C0101.
Definition SATA_SIG_PM : Z := 0x96690101.
Definition AHCI_DEV_NULL : Z := 0.
Definition AHCI_DEV_SATA : Z := 1.
Definition AHCI_DEV_SEMB : Z := 2.
Definition AHCI_DEV_PM : Z := 3.
Definition AHCI_DEV_SATAPI : Z := 4.
Definition HBA_PXCMD_ST : Z := 0x0001.
Definition HBA_PXCMD_FRE : Z := 0x0010.
Definition HBA_PXCMD_FR : Z := 0x4000.
Definition HBA_PXCMD_CR : Z := 0x8000.
Definition HBA_PORT_IPM_ACTIVE : Z := 1.
Definition HBA_PORT_DET_PRESENT : Z := 3.
Definition ATA_CMD_READ_DMA_EX : Z := 0x25.
Definition ATA_CMD_WRITE_DMA_EX : Z := 0x35.
Definition ATA_DEV_BUSY : Z := 0x80.
Definition ATA_DEV_DRQ : Z := 0x08.
Definition FIS_TYPE_REG_HOST_TO_DEVICE : Z := 0x27.

(** ** Data *)

(** The registers of a port that the driver uses; the task file register is read from the device. *)
Record hba_port := mk_port {
  p_clb : Z; p_clbu : Z; p_fb : Z; p_fbu : Z; p_is : Z; p_cmd : Z; p_sig : Z; p_ssts : Z; p_sact : Z; p_ci : Z;
}.
Record hba_cmd_header := mk_header { h_cfl : Z; h_w : Z; h_p : Z; h_c : Z; h_prdtl : Z; h_ctba : Z; h_ctbau : Z }.
Record hba_prdt_entry := mk_prd { dba : Z; dbau : Z; dbc : Z; prd_i : Z }.
Record fis_reg_host_to_device := mk_fis {
  fis_type : Z; fis_c : Z; command : Z; lba0 : Z; lba1 : Z; lba2 : Z; fis_device : Z;
  lba3 : Z; lba4 : Z; lba5 : Z; countl : Z; counth : Z;
}.
Record hba_cmd_tbl := mk_tbl { cfis : fis_reg_host_to_device; prdt_entry : list hba_prdt_entry }.
Record partition_layout := mk_part { partition_number : Z; sector_start : Z; length_in_sectors : Z }.
Record ahci_private_data := mk_private { port : hba_port; part : option partition_layout }.

Definition sizeof_fis : Z := 20.
Definition sizeof_tbl : Z := 128 + 16.
Definition sizeof_prd : Z := 16.

(** ** Ports *)

Definition ahci_check_type (p : hba_port) : Z :=
  let ipm := Z.land (Z.shiftr (p_ssts p) 8) 0x0F in
  let det := Z.land (p_ssts p) 0x0F in
  if negb (det =? HBA_PORT_DET_PRESENT) then AHCI_DEV_NULL
  else if negb (ipm =? HBA_PORT_IPM_ACTIVE) then AHCI_DEV_NULL
  else if p_sig p =? SATA_SIG_ATAPI then AHCI_DEV_SATAPI
  else if p_sig p =? SATA_SIG_SEMB then AHCI_DEV_SEMB
  else if p_sig p =? SATA_SIG_PM then AHCI_DEV_PM
  else AHCI_DEV_SATA.

Definition with_cmd (x : Z) (p : hba_port) : hba_port :=
  mk_port (p_clb p) (p_clbu p) (p_fb p) (p_fbu p) (p_is p) x (p_sig p) (p_ssts p) (p_sact p) (p_ci p).
Definition with_lists (clb fb : Z) (p : hba_port) : hba_port :=
  mk_port clb 0 fb 0 (p_is p) (p_cmd p) (p_sig p) (p_ssts p) (p_sact p) (p_ci p).

(** [slots & 1], then [slots >>= 1], 32 times. *)
Fixpoint slot_loop (n : nat) (i slots : Z) : Z :=
  match n with
  | O => -1
  | S n' => if negb (truthy (Z.land slots 1)) then i else slot_loop n' (i + 1) (Z.shiftr slots 1)
  end.
Definition ahci_find_cmdslot (p : hba_port) : Z := slot_loop 32 0 (Z.lor (p_sact p) (p_ci p)).

(** ** Commands *)

(** The entries of full regions: 16 sectors, 8 KiB each; then the position and the sectors left. *)
Fixpoint prdt_loop (n : nat) (buf count32 : Z) : list hba_prdt_entry * Z * Z :=
  match n with
  | O => ([], buf, count32)
  | S n' =>
      let '(l, b, c) := prdt_loop n' (buf + 8 * 1024) (u32 (count32 - 16)) in
      (mk_prd (u32 (buf - PHYS_MEM_OFFSET)) 0 (8 * 1024 - 1) 1 :: l, b, c)
  end.

Definition make_fis (cmd start64 count32 : Z) : fis_reg_host_to_device :=
  let startl := u32 start64 in
  let starth := u32 (Z.shiftr start64 32) in
  mk_fis FIS_TYPE_REG_HOST_TO_DEVICE 1 cmd (u8 startl) (u8 (Z.shiftr startl 8)) (u8 (Z.shiftr startl 16)) 64
    (u8 (Z.shiftr startl 24)) (u8 starth) (u8 (Z.shiftr starth 8)) (Z.land count32 0xFF) (u8 (Z.shiftr count32 8)).

(** [prdtl]: a 16-bit field. *)
Definition prdt_length (count32 : Z) : Z := u16 (u16 (Z.shiftr (u32 (count32 - 1)) 4) + 1).

(** The command table in its page; [None] when it does not fit, or when [prdtl] is 0 and the loop
    runs to [(size_t)-1]. *)
Definition make_table (cmd start64 count32 buf : Z) : option hba_cmd_tbl :=
  let prdtl := prdt_length count32 in
  if (prdtl =? 0) || (PAGE_SIZE <? sizeof_tbl + (prdtl - 1) * sizeof_prd) then None
  else
    let '(full, buf, count32) := prdt_loop (Z.to_nat (prdtl - 1)) buf count32 in
    let last := mk_prd (u32 (buf - PHYS_MEM_OFFSET)) 0 ((u32 (Z.shiftl count32 9) - 1) mod 2 ^ 22) 1 in
    Some (mk_tbl (make_fis cmd start64 count32) (full ++ [last])).

(** What [sata_read] and [sata_write] leave in the header of the slot. *)
Definition read_cmd_header (prdtl : Z) (h : hba_cmd_header) : hba_cmd_header :=
  mk_header (sizeof_fis / 4) 0 (h_p h) (h_c h) prdtl (h_ctba h) (h_ctbau h).
Definition write_cmd_header (prdtl : Z) (h : hba_cmd_header) : hba_cmd_header :=
  mk_header (sizeof_fis / 4) 1 1 1 prdtl (h_ctba h) (h_ctbau h).

(** ** The controller *)

(** The disk and memory. *)
Record world := mk_world { w_disk : mem; w_mem : mem }.

(** What a read of the port's registers finds while a command is being worked on: the slot's bit of
    [ci], the task file error bit of [is], and the disk and memory as they are then. *)
Record progress := mk_progress { pg_ci : bool; pg_tfes : bool; pg_world : world }.

Class Hba := {
  (** An issued command: the successive reads of [ci] and [is]. *)
  hba_run : hba_cmd_header -> hba_cmd_tbl -> world -> nat -> progress;
  (** The successive reads of the task file register. *)
  hba_tfd : nat -> Z;
  (** Waiting until none of the given bits of the command register is set; [None] when that never
      happens. *)
  hba_settle : Z -> hba_port -> option hba_port
}.

(** The number of sectors and the first sector a FIS names. *)
Definition fis_count (f : fis_reg_host_to_device) : Z :=
  let n := countl f + 2 ^ 8 * counth f in if n =? 0 then 2 ^ 16 else n.
Definition fis_lba (f : fis_reg_host_to_device) : Z :=
  lba0 f + 2 ^ 8 * lba1 f + 2 ^ 16 * lba2 f + 2 ^ 24 * lba3 f + 2 ^ 32 * lba4 f + 2 ^ 40 * lba5 f.

(** [left] bytes of [src] from [pos] on go to the regions in order, and back. *)
Fixpoint scatter (l : list hba_prdt_entry) (src : mem) (pos left : Z) (m : mem) : mem :=
  match l with
  | [] => m
  | e :: l' =>
      let n := Z.min left (dbc e + 1) in
      scatter l' src (pos + n) (left - n) (put n m (dba e + PHYS_MEM_OFFSET) src pos)
  end.
Fixpoint gather (l : list hba_prdt_entry) (m : mem) (pos left : Z) (disk : mem) : mem :=
  match l with
  | [] => disk
  | e :: l' =>
      let n := Z.min left (dbc e + 1) in
      gather l' m (pos + n) (left - n) (put n disk pos m (dba e + PHYS_MEM_OFFSET))
  end.

(** READ DMA EXT and WRITE DMA EXT move the sectors the FIS names, through the regions in order: all
    of them when the command is over and the error bit is clear, and any part of them before that or
    after an error; nothing else changes. *)
Definition read_effect (t : hba_cmd_tbl) (w : world) : mem :=
  scatter (prdt_entry t) (w_disk w) (512 * fis_lba (cfis t)) (512 * fis_count (cfis t)) (w_mem w).
Definition write_effect (t : hba_cmd_tbl) (w : world) : mem :=
  gather (prdt_entry t) (w_mem w) (512 * fis_lba (cfis t)) (512 * fis_count (cfis t)) (w_disk w).

(** [m] is on the way from [old] to [new]. *)
Definition partly (old new m : mem) : Prop := forall x, m x = old x \/ m x = new x.

Class HbaSpec `{Hba} := {
  hba_reads : forall h t w n, command (cfis t) = ATA_CMD_READ_DMA_EX -> h_w h = 0 ->
    let p := hba_run h t w n in
    w_disk (pg_world p) = w_disk w /\ partly (w_mem w) (read_effect t w) (w_mem (pg_world p));
  hba_read_done : forall h t w n, command (cfis t) = ATA_CMD_READ_DMA_EX -> h_w h = 0 ->
    pg_ci (hba_run h t w n) = false -> pg_tfes (hba_run h t w (S n)) = false ->
    forall x, w_mem (pg_world (hba_run h t w (S n))) x = read_effect t w x;
  hba_writes : forall h t w n, command (cfis t) = ATA_CMD_WRITE_DMA_EX -> h_w h = 1 ->
    let p := hba_run h t w n in
    w_mem (pg_world p) = w_mem w /\ partly (w_disk w) (write_effect t w) (w_disk (pg_world p));
  hba_write_done : forall h t w n, command (cfis t) = ATA_CMD_WRITE_DMA_EX -> h_w h = 1 ->
    pg_ci (hba_run h t w n) = false -> pg_tfes (hba_run h t w (S n)) = false ->
    forall x, w_disk (pg_world (hba_run h t w (S n))) x = write_effect t w x
}.

(** ** Transfers *)
Section Transfers.
Context `{Hba} (waits : nat).

(** A port with the command headers of its list, and the world. *)
Record sata := mk_sata { s_port : hba_port; s_headers : list hba_cmd_header; s_world : world }.
Definition SM := M sata.

Definition set_port (p : hba_port) : SM unit := modify (fun s => mk_sata p (s_headers s) (s_world s)).
Definition set_header (slot : Z) (h : hba_cmd_header) : SM unit :=
  modify (fun s => mk_sata (s_port s) (<[Z.to_nat slot := h]> (s_headers s)) (s_world s)).
Definition set_world (w : world) : SM unit := modify (fun s => mk_sata (s_port s) (s_headers s) w).
Definition with_is (x : Z) (p : hba_port) : hba_port :=
  mk_port (p_clb p) (p_clbu p) (p_fb p) (p_fbu p) x (p_cmd p) (p_sig p) (p_ssts p) (p_sact p) (p_ci p).

Definition busy (tfd : Z) : bool := truthy (Z.land tfd (Z.lor ATA_DEV_BUSY ATA_DEV_DRQ)).

(** [for (spin = 0; spin < 1000000; spin++)]: the number of reads made. *)
Fixpoint spin_loop (fuel : nat) (i : nat) : nat :=
  match fuel with O => i | S f => if busy (hba_tfd i) then spin_loop f (S i) else S i end.
Definition SPINS : nat := Z.to_nat 1000000.

(** [while (1)]: [ci], then [is]; leaving the loop reads [is] once more.  The result is whether the
    command succeeded, and the disk and memory at the last read. *)
Fixpoint wait_loop (fuel : nat) (n : nat) (h : hba_cmd_header) (t : hba_cmd_tbl) (w : world) : option (bool * world) :=
  match fuel with
  | O => None
  | S fuel' =>
      let status := hba_run h t w (S n) in
      if negb (pg_ci (hba_run h t w n)) then Some (negb (pg_tfes status), pg_world status)
      else if pg_tfes status then Some (false, pg_world status)
      else wait_loop fuel' (S (S n)) h t w
  end.

Definition ssize_t := Z.

(** The common body; [header] and [cmd] are what the two functions do differently.  The slot's bit
    of [ci] is back to 0 when the controller is done. *)
Definition transfer (header : Z -> hba_cmd_header -> hba_cmd_header) (cmd : Z)
    (pt : option partition_layout) (start count buf : Z) : SM ssize_t :=
  let count32 := u32 count in
  let start64 := match pt with Some p => u64 (start + sector_start p) | None => start end in
  p ← gets s_port;
  _ ← set_port (with_is (2 ^ 32 - 1) p);
  let slot := ahci_find_cmdslot p in
  if slot =? -1 then mret 0
  else
    hs ← gets s_headers;
    h ← of_option (hs !! Z.to_nat slot);
    let h := header (prdt_length count32) h in
    _ ← set_header slot h;
    t ← of_option (make_table cmd start64 count32 buf);
    if busy (hba_tfd (spin_loop SPINS 0)) then mret 0
    else
      w ← gets s_world;
      match wait_loop waits 0 h t w with
      | None => out_of_fuel
      | Some (ok, w') => _ ← set_world w'; mret (if ok then u64 (count * 512) else 0)
      end.

Definition sata_read := transfer read_cmd_header ATA_CMD_READ_DMA_EX.
Definition sata_write := transfer write_cmd_header ATA_CMD_WRITE_DMA_EX.
End Transfers.

(** ** Bringing a port up *)
Section Init.
Context `{Hba} (waits : nat).

(** Memory management, memory and the list of devices with their private data. *)
Record istate := mk_istate { i_pmm : pmm_state; i_mem : mem; i_devices : list (device * ahci_private_data) }.
Definition IM := M istate.

Definition on_phys_mem {A} (m : M pmm_state A) : IM A := fun s =>
  match m (i_pmm s) with
  | Done (a, x) => Done (a, mk_istate x (i_mem s) (i_devices s))
  | Halt => Halt
  | Fault => Fault
  | Fuel => Fuel
  end.

Definition settle (mask : Z) (p : hba_port) : IM hba_port :=
  match hba_settle mask p with Some p' => mret p' | None => halt end.

Definition ahci_start_cmd_engine (p : hba_port) : IM hba_port :=
  p ← settle HBA_PXCMD_CR p;
  let p := with_cmd (Z.lor (p_cmd p) HBA_PXCMD_FRE) p in
  mret (with_cmd (Z.lor (p_cmd p) HBA_PXCMD_ST) p).

Definition ahci_stop_cmd_engine (p : hba_port) : IM hba_port :=
  let p := with_cmd (Z.land (p_cmd p) (u32 (Z.lnot HBA_PXCMD_ST))) p in
  let p := with_cmd (Z.land (p_cmd p) (u32 (Z.lnot HBA_PXCMD_FRE))) p in
  settle (Z.lor HBA_PXCMD_FR HBA_PXCMD_CR) p.

(** The 32 headers, each with a page for its table. *)
Fixpoint init_headers (n : nat) : IM (list hba_cmd_header) :=
  match n with
  | O => mret []
  | S n' => t ← on_phys_mem (pcalloc 1); l ← init_headers n'; mret (mk_header 0 0 0 0 8 (u32 t) 0 :: l)
  end.

Definition ahci_port_init (p : hba_port) : IM (hba_port * list hba_cmd_header) :=
  p ← ahci_stop_cmd_engine p;
  clb ← on_phys_mem (pcalloc 1);
  fb ← on_phys_mem (pcalloc 1);
  let p := with_lists (u32 clb) (u32 fb) p in
  hs ← init_headers 32;
  p ← ahci_start_cmd_engine p;
  mret (p, hs).

(** A transfer on a port whose disk has the given contents. *)
Definition on_port (p : hba_port) (hs : list hba_cmd_header) (disk : mem) {A} (m : SM A) : IM A := fun s =>
  match m (mk_sata p hs (mk_world disk (i_mem s))) with
  | Done (a, x) => Done (a, mk_istate (i_pmm s) (w_mem (s_world x)) (i_devices s))
  | Halt => Halt
  | Fault => Fault
  | Fuel => Fuel
  end.

(** The partition entries start at 0x1be; [boot_sec] is the address of the local array. *)
Definition probe_mbr (boot_sec : Z) (p : hba_port) (hs : list hba_cmd_header) (disk : mem) (num : Z) :
    IM (option partition_layout) :=
  _ ← on_port p hs disk (sata_read waits None 0 1 boot_sec);
  m ← gets i_mem;
  let e := boot_sec + 0x1be + 16 * num in
  if negb (truthy (u8 (m (e + 4)))) then mret None
  else mret (Some (mk_part (u8 num) (ld 4 m (e + 8)) (ld 4 m (e + 12)))).

Definition sata_device : device := mk_device S_IFBLK 0 512 0.
Definition add_device (d : device) (x : ahci_private_data) : IM unit :=
  modify (fun s => mk_istate (i_pmm s) (i_mem s) (i_devices s ++ [(d, x)])).

(** The four partitions of a disk. *)
Fixpoint probe_loop (n : nat) (boot_sec : Z) (p : hba_port) (hs : list hba_cmd_header) (disk : mem) (num : Z) : IM unit :=
  match n with
  | O => mret tt
  | S n' =>
      o ← probe_mbr boot_sec p hs disk num;
      _ ← (match o with Some pt => add_device sata_device (mk_private p (Some pt)) | None => mret tt end);
      probe_loop n' boot_sec p hs disk (num + 1)
  end.

Definition register_port (boot_sec : Z) (p : hba_port) (disk : mem) : IM unit :=
  '(p, hs) ← ahci_port_init p;
  _ ← probe_loop 4 boot_sec p hs disk 0;
  add_device sata_device (mk_private p None).

(** A controller: the ports it implements and what is behind them. *)
Record hba_mem := mk_hba { pi : Z; ports : list (hba_port * mem) }.

Fixpoint port_loop (n : nat) (boot_sec : Z) (abar : hba_mem) (i pi : Z) : IM unit :=
  match n with
  | O => mret tt
  | S n' =>
      _ ← (if truthy (Z.land pi 1) then
             '(p, disk) ← of_option (ports abar !! Z.to_nat i);
             if ahci_check_type p =? AHCI_DEV_SATA then register_port boot_sec p disk else mret tt
           else mret tt);
      port_loop n' boot_sec abar (i + 1) (Z.shiftr pi 1)
  end.

Fixpoint ahci_init_abars (boot_sec : Z) (abars : list hba_mem) : IM unit :=
  match abars with
  | [] => mret tt
  | a :: abars' => _ ← port_loop 32 boot_sec a 0 (pi a); ahci_init_abars boot_sec abars'
  end.

(** [init_sata]: the AHCI controllers among the PCI devices, by class and subclass. *)
Definition init_sata (boot_sec : Z) (devices : list (Z * Z * hba_mem)) : IM Z :=
  let abars := (fun d => d.2) <$> filter (fun d => d.1 = (1, 6)) devices in
  if (length abars =? 0)%nat then mret 1 else _ ← ahci_init_abars boot_sec abars; mret 0.
End Init.

(** ** The command table *)

Lemma byte_of x k : 0 <= k -> k <= 24 -> u8 (Z.shiftr (u32 x) k) = (x / 2 ^ k) mod 2 ^ 8.
Proof.
  intros Hk Hk'. rewrite Z.shiftr_div_pow2 by lia. unfold u32, u8.
  assert (P : 0 < 2 ^ k) by (apply Z.pow_pos_nonneg; lia).
  assert (P' : 0 < 2 ^ (32 - k)) by (apply Z.pow_pos_nonneg; lia).
  replace (2 ^ 32) with (2 ^ k * 2 ^ (32 - k)) by (rewrite <- Z.pow_add_r by lia; f_equal; lia).
  rewrite Z.rem_mul_r by lia. rewrite (Z.mul_comm (2 ^ k)), Z.div_add by lia.
  rewrite (Z.div_small (x mod 2 ^ k)) by (apply Z.mod_pos_bound; lia). rewrite Z.add_0_l.
  apply Z.mod_mod_divide. exists (2 ^ (32 - k - 8)). rewrite <- Z.pow_add_r by lia. f_equal. lia.
Qed.

Lemma fis_lba_ok cmd x c : 0 <= x < 2 ^ 48 -> fis_lba (make_fis cmd x c) = x.
Proof.
  intros Hx. unfold fis_lba, make_fis. cbn [lba0 lba1 lba2 lba3 lba4 lba5].
  rewrite <- (Z.shiftr_0_r (u32 x)) at 1. rewrite <- (Z.shiftr_0_r (u32 (Z.shiftr x 32))) at 1.
  rewrite !byte_of by lia. rewrite (Z.shiftr_div_pow2 x 32) by lia. rewrite !Z.div_div by lia.
  change (2 ^ 0) with 1. rewrite Z.div_1_r, Z.mul_1_r, <- Z.pow_add_r by lia. change (32 + 8) with 40.
  set (y1 := x / 2 ^ 8).
  assert (E2 : x / 2 ^ 16 = y1 / 2 ^ 8) by (unfold y1; by rewrite Z.div_div by lia). set (y2 := y1 / 2 ^ 8) in *.
  assert (E3 : x / 2 ^ 24 = y2 / 2 ^ 8) by (rewrite <- E2; by rewrite Z.div_div by lia). set (y3 := y2 / 2 ^ 8) in *.
  assert (E4 : x / 2 ^ 32 = y3 / 2 ^ 8) by (rewrite <- E3; by rewrite Z.div_div by lia). set (y4 := y3 / 2 ^ 8) in *.
  assert (E5 : x / 2 ^ 40 = y4 / 2 ^ 8) by (rewrite <- E4; by rewrite Z.div_div by lia). set (y5 := y4 / 2 ^ 8) in *.
  rewrite E2, E3, E4, E5.
  assert (B : 0 <= y5 < 2 ^ 8) by (rewrite <- E5; split; [apply Z.div_pos; lia|apply Z.div_lt_upper_bound; lia]).
  rewrite (Z.mod_small y5) by done.
  pose proof (Z_div_mod_eq_full x (2 ^ 8)) as D0. pose proof (Z_div_mod_eq_full y1 (2 ^ 8)) as D1.
  pose proof (Z_div_mod_eq_full y2 (2 ^ 8)) as D2. pose proof (Z_div_mod_eq_full y3 (2 ^ 8)) as D3.
  pose proof (Z_div_mod_eq_full y4 (2 ^ 8)) as D4.
  fold y1 in D0. fold y2 in D1. fold y3 in D2. fold y4 in D3. fold y5 in D4. lia.
Qed.

Lemma fis_count_ok cmd x c : 0 < c < 2 ^ 16 -> fis_count (make_fis cmd x c) = c.
Proof.
  intros Hc. unfold fis_count, make_fis. cbn [countl counth].
  change 0xFF with (Z.ones 8). rewrite Z.land_ones, Z.shiftr_div_pow2 by lia. unfold u8.
  rewrite (Z.mod_small (c / 2 ^ 8)) by (split; [apply Z.div_pos; lia|apply Z.div_lt_upper_bound; lia]).
  pose proof (Z_div_mod_eq_full c (2 ^ 8)).
  replace (c mod 2 ^ 8 + 2 ^ 8 * (c / 2 ^ 8)) with c by lia. by rewrite (proj2 (Z.eqb_neq c 0)) by lia.
Qed.

(** The sectors of the last region of a request: what is left when the full regions are taken off. *)
Definition last_sectors (count : Z) : Z := (count - 1) mod 16 + 1.

Lemma prdt_loop_run n buf r :
  0 < r <= 16 -> 16 * Z.of_nat n + r < 2 ^ 32 ->
  exists l, prdt_loop n buf (16 * Z.of_nat n + r) = (l, buf + 8192 * Z.of_nat n, r) /\
    Forall (fun e => 0 <= dbc e) l /\
    match n with O => l = [] | S _ => exists l', l = mk_prd (u32 (buf - PHYS_MEM_OFFSET)) 0 8191 1 :: l' end.
Proof.
  intros Hr. revert buf. induction n as [|n IH]; intros buf Hn.
  - exists []. cbn [prdt_loop]. split; [|by split].
    by rewrite Z.mul_0_r, Z.add_0_l, Z.mul_0_r, Z.add_0_r.
  - destruct (IH (buf + 8 * 1024)) as (l & E & Hl & _); [lia|]. cbn [prdt_loop].
    rewrite u32_small by lia. replace (16 * Z.of_nat (S n) + r - 16) with (16 * Z.of_nat n + r) by lia. rewrite E.
    eexists. split; [|split; [|eexists; reflexivity]].
    + by replace (buf + 8192 * Z.of_nat (S n)) with (buf + 8 * 1024 + 8192 * Z.of_nat n) by lia.
    + by constructor; [cbn; lia|].
Qed.

Lemma prdt_length_ok count : 0 < count <= 3968 -> prdt_length count = (count - 1) / 16 + 1.
Proof.
  intros Hc. unfold prdt_length. rewrite Z.shiftr_div_pow2, (u32_small (count - 1)) by lia. change (2 ^ 4) with 16.
  assert (B : 0 <= (count - 1) / 16 < 248) by (split; [apply Z.div_pos; lia|apply Z.div_lt_upper_bound; lia]).
  by rewrite (u16_small ((count - 1) / 16)), u16_small by lia.
Qed.

(** The table of a request: its FIS asks for the sectors of the last region only, and they fit into
    the first region. *)
Lemma make_table_ok cmd x count buf :
  0 < count <= 3968 -> PHYS_MEM_OFFSET <= buf -> buf + 512 * count <= PHYS_MEM_OFFSET + 2 ^ 32 ->
  exists e l, make_table cmd x count buf = Some (mk_tbl (make_fis cmd x (last_sectors count)) (e :: l)) /\
    dba e + PHYS_MEM_OFFSET = buf /\ 512 * last_sectors count <= dbc e + 1 /\ Forall (fun e => 0 <= dbc e) l.
Proof.
  intros Hc Hb Hb'. unfold make_table. rewrite prdt_length_ok by done. unfold last_sectors, sizeof_tbl, sizeof_prd, PAGE_SIZE.
  pose proof (Z_div_mod_eq_full (count - 1) 16) as D. pose proof (Z.mod_pos_bound (count - 1) 16 ltac:(lia)) as Hm.
  set (q := (count - 1) / 16) in *. set (r := (count - 1) mod 16 + 1) in *.
  assert (Hq : 0 <= q < 248) by (unfold q; split; [apply Z.div_pos; lia|apply Z.div_lt_upper_bound; lia]).
  rewrite (proj2 (Z.eqb_neq (q + 1) 0)), (proj2 (Z.ltb_ge _ _)) by lia. cbn [orb].
  destruct (prdt_loop_run (Z.to_nat q) buf r) as (l & E & Hf & Hl); [lia|lia|].
  replace (Z.to_nat (q + 1 - 1)) with (Z.to_nat q) by lia.
  replace (16 * Z.of_nat (Z.to_nat q) + r) with count in E by lia. rewrite E.
  assert (Hbuf : u32 (buf - PHYS_MEM_OFFSET) + PHYS_MEM_OFFSET = buf) by (rewrite u32_small by lia; lia).
  destruct (Z.to_nat q) eqn:Eq.
  - subst l. do 2 eexists. split; [reflexivity|]. cbn [dba dbc]. replace (buf + 8192 * Z.of_nat 0) with buf by lia.
    split; [done|]. split; [|constructor]. rewrite Z.shiftl_mul_pow2 by lia. rewrite u32_small by lia.
    rewrite Z.mod_small; lia.
  - destruct Hl as [l' ->]. do 2 eexists. split; [reflexivity|]. cbn [dba dbc]. split; [done|]. split; [lia|].
    apply Forall_cons_1 in Hf as [_ Hf]. apply Forall_app. split; [done|]. apply Forall_singleton. cbn [dbc].
    apply Z.mod_pos_bound. lia.
Qed.

(** ** The controller moves one region *)

Lemma put_none d a s b x : put 0 d a s b x = d x.
Proof. unfold put. destruct (Z.leb_spec a x), (Z.ltb_spec x (a + 0)); cbn; (done || lia). Qed.

Lemma scatter_none l src pos m x : Forall (fun e => 0 <= dbc e) l -> scatter l src pos 0 m x = m x.
Proof.
  intros Hl. revert pos m. induction Hl as [|e l He Hl IH]; intros pos m; [done|]. cbn [scatter].
  rewrite Z.min_l, Z.add_0_r, Z.sub_0_r, IH by lia. apply put_none.
Qed.
Lemma gather_none l m pos d x : Forall (fun e => 0 <= dbc e) l -> gather l m pos 0 d x = d x.
Proof.
  intros Hl. revert pos d. induction Hl as [|e l He Hl IH]; intros pos d; [done|]. cbn [gather].
  rewrite Z.min_l, Z.add_0_r, Z.sub_0_r, IH by lia. apply put_none.
Qed.

Lemma scatter_first e l src pos n m x :
  0 <= n <= dbc e + 1 -> Forall (fun e => 0 <= dbc e) l ->
  scatter (e :: l) src pos n m x = put n m (dba e + PHYS_MEM_OFFSET) src pos x.
Proof. intros Hn Hl. cbn [scatter]. rewrite Z.min_l, Z.sub_diag by lia. by apply scatter_none. Qed.
Lemma gather_first e l m pos n d x :
  0 <= n <= dbc e + 1 -> Forall (fun e => 0 <= dbc e) l ->
  gather (e :: l) m pos n d x = put n d pos m (dba e + PHYS_MEM_OFFSET) x.
Proof. intros Hn Hl. cbn [gather]. rewrite Z.min_l, Z.sub_diag by lia. by apply gather_none. Qed.

(** ** Transfers *)

Lemma slot_loop_range n i slots : slot_loop n i slots = -1 \/ i <= slot_loop n i slots < i + Z.of_nat n.
Proof.
  revert i slots. induction n as [|n IH]; intros i slots; [by left|]. cbn [slot_loop].
  destruct (negb (truthy (Z.land slots 1))); [right; lia|]. destruct (IH (i + 1) (Z.shiftr slots 1)); [by left|right; lia].
Qed.

(** The first sector of a request. *)
Definition first_sector (pt : option partition_layout) (start : Z) : Z :=
  match pt with Some p => start + sector_start p | None => start end.

Record request_ok (pt : option partition_layout) (start count buf : Z) : Prop := mk_request {
  rq_count : 0 < count <= 3968;
  rq_buf : PHYS_MEM_OFFSET <= buf /\ buf + 512 * count <= PHYS_MEM_OFFSET + 2 ^ 32;
  rq_lba : 0 <= first_sector pt start < 2 ^ 48
}.

(** The controller has not answered an issued command in any round that is followed: the driver is
    still in its loop. *)
Definition unanswered `{Hba} (waits : nat) (w : world) : Prop :=
  exists h t, forall k, (k < waits)%nat -> pg_ci (hba_run h t w (2 * k)) = true /\ pg_tfes (hba_run h t w (S (2 * k))) = false.

Section Correct.
Context `{HbaSpec} (waits : nat).

Lemma wait_loop_cases fuel n h t w :
  match wait_loop fuel n h t w with
  | Some (ok, w') => exists k, w' = pg_world (hba_run h t w (S k)) /\
      (ok = true -> pg_ci (hba_run h t w k) = false /\ pg_tfes (hba_run h t w (S k)) = false)
  | None => forall k, (k < fuel)%nat -> pg_ci (hba_run h t w (n + 2 * k)) = true /\ pg_tfes (hba_run h t w (S (n + 2 * k))) = false
  end.
Proof.
  revert n. induction fuel as [|f IH]; intros n; cbn [wait_loop]; [intros k Hk; lia|].
  destruct (pg_ci (hba_run h t w n)) eqn:Ec; cbn [negb].
  - destruct (pg_tfes (hba_run h t w (S n))) eqn:Et; [by exists n|].
    specialize (IH (S (S n))). destruct (wait_loop f (S (S n)) h t w) as [[ok w']|]; [done|].
    intros [|k] Hk.
    + rewrite Nat.mul_0_r, Nat.add_0_r. done.
    + replace (n + 2 * S k)%nat with (S (S n) + 2 * k)%nat by lia. apply IH. lia.
  - exists n. split; [done|]. destruct (pg_tfes (hba_run h t w (S n))); done.
Qed.

Lemma transfer_run header cmd pt start count buf s :
  request_ok pt start count buf -> length (s_headers s) = 32%nat ->
  match transfer waits header cmd pt start count buf s with
  | Done (r, s') =>
      r = 0 /\ s_world s' = s_world s \/
      exists h e l k, let h' := header (prdt_length count) h in
        let t := mk_tbl (make_fis cmd (first_sector pt start) (last_sectors count)) (e :: l) in
        s_world s' = pg_world (hba_run h' t (s_world s) (S k)) /\
        (r = 0 \/ r = count * 512 /\ pg_ci (hba_run h' t (s_world s) k) = false /\
          pg_tfes (hba_run h' t (s_world s) (S k)) = false) /\
        dba e + PHYS_MEM_OFFSET = buf /\ 512 * last_sectors count <= dbc e + 1 /\ Forall (fun e => 0 <= dbc e) l
  | Fuel => unanswered waits (s_world s)
  | Halt | Fault => False
  end.
Proof.
  intros [Hc [Hb Hb'] Hl] Hh. unfold transfer. rewrite (u32_small count) by lia. cbv zeta.
  replace (match pt with Some p => u64 (start + sector_start p) | None => start end) with (first_sector pt start)
    by (unfold first_sector in *; destruct pt; [by rewrite u64_small by lia|done]).
  unfold mbind, M_bind, gets, set_port, modify. cbn [s_port s_headers s_world].
  destruct (slot_loop_range 32 0 (Z.lor (p_sact (s_port s)) (p_ci (s_port s)))) as [E|E];
    fold (ahci_find_cmdslot (s_port s)) in E; set (slot := ahci_find_cmdslot (s_port s)) in *.
  { rewrite E. cbn. by left. }
  rewrite (proj2 (Z.eqb_neq slot (-1))) by lia.
  destruct (lookup_lt_is_Some_2 (s_headers s) (Z.to_nat slot)) as [h Hh']; [lia|].
  cbv beta iota. cbn [s_port s_headers s_world]. rewrite Hh'. cbn [of_option set_header modify s_headers s_world s_port].
  destruct (make_table_ok cmd (first_sector pt start) count buf Hc Hb Hb') as (e & l & Et & He). rewrite Et.
  cbn [of_option]. destruct (busy _); [by left|].
  pose proof (wait_loop_cases waits 0 (header (prdt_length count) h)
    (mk_tbl (make_fis cmd (first_sector pt start) (last_sectors count)) (e :: l)) (s_world s)) as W.
  destruct (wait_loop _ _ _ _ _) as [[ok w']|].
  - destruct W as (k & -> & Hok). cbn [set_world modify s_world]. right. exists h, e, l, k. cbv zeta.
    split; [done|]. split; [|done]. destruct ok; [right|by left]. rewrite u64_small by lia. split; [done|]. by apply Hok.
  - eexists _, _. exact W.
Qed.

Lemma last_sectors_bounds count : 0 < last_sectors count <= 16.
Proof. unfold last_sectors. pose proof (Z.mod_pos_bound (count - 1) 16). lia. Qed.

Lemma read_effect_ok pt start count buf e l w x :
  request_ok pt start count buf -> dba e + PHYS_MEM_OFFSET = buf -> 512 * last_sectors count <= dbc e + 1 ->
  Forall (fun e => 0 <= dbc e) l ->
  read_effect (mk_tbl (make_fis ATA_CMD_READ_DMA_EX (first_sector pt start) (last_sectors count)) (e :: l)) w x =
    put (512 * last_sectors count) (w_mem w) buf (w_disk w) (512 * first_sector pt start) x.
Proof.
  intros [Hc _ Hl] Ha Hd Hf. pose proof (last_sectors_bounds count). unfold read_effect. cbn [cfis prdt_entry].
  rewrite fis_lba_ok, fis_count_ok, scatter_first by (lia || done). by rewrite Ha.
Qed.

Lemma write_effect_ok pt start count buf e l w x :
  request_ok pt start count buf -> dba e + PHYS_MEM_OFFSET = buf -> 512 * last_sectors count <= dbc e + 1 ->
  Forall (fun e => 0 <= dbc e) l ->
  write_effect (mk_tbl (make_fis ATA_CMD_WRITE_DMA_EX (first_sector pt start) (last_sectors count)) (e :: l)) w x =
    put (512 * last_sectors count) (w_disk w) (512 * first_sector pt start) (w_mem w) buf x.
Proof.
  intros [Hc _ Hl] Ha Hd Hf. pose proof (last_sectors_bounds count). unfold write_effect. cbn [cfis prdt_entry].
  rewrite fis_lba_ok, fis_count_ok, gather_first by (lia || done). by rewrite Ha.
Qed.

(** The outcomes of a transfer between [old] and [new]: [r] and the memory [m] at the end. *)
Definition moved (count : Z) (old new : mem) (r : Z) (m : mem) : Prop :=
  r = count * 512 /\ (forall x, m x = new x) \/ r = 0 /\ partly old new m.

Lemma read_run (pt : option partition_layout) (start count buf : Z) (s : sata) :
  request_ok pt start count buf -> length (s_headers s) = 32%nat ->
  let n := 512 * last_sectors count in let at_ := 512 * first_sector pt start in let w := s_world s in
  match sata_read waits pt start count buf s with
  | Done (r, s') => w_disk (s_world s') = w_disk w /\
      moved count (w_mem w) (put n (w_mem w) buf (w_disk w) at_) r (w_mem (s_world s'))
  | Fuel => unanswered waits w
  | Halt | Fault => False
  end.
Proof.
  intros Hr Hh n at_ w. pose proof (transfer_run read_cmd_header ATA_CMD_READ_DMA_EX _ _ _ _ s Hr Hh) as T.
  unfold sata_read. destruct (transfer _ _ _ _ _ _ _ _) as [[r s']| | |]; try done. fold w in T.
  destruct T as [[-> ->]|(h & e & l & k & T)]; [split; [done|]; right; split; [done|]; intros x; by left|].
  cbv zeta in T. destruct T as (-> & T & Ha & Hd & Hf). set (t := mk_tbl _ _) in *. set (h' := read_cmd_header _ _) in *.
  assert (E : forall x, read_effect t w x = put n (w_mem w) buf (w_disk w) at_ x) by (intros x; by apply read_effect_ok).
  destruct (hba_reads h' t w (S k) eq_refl eq_refl) as [D P]. split; [exact D|].
  destruct T as [->|(-> & Ec & Et)].
  - right. split; [done|]. intros x. rewrite <- E. apply P.
  - left. split; [done|]. intros x. rewrite <- E. by apply hba_read_done.
Qed.

Lemma write_run (pt : option partition_layout) (start count buf : Z) (s : sata) :
  request_ok pt start count buf -> length (s_headers s) = 32%nat ->
  let n := 512 * last_sectors count in let at_ := 512 * first_sector pt start in let w := s_world s in
  match sata_write waits pt start count buf s with
  | Done (r, s') => w_mem (s_world s') = w_mem w /\
      moved count (w_disk w) (put n (w_disk w) at_ (w_mem w) buf) r (w_disk (s_world s'))
  | Fuel => unanswered waits w
  | Halt | Fault => False
  end.
Proof.
  intros Hr Hh n at_ w. pose proof (transfer_run write_cmd_header ATA_CMD_WRITE_DMA_EX _ _ _ _ s Hr Hh) as T.
  unfold sata_write. destruct (transfer _ _ _ _ _ _ _ _) as [[r s']| | |]; try done. fold w in T.
  destruct T as [[-> ->]|(h & e & l & k & T)]; [split; [done|]; right; split; [done|]; intros x; by left|].
  cbv zeta in T. destruct T as (-> & T & Ha & Hd & Hf). set (t := mk_tbl _ _) in *. set (h' := write_cmd_header _ _) in *.
  assert (E : forall x, write_effect t w x = put n (w_disk w) at_ (w_mem w) buf x) by (intros x; by apply write_effect_ok).
  destruct (hba_writes h' t w (S k) eq_refl eq_refl) as [D P]. split; [exact D|].
  destruct T as [->|(-> & Ec & Et)].
  - right. split; [done|]. intros x. rewrite <- E. apply P.
  - left. split; [done|]. intros x. rewrite <- E. by apply hba_write_done.
Qed.

(** C34: what [sata_read] and [sata_write] move, on a controller that follows the specification, for
    requests of up to 3968 sectors between memory below 4 GiB and the disk.  A call that returns the
    byte count of the whole request has moved the first [last_sectors count] sectors, at the
    partition's offset, and not a byte more: for up to 16 sectors that is the whole request; beyond,
    the sector count of the command is the one left over after the full regions were subtracted from
    it.  A call that returns 0 - no slot, a busy device, a task file error - may have moved any part
    of those sectors and nothing else.  The call does not return only while the controller neither
    finishes the command nor reports an error: the loop has no bound. *)
Theorem sata_transfers (pt : option partition_layout) (start count buf : Z) (s : sata) :
  request_ok pt start count buf -> length (s_headers s) = 32%nat ->
  let n := 512 * last_sectors count in let at_ := 512 * first_sector pt start in let w := s_world s in
  match sata_read waits pt start count buf s with
  | Done (r, s') => w_disk (s_world s') = w_disk w /\
      moved count (w_mem w) (put n (w_mem w) buf (w_disk w) at_) r (w_mem (s_world s'))
  | Fuel => unanswered waits w
  | Halt | Fault => False
  end /\
  match sata_write waits pt start count buf s with
  | Done (r, s') => w_mem (s_world s') = w_mem w /\
      moved count (w_disk w) (put n (w_disk w) at_ (w_mem w) buf) r (w_disk (s_world s'))
  | Fuel => unanswered waits w
  | Halt | Fault => False
  end /\
  (count <= 16 -> n = 512 * count).
Proof.
  intros Hr Hh n at_ w. split; [by apply read_run|]. split; [by apply write_run|].
  intros Hle. pose proof Hr as [Hc _ _]. unfold n, last_sectors. rewrite Z.mod_small by lia. lia.
Qed.
End Correct.

(** ** Slots *)

(** [ahci_find_cmdslot] finds the lowest slot with neither an active nor an issued command, and
    answers -1 only when all 32 are taken. *)
Theorem find_cmdslot_lowest (p : hba_port) :
  0 <= p_sact p -> 0 <= p_ci p ->
  let taken k := Z.testbit (p_sact p) k || Z.testbit (p_ci p) k in
  let slot := ahci_find_cmdslot p in
  (slot = -1 /\ forall k, 0 <= k < 32 -> taken k = true) \/
  (0 <= slot < 32 /\ taken slot = false /\ forall k, 0 <= k < slot -> taken k = true).
Proof.
  intros Hs Hc taken slot.
  assert (G : forall n i x, 0 <= i -> (forall k, 0 <= k -> Z.testbit x k = taken (k + i)) ->
    (slot_loop n i x = -1 /\ forall k, i <= k < i + Z.of_nat n -> taken k = true) \/
    (i <= slot_loop n i x < i + Z.of_nat n /\ taken (slot_loop n i x) = false /\
      forall k, i <= k < slot_loop n i x -> taken k = true)).
  { induction n as [|n IH]; intros i x Hi Hx; [left; split; [done|lia]|]. cbn [slot_loop].
    assert (B : truthy (Z.land x 1) = taken i).
    { rewrite <- (Z.add_0_l i), <- Hx by lia. change 1 with (Z.ones 1). rewrite Z.land_ones by lia.
      rewrite Z.bit0_odd, Zodd_mod. unfold truthy. change (2 ^ 1) with 2.
      pose proof (Z.mod_pos_bound x 2 ltac:(lia)).
      destruct (Z.eq_dec (x mod 2) 0) as [->|]; [done|]. by replace (x mod 2) with 1 by lia. }
    rewrite B. destruct (taken i) eqn:Et; cbn [negb]; [|right; split; [lia|split; [done|lia]]].
    destruct (IH (i + 1) (Z.shiftr x 1) ltac:(lia)) as [[E Hall]|(E & Hfree & Hlow)].
    { intros k Hk. rewrite Z.shiftr_spec by lia. rewrite Hx by lia. f_equal. lia. }
    - left. split; [done|]. intros k Hk. destruct (Z.eq_dec k i) as [->|]; [done|]. apply Hall. lia.
    - right. split; [lia|]. split; [done|]. intros k Hk. destruct (Z.eq_dec k i) as [->|]; [done|]. apply Hlow. lia. }
  apply (G 32%nat 0); [lia|]. intros k Hk. rewrite Z.lor_spec. unfold taken. by rewrite Z.add_0_r.
Qed.

(** ** The driver *)

(** The read and write functions of a disk behind the interface of Device.v, on a port whose list
    of headers is fresh. *)
Definition sata_ops `{Hba} (waits : nat) (p : hba_port) (hs : list hba_cmd_header) (pt : option partition_layout) : DriverOps := {|
  drv_read start count disk buf a :=
    match sata_read waits pt start count a (mk_sata p hs (mk_world disk buf)) with
    | Done (_, s) => w_mem (s_world s) | _ => buf end;
  drv_write start count disk buf a :=
    match sata_write waits pt start count a (mk_sata p hs (mk_world disk buf)) with
    | Done (_, s) => w_disk (s_world s) | _ => disk end;
  drv_read_ret start count disk := count * 512;
  drv_write_ret start count disk := count * 512
|}.

(** For requests of up to 16 sectors in range that succeed, the driver does what [BlockDriverUpTo]
    asks of it. *)
Theorem sata_ops_small `{HbaSpec} (waits : nat) (p : hba_port) (hs : list hba_cmd_header) (pt : option partition_layout)
    (start count a : Z) (disk buf : mem) :
  request_ok pt start count a -> count <= 16 -> length hs = 32%nat ->
  let s := mk_sata p hs (mk_world disk buf) in let at_ := first_sector pt start * 512 in
  (forall s', sata_read waits pt start count a s = Done (count * 512, s') ->
     forall x, @drv_read (sata_ops waits p hs pt) start count disk buf a x = put (count * 512) buf a disk at_ x) /\
  (forall s', sata_write waits pt start count a s = Done (count * 512, s') ->
     forall x, @drv_write (sata_ops waits p hs pt) start count disk buf a x = put (count * 512) disk at_ buf a x).
Proof.
  intros Hr H16 Hh s at_. pose proof Hr as [Hc _ _].
  assert (En : 512 * last_sectors count = count * 512) by (unfold last_sectors; rewrite Z.mod_small by lia; lia).
  pose proof (read_run waits pt start count a s Hr Hh) as R. pose proof (write_run waits pt start count a s Hr Hh) as W.
  cbv zeta in R, W. rewrite En, (Z.mul_comm 512) in R, W.
  split; intros s' E x; cbn [drv_read drv_write sata_ops]; fold s; rewrite E.
  - rewrite E in R. destruct R as (_ & [[_ R]|[R _]]); [apply R|lia].
  - rewrite E in W. destruct W as (_ & [[_ W]|[W _]]); [apply W|lia].
Qed.

(** A controller that follows the specification: it does what the hypotheses say, at once. *)
#[local] Instance ram_hba : Hba := {|
  hba_run h t w n :=
    mk_progress false false
      (if command (cfis t) =? ATA_CMD_READ_DMA_EX then mk_world (w_disk w) (read_effect t w)
       else mk_world (write_effect t w) (w_mem w));
  hba_tfd _ := 0;
  hba_settle mask p := Some (with_cmd (Z.land (p_cmd p) (u32 (Z.lnot mask))) p)
|}.

#[local] Instance ram_hba_spec : HbaSpec.
Proof.
  split; intros h t w n Hc _; unfold hba_run, ram_hba; rewrite Hc; [split; [done|]; intros x; by right|done|split; [done|]; intros x; by right|done].
Qed.

Definition idle_port : hba_port := mk_port 0x5000 0 0x6000 0 0 0 0x101 0x123 0 0x3.
Definition fresh_headers : list hba_cmd_header := replicate 32 (mk_header 0 0 0 0 8 0x7000 0).
Definition counting_disk : mem := fun x => u8 (x / 512 + 1).
Definition zero_mem : mem := fun _ => 0.
Definition idle_sata : sata := mk_sata idle_port fresh_headers (mk_world counting_disk zero_mem).

Lemma request_ok_sample count :
  0 < count <= 3968 -> request_ok (Some (mk_part 0 2048 100000)) 5 count (PHYS_MEM_OFFSET + 0x10000).
Proof. intros Hc. constructor; [done| |]; unfold PHYS_MEM_OFFSET, first_sector; cbn [sector_start]; lia. Qed.

(** The command goes to slot 2, the lowest free one. *)
Lemma find_cmdslot_lowest_witness :
  ahci_find_cmdslot idle_port = 2 /\ Z.testbit (p_sact idle_port) 2 || Z.testbit (p_ci idle_port) 2 = false.
Proof.
  split; [reflexivity|].
  destruct (find_cmdslot_lowest idle_port ltac:(vm_compute; discriminate) ltac:(vm_compute; discriminate)) as [[E _]|(_ & E & _)];
    [discriminate E|exact E].
Defined.

Lemma sata_transfers_witness :
  exists s', sata_read 1 (Some (mk_part 0 2048 100000)) 5 2 (PHYS_MEM_OFFSET + 0x10000) idle_sata = Done (1024, s') /\
    w_mem (s_world s') (PHYS_MEM_OFFSET + 0x10000) = 6 /\ w_mem (s_world s') (PHYS_MEM_OFFSET + 0x10400) = 0.
Proof.
  pose proof (proj1 (sata_transfers 1 (Some (mk_part 0 2048 100000)) 5 2 (PHYS_MEM_OFFSET + 0x10000) idle_sata
    (request_ok_sample 2 ltac:(lia)) eq_refl)) as T. cbv zeta in T.
  assert (R : match sata_read 1 (Some (mk_part 0 2048 100000)) 5 2 (PHYS_MEM_OFFSET + 0x10000) idle_sata with
    Done (r, _) => r | _ => -1 end = 1024) by (vm_compute; reflexivity).
  destruct (sata_read 1 _ _ _ _ _) as [[r s']| | |]; try discriminate R. subst r.
  exists s'. split; [reflexivity|]. destruct T as (_ & [[_ H]|[H _]]); [|discriminate H].
  rewrite !H. split; reflexivity.
Defined.

(** A controller that stops half-way through a read with an error: the call returns 0 with the first
    sector moved.  A controller that never answers keeps the driver in its loop. *)
Definition failing_hba : Hba := {|
  hba_run h t w n := mk_progress true true (mk_world (w_disk w) (scatter (prdt_entry t) (w_disk w) (512 * fis_lba (cfis t)) 512 (w_mem w)));
  hba_tfd _ := 0;
  hba_settle mask p := Some p
|}.
Definition silent_hba : Hba := {| hba_run h t w n := mk_progress true false w; hba_tfd _ := 0; hba_settle mask p := Some p |}.

Theorem failed_transfers :
  match @sata_read failing_hba 1 None 5 2 (PHYS_MEM_OFFSET + 0x10000) idle_sata with
  | Done (r, s') => r = 0 /\ w_mem (s_world s') (PHYS_MEM_OFFSET + 0x10000) = 6 /\ w_mem (s_world s') (PHYS_MEM_OFFSET + 0x10200) = 0
  | _ => False
  end /\
  (forall waits, @sata_read silent_hba waits None 5 2 (PHYS_MEM_OFFSET + 0x10000) idle_sata = Fuel).
Proof.
  split; [vm_compute; done|]. intros waits. unfold sata_read, transfer. cbv beta zeta.
  unfold mbind, M_bind, gets, set_port, set_header, set_world, modify. cbn [s_port s_headers s_world].
  replace (ahci_find_cmdslot (s_port idle_sata)) with 2 by (vm_compute; reflexivity). change (2 =? -1) with false. cbv iota.
  cbn [s_port s_headers s_world]. change (s_headers idle_sata !! Z.to_nat 2) with (Some (mk_header 0 0 0 0 8 0x7000 0)). cbn [of_option].
  destruct (make_table _ _ _ _) as [t|] eqn:E; [|vm_compute in E; discriminate E]. cbn [of_option].
  change (@hba_tfd silent_hba _) with 0. change (busy 0) with false. cbv iota. cbn [s_world].
  assert (L : forall fuel n h w, @wait_loop silent_hba fuel n h t w = None) by (induction fuel; intros; [done|]; cbn; auto).
  by rewrite L.
Qed.

Lemma sata_ops_small_witness : forall x,
  @drv_read (sata_ops 1 idle_port fresh_headers None) 5 2 counting_disk zero_mem (PHYS_MEM_OFFSET + 0x10000) x =
  put 1024 zero_mem (PHYS_MEM_OFFSET + 0x10000) counting_disk 2560 x.
Proof.
  assert (R : match sata_read 1 None 5 2 (PHYS_MEM_OFFSET + 0x10000) idle_sata with Done (r, _) => r | _ => -1 end = 1024) by (vm_compute; reflexivity).
  destruct (sata_read 1 None 5 2 (PHYS_MEM_OFFSET + 0x10000) idle_sata) as [[r s']| | |] eqn:E; try discriminate R. subst r.
  apply (proj1 (sata_ops_small 1 idle_port fresh_headers None 5 2 (PHYS_MEM_OFFSET + 0x10000) counting_disk zero_mem
    ltac:(constructor; unfold PHYS_MEM_OFFSET, first_sector; lia) ltac:(lia) eq_refl) s' E).
Defined.

(** the SATA driver is no block driver in the sense of Device.v: even on a controller that
    follows the specification, a read of 17 sectors delivers one, so [device_read] and the file
    systems above do not get what they ask for. *)
Theorem sata_not_block_driver :
  ~ @BlockDriver 512 (sata_ops 1 idle_port fresh_headers None).
Proof.
  intros B.
  pose proof (@drv_read_ok 512 (sata_ops 1 idle_port fresh_headers None) B 0 17 counting_disk zero_mem PHYS_MEM_OFFSET
    (PHYS_MEM_OFFSET + 512) ltac:(lia) ltac:(lia)) as E.
  assert (L : @drv_read (sata_ops 1 idle_port fresh_headers None) 0 17 counting_disk zero_mem PHYS_MEM_OFFSET
    (PHYS_MEM_OFFSET + 512) = 0) by (vm_compute; reflexivity).
  rewrite L in E. vm_compute in E. discriminate E.
Qed.

(** ** Partitions *)

(** Entry [num] of the partition table at [base]. *)
Definition mbr_entry (m : mem) (base num : Z) : option partition_layout :=
  let e := base + 0x1be + 16 * num in
  if u8 (m (e + 4)) =? 0 then None else Some (mk_part num (ld 4 m (e + 8)) (ld 4 m (e + 12))).

Lemma mbr_entry_moved m m' a b num :
  0 <= num < 4 -> (forall k, 0 <= k < 512 -> m (a + k) = m' (b + k)) -> mbr_entry m a num = mbr_entry m' b num.
Proof.
  intros Hn E. unfold mbr_entry.
  assert (At : forall k, 0 <= k < 16 -> m (a + 0x1be + 16 * num + k) = m' (b + 0x1be + 16 * num + k)).
  { intros k Hk. specialize (E (0x1be + 16 * num + k) ltac:(lia)).
    by replace (a + 0x1be + 16 * num + k) with (a + (0x1be + 16 * num + k)) by lia;
      replace (b + 0x1be + 16 * num + k) with (b + (0x1be + 16 * num + k)) by lia. }
  rewrite At by lia.
  rewrite (ld_shift 4 m m' (a + 0x1be + 16 * num + 8) (b + 0x1be + 16 * num + 8)),
    (ld_shift 4 m m' (a + 0x1be + 16 * num + 12) (b + 0x1be + 16 * num + 12)); [done| |];
    intros k Hk; rewrite <- !(Z.add_assoc (_ + 16 * num)); apply At; lia.
Qed.

(** [probe_mbr] reads the partition table of the disk: when the read succeeds the answer is the
    entry of sector 0 - its first sector and length, or nothing when its system id is 0; when the
    read fails the answer is taken from whatever the stack buffer holds by then, the failure is not
    noticed. *)
Theorem probe_mbr_spec `{HbaSpec} (waits : nat) (boot_sec : Z) (p : hba_port) (hs : list hba_cmd_header) (disk : mem) (num : Z) (s : istate) :
  0 <= num < 4 -> length hs = 32%nat -> PHYS_MEM_OFFSET <= boot_sec < PHYS_MEM_OFFSET + 2 ^ 31 ->
  match probe_mbr waits boot_sec p hs disk num s with
  | Done (o, s') => i_devices s' = i_devices s /\
      (o = mbr_entry disk 0 num /\ (forall x, i_mem s' x = put 512 (i_mem s) boot_sec disk 0 x) \/
       o = mbr_entry (i_mem s') boot_sec num /\ partly (i_mem s) (put 512 (i_mem s) boot_sec disk 0) (i_mem s'))
  | Fuel => unanswered waits (mk_world disk (i_mem s))
  | Halt | Fault => False
  end.
Proof.
  intros Hn Hh Hb.
  assert (Hr : request_ok None 0 1 boot_sec) by (constructor; cbn [first_sector]; lia).
  pose proof (read_run waits None 0 1 boot_sec (mk_sata p hs (mk_world disk (i_mem s))) Hr Hh) as T. cbv zeta in T.
  cbn [s_world w_disk w_mem] in T. change (512 * last_sectors 1) with 512 in T. change (512 * first_sector None 0) with 0 in T.
  unfold probe_mbr, mbind, M_bind, on_port. destruct (sata_read _ _ _ _ _ _) as [[r x]| | |]; try done.
  destruct T as [_ T]. set (s' := mk_istate (i_pmm s) (w_mem (s_world x)) (i_devices s)).
  unfold gets. cbv zeta. fold s'.
  match goal with |- match ?X with Done _ => _ | _ => _ end => assert (E : X = Done (mbr_entry (i_mem s') boot_sec num, s')) end.
  { unfold mbr_entry, truthy. rewrite (u8_small num) by lia. by destruct (u8 _ =? 0). }
  rewrite E. split; [done|].
  destruct T as [[_ T]|[_ T]]; [left|right; done]. split; [|exact T]. apply mbr_entry_moved; [done|]. intros k Hk.
  cbn [i_mem s']. rewrite T. unfold put. rewrite (proj2 (Z.leb_le _ _)), (proj2 (Z.ltb_lt _ _)) by lia. cbn [andb]. f_equal. lia.
Qed.

(** A disk whose second partition starts at sector 2048. *)
Definition mbr_disk : mem := st 4 (0x1be + 16 + 12) 4096 (st 4 (0x1be + 16 + 8) 2048 (st 1 (0x1be + 16 + 4) 0x0c zero_mem)).

Lemma probe_mbr_spec_witness :
  exists o s', probe_mbr 1 (PHYS_MEM_OFFSET + 0x9000) idle_port fresh_headers mbr_disk 1 (mk_istate (mk_pmm false 0 [] 0 zero_mem) zero_mem []) =
    Done (o, s') /\ (o = Some (mk_part 1 2048 4096) \/ o = mbr_entry (i_mem s') (PHYS_MEM_OFFSET + 0x9000) 1).
Proof.
  pose proof (probe_mbr_spec 1 (PHYS_MEM_OFFSET + 0x9000) idle_port fresh_headers mbr_disk 1
    (mk_istate (mk_pmm false 0 [] 0 zero_mem) zero_mem []) ltac:(lia) eq_refl ltac:(unfold PHYS_MEM_OFFSET; lia)) as T.
  assert (R : match probe_mbr 1 (PHYS_MEM_OFFSET + 0x9000) idle_port fresh_headers mbr_disk 1
    (mk_istate (mk_pmm false 0 [] 0 zero_mem) zero_mem []) with Done _ => true | _ => false end = true) by (vm_compute; reflexivity).
  destruct (probe_mbr _ _ _ _ _ _ _) as [[o s']| | |]; try discriminate R.
  exists o, s'. split; [reflexivity|]. destruct T as (_ & [[-> _]|[-> _]]); [left; vm_compute; reflexivity|right; reflexivity].
Defined.
