(* ===== verification/Console.v ===== *)
(** * The console (src/src/kernel/fb/fb.c, fb/klog.c, dev/tty.c, drivers/ps2.c, dev/mousedev.c)

    [putc] draws characters on the framebuffer and moves the cursor; the keyboard and mouse handlers
    keep the last key and the last mouse packet, which the tty and the mouse device read.

    The framebuffer is a map from pixel numbers to colours.  Writing outside the screen is [Fault];
    reading behind its end, which scrolling does, gives what the map holds there.  The font is an
    argument: 256 glyphs of 14 rows.  The i-th poll of the keyboard sees the scancodes that arrived
    since the last one.  [fb_lock] is released by the function that takes it. *)
From Stdlib Require Import Ascii String.
From S2P Require Import Prelude CString Printf.
Open Scope Z_scope.

Definition FONT_WIDTH : Z := 8.
Definition FONT_HEIGHT : Z := 14.
Definition FONT_CHAR_DEFINITION : Z := 14.

Record console := mk_console {
  framebuffer : Z -> Z; fb_width : Z; fb_height : Z; curr_fg_col : Z; curr_bg_col : Z; curr_x : Z; curr_y : Z;
}.
Definition CM := M console.

Definition set_fb (f : Z -> Z) (s : console) : console :=
  mk_console f (fb_width s) (fb_height s) (curr_fg_col s) (curr_bg_col s) (curr_x s) (curr_y s).
Definition set_cursor (x y : Z) (s : console) : console :=
  mk_console (framebuffer s) (fb_width s) (fb_height s) (curr_fg_col s) (curr_bg_col s) x y.

(** ** fb.c *)

Definition init_fb (addr_map : Z -> Z) (width height : Z) : console :=
  mk_console addr_map (u16 width) (u16 height) 0xffffff 0 0 0.

Definition fb_set_bg (col : Z) : CM unit := modify (fun s =>
  mk_console (framebuffer s) (fb_width s) (fb_height s) (curr_fg_col s) col (curr_x s) (curr_y s)).
Definition fb_set_fg (col : Z) : CM unit := modify (fun s =>
  mk_console (framebuffer s) (fb_width s) (fb_height s) col (curr_bg_col s) (curr_x s) (curr_y s)).

(** [framebuffer[i] = colour] *)
Definition plot (i colour : Z) : CM unit := fun s =>
  if (0 <=? i) && (i <? fb_width s * fb_height s)
  then Done (tt, set_fb (fun j => if j =? i then colour else framebuffer s j) s) else Fault.

Definition fb_putpixel (x y colour : Z) : CM unit := w ← gets fb_width; plot (y * w + x) colour.

Section Font.
Context (font_array : list Z).

Definition glyph (c ly : Z) : CM Z :=
  let i := c * FONT_CHAR_DEFINITION + ly in
  if 0 <=? i then of_option (font_array !! Z.to_nat i) else fault.

Definition putnc (x y c fgc bgc : Z) : CM unit :=
  for_n (Z.to_nat FONT_HEIGHT) 0 (fun ly =>
    for_n (Z.to_nat FONT_WIDTH) 0 (fun lx =>
      pixel ← glyph c ly;
      w ← gets fb_width;
      plot (x + ((FONT_WIDTH - 1) - lx) + (y + ly) * w)
        (if truthy (Z.land (Z.shiftr pixel lx) 1) then fgc else bgc))).

(** [for (i = 0; i < n; i++) framebuffer[i] = (framebuffer + d)[i];], every store checked. *)
Definition scroll_loop (n : nat) (d : Z) : CM unit :=
  for_n n 0 (fun i => f ← gets framebuffer; plot i (f (i + d))).

Definition knewline : CM unit :=
  s ← get;
  let n := Z.to_nat (fb_width s * fb_height s) in
  let d := fb_width s * FONT_HEIGHT in
  _ ← scroll_loop n d;
  _ ← scroll_loop n d;
  _ ← modify (fun s => set_cursor (curr_x s) (u64 (curr_y s - FONT_HEIGHT)) s);
  modify (fun s => set_cursor 0 (curr_y s) s).

(** The cursor to the next line. *)
Definition next_line : CM unit :=
  s ← get;
  if fb_height s <? u64 (curr_y s + FONT_HEIGHT * 2) then knewline
  else modify (fun s => set_cursor (curr_x s) (curr_y s + FONT_HEIGHT) s).

Definition putc (c fgc bgc : Z) : CM unit :=
  if c =? 10 then _ ← next_line; modify (fun s => set_cursor 0 (curr_y s) s)
  else if c =? 13 then modify (fun s => set_cursor 0 (curr_y s) s)
  else if c =? 8 then
    _ ← modify (fun s => set_cursor (u64 (curr_x s - FONT_WIDTH)) (curr_y s) s);
    s ← get;
    putnc (s32 (curr_x s)) (s32 (curr_y s)) 32 fgc bgc
  else
    s ← get;
    _ ← (if fb_width s <? u64 (curr_x s + FONT_WIDTH)
         then _ ← modify (fun s => set_cursor 0 (curr_y s) s); next_line else mret tt);
    s ← get;
    _ ← putnc (s32 (curr_x s)) (s32 (curr_y s)) c fgc bgc;
    modify (fun s => set_cursor (u64 (curr_x s + FONT_WIDTH)) (curr_y s) s).

Definition putchar (c : Z) : CM unit := s ← get; putc (s8 c) (curr_fg_col s) (curr_bg_col s).

(** ** Output *)

Fixpoint put_chars (t : list Z) : CM unit :=
  match t with [] => mret tt | c :: t' => _ ← putchar c; put_chars t' end.

(** [printf] on the screen. *)
Definition print (format : list Z) (args : list varg) : CM Z :=
  match Screen.printf false format args with
  | Done p => _ ← put_chars (p_out p); mret (p_chars p)
  | Halt => halt
  | Fault => fault
  | Fuel => out_of_fuel
  end.

Definition KLOG_GREEN : Z := 0x55FF55.
Definition KLOG_RED : Z := 0xFF5555.
Definition KLOG_YELLOW : Z := 0xFFFF55.
Definition KLOG_BLUE : Z := 0x5555FF.

(** "[ TAG " in colour, then " ] ". *)
Definition klog_tag (colour : Z) (tag : string) (close : list Z) (args : list varg) : CM unit :=
  s ← get;
  _ ← print (text "[ " ++ [0]) [];
  _ ← fb_set_fg colour;
  _ ← print (text tag ++ [0]) [];
  _ ← fb_set_fg (curr_fg_col s);
  _ ← print close args;
  mret tt.

Definition klog (type : Z) (message : list Z) (args : list varg) : CM unit :=
  let line colour tag := _ ← klog_tag colour tag (text " ] " ++ [0]) []; _ ← print message args; mret tt in
  if type =? 0 then line KLOG_GREEN "OKAY"%string
  else if type =? 1 then line KLOG_RED "FAIL"%string
  else if type =? 2 then line KLOG_YELLOW "WARN"%string
  else if type =? 3 then line KLOG_BLUE "INFO"%string
  else mret tt.

Definition klog_init (type : Z) (message : list Z) : CM Z :=
  _ ← (if type =? 0 then klog_tag KLOG_GREEN "OKAY"%string (text " ] %s initialized " ++ [10; 0]) [VStr message]
       else if type =? 1 then klog_tag KLOG_RED "FAIL"%string (text " ] %s not initialized " ++ [10; 0]) [VStr message]
       else mret tt);
  mret type.

(** ** tty.c: output *)

Definition tty_write (count : Z) (buf : Z) (m : mem) : CM Z :=
  _ ← for_n (Z.to_nat count) 0 (fun i => putchar (u8 (m (buf + i)))); mret count.
End Font.

(** ** Drawing *)

(** The cursor is at a character cell or at the end of a line, on a line of the screen. *)
Record cursor_ok (s : console) : Prop := mk_cursor_ok {
  co_width : FONT_WIDTH <= fb_width s < 2 ^ 16;
  co_height : 2 * FONT_HEIGHT <= fb_height s < 2 ^ 16;
  co_x : 0 <= curr_x s <= fb_width s;
  co_y : 0 <= curr_y s /\ curr_y s + FONT_HEIGHT <= fb_height s;
  co_line : curr_y s mod FONT_HEIGHT = 0
}.

(** Two screens of the same size with the same colours. *)
Definition same_screen (s s' : console) : Prop :=
  fb_width s' = fb_width s /\ fb_height s' = fb_height s /\ curr_fg_col s' = curr_fg_col s /\
  curr_bg_col s' = curr_bg_col s.

(** Nothing in front of or behind the framebuffer has changed. *)
Definition outside_kept (s s' : console) : Prop :=
  forall j, j < 0 \/ fb_width s * fb_height s <= j -> framebuffer s' j = framebuffer s j.

Lemma outside_kept_trans s s1 s2 : same_screen s s1 -> outside_kept s s1 -> outside_kept s1 s2 -> outside_kept s s2.
Proof. intros (W & H & _) K K' j Hj. rewrite K' by (by rewrite W, H). by apply K. Qed.

Lemma pixel_inj w x y x' y' : 0 <= x < w -> 0 <= x' < w -> x + y * w = x' + y' * w -> x = x' /\ y = y'.
Proof.
  intros Hx Hx' E. assert (y = y') as ->; [|lia].
  destruct (Z.lt_trichotomy y y') as [L|[L|L]]; [|done|]; exfalso; nia.
Qed.

(** Decides an equation between comparisons. *)
Ltac cases_bool :=
  repeat match goal with
  | |- context [?a <=? ?b] => destruct (Z.leb_spec a b)
  | |- context [?a <? ?b] => destruct (Z.ltb_spec a b)
  | |- context [?a =? ?b] => destruct (Z.eqb_spec a b)
  end; cbn [andb orb]; reflexivity || (exfalso; lia).

Lemma plot_run s i col :
  0 <= i < fb_width s * fb_height s ->
  plot i col s = Done (tt, set_fb (fun j => if j =? i then col else framebuffer s j) s).
Proof. intros Hi. unfold plot. by rewrite (proj2 (Z.leb_le _ _)), (proj2 (Z.ltb_lt _ _)) by lia. Qed.

Section Draw.
Context (font_array : list Z) (Hfont : length font_array = 3584%nat).

(** Row [ly] of the glyph of [c]. *)
Definition glyph_row (c ly : Z) : Z := nth (Z.to_nat (c * 14 + ly)) font_array 0.

Lemma glyph_run c ly s : 0 <= c < 256 -> 0 <= ly < 14 -> glyph font_array c ly s = Done (glyph_row c ly, s).
Proof.
  intros Hc Hl. unfold glyph, FONT_CHAR_DEFINITION. rewrite (proj2 (Z.leb_le _ _)) by lia. unfold glyph_row.
  destruct (lookup_lt_is_Some_2 font_array (Z.to_nat (c * 14 + ly))) as [v E]; [lia|]. rewrite E.
  by rewrite (nth_lookup_Some _ _ _ _ E).
Qed.

(** The colour of a pixel of a character cell, the leftmost being bit 7. *)
Definition cell_colour (c fgc bgc dx dy : Z) : Z :=
  if truthy (Z.land (Z.shiftr (glyph_row c dy) (7 - dx)) 1) then fgc else bgc.

(** [f'] is [f] with the pixels of a set drawn. *)
Definition drawn (w : Z) (inside : Z -> Z -> bool) (colour : Z -> Z -> Z) (f f' : Z -> Z) : Prop :=
  forall px py, 0 <= px < w -> f' (px + py * w) = if inside px py then colour px py else f (px + py * w).

Lemma drawn_plot w inside colour f f' x y :
  0 <= x < w -> drawn w inside colour f f' ->
  drawn w (fun px py => inside px py || (px =? x) && (py =? y)) colour f
    (fun j => if j =? x + y * w then colour x y else f' j).
Proof.
  intros Hx D px py Hp. destruct (Z.eqb_spec (px + py * w) (x + y * w)) as [E|N].
  - apply pixel_inj in E as [-> ->]; [|done..]. by rewrite !Z.eqb_refl, orb_true_r.
  - rewrite (D px py Hp). destruct (inside px py); [done|]. cbn [orb].
    destruct (Z.eqb_spec px x) as [->|]; [|done]. destruct (Z.eqb_spec py y) as [->|]; [done|done].
Qed.

Lemma drawn_ext w i i' colour f f' :
  (forall px py, 0 <= px < w -> i px py = i' px py) -> drawn w i colour f f' -> drawn w i' colour f f'.
Proof. intros E D px py Hp. rewrite (D px py Hp). by rewrite E. Qed.

Lemma putnc_run s x y c fgc bgc :
  0 <= c < 256 -> 0 <= x -> x + 8 <= fb_width s -> 0 <= y -> y + 14 <= fb_height s ->
  exists f', putnc font_array x y c fgc bgc s = Done (tt, set_fb f' s) /\
    drawn (fb_width s) (fun px py => (x <=? px) && (px <? x + 8) && (y <=? py) && (py <? y + 14))
      (fun px py => cell_colour c fgc bgc (px - x) (py - y)) (framebuffer s) f'.
Proof.
  intros Hc Hx Hx' Hy Hy'. set (w := fb_width s) in *. set (f := framebuffer s).
  set (colour := fun px py => cell_colour c fgc bgc (px - x) (py - y)).
  destruct (for_n_inv (fun ly t => exists g, t = set_fb g s /\
      drawn w (fun px py => (x <=? px) && (px <? x + 8) && (y <=? py) && (py <? y + ly)) colour f g)
    (fun ly => for_n 8 0 (fun lx => pixel ← glyph font_array c ly; w ← gets fb_width;
       plot (x + ((FONT_WIDTH - 1) - lx) + (y + ly) * w)
         (if truthy (Z.land (Z.shiftr pixel lx) 1) then fgc else bgc))) 14 0 s) as (t & E & g & -> & D).
  - exists f. split; [by destruct s|]. intros px py Hp.
    destruct (Z.leb_spec y py), (Z.ltb_spec py (y + 0)); cbn; try lia; by rewrite ?andb_false_r.
  - intros ly t Hly (g & -> & D).
    destruct (for_n_inv (fun lx t => exists g', t = set_fb g' s /\
        drawn w (fun px py => (x <=? px) && (px <? x + 8) && (y <=? py) && (py <? y + ly)
          || (x + 8 - lx <=? px) && (px <? x + 8) && (py =? y + ly)) colour f g')
      (fun lx => pixel ← glyph font_array c ly; w ← gets fb_width;
         plot (x + ((FONT_WIDTH - 1) - lx) + (y + ly) * w)
           (if truthy (Z.land (Z.shiftr pixel lx) 1) then fgc else bgc)) 8 0 (set_fb g s)) as (t' & E & g' & -> & D').
    + exists g. split; [done|]. eapply drawn_ext; [|exact D]. intros px py Hp. cbn beta.
      destruct (Z.leb_spec (x + 8 - 0) px), (Z.ltb_spec px (x + 8)); cbn; try lia; by rewrite orb_false_r.
    + intros lx t Hlx (g' & -> & D').
      rewrite (bind_run _ _ _ _ _ (glyph_run c ly _ Hc ltac:(lia))).
      unfold gets, mbind, M_bind. cbn [fb_width set_fb]. fold w. unfold FONT_WIDTH.
      rewrite plot_run by (cbn [fb_width fb_height set_fb]; fold w; nia).
      eexists. split; [reflexivity|]. eexists. split; [reflexivity|]. cbn [framebuffer set_fb].
      pose proof (drawn_plot w _ colour f g' (x + (8 - 1 - lx)) (y + ly) ltac:(lia) D') as P.
      replace (colour (x + (8 - 1 - lx)) (y + ly)) with
        (if truthy (Z.land (Z.shiftr (glyph_row c ly) lx) 1) then fgc else bgc) in P
        by (unfold colour, cell_colour; replace (y + ly - y) with ly by lia;
            by replace (7 - (x + (8 - 1 - lx) - x)) with lx by lia).
      eapply drawn_ext; [|exact P]. intros px py Hp. cbn beta. lia.
    + eexists. split; [exact E|]. exists g'. split; [done|].
      eapply drawn_ext; [|exact D']. intros px py Hp. cbn beta. cases_bool.
  - exists g. split; [exact E|exact D].
Qed.
End Draw.

(** ** The cursor *)

(** The loop returns when it stays on the screen; copying upwards reads each pixel before it is
    overwritten. *)
Lemma scroll_run s n d : 0 < d -> Z.of_nat n <= fb_width s * fb_height s ->
  exists f, scroll_loop n d s = Done (tt, set_fb f s) /\
    forall j, f j = if (0 <=? j) && (j <? Z.of_nat n) then framebuffer s (j + d) else framebuffer s j.
Proof.
  intros Hd Hn.
  destruct (for_n_inv (fun i t => exists f, t = set_fb f s /\
      forall j, f j = if (0 <=? j) && (j <? i) then framebuffer s (j + d) else framebuffer s j)
    (fun i => f ← gets framebuffer; plot i (f (i + d))) n 0 s) as (t & E & f & -> & Hf).
  - exists (framebuffer s). split; [by destruct s|]. intros j. by cases_bool.
  - intros i t Hi (f & -> & Hf). unfold gets, mbind, M_bind. rewrite plot_run by (cbn [fb_width fb_height set_fb]; lia).
    eexists. split; [reflexivity|]. eexists. split; [reflexivity|]. cbn [framebuffer set_fb]. intros j.
    destruct (Z.eqb_spec j i) as [->|]; rewrite Hf; cases_bool.
  - exists f. split; [exact E|exact Hf].
Qed.

(** What scrolling does to the screen: every pixel takes the one two text lines below it - the copy
    is made twice - and the last two lines take what is behind the framebuffer. *)
Definition scrolled (n d : Z) (f : Z -> Z) (j : Z) : Z :=
  if (0 <=? j) && (j <? n) then if j + d <? n then f (j + d + d) else f (j + d) else f j.

Lemma knewline_run s : 0 < fb_width s -> 0 <= fb_height s ->
  exists f, knewline s = Done (tt, set_cursor 0 (u64 (curr_y s - FONT_HEIGHT)) (set_fb f s)) /\
    forall j, f j = scrolled (fb_width s * fb_height s) (fb_width s * FONT_HEIGHT) (framebuffer s) j.
Proof.
  intros Hw Hh. unfold knewline. rewrite (bind_run _ _ _ _ _ (eq_refl : get s = Done (s, s))). cbv zeta.
  set (n := fb_width s * fb_height s). set (d := fb_width s * FONT_HEIGHT).
  assert (Hn : 0 <= n) by (apply Z.mul_nonneg_nonneg; lia).
  assert (Hd : 0 < d) by (apply Z.mul_pos_pos; [lia|done]).
  destruct (scroll_run s (Z.to_nat n) d Hd) as (f & E & Hf); [fold n; lia|].
  destruct (scroll_run (set_fb f s) (Z.to_nat n) d Hd) as (g & E' & Hg); [cbn [fb_width fb_height set_fb]; fold n; lia|].
  exists g. rewrite (bind_run _ _ _ _ _ E), (bind_run _ _ _ _ _ E'). split; [reflexivity|].
  rewrite Z2Nat.id in Hf, Hg by lia. intros j. rewrite Hg. cbn [framebuffer set_fb]. unfold scrolled.
  rewrite !Hf. cases_bool.
Qed.

Lemma line_step y : y mod FONT_HEIGHT = 0 -> (y + FONT_HEIGHT) mod FONT_HEIGHT = 0 /\ (y - FONT_HEIGHT) mod FONT_HEIGHT = 0.
Proof.
  unfold FONT_HEIGHT. intros H. rewrite Zplus_mod, Zminus_mod, H. done.
Qed.

Lemma cursor_moved s x y :
  cursor_ok s -> 0 <= x <= fb_width s -> 0 <= y -> y + FONT_HEIGHT <= fb_height s -> y mod FONT_HEIGHT = 0 ->
  cursor_ok (set_cursor x y s).
Proof. intros [Hw Hh _ _ _] Hx Hy Hy' Hl. by constructor. Qed.

Lemma cursor_set_fb s f : cursor_ok s -> cursor_ok (set_fb f s).
Proof. intros [Hw Hh Hx Hy Hl]. by constructor. Qed.

Lemma next_line_run s :
  cursor_ok s -> exists s', next_line s = Done (tt, s') /\ cursor_ok s' /\ same_screen s s' /\ outside_kept s s' /\
    (curr_x s = 0 -> curr_x s' = 0).
Proof.
  intros Hok. pose proof Hok as [Hw Hh Hx [Hy Hy'] Hl]. unfold next_line, get, mbind, M_bind. unfold FONT_HEIGHT in *.
  rewrite u64_small by lia. destruct (line_step _ Hl) as [L1 L2]. unfold FONT_HEIGHT in *.
  destruct (Z.ltb_spec (fb_height s) (curr_y s + 14 * 2)).
  - assert (14 <= curr_y s).
    { pose proof (Z_div_mod_eq_full (curr_y s) 14). assert (curr_y s <> 0) by lia.
      assert (1 <= curr_y s / 14) by (destruct (Z_le_gt_dec 1 (curr_y s / 14)); lia). lia. }
    destruct (knewline_run s) as (f & E & Hf); [unfold FONT_WIDTH in *; lia|lia|]. eexists. split; [exact E|].
    unfold FONT_HEIGHT in Hf |- *. rewrite u64_small by lia.
    split; [|split; [done|split; [|done]]].
    2: { intros j Hj. cbn [framebuffer set_cursor set_fb]. rewrite Hf. unfold scrolled. cases_bool. }
    apply cursor_moved; [by apply cursor_set_fb|..]; cbn [fb_width fb_height set_fb]; unfold FONT_HEIGHT; lia.
  - eexists. split; [reflexivity|]. unfold FONT_HEIGHT. split; [|by split].
    apply cursor_moved; unfold FONT_HEIGHT; (done || lia).
Qed.

Section Putchar.
Context (font_array : list Z) (Hfont : length font_array = 3584%nat).

(** A cell with room on the line of the cursor: drawn, and the cursor behind it. *)
Lemma put_cell s c fgc bgc :
  cursor_ok s -> 0 <= c < 128 -> curr_x s + FONT_WIDTH <= fb_width s ->
  exists f', (_ ← putnc font_array (s32 (curr_x s)) (s32 (curr_y s)) c fgc bgc;
      modify (fun s => set_cursor (u64 (curr_x s + FONT_WIDTH)) (curr_y s) s)) s =
      Done (tt, set_cursor (curr_x s + FONT_WIDTH) (curr_y s) (set_fb f' s)) /\
    drawn (fb_width s) (fun px py => (curr_x s <=? px) && (px <? curr_x s + 8) && (curr_y s <=? py) && (py <? curr_y s + 14))
      (fun px py => cell_colour font_array c fgc bgc (px - curr_x s) (py - curr_y s)) (framebuffer s) f'.
Proof.
  intros [Hw Hh Hx [Hy Hy'] Hl] Hc Hr. unfold FONT_WIDTH, FONT_HEIGHT in *.
  destruct (putnc_run font_array Hfont s (curr_x s) (curr_y s) c fgc bgc) as (f' & E & D); [lia..|].
  exists f'. split; [|exact D]. rewrite !s32_small by lia. rewrite (bind_run _ _ _ _ _ E). unfold modify.
  cbn [curr_x curr_y set_fb]. by rewrite u64_small by lia.
Qed.

(** Drawing in a cell of the screen changes nothing around the framebuffer. *)
Lemma drawn_outside s f' x y colour :
  0 < fb_width s -> 0 <= y -> y + 14 <= fb_height s ->
  drawn (fb_width s) (fun px py => (x <=? px) && (px <? x + 8) && (y <=? py) && (py <? y + 14)) colour (framebuffer s) f' ->
  outside_kept s (set_fb f' s).
Proof.
  intros Hw Hy Hh D j Hj. cbn [framebuffer set_fb].
  assert (E : j = j mod fb_width s + j / fb_width s * fb_width s) by (rewrite (Z_div_mod_eq_full j (fb_width s)) at 1; lia).
  pose proof (Z.mod_pos_bound j (fb_width s) Hw) as B. rewrite E, (D _ _ B).
  assert (O : j / fb_width s < 0 \/ fb_height s <= j / fb_width s).
  { destruct Hj as [Hj|Hj]; [left; by apply Z.div_lt_upper_bound; [|rewrite Z.mul_0_r]|right].
    by apply Z.div_le_lower_bound. }
  destruct (Z.leb_spec y (j / fb_width s)), (Z.ltb_spec (j / fb_width s) (y + 14)); try lia; by rewrite ?andb_false_r.
Qed.

Lemma putchar_run s c :
  cursor_ok s -> 0 <= s8 c -> (s8 c = 8 -> FONT_WIDTH <= curr_x s) ->
  exists s', putchar font_array c s = Done (tt, s') /\ cursor_ok s' /\ same_screen s s' /\ outside_kept s s'.
Proof.
  intros Hok Hc Hb. pose proof Hok as [Hw Hh Hx [Hy Hy'] Hl]. unfold putchar.
  rewrite (bind_run _ _ _ _ _ (eq_refl : get s = Done (s, s))). unfold putc.
  destruct (Z.eqb_spec (s8 c) 10); [|destruct (Z.eqb_spec (s8 c) 13); [|destruct (Z.eqb_spec (s8 c) 8) as [E8|]]].
  - destruct (next_line_run s Hok) as (s' & E & Hok' & Hs' & Ho & _). rewrite (bind_run _ _ _ _ _ E). eexists. split; [reflexivity|].
    pose proof Hok' as [Hw' Hh' Hx' [Hy1 Hy2] Hl']. split; [|split; [exact Hs'|exact Ho]]. apply cursor_moved; (done || lia).
  - eexists. split; [reflexivity|]. split; [|by split]. apply cursor_moved; (done || lia).
  - specialize (Hb E8). unfold modify, get, mbind, M_bind. cbn [curr_x curr_y set_cursor]. unfold FONT_WIDTH, FONT_HEIGHT in *.
    rewrite u64_small, !s32_small by lia.
    destruct (putnc_run font_array Hfont (set_cursor (curr_x s - 8) (curr_y s) s) (curr_x s - 8) (curr_y s) 32
      (curr_fg_col s) (curr_bg_col s)) as (f' & E & D); cbn [fb_width fb_height set_cursor]; [lia..|].
    eexists. split; [exact E|].
    split; [|split; [done|exact (drawn_outside (set_cursor _ _ s) f' _ _ _ ltac:(cbn; lia) Hy Hy' D)]]. apply cursor_set_fb, cursor_moved; unfold FONT_HEIGHT; (done || lia).
  - assert (Hc' : 0 <= s8 c < 128) by (pose proof (Z.mod_pos_bound (c + 2 ^ 7) (2 ^ 8)); unfold s8 in *; lia).
    assert (P : exists s1, (if fb_width s <? u64 (curr_x s + FONT_WIDTH)
         then _ ← modify (fun s => set_cursor 0 (curr_y s) s); next_line else mret tt) s = Done (tt, s1) /\
       cursor_ok s1 /\ same_screen s s1 /\ outside_kept s s1 /\ curr_x s1 + FONT_WIDTH <= fb_width s1).
    { unfold FONT_WIDTH in *. rewrite u64_small by lia. destruct (Z.ltb_spec (fb_width s) (curr_x s + 8)).
      - assert (Hok0 : cursor_ok (set_cursor 0 (curr_y s) s)) by (apply cursor_moved; (done || lia)).
        destruct (next_line_run _ Hok0) as (s1 & E & Hok1 & Hs1 & Ho1 & X1). exists s1. split; [exact E|]. split; [done|].
        split; [exact Hs1|]. split; [exact Ho1|]. specialize (X1 eq_refl). destruct Hok1 as [W1 _ _ _ _]. unfold FONT_WIDTH in W1. lia.
      - exists s. split; [done|]. split; [done|]. split; [done|]. split; [done|lia]. }
    destruct P as (s1 & E1 & Hok1 & Hs1 & Ho1 & Hr). rewrite (bind_run _ _ _ _ _ (eq_refl : get s = Done (s, s))).
    rewrite (bind_run _ _ _ _ _ E1), (bind_run _ _ _ _ _ (eq_refl : get s1 = Done (s1, s1))).
    destruct (put_cell s1 (s8 c) (curr_fg_col s) (curr_bg_col s) Hok1 Hc' Hr) as (f' & E2 & D).
    pose proof Hok1 as [Hw1 Hh1 Hx1 [Hy1 Hy1'] Hl1]. eexists. split; [exact E2|].
    split; [|split; [exact Hs1|apply (outside_kept_trans s s1); [done..|]]].
    2: exact (drawn_outside s1 f' _ _ _ ltac:(unfold FONT_WIDTH in *; lia) Hy1 Hy1' D). apply cursor_moved; [by apply cursor_set_fb|..];
      cbn [fb_width fb_height set_fb]; unfold FONT_WIDTH in *; (done || lia).
Qed.
End Putchar.

(** C38: the console never leaves the framebuffer: from a cursor at a line of a screen of at least
    one cell by two lines, printing any sequence of 7-bit characters without backspace returns - no
    store of the drawing and none of the scrolling is outside the framebuffer, and what is in front
    of it and behind it is unchanged - with the cursor again at a line of the screen and the colours
    unchanged. *)
Theorem put_chars_safe (font_array t : list Z) (s : console) :
  length font_array = 3584%nat -> cursor_ok s -> Forall (fun c => 0 <= c < 128 /\ c <> 8) t ->
  exists s', put_chars font_array t s = Done (tt, s') /\ cursor_ok s' /\ same_screen s s' /\ outside_kept s s'.
Proof.
  intros Hfont Hok Ht. revert s Hok. induction Ht as [|c t Hc Ht IH]; intros s Hok; [by exists s|].
  assert (E8 : s8 c = c) by (unfold s8; rewrite Z.mod_small; lia).
  destruct (putchar_run font_array Hfont s c Hok) as (s1 & E1 & Hok1 & S1 & K1); [lia|lia|].
  destruct (IH s1 Hok1) as (s2 & E2 & Hok2 & S2 & K2). exists s2. cbn [put_chars].
  rewrite (bind_run _ _ _ _ _ E1). split; [exact E2|]. split; [done|].
  split; [|by apply (outside_kept_trans s s1)]. destruct S1 as (W1 & H1 & F1 & B1), S2 as (W2 & H2 & F2 & B2).
  repeat split; congruence.
Qed.

(** an ordinary character with room on its line is drawn in its cell, every pixel in the colour
    that its glyph asks for, no other pixel changes, and the cursor moves one cell to the right. *)
Theorem putchar_draws (font_array : list Z) (s : console) (c : Z) :
  length font_array = 3584%nat -> cursor_ok s -> 32 <= c < 128 -> curr_x s + FONT_WIDTH <= fb_width s ->
  exists f', putchar font_array c s = Done (tt, set_cursor (curr_x s + FONT_WIDTH) (curr_y s) (set_fb f' s)) /\
    forall px py, 0 <= px < fb_width s ->
      f' (px + py * fb_width s) =
        if (curr_x s <=? px) && (px <? curr_x s + 8) && (curr_y s <=? py) && (py <? curr_y s + 14)
        then cell_colour font_array c (curr_fg_col s) (curr_bg_col s) (px - curr_x s) (py - curr_y s)
        else framebuffer s (px + py * fb_width s).
Proof.
  intros Hfont Hok Hc Hr. assert (E8 : s8 c = c) by (unfold s8; rewrite Z.mod_small; lia).
  destruct (put_cell font_array Hfont s c (curr_fg_col s) (curr_bg_col s) Hok ltac:(lia) Hr) as (f' & E & D).
  exists f'. split; [|exact D]. unfold putchar. rewrite (bind_run _ _ _ _ _ (eq_refl : get s = Done (s, s))).
  rewrite E8. unfold putc. rewrite (proj2 (Z.eqb_neq c 10)), (proj2 (Z.eqb_neq c 13)), (proj2 (Z.eqb_neq c 8)) by lia.
  pose proof Hok as [Hw _ Hx _ _]. rewrite (bind_run _ _ _ _ _ (eq_refl : get s = Done (s, s))).
  unfold FONT_WIDTH in *. rewrite u64_small, (proj2 (Z.ltb_ge _ _)) by lia. exact E.
Qed.

(** A screen of four characters by two lines and a font of checkered glyphs. *)
Definition small_font : list Z := replicate (Z.to_nat 3584) 0xaa.
Definition small_screen : console := mk_console (fun i => i) 32 28 0xffffff 0 0 0.

Lemma small_ok : cursor_ok small_screen.
Proof. constructor; vm_compute; repeat split; discriminate. Qed.

Lemma put_chars_safe_witness :
  exists s', put_chars small_font (text "hello" ++ [10] ++ text "x") small_screen = Done (tt, s') /\ cursor_ok s' /\
    same_screen small_screen s' /\ outside_kept small_screen s'.
Proof.
  apply put_chars_safe; [reflexivity|exact small_ok|].
  repeat (constructor; [vm_compute; repeat split; discriminate|]). constructor.
Defined.

Lemma putchar_draws_witness :
  exists f', putchar small_font 65 small_screen = Done (tt, set_cursor 8 0 (set_fb f' small_screen)) /\
    f' 0 = 0xffffff /\ f' 1 = 0 /\ f' 8 = 8.
Proof.
  destruct (putchar_draws small_font small_screen 65 eq_refl small_ok ltac:(lia) ltac:(vm_compute; discriminate)) as (f' & E & D).
  exists f'. split; [exact E|].
  split; [|split]; [apply (D 0 0)|apply (D 1 0)|apply (D 8 0)]; vm_compute; repeat split; discriminate.
Defined.

(** The part of a run that can be compared: where the cursor is. *)
Definition cursor_after (o : outcome (unit * console)) : option (Z * Z) :=
  match o with Done (_, s) => Some (curr_x s, curr_y s) | _ => None end.

(** what the console does wrong: a backspace at the left edge wraps the cursor to [2 ^ 64 - 8]
    and draws over the line above, and in the first line writes in front of the framebuffer; a
    character above 127 indexes the font with a negative number. *)
Theorem console_flaws :
  putchar small_font 8 small_screen = Fault /\
  cursor_after (putchar small_font 8 (set_cursor 0 14 small_screen)) = Some (2 ^ 64 - 8, 14) /\
  putchar small_font 200 small_screen = Fault.
Proof. repeat split; vm_compute; reflexivity. Qed.

(** ** ps2.c: keys and mouse packets *)

Record input := mk_input { curr_key : Z; mouse_keys : list Z; mouse_cycle : Z }.

Definition ps2_kbd_scancodes : list Z :=
  [0; 27] ++ text "1234567890-=" ++ [8; 9] ++ text "qwertyuiop[]" ++ [10; 0] ++ text "asdfghjkl;'`" ++ [0; 92]
  ++ text "zxcvbnm,./" ++ [0; 42; 0; 32] ++ replicate 16 0 ++ [45; 0; 0; 0; 43] ++ replicate 49 0.

(** The handler when the controller delivers [c]. *)
Definition kbd_handler (c : Z) (s : input) : input :=
  if (1 <? c) && (c <? 0x59)
  then mk_input (default 0 (ps2_kbd_scancodes !! Z.to_nat (Z.land c 0x7f))) (mouse_keys s) (mouse_cycle s) else s.

Definition mouse_handler (b : Z) (s : input) : input :=
  let next := u8 (mouse_cycle s + 1) in
  if mouse_cycle s =? 0 then mk_input (curr_key s) (<[0%nat := s8 b]> (mouse_keys s)) next
  else if mouse_cycle s =? 1 then mk_input (curr_key s) (<[1%nat := s8 b]> (mouse_keys s)) next
  else if mouse_cycle s =? 2 then mk_input (curr_key s) (<[2%nat := s8 b]> (mouse_keys s)) 0
  else mk_input (curr_key s) (mouse_keys s) next.

Definition getchar (s : input) : Z * input := (curr_key s, mk_input 0 (mouse_keys s) (mouse_cycle s)).

(** [getmouse(bytes)]: the three bytes, and the packet cleared. *)
Definition getmouse (bytes : Z) (m : mem) (s : input) : mem * input :=
  (st 1 bytes (nth 0 (mouse_keys s) 0) (st 1 (bytes + 1) (nth 1 (mouse_keys s) 0) (st 1 (bytes + 2) (nth 2 (mouse_keys s) 0) m)),
   mk_input (curr_key s) [0; 0; 0] (mouse_cycle s)).

(** mousedev.c: one packet per three bytes; [rounds] is what the mouse sends before each. *)
Fixpoint mouse_loop (n : nat) (buf : Z) (rounds : list (list Z)) (m : mem) (s : input) : mem * input :=
  match n with
  | O => (m, s)
  | S n' =>
      let s := fold_left (fun s b => mouse_handler b s) (hd [] rounds) s in
      let '(m, s) := getmouse buf m s in mouse_loop n' (buf + 3) (tl rounds) m s
  end.
Definition mousedev_read (count buf : Z) (rounds : list (list Z)) (m : mem) (s : input) : Z * (mem * input) :=
  (count, mouse_loop (Z.to_nat ((count + 2) / 3)) buf rounds m s).
Definition mousedev_write (count : Z) : Z := 0.
Definition mousedev_ioctl (cmd : Z) : Z := 2 ^ 64 - 1.
Definition mousedev_mmap : Z := 2 ^ 64 - 1.

(** fbdev.c *)
Definition fb_ioctl (s : console) (cmd : Z) : Z :=
  if cmd =? 2 then fb_height s else if cmd =? 1 then fb_width s else if cmd =? 3 then 32 else 2 ^ 64 - 1.
Definition fb_read (count : Z) : Z := 0.
Definition fb_write (count : Z) : Z := 0.

(** ** tty.c: input *)

(** The console with its keyboard and the reader's memory. *)
Record tty := mk_tty { t_console : console; t_input : input; t_mem : mem }.
Definition TM := M tty.

Definition on_console {A} (m : CM A) : TM A := fun t =>
  match m (t_console t) with
  | Done (a, c) => Done (a, mk_tty c (t_input t) (t_mem t))
  | Halt => Halt
  | Fault => Fault
  | Fuel => Fuel
  end.

Definition poll (scancodes : list Z) : TM Z := fun t =>
  let s := fold_left (fun s c => kbd_handler c s) scancodes (t_input t) in
  let '(c, s) := getchar s in Done (c, mk_tty (t_console t) s (t_mem t)).

Definition store_byte (a v : Z) : TM unit := modify (fun t => mk_tty (t_console t) (t_input t) (st 1 a v (t_mem t))).

Section Tty.
Context (font_array : list Z).

(** [while (count)]: the number of bytes left; [rounds] are the scancodes before each poll. *)
Fixpoint tty_loop (rounds : list (list Z)) (init_count count buf : Z) : TM Z :=
  if count =? 0 then mret count
  else
    match rounds with
    | [] => out_of_fuel
    | r :: rounds' =>
        c ← poll r;
        if negb (truthy c) then tty_loop rounds' init_count count buf
        else
          _ ← on_console (putchar font_array c);
          _ ← store_byte (buf + (init_count - count)) c;
          if c =? 10 then mret (count - 1) else tty_loop rounds' init_count (count - 1) buf
    end.

Definition tty_read (rounds : list (list Z)) (count buf : Z) : TM Z :=
  left ← tty_loop rounds count count buf;
  _ ← store_byte (buf + (count - left + 1)) 0;
  mret (count - left).
End Tty.

(** *** A line of input *)

(** The key a poll sees when none was pending. *)
Definition poll_key (scancodes : list Z) : Z :=
  curr_key (fold_left (fun s c => kbd_handler c s) scancodes (mk_input 0 [] 0)).

(** The line a reader of [count] bytes gets from the keys of successive polls; [None] when it is not
    complete yet. *)
Fixpoint line_of (count : nat) (keys : list Z) : option (list Z) :=
  match count with
  | O => Some []
  | S n =>
      match keys with
      | [] => None
      | c :: keys' =>
          if c =? 0 then line_of count keys'
          else if c =? 10 then Some [10] else l ← line_of n keys'; Some (c :: l)
      end
  end.

Lemma scancodes_ascii : Forall (fun c => 0 <= c < 128) ps2_kbd_scancodes.
Proof. vm_compute. repeat (constructor; [split; [discriminate|reflexivity]|]). constructor. Qed.

Lemma kbd_key c s : 0 <= curr_key s < 128 -> 0 <= curr_key (kbd_handler c s) < 128.
Proof.
  intros H. unfold kbd_handler. destruct (_ && _); [|done]. cbn [curr_key].
  destruct (_ !! _) as [k|] eqn:E; [|cbn; lia]. cbn. eapply Forall_lookup_1 in E; [|exact scancodes_ascii]. done.
Qed.

(** The key does not depend on the mouse. *)
Lemma kbd_fold scs s :
  0 <= curr_key s < 128 ->
  let s' := fold_left (fun s c => kbd_handler c s) scs s in
  curr_key s' = curr_key (fold_left (fun s c => kbd_handler c s) scs (mk_input (curr_key s) [] 0)) /\
  0 <= curr_key s' < 128 /\ mouse_keys s' = mouse_keys s /\ mouse_cycle s' = mouse_cycle s.
Proof.
  revert s. induction scs as [|c scs IH]; intros s Hs; [done|]. cbn [fold_left].
  destruct (IH (kbd_handler c s) (kbd_key c s Hs)) as (E1 & E2 & E3 & E4).
  assert (E : kbd_handler c (mk_input (curr_key s) [] 0) = mk_input (curr_key (kbd_handler c s)) [] 0)
    by (unfold kbd_handler; by destruct (_ && _)).
  rewrite E. split; [exact E1|]. split; [exact E2|]. rewrite E3, E4. unfold kbd_handler. by destruct (_ && _).
Qed.

Lemma poll_run scs t :
  curr_key (t_input t) = 0 ->
  exists i, poll scs t = Done (poll_key scs, mk_tty (t_console t) i (t_mem t)) /\ curr_key i = 0 /\ 0 <= poll_key scs < 128.
Proof.
  intros H0. destruct (kbd_fold scs (t_input t)) as (E1 & E2 & _); [lia|]. rewrite H0 in E1.
  unfold poll, getchar. rewrite E1 in *. eexists. split; [reflexivity|]. by split.
Qed.

Section Line.
Context (font_array : list Z) (Hfont : length font_array = 3584%nat).

Lemma on_console_putchar t c :
  cursor_ok (t_console t) -> 0 <= c < 128 -> c <> 8 ->
  exists s', on_console (putchar font_array c) t = Done (tt, mk_tty s' (t_input t) (t_mem t)) /\ cursor_ok s'.
Proof.
  intros Hok Hc H8. assert (E8 : s8 c = c) by (unfold s8; rewrite Z.mod_small; lia).
  destruct (putchar_run font_array Hfont (t_console t) c Hok) as (s' & E & Hok' & _); [lia|lia|].
  exists s'. unfold on_console. by rewrite E.
Qed.

Lemma st1 a v m x : st 1 a v m x = if x =? a then u8 v else m x.
Proof. reflexivity. Qed.

(** [m'] is [m] with a line stored at [a]. *)
Definition stored_at (a : Z) (l : list Z) (m m' : mem) : Prop :=
  (forall i c, l !! i = Some c -> m' (a + Z.of_nat i) = c) /\
  forall x, x < a \/ a + Z.of_nat (length l) <= x -> m' x = m x.

Lemma tty_loop_run rounds t buf init_count count l :
  cursor_ok (t_console t) -> curr_key (t_input t) = 0 -> 0 <= count ->
  line_of (Z.to_nat count) (poll_key <$> rounds) = Some l -> Forall (fun c => c <> 8) l ->
  exists t', tty_loop font_array rounds init_count count buf t = Done (count - Z.of_nat (length l), t') /\
    stored_at (buf + (init_count - count)) l (t_mem t) (t_mem t').
Proof.
  revert t count l. induction rounds as [|r rounds IH]; intros t count l Hok Hkey Hcount Hline H8.
  - destruct (Z.to_nat count) eqn:E; [|done]. injection Hline as <-. assert (count = 0) as -> by lia.
    exists t. cbn. split; [done|]. split; [intros i c; by rewrite lookup_nil|done].
  - cbn [fmap list_fmap] in Hline. destruct (Z.eqb_spec count 0) as [->|Hne].
    { injection Hline as <-. exists t. cbn. split; [done|]. split; [intros i c; by rewrite lookup_nil|done]. }
    destruct (poll_run r t Hkey) as (i & Ep & Hi & Hk). cbn [tty_loop]. rewrite (proj2 (Z.eqb_neq count 0)) by done.
    rewrite (bind_run _ _ _ _ _ Ep). set (c := poll_key r) in *. unfold truthy.
    destruct (Z.to_nat count) as [|n] eqn:En; [lia|]. cbn [line_of] in Hline.
    destruct (Z.eqb_spec c 0) as [E0|N0]; cbn [negb].
    { rewrite <- En in Hline. exact (IH (mk_tty (t_console t) i (t_mem t)) count l Hok Hi Hcount Hline H8). }
    assert (Hc8 : c <> 8).
    { destruct (c =? 10) eqn:E10; [apply Z.eqb_eq in E10; lia|].
      apply bind_Some in Hline as (l' & _ & [= <-]). by apply Forall_cons_1 in H8 as [H8 _]. }
    destruct (on_console_putchar (mk_tty (t_console t) i (t_mem t)) c Hok Hk Hc8) as (s' & Ec & Hok').
    rewrite (bind_run _ _ _ _ _ Ec). cbn [t_input t_mem].
    rewrite (bind_run _ _ _ _ _ (eq_refl : store_byte (buf + (init_count - count)) c (mk_tty s' i (t_mem t)) = _)).
    cbn [t_console t_input t_mem]. destruct (Z.eqb_spec c 10) as [E10|N10].
    + injection Hline as <-. eexists. split; [reflexivity|]. unfold stored_at. cbn [t_mem]. split.
      * intros [|j] x Hx; [|done]. injection Hx as <-. rewrite st1, Z.add_0_r, Z.eqb_refl. rewrite E10. done.
      * intros x Hx. cbn in Hx. rewrite st1, (proj2 (Z.eqb_neq _ _)) by lia. done.
    + apply bind_Some in Hline as (l' & Hl' & [= <-]). apply Forall_cons_1 in H8 as [_ H8].
      destruct (IH (mk_tty s' i (st 1 (buf + (init_count - count)) c (t_mem t))) (count - 1) l') as (t' & Et & Hin & Hout);
        try done; [lia|by replace (Z.to_nat (count - 1)) with n by lia|].
      exists t'. rewrite Et. split; [do 2 f_equal; cbn; lia|]. cbn [t_mem] in *. split.
      * intros [|j] x Hx; cbn in Hx.
        -- injection Hx as <-. rewrite Hout by lia. rewrite st1, Z.add_0_r, Z.eqb_refl. apply u8_small. lia.
        -- rewrite <- (Hin j x Hx). f_equal. lia.
      * intros x Hx. cbn in Hx. rewrite Hout by lia. rewrite st1, (proj2 (Z.eqb_neq _ _)) by lia. done.
Qed.

(** [tty_read] returns a line: the keys seen by successive polls, without the idle ones, up to
    and including the newline or until the count is reached, are echoed and stored in the buffer,
    and their number is the result.  The final zero goes one byte too far: the byte behind the line
    keeps its old value and the one after it is overwritten, beyond the buffer when it is full. *)
Theorem tty_read_line (rounds : list (list Z)) (count buf : Z) (t : tty) (l : list Z) :
  cursor_ok (t_console t) -> curr_key (t_input t) = 0 -> 0 <= count ->
  line_of (Z.to_nat count) (poll_key <$> rounds) = Some l -> Forall (fun c => c <> 8) l ->
  exists t', tty_read font_array rounds count buf t = Done (Z.of_nat (length l), t') /\
    (forall i c, l !! i = Some c -> t_mem t' (buf + Z.of_nat i) = c) /\
    t_mem t' (buf + Z.of_nat (length l)) = t_mem t (buf + Z.of_nat (length l)) /\
    t_mem t' (buf + Z.of_nat (length l) + 1) = 0.
Proof.
  intros Hok Hkey Hc Hline H8. destruct (tty_loop_run rounds t buf count count l Hok Hkey Hc Hline H8) as (t' & E & Hin & Hout).
  rewrite Z.sub_diag, Z.add_0_r in Hin, Hout. unfold tty_read. rewrite (bind_run _ _ _ _ _ E).
  eexists. split; [unfold store_byte, modify, mbind, M_bind, mret, M_ret; do 2 f_equal; lia|]. cbn [t_mem].
  replace (count - (count - Z.of_nat (length l)) + 1) with (Z.of_nat (length l) + 1) by lia. rewrite !st1. split; [|split].
  - intros i c Hi. rewrite st1. pose proof (lookup_lt_Some _ _ _ Hi). rewrite (proj2 (Z.eqb_neq _ _)) by lia. by apply Hin.
  - rewrite (proj2 (Z.eqb_neq _ _)) by lia. apply Hout. lia.
  - by rewrite (proj2 (Z.eqb_eq _ _)) by lia.
Qed.
End Line.

(** "hi" and return, typed with idle polls in between and a key that is overwritten before it is read. *)
Definition typed : list (list Z) := [[]; [0x23]; []; [0x10; 0x17]; [0x97]; [0x1c]].
Definition quiet_tty : tty := mk_tty small_screen (mk_input 0 [0; 0; 0] 0) (fun _ => 7).

Lemma tty_read_line_witness :
  exists t', tty_read small_font typed 10 0x1000 quiet_tty = Done (3, t') /\
    t_mem t' 0x1000 = 104 /\ t_mem t' 0x1001 = 105 /\ t_mem t' 0x1002 = 10 /\ t_mem t' 0x1003 = 7 /\ t_mem t' 0x1004 = 0.
Proof.
  destruct (tty_read_line small_font eq_refl typed 10 0x1000 quiet_tty [104; 105; 10] small_ok eq_refl ltac:(lia) eq_refl)
    as (t' & E & Hin & H1 & H2); [repeat (constructor; [discriminate|]); constructor|].
  exists t'. split; [exact E|]. split; [exact (Hin 0%nat 104 eq_refl)|]. split; [exact (Hin 1%nat 105 eq_refl)|].
  split; [exact (Hin 2%nat 10 eq_refl)|]. split; [exact H1|exact H2].
Defined.

(** a read of 4 bytes from the mouse stores 6; of two keys pressed between two polls the tty
    sees the last. *)
Theorem input_flaws :
  (let '(r, (m, _)) := mousedev_read 4 0 [[1; 2; 3]; [4; 5; 6]] (fun _ => 9) (mk_input 0 [0; 0; 0] 0) in
   r = 4 /\ m 4 = 5 /\ m 5 = 6 /\ m 6 = 9) /\
  poll_key [0x10; 0x17] = 105.
Proof. by vm_compute. Qed.
