(* ===== verification/Acpi.v ===== *)
(** * ACPI tables (src/src/kernel/acpi/acpi.c, include/acpi/tables.h)

    Tables are read from memory through the direct map; a table is its address there.  The search
    goes through the entries of the RSDT (32-bit pointers) or of the XSDT (64-bit ones); the MADT is
    cut into its records. *)
From S2P Require Import Prelude CString.

Definition sizeof_sdt : Z := 36.
Definition sizeof_madt : Z := 44.

(** The fields the code reads. *)
Definition sdt_length (m : mem) (h : Z) : Z := ld 4 m (h + 4).
Definition sdt_signature (m : mem) (h : Z) : list Z := (fun k => u8 (m (h + Z.of_nat k))) <$> seq 0 4.

(** [sum += th[i]] for [i < length], in 8 bits. *)
Fixpoint sum_loop (n : nat) (m : mem) (a sum : Z) : Z :=
  match n with O => sum | S n' => sum_loop n' m (a + 1) (u8 (sum + s8 (m a))) end.
Definition acpi_do_checksum (m : mem) (th : Z) : bool :=
  negb (truthy (sum_loop (Z.to_nat (sdt_length m th)) m th 0)).

(** [rsdt] and [xsdt]; 0 is NULL. *)
Record acpi := mk_acpi { rsdt : Z; xsdt : Z }.

Definition entry_count (m : mem) (x : acpi) : Z :=
  if xsdt x =? 0 then u64 (sdt_length m (rsdt x) - sizeof_sdt) / 4 else u64 (sdt_length m (xsdt x) - sizeof_sdt) / 8.
Definition sptr (m : mem) (x : acpi) (t : Z) : Z :=
  if xsdt x =? 0 then u64 (ld 4 m (rsdt x + sizeof_sdt + 4 * t) + PHYS_MEM_OFFSET)
  else u64 (ld 8 m (xsdt x + sizeof_sdt + 8 * t) + PHYS_MEM_OFFSET).

Definition signature_is (m : mem) (signature : list Z) (h : Z) : bool :=
  match Kernel.strncmp signature (sdt_signature m h) 4 with Some d => d =? 0 | None => false end.

(** The loop over the entries from [t] on; [i] counts the tables with the signature. *)
Fixpoint table_loop (n : nat) (m : mem) (x : acpi) (signature : list Z) (index t i : Z) : Z :=
  match n with
  | O => 0
  | S n' =>
      let h := sptr m x t in
      if signature_is m signature h then
        if acpi_do_checksum m h && (i =? index) then h else table_loop n' m x signature index (t + 1) (i + 1)
      else table_loop n' m x signature index (t + 1) i
  end.
Definition acpi_get_table (m : mem) (x : acpi) (signature : list Z) (index : Z) : Z :=
  table_loop (Z.to_nat (entry_count m x)) m x signature index 0 0.

(** ** The MADT *)

(** The records by kind, as addresses. *)
Record madt_lists := mk_madt { madt_lapics : list Z; madt_ioapics : list Z; madt_isos : list Z; madt_nmis : list Z }.
Definition no_madt : madt_lists := mk_madt [] [] [] [].

Definition madt_push (id a : Z) (l : madt_lists) : madt_lists :=
  let '(mk_madt p q r s) := l in
  if id =? 0 then mk_madt (p ++ [a]) q r s
  else if id =? 1 then mk_madt p (q ++ [a]) r s
  else if id =? 2 then mk_madt p q (r ++ [a]) s
  else if id =? 4 then mk_madt p q r (s ++ [a])
  else l.

(** [for (i = 0; i < length - sizeof(madt_t);)]; [None] is the fuel running out. *)
Fixpoint madt_loop (fuel : nat) (m : mem) (entries size i : Z) (l : madt_lists) : option madt_lists :=
  match fuel with
  | O => None
  | S f =>
      if i <? size then
        let header := entries + i in
        madt_loop f m entries size (u64 (i + u8 (m (header + 1)))) (madt_push (u8 (m header)) header l)
      else Some l
  end.

(** [acpi_gather_madt]: [None] when there is no MADT and the machine stops. *)
Definition acpi_gather_madt (m : mem) (x : acpi) : M unit madt_lists :=
  let madt := acpi_get_table m x [65; 80; 73; 67] 0 in
  if madt =? 0 then halt
  else
    let size := u64 (sdt_length m madt - sizeof_madt) in
    match madt_loop (S (Z.to_nat size)) m (madt + sizeof_madt) size 0 no_madt with
    | Some l => mret l
    | None => out_of_fuel
    end.

(** [init_acpi]: the root tables from the RSDP; 0 in [rsdt_address] stops the machine. *)
Definition rsdp_rsdt (m : mem) (rsdp : Z) : Z := ld 4 m (rsdp + 16).
Definition rsdp_xsdt (m : mem) (rsdp : Z) : Z := ld 8 m (rsdp + 24).
Definition rsdp_revision (m : mem) (rsdp : Z) : Z := u8 (m (rsdp + 15)).
Definition init_acpi (m : mem) (rsdp : Z) : M unit (acpi * Z * madt_lists) :=
  if rsdp_rsdt m rsdp =? 0 then halt
  else
    let x := mk_acpi (u64 (rsdp_rsdt m rsdp + PHYS_MEM_OFFSET))
               (if 0 <? rsdp_revision m rsdp then u64 (rsdp_xsdt m rsdp + PHYS_MEM_OFFSET) else 0) in
    let fadt := acpi_get_table m x [70; 65; 67; 80] 0 in
    l ← acpi_gather_madt m x;
    mret (x, fadt, l).

(** ** The search *)

(** The tables the root table lists. *)
Definition listed (m : mem) (x : acpi) : list Z :=
  (fun k => sptr m x (Z.of_nat k)) <$> seq 0 (Z.to_nat (entry_count m x)).

(** The answer: the table with the signature and the given number, if its checksum is right. *)
Definition the_table (m : mem) (x : acpi) (signature : list Z) (index : nat) : Z :=
  match filter (fun h => signature_is m signature h = true) (listed m x) !! index with
  | Some h => if acpi_do_checksum m h then h else 0
  | None => 0
  end.

Lemma table_loop_run m x signature index n t i :
  0 <= t -> i <= Z.of_nat index ->
  table_loop n m x signature (Z.of_nat index) t i =
    match filter (fun h => signature_is m signature h = true)
            ((fun k => sptr m x (Z.of_nat k)) <$> seq (Z.to_nat t) n) !! Z.to_nat (Z.of_nat index - i) with
    | Some h => if acpi_do_checksum m h then h else 0
    | None => 0
    end.
Proof.
  intros Ht. revert t i Ht. induction n as [|n IH]; intros t i Ht Hi; [done|]. cbn [table_loop seq fmap list_fmap].
  rewrite filter_cons, Z2Nat.id by done. replace (S (Z.to_nat t)) with (Z.to_nat (t + 1)) by lia.
  destruct (decide (signature_is m signature (sptr m x t) = true)) as [E|E].
  - rewrite E. destruct (Z.eqb_spec i (Z.of_nat index)) as [->|N].
    + rewrite Z.sub_diag. change (Z.to_nat 0) with O. cbn [lookup list_lookup].
      destruct (acpi_do_checksum m (sptr m x t)); [done|]. cbn [andb]. clear IH. assert (G : forall n t i, Z.of_nat index < i -> table_loop n m x signature (Z.of_nat index) t i = 0).
      { clear. induction n as [|n IH]; intros t i Hi; [done|]. cbn [table_loop].
        rewrite (proj2 (Z.eqb_neq i (Z.of_nat index))), andb_false_r by lia. rewrite !IH by lia. by destruct (signature_is _ _ _). }
      apply G. lia.
    + rewrite andb_false_r, IH by lia. destruct (Z.to_nat (Z.of_nat index - i)) as [|k] eqn:Ek; [lia|].
      cbn [lookup list_lookup]. by replace (Z.to_nat (Z.of_nat index - (i + 1))) with k by lia.
  - apply not_true_is_false in E. rewrite E. apply IH; lia.
Qed.

(** [acpi_get_table(signature, n)] is the n-th of the listed tables with that signature, if its
    bytes sum up to zero, and NULL otherwise; tables with other signatures and the order of the
    entries do not matter. *)
Theorem get_table_spec (m : mem) (x : acpi) (signature : list Z) (index : nat) :
  acpi_get_table m x signature (Z.of_nat index) = the_table m x signature index.
Proof.
  unfold acpi_get_table, the_table, listed. rewrite table_loop_run by lia.
  by replace (Z.to_nat (Z.of_nat index - 0)) with index by lia.
Qed.

(** ** The records *)

(** Records of the given kinds and lengths from [a] on. *)
Fixpoint records (m : mem) (a : Z) (l : list (Z * Z)) : Prop :=
  match l with
  | [] => True
  | (id, len) :: l' => u8 (m a) = id /\ u8 (m (a + 1)) = len /\ 0 < len /\ records m (a + len) l'
  end.
Fixpoint record_addresses (a : Z) (l : list (Z * Z)) : list (Z * Z) :=
  match l with [] => [] | (id, len) :: l' => (id, a) :: record_addresses (a + len) l' end.
Definition records_size (l : list (Z * Z)) : Z := fold_right (fun r n => r.2 + n) 0 l.

(** The addresses of the records of one kind. *)
Definition of_kind (k : Z) (l : list (Z * Z)) : list Z := snd <$> filter (fun r => r.1 = k) l.

Lemma madt_push_all l r :
  fold_left (fun acc r => madt_push r.1 r.2 acc) l r =
    mk_madt (madt_lapics r ++ of_kind 0 l) (madt_ioapics r ++ of_kind 1 l) (madt_isos r ++ of_kind 2 l)
      (madt_nmis r ++ of_kind 4 l).
Proof.
  revert r. induction l as [|[id a] l IH]; intros r; cbn [fold_left].
  - unfold of_kind. cbn. rewrite !app_nil_r. by destruct r.
  - rewrite IH. destruct r as [p q s t]. unfold of_kind. rewrite !filter_cons. cbn [fst snd madt_push].
    destruct (Z.eqb_spec id 0) as [->|]; [|destruct (Z.eqb_spec id 1) as [->|]; [|destruct (Z.eqb_spec id 2) as [->|];
      [|destruct (Z.eqb_spec id 4) as [->|]]]]; cbn [madt_lapics madt_ioapics madt_isos madt_nmis];
      repeat case_decide; try lia; cbn [fmap list_fmap snd]; by rewrite <- ?app_assoc.
Qed.

Lemma records_size_pos m a l : records m a l -> Z.of_nat (length l) <= records_size l.
Proof.
  revert a. induction l as [|[id len] l IH]; intros a H; [done|]. destruct H as (_ & _ & Hl & H).
  specialize (IH _ H). unfold records_size in *. cbn [fold_right snd length]. lia.
Qed.

Lemma madt_loop_run m entries l size i fuel acc :
  records m (entries + i) l -> size = i + records_size l -> 0 <= i -> size < 2 ^ 64 -> (length l < fuel)%nat ->
  madt_loop fuel m entries size i acc =
    Some (fold_left (fun acc r => madt_push r.1 r.2 acc) (record_addresses (entries + i) l) acc).
Proof.
  revert i fuel acc. induction l as [|[id len] l IH]; intros i fuel acc H Hs Hi Hb Hf; (destruct fuel as [|f]; [cbn in Hf; lia|]).
  - cbn [madt_loop record_addresses fold_left]. unfold records_size in Hs. cbn in Hs.
    by rewrite (proj2 (Z.ltb_ge i size)) by lia.
  - destruct H as (Hid & Hlen & Hl & H). pose proof (records_size_pos _ _ _ H). unfold records_size in *. cbn [fold_right snd] in Hs.
    cbn [madt_loop record_addresses fold_left fst snd]. rewrite (proj2 (Z.ltb_lt i size)) by lia. rewrite Hid, Hlen, u64_small by lia.
    rewrite IH; [by rewrite Z.add_assoc|by rewrite Z.add_assoc|lia|lia|lia|cbn in Hf; lia].
Qed.

(** [acpi_gather_madt] ends and sorts the records: for a MADT that consists of records of
    positive length, the four lists are exactly the records of kinds 0, 1, 2 and 4 in their order. *)
Theorem gather_madt_sorts (m : mem) (x : acpi) (madt : Z) (l : list (Z * Z)) :
  the_table m x [65; 80; 73; 67] 0 = madt -> madt <> 0 ->
  records m (madt + sizeof_madt) l -> sdt_length m madt = sizeof_madt + records_size l ->
  let a := record_addresses (madt + sizeof_madt) l in
  acpi_gather_madt m x tt = Done (mk_madt (of_kind 0 a) (of_kind 1 a) (of_kind 2 a) (of_kind 4 a), tt).
Proof.
  intros Ht Hne Hr Hs a. unfold acpi_gather_madt. change 0 with (Z.of_nat 0) at 1.
  assert (E : acpi_get_table m x [65; 80; 73; 67] 0 = madt).
  { rewrite <- Ht. unfold acpi_get_table, the_table, listed. rewrite (table_loop_run m x _ 0 _ 0 0) by lia. done. }
  change (Z.of_nat 0) with 0. rewrite E. rewrite (proj2 (Z.eqb_neq madt 0)) by done.
  pose proof (records_size_pos _ _ _ Hr). pose proof (ld_range 4 m (madt + 4)) as B. fold (sdt_length m madt) in B.
  rewrite Hs. replace (sizeof_madt + records_size l - sizeof_madt) with (records_size l) by lia.
  unfold sizeof_madt in Hs. rewrite u64_small by lia.
  rewrite (madt_loop_run m (madt + sizeof_madt) l (records_size l) 0 _ no_madt); [|by rewrite Z.add_0_r|lia..].
  rewrite Z.add_0_r, madt_push_all. done.
Qed.

(** A root table with one entry, a MADT with the record of a CPU and that of an I/O APIC. *)
Definition small_tables : mem :=
  let r := PHYS_MEM_OFFSET + 0x1000 in let t := PHYS_MEM_OFFSET + 0x2000 in
  st 4 (r + 4) 40 (st 4 (r + 36) 0x2000 (st 4 t 0x43495041 (st 4 (t + 4) 64 (st 1 (t + 9) 142
    (st 1 (t + 45) 8 (st 1 (t + 52) 1 (st 1 (t + 53) 12 (fun _ => 0)))))))).
Definition small_acpi : acpi := mk_acpi (PHYS_MEM_OFFSET + 0x1000) 0.

Lemma gather_madt_sorts_witness :
  acpi_gather_madt small_tables small_acpi tt =
    Done (mk_madt [PHYS_MEM_OFFSET + 0x2000 + 44] [PHYS_MEM_OFFSET + 0x2000 + 52] [] [], tt).
Proof.
  apply (gather_madt_sorts small_tables small_acpi (PHYS_MEM_OFFSET + 0x2000) [(0, 8); (1, 12)]);
    vm_compute; try discriminate; try reflexivity. repeat split; reflexivity.
Defined.

(** A record of length 0 makes [acpi_gather_madt] run forever: no fuel is enough. *)
Theorem madt_zero_length (m : mem) (entries size i : Z) (l : madt_lists) (fuel : nat) :
  u8 (m (entries + i + 1)) = 0 -> 0 <= i < size -> size < 2 ^ 64 -> madt_loop fuel m entries size i l = None.
Proof.
  intros H0 Hi Hb. revert l. induction fuel as [|f IH]; intros l; [done|]. cbn [madt_loop].
  rewrite (proj2 (Z.ltb_lt i size)) by lia. rewrite H0, Z.add_0_r, u64_small by lia. apply IH.
Qed.

Lemma madt_zero_length_witness : madt_loop 5 (fun _ => 0) 0 10 0 no_madt = None.
Proof. apply madt_zero_length; [reflexivity|lia..]. Defined.
