(* ===== verification/Interrupts.v ===== *)
(** * Descriptor tables and interrupts (src/src/kernel/sys/gdt.c, sys/idt.c, sys/isr.c, sys/irq.c,
      drivers/apic.c)

    The addresses of the assembly stubs are arguments.  The local APIC and the I/O APICs are maps
    from register numbers to values. *)
From Stdlib Require Import Ascii String.
From S2P Require Import Prelude CString Printf Acpi.
Open Scope Z_scope.

Definition GDT_SEG_KCODE : Z := 8.
Definition GDT_SEG_TSS : Z := 40.

(** ** Global descriptor table *)

Record gdt_entry := mk_gdt_entry {
  limit_low : Z; base_low : Z; base_mid : Z; g_flags : Z; limit_high : Z; granularity : Z; base_high : Z;
}.
Record tss_entry := mk_tss_entry {
  tss_length : Z; tss_base_low : Z; tss_base_mid : Z; flags1 : Z; flags2 : Z; tss_base_high : Z; base_upper : Z;
}.

Definition init_gdt : list gdt_entry :=
  [mk_gdt_entry 0 0 0 0 0 0 0; mk_gdt_entry 0 0 0 0x9a 0 2 0; mk_gdt_entry 0 0 0 0x92 0 0 0;
   mk_gdt_entry 0 0 0 0xfa 0 2 0; mk_gdt_entry 0 0 0 0xf2 0 0 0].

Definition set_and_load_tss (addr : Z) : tss_entry :=
  mk_tss_entry 16 (Z.land addr 0xffff) (Z.land (Z.shiftr addr 16) 0xff) 0x89 0 (Z.land (Z.shiftr addr 24) 0xff)
    (u32 (Z.shiftr addr 32)).

(** The address the CPU assembles. *)
Definition tss_base (e : tss_entry) : Z :=
  tss_base_low e + 2 ^ 16 * tss_base_mid e + 2 ^ 24 * tss_base_high e + 2 ^ 32 * base_upper e.

(** [gdt_pointer_t] and [idt_ptr_t]: the operands of [lgdt] and [lidt]. *)
Record table_pointer := mk_pointer { tp_limit : Z; tp_base : Z }.
(** [sizeof(gdt)]: five entries and the descriptor of the TSS. *)
Definition sizeof_gdt : Z := 5 * 8 + 16.
Definition gdt_ptr (gdt : Z) : table_pointer := mk_pointer (u16 (sizeof_gdt - 1)) (u64 gdt).
Definition init_idt (idt : Z) : table_pointer := mk_pointer (u16 (256 * 16 - 1)) (u64 idt).

Definition GDT_SEG_KDATA : Z := 16.
Definition GDT_SEG_UCODE : Z := 27.
Definition GDT_SEG_UDATA : Z := 35.
(** What [load_gdt] leaves in the registers: [iretq] loads CS and SS, the rest is moved. *)
Record segments := mk_segments { gdtr : table_pointer; cs : Z; ds : Z; es : Z; ss : Z; fs : Z; gs : Z }.
Definition load_gdt (gdt : Z) : segments :=
  mk_segments (gdt_ptr gdt) GDT_SEG_KCODE GDT_SEG_KDATA GDT_SEG_KDATA GDT_SEG_KDATA GDT_SEG_KDATA GDT_SEG_KDATA.

(** What a selector selects: the descriptor, if it is inside the table and is not the null descriptor. *)
Definition selects (p : table_pointer) (gdt : list gdt_entry) (sel : Z) : option gdt_entry :=
  let off := Z.land sel (Z.lnot 7) in
  if (off =? 0) || (tp_limit p <? off + 7) then None else gdt !! Z.to_nat (off / 8).
(** The bits of a descriptor as the CPU reads them. *)
Definition d_present (e : gdt_entry) : bool := Z.testbit (g_flags e) 7.
Definition d_dpl (e : gdt_entry) : Z := Z.land (Z.shiftr (g_flags e) 5) 3.
Definition d_code (e : gdt_entry) : bool := Z.testbit (g_flags e) 3.
Definition d_long (e : gdt_entry) : bool := Z.testbit (granularity e) 1.

(** ** Interrupt descriptor table *)

Record idt_entry := mk_idt_entry { i_base_low : Z; i_base_mid : Z; i_base_high : Z; i_sel : Z; i_flags : Z }.

Definition idt_set_gate (user_space exception : bool) (func : Z) : idt_entry :=
  mk_idt_entry (u16 func) (u16 (Z.shiftr func 16)) (u32 (Z.shiftr func 32)) GDT_SEG_KCODE
    (if exception then if user_space then 0xef else 0x8f else if user_space then 0xee else 0x8e).

(** The address, the privilege a program needs to raise the interrupt, and whether the gate is
    present, as the CPU reads them. *)
Definition gate_address (e : idt_entry) : Z := i_base_low e + 2 ^ 16 * i_base_mid e + 2 ^ 32 * i_base_high e.
Definition gate_dpl (e : idt_entry) : Z := Z.land (Z.shiftr (i_flags e) 5) 3.
Definition gate_present (e : idt_entry) : bool := Z.testbit (i_flags e) 7.

Abbreviation idt := (gmap Z idt_entry).

Section Gates.
(** The stubs: [isr n], [irq n], [schedule_irq], [syscall_isr]. *)
Context (isr irq : nat -> Z) (schedule_irq syscall_isr : Z).

Fixpoint set_gates (n : nat) (first : Z) (user exception : bool) (stub : nat -> Z) (t : idt) : idt :=
  match n with
  | O => t
  | S n' => <[first + Z.of_nat n' := idt_set_gate user exception (stub n')]> (set_gates n' first user exception stub t)
  end.

Definition init_isr (t : idt) : idt := set_gates 32 0 false true isr t.
Definition init_irq (t : idt) : idt :=
  <[32 + 16 := idt_set_gate true false schedule_irq]> (set_gates 16 32 true false irq t).
Definition init_syscalls (t : idt) : idt := <[0x45 := idt_set_gate true true syscall_isr]> t.
(** The order of [kernel_main]. *)
Definition boot_idt : idt := init_irq (init_isr (init_syscalls ∅)).
End Gates.

(** ** isr.c *)

Definition exception_messages : list string :=
  ["Division By Zero"; "Debug"; "Non Maskable Interrupt"; "Breakpoint"; "Into Detected Overflow"; "Out of Bounds";
   "Invalid Opcode"; "Device not Available"; "Double Fault"; "Coprocessor Segment Overrun"; "Bad TSS";
   "Segment Not Present"; "Stack Fault Exception"; "General Protection Fault"; "Page Fault"; "[RESERVED]";
   "Floating Point Exception"; "Alignment Check"; "Machine Check"; "SIMD Floating Point Exception";
   "Virtualization Exception"; "[RESERVED]"; "[RESERVED]"; "[RESERVED]"; "[RESERVED]"; "[RESERVED]"; "[RESERVED]";
   "[RESERVED]"; "[RESERVED]"; "[RESERVED]"; "[RESERVED]"; "[RESERVED]"; "Security Exception"]%string.

(** What [c_isr_handler] prints before it stops the CPU. *)
Definition c_isr_handler (cpu_number ex_no rip : Z) : outcome pstate :=
  match exception_messages !! Z.to_nat ex_no with
  | Some e => Screen.printf false ([10] ++ text "CPU %lu: %s at %lx" ++ [10; 0]) [VInt cpu_number; VStr (text e ++ [0]); VInt rip]
  | None => Fault
  end.

(** ** irq.c *)

Section Irq.
Context {S : Type} (lapic_eoi : S -> S).

(** [irq_routines]: 16 handlers; [None] is an access outside of the array. *)
Definition irq_table : Type := list (option (S -> S)).
Definition no_handlers : irq_table := replicate 16 None.
Definition irq_store (irq : Z) (h : option (S -> S)) (t : irq_table) : option irq_table :=
  if (0 <=? irq) && (irq <? Z.of_nat (length t)) then Some (<[Z.to_nat irq := h]> t) else None.
Definition irq_install_handler (irq : Z) (handler : S -> S) : irq_table -> option irq_table := irq_store irq (Some handler).
Definition irq_uninstall_handler (irq : Z) : irq_table -> option irq_table := irq_store irq None.
Definition c_irq_handler (t : irq_table) (irqno : Z) (s : S) : option S :=
  h ← t !! Z.to_nat irqno;
  Some (lapic_eoi (match h with Some f => f s | None => s end)).

Lemma irq_store_lookup irq h t t' n :
  irq_store irq h t = Some t' -> t' !! n = if decide (n = Z.to_nat irq) then Some h else t !! n.
Proof.
  unfold irq_store. destruct ((0 <=? irq) && _) eqn:E; [|done]. intros [= <-]. zbool.
  destruct (decide (n = Z.to_nat irq)) as [->|N]; [apply list_lookup_insert_eq; lia|by apply list_lookup_insert_ne].
Qed.

(** After [irq_install_handler(irq, h)] the interrupt [irq] runs [h], then acknowledges it; the other
    lines are dispatched as before; after [irq_uninstall_handler(irq)] it is only acknowledged. *)
Theorem irq_dispatch (t t1 t2 : irq_table) (irq n : Z) (h : S -> S) (s : S) :
  irq_install_handler irq h t = Some t1 -> irq_uninstall_handler irq t1 = Some t2 -> 0 <= n ->
  c_irq_handler t1 n s = (if n =? irq then Some (lapic_eoi (h s)) else c_irq_handler t n s) /\
  c_irq_handler t2 n s = (if n =? irq then Some (lapic_eoi s) else c_irq_handler t n s).
Proof.
  intros H1 H2 Hn. unfold c_irq_handler.
  assert (R : 0 <= irq) by (unfold irq_install_handler, irq_store in H1; destruct ((0 <=? irq) && _) eqn:E; [zbool; lia|done]).
  rewrite (irq_store_lookup _ _ _ _ (Z.to_nat n) H2), !(irq_store_lookup _ _ _ _ (Z.to_nat n) H1).
  destruct (Z.eqb_spec n irq) as [->|N]; [by rewrite !decide_True by done|by rewrite !decide_False by lia].
Qed.
End Irq.

Lemma irq_dispatch_witness :
  exists t1 t2 : irq_table, irq_install_handler 1 (fun s : Z => s + 1) no_handlers = Some t1 /\
    irq_uninstall_handler 1 t1 = Some t2 /\ c_irq_handler (fun s => 10 * s) t1 1 5 = Some 60 /\ c_irq_handler (fun s => 10 * s) t2 1 5 = Some 50.
Proof.
  do 2 eexists. split; [reflexivity|]. split; [reflexivity|].
  exact (irq_dispatch (fun s => 10 * s) no_handlers _ _ 1 1 (fun s : Z => s + 1) 5 eq_refl eq_refl ltac:(lia)).
Defined.

(** ** apic.c *)

Definition LAPIC_REG_SPURIOUS : Z := 0x0f0.
Definition LAPIC_REG_TIMER : Z := 0x320.
Definition LAPIC_REG_TIMER_INITCNT : Z := 0x380.
Definition LAPIC_REG_TIMER_DIV : Z := 0x3e0.
Definition LAPIC_REG_EOI : Z := 0x0b0.
Definition LAPIC_REG_ICR0 : Z := 0x300.
Definition LAPIC_REG_ICR1 : Z := 0x310.
Definition LAPIC_APIC_ID : Z := 0x20.

(** The registers of the local APIC of this CPU, and the frequency stored for it. *)
Record lapic := mk_lapic { l_regs : Z -> Z; lapic_timer_freq : Z }.
Definition lapic_read (reg : Z) (l : lapic) : Z := l_regs l reg.
Definition lapic_write (reg data : Z) (l : lapic) : lapic :=
  mk_lapic (fun r => if r =? reg then u32 data else l_regs l r) (lapic_timer_freq l).
Definition lapic_enable (vect : Z) (l : lapic) : lapic :=
  lapic_write LAPIC_REG_SPURIOUS (Z.lor (Z.lor (lapic_read LAPIC_REG_SPURIOUS l) 256) vect) l.
Definition init_lapic : lapic -> lapic := lapic_enable 0xff.
Definition lapic_get_id (l : lapic) : Z := u8 (Z.shiftr (lapic_read LAPIC_APIC_ID l) 24).
Definition lapic_eoi : lapic -> lapic := lapic_write LAPIC_REG_EOI 0.
Definition lapic_send_ipi (lapic_id vect : Z) (l : lapic) : lapic :=
  lapic_write LAPIC_REG_ICR0 vect (lapic_write LAPIC_REG_ICR1 (Z.shiftl lapic_id 24) l).
Definition lapic_timer_stop (l : lapic) : lapic :=
  lapic_write LAPIC_REG_TIMER (2 ^ 16) (lapic_write LAPIC_REG_TIMER_INITCNT 0 l).
Definition lapic_timer_oneshot (intr us : Z) (l : lapic) : lapic :=
  let l := lapic_timer_stop l in
  let ticks := u64 (us * (lapic_timer_freq l / 1000000)) in
  lapic_write LAPIC_REG_TIMER_INITCNT ticks (lapic_write LAPIC_REG_TIMER_DIV 0 (lapic_write LAPIC_REG_TIMER intr l)).

(** [lapic_timer_get_freq]: the two readings of the PIT counter, before and after the timer has run
    down; equal readings divide by zero. *)
Definition lapic_timer_get_freq (initial_pit_tick final_pit_tick : Z) (l : lapic) : option lapic :=
  let l := lapic_write LAPIC_REG_TIMER_DIV 0 (lapic_write LAPIC_REG_TIMER (Z.lor (2 ^ 16) 0xff) (lapic_timer_stop l)) in
  let l := lapic_write LAPIC_REG_TIMER_INITCNT 0xfffff l in
  let pit_ticks := u64 (initial_pit_tick - final_pit_tick) in
  if pit_ticks =? 0 then None
  else Some (lapic_timer_stop (mk_lapic (l_regs l) (u64 (0xfffff / pit_ticks * 1193182)))).

(** An I/O APIC: its first interrupt and its registers. *)
Record ioapic := mk_ioapic { io_gsi : Z; io_regs : Z -> Z }.
Definition ioapic_read (a : ioapic) (reg : Z) : Z := io_regs a reg.
Definition ioapic_write (reg data : Z) (a : ioapic) : ioapic :=
  mk_ioapic (io_gsi a) (fun r => if r =? reg then u32 data else io_regs a r).

(** The field of the version register: the number of the last redirection entry. *)
Definition ioapic_get_gsi_count (a : ioapic) : Z := Z.shiftr (Z.land (ioapic_read a 1) 0xff0000) 16.

Fixpoint get_ioapic_by_gsi (l : list ioapic) (gsi : Z) (i : nat) : option nat :=
  match l with
  | [] => None
  | a :: l' =>
      if (io_gsi a <=? gsi) && (gsi <? u32 (io_gsi a + ioapic_get_gsi_count a)) then Some i
      else get_ioapic_by_gsi l' gsi (S i)
  end.

Definition redirect_entry (lapic_id vect flags : Z) (status : bool) : Z :=
  let r := vect in
  let r := if truthy (Z.land flags 2) then Z.lor r (2 ^ 13) else r in
  let r := if truthy (Z.land flags 8) then Z.lor r (2 ^ 5) else r in
  let r := if status then r else Z.lor r (2 ^ 16) in
  Z.lor r (Z.shiftl lapic_id 56).

(** No I/O APIC for the interrupt: a NULL pointer is used. *)
Definition ioapic_redirect_gsi (lapic_id gsi vect flags : Z) (status : bool) (l : list ioapic) : option (list ioapic) :=
  k ← get_ioapic_by_gsi l gsi 0;
  a ← l !! k;
  let redirect := redirect_entry lapic_id vect flags status in
  let ioredtbl := u32 ((gsi - io_gsi a) * 2 + 16) in
  Some (<[k := ioapic_write (u32 (ioredtbl + 1)) (Z.shiftr redirect 32) (ioapic_write ioredtbl redirect a)]> l).

(** An interrupt source override: ISA line, interrupt, flags. *)
Record madt_iso := mk_iso { irq_source : Z; iso_gsi : Z; iso_flags : Z }.

Fixpoint iso_loop (isos : list madt_iso) (lapic_id irq vect : Z) (status : bool) (l : list ioapic) : option (list ioapic) :=
  match isos with
  | [] => Some l
  | o :: isos' =>
      l ← (if irq_source o =? irq then ioapic_redirect_gsi lapic_id (iso_gsi o) vect (iso_flags o) status l else Some l);
      iso_loop isos' lapic_id irq vect status l
  end.
Definition ioapic_redirect_irq (isos : list madt_iso) (lapic_id irq vect : Z) (status : bool) (l : list ioapic) : option (list ioapic) :=
  l ← iso_loop isos lapic_id irq vect status l; ioapic_redirect_gsi lapic_id irq vect 0 status l.

(** ** Descriptors *)

Lemma split_at x k : 0 <= k -> x = x mod 2 ^ k + 2 ^ k * (x / 2 ^ k).
Proof. intros Hk. pose proof (Z_div_mod_eq_full x (2 ^ k)). lia. Qed.

Lemma gate_address_ok user exception func :
  0 <= func < 2 ^ 64 -> gate_address (idt_set_gate user exception func) = func.
Proof.
  intros Hf. unfold gate_address, idt_set_gate. cbn [i_base_low i_base_mid i_base_high]. unfold u16, u32.
  rewrite !Z.shiftr_div_pow2 by lia.
  rewrite (Z.mod_small (func / 2 ^ 32)) by (split; [apply Z.div_pos; lia|apply Z.div_lt_upper_bound; lia]).
  pose proof (split_at func 16 ltac:(lia)) as E1. pose proof (split_at (func / 2 ^ 16) 16 ltac:(lia)) as E2.
  rewrite Z.div_div in E2 by lia. change (2 ^ 16 * 2 ^ 16) with (2 ^ 32) in E2. lia.
Qed.

Lemma tss_base_ok addr : 0 <= addr < 2 ^ 64 -> tss_base (set_and_load_tss addr) = addr.
Proof.
  intros Ha. unfold tss_base, set_and_load_tss. cbn [tss_base_low tss_base_mid tss_base_high base_upper]. unfold u32.
  change 0xffff with (Z.ones 16). change 0xff with (Z.ones 8). rewrite !Z.land_ones, !Z.shiftr_div_pow2 by lia.
  rewrite (Z.mod_small (addr / 2 ^ 32)) by (split; [apply Z.div_pos; lia|apply Z.div_lt_upper_bound; lia]).
  pose proof (split_at addr 16 ltac:(lia)) as E1. pose proof (split_at (addr / 2 ^ 16) 8 ltac:(lia)) as E2.
  pose proof (split_at (addr / 2 ^ 24) 8 ltac:(lia)) as E3.
  rewrite Z.div_div in E2, E3 by lia. change (2 ^ 16 * 2 ^ 8) with (2 ^ 24) in E2. change (2 ^ 24 * 2 ^ 8) with (2 ^ 32) in E3. lia.
Qed.

Lemma set_gates_lookup n first user exception stub t v :
  set_gates n first user exception stub t !! v =
    if (first <=? v) && (v <? first + Z.of_nat n) then Some (idt_set_gate user exception (stub (Z.to_nat (v - first)))) else t !! v.
Proof.
  induction n as [|n IH]; cbn [set_gates].
  - destruct (Z.leb_spec first v), (Z.ltb_spec v (first + Z.of_nat 0)); cbn; (done || lia).
  - destruct (Z.eq_dec v (first + Z.of_nat n)) as [->|N].
    + rewrite lookup_insert_eq. rewrite (proj2 (Z.leb_le _ _)), (proj2 (Z.ltb_lt _ _)) by lia. cbn [andb].
      by replace (Z.to_nat (first + Z.of_nat n - first)) with n by lia.
    + rewrite lookup_insert_ne by done. rewrite IH.
      destruct (Z.leb_spec first v), (Z.ltb_spec v (first + Z.of_nat n)), (Z.ltb_spec v (first + Z.of_nat (S n)));
        cbn [andb]; (done || lia).
Qed.

(** the interrupt table after boot: the 32 exceptions, the 16 interrupt lines, the scheduler's
    vector and the system call, and nothing else; every gate is present, leads to its stub in the
    kernel's code segment, and may be raised by a program except for the exceptions - also the
    interrupt lines and the scheduler's vector. *)
Theorem boot_idt_gates (isr irq : nat -> Z) (schedule_irq syscall_isr v : Z) (e : idt_entry) :
  (forall n, 0 <= isr n < 2 ^ 64) -> (forall n, 0 <= irq n < 2 ^ 64) -> 0 <= schedule_irq < 2 ^ 64 ->
  0 <= syscall_isr < 2 ^ 64 ->
  boot_idt isr irq schedule_irq syscall_isr !! v = Some e ->
  gate_present e = true /\ i_sel e = GDT_SEG_KCODE /\
  (0 <= v < 32 /\ gate_address e = isr (Z.to_nat v) /\ gate_dpl e = 0 \/
   32 <= v < 48 /\ gate_address e = irq (Z.to_nat (v - 32)) /\ gate_dpl e = 3 \/
   v = 48 /\ gate_address e = schedule_irq /\ gate_dpl e = 3 \/
   v = 0x45 /\ gate_address e = syscall_isr /\ gate_dpl e = 3).
Proof.
  intros H1 H2 H3 H4 E. unfold boot_idt, init_irq, init_isr, init_syscalls in E.
  assert (G : forall user exception f, 0 <= f < 2 ^ 64 ->
    gate_present (idt_set_gate user exception f) = true /\ i_sel (idt_set_gate user exception f) = GDT_SEG_KCODE /\
    gate_address (idt_set_gate user exception f) = f /\ gate_dpl (idt_set_gate user exception f) = if user then 3 else 0).
  { intros user exception f Hf. rewrite gate_address_ok by done. by destruct user, exception. }
  destruct (Z.eq_dec v (32 + 16)) as [->|N].
  { rewrite lookup_insert_eq in E. injection E as <-. destruct (G true false schedule_irq H3) as (? & ? & ? & ?). tauto. }
  rewrite lookup_insert_ne, !set_gates_lookup in E by done. rewrite Z.sub_0_r in E.
  destruct (Z.leb_spec 32 v), (Z.ltb_spec v (32 + Z.of_nat 16)); cbn [andb] in E.
  2: { destruct (Z.ltb_spec v (0 + Z.of_nat 32)); [lia|]. rewrite andb_false_r in E.
       destruct (Z.eq_dec v 0x45) as [->|N']; [|by rewrite lookup_insert_ne, lookup_empty in E by done].
       rewrite lookup_insert_eq in E. injection E as <-. destruct (G true true syscall_isr H4) as (? & ? & ? & ?). tauto. }
  - injection E as <-. destruct (G true false (irq (Z.to_nat (v - 32))) (H2 _)) as (? & ? & ? & ?).
    split; [done|]. split; [done|]. right. left. split; [lia|done].
  - destruct (Z.leb_spec 0 v), (Z.ltb_spec v (0 + Z.of_nat 32)); cbn [andb] in E; try lia;
      [|rewrite lookup_insert_ne, lookup_empty in E by lia; discriminate E].
    injection E as <-. destruct (G false true (isr (Z.to_nat v)) (H1 _)) as (? & ? & ? & ?).
    split; [done|]. split; [done|]. left. split; [lia|done].
  - lia.
Qed.

Lemma boot_idt_gates_witness :
  exists e, boot_idt (fun n => Z.of_nat n + 100) (fun n => Z.of_nat n + 200) 300 400 !! 33 = Some e /\
    gate_address e = 201 /\ gate_dpl e = 3.
Proof.
  eexists. split; [reflexivity|].
  destruct (boot_idt_gates (fun n => Z.of_nat (n `min` 99) + 100) (fun n => Z.of_nat (n `min` 99) + 200) 300 400 33 (idt_set_gate true false 201))
    as (_ & _ & [(? & _)|[(_ & A & D)|[(? & _)|(? & _)]]]); try lia; try (intros n; lia); [reflexivity|].
  split; [exact A|exact D].
Defined.

(** descriptors keep their addresses: a gate and the TSS descriptor decode to the address they
    were made from. *)
Theorem descriptor_roundtrip (user exception : bool) (addr : Z) :
  0 <= addr < 2 ^ 64 ->
  gate_address (idt_set_gate user exception addr) = addr /\ tss_base (set_and_load_tss addr) = addr.
Proof. intros H. split; [by apply gate_address_ok|by apply tss_base_ok]. Qed.

Lemma descriptor_roundtrip_witness :
  gate_address (idt_set_gate true false 0xffffffff80123456) = 0xffffffff80123456 /\
  tss_base (set_and_load_tss 0xffffffff80123456) = 0xffffffff80123456.
Proof. apply descriptor_roundtrip. lia. Defined.

(** ** Redirection *)

(** the redirection entry: vector, polarity, mask and destination are where the I/O APIC expects
    them, but the trigger mode (bit 15) is never set: a level-triggered source changes bit 5 of the
    vector instead. *)
Theorem redirect_entry_bits (lapic_id vect flags : Z) (status : bool) :
  0 <= vect < 2 ^ 8 -> 0 <= lapic_id < 2 ^ 8 ->
  let r := redirect_entry lapic_id vect flags status in
  let level := truthy (Z.land flags 8) in
  (forall k, 0 <= k < 8 -> Z.testbit r k = Z.testbit vect k || (k =? 5) && level) /\
  Z.testbit r 13 = truthy (Z.land flags 2) /\ Z.testbit r 15 = false /\ Z.testbit r 16 = negb status /\
  (forall k, 0 <= k < 8 -> Z.testbit r (56 + k) = Z.testbit lapic_id k).
Proof.
  intros Hv Hl r level.
  assert (B : forall k, 0 <= k -> Z.testbit r k =
    Z.testbit vect k || (k =? 13) && truthy (Z.land flags 2) || (k =? 5) && level || (k =? 16) && negb status
    || ((56 <=? k) && Z.testbit lapic_id (k - 56))).
  { intros k Hk. unfold r, redirect_entry. rewrite Z.lor_spec. rewrite Z.shiftl_spec by lia.
    assert (P : forall n, 0 <= n -> Z.testbit (2 ^ n) k = (k =? n)).
    { intros n Hn. rewrite Z.eqb_sym. by apply Z.pow2_bits_eqb. }
    assert (N : Z.testbit lapic_id (k - 56) = (56 <=? k) && Z.testbit lapic_id (k - 56)).
    { destruct (Z.leb_spec 56 k); [done|]. by rewrite Z.testbit_neg_r by lia. }
    rewrite N at 1. fold level. destruct (truthy (Z.land flags 2)), level, status;
      rewrite ?Z.lor_spec, ?P by lia; by destruct (Z.testbit vect k), (k =? 13), (k =? 5), (k =? 16). }
  split; [|split; [|split; [|split]]].
  - intros k Hk. rewrite B by lia. rewrite (proj2 (Z.eqb_neq k 13)), (proj2 (Z.eqb_neq k 16)), (proj2 (Z.leb_gt 56 k)) by lia.
    cbn [andb]. by rewrite !orb_false_r.
  - rewrite B, (testbit_small vect 8) by lia. cbn. by rewrite !orb_false_r.
  - rewrite B, (testbit_small vect 8) by lia. done.
  - rewrite B, (testbit_small vect 8) by lia. cbn. by rewrite orb_false_r.
  - intros k Hk. rewrite B, (testbit_small vect 8) by lia.
    rewrite (proj2 (Z.eqb_neq _ 13)), (proj2 (Z.eqb_neq _ 5)), (proj2 (Z.eqb_neq _ 16)), (proj2 (Z.leb_le _ _)) by lia.
    cbn [andb orb]. f_equal. lia.
Qed.

(** An I/O APIC with 24 pins. *)
Definition io24 : ioapic := mk_ioapic 0 (fun r => if r =? 1 then 0x170020 else 0).

Lemma redirect_entry_bits_witness :
  Z.testbit (redirect_entry 1 33 8 true) 15 = false.
Proof.
  destruct (redirect_entry_bits 1 33 8 true ltac:(lia) ltac:(lia)) as (_ & _ & E & _). exact E.
Defined.

(** The last pin of an I/O APIC is not found: the number of the last entry is taken for the number
    of entries. *)
Theorem ioapic_last_pin : get_ioapic_by_gsi [io24] 22 0 = Some 0%nat /\ get_ioapic_by_gsi [io24] 23 0 = None.
Proof. split; reflexivity. Qed.

(** ** Segments *)

(** The code segments of kernel and programs are present, 64 bits wide and of the privilege that their
    selectors ask for; the data segments are present and of the same privileges; the descriptor of the
    TSS is the last 16 bytes inside the table.  The limit of the TSS is 16, so that its first stack
    pointer (bytes 4 to 11) is inside of it, but none of its interrupt stacks (from byte 36 on). *)
Theorem loaded_segments (gdt addr : Z) :
  let r := load_gdt gdt in
  Forall (fun '(sel, code) => exists e, selects (gdtr r) init_gdt sel = Some e /\ d_present e = true /\ d_dpl e = Z.land sel 3 /\
      d_code e = code /\ d_long e = code)
    [(cs r, true); (ds r, false); (es r, false); (ss r, false); (fs r, false); (gs r, false); (GDT_SEG_UCODE, true); (GDT_SEG_UDATA, false)] /\
  GDT_SEG_TSS + 15 = tp_limit (gdtr r) /\ 11 <= tss_length (set_and_load_tss addr) < 36.
Proof.
  cbn zeta. split; [|split; [reflexivity|cbn; lia]].
  repeat (apply Forall_cons; split; [eexists; split; [reflexivity|vm_compute; done]|]). done.
Qed.
