(* ===== verification/Smp.v ===== *)
(** * The other processors (src/src/kernel/tasking/smp.c)

    [init_smp] runs on the boot processor while the processors it releases run [smp_init_cpu], so
    the model is a step relation.  [init_smp] and [smp_init_cpu] here are the next action of the
    boot processor and of the processor of an entry: each action is one access to what the
    processors share, or a block that touches only the processor's own state.  [loader_jump] is the
    boot loader's part of the protocol: a processor waits until its [goto_address] is set, then jumps
    there with its stack pointer at [target_stack].

    The block of [cpu_locals] is at [base], what [kmalloc] returned; [LOCK(gdt_lock)] is an action
    that is possible while the lock is free (Lock.v has the instructions). *)
From S2P Require Import Prelude Pmm Interrupts.

(** ** State *)

(** [struct stivale2_smp_info]. *)
Record smp_info := mk_info {
  processor_id : Z; lapic_id : Z; target_stack : Z; goto_address : Z; extra_argument : Z }.

(** [cpu_locals_t], less the TSS inside it. *)
Record locals_t := mk_locals {
  lc_current_thread : Z; lc_lapic_timer_freq : Z; lc_cpu_number : Z; lc_lapic_id : Z;
  lc_last_run_thread_index : list Z; lc_current_priority_peg : Z; lc_current_priority : Z }.

(** [sizeof(cpu_locals_t)] and the offset of its member [tss]. *)
Definition LOCALS_SIZE : Z := 304.
Definition TSS_OFFSET : Z := 192.

(** Where a processor is: waiting for the boot loader's word, at an action of [smp_init_cpu], or
    past it. *)
Inductive stage :=
| Parked | AtTables | AtPagemap | AtLock | AtTss | AtLtr | AtUnlock | AtFields | AtGs | AtTimer | AtLog | AtInc | Up.

#[export] Instance stage_eq_dec : EqDecision stage.
Proof. solve_decision. Defined.

(** A processor: SSE enabled, GDT and IDT loaded, the stack pointer it started with, CR3, the
    register that holds [locals], the base of the task register, the GS base, its local APIC. *)
Record processor := mk_processor {
  p_stage : stage; p_sse : bool; p_gdt : bool; p_idt : bool; p_rsp : Z; p_cr3 : Z; p_locals : Z;
  p_tr : Z; p_gs : Z; p_lapic : lapic }.

(** Where [init_smp] is in the iteration for entry [i]. *)
Inductive boot_pc := AtNumber (i : nat) | AtArg (i : nat) | InCall (i : nat) | AtStack (i : nat) | AtGoto (i : nat) | AtWait | Returned.

#[export] Instance boot_pc_eq_dec : EqDecision boot_pc.
Proof. solve_decision. Defined.

Record smp_machine := mk_smp {
  m_info : list smp_info; m_locals : list locals_t; m_pmm : pmm_state; m_boot : boot_pc;
  m_cpus : list processor; m_gdt_lock : bool; m_gdt_tss : tss_entry; inited_cpus : Z; m_log : list Z }.

Definition set_m_info x m := mk_smp x (m_locals m) (m_pmm m) (m_boot m) (m_cpus m) (m_gdt_lock m) (m_gdt_tss m) (inited_cpus m) (m_log m).
Definition set_m_locals x m := mk_smp (m_info m) x (m_pmm m) (m_boot m) (m_cpus m) (m_gdt_lock m) (m_gdt_tss m) (inited_cpus m) (m_log m).
Definition set_m_pmm x m := mk_smp (m_info m) (m_locals m) x (m_boot m) (m_cpus m) (m_gdt_lock m) (m_gdt_tss m) (inited_cpus m) (m_log m).
Definition set_m_boot x m := mk_smp (m_info m) (m_locals m) (m_pmm m) x (m_cpus m) (m_gdt_lock m) (m_gdt_tss m) (inited_cpus m) (m_log m).
Definition set_m_cpus x m := mk_smp (m_info m) (m_locals m) (m_pmm m) (m_boot m) x (m_gdt_lock m) (m_gdt_tss m) (inited_cpus m) (m_log m).
Definition set_m_gdt_lock x m := mk_smp (m_info m) (m_locals m) (m_pmm m) (m_boot m) (m_cpus m) x (m_gdt_tss m) (inited_cpus m) (m_log m).
Definition set_m_gdt_tss x m := mk_smp (m_info m) (m_locals m) (m_pmm m) (m_boot m) (m_cpus m) (m_gdt_lock m) x (inited_cpus m) (m_log m).
Definition set_inited_cpus x m := mk_smp (m_info m) (m_locals m) (m_pmm m) (m_boot m) (m_cpus m) (m_gdt_lock m) (m_gdt_tss m) x (m_log m).
Definition set_m_log x m := mk_smp (m_info m) (m_locals m) (m_pmm m) (m_boot m) (m_cpus m) (m_gdt_lock m) (m_gdt_tss m) (inited_cpus m) x.

Definition with_stage s c := mk_processor s (p_sse c) (p_gdt c) (p_idt c) (p_rsp c) (p_cr3 c) (p_locals c) (p_tr c) (p_gs c) (p_lapic c).
Definition with_target_stack x n := mk_info (processor_id n) (lapic_id n) x (goto_address n) (extra_argument n).
Definition with_goto_address x n := mk_info (processor_id n) (lapic_id n) (target_stack n) x (extra_argument n).
Definition with_extra_argument x n := mk_info (processor_id n) (lapic_id n) (target_stack n) (goto_address n) x.
Definition with_cpu_number x l := mk_locals (lc_current_thread l) (lc_lapic_timer_freq l) x (lc_lapic_id l)
  (lc_last_run_thread_index l) (lc_current_priority_peg l) (lc_current_priority l).
Definition with_freq x l := mk_locals (lc_current_thread l) x (lc_cpu_number l) (lc_lapic_id l)
  (lc_last_run_thread_index l) (lc_current_priority_peg l) (lc_current_priority l).

(** [lock incl] on a [size_t]: the low 32 bits. *)
Definition locked_inc64 (x : Z) : Z := x - u32 x + u32 (x + 1).

Section Smp.
(** The static variables set before any processor is released: [bsp_lapic_id], [cpu_locals]; CR3 of
    the kernel's page map; the address of [smp_init_cpu]; the readings of the PIT while a processor
    measures its timer. *)
Context (bsp_lapic_id base kernel_cr3 entry : Z) (pit : nat -> Z * Z).

(** [&cpu_locals[i]], and the element a pointer into the array names. *)
Definition locals_addr (i : nat) : Z := base + Z.of_nat i * LOCALS_SIZE.
Definition locals_index (a : Z) : option nat :=
  if (base <=? a) && ((a - base) mod LOCALS_SIZE =? 0) then Some (Z.to_nat ((a - base) / LOCALS_SIZE)) else None.
Definition update_locals (a : Z) (f : locals_t -> locals_t) (m : smp_machine) : option smp_machine :=
  k ← locals_index a;
  l ← m_locals m !! k;
  Some (set_m_locals (<[k := f l]> (m_locals m)) m).

Definition set_processor (i : nat) (c : processor) (m : smp_machine) : smp_machine := set_m_cpus (<[i := c]> (m_cpus m)) m.

(** ** [smp_init_cpu] on the processor of entry [i] *)

(** [if (smp_info->lapic_id != bsp_lapic_id)]: [enable_sse], [load_gdt] (which reloads GS), [load_idt]. *)
Definition load_tables (n : smp_info) (c : processor) : processor :=
  if lapic_id n =? bsp_lapic_id then with_stage AtPagemap c
  else mk_processor AtPagemap true true true (p_rsp c) (p_cr3 c) (p_locals c) (p_tr c) 0 (p_lapic c).

(** Everything the function clears in [*locals]. *)
Definition reset_locals (n : smp_info) (l : locals_t) : locals_t :=
  mk_locals 0 (lc_lapic_timer_freq l) (lc_cpu_number l) (lapic_id n) (replicate 20 0) 0 0.

Definition smp_init_cpu (i : nat) (m : smp_machine) : option smp_machine :=
  c ← m_cpus m !! i;
  n ← m_info m !! i;
  match p_stage c with
  | Parked | Up => None
  | AtTables => Some (set_processor i (load_tables n c) m)
  | AtPagemap =>
      Some (set_processor i (mk_processor AtLock (p_sse c) (p_gdt c) (p_idt c) (p_rsp c) kernel_cr3 (extra_argument n)
              (p_tr c) (p_gs c) (p_lapic c)) m)
  | AtLock =>
      if m_gdt_lock m then None else Some (set_m_gdt_lock true (set_processor i (with_stage AtTss c) m))
  | AtTss => Some (set_m_gdt_tss (set_and_load_tss (p_locals c + TSS_OFFSET)) (set_processor i (with_stage AtLtr c) m))
  | AtLtr =>
      Some (set_processor i (mk_processor AtUnlock (p_sse c) (p_gdt c) (p_idt c) (p_rsp c) (p_cr3 c) (p_locals c)
              (tss_base (m_gdt_tss m)) (p_gs c) (p_lapic c)) m)
  | AtUnlock => Some (set_m_gdt_lock false (set_processor i (with_stage AtFields c) m))
  | AtFields => update_locals (p_locals c) (reset_locals n) (set_processor i (with_stage AtGs c) m)
  | AtGs =>
      Some (set_processor i (mk_processor AtTimer (p_sse c) (p_gdt c) (p_idt c) (p_rsp c) (p_cr3 c) (p_locals c)
              (p_tr c) (p_locals c) (p_lapic c)) m)
  | AtTimer =>
      a ← lapic_timer_get_freq (fst (pit i)) (snd (pit i)) (init_lapic (p_lapic c));
      update_locals (p_gs c) (with_freq (lapic_timer_freq a))
        (set_processor i (mk_processor AtLog (p_sse c) (p_gdt c) (p_idt c) (p_rsp c) (p_cr3 c) (p_locals c)
           (p_tr c) (p_gs c) a) m)
  | AtLog =>
      k ← locals_index (p_locals c);
      l ← m_locals m !! k;
      Some (set_m_log (m_log m ++ [lc_cpu_number l]) (set_processor i (with_stage AtInc c) m))
  | AtInc => Some (set_inited_cpus (locked_inc64 (inited_cpus m)) (set_processor i (with_stage Up c) m))
  end.

(** ** [init_smp] on the boot processor *)

Definition update_info (i : nat) (f : smp_info -> smp_info) (m : smp_machine) : option smp_machine :=
  n ← m_info m !! i; Some (set_m_info (<[i := f n]> (m_info m)) m).

Definition init_smp (m : smp_machine) : option smp_machine :=
  match m_boot m with
  | AtNumber i =>
      if (i <? length (m_info m))%nat then
        m1 ← update_locals (locals_addr i) (with_cpu_number (Z.of_nat i)) m; Some (set_m_boot (AtArg i) m1)
      else Some (set_m_boot AtWait m)
  | AtArg i =>
      n ← m_info m !! i;
      c ← m_cpus m !! i;
      m1 ← update_info i (with_extra_argument (locals_addr i)) m;
      if lapic_id n =? bsp_lapic_id then Some (set_m_boot (InCall i) (set_processor i (with_stage AtTables c) m1))
      else Some (set_m_boot (AtStack i) m1)
  | InCall i =>
      c ← m_cpus m !! i;
      if decide (p_stage c = Up) then Some (set_m_boot (AtNumber (S i)) m) else None
  | AtStack i =>
      match pcalloc 1 (m_pmm m) with
      | Done (p, s') =>
          m1 ← update_info i (with_target_stack (u64 (p + PHYS_MEM_OFFSET + PAGE_SIZE))) (set_m_pmm s' m);
          Some (set_m_boot (AtGoto i) m1)
      | _ => None
      end
  | AtGoto i =>
      m1 ← update_info i (with_goto_address entry) m; Some (set_m_boot (AtNumber (S i)) m1)
  | AtWait =>
      if inited_cpus m =? Z.of_nat (length (m_info m)) then Some (set_m_boot Returned m) else Some m
  | Returned => None
  end.

(** The boot loader: the processor of entry [i] leaves its wait loop. *)
Definition loader_jump (i : nat) (m : smp_machine) : option smp_machine :=
  c ← m_cpus m !! i;
  n ← m_info m !! i;
  if decide (p_stage c = Parked) then
    if goto_address n =? 0 then None
    else Some (set_processor i (mk_processor AtTables (p_sse c) (p_gdt c) (p_idt c) (target_stack n) (p_cr3 c) (p_locals c)
                 (p_tr c) (p_gs c) (p_lapic c)) m)
  else None.

Inductive smp_step (m m' : smp_machine) : Prop :=
| boot_acts : init_smp m = Some m' -> smp_step m m'
| cpu_acts i : smp_init_cpu i m = Some m' -> smp_step m m'
| loader_acts i : loader_jump i m = Some m' -> smp_step m m'.

(** The state [init_smp] starts from: the tag as the boot loader leaves it, the processors waiting,
    the array with whatever [kmalloc] found in it. *)
Record smp_start (m : smp_machine) : Prop := mk_start {
  start_boot : m_boot m = AtNumber 0;
  start_locals : length (m_locals m) = length (m_info m);
  start_cpus : length (m_cpus m) = length (m_info m);
  start_info : Forall (fun n => goto_address n = 0) (m_info m);
  start_parked : Forall (fun c => p_stage c = Parked) (m_cpus m);
  start_lock : m_gdt_lock m = false;
  start_count : inited_cpus m = 0;
  start_pmm : pmm_ready (m_pmm m) 1 }.

(** ** The invariant *)

(** How far [init_smp] is with entry [j]. *)
Definition boot_rank (b : boot_pc) (j : nat) : nat :=
  let at_ (i r : nat) := if (j <? i)%nat then 5%nat else if (j =? i)%nat then r else 0%nat in
  match b with
  | AtNumber i => at_ i 0%nat | AtArg i => at_ i 1%nat | InCall i => at_ i 2%nat
  | AtStack i => at_ i 3%nat | AtGoto i => at_ i 4%nat | AtWait | Returned => 5%nat
  end.

#[local] Arguments boot_rank : simpl never.

Definition stage_rank (s : stage) : nat :=
  match s with
  | Parked => 0 | AtTables => 1 | AtPagemap => 2 | AtLock => 3 | AtTss => 4 | AtLtr => 5 | AtUnlock => 6
  | AtFields => 7 | AtGs => 8 | AtTimer => 9 | AtLog => 10 | AtInc => 11 | Up => 12
  end.

Definition fresh_locals (n : smp_info) (l : locals_t) : Prop :=
  lc_current_thread l = 0 /\ lc_lapic_id l = lapic_id n /\ lc_last_run_thread_index l = replicate 20 0 /\
  lc_current_priority_peg l = 0 /\ lc_current_priority l = 0.

(** The processor has done the first [k] actions. *)
Definition past (k : nat) (c : processor) : bool := (k <=? stage_rank (p_stage c))%nat.

(** What holds of entry [j], its processor [c] and its element [l], when [init_smp] is at rank [r]
    with it and the descriptor of the TSS is [t]. *)
Record entry_ok (r : nat) (t : tss_entry) (j : nat) (c : processor) (n : smp_info) (l : locals_t) : Prop := mk_entry_ok {
  e_number : (1 <= r)%nat -> lc_cpu_number l = Z.of_nat j;
  e_arg : (2 <= r)%nat -> extra_argument n = locals_addr j;
  e_goto : lapic_id n <> bsp_lapic_id -> (5 <= r)%nat -> goto_address n = entry;
  e_nogoto : lapic_id n = bsp_lapic_id \/ (r < 5)%nat -> goto_address n = 0;
  e_call : r = 2%nat -> lapic_id n = bsp_lapic_id;
  e_other : r = 3%nat \/ r = 4%nat -> lapic_id n <> bsp_lapic_id;
  e_run : past 1 c = true -> (2 <= r)%nat /\ (lapic_id n = bsp_lapic_id \/ (5 <= r)%nat);
  e_called : lapic_id n = bsp_lapic_id -> (2 <= r)%nat -> past 1 c = true;
  e_back : lapic_id n = bsp_lapic_id -> (5 <= r)%nat -> p_stage c = Up;
  e_rsp : lapic_id n <> bsp_lapic_id -> past 1 c = true -> p_rsp c = target_stack n;
  e_tables : lapic_id n <> bsp_lapic_id -> past 2 c = true -> p_sse c = true /\ p_gdt c = true /\ p_idt c = true;
  e_locals : past 3 c = true -> p_locals c = locals_addr j /\ p_cr3 c = kernel_cr3;
  e_tss : p_stage c = AtLtr -> t = set_and_load_tss (locals_addr j + TSS_OFFSET);
  e_tr : past 6 c = true -> p_tr c = locals_addr j + TSS_OFFSET;
  e_fields : past 8 c = true -> fresh_locals n l;
  e_gs : past 9 c = true -> p_gs c = locals_addr j;
  e_freq : past 10 c = true -> exists a a',
    lapic_timer_get_freq (fst (pit j)) (snd (pit j)) a = Some a' /\ lc_lapic_timer_freq l = lapic_timer_freq a' }.

Definition entries_ok (m : smp_machine) : Prop := forall j c n l,
  m_cpus m !! j = Some c -> m_info m !! j = Some n -> m_locals m !! j = Some l ->
  entry_ok (boot_rank (m_boot m) j) (m_gdt_tss m) j c n l.

(** The array does not wrap around the address space, and [smp_init_cpu] is not at address 0. *)
Context (N : nat).
Hypothesis base_ok : 0 <= base /\ base + Z.of_nat N * LOCALS_SIZE <= 2 ^ 64.
Hypothesis entry_ne : entry <> 0.

Lemma locals_index_addr i : locals_index (locals_addr i) = Some i.
Proof.
  unfold locals_index, locals_addr, LOCALS_SIZE. rewrite (proj2 (Z.leb_le _ _)) by lia.
  replace (base + Z.of_nat i * 304 - base) with (Z.of_nat i * 304) by lia.
  rewrite Z.mod_mul, Z.div_mul by done. simpl. by rewrite Nat2Z.id.
Qed.

Lemma tss_addr_ok i : (i < N)%nat -> tss_base (set_and_load_tss (locals_addr i + TSS_OFFSET)) = locals_addr i + TSS_OFFSET.
Proof. intros H. apply tss_base_ok. unfold locals_addr, TSS_OFFSET, LOCALS_SIZE in *. lia. Qed.

(** Uses the fields of [entry_ok] whose premise on the stage is decided. *)
Ltac use_fields :=
  repeat match goal with
  | H : true = true -> _ |- _ => specialize (H eq_refl)
  | H : false = true -> _ |- _ => clear H
  | H : _ = _ -> true = true -> _ |- _ => specialize (fun e => H e eq_refl)
  | H : _ <> _ -> true = true -> _ |- _ => specialize (fun e => H e eq_refl)
  | H : _ -> false = true -> _ |- _ => clear H
  end.
(** A field of [entry_ok] after a step: the field before it gives it. *)
Ltac entry_field :=
  cbn; intros; first [assumption|discriminate|reflexivity|by auto|by eauto|naive_solver congruence].

(** The conclusion of [cpu_shape] once the new processor and element are known. *)
Ltac shape_tail :=
  repeat (split; [first [done|reflexivity|by rewrite list_insert_id]|]);
  (split; [constructor; unfold past; entry_field|]);
  repeat split; first [done|by left|by right|discriminate|lia].

(** One action of [smp_init_cpu] changes the processor, its element and perhaps the descriptor. *)
Lemma cpu_shape m m' i : smp_init_cpu i m = Some m' ->
  entries_ok m -> length (m_info m) = N -> length (m_locals m) = N ->
  exists c n l c' l', m_cpus m !! i = Some c /\ m_info m !! i = Some n /\ m_locals m !! i = Some l /\
    m_cpus m' = <[i := c']> (m_cpus m) /\ m_info m' = m_info m /\ m_locals m' = <[i := l']> (m_locals m) /\
    m_boot m' = m_boot m /\ m_pmm m' = m_pmm m /\
    entry_ok (boot_rank (m_boot m) i) (m_gdt_tss m') i c' n l' /\
    (m_gdt_tss m' = m_gdt_tss m \/ p_stage c = AtTss) /\
    stage_rank (p_stage c') = S (stage_rank (p_stage c)) /\ (1 <= stage_rank (p_stage c))%nat /\
    (p_stage c = AtLock -> m_gdt_lock m = false) /\
    m_gdt_lock m' = (match p_stage c with AtLock => true | AtUnlock => false | _ => m_gdt_lock m end) /\
    inited_cpus m' = (match p_stage c with AtInc => locked_inc64 (inited_cpus m) | _ => inited_cpus m end).
Proof.
  unfold smp_init_cpu. destruct (m_cpus m !! i) as [c|] eqn:Ec; [|done]. simpl.
  destruct (m_info m !! i) as [n|] eqn:En; [|done]. simpl. intros Hs He Li Ll.
  assert (Hi : (i < N)%nat) by (rewrite <- Li; by eapply lookup_lt_Some).
  destruct (lookup_lt_is_Some_2 (m_locals m) i ltac:(lia)) as [l El].
  pose proof (He i c n l Ec En El) as Hok. exists c, n, l.
  pose proof (tss_addr_ok i Hi) as Htss.
  destruct Hok. unfold update_locals, past in *.
  destruct (p_stage c) eqn:Es; cbn in *; try done; use_fields.
  3: destruct (m_gdt_lock m) eqn:Elk; [done|].
  1: unfold load_tables in Hs; destruct (Z.eqb_spec (lapic_id n) bsp_lapic_id) as [Eb|Eb].
  all: try (injection Hs as <-; eexists _, l; shape_tail).
  2: destruct (lapic_timer_get_freq _ _ _) as [a|] eqn:Ea; [|done]; cbn in Hs; rewrite e_gs0 in Hs.
  1, 3: rewrite (proj1 e_locals0) in Hs.
  all: rewrite locals_index_addr in Hs; cbn in Hs; rewrite El in Hs; injection Hs as <-; eexists _, _; shape_tail.
Qed.

(** Counting processors. *)
Definition holds_gdt (c : processor) : bool := match p_stage c with AtTss | AtLtr | AtUnlock => true | _ => false end.
Definition is_up (c : processor) : bool := match p_stage c with Up => true | _ => false end.
Fixpoint countb (f : processor -> bool) (cs : list processor) : Z :=
  match cs with [] => 0 | c :: cs' => Z.b2z (f c) + countb f cs' end.

Lemma countb_insert f cs i c c' : cs !! i = Some c -> countb f (<[i := c']> cs) = countb f cs - Z.b2z (f c) + Z.b2z (f c').
Proof.
  revert i. induction cs as [|d cs IH]; intros [|i] H; [done..| |]; cbn in *.
  - injection H as ->. lia.
  - rewrite IH by done. lia.
Qed.

Lemma countb_range f cs : 0 <= countb f cs <= Z.of_nat (length cs).
Proof. induction cs as [|c cs IH]; cbn [countb length]; [lia|]. destruct (f c); cbn [Z.b2z]; lia. Qed.

Lemma countb_pos f cs j d : cs !! j = Some d -> f d = true -> 1 <= countb f cs.
Proof.
  revert j. induction cs as [|c cs IH]; intros [|j] Hj Fd; [done..| |]; cbn in *.
  - injection Hj as ->. rewrite Fd. pose proof (countb_range f cs). cbn. lia.
  - pose proof (IH j Hj Fd). destruct (f c); cbn; lia.
Qed.

Lemma countb_unique f cs i j c d : countb f cs <= 1 -> cs !! i = Some c -> cs !! j = Some d -> f c = true -> f d = true -> i = j.
Proof.
  revert i j. induction cs as [|e cs IH]; intros [|i] [|j] Hc Hi Hj Fc Fd; cbn in *; try done.
  - injection Hi as ->. rewrite Fc in Hc. pose proof (countb_pos f cs j d Hj Fd). cbn in Hc. lia.
  - injection Hj as ->. rewrite Fd in Hc. pose proof (countb_pos f cs i c Hi Fc). cbn in Hc. lia.
  - f_equal. apply (IH i j); try done. destruct (f e); cbn in *; lia.
Qed.

Lemma countb_all f cs : countb f cs = Z.of_nat (length cs) -> Forall (fun c => f c = true) cs.
Proof.
  induction cs as [|c cs IH]; [constructor|]. cbn [countb length]. pose proof (countb_range f cs). intros E.
  destruct (f c) eqn:F; cbn [Z.b2z] in E; [|lia]. constructor; [done|]. apply IH. lia.
Qed.

Lemma locked_inc64_small x : 0 <= x -> x + 1 < 2 ^ 32 -> locked_inc64 x = x + 1.
Proof. intros. unfold locked_inc64, u32. rewrite !Z.mod_small by lia. lia. Qed.

(** The stack in the page [p]. *)
Definition stack_of (p : Z) : Z := u64 (p * PAGE_SIZE + PHYS_MEM_OFFSET + PAGE_SIZE).

Lemma stack_of_inj p q : 0 <= p * PAGE_SIZE < 2 ^ 64 -> 0 <= q * PAGE_SIZE < 2 ^ 64 -> stack_of p = stack_of q -> p = q.
Proof.
  unfold stack_of, u64, PAGE_SIZE. generalize PHYS_MEM_OFFSET. intros k Hp Hq E.
  Z.to_euclidean_division_equations. lia.
Qed.

(** [init_smp] has given entry [j] a stack. *)
Definition has_stack (b : boot_pc) (j : nat) (n : smp_info) : Prop := (4 <= boot_rank b j)%nat /\ lapic_id n <> bsp_lapic_id.

(** Every stack given out is in a page that was free in [s0], when [init_smp] began, is allocated in
    [s] and is no other entry's. *)
Definition stacks_own (s0 : pmm_state) (b : boot_pc) (ns : list smp_info) (s : pmm_state) : Prop :=
  forall j n, ns !! j = Some n -> has_stack b j n ->
    (exists p, 0 <= p < highest_page s / PAGE_SIZE /\ target_stack n = stack_of p /\ used (bitmap s) p = true /\
       used (bitmap s0) p = false) /\
    forall k n', ns !! k = Some n' -> has_stack b k n' -> target_stack n = target_stack n' -> j = k.

Record smp_inv (s0 : pmm_state) (m : smp_machine) : Prop := mk_smp_inv {
  inv_info : length (m_info m) = N;
  inv_locals : length (m_locals m) = N;
  inv_cpus : length (m_cpus m) = N;
  inv_entries : entries_ok m;
  inv_lock : countb holds_gdt (m_cpus m) = Z.b2z (m_gdt_lock m);
  inv_count : inited_cpus m = countb is_up (m_cpus m);
  inv_pmm : pmm_ready (m_pmm m) 1;
  inv_stacks : stacks_own s0 (m_boot m) (m_info m) (m_pmm m);
  inv_kept : forall p, 0 <= p -> used (bitmap s0) p = true -> used (bitmap (m_pmm m)) p = true;
  inv_wait : m_boot m = Returned -> inited_cpus m = Z.of_nat N }.

#[local] Arguments inv_info {s0} m.
#[local] Arguments inv_locals {s0} m.
#[local] Arguments inv_cpus {s0} m.
#[local] Arguments inv_entries {s0} m.
#[local] Arguments inv_lock {s0} m.
#[local] Arguments inv_count {s0} m.
#[local] Arguments inv_pmm {s0} m.
#[local] Arguments inv_stacks {s0} m.
#[local] Arguments inv_kept {s0} m.
#[local] Arguments inv_wait {s0} m.

Hypothesis N_small : Z.of_nat N < 2 ^ 32.

(** The descriptor matters only to the processor that is about to load it. *)
Lemma entry_ok_tss r t t' j c n l : entry_ok r t j c n l -> p_stage c <> AtLtr -> entry_ok r t' j c n l.
Proof. intros [] H. constructor; auto. intros E. done. Qed.

Lemma inv_smp_init_cpu {s0} m m' i : smp_inv s0 m -> smp_init_cpu i m = Some m' -> smp_inv s0 m'.
Proof.
  intros [I1 I2 I3 I4 I5 I6 I7 I8 IK I9] Hs.
  destruct (cpu_shape m m' i Hs I4 I1 I2)
    as (c & n & l & c' & l' & Ec & En & El & Hc & Hn & Hl & Hb & Hp & Hok & Ht & Hr & Hr1 & Hlk & Hlk' & Hin).
  pose proof (countb_range is_up (m_cpus m)) as Rng.
  pose proof (countb_insert holds_gdt _ i c c' Ec) as CL. pose proof (countb_insert is_up _ i c c' Ec) as CU.
  assert (CU' : inited_cpus m' = countb is_up (m_cpus m')).
  { rewrite Hc, CU, Hin, I6. unfold is_up.
    pose proof (countb_range is_up (<[i := c']> (m_cpus m))) as R2. rewrite length_insert, CU in R2. unfold is_up in R2.
    destruct (p_stage c), (p_stage c'); cbn in *; try lia. rewrite locked_inc64_small; unfold is_up in *; lia. }
  constructor; rewrite ?Hn, ?Hl, ?Hb, ?Hp; rewrite ?Hc, ?length_insert; try done.
  - intros j cj nj lj Kc Kn Kl. rewrite Hb. destruct (decide (j = i)) as [->|Hne].
    + rewrite Hc, list_lookup_insert_eq in Kc by (eapply lookup_lt_Some; eauto). injection Kc as <-.
      rewrite Hl, list_lookup_insert_eq in Kl by (eapply lookup_lt_Some; eauto). injection Kl as <-.
      rewrite Hn, En in Kn. injection Kn as <-. done.
    + rewrite Hc, list_lookup_insert_ne in Kc by done. rewrite Hl, list_lookup_insert_ne in Kl by done. rewrite Hn in Kn.
      pose proof (I4 j cj nj lj Kc Kn Kl) as Hj. destruct Ht as [->|Ht]; [done|].
      apply (entry_ok_tss _ (m_gdt_tss m)); [done|]. intros E. apply Hne, (countb_unique holds_gdt (m_cpus m) j i cj c); try done.
      * rewrite I5. destruct (m_gdt_lock m); cbn; lia.
      * unfold holds_gdt. by rewrite E.
      * unfold holds_gdt. by rewrite Ht.
  - rewrite CL, I5, Hlk'. unfold holds_gdt.
    destruct (p_stage c) eqn:E; destruct (p_stage c'); cbn in *; try lia; try (rewrite Hlk by done; reflexivity).
    assert (m_gdt_lock m = true) as ->; [|cbn; lia].
    pose proof (countb_pos holds_gdt _ i c Ec ltac:(unfold holds_gdt; by rewrite E)). destruct (m_gdt_lock m); [done|cbn in *; lia].
  - by rewrite CU', Hc.
  - intros Hret. specialize (I9 Hret). assert (Forall (fun c => is_up c = true) (m_cpus m)) as F by (apply countb_all; lia).
    rewrite Forall_lookup in F. specialize (F i c Ec). unfold is_up in F. destruct (p_stage c); try done. destruct (p_stage c'); done.
Qed.

Lemma inv_loader_jump {s0} m m' i : smp_inv s0 m -> loader_jump i m = Some m' -> smp_inv s0 m'.
Proof.
  intros [I1 I2 I3 I4 I5 I6 I7 I8 IK I9]. unfold loader_jump.
  destruct (m_cpus m !! i) as [c|] eqn:Ec; [|done]. destruct (m_info m !! i) as [n|] eqn:En; [|done]. cbn.
  destruct (decide (p_stage c = Parked)) as [Ep|]; [|done]. destruct (Z.eqb_spec (goto_address n) 0) as [|Hg]; [done|].
  intros [= <-]. set (c' := mk_processor _ _ _ _ _ _ _ _ _ _).
  assert (Ch : holds_gdt c = false) by (unfold holds_gdt; by rewrite Ep). assert (Cu : is_up c = false) by (unfold is_up; by rewrite Ep).
  constructor; cbn; rewrite ?length_insert, ?(countb_insert _ _ i c c' Ec), ?Ch, ?Cu; cbn; rewrite ?Z.sub_0_r, ?Z.add_0_r; try done.
  intros j cj nj lj Kc Kn Kl. cbn in Kc, Kn, Kl |- *. destruct (decide (j = i)) as [->|Hne].
  - rewrite list_lookup_insert_eq in Kc by (eapply lookup_lt_Some; eauto). injection Kc as <-.
    pose proof (I4 i c nj lj Ec Kn Kl) as []. rewrite En in Kn. injection Kn as <-. unfold past in *. rewrite Ep in *. cbn in *.
    assert (lapic_id n <> bsp_lapic_id /\ (5 <= boot_rank (m_boot m) i)%nat) as [Hb H5].
    { split; [intros E; by apply Hg, e_nogoto0; left|]. destruct (Nat.le_gt_cases 5 (boot_rank (m_boot m) i)); [done|].
      exfalso. by apply Hg, e_nogoto0; right. }
    constructor; unfold past; cbn; auto; try done. intros _. split; [lia|by right].
  - rewrite list_lookup_insert_ne in Kc by done. by apply I4.
Qed.

(** [pcalloc(1)] returns a page that was free, or halts when none is. *)
Lemma pcalloc_fresh s : pmm_ready s 1 ->
  match pcalloc 1 s with
  | Done (p, t) => exists i, p = i * PAGE_SIZE /\ 0 <= i < highest_page s / PAGE_SIZE /\ used (bitmap s) i = false /\
      used (bitmap t) i = true /\ (forall c, 0 <= c -> used (bitmap s) c = true -> used (bitmap t) c = true) /\
      highest_page t = highest_page s /\ pmm_ready t 1
  | Halt => forall c, 0 <= c < highest_page s / PAGE_SIZE -> used (bitmap s) c = true
  | Fault | Fuel => False
  end.
Proof.
  intros Hr. pose proof (pmalloc_cases s 1 Hr) as HC.
  pose proof (first_free_spec (bitmap s) (Z.to_nat (highest_page s / PAGE_SIZE)) 0) as HF.
  pose proof (Z.div_pos (highest_page s) PAGE_SIZE (ready_top _ _ Hr) ltac:(done)) as Hd.
  unfold pcalloc. destruct (first_free _ _ _) as [i|].
  - destruct HC as (t & Ht & [F1 F2 F3 F4 F5] & HU). rewrite (bind_run _ _ _ _ _ Ht). cbv beta.
    assert (HR : pmm_ready t 1) by (destruct Hr; constructor; unfold covers in *; rewrite ?F1, ?F3, ?F4; done).
    assert (G : 0 <= i < highest_page s / PAGE_SIZE /\ used (bitmap s) i = false /\ used (bitmap t) i = true /\
      (forall c, 0 <= c -> used (bitmap s) c = true -> used (bitmap t) c = true)).
    { destruct HF as (Hi & Hf & _). split; [lia|]. split; [done|].
      assert (T : used (bitmap t) i = true) by (rewrite HU by lia; by rewrite (proj2 (Z.leb_le _ _)), (proj2 (Z.ltb_lt _ _)) by lia).
      split; [done|]. intros c Hc Hu. rewrite HU by done. by destruct (_ && _). }
    destruct G as (G1 & G2 & G3 & G4). destruct (Z.eqb_spec (i * PAGE_SIZE) 0) as [Ez|_].
    + exists i. by rewrite Ez.
    + erewrite bind_run by reflexivity. cbv beta. exists i. do 6 (split; [done|]). destruct HR. by constructor.
  - unfold mbind, M_bind. rewrite HC. intros c Hc. apply HF. lia.
Qed.

(** Only entry [i] of the three arrays changes, and [init_smp] keeps its rank with the others. *)
Lemma entries_update m m' i b' c' n' l' : entries_ok m ->
  m_cpus m' = <[i := c']> (m_cpus m) -> m_info m' = <[i := n']> (m_info m) -> m_locals m' = <[i := l']> (m_locals m) ->
  m_boot m' = b' -> m_gdt_tss m' = m_gdt_tss m -> length (m_cpus m) = N -> length (m_info m) = N -> length (m_locals m) = N ->
  (forall j, j <> i -> (j < N)%nat -> boot_rank b' j = boot_rank (m_boot m) j) ->
  ((i < N)%nat -> entry_ok (boot_rank b' i) (m_gdt_tss m) i c' n' l') -> entries_ok m'.
Proof.
  intros He Hc Hn Hl Hb Ht Lc Ln Ll Hr Hi j cj nj lj Kc Kn Kl. rewrite Hc in Kc. rewrite Hn in Kn. rewrite Hl in Kl. rewrite Hb, Ht.
  assert (Hj : (j < N)%nat) by (apply lookup_lt_Some in Kc; rewrite length_insert in Kc; lia).
  destruct (decide (j = i)) as [->|Hne].
  - rewrite list_lookup_insert_eq in Kc by lia. rewrite list_lookup_insert_eq in Kn by lia. rewrite list_lookup_insert_eq in Kl by lia. simplify_eq. by apply Hi.
  - rewrite list_lookup_insert_ne in Kc by done. rewrite list_lookup_insert_ne in Kn by done. rewrite list_lookup_insert_ne in Kl by done. rewrite Hr by done. by apply He.
Qed.

Lemma boot_rank_step b b' i j : j <> i ->
  b = AtNumber i /\ b' = AtArg i \/ b = AtArg i /\ (b' = InCall i \/ b' = AtStack i) \/ b = InCall i /\ b' = AtNumber (S i) \/
  b = AtStack i /\ b' = AtGoto i \/ b = AtGoto i /\ b' = AtNumber (S i) -> boot_rank b' j = boot_rank b j.
Proof.
  intros Hne H. assert (E : (j =? i)%nat = false) by (by apply Nat.eqb_neq).
  assert (E2 : b' = AtNumber (S i) -> boot_rank b' j = if (j <? i)%nat then 5%nat else 0%nat).
  { intros ->. unfold boot_rank. destruct (Nat.ltb_spec j (S i)), (Nat.ltb_spec j i), (Nat.eqb_spec j (S i)); try lia. }
  destruct H as [[-> ->]|[[-> [->| ->]]|[[-> ->]|[[-> ->]|[-> ->]]]]]; rewrite ?E2 by done; unfold boot_rank; rewrite E; by destruct (j <? i)%nat.
Qed.

Lemma boot_rank_self i : boot_rank (AtNumber i) i = 0%nat /\ boot_rank (AtArg i) i = 1%nat /\ boot_rank (InCall i) i = 2%nat /\
  boot_rank (AtStack i) i = 3%nat /\ boot_rank (AtGoto i) i = 4%nat /\ boot_rank (AtNumber (S i)) i = 5%nat.
Proof. unfold boot_rank. rewrite Nat.ltb_irrefl, Nat.eqb_refl. by rewrite (proj2 (Nat.ltb_lt i (S i))) by lia. Qed.

Lemma stacks_keep {s0} b b' ns ns' s : stacks_own s0 b ns s ->
  (forall j n', ns' !! j = Some n' -> has_stack b' j n' ->
     exists n, ns !! j = Some n /\ has_stack b j n /\ target_stack n' = target_stack n) -> stacks_own s0 b' ns' s.
Proof.
  intros H K j n' Hj Hs. destruct (K j n' Hj Hs) as (n & Hn & Hst & ->). destruct (H j n Hn Hst) as [H1 H2]. split; [done|].
  intros k nk Hk Hsk E. destruct (K k nk Hk Hsk) as (nk0 & Hn0 & Hst0 & E0). rewrite E0 in E. by apply (H2 k nk0).
Qed.

(** A step at entry [i] that leaves its stack alone. *)
Lemma stacks_step {s0} b b' i ns n n' s : stacks_own s0 b ns s -> ns !! i = Some n ->
  (forall j, j <> i -> boot_rank b' j = boot_rank b j) -> target_stack n' = target_stack n -> lapic_id n' = lapic_id n ->
  ((boot_rank b' i < 4)%nat \/ lapic_id n = bsp_lapic_id \/ (4 <= boot_rank b i)%nat) -> stacks_own s0 b' (<[i := n']> ns) s.
Proof.
  intros H Hi Hr Ht Hl Hc. apply (stacks_keep b _ ns); [done|]. intros j nj Hj [R1 R2]. destruct (decide (j = i)) as [->|Hne].
  - rewrite list_lookup_insert_eq in Hj by (by eapply lookup_lt_Some). injection Hj as <-. exists n. unfold has_stack.
    rewrite Hl in R2. split; [done|]. split; [split; [|done]; destruct Hc as [|[|]]; [lia|done|done]|done].
  - rewrite list_lookup_insert_ne in Hj by done. exists nj. unfold has_stack. by rewrite <- Hr.
Qed.

(** The stack of entry [i] is in the page [q], which was free. *)
Lemma stacks_new {s0} s s' i n q ns : stacks_own s0 (AtStack i) ns s -> ns !! i = Some n ->
  0 <= q < highest_page s / PAGE_SIZE -> pmm_ready s 1 -> used (bitmap s) q = false -> used (bitmap s') q = true ->
  used (bitmap s0) q = false ->
  (forall c, 0 <= c -> used (bitmap s) c = true -> used (bitmap s') c = true) -> highest_page s' = highest_page s ->
  stacks_own s0 (AtGoto i) (<[i := with_target_stack (stack_of q) n]> ns) s'.
Proof.
  intros H Hi Hq [_ _ _ _ Hw] Hf Hu H0 Hkeep Ht.
  assert (Old : forall j n', j <> i -> <[i := with_target_stack (stack_of q) n]> ns !! j = Some n' -> has_stack (AtGoto i) j n' ->
    ns !! j = Some n' /\ has_stack (AtStack i) j n').
  { intros j n' Hne Hj [R1 R2]. rewrite list_lookup_insert_ne in Hj by done. split; [done|]. split; [|done].
    by rewrite <- (boot_rank_step (AtStack i) (AtGoto i) i j) by auto 10. }
  assert (New : forall n', <[i := with_target_stack (stack_of q) n]> ns !! i = Some n' -> target_stack n' = stack_of q).
  { intros n' Hj. rewrite list_lookup_insert_eq in Hj by (by eapply lookup_lt_Some). by injection Hj as <-. }
  assert (Ne : forall j n', ns !! j = Some n' -> has_stack (AtStack i) j n' -> target_stack n' <> stack_of q).
  { intros j n' Hj Hs E. destruct (H j n' Hj Hs) as [(p & Hp & Ep & Hup & _) _]. rewrite E in Ep.
    apply stack_of_inj in Ep; [congruence|unfold PAGE_SIZE in *; lia..]. }
  intros j nj Hj Hs. rewrite Ht. destruct (decide (j = i)) as [->|Hne].
  - split; [exists q; by rewrite (New nj)|]. intros k nk Hk Hsk E. destruct (decide (k = i)) as [->|Hki]; [done|].
    destruct (Old k nk Hki Hk Hsk) as [Hk' Hsk']. exfalso. apply (Ne k nk Hk' Hsk'). by rewrite <- E, (New nj).
  - destruct (Old j nj Hne Hj Hs) as [Hj' Hs']. destruct (H j nj Hj' Hs') as [(p & Hp & Ep & Hup & Hp0) Hd].
    split; [exists p; do 2 (split; [done|]); split; [apply Hkeep; [lia|done]|done]|]. intros k nk Hkk Hsk E. destruct (decide (k = i)) as [->|Hki].
    + exfalso. apply (Ne j nj Hj' Hs'). by rewrite E, (New nk).
    + destruct (Old k nk Hki Hkk Hsk) as [Hk' Hsk']. by apply (Hd k nk).
Qed.

(** [init_smp] is at entry [i] and changes only it: what is left to prove. *)
Lemma inv_boot_step {s0} m m' i c n l c' n' l' : smp_inv s0 m -> m_boot m <> Returned ->
  m_cpus m !! i = Some c -> m_info m !! i = Some n -> m_locals m !! i = Some l ->
  m_cpus m' = <[i := c']> (m_cpus m) -> m_info m' = <[i := n']> (m_info m) -> m_locals m' = <[i := l']> (m_locals m) ->
  holds_gdt c' = holds_gdt c -> is_up c' = is_up c -> m_boot m' <> Returned ->
  m_gdt_tss m' = m_gdt_tss m -> m_gdt_lock m' = m_gdt_lock m -> inited_cpus m' = inited_cpus m ->
  (forall j, j <> i -> boot_rank (m_boot m') j = boot_rank (m_boot m) j) ->
  pmm_ready (m_pmm m') 1 -> stacks_own s0 (m_boot m') (m_info m') (m_pmm m') ->
  (forall p, 0 <= p -> used (bitmap s0) p = true -> used (bitmap (m_pmm m')) p = true) ->
  (entry_ok (boot_rank (m_boot m) i) (m_gdt_tss m) i c n l -> entry_ok (boot_rank (m_boot m') i) (m_gdt_tss m) i c' n' l') ->
  smp_inv s0 m'.
Proof.
  intros [I1 I2 I3 I4 I5 I6 I7 I8 IK I9] Hb Ec En El Hc Hn Hl Hh Hu Hb' Ht Hlk Hin Hr Hp Hs Hk He.
  constructor; rewrite ?Hn, ?Hl; rewrite ?Hc, ?length_insert, ?(countb_insert _ _ i c c' Ec), ?Hh, ?Hu, ?Hlk, ?Hin; try done; try lia.
  - eapply (entries_update m m' i (m_boot m') c' n' l'); eauto.
  - by rewrite <- Hn.
Qed.

Ltac same_entry := by rewrite list_insert_id.
(** The fields of [entry_ok] at the next rank. *)
Ltac rank_fields :=
  intros []; constructor; unfold past in *; cbn in *; intros; use_fields;
  first [assumption|discriminate|lia|by auto|by eauto|naive_solver lia].

Lemma inv_init_smp {s0} m m' : smp_inv s0 m -> init_smp m = Some m' -> smp_inv s0 m'.
Proof.
  intros HI. pose proof HI as [I1 I2 I3 I4 I5 I6 I7 I8 IK I9]. unfold init_smp.
  assert (Look : forall i, (i < N)%nat -> exists c n l, m_cpus m !! i = Some c /\ m_info m !! i = Some n /\ m_locals m !! i = Some l).
  { intros i Hi. destruct (lookup_lt_is_Some_2 (m_cpus m) i ltac:(lia)), (lookup_lt_is_Some_2 (m_info m) i ltac:(lia)),
      (lookup_lt_is_Some_2 (m_locals m) i ltac:(lia)). eauto 10. }
  destruct (m_boot m) as [i|i|i|i|i| |] eqn:Eb; [| | | | | |done].
  all: try destruct (boot_rank_self i) as (R0 & R1 & R2 & R3 & R4 & R5).
  - destruct (Nat.ltb_spec i (length (m_info m))) as [Hi|Hi].
    + destruct (Look i ltac:(lia)) as (c & n & l & Ec & En & El). unfold update_locals. rewrite locals_index_addr. cbn [mbind option_bind].
      rewrite El. intros [= <-]. eapply (inv_boot_step m _ i c n l c n); eauto; cbn; try same_entry; try congruence.
      * intros j Hj. rewrite Eb. apply (boot_rank_step _ _ i); auto.
      * rewrite <- (list_insert_id (m_info m) i n En). eapply stacks_step; eauto; [intros j Hj; apply (boot_rank_step _ _ i); auto|rewrite R1; lia].
      * rewrite Eb. rewrite R0, R1. rank_fields.
    + intros [= <-]. constructor; cbn; try done.
      * intros j c n l Kc Kn Kl. cbn in *. pose proof (I4 j c n l Kc Kn Kl) as H. rewrite Eb in H. unfold boot_rank in *.
        apply lookup_lt_Some in Kn. by rewrite (proj2 (Nat.ltb_lt j i)) in H by lia.
      * apply (stacks_keep (AtNumber i) _ (m_info m)); [done|]. intros j n Hj [_ Hs]. exists n. split; [done|]. split; [|done].
        apply lookup_lt_Some in Hj. split; [|done]. unfold boot_rank. rewrite (proj2 (Nat.ltb_lt j i)) by lia. lia.
  - destruct (m_info m !! i) as [n|] eqn:En; [|done]. destruct (Look i ltac:(apply lookup_lt_Some in En; lia)) as (c & n0 & l & Ec & En0 & El).
    rewrite En in En0. injection En0 as <-. rewrite Ec. unfold update_info. rewrite En. cbn [mbind option_bind].
    assert (Hi : p_stage c = Parked).
    { pose proof (e_run _ _ _ _ _ _ (I4 i c n l Ec En El)) as H. rewrite Eb, R1 in H. unfold past in H.
      destruct (p_stage c); try done; exfalso; cbn in H; destruct (H eq_refl); lia. }
    assert (Hc : holds_gdt (with_stage AtTables c) = holds_gdt c /\ is_up (with_stage AtTables c) = is_up c)
      by (unfold holds_gdt, is_up; by rewrite Hi).
    destruct (Z.eqb_spec (lapic_id n) bsp_lapic_id) as [Hn|Hn]; intros [= <-].
    + eapply (inv_boot_step m _ i c n l (with_stage AtTables c)); eauto; cbn; try same_entry; try congruence; try tauto.
      * intros j Hj. rewrite Eb. apply (boot_rank_step _ _ i); auto.
      * eapply stacks_step; eauto; intros j Hj; apply (boot_rank_step _ _ i); auto 10.
      * rewrite Eb, R1, R2. rank_fields.
    + eapply (inv_boot_step m _ i c n l c); eauto; cbn; try same_entry; try congruence.
      * intros j Hj. rewrite Eb. apply (boot_rank_step _ _ i); auto.
      * eapply stacks_step; eauto; [intros j Hj; apply (boot_rank_step _ _ i); auto 10|rewrite R3; lia].
      * rewrite Eb, R1, R3. rank_fields.
  - destruct (m_cpus m !! i) as [c|] eqn:Ec; [|done]. cbn. destruct (decide (p_stage c = Up)) as [Hu|]; [|done]. intros [= <-].
    destruct (Look i ltac:(apply lookup_lt_Some in Ec; lia)) as (c0 & n & l & Ec0 & En & El). rewrite Ec in Ec0. injection Ec0 as <-.
    pose proof (e_call _ _ _ _ _ _ (I4 i c n l Ec En El)) as Hb. rewrite Eb in Hb. specialize (Hb R2).
    eapply (inv_boot_step m _ i c n l c n l); eauto; cbn; try same_entry; try congruence.
    + intros j Hj. rewrite Eb. apply (boot_rank_step _ _ i); auto 10.
    + rewrite <- (list_insert_id (m_info m) i n En). eapply stacks_step; eauto; intros j Hj; apply (boot_rank_step _ _ i); auto 10.
    + rewrite Eb, R2, R5. rank_fields.
  - pose proof (pcalloc_fresh (m_pmm m) I7) as Hf. destruct (pcalloc 1 (m_pmm m)) as [[p s']| | |]; try done.
    destruct Hf as (q & -> & Hq & Hfr & Hus & Hkeep & Htop & Hr). unfold update_info. cbn.
    destruct (m_info m !! i) as [n|] eqn:En; [|done]. cbn. intros [= <-].
    destruct (Look i ltac:(apply lookup_lt_Some in En; lia)) as (c & n0 & l & Ec & En0 & El). rewrite En in En0. injection En0 as <-.
    pose proof (I4 i c n l Ec En El) as Hok. rewrite Eb, R3 in Hok.
    eapply (inv_boot_step m _ i c n l c _ l); eauto; cbn; try same_entry; try congruence.
    + intros j Hj. rewrite Eb. apply (boot_rank_step _ _ i); auto 10.
    + apply (stacks_new (m_pmm m) _ i n q); auto. destruct (used (bitmap s0) q) eqn:E0; [|done].
      rewrite (IK q) in Hfr by (lia || done). done.
    + rewrite Eb, R3, R4. intros _. assert (Hz : p_stage c = Parked).
      { pose proof (e_run _ _ _ _ _ _ Hok) as H. pose proof (e_other _ _ _ _ _ _ Hok) as H'. unfold past in H.
        destruct (p_stage c); try done; exfalso; cbn in H; destruct (H eq_refl) as [_ [|]]; auto; lia. }
      destruct Hok. constructor; unfold past in *; rewrite Hz in *; cbn in *; intros; use_fields;
        first [assumption|discriminate|lia|by auto|by eauto|naive_solver lia].
  - unfold update_info. destruct (m_info m !! i) as [n|] eqn:En; [|done]. cbn. intros [= <-].
    destruct (Look i ltac:(apply lookup_lt_Some in En; lia)) as (c & n0 & l & Ec & En0 & El). rewrite En in En0. injection En0 as <-.
    eapply (inv_boot_step m _ i c n l c _ l); eauto; cbn; try same_entry; try congruence.
    + intros j Hj. rewrite Eb. apply (boot_rank_step _ _ i); auto 10.
    + eapply stacks_step; eauto; [intros j Hj; apply (boot_rank_step _ _ i); auto 10|rewrite R4; lia].
    + rewrite Eb, R4, R5. rank_fields.
  - destruct (Z.eqb_spec (inited_cpus m) (Z.of_nat (length (m_info m)))) as [E|]; intros [= <-]; [|done].
    constructor; cbn; try done; try congruence. intros j c n l Kc Kn Kl. pose proof (I4 j c n l Kc Kn Kl) as H. by rewrite Eb in H.
Qed.

Lemma inv_start m : smp_start m -> length (m_info m) = N -> smp_inv (m_pmm m) m.
Proof.
  intros [S1 S2 S3 S4 S5 S6 S7 S8] HN. rewrite Forall_lookup in S4. rewrite Forall_lookup in S5.
  assert (Z0 : forall f, (forall c, p_stage c = Parked -> f c = false) -> countb f (m_cpus m) = 0).
  { intros f Hf. clear - S5 Hf. induction (m_cpus m) as [|c cs IH]; [done|]. cbn. rewrite (Hf c) by (by apply (S5 0%nat)).
    cbn. apply IH. intros i d Hd. by apply (S5 (S i)). }
  assert (R0 : forall j, boot_rank (AtNumber 0) j = 0%nat) by (intros [|j]; done).
  constructor; try lia.
  - intros j c n l Kc Kn Kl. rewrite S1, R0. pose proof (S4 j n Kn). pose proof (S5 j c Kc) as P.
    constructor; unfold past; rewrite ?P; cbn; intros; try done; try lia; naive_solver lia.
  - rewrite S6. apply Z0. intros c E. unfold holds_gdt. by rewrite E.
  - rewrite S7. symmetry. apply Z0. intros c E. unfold is_up. by rewrite E.
  - done.
  - intros j n Hj [R _]. rewrite S1, R0 in R. lia.
  - auto.
  - by rewrite S1.
Qed.

Lemma inv_smp_step {s0} m m' : smp_inv s0 m -> smp_step m m' -> smp_inv s0 m'.
Proof. intros H []; [by eapply inv_init_smp|by eapply inv_smp_init_cpu|by eapply inv_loader_jump]. Qed.

Lemma inv_reachable {s0} m m' : smp_inv s0 m -> rtc smp_step m m' -> smp_inv s0 m'.
Proof. intros H R. induction R as [|a b c Hs _ IH]; [done|]. apply IH. by eapply inv_smp_step. Qed.

(** ** Progress *)

(** [init_smp] is at an entry that exists. *)
Definition boot_bound (b : boot_pc) : Prop :=
  match b with
  | AtNumber i => (i <= N)%nat
  | AtArg i | InCall i | AtStack i | AtGoto i => (i < N)%nat
  | AtWait | Returned => True
  end.

Lemma boot_bound_step {s0} m m' : smp_inv s0 m -> boot_bound (m_boot m) -> smp_step m m' -> boot_bound (m_boot m').
Proof.
  intros HI Hb [Hs|i Hs|i Hs].
  - unfold init_smp in Hs. destruct (m_boot m) as [i|i|i|i|i| |] eqn:Eb; cbn in Hb.
    + destruct (Nat.ltb_spec i (length (m_info m))) as [Hi|Hi]; [|by injection Hs as <-].
      destruct (update_locals _ _ _) as [m1|]; [|done]. injection Hs as <-. cbn. rewrite (inv_info m HI) in Hi. lia.
    + destruct (m_info m !! i) as [n|], (m_cpus m !! i) as [c|]; try done. cbn in Hs.
      destruct (update_info _ _ _) as [m1|]; [|done]. cbn in Hs. destruct (lapic_id n =? bsp_lapic_id); by injection Hs as <-.
    + destruct (m_cpus m !! i) as [c|]; [|done]. cbn in Hs. destruct (decide _); [|done]. injection Hs as <-. cbn. lia.
    + destruct (pcalloc _ _) as [[p s']| | |]; try done. destruct (update_info _ _ _); [|done]. by injection Hs as <-.
    + destruct (update_info _ _ _); [|done]. injection Hs as <-. cbn. lia.
    + destruct (inited_cpus m =? _); injection Hs as <-; [done|by rewrite Eb].
    + done.
  - destruct (cpu_shape m m' i Hs (inv_entries m HI) (inv_info m HI) (inv_locals m HI))
      as (c & n & l & c' & l' & _ & _ & _ & _ & _ & _ & Hbt & _). by rewrite Hbt.
  - unfold loader_jump in Hs. destruct (m_cpus m !! i) as [c|], (m_info m !! i) as [n|]; try done. cbn in Hs.
    destruct (decide _); [|done]. destruct (goto_address n =? 0); [done|]. by injection Hs as <-.
Qed.

(** What is left to do: actions of the processors and of [init_smp]. *)
Fixpoint actions_left (cs : list processor) : nat :=
  match cs with [] => 0 | c :: cs' => (12 - stage_rank (p_stage c)) + actions_left cs' end.
Definition boot_left (b : boot_pc) : nat :=
  match b with
  | AtNumber i => 6 * (N - i) + 2 | AtArg i => 6 * (N - i) + 1 | InCall i | AtStack i => 6 * (N - i)
  | AtGoto i => 6 * (N - i) - 1 | AtWait => 1 | Returned => 0
  end.
Definition work_left (m : smp_machine) : nat := actions_left (m_cpus m) + boot_left (m_boot m).

Lemma actions_left_insert cs i c c' : cs !! i = Some c ->
  (actions_left (<[i := c']> cs) + (12 - stage_rank (p_stage c)) = actions_left cs + (12 - stage_rank (p_stage c')))%nat.
Proof.
  revert i. induction cs as [|d cs IH]; intros [|i] H; [done..| |]; cbn [insert list_insert actions_left] in *.
  - injection H as ->. lia.
  - specialize (IH i H). fold (@insert nat processor (list processor) _ i c' cs) in *. unfold insert in *. lia.
Qed.

Lemma countb_exists f cs : 1 <= countb f cs -> exists j c, cs !! j = Some c /\ f c = true.
Proof.
  induction cs as [|c cs IH]; cbn; [lia|]. intros H. destruct (f c) eqn:F; [by exists 0%nat, c|].
  destruct (IH ltac:(cbn in H; lia)) as (j & d & Hj & Hd). by exists (S j), d.
Qed.

Lemma countb_not_all f cs : countb f cs <> Z.of_nat (length cs) -> exists j c, cs !! j = Some c /\ f c = false.
Proof.
  induction cs as [|c cs IH]; [done|]. cbn [countb length]. intros H. destruct (f c) eqn:F; [|by exists 0%nat, c].
  destruct IH as (j & d & Hj & Hd); [cbn [Z.b2z] in H; lia|]. by exists (S j), d.
Qed.

(** The timers run: no processor reads the PIT twice at the same count. *)
Hypothesis pit_runs : forall i, u64 (fst (pit i) - snd (pit i)) <> 0.

Lemma freq_defined i a : exists a', lapic_timer_get_freq (fst (pit i)) (snd (pit i)) a = Some a'.
Proof. unfold lapic_timer_get_freq. pose proof (pit_runs i) as H. apply Z.eqb_neq in H. rewrite H. eauto. Qed.

(** A processor inside [smp_init_cpu] can act, unless it waits for [gdt_lock]. *)
Lemma cpu_enabled_free {s0} m i c : smp_inv s0 m -> m_cpus m !! i = Some c -> (1 <= stage_rank (p_stage c) < 12)%nat ->
  p_stage c <> AtLock \/ m_gdt_lock m = false -> exists m', smp_init_cpu i m = Some m'.
Proof.
  intros [I1 I2 I3 I4 _ _ _ _ _] Ec Hr Hl. unfold smp_init_cpu. rewrite Ec. cbn.
  assert (Hi : (i < N)%nat) by (apply lookup_lt_Some in Ec; lia).
  destruct (lookup_lt_is_Some_2 (m_info m) i ltac:(lia)) as [n En]. destruct (lookup_lt_is_Some_2 (m_locals m) i ltac:(lia)) as [l El].
  rewrite En. cbn. pose proof (I4 i c n l Ec En El) as [].
  destruct (freq_defined i (init_lapic (p_lapic c))) as [a' Ea].
  unfold past, update_locals in *. destruct (p_stage c) eqn:Es; cbn in *; try lia; use_fields; eauto.
  - destruct Hl as [Hl| ->]; [done|eauto].
  - rewrite (proj1 e_locals0), locals_index_addr. cbn. rewrite El. cbn. eauto.
  - rewrite Ea. cbn. rewrite e_gs0, locals_index_addr. cbn. rewrite El. cbn. eauto.
  - rewrite (proj1 e_locals0), locals_index_addr. cbn. rewrite El. cbn. eauto.
Qed.

Lemma cpu_enabled {s0} m i c : smp_inv s0 m -> m_cpus m !! i = Some c -> (1 <= stage_rank (p_stage c) < 12)%nat ->
  exists j m', smp_init_cpu j m = Some m'.
Proof.
  intros HI Ec Hr. destruct (m_gdt_lock m) eqn:El; [|exists i; eapply cpu_enabled_free; eauto].
  pose proof (inv_lock m HI) as HL. rewrite El in HL. destruct (countb_exists holds_gdt (m_cpus m) ltac:(cbn in HL; lia)) as (j & d & Ej & Hd).
  exists j. eapply cpu_enabled_free; eauto; unfold holds_gdt in Hd; destruct (p_stage d); cbn in *; try done; try lia; by left.
Qed.

Lemma cpu_work {s0} m m' i : smp_inv s0 m -> smp_init_cpu i m = Some m' -> (work_left m' < work_left m)%nat.
Proof.
  intros HI Hs. destruct (cpu_shape m m' i Hs (inv_entries m HI) (inv_info m HI) (inv_locals m HI))
    as (c & n & l & c' & l' & Ec & _ & _ & Hc & _ & _ & Hb & _ & _ & _ & Hr & Hr1 & _).
  pose proof (actions_left_insert _ i c c' Ec) as E. unfold work_left. rewrite Hb, Hc.
  assert (stage_rank (p_stage c') <= 12)%nat by (destruct (p_stage c'); cbn; lia). lia.
Qed.

(** All pages are in use while a stack is wanted: [pcalloc] halts the boot processor. *)
Definition out_of_pages (m : smp_machine) : Prop :=
  (exists i, m_boot m = AtStack i) /\ forall p, 0 <= p < highest_page (m_pmm m) / PAGE_SIZE -> used (bitmap (m_pmm m)) p = true.

Lemma smp_progress {s0} m : smp_inv s0 m -> boot_bound (m_boot m) -> m_boot m <> Returned ->
  out_of_pages m \/ exists m', smp_step m m' /\ (work_left m' < work_left m)%nat.
Proof.
  intros HI Hb Hret. pose proof HI as [I1 I2 I3 I4 I5 I6 I7 I8 IK I9].
  assert (Cpu : forall i c, m_cpus m !! i = Some c -> (1 <= stage_rank (p_stage c) < 12)%nat ->
    exists m', smp_step m m' /\ (work_left m' < work_left m)%nat).
  { intros i c Ec Hr. destruct (cpu_enabled m i c HI Ec Hr) as (j & m' & Hs). exists m'. split; [by apply cpu_acts with j|].
    by eapply cpu_work. }
  assert (Look : forall i, (i < N)%nat -> exists c n l, m_cpus m !! i = Some c /\ m_info m !! i = Some n /\ m_locals m !! i = Some l).
  { intros i Hi. destruct (lookup_lt_is_Some_2 (m_cpus m) i ltac:(lia)), (lookup_lt_is_Some_2 (m_info m) i ltac:(lia)),
      (lookup_lt_is_Some_2 (m_locals m) i ltac:(lia)). eauto 10. }
  assert (Boot : forall m', init_smp m = Some m' -> m_cpus m' = m_cpus m -> (boot_left (m_boot m') < boot_left (m_boot m))%nat ->
    exists m', smp_step m m' /\ (work_left m' < work_left m)%nat).
  { intros m' Hs Hc Hl. exists m'. split; [by apply boot_acts|]. unfold work_left. rewrite Hc. lia. }
  unfold init_smp in Boot. destruct (m_boot m) as [i|i|i|i|i| |] eqn:Eb; cbn in Hb; [| | | | | |done].
  2-5: destruct (Look i Hb) as (c & n & l & Ec & En & El).
  - right. destruct (Nat.ltb_spec i (length (m_info m))) as [Hi|Hi].
    + destruct (Look i ltac:(lia)) as (c & n & l & Ec & En & El). eapply Boot.
      * unfold update_locals. rewrite locals_index_addr. cbn. rewrite El. reflexivity.
      * done.
      * cbn. lia.
    + eapply Boot; [reflexivity|done|cbn; lia].
  - right. rewrite En, Ec in Boot. unfold update_info in Boot. rewrite En in Boot. cbn in Boot.
    destruct (lapic_id n =? bsp_lapic_id) eqn:El2; [|eapply Boot; [reflexivity|done|cbn; lia]].
    eexists. split; [apply boot_acts; unfold init_smp; rewrite Eb, En, Ec; cbn; unfold update_info; rewrite En; cbn; rewrite El2; reflexivity|].
    unfold work_left. rewrite Eb. cbn. pose proof (actions_left_insert _ i c (with_stage AtTables c) Ec) as E. cbn in E.
    assert (stage_rank (p_stage c) = 0)%nat; [|lia].
    pose proof (e_run _ _ _ _ _ _ (I4 i c n l Ec En El)) as H. rewrite Eb in H. destruct (boot_rank_self i) as (_ & R1 & _). rewrite R1 in H.
    unfold past in H. destruct (p_stage c); try done; cbn in H; destruct (H eq_refl); lia.
  - right. rewrite Ec in Boot. cbn in Boot. destruct (decide (p_stage c = Up)) as [Hu|Hu]; [eapply Boot; [reflexivity|done|cbn; lia]|].
    apply (Cpu i c Ec). pose proof (I4 i c n l Ec En El) as []. rewrite Eb in *. destruct (boot_rank_self i) as (_ & _ & R2 & _).
    rewrite R2 in *. specialize (e_called0 (e_call0 eq_refl) ltac:(lia)). unfold past in *. destruct (p_stage c); cbn in *; try done; lia.
  - pose proof (pcalloc_fresh (m_pmm m) I7) as Hf. destruct (pcalloc 1 (m_pmm m)) as [[p s']| | |]; try done.
    + right. unfold update_info in Boot. cbn in Boot. rewrite En in Boot. eapply Boot; [reflexivity|done|cbn; lia].
    + left. split; [by exists i|done].
  - right. unfold update_info in Boot. rewrite En in Boot. eapply Boot; [reflexivity|done|cbn; lia].
  - right. destruct (Z.eqb_spec (inited_cpus m) (Z.of_nat (length (m_info m)))) as [E|E]; [eapply Boot; [reflexivity|done|cbn; lia]|].
    destruct (countb_not_all is_up (m_cpus m)) as (i & c & Ec & Hu); [rewrite <- I6; lia|].
    destruct (Look i ltac:(apply lookup_lt_Some in Ec; lia)) as (c0 & n & l & Ec0 & En & El). rewrite Ec in Ec0. injection Ec0 as <-.
    destruct (decide (p_stage c = Parked)) as [Hp|Hp].
    + pose proof (I4 i c n l Ec En El) as []. rewrite Eb in *. unfold boot_rank in *.
      assert (Hbsp : lapic_id n <> bsp_lapic_id) by (intros E2; specialize (e_back0 E2 ltac:(lia)); congruence).
      eexists. split.
      * apply loader_acts with i. unfold loader_jump. rewrite Ec, En. cbn. rewrite decide_True by done.
        rewrite (e_goto0 Hbsp ltac:(lia)). apply Z.eqb_neq in entry_ne. rewrite entry_ne. reflexivity.
      * unfold work_left. cbn. pose proof (actions_left_insert _ i c (mk_processor AtTables (p_sse c) (p_gdt c) (p_idt c) (target_stack n) (p_cr3 c) (p_locals c) (p_tr c) (p_gs c) (p_lapic c)) Ec) as X.
        rewrite Hp in X. cbn in X. lia.
    + apply (Cpu i c Ec). unfold is_up in Hu. destruct (p_stage c); cbn; try done; lia.
Qed.

(** Every step but a turn of the wait loop does some of the work. *)
Lemma smp_step_work {s0} m m' : smp_inv s0 m -> boot_bound (m_boot m) -> smp_step m m' -> m' = m \/ (work_left m' < work_left m)%nat.
Proof.
  intros HI Hb [Hs|i Hs|i Hs]; [|right; by eapply cpu_work|right].
  - unfold init_smp in Hs. unfold work_left. destruct (m_boot m) as [i|i|i|i|i| |] eqn:Eb; cbn in Hb.
    + right. destruct (Nat.ltb_spec i (length (m_info m))) as [Hi|Hi]; [|injection Hs as <-; cbn; lia].
      unfold update_locals in Hs. rewrite locals_index_addr in Hs. cbn in Hs. destruct (m_locals m !! i); [|done].
      injection Hs as <-. cbn. lia.
    + right. destruct (m_info m !! i) as [n|] eqn:En; [|done]. destruct (m_cpus m !! i) as [c|] eqn:Ec; [|done].
      unfold update_info in Hs. rewrite En in Hs. cbn in Hs.
      destruct (lapic_id n =? bsp_lapic_id); injection Hs as <-; cbn; [|lia].
      pose proof (actions_left_insert _ i c (with_stage AtTables c) Ec) as X. cbn in X.
      assert (stage_rank (p_stage c) <= 0)%nat; [|lia].
      destruct (lookup_lt_is_Some_2 (m_locals m) i ltac:(rewrite (inv_locals m HI); lia)) as [l El].
      pose proof (e_run _ _ _ _ _ _ (inv_entries m HI i c n l Ec En El)) as H. rewrite Eb in H.
      destruct (boot_rank_self i) as (_ & R1 & _). rewrite R1 in H. unfold past in H.
      destruct (p_stage c); cbn; try lia; cbn in H; destruct (H eq_refl); lia.
    + right. destruct (m_cpus m !! i) as [c|]; [|done]. cbn in Hs. destruct (decide _); [|done]. injection Hs as <-. cbn. lia.
    + right. destruct (pcalloc _ _) as [[p s']| | |]; try done. unfold update_info in Hs. cbn in Hs.
      destruct (m_info m !! i); [|done]. injection Hs as <-. cbn. lia.
    + right. unfold update_info in Hs. destruct (m_info m !! i); [|done]. injection Hs as <-. cbn. lia.
    + destruct (inited_cpus m =? _); injection Hs as <-; [right; cbn; lia|by left].
    + done.
  - unfold loader_jump in Hs. destruct (m_cpus m !! i) as [c|] eqn:Ec; [|done]. destruct (m_info m !! i) as [n|]; [|done]. cbn in Hs.
    destruct (decide (p_stage c = Parked)) as [Hp|]; [|done]. destruct (goto_address n =? 0); [done|]. injection Hs as <-. unfold work_left. cbn.
    match goal with |- context [<[i := ?d]> _] => pose proof (actions_left_insert _ i c d Ec) as X end. rewrite Hp in X. cbn in X. lia.
Qed.

Lemma bound_reachable {s0} m m' : smp_inv s0 m -> boot_bound (m_boot m) -> rtc smp_step m m' -> boot_bound (m_boot m').
Proof.
  intros H Hb R. induction R as [|a b c Hs _ IH]; [done|]. apply IH; [by eapply inv_smp_step|by eapply boot_bound_step].
Qed.

Lemma runs_to_end {s0} m : smp_inv s0 m -> boot_bound (m_boot m) ->
  exists m', rtc smp_step m m' /\ (m_boot m' = Returned \/ out_of_pages m').
Proof.
  remember (work_left m) as k eqn:Ek. revert m Ek. induction (lt_wf k) as [k _ IH]. intros m -> HI Hb.
  destruct (decide (m_boot m = Returned)) as [|Hr]; [exists m; split; [apply rtc_refl|by left]|].
  destruct (smp_progress m HI Hb Hr) as [Ho|(m1 & Hs & Hl)]; [exists m; split; [apply rtc_refl|by right]|].
  destruct (IH _ Hl m1 eq_refl) as (m2 & R & D); [by eapply inv_smp_step|by eapply boot_bound_step|].
  exists m2. split; [by eapply rtc_l|done].
Qed.

(** What [smp_up_own] says of the stack of a released processor [c]: the page just below the stack
    pointer it started with is the page [p] of the direct map, which was free in [s0] and is
    allocated in [s]. *)
Definition stack_page (s0 s : pmm_state) (c : processor) (p : Z) : Prop :=
  0 <= p < highest_page s / PAGE_SIZE /\ u64 (p_rsp c - PAGE_SIZE) = u64 (p * PAGE_SIZE + PHYS_MEM_OFFSET) /\
  used (bitmap s0) p = false /\ used (bitmap s) p = true.

Lemma stack_page_of s0 m i c n l : smp_inv s0 m -> m_cpus m !! i = Some c -> m_info m !! i = Some n -> m_locals m !! i = Some l ->
  lapic_id n <> bsp_lapic_id -> p_stage c <> Parked ->
  has_stack (m_boot m) i n /\ p_rsp c = target_stack n /\ exists p, stack_page s0 (m_pmm m) c p /\ p_rsp c = stack_of p.
Proof.
  intros HI Ec En El Hn Hc. pose proof (inv_entries m HI i c n l Ec En El) as He.
  assert (G : past 1 c = true) by (unfold past; by destruct (p_stage c)).
  destruct (e_run _ _ _ _ _ _ He G) as [_ [|Hr]]; [done|]. pose proof (e_rsp _ _ _ _ _ _ He Hn G) as Er.
  assert (Hs : has_stack (m_boot m) i n) by (split; [lia|done]).
  destruct (inv_stacks m HI i n En Hs) as [(p & Hp & Ep & Hu & H0) _]. rewrite <- Er in Ep.
  split; [done|]. split; [done|]. exists p. split; [|done]. split; [done|]. split; [|done]. rewrite Ep. unfold stack_of, u64.
  rewrite Zminus_mod_idemp_l. f_equal. lia.
Qed.

(** C15: In every state of every interleaving of [init_smp], the processors it releases and the boot
    loader: a processor that has come through [smp_init_cpu] has its own element of [cpu_locals] in
    GS, the TSS inside that element in its task register and the kernel's page map, its element
    carries its number and local APIC id and is cleared for the scheduler, and the tables are loaded
    on the other processors; the stack of a released processor is a page of its own: the page just
    below the stack pointer it started with was free when [init_smp] began, is allocated, and is not
    the page of any other released processor; [inited_cpus] counts the processors that are up; and
    [init_smp] returns only when all are. *)
Theorem smp_up_own (m0 m : smp_machine) :
  smp_start m0 -> length (m_info m0) = N -> rtc smp_step m0 m ->
  (forall i c n l, m_cpus m !! i = Some c -> m_info m !! i = Some n -> m_locals m !! i = Some l -> p_stage c = Up ->
     p_gs c = locals_addr i /\ p_tr c = locals_addr i + TSS_OFFSET /\ p_cr3 c = kernel_cr3 /\
     lc_cpu_number l = Z.of_nat i /\ fresh_locals n l /\
     (lapic_id n <> bsp_lapic_id -> p_sse c = true /\ p_gdt c = true /\ p_idt c = true)) /\
  (forall i c n, m_cpus m !! i = Some c -> m_info m !! i = Some n -> lapic_id n <> bsp_lapic_id -> p_stage c <> Parked ->
     exists p, stack_page (m_pmm m0) (m_pmm m) c p /\
       forall j d k q, j <> i -> m_cpus m !! j = Some d -> m_info m !! j = Some k -> lapic_id k <> bsp_lapic_id ->
         p_stage d <> Parked -> stack_page (m_pmm m0) (m_pmm m) d q -> p <> q /\ p_rsp c <> p_rsp d) /\
  inited_cpus m = countb is_up (m_cpus m) /\
  (m_boot m = Returned -> Forall (fun c => p_stage c = Up) (m_cpus m)).
Proof.
  intros S0 HN R. pose proof (inv_reachable m0 m (inv_start m0 S0 HN) R) as HI. pose proof HI as [I1 I2 I3 I4 I5 I6 I7 I8 IK I9].
  split; [|split; [|split; [done|]]].
  - intros i c n l Ec En El Hu. pose proof (I4 i c n l Ec En El) as []. unfold past in *. rewrite Hu in *. cbn in *. use_fields.
    destruct e_run0. split_and!; try tauto; apply e_number0; lia.
  - assert (L : forall i c, m_cpus m !! i = Some c -> exists l, m_locals m !! i = Some l).
    { intros i c Ec. destruct (lookup_lt_is_Some_2 (m_locals m) i ltac:(apply lookup_lt_Some in Ec; lia)) as [l El]. eauto. }
    intros i c n Ec En Hn Hc. destruct (L i c Ec) as [l El].
    destruct (stack_page_of _ m i c n l HI Ec En El Hn Hc) as (Hs & Er & p & Hp & Ep). exists p. split; [done|].
    intros j d k q Hne Ed Ek Hk Hd Hq. destruct (L j d Ed) as [l' El'].
    destruct (stack_page_of _ m j d k l' HI Ed Ek El' Hk Hd) as (Hs' & Er' & p' & Hp' & Ep').
    assert (D : p_rsp c <> p_rsp d).
    { intros E. rewrite Er, Er' in E. by apply Hne, eq_sym, (proj2 (I8 i n En Hs) j k Ek). }
    split; [|done]. intros <-. apply D. destruct Hp as (_ & E1 & _), Hq as (_ & E2 & _). rewrite <- E2 in E1.
    rewrite Ep, Ep' in E1 |- *. unfold stack_of, u64 in *. rewrite !Zminus_mod_idemp_l in E1.
    rewrite <- !Z.add_sub_assoc, Z.sub_diag, !Z.add_0_r in E1.
    rewrite <- (Zplus_mod_idemp_l (p * PAGE_SIZE + PHYS_MEM_OFFSET)), <- (Zplus_mod_idemp_l (p' * PAGE_SIZE + PHYS_MEM_OFFSET)).
    by rewrite E1.
  - intros Hr. specialize (I9 Hr). assert (F : Forall (fun c => is_up c = true) (m_cpus m)) by (apply countb_all; lia).
    eapply Forall_impl; [exact F|]. intros c Hc. unfold is_up in Hc. by destruct (p_stage c).
Qed.

(** C16: The start of the other processors ends, when the two readings of the interval timer that each
    processor takes differ (lapic_timer_get_freq divides by the difference).  From every reachable state the machine can run to
    the return of [init_smp], unless memory runs out while a stack is wanted, which halts the boot
    processor; and no run can be longer than the work that is left, but for turns of the wait loop. *)
Theorem smp_comes_up (m0 m : smp_machine) :
  smp_start m0 -> length (m_info m0) = N -> rtc smp_step m0 m ->
  (exists m', rtc smp_step m m' /\ (m_boot m' = Returned \/ out_of_pages m')) /\
  (forall m1, smp_step m m1 -> m1 = m \/ (work_left m1 < work_left m)%nat).
Proof.
  intros S0 HN R. pose proof (inv_start m0 S0 HN) as H0.
  assert (B0 : boot_bound (m_boot m0)) by (rewrite (start_boot m0 S0); cbn; lia).
  pose proof (inv_reachable m0 m H0 R) as HI. pose proof (bound_reachable m0 m H0 B0 R) as HB.
  split; [by eapply runs_to_end|]. intros m1. by eapply smp_step_work.
Qed.

End Smp.

(** ** Three processors, the second of them the boot processor *)

Definition demo_cpu : processor := mk_processor Parked false false false 0 0 0 0 0 (mk_lapic (fun _ => 0) 0).
Definition demo_locals : locals_t := mk_locals 1 1 1 1 [] 1 1.
Definition demo_machine : smp_machine :=
  mk_smp [mk_info 0 4 0 0 0; mk_info 1 5 0 0 0; mk_info 2 6 0 0 0] (replicate 3 demo_locals)
    Pmm.sample_run (AtNumber 0) (replicate 3 demo_cpu) false (set_and_load_tss 0) 0 [].
Definition demo_pit (i : nat) : Z * Z := (1000, 0).
Definition demo_base : Z := 0xffff800000200000.
Definition demo_step : smp_machine -> smp_machine -> Prop := smp_step 5 demo_base 0x3000 0xffffffff80001000 demo_pit.

Lemma demo_start : smp_start demo_machine.
Proof. constructor; try reflexivity; [repeat constructor..|]. constructor; closed_Z. Qed.

(** A schedule: [None] is the boot processor, [Some i] the processor of entry [i] or, while it is
    parked, the boot loader. *)
Definition demo_act (w : option nat) (m : smp_machine) : option smp_machine :=
  match w with
  | None => init_smp 5 demo_base 0xffffffff80001000 m
  | Some i => match loader_jump i m with Some m' => Some m' | None => smp_init_cpu 5 demo_base 0x3000 demo_pit i m end
  end.
Fixpoint demo_run (ws : list (option nat)) (m : smp_machine) : option smp_machine :=
  match ws with [] => Some m | w :: ws' => demo_act w m ≫= demo_run ws' end.

Lemma demo_run_steps ws m m' : demo_run ws m = Some m' -> rtc demo_step m m'.
Proof.
  revert m. induction ws as [|w ws IH]; intros m H; cbn in H; [injection H as ->; apply rtc_refl|].
  destruct (demo_act w m) as [m1|] eqn:E; [|done]. cbn in H. eapply rtc_l; [|by apply IH].
  unfold demo_act in E. destruct w as [i|]; [|by apply boot_acts].
  destruct (loader_jump i m) as [m2|] eqn:L; [injection E as <-; by apply loader_acts with i|by apply cpu_acts with i].
Qed.

(** The first processor comes up while the boot processor initialises itself; then the third. *)
Definition demo_schedule : list (option nat) :=
  replicate 4 None ++ replicate 4 (Some 0%nat) ++ replicate 2 None ++ replicate 2 (Some 1%nat) ++ replicate 8 (Some 0%nat) ++
  replicate 9 (Some 1%nat) ++ replicate 6 None ++ replicate 12 (Some 2%nat) ++ [None].

Lemma demo_returns : exists m, demo_run demo_schedule demo_machine = Some m /\ m_boot m = Returned.
Proof.
  assert (E : m_boot <$> demo_run demo_schedule demo_machine = Some Returned) by (vm_compute; reflexivity).
  destruct (demo_run demo_schedule demo_machine) as [m|]; [|done]. exists m. split; [done|]. by injection E.
Qed.

Lemma smp_up_own_witness : exists m, rtc demo_step demo_machine m /\ m_boot m = Returned /\
  inited_cpus m = countb is_up (m_cpus m) /\ Forall (fun c => p_stage c = Up) (m_cpus m) /\
  exists c p, m_cpus m !! 2%nat = Some c /\ stack_page (m_pmm demo_machine) (m_pmm m) c p.
Proof.
  destruct demo_returns as (m & Hr & Hb). exists m. pose proof (demo_run_steps _ _ _ Hr) as R. split; [done|]. split; [done|].
  destruct (smp_up_own 5 demo_base 0x3000 0xffffffff80001000 demo_pit 3 ltac:(split; vm_compute; discriminate) ltac:(done) ltac:(done)
    demo_machine m demo_start eq_refl R) as (_ & Hs & Hc & Hu). split; [exact Hc|]. split; [exact (Hu Hb)|].
  assert (E : (fun n => lapic_id n) <$> (demo_run demo_schedule demo_machine ≫= fun m => m_info m !! 2%nat) = Some 6) by (vm_compute; reflexivity).
  assert (F : (fun c => p_stage c) <$> (demo_run demo_schedule demo_machine ≫= fun m => m_cpus m !! 2%nat) = Some Up) by (vm_compute; reflexivity).
  rewrite Hr in E, F. cbn in E, F. destruct (m_info m !! 2%nat) as [n|] eqn:En; [|discriminate E]. destruct (m_cpus m !! 2%nat) as [c|] eqn:Ec; [|discriminate F].
  destruct (Hs 2%nat c n Ec En) as (p & Hp & _); [injection E as ->; discriminate|injection F as ->; discriminate|]. exists c, p. split; [reflexivity|exact Hp].
Defined.

Lemma smp_comes_up_witness : exists m', rtc demo_step demo_machine m' /\ (m_boot m' = Returned \/ out_of_pages m').
Proof.
  exact (proj1 (smp_comes_up 5 demo_base 0x3000 0xffffffff80001000 demo_pit 3 ltac:(split; vm_compute; discriminate) ltac:(done) ltac:(done)
    ltac:(intros i; vm_compute; discriminate) demo_machine demo_machine demo_start eq_refl (rtc_refl _ _))).
Defined.
