(* ===== verification/Ports.v ===== *)
(** * Port-mapped devices (src/src/kernel/drivers/serial.c, pit.c, pcspkr.c, ps2.c, apic.c)

    The drivers that only talk to I/O ports.  The state is the sequence of bytes written, with their
    ports, and the number of reads made; what the n-th read returns is a parameter.  A loop that
    waits for a device is cut off by fuel. *)
From S2P Require Import Prelude.

(** The calls of [init_ps2] on the interrupt controller and the handler table (their effect is in
    Interrupts.v). *)
Inductive handler := KbdHandler | MouseHandler.
Inductive irq_call := RedirectIrq (lapic_id irq vect status : Z) | InstallHandler (irq : Z) (h : handler).

Record io := mk_io { io_out : list (Z * Z); io_reads : nat; timer_ticks : Z; io_calls : list irq_call }.
Definition IO := M io.

(** The devices: the value of the n-th read, from the given port. *)
Class Ports := { port_in : nat -> Z -> Z }.

Section Drivers.
Context `{Ports} (fuel : nat).

Definition outb (port val : Z) : IO unit := modify (fun s => mk_io (io_out s ++ [(port, u8 val)]) (io_reads s) (timer_ticks s) (io_calls s)).
Definition irq_call_made (c : irq_call) : IO unit :=
  modify (fun s => mk_io (io_out s) (io_reads s) (timer_ticks s) (io_calls s ++ [c])).
Definition inb (port : Z) : IO Z := fun s =>
  Done (u8 (port_in (io_reads s) port), mk_io (io_out s) (S (io_reads s)) (timer_ticks s) (io_calls s)).

(** [while (test(inb(port)));] *)
Fixpoint wait_while (n : nat) (port : Z) (test : Z -> bool) : IO unit :=
  match n with
  | O => out_of_fuel
  | S n' => v ← inb port; if test v then wait_while n' port test else mret tt
  end.

(** ** serial.c *)

Definition SERIAL_COM1_BASE : Z := 0x3F8.

Definition serial_conf_baud_rate (base divisor : Z) : IO unit :=
  _ ← outb (base + 3) 0x80;
  _ ← outb base (Z.land (Z.shiftr divisor 8) 0xFF);
  outb (base + 1) (Z.land divisor 0xFF).
Definition serial_conf_line (base : Z) : IO unit := outb (base + 3) 0x03.
Definition serial_conf_buff (base : Z) : IO unit := outb (base + 2) 0xC7.
Definition serial_conf_modem (base : Z) : IO unit := outb (base + 4) 0x0B.

Definition serial_init_port (base divisor : Z) : IO Z :=
  _ ← outb (base + 1) 0;
  _ ← serial_conf_baud_rate base divisor;
  _ ← serial_conf_line base;
  _ ← serial_conf_buff base;
  _ ← serial_conf_modem base;
  mret 0.

(** The mask is the decimal 20. *)
Definition fifo_bits (v : Z) : bool := truthy (Z.land v 20).
Definition serial_is_transmit_fifo_empty (base : Z) : IO Z := v ← inb (base + 5); mret (Z.land v 20).

Definition serial_write_byte_port (base byte : Z) : IO unit := outb base byte.

Fixpoint write_bytes (base : Z) (buf : list Z) : IO unit :=
  match buf with [] => mret tt | b :: buf' => _ ← serial_write_byte_port base b; write_bytes base buf' end.

Definition serial_write_port (base : Z) (buf : list Z) : IO unit :=
  _ ← wait_while fuel (base + 5) (fun v => negb (fifo_bits v)); write_bytes base buf.

(** [for (i = 0; buf[i]; i++)]: the bytes up to the terminator. *)
Fixpoint until_nul (buf : list Z) : option (list Z) :=
  match buf with [] => None | b :: buf' => if truthy b then t ← until_nul buf'; Some (b :: t) else Some [] end.
Definition serial_print_port (base : Z) (buf : list Z) : IO unit :=
  _ ← wait_while fuel (base + 5) fifo_bits;
  t ← of_option (until_nul buf);
  write_bytes base t.

Definition init_serial : IO Z := _ ← serial_init_port SERIAL_COM1_BASE 3; mret 0.
Definition serial_puts (buf : list Z) : IO unit := serial_print_port SERIAL_COM1_BASE buf.

(** ** pit.c and pcspkr.c *)

(** Dividing by zero raises an exception. *)
Definition pit_phase (hz : Z) : IO unit :=
  if hz =? 0 then fault else
  let divisor := Z.quot 1193180 hz in
  _ ← outb 0x43 0x36;
  _ ← outb 0x40 (Z.land divisor 0xFF);
  outb 0x40 (Z.shiftr divisor 8).
Definition pit_handler : IO unit := modify (fun s => mk_io (io_out s) (io_reads s) (u64 (timer_ticks s + 1)) (io_calls s)).
(** [while (timer_ticks < rest_ticks);]: the interrupts that arrive while the loop runs. *)
Fixpoint pit_wait (interrupts : list bool) (rest_ticks : Z) : IO unit :=
  t ← gets timer_ticks;
  if t <? rest_ticks then
    match interrupts with
    | [] => out_of_fuel
    | b :: l => _ ← (if b : bool then pit_handler else mret tt); pit_wait l rest_ticks
    end
  else mret tt.
Definition pit_sleep (interrupts : list bool) (ticks : Z) : IO unit :=
  t ← gets timer_ticks; pit_wait interrupts (u64 (t + ticks)).
Definition pit_read_count : IO Z :=
  _ ← outb 0x43 0;
  lo ← inb 0x40;
  hi ← inb 0x40;
  mret (Z.lor (Z.shiftl hi 8) lo).
Definition init_pit : IO Z := _ ← pit_phase 1000; mret 0.

Definition pit_phase_c2 (hz : Z) : IO unit :=
  if hz =? 0 then fault else
  let divisor := 1193180 / hz in
  _ ← outb 0x43 0xB6;
  _ ← outb 0x42 (Z.land (u8 divisor) 0xFF);
  outb 0x42 (Z.land (u8 (Z.shiftr divisor 8)) 0xFF).
Definition pcspkr_tone_on (hz : Z) : IO unit :=
  _ ← pit_phase_c2 hz;
  tmp ← inb 0x61;
  if negb (tmp =? Z.lor tmp 3) then outb 0x61 (Z.lor tmp 3) else mret tt.
Definition pcspkr_tone_off : IO unit :=
  v ← inb 0x61;
  _ ← outb 0x61 (Z.land v 0xFC);
  pit_phase_c2 1.
Definition pcspkr_beep (interrupts : list bool) (mst hz : Z) : IO unit :=
  _ ← pcspkr_tone_on hz; _ ← pit_sleep interrupts mst; pcspkr_tone_off.
Definition init_pcspkr : IO Z := v ← inb 0x61; _ ← outb 0x61 (Z.lor v 1); mret 0.

(** ** apic.c: the old interrupt controllers *)
Definition disable_pic : IO unit := _ ← outb 0xa1 0xff; outb 0x21 0xff.

(** ** ps2.c: the controller *)

Definition PS2_CMD_PORT : Z := 0x64.
Definition PS2_DATA_PORT : Z := 0x60.

Definition ps2_wait_out : IO unit := wait_while fuel PS2_CMD_PORT (fun v => truthy (Z.land v 2)).
Definition ps2_wait_in : IO unit := wait_while fuel PS2_CMD_PORT (fun v => negb (truthy (Z.land v 1))).
Definition ps2_ack : IO unit := wait_while fuel PS2_DATA_PORT (fun v => negb (v =? 0xfa)).
Fixpoint clr_loop (n : nat) : IO unit :=
  match n with
  | O => out_of_fuel
  | S n' => v ← inb PS2_CMD_PORT; if truthy (Z.land v 1) then _ ← inb PS2_DATA_PORT; clr_loop n' else mret tt
  end.
Definition ps2_clr : IO unit := clr_loop fuel.
Definition ps2_port1_write (val : Z) : IO unit := _ ← ps2_wait_out; outb PS2_DATA_PORT val.
Definition ps2_port2_write (val : Z) : IO unit :=
  _ ← ps2_wait_out; _ ← outb PS2_CMD_PORT 0xd4; _ ← ps2_wait_out; outb PS2_DATA_PORT val.
Definition ps2_read : IO Z := _ ← ps2_wait_in; inb PS2_DATA_PORT.

Definition ps2_command (c : Z) : IO unit := _ ← ps2_wait_out; outb PS2_CMD_PORT c.

(** [init_ps2]: up to the installation of the two handlers, the handlers, and after it. *)
Definition init_ps2_controller : IO unit :=
  _ ← ps2_clr;
  _ ← ps2_command 0xad;
  _ ← ps2_command 0xa7;
  _ ← ps2_clr;
  _ ← ps2_command 0x60;
  _ ← ps2_wait_out;
  _ ← outb PS2_DATA_PORT 0x47;
  _ ← ps2_port2_write 0xf6; _ ← ps2_ack;
  _ ← ps2_port2_write 0xf3; _ ← ps2_ack;
  _ ← ps2_port2_write 0x14; _ ← ps2_ack;
  _ ← ps2_port2_write 0xf4; _ ← ps2_ack;
  _ ← ps2_wait_out; _ ← ps2_port1_write 0xf6; _ ← ps2_ack;
  _ ← ps2_wait_out; _ ← ps2_port1_write 0xf4; ps2_ack.
Definition init_ps2_enable : IO unit := _ ← ps2_command 0xae; _ ← ps2_command 0xa8; ps2_clr.
Definition init_ps2_handlers : IO unit :=
  _ ← irq_call_made (RedirectIrq 0 1 33 1);
  _ ← irq_call_made (RedirectIrq 0 12 44 1);
  _ ← irq_call_made (InstallHandler 1 KbdHandler);
  irq_call_made (InstallHandler 12 MouseHandler).
Definition init_ps2 : IO Z := _ ← init_ps2_controller; _ ← init_ps2_handlers; _ ← init_ps2_enable; mret 0.
End Drivers.

(** ** The divisor of the serial port *)

(** A serial port: its line control register and its divisor latch, as the bytes written set them
    (bit 7 of the line control selects the latch). *)
Record uart := mk_uart { line_control : Z; latch_low : Z; latch_high : Z }.
Definition uart_step (base : Z) (u : uart) (w : Z * Z) : uart :=
  let '(port, v) := w in
  if port =? base + 3 then mk_uart v (latch_low u) (latch_high u)
  else if Z.testbit (line_control u) 7 then
    if port =? base then mk_uart (line_control u) v (latch_high u)
    else if port =? base + 1 then mk_uart (line_control u) (latch_low u) v else u
  else u.
Definition uart_divisor (u : uart) : Z := latch_low u + 2 ^ 8 * latch_high u.

Lemma uart_control base u v : uart_step base u (base + 3, v) = mk_uart v (latch_low u) (latch_high u).
Proof. unfold uart_step. by rewrite Z.eqb_refl. Qed.
Lemma uart_low base l c v h :
  Z.testbit c 7 = true -> uart_step base (mk_uart c l h) (base, v) = mk_uart c v h.
Proof. intros Hc. unfold uart_step. rewrite (proj2 (Z.eqb_neq base (base + 3))) by lia. cbn [line_control]. by rewrite Hc, Z.eqb_refl. Qed.
Lemma uart_high base l c v h :
  Z.testbit c 7 = true -> uart_step base (mk_uart c l h) (base + 1, v) = mk_uart c l v.
Proof.
  intros Hc. unfold uart_step. rewrite (proj2 (Z.eqb_neq (base + 1) (base + 3))), (proj2 (Z.eqb_neq (base + 1) base)) by lia.
  cbn [line_control]. by rewrite Hc, Z.eqb_refl.
Qed.
Lemma uart_other base u k v : k <> 0 -> k <> 1 -> k <> 3 -> uart_step base u (base + k, v) = u.
Proof.
  intros H0 H1 H3. unfold uart_step. rewrite (proj2 (Z.eqb_neq _ _)) by lia. destruct (Z.testbit _ 7); [|done].
  by rewrite (proj2 (Z.eqb_neq (base + k) base)), (proj2 (Z.eqb_neq (base + k) (base + 1))) by lia.
Qed.

(** [serial_init_port] sets the serial port up with the two bytes of the divisor exchanged: the
    port's divisor is [divisor / 256 + 256 * (divisor mod 256)]; for the divisor 3 that
    [init_serial] asks for it is 768, 150 baud instead of 38400. *)
Theorem serial_divisor_swapped `{Ports} (base divisor : Z) (s : io) (u : uart) :
  0 <= divisor < 2 ^ 16 ->
  exists s', serial_init_port base divisor s = Done (0, s') /\
    exists w, io_out s' = io_out s ++ w /\
      uart_divisor (fold_left (uart_step base) w u) = divisor / 2 ^ 8 + 2 ^ 8 * (divisor mod 2 ^ 8).
Proof.
  intros Hd. eexists. split; [reflexivity|].
  exists [(base + 1, u8 0); (base + 3, u8 0x80); (base, u8 (Z.land (Z.shiftr divisor 8) 0xFF));
    (base + 1, u8 (Z.land divisor 0xFF)); (base + 3, u8 0x03); (base + 2, u8 0xC7); (base + 4, u8 0x0B)].
  split; [cbn [io_out]; by rewrite <- !app_assoc|].
  cbn [fold_left]. set (u1 := uart_step base u (base + 1, u8 0)). clearbody u1.
  rewrite (uart_other base _ 4), (uart_other base _ 2) by lia. rewrite !uart_control, (uart_low _ _ (u8 128)), (uart_high _ _ (u8 128)) by done. unfold uart_divisor. cbn [latch_low latch_high].
  change 0xFF with (Z.ones 8). rewrite !Z.land_ones, Z.shiftr_div_pow2 by lia.
  assert (D : 0 <= divisor / 2 ^ 8 < 2 ^ 8) by (split; [apply Z.div_pos; lia|apply Z.div_lt_upper_bound; lia]).
  pose proof (Z.mod_pos_bound divisor (2 ^ 8) ltac:(lia)).
  by rewrite (Z.mod_small (divisor / 2 ^ 8)), !u8_small by lia.
Qed.

(** A line that is always idle. *)
#[local] Instance quiet_ports : Ports := {| port_in _ _ := 0 |}.
Definition no_io : io := mk_io [] 0 0 [].

Lemma serial_divisor_swapped_witness :
  exists s', serial_init_port SERIAL_COM1_BASE 3 no_io = Done (0, s') /\
    exists w, io_out s' = io_out no_io ++ w /\ uart_divisor (fold_left (uart_step SERIAL_COM1_BASE) w (mk_uart 0 0 0)) = 768.
Proof. exact (serial_divisor_swapped SERIAL_COM1_BASE 3 no_io (mk_uart 0 0 0) ltac:(lia)). Defined.

(** ** Sleeping *)

(** The number of timer interrupts that arrive. *)
Definition ticks_in (interrupts : list bool) : Z := Z.of_nat (length (filter (fun b => b = true) interrupts)).

Lemma pit_wait_done interrupts goal s :
  0 <= timer_ticks s -> goal < 2 ^ 64 ->
  (is_done (pit_wait interrupts goal s) = true <-> goal <= timer_ticks s + ticks_in interrupts).
Proof.
  revert s. induction interrupts as [|b l IH]; intros s Ht Hg; cbn [pit_wait]; unfold gets at 1, mbind at 1, M_bind at 1;
    destruct (Z.ltb_spec (timer_ticks s) goal) as [L|L].
  - unfold ticks_in. cbn. split; [done|lia].
  - unfold ticks_in. cbn. split; [lia|done].
  - unfold ticks_in in *. rewrite filter_cons. destruct b.
    + rewrite (bind_run _ _ _ _ _ (eq_refl : pit_handler s = _)), IH; cbn [timer_ticks]; rewrite ?u64_small by lia; [|lia|done].
      rewrite decide_True by done. cbn [length]. lia.
    + rewrite (bind_run _ _ _ _ _ (eq_refl : (mret tt : IO unit) s = Done (tt, s))), IH by done.
      by rewrite decide_False by done.
  - split; [|done]. unfold ticks_in. lia.
Qed.

(** [pit_sleep] returns exactly when enough timer interrupts arrive; without any - and
    [init_pit] installs no handler - it never returns for a positive number of ticks. *)
Theorem pit_sleep_waits (interrupts : list bool) (ticks : Z) (s : io) :
  0 <= timer_ticks s -> 0 <= ticks -> timer_ticks s + ticks < 2 ^ 64 ->
  (is_done (pit_sleep interrupts ticks s) = true <-> ticks <= ticks_in interrupts).
Proof.
  intros Ht Hk Hs. unfold pit_sleep, gets, mbind, M_bind. rewrite u64_small by lia.
  rewrite pit_wait_done by lia. lia.
Qed.

Lemma pit_sleep_waits_witness :
  (is_done (pit_sleep [true; false; true] 2 no_io) = true <-> 2 <= ticks_in [true; false; true]) /\
  (is_done (pit_sleep (replicate 100 false) 1 no_io) = true <-> 1 <= ticks_in (replicate 100 false)).
Proof.
  split; [apply (pit_sleep_waits [true; false; true] 2 no_io)|apply (pit_sleep_waits (replicate 100 false) 1 no_io)];
    vm_compute; (discriminate || reflexivity).
Defined.

(** ** The PS/2 controller *)

(** A controller that is always ready and acknowledges everything. *)
#[local] Instance ready_ps2 : Ports := {| port_in _ port := if port =? PS2_DATA_PORT then 0xfa else 0 |}.

(** On such a controller [init_ps2] returns after disabling both ports, writing the configuration,
    resetting and enabling mouse and keyboard, and enabling the ports, in this order, with the lines
    1 and 12 routed to the vectors 33 and 44 and their handlers installed. *)
Theorem init_ps2_sequence :
  match init_ps2 1 no_io with Done (r, s) => Some (r, io_out s, io_calls s) | _ => None end =
  Some (0, [(0x64, 0xad); (0x64, 0xa7); (0x64, 0x60); (0x60, 0x47);
            (0x64, 0xd4); (0x60, 0xf6); (0x64, 0xd4); (0x60, 0xf3); (0x64, 0xd4); (0x60, 0x14); (0x64, 0xd4); (0x60, 0xf4);
            (0x60, 0xf6); (0x60, 0xf4); (0x64, 0xae); (0x64, 0xa8)],
        [RedirectIrq 0 1 33 1; RedirectIrq 0 12 44 1; InstallHandler 1 KbdHandler; InstallHandler 12 MouseHandler]).
Proof. reflexivity. Qed.
