(* ===== verification/Pci.v ===== *)
(** * PCI (src/src/kernel/pci/enumerate.c, utils.c, pci_descriptors.c, include/pci/pci.h)

    The MCFG table gives the windows of the configuration space; enumeration reads the headers of
    all functions there and keeps the present ones.  What the configuration registers do when they
    are read and written is the devices' business: a parameter, the class [ConfigBus]. *)
From Stdlib Require Import String.
From S2P Require Import Prelude Acpi.

(** ** Names (pci_descriptors.c) *)

(** [switch (x)] whose cases all return, with its default. *)
Fixpoint switch {A} (x : Z) (cases : list (Z * A)) (default : A) : A :=
  match cases with
  | [] => default
  | (c, a) :: cases' => if x =? c then a else switch x cases' default
  end.

(** [switch (x)] whose cases may end without returning ([None]) and then fall into the next one. *)
Fixpoint fall_through {A} (cases : list (Z * option A)) (default : A) : A :=
  match cases with
  | [] => default
  | (_, Some a) :: _ => a
  | (_, None) :: cases' => fall_through cases' default
  end.
Fixpoint switch_fall {A} (x : Z) (cases : list (Z * option A)) (default : A) : A :=
  match cases with
  | [] => default
  | (c, o) :: cases' => if x =? c then fall_through cases default else switch_fall x cases' default
  end.

Open Scope string_scope.
Definition pci_device_classes : list string :=
  [
   "Unclassified"; "Mass Storage Controller"; "Network Controller"; "Display Controller";
   "Multimedia Controller"; "Memory Controller"; "Bridge Device"; "Simple Communication Controller";
   "Base System Peripheral"; "Input Device Controller"; "Docking Station"; "Processor";
   "Serial Bus Controller"; "Wireless Controller"; "Intelligent Controller";
   "Satellite Communication Controller"; "Encryption Controller"; "Signal Processing Controller";
   "Processing Accelerator"; "Non Essential Instrumentation"].
Definition pci_get_subclass_name (class subclass : Z) : string :=
  switch class [
    (0, "Unknown");
    (1, switch subclass
      [(0, "SCSI storage controller"); (1, "IDE interface"); (2, "Floppy disk controller");
       (3, "IPI bus controller"); (4, "RAID bus controller"); (5, "ATA controller"); (6, "SATA controller");
       (7, "Serial Attached SCSI controller"); (8, "Non-Volatile memory controller")]
      "Mass Storage Controller");
    (2, switch subclass
      [(0, "Ethernet controller"); (1, "Token ring network controller"); (2, "FDDI network controller");
       (3, "ATM network controller"); (4, "ISDN controller"); (5, "WorldFip controller");
       (6, "PICMG controller"); (7, "Infiniband controller"); (8, "Fabric controller")]
      "Network controller");
    (3, switch subclass
      [(0, "VGA compatible controller"); (1, "XGA compatible controller"); (2, "3D controller")]
      "Display controller");
    (4, switch subclass
      [(0, "Multimedia video controller"); (1, "Multimedia audio controller");
       (2, "Computer telephony device"); (3, "Audio device")]
      "Multimedia controller");
    (5, switch subclass
      [(0, "RAM memory"); (1, "FLASH memory")]
      "Memory controller");
    (6, switch subclass
      [(0, "Host bridge"); (1, "ISA bridge"); (2, "EISA bridge"); (3, "MicroChannel bridge");
       (4, "PCI bridge"); (5, "PCMCIA bridge"); (6, "NuBus bridge"); (7, "CardBus bridge");
       (8, "RACEway bridge"); (9, "Semi-transparent PCI-to-PCI bridge"); (0xa, "InfiniBand to PCI host bridge")]
      "Bridge");
    (7, switch subclass
      [(0, "Serial controller"); (1, "Parallel controller"); (2, "Multiport serial controller"); (3, "Modem");
       (4, "GPIB controller"); (5, "Smard Card controller")]
      "Communication controller");
    (8, switch subclass
      [(0, "PIC"); (1, "DMA controller"); (2, "Timer"); (3, "RTC"); (4, "PCI Hot-plug controller");
       (5, "SD Host controller"); (6, "IOMMU")]
      "System peripheral");
    (9, switch subclass
      [(0, "Keyboard controller"); (1, "Digitizer Pen"); (2, "Mouse controller"); (3, "Scanner controller");
       (4, "Gameport controller")]
      "Input device controller");
    (0xa, switch subclass
      [(0, "Generic Docking Station")]
      "Docking Station");
    (0xb, switch subclass
      [(0, "386"); (1, "486"); (2, "Pentium"); (10, "Alpha"); (20, "Power PC"); (30, "MIPS");
       (40, "Co-processor")]
      "Processor");
    (0xc, switch subclass
      [(0, "FireWire (IEEE 1394)"); (1, "ACCESS Bus"); (2, "SSA"); (3, "USB controller"); (4, "Fibre Channel");
       (5, "SMBus"); (6, "InfiniBand"); (7, "IPMI Interface"); (8, "SERCOS interface"); (9, "CANBUS")]
      "Serial bus controller");
    (0xd, switch subclass
      [(0, "IRDA controller"); (1, "Consumer IR controller"); (10, "RF controller"); (11, "Bluetooth");
       (12, "Broadband"); (20, "802.1a controller"); (21, "802.1b controller")]
      "Wireless controller");
    (0xe, switch subclass
      [(0, "I2O")]
      "Intelligent controller")]
    "Unknown device".
Definition pci_get_vendor_name (vendor_id : Z) : string :=
  switch vendor_id [
    (0x1002, "Advanced Micro Devices (AMD) inc."); (0x1014, "IBM"); (0x10DE, "NVIDIA");
    (0x10ec, "Realtek Semiconductor Co., Ltd."); (0x1234, "Technical Corp.");
    (0x1414, "Microsoft Corporation"); (0x1a58, "Razer USA Ltd."); (0x1AE0, "Google, Inc.");
    (0x1af4, "Red Hat"); (0x168C, "Qualcomm Atheros"); (0x8086, "Intel Corporation");
    (0x80EE, "Oracle Corporation")]
    "Unknown vendor".
Definition pci_get_device_name (vendor_id device_id : Z) : string :=
  switch_fall vendor_id [
    (0x8086, switch device_id
      [(0x100E, Some "Gigabit Ethernet Controller"); (0x153A, Some "Ethernet Connection I217-LM");
       (0x10EA, Some "Gigabit Network Connection")] None);
    (0x10EC, switch device_id [(0x8139, Some "RTL-8100/8101L/8139 PCI Fast Ethernet Adapter")] None);
    (0x1234, switch device_id [(0x1111, Some "QEMU Virtual Video Controller")] None);
    (0x80EE, switch device_id
      [(0xBEEF, Some "VirtualBox Graphics Adapter"); (0xCAFE, Some "VirtualBox Guest Service")] None)]
    "Unknown device".

Close Scope string_scope.

(** ** Data *)

Record pci_header := mk_pci_header {
  vendor_id : Z; device_id : Z; pci_command : Z; pci_status : Z; revision_id : Z; prog_if : Z; subclass : Z; class : Z;
  cache_lsize : Z; latency_timer : Z; header_type : Z; bist : Z }.
Record pci_device := mk_pci_device { header : pci_header; segment : Z; bus : Z; device : Z; function : Z }.
(** The base is [None] where the code leaves it unset. *)
Record pci_bar := mk_pci_bar { bar_base : option Z; bar_size : Z; bar_type : Z }.

Record mcfg_entry := mk_mcfg_entry { base_address : Z; seg_grp : Z; sbus : Z; ebus : Z }.
Definition sizeof_mcfg : Z := 44.
Definition mcfg_entries (m : mem) (mcfg : Z) : Z := u64 (sdt_length m mcfg - sizeof_mcfg) / 16.
Definition mcfg_entry_at (m : mem) (mcfg i : Z) : mcfg_entry :=
  let a := mcfg + sizeof_mcfg + 16 * i in mk_mcfg_entry (ld 8 m a) (ld 2 m (a + 8)) (ld 1 m (a + 10)) (ld 1 m (a + 11)).

(** Registers of 1, 2 or 4 bytes at an address. *)
Class ConfigBus (B : Type) := { cfg_read : nat -> Z -> B -> Z; cfg_write : nat -> Z -> Z -> B -> B }.

(** A line of the log: bus, device, function, and the names printed. *)
Record log_line := mk_log_line { at_bus : Z; at_device : Z; at_function : Z; names : list string }.

Record pci (B : Type) := mk_pci { config : B; pci_devices : list pci_device; pci_log : list log_line }.
Arguments mk_pci {B}.
Arguments config {B}.
Arguments pci_devices {B}.
Arguments pci_log {B}.

Section Pci.
Context {B : Type} `{ConfigBus B} (m : mem) (mcfg : Z).
Definition P := M (pci B).

(** ** Enumeration (enumerate.c) *)

Definition read_pci_header (a : Z) (b : B) : pci_header :=
  let r8 o := u8 (cfg_read 1 (a + o) b) in let r16 o := u16 (cfg_read 2 (a + o) b) in
  mk_pci_header (r16 0) (r16 2) (r16 4) (r16 6) (r8 8) (r8 9) (r8 10) (r8 11) (r8 12) (r8 13) (r8 14) (r8 15).
Definition absent (h : pci_header) : bool := negb (truthy (device_id h)) || (device_id h =? 0xFFFF).

Definition describe (class_name : string) (d : pci_device) : log_line :=
  mk_log_line (bus d) (device d) (function d)
    [pci_get_vendor_name (vendor_id (header d)); class_name;
     pci_get_subclass_name (class (header d)) (subclass (header d));
     pci_get_device_name (vendor_id (header d)) (device_id (header d))].

(** Indexing [pci_device_classes] past its end is a fault. *)
Definition pci_enumerate_fn (device_address bus device function : Z) : P unit :=
  let function_address := u64 (device_address + Z.shiftl function 12) in
  pci_fn ← gets (fun s => read_pci_header function_address (config s));
  if absent pci_fn then mret tt
  else
    class_name ← of_option (pci_device_classes !! Z.to_nat (class pci_fn));
    let dev := mk_pci_device pci_fn 0 (u32 bus) device function in
    modify (fun s => mk_pci (config s) (pci_devices s ++ [dev])%list (pci_log s ++ [describe class_name dev])%list).

Definition pci_enumerate_dev (bus_address bus device : Z) : P unit :=
  let device_address := u64 (bus_address + Z.shiftl device 15) in
  pci_device ← gets (fun s => read_pci_header device_address (config s));
  if absent pci_device then mret tt
  else if truthy (Z.land (header_type pci_device) 0x7f) then mret tt
  else
    let functions := if truthy (Z.land (header_type pci_device) (Z.shiftl 1 7)) then 8%nat else 1%nat in
    for_n functions 0 (fun function => pci_enumerate_fn device_address bus device function).

Definition pci_enumerate_bus (base_address bus : Z) : P unit :=
  let bus_address := u64 (base_address + Z.shiftl bus 20) in
  pci_bus ← gets (fun s => read_pci_header bus_address (config s));
  if absent pci_bus then mret tt
  else for_n 32 0 (fun device => pci_enumerate_dev bus_address bus device).

Definition enumerate_entry (t : Z) : P unit :=
  let e := mcfg_entry_at m mcfg t in
  for_n (Z.to_nat (ebus e - sbus e)) (sbus e) (fun bus => pci_enumerate_bus (u64 (base_address e + PHYS_MEM_OFFSET)) bus).
Definition enumerate_all : P Z :=
  if mcfg =? 0 then mret 1
  else _ ← for_n (Z.to_nat (mcfg_entries m mcfg)) 0 enumerate_entry; mret 0.

(** ** Access (utils.c) *)

Fixpoint entry_loop (n : nat) (segment bus i : Z) : option mcfg_entry :=
  match n with
  | O => None
  | S n' =>
      let e := mcfg_entry_at m mcfg i in
      if (seg_grp e =? segment) && (sbus e <=? bus) && (bus <=? ebus e) then Some e else entry_loop n' segment bus (i + 1)
  end.
Definition get_entry (segment bus : Z) : option mcfg_entry := entry_loop (Z.to_nat (mcfg_entries m mcfg)) segment bus 0.
Definition get_device_addr (entry : mcfg_entry) (bus device function : Z) : Z :=
  u64 (base_address entry + PHYS_MEM_OFFSET +
       Z.lor (Z.lor (Z.shiftl (bus - sbus entry) 20) (Z.shiftl device 15)) (Z.shiftl function 12)).
(** The address of a register; no window is a NULL dereference. *)
Definition register_addr (dev : pci_device) (offset : Z) : P Z :=
  e ← of_option (get_entry (segment dev) (u8 (bus dev)));
  mret (u64 (get_device_addr e (u8 (bus dev)) (device dev) (function dev) + u16 offset)).

Definition pci_read (n : nat) (dev : pci_device) (offset : Z) : P Z :=
  a ← register_addr dev offset; gets (fun s => cfg_read n a (config s) mod 2 ^ (8 * Z.of_nat n)).
Definition pci_write (n : nat) (dev : pci_device) (offset data : Z) : P unit :=
  a ← register_addr dev offset;
  modify (fun s => mk_pci (cfg_write n a (data mod 2 ^ (8 * Z.of_nat n)) (config s)) (pci_devices s) (pci_log s)).
Definition pci_read_8 : pci_device -> Z -> P Z := pci_read 1.
Definition pci_read_16 : pci_device -> Z -> P Z := pci_read 2.
Definition pci_read_32 : pci_device -> Z -> P Z := pci_read 4.
Definition pci_write_8 : pci_device -> Z -> Z -> P unit := pci_write 1.
Definition pci_write_16 : pci_device -> Z -> Z -> P unit := pci_write 2.
Definition pci_write_32 : pci_device -> Z -> Z -> P unit := pci_write 4.

(** [bar.base], by the kind of the register. *)
Definition pci_bar_base (dev : pci_device) (bar_val : Z) : P (option Z) :=
  if truthy (Z.land bar_val 1) then mret (Some (Z.land bar_val 0xfffffffc))
  else
    let bitness := Z.land (Z.shiftr bar_val 1) 3 in
    if bitness =? 1 then mret (Some (Z.land bar_val 0xfff0))
    else if bitness =? 0 then mret (Some (Z.land bar_val 0xfffffff0))
    else if bitness =? 2 then
      hi ← pci_read_32 dev (u32 (0x10 + bar_val * 4 + 4));
      mret (Some (Z.lor (Z.shiftl hi 32) (Z.land bar_val 0xfffffff0)))
    else mret None.

Definition pci_get_bar (dev : pci_device) (barno : Z) : P pci_bar :=
  bar_val ← pci_read_32 dev (0x10 + barno * 4);
  let type := Z.land bar_val 1 in
  base ← pci_bar_base dev bar_val;
  _ ← pci_write_32 dev (0x10 + barno * 4) 0xffffffff;
  size ← pci_read_32 dev (0x10 + barno * 4);
  let size := Z.land size (if truthy type then 0xfffffffc else 0xfffffff0) in
  let size := u64 (Z.lnot size + 1) in
  _ ← pci_write_32 dev (0x10 + barno * 4) bar_val;
  mret (mk_pci_bar base size type).
End Pci.

(** [pci_enumerate]: the table, then its windows. *)
Definition pci_enumerate {B} `{ConfigBus B} (m : mem) (x : acpi) : M (pci B) Z :=
  enumerate_all m (acpi_get_table m x [77; 67; 70; 71] 0).

(** ** What enumeration finds *)

Section Found.
Context {B : Type} `{ConfigBus B} (b : B).

(** The functions of a device, of a bus and of the buses of a window, read off the headers. *)
Definition function_at (device_address bus device function : Z) : pci_device :=
  mk_pci_device (read_pci_header (u64 (device_address + Z.shiftl function 12)) b) 0 (u32 bus) device function.
Definition functions_in (device_address bus device : Z) (n : nat) : list pci_device :=
  filter (fun d => absent (header d) = false) (function_at device_address bus device <$> seqZ 0 (Z.of_nat n)).
Definition device_functions (bus_address bus device : Z) : list pci_device :=
  let a := u64 (bus_address + Z.shiftl device 15) in let h := read_pci_header a b in
  if absent h || truthy (Z.land (header_type h) 0x7f) then []
  else functions_in a bus device (if Z.testbit (header_type h) 7 then 8 else 1).
Definition bus_functions (base bus : Z) : list pci_device :=
  let a := u64 (base + Z.shiftl bus 20) in
  if absent (read_pci_header a b) then [] else mjoin (device_functions a bus <$> seqZ 0 32).
Definition window_functions (m : mem) (mcfg t : Z) : list pci_device :=
  let e := mcfg_entry_at m mcfg t in
  mjoin (bus_functions (u64 (base_address e + PHYS_MEM_OFFSET)) <$> seqZ (sbus e) (ebus e - sbus e)).
Definition all_functions (m : mem) (mcfg : Z) : list pci_device :=
  mjoin (window_functions m mcfg <$> seqZ 0 (mcfg_entries m mcfg)).

Definition known_class (d : pci_device) : Prop := class (header d) < 20.
Definition class_name (d : pci_device) : string := default EmptyString (pci_device_classes !! Z.to_nat (class (header d))).
(** The state after the functions [l] were found. *)
Definition found_functions (l : list pci_device) (s : pci B) : pci B :=
  mk_pci (config s) (pci_devices s ++ l) (pci_log s ++ ((fun d => describe (class_name d) d) <$> l)).

Lemma found_nil s : found_functions [] s = s.
Proof. destruct s. unfold found_functions. cbn. by rewrite !app_nil_r. Qed.
Lemma found_app l1 l2 s : found_functions l2 (found_functions l1 s) = found_functions (l1 ++ l2) s.
Proof. unfold found_functions. cbn. by rewrite fmap_app, !app_assoc. Qed.
Lemma found_config l s : config (found_functions l s) = config s.
Proof. done. Qed.

Lemma mjoin_cons {A} (x : list A) (l : list (list A)) : mjoin (x :: l) = x ++ mjoin l.
Proof. done. Qed.

(** A loop whose iterations each find some functions finds them all, in order. *)
Lemma for_n_found (f : Z -> list pci_device) (body : Z -> M (pci B) unit) n i s :
  config s = b -> Forall known_class (mjoin (f <$> seqZ i (Z.of_nat n))) ->
  (forall j t, config t = b -> Forall known_class (f j) -> body j t = Done (tt, found_functions (f j) t)) ->
  for_n n i body s = Done (tt, found_functions (mjoin (f <$> seqZ i (Z.of_nat n))) s).
Proof.
  revert i s. induction n as [|n IH]; intros i s Hc Hk Hb.
  - cbn. by rewrite found_nil.
  - rewrite seqZ_cons in Hk |- * by lia. replace (Z.pred (Z.of_nat (S n))) with (Z.of_nat n) in * by lia.
    rewrite fmap_cons, mjoin_cons in Hk |- *. apply Forall_app in Hk as [Hk1 Hk2]. cbn [for_n].
    rewrite (bind_run _ _ _ _ _ (Hb i s Hc Hk1)). replace (Z.succ i) with (i + 1) in * by lia.
    rewrite IH by done. by rewrite found_app.
Qed.

Lemma enumerate_fn_found a bus device function s :
  config s = b -> let l := filter (fun d => absent (header d) = false) [function_at a bus device function] in
  Forall known_class l -> pci_enumerate_fn a bus device function s = Done (tt, found_functions l s).
Proof.
  intros Hc l Hk. unfold pci_enumerate_fn, gets, mbind, M_bind. rewrite Hc. subst l. rewrite filter_cons in Hk |- *.
  cbn [filter list_filter] in *. unfold function_at in *. cbn [header] in *. set (h := read_pci_header _ _) in *.
  destruct (absent h) eqn:E; [by rewrite found_nil|]. cbn in Hk. apply Forall_inv in Hk. unfold known_class in Hk. cbn in Hk.
  destruct (pci_device_classes !! Z.to_nat (class h)) as [c|] eqn:Ec.
  - unfold of_option, modify, found_functions, class_name. cbn [config pci_devices pci_log fmap list_fmap header decide].
    rewrite decide_True by done. cbn [fmap list_fmap header]. by rewrite Ec.
  - apply lookup_ge_None in Ec. cbn in Ec. lia.
Qed.

Lemma enumerate_dev_found a bus device s :
  config s = b -> Forall known_class (device_functions a bus device) ->
  pci_enumerate_dev a bus device s = Done (tt, found_functions (device_functions a bus device) s).
Proof.
  intros Hc Hk. unfold pci_enumerate_dev, gets. unfold mbind at 1, M_bind at 1. rewrite Hc. unfold device_functions in *.
  set (d := u64 (a + _)) in *. set (h := read_pci_header d b) in *. destruct (absent h); [by rewrite found_nil|].
  destruct (truthy (Z.land (header_type h) 127)); cbn [orb] in *; [by rewrite found_nil|].
  assert (Eb : truthy (Z.land (header_type h) (Z.shiftl 1 7)) = Z.testbit (header_type h) 7).
  { change (Z.shiftl 1 7) with (2 ^ 7). unfold truthy. destruct (Z.testbit (header_type h) 7) eqn:E.
    - apply negb_true_iff, Z.eqb_neq. intros E0. apply (f_equal (fun x => Z.testbit x 7)) in E0. rewrite Z.land_spec, E in E0. done.
    - apply negb_false_iff, Z.eqb_eq, Z.bits_inj'. intros k Hk0. rewrite Z.land_spec, testbit_pow2_eqb, Z.bits_0 by lia.
      destruct (Z.eqb_spec k 7) as [->|]; [by rewrite E|by rewrite andb_false_r]. }
  rewrite Eb. set (n := if Z.testbit (header_type h) 7 then 8%nat else 1%nat) in *. unfold functions_in in *.
  assert (Ef : forall l, filter (fun d => absent (header d) = false) (function_at d bus device <$> l) =
    mjoin ((fun f => filter (fun d => absent (header d) = false) [function_at d bus device f]) <$> l)).
  { induction l as [|f l IH]; [done|]. rewrite !fmap_cons, mjoin_cons, <- IH, !filter_cons.
    by destruct (decide _). }
  rewrite Ef in Hk |- *. rewrite (for_n_found (fun f => filter (fun d => absent (header d) = false) [function_at d bus device f])); try done.
  intros. by apply enumerate_fn_found.
Qed.

Lemma enumerate_bus_found base bus s :
  config s = b -> Forall known_class (bus_functions base bus) ->
  pci_enumerate_bus base bus s = Done (tt, found_functions (bus_functions base bus) s).
Proof.
  intros Hc Hk. unfold pci_enumerate_bus, gets. unfold mbind at 1, M_bind at 1. rewrite Hc. unfold bus_functions in *.
  destruct (absent _); [by rewrite found_nil|].
  rewrite (for_n_found (device_functions (u64 (base + Z.shiftl bus 20)) bus)); try done. intros. by apply enumerate_dev_found.
Qed.

Lemma enumerate_window_found m mcfg t s :
  config s = b -> Forall known_class (window_functions m mcfg t) ->
  enumerate_entry m mcfg t s = Done (tt, found_functions (window_functions m mcfg t) s).
Proof.
  intros Hc Hk. unfold enumerate_entry, window_functions in *. set (e := mcfg_entry_at m mcfg t) in *.
  destruct (Z.le_gt_cases (ebus e) (sbus e)) as [L|L].
  - rewrite (seqZ_nil _ (ebus e - sbus e)), Z2Nat.nonpos by lia. cbn. by rewrite found_nil.
  - assert (En : ebus e - sbus e = Z.of_nat (Z.to_nat (ebus e - sbus e))) by lia.
    rewrite En in Hk |- *. rewrite Nat2Z.id.
    rewrite (for_n_found (bus_functions (u64 (base_address e + PHYS_MEM_OFFSET)))); try done.
    + intros. by apply enumerate_bus_found.
Qed.
End Found.

(** [pci_enumerate] finds exactly the functions that are present in the windows of the MCFG, in
    order of window, bus, device and function: on every bus below [ebus] whose first device is
    there, of every device with an ordinary header, function 0 or all eight - as long as their class
    has a name.  Without an MCFG it reports failure and finds none. *)
Theorem enumerate_finds {B : Type} `{ConfigBus B} (m : mem) (x : acpi) (s : pci B) :
  let mcfg := acpi_get_table m x [77; 67; 70; 71] 0 in
  Forall known_class (all_functions (config s) m mcfg) ->
  pci_enumerate m x s =
    (if mcfg =? 0 then Done (1, s) else Done (0, found_functions (all_functions (config s) m mcfg) s)).
Proof.
  intros mcfg Hk. unfold pci_enumerate, enumerate_all. fold mcfg. destruct (mcfg =? 0); [done|]. unfold all_functions in *.
  assert (En : mcfg_entries m mcfg = Z.of_nat (Z.to_nat (mcfg_entries m mcfg))).
  { symmetry. apply Z2Nat.id, Z.div_pos; [apply Z.mod_pos_bound|]; lia. }
  rewrite En in Hk |- *. rewrite Nat2Z.id.
  erewrite bind_run; [reflexivity|]. rewrite (for_n_found (config s) (window_functions (config s) m mcfg)); try done.
  intros. by apply enumerate_window_found.
Qed.

(** A root table that lists an MCFG with one window, of buses 0 and 1 (of which 1 is the last), and a
    configuration space with a network card with two functions as device 0 of bus 0. *)
Definition small_mcfg : Z := PHYS_MEM_OFFSET + 0x2000.
Definition pci_tables : mem :=
  let r := PHYS_MEM_OFFSET + 0x1000 in let t := small_mcfg in
  st 4 (r + 4) 40 (st 4 (r + 36) 0x2000 (st 4 t 0x4746434D (st 4 (t + 4) 60 (st 1 (t + 9) 198
    (st 8 (t + 44) 0xE0000000 (st 1 (t + 55) 1 (fun _ => 0))))))).
#[local] Instance byte_bus : ConfigBus mem := {| cfg_read n a b := ld n b a; cfg_write n a v b := st n a v b |}.
Definition two_functions : mem :=
  let d := PHYS_MEM_OFFSET + 0xE0000000 in
  st 4 d 0x100E8086 (st 4 (d + 8) 0x02000000 (st 1 (d + 14) 0x80 (st 4 (d + 0x3000) 0x100E8086 (st 4 (d + 0x3008) 0x02000000 (fun _ => 0))))).

Lemma enumerate_finds_witness :
  match pci_enumerate pci_tables small_acpi (mk_pci two_functions [] []) with
  | Done (r, s) => Some (r, (fun d => (bus d, device d, function d)) <$> pci_devices s)
  | _ => None
  end = Some (0, [(0, 0, 0); (0, 0, 3)]).
Proof.
  rewrite (enumerate_finds pci_tables small_acpi (mk_pci two_functions [] [])); [vm_compute; reflexivity|].
  vm_compute. repeat constructor.
Defined.

(** A present function of a class past the end of [pci_device_classes] is read out of bounds. *)
Theorem unknown_class_faults {B : Type} `{ConfigBus B} (device_address bus device function : Z) (s : pci B) :
  let h := read_pci_header (u64 (device_address + Z.shiftl function 12)) (config s) in
  absent h = false -> 20 <= class h -> pci_enumerate_fn device_address bus device function s = Fault.
Proof.
  intros h Ha Hc. unfold pci_enumerate_fn, gets, mbind, M_bind. fold h. rewrite Ha.
  assert (E : pci_device_classes !! Z.to_nat (class h) = None) by (apply lookup_ge_None; change (length pci_device_classes) with 20%nat; lia).
  by rewrite E.
Qed.

Lemma unknown_class_faults_witness :
  pci_enumerate_fn 0 0 0 0 (mk_pci (st 4 0 0x12345678 (st 1 11 0x40 (fun _ => 0))) [] []) = Fault.
Proof. apply unknown_class_faults; [reflexivity|vm_compute; discriminate]. Defined.

(** The device names of Intel fall through to those of Realtek. *)
Theorem device_name_falls : pci_get_device_name 0x8086 0x8139 = pci_get_device_name 0x10EC 0x8139.
Proof. reflexivity. Qed.

(** ** Enumeration and access use the same addresses only in windows that start at bus 0 *)

Lemma lor_add x y k : 0 <= k -> 0 <= y < 2 ^ k -> Z.lor (Z.shiftl x k) y = Z.shiftl x k + y.
Proof.
  intros Hk Hy. rewrite <- Z.add_lor_land. enough (Z.land (Z.shiftl x k) y = 0) by lia.
  apply Z.bits_inj'. intros i Hi. rewrite Z.land_spec, Z.bits_0, Z.shiftl_spec by lia.
  destruct (Z.le_gt_cases k i); [rewrite (testbit_small y k) by lia; apply andb_false_r|rewrite Z.testbit_neg_r by lia; done].
Qed.

(** for a device found in a window, the address that the accessors use is the one enumeration
    used, less the first bus of the window: the two agree exactly for windows that start at bus 0. *)
Theorem accessors_agree (e : mcfg_entry) (bus device function : Z) :
  sbus e <= bus < 256 -> 0 <= sbus e -> 0 <= device < 32 -> 0 <= function < 8 ->
  let enumerated :=
    u64 (u64 (u64 (u64 (base_address e + PHYS_MEM_OFFSET) + Z.shiftl bus 20) + Z.shiftl device 15) + Z.shiftl function 12) in
  get_device_addr e bus device function = u64 (enumerated - Z.shiftl (sbus e) 20) /\
  (get_device_addr e bus device function = enumerated <-> sbus e = 0).
Proof.
  intros Hb Hs Hd Hf enumerated.
  assert (E : get_device_addr e bus device function =
    u64 (base_address e + PHYS_MEM_OFFSET + ((bus - sbus e) * 2 ^ 20 + device * 2 ^ 15 + function * 2 ^ 12))).
  { unfold get_device_addr. rewrite <- Z.lor_assoc.
    rewrite (lor_add device), (lor_add (bus - sbus e)) by (rewrite ?Z.shiftl_mul_pow2; lia).
    rewrite !Z.shiftl_mul_pow2 by lia. f_equal. lia. }
  assert (E' : enumerated = u64 (base_address e + PHYS_MEM_OFFSET + (bus * 2 ^ 20 + device * 2 ^ 15 + function * 2 ^ 12))).
  { subst enumerated. rewrite !Z.shiftl_mul_pow2 by lia. set (X := base_address e + PHYS_MEM_OFFSET).
    rewrite (u64_add_l X), (u64_add_l (X + _)), (u64_add_l (X + _ + _)). f_equal. lia. }
  rewrite E, E', Z.shiftl_mul_pow2 by lia. set (X := base_address e + PHYS_MEM_OFFSET).
  split; [unfold u64; rewrite Zminus_mod_idemp_l; f_equal; lia|].
  split; [|intros E0; rewrite E0; f_equal; lia].
  unfold u64. intros Em.
  set (p := X + ((bus - sbus e) * 2 ^ 20 + device * 2 ^ 15 + function * 2 ^ 12)) in *.
  replace (X + (bus * 2 ^ 20 + device * 2 ^ 15 + function * 2 ^ 12)) with (p + sbus e * 2 ^ 20) in Em by (subst p; lia).
  pose proof (Z.div_mod p (2 ^ 64) ltac:(lia)). pose proof (Z.div_mod (p + sbus e * 2 ^ 20) (2 ^ 64) ltac:(lia)).
  assert (0 <= sbus e * 2 ^ 20 < 2 ^ 64) by lia.
  assert ((p + sbus e * 2 ^ 20) / 2 ^ 64 = p / 2 ^ 64) by nia. lia.
Qed.

Lemma accessors_agree_witness :
  get_device_addr (mk_mcfg_entry 0xE0000000 0 0 255) 3 2 1 = PHYS_MEM_OFFSET + 0xE0311000.
Proof.
  rewrite (proj2 (proj2 (accessors_agree (mk_mcfg_entry 0xE0000000 0 0 255) 3 2 1 ltac:(cbn; lia) ltac:(cbn; lia) ltac:(lia) ltac:(lia)))); reflexivity.
Defined.

(** ** Base address registers *)

Section Bar.
Context (fixed : Z -> Z).

(** Registers whose [fixed a] low bits ignore writes, as those of a base address register of size
    [2 ^ fixed a] do. *)
Definition set_register (a v : Z) (b : Z -> Z) : Z -> Z := fun x =>
  if x =? a then v - v mod 2 ^ fixed a + b a mod 2 ^ fixed a else b x.
#[local] Instance fixed_registers : ConfigBus (Z -> Z) :=
  {| cfg_read _ a b := b a; cfg_write _ a v b := set_register a v b |}.

Lemma land_high x n : 0 <= x < 2 ^ 32 -> 0 <= n <= 32 -> Z.land x (2 ^ 32 - 2 ^ n) = x - x mod 2 ^ n.
Proof.
  intros Hx Hn. assert (0 < 2 ^ n <= 2 ^ 32) by (split; [lia|apply Z.pow_le_mono_r; lia]).
  assert (E : 2 ^ 32 - 2 ^ n = Z.land (Z.ones 32) (Z.lnot (2 ^ n - 1))).
  { rewrite pow2_ones_land, Z.ones_equiv by lia. replace (Z.pred (2 ^ 32)) with ((2 ^ n - 1) + (2 ^ (32 - n) - 1) * 2 ^ n).
    - rewrite Z.mod_add, Z.mod_small by lia. replace (2 ^ 32) with (2 ^ (32 - n) * 2 ^ n); [lia|]. rewrite <- Z.pow_add_r by lia. f_equal. lia.
    - replace (2 ^ 32) with (2 ^ (32 - n) * 2 ^ n); [lia|]. rewrite <- Z.pow_add_r by lia. f_equal. lia. }
  rewrite E, Z.land_assoc, Z.land_ones, Z.mod_small by lia. apply pow2_ones_land. lia.
Qed.

Lemma land_flags x : 0 <= x < 2 ^ 32 -> Z.land x 0xfffffff0 = x - x mod 16.
Proof. intros Hx. apply (land_high x 4 Hx). lia. Qed.

(** The bits of a register with an aligned base and a flag. *)
Lemma flag_bits k base flag :
  4 <= k < 32 -> 0 <= base < 2 ^ 32 -> base mod 2 ^ k = 0 -> flag = 0 \/ flag = 8 ->
  0 <= base + flag < 2 ^ 32 /\ (base + flag) mod 2 ^ k = flag /\ (base + flag) mod 16 = flag.
Proof.
  intros Hk Hb Hm Hf. assert (HK : 2 ^ 4 <= 2 ^ k) by (apply Z.pow_le_mono_r; lia).
  assert (Eb : base = base / 2 ^ k * 2 ^ k) by (pose proof (Z.div_mod base (2 ^ k) ltac:(lia)); lia).
  assert (Hdiv : 2 ^ 32 = 2 ^ (32 - k) * 2 ^ k) by (rewrite <- Z.pow_add_r by lia; f_equal; lia).
  assert (H16 : 2 ^ k = 2 ^ (k - 4) * 16) by (change 16 with (2 ^ 4); rewrite <- Z.pow_add_r by lia; f_equal; lia).
  assert (Hq : base / 2 ^ k < 2 ^ (32 - k)) by (apply Z.div_lt_upper_bound; lia).
  split; [nia|]. split; [rewrite Z.add_mod, Hm, Z.add_0_l, Zmod_mod by lia; apply Z.mod_small; lia|].
  rewrite Eb, H16. replace (base / (2 ^ (k - 4) * 16) * (2 ^ (k - 4) * 16) + flag)
    with (flag + base / (2 ^ (k - 4) * 16) * 2 ^ (k - 4) * 16) by ring. rewrite Z.mod_add by lia. apply Z.mod_small. lia.
Qed.

(** A register with those low bits is a 32-bit memory register. *)
Lemma bar_base_32 m mcfg dev base flag s :
  0 <= base + flag < 2 ^ 32 -> (base + flag) mod 16 = flag -> flag = 0 \/ flag = 8 ->
  Z.land (base + flag) 1 = 0 /\ pci_bar_base m mcfg dev (base + flag) s = Done (Some base, s).
Proof.
  intros Hr L16 Hf. assert (B1 : Z.land (base + flag) 1 = 0).
  { rewrite (Z.land_ones _ 1 ltac:(lia) : Z.land _ 1 = _). change (2 ^ 1) with 2. Z.to_euclidean_division_equations; lia. }
  split; [done|]. unfold pci_bar_base. rewrite B1. change (truthy 0) with false.
  assert (E3 : Z.land (Z.shiftr (base + flag) 1) 3 = 0).
  { rewrite (Z.land_ones _ 2 ltac:(lia) : Z.land _ 3 = _), Z.shiftr_div_pow2 by lia.
    change (2 ^ 1) with 2. change (2 ^ 2) with 4. Z.to_euclidean_division_equations; lia. }
  rewrite E3. cbn [Z.eqb]. rewrite land_flags, L16 by lia. by replace (base + flag - flag) with base by lia.
Qed.

(** for a 32-bit memory register of size [2 ^ k] that holds the base [base] (with the prefetchable
    bit or without), [pci_get_bar] returns the base and leaves the register as it was; the size it
    reports has the upper 32 bits set. *)
Theorem bar_size_upper_bits (m : mem) (mcfg : Z) (dev : pci_device) (barno k base flag : Z)
    (e : mcfg_entry) (s : pci (Z -> Z)) :
  get_entry m mcfg (segment dev) (u8 (bus dev)) = Some e ->
  let a := u64 (get_device_addr e (u8 (bus dev)) (device dev) (function dev) + u16 (0x10 + barno * 4)) in
  fixed a = k -> 4 <= k < 32 -> 0 <= base < 2 ^ 32 -> base mod 2 ^ k = 0 -> flag = 0 \/ flag = 8 ->
  config s a = base + flag ->
  exists s', pci_get_bar m mcfg dev barno s = Done (mk_pci_bar (Some base) (2 ^ 64 - 2 ^ 32 + 2 ^ k) 0, s') /\
    forall x, config s' x = config s x.
Proof.
  intros He a Hk Hk4 Hb Hmod Hf Hv.
  assert (HK : 2 ^ 4 <= 2 ^ k <= 2 ^ 31) by (split; apply Z.pow_le_mono_r; lia).
  assert (Hdiv : 2 ^ 32 = 2 ^ (32 - k) * 2 ^ k) by (rewrite <- Z.pow_add_r by lia; f_equal; lia).
  destruct (flag_bits k base flag) as (Hbf & Lf & L16); try done.
  destruct (flag_bits k (2 ^ 32 - 2 ^ k) flag) as (Hof & Of & O16); try lia.
  { rewrite Hdiv. replace (2 ^ (32 - k) * 2 ^ k - 2 ^ k) with ((2 ^ (32 - k) - 1) * 2 ^ k) by ring. apply Z.mod_mul. lia. }
  assert (M1 : 0xffffffff mod 2 ^ k = 2 ^ k - 1).
  { replace 0xffffffff with (2 ^ k - 1 + (2 ^ (32 - k) - 1) * 2 ^ k) by lia. rewrite Z.mod_add by lia. apply Z.mod_small. lia. }
  assert (Rd : forall t, pci_read_32 m mcfg dev (0x10 + barno * 4) t = Done (config t a mod 2 ^ 32, t)).
  { intros t. unfold pci_read_32, pci_read, register_addr, gets, mbind, M_bind. rewrite He. done. }
  assert (Wr : forall v t, pci_write_32 m mcfg dev (0x10 + barno * 4) v t =
    Done (tt, mk_pci (set_register a (v mod 2 ^ 32) (config t)) (pci_devices t) (pci_log t))).
  { intros v t. unfold pci_write_32, pci_write, register_addr, modify, mbind, M_bind. rewrite He. done. }
  destruct (bar_base_32 m mcfg dev base flag s) as [B1 Bs]; try done.
  unfold pci_get_bar. rewrite (bind_run _ _ _ _ _ (Rd s)), Hv, (Z.mod_small (base + flag)), B1 by lia.
  rewrite (bind_run _ _ _ _ _ Bs), (bind_run _ _ _ _ _ (Wr _ s)), (bind_run _ _ _ _ _ (Rd _)), (bind_run _ _ _ _ _ (Wr _ _)).
  cbn [config pci_devices pci_log].
  assert (R : set_register a (0xffffffff mod 2 ^ 32) (config s) a = 2 ^ 32 - 2 ^ k + flag).
  { unfold set_register. rewrite Z.eqb_refl, Hk, Hv, Lf. change (0xffffffff mod 2 ^ 32) with 0xffffffff. rewrite M1. lia. }
  rewrite R. eexists. split.
  - unfold mret, M_ret. do 3 f_equal. change (truthy 0) with false. cbn iota.
    rewrite (Z.mod_small (2 ^ 32 - _ + flag)), land_flags, O16 by lia.
    unfold u64, Z.lnot. symmetry. apply (Z.mod_unique _ _ (-1)); lia.
  - intros x. cbn [config]. unfold set_register at 1. rewrite R.
    destruct (Z.eqb_spec x a) as [->|N]; [|unfold set_register; by rewrite (proj2 (Z.eqb_neq x a))].
    rewrite Hk, Z.mod_small, Lf, Hv, Of by lia. lia.
Qed.
End Bar.

Lemma bar_size_upper_bits_witness :
  exists s', pci_get_bar (H := fixed_registers (fun _ => 16)) pci_tables small_mcfg
      (mk_pci_device (mk_pci_header 0 0 0 0 0 0 0 0 0 0 0 0) 0 0 0 0) 5 (mk_pci (fun _ => 0xFEBF0000) [] []) =
    Done (mk_pci_bar (Some 0xFEBF0000) (2 ^ 64 - 2 ^ 32 + 2 ^ 16) 0, s') /\ forall x, config s' x = 0xFEBF0000.
Proof.
  apply (bar_size_upper_bits (fun _ => 16) pci_tables small_mcfg (mk_pci_device (mk_pci_header 0 0 0 0 0 0 0 0 0 0 0 0) 0 0 0 0)
    5 16 0xFEBF0000 0 (mk_mcfg_entry 0xE0000000 0 0 1) (mk_pci (fun _ => 0xFEBF0000) [] []));
    first [vm_compute; reflexivity | lia | left; reflexivity].
Defined.
