(* ===== verification/Boot.v ===== *)
(** * Starting the system (src/src/kernel/main.c, dev/tty.c, dev/fbdev.c, dev/mousedev.c)

    The tags of the boot loader, the mounts that [k_thread] makes, and the device nodes below
    "/dev": the path is built in a buffer of a fixed size, the device is added to the list of
    devices and the node is made through the VFS. *)
From S2P Require Import Prelude CString Vec Rtc Device Pipe FatTypes Fs Tmpfs Vfs.
Import CString.Kernel.

(** ** Tags *)

(** [while (1)] of [stivale2_get_tag]; [None] is the fuel running out. *)
Fixpoint tag_loop (fuel : nat) (m : mem) (current_tag id : Z) : option Z :=
  match fuel with
  | O => None
  | S f =>
      if current_tag =? 0 then Some 0
      else if ld 8 m current_tag =? id then Some current_tag
      else tag_loop f m (ld 8 m (current_tag + 8)) id
  end.
Definition stivale2_get_tag (fuel : nat) (m : mem) (stivale2_struct id : Z) : option Z :=
  tag_loop fuel m (ld 8 m (stivale2_struct + 128)) id.

(** A list of tags with the given identifiers, tags_linked from [a]. *)
Fixpoint tags_linked (m : mem) (a : Z) (l : list (Z * Z)) : Prop :=
  match l with
  | [] => a = 0
  | (p, id) :: l' => a = p /\ p <> 0 /\ ld 8 m p = id /\ tags_linked m (ld 8 m (p + 8)) l'
  end.
Fixpoint first_tag (l : list (Z * Z)) (id : Z) : Z :=
  match l with [] => 0 | (p, i) :: l' => if i =? id then p else first_tag l' id end.

Lemma tag_loop_run m a l id fuel :
  tags_linked m a l -> (length l < fuel)%nat -> tag_loop fuel m a id = Some (first_tag l id).
Proof.
  revert a fuel. induction l as [|[p i] l IH]; intros a fuel Hl Hf; (destruct fuel as [|f]; [cbn in Hf; lia|]).
  - cbn in Hl. by subst a.
  - destruct Hl as (-> & Hp & Hi & Hl). cbn [tag_loop first_tag]. rewrite (proj2 (Z.eqb_neq p 0)), Hi by done.
    destruct (i =? id); [done|]. apply IH; [done|cbn in Hf; lia].
Qed.

(** [stivale2_get_tag] returns the first tag with the identifier, or NULL if the list, which
    must end, has none; one round per tag is enough. *)
Theorem get_tag_first (m : mem) (stivale2_struct id : Z) (l : list (Z * Z)) :
  tags_linked m (ld 8 m (stivale2_struct + 128)) l ->
  stivale2_get_tag (S (length l)) m stivale2_struct id = Some (first_tag l id).
Proof. intros H. apply tag_loop_run; [done|lia]. Qed.

Lemma get_tag_first_witness :
  stivale2_get_tag 3 (st 8 128 0x1000 (st 8 0x1000 7 (st 8 0x1008 0x2000 (st 8 0x2000 9 (fun _ => 0))))) 0 9 = Some 0x2000.
Proof.
  apply (get_tag_first (st 8 128 0x1000 (st 8 0x1000 7 (st 8 0x1008 0x2000 (st 8 0x2000 9 (fun _ => 0))))) 0 9 [(0x1000, 7); (0x2000, 9)]).
  vm_compute. repeat split; discriminate.
Defined.

(** A list that leads back to itself is searched forever. *)
Theorem tag_cycle (m : mem) (a id : Z) (fuel : nat) :
  a <> 0 -> ld 8 m a <> id -> ld 8 m (a + 8) = a -> tag_loop fuel m a id = None.
Proof.
  intros Ha Hi Hn. induction fuel as [|f IH]; [done|]. cbn [tag_loop].
  by rewrite (proj2 (Z.eqb_neq a 0)), (proj2 (Z.eqb_neq _ id)), Hn by done.
Qed.

Lemma tag_cycle_witness : tag_loop 100 (st 8 0x1008 0x1000 (fun _ => 0)) 0x1000 5 = None.
Proof. apply tag_cycle; [lia|vm_compute; discriminate|reflexivity]. Defined.

(** ** Device nodes *)

Definition tty0_device : device := mk_device S_IFCHR 100 0 0.
Definition fb0_device : device := mk_device S_IFCHR 1010 0 0.
Definition mouse0_device : device := mk_device S_IFBLK 1011 3 0.

(** [str = kcalloc(strlen(mount_place) + size)], filled with the mount place, a slash unless there is
    one, and the name; [None] is an access outside of the buffer. *)
Definition node_path (size : Z) (mount_place name : list Z) : option (list Z) :=
  n ← strlen (mount_place ++ [0]);
  str ← strcpy (replicate (Z.to_nat (n + size)) 0) (mount_place ++ [0]);
  n ← strlen str;
  if n =? 0 then None
  else
    last ← str !! Z.to_nat (n - 1);
    str ← (if last =? 47 then Some str
           else if n <? Z.of_nat (length str) then Some (<[Z.to_nat n := 47]> str) else None);
    str ← strcat str (name ++ [0]);
    n ← strlen str;
    Some (take (Z.to_nat n) str).

Record boot := mk_boot { b_devices : list device; b_vfs : vfs_state }.
Abbreviation BM := (M boot).
Definition on_vfs {A} (o : VFM A) : BM A := fun s =>
  match o (b_vfs s) with
  | Done (a, v) => Done (a, mk_boot (b_devices s) v)
  | Halt => Halt
  | Fault => Fault
  | Fuel => Fuel
  end.

Section Boot.
Context (fs_table : Z -> option fs_ops) `{Env}.

(** The common text of [init_tty], [init_fbdev] and [init_mousedev]; [ptr] is the address of the
    device. *)
Definition init_node (size : Z) (name : list Z) (dev : device) (ptr : Z) (mount_place : list Z) : BM Z :=
  str ← of_option (node_path size mount_place name);
  modify (fun s => mk_boot (device_add (b_devices s) dev).2 (b_vfs s));;
  file ← on_vfs (vfs_mknod fs_table str (Z.lor 0x1ff S_IFCHR) 0 0 ptr);
  mret (if truthy file then 0 else 1).

Definition init_tty : Z -> list Z -> BM Z := init_node 7 [116; 116; 121; 48] tty0_device.
Definition init_fbdev : Z -> list Z -> BM Z := init_node 7 [102; 98; 48] fb0_device.
Definition init_mousedev : Z -> list Z -> BM Z := init_node 10 [109; 111; 117; 115; 101; 48] mouse0_device.

Definition DEV_DIR : list Z := [47; 100; 101; 118].

(** The file system part of [k_thread]: the results of the mounts are not looked at. *)
Definition k_thread_mounts (disk tty_ptr fb_ptr mouse_ptr : Z) : BM (Z * Z * Z) :=
  _ ← on_vfs (vfs_mount fs_table [47] disk (Some [70; 65; 84; 51; 50]));
  _ ← on_vfs (vfs_mount fs_table (DEV_DIR ++ [47]) 0 (Some [68; 69; 86; 70; 83]));
  a ← init_tty tty_ptr DEV_DIR;
  b ← init_fbdev fb_ptr DEV_DIR;
  c ← init_mousedev mouse_ptr DEV_DIR;
  mret (a, b, c).
End Boot.

(** ** The path *)

Definition slashed (place : list Z) : list Z := if bool_decide (last place = Some 47) then place else place ++ [47].

(** Appending the name in a buffer of zeros that has room for it, and reading the result. *)
Lemma append_name d name n :
  str_ok d -> str_ok name -> (length name <= n)%nat ->
  (str ← strcat (d ++ 0 :: replicate n 0) (name ++ [0]); n ← strlen str; Some (take (Z.to_nat n) str)) = Some (d ++ name).
Proof.
  intros Hd Hn Hl. rewrite (strcat_spec d name (replicate n 0) []), length_replicate by done.
  rewrite (proj2 (Nat.leb_le _ _)) by done. cbn [mbind option_bind].
  rewrite app_assoc, strlen_spec by (by apply Forall_app). cbn [mbind option_bind].
  by rewrite Nat2Z.id, take_app_length.
Qed.

Lemma node_path_run size place name :
  str_ok place -> place <> [] -> str_ok name -> Z.of_nat (length name) + 2 <= size ->
  node_path size place name = Some (slashed place ++ name).
Proof.
  intros Hp Hne Hn Hs. unfold node_path. rewrite (strlen_spec place []) by done. cbn [mbind option_bind].
  assert (HL : (0 < length place)%nat) by (destruct place; [done|cbn; lia]).
  set (r := (Z.to_nat size - 2)%nat).
  replace (Z.to_nat (Z.of_nat (length place) + size)) with (length place + S (S r))%nat by lia.
  rewrite (strcpy_spec _ place []), length_replicate, (proj2 (Nat.ltb_lt _ _)) by (done || lia). cbn [mbind option_bind].
  rewrite drop_replicate. replace (length place + S (S r) - S (length place))%nat with (S r) by lia.
  rewrite strlen_spec by done. cbn [mbind option_bind]. rewrite (proj2 (Z.eqb_neq (Z.of_nat _) 0)) by lia.
  rewrite lookup_app_l by lia. replace (Z.to_nat (Z.of_nat (length place) - 1)) with (pred (length place)) by lia.
  unfold slashed. rewrite <- last_lookup. destruct (last place) as [c|] eqn:El; [|apply last_None in El; done].
  cbn [mbind option_bind]. destruct (Z.eqb_spec c 47) as [->|Nc].
  - rewrite bool_decide_true by done. change (0 :: replicate (S r) 0) with (0 :: replicate (S r) (0 : Z)).
    cbn [mbind option_bind]. apply (append_name place name (S r)); (done || lia).
  - rewrite bool_decide_false by congruence. rewrite (proj2 (Z.ltb_lt _ _)) by (rewrite length_app; cbn; lia).
    cbn [mbind option_bind]. rewrite Nat2Z.id, insert_app_r_alt, Nat.sub_diag by lia.
    change (<[0%nat := 47]> (0 :: replicate (S r) 0)) with ([47] ++ 0 :: replicate r (0 : Z)). rewrite app_assoc.
    apply (append_name (place ++ [47]) name r); [|done|lia].
    apply Forall_app. split; [done|]. repeat constructor.
Qed.

(** ** The nodes *)

Section Nodes.
Context (fs_table : Z -> option fs_ops) `{Env}.
Context (fsname : list Z) (Htable : fs_table tmpfs_fs_ops = Some (tmpfs_fs_table fsname)).

(** The three initialisations, with the name and the device of their node. *)
Definition node_inits : list ((Z -> list Z -> BM Z) * list Z * device) :=
  [(init_tty fs_table, [116; 116; 121; 48], tty0_device); (init_fbdev fs_table, [102; 98; 48], fb0_device);
   (init_mousedev fs_table, [109; 111; 117; 115; 101; 48], mouse0_device)].

Lemma init_node_added size name dev ptr place s fs root d dt :
  str_ok place -> place <> [] -> Z.of_nat (length name) + 2 <= size ->
  through (b_vfs s) (slashed place ++ name) fs root d name ->
  vlength (children d) + 1 < 2 ^ 29 -> rtc_get_datetime cmos century = Some dt ->
  resolve (v_fs (b_vfs s)) d name = None -> 0 <= next_ptr (v_fs (b_vfs s)) ->
  exists p s1 d' f, init_node fs_table size name dev ptr place s = Done (0, mk_boot (b_devices s ++ [dev]) (set_fs s1 (b_vfs s))) /\
    added (v_fs (b_vfs s)) s1 fs root p d d' f /\ 0 < p /\ f_path f = name /\ f_dev f = ptr /\ ISDEV f = true.
Proof using Htable.
  intros Hp Hne Hl Ht Hroom Hdt Hres Hpos. unfold init_node.
  rewrite (node_path_run size place name Hp Hne (proj1 (thr_name _ _ _ _ _ _ Ht)) Hl).
  do 2 (erewrite bind_run by reflexivity; cbv beta). cbn [b_devices b_vfs].
  destruct (mknod_run (v_fs (b_vfs s)) fs root d name (Z.lor 0x1ff S_IFCHR) 0 0 ptr dt (thr_ok _ _ _ _ _ _ Ht)
    (thr_name _ _ _ _ _ _ Ht) Hroom Hdt Hres) as (p & s1 & d' & f & Em & Ha & Hpp & Hname & Hmode & Hdev).
  assert (Ev : vfs_mknod fs_table (slashed place ++ name) (Z.lor 0x1ff S_IFCHR) 0 0 ptr (b_vfs s) = Done (p, set_fs s1 (b_vfs s))).
  { unfold vfs_mknod. rewrite (bind_run _ _ _ _ _ (through_find fs_table fsname Htable _ _ _ _ _ _ Ht)).
    cbn [op_mknod tmpfs_fs_table]. unfold on_fs. by rewrite Em. }
  erewrite bind_run; [|unfold on_vfs; cbn [b_vfs]; rewrite Ev; reflexivity].
  assert (Tp : truthy p = true) by (unfold truthy; apply negb_true_iff, Z.eqb_neq; lia). rewrite Tp.
  exists p, s1, d', f. split; [reflexivity|]. split; [done|]. split; [lia|]. split; [done|]. split; [done|].
  unfold ISDEV. by rewrite Hmode.
Qed.

Lemma init_node_run size name dev ptr place s fs root d dt :
  str_ok place -> place <> [] -> Z.of_nat (length name) + 2 <= size ->
  through (b_vfs s) (slashed place ++ name) fs root d name ->
  vlength (children d) + 1 < 2 ^ 29 -> rtc_get_datetime cmos century = Some dt ->
  resolve (v_fs (b_vfs s)) d name = None -> 0 <= next_ptr (v_fs (b_vfs s)) ->
  exists p s' v f, init_node fs_table size name dev ptr place s = Done (0, s') /\
    b_devices s' = b_devices s ++ [dev] /\ vfs_open fs_table (slashed place ++ name) (b_vfs s') = Done (p, v) /\
    files (v_fs (b_vfs s')) !! p = Some f /\ f_dev f = ptr /\ ISDEV f = true.
Proof using Htable.
  intros Hp Hne Hl Ht Hroom Hdt Hres Hpos.
  destruct (init_node_added size name dev ptr place s fs root d dt) as (p & s1 & d' & f & Ei & Ha & _ & Hname & Hdev & HD); try done.
  destruct (through_open fs_table fsname Htable _ _ _ _ _ _ (through_added _ _ _ _ _ _ _ _ _ _ Ha Ht)) as (v & Eo).
  exists p. do 3 eexists. split; [exact Ei|]. split; [done|]. cbn [b_vfs b_devices]. split.
  { rewrite Eo. cbn [v_fs set_fs]. rewrite (added_resolve _ _ _ _ _ _ _ _ Ha), Hres, Hname, bool_decide_true by done. done. }
  split; [apply (added_file _ _ _ _ _ _ _ _ Ha)|]. done.
Qed.

(** the device nodes work end to end: for the terminal, the framebuffer and the mouse, below a
    mounted tmpfs (or devfs) directory given with or without the final slash, the initialisation stays
    inside its path buffer, registers the device and returns 0, and opening the path through the VFS
    then gives a device file of exactly that device. *)
Theorem device_node_opens (init : Z -> list Z -> BM Z) (name : list Z) (dev : device) (ptr : Z) (place : list Z)
    (s : boot) (fs root : Z) (d : tmpfs_dirent) (dt : datetime) :
  (init, name, dev) ∈ node_inits -> str_ok place -> place <> [] ->
  through (b_vfs s) (slashed place ++ name) fs root d name ->
  vlength (children d) + 1 < 2 ^ 29 -> rtc_get_datetime cmos century = Some dt ->
  resolve (v_fs (b_vfs s)) d name = None -> 0 <= next_ptr (v_fs (b_vfs s)) ->
  exists p s' v f, init ptr place s = Done (0, s') /\
    b_devices s' = b_devices s ++ [dev] /\ vfs_open fs_table (slashed place ++ name) (b_vfs s') = Done (p, v) /\
    files (v_fs (b_vfs s')) !! p = Some f /\ f_dev f = ptr /\ ISDEV f = true.
Proof using Htable.
  intros Hin Hp Hne Ht Hroom Hdt Hres Hpos.
  repeat (apply elem_of_cons in Hin as [[= -> -> ->]|Hin]); [..|by apply elem_of_nil in Hin];
    eapply init_node_run; try done; cbn; lia.
Qed.

(** nothing looks at the results of the mounts: when mounting the disk on "/" fails, "/dev/" is
    not mounted either, and creating the first device node dereferences NULL. *)
Theorem boot_without_root (s : boot) (disk tty_ptr fb_ptr mouse_ptr : Z) (t : fs_state) :
  vfs_mounts (b_vfs s) = [] -> root_mount (b_vfs s) = None ->
  vfs_mount_fs fs_table (registered_fses (b_vfs s)) disk (Some [70; 65; 84; 51; 50]) (v_fs (b_vfs s)) = Done (0, t) ->
  k_thread_mounts fs_table disk tty_ptr fb_ptr mouse_ptr s = Fault.
Proof.
  intros Hm Hr Hf. destruct s as [devs v]. cbn [b_vfs] in *. unfold k_thread_mounts.
  assert (E1 : vfs_mount fs_table [47] disk (Some [70; 65; 84; 51; 50]) v = Done (1, set_fs t v)).
  { unfold vfs_mount. rewrite (bind_run get _ v v v) by done. rewrite Hr, Hm. cbn [vfs_is_mounted existsb].
    change (streq [47] [47]) with true. cbn [negb]. unfold mbind, M_bind, on_fs at 1. by rewrite Hf. }
  erewrite bind_run; [|unfold on_vfs; cbn [b_vfs]; rewrite E1; reflexivity]. cbv beta. cbn [b_devices].
  assert (E2 : vfs_mount fs_table (DEV_DIR ++ [47]) 0 (Some [68; 69; 86; 70; 83]) (set_fs t v) = Done (1, set_fs t v)).
  { unfold vfs_mount. rewrite (bind_run get _ _ (set_fs t v) (set_fs t v)) by done. cbn [root_mount set_fs]. rewrite Hr. done. }
  erewrite bind_run; [|unfold on_vfs; cbn [b_vfs]; rewrite E2; reflexivity]. cbv beta. cbn [b_devices].
  unfold mbind at 1, M_bind at 1. unfold init_tty, init_node.
  rewrite (node_path_run 7 DEV_DIR [116; 116; 121; 48]); [|repeat constructor; vm_compute; done|done|repeat constructor; vm_compute; done|cbn; lia].
  do 2 (erewrite bind_run by reflexivity; cbv beta). cbn [b_devices b_vfs]. unfold mbind at 1, M_bind at 1, on_vfs, vfs_mknod, mount_ops.
  cbn [b_vfs]. unfold mbind at 1, M_bind at 1. unfold mbind at 1, M_bind at 1. cbn [get].
  assert (E3 : vfs_find_mount (set_fs t v) (slashed DEV_DIR ++ [116; 116; 121; 48]) = None).
  { unfold vfs_find_mount. cbn [root_mount vfs_mounts set_fs]. rewrite Hm, Hr. reflexivity. }
  by rewrite E3.
Qed.
End Nodes.

Lemma boot_without_root_witness :
  k_thread_mounts (fun _ => None) 5 6 7 8 (mk_boot [] (mk_vfs_state [] [] None sample_fs)) = Fault.
Proof. apply (boot_without_root (fun _ => None) _ 5 6 7 8 sample_fs); reflexivity. Defined.

Lemma tty_through : through sample_vfs [47; 100; 101; 118; 47; 116; 116; 121; 48] 1 2 sample_dir [116; 116; 121; 48].
Proof.
  constructor; [split; [apply sample_paths|repeat constructor; vm_compute; done]| |apply sample_mount|done|solve_valid_name].
  exists DEV_DIR, dev_mount. split; [done|]. split; [done|]. split; [done|]. split; [|split; [done|]].
  - split; [right; left|]. split; [by exists [116; 116; 121; 48]|]. split; [simpl; lia|].
    intros mi [->|[->|Hin%elem_of_nil]%elem_of_cons]%elem_of_cons _; simpl; [lia|lia|done].
  - intros mi [->|[->|Hin%elem_of_nil]%elem_of_cons]%elem_of_cons; done.
Qed.

Lemma device_node_opens_witness :
  exists p s' v f, init_tty sample_table 77 DEV_DIR (mk_boot [] sample_vfs) = Done (0, s') /\ b_devices s' = [tty0_device] /\
    vfs_open sample_table [47; 100; 101; 118; 47; 116; 116; 121; 48] (b_vfs s') = Done (p, v) /\
    files (v_fs (b_vfs s')) !! p = Some f /\ f_dev f = 77 /\ ISDEV f = true.
Proof.
  apply (device_node_opens sample_table [84] eq_refl (init_tty sample_table) [116; 116; 121; 48] tty0_device 77 DEV_DIR (mk_boot [] sample_vfs)
    1 2 sample_dir _ ltac:(left) ltac:(repeat constructor; vm_compute; done) ltac:(done) tty_through ltac:(done) eq_refl eq_refl ltac:(cbn; lia)).
Defined.
