(* ===== verification/BootFiles.v ===== *)
(** * The files of a started system (src/src/kernel/main.c, fs/tmpfs.c, devfs.c, vfs.c)

    [k_thread] from the registration of the file systems to the device nodes, with the real file
    systems behind their names: TMPFS, DEVFS (the same operations under another name) and FAT32. *)
From S2P Require Import Prelude CString Vec Rtc Device Pipe FatTypes FatDisk FatChain FatDir Fs Tmpfs Vfs Fat32 Boot.
Open Scope Z_scope.

Definition TMPFS : list Z := [84; 77; 80; 70; 83].
Definition DEVFS : list Z := [68; 69; 86; 70; 83].
Definition FAT32 : list Z := [70; 65; 84; 51; 50].

(** [init_vfs] allocates the buffers of two vectors, which are static and empty. *)
Definition init_vfs : VFM Z := mret 0.
Definition init_tmpfs : VFM Z := vfs_register_fs tmpfs_fs_ops;; mret 0.
Definition init_devfs : VFM Z := vfs_register_fs devfs_fs_ops;; mret 0.

Section Files.
Context (drivers : Z -> DriverOps) `{Env} (junk : mem) (junk_private : fat_private) (reused : Z -> list Z) (chain_fuel find_fuel : nat).

(** The operations behind the addresses that are registered. *)
Definition file_systems (id : Z) : option fs_ops :=
  if id =? tmpfs_fs_ops then Some (tmpfs_fs_table TMPFS)
  else if id =? devfs_fs_ops then Some (tmpfs_fs_table DEVFS)
  else if id =? fat_fs_ops then Some (fat_fs_table drivers junk junk_private reused chain_fuel find_fuel FAT32)
  else None.

(** [k_thread] from [init_vfs] to the device nodes. *)
Definition k_thread_files (disk tty_ptr fb_ptr mouse_ptr : Z) : BM (Z * Z * Z) :=
  _ ← on_vfs init_vfs;
  _ ← on_vfs init_tmpfs;
  _ ← on_vfs init_devfs;
  _ ← on_vfs init_fat;
  k_thread_mounts file_systems disk tty_ptr fb_ptr mouse_ptr.

Definition registered : list Z := [tmpfs_fs_ops; devfs_fs_ops; fat_fs_ops].

(** ** Mounting *)

(** The disk at [dev] has a FAT32 boot record, by its signature. *)
Definition fat_disk (s : fs_state) (dev : Z) : Prop :=
  dev <> 0 /\ exists d, devs s !! dev = Some d /\
    let boot := read_bpb (@drv_read (drivers dev) 0 1 (dv_disk d) junk 0) in
    signature boot = 0x28 \/ signature boot = 0x29.

Definition root_mi (disk fs : Z) : vfs_mount_info := mk_mount_info [47] disk fs.
Definition dev_mi (fs : Z) : vfs_mount_info := mk_mount_info (DEV_DIR ++ [47]) 0 fs.

Lemma mount_fs_skip id ids ops mount dev name f : file_systems id = Some ops -> op_mount ops = Some mount -> streq name (fs_name ops) = false ->
  vfs_mount_fs file_systems (id :: ids) dev (Some name) f = vfs_mount_fs file_systems ids dev (Some name) f.
Proof. intros E1 E2 E3. cbn [vfs_mount_fs]. rewrite E1. unfold mbind, M_bind, of_option. by rewrite E2, E3. Qed.
Lemma mount_fs_take id ids ops mount dev name f fs f' : file_systems id = Some ops -> op_mount ops = Some mount ->
  streq name (fs_name ops) = true -> mount dev f = Done (fs, f') -> truthy fs = true ->
  vfs_mount_fs file_systems (id :: ids) dev (Some name) f = Done (fs, f').
Proof. intros E1 E2 E3 E4 E5. cbn [vfs_mount_fs]. rewrite E1. unfold mbind, M_bind, of_option. rewrite E2, E3, E4. by rewrite E5. Qed.

Lemma mount_fs_fault id ids ops mount dev name f : file_systems id = Some ops -> op_mount ops = Some mount ->
  streq name (fs_name ops) = true -> mount dev f = Fault -> vfs_mount_fs file_systems (id :: ids) dev (Some name) f = Fault.
Proof. intros E1 E2 E3 E4. cbn [vfs_mount_fs]. rewrite E1. unfold mbind, M_bind, of_option. by rewrite E2, E3, E4. Qed.

Lemma truthy_pos x : 0 < x -> truthy x = true.
Proof. intros Hx. unfold truthy. apply negb_true_iff, Z.eqb_neq. lia. Qed.

Lemma root_mounts disk f :
  fat_disk f disk -> 0 < next_ptr f ->
  exists f', vfs_mount file_systems [47] disk (Some FAT32) (mk_vfs_state [] registered None f) =
      Done (0, mk_vfs_state [root_mi disk (next_ptr f)] registered (Some (root_mi disk (next_ptr f))) f') /\
    files f' = files f /\ next_ptr f' = next_ptr f + 1 /\ fs_ops_id <$> fses f' !! next_ptr f = Some fat_fs_ops.
Proof.
  intros (Hd & d & Ed & Hsig) Hn. unfold vfs_mount. rewrite (bind_run get _ _ _ _ eq_refl). cbn [root_mount vfs_mounts vfs_is_mounted existsb registered_fses].
  change (streq [47] [47]) with true. cbn [negb].
  assert (Td : truthy disk = true) by (unfold truthy; by apply negb_true_iff, Z.eqb_neq).
  set (boot := read_bpb (@drv_read (drivers disk) 0 1 (dv_disk d) junk 0)) in *.
  set (f1 := set_fses (<[next_ptr f := mk_fs fat_fs_ops disk 0 (Some boot)]> (fses f)) (mk_fs_state (files f) (fses f) (pipes f) (devs f) (next_ptr f + 1) (ubuf f))).
  assert (E : vfs_mount_fs file_systems registered disk (Some FAT32) f = Done (next_ptr f, f1)).
  { unfold registered. erewrite mount_fs_skip by reflexivity. erewrite mount_fs_skip by reflexivity.
    eapply mount_fs_take; [reflexivity|reflexivity|reflexivity| |by apply truthy_pos].
    unfold fat_mount. rewrite (bind_run (get_dev disk) _ f d f) by (unfold get_dev; by rewrite Ed). fold boot.
    assert (G : negb (signature boot =? 0x28) && negb (signature boot =? 0x29) = false) by (destruct Hsig as [-> | ->]; done).
    by rewrite G. }
  rewrite (bind_run (on_fs _) _ _ (next_ptr f) (mk_vfs_state [] registered None f1)) by (unfold on_fs; cbn [v_fs]; by rewrite E).
  rewrite truthy_pos by done. cbn [negb]. rewrite (bind_run (modify _) _ _ tt _ eq_refl). cbn [vfs_mounts registered_fses root_mount v_fs app].
  erewrite bind_run; [|unfold on_fs; cbn [v_fs]; rewrite Td; unfold mbind, M_bind, get_dev; cbn [devs f1 set_fses]; rewrite Ed; cbn; reflexivity].
  eexists. split; [reflexivity|]. cbn. split; [done|]. split; [done|]. by rewrite lookup_insert_eq.
Qed.

(** All objects were handed out by the allocator. *)
Definition below_next (s : fs_state) : Prop := 0 < next_ptr s /\ forall p, is_Some (files s !! p) -> 0 < p < next_ptr s.

(** The block that the heap returns for the directory object at [p] holds zeros where the vector is. *)
Definition zero_block (p : Z) : Prop := junk_data p = 0 /\ vlength (junk_dir p) = 0 /\ capacity (junk_dir p) = 0.

Lemma push_zero_block p s : zero_block p -> push_uninitialised p s = Done (tt, s).
Proof. intros (E1 & E2 & E3). unfold push_uninitialised. by rewrite E1, E2, E3. Qed.

(** With another data word the mount of a tmpfs goes wrong. *)
Lemma tmpfs_mount_junk dev f dt : rtc_get_datetime cmos century = Some dt -> junk_data (next_ptr f + 1) <> 0 -> tmpfs_mount dev f = Fault.
Proof.
  intros Hdt Hj. unfold tmpfs_mount, kmalloc_ptr, current_time, mbind, M_bind. cbn [next_ptr files fses pipes devs ubuf]. rewrite Hdt. cbn.
  unfold push_uninitialised, truthy. by rewrite (proj2 (Z.eqb_neq _ _) Hj).
Qed.

Lemma dev_mounts disk r f dt :
  below_next f -> rtc_get_datetime cmos century = Some dt -> zero_block (next_ptr f + 1) ->
  exists f' d, vfs_mount file_systems (DEV_DIR ++ [47]) 0 (Some DEVFS) (mk_vfs_state [root_mi disk r] registered (Some (root_mi disk r)) f) =
      Done (0, mk_vfs_state [root_mi disk r; dev_mi (next_ptr f)] registered (Some (root_mi disk r)) f') /\
    mount_ok f' (next_ptr f) (next_ptr f + 1) d /\ contents (children d) = [] /\ vlength (children d) = 0 /\
    fs_ops_id <$> fses f' !! next_ptr f = Some tmpfs_fs_ops.
Proof.
  intros [Hn Hfresh] Hdt Hz. unfold vfs_mount. rewrite (bind_run get _ _ _ _ eq_refl).
  cbn [root_mount vfs_mounts registered_fses]. change (vfs_is_mounted [root_mi disk r] (DEV_DIR ++ [47])) with false. cbv iota.
  assert (E : exists f1 d, vfs_mount_fs file_systems registered 0 (Some DEVFS) f = Done (next_ptr f, f1) /\
    mount_ok f1 (next_ptr f) (next_ptr f + 1) d /\ contents (children d) = [] /\ vlength (children d) = 0 /\
    fs_ops_id <$> fses f1 !! next_ptr f = Some tmpfs_fs_ops).
  { unfold registered. erewrite mount_fs_skip by reflexivity.
    eexists _, (mk_dirent (next_ptr f + 1) (mk_vec (replicate dir_slots (-1)) 0 1) (next_ptr f + 1)). split.
    { eapply mount_fs_take; [reflexivity|reflexivity|reflexivity| |by apply truthy_pos].
      unfold tmpfs_mount, kmalloc_ptr, current_time, mbind, M_bind. cbn [next_ptr files fses pipes devs ubuf]. rewrite Hdt. cbn.
      rewrite push_zero_block by done. cbn. reflexivity. }
    split; [|split; [reflexivity|split; [reflexivity|cbn; by rewrite lookup_insert_eq]]]. constructor.
    - eexists. split; [apply lookup_insert_eq|done].
    - constructor; [eexists; split; [apply lookup_insert_eq|reflexivity]|by constructor|done|constructor].
    - intros p [x Hp]. change (0 < p < next_ptr f + 1 + 1). cbn [set_fses set_files files] in Hp. apply lookup_insert_Some in Hp as [[<- _]|[_ Hp]]; [lia|].
      specialize (Hfresh p (ex_intro _ x Hp)). lia. }
  destruct E as (f1 & d & E & H1 & H2 & H3 & H4). exists f1, d. split; [|done].
  rewrite (bind_run (on_fs _) _ _ (next_ptr f) (mk_vfs_state [root_mi disk r] registered (Some (root_mi disk r)) f1)) by (unfold on_fs; cbn [v_fs]; by rewrite E).
  rewrite truthy_pos by done. reflexivity.
Qed.

Lemma dev_mount_junk disk r f dt :
  rtc_get_datetime cmos century = Some dt -> junk_data (next_ptr f + 1) <> 0 ->
  vfs_mount file_systems (DEV_DIR ++ [47]) 0 (Some DEVFS) (mk_vfs_state [root_mi disk r] registered (Some (root_mi disk r)) f) = Fault.
Proof.
  intros Hdt Hj. unfold vfs_mount. rewrite (bind_run get _ _ _ _ eq_refl).
  cbn [root_mount vfs_mounts registered_fses]. change (vfs_is_mounted [root_mi disk r] (DEV_DIR ++ [47])) with false. cbv iota.
  assert (E : vfs_mount_fs file_systems registered 0 (Some DEVFS) f = Fault).
  { unfold registered. erewrite mount_fs_skip by reflexivity. 
    eapply mount_fs_fault; [reflexivity|reflexivity|reflexivity|]. by apply (tmpfs_mount_junk 0 f dt). }
  unfold mbind, M_bind, on_fs. cbn [v_fs]. by rewrite E.
Qed.

(** ** The nodes one after the other *)

(** Below "/dev/" is the tmpfs [fs] with root [root] and directory [d], and it has exactly the [nodes], each
    a device file of its device. *)
Record dev_nodes (v : vfs_state) (fs root : Z) (d : tmpfs_dirent) (nodes : list (list Z * Z)) : Prop := mk_dev_nodes {
  dn_path name : valid_name name -> through v (slashed DEV_DIR ++ name) fs root d name;
  dn_nodes name ptr : (name, ptr) ∈ nodes -> exists p f, resolve (v_fs v) d name = Some p /\ p <> root /\
    files (v_fs v) !! p = Some f /\ f_dev f = ptr /\ ISDEV f = true;
  dn_others name : name ∉ nodes.*1 -> resolve (v_fs v) d name = None;
  dn_size : length (contents (children d)) = length nodes
}.

Lemma dev_mounted disk r fs root d f :
  mount_ok f fs root d -> contents (children d) = [] -> fs_ops_id <$> fses f !! fs = Some tmpfs_fs_ops ->
  dev_nodes (mk_vfs_state [root_mi disk r; dev_mi fs] registered (Some (root_mi disk r)) f) fs root d [].
Proof.
  intros Hok Hc Hops. constructor; [|by intros ? ? ?%elem_of_nil|intros name _; unfold resolve; cbn [v_fs]; by rewrite Hc|by rewrite Hc].
  intros name Hn. change (slashed DEV_DIR ++ name) with (DEV_DIR ++ 47 :: name). constructor; [split| |done|done|done].
  - repeat constructor; vm_compute; done.
  - apply Forall_app. split; [repeat constructor; vm_compute; done|]. constructor; [vm_compute; done|apply Hn].
  - exists DEV_DIR, (dev_mi fs). split; [done|]. split; [done|]. split; [done|]. split; [|split; [done|]].
    + split; [right; left|]. split; [by exists name|]. split; [cbn; lia|].
      intros mi [->|[->|Hin%elem_of_nil]%elem_of_cons]%elem_of_cons _; cbn; [lia|lia|done].
    + intros mi [->|[->|Hin%elem_of_nil]%elem_of_cons]%elem_of_cons; done.
Qed.

Lemma node_step size name dev ptr s fs root d nodes dt :
  dev_nodes (b_vfs s) fs root d nodes -> valid_name name -> name ∉ nodes.*1 -> (length nodes < 100)%nat ->
  Z.of_nat (length name) + 2 <= size -> rtc_get_datetime cmos century = Some dt ->
  exists v' d', init_node file_systems size name dev ptr DEV_DIR s = Done (0, mk_boot (b_devices s ++ [dev]) v') /\
    dev_nodes v' fs root d' (nodes ++ [(name, ptr)]) /\ vfs_mounts v' = vfs_mounts (b_vfs s) /\ root_mount v' = root_mount (b_vfs s).
Proof.
  intros [Hpath Hnodes Hothers Hsize] Hn Hnew Hlen Hl Hdt.
  pose proof (thr_ok _ _ _ _ _ _ (Hpath name Hn)) as Hok. destruct (dir_file _ _ _ (mount_dir _ _ _ _ Hok)) as (rf & Hroot & _).
  pose proof (mount_fresh _ _ _ _ Hok root (ex_intro _ _ Hroot)) as Hr.
  assert (Hroom : vlength (children d) + 1 < 2 ^ 29).
  { pose proof (length_contents _ (dir_vec _ _ _ (mount_dir _ _ _ _ Hok))). pose proof (vec_length _ (dir_vec _ _ _ (mount_dir _ _ _ _ Hok))). lia. }
  destruct (init_node_added file_systems TMPFS eq_refl size name dev ptr DEV_DIR s fs root d dt) as (p & s1 & d' & f & Ei & Ha & Hp & Hname & Hdev & HD);
    [repeat constructor; vm_compute; done|done|done|by apply Hpath|done|done|by apply Hothers|lia|].
  pose proof (added_fresh _ _ _ _ _ _ _ _ Ha) as Hf.
  exists (set_fs s1 (b_vfs s)), d'. split; [exact Ei|]. split; [|done]. constructor.
  - intros m Hm. by apply (through_added _ _ _ _ _ _ _ _ _ _ Ha), Hpath.
  - intros m q [Hin|Hin%list_elem_of_singleton]%elem_of_app; cbn [v_fs set_fs].
    + destruct (Hnodes m q Hin) as (p0 & f0 & R & Hne & F & rest). exists p0, f0. rewrite (added_resolve _ _ _ _ _ _ _ _ Ha), R.
      split; [done|]. split; [done|]. split; [|done]. rewrite (added_others _ _ _ _ _ _ _ _ Ha); [done| |done]. intros ->. congruence.
    + injection Hin as -> ->. exists p, f. rewrite (added_resolve _ _ _ _ _ _ _ _ Ha), (Hothers name Hnew), Hname, bool_decide_true by done.
      split; [done|]. split; [congruence|]. split; [apply (added_file _ _ _ _ _ _ _ _ Ha)|]. done.
  - intros m Hm. rewrite fmap_app in Hm. apply not_elem_of_app in Hm as [Hm1 Hm2]. cbn [v_fs set_fs].
    rewrite (added_resolve _ _ _ _ _ _ _ _ Ha), (Hothers m Hm1), Hname, bool_decide_false; [done|]. intros ->. apply Hm2. by left.
  - rewrite (added_contents _ _ _ _ _ _ _ _ Ha), !length_app, Hsize. done.
Qed.

(** The nodes that [k_thread] makes, with the addresses of their devices. *)
Definition boot_nodes (tty_ptr fb_ptr mouse_ptr : Z) : list (list Z * Z) :=
  [([116; 116; 121; 48], tty_ptr); ([102; 98; 48], fb_ptr); ([109; 111; 117; 115; 101; 48], mouse_ptr)].

Lemma boot_names_valid tty_ptr fb_ptr mouse_ptr : Forall (fun x => valid_name x.1) (boot_nodes tty_ptr fb_ptr mouse_ptr).
Proof. repeat constructor; try solve_valid_name; (done || (cbn; lia)). Qed.

(** [k_thread] after the two mounts. *)
Lemma boot_nodes_made s fs root d tty_ptr fb_ptr mouse_ptr dt :
  dev_nodes (b_vfs s) fs root d [] -> rtc_get_datetime cmos century = Some dt ->
  exists v' d', (a ← init_tty file_systems tty_ptr DEV_DIR; b ← init_fbdev file_systems fb_ptr DEV_DIR;
      c ← init_mousedev file_systems mouse_ptr DEV_DIR; mret (a, b, c)) s =
      Done ((0, 0, 0), mk_boot (b_devices s ++ [tty0_device; fb0_device; mouse0_device]) v') /\
    dev_nodes v' fs root d' (boot_nodes tty_ptr fb_ptr mouse_ptr) /\ vfs_mounts v' = vfs_mounts (b_vfs s) /\ root_mount v' = root_mount (b_vfs s).
Proof.
  intros H0 Hdt. pose proof (boot_names_valid tty_ptr fb_ptr mouse_ptr) as V. apply Forall_cons in V as [V1 V]. apply Forall_cons in V as [V2 V]. apply Forall_cons in V as [V3 _]. cbn [fst] in V1, V2, V3.
  destruct (node_step 7 [116; 116; 121; 48] tty0_device tty_ptr s fs root d [] dt) as (v1 & d1 & E1 & H1 & M1 & R1); [done..|set_solver|cbn; lia|cbn; lia|done|].
  destruct (node_step 7 [102; 98; 48] fb0_device fb_ptr (mk_boot (b_devices s ++ [tty0_device]) v1) fs root d1 _ dt H1) as (v2 & d2 & E2 & H2 & M2 & R2);
    [done|by apply (bool_decide_unpack _)|cbn; lia|cbn; lia|done|].
  destruct (node_step 10 [109; 111; 117; 115; 101; 48] mouse0_device mouse_ptr (mk_boot ((b_devices s ++ [tty0_device]) ++ [fb0_device]) v2) fs root d2 _ dt H2)
    as (v3 & d3 & E3 & H3 & M3 & R3); [done|by apply (bool_decide_unpack _)|cbn; lia|cbn; lia|done|].
  exists v3, d3. split; [|split; [exact H3|cbn [b_vfs] in *; split; congruence]].
  unfold init_tty, init_fbdev, init_mousedev. rewrite (bind_run _ _ _ _ _ E1). cbn [b_devices] in *. rewrite (bind_run _ _ _ _ _ E2), (bind_run _ _ _ _ _ E3).
  by rewrite <- !app_assoc.
Qed.

(** [k_thread] up to the mount of the root. *)
Lemma files_to_mount disk tty_ptr fb_ptr mouse_ptr devices f f1 r :
  vfs_mount file_systems [47] disk (Some FAT32) (mk_vfs_state [] registered None f) =
    Done (0, mk_vfs_state [root_mi disk r] registered (Some (root_mi disk r)) f1) ->
  k_thread_files disk tty_ptr fb_ptr mouse_ptr (mk_boot devices (mk_vfs_state [] [] None f)) =
    (_ ← on_vfs (vfs_mount file_systems (DEV_DIR ++ [47]) 0 (Some DEVFS));
     a ← init_tty file_systems tty_ptr DEV_DIR; b ← init_fbdev file_systems fb_ptr DEV_DIR;
     c ← init_mousedev file_systems mouse_ptr DEV_DIR; mret (a, b, c))
      (mk_boot devices (mk_vfs_state [root_mi disk r] registered (Some (root_mi disk r)) f1)).
Proof.
  intros E1. unfold k_thread_files. do 4 (erewrite bind_run by reflexivity). cbv beta.
  match goal with |- k_thread_mounts _ _ _ _ _ ?x = _ => change x with (mk_boot devices (mk_vfs_state [] registered None f)) end.
  unfold k_thread_mounts. fold FAT32 DEVFS.
  erewrite bind_run; [|unfold on_vfs; cbn [b_vfs]; rewrite E1; reflexivity]. reflexivity.
Qed.

End Files.

(** The small volume of FatDir.v with its boot record, in a machine without files. *)
Definition boot_disk : devobj := mk_devobj ram_disk (st 1 66 0x29 small_disk) 0.
Definition boot_fs : fs_state := mk_fs_state ∅ ∅ ∅ {[ 4 := boot_disk ]} 9 (fun _ => 0).

