(* ===== verification/Main.v ===== *)
(** * The first thread of the kernel (src/src/kernel/main.c)

    [k_thread] after the drivers are set up, as one run over the devices and the state of the kernel: the
    file systems, the mounts and the device nodes of BootFiles.v, then the first program. *)
From S2P Require Import Prelude CString Vec Rtc Device Pipe Pmm PageTable Vmm Spaces Fork FatTypes FatDisk FatChain FatDir Fs Tmpfs Vfs Fat32 Event Kernel Sched Elf Loader Proc Start Boot BootFiles.
Open Scope Z_scope.

(** "/prog/math_test", "/dev/tty0" and "PATH=/prog". *)
Definition FIRST_PROGRAM : list Z := [47; 112; 114; 111; 103; 47; 109; 97; 116; 104; 95; 116; 101; 115; 116].
Definition TTY0 : list Z := [47; 100; 101; 118; 47; 116; 116; 121; 48].
Definition PATH_PROG : list Z := [80; 65; 84; 72; 61; 47; 112; 114; 111; 103].

Record system := mk_system { y_devices : list device; y_kernel : kstate }.

(** Running a step of the boot, and of the kernel. *)
Definition on_boot {A} (o : BM A) : M system A := fun y =>
  match o (mk_boot (y_devices y) (k_vfs (y_kernel y))) with
  | Done (a, b) => Done (a, mk_system (b_devices b) (set_k_vfs (b_vfs b) (y_kernel y)))
  | Halt => Halt
  | Fault => Fault
  | Fuel => Fuel
  end.
Definition on_kernel {A} (o : KM A) : M system A := fun y =>
  match o (y_kernel y) with
  | Done (a, s) => Done (a, mk_system (y_devices y) s)
  | Halt => Halt
  | Fault => Fault
  | Fuel => Fuel
  end.

Section Main.
Context (me : nat) (file_table : Z -> option file_ops) (drivers : Z -> DriverOps) `{Env}.
Context (junk : mem) (junk_private : fat_private) (reused : Z -> list Z) (chain_fuel find_fuel : nat) (junk_entry : Z).

Abbreviation the_fses := (file_systems drivers junk junk_private reused chain_fuel find_fuel).

(** From [init_vfs] to the first program; [disk] is the first device, the other addresses those of the
    devices of the terminal, the framebuffer and the mouse. *)
Definition k_thread (disk tty_ptr fb_ptr mouse_ptr : Z) : M system (Z + Z) :=
  _ ← on_boot (k_thread_files drivers junk junk_private reused chain_fuel find_fuel disk tty_ptr fb_ptr mouse_ptr);
  on_kernel (sched_run_program me the_fses file_table drivers junk_entry FIRST_PROGRAM None (Some [PATH_PROG])
    (Some TTY0) (Some TTY0) (Some TTY0) 0).

(** Without the program on the disk the kernel stops at its start: the result of [vfs_open] is used
    without a test, and the length of a file at NULL is read. *)
Theorem first_program_missing (devices devices' : list device) (s : kstate) (disk tty_ptr fb_ptr mouse_ptr : Z) (r : Z * Z * Z) (v v' : vfs_state) :
  k_thread_files drivers junk junk_private reused chain_fuel find_fuel disk tty_ptr fb_ptr mouse_ptr (mk_boot devices (k_vfs s)) =
    Done (r, mk_boot devices' v) ->
  vfs_open the_fses FIRST_PROGRAM v = Done (0, v') -> files (v_fs v') !! 0 = None ->
  spaces_ok (k_vmm s) -> room (k_vmm s) 1 ->
  k_thread disk tty_ptr fb_ptr mouse_ptr (mk_system devices s) = Fault.
Proof.
  intros Hb Ho Hf Hok Hroom. unfold k_thread.
  erewrite bind_run by (unfold on_boot; cbn [y_devices y_kernel]; rewrite Hb; reflexivity). cbn [b_devices b_vfs y_kernel].
  destruct (create_total (k_vmm s) 0 Hok Hroom) as (pm & u & R & _); [lia|].
  assert (E : sched_run_program me the_fses file_table drivers junk_entry FIRST_PROGRAM None (Some [PATH_PROG]) (Some TTY0) (Some TTY0) (Some TTY0) 0
    (set_k_vfs v s) = Fault); [|unfold on_kernel; cbn [y_kernel]; by rewrite E].
  unfold sched_run_program. erewrite bind_run by (apply on_vmm_run; exact R).
  assert (El : elf_run_binary the_fses file_table drivers FIRST_PROGRAM pm (set_k_vmm u (set_k_vfs v s)) = Fault).
  { unfold elf_run_binary. erewrite bind_run by (unfold Kernel.on_vfs, on; cbn [k_vfs set_k_vmm set_k_vfs]; rewrite Ho; reflexivity).
    unfold mbind at 1, M_bind at 1, on_files, Kernel.on_vfs, on, on_fs. cbn. unfold get_file. by rewrite Hf. }
  unfold mbind at 1, M_bind at 1. by rewrite El.
Qed.
End Main.

(** The machine of BootFiles.v, whose disk has no directory "prog". *)
Definition bare_kernel : kstate := set_k_vfs (mk_vfs_state [] [] None boot_fs) small_kernel.
Definition bare_boot : outcome ((Z * Z * Z) * boot) :=
  k_thread_files no_drivers (fun _ => 7) small_private (fun _ => []) 9 2 4 70 71 72 (mk_boot [ram_disk] (k_vfs bare_kernel)).
Definition bare_vfs : vfs_state := match bare_boot with Done (_, b) => b_vfs b | _ => k_vfs bare_kernel end.
Definition bare_open : outcome (Z * vfs_state) :=
  vfs_open (file_systems no_drivers (fun _ => 7) small_private (fun _ => []) 9 2) FIRST_PROGRAM bare_vfs.

Lemma first_program_missing_witness :
  k_thread 0 tmpfs_files no_drivers (fun _ => 7) small_private (fun _ => []) 9 2 0 4 70 71 72 (mk_system [ram_disk] bare_kernel) = Fault.
Proof.
  assert (Hb : is_done bare_boot = true) by (vm_compute; reflexivity).
  destruct bare_boot as [[r [devices' v]]| | |] eqn:Eb; try discriminate Hb.
  assert (Hv : bare_vfs = v) by (unfold bare_vfs; by rewrite Eb).
  assert (Ho : match bare_open with Done (x, v') => Some (x, files (v_fs v') !! 0) | _ => None end = Some (0, None)) by (vm_compute; reflexivity).
  unfold bare_open in Ho. rewrite Hv in Ho. destruct (vfs_open _ FIRST_PROGRAM v) as [[x v']| | |] eqn:Eo; try discriminate Ho.
  injection Ho as -> Hf. clear Hb Hv.
  apply (first_program_missing 0 tmpfs_files no_drivers (fun _ => 7) small_private (fun _ => []) 9 2 0 [ram_disk] devices' bare_kernel 4 70 71 72 r v v');
    [exact Eb|exact Eo|exact Hf| |].
  - exact two_spaces_ok.
  - apply (room_le _ _ 477); [lia|exact two_spaces_room].
Defined.
