(* ===== verification/Shell.v ===== *)
(** * The shell (src/src/prog/shell/src/minishell_functions.c, main.c)

    The functions that take a command line apart work on arrays of bytes; [None] is an access outside
    of an array or of a block.  Every system call is recorded, and what it answers is a function of
    the calls before it, the class [Answers]; [fork] answers once in the parent and once in the child.
    [junk] is what a new heap block holds; freeing a block has no further effect, but a pointer that
    no [malloc] returned must not be freed. *)
From S2P Require Import Prelude CString Vec Rtc Device Pipe FatTypes Fs.
Import CString.Libc.

Definition MAX_ARGS : nat := 64.
Definition MAX_ARGS_LEN : nat := 64.
Definition MAX_PATHS : nat := 64.
Definition MAX_PATHS_LEN : nat := 96.
(** " ,\t" *)
Definition WHITESPACE : list Z := [32; 44; 9; 0].

(** A word of the argument array: a string from [malloc], or what was there. *)
Inductive slot := Str (s : list Z) | Raw (v : Z).

Inductive call :=
| CPrompt | CGets | CPipe | CFork | CWait | CPerror
| CAccess (path : list Z) (mode : Z)
| CDup (fd : Z) | CClose (fd : Z) | COpen (path : list Z) (flags : Z) | CRemove (path : list Z)
| CExecve (path : list Z) (argv : list slot)
| CExit (status : Z).

(** The results of the calls. *)
Class Answers := {
  answer : list call -> call -> Z;
  line : list call -> list Z;
  pipe_fds : list call -> Z * Z;
  PATH : option (list Z)
}.

Section Shell.
Context (junk : nat -> Z).
Definition heap_block (n : nat) : list Z := junk <$> seq 0 n.

(** ** Taking a line apart *)

Definition isBackground (cmd : list Z) : option (Z * list Z) :=
  e ← strchr cmd 0;
  e ← e;
  if e =? 0 then None
  else
    c ← cmd !! Z.to_nat (e - 1);
    if c =? 38 then Some (0, <[Z.to_nat (e - 1) := 0]> cmd) else Some (-1, cmd).

(** The loops that step over spaces, forwards from [first] and backwards from [last]. *)
Fixpoint skip_leading (s : list Z) (first : Z) : option Z :=
  match s with [] => None | c :: s' => if c =? 32 then skip_leading s' (first + 1) else Some first end.
Fixpoint skip_trailing (n : nat) (s : list Z) : option Z :=
  match n with O => None | S n' => c ← s !! n'; if c =? 32 then skip_trailing n' s else Some (Z.of_nat n) end.

(** [malloc(n + 1)], [strncpy] of [n] characters and a terminator. *)
Definition copy_piece (src : list Z) (n : nat) : option (list Z) :=
  b ← strncpy (heap_block (n + 1)) src n; Some (<[n := 0]> b).

(** [get_redirectedIput] ([c] is '<') and [get_redirectedOput] ([c] is '>'): the name, or NULL, and the
    line, which now ends at [c]. *)
Definition get_redirected (c : Z) (cmd_line : list Z) : option (option (list Z) * list Z) :=
  p ← strchr cmd_line c;
  match p with
  | None => Some (None, cmd_line)
  | Some p =>
      let cmd_line := <[Z.to_nat p := 0]> cmd_line in
      let first := Z.to_nat (p + 1) in
      e ← strchr (drop first cmd_line) 0;
      e ← e;
      let last := (first + Z.to_nat e)%nat in
      first ← skip_leading (drop first cmd_line) (Z.of_nat first);
      last ← skip_trailing last cmd_line;
      if last <? first then None
      else name ← copy_piece (drop (Z.to_nat first) cmd_line) (Z.to_nat (last - first)); Some (Some name, cmd_line)
  end.
Definition get_redirectedIput : list Z -> option (option (list Z) * list Z) := get_redirected 60.
Definition get_redirectedOput : list Z -> option (option (list Z) * list Z) := get_redirected 62.

(** [cmds[k] = ..] in a block of [size] bytes. *)
Definition store_cmd (size k : nat) (cmds : list (list Z)) (c : list Z) : option (list (list Z)) :=
  if (8 * (k + 1) <=? size)%nat then Some (cmds ++ [c]) else None.
Fixpoint cmds_loop (fuel : nat) (cmd_line : list Z) (size first : nat) (cmds : list (list Z)) : option (list (list Z)) :=
  match fuel with
  | O => None
  | S f =>
      p ← strchr (drop first cmd_line) 124;
      match p with
      | Some d =>
          c ← copy_piece (drop first cmd_line) (Z.to_nat d);
          cmds ← store_cmd size (length cmds) cmds c;
          cmds_loop f cmd_line size (first + Z.to_nat d + 1) cmds
      | None =>
          nl ← strchr cmd_line 10;
          nl ← nl;
          if nl <? Z.of_nat first then None
          else c ← copy_piece (drop first cmd_line) (Z.to_nat nl - first); store_cmd size (length cmds) cmds c
      end
  end.
Definition get_cmds (cmd_line : list Z) : option (list (list Z)) :=
  n ← strlen cmd_line; cmds_loop (S (length cmd_line)) cmd_line (Z.to_nat n) 0 [].

Definition wasTerminated (cmd : list Z) : option Z :=
  a ← strncmp cmd [101; 120; 105; 116; 0] 4;
  if a =? 0 then Some 1
  else b ← strncmp cmd [113; 117; 105; 116; 0] 4; Some (if b =? 0 then 1 else 0).

(** [argv = malloc(MAX_ARGS)]: room for eight pointers. *)
Definition new_argv : list slot := Raw ∘ junk <$> seq 0 (MAX_ARGS / 8).
(** [argv[k] = malloc(MAX_ARGS_LEN + 1)], [strncpy] of [n] characters and a terminator. *)
Definition store_arg (argv : list slot) (k : nat) (src : list Z) (n : nat) : option (list slot) :=
  b ← strncpy (heap_block (MAX_ARGS_LEN + 1)) src n;
  if (n <=? MAX_ARGS_LEN)%nat && (k <? length argv)%nat then Some (<[k := Str (<[n := 0]> b)]> argv) else None.

Fixpoint args_loop (fuel : nat) (args : list Z) (first number : nat) (argv : list slot) : option (nat * nat * list slot) :=
  match fuel with
  | O => None
  | S f =>
      p ← strpbrk (drop first args) WHITESPACE;
      match p with
      | Some d =>
          if (number <? MAX_ARGS)%nat then
            if d =? 0 then args_loop f args (first + 1) number argv
            else
              argv ← store_arg argv number (drop first args) (Z.to_nat d);
              args_loop f args (first + Z.to_nat d + 1) (number + 1) argv
          else Some (first, number, argv)
      | None => Some (first, number, argv)
      end
  end.
Definition parse_args (args : list Z) : option (list slot) :=
  r ← args_loop (S (length args)) args 0 0 new_argv;
  let '(first, number, argv) := r in
  if (number <? MAX_ARGS)%nat then
    n ← strlen (drop first args);
    if n =? 0 then Some argv else store_arg argv number (drop first args) (Z.to_nat n)
  else Some argv.

(** ** Calls *)

Context `{Answers}.
Abbreviation SM := (M (list call)).

Definition do_call (c : call) : SM Z := fun h => Done (answer h c, h ++ [c]).
Definition do_gets : SM (list Z) := fun h => Done (line h, h ++ [CGets]).

(** The string of an array up to its terminator, as the kernel reads it. *)
Fixpoint to_nul (s : list Z) : option (list Z) :=
  match s with [] => None | c :: s' => if c =? 0 then Some [] else t ← to_nul s'; Some (c :: t) end.

(** [set_redirectedIput], [set_redirectedOput]. *)
Definition set_redirectedIput (iput : option (list Z)) : SM Z :=
  match iput with
  | None => mret (-1)
  | Some name =>
      saved_stdin ← do_call (CDup 0);
      path ← of_option (to_nul name);
      iFID ← do_call (COpen path O_RDONLY);
      if iFID =? -1 then _ ← do_call CPerror; mret (-2)
      else _ ← do_call (CClose 0); _ ← do_call (CDup iFID); _ ← do_call (CClose iFID); mret saved_stdin
  end.
Definition set_redirectedOput (oput : option (list Z)) : SM Z :=
  match oput with
  | None => mret (-1)
  | Some name =>
      saved_stdout ← do_call (CDup 1);
      path ← of_option (to_nul name);
      _ ← do_call (CRemove path);
      oFID ← do_call (COpen path (Z.lor O_WRONLY O_CREAT));
      if oFID =? -1 then _ ← do_call CPerror; mret (-2)
      else _ ← do_call (CClose 1); _ ← do_call (CDup oFID); _ ← do_call (CClose oFID); mret saved_stdout
  end.

(** [strncpy(pathName, dir, n); pathName[n] = '/'; pathName[n + 1] = '\0'; strcat(pathName, cmd)] *)
Definition join_path (pathName dir : list Z) (n : nat) (cmd : list Z) : option (list Z) :=
  b ← strncpy pathName dir n;
  if (n + 1 <? length b)%nat then strcat (<[(n + 1)%nat := 0]> (<[n := 47]> b)) cmd else None.

Definition try_path (pathName : list Z) : SM bool :=
  path ← of_option (to_nul pathName); r ← do_call (CAccess path X_OK); mret (r =? 0).

Fixpoint paths_loop (fuel : nat) (paths : list Z) (number first : nat) (pathName cmd : list Z) : SM (option (list Z)) :=
  match fuel with
  | O => out_of_fuel
  | S f =>
      p ← of_option (strchr (drop first paths) 58);
      match p with
      | Some d =>
          if (number <? MAX_PATHS)%nat then
            pathName ← of_option (join_path pathName (drop first paths) (Z.to_nat d) cmd);
            ok ← try_path pathName;
            if ok : bool then mret (Some pathName)
            else paths_loop f paths (number + 1) (first + Z.to_nat d + 1) pathName cmd
          else mret None
      | None =>
          if (number <? MAX_PATHS)%nat then
            e ← of_option (strchr (drop first paths) 0);
            e ← of_option e;
            pathName ← of_option (join_path pathName (drop first paths) (Z.to_nat e) cmd);
            ok ← try_path pathName;
            mret (if ok : bool then Some pathName else None)
          else mret None
      end
  end.
(** [paths] is NULL without the variable. *)
Definition get_pathName (paths : option (list Z)) (cmd : list Z) : SM (option (list Z)) :=
  paths ← of_option paths;
  paths_loop (S (length paths)) paths 0 0 (heap_block (MAX_PATHS_LEN + MAX_ARGS_LEN + 1)) cmd.

(** ** main.c *)

(** How a command ends: the next one, leaving the loop over the commands, or the end of the process. *)
Inductive flow := Next | Break | Ended.

(** A successful [execve] does not return. *)
Definition run_child (counter number : nat) (fd : Z * Z) (pathName : list Z) (argv : list slot) : SM flow :=
  _ ← (if (1 <? number)%nat then
         if (counter =? 0)%nat then
           _ ← do_call (CClose 1); _ ← do_call (CDup fd.2); _ ← do_call (CClose fd.1); do_call (CClose fd.2)
         else
           _ ← do_call (CClose 0); _ ← do_call (CDup fd.1); _ ← do_call (CClose fd.1); do_call (CClose fd.2)
       else mret 0);
  path ← of_option (to_nul pathName);
  r ← do_call (CExecve path argv);
  if r =? -1 then _ ← do_call CPerror; _ ← do_call (CExit 42); mret Ended else mret Ended.

Definition restore (fd saved : Z) : SM unit :=
  if saved =? -1 then mret tt
  else _ ← do_call (CClose fd); _ ← do_call (CDup saved); _ ← do_call (CClose saved); mret tt.

(** [while (argv[idx] != NULL) free(argv[idx++]);] *)
Fixpoint free_args (argv : list slot) : SM unit :=
  match argv with
  | [] => fault
  | Str _ :: argv' => free_args argv'
  | Raw v :: _ => if v =? 0 then mret tt else fault
  end.

Definition run_command (counter number : nat) (fd : Z * Z) (cmd : list Z) : SM flow :=
  r ← of_option (isBackground cmd); let '(runBackground, cmd) := r in
  r ← of_option (get_redirectedOput cmd); let '(oput, cmd) := r in
  r ← of_option (get_redirectedIput cmd); let '(iput, cmd) := r in
  argv ← of_option (parse_args cmd);
  arg0 ← of_option (match argv with Str a :: _ => Some a | _ => None end);
  t ← of_option (wasTerminated arg0);
  if truthy t then _ ← do_call (CExit 0); mret Ended
  else
    pathName ← get_pathName PATH arg0;
    match pathName with
    | Some pathName =>
        saved_stdi ← set_redirectedIput iput;
        saved_stdo ← set_redirectedOput oput;
        if (saved_stdi =? -2) || (saved_stdo =? -2) then mret Break
        else
          cpid ← do_call CFork;
          if cpid =? 0 then run_child counter number fd pathName argv
          else
            _ ← (if cpid =? -1 then do_call CPerror
                 else
                   _ ← (if (counter =? 1)%nat then _ ← do_call (CClose fd.1); do_call (CClose fd.2) else mret 0);
                   if runBackground =? -1 then do_call CWait else mret 0);
            _ ← restore 1 saved_stdo;
            _ ← restore 0 saved_stdi;
            _ ← free_args argv;
            mret Next
    | None => _ ← do_call CPerror; mret Next
    end.

Fixpoint run_commands (counter number : nat) (fd : Z * Z) (cmds : list (list Z)) : SM flow :=
  match cmds with
  | [] => mret Next
  | cmd :: cmds' =>
      r ← run_command counter number fd cmd;
      match r with Next => run_commands (counter + 1) number fd cmds' | _ => mret r end
  end.

(** One round of the endless loop; [true] if the process goes on. *)
Definition shell_round : SM bool :=
  _ ← do_call CPrompt;
  cmd_line ← do_gets;
  cmds ← of_option (get_cmds cmd_line);
  fd ← (fun h => Done (pipe_fds h, h));
  _ ← (if (1 <? length cmds)%nat then do_call CPipe else mret 0);
  r ← run_commands 0 (length cmds) fd cmds;
  mret (match r with Ended => false | _ => true end).
End Shell.

(** ** Strings *)

Lemma char_s8 x c : char_ok x -> 0 <= c < 128 -> (s8 x =? c) = (x =? c).
Proof.
  unfold char_ok, s8. intros Hx Hc. destruct (Z.eqb_spec x c) as [->|N].
  - apply Z.eqb_eq. rewrite Z.mod_small by lia. lia.
  - apply Z.eqb_neq. destruct (Z.lt_ge_cases x 128).
    + rewrite Z.mod_small by lia. lia.
    + pose proof (Z.mod_pos_bound (x + 2 ^ 7) (2 ^ 8) ltac:(lia)) as B.
      replace (x + 2 ^ 7) with (x - 2 ^ 7 + 1 * 2 ^ 8) in * by lia. rewrite Z.mod_add in * by lia.
      rewrite (Z.mod_small (x - 2 ^ 7)) in * by lia. lia.
Qed.

Lemma strchr_here t c r : str_ok t -> 0 < c < 128 -> (c ∉ t) -> strchr (t ++ c :: r) c = Some (Some (Z.of_nat (length t))).
Proof.
  intros Ht Hc. induction Ht as [|x t Hx Ht IH]; intros Hn; cbn [app strchr].
  - rewrite (proj2 (Z.eqb_neq c 0)) by lia. rewrite char_s8, Z.eqb_refl by (unfold char_ok; lia). done.
  - apply not_elem_of_cons in Hn as [Hne Hn]. rewrite (proj2 (Z.eqb_neq x 0)) by (unfold char_ok in Hx; lia).
    rewrite char_s8, (proj2 (Z.eqb_neq x c)) by (done || congruence || lia). cbn [negb andb]. rewrite IH by done.
    cbn [mbind option_bind option_map length]. do 2 f_equal. lia.
Qed.
Lemma strchr_none t c r : str_ok t -> 0 < c < 128 -> (c ∉ t) -> strchr (t ++ 0 :: r) c = Some None.
Proof.
  intros Ht Hc. induction Ht as [|x t Hx Ht IH]; intros Hn; cbn [app strchr].
  - change (0 =? 0) with true. cbn [negb andb]. by rewrite (proj2 (Z.eqb_neq c 0)) by lia.
  - apply not_elem_of_cons in Hn as [Hne Hn]. rewrite (proj2 (Z.eqb_neq x 0)) by (unfold char_ok in Hx; lia).
    rewrite char_s8, (proj2 (Z.eqb_neq x c)) by (done || congruence || lia). cbn [negb andb]. by rewrite IH by done.
Qed.
Lemma strchr_end t r : str_ok t -> strchr (t ++ 0 :: r) 0 = Some (Some (Z.of_nat (length t))).
Proof.
  intros Ht. induction Ht as [|x t Hx Ht IH]; cbn [app strchr]; [done|].
  rewrite (proj2 (Z.eqb_neq x 0)) by (unfold char_ok in Hx; lia).
  rewrite char_s8, (proj2 (Z.eqb_neq x 0)) by (done || unfold char_ok in Hx; lia). cbn [negb andb]. rewrite IH.
  cbn [mbind option_bind option_map length]. do 2 f_equal. lia.
Qed.

(** Copying a part of a string that is longer. *)
Lemma strncpy_part dest t x r :
  str_ok t -> (length t < length dest)%nat ->
  strncpy dest (t ++ x :: r) (length t) = Some (t ++ 0 :: drop (S (length t)) dest).
Proof.
  intros Ht. revert dest. induction Ht as [|c t Hc Ht IH]; intros [|d dest] Hl; cbn [length] in Hl; try lia; cbn [app strncpy length].
  - by destruct (x =? 0).
  - rewrite (proj2 (Z.eqb_neq c 0)) by (unfold char_ok in Hc; lia). by rewrite IH by lia.
Qed.

Lemma length_block junk n : length (heap_block junk n) = n.
Proof. unfold heap_block. by rewrite length_fmap, length_seq. Qed.

Lemma copy_piece_run junk t x r : str_ok t -> copy_piece junk (t ++ x :: r) (length t) = Some (t ++ [0]).
Proof.
  intros Ht. unfold copy_piece. rewrite strncpy_part by (done || rewrite length_block; lia). cbn [mbind option_bind].
  rewrite insert_app_r_alt, Nat.sub_diag by lia. rewrite drop_ge by (rewrite length_block; lia). done.
Qed.

Lemma to_nul_run t r : str_ok t -> to_nul (t ++ 0 :: r) = Some t.
Proof.
  induction 1 as [|c t Hc Ht IH]; cbn [app to_nul]; [done|].
  rewrite (proj2 (Z.eqb_neq c 0)) by (unfold char_ok in Hc; lia). by rewrite IH.
Qed.

(** ** Arguments *)

Lemma strpbrk_whitespace t r : str_ok t -> strpbrk (t ++ 0 :: r) WHITESPACE = Some None.
Proof.
  intros Ht. assert (E : strcspn (t ++ 0 :: r) WHITESPACE = Some (Z.of_nat (length t))).
  { induction Ht as [|c t Hc Ht IH]; [done|]. cbn [app strcspn]. rewrite (proj2 (Z.eqb_neq c 0)) by (unfold char_ok in Hc; lia).
    assert (S : cspan_stopped WHITESPACE c = Some true).
    { unfold WHITESPACE. cbn [cspan_stopped]. change (32 =? 0) with false. destruct (Z.eqb_spec 32 c) as [<-|]; done. }
    rewrite S. cbn [mbind option_bind]. rewrite IH. cbn [mbind option_bind length]. f_equal. lia. }
  unfold strpbrk. rewrite E. cbn [mbind option_bind]. rewrite Nat2Z.id, lookup_app_r, Nat.sub_diag by lia. done.
Qed.

(** the shell never passes arguments: [parse_args] relies on [strpbrk], which in this C library
    never finds a separator, so any command of up to 64 characters, blanks included, becomes the
    one argument [argv[0]]; the rest of the array keeps what the block held, also at [argv[1]], where
    the terminating NULL should be; and a command of more than 64 characters overflows its block. *)
Theorem parse_args_whole (junk : nat -> Z) (t r : list Z) :
  str_ok t -> t <> [] ->
  parse_args junk (t ++ 0 :: r) =
    if (length t <=? MAX_ARGS_LEN)%nat then
      Some (Str (t ++ 0 :: drop (S (length t)) (heap_block junk (MAX_ARGS_LEN + 1))) :: (Raw ∘ junk <$> seq 1 7))
    else None.
Proof.
  intros Ht Hne. unfold parse_args. cbn [args_loop]. rewrite drop_0, strpbrk_whitespace by done. cbn [mbind option_bind].
  change (0 <? MAX_ARGS)%nat with true. cbv beta iota. rewrite drop_0, libc_strlen_eq, strlen_spec by done. cbn [mbind option_bind].
  rewrite (proj2 (Z.eqb_neq _ 0)) by (destruct t; [done|cbn; lia]). rewrite Nat2Z.id. unfold store_arg.
  destruct (Nat.leb_spec (length t) MAX_ARGS_LEN) as [L|L].
  - rewrite strncpy_part by (done || rewrite length_block; lia). cbn [mbind option_bind andb].
    change (0 <? length (new_argv junk))%nat with true. cbv iota.
    rewrite insert_app_r_alt, Nat.sub_diag by lia. done.
  - cbn [andb]. by destruct (strncpy _ _ _).
Qed.

Lemma parse_args_whole_witness :
  parse_args (fun _ => 7) [108; 115; 32; 45; 97; 0] =
    Some (Str ([108; 115; 32; 45; 97; 0] ++ replicate 59 7) :: replicate 7 (Raw 7)).
Proof. exact (parse_args_whole (fun _ => 7) [108; 115; 32; 45; 97] [] ltac:(repeat constructor; vm_compute; done) ltac:(done)). Defined.

(** ** Commands *)

(** The commands with [|] between them. *)
Fixpoint piped (c : list Z) (cs : list (list Z)) : list Z :=
  match cs with [] => c | c' :: cs' => c ++ 124 :: piped c' cs' end.
Definition plain_cmd (c : list Z) : Prop := str_ok c /\ (124 ∉ c) /\ (10 ∉ c).

Lemma piped_ok c cs : Forall plain_cmd (c :: cs) -> str_ok (piped c cs) /\ (10 ∉ piped c cs).
Proof.
  revert c. induction cs as [|c' cs IH]; intros c Hc; apply Forall_cons in Hc as [(H1 & H2 & H3) Hc]; [done|].
  destruct (IH c' Hc) as [I1 I2]. cbn [piped]. split.
  - apply Forall_app. split; [done|]. constructor; [unfold char_ok; lia|done].
  - rewrite elem_of_app, elem_of_cons. intros [?|[?|?]]; [done|lia|done].
Qed.

Lemma cmds_loop_run junk pre c cs r size done_ fuel :
  Forall plain_cmd (c :: cs) -> str_ok pre -> (10 ∉ pre) -> (length cs < fuel)%nat ->
  let whole := pre ++ piped c cs ++ 10 :: 0 :: r in
  (8 * (length done_ + S (length cs)) <= size)%nat ->
  cmds_loop junk fuel whole size (length pre) done_ = Some (done_ ++ ((fun c => c ++ [0]) <$> c :: cs)).
Proof.
  intros Hc Hp Hp' Hf whole. subst whole. revert pre c done_ fuel Hc Hp Hp' Hf.
  induction cs as [|c' cs IH]; intros pre c done_ [|f] Hc Hp Hp' Hf Hs; cbn [length] in Hf; try lia; cbn [cmds_loop].
  - apply Forall_cons in Hc as [(H1 & H2 & H3) _]. cbn [piped]. rewrite drop_app_length.
    assert (E : strchr (c ++ 10 :: 0 :: r) 124 = Some None).
    { change (10 :: 0 :: r) with ([10] ++ 0 :: r). rewrite app_assoc. apply strchr_none; [|lia|].
      - apply Forall_app. split; [done|]. repeat constructor.
      - rewrite elem_of_app, list_elem_of_singleton. intros [?|?]; [done|lia]. }
    rewrite E. cbn [mbind option_bind]. rewrite app_assoc, strchr_here; [|by apply Forall_app|lia|].
    2: { rewrite elem_of_app. tauto. }
    cbn [mbind option_bind]. rewrite length_app, (proj2 (Z.ltb_ge _ _)) by lia.
    replace (Z.to_nat (Z.of_nat (length pre + length c)) - length pre)%nat with (length c) by lia.
    rewrite copy_piece_run by done. cbn [mbind option_bind]. unfold store_cmd.
    rewrite (proj2 (Nat.leb_le _ _)) by (cbn [length] in Hs; lia). done.
  - pose proof Hc as Hall. apply Forall_cons in Hc as [(H1 & H2 & H3) Hc]. cbn [piped]. rewrite <- app_assoc, drop_app_length.
    cbn [app]. rewrite strchr_here by (done || lia). cbn [mbind option_bind].
    rewrite Nat2Z.id, copy_piece_run by done. cbn [mbind option_bind]. unfold store_cmd.
    rewrite (proj2 (Nat.leb_le _ _)) by (cbn [length] in Hs; lia). cbn [mbind option_bind].
    replace (length pre + length c + 1)%nat with (length (pre ++ c ++ [124])) by (rewrite !length_app; cbn; lia).
    replace (pre ++ c ++ 124 :: piped c' cs ++ 10 :: 0 :: r) with ((pre ++ c ++ [124]) ++ piped c' cs ++ 10 :: 0 :: r)
      by (by rewrite <- !app_assoc).
    rewrite IH; [by rewrite <- app_assoc|done| | |lia|rewrite length_app; cbn [length] in *; lia].
    + repeat (apply Forall_app; split); try done. repeat constructor.
    + rewrite !elem_of_app, list_elem_of_singleton. intros [?|[?|?]]; [done|done|lia].
Qed.

(** [get_cmds] splits a line at its bars into exactly its commands - if the line has at least
    eight characters for each of them, since the block for the array of pointers has only as many
    bytes as the line has characters; a shorter line, such as a command of two letters, overflows
    the block with its first pointer. *)
Theorem get_cmds_splits (junk : nat -> Z) (c : list Z) (cs : list (list Z)) (r : list Z) :
  Forall plain_cmd (c :: cs) ->
  let text := piped c cs ++ [10] in
  ((8 * S (length cs) <= length text)%nat -> get_cmds junk (text ++ 0 :: r) = Some ((fun c => c ++ [0]) <$> c :: cs)) /\
  ((length text < 8)%nat -> get_cmds junk (text ++ 0 :: r) = None).
Proof.
  intros Hc text. destruct (piped_ok c cs Hc) as [Ho Hn].
  assert (Ht : str_ok text) by (apply Forall_app; split; [done|repeat constructor]).
  assert (El : text ++ 0 :: r = [] ++ piped c cs ++ 10 :: 0 :: r) by (unfold text; by rewrite <- app_assoc).
  split; intros Hs; unfold get_cmds; rewrite libc_strlen_eq, strlen_spec by done; cbn [mbind option_bind]; rewrite Nat2Z.id.
  - rewrite El at 2. change 0%nat with (length (@nil Z)) at 1. rewrite cmds_loop_run; try done.
    + constructor.
    + apply not_elem_of_nil.
    + assert (B : forall cs c, (length cs <= length (piped c cs))%nat).
      { clear. induction cs as [|c' cs IH]; intros c; cbn [piped length]; [lia|]. rewrite length_app. cbn [length]. specialize (IH c'). lia. }
      specialize (B cs c). unfold text. rewrite !length_app. cbn [length]. lia.
  - cbn [cmds_loop]. rewrite drop_0.
    assert (N : forall c, store_cmd (length text) 0 [] c = None) by (intros; unfold store_cmd; rewrite (proj2 (Nat.leb_gt _ _)); [done|lia]).
    destruct (strchr _ 124) as [[d|]|]; cbn [mbind option_bind]; [|destruct (strchr _ 10) as [[d|]|]|done]; cbn [mbind option_bind];
      [|destruct (_ <? _)|done|done]; try done;
      (destruct (copy_piece _ _ _); cbn [mbind option_bind length]; [by rewrite N|done]).
Qed.

Lemma get_cmds_splits_witness :
  get_cmds (fun _ => 0) ([108; 115; 100; 32; 47; 112; 114; 111; 103; 124; 115; 104; 101; 108; 108; 10] ++ [0]) =
    Some [[108; 115; 100; 32; 47; 112; 114; 111; 103; 0]; [115; 104; 101; 108; 108; 0]] /\
  get_cmds (fun _ => 0) ([108; 115; 10] ++ [0]) = None.
Proof.
  assert (P : forall c, Forall (fun x => 0 < x < 256 /\ x <> 124 /\ x <> 10) c -> plain_cmd c).
  { intros c Hc. rewrite Forall_forall in Hc. split; [apply Forall_forall; intros x Hx; apply (Hc x Hx)|].
    split; intros Hx; apply Hc in Hx; lia. }
  split.
  - apply (proj1 (get_cmds_splits (fun _ => 0) [108; 115; 100; 32; 47; 112; 114; 111; 103] [[115; 104; 101; 108; 108]] []
      ltac:(repeat constructor; apply P; repeat constructor; lia)) ltac:(cbn; lia)).
  - apply (proj2 (get_cmds_splits (fun _ => 0) [108; 115] [] [] ltac:(repeat constructor; apply P; repeat constructor; lia)) ltac:(cbn; lia)).
Defined.

(** ** Redirections *)

Definition blanks (n : nat) : list Z := replicate n 32.

Lemma length_blanks n : length (blanks n) = n.
Proof. apply length_replicate. Qed.

Lemma skip_leading_run n x s first : x <> 32 -> skip_leading (blanks n ++ x :: s) first = Some (first + Z.of_nat n).
Proof.
  intros Hx. revert first. induction n as [|n IH]; intros first; cbn [blanks replicate app skip_leading].
  - rewrite (proj2 (Z.eqb_neq x 32)) by done. f_equal. lia.
  - change (32 =? 32) with true. cbv iota. fold (blanks n). rewrite IH. f_equal. lia.
Qed.
Lemma skip_trailing_run pre x n post :
  x <> 32 -> skip_trailing (length (pre ++ [x]) + n) (pre ++ [x] ++ blanks n ++ post) = Some (Z.of_nat (length (pre ++ [x]))).
Proof.
  intros Hx. induction n as [|n IH] in post |- *.
  - rewrite Nat.add_0_r. rewrite length_app. cbn [length]. rewrite Nat.add_1_r. cbn [skip_trailing].
    rewrite lookup_app_r, Nat.sub_diag by lia. cbn [mbind option_bind app lookup list_lookup].
    by rewrite (proj2 (Z.eqb_neq x 32)) by done.
  - rewrite Nat.add_succ_r. cbn [skip_trailing].
    assert (E : (pre ++ [x] ++ blanks (S n) ++ post) !! (length (pre ++ [x]) + n)%nat = Some 32).
    { rewrite app_assoc, lookup_app_r by lia. replace (length (pre ++ [x]) + n - length (pre ++ [x]))%nat with n by lia.
      unfold blanks. rewrite lookup_app_l by (rewrite length_replicate; lia). by apply lookup_replicate_2; lia. }
    rewrite E. cbn [mbind option_bind]. change (32 =? 32) with true. cbv iota. rewrite <- (IH (32 :: post)). f_equal.
    unfold blanks. rewrite (replicate_S_end n), <- !app_assoc. done.
Qed.

(** A name without blanks at its ends. *)
Definition trimmed (name : list Z) : Prop := exists x m y, (name = [x] /\ m = [] /\ y = x \/ name = x :: m ++ [y]) /\ x <> 32 /\ y <> 32.

Lemma trimmed_first name : trimmed name -> exists x m, name = x :: m /\ x <> 32.
Proof. intros (x & m & y & [(-> & _)| ->] & Hx & Hy); eauto. Qed.
Lemma trimmed_last name : trimmed name -> exists m y, name = m ++ [y] /\ y <> 32.
Proof. intros (x & m & y & [(-> & -> & ->)| ->] & Hx & Hy); [by exists [], x|by exists (x :: m), y]. Qed.

(** a redirection is taken off the command: after [get_redirectedIput] (or [Oput]) on
    "command < name", with any number of blanks around the name, the result is the name alone and the
    command ends in front of the sign; without the sign nothing changes. *)
Theorem redirection_name (junk : nat -> Z) (c : Z) (cmd name r : list Z) (i j : nat) :
  c = 60 \/ c = 62 -> str_ok cmd -> (c ∉ cmd) -> str_ok name -> trimmed name ->
  get_redirected junk c (cmd ++ c :: blanks i ++ name ++ blanks j ++ 0 :: r) =
    Some (Some (name ++ [0]), cmd ++ 0 :: blanks i ++ name ++ blanks j ++ 0 :: r) /\
  get_redirected junk c (cmd ++ 0 :: r) = Some (None, cmd ++ 0 :: r).
Proof.
  intros Hc Hcmd Hn Hname Htrim. unfold get_redirected. split; [|by rewrite strchr_none by (done || lia)].
  rewrite strchr_here by (done || lia). cbn [mbind option_bind]. rewrite Nat2Z.id, insert_app_r_alt, Nat.sub_diag by lia.
  change (<[0%nat := 0]> (c :: blanks i ++ name ++ blanks j ++ 0 :: r)) with (0 :: blanks i ++ name ++ blanks j ++ 0 :: r).
  set (buf := cmd ++ 0 :: blanks i ++ name ++ blanks j ++ 0 :: r).
  replace (Z.to_nat (Z.of_nat (length cmd) + 1)) with (length (cmd ++ [0])) by (rewrite length_app; cbn; lia).
  assert (Eb : buf = (cmd ++ [0]) ++ blanks i ++ name ++ blanks j ++ 0 :: r) by (unfold buf; by rewrite <- app_assoc).
  assert (Ed : drop (length (cmd ++ [0])) buf = blanks i ++ name ++ blanks j ++ 0 :: r) by (rewrite Eb; apply drop_app_length).
  assert (Hb : forall k, str_ok (blanks k)) by (intros k; apply Forall_replicate; unfold char_ok; lia).
  rewrite Ed. replace (blanks i ++ name ++ blanks j ++ 0 :: r) with ((blanks i ++ name ++ blanks j) ++ 0 :: r) at 1 by (by rewrite <- !app_assoc).
  rewrite strchr_end by (unfold str_ok in *; rewrite !Forall_app; auto). cbn [mbind option_bind]. rewrite Nat2Z.id.
  destruct (trimmed_first name Htrim) as (x & m & Ex & Hx).
  assert (Sl : forall f, skip_leading (blanks i ++ name ++ blanks j ++ 0 :: r) f = Some (f + Z.of_nat i)) by (intros f; rewrite Ex; by apply skip_leading_run).
  rewrite Sl. cbn [mbind option_bind].
  destruct (trimmed_last name Htrim) as (m' & y & Ey & Hy).
  assert (Es : skip_trailing (length (cmd ++ [0]) + length (blanks i ++ name ++ blanks j)) buf =
    Some (Z.of_nat (length (cmd ++ [0]) + i + length name))).
  { pose proof (skip_trailing_run ((cmd ++ [0]) ++ blanks i ++ m') y j (0 :: r) Hy) as T.
    assert (Eq : ((cmd ++ [0]) ++ blanks i ++ m') ++ [y] ++ blanks j ++ 0 :: r = buf) by (rewrite Eb, Ey, <- !app_assoc; done).
    assert (El : length (((cmd ++ [0]) ++ blanks i ++ m') ++ [y]) = Nat.add (Nat.add (length (cmd ++ [0])) i) (length name))
      by (rewrite Ey, !length_app, length_blanks; lia).
    rewrite Eq, El in T. rewrite !(length_app (blanks i)), (length_app name), !length_blanks, <- T. f_equal. lia. }
  rewrite Es. cbn [mbind option_bind]. rewrite (proj2 (Z.ltb_ge _ _)) by lia.
  replace (Z.to_nat (Z.of_nat (length (cmd ++ [0])) + Z.of_nat i)) with (length ((cmd ++ [0]) ++ blanks i))
    by (rewrite (length_app (cmd ++ [0])), length_blanks; lia).
  replace (Z.to_nat (Z.of_nat (length (cmd ++ [0]) + i + length name) - (Z.of_nat (length (cmd ++ [0])) + Z.of_nat i))) with (length name) by lia.
  rewrite Eb, app_assoc, drop_app_length.
  assert (Cp : exists z w, name ++ blanks j ++ 0 :: r = name ++ z :: w) by (destruct j; cbn; eauto).
  destruct Cp as (z & w & Ez). rewrite Ez, copy_piece_run by done. cbn [mbind option_bind]. rewrite <- Ez. by rewrite <- app_assoc.
Qed.

Lemma redirection_name_witness :
  get_redirected (fun _ => 0) 60 [115; 111; 114; 116; 60; 32; 97; 98; 32; 0] =
    Some (Some [97; 98; 0], [115; 111; 114; 116; 0; 32; 97; 98; 32; 0]).
Proof.
  apply (redirection_name (fun _ => 0) 60 [115; 111; 114; 116] [97; 98] [] 1 1); [by left|repeat constructor; vm_compute; done| |repeat constructor; vm_compute; done|].
  - intros Hin. repeat (apply elem_of_cons in Hin as [Hin|Hin]; [lia|]). by apply elem_of_nil in Hin.
  - exists 97, [], 98. split; [by right|lia].
Defined.

(** ** The search path *)

Fixpoint colons (d : list Z) (ds : list (list Z)) : list Z :=
  match ds with [] => d | d' :: ds' => d ++ 58 :: colons d' ds' end.
Definition dir_path (cmd d : list Z) : list Z := d ++ 47 :: cmd.

(** The reference: try the files in order, and take the first that may be executed. *)
Fixpoint path_search `{Answers} (paths : list (list Z)) (h : list call) : option (list Z) * list call :=
  match paths with
  | [] => (None, h)
  | p :: ps =>
      let h' := h ++ [CAccess p X_OK] in
      if answer h (CAccess p X_OK) =? 0 then (Some p, h') else path_search ps h'
  end.

Lemma join_path_run b d x r cmd r' :
  str_ok d -> str_ok cmd -> (length d + length cmd + 2 <= length b)%nat ->
  exists b', join_path b (d ++ x :: r) (length d) (cmd ++ 0 :: r') = Some b' /\ to_nul b' = Some (dir_path cmd d) /\ length b' = length b.
Proof.
  intros Hd Hc Hl. unfold join_path. rewrite strncpy_part by (done || lia). cbn [mbind option_bind].
  destruct (drop (S (length d)) b) as [|z rest] eqn:Ed; [apply (f_equal length) in Ed; rewrite length_drop in Ed; cbn in Ed; lia|].
  pose proof (f_equal length Ed) as El. rewrite length_drop in El. cbn [length] in El.
  rewrite (proj2 (Nat.ltb_lt _ _)) by (rewrite length_app; cbn [length]; lia).
  rewrite insert_app_r_alt, Nat.sub_diag by lia. rewrite insert_app_r_alt by lia.
  replace (length d + 1 - length d)%nat with 1%nat by lia. cbn [insert list_insert].
  change (d ++ 47 :: 0 :: rest) with (d ++ [47] ++ 0 :: rest). rewrite app_assoc. change (strcat ((d ++ [47]) ++ 0 :: rest)) with (Kernel.strcat ((d ++ [47]) ++ 0 :: rest)). rewrite strcat_spec;
    [|apply Forall_app; split; [done|repeat constructor]|done].
  rewrite (proj2 (Nat.leb_le _ _)) by lia. eexists. split; [reflexivity|].
  replace ((d ++ [47]) ++ cmd ++ 0 :: drop (length cmd) rest) with (dir_path cmd d ++ 0 :: drop (length cmd) rest)
    by (unfold dir_path; by rewrite <- !app_assoc).
  split; [|unfold dir_path; rewrite !length_app; cbn [length]; rewrite length_drop; lia].
  apply to_nul_run. apply Forall_app. split; [done|]. constructor; [unfold char_ok; lia|done].
Qed.

Lemma try_path_run `{Answers} b p h :
  to_nul b = Some p -> try_path b h = Done (answer h (CAccess p X_OK) =? 0, h ++ [CAccess p X_OK]).
Proof. intros E. unfold try_path, mbind, M_bind. by rewrite E. Qed.

Definition path_dir_ok (cmd d : list Z) : Prop := str_ok d /\ (58 ∉ d) /\ (length d + length cmd <= 159)%nat.

Lemma paths_loop_run `{Answers} fuel pre d ds r cmd r' b k h :
  Forall (path_dir_ok cmd) (d :: ds) -> str_ok cmd -> length b = 161%nat -> (length ds < fuel)%nat -> (k + length ds < MAX_PATHS)%nat ->
  exists res, paths_loop fuel (pre ++ colons d ds ++ 0 :: r) k (length pre) b (cmd ++ 0 :: r') h =
      Done (res, (path_search (dir_path cmd <$> d :: ds) h).2) /\
    (path_search (dir_path cmd <$> d :: ds) h).1 = res ≫= to_nul /\ (is_Some res <-> is_Some (path_search (dir_path cmd <$> d :: ds) h).1).
Proof.
  revert pre d fuel k b h. induction ds as [|d' ds IH]; intros pre d [|f] k b h Hds Hc Hb Hf Hk; cbn [length] in Hf, Hk; try lia;
    apply Forall_cons in Hds as [(D1 & D2 & D3) Hds]; cbn [paths_loop colons]; rewrite fmap_cons; cbn [path_search].
  - rewrite drop_app_length, (strchr_none d 58 r D1 ltac:(lia) D2). erewrite bind_run by reflexivity. cbv beta iota.
    rewrite (proj2 (Nat.ltb_lt k MAX_PATHS)) by lia. rewrite strchr_end by done.
    do 2 (erewrite bind_run by reflexivity; cbv beta). rewrite Nat2Z.id.
    destruct (join_path_run b d 0 r cmd r' D1 Hc ltac:(lia)) as (b' & E & En & El). rewrite E.
    erewrite bind_run by reflexivity. cbv beta. rewrite (bind_run _ _ _ _ _ (try_path_run b' _ h En)).
    destruct (answer h (CAccess (dir_path cmd d) X_OK) =? 0); eexists; (split; [reflexivity|]); cbn; [by rewrite En|done].
  - rewrite <- app_assoc, drop_app_length. cbn [app]. rewrite strchr_here by (done || lia). erewrite bind_run by reflexivity. cbv beta iota.
    rewrite (proj2 (Nat.ltb_lt k MAX_PATHS)) by lia. rewrite Nat2Z.id.
    destruct (join_path_run b d 58 (colons d' ds ++ 0 :: r) cmd r' D1 Hc ltac:(lia)) as (b' & E & En & El). rewrite E.
    erewrite bind_run by reflexivity. cbv beta. rewrite (bind_run _ _ _ _ _ (try_path_run b' _ h En)).
    destruct (answer h (CAccess (dir_path cmd d) X_OK) =? 0); [eexists; split; [reflexivity|]; cbn; by rewrite En|].
    replace (length pre + length d + 1)%nat with (length (pre ++ d ++ [58])) by (rewrite !length_app; cbn; lia).
    replace (pre ++ d ++ 58 :: colons d' ds ++ 0 :: r) with ((pre ++ d ++ [58]) ++ colons d' ds ++ 0 :: r) by (by rewrite <- !app_assoc).
    apply IH; (done || lia).
Qed.

(** the command search: for a PATH of up to 64 directories whose names fit the buffer together
    with the command, [get_pathName] asks for "dir/command" in each directory in order and returns
    the first one that may be executed, or NULL when there is none. *)
Theorem path_search_first `{Answers} (junk : nat -> Z) (d : list Z) (ds : list (list Z)) (cmd r r' : list Z) (h : list call) :
  Forall (path_dir_ok cmd) (d :: ds) -> str_ok cmd -> (length (d :: ds) <= 64)%nat ->
  let found := path_search (dir_path cmd <$> d :: ds) h in
  exists res, get_pathName junk (Some (colons d ds ++ 0 :: r)) (cmd ++ 0 :: r') h = Done (res, found.2) /\
    found.1 = res ≫= to_nul /\ (is_Some res <-> is_Some found.1).
Proof.
  intros Hds Hc Hl found. unfold get_pathName. erewrite bind_run by reflexivity. cbv beta.
  apply (paths_loop_run _ [] d ds r cmd r'); try done.
  assert (B : forall ds d, (length ds <= length (colons d ds))%nat).
  { clear. induction ds as [|d' ds IH]; intros d; cbn [colons length]; [lia|]. rewrite length_app. cbn [length]. specialize (IH d'). lia. }
  specialize (B ds d). rewrite length_app. cbn [length]. lia.
Qed.

(** The shell's own environment: PATH=/prog:/bin, of which only "/bin" has the program. *)
Definition bin_answers (r : Z) : Answers := {|
  answer _ c := match c with
    | CAccess p _ => if bool_decide (p = [47; 98; 105; 110; 47; 102; 111; 114; 107; 116; 101; 115; 116]) then 0 else -1
    | CFork => r
    | _ => 0
    end;
  line _ := [102; 111; 114; 107; 116; 101; 115; 116; 10; 0];
  pipe_fds _ := (3, 4);
  PATH := Some [47; 112; 114; 111; 103; 58; 47; 98; 105; 110; 0] |}.
Definition forktest : list Z := [102; 111; 114; 107; 116; 101; 115; 116].

Lemma path_search_first_witness :
  exists res h, get_pathName (H := bin_answers 0) (fun _ => 0) (Some [47; 112; 114; 111; 103; 58; 47; 98; 105; 110; 0]) (forktest ++ [0]) [] = Done (Some res, h) /\
    to_nul res = Some ([47; 98; 105; 110; 47] ++ forktest).
Proof.
  destruct (path_search_first (H := bin_answers 0) (fun _ => 0) [47; 112; 114; 111; 103] [[47; 98; 105; 110]] forktest [] [] [])
    as (res & E & Er & _).
  - repeat constructor; try (vm_compute; done); try (cbn; lia);
      (intros Hin; repeat (apply elem_of_cons in Hin as [Hin|Hin]; [lia|]); by apply elem_of_nil in Hin).
  - repeat constructor; vm_compute; done.
  - cbn. lia.
  - destruct res as [res|]; [|discriminate Er]. exists res. eexists. split; [exact E|]. symmetry. exact Er.
Defined.

(** ** A simple command, from the prompt to the program *)

(** A command of one word: none of the separators of [parse_args], none of the signs the shell looks
    for, and not one of the words that end the shell. *)
Record simple_cmd (cmd : list Z) : Prop := mk_simple {
  sc_ok : str_ok cmd;
  sc_length : (length cmd <= MAX_ARGS_LEN)%nat;
  sc_word : Forall (fun c => c ∉ [32; 44; 9]) cmd;
  sc_signs : Forall (fun c => c <> 124 /\ c <> 10 /\ c <> 38 /\ c <> 60 /\ c <> 62) cmd;
  sc_exit : take 4 cmd <> [101; 120; 105; 116] /\ take 4 cmd <> [113; 117; 105; 116]
}.

Lemma sc_not_in cmd c : simple_cmd cmd -> c = 124 \/ c = 10 \/ c = 60 \/ c = 62 -> c ∉ cmd.
Proof. intros Hc Hs Hin. pose proof (sc_signs _ Hc) as F. rewrite Forall_forall in F. specialize (F c Hin). lia. Qed.

Lemma simple_parts junk cmd :
  simple_cmd cmd -> (7 <= length cmd)%nat -> isBackground (cmd ++ [0]) = Some (-1, cmd ++ [0]) /\
    get_redirected junk 62 (cmd ++ [0]) = Some (None, cmd ++ [0]) /\ get_redirected junk 60 (cmd ++ [0]) = Some (None, cmd ++ [0]).
Proof.
  intros Hc H7. pose proof (sc_ok _ Hc) as Ho. pose proof (sc_length _ Hc) as Hl. split; [|split].
  - unfold isBackground. rewrite strchr_end by done. cbn [mbind option_bind]. rewrite (proj2 (Z.eqb_neq _ 0)) by lia.
    destruct (cmd !! Z.to_nat (Z.of_nat (length cmd) - 1)) as [c|] eqn:E; [|apply lookup_ge_None in E; lia].
    rewrite lookup_app_l, E by lia. cbn [mbind option_bind]. apply list_elem_of_lookup_2 in E.
    pose proof (sc_signs _ Hc) as F. rewrite Forall_forall in F. specialize (F c E). by rewrite (proj2 (Z.eqb_neq c 38)) by lia.
  - unfold get_redirected. rewrite (strchr_none cmd 62 [] Ho ltac:(lia)); [done|]. apply sc_not_in; [done|lia].
  - unfold get_redirected. rewrite (strchr_none cmd 60 [] Ho ltac:(lia)); [done|]. apply sc_not_in; [done|lia].
Qed.

Lemma simple_not_terminated cmd r : simple_cmd cmd -> (7 <= length cmd)%nat -> wasTerminated (cmd ++ 0 :: r) = Some 0.
Proof.
  intros Hc H7. pose proof (sc_ok _ Hc) as Ho. pose proof (sc_length _ Hc) as Hl. destruct (sc_exit _ Hc) as [He Hq].
  assert (T : forall w, take 4 (cmd ++ [0]) = take 4 (w ++ [0]) -> length w = 4%nat -> take 4 cmd = w).
  { intros w E Hw. rewrite take_app_le in E by lia. rewrite E. rewrite take_app_le by lia. apply take_ge. lia. }
  assert (W : forall w, str_ok w -> length w = 4%nat -> take 4 cmd <> w ->
    exists d, strncmp (cmd ++ 0 :: r) (w ++ [0]) 4 = Some d /\ d <> 0).
  { intros w Hw H4 Hne. destruct (libc_strncmp_spec cmd w r [] 4 Ho Hw) as (d & E & Hd).
    exists d. split; [exact E|]. intros ->. apply Hne, T; [by apply Hd|done]. }
  unfold wasTerminated.
  destruct (W [101; 120; 105; 116]) as (a & Ea & Na); [repeat constructor|done|done|].
  destruct (W [113; 117; 105; 116]) as (b & Eb & Nb); [repeat constructor|done|done|].
  change ([101; 120; 105; 116] ++ [0]) with [101; 120; 105; 116; 0] in Ea. change ([113; 117; 105; 116] ++ [0]) with [113; 117; 105; 116; 0] in Eb.
  rewrite Ea. cbn [mbind option_bind]. rewrite (proj2 (Z.eqb_neq a 0)) by done. rewrite Eb. cbn [mbind option_bind].
  by rewrite (proj2 (Z.eqb_neq b 0)).
Qed.

(** The arguments of a simple command. *)
Definition simple_argv (junk : nat -> Z) (cmd : list Z) : list slot :=
  Str (cmd ++ 0 :: drop (S (length cmd)) (heap_block junk (MAX_ARGS_LEN + 1))) :: (Raw ∘ junk <$> seq 1 7).

(** What a parent does after the fork: it frees the arguments up to the terminator, which the array
    has only if the block happened to hold a zero there. *)
Definition parent_goes_on {A} (junk : nat -> Z) (r : A) (h : list call) : outcome (A * list call) :=
  if junk 1%nat =? 0 then Done (r, h) else Fault.

(** Without redirection and pipe, [run_command] is the search and what follows it. *)
Lemma simple_run `{Answers} junk cmd d ds r1 h fd :
  simple_cmd cmd -> PATH = Some (colons d ds ++ 0 :: r1) -> Forall (path_dir_ok cmd) (d :: ds) -> (length (d :: ds) <= 64)%nat ->
  (7 <= length cmd)%nat ->
  let found := path_search (dir_path cmd <$> d :: ds) h in let h' := found.2 in let f := answer h' CFork in
  run_command junk 0 1 fd (cmd ++ [0]) h =
    match found.1 with
    | None => Done (Next, h' ++ [CPerror])
    | Some p =>
        if f =? 0 then
          let e := CExecve p (simple_argv junk cmd) in
          if answer (h' ++ [CFork]) e =? -1 then Done (Ended, h' ++ [CFork; e; CPerror; CExit 42]) else Done (Ended, h' ++ [CFork; e])
        else parent_goes_on junk Next (h' ++ if f =? -1 then [CFork; CPerror] else [CFork; CWait])
    end.
Proof.
  intros Hc HP Hds Hl H7 found h' f. destruct (simple_parts junk cmd Hc H7) as (E1 & E2 & E3). pose proof (sc_ok _ Hc) as Ho.
  pose proof (sc_length _ Hc) as Hlen. unfold run_command. rewrite E1. erewrite bind_run by reflexivity. cbv beta iota.
  unfold get_redirectedOput, get_redirectedIput. rewrite E2. erewrite bind_run by reflexivity. cbv beta iota.
  rewrite E3. erewrite bind_run by reflexivity. cbv beta iota.
  rewrite (parse_args_whole junk cmd [] Ho ltac:(by destruct cmd; cbn in H7; [lia|])), (proj2 (Nat.leb_le _ _)) by lia.
  fold (simple_argv junk cmd). do 2 (erewrite bind_run by reflexivity; cbv beta).
  rewrite simple_not_terminated by done. erewrite bind_run by reflexivity. cbv beta. change (truthy 0) with false. cbv iota. rewrite HP.
  destruct (path_search_first junk d ds cmd r1 (drop (S (length cmd)) (heap_block junk (MAX_ARGS_LEN + 1))) h Hds Ho Hl) as (res & E & Er & Es).
  fold found in E, Er, Es. rewrite (bind_run _ _ _ _ _ E). fold h'. destruct res as [b|]; cbn [mbind option_bind] in Er.
  2: { rewrite Er. done. }
  destruct (found.1) as [p|]; [|destruct (proj1 Es) as [? ?]; [eauto|discriminate]].
  unfold set_redirectedIput, set_redirectedOput. do 2 (erewrite bind_run by reflexivity; cbv beta).
  change ((-1 =? -2) || (-1 =? -2)) with false. cbv iota. erewrite bind_run by reflexivity. cbv beta. fold f.
  destruct (f =? 0) eqn:Ef.
  - unfold run_child. change (1 <? 1)%nat with false. cbv iota. erewrite bind_run by reflexivity. cbv beta. rewrite <- Er.
    do 2 (erewrite bind_run by reflexivity; cbv beta). rewrite <- app_assoc. cbn [app].
    destruct (_ =? -1); [|done]. do 2 (erewrite bind_run by reflexivity; cbv beta). rewrite <- !app_assoc. done.
  - assert (Fr : forall g, free_args (simple_argv junk cmd) g = parent_goes_on junk tt g).
    { intros g. unfold simple_argv, parent_goes_on. cbn [free_args]. cbn [seq fmap list_fmap]. unfold compose. cbn [free_args].
      by destruct (junk 1%nat =? 0). }
    unfold parent_goes_on in *.
    destruct (f =? -1); (erewrite bind_run by reflexivity; cbv beta); (do 2 (erewrite bind_run by reflexivity; cbv beta));
      unfold mbind, M_bind; rewrite Fr; destruct (junk 1%nat =? 0); rewrite <- ?app_assoc; done.
Qed.

(** C39: one round of the shell on a command of one word, from the prompt to the program.  The files
    "directory/command" are asked for in the order of PATH up to the first that may be executed; then
    the process forks, the parent waits and asks for the next line, and the child replaces itself by
    that file, with the command as its only argument; when no file is found or the fork fails, the error
    is printed and the shell goes on, and a child that cannot execute the file exits with 42.
    Nothing else is called.  Where the code goes wrong is part of the statement: a command of fewer
    than seven characters overflows the block of the array of commands, and a parent whose argument
    array does not happen to hold a zero behind the argument frees what [malloc] never returned. *)
Theorem simple_command_runs `{Answers} (junk : nat -> Z) (cmd d : list Z) (ds : list (list Z)) (r r1 : list Z) (h : list call) :
  simple_cmd cmd -> PATH = Some (colons d ds ++ 0 :: r1) -> Forall (path_dir_ok cmd) (d :: ds) -> (length (d :: ds) <= 64)%nat ->
  line (h ++ [CPrompt]) = cmd ++ 10 :: 0 :: r ->
  let found := path_search (dir_path cmd <$> d :: ds) (h ++ [CPrompt; CGets]) in let h' := found.2 in let f := answer h' CFork in
  shell_round junk h =
    if (length cmd <? 7)%nat then Fault
    else match found.1 with
    | None => Done (true, h' ++ [CPerror])
    | Some p =>
        if f =? 0 then
          let e := CExecve p (simple_argv junk cmd) in
          if answer (h' ++ [CFork]) e =? -1 then Done (false, h' ++ [CFork; e; CPerror; CExit 42]) else Done (false, h' ++ [CFork; e])
        else parent_goes_on junk true (h' ++ if f =? -1 then [CFork; CPerror] else [CFork; CWait])
    end.
Proof.
  intros Hc HP Hds Hl Hline found h' f. unfold shell_round. erewrite bind_run by reflexivity. cbv beta.
  erewrite bind_run by reflexivity. cbv beta. rewrite Hline. rewrite <- app_assoc. cbn [app].
  assert (Hp : Forall plain_cmd [cmd]).
  { repeat constructor; [apply (sc_ok _ Hc)|apply sc_not_in; [done|lia]|apply sc_not_in; [done|lia]]. }
  pose proof (get_cmds_splits junk cmd [] r Hp) as [G G']. cbn [piped length] in G, G'. rewrite <- app_assoc in G, G'.
  rewrite length_app in G, G'. cbn [length] in G, G'.
  destruct (Nat.ltb_spec (length cmd) 7) as [H7|H7].
  { change (cmd ++ 10 :: 0 :: r) with (cmd ++ [10] ++ 0 :: r). by rewrite G' by lia. }
  change (cmd ++ 10 :: 0 :: r) with (cmd ++ [10] ++ 0 :: r). rewrite G by lia. clear G G'.
  change ((fun c => c ++ [0]) <$> [cmd]) with [cmd ++ [0]].
  do 2 (erewrite bind_run by reflexivity; cbv beta). change (Nat.ltb 1 (length [cmd ++ [0]])) with false. cbv iota.
  erewrite bind_run by reflexivity. cbv beta. change (length [cmd ++ [0]]) with 1%nat. cbn [run_commands].
  pose proof (simple_run junk cmd d ds r1 (h ++ [CPrompt; CGets]) (pipe_fds (h ++ [CPrompt; CGets])) Hc HP Hds Hl H7) as R.
  cbv zeta in R. fold found in R. fold h' in R. fold f in R. unfold mbind, M_bind. rewrite R. unfold parent_goes_on.
  destruct (found.1); [|done]. destruct (f =? 0); [destruct (_ =? -1); done|destruct (junk 1%nat =? 0); done].
Qed.

Lemma forktest_simple : simple_cmd forktest.
Proof.
  unfold forktest. split; [unfold str_ok; repeat constructor; vm_compute; done|unfold MAX_ARGS_LEN; cbn; lia| | |done].
  - apply (bool_decide_unpack _). vm_compute. exact I.
  - repeat apply Forall_cons_2; try lia. apply Forall_nil_2.
Qed.

Lemma simple_command_runs_witness :
  shell_round (H := bin_answers 7) (fun _ => 0) [] =
    Done (true, [CPrompt; CGets; CAccess ([47; 112; 114; 111; 103; 47] ++ forktest) X_OK;
                 CAccess ([47; 98; 105; 110; 47] ++ forktest) X_OK; CFork; CWait]).
Proof.
  apply (simple_command_runs (H := bin_answers 7) (fun _ => 0) forktest [47; 112; 114; 111; 103] [[47; 98; 105; 110]] [] [] []
    forktest_simple eq_refl); [|cbn; lia|done].
  repeat constructor; try (vm_compute; done); try (cbn; lia);
    (intros Hin; repeat (apply elem_of_cons in Hin as [Hin|Hin]; [lia|]); by apply elem_of_nil in Hin).
Defined.
