(* ===== verification/Programs.v ===== *)
(** * Programs on the system (src/src/prog: the start of every [main], fork_test, execve_test, img)

    What the programs ask of the system, over the wrappers of LibcSys.v: opening the framebuffer and
    mapping it, which is the same text at the start of every program, math_test's screen.c, the two
    test programs and the loading of img's picture.  Addresses of string literals and of local
    variables are arguments.  A final [while (1);] is where a [main] here returns.

    The second part runs them on the kernel of Syscall.v with the framebuffer driver of FbDev.v. *)
From S2P Require Import Prelude CString Rtc Device Pipe Pmm PageTable Vmm FbDev Fs Tmpfs Vfs Event Kernel Sched.
From S2P Require Import Elf Proc Syscall LibcSys Console Boot.
Open Scope Z_scope.

Definition IOCTL_FBDEV_GET_WIDTH : Z := 1.
Definition IOCTL_FBDEV_GET_HEIGHT : Z := 2.
Definition IOCTL_FBDEV_GET_BPP : Z := 3.

(** screen.h *)
Record fb_t := mk_fb { sc_buf : Z; sc_width : Z; sc_height : Z; sc_bpp : Z; sc_fd : Z }.

Section Programs.
Context {S : Type} `{Sys S}.

(** [intsyscall] called by a program itself. *)
Definition direct (id a b c : Z) : U Z := sys (intsyscall id (u64 a) (u64 b) (u64 c) 0 0).

(** [open] and the three [ioctl]s. *)
Definition screen_info (path : Z) : U (Z * Z * Z * Z) :=
  fd ← open path O_RDWR 0;
  width ← ioctl fd IOCTL_FBDEV_GET_WIDTH 0;
  height ← ioctl fd IOCTL_FBDEV_GET_HEIGHT 0;
  bpp ← ioctl fd IOCTL_FBDEV_GET_BPP 0;
  mret (fd, u16 width, u16 height, bpp).

(** The start of a [main]: [width] and [height] are 16 bits wide, [bpp] is a [size_t]; [args] is where
    [mmap] keeps its arguments. *)
Definition open_screen (path args : Z) : U fb_t :=
  '(fd, width, height, bpp) ← screen_info path;
  let bpp := u64 bpp in
  framebuffer ← mmap args 0 (u64 (s32 (width * height) * (bpp / 8))) (Z.lor PROT_READ PROT_WRITE) MAP_PRIVATE fd 0;
  mret (mk_fb framebuffer width height bpp fd).

(** screen.c, where [bpp] has 16 bits and the size is computed in [int]. *)
Definition fb_open (path args : Z) : U fb_t :=
  '(fd, width, height, bpp) ← screen_info path;
  let bpp := u16 bpp in
  buf ← mmap args 0 (u64 (s32 (width * height * (bpp / 8)))) (Z.lor PROT_READ PROT_WRITE) MAP_PRIVATE fd 0;
  mret (mk_fb buf width height bpp fd).
Definition fb_close (screen : fb_t) : U unit := _ ← close (sc_fd screen); mret tt.

(** ** execve_test *)

(** [while ((ssize_t)read(pipefd[0], &c, 1) > 0) write(1, &c, 1);] *)
Fixpoint drain (fuel : nat) (rfd c : Z) : U unit :=
  match fuel with
  | O => out_of_fuel
  | Datatypes.S n =>
      r ← direct SYSCALL_READ rfd c 1;
      if 0 <? s64 r then _ ← direct SYSCALL_WRITE 1 c 1; drain n rfd c else mret tt
  end.
Definition execve_test_main (fuel : nat) (path args pipefd str len c : Z) : U unit :=
  _ ← open_screen path args;
  _ ← direct SYSCALL_PIPE pipefd 0 0;
  m ← sys fetch;
  _ ← direct SYSCALL_WRITE (s32 (ld 4 m (pipefd + 4))) str (len + 1);
  m ← sys fetch;
  drain fuel (s32 (ld 4 m pipefd)) c.

(** ** fork_test *)

(** Plain characters of a format, one [write] each; [c] is the argument of [displayCharacter]. *)
Fixpoint display (c : Z) (text : list Z) : U unit :=
  match text with
  | [] => mret tt
  | x :: text' => sys (poke (st 1 c x));; _ ← write 1 c 1; display c text'
  end.

(** [if (intsyscall(SYSCALL_ACCESS, ..) == (size_t)-1) intsyscall(SYSCALL_WRITE, 1, ..)] *)
Definition test_access (file mode message size : Z) : U unit :=
  r ← direct SYSCALL_ACCESS file mode 0;
  if r =? 2 ^ 64 - 1 then _ ← direct SYSCALL_WRITE 1 message size; mret tt else mret tt.

Definition fork_test_main (path args file missing unusable thing thin2 c : Z) (child parent : list Z) : U Z :=
  _ ← open_screen path args;
  test_access file F_OK missing 29;;
  test_access file (Z.lor R_OK X_OK) unusable 37;;
  pid ← fork;
  if s32 pid =? 0 then
    display c child;;
    _ ← direct SYSCALL_EXEC file thing thin2;
    mret 9
  else display c parent;; halt.

(** ** img *)

(** The file of the picture in a block of its size: the address of the block, and the size. *)
Definition load_picture (malloc : Z -> U Z) (file stat : Z) : U (Z * Z) :=
  fd ← direct SYSCALL_OPEN file O_RDWR 0;
  let fd2 := s32 fd in
  _ ← fstat fd2 stat;
  m ← sys fetch;
  let file_size := ld 8 m (stat + 32) in
  buffer ← malloc file_size;
  _ ← direct SYSCALL_READ fd2 buffer file_size;
  mret (buffer, file_size).
End Programs.

(** ** What execve_test prints *)

(** A system on which descriptor [rfd] is the reading end of a pipe and descriptor 1 a stream, as a program
    sees them: [streams s q out] says that [q] is in the pipe and [out] has been written; one byte is
    read into the place [c] and written from it, and an empty pipe answers -1. *)
Class PipeStream (S : Type) `{Sys S} (rfd c : Z) := {
  streams : S -> list Z -> list Z -> Prop;
  stream_byte s x q out : streams s (x :: q) out ->
    exists s1 s2 v, intsyscall SYSCALL_READ (u64 rfd) (u64 c) (u64 1) 0 0 s = Done (1, s1) /\
      intsyscall SYSCALL_WRITE (u64 1) (u64 c) (u64 1) 0 0 s1 = Done (v, s2) /\ streams s2 q (out ++ [x]);
  stream_empty s out : streams s [] out ->
    exists s', intsyscall SYSCALL_READ (u64 rfd) (u64 c) (u64 1) 0 0 s = Done (2 ^ 64 - 1, s') /\ streams s' [] out
}.

(** The loop ends after one round more than there are bytes, and has written exactly what was in the pipe. *)
Theorem drain_copies {S} `{PipeStream S rfd c} (s : S) (e : Z) (q out : list Z) (fuel : nat) :
  streams s q out -> (length q < fuel)%nat ->
  exists s', drain fuel rfd c (mk_ustate s e) = Done (tt, mk_ustate s' e) /\ streams s' [] (out ++ q).
Proof.
  revert s out fuel. induction q as [|x q IH]; intros s out [|n] Hs Hf; [cbn in Hf; lia| |cbn in Hf; lia|].
  - destruct (stream_empty s out Hs) as (s' & E & Hs'). exists s'. rewrite app_nil_r. split; [|done].
    cbn [drain]. unfold direct, sys, mbind, M_bind. cbn [u_sys u_errno]. by rewrite E.
  - destruct (stream_byte s x q out Hs) as (s1 & s2 & v & E1 & E2 & Hs2).
    destruct (IH s2 (out ++ [x]) n Hs2 ltac:(cbn in Hf; lia)) as (s' & E & Hs'). exists s'. rewrite <- app_assoc in Hs'. split; [|exact Hs'].
    rewrite <- E. cbn [drain]. unfold direct, sys, mbind, M_bind. cbn [u_sys u_errno]. rewrite E1. cbn [u_sys u_errno].
    change (0 <? s64 1) with true. cbv beta iota. cbn [u_sys u_errno]. by rewrite E2.
Qed.

(** ** On the kernel *)

Section OnKernel.
Context (me : nat).
Context (fs_table : Z -> option fs_ops) (file_table : Z -> option file_ops) (drivers : Z -> DriverOps).
Context (dev_ioctl : Z -> Z -> Z -> FM Z).
Context (vfs_mmap : Z -> Z -> Z -> Z -> Z -> Z -> Z -> Z -> KM Z).
Context (vm_mmap : Z -> Z -> Z -> Z -> Z -> Z -> Z -> VM Z).
Context `{Env}.
Context (junk_entry junk_child junk_event : Z) (rounds : list (list Z)).

Abbreviation kernel := (trap me fs_table file_table drivers dev_ioctl vfs_mmap vm_mmap junk_entry junk_child junk_event rounds).
#[local] Existing Instance trap.
#[local] Instance the_kernel : Sys kstate := kernel.

(** Process [p] after a mapping of [n] pages at an address the kernel chooses. *)
Definition with_pages (n : Z) (p : proc_t) : proc_t :=
  with_mmap (u64 (mmap_top p + (n + 1) * PAGE_SIZE)) (mmaped_len p + n * PAGE_SIZE) p.

Lemma update_proc_run s t ptr p g : running me s t ptr p ->
  update_proc me g s = Done (tt, set_k_procs (<[ptr := g p]> (k_procs s)) s).
Proof.
  intros Hr. unfold update_proc. rewrite (bind_run _ _ _ _ _ (running_ptr _ _ _ _ _ Hr)).
  by rewrite (bind_run (get_proc ptr) _ s p s) by (unfold get_proc; by rewrite (run_proc _ _ _ _ _ Hr)).
Qed.

Lemma running_put s t ptr p q : running me s t ptr p -> running me (set_k_procs (<[ptr := q]> (k_procs s)) s) t ptr q.
Proof. intros [(c & Hc & Ht) Hp Hpr]. constructor; [by exists c|done|apply lookup_insert_eq]. Qed.

(** The kernel chooses the address. *)
Lemma mmap_address_run s t ptr p args n :
  running me s t ptr p -> 0 <= mmaped_len p -> 0 <= n -> mmaped_len p + n * PAGE_SIZE <= MMAP_MAX_SIZE ->
  Z.land (ma_flags args) MAP_FIXED = 0 ->
  mmap_address me args n s = Done (inr (mmap_top p), set_k_procs (<[ptr := with_pages n p]> (k_procs s)) s).
Proof.
  intros Hr H0 Hn Hm Hf. unfold mmap_address. rewrite (bind_run _ _ _ _ _ (running_proc _ _ _ _ _ Hr)).
  assert (E : u64 (mmaped_len p + n * PAGE_SIZE) = mmaped_len p + n * PAGE_SIZE).
  { apply u64_small. unfold MMAP_MAX_SIZE, PAGE_SIZE in *. lia. }
  rewrite E, (proj2 (Z.ltb_ge _ _)) by done.
  rewrite (bind_run _ _ _ _ _ (update_proc_run _ _ _ _ _ Hr)). rewrite Hf. cbn [truthy Z.eqb negb].
  pose proof (running_put _ _ _ _ (with_mmap (mmap_top p) (mmaped_len p + n * PAGE_SIZE) p) Hr) as Hr1.
  rewrite (bind_run _ _ _ _ _ (update_proc_run _ _ _ _ _ Hr1)). cbn. do 3 f_equal. by rewrite insert_insert_eq.
Qed.

(** A private mapping of an open device: what is left of [syscall_mmap] is the call of the driver. *)
Lemma syscall_mmap_device s t ptr p fd entry sf f args n :
  running me s t ptr p -> 0 <= fd < 128 -> fds p !! Z.to_nat fd = Some entry -> entry <> 0 ->
  k_sfiles s !! entry = Some sf -> sf_flags sf = O_RDWR -> files (v_fs (k_vfs s)) !! sf_file sf = Some f -> ISFIFO f = false ->
  ma_fd args = fd -> ma_flags args = MAP_PRIVATE -> ma_length args <> 0 -> n = ALIGN_UP (ma_length args) / PAGE_SIZE -> 0 <= n ->
  0 <= mmaped_len p -> mmaped_len p + n * PAGE_SIZE <= MMAP_MAX_SIZE ->
  syscall_mmap me vfs_mmap args s =
    (on_vmm (vmm_load_pagemap kernel_pagemap);;
     _ ← vfs_mmap (sf_file sf) (p_pagemap p) entry (mmap_top p) (ma_length args) (ma_offset args) (s32 (ma_prot args)) (s32 MAP_PRIVATE);
     on_vmm (vmm_load_pagemap (p_pagemap p));;
     mret (mmap_top p)) (set_k_procs (<[ptr := with_pages n p]> (k_procs s)) s).
Proof.
  intros Hr Hfd He Hne Hsf Hfl Hf Hfifo Efd Efl Hlen En Hn H0 Hmax. unfold syscall_mmap.
  rewrite (bind_run _ _ _ _ _ (running_proc _ _ _ _ _ Hr)).
  assert (F : forall s', fd_entry p (ma_fd args) s' = Done (entry, s')).
  { intros s'. unfold fd_entry, FDS_COUNT. rewrite Efd, (proj2 (Z.leb_le 0 fd)), (proj2 (Z.ltb_lt fd 128)) by lia. cbn [andb]. by rewrite He. }
  assert (G : forall s', k_sfiles s' = k_sfiles s -> get_sfile entry s' = Done (sf, s')) by (intros s' E; unfold get_sfile; by rewrite E, Hsf).
  assert (T : truthy entry = true) by (unfold truthy; by rewrite (proj2 (Z.eqb_neq _ _))).
  rewrite (bind_run _ _ s 0 s).
  2: { rewrite (proj2 (Z.ltb_lt _ _)) by lia. rewrite (proj2 (Z.leb_gt _ _)) by (unfold FDS_COUNT; lia).
       rewrite (bind_run _ _ _ _ _ (F s)), T. cbn [negb]. rewrite (bind_run _ _ _ _ _ (G s eq_refl)), Hfl. reflexivity. }
  change (truthy 0) with false. assert (L : truthy (ma_length args) = true) by (unfold truthy; by rewrite (proj2 (Z.eqb_neq _ _))).
  rewrite L, Efl. cbn [negb]. change (truthy (Z.land MAP_PRIVATE MAP_PRIVATE)) with true. cbn [negb andb]. rewrite andb_false_r.
  rewrite <- En. rewrite (bind_run _ _ _ _ _ (mmap_address_run s t ptr p args n Hr H0 Hn Hmax ltac:(by rewrite Efl))).
  change (truthy (Z.land MAP_PRIVATE MAP_ANON)) with false. cbn [negb]. rewrite (proj2 (Z.ltb_ge _ _)) by lia.
  set (s2 := set_k_procs _ s). rewrite (bind_run _ _ _ _ _ (F s2)), (bind_run _ _ _ _ _ (G s2 eq_refl)).
  change (truthy (Z.land MAP_PRIVATE MAP_SHARED)) with false. rewrite andb_false_r. cbn [andb].
  rewrite (bind_run _ _ _ f _) by (apply on_files_pure; by apply get_file_run). by rewrite Hfifo.
Qed.

(** ** The wrapper [mmap] *)

(** The state after a store to the program's memory. *)
Definition poked (g : mem -> mem) (s : kstate) : kstate :=
  set_k_vfs (set_fs (set_ubuf (g (ubuf (v_fs (k_vfs s)))) (v_fs (k_vfs s))) (k_vfs s)) s.

(** The handler reads the arguments that the wrapper has stored. *)
Lemma mmap_args_roundtrip a x m :
  0 <= ma_addr x < 2 ^ 64 -> 0 <= ma_length x < 2 ^ 64 -> 0 <= ma_flags x < 2 ^ 64 -> 0 <= ma_prot x < 2 ^ 64 ->
  0 <= ma_fd x < 2 ^ 31 -> 0 <= ma_offset x < 2 ^ 64 ->
  read_mmap_args (write_mmap_args a x m) a = x.
Proof.
  destruct x as [ad len fl pr fd off]. cbn [ma_addr ma_length ma_flags ma_prot ma_fd ma_offset]. intros H1 H2 H3 H4 H5 H6.
  unfold read_mmap_args, write_mmap_args. cbn [ma_addr ma_length ma_flags ma_prot ma_fd ma_offset].
  f_equal; repeat rewrite (ld_st_other _ _ _ _ _ _) by lia; rewrite ld_st_same;
    change (8 * Z.of_nat 8) with 64; change (8 * Z.of_nat 4) with 32; rewrite Z.mod_small by lia; [done..| |done].
  rewrite s32_small by lia. done.
Qed.

Lemma mmap_call_run args len fd s e r s' :
  0 <= args < 2 ^ 64 -> 0 <= len < 2 ^ 64 -> 0 <= fd < 128 ->
  let x := mk_mmap_args 0 len MAP_PRIVATE 3 fd 0 in
  syscall_mmap me vfs_mmap x (poked (write_mmap_args args x) s) = Done (r, s') -> 0 <= r < 2 ^ 63 ->
  mmap args 0 len (Z.lor PROT_READ PROT_WRITE) MAP_PRIVATE fd 0 (mk_ustate s e) = Done (r, mk_ustate s' e).
Proof.
  intros Ha Hl Hfd x E Hr. unfold mmap.
  assert (X : mk_mmap_args 0 len (u64 MAP_PRIVATE) (u64 (Z.lor PROT_READ PROT_WRITE)) (u32 fd) (u64 0) = x).
  { unfold x. by rewrite u32_small by lia. }
  rewrite X. rewrite (bind_run _ _ _ tt (mk_ustate (poked (write_mmap_args args x) s) e)) by reflexivity.
  assert (C : sys (intsyscall SYSCALL_MMAP args 0 0 0 0) (mk_ustate (poked (write_mmap_args args x) s) e) = Done (u64 r, mk_ustate s' e)).
  { unfold sys. cbn [u_sys u_errno]. unfold intsyscall, the_kernel, trap, c_syscall_handler, mbind, M_bind.
    change (call_registers SYSCALL_MMAP args 0 0 0 0 RDI) with 5. cbn -[read_mmap_args write_mmap_args syscall_mmap].
    unfold user_mem, on_files, on_vfs, on, on_fs, gets. cbn -[read_mmap_args write_mmap_args syscall_mmap].
    rewrite (mmap_args_roundtrip args x); [|unfold x, MAP_PRIVATE; cbn; lia..]. unfold return_value, mbind, M_bind.
    change (set_k_vfs _ _) with (poked (write_mmap_args args x) s). by rewrite E. }
  rewrite (bind_run _ _ _ _ _ C).
  rewrite u64_small by lia.
  rewrite (proj2 (Z.ltb_ge _ _)); [done|]. unfold s64. rewrite Z.mod_small by lia. lia.
Qed.

(** ** The screen *)

(** Descriptor [fd] of the running process is open for reading and writing on a device file. *)
Record device_open (s : kstate) (t : thread_t) (ptr : Z) (p : proc_t) (fd entry file : Z) (f : fs_file) : Prop := mk_device_open {
  do_running : running me s t ptr p;
  do_fds : fds_ok p;
  do_fd : 0 <= fd < 128 /\ fds p !! Z.to_nat fd = Some entry /\ entry <> 0;
  do_sfile : k_sfiles s !! entry = Some (mk_sfile file O_RDWR);
  do_file : files (v_fs (k_vfs s)) !! file = Some f;
  do_dev : ISDEV f = true /\ is_Some (devs (v_fs (k_vfs s)) !! f_dev f)
}.

Lemma device_not_fifo f : ISDEV f = true -> ISFIFO f = false.
Proof.
  unfold ISDEV, ISFIFO, S_ISCHR, S_ISBLK. rewrite orb_true_iff, !Z.eqb_eq. by intros [-> | ->].
Qed.

Lemma ioctl_run s e t ptr p fd entry file f request v :
  device_open s t ptr p fd entry file f -> 0 <= request < 2 ^ 31 -> 0 <= v < 2 ^ 31 ->
  dev_ioctl (f_dev f) request 0 (v_fs (k_vfs s)) = Done (v, v_fs (k_vfs s)) ->
  ioctl fd request 0 (mk_ustate s e) = Done (v, mk_ustate s e).
Proof.
  intros [Hr Hok (Hfd & He & Hne) Hsf Hf [Hdev [d Hd]]] Hq Hv Hio. unfold ioctl.
  assert (C : int_call SYSCALL_IOCTL fd request 0 (mk_ustate s e) = Done (v, mk_ustate s e)).
  { apply int_call_run; [|lia]. transitivity (return_value (syscall_ioctl me file_table dev_ioctl (u64 fd) (u64 request) (u64 0)) s); [reflexivity|].
    rewrite (u64_small fd), (u64_small request), (u64_small 0) by lia. unfold return_value, syscall_ioctl.
    assert (O : open_file me fd s = Done (Some (entry, mk_sfile file O_RDWR), s)) by (apply open_file_run; [by exists t, ptr, p|done|done]).
    erewrite bind_run; [reflexivity|]. rewrite (bind_run _ _ _ _ _ O). apply on_files_pure.
    unfold vfs_ioctl. rewrite (bind_run _ _ _ _ _ (get_file_run _ _ _ Hf)), Hdev.
    rewrite (bind_run _ _ _ d (v_fs (k_vfs s))) by (unfold get_dev; by rewrite Hd). exact Hio. }
  rewrite (bind_run _ _ _ _ _ C). unfold result. by rewrite (proj2 (Z.ltb_ge v 0)) by lia.
Qed.

Definition load_cr3 (top : Z) (v : vmm_state) : vmm_state := mk_vmm (v_pmm v) (v_maps v) (v_next v) top (v_invlpg v).

(** The state in which the driver is called to map [n] pages for the process at [ptr]: the arguments are
    stored, the process is charged, the kernel's space is loaded. *)
Definition before_mapping (s : kstate) (args : Z) (x : mmap_args) (ptr : Z) (p : proc_t) (n top : Z) : kstate :=
  let s := set_k_procs (<[ptr := with_pages n p]> (k_procs s)) (poked (write_mmap_args args x) s) in
  set_k_vmm (load_cr3 top (k_vmm s)) s.

Lemma load_pagemap_run s pm m : v_maps (k_vmm s) !! pm = Some m ->
  on_vmm (vmm_load_pagemap pm) s = Done (tt, set_k_vmm (load_cr3 (top_level m) (k_vmm s)) s).
Proof. intros E. unfold on_vmm, on, vmm_load_pagemap. by rewrite (bind_run _ _ _ _ _ (get_map_run _ _ _ E)). Qed.

Lemma map_device_run s e t ptr p fd entry file f args len n top m r s5 :
  device_open s t ptr p fd entry file f -> 0 <= args < 2 ^ 64 -> 0 < len < 2 ^ 64 -> n = ALIGN_UP len / PAGE_SIZE -> 0 <= n ->
  0 <= mmaped_len p -> mmaped_len p + n * PAGE_SIZE <= MMAP_MAX_SIZE -> 0 <= mmap_top p < 2 ^ 63 ->
  top_level <$> v_maps (k_vmm s) !! kernel_pagemap = Some top ->
  vfs_mmap file (p_pagemap p) entry (mmap_top p) len 0 3 1
    (before_mapping s args (mk_mmap_args 0 len MAP_PRIVATE 3 fd 0) ptr p n top) = Done (r, s5) ->
  v_maps (k_vmm s5) !! p_pagemap p = Some m ->
  mmap args 0 len (Z.lor PROT_READ PROT_WRITE) MAP_PRIVATE fd 0 (mk_ustate s e) =
    Done (mmap_top p, mk_ustate (set_k_vmm (load_cr3 (top_level m) (k_vmm s5)) s5) e).
Proof.
  intros [Hr Hok (Hfd & He & Hne) Hsf Hf [Hdev _]] Ha Hl En Hn H0 Hmax Htop Hk Hmap Hm.
  apply mmap_call_run; [done|lia|done| |done]. set (x := mk_mmap_args _ _ _ _ _ _) in *. set (s2 := poked _ s).
  rewrite (syscall_mmap_device s2 t ptr p fd entry (mk_sfile file O_RDWR) f x n); try done;
    [|by destruct Hr; constructor|by apply device_not_fifo|cbn; lia].
  destruct (v_maps (k_vmm s) !! kernel_pagemap) as [mk|] eqn:Ek; [|done]. injection Hk as <-.
  set (s3 := set_k_procs _ s2). rewrite (bind_run _ _ s3 tt _ (load_pagemap_run s3 kernel_pagemap mk Ek)).
  erewrite bind_run; [|exact Hmap]. by rewrite (bind_run _ _ _ _ _ (load_pagemap_run s5 _ m Hm)).
Qed.

Lemma align_up_pages len : 0 <= len < 2 ^ 63 -> ALIGN_UP len / PAGE_SIZE = (len + PAGE_SIZE - 1) / PAGE_SIZE.
Proof.
  intros Hl. unfold ALIGN_UP. rewrite u64_small by (unfold PAGE_SIZE; lia).
  change (PAGE_SIZE - 1) with (Z.ones 12). rewrite <- Z.ldiff_land, Z.ldiff_ones_r by lia.
  rewrite Z.shiftl_mul_pow2, Z.shiftr_div_pow2 by lia. change PAGE_SIZE with (2 ^ 12). by rewrite Z.div_mul.
Qed.

(** C14: a program that opens the framebuffer gets its screen, through every layer: when [open] returns a
    descriptor of a device whose driver answers width and height, the three [ioctl]s and the [mmap] at the
    start of every program make exactly one call of the driver's [mmap], for [width * height * 4] bytes,
    writable and private, at the top of the process's mapped area, with the kernel's space loaded; the
    program then has that address, the dimensions and 32 bits per pixel, and its own space is loaded again.
    This holds for the common start and for [fb_open] of screen.c. *)
Theorem screen_opens (s s1 s5 : kstate) (e path args w h r : Z) (t : thread_t) (ptr : Z) (p : proc_t) (fd entry file : Z)
    (f : fs_file) (top : Z) (m : pagemap) :
  open path O_RDWR 0 (mk_ustate s e) = Done (fd, mk_ustate s1 e) -> device_open s1 t ptr p fd entry file f ->
  (forall c v, (c, v) ∈ [(IOCTL_FBDEV_GET_WIDTH, w); (IOCTL_FBDEV_GET_HEIGHT, h); (IOCTL_FBDEV_GET_BPP, 32)] ->
     dev_ioctl (f_dev f) c 0 (v_fs (k_vfs s1)) = Done (v, v_fs (k_vfs s1))) ->
  0 < w < 2 ^ 16 -> 0 < h < 2 ^ 16 -> 0 <= args < 2 ^ 64 -> 0 <= mmap_top p < 2 ^ 63 ->
  let len := w * h * 4 in let n := (len + PAGE_SIZE - 1) / PAGE_SIZE in
  0 <= mmaped_len p -> mmaped_len p + n * PAGE_SIZE <= MMAP_MAX_SIZE ->
  top_level <$> v_maps (k_vmm s1) !! kernel_pagemap = Some top ->
  vfs_mmap file (p_pagemap p) entry (mmap_top p) len 0 3 1
    (before_mapping s1 args (mk_mmap_args 0 len MAP_PRIVATE 3 fd 0) ptr p n top) = Done (r, s5) ->
  v_maps (k_vmm s5) !! p_pagemap p = Some m ->
  let screen := Done (mk_fb (mmap_top p) w h 32 fd, mk_ustate (set_k_vmm (load_cr3 (top_level m) (k_vmm s5)) s5) e) in
  open_screen path args (mk_ustate s e) = screen /\ fb_open path args (mk_ustate s e) = screen.
Proof.
  intros Hopen Hd Hio Hw Hh Ha Htop len n H0 Hmax Hk Hmap Hm screen.
  assert (Hlen : 0 < len <= MMAP_MAX_SIZE).
  { pose proof (Z.mul_div_le (len + PAGE_SIZE - 1) PAGE_SIZE ltac:(done)). pose proof (Z.mod_pos_bound (len + PAGE_SIZE - 1) PAGE_SIZE ltac:(done)).
    pose proof (Z.div_mod (len + PAGE_SIZE - 1) PAGE_SIZE ltac:(done)). unfold n, len, PAGE_SIZE in *. nia. }
  assert (Hn : n = ALIGN_UP len / PAGE_SIZE) by (symmetry; apply align_up_pages; unfold MMAP_MAX_SIZE in *; lia).
  assert (Hn0 : 0 <= n) by (apply Z.div_pos; [unfold PAGE_SIZE; lia|done]).
  assert (I : screen_info path (mk_ustate s e) = Done ((fd, w, h, 32), mk_ustate s1 e)).
  { unfold screen_info. rewrite (bind_run _ _ _ _ _ Hopen).
    pose proof (fun c v Hc Hv Hin => ioctl_run s1 e t ptr p fd entry file f c v Hd Hc Hv (Hio c v Hin)) as io.
    rewrite (bind_run _ _ _ _ _ (io IOCTL_FBDEV_GET_WIDTH w ltac:(done) ltac:(lia) ltac:(set_solver))).
    rewrite (bind_run _ _ _ _ _ (io IOCTL_FBDEV_GET_HEIGHT h ltac:(done) ltac:(lia) ltac:(set_solver))).
    rewrite (bind_run _ _ _ _ _ (io IOCTL_FBDEV_GET_BPP 32 ltac:(done) ltac:(lia) ltac:(set_solver))).
    by rewrite (u16_small w), (u16_small h) by lia. }
  pose proof (map_device_run s1 e t ptr p fd entry file f args len n top m r s5 Hd Ha ltac:(unfold MMAP_MAX_SIZE in *; lia) Hn Hn0 H0 Hmax Htop Hk Hmap Hm) as Q.
  assert (W : w * h < 2 ^ 31 /\ w * h * 4 < 2 ^ 31) by (unfold MMAP_MAX_SIZE, len in *; lia).
  unfold open_screen, fb_open. rewrite !(bind_run _ _ _ _ _ I).
  change (u64 32) with 32. change (u16 32) with 32. change (32 / 8) with 4.
  rewrite !s32_small, !u64_small by (unfold MMAP_MAX_SIZE, len in *; lia). fold len. by rewrite !(bind_run _ _ _ _ _ Q).
Qed.

(** No program looks at the result of [open]: without the device the first [ioctl] passes the descriptor
    -1, with which the kernel reads far behind the table of descriptors. *)
Theorem screen_missing (s : kstate) (e path args : Z) (u : ustate kstate) (t : thread_t) (ptr : Z) (p : proc_t) :
  open path O_RDWR 0 (mk_ustate s e) = Done (-1, u) -> running me (u_sys u) t ptr p ->
  open_screen path args (mk_ustate s e) = Fault /\ fb_open path args (mk_ustate s e) = Fault.
Proof.
  intros Ho Hr. destruct u as [s1 e1]. cbn [u_sys] in Hr.
  assert (I : screen_info path (mk_ustate s e) = Fault).
  { assert (O : open_file me (2 ^ 64 - 1) s1 = Fault) by (unfold open_file; by rewrite (bind_run _ _ _ _ _ (running_proc _ _ _ _ _ Hr))).
    unfold screen_info. rewrite (bind_run _ _ _ _ _ Ho). unfold ioctl, int_call, sys, mbind, M_bind. cbn [u_sys u_errno].
    unfold intsyscall, the_kernel, trap. unfold mbind, M_bind.
    change (c_syscall_handler me fs_table file_table drivers dev_ioctl vfs_mmap vm_mmap junk_entry junk_child junk_event rounds _ s1)
      with (return_value (syscall_ioctl me file_table dev_ioctl (2 ^ 64 - 1) IOCTL_FBDEV_GET_WIDTH 0) s1).
    unfold return_value, syscall_ioctl, mbind, M_bind. by rewrite O. }
  by unfold open_screen, fb_open, mbind, M_bind; rewrite I.
Qed.

(** fork_test never prints that its file is missing or unusable: it compares with -1, which no answer of
    [access] is. *)
Theorem access_never_minus_one (s s' : kstate) (e e' file mode r : Z) :
  direct SYSCALL_ACCESS file mode 0 (mk_ustate s e) = Done (r, mk_ustate s' e') -> r <> 2 ^ 64 - 1.
Proof.
  unfold direct, sys. cbn [u_sys u_errno]. unfold intsyscall, the_kernel, trap.
  set (handler := (path ← user_string (u64 file); return_value (syscall_access me fs_table file_table path (s32 (u64 mode)))) s).
  unfold mbind, M_bind. change (c_syscall_handler me _ _ _ _ _ _ _ _ _ _ _ s) with handler.
  destruct handler as [[[v|v] s1]| | |] eqn:E; [|discriminate..]. intros [= <- <- <-]. unfold handler in E.
  apply bind_Done in E as (pa & s2 & _ & E). unfold return_value in E. apply bind_Done in E as (x & s3 & Ex & [= <- <-]).
  assert (X : x = 0 \/ x = - ENOENT \/ x = - EACCES).
  { unfold syscall_access in Ex. apply bind_Done in Ex as (file' & s4 & _ & Ex). destruct (negb (truthy file')); [injection Ex; auto|].
    destruct (_ =? F_OK).
    - apply bind_Done in Ex as (? & s5 & _ & [= <- _]). auto.
    - apply bind_Done in Ex as (d & s5 & _ & Ex). apply bind_Done in Ex as (? & s6 & _ & [= <- _]). destruct d; auto. }
  by destruct X as [->|[->| ->]].
Qed.
End OnKernel.

(** ** A program on the framebuffer, from the start of the kernel on *)

(** A screen of 64 by 48 pixels behind the framebuffer of FbDev.v; [init_fbdev] has made the node
    "/dev/fb0" of the device at 77, and the program's memory has that path at 0x1000. *)
Definition fb0_path : list Z := [47; 100; 101; 118; 47; 102; 98; 48].
Definition fb0_console : console := mk_console (fun _ => 0) 64 48 0xffffff 0 0 0.
Definition fb0_vfs : vfs_state :=
  match init_fbdev sample_table 77 DEV_DIR (mk_boot [] sample_vfs) with
  | Done (_, b) =>
      let fs := v_fs (b_vfs b) in
      set_fs (set_devs (<[77 := mk_devobj fb0_device (fun _ => 0) 0]> (devs fs)) (set_ubuf (Fs.poke 0x1000 (fb0_path ++ [0]) (ubuf fs)) fs)) (b_vfs b)
  | _ => sample_vfs
  end.
Definition fb0_kernel : kstate := set_k_vmm fb_world (set_k_vfs fb0_vfs user_kernel).
Definition fb0_ioctl (dev cmd arg : Z) : FM Z := mret (fb_ioctl fb0_console cmd).
Definition fb0_mmap (file pg sfile addr size offset prot flags : Z) : KM Z :=
  on_vmm (FbDev.vfs_mmap (Dev (Some (fb_mmap fb_virt))) pg sfile addr size offset prot flags).
Definition fb0_trap : Sys kstate :=
  the_kernel 0 sample_table (fun _ => Some tmpfs_file_table) no_drivers fb0_ioctl fb0_mmap no_vm_mmap 0 0 0 [].

(** The whole way on this system: the program has a screen of 64 by 48 at the top of its mapped area, whose
    three pages are the frames of the framebuffer, writable, and nothing behind them. *)
Theorem screen_on_fb0 :
  match @open_screen _ fb0_trap 0x1000 0x2000 (mk_ustate fb0_kernel 0) with
  | Done (scr, u) =>
      scr = mk_fb SCHED_MMAP_TOP 64 48 32 0 /\ u_errno u = 0 /\
      (fun i => user_entry (k_vmm (u_sys u)) 7 (SCHED_MMAP_TOP + i * PAGE_SIZE)) <$> [0; 1; 2; 3] =
        [Some (fb_frame + 7); Some (fb_frame + PAGE_SIZE + 7); Some (fb_frame + 2 * PAGE_SIZE + 7); Some 0]
  | _ => False
  end.
Proof. vm_compute. auto. Qed.

(** The state after an operation of a program. *)
Definition left_in {A} (o : outcome (A * ustate kstate)) : kstate := match o with Done (_, u) => u_sys u | _ => fb0_kernel end.

Abbreviation fb0_opened := (@open _ fb0_trap 0x1000 O_RDWR 0 (mk_ustate fb0_kernel 0)).
Lemma fb0_opens : fb0_opened = Done (0, mk_ustate (left_in fb0_opened) 0).
Proof.
  assert (C : match fb0_opened with Done (fd, u) => (fd, u_errno u) = (0, 0) | _ => False end) by (vm_compute; reflexivity).
  unfold left_in. destruct fb0_opened as [[fd [s1 e1]]| | |]; [|done..]. cbn in *. by injection C as -> ->.
Qed.

Definition fb0_opened_proc : proc_t := with_fds (100 :: replicate 127 0) user_proc.
Definition fb0_file : fs_file := default sample_a (files (v_fs (k_vfs (left_in fb0_opened))) !! 6).
Lemma fb0_device_open : device_open 0 (left_in fb0_opened) user_thread 5 fb0_opened_proc 0 100 6 fb0_file.
Proof.
  constructor.
  - constructor; [eexists|..]; by vm_compute.
  - done.
  - done.
  - by vm_compute.
  - by vm_compute.
  - split; [by vm_compute|]. eexists. by vm_compute.
Qed.

Abbreviation fb0_mapping :=
  (fb0_mmap 6 (p_pagemap fb0_opened_proc) 100 (mmap_top fb0_opened_proc) (64 * 48 * 4) 0 3 1
     (before_mapping (left_in fb0_opened) 0x2000 (mk_mmap_args 0 (64 * 48 * 4) MAP_PRIVATE 3 0 0) 5 fb0_opened_proc
        ((64 * 48 * 4 + PAGE_SIZE - 1) / PAGE_SIZE) PAGE_SIZE)).

Lemma fb0_answers c v : (c, v) ∈ [(IOCTL_FBDEV_GET_WIDTH, 64); (IOCTL_FBDEV_GET_HEIGHT, 48); (IOCTL_FBDEV_GET_BPP, 32)] ->
  fb0_ioctl (f_dev fb0_file) c 0 (v_fs (k_vfs (left_in fb0_opened))) = Done (v, v_fs (k_vfs (left_in fb0_opened))).
Proof. intros Hin. repeat (apply elem_of_cons in Hin as [[= -> ->]|Hin]; [reflexivity|]). by apply elem_of_nil in Hin. Qed.
Lemma fb0_kernel_top : top_level <$> v_maps (k_vmm (left_in fb0_opened)) !! kernel_pagemap = Some PAGE_SIZE.
Proof. vm_compute. reflexivity. Qed.

Lemma screen_opens_witness : exists s6,
  @open_screen _ fb0_trap 0x1000 0x2000 (mk_ustate fb0_kernel 0) = Done (mk_fb SCHED_MMAP_TOP 64 48 32 0, mk_ustate s6 0) /\
  @fb_open _ fb0_trap 0x1000 0x2000 (mk_ustate fb0_kernel 0) = Done (mk_fb SCHED_MMAP_TOP 64 48 32 0, mk_ustate s6 0).
Proof.
  assert (C : match fb0_mapping with Done (_, s5) => is_Some (v_maps (k_vmm s5) !! p_pagemap fb0_opened_proc) | _ => False end)
    by (vm_compute; by eexists).
  destruct fb0_mapping as [[r s5]| | |] eqn:E; [|contradiction..]. destruct C as [m Hm]. eexists.
  pose proof (screen_opens 0 sample_table (fun _ => Some tmpfs_file_table) no_drivers fb0_ioctl fb0_mmap no_vm_mmap 0 0 0 []
    fb0_kernel (left_in fb0_opened) s5 0 0x1000 0x2000 64 48 r user_thread 5 fb0_opened_proc 0 100 6 fb0_file PAGE_SIZE m
    fb0_opens fb0_device_open fb0_answers) as T. cbv zeta in T.
  apply T; [split; reflexivity..|split; [discriminate|reflexivity]|split; [discriminate|reflexivity]|discriminate|discriminate|
    exact fb0_kernel_top|exact E|exact Hm].
Defined.

(** Without the node the same program takes the kernel down. *)
Definition no_fb0_kernel : kstate := poked (st 1 0x1007 0) fb0_kernel.
Lemma screen_missing_witness : @open_screen _ fb0_trap 0x1000 0x2000 (mk_ustate no_fb0_kernel 0) = Fault.
Proof.
  assert (C : match @open _ fb0_trap 0x1000 O_RDWR 0 (mk_ustate no_fb0_kernel 0) with
    | Done (fd, u) => (fd, k_cpus (u_sys u) !! 0%nat, k_threads (u_sys u) !! 10, k_procs (u_sys u) !! 5) =
        (-1, Some (plain_cpu 10 0 0), Some user_thread, Some user_proc)
    | _ => False end) by (vm_compute; reflexivity).
  destruct (@open _ fb0_trap 0x1000 O_RDWR 0 (mk_ustate no_fb0_kernel 0)) as [[fd u]| | |] eqn:E; [|contradiction..].
  injection C as -> Hc Ht Hp. assert (Hr : running 0 (u_sys u) user_thread 5 user_proc) 
    by (constructor; [exists (plain_cpu 10 0 0); split; [exact Hc|exact Ht]|reflexivity|exact Hp]).
  exact (proj1 (screen_missing 0 sample_table (fun _ => Some tmpfs_file_table) no_drivers fb0_ioctl fb0_mmap no_vm_mmap 0 0 0 []
    no_fb0_kernel 0 0x1000 0x2000 u user_thread 5 user_proc E Hr)).
Defined.

(** A pipe, the byte last read, and the stream, as a system. *)
Definition pipe_machine : Type := list Z * list Z * list Z.
#[export] Instance pipe_machine_sys : Sys pipe_machine := {|
  intsyscall id _ _ _ _ _ := fun '(q, x, out) =>
    if id =? SYSCALL_READ then
      match q with [] => Done (2 ^ 64 - 1, ([], x, out)) | y :: q' => Done (1, (q', [y], out)) end
    else Done (1, (q, x, out ++ x));
  LibcSys.poke _ := mret tt;
  fetch := mret (fun _ => 0)
|}.
#[export] Instance pipe_machine_streams : PipeStream pipe_machine 3 0x2200.
Proof.
  refine {| streams s q out := fst (fst s) = q /\ snd s = out |}.
  - intros [[q0 x0] out0] x q out [E1 E2]. cbn in E1, E2. subst. by exists (q, [x], out), (q, [x], out ++ [x]), 1.
  - intros [[q0 x0] out0] out [E1 E2]. cbn in E1, E2. subst. by exists ([], x0, out).
Defined.
Lemma drain_copies_witness : exists s', drain 4 3 0x2200 (mk_ustate ([72; 105; 10], [], []) 0) = Done (tt, mk_ustate s' 0) /\ streams s' [] [72; 105; 10].
Proof. exact (drain_copies ([72; 105; 10], [], []) 0 [72; 105; 10] [] 4 (conj eq_refl eq_refl) ltac:(cbn; lia)). Defined.
