(* ===== verification/Floats.v ===== *)
(** * Binary floating point (the C types float, double and long double)

    The Standard Library's [SpecFloat] is the IEEE arithmetic, for any precision and exponent range.
    This file has the three formats of the compiler, the conversions between them and the integers,
    and the lemmas that arithmetic on integers is exact while the results fit the mantissa. *)
From Stdlib Require Import SpecFloat.
From S2P Require Import Prelude.
Open Scope Z_scope.

#[export] Instance spec_float_eq_dec : EqDecision spec_float.
Proof. solve_decision. Defined.

Record format := mk_format { f_prec : Z; f_emax : Z }.
Definition binary32 : format := mk_format 24 128.
Definition binary64 : format := mk_format 53 1024.
(** The 80-bit format of the x87, which is [long double]. *)
Definition extended : format := mk_format 64 16384.

Definition add (f : format) : spec_float -> spec_float -> spec_float := SFadd (f_prec f) (f_emax f).
Definition sub (f : format) : spec_float -> spec_float -> spec_float := SFsub (f_prec f) (f_emax f).
Definition mul (f : format) : spec_float -> spec_float -> spec_float := SFmul (f_prec f) (f_emax f).
Definition div (f : format) : spec_float -> spec_float -> spec_float := SFdiv (f_prec f) (f_emax f).

(** An integer converted to a format. *)
Definition of_int (f : format) (z : Z) : spec_float := binary_normalize (f_prec f) (f_emax f) z 0 false.

(** A number converted to another format. *)
Definition convert (f : format) (x : spec_float) : spec_float :=
  match x with
  | S754_finite s m e => binary_normalize (f_prec f) (f_emax f) (cond_Zopp s (Z.pos m)) e s
  | _ => x
  end.

(** The decimal literal [n / 10^k], correctly rounded: the bit below the 200 binary places says
    whether the quotient is exact. *)
Definition literal (f : format) (n k : Z) : spec_float :=
  let q := n * 2 ^ 200 / 10 ^ k in
  binary_normalize (f_prec f) (f_emax f) (2 * q + (if n * 2 ^ 200 mod 10 ^ k =? 0 then 0 else 1)) (-201) false.

(** Conversion to a signed integer of [bits] bits: towards zero, undefined outside of the range. *)
Definition truncate (x : spec_float) : option Z :=
  match x with
  | S754_zero _ => Some 0
  | S754_finite s m e => Some (cond_Zopp s (if 0 <=? e then Z.pos m * 2 ^ e else Z.pos m / 2 ^ (- e)))
  | _ => None
  end.
Definition to_signed (bits : Z) (x : spec_float) : option Z :=
  z ← truncate x;
  if (- 2 ^ (bits - 1) <=? z) && (z <? 2 ^ (bits - 1)) then Some z else None.

(** Conversion to an unsigned integer of [bits] bits. *)
Definition to_unsigned (bits : Z) (x : spec_float) : option Z :=
  z ← truncate x; if (0 <=? z) && (z <? 2 ^ bits) then Some z else None.

(** ** Exactness *)

Lemma digits2_log2 p : Z.pos (digits2_pos p) = Z.log2 (Z.pos p) + 1.
Proof.
  assert (H : digits2_pos p = Pos.size p) by (induction p; simpl; congruence).
  rewrite H. destruct p; simpl; lia.
Qed.

Lemma shr_exact n v : SpecFloat.iter_pos shr_1 n (Build_shr_record (v * 2 ^ Z.pos n) false false) = Build_shr_record v false false.
Proof.
  assert (H1 : forall w, shr_1 (Build_shr_record (2 * w) false false) = Build_shr_record w false false) by (by intros []).
  revert v. induction n as [n IH|n IH|]; intros v; cbn [SpecFloat.iter_pos].
  - replace (v * 2 ^ Z.pos n~1) with (2 * ((v * 2 ^ Z.pos n) * 2 ^ Z.pos n)); [by rewrite H1, !IH|].
    replace (Z.pos n~1) with (1 + Z.pos n + Z.pos n) by lia. rewrite !Z.pow_add_r by lia. ring.
  - replace (v * 2 ^ Z.pos n~0) with ((v * 2 ^ Z.pos n) * 2 ^ Z.pos n); [by rewrite !IH|].
    replace (Z.pos n~0) with (Z.pos n + Z.pos n) by lia. rewrite Z.pow_add_r by lia. ring.
  - replace (v * 2 ^ 1) with (2 * v) by lia. apply H1.
Qed.

Lemma iter_xO m d : Z.pos (Pos.iter xO m d) = Z.pos m * 2 ^ Z.pos d.
Proof.
  revert m. induction d as [|d IH] using Pos.peano_ind; intros m; [cbn; lia|].
  rewrite Pos.iter_succ. replace (2 ^ Z.pos (Pos.succ d)) with (2 * 2 ^ Z.pos d) by (rewrite Pos2Z.inj_succ, Z.pow_succ_r; lia).
  change (Z.pos (Pos.iter xO m d)~0) with (2 * Z.pos (Pos.iter xO m d)). rewrite IH. ring.
Qed.

Section Exact.
Context (f : format).
Hypothesis f_ok : 2 <= f_prec f /\ f_prec f + 2 <= f_emax f.
Let prec := f_prec f.
Let emax := f_emax f.

(** The number of binary digits. *)
Definition width (v : Z) : Z := Z.log2 v + 1.

(** The representation of a positive integer below [2^prec]. *)
Definition canon (s : bool) (v : Z) : spec_float := S754_finite s (Z.to_pos (v * 2 ^ (prec - width v))) (width v - prec).

Lemma width_bounds v : 0 < v < 2 ^ prec -> 1 <= width v <= prec.
Proof.
  intros H. unfold width. pose proof (Z.log2_nonneg v). assert (Z.log2 v < prec) by (apply Z.log2_lt_pow2; lia). lia.
Qed.

Lemma width_shift v k : 0 < v -> 0 <= k -> width (v * 2 ^ k) = width v + k.
Proof. intros. unfold width. rewrite Z.log2_mul_pow2 by lia. lia. Qed.

Lemma fexp_width w : 1 <= w -> fexp prec emax w = w - prec.
Proof. intros. unfold fexp, SpecFloat.emin, prec, emax in *. lia. Qed.

Lemma width_pos p : Z.pos (digits2_pos p) = width (Z.pos p).
Proof. apply digits2_log2. Qed.

(** A mantissa that has its place already. *)
Lemma round_aux_canon s m v : 0 < v < 2 ^ prec -> Z.pos m = v * 2 ^ (prec - width v) ->
  binary_round_aux prec emax s (Z.pos m) (width v - prec) loc_Exact = canon s v.
Proof.
  intros Hv Hm. pose proof (width_bounds v Hv) as Hw.
  assert (Hd : forall e, e = width v - prec -> fexp prec emax (Zdigits2 (Z.pos m) + e) - e = 0).
  { intros e ->. cbn [Zdigits2]. rewrite width_pos, Hm, width_shift by lia. rewrite fexp_width by lia. lia. }
  unfold binary_round_aux, shr_fexp. rewrite Hd by done. cbn [shr shr_record_of_loc shr_m loc_of_shr_record round_nearest_even].
  rewrite Hd by done. cbn [shr shr_record_of_loc shr_m]. rewrite (proj2 (Z.leb_le _ _)) by (unfold prec, emax in *; lia).
  unfold canon. by rewrite <- Hm.
Qed.

(** A mantissa with [k] binary places, all of them zero, and enough of them. *)
Lemma round_aux_int s m v k : 0 < v < 2 ^ prec -> prec - width v <= k -> Z.pos m = v * 2 ^ k ->
  binary_round_aux prec emax s (Z.pos m) (- k) loc_Exact = canon s v.
Proof.
  intros Hv Hk Hm. pose proof (width_bounds v Hv) as Hw.
  assert (Ht : fexp prec emax (Zdigits2 (Z.pos m) + - k) - - k = k - (prec - width v)).
  { cbn [Zdigits2]. rewrite width_pos, Hm, width_shift by lia. rewrite fexp_width by lia. lia. }
  destruct (Z.eq_dec k (prec - width v)) as [->|Hne].
  - replace (- (prec - width v)) with (width v - prec) by lia. by apply round_aux_canon.
  - pose proof (round_aux_canon s (Z.to_pos (v * 2 ^ (prec - width v))) v Hv) as HC.
    rewrite Z2Pos.id in HC by (apply Z.mul_pos_pos; [lia|apply Z.pow_pos_nonneg; lia]). specialize (HC eq_refl). rewrite <- HC.
    unfold binary_round_aux at 1. unfold shr_fexp at 1. rewrite Ht.
    destruct (k - (prec - width v)) as [|n|n] eqn:En; [lia| |lia]. cbn [shr shr_record_of_loc].
    replace (Z.pos m) with (v * 2 ^ (prec - width v) * 2 ^ Z.pos n)
      by (rewrite Hm, <- Z.mul_assoc, <- Z.pow_add_r by lia; do 2 f_equal; lia).
    rewrite shr_exact. cbn [shr_m loc_of_shr_record round_nearest_even].
    unfold binary_round_aux, shr_fexp. set (w := v * 2 ^ (prec - width v)).
    replace (- k + Z.pos n) with (width v - prec) by lia.
    assert (Hd : fexp prec emax (Zdigits2 w + (width v - prec)) - (width v - prec) = 0).
    { assert (E : Zdigits2 w = prec).
      { assert (0 < w) by (apply Z.mul_pos_pos; [lia|apply Z.pow_pos_nonneg; lia]). destruct w as [|p|p] eqn:Ew; [lia| |lia].
        cbn [Zdigits2]. rewrite width_pos, <- Ew. unfold w. rewrite width_shift by lia. lia. }
      rewrite E, fexp_width by lia. lia. }
    rewrite Hd. cbn [shr shr_record_of_loc shr_m loc_of_shr_record round_nearest_even]. rewrite Hd. done.
Qed.

Lemma round_int s m v k : 0 < v < 2 ^ prec -> 0 <= k -> Z.pos m = v * 2 ^ k -> binary_round prec emax s m (- k) = canon s v.
Proof.
  intros Hv Hk Hm. pose proof (width_bounds v Hv) as Hw. unfold binary_round, shl_align.
  rewrite width_pos, Hm, width_shift, fexp_width by lia.
  destruct (width v + k + - k - prec - - k) as [|n|n] eqn:En.
  - apply round_aux_int; [done|lia|done].
  - apply round_aux_int; [done|lia|done].
  - replace (width v + k + - k - prec) with (width v - prec) by lia. apply round_aux_canon; [done|].
    rewrite iter_xO, Hm, <- Z.mul_assoc, <- Z.pow_add_r by lia. do 2 f_equal. lia.
Qed.

(** An integer, with [k] zero binary places. *)
Lemma normalize_int z k sz : Z.abs z < 2 ^ prec -> 0 <= k -> z <> 0 ->
  binary_normalize prec emax (z * 2 ^ k) (- k) sz = canon (z <? 0) (Z.abs z).
Proof.
  intros Hz Hk Hne. assert (P : 0 < 2 ^ k) by (apply Z.pow_pos_nonneg; lia). unfold binary_normalize.
  destruct (z * 2 ^ k) as [|m|m] eqn:E; [nia| |].
  - assert (0 < z) by nia. rewrite (proj2 (Z.ltb_ge z 0)) by lia. apply round_int; [lia|done|]. rewrite Z.abs_eq by lia. lia.
  - assert (z < 0) by nia. rewrite (proj2 (Z.ltb_lt z 0)) by lia. apply round_int; [lia|done|]. rewrite Z.abs_neq by lia. lia.
Qed.

Lemma of_int_canon z : Z.abs z < 2 ^ prec -> z <> 0 -> of_int f z = canon (z <? 0) (Z.abs z).
Proof. intros H N. unfold of_int. rewrite <- (normalize_int z 0 false H ltac:(lia) N). by rewrite Z.mul_1_r. Qed.

Lemma of_int_0 : of_int f 0 = S754_zero false.
Proof. done. Qed.

Lemma canon_pos v : 0 < v -> width v <= prec -> Z.pos (Z.to_pos (v * 2 ^ (prec - width v))) = v * 2 ^ (prec - width v).
Proof. intros. apply Z2Pos.id, Z.mul_pos_pos; [done|]. apply Z.pow_pos_nonneg; lia. Qed.

(** A canonical mantissa moved to a smaller exponent. *)
Lemma align_int v ez : 0 < v < 2 ^ prec -> ez <= width v - prec ->
  Z.pos (fst (shl_align (Z.to_pos (v * 2 ^ (prec - width v))) (width v - prec) ez)) = v * 2 ^ (- ez).
Proof.
  intros Hv He. pose proof (width_bounds v Hv). unfold shl_align. destruct (ez - (width v - prec)) as [|n|n] eqn:En; [|lia|]; cbn [fst].
  - rewrite canon_pos by lia. do 2 f_equal. lia.
  - rewrite iter_xO, canon_pos, <- Z.mul_assoc, <- Z.pow_add_r by lia. do 2 f_equal. lia.
Qed.

Lemma cond_opp_abs z k : z <> 0 -> cond_Zopp (z <? 0) (Z.abs z * k) = z * k.
Proof. intros. unfold cond_Zopp. destruct (Z.ltb_spec z 0); [rewrite Z.abs_neq by lia|rewrite Z.abs_eq by lia]; lia. Qed.

(** The common shape of a sum and a difference of integers. *)
Lemma combine_int a b c : Z.abs a < 2 ^ prec -> Z.abs b < 2 ^ prec -> a <> 0 -> b <> 0 -> Z.abs c < 2 ^ prec ->
  let e := Z.min (width (Z.abs a) - prec) (width (Z.abs b) - prec) in
  forall m, m = c * 2 ^ (- e) -> binary_normalize prec emax m e false = of_int f c.
Proof.
  intros Ha Hb Na Nb Hc e m ->. pose proof (width_bounds (Z.abs a) ltac:(lia)). pose proof (width_bounds (Z.abs b) ltac:(lia)).
  destruct (Z.eq_dec c 0) as [->|Nc]; [done|]. rewrite (of_int_canon c Hc Nc).
  replace e with (- - e) at 2 by lia. apply normalize_int; [done|unfold e; lia|done].
Qed.

Lemma add_int a b : Z.abs a < 2 ^ prec -> Z.abs b < 2 ^ prec -> Z.abs (a + b) < 2 ^ prec ->
  add f (of_int f a) (of_int f b) = of_int f (a + b).
Proof.
  intros Ha Hb Hc. destruct (Z.eq_dec a 0) as [->|Na].
  { rewrite of_int_0, Z.add_0_l. destruct (Z.eq_dec b 0) as [->|Nb]; [done|]. by rewrite (of_int_canon b Hb Nb). }
  destruct (Z.eq_dec b 0) as [->|Nb]; [rewrite Z.add_0_r; by rewrite (of_int_canon a Ha Na)|].
  rewrite (of_int_canon a Ha Na), (of_int_canon b Hb Nb). apply (combine_int a b); try done.
  rewrite !align_int by lia. rewrite !cond_opp_abs by done. ring.
Qed.

Lemma sub_int a b : Z.abs a < 2 ^ prec -> Z.abs b < 2 ^ prec -> Z.abs (a - b) < 2 ^ prec -> a <> 0 ->
  sub f (of_int f a) (of_int f b) = of_int f (a - b).
Proof.
  intros Ha Hb Hc Na. destruct (Z.eq_dec b 0) as [->|Nb]; [rewrite Z.sub_0_r; by rewrite (of_int_canon a Ha Na)|].
  rewrite (of_int_canon a Ha Na), (of_int_canon b Hb Nb). apply (combine_int a b); try done.
  rewrite !align_int by lia. rewrite !cond_opp_abs by done. ring.
Qed.

Lemma width_mul a b : 0 < a -> 0 < b -> width a + width b - 1 <= width (a * b).
Proof. intros. unfold width. pose proof (Z.log2_mul_below a b ltac:(lia) ltac:(lia)). lia. Qed.

Lemma mul_int a b : a <> 0 -> b <> 0 -> Z.abs (a * b) < 2 ^ prec -> mul f (of_int f a) (of_int f b) = of_int f (a * b).
Proof.
  intros Na Nb Hc. rewrite Z.abs_mul in Hc. assert (Ha : 0 < Z.abs a < 2 ^ prec) by nia. assert (Hb : 0 < Z.abs b < 2 ^ prec) by nia.
  rewrite (of_int_canon a), (of_int_canon b), (of_int_canon (a * b)) by (rewrite ?Z.abs_mul; lia).
  pose proof (width_bounds _ Ha). pose proof (width_bounds _ Hb). pose proof (width_mul (Z.abs a) (Z.abs b) ltac:(lia) ltac:(lia)).
  unfold mul. unfold canon at 1 2. cbn [SFmul]. rewrite Z.abs_mul.
  replace (xorb (a <? 0) (b <? 0)) with (a * b <? 0)
    by (destruct (Z.ltb_spec a 0), (Z.ltb_spec b 0), (Z.ltb_spec (a * b) 0); try done; nia).
  replace (width (Z.abs a) - prec + (width (Z.abs b) - prec)) with (- (2 * prec - width (Z.abs a) - width (Z.abs b))) by lia.
  apply round_aux_int; [lia|lia|]. rewrite Pos2Z.inj_mul, !canon_pos by lia.
  replace (2 * prec - width (Z.abs a) - width (Z.abs b)) with ((prec - width (Z.abs a)) + (prec - width (Z.abs b))) by lia.
  rewrite Z.pow_add_r by lia. ring.
Qed.

(** Comparison of positive integers. *)
Lemma compare_canon a b : 0 < a < 2 ^ prec -> 0 < b < 2 ^ prec -> SFcompare (canon false a) (canon false b) = Some (a ?= b).
Proof.
  intros Ha Hb. pose proof (width_bounds a Ha). pose proof (width_bounds b Hb). unfold canon, SFcompare. f_equal.
  destruct (Z.compare_spec (width a - prec) (width b - prec)) as [E|E|E].
  - assert (P : 0 < 2 ^ (prec - width b)) by (apply Z.pow_pos_nonneg; lia).
    change (Pos.compare_cont Eq) with Pos.compare.
    rewrite Pos2Z.inj_compare, !canon_pos by lia. replace (width a) with (width b) by lia. symmetry. apply Zmult_compare_compat_r. lia.
  - symmetry. apply Z.compare_lt_iff. unfold width in E. apply Z.log2_lt_cancel. lia.
  - symmetry. apply Z.compare_gt_iff. unfold width in E. apply Z.log2_lt_cancel. lia.
Qed.

Lemma ltb_int a b : 0 <= a < 2 ^ prec -> 0 <= b < 2 ^ prec -> SFltb (of_int f a) (of_int f b) = (a <? b).
Proof.
  intros Ha Hb. unfold SFltb. destruct (Z.eq_dec a 0) as [->|Na], (Z.eq_dec b 0) as [->|Nb]; [done| | |].
  - rewrite (of_int_canon b) by lia. unfold canon. cbn. rewrite (proj2 (Z.ltb_ge b 0)), (proj2 (Z.ltb_lt 0 b)) by lia. done.
  - rewrite (of_int_canon a) by lia. unfold canon. cbn. rewrite (proj2 (Z.ltb_ge a 0)) by lia. done.
  - rewrite (of_int_canon a), (of_int_canon b), (proj2 (Z.ltb_ge a 0)), (proj2 (Z.ltb_ge b 0)), !Z.abs_eq by lia.
    rewrite compare_canon by lia. unfold Z.ltb. by destruct (a ?= b).
Qed.

Lemma truncate_int z : Z.abs z < 2 ^ prec -> truncate (of_int f z) = Some z.
Proof.
  intros Hz. destruct (Z.eq_dec z 0) as [->|Nz]; [done|]. rewrite of_int_canon by done. pose proof (width_bounds (Z.abs z) ltac:(lia)).
  unfold canon, truncate. rewrite canon_pos by lia. f_equal.
  assert (E : (if 0 <=? width (Z.abs z) - prec then Z.abs z * 2 ^ (prec - width (Z.abs z)) * 2 ^ (width (Z.abs z) - prec)
    else Z.abs z * 2 ^ (prec - width (Z.abs z)) / 2 ^ (- (width (Z.abs z) - prec))) = Z.abs z).
  { destruct (Z.leb_spec 0 (width (Z.abs z) - prec)).
    - replace (width (Z.abs z)) with prec by lia. rewrite Z.sub_diag. lia.
    - replace (- (width (Z.abs z) - prec)) with (prec - width (Z.abs z)) by lia. apply Z.div_mul.
      pose proof (Z.pow_pos_nonneg 2 (prec - width (Z.abs z))). lia. }
  rewrite E. rewrite <- (Z.mul_1_r (Z.abs z)), cond_opp_abs by done. lia.
Qed.
End Exact.

(** An integer small enough for both formats keeps its value. *)
Lemma convert_int f g z : (2 <= f_prec f /\ f_prec f + 2 <= f_emax f) -> (2 <= f_prec g /\ f_prec g + 2 <= f_emax g) ->
  Z.abs z < 2 ^ f_prec f -> Z.abs z < 2 ^ f_prec g -> convert g (of_int f z) = of_int g z.
Proof.
  intros Hf Hg Zf Zg. destruct (Z.eq_dec z 0) as [->|Nz]; [done|].
  rewrite (of_int_canon f Hf z), (of_int_canon g Hg z) by done. pose proof (width_bounds f (Z.abs z) ltac:(lia)).
  unfold convert, canon at 1. rewrite (canon_pos f) by lia. rewrite cond_opp_abs by done.
  replace (width (Z.abs z) - f_prec f) with (- (f_prec f - width (Z.abs z))) by lia. by apply normalize_int; [..|lia|].
Qed.

Lemma binary32_ok : 2 <= f_prec binary32 /\ f_prec binary32 + 2 <= f_emax binary32.
Proof. done. Qed.
Lemma binary64_ok : 2 <= f_prec binary64 /\ f_prec binary64 + 2 <= f_emax binary64.
Proof. done. Qed.
Lemma extended_ok : 2 <= f_prec extended /\ f_prec extended + 2 <= f_emax extended.
Proof. done. Qed.
#[export] Hint Resolve binary32_ok binary64_ok extended_ok : core.
