(* ===== verification/Math.v ===== *)
(** * The user library's math.c and math.h

    Every function, in the formats of Floats.v.  Operands are converted where the C rules convert
    them: an [int] next to a [double] becomes a [double], a [double] next to a [long double] becomes
    a [long double], and an assignment rounds to the type of its target.  A conversion to an integer
    type outside its range, and a shift by a negative amount, are undefined: [None].  An [int] that
    overflows wraps, as the compiled code does.  A NaN has no sign in [spec_float]: [__signbit] of
    one is [None].

    The x87 instructions of the trigonometric functions and the fused multiply-add are arguments.
    Macros are expanded as text, which matters where an argument is not a name. *)
From Stdlib Require Import SpecFloat.
From S2P Require Import Prelude Floats.
Open Scope Z_scope.

Declare Scope double_scope.
Delimit Scope double_scope with D.
Infix "+" := (add binary64) : double_scope.
Infix "-" := (sub binary64) : double_scope.
Infix "*" := (mul binary64) : double_scope.
Infix "/" := (div binary64) : double_scope.
Notation "x < y" := (SFltb x y) : double_scope.

(** An [int] used as a [double], a [float], a [long double]. *)
Definition I (z : Z) : spec_float := of_int binary64 z.
Definition If (z : Z) : spec_float := of_int binary32 z.
Definition Il (z : Z) : spec_float := of_int extended z.

(** ** math.h *)

Definition M_E : spec_float := literal binary64 27182818284590452354 19.
Definition M_LOG2E : spec_float := literal binary64 14426950408889634074 19.
Definition M_LN2 : spec_float := literal binary64 69314718055994530942 20.
Definition M_LN10 : spec_float := literal binary64 230258509299404568402 20.
Definition M_PI : spec_float := literal binary64 314159265358979323846 20.

(** Integers: the bit patterns of the 32-bit infinity and NaN. *)
Definition INFINITY : Z := 0x7F800000.
Definition NAN : Z := 0x7FC00000.

(** limits.h. *)
Definition INT_MIN : Z := -32767.
Definition INT_MAX : Z := 32767.
Definition FP_ILOGB0 : Z := INT_MIN.
Definition FP_ILOGBNAN : Z := INT_MIN.

Definition isinf (x : spec_float) : bool := SFeqb x (I INFINITY) || SFeqb x (I (- INFINITY)).
Definition isnan (x : spec_float) : bool := negb (SFeqb x x).
(** [fabs(x)] where the argument is a name. *)
Definition fabs (x : spec_float) : spec_float := if SFltb (I 0) x then x else SFopp x.
Definition fmin (x y : spec_float) : spec_float := if SFltb y x then y else x.
Definition fmax (x y : spec_float) : spec_float := if SFltb y x then x else y.

(** ** Sign bits *)

Definition signbit_of (x : spec_float) : option bool :=
  match x with S754_zero s | S754_infinity s | S754_finite s _ _ => Some s | S754_nan => None end.
Definition __signbit : spec_float -> option bool := signbit_of.
Definition __signbitf : spec_float -> option bool := signbit_of.
Definition __signbitl : spec_float -> option bool := signbit_of.

(** ** Nearest integer *)

Definition to_ll : spec_float -> option Z := to_signed 64.
Definition to_int : spec_float -> option Z := to_signed 32.

Definition ceil (x : spec_float) : option spec_float :=
  z ← to_ll x; s ← __signbit x; Some (I z + I (Z.b2z (negb s)))%D.
Definition ceilf (x : spec_float) : option spec_float :=
  z ← to_ll x; s ← __signbitf x; Some (add binary32 (If z) (If (Z.b2z (negb s)))).
Definition ceill (x : spec_float) : option spec_float :=
  z ← to_ll x; s ← __signbitl x; Some (add extended (Il z) (Il (Z.b2z (negb s)))).
(** The [double] version adds before it converts. *)
Definition floor (x : spec_float) : option spec_float :=
  z ← to_ll x; s ← __signbit x; Some (I (z + Z.b2z s)).
Definition floorf (x : spec_float) : option spec_float :=
  z ← to_ll x; s ← __signbitf x; Some (add binary32 (If z) (If (Z.b2z s))).
Definition floorl (x : spec_float) : option spec_float :=
  z ← to_ll x; s ← __signbitl x; Some (add extended (Il z) (Il (Z.b2z s))).

(** [0.5 * (x > 0 ? 1 : -1)]. *)
Definition half_towards (x : spec_float) : spec_float :=
  mul binary64 (literal binary64 5 1) (I (if SFltb (I 0) x then 1 else -1)).
Definition round (x : spec_float) : option spec_float := z ← to_ll (x + half_towards x)%D; Some (I z).
Definition roundf (x : spec_float) : option spec_float :=
  y ← floorf (convert binary32 (convert binary64 x + half_towards x)%D); z ← to_ll y; Some (If z).
Definition roundl (x : spec_float) : option spec_float :=
  y ← floorl (add extended x (convert extended (half_towards x))); z ← to_ll y; Some (Il z).
Definition trunc (x : spec_float) : option spec_float := z ← to_ll x; Some (I z).
Definition truncf (x : spec_float) : option spec_float := z ← to_ll x; Some (If z).
Definition truncl (x : spec_float) : option spec_float := z ← to_ll x; Some (Il z).

(** ** Extras *)

Fixpoint factorial_loop (n : nat) (retval : Z) : Z :=
  match n with O => retval | S n' => factorial_loop n' (s32 (retval * Z.of_nat n)) end.
Definition factorial (n : Z) : Z := if 1 <? n then factorial_loop (Z.to_nat n) 1 else 1.

Fixpoint intpow_loop (n : nat) (x retval : spec_float) : spec_float :=
  match n with O => retval | S n' => intpow_loop n' x (mul extended retval x) end.
(** A negative exponent is negated; an exponent beyond the [int] counter is undefined. *)
Definition intpow (x : spec_float) (y : Z) : option spec_float :=
  let y := Z.abs y in
  if y <? 2 ^ 31 then Some (intpow_loop (Z.to_nat y) (convert extended x) (Il 1)) else None.

(** ** Roots and logarithms *)

Fixpoint repeat_n {A} (n : nat) (f : A -> A) (a : A) : A := match n with O => a | S n' => repeat_n n' f (f a) end.

Definition sqrt (x : spec_float) : spec_float :=
  if SFltb x (I 0) then I NAN
  else repeat_n 30 (fun a => a - (a * a - x) / (I 2 * a))%D (I 10 - I 190 / (x + I 20))%D.
Definition sqrtf (x : spec_float) : spec_float := convert binary32 (sqrt (convert binary64 x)).
Definition hypot (x y : spec_float) : spec_float := sqrt (x * x + y * y)%D.
Definition hypotf (x y : spec_float) : spec_float :=
  convert binary32 (sqrt (convert binary64 (add binary32 (mul binary32 x x) (mul binary32 y y)))).

Definition agm (x y : spec_float) : spec_float :=
  fst (repeat_n 10 (fun '(a, g) => ((a + g) / I 2, sqrt (a * g)))%D (x, y)).

Definition log (x : spec_float) : spec_float :=
  let s := (x * I (2 ^ 16))%D in
  (M_PI / (I 2 * agm (I 1) (I 4 / s)) - I 16 * M_LN2)%D.
Definition logf (x : spec_float) : spec_float := x.
Definition __fyl2x (x y : spec_float) : spec_float := (y * log x / M_LN2)%D.
Definition log10 (x : spec_float) : spec_float := __fyl2x x (M_LN2 / M_LN10)%D.
Definition log10f (x : spec_float) : spec_float := convert binary32 (__fyl2x (convert binary64 x) (M_LN2 / M_LN10)%D).
Definition log1p (x : spec_float) : spec_float := __fyl2x (x + I 1)%D M_LOG2E.
Definition log1pf (x : spec_float) : spec_float := convert binary32 (__fyl2x (convert binary64 x + I 1)%D M_LOG2E).
Definition log2 (x : spec_float) : spec_float := __fyl2x x (I 1).
Definition log2f (x : spec_float) : spec_float := convert binary32 (__fyl2x (convert binary64 x) (I 1)).
Definition logb (x : spec_float) : spec_float := log2 (fabs x).
Definition logbf (x : spec_float) : spec_float := log2f (fabs x).
Definition new_log2 (x : spec_float) : spec_float := x.

Definition ilogb (x : spec_float) : option Z :=
  if SFeqb x (I 0) then Some FP_ILOGB0
  else if isinf x then Some INT_MAX
  else if isnan x then Some FP_ILOGBNAN
  else to_int (logb x).
(** [ilogbf] calls itself; [None] is a call that has not returned after [fuel] levels. *)
Fixpoint ilogbf (fuel : nat) (x : spec_float) : option Z := match fuel with O => None | S n => ilogbf n x end.

(** ** Exponentials *)

(** One turn of the Taylor loop: the sum is formed in [long double] and rounded into [a]. *)
Definition exp_term (cval d : spec_float) (a : spec_float) (n : nat) : option spec_float :=
  p ← intpow d (Z.of_nat n);
  Some (convert binary64 (add extended (convert extended a)
          (mul extended (div extended cval (Il (factorial (Z.of_nat n)))) p))).
(** [a = a * (1 + x - log(a))]. *)
Definition exp_newton (x a : spec_float) : spec_float := (a * (I 1 + x - log a))%D.
(** [for (int n = 31; n >= 0; n--)]. *)
Fixpoint exp_taylor (n : nat) (cval d a : spec_float) : option spec_float :=
  match n with O => Some a | S n' => a ← exp_term cval d a n'; exp_taylor n' cval d a end.
Definition exp_nonneg (x : spec_float) : option spec_float :=
  c ← round x;
  center ← to_ll c;
  cval ← intpow M_E center;
  a ← exp_taylor 32 cval (x - I center)%D (I 0);
  Some (repeat_n 20 (exp_newton x) a).
(** The call for [-x] does not take the first branch again. *)
Definition exp (x : spec_float) : option spec_float :=
  if SFltb x (I 0) then y ← exp_nonneg (SFopp x); Some (I 1 / y)%D else exp_nonneg x.

Fixpoint expm1_loop (n : nat) (i : Z) (x a : spec_float) : option spec_float :=
  match n with
  | O => Some a
  | S n' => p ← intpow x i;
      expm1_loop n' (i + 1) x (convert binary64 (add extended (convert extended a) (div extended p (Il (factorial i)))))
  end.
Definition expm1 (x : spec_float) : option spec_float :=
  a ← expm1_loop 4 1 x (I 0); Some (repeat_n 10 (exp_newton x) a).

Definition cosh (x : spec_float) : option spec_float := a ← exp x; b ← exp (SFopp x); Some ((a + b) / I 2)%D.
Definition sinh (x : spec_float) : option spec_float := a ← exp x; b ← exp (SFopp x); Some ((a - b) / I 2)%D.
Definition tanh (x : spec_float) : option spec_float :=
  e1 ← exp x; let e2 := (I 1 / e1)%D in Some ((e1 + e2) / (e1 - e2))%D.
Definition pow (x y : spec_float) : option spec_float := exp (y * log x)%D.

(** ** Scaling *)

(** [abs] of stdlib.c takes an [int]. *)
Definition abs_int (z : Z) : Z := if z <? 0 then s32 (- z) else z.
Definition ldexp (x : spec_float) (e : Z) : option spec_float :=
  let rest :=
    if (e =? 0) || isnan x then Some x
    else if 8 <=? abs_int e then Some (x * repeat_n (Z.to_nat e) (fun v => v * I 2) (I 1))%D
    else if SFltb (I 0) x then if e <? 0 then None else Some (x * I (Z.shiftl 1 e))%D
    else if 0 <? e then None else Some (x / I (Z.shiftl 1 (- e)))%D in
  if SFeqb x (I 0) then Some x
  else i ← to_int x; if abs_int i =? INFINITY then Some x else rest.

(** ** Remainders *)

Definition fmod (x y : spec_float) : option spec_float := q ← to_int (x / y)%D; Some (x - I q * y)%D.
Definition remainder (x y : spec_float) : option spec_float := q ← round (x / y)%D; Some (x - q * y)%D.
(** The result and the integer stored at [quo]. *)
Definition remquo (x y : spec_float) : option (spec_float * Z) :=
  q ← to_int (x / y)%D; r ← remainder x y; Some (r, q).

(** ** Differences: [fabs(x - y)] expands to [(x - y > 0 ? x - y : -x - y)] *)

Definition fdim_in (f : format) (x y : spec_float) : spec_float :=
  if SFltb (I 0) (sub f x y) then sub f x y else sub f (SFopp x) y.
Definition fdim : spec_float -> spec_float -> spec_float := fdim_in binary64.
Definition fdimf : spec_float -> spec_float -> spec_float := fdim_in binary32.
Definition fdiml : spec_float -> spec_float -> spec_float := fdim_in extended.

(** ** Instructions *)

Section Instructions.
(** [fcos], [fsin]: the top of the stack after the instruction.  [fsincos] leaves the sine below the
    cosine: the top of the stack, then the register below it.  [vfmadd213 a b c] is [b * a + c]. *)
Context (fcos fsin : spec_float -> spec_float) (vfmadd213 : spec_float -> spec_float -> spec_float -> spec_float).
Definition fsincos (x : spec_float) : spec_float * spec_float := (fcos x, fsin x).

Definition cos (x : spec_float) : spec_float := convert binary64 (fcos (convert extended x)).
Definition sin (x : spec_float) : spec_float := convert binary64 (fsin (convert extended x)).
(** The constraints: "=t" is [s], "=u" is [c]. *)
Definition tan (x : spec_float) : spec_float :=
  let '(s, c) := fsincos (convert extended x) in (convert binary64 s / convert binary64 c)%D.

(** [vfmadd213sd %0, %1, %2] in the compiler's operand order, destination last: the registers of
    [x], [y], [z] afterwards. *)
Definition fma_registers (x y z : spec_float) : spec_float * spec_float * spec_float := (x, y, vfmadd213 z y x).
Definition fma (x y z : spec_float) : spec_float := let '(x, _, _) := fma_registers x y z in x.
End Instructions.

(** ** The nearest integers *)

(** The integers below and above a number. *)
Definition floor_of (x : spec_float) : Z :=
  match x with S754_finite s m e => if 0 <=? e then cond_Zopp s (Z.pos m * 2 ^ e) else cond_Zopp s (Z.pos m) / 2 ^ (- e) | _ => 0 end.
Definition ceil_of (x : spec_float) : Z :=
  match x with S754_finite s m e => if 0 <=? e then cond_Zopp s (Z.pos m * 2 ^ e) else - (cond_Zopp (negb s) (Z.pos m) / 2 ^ (- e)) | _ => 0 end.

Lemma truncate_pos x z : truncate x = Some z -> signbit_of x = Some false -> z = floor_of x.
Proof. destruct x as [s|s| |s m e]; cbn; intros [= <-] [= ->]; cbn; [done|]. by destruct (0 <=? e). Qed.

Lemma truncate_neg x z : truncate x = Some z -> signbit_of x = Some true -> z = ceil_of x.
Proof. destruct x as [s|s| |s m e]; cbn; intros [= <-] [= ->]; cbn; [done|]. by destruct (0 <=? e). Qed.

Lemma floor_ceil x : floor_of x <= ceil_of x <= floor_of x + 1.
Proof.
  destruct x as [s|s| |s m e]; cbn; try lia. destruct (Z.leb_spec 0 e); [lia|].
  pose proof (Z.pow_pos_nonneg 2 (- e) ltac:(lia) ltac:(lia)).
  destruct s; cbn [cond_Zopp negb]; change (Z.neg m) with (- Z.pos m); generalize (Z.pos m), (2 ^ (- e)), H0; clear; intros a b Hb;
    Z.to_euclidean_division_equations; nia.
Qed.

Lemma to_ll_small x z : truncate x = Some z -> Z.abs z < 2 ^ 52 -> to_ll x = Some z.
Proof.
  intros H Hz. unfold to_ll, to_signed. rewrite H. cbn [mbind option_bind].
  by rewrite (proj2 (Z.leb_le _ _)), (proj2 (Z.ltb_lt _ _)) by lia.
Qed.

Lemma I_add a b : Z.abs a < 2 ^ 53 -> Z.abs b < 2 ^ 53 -> Z.abs (a + b) < 2 ^ 53 -> (I a + I b)%D = I (a + b).
Proof. by apply (add_int binary64). Qed.

(** [trunc], [floor] and [ceil] on every number whose integral part is below 2^52.  [trunc] is
    exact.  For a positive number [floor] is the largest integer below it, and [ceil] the integer after
    that one: the smallest integer above the number, unless the number is an integer itself.  For a
    negative number [ceil] is the smallest integer above it, and [floor] the integer after that one,
    which is never the largest integer below. *)
Theorem nearest_integers (x : spec_float) (z : Z) :
  truncate x = Some z -> Z.abs z < 2 ^ 52 ->
  trunc x = Some (I z) /\ truncate (I z) = Some z /\
  (__signbit x = Some false -> floor x = Some (I (floor_of x)) /\ ceil x = Some (I (floor_of x + 1)) /\
     (floor_of x <> ceil_of x -> ceil x = Some (I (ceil_of x)))) /\
  (__signbit x = Some true -> ceil x = Some (I (ceil_of x)) /\ floor x = Some (I (ceil_of x + 1))).
Proof.
  intros H Hz. pose proof (to_ll_small x z H Hz) as Hll. unfold trunc, ceil, floor. rewrite Hll. cbn [mbind option_bind].
  split; [done|]. split; [apply (truncate_int binary64); [done|cbn; lia]|]. unfold __signbit.
  split; intros Hs; rewrite Hs; cbn [mbind option_bind negb Z.b2z].
  - pose proof (truncate_pos x z H Hs) as ->. pose proof (floor_ceil x). rewrite I_add, Z.add_0_r by lia.
    split; [done|]. split; [done|]. intros Hne. do 2 f_equal. lia.
  - pose proof (truncate_neg x z H Hs) as ->. by rewrite I_add, Z.add_0_r by lia.
Qed.

Lemma nearest_integers_witness :
  truncate (I (-5) / I 2)%D = Some (-2) /\ floor (I (-5) / I 2)%D = Some (I (-1)) /\ ceil (I (-5) / I 2)%D = Some (I (-2)) /\
  ceil (I 7) = Some (I 8) /\ ceil (I 7 / I 2)%D = Some (I 4).
Proof.
  split; [reflexivity|].
  destruct (nearest_integers (I (-5) / I 2)%D (-2) eq_refl eq_refl) as (_ & _ & _ & Hn). destruct (Hn eq_refl) as [Hc Hf].
  destruct (nearest_integers (I 7) 7 eq_refl eq_refl) as (_ & _ & Hp & _). destruct (Hp eq_refl) as (_ & Hc7 & _).
  destruct (nearest_integers (I 7 / I 2)%D 3 eq_refl eq_refl) as (_ & _ & Hq & _). destruct (Hq eq_refl) as (_ & Hc3 & _).
  split; [exact Hf|]. split; [exact Hc|]. split; [exact Hc7|exact Hc3].
Defined.

(** ** Integer powers and factorials *)

Lemma intpow_loop_int n b r : b <> 0 -> r <> 0 -> Z.abs (r * b ^ Z.of_nat n) < 2 ^ 64 -> intpow_loop n (Il b) (Il r) = Il (r * b ^ Z.of_nat n).
Proof.
  revert r. induction n as [|n IH]; intros r Hb Hr Hs; cbn [intpow_loop]; [f_equal; lia|].
  assert (E : r * b ^ Z.of_nat (S n) = r * b * b ^ Z.of_nat n) by (rewrite Nat2Z.inj_succ, Z.pow_succ_r by lia; ring).
  assert (P : b ^ Z.of_nat n <> 0) by (apply Z.pow_nonzero; lia).
  rewrite E in *. unfold Il in *. rewrite (mul_int extended) by (try done; rewrite Z.abs_mul in Hs; cbn [f_prec extended]; nia).
  apply IH; [done|nia|done].
Qed.

(** The factorial. *)
Fixpoint factZ (n : nat) : Z := match n with O => 1 | S k => Z.of_nat n * factZ k end.

(** [intpow] of an integer is the exact power as long as that fits the mantissa of a [double];
    the sign of the exponent is ignored.  [factorial] is exact up to 12 and wraps from 13 on. *)
Theorem intpow_factorial_exact (b y n : Z) :
  b <> 0 -> Z.abs b ^ Z.abs y < 2 ^ 53 -> Z.abs y < 2 ^ 31 -> 0 <= n <= 12 ->
  intpow (I b) y = Some (Il (b ^ Z.abs y)) /\ intpow (I b) (- y) = intpow (I b) y /\
  factorial n = factZ (Z.to_nat n) /\ factorial 13 <> factZ 13.
Proof.
  intros Hb Hp Hy Hn. split; [|split; [unfold intpow; by rewrite Z.abs_opp|split]].
  - unfold intpow. rewrite (proj2 (Z.ltb_lt _ _)) by done. f_equal.
    destruct (Z.eq_dec y 0) as [->|Ny]; [reflexivity|].
    assert (Hb53 : Z.abs b < 2 ^ 53).
    { pose proof (Z.pow_le_mono_r (Z.abs b) 1 (Z.abs y) ltac:(lia) ltac:(lia)). rewrite Z.pow_1_r in *. lia. }
    unfold I. rewrite (convert_int binary64 extended) by (try done; cbn [f_prec binary64 extended]; lia).
    change (of_int extended b) with (Il b). rewrite intpow_loop_int; rewrite ?Z2Nat.id by lia; try done; [f_equal; lia|].
    rewrite Z.mul_1_l, Z.abs_pow. lia.
  - assert (C : forallb (fun k => factorial k =? factZ (Z.to_nat k)) (seqZ 0 13) = true) by (vm_compute; reflexivity).
    rewrite forallb_forall in C. apply Z.eqb_eq, C. rewrite <- list_elem_of_In, elem_of_seqZ. lia.
  - vm_compute. discriminate.
Qed.

Lemma intpow_factorial_exact_witness : intpow (I (-3)) 5 = Some (Il (-243)) /\ intpow (I (-3)) (-5) = intpow (I (-3)) 5 /\ factorial 12 = 479001600.
Proof.
  destruct (intpow_factorial_exact (-3) 5 12) as (A & B & C & _); [lia|reflexivity|reflexivity|lia|].
  split; [exact A|]. split; [exact B|]. rewrite C. vm_compute. reflexivity.
Defined.

(** ** Differences, roots and the rest *)

Lemma positive_int c : Z.abs c < 2 ^ 53 -> SFltb (I 0) (I c) = (0 <? c).
Proof.
  intros H. destruct (Z.eq_dec c 0) as [->|N]; [done|]. unfold I. rewrite (of_int_canon binary64 ltac:(done) c H N).
  unfold canon. rewrite (of_int_0 binary64). cbn. destruct (Z.ltb_spec c 0), (Z.ltb_spec 0 c); cbn; try done; lia.
Qed.

(** [fdim] on integers: the difference when it is positive, but the negated sum, and not 0, when it
    is not, because the macro's [-x] becomes [-x - y]. *)
Theorem fdim_integers (a b : Z) :
  a <> 0 -> Z.abs a < 2 ^ 51 -> Z.abs b < 2 ^ 51 -> fdim (I a) (I b) = if b <? a then I (a - b) else I (- a - b).
Proof.
  intros Na Ha Hb. unfold fdim, fdim_in. assert (S : sub binary64 (I a) (I b) = I (a - b)) by (apply (sub_int binary64); cbn; lia).
  assert (O : SFopp (I a) = I (- a)).
  { unfold I. rewrite (of_int_canon binary64 ltac:(done) a), (of_int_canon binary64 ltac:(done) (- a)) by (cbn; lia).
    unfold canon, SFopp. rewrite Z.abs_opp. f_equal. destruct (Z.ltb_spec a 0), (Z.ltb_spec (- a) 0); cbn; lia. }
  rewrite S, O, positive_int by lia. destruct (Z.ltb_spec 0 (a - b)), (Z.ltb_spec b a); try lia; [done|].
  apply (sub_int binary64); cbn; lia.
Qed.

Lemma fdim_integers_witness : fdim (I 5) (I 3) = I 2 /\ fdim (I 1) (I 2) = I (-3).
Proof. split; [exact (fdim_integers 5 3 ltac:(lia) eq_refl eq_refl)|exact (fdim_integers 1 2 ltac:(lia) eq_refl eq_refl)]. Defined.

(** [sqrt] of the squares up to 40^2 is exact. *)
Theorem sqrt_squares (n : Z) : 1 <= n <= 40 -> sqrt (I (n * n)) = I n.
Proof.
  intros Hn. assert (C : forallb (fun n => bool_decide (sqrt (I (n * n)) = I n)) (seqZ 1 40) = true) by (vm_compute; reflexivity).
  rewrite forallb_forall in C. specialize (C n). rewrite bool_decide_eq_true in C. apply C. rewrite <- list_elem_of_In, elem_of_seqZ. lia.
Qed.
Lemma sqrt_squares_witness : sqrt (I 144) = I 12.
Proof. exact (sqrt_squares 12 ltac:(lia)). Defined.

(** What the functions return instead of what they are meant to: the square root of a negative number
    is the bit pattern of a NaN as a number, infinity is not recognised as such, the root of 0 is not 0,
    [expm1] of 0 is NaN, [log1p(1)] is above 1 (twice the logarithm of 2), [ldexp] by a negative exponent of 8 or more does nothing, [roundf] of -3 is -2 and
    [ilogbf] never returns. *)
Theorem math_flaws :
  sqrt (I (-1)) = I 2143289344 /\ isinf (S754_infinity false) = false /\ sqrt (I 0) <> I 0 /\
  expm1 (I 0) = Some S754_nan /\ SFltb (I 1) (log1p (I 1)) = true /\
  ldexp (I 8) (-8) = Some (I 8) /\ roundf (If (-3)) = Some (If (-2)) /\ (forall fuel x, ilogbf fuel x = None).
Proof.
  split; [vm_compute; reflexivity|]. split; [vm_compute; reflexivity|]. split; [vm_compute; discriminate|].
  split; [vm_compute; reflexivity|]. split; [vm_compute; reflexivity|].
  split; [vm_compute; reflexivity|]. split; [vm_compute; reflexivity|].
  intros fuel. induction fuel as [|n IH]; intros x; [done|apply IH].
Qed.

(** [tan] returns the cotangent, because [fsincos] leaves the cosine on top, and [fma] returns its
    first argument, because the instruction writes its last operand. *)
Theorem instruction_operands fcos fsin vfmadd213 (x y z : spec_float) :
  tan fcos fsin x = (cos fcos x / sin fsin x)%D /\ fma vfmadd213 x y z = x.
Proof. done. Qed.

(** The functions that work, at a few points: logarithms within 2^-25, the others exactly. *)
Definition near (x y : spec_float) : bool := SFltb (fabs (x - y)%D) (I 1 / I (2 ^ 25))%D.
Example elementary_functions :
  near (log (I 1)) (I 0) = true /\ near (log (I 2)) M_LN2 = true /\ near (log10 (I 1000)) (I 3) = true /\
  near (log2 (I 8)) (I 3) = true /\
  fmod (I 17) (I 5) = Some (I 2) /\ remainder (I 17) (I 5) = Some (I 2) /\ remquo (I 18) (I 5) = Some (I (-2), 3) /\
  hypot (I 3) (I 4) = I 5 /\ round (I 5 / I 2)%D = Some (I 3) /\ ilogb (I 9) = Some 3 /\ ldexp (I 3) 10 = Some (I 3072).
Proof. vm_compute. repeat split; reflexivity. Qed.
