(* ===== verification/Graphics.v ===== *)
(** * The drawing programs (src/src/prog: sin, trig, rainbow, lsd, math_test)

    The mapped framebuffer is the list of its pixels; an access outside of it is [None].  A frame is
    one turn of the endless loop of a [main].  Colours are computed in the floating point of Floats.v
    and converted to bytes as C does, undefined outside of 0..255. *)
From Stdlib Require Import SpecFloat.
From S2P Require Import Prelude Floats Math.
Open Scope Z_scope.

Abbreviation framebuffer := (list Z).

Definition poke (i v : Z) (fb : framebuffer) : option framebuffer :=
  if (0 <=? i) && (i <? Z.of_nat (length fb)) then Some (<[Z.to_nat i := v]> fb) else None.
Definition peek (i : Z) (fb : framebuffer) : option Z := if 0 <=? i then fb !! Z.to_nat i else None.

(** Stores in order. *)
Fixpoint pokes (l : list (Z * Z)) (fb : framebuffer) : option framebuffer :=
  match l with [] => Some fb | (i, v) :: l' => fb ← poke i v fb; pokes l' fb end.

(** [for (x = 0; x < width; x++) for (y = 0; y < height; y++)] and the loops the other way round, as
    the list of the pairs [(x, y)]. *)
Definition columns_first (width height : Z) : list (Z * Z) := seqZ 0 width ≫= fun x => (fun y => (x, y)) <$> seqZ 0 height.
Definition rows_first (width height : Z) : list (Z * Z) := seqZ 0 height ≫= fun y => (fun x => (x, y)) <$> seqZ 0 width.

(** ** Colours *)

Record pixel_t := mk_pixel { blue : Z; green : Z; red : Z; unused : Z }.

Definition rgb2hex (p : pixel_t) : Z := u32 (Z.shiftl (red p) 16 + Z.shiftl (green p) 8 + blue p).
Definition anti_colour (p : pixel_t) : pixel_t := mk_pixel (Z.lxor (blue p) 0xff) (Z.lxor (green p) 0xff) (Z.lxor (red p) 0xff) 0.

(** The four bytes as the 32-bit number at their address. *)
Definition pixel_word (p : pixel_t) : Z := blue p + 2 ^ 8 * green p + 2 ^ 16 * red p + 2 ^ 24 * unused p.

Declare Scope float_scope.
Delimit Scope float_scope with F.
Infix "+" := (add binary32) : float_scope.
Infix "-" := (sub binary32) : float_scope.
Infix "*" := (mul binary32) : float_scope.
Infix "/" := (div binary32) : float_scope.

(** [int floor(double x)] of the programs. *)
Definition floor (x : spec_float) : option Z := xi ← to_int x; Some (if SFltb x (I xi) then xi - 1 else xi).

(** A [float] stored in a byte. *)
Definition byte_of (x : spec_float) : option Z := to_unsigned 8 x.
Definition rgb (r g b : spec_float) : option pixel_t :=
  r ← byte_of (r * If 255)%F; g ← byte_of (g * If 255)%F; b ← byte_of (b * If 255)%F; Some (mk_pixel b g r 0).

(** From [h /= 60] to the end of the function, the same in every program. *)
Definition hsv_sector (h s v : spec_float) : option pixel_t :=
  let h := (h / If 60)%F in
  i ← floor (convert binary64 h);
  let f := (h - If i)%F in
  let p := (v * (If 1 - s))%F in
  let q := (v * (If 1 - s * f))%F in
  let t := (v * (If 1 - s * (If 1 - f)))%F in
  if i =? 0 then rgb v t p
  else if i =? 1 then rgb q v p
  else if i =? 2 then rgb p v t
  else if i =? 3 then rgb p q v
  else if i =? 4 then rgb t p v
  else rgb v p q.

(** [.red = s, .green = s, .blue = s] for [s == 0]. *)
Definition grey (s : spec_float) : option pixel_t := c ← byte_of s; Some (mk_pixel c c c 0).

(** rainbow.c and trig.c. *)
Definition hsv2rgb (h s v : spec_float) : option pixel_t := if SFeqb s (If 0) then grey s else hsv_sector h s v.

(** [while (h > 360) h -= 360;]: [None] when [fuel] turns are not enough. *)
Fixpoint reduce_hue (fuel : nat) (above : spec_float -> bool) (h : spec_float) : option spec_float :=
  if above h then match fuel with O => None | S n => reduce_hue n above (h - If 360)%F end else Some h.
(** sin.c. *)
Definition hsv2rgb_sin (fuel : nat) (h s v : spec_float) : option pixel_t :=
  h ← reduce_hue fuel (SFltb (If 360)) h;
  if SFeqb s (If 0) then grey s else hsv_sector h s v.
(** mandelbrot.c, where grey is the value. *)
Definition hsv2rgb_mandelbrot (fuel : nat) (h s v : spec_float) : option pixel_t :=
  let s := if SFltb (If 1) s then If 1 else s in
  let v := if SFltb (If 1) v then If 1 else v in
  if SFeqb s (If 0) then rgb v v v
  else h ← reduce_hue fuel (SFleb (If 360)) h; hsv_sector h s v.

(** ** Lines (sin.c) *)

(** The loop that steps in x; [n] is the number of turns left. *)
Fixpoint line_in_x (n : nat) (width colour sdx sdy deltax deltay px py y : Z) (fb : framebuffer) : option framebuffer :=
  match n with
  | O => Some fb
  | S n' =>
      fb ← poke (px + py * width) colour fb;
      let y := y + deltay in
      if deltax <=? y then line_in_x n' width colour sdx sdy deltax deltay (px + sdx) (py + sdy) (y - deltax) fb
      else line_in_x n' width colour sdx sdy deltax deltay (px + sdx) py y fb
  end.
Fixpoint line_in_y (n : nat) (width colour sdx sdy deltax deltay px py x : Z) (fb : framebuffer) : option framebuffer :=
  match n with
  | O => Some fb
  | S n' =>
      fb ← poke (px + py * width) colour fb;
      let x := x + deltax in
      if deltay <=? x then line_in_y n' width colour sdx sdy deltax deltay (px + sdx) (py + sdy) (x - deltay) fb
      else line_in_y n' width colour sdx sdy deltax deltay px (py + sdy) x fb
  end.

Definition draw_line (width x0 y0 x1 y1 colour : Z) (fb : framebuffer) : option framebuffer :=
  let deltax := s32 (x1 - x0) in
  let deltay := s32 (y1 - y0) in
  let sdx := if deltax <? 0 then -1 else 1 in
  let sdy := if deltay <? 0 then -1 else 1 in
  let deltax := sdx * deltax + 1 in
  let deltay := sdy * deltay + 1 in
  let px := s32 x0 in
  let py := s32 y0 in
  if deltay <=? deltax then line_in_x (Z.to_nat deltax) width colour sdx sdy deltax deltay px py 0 fb
  else line_in_y (Z.to_nat deltay) width colour sdx sdy deltax deltay px py 0 fb.

(** ** julia.c's [rect] and the screen functions of math_test *)

Definition rect (width startx starty length height colour : Z) (fb : framebuffer) : option framebuffer :=
  pokes (seqZ startx length ≫= fun x => (fun y => (y * width + x, colour)) <$> seqZ starty height) fb.

Definition color_screen (width height color : Z) (fb : framebuffer) : option framebuffer :=
  pokes ((fun i => (i, color)) <$> seqZ 0 (width * height)) fb.
Definition draw_axes (width height color x y : Z) (fb : framebuffer) : option framebuffer :=
  fb ← pokes ((fun i => (width * (height - y) + i, color)) <$> seqZ 0 width) fb;
  pokes ((fun i => (width * i + x, color)) <$> seqZ 0 height) fb.

(** [graph_function]: [f x] is the [double] the plotted function returns for [x]. *)
Definition graph_point (width height : Z) (f : Z -> option spec_float) (color origin_x origin_y x : Z) (fb : framebuffer) : option framebuffer :=
  v ← f (x - origin_x);
  fl ← Math.floor v;
  y ← to_ll (add binary64 fl (I origin_y));
  let p := s32 (width * (height - y) + x) in
  if (0 <=? p) && (p <? width * height) && (y <? height) && negb (isnan v) then poke p color fb else Some fb.
Fixpoint graph_loop (xs : list Z) (width height : Z) (f : Z -> option spec_float) (color origin_x origin_y : Z) (fb : framebuffer) : option framebuffer :=
  match xs with
  | [] => Some fb
  | x :: xs' => fb ← graph_point width height f color origin_x origin_y x fb; graph_loop xs' width height f color origin_x origin_y fb
  end.
Definition graph_function (width height : Z) (f : Z -> option spec_float) (color origin_x origin_y : Z) (fb : framebuffer) : option framebuffer :=
  graph_loop (seqZ 0 width) width height f color origin_x origin_y fb.

Definition my_polynomial (x : Z) : option spec_float := Some (I (Z.quot (s32 ((x - 300) * (x - 100) * (x + 200))) 100000)).
Definition my_circle (x : Z) : option spec_float := Some (Math.sqrt (I (s32 (200 * 200 - x * x)))).
Definition my_cos (fcos : spec_float -> spec_float) (x : Z) : option spec_float := Some (I 100 * Math.cos fcos (M_PI * I x / I 180))%D.
Definition my_tan (fcos fsin : spec_float -> spec_float) (x : Z) : option spec_float := Some (I 100 * Math.tan fcos fsin (M_PI * I x / I 180))%D.
Definition my_log2 (x : Z) : option spec_float := Some (I 25 * Math.log2 (I x))%D.
Definition my_exp (x : Z) : option spec_float := y ← Math.exp (I x / I 100)%D; Some (I 10 * y)%D.

(** The picture of math_test's [main]. *)
Definition math_test_picture (fcos : spec_float -> spec_float) (width height : Z) (fb : framebuffer) : option framebuffer :=
  fb ← color_screen width height 0xFFFFFF fb;
  let x := width / 2 - 200 in
  let y := height / 2 - 200 in
  fb ← draw_axes width height 0x000000 x y fb;
  fb ← graph_function width height (my_cos fcos) 0xFF0000 x y fb;
  fb ← graph_function width height my_log2 0x00FF00 x y fb;
  fb ← graph_function width height my_polynomial 0x0000FF x y fb;
  fb ← graph_function width height my_circle 0x999999 x y fb;
  graph_function width height my_exp 0xFF00FF x y fb.

(** ** Frames *)

(** lsd.c at [current_offset]: the bytes are the low bits of [size_t]s; the fourth byte is kept. *)
Definition lsd_pixel (off x y : Z) : pixel_t :=
  mk_pixel (u8 (Z.lxor (u64 (x * 4 + off)) (u64 (y * 4 + off)))) (u8 (Z.lxor (u64 (y * 2 + off)) (u64 (x * 2 + off))))
    (u8 (Z.lxor (u64 (y * 1 + off)) (u64 (x * 1 + off)))) 0.
Definition lsd_store (width off : Z) (xy : Z * Z) (fb : framebuffer) : option framebuffer :=
  let '(x, y) := xy in
  old ← peek (x + y * width) fb;
  poke (x + y * width) (pixel_word (lsd_pixel off x y) + 2 ^ 24 * (old / 2 ^ 24)) fb.
Fixpoint each (l : list (Z * Z)) (f : Z * Z -> framebuffer -> option framebuffer) (fb : framebuffer) : option framebuffer :=
  match l with [] => Some fb | xy :: l' => fb ← f xy fb; each l' f fb end.
Definition lsd_frame (width height off : Z) : framebuffer -> option framebuffer := each (columns_first width height) (lsd_store width off).
Definition next_offset (off : Z) : Z := u64 (off + 1).

(** rainbow.c and trig.c: [p] grows from column to column. *)
Definition next_hue (p : spec_float) : spec_float :=
  let p := (p + literal binary64 5 4)%D in if SFltb (I 360) p then I 0 else p.
(** The arguments of [hsv2rgb] are [double]s converted to [float]. *)
Definition rainbow_pixel (width height : Z) (p : spec_float) (x y : Z) : option pixel_t :=
  hsv2rgb (convert binary32 p) (convert binary32 (I 1 - I y / I height)%D) (convert binary32 (I x / I width)%D).
Definition trig_pixel (width height : Z) (p : spec_float) (x y : Z) : option pixel_t :=
  c ← rainbow_pixel width height p x y; Some (if truthy (Z.land x y) then c else anti_colour c).
Fixpoint hue_column (ys : list Z) (width : Z) (pixel : Z -> Z -> option pixel_t) (x : Z) (fb : framebuffer) : option framebuffer :=
  match ys with
  | [] => Some fb
  | y :: ys' => c ← pixel x y; fb ← poke (x + y * width) (pixel_word c) fb; hue_column ys' width pixel x fb
  end.
Fixpoint hue_frame (xs : list Z) (width height : Z) (pixel : spec_float -> Z -> Z -> option pixel_t) (p : spec_float) (fb : framebuffer) :
    option (spec_float * framebuffer) :=
  match xs with
  | [] => Some (p, fb)
  | x :: xs' => fb ← hue_column (seqZ 0 height) width (pixel p) x fb; hue_frame xs' width height pixel (next_hue p) fb
  end.
Definition rainbow_frame (width height : Z) := hue_frame (seqZ 0 width) width height (rainbow_pixel width height).
Definition trig_frame (width height : Z) := hue_frame (seqZ 0 width) width height (trig_pixel width height).

(** sin.c: the screen before the loop, and one column of it; [sine] is the program's [sin]. *)
Section Sin.
Context (sine : spec_float -> spec_float) (width height : Z).
Definition clear_screen (fb : framebuffer) : option framebuffer := pokes ((fun i => (i, 0xffffff)) <$> seqZ 0 (width * height)) fb.
Fixpoint invert (l : list Z) (fb : framebuffer) : option framebuffer :=
  match l with [] => Some fb | i :: l' => v ← peek i fb; fb ← poke i (Z.lxor v 0xffffff) fb; invert l' fb end.
Definition sin_axes (fb : framebuffer) : option framebuffer :=
  fb ← invert ((fun i => height / 2 * width + i) <$> seqZ 0 width) fb;
  invert ((fun i => width / 2 + i * width) <$> seqZ 0 height) fb.

(** [amp * sin(((angle + phase) * 3.14159) / 180)] with [amp] 300. *)
Definition sample (angle : spec_float) (phase : Z) : spec_float :=
  (I 300 * sine ((if phase =? 0 then angle else angle + I phase) * literal binary64 314159 5 / I 180))%D.
Definition start_y (phase : Z) : option Z := z ← to_ll (sample (I 0) phase); Some (height / 2 - z).
Definition sample_y (angle : spec_float) (phase : Z) : option Z := to_ll (I height / I 2 - sample angle phase)%D.
(** One of the three curves at column [x]: the line to the previous point, and the new point. *)
Definition curve_step (x phase : Z) (angle : spec_float) (prev_y : Z) (fb : framebuffer) : option (Z * framebuffer) :=
  y ← sample_y angle phase;
  c ← hsv2rgb_sin 3 (convert binary32 (I x / I width * I 360 + I phase)%D) (If 1) (If 1);
  fb ← draw_line width x y (if 0 <? x then x - 1 else 0) prev_y (rgb2hex c) fb;
  Some (y, fb).
Definition sin_column (x : Z) (angle : spec_float) (ys : Z * Z * Z) (fb : framebuffer) : option (Z * Z * Z * framebuffer) :=
  let '(y1, y2, y3) := ys in
  '(y1, fb) ← curve_step x 0 angle y1 fb;
  '(y2, fb) ← curve_step x 120 angle y2 fb;
  '(y3, fb) ← curve_step x 240 angle y3 fb;
  Some (y1, y2, y3, fb).
Fixpoint sin_columns (xs : list Z) (angle : spec_float) (ys : Z * Z * Z) (fb : framebuffer) : option framebuffer :=
  match xs with
  | [] => Some fb
  | x :: xs' => '(ys, fb) ← sin_column x angle ys fb; sin_columns xs' (angle + I 1)%D ys fb
  end.
Definition sin_frame (fb : framebuffer) : option framebuffer :=
  y1 ← start_y 0; y2 ← start_y 120; y3 ← start_y 240;
  sin_columns (seqZ 0 width) (I 0) (y1, y2, y3) fb.
End Sin.

(** [double pow(double base, int exponent)] of sin.c; a negative exponent counts down through the
    whole range of [int]. *)
Definition pow_sin (base : spec_float) (exponent : Z) : spec_float := repeat_n (Z.to_nat (u32 exponent)) (fun r => mul binary64 r base) (I 1).

(** ** Stores *)

Lemma poke_some i v fb : 0 <= i < Z.of_nat (length fb) -> poke i v fb = Some (<[Z.to_nat i := v]> fb).
Proof. intros H. unfold poke. by rewrite (proj2 (Z.leb_le _ _)), (proj2 (Z.ltb_lt _ _)) by lia. Qed.

Lemma poke_inv i v fb fb' : poke i v fb = Some fb' -> 0 <= i < Z.of_nat (length fb) /\ fb' = <[Z.to_nat i := v]> fb.
Proof. unfold poke. destruct ((0 <=? i) && (i <? Z.of_nat (length fb))) eqn:E; [|done]. zbool. intros [= <-]. split; [lia|done]. Qed.

(** Stores within the screen succeed; a place gets the last value stored there, the others keep theirs. *)
Lemma pokes_spec l fb : Forall (fun '(i, _) => 0 <= i < Z.of_nat (length fb)) l ->
  exists fb', pokes l fb = Some fb' /\ length fb' = length fb /\
    (forall i, i ∉ l.*1 -> 0 <= i -> fb' !! Z.to_nat i = fb !! Z.to_nat i) /\
    (forall i v, (i, v) ∈ l -> (forall w, (i, w) ∈ l -> w = v) -> fb' !! Z.to_nat i = Some v).
Proof.
  revert fb. induction l as [|[j w] l IH]; intros fb HF.
  { exists fb. split; [done|]. split; [done|]. split; [done|]. intros i v H. by apply elem_of_nil in H. }
  apply Forall_cons in HF as [Hj HF]. cbn [pokes]. rewrite poke_some by lia. cbn [mbind option_bind].
  destruct (IH (<[Z.to_nat j := w]> fb)) as (fb' & Hp & Hl & Hk & Hs); [by rewrite length_insert|].
  exists fb'. rewrite length_insert in Hl. split; [done|]. split; [done|]. rewrite fmap_cons. cbn [fst]. split.
  - intros i Hi H0. apply not_elem_of_cons in Hi as [Hi1 Hi2]. rewrite Hk by done.
    apply list_lookup_insert_ne. lia.
  - intros i v Hi Hu. destruct (decide (i ∈ l.*1)) as [Hin|Hn].
    + apply list_elem_of_fmap in Hin as ([i' u] & E & Hu'). cbn in E. subst i'.
      apply Hs; [|intros z Hz; apply Hu; by apply list_elem_of_further].
      rewrite (Hu u) in Hu'; [done|by apply list_elem_of_further].
    + apply elem_of_cons in Hi as [[= -> ->]|Hi].
      * rewrite Hk by (done || lia). apply list_lookup_insert_eq. lia.
      * exfalso. apply Hn, list_elem_of_fmap. by exists (i, v).
Qed.

(** ** Lines *)

(** The pixels of a line: one for each step of the longer side, the other coordinate advancing in
    proportion. *)
Definition line_points (x0 y0 x1 y1 : Z) : list (Z * Z) :=
  let sx := if x1 <? x0 then -1 else 1 in
  let sy := if y1 <? y0 then -1 else 1 in
  let dx := Z.abs (x1 - x0) + 1 in
  let dy := Z.abs (y1 - y0) + 1 in
  (fun k => if dy <=? dx then (x0 + sx * k, y0 + sy * (k * dy / dx)) else (x0 + sx * (k * dx / dy), y0 + sy * k))
    <$> seqZ 0 (Z.max dx dy).

Lemma line_in_x_pokes n k width colour sdx sdy dx dy x0 y0 fb : 0 < dy <= dx -> 0 <= k ->
  line_in_x n width colour sdx sdy dx dy (x0 + sdx * k) (y0 + sdy * (k * dy / dx)) (k * dy mod dx) fb =
  pokes ((fun j => (x0 + sdx * j + (y0 + sdy * (j * dy / dx)) * width, colour)) <$> seqZ k (Z.of_nat n)) fb.
Proof.
  intros Hd. revert k fb. induction n as [|n IH]; intros k fb Hk; [done|].
  rewrite seqZ_cons by lia. rewrite fmap_cons. cbn [line_in_x pokes]. destruct (poke _ colour fb) as [fb1|]; [|done].
  cbn [mbind option_bind]. replace (Z.pred (Z.of_nat (S n))) with (Z.of_nat n) by lia. rewrite <- IH by lia.
  assert (E : k * dy mod dx + dy = (k + 1) * dy - dx * (k * dy / dx)) by (rewrite Z.mod_eq by lia; ring).
  pose proof (Z.mod_pos_bound (k * dy) dx ltac:(lia)) as B.
  replace (x0 + sdx * k + sdx) with (x0 + sdx * Z.succ k) by lia. change (Z.succ k) with (k + 1) in *.
  destruct (Z.leb_spec dx (k * dy mod dx + dy)) as [H|H].
  - assert (Q : (k + 1) * dy / dx = k * dy / dx + 1) by (symmetry; apply (Z.div_unique_pos _ _ _ (k * dy mod dx + dy - dx)); lia).
    rewrite (Z.mod_eq ((k + 1) * _)), Q by lia. f_equal; lia.
  - assert (Q : (k + 1) * dy / dx = k * dy / dx) by (symmetry; apply (Z.div_unique_pos _ _ _ (k * dy mod dx + dy)); lia).
    rewrite (Z.mod_eq ((k + 1) * dy)), Q by lia. f_equal; lia.
Qed.

Lemma line_in_y_pokes n k width colour sdx sdy dx dy x0 y0 fb : 0 < dx <= dy -> 0 <= k ->
  line_in_y n width colour sdx sdy dx dy (x0 + sdx * (k * dx / dy)) (y0 + sdy * k) (k * dx mod dy) fb =
  pokes ((fun j => (x0 + sdx * (j * dx / dy) + (y0 + sdy * j) * width, colour)) <$> seqZ k (Z.of_nat n)) fb.
Proof.
  intros Hd. revert k fb. induction n as [|n IH]; intros k fb Hk; [done|].
  rewrite seqZ_cons by lia. rewrite fmap_cons. cbn [line_in_y pokes]. destruct (poke _ colour fb) as [fb1|]; [|done].
  cbn [mbind option_bind]. replace (Z.pred (Z.of_nat (S n))) with (Z.of_nat n) by lia. rewrite <- IH by lia.
  assert (E : k * dx mod dy + dx = (k + 1) * dx - dy * (k * dx / dy)) by (rewrite Z.mod_eq by lia; ring).
  pose proof (Z.mod_pos_bound (k * dx) dy ltac:(lia)) as B.
  replace (y0 + sdy * k + sdy) with (y0 + sdy * Z.succ k) by lia. change (Z.succ k) with (k + 1) in *.
  destruct (Z.leb_spec dy (k * dx mod dy + dx)) as [H|H].
  - assert (Q : (k + 1) * dx / dy = k * dx / dy + 1) by (symmetry; apply (Z.div_unique_pos _ _ _ (k * dx mod dy + dx - dy)); lia).
    rewrite (Z.mod_eq ((k + 1) * _)), Q by lia. f_equal; lia.
  - assert (Q : (k + 1) * dx / dy = k * dx / dy) by (symmetry; apply (Z.div_unique_pos _ _ _ (k * dx mod dy + dx)); lia).
    rewrite (Z.mod_eq ((k + 1) * dx)), Q by lia. f_equal; lia.
Qed.

Definition on_line (width colour : Z) (p : Z * Z) : Z * Z := let '(x, y) := p in (x + y * width, colour).

(** The incremental loops draw the proportional points. *)
Lemma draw_line_points width x0 y0 x1 y1 colour fb :
  Z.abs x0 < 2 ^ 30 -> Z.abs y0 < 2 ^ 30 -> Z.abs x1 < 2 ^ 30 -> Z.abs y1 < 2 ^ 30 ->
  draw_line width x0 y0 x1 y1 colour fb = pokes (on_line width colour <$> line_points x0 y0 x1 y1) fb.
Proof.
  intros. unfold draw_line, line_points. rewrite !s32_small by lia. rewrite <- list_fmap_compose.
  set (sx := if x1 <? x0 then -1 else 1). set (sy := if y1 <? y0 then -1 else 1).
  assert (Ex : (if x1 - x0 <? 0 then -1 else 1) = sx) by (unfold sx; destruct (Z.ltb_spec (x1 - x0) 0), (Z.ltb_spec x1 x0); lia).
  assert (Ey : (if y1 - y0 <? 0 then -1 else 1) = sy) by (unfold sy; destruct (Z.ltb_spec (y1 - y0) 0), (Z.ltb_spec y1 y0); lia).
  rewrite Ex, Ey. replace (sx * (x1 - x0) + 1) with (Z.abs (x1 - x0) + 1) by (unfold sx; destruct (Z.ltb_spec x1 x0); lia).
  replace (sy * (y1 - y0) + 1) with (Z.abs (y1 - y0) + 1) by (unfold sy; destruct (Z.ltb_spec y1 y0); lia).
  set (dx := Z.abs (x1 - x0) + 1). set (dy := Z.abs (y1 - y0) + 1).
  destruct (Z.leb_spec dy dx) as [H'|H'].
  - pose proof (line_in_x_pokes (Z.to_nat dx) 0 width colour sx sy dx dy x0 y0 fb ltac:(lia) ltac:(lia)) as L.
    rewrite Z.mul_0_l, Z.div_0_l, Z.mod_0_l, !Z.mul_0_r, !Z.add_0_r, Z2Nat.id in L by lia. rewrite L. by rewrite Z.max_l by lia.
  - pose proof (line_in_y_pokes (Z.to_nat dy) 0 width colour sx sy dx dy x0 y0 fb ltac:(lia) ltac:(lia)) as L.
    rewrite Z.mul_0_l, Z.div_0_l, Z.mod_0_l, !Z.mul_0_r, !Z.add_0_r, Z2Nat.id in L by lia. rewrite L. by rewrite Z.max_r by lia.
Qed.

(** [k] steps of [d] in [n] parts stay within [d]; the last one is at the end. *)
Lemma scaled_range k d n : 0 < d <= n -> 0 <= k < n -> 0 <= k * d / n <= d - 1.
Proof.
  intros Hd Hk. split; [apply Z.div_pos; nia|]. apply Z.lt_succ_r, Z.div_lt_upper_bound; [lia|]. nia.
Qed.
Lemma scaled_last d n : 0 < d <= n -> (n - 1) * d / n = d - 1.
Proof. intros Hd. symmetry. apply (Z.div_unique_pos _ _ _ (n - d)); [lia|ring]. Qed.

Lemma line_points_box x0 y0 x1 y1 x y : (x, y) ∈ line_points x0 y0 x1 y1 ->
  Z.min x0 x1 <= x <= Z.max x0 x1 /\ Z.min y0 y1 <= y <= Z.max y0 y1.
Proof.
  unfold line_points. intros H. apply list_elem_of_fmap in H as (k & E & Hk). apply elem_of_seqZ in Hk.
  set (dx := Z.abs (x1 - x0) + 1) in *. set (dy := Z.abs (y1 - y0) + 1) in *.
  destruct (Z.leb_spec dy dx) as [H'|H']; injection E as -> ->.
  - pose proof (scaled_range k dy dx ltac:(lia) ltac:(lia)). destruct (Z.ltb_spec x1 x0), (Z.ltb_spec y1 y0); lia.
  - pose proof (scaled_range k dx dy ltac:(lia) ltac:(lia)). destruct (Z.ltb_spec x1 x0), (Z.ltb_spec y1 y0); lia.
Qed.

Lemma line_points_ends x0 y0 x1 y1 : (x0, y0) ∈ line_points x0 y0 x1 y1 /\ (x1, y1) ∈ line_points x0 y0 x1 y1.
Proof.
  unfold line_points. set (dx := Z.abs (x1 - x0) + 1). set (dy := Z.abs (y1 - y0) + 1). split; apply list_elem_of_fmap.
  - exists 0. rewrite elem_of_seqZ, Z.mul_0_l, !Z.div_0_l by lia. split; [destruct (dy <=? dx); f_equal; lia|lia].
  - exists (Z.max dx dy - 1). rewrite elem_of_seqZ. split; [|lia]. destruct (Z.leb_spec dy dx) as [H|H].
    + rewrite Z.max_l, scaled_last by lia. destruct (Z.ltb_spec x1 x0), (Z.ltb_spec y1 y0); f_equal; lia.
    + rewrite Z.max_r, scaled_last by lia. destruct (Z.ltb_spec x1 x0), (Z.ltb_spec y1 y0); f_equal; lia.
Qed.

Lemma on_screen_index width height x y : 0 <= x < width -> 0 <= y < height -> 0 <= x + y * width < width * height.
Proof. nia. Qed.
Lemma on_screen_inj width x y x' y' : 0 <= x < width -> 0 <= x' < width -> x + y * width = x' + y' * width -> x = x' /\ y = y'.
Proof. intros. assert (y = y') by nia. subst. lia. Qed.

(** C36: A line between two points of the screen stays on it, so the loop never stores outside of the
    framebuffer: it colours the two end points and exactly the points whose shorter coordinate is in
    proportion to the longer one, and leaves every other pixel alone. *)
Theorem draw_line_spec (width height x0 y0 x1 y1 colour : Z) (fb : framebuffer) :
  0 < width < 2 ^ 16 -> 0 < height < 2 ^ 16 -> Z.of_nat (length fb) = width * height ->
  0 <= x0 < width -> 0 <= x1 < width -> 0 <= y0 < height -> 0 <= y1 < height ->
  (x0, y0) ∈ line_points x0 y0 x1 y1 /\ (x1, y1) ∈ line_points x0 y0 x1 y1 /\
  exists fb', draw_line width x0 y0 x1 y1 colour fb = Some fb' /\ length fb' = length fb /\
    forall x y, 0 <= x < width -> 0 <= y < height ->
      fb' !! Z.to_nat (x + y * width) =
        if decide ((x, y) ∈ line_points x0 y0 x1 y1) then Some colour else fb !! Z.to_nat (x + y * width).
Proof.
  intros Hw Hh Hl H0 H1 H2 H3. destruct (line_points_ends x0 y0 x1 y1) as [E0 E1]. split; [done|]. split; [done|].
  rewrite draw_line_points by lia.
  assert (Box : forall x y, (x, y) ∈ line_points x0 y0 x1 y1 -> 0 <= x < width /\ 0 <= y < height)
    by (intros x y Hp; pose proof (line_points_box _ _ _ _ _ _ Hp); lia).
  destruct (pokes_spec (on_line width colour <$> line_points x0 y0 x1 y1) fb) as (fb' & Hp & Hl' & Hk & Hs).
  { apply Forall_fmap, Forall_forall. intros [x y] Hp. cbn. destruct (Box x y Hp). rewrite Hl. by apply on_screen_index. }
  exists fb'. split; [done|]. split; [done|]. intros x y Hx Hy. destruct (decide ((x, y) ∈ line_points x0 y0 x1 y1)) as [Hin|Hn].
  - apply Hs; [apply list_elem_of_fmap; by exists (x, y)|]. intros w Hww. apply list_elem_of_fmap in Hww as ([x' y'] & E & _). by injection E.
  - apply Hk; [|pose proof (on_screen_index width height x y); lia]. intros Hin. apply list_elem_of_fmap in Hin as ([i c] & E & Hin).
    apply list_elem_of_fmap in Hin as ([x' y'] & E' & Hin). injection E' as -> ->. cbn in E. destruct (Box x' y' Hin).
    destruct (on_screen_inj width x y x' y') as [-> ->]; try done.
Qed.

Lemma draw_line_spec_witness : exists fb', draw_line 8 1 1 6 3 7 (replicate 40 0) = Some fb' /\ fb' !! 9%nat = Some 7 /\ fb' !! 30%nat = Some 7 /\ fb' !! 0%nat = Some 0.
Proof.
  destruct (draw_line_spec 8 5 1 1 6 3 7 (replicate 40 0)) as (A & B & fb' & Hd & _ & Hp); [lia..|reflexivity|lia|lia|lia|lia|].
  exists fb'. split; [done|]. pose proof (Hp 1 1 ltac:(lia) ltac:(lia)) as P1. pose proof (Hp 6 3 ltac:(lia) ltac:(lia)) as P2.
  pose proof (Hp 0 0 ltac:(lia) ltac:(lia)) as P0. rewrite decide_True in P1 by done. rewrite decide_True in P2 by done.
  rewrite decide_False in P0 by (vm_compute; intros X; repeat (apply elem_of_cons in X as [X|X]; [discriminate|]); by apply elem_of_nil in X).
  split; [exact P1|]. split; [exact P2|exact P0].
Defined.

(** ** Colours *)

Definition extremes (p : pixel_t) : Z * Z :=
  (Z.min (red p) (Z.min (green p) (blue p)), Z.max (red p) (Z.max (green p) (blue p))).

(** At full saturation and value every whole hue below 360 is a pure colour: one component is 255
    and one is 0.  The primary and secondary colours are where they belong. *)
Theorem hue_wheel (h : Z) :
  0 <= h < 360 -> exists p, hsv2rgb (If h) (If 1) (If 1) = Some p /\ extremes p = (0, 255) /\
    hsv2rgb_sin 1 (If h) (If 1) (If 1) = Some p /\ hsv2rgb_mandelbrot 1 (If h) (If 1) (If 1) = Some p.
Proof.
  intros Hh.
  set (check h := match hsv2rgb (If h) (If 1) (If 1), hsv2rgb_sin 1 (If h) (If 1) (If 1), hsv2rgb_mandelbrot 1 (If h) (If 1) (If 1) with
    | Some p, Some q, Some r => bool_decide (extremes p = (0, 255)) && bool_decide (rgb2hex q = rgb2hex p) && bool_decide (pixel_word p = rgb2hex p)
        && bool_decide ((blue q, green q, red q, unused q) = (blue p, green p, red p, unused p))
        && bool_decide ((blue r, green r, red r, unused r) = (blue p, green p, red p, unused p))
    | _, _, _ => false end).
  assert (C : forallb check (seqZ 0 360) = true) by (vm_compute; reflexivity). rewrite forallb_forall in C.
  assert (E : check h = true) by (apply C; rewrite <- list_elem_of_In, elem_of_seqZ; lia). clear C. unfold check in E.
  destruct (hsv2rgb (If h) (If 1) (If 1)) as [[a b c d]|]; [|done].
  destruct (hsv2rgb_sin 1 (If h) (If 1) (If 1)) as [[a' b' c' d']|]; [|done].
  destruct (hsv2rgb_mandelbrot 1 (If h) (If 1) (If 1)) as [[a2 b2 c2 d2]|]; [|done].
  rewrite !andb_true_iff, !bool_decide_eq_true in E. cbn [blue green red unused] in E. destruct E as [[[[E _] _] E2] E3].
  eexists. split; [reflexivity|]. split; [exact E|]. split; f_equal; congruence.
Qed.

Lemma hue_wheel_witness : exists p, hsv2rgb (If 120) (If 1) (If 1) = Some p /\ extremes p = (0, 255).
Proof. destruct (hue_wheel 120 ltac:(lia)) as (p & A & B & _). exists p. split; [exact A|exact B]. Defined.

(** With no saturation the result is black whatever the value, but in mandelbrot.c, and a hue of
    exactly 360 is magenta in sin.c and red in mandelbrot.c. *)
Theorem hsv_flaws :
  hsv2rgb (If 0) (If 0) (If 1) = Some (mk_pixel 0 0 0 0) /\ hsv2rgb_mandelbrot 1 (If 0) (If 0) (If 1) = Some (mk_pixel 255 255 255 0) /\
  hsv2rgb_sin 1 (If 360) (If 1) (If 1) = Some (mk_pixel 255 0 255 0) /\ hsv2rgb_mandelbrot 1 (If 360) (If 1) (If 1) = Some (mk_pixel 0 0 255 0).
Proof. vm_compute. repeat split; reflexivity. Qed.

(** The curves of sin.c reach 300 rows from the middle: on a screen of less than 600 rows the top of
    the curve is above the screen and the program stores in front of the framebuffer. *)
Theorem sin_leaves_screen : draw_line 800 90 (-60) 89 (-60) 0 (replicate 1000 0) = None.
Proof. vm_compute. reflexivity. Qed.

(** [draw_axes] with its origin at the bottom row of the screen stores behind the framebuffer. *)
Theorem axes_leave_screen : draw_axes 4 3 0 1 0 (replicate 12 7) = None /\ is_Some (draw_axes 4 3 0 1 1 (replicate 12 7)).
Proof. split; [vm_compute; reflexivity|vm_compute; eauto]. Qed.

(** A screen of at most 401 rows has the origin of math_test's picture below it: the program stores its
    horizontal axis behind the framebuffer. *)
Theorem math_test_small_screen fcos (width height : Z) (fb : framebuffer) :
  0 < width -> 0 < height <= 401 -> Z.of_nat (length fb) = width * height -> math_test_picture fcos width height fb = None.
Proof.
  intros Hw Hh Hl. unfold math_test_picture, color_screen.
  destruct (pokes_spec ((fun i => (i, 0xFFFFFF)) <$> seqZ 0 (width * height)) fb) as (fb' & -> & Hl' & _).
  { apply Forall_fmap, Forall_forall. intros i Hi%elem_of_seqZ. cbn. lia. }
  cbn [mbind option_bind]. assert (Hy : height / 2 - 200 <= 0) by (pose proof (Z.mul_div_le height 2 ltac:(lia)); lia).
  assert (D : draw_axes width height 0 (width / 2 - 200) (height / 2 - 200) fb' = None); [|by rewrite D].
  unfold draw_axes. rewrite (seqZ_cons 0 width) by lia. cbn [fmap list_fmap pokes].
  assert (P : forall v, poke (width * (height - (height / 2 - 200)) + 0) v fb' = None); [|by rewrite P].
  intros v. unfold poke. rewrite Hl', Hl, (proj2 (Z.ltb_ge _ _)) by nia. by rewrite andb_false_r.
Qed.
Lemma math_test_small_screen_witness : math_test_picture (fun x => x) 2 3 (replicate 6 0) = None.
Proof. apply (math_test_small_screen (fun x => x) 2 3 (replicate 6 0)); [lia|lia|reflexivity]. Defined.

(** A plotted point is always stored on the screen. *)
Theorem graph_function_safe (width height : Z) (f : Z -> option spec_float) (color ox oy : Z) (fb : framebuffer) :
  Z.of_nat (length fb) = width * height -> (forall x, exists v fl y, f x = Some v /\ Math.floor v = Some fl /\ to_ll (add binary64 fl (I oy)) = Some y) ->
  exists fb', graph_function width height f color ox oy fb = Some fb' /\ length fb' = length fb.
Proof.
  intros Hl Hf. unfold graph_function. generalize (seqZ 0 width). intros xs. revert fb Hl. induction xs as [|x xs IH]; intros fb Hl; [by exists fb|].
  assert (P : exists fb', graph_point width height f color ox oy x fb = Some fb' /\ length fb' = length fb).
  { unfold graph_point. destruct (Hf (x - ox)) as (v & fl & y & -> & Hfl & Hy). cbn [mbind option_bind]. rewrite Hfl. cbn [mbind option_bind]. rewrite Hy. cbn [mbind option_bind].
    destruct (_ && _ && _ && _) eqn:E; [|by exists fb]. zbool. rewrite poke_some by lia. eexists. split; [reflexivity|apply length_insert]. }
  destruct P as (fb1 & Hp & Hl1). cbn [graph_loop]. rewrite Hp. cbn [mbind option_bind].
  destruct (IH fb1 ltac:(lia)) as (fb2 & Hg & Hl2). exists fb2. split; [done|lia].
Qed.
Lemma graph_function_safe_witness : exists fb', graph_function 4 3 (fun x => Some (I 1)) 9 0 0 (replicate 12 0) = Some fb' /\ length fb' = 12%nat.
Proof.
  exact (graph_function_safe 4 3 (fun x => Some (I 1)) 9 0 0 (replicate 12 0) eq_refl
    (fun x => ex_intro _ (I 1) (ex_intro _ (I 1) (ex_intro _ 1 (conj eq_refl (conj eq_refl eq_refl)))))).
Defined.
