(* ===== verification/Fractal.v ===== *)
(** * The fractal programs (src/src/prog/mandelbrot, src/src/prog/julia)

    [log] works on the bits of a double; [bits_of] and [of_bits] are the union the code reads them
    through.  [escape] is the reference for the two iteration loops. *)
From Stdlib Require Import SpecFloat Ascii.
From S2P Require Import Prelude Printf Floats Math Graphics.
Open Scope Z_scope.

(** ** The bits of a double *)

Definition bits_of (x : spec_float) : Z :=
  match x with
  | S754_zero s => Z.b2z s * 2 ^ 63
  | S754_infinity s => Z.b2z s * 2 ^ 63 + 0x7ff * 2 ^ 52
  | S754_nan => 0x7ff8 * 2 ^ 48
  | S754_finite s m e => Z.b2z s * 2 ^ 63 + (if Z.pos m <? 2 ^ 52 then Z.pos m else (e + 1075) * 2 ^ 52 + (Z.pos m - 2 ^ 52))
  end.

Definition of_bits (b : Z) : spec_float :=
  let s := Z.testbit b 63 in
  let ex := b / 2 ^ 52 mod 2 ^ 11 in
  let fr := b mod 2 ^ 52 in
  if ex =? 0 then if fr =? 0 then S754_zero s else S754_finite s (Z.to_pos fr) (-1074)
  else if ex =? 0x7ff then if fr =? 0 then S754_infinity s else S754_nan
  else S754_finite s (Z.to_pos (fr + 2 ^ 52)) (ex - 1075).

(** ** [log] of both programs *)

Definition ln2_hi : spec_float := literal binary64 693147180369123816490 21.
Definition ln2_lo : spec_float := literal binary64 190821492927058770002 30.
Definition Lg1 : spec_float := literal binary64 6666666666666735130 19.
Definition Lg2 : spec_float := literal binary64 3999999999940941908 19.
Definition Lg3 : spec_float := literal binary64 2857142874366239149 19.
Definition Lg4 : spec_float := literal binary64 2222219843214978396 19.
Definition Lg5 : spec_float := literal binary64 1818357216161805012 19.
Definition Lg6 : spec_float := literal binary64 1531383769920937332 19.
Definition Lg7 : spec_float := literal binary64 1479819860511658591 19.

Definition high (u : Z) : Z := u / 2 ^ 32.

(** From [hx += 0x3ff00000 - 0x3fe6a09e] on, with the bits [u], their high half and the exponent so far. *)
Definition log_reduced (u k : Z) : spec_float :=
  let hx := u32 (high u + (0x3ff00000 - 0x3fe6a09e)) in
  let k := k + (Z.shiftr hx 20 - 0x3ff) in
  let hx := u32 (Z.land hx 0x000fffff + 0x3fe6a09e) in
  let x := of_bits (Z.lor (Z.shiftl hx 32) (Z.land u 0xffffffff)) in
  let f := (x - I 1)%D in
  let hfsq := (literal binary64 5 1 * f * f)%D in
  let s := (f / (I 2 + f))%D in
  let z := (s * s)%D in
  let w := (z * z)%D in
  let t1 := (w * (Lg2 + w * (Lg4 + w * Lg6)))%D in
  let t2 := (z * (Lg1 + w * (Lg3 + w * (Lg5 + w * Lg7))))%D in
  let R := (t2 + t1)%D in
  let dk := I k in
  (s * (hfsq + R) + dk * ln2_lo - hfsq + f + dk * ln2_hi)%D.

Definition log (x : spec_float) : spec_float :=
  let u := bits_of x in
  let hx := high u in
  if (hx <? 0x00100000) || truthy (Z.shiftr hx 31) then
    if u64 (Z.shiftl u 1) =? 0 then (I (-1) / (x * x))%D
    else if truthy (Z.shiftr hx 31) then ((x - x) / I 0)%D
    else log_reduced (bits_of (x * I (2 ^ 54))%D) (-54)
  else if 0x7ff00000 <=? hx then x
  else if (hx =? 0x3ff00000) && (u64 (Z.shiftl u 32) =? 0) then I 0
  else log_reduced u 0.

(** [fsqrt] rounds correctly to the format of the x87. *)
Definition sqrt (x : spec_float) : spec_float := convert binary64 (SFsqrt (f_prec extended) (f_emax extended) (convert extended x)).
(** [0.693147180559945286...], the double next to the logarithm of 2. *)
Definition ln2 : spec_float := literal binary64 69314718055994528622676398299518041312694549560546875 53.

(** ** Colours *)

(** The gradient: the three components of a smooth iteration count. *)
Definition gradient (smooth : spec_float) : spec_float * spec_float * spec_float :=
  let a := (smooth / I 30)%D in
  let b := (a - I 1)%D in
  let a := if SFltb (I 1) a then I 1 else a in
  let b := if SFltb b (I 0) then I 0 else b in
  let clip c := if SFltb (I 255) c then I 255 else c in
  (clip ((I 0 * (I 1 - a) + I 0 * a) * (I 1 - b) + I 255 * b)%D,
   clip ((I 7 * (I 1 - a) + I 255 * a) * (I 1 - b) + I 255 * b)%D,
   clip ((I 23 * (I 1 - a) + I 127 * a) * (I 1 - b) + I 255 * b)%D).
Definition colour_of (smooth : spec_float) : option Z :=
  let '(r, g, b) := gradient smooth in
  r ← byte_of r; g ← byte_of g; b ← byte_of b; Some (rgb2hex (mk_pixel b g r 0)).

(** julia.c's [rgb2hex]. *)
Definition rgb2hex_julia (r g b : Z) : Z := u32 (Z.shiftl (Z.land r 0xff) 16 + Z.shiftl (Z.land g 0xff) 8 + Z.land b 0xff).

(** ** mandelbrot.c *)

Abbreviation point := (spec_float * spec_float)%type.
Definition norm2 (z : point) : spec_float := (fst z * fst z + snd z * snd z)%D.

Definition max_iterations : Z := 1000.
Definition threshold : Z := 200.

(** [ABS(x * y)] expands to [((x * y < 0) ? (-x * y) : x * y)]. *)
Definition ship_step (c z : point) : point :=
  let '(x, y) := z in
  let x_new := (x * x - y * y + fst c)%D in
  let xy := if SFltb (x * y)%D (I 0) then (SFopp x * y)%D else (x * y)%D in
  (x_new, (I 2 * xy + snd c)%D).

(** The loop counts in a [double]; [None] when [fuel] turns are not enough. *)
Fixpoint ship_loop (fuel : nat) (c z : point) (iteration : spec_float) : option (point * spec_float) :=
  if SFleb (norm2 z) (I threshold) && SFltb iteration (I max_iterations) then
    match fuel with O => None | S n => ship_loop n c (ship_step c z) (iteration + I 1)%D end
  else Some (z, iteration).

Definition ship_smooth (z : point) (iteration : spec_float) : spec_float :=
  (iteration + I 2 - log (log (sqrt (norm2 z))) / ln2)%D.
Definition ship_colour (c : point) : option Z :=
  '(z, iteration) ← ship_loop (Z.to_nat max_iterations) c (I 0, I 0) (I 0);
  if SFltb iteration (I max_iterations) then colour_of (ship_smooth z iteration) else Some 0.

(** What the keys change. *)
Record view := mk_view { posx : spec_float; posy : spec_float; zoom : spec_float; sensitivity : spec_float }.
Definition ORIG_SENS : spec_float := literal binary64 2 2.
Definition ORIG_ZOOM : spec_float := I 4.
Definition first_view : view := mk_view (I 0) (I 0) ORIG_ZOOM ORIG_SENS.

(** The switch and the line after it; [None] for a key that is ignored ([continue]). *)
Definition key (c : Z) (v : view) : option view :=
  let s := sensitivity v in
  v ← (if c =? chr "w" then Some (mk_view (posx v) (posy v - s)%D (zoom v) s)
       else if c =? chr "s" then Some (mk_view (posx v) (posy v + s)%D (zoom v) s)
       else if c =? chr "a" then Some (mk_view (posx v - s)%D (posy v) (zoom v) s)
       else if c =? chr "d" then Some (mk_view (posx v + s)%D (posy v) (zoom v) s)
       else if c =? chr "z" then Some (mk_view (posx v) (posy v) (zoom v - s)%D s)
       else if c =? chr "x" then Some (mk_view (posx v) (posy v) (zoom v + s)%D s)
       else if c =? chr "r" then Some (mk_view (posx v) (posy v) ORIG_ZOOM ORIG_SENS)
       else if c =? chr "c" then Some (mk_view (I 0) (I 0) (zoom v) s)
       else None);
  Some (mk_view (posx v) (posy v) (zoom v) (zoom v / I 10)%D).

(** The point of the plane behind a pixel: both coordinates are scaled by the width. *)
Definition plane_point (width height : Z) (v : view) (col row : Z) : point :=
  ((I col - I width / I 2) * zoom v / I width + posx v, (I row - I height / I 2) * zoom v / I width + posy v)%D.

Fixpoint draw_points (l : list (Z * Z)) (width : Z) (colour : Z -> Z -> option Z) (fb : framebuffer) : option framebuffer :=
  match l with
  | [] => Some fb
  | (col, row) :: l' => k ← colour col row; fb ← poke (col + row * width) k fb; draw_points l' width colour fb
  end.
Definition cross (width height : Z) (fb : framebuffer) : option framebuffer :=
  fb ← invert ((fun i => height / 2 * width + (width / 2 - 10 + i)) <$> seqZ 0 21) fb;
  invert ((fun i => (height / 2 - 10 + i) * width + width / 2) <$> seqZ 0 21) fb.
Definition mandelbrot_frame (width height : Z) (v : view) (fb : framebuffer) : option framebuffer :=
  fb ← draw_points (rows_first width height) width (fun col row => ship_colour (plane_point width height v col row)) fb;
  cross width height fb.
(** One turn of the loop: the key that was read, and the frame, if it changes anything. *)
Definition mandelbrot_turn (width height c : Z) (v : view) (fb : framebuffer) : option (view * framebuffer) :=
  match key c v with
  | None => Some (v, fb)
  | Some v' => fb ← mandelbrot_frame width height v' fb; Some (v', fb)
  end.

(** ** julia.c *)

Definition ITTERATIONS : Z := 90.
Definition julia_threshold : Z := 100.
Definition julia_step (c z : point) : point :=
  let '(zx, zy) := z in ((zx * zx - zy * zy + fst c)%D, (I 2 * zx * zy + snd c)%D).
Fixpoint julia_loop (fuel : nat) (c z : point) (k : Z) : option (point * Z) :=
  if (k <? ITTERATIONS) && SFleb (norm2 z) (I julia_threshold) then
    match fuel with O => None | S n => julia_loop n c (julia_step c z) (k + 1) end
  else Some (z, k).
Definition julia_start (width height j i : Z) : point :=
  (I 2 * (I j / (I width / I 2) - I 1), I 2 * (I i / (I height / I 2) - I 1))%D.
Definition julia_colour (c : point) (z : point) : option Z :=
  '(z, k) ← julia_loop (Z.to_nat ITTERATIONS) c z 0;
  let smooth := (I (k + 2) - log (log (norm2 z)) / ln2)%D in
  if k =? ITTERATIONS then Some 0
  else
    let '(r, g, b) := gradient smooth in
    r ← byte_of r; g ← byte_of g; b ← byte_of b; Some (rgb2hex_julia r g b).
Definition draw (width height : Z) (real imag : spec_float) (fb : framebuffer) : option framebuffer :=
  draw_points (rows_first width height) width (fun j i => julia_colour (real, imag) (julia_start width height j i)) fb.
(** One turn of julia's main loop at the angle [a]. *)
Definition julia_turn (cosine sine : spec_float -> spec_float) (width height : Z) (a : spec_float) (fb : framebuffer) :
    option (spec_float * framebuffer) :=
  let r := literal binary64 7885 4 in
  fb ← draw width height (r * cosine a)%D (r * sine a)%D fb;
  Some ((a + literal binary64 4 3)%D, fb).

(** ** The bits *)

Lemma bounded_cases m e : bounded 53 1024 m e = true ->
  Z.pos m < 2 ^ 53 /\ -1074 <= e <= 971 /\ (Z.pos m < 2 ^ 52 -> e = -1074).
Proof.
  unfold bounded, canonical_mantissa, fexp, SpecFloat.emin. rewrite andb_true_iff, Z.eqb_eq, Z.leb_le, digits2_log2. intros [H1 H2].
  pose proof (Z.log2_spec (Z.pos m) ltac:(lia)) as [L1 L2].
  assert (Lm : Z.log2 (Z.pos m) <= 52) by lia.
  split; [|split; [lia|]].
  - eapply Z.lt_le_trans; [exact L2|]. apply Z.pow_le_mono_r; lia.
  - intros Hs. apply Z.log2_lt_pow2 in Hs; lia.
Qed.

Lemma of_bits_parts s ex fr : 0 <= ex < 2 ^ 11 -> 0 <= fr < 2 ^ 52 ->
  let b := Z.b2z s * 2 ^ 63 + ex * 2 ^ 52 + fr in
  Z.testbit b 63 = s /\ b / 2 ^ 52 mod 2 ^ 11 = ex /\ b mod 2 ^ 52 = fr.
Proof.
  intros He Hf b. assert (Hb : b = (Z.b2z s * 2 ^ 11 + ex) * 2 ^ 52 + fr) by (unfold b; destruct s; cbn [Z.b2z]; lia).
  assert (Hd : b / 2 ^ 52 = Z.b2z s * 2 ^ 11 + ex) by (rewrite Hb, Z.div_add_l by lia; rewrite Z.div_small by lia; lia).
  split; [|split].
  - rewrite Z.testbit_eqb by lia. replace (2 ^ 63) with (2 ^ 52 * 2 ^ 11) by reflexivity. rewrite <- Z.div_div, Hd by lia.
    rewrite Z.div_add_l, Z.div_small by lia. by destruct s.
  - rewrite Hd, Z.add_comm, Z.mod_add by lia. by apply Z.mod_small.
  - rewrite Hb, Z.add_comm, Z.mod_add by lia. by apply Z.mod_small.
Qed.

(** The union: reading the bits of a double back gives the double. *)
Theorem bits_roundtrip (x : spec_float) : valid_binary 53 1024 x = true -> of_bits (bits_of x) = x.
Proof.
  intros Hv. destruct x as [s|s| |s m e]; [by destruct s|by destruct s|done|]. apply bounded_cases in Hv as (Hm & He & Hs).
  unfold bits_of. destruct (Z.ltb_spec (Z.pos m) (2 ^ 52)) as [Hl|Hl].
  - destruct (of_bits_parts s 0 (Z.pos m) ltac:(lia) ltac:(lia)) as (P1 & P2 & P3). rewrite Z.mul_0_l, Z.add_0_r in P1, P2, P3.
    unfold of_bits. cbv zeta. rewrite P1, P2, P3. cbn. by rewrite (Hs Hl).
  - destruct (of_bits_parts s (e + 1075) (Z.pos m - 2 ^ 52) ltac:(lia) ltac:(lia)) as (P1 & P2 & P3). rewrite <- Z.add_assoc in P1, P2, P3.
    unfold of_bits. cbv zeta. rewrite P1, P2, P3.
    rewrite (proj2 (Z.eqb_neq (e + 1075) 0)), (proj2 (Z.eqb_neq (e + 1075) 0x7ff)) by lia. f_equal; [|lia].
    replace (Z.pos m - 2 ^ 52 + 2 ^ 52) with (Z.pos m) by lia. done.
Qed.
Lemma bits_roundtrip_witness : of_bits (bits_of (I (-3))) = I (-3) /\ bits_of (I 1) = 0x3ff0000000000000.
Proof. split; [exact (bits_roundtrip (I (-3)) eq_refl)|vm_compute; reflexivity]. Defined.

(** [log] at the ends of its range: minus infinity at the zeros, NaN below, infinity and NaN pass
    through, and 0 at 1. *)
Theorem log_special (s : bool) (m : positive) (e : Z) :
  log (S754_zero s) = S754_infinity true /\ log (S754_infinity false) = S754_infinity false /\ log S754_nan = S754_nan /\
  (valid_binary 53 1024 (S754_finite true m e) = true -> log (S754_finite true m e) = S754_nan) /\ log (I 1) = I 0.
Proof.
  split; [by destruct s|]. split; [done|]. split; [done|]. split; [|done].
  intros Hv. apply bounded_cases in Hv as (Hm & He & Hs). unfold log. cbv zeta.
  assert (Hb : exists r, bits_of (S754_finite true m e) = 2 ^ 63 + r /\ 0 < r < 2 ^ 63).
  { unfold bits_of. cbn [Z.b2z]. eexists. split; [rewrite Z.mul_1_l; reflexivity|]. destruct (Z.ltb_spec (Z.pos m) (2 ^ 52)); lia. }
  destruct Hb as (r & -> & Hr).
  assert (Hh : Z.shiftr (high (2 ^ 63 + r)) 31 = 1).
  { unfold high. rewrite Z.shiftr_div_pow2, Z.div_div by lia. change (2 ^ 32 * 2 ^ 31) with (2 ^ 63).
    symmetry. apply (Z.div_unique_pos _ _ _ r); lia. }
  rewrite Hh. change (truthy 1) with true. rewrite orb_true_r.
  assert (Hz : (u64 (Z.shiftl (2 ^ 63 + r) 1) =? 0) = false).
  { apply Z.eqb_neq. unfold u64. rewrite Z.shiftl_mul_pow2 by lia. replace ((2 ^ 63 + r) * 2 ^ 1) with (2 * r + 1 * 2 ^ 64) by lia.
    rewrite Z.mod_add, Z.mod_small by lia. lia. }
  rewrite Hz. unfold sub. cbn [SFsub]. rewrite Z.sub_diag. done.
Qed.
Lemma log_special_witness : log (I (-1)) = S754_nan.
Proof.
  destruct (log_special true 4503599627370496 (-52)) as (_ & _ & _ & H & _). exact (H eq_refl).
Defined.

(** ** The iteration loops *)

(** Iterates [step] while the point is inside, at most [n] times: the count and the point. *)
Fixpoint escape (n : nat) (step : point -> point) (inside : point -> bool) (z : point) : nat * point :=
  match n with
  | O => (O, z)
  | S n' => if inside z then let '(k, z') := escape n' step inside (step z) in (S k, z') else (O, z)
  end.

(** The count is the first index at which the orbit is outside, or [n]. *)
Lemma escape_spec n step inside z k z' : escape n step inside z = (k, z') ->
  (k <= n)%nat /\ z' = repeat_n k step z /\ (forall j, (j < k)%nat -> inside (repeat_n j step z) = true) /\ ((k < n)%nat -> inside z' = false).
Proof.
  revert z k z'. induction n as [|n IH]; intros z k z' H; cbn in H.
  { injection H as <- <-. repeat split; try done; lia. }
  destruct (inside z) eqn:Hi; [|injection H as <- <-; repeat split; try done; lia].
  destruct (escape n step inside (step z)) as [k0 z0] eqn:E. injection H as <- <-. destruct (IH _ _ _ E) as (H1 & H2 & H3 & H4).
  split; [lia|]. split; [done|]. split; [|intros; apply H4; lia].
  intros [|j] Hj; [done|]. apply (H3 j). lia.
Qed.

Lemma count_next k : 0 <= k < 2 ^ 50 -> (I k + I 1)%D = I (k + 1).
Proof. intros. apply I_add; lia. Qed.

Lemma ship_loop_escape n c z k : (Z.of_nat n + k = max_iterations) -> 0 <= k ->
  ship_loop n c z (I k) =
    let '(j, z') := escape n (ship_step c) (fun z => SFleb (norm2 z) (I threshold)) z in Some (z', I (k + Z.of_nat j)).
Proof.
  revert z k. induction n as [|n IH]; intros z k Hn Hk; unfold max_iterations in *; cbn [ship_loop escape].
  - assert (L : SFltb (I k) (I max_iterations) = false)
      by (unfold max_iterations, I; rewrite (ltb_int binary64) by (done || cbn; lia); apply Z.ltb_ge; lia).
    rewrite L, andb_false_r. by rewrite Z.add_0_r.
  - assert (L : SFltb (I k) (I max_iterations) = true)
      by (unfold max_iterations, I; rewrite (ltb_int binary64) by (done || cbn; lia); apply Z.ltb_lt; lia).
    rewrite L, andb_true_r. destruct (SFleb (norm2 z) (I threshold)); [|by rewrite Z.add_0_r].
    rewrite count_next, IH by lia. destruct (escape _ _ _ _) as [j z']. do 2 f_equal. f_equal. lia.
Qed.

Lemma julia_loop_escape n c z k : (Z.of_nat n + k = ITTERATIONS) ->
  julia_loop n c z k =
    let '(j, z') := escape n (julia_step c) (fun z => SFleb (norm2 z) (I julia_threshold)) z in Some (z', k + Z.of_nat j).
Proof.
  revert z k. induction n as [|n IH]; intros z k Hn; unfold ITTERATIONS in *; cbn [julia_loop escape].
  - unfold ITTERATIONS. rewrite (proj2 (Z.ltb_ge _ _)) by lia. cbn. by rewrite Z.add_0_r.
  - unfold ITTERATIONS. rewrite (proj2 (Z.ltb_lt _ _)) by lia. cbn [andb]. destruct (SFleb (norm2 z) (I julia_threshold)); [|by rewrite Z.add_0_r].
    rewrite IH by lia. destruct (escape _ _ _ _) as [j z']. do 2 f_equal. lia.
Qed.

(** C37: Both iteration loops end after at most their maximal number of turns, for every point of the
    plane and in floating point: they return the first iterate outside of the threshold, or the last
    one, and its index.  The loop of mandelbrot.c counts in a [double], which is exact here. *)
Theorem iteration_loops (c z : point) :
  (exists n z', ship_loop (Z.to_nat max_iterations) c z (I 0) = Some (z', I (Z.of_nat n)) /\ (Z.of_nat n <= max_iterations) /\
     z' = repeat_n n (ship_step c) z /\
     (forall j, (j < n)%nat -> SFleb (norm2 (repeat_n j (ship_step c) z)) (I threshold) = true) /\
     (Z.of_nat n < max_iterations -> SFleb (norm2 z') (I threshold) = false)) /\
  (exists n z', julia_loop (Z.to_nat ITTERATIONS) c z 0 = Some (z', Z.of_nat n) /\ (Z.of_nat n <= ITTERATIONS) /\
     z' = repeat_n n (julia_step c) z /\
     (forall j, (j < n)%nat -> SFleb (norm2 (repeat_n j (julia_step c) z)) (I julia_threshold) = true) /\
     (Z.of_nat n < ITTERATIONS -> SFleb (norm2 z') (I julia_threshold) = false)).
Proof.
  split.
  - rewrite (ship_loop_escape (Z.to_nat max_iterations) c z 0) by (unfold max_iterations; lia).
    destruct (escape _ _ _ _) as [n z'] eqn:E. apply escape_spec in E as (H1 & H2 & H3 & H4). exists n, z'.
    split; [done|]. split; [unfold max_iterations in *; lia|]. split; [done|]. split; [exact H3|]. intros. apply H4. lia.
  - rewrite (julia_loop_escape (Z.to_nat ITTERATIONS) c z 0) by (unfold ITTERATIONS; lia).
    destruct (escape _ _ _ _) as [n z'] eqn:E. apply escape_spec in E as (H1 & H2 & H3 & H4). exists n, z'.
    split; [done|]. split; [unfold ITTERATIONS in *; lia|]. split; [done|]. split; [exact H3|]. intros. apply H4. lia.
Qed.

(** ** Pictures *)

Lemma draw_points_pokes l width colour fb g : (forall x y, (x, y) ∈ l -> colour x y = Some (g x y)) ->
  draw_points l width colour fb = pokes ((fun '(x, y) => (x + y * width, g x y)) <$> l) fb.
Proof.
  revert fb. induction l as [|[x y] l IH]; intros fb H; [done|]. rewrite fmap_cons. cbn [draw_points pokes].
  rewrite (H x y) by apply list_elem_of_here. cbn [mbind option_bind]. destruct (poke _ _ fb) as [fb'|]; [|done].
  cbn [mbind option_bind]. apply IH. intros. apply H. by apply list_elem_of_further.
Qed.

Lemma elem_of_rows_first width height x y : (x, y) ∈ rows_first width height <-> 0 <= x < width /\ 0 <= y < height.
Proof.
  unfold rows_first. rewrite list_elem_of_bind. split.
  - intros (y' & H & Hy). apply list_elem_of_fmap in H as (x' & E & Hx). injection E as -> ->. rewrite elem_of_seqZ in *. lia.
  - intros [Hx Hy]. exists y. split; [|by apply elem_of_seqZ]. apply list_elem_of_fmap. exists x. split; [done|by apply elem_of_seqZ].
Qed.

(** A picture: when every pixel has a colour, the frame is drawn without leaving the framebuffer, and
    each pixel has its own colour. *)
Theorem picture (width height : Z) (colour : Z -> Z -> option Z) (g : Z -> Z -> Z) (fb : framebuffer) :
  Z.of_nat (length fb) = width * height -> (forall x y, 0 <= x < width -> 0 <= y < height -> colour x y = Some (g x y)) ->
  exists fb', draw_points (rows_first width height) width colour fb = Some fb' /\ length fb' = length fb /\
    forall x y, 0 <= x < width -> 0 <= y < height -> fb' !! Z.to_nat (x + y * width) = Some (g x y).
Proof.
  intros Hl Hc. rewrite (draw_points_pokes _ _ _ _ g) by (intros x y H; apply elem_of_rows_first in H as [? ?]; by apply Hc).
  destruct (pokes_spec ((fun '(x, y) => (x + y * width, g x y)) <$> rows_first width height) fb) as (fb' & Hp & Hl' & _ & Hs).
  { apply Forall_fmap, Forall_forall. intros [x y] Hp. cbn. apply elem_of_rows_first in Hp as [Hx Hy]. rewrite Hl. by apply on_screen_index. }
  exists fb'. split; [done|]. split; [done|]. intros x y Hx Hy. apply Hs.
  - apply list_elem_of_fmap. exists (x, y). split; [done|by apply elem_of_rows_first].
  - intros w H. apply list_elem_of_fmap in H as ([x' y'] & E & Hin). apply elem_of_rows_first in Hin as [Hx' Hy']. injection E as E ->.
    by destruct (on_screen_inj width x y x' y') as [-> ->].
Qed.
Lemma picture_witness : exists fb', draw_points (rows_first 2 2) 2 (fun x y => Some (x + 10 * y)) (replicate 4 7) = Some fb' /\ fb' !! 3%nat = Some 11.
Proof.
  destruct (picture 2 2 (fun x y => Some (x + 10 * y)) (fun x y => x + 10 * y) (replicate 4 7) eq_refl ltac:(done)) as (fb' & H & _ & P).
  exists fb'. split; [exact H|exact (P 1 1 ltac:(lia) ltac:(lia))].
Defined.

(** Every key that is not ignored sets the step to a tenth of the zoom, so the step that 'r' restores
    is lost at once; 'c' goes back to the origin. *)
Theorem key_step (c : Z) (v v' : view) :
  key c v = Some v' ->
  sensitivity v' = (zoom v' / I 10)%D /\ (c = chr "r" -> zoom v' = ORIG_ZOOM /\ sensitivity v' <> ORIG_SENS) /\
  (c = chr "c" -> posx v' = I 0 /\ posy v' = I 0 /\ zoom v' = zoom v).
Proof.
  intros H. pose proof H as H'. unfold key in H'.
  assert (G : forall o, (x ← o; Some (mk_view (posx x) (posy x) (zoom x) (zoom x / I 10)%D)) = Some v' -> sensitivity v' = (zoom v' / I 10)%D).
  { intros [x|]; cbn; [|done]. by intros [= <-]. }
  split; [by eapply G, H'|]. clear G H'.
  assert (R : key (chr "r") v = Some (mk_view (posx v) (posy v) ORIG_ZOOM (ORIG_ZOOM / I 10)%D)) by reflexivity.
  assert (C : key (chr "c") v = Some (mk_view (I 0) (I 0) (zoom v) (zoom v / I 10)%D)) by reflexivity.
  split; intros ->.
  - rewrite R in H. apply (inj Some) in H. subst v'. split; [reflexivity|]. vm_compute. discriminate.
  - rewrite C in H. apply (inj Some) in H. subst v'. split; [reflexivity|split; reflexivity].
Qed.
Lemma key_step_witness : exists v', key (chr "r") first_view = Some v' /\ sensitivity v' <> ORIG_SENS.
Proof.
  destruct (key (chr "r") first_view) as [v'|] eqn:E; [|discriminate]. exists v'. split; [reflexivity|].
  destruct (key_step (chr "r") first_view v' E) as (_ & H & _). exact (proj2 (H eq_refl)).
Defined.

(** A point far outside escapes at once with a negative smooth count, whose green is below 0: the
    conversion to a byte is undefined. *)
Theorem far_point_undefined : ship_colour (literal binary64 (10 ^ 100) 0, I 0) = None /\ ship_colour (I (-1), I 1) = Some 9507.
Proof. split; vm_compute; reflexivity. Qed.
