(* ===== verification/Tga.v ===== *)
(** * The picture viewer (src/src/prog/img/src/img.c)

    [tga_parse] reads the bytes of a file and writes the pixels behind two words for the size.
    Outside of the file's bytes and of the allocated words an access is undefined: [None].  A result
    [Some None] is the pointer NULL.  [malloc] is an argument: the words it finds in the new block, or
    NULL. *)
From S2P Require Import Prelude Graphics.
Open Scope Z_scope.

Section Parse.
Context (alloc : Z -> option (list Z)) (ptr : list Z) (size : Z).

Definition rd (i : Z) : option Z := peek i ptr.

(** The header: [(ptr[13] << 8) + ptr[12]] and its kin. *)
Definition word_at (lo : Z) : option Z := a ← rd (lo + 1); b ← rd lo; Some (Z.shiftl a 8 + b).

(** The pixel at [j], with its own alpha when the entries have 32 bits. *)
Definition pixel_at (depth j : Z) : option Z :=
  a ← (if depth =? 32 then rd (j + 3) else Some 0xFF);
  r ← rd (j + 2); g ← rd (j + 1); b ← rd j;
  Some (u32 (Z.lor (Z.lor (Z.lor (Z.shiftl a 24) (Z.shiftl r 16)) (Z.shiftl g 8)) b)).
(** Case 2 has no alpha. *)
Definition pixel_rgb (j : Z) : option Z :=
  r ← rd (j + 2); g ← rd (j + 1); b ← rd j;
  Some (u32 (Z.lor (Z.lor (Z.shiftl r 16) (Z.shiftl g 8)) b)).

Section Image.
Context (w h o : Z).
Definition row (y : Z) : Z := (if o =? 0 then h - y - 1 else y) * w.

(** Case 1: one row, the next place being [i] and the next index [k]. *)
Fixpoint mapped_row (n : nat) (m k i : Z) (data : list Z) : option (Z * list Z) :=
  match n with
  | O => Some (i, data)
  | S n' =>
      d ← rd 7; c ← rd (m + k);
      p ← pixel_at d (c * Z.shiftr d 3 + 18);
      data ← poke (2 + i) p data; mapped_row n' m (k + 1) (i + 1) data
  end.
Fixpoint mapped_rows (ys : list Z) (m i : Z) (data : list Z) : option (list Z) :=
  match ys with [] => Some data | y :: ys' => '(i, data) ← mapped_row (Z.to_nat w) m (row y) i data; mapped_rows ys' m i data end.

(** Case 2. *)
Fixpoint plain_row (n : nat) (j i : Z) (data : list Z) : option (Z * list Z) :=
  match n with
  | O => Some (i, data)
  | S n' =>
      d ← rd 16; p ← pixel_rgb j; data ← poke (2 + i) p data; plain_row n' (j + Z.shiftr d 3) (i + 1) data
  end.
Fixpoint plain_rows (ys : list Z) (i : Z) (data : list Z) : option (list Z) :=
  match ys with
  | [] => Some data
  | y :: ys' => d ← rd 16; '(i, data) ← plain_row (Z.to_nat w) (row y * Z.shiftr d 3) i data; plain_rows ys' i data
  end.

(** Where the run-length decoders are: the next place, the rows begun, the words. *)
Record cursor := mk_cursor { cu_i : Z; cu_y : Z; cu_data : list Z }.

(** [if (!(i % w)) { i = ..; y++; } data[2 + i++] = p;]. *)
Definition store (p : Z) (c : cursor) : option cursor :=
  let '(i, y) := if Z.rem (cu_i c) w =? 0 then (row (cu_y c), cu_y c + 1) else (cu_i c, cu_y c) in
  data ← poke (2 + i) p (cu_data c); Some (mk_cursor (i + 1) y data).

(** [while (k--)] with the same pixel. *)
Fixpoint run (k : nat) (p : option Z) (c : cursor) : option cursor :=
  match k with O => Some c | S k' => p' ← p; c ← store p' c; run k' p c end.

(** Cases 9 and 10: the pixel a byte position names, and how far one pixel advances it. *)
Fixpoint raw (k : nat) (m step : Z) (at_ : Z -> option Z) (c : cursor) : option (Z * cursor) :=
  match k with O => Some (m, c) | S k' => p ← at_ m; c ← store p c; raw k' (m + step) step at_ c end.

(** [for (x = 0; x < w * h && m < size;)]; [fuel] bounds the packets, each of which adds to [x]. *)
Fixpoint packets (fuel : nat) (x m step : Z) (at_ : Z -> option Z) (c : cursor) : option cursor :=
  if (x <? w * h) && (m <? size) then
    match fuel with
    | O => None
    | S n =>
        k ← rd m;
        let m := m + 1 in
        if 127 <? k then
          let k := k - 127 in
          p ← at_ m; c ← run (Z.to_nat k) (Some p) c; packets n (x + k) (m + step) step at_ c
        else
          let k := k + 1 in
          '(m, c) ← raw (Z.to_nat k) m step at_ c; packets n (x + k) m step at_ c
    end
  else Some c.

Definition mapped_pixel (m : Z) : option Z := d ← rd 7; c ← rd m; pixel_at d (c * Z.shiftr d 3 + 18).
Definition true_pixel (m : Z) : option Z := d ← rd 16; pixel_at d m.
End Image.

(** The checks of the cases. *)
Definition mapped_refused : option bool :=
  a ← rd 6; b ← rd 4; c ← rd 3; d ← rd 7; Some (truthy a || truthy b || truthy c || negb ((d =? 24) || (d =? 32))).
Definition true_refused : option bool :=
  a ← rd 5; b ← rd 6; c ← rd 1; d ← rd 16; Some (truthy a || truthy b || truthy c || negb ((d =? 24) || (d =? 32))).

Definition guarded (refused : option bool) (body : option (list Z)) : option (option (list Z)) :=
  r ← refused; if (r : bool) then Some None else data ← body; Some (Some data).

Definition tga_parse : option (option (list Z)) :=
  w ← word_at 12; h ← word_at 14; o ← word_at 10;
  cm ← rd 1; d7 ← rd 7; d5 ← rd 5;
  let m := (if truthy cm then Z.shiftr d7 3 * d5 else 0) + 18 in
  if (w <? 1) || (h <? 1) then Some None
  else
    match alloc (u64 (s32 (w * h + 2) * 4)) with
    | None => Some None
    | Some data =>
        kind ← rd 2;
        d16 ← rd 16;
        let fuel := Z.to_nat (w * h) in
        res ← (if kind =? 1 then guarded mapped_refused (mapped_rows w h o (seqZ 0 h) m 0 data)
               else if kind =? 2 then guarded true_refused (plain_rows w h o (seqZ 0 h) 0 data)
               else if kind =? 9 then guarded mapped_refused
                 (cu_data <$> packets w h o fuel 0 m 1 mapped_pixel (mk_cursor 0 0 data))
               else if kind =? 10 then guarded true_refused
                 (cu_data <$> packets w h o fuel 0 m (Z.shiftr d16 3) true_pixel (mk_cursor 0 0 data))
               else Some (Some data));
        match res with
        | None => Some None
        | Some data => data ← poke 0 w data; data ← poke 1 h data; Some (Some data)
        end
    end.
End Parse.

(** [main]: the picture on the screen, its first row at the bottom. *)
Definition show (width : Z) (img : list Z) (fb : framebuffer) : option framebuffer :=
  w ← peek 0 img; h ← peek 1 img;
  let put := fix put (l : list (Z * Z)) (fb : framebuffer) : option framebuffer :=
    match l with
    | [] => Some fb
    | (i, j) :: l' => p ← peek (j * w + i + 2) img; fb ← poke ((h - 1 - j) * width + i) p fb; put l' fb
    end in
  put (columns_first w h) fb.

(** ** Run-length encoded pictures *)

(** Blue, green and red; a run of one pixel or a stretch of different ones. *)
Abbreviation colour := (Z * Z * Z)%type.
Inductive packet := Run (n : nat) (p : colour) | Raw (ps : list colour).

Definition colour_bytes (p : colour) : list Z := let '(b, g, r) := p in [b; g; r].
Definition encode (k : packet) : list Z :=
  match k with
  | Run n p => (127 + Z.of_nat n) :: colour_bytes p
  | Raw ps => (Z.of_nat (length ps) - 1) :: (ps ≫= colour_bytes)
  end.
Definition colour_value (p : colour) : Z :=
  let '(b, g, r) := p in u32 (Z.lor (Z.lor (Z.lor (Z.shiftl 0xFF 24) (Z.shiftl r 16)) (Z.shiftl g 8)) b).
Definition colours (k : packet) : list colour := match k with Run n p => replicate n p | Raw ps => ps end.
Definition packet_ok (k : packet) : Prop := (1 <= length (colours k) <= 128)%nat.

(** A header of type 10 with 24 bits per pixel. *)
Definition header (w h o : Z) : list Z :=
  [0; 0; 10; 0; 0; 0; 0; 0; 0; 0; o mod 256; o / 256; w mod 256; w / 256; h mod 256; h / 256; 24; 0].

(** The place of the [t]-th pixel of the file: the file has the rows from the bottom up unless [o] says
    otherwise. *)
Definition place (w h o t : Z) : Z := (if o =? 0 then h - 1 - t / w else t / w) * w + t mod w.

Lemma place_row w h o t : place w h o t = row w h o (t / w) + t mod w.
Proof. unfold place, row. by replace (h - 1 - t / w) with (h - t / w - 1) by lia. Qed.

Section Stream.
Context (ptr : list Z).

Definition reads (m : Z) (bs : list Z) : Prop := forall j b, bs !! j = Some b -> rd ptr (m + Z.of_nat j) = Some b.

Lemma reads_cons m b bs : reads m (b :: bs) -> rd ptr m = Some b /\ reads (m + 1) bs.
Proof.
  intros H. split; [rewrite <- (Z.add_0_r m); by apply (H 0%nat)|]. intros j c Hj.
  replace (m + 1 + Z.of_nat j) with (m + Z.of_nat (S j)) by lia. by apply H.
Qed.
Lemma reads_app m a b : reads m (a ++ b) -> reads m a /\ reads (m + Z.of_nat (length a)) b.
Proof.
  intros H. split; intros j c Hj.
  - apply H. by apply lookup_app_l_Some.
  - replace (m + Z.of_nat (length a) + Z.of_nat j) with (m + Z.of_nat (length a + j)) by lia. apply H.
    rewrite lookup_app_r by lia. by replace (length a + j - length a)%nat with j by lia.
Qed.
Lemma reads_self : reads 0 ptr.
Proof. intros j b Hj. unfold rd, peek. rewrite (proj2 (Z.leb_le _ _)) by lia. by replace (Z.to_nat (0 + Z.of_nat j)) with j by lia. Qed.

Hypothesis depth_24 : rd ptr 16 = Some 24.

Lemma true_pixel_reads m p : reads m (colour_bytes p) -> true_pixel ptr m = Some (colour_value p).
Proof.
  destruct p as [[b g] r]. intros H. apply reads_cons in H as [Hb H]. apply reads_cons in H as [Hg H]. apply reads_cons in H as [Hr _].
  unfold true_pixel, pixel_at. rewrite depth_24. cbn. rewrite Hb, Hg. replace (m + 1 + 1) with (m + 2) in Hr by lia. by rewrite Hr.
Qed.

Section Image.
Context (w h o size : Z).
Hypothesis w_pos : 0 < w.
Hypothesis h_pos : 0 < h.

(** The cursor when [t] pixels have been stored. *)
Definition cursor_at (t : Z) (data : list Z) : cursor :=
  if t =? 0 then mk_cursor 0 0 data else mk_cursor (place w h o (t - 1) + 1) ((t - 1) / w + 1) data.

Fixpoint stores (t : Z) (ps : list Z) : list (Z * Z) :=
  match ps with [] => [] | p :: ps' => (2 + place w h o t, p) :: stores (t + 1) ps' end.

Lemma stores_app t ps qs : stores t (ps ++ qs) = stores t ps ++ stores (t + Z.of_nat (length ps)) qs.
Proof.
  revert t. induction ps as [|p ps IH]; intros t; cbn; [by rewrite Z.add_0_r|]. rewrite IH. do 3 f_equal. lia.
Qed.
Lemma pokes_app l l' d : pokes (l ++ l') d = pokes l d ≫= pokes l'.
Proof.
  revert d. induction l as [|[i v] l IH]; intros d; [done|]. cbn. destruct (poke i v d) as [d'|]; [|done]. cbn. apply IH.
Qed.

Lemma store_step t p data : 0 <= t -> store w h o p (cursor_at t data) = poke (2 + place w h o t) p data ≫= fun d => Some (cursor_at (t + 1) d).
Proof.
  intros Ht. assert (N : cursor_at (t + 1) = fun d => mk_cursor (place w h o t + 1) (t / w + 1) d).
  { unfold cursor_at. rewrite (proj2 (Z.eqb_neq (t + 1) 0)) by lia. by replace (t + 1 - 1) with t by lia. }
  rewrite N. unfold store, cursor_at. destruct (Z.eqb_spec t 0) as [->|Hne]; cbn [cu_i cu_y cu_data].
  { rewrite Z.rem_0_l by lia. cbn. rewrite place_row. rewrite Z.div_0_l, Z.mod_0_l, Z.add_0_r by lia. done. }
  set (i := place w h o (t - 1) + 1).
  assert (Hi : exists q, i = q * w + ((t - 1) mod w + 1)) by (unfold i, place; eexists; rewrite <- Z.add_assoc; reflexivity).
  destruct Hi as [q Hi]. pose proof (Z.mod_pos_bound (t - 1) w w_pos) as B. pose proof (Z.div_mod (t - 1) w ltac:(lia)) as DM.
  destruct (Z.eq_dec ((t - 1) mod w + 1) w) as [E|E].
  - assert (D : t / w = (t - 1) / w + 1 /\ t mod w = 0).
    { assert (t = ((t - 1) / w + 1) * w) by lia. rewrite H at 1 3. rewrite Z.div_mul, Z.mod_mul by lia. done. }
    destruct D as [D1 D2].
    assert (R : Z.rem i w = 0) by (rewrite Hi, E; replace (q * w + w) with ((q + 1) * w) by lia; apply Z.rem_mul; lia).
    rewrite R. cbn. rewrite place_row, D1, D2, Z.add_0_r. done.
  - assert (D : t / w = (t - 1) / w /\ t mod w = (t - 1) mod w + 1).
    { split; [symmetry; apply (Z.div_unique_pos _ _ _ ((t - 1) mod w + 1))|symmetry; apply (Z.mod_unique_pos _ _ ((t - 1) / w))]; lia. }
    destruct D as [D1 D2].
    assert (R : Z.rem i w <> 0).
    { intros R. apply Z.rem_divide in R as [k Hk]; [|lia]. assert (X : 0 < w * (k - q) < w) by lia. destruct (Z.le_gt_cases (k - q) 0); [|pose proof (Z.mul_le_mono_nonneg_l 1 (k - q) w ltac:(lia) ltac:(lia))]; lia || nia. }
    rewrite (proj2 (Z.eqb_neq _ _)) by done.
    assert (P : i = place w h o t) by (unfold i, place; rewrite D1, D2; lia). rewrite P, D1. done.
Qed.

Lemma run_stores k p t data : 0 <= t ->
  run w h o k (Some p) (cursor_at t data) = pokes (stores t (replicate k p)) data ≫= fun d => Some (cursor_at (t + Z.of_nat k) d).
Proof.
  revert t data. induction k as [|k IH]; intros t data Ht; cbn [run replicate stores pokes]; [by rewrite Z.add_0_r|].
  cbn [mbind option_bind]. rewrite store_step by done. destruct (poke _ p data) as [d|]; [|done]. cbn [mbind option_bind].
  rewrite IH by lia. replace (t + 1 + Z.of_nat k) with (t + Z.of_nat (S k)) by lia. done.
Qed.

Lemma raw_stores ps m t data : 0 <= t -> reads m (ps ≫= colour_bytes) ->
  raw w h o (length ps) m 3 (true_pixel ptr) (cursor_at t data) =
  pokes (stores t (colour_value <$> ps)) data ≫= fun d => Some (m + 3 * Z.of_nat (length ps), cursor_at (t + Z.of_nat (length ps)) d).
Proof.
  revert m t data. induction ps as [|p ps IH]; intros m t data Ht Hr; cbn [length raw fmap list_fmap stores pokes].
  { cbn. by rewrite !Z.add_0_r. }
  rewrite bind_cons in Hr. apply reads_app in Hr as [Hp Hr]. rewrite (true_pixel_reads m p Hp). cbn [mbind option_bind].
  rewrite store_step by done. destruct (poke _ (colour_value p) data) as [d|]; [|done]. cbn [mbind option_bind].
  replace (Z.of_nat (length (colour_bytes p))) with 3 in Hr by (by destruct p as [[? ?] ?]).
  rewrite IH by (lia || done).
  replace (m + 3 + 3 * Z.of_nat (length ps)) with (m + 3 * Z.of_nat (S (length ps))) by lia.
  replace (t + 1 + Z.of_nat (length ps)) with (t + Z.of_nat (S (length ps))) by lia. done.
Qed.
Lemma packets_stores ks fuel m t data : 0 <= t -> Forall packet_ok ks -> reads m (ks ≫= encode) ->
  t + Z.of_nat (length (ks ≫= colours)) = w * h -> m + Z.of_nat (length (ks ≫= encode)) <= size -> (length ks <= fuel)%nat ->
  packets ptr size w h o fuel t m 3 (true_pixel ptr) (cursor_at t data) =
  pokes (stores t (colour_value <$> (ks ≫= colours))) data ≫= fun d => Some (cursor_at (w * h) d).
Proof.
  revert fuel m t data. induction ks as [|k ks IH]; intros fuel m t data Ht HF Hr Hn Hs Hf.
  { cbn in Hn. rewrite Z.add_0_r in Hn. subst t. destruct fuel; cbn [packets]; rewrite Z.ltb_irrefl; done. }
  apply Forall_cons in HF as [Hk HF]. rewrite bind_cons in Hr. rewrite bind_cons, length_app in Hn. rewrite bind_cons, length_app in Hs.
  apply reads_app in Hr as [Hk' Hr]. unfold packet_ok in Hk. destruct fuel as [|fuel]; [cbn in Hf; lia|].
  assert (L : (1 <= length (encode k))%nat) by (destruct k; cbn; lia).
  cbn [packets]. rewrite (proj2 (Z.ltb_lt t (w * h))), (proj2 (Z.ltb_lt m size)) by lia. cbn [andb].
  rewrite bind_cons, fmap_app, (stores_app t), pokes_app.
  destruct k as [n p|ps]; cbn [encode colours] in *.
  - apply reads_cons in Hk' as [H0 Hp]. rewrite H0. cbn [mbind option_bind]. rewrite length_replicate in *.
    rewrite (proj2 (Z.ltb_lt 127 _)) by lia. rewrite (true_pixel_reads (m + 1) p Hp). cbn [mbind option_bind].
    replace (127 + Z.of_nat n - 127) with (Z.of_nat n) by lia. rewrite Nat2Z.id, run_stores by done. rewrite fmap_replicate.
    destruct (pokes (stores t _) data) as [d|]; [|done]. cbn [mbind option_bind]. rewrite length_replicate.
    assert (L3 : length (colour_bytes p) = 3%nat) by (by destruct p as [[? ?] ?]). cbn [length] in *. rewrite L3 in *.
    replace (m + 1 + 3) with (m + Z.of_nat 4) by lia. apply IH; cbn [length] in Hf; try done; lia.
  - apply reads_cons in Hk' as [H0 Hp]. rewrite H0. cbn [mbind option_bind].
    rewrite (proj2 (Z.ltb_ge 127 _)) by lia. replace (Z.of_nat (length ps) - 1 + 1) with (Z.of_nat (length ps)) by lia.
    rewrite Nat2Z.id, raw_stores by done. destruct (pokes (stores t _) data) as [d|]; [|done]. cbn [mbind option_bind]. rewrite length_fmap.
    assert (L3 : length (ps ≫= colour_bytes) = (3 * length ps)%nat).
    { clear. induction ps as [|[[b g] r] ps IH]; [done|]. rewrite bind_cons, length_app, IH. cbn. lia. }
    cbn [length] in *. rewrite L3 in *.
    replace (m + 1 + 3 * Z.of_nat (length ps)) with (m + Z.of_nat (S (3 * length ps))) by lia. apply IH; cbn [length] in Hf; try done; lia.
Qed.

Lemma place_range t : 0 <= t < w * h -> 0 <= place w h o t < w * h.
Proof.
  intros Ht. unfold place. pose proof (Z.mod_pos_bound t w w_pos). pose proof (Z.div_pos t w ltac:(lia) w_pos).
  assert (t / w < h) by (apply Z.div_lt_upper_bound; lia). destruct (o =? 0); nia.
Qed.
Lemma place_inj t u : place w h o t = place w h o u -> t = u.
Proof.
  unfold place. intros E. pose proof (Z.mod_pos_bound t w w_pos). pose proof (Z.mod_pos_bound u w w_pos).
  pose proof (Z.div_mod t w ltac:(lia)). pose proof (Z.div_mod u w ltac:(lia)).
  assert (t / w = u / w) by (destruct (o =? 0); nia). assert (t mod w = u mod w) by (destruct (o =? 0); nia). congruence.
Qed.

Lemma elem_of_stores t ps i v : (i, v) ∈ stores t ps <-> exists j, ps !! j = Some v /\ i = 2 + place w h o (t + Z.of_nat j).
Proof.
  revert t. induction ps as [|p ps IH]; intros t; cbn.
  - split; [intros H; by apply elem_of_nil in H|intros (j & H & _); done].
  - rewrite elem_of_cons, IH. split.
    + intros [[= -> ->]|(j & Hj & ->)]; [exists 0%nat; by rewrite Z.add_0_r|]. exists (S j). split; [done|]. do 2 f_equal. lia.
    + intros ([|j] & Hj & ->); [left; injection Hj as ->; by rewrite Z.add_0_r|right]. exists j. split; [done|]. do 2 f_equal. lia.
Qed.
End Image.
End Stream.

Lemma header_reads w h o rest ptr : ptr = header w h o ++ rest -> 0 <= w < 2 ^ 16 -> 0 <= h < 2 ^ 16 -> 0 <= o < 2 ^ 16 ->
  word_at ptr 12 = Some w /\ word_at ptr 14 = Some h /\ word_at ptr 10 = Some o /\ rd ptr 1 = Some 0 /\ rd ptr 2 = Some 10 /\
  rd ptr 5 = Some 0 /\ rd ptr 6 = Some 0 /\ rd ptr 7 = Some 0 /\ rd ptr 16 = Some 24.
Proof.
  intros -> Hw Hh Ho.
  assert (W : forall x, 0 <= x < 2 ^ 16 -> Z.shiftl (x / 256) 8 + x mod 256 = x).
  { intros x Hx. rewrite Z.shiftl_mul_pow2 by lia. change (2 ^ 8) with 256. pose proof (Z.div_mod x 256). lia. }
  assert (P : forall i b, header w h o !! Z.to_nat i = Some b -> 0 <= i -> rd (header w h o ++ rest) i = Some b).
  { intros i b Hi H0. pose proof (reads_self (header w h o ++ rest)) as R. apply reads_app in R as [R _]. specialize (R _ _ Hi).
    by replace (0 + Z.of_nat (Z.to_nat i)) with i in R by lia. }
  unfold word_at. change (12 + 1) with 13. change (14 + 1) with 15. change (10 + 1) with 11.
  rewrite (P 13 _ eq_refl ltac:(lia)), (P 12 _ eq_refl ltac:(lia)), (P 15 _ eq_refl ltac:(lia)), (P 14 _ eq_refl ltac:(lia)), (P 11 _ eq_refl ltac:(lia)), (P 10 _ eq_refl ltac:(lia)).
  cbn [mbind option_bind]. rewrite !W by done.
  split_and!; reflexivity.
Qed.

(** C35: A picture that is run-length encoded in true colour with 24 bits per pixel is decoded
    correctly, whichever way up: for every way to cut its pixels into packets of 1 to 128 pixels,
    [tga_parse] returns a block with the width, the height and every pixel of the file in its place,
    and reads and writes nothing outside of the file and of the block. *)
Theorem tga_rle_roundtrip (alloc : Z -> option (list Z)) (w h o : Z) (ks : list packet) (block rest : list Z) :
  0 < w < 2 ^ 16 -> 0 < h < 2 ^ 16 -> 0 <= o < 2 ^ 16 -> w * h + 2 < 2 ^ 31 -> Forall packet_ok ks ->
  Z.of_nat (length (ks ≫= colours)) = w * h ->
  alloc (4 * (w * h + 2)) = Some block -> Z.of_nat (length block) = w * h + 2 ->
  let file := header w h o ++ (ks ≫= encode) ++ rest in
  exists data, tga_parse alloc file (Z.of_nat (length file)) = Some (Some data) /\ length data = length block /\
    data !! 0%nat = Some w /\ data !! 1%nat = Some h /\
    forall t p, (ks ≫= colours) !! t = Some p -> data !! Z.to_nat (2 + place w h o (Z.of_nat t)) = Some (colour_value p).
Proof.
  intros Hw Hh Ho Hs HF Hn Ha Hb file.
  destruct (header_reads w h o ((ks ≫= encode) ++ rest) file eq_refl) as (E12 & E14 & E10 & E1 & E2 & E5 & E6 & E7 & E16); [lia..|].
  assert (Hr : reads file 18 (ks ≫= encode)).
  { pose proof (reads_self file) as R. unfold file in R at 2. apply reads_app in R as [_ R]. by apply reads_app in R as [R _]. }
  assert (Hsz : 18 + Z.of_nat (length (ks ≫= encode)) <= Z.of_nat (length file)) by (unfold file; rewrite !length_app; cbn; lia).
  assert (Hfuel : (length ks <= Z.to_nat (w * h))%nat).
  { assert (length ks <= length (ks ≫= colours))%nat; [|lia]. clear - HF. induction HF as [|k ks Hk _ IH]; [done|].
    rewrite bind_cons, length_app. unfold packet_ok in Hk. cbn [length]. lia. }
  pose proof (packets_stores file E16 w h o (Z.of_nat (length file)) ltac:(lia) ks _ 18 0 block ltac:(lia) HF Hr Hn Hsz Hfuel) as HP.
  destruct (pokes_spec (stores w h o 0 (colour_value <$> (ks ≫= colours))) block) as (d & Hd & Ld & _ & Hv).
  { apply Forall_forall. intros [i v] Hi. apply elem_of_stores in Hi as (j & Hj & ->). apply lookup_lt_Some in Hj. rewrite length_fmap in Hj.
    pose proof (place_range w h o ltac:(lia) (0 + Z.of_nat j) ltac:(lia)). lia. }
  rewrite Hd in HP. cbn [mbind option_bind] in HP. change (cursor_at w h o 0 block) with (mk_cursor 0 0 block) in HP.
  unfold tga_parse. rewrite E12, E14, E10, E1, E7, E5. cbn [mbind option_bind]. change (truthy 0) with false. cbv iota.
  rewrite (proj2 (Z.ltb_ge w 1)), (proj2 (Z.ltb_ge h 1)) by lia. cbn [orb].
  rewrite s32_small by nia. rewrite u64_small by nia. replace ((w * h + 2) * 4) with (4 * (w * h + 2)) by lia. rewrite Ha, E2, E16.
  cbn [mbind option_bind Z.eqb Pos.eqb]. unfold true_refused. rewrite E5, E6, E1, E16. cbn [mbind option_bind].
  change (Z.shiftr 24 3) with 3. change (0 + 18) with 18. cbn [truthy Z.eqb negb orb Pos.eqb guarded mbind option_bind].
  rewrite HP. cbn [fmap option_fmap option_map cu_data mbind option_bind].
  assert (W : cu_data (cursor_at w h o (w * h) d) = d) by (unfold cursor_at; by destruct (w * h =? 0)). rewrite W.
  rewrite poke_some by nia. cbn [mbind option_bind]. rewrite poke_some by (rewrite length_insert; nia). cbn [mbind option_bind].
  eexists. split; [reflexivity|]. rewrite !length_insert. split; [done|].
  assert (Ln : (2 <= length d)%nat) by nia.
  split; [rewrite list_lookup_insert_ne by lia; apply list_lookup_insert_eq; lia|].
  split; [apply list_lookup_insert_eq; rewrite length_insert; lia|].
  intros t p Ht. pose proof (lookup_lt_Some _ _ _ Ht) as Htl.
  pose proof (place_range w h o ltac:(lia) (Z.of_nat t) ltac:(lia)) as Hpl.
  rewrite !list_lookup_insert_ne by lia. apply Hv.
  - apply elem_of_stores. exists t. split; [by rewrite list_lookup_fmap, Ht|done].
  - intros v Hvv. apply elem_of_stores in Hvv as (j & Hj & E). assert (j = t) as -> by
      (assert (place w h o (Z.of_nat t) = place w h o (0 + Z.of_nat j)) as E' by lia; apply place_inj in E'; lia).
    rewrite list_lookup_fmap, Ht in Hj. by injection Hj.
Qed.

(** Two rows of three pixels, bottom row first. *)
Definition demo_packets : list packet := [Run 4 (1, 2, 3); Raw [(4, 5, 6); (7, 8, 9)]].
Definition demo_alloc (n : Z) : option (list Z) := Some (replicate (Z.to_nat (n / 4)) 0).

Lemma tga_rle_roundtrip_witness : exists data,
  tga_parse demo_alloc (header 3 2 0 ++ (demo_packets ≫= encode) ++ []) 29 = Some (Some data) /\ data !! 0%nat = Some 3 /\
  data !! 5%nat = Some (colour_value (1, 2, 3)) /\ data !! 4%nat = Some (colour_value (7, 8, 9)).
Proof.
  destruct (tga_rle_roundtrip demo_alloc 3 2 0 demo_packets (replicate 8 0) []) as (data & Hp & _ & H0 & _ & Ht);
    [lia|lia|lia|lia|repeat constructor|reflexivity|reflexivity|reflexivity|].
  exists data. split; [exact Hp|]. split; [exact H0|]. split; [exact (Ht 0%nat _ eq_refl)|exact (Ht 5%nat _ eq_refl)].
Defined.

(** An uncompressed picture (the kind the program shows) is read from the start of the file instead of
    from behind its header: the first pixel of the last row is the first three bytes of the header. *)
Definition plain_file : list Z := [0; 0; 2; 0; 0; 0; 0; 0; 0; 0; 0; 0; 1; 0; 1; 0; 24; 0; 10; 20; 30].
Theorem plain_picture_shifted :
  tga_parse demo_alloc plain_file 21 = Some (Some [1; 1; 0x020000]) /\ pixel_rgb plain_file 18 = Some 0x1e140a.
Proof. split; vm_compute; reflexivity. Qed.

(** A run that is longer than what is left of the picture stores outside of the block, and a file that
    ends inside a packet is read past its end; a picture of a kind the switch does not know is returned
    as whatever the block held. *)
Theorem tga_unsafe :
  tga_parse demo_alloc (header 1 1 1 ++ [129; 1; 2; 3]) 22 = None /\
  tga_parse demo_alloc (header 1 1 1 ++ [128; 1]) 20 = None /\
  tga_parse demo_alloc ([0; 0; 3] ++ drop 3 plain_file) 21 = Some (Some [1; 1; 0]).
Proof. split_and!; vm_compute; reflexivity. Qed.
